(* ===== verification/_CoqProject ===== *)
-Q . S2P
Prelude.v
KvStore.v
GoStrings.v
GoText.v
GoFloat.v
ClusterTypes.v
ClusterValidation.v
ClusterState.v
ClusterManager.v
ClusterSafety.v
ClusterTheorems.v
EventRing.v
Alarm.v
Listeners.v
AuditLog.v
Authorizer.v
Authenticator.v
CasClient.v
CasUrl.v
RestApi.v
UserManager.v
KubeApi.v
ResourceQuota.v
LimitRange.v
Namespace.v
UserQuota.v
Kinds.v
QuotaExamples.v
GlobalDns.v
ConfigMap.v
UdpIngress.v
Ingress.v
Secret.v
PersistentVolume.v
PodTemplate.v
Workload.v
Service.v
Deployment.v
DaemonSet.v
Job.v
Pod.v
Node.v
VolumeClaim.v
StatefulSet.v
Autoscaler.v
StorageTypes.v
StorageCluster.v
NetStorage.v
Storage.v
StorageLaws.v
Threshold.v
WorkFlow.v
WorkFlowTask.v
WorkFlowLaws.v
FluentBit.v
FluentBitLaws.v
Chart.v
Application.v
SystemApp.v
ApplicationLaws.v
Usage.v
ClusterHandler.v
Streams.v
WorkloadCluster.v
WorkloadExamples.v
AutoscalerExamples.v
StatefulSetExamples.v
StorageExamples.v
WorkFlowExamples.v
FluentBitExamples.v
ApplicationExamples.v
UsageExamples.v
StreamsExamples.v
Tap.v
TapExamples.v
ChartSync.v
ChartSyncExamples.v
AgentHandlers.v
Consoles.v
StartUp.v
