(* ===== verification/Prelude.v ===== *)
(** * SingleCloud: a verification development

    SingleCloud is a server that manages Kubernetes clusters: it creates and destroys
    them with the library zke, keeps users with their projects and passwords, hands out
    namespaces with quotas, and keeps alarms, events and an audit log.  This library
    models its core as executable definitions and proves what makes each part correct.
    The text of every error is a constructor; everything else follows the Go code
    statement by statement, the errors of every call included.

    ** Parts and files

    - Prelude: results, the state and error monad in which the Go functions are written
      ([M S E A]: a write made before an error is returned stays made), its laws and
      tactics, 64-bit arithmetic.
    - KvStore: the tables of kvzoo as a class [KvTable] with the documented behaviour of
      transactions as [KvLaws] (a failing call changes nothing, a commit that fails is a
      rollback); JSON as a class with a round-trip law; the relation [mirrors] between a
      map in memory and its table; a table in memory with injected faults, for examples.
    - GoStrings, GoText: the functions of strconv, strings, net and base64 that the program
      calls.
    - ClusterTypes, ClusterValidation, ClusterState, ClusterManager (pkg/zke and
      pkg/types/cluster.go): the configuration of a cluster and its translation, the
      validators, the table of cluster states, and the manager with its state machine.
      ClusterManager models a manager as a [World]: a heap of clusters (a *Cluster is a
      location, shared by the list and the workers), the list, the canceled contexts,
      the table, the published events, and the running workers as data.  An API call is
      one step; a worker takes its body and the event that ends it as separate steps,
      and the entry that DeleteCompleted leaves to delete as a further one, so that
      every call of a user may come in between.  ClusterSafety defines the steps, names
      the step by which a run may go wrong ([mishap]) and proves the invariant up to it;
      ClusterTheorems holds the theorems, on every run, and the runs that show each
      mishap to be a real defect.
    - EventRing (pkg/k8seventwatcher, pkg/zke/zkelog): the ring buffers of events and of
      log lines, and the rounds of their listeners.  Listeners: the goroutine of a listener
      as steps between those that add entries and the reader, with its waits, wake-ups and
      stops; its Module AlarmFeeds: the two goroutines of a listener of alarms.
    - Alarm (pkg/alarm): the alarm cache, its table, its listeners and its sources.
    - AuditLog (pkg/auditlog): the bounded log, what is recorded and who reads it.
    - Authorizer, Authenticator (pkg/authorization, pkg/authentication): projects and
      permissions; tokens, sessions, passwords and the middleware.  CasClient
      (pkg/authentication/cas): tickets and sessions of a central login.  CasUrl: the
      queries of net/url, and the addresses that the client makes of them.
    - RestApi, UserManager (pkg/handler/user_manager.go): accounts.
    - KubeApi: the Kubernetes client as a class [KubeKind] per kind of object, with laws;
      a cluster changes only by the calls made on it.  Frames say that the calls on one
      kind leave another alone.  A cluster in memory with faults, for examples.
    - ResourceQuota, LimitRange, Namespace, UserQuota (pkg/handler): quotas, limits,
      namespaces, the permission check of every request, and the requests of users for
      namespaces, whose transaction, cluster calls, rollback and projects are one
      operation.  QuotaExamples: concrete runs.  Kinds (pkg/types, app.go): the kinds, what
      they are below, and what the permission check decides for each.
    - GlobalDns (pkg/globaldns): the syncer of the records of every cluster, a step per
      event.
    - ConfigMap, UdpIngress, Ingress, Secret, Service (pkg/handler): configuration,
      ingresses and services.
    - PodTemplate (podtemplate.go and k8sutil.go): how a workload becomes the
      specification of its pods and the claims it needs, and back.  Workload: what the
      kinds of workloads share.  Deployment, DaemonSet, Job, Pod, StatefulSet: the
      handlers of the kinds, their histories and rollbacks.  Autoscaler (hpa_manager.go):
      autoscalers with the rules of the Prometheus adapter, and the event that a workload
      is gone.
    - PersistentVolume, VolumeClaim (pv_manager.go, pvc_manager.go,
      storageclass_manager.go): volumes, claims and their use.
    - GoFloat: numbers of the type float64 as far as they are shown.  Node
      (node_manager.go): nodes and the actions on them.
    - StorageTypes, StorageCluster, NetStorage, Storage (storage_manage.go, lvm.go,
      cephfs.go, iscsi.go, nfs.go, blockdevice_manager.go): a kind of storage is a record
      [StorageHandle] of operations with the laws [HandleLaws]; the manager is proved
      against them, and StorageLaws proves them of the four kinds.
    - Threshold (threshold_manager.go): thresholds in memory, in a table and in the clusters.
    - WorkFlow, WorkFlowTask, WorkFlowLaws (workflow_manager.go, workflow_util.go,
      workflowtask_manager.go): workflows as the objects of Tekton that stand for them, and
      the tasks they run.
    - FluentBit, FluentBitLaws (fluentbitconfig_manager.go): which logs of which workload
      are collected, as edits of the files of fluent-bit.
    - Chart, ChartSync (pkg/charts, chart_manager.go): charts on a tree of files, the
      settings they allow, and the round that loads them from a registry.  Application,
      SystemApp, ApplicationLaws (application_manager.go, monitor_manager.go, efk.go,
      registry_manager.go): applications made of charts, of users and of the system.
    - Usage, ClusterHandler (pkg/handler/cluster_manager.go, namespace_manager.go): what
      clusters and namespaces use, and the handlers of clusters on the cluster manager.
    - Streams (pod_log.go, workflowtask_log.go, zkelog/service.go), Tap (tap.go), Consoles
      (alarm and event sockets, mails, shells, kubeconfigs, audit log), AgentHandlers
      (pkg/clusteragent and the handlers that pass requests on): what is sent over sockets
      and tunnels, up to the call that sends it.
    - StartUp (config, pkg/db, pkg/eventbus): the configuration, the version of the
      database, the certificates, the topics of events.
    - WorkloadCluster and the files whose names end in Examples: clusters in memory, the
      instances of the theorems, and the runs that show where the program differs from what
      it says.

    ** What the theorems show

    - The cluster manager: in every run either one of the mishaps listed in ClusterSafety
      happened, each of which is a defect shown by a run, or no step reached a nil pointer
      or a closed channel, a cluster has at most one worker and exactly one while it is
      being created or updated, and names are unique.  A cancel ends the work it cancels
      while its worker is in zke, and every API call does what it promises on each branch.
    - Validation: the validators accept exactly the well-formed configurations, and an
      update keeps the control plane.
    - Permissions: a user other than the administrator changes nothing but the own
      password; a request passes the check in front of the handlers exactly when it may;
      requests for quotas follow an abstract state machine and give nobody access but
      by the administrator's approval, which is all or nothing.
    - Sessions and tokens: whoever a session speaks for logged in within a day with the
      password of the time; tokens expire; logout ends a session.  A ticket of a central
      login is validated for the service that was logged in to.
    - Buffers and logs: the ring holds the last entries and a listener is sent each once
      and in order; however the steps interleave, its goroutine comes to rest, with
      everything sent to a reader that was woken, and ends after a stop that it sees; the
      wake-ups and stops that are lost are shown by runs; the alarm cache and the audit log are bounded, numbered without gaps
      and in step with their tables whatever calls fail.
    - Restart: what is loaded from a table is what was stored, for clusters, alarms, the
      audit log, users and passwords.
    - Round trips: what is created through a handler is read back through it, for
      deployments, stateful sets, autoscalers, config maps, secrets, ingresses, services
      and limit ranges; of a deployment, when its names are apart, all but the temporary
      volumes and those no container mounts.
    - Workloads: specifications of pods are well formed, their volumes when the names of
      containers and volumes are apart, which the code does not check; a deletion takes a claim only
      when it is asked to and only from the workload itself; a rollback restores a version
      of the workload's own and keeps the rest; the pods of two workloads are disjoint.
    - What is kept in two places stays in step: the DNS records with the edge
      nodes that are ready and the ingresses of the clusters, as long as a node keeps its
      label and address while it is ready and ingresses share no name ([plain], [reports]); the rules of the adapter with the autoscalers.
    - Nodes: the actions refine a state machine of three states.  Claims: none in use is
      deleted, and extension is bounded.  Storages: a name belongs to one storage whatever
      is asked for and whatever fails.
    - Workflows: what a request leaves in the cluster, on every branch, the objects taken
      back when one fails included.  Thresholds are in step with their table.  Collection of
      logs: a failed request changes nothing, and what is begun and ended again leaves every
      file as it was, when the files have the shape the program gives them ([tidy_config]).
    - Charts: the check of settings accepts exactly what the chart declares; a round of the
      synchronisation never touches a version that is there, when archives are packed and
      versions plainly named.  Applications of the system are
      out of reach of the interface for those of users.
    - Clusters: who may ask for what; namespaces: what they are said to use adds up, and
      a figure is missing only where a read of the cluster failed or nothing is used.
    - Logs and taps: the log of a task ends after a bounded number of rounds; a tap is asked
      for as it was requested and sends the events in order.

    ** Bounds, fuel and parameters

    Machine integers are Z with the wrap-around written out ([u64_add], [u64_sub],
    [int32], [int64]); theorems about counters assume they have not wrapped, which 64 bits
    give.  The fuel of the string functions is the length of the input, of which each round
    consumes a byte.  The loop that follows the log of a task takes its number of rounds as
    an argument, and a theorem says after how many it has ended; the loop that waits
    for an application of the system looks thirty times, as the code does.  The goroutines of
    listeners are step relations; for those of events and log lines a measure decreases with
    every step.  All other functions are
    structurally recursive and total, so every operation returns.  A dereference of nil is a
    value of the error type.

    Parameters are the libraries and what is outside: kvzoo, encoding/json, zke, the
    state machine of cement, gok8s, jwt-go, quantities and label selectors of
    apimachinery, the JSON of options and the digest of configurations ([WorkloadText]),
    the YAML of the adapter and SHA-256 ([AdapterText]), the state of a pod and whether a
    node is ready ([PodStates], [NodeReadiness]), the metrics of nodes, the agent in a
    cluster ([ClusterAgent], [AgentProxy]), the phases of storages and applications
    ([StoragePhases], [ApplicationStates]), the texts of Tekton, fluent-bit, charts, CAS and
    taps ([WorkFlowText], [Iniconfig], [ChartText], [CasText], [TapText], [ConsoleText]), the text
    of an address and its parser ([UrlText]; queries are defined),
    Helm, the versions and metrics of clusters ([Helm], [KubeVersion], [ServerVersions],
    [PodMetricsApi]), the contents of logs ([PodLogs]), the service mesh ([TapApi]), HTTP,
    gzip and tar of the registry of charts ([Registry]), the signing of certificates, the
    reader of the configuration and the queue of events ([PubSub]).  Each is a class
    whose laws, where there are any, state the documented behaviour, and each that has
    laws has a concrete instance on which the examples run, so no law is vacuous.  The
    state machine library is taken to run a transition and its callback as one step, as
    it does under its lock.

    ** What is not modelled, and the plan

    Left out for good: the HTTP server and the upgrade to web sockets, the transport of
    mails, tunnels and terminals, what is done by Helm and the operators in the clusters,
    the order in which main makes the components, the command line tools and the generator
    of documentation.  Not modelled and possible: the queue of terminal sizes of a shell, the
    fields and actions that pkg/types registers with the REST library, and a measure for the
    goroutines of a listener of alarms. *)
From Stdlib Require Export Ascii String ZArith Lia.
From stdpp Require Export base tactics option list gmap sets strings numbers relations sorting.

#[global] Open Scope string_scope.
#[global] Open Scope list_scope.
#[global] Open Scope Z_scope.
#[global] Set Default Goal Selector "!".

(** ** Errors *)

(** A Go function that returns (value, error). *)
Inductive result (E A : Type) :=
  | Ok (a : A)
  | Err (e : E).
Arguments Ok {E A} a.
Arguments Err {E A} e.

Definition result_bind {E A B} (r : result E A) (f : A -> result E B) : result E B :=
  match r with Ok a => f a | Err e => Err e end.

Definition is_ok {E A} (r : result E A) : bool :=
  match r with Ok _ => true | Err _ => false end.

Definition map_err {E F A} (f : E -> F) (r : result E A) : result F A :=
  match r with Ok a => Ok a | Err e => Err (f e) end.

Definition of_option {E A} (e : E) (o : option A) : result E A :=
  match o with Some a => Ok a | None => Err e end.

(** [if bad { return err }] *)
Definition check {E} (good : bool) (e : E) : result E unit := if good then Ok tt else Err e.

(** [for _, a := range l { if err := f(a); err != nil { return err } }] *)
Fixpoint each {E A} (f : A -> result E unit) (l : list A) : result E unit :=
  match l with
  | [] => Ok tt
  | a :: l => match f a with Ok _ => each f l | Err e => Err e end
  end.

(** [for _, a := range l { b, err := f(a); if err != nil { return err }; bs = append(bs, b) }] *)
Fixpoint map_result {E A B} (f : A -> result E B) (l : list A) : result E (list B) :=
  match l with
  | [] => Ok []
  | a :: l => result_bind (f a) (fun b => result_bind (map_result f l) (fun bs => Ok (b :: bs)))
  end.

Lemma map_result_ok {E A B} (f : A -> result E B) l bs :
  map_result f l = Ok bs <-> Forall2 (fun a b => f a = Ok b) l bs.
Proof.
  revert bs. induction l as [|a l IH]; intros bs; simpl.
  { split; [intros [= <-]; constructor|by intros ->%Forall2_nil_inv_l]. }
  split.
  - destruct (f a) as [b|] eqn:Hb; [|done]. simpl. destruct (map_result f l) as [bs'|]; [|done]. intros [= <-].
    constructor; [done|by apply IH].
  - intros (b & bs' & Hb & Hl & ->)%Forall2_cons_inv_l. rewrite Hb. simpl. by rewrite (proj2 (IH bs') Hl).
Qed.

(** [for _, a := range l { s, err = f(a, s); if err != nil { return err } }] *)
Fixpoint fold_result {E A S} (f : A -> S -> result E S) (l : list A) (s : S) : result E S :=
  match l with
  | [] => Ok s
  | a :: l => result_bind (f a s) (fold_result f l)
  end.

Lemma fold_result_invariant {E A S} (f : A -> S -> result E S) (P : S -> Prop) l s s' :
  (forall a s s', a ∈ l -> f a s = Ok s' -> P s -> P s') -> fold_result f l s = Ok s' -> P s -> P s'.
Proof.
  revert s. induction l as [|a l IH]; simpl; intros s Hf Hs HP; [by injection Hs as <-|].
  destruct (f a s) as [s1|] eqn:Hs1; [|done]. eapply IH; [|done|].
  - intros a' ??? . eapply Hf. by right.
  - eapply Hf; [by left|done|done].
Qed.

Definition is_some {A} (o : option A) : bool := match o with Some _ => true | None => false end.
Lemma some_default {A} (d : A) (o : option A) : is_some o = true -> o = Some (default d o).
Proof. by destruct o. Qed.
Lemma pair_eq_snd {A B} (p : A * B) a : fst p = a -> p = (a, snd p).
Proof. by destruct p; simpl; intros ->. Qed.

Lemma check_ok {E} b (e : E) : check b e = Ok tt <-> b = true.
Proof. by destruct b. Qed.

Lemma each_ok {E A} (f : A -> result E unit) l :
  each f l = Ok tt <-> Forall (fun a => f a = Ok tt) l.
Proof.
  induction l as [|a l IH]; simpl; [by split|].
  rewrite Forall_cons. destruct (f a) as [[]|e]; naive_solver.
Qed.

Lemma each_ok_in {E A} (f : A -> result E unit) l :
  each f l = Ok tt <-> forall a, a ∈ l -> f a = Ok tt.
Proof. by rewrite each_ok, Forall_forall. Qed.

Lemma bind_ok_tt {E} (r r' : result E unit) :
  result_bind r (fun _ => r') = Ok tt <-> r = Ok tt /\ r' = Ok tt.
Proof. destruct r as [[]|e]; naive_solver. Qed.

(** ** Lists *)

Lemma filter_none {A} (P : A -> Prop) `{!forall x, Decision (P x)} (l : list A) :
  (forall x, x ∈ l -> ~ P x) -> filter P l = [].
Proof.
  induction l as [|a l IH]; intros Hall; [done|].
  rewrite filter_cons_False by (apply Hall; set_solver). apply IH. set_solver.
Qed.

Lemma filter_all {A} (P : A -> Prop) `{!forall x, Decision (P x)} (l : list A) :
  (forall x, x ∈ l -> P x) -> filter P l = l.
Proof.
  induction l as [|a l IH]; intros Hall; [done|].
  rewrite filter_cons_True by (apply Hall; set_solver). f_equal. apply IH. set_solver.
Qed.

(** ** State and errors *)

(** A Go function that reads and writes a state [S] and returns (value, error).
    A write made before the error is returned stays made. *)
Definition M (S E A : Type) : Type := S -> result E A * S.

Definition ret {S E A} (a : A) : M S E A := fun s => (Ok a, s).
Definition bind {S E A B} (m : M S E A) (f : A -> M S E B) : M S E B :=
  fun s => match m s with
           | (Ok a, s') => f a s'
           | (Err e, s') => (Err e, s')
           end.
Definition throw {S E A} (e : E) : M S E A := fun s => (Err e, s).
Definition gets {S E A} (f : S -> A) : M S E A := fun s => (Ok (f s), s).
Definition modify {S E} (f : S -> S) : M S E unit := fun s => (Ok tt, f s).
Definition lift {S E A} (r : result E A) : M S E A := fun s => (r, s).
(** [if err := m; err != nil {...}]: the error becomes a value. *)
Definition attempt {S E F A} (m : M S E A) : M S F (result E A) :=
  fun s => let (r, s') := m s in (Ok r, s').
Definition guard {S E} (b : bool) (e : E) : M S E unit := if b then ret tt else throw e.
Definition rethrow {S E F A} (f : E -> F) (m : M S E A) : M S F A :=
  fun s => let (r, s') := m s in (map_err f r, s').
(** Run [m] on a component of a larger state. *)
Definition zoom {S T E A} (get : S -> T) (set : T -> S -> S) (m : M T E A) : M S E A :=
  fun s => let (r, t) := m (get s) in (r, set t s).

Declare Scope go_scope.
Delimit Scope go_scope with go.
#[global] Open Scope go_scope.
Notation "'let!' x ':=' m 'in' k" := (bind m (fun x => k))
  (at level 10, x pattern, m at level 100, k at level 200) : go_scope.
Notation "'do!' m 'in' k" := (bind m (fun _ => k))
  (at level 10, m at level 100, k at level 200) : go_scope.

Section MonadLaws.
Context {S E : Type}.

Lemma bind_ret_l {A B} (a : A) (f : A -> M S E B) s : bind (ret a) f s = f a s.
Proof. reflexivity. Qed.

Lemma bind_ret_r {A} (m : M S E A) s : bind m ret s = m s.
Proof. unfold bind. by destruct (m s) as [[] ?]. Qed.

Lemma bind_assoc {A B C} (m : M S E A) (f : A -> M S E B) (g : B -> M S E C) s :
  bind (bind m f) g s = bind m (fun a => bind (f a) g) s.
Proof. unfold bind. by destruct (m s) as [[] ?]. Qed.

Lemma bind_gets {A B} (f : S -> A) (k : A -> M S E B) s : bind (gets f) k s = k (f s) s.
Proof. reflexivity. Qed.

Lemma bind_modify {B} (f : S -> S) (k : unit -> M S E B) s : bind (modify f) k s = k tt (f s).
Proof. reflexivity. Qed.

Lemma bind_throw {A B} (e : E) (k : A -> M S E B) s : bind (throw e) k s = (Err e, s).
Proof. reflexivity. Qed.

Lemma bind_attempt {F A B} (m : M S F A) (k : result F A -> M S E B) s :
  bind (attempt m) k s = k (fst (m s)) (snd (m s)).
Proof. unfold bind, attempt. by destruct (m s). Qed.

Lemma bind_cases {A B} (m : M S E A) (f : A -> M S E B) s r s' :
  bind m f s = (r, s') ->
  (exists a s1, m s = (Ok a, s1) /\ f a s1 = (r, s')) \/ (exists e, m s = (Err e, s') /\ r = Err e).
Proof. unfold bind. destruct (m s) as [[] ?]; naive_solver. Qed.

Lemma bind_inv_ok {A B} (m : M S E A) (f : A -> M S E B) s b s' :
  bind m f s = (Ok b, s') ->
  exists a s1, m s = (Ok a, s1) /\ f a s1 = (Ok b, s').
Proof. unfold bind. destruct (m s) as [[] ?]; naive_solver. Qed.

Lemma bind_inv_err {A B} (m : M S E A) (f : A -> M S E B) s e s' :
  bind m f s = (Err e, s') ->
  m s = (Err e, s') \/ exists a s1, m s = (Ok a, s1) /\ f a s1 = (Err e, s').
Proof. unfold bind. destruct (m s) as [[] ?]; naive_solver. Qed.

Lemma bind_guard_inv {B} b (e : E) (k : unit -> M S E B) s r s' :
  bind (guard b e) k s = (r, s') ->
  (b = true /\ k tt s = (r, s')) \/ (b = false /\ r = Err e /\ s' = s).
Proof. unfold bind, guard, ret, throw. destruct b; naive_solver. Qed.

Lemma bind_lift_inv {A B} (x : result E A) (k : A -> M S E B) s r s' :
  bind (lift x) k s = (r, s') ->
  (exists a, x = Ok a /\ k a s = (r, s')) \/ (exists e, x = Err e /\ r = Err e /\ s' = s).
Proof. unfold bind, lift. destruct x; naive_solver. Qed.
End MonadLaws.

Create Rewrite HintDb monad.
#[export] Hint Rewrite @bind_ret_l @bind_assoc @bind_gets @bind_modify @bind_throw @bind_attempt : monad.

Lemma attempt_inv {S E F A} (m : M S E A) s (r : result E A) s' :
  attempt (F := F) m s = (Ok r, s') -> m s = (r, s').
Proof. unfold attempt. destruct (m s). naive_solver. Qed.

(** Split every monadic step of a hypothesis [m s = (r, s')] and simplify. *)
Ltac monad_inv H :=
  repeat (progress (cbn [bind ret throw gets modify lift attempt guard rethrow zoom] in H)
          || unfold bind, ret, throw, gets, modify, lift, attempt, guard, rethrow, zoom in H).

(** Case analysis on the innermost scrutinee of [H], closing absurd branches. *)
Ltac case_in H :=
  match type of H with
  | context [match ?x with _ => _ end] =>
      lazymatch x with
      | context [match _ with _ => _ end] => fail
      | _ => let E := fresh "Heq" in destruct x eqn:E
      end
  end; simplify_eq/=; try done.

Ltac run H := monad_inv H; repeat (case_in H).

(** ** What every run keeps *)

(** Whatever [m] returns, the state after it is related to the state before. *)
Definition keeps {S E A} (R : S -> S -> Prop) (m : M S E A) : Prop := forall s, R s (snd (m s)).

Section Keeps.
Context {S : Type} {R : S -> S -> Prop} `{!PreOrder R}.

Lemma keeps_ret {E A} (a : A) : keeps (E := E) R (ret a).
Proof. intros s. reflexivity. Qed.
Lemma keeps_throw {E A} (e : E) : keeps (A := A) R (throw e).
Proof. intros s. reflexivity. Qed.
Lemma keeps_lift {E A} (r : result E A) : keeps R (lift r).
Proof. intros s. reflexivity. Qed.
Lemma keeps_guard {E} b (e : E) : keeps R (guard b e).
Proof. intros s. by destruct b. Qed.
Lemma keeps_bind {E A B} (m : M S E A) (f : A -> M S E B) : keeps R m -> (forall a, keeps R (f a)) -> keeps R (bind m f).
Proof.
  intros Hm Hf s. unfold bind. specialize (Hm s). destruct (m s) as [[a|e] s1]; [|exact Hm].
  etransitivity; [exact Hm|apply Hf].
Qed.
Lemma keeps_rethrow {E F A} (f : E -> F) (m : M S E A) : keeps R m -> keeps R (rethrow f m).
Proof. intros Hm s. unfold rethrow. specialize (Hm s). by destruct (m s). Qed.
Lemma keeps_attempt {E F A} (m : M S E A) : keeps R m -> keeps (E := F) R (attempt m).
Proof. intros Hm s. unfold attempt. specialize (Hm s). by destruct (m s). Qed.
End Keeps.
Lemma keeps_run {S E A} (R : S -> S -> Prop) (m : M S E A) s r s' : keeps R m -> m s = (r, s') -> R s s'.
Proof. intros Hm Hr. specialize (Hm s). by rewrite Hr in Hm. Qed.
(** A step after which every further one goes on, or the run ends. *)
Lemma keeps_bind_inv {S E A B} (R : S -> S -> Prop) (m : M S E A) (f : A -> M S E B) s r s' :
  bind m f s = (r, s') -> keeps R m ->
  (exists a s1, R s s1 /\ m s = (Ok a, s1) /\ f a s1 = (r, s')) \/ (R s s' /\ is_ok r = false).
Proof.
  intros Hb Hm. specialize (Hm s). unfold bind in Hb. destruct (m s) as [[a|e] s1]; cbn [snd] in Hm; [eauto 6|].
  injection Hb as <- <-. auto.
Qed.
Lemma keeps_weaken {S E A} (R R' : S -> S -> Prop) (m : M S E A) : (forall s s', R s s' -> R' s s') -> keeps R m -> keeps R' m.
Proof. intros HR Hm s. apply HR, Hm. Qed.

(** The structure of a run, down to the calls, which the hints [keeps] speak of. *)
Create HintDb keeps.
Ltac keep_step :=
  lazymatch goal with
  | |- keeps _ (bind _ _) => apply keeps_bind; [|intros ?]
  | |- keeps _ (ret _) => apply keeps_ret
  | |- keeps _ (throw _) => apply keeps_throw
  | |- keeps _ (lift _) => apply keeps_lift
  | |- keeps _ (guard _ _) => apply keeps_guard
  | |- keeps _ (rethrow _ _) => apply keeps_rethrow
  | |- keeps _ (attempt _) => apply keeps_attempt
  | |- keeps _ (match ?x with _ => _ end) => destruct x
  | |- keeps _ _ => solve [auto with keeps]
  end.
Ltac keep := repeat keep_step.

(** ** Machine integers *)

(** Go's uint64: addition and subtraction wrap modulo 2^64. *)
Definition u64 (z : Z) : Z := z mod 2 ^ 64.
Definition u64_add (a b : Z) : Z := u64 (a + b).
Definition u64_sub (a b : Z) : Z := u64 (a - b).
(** The int64 range, which is [int] on the target platform. *)
Definition int64_ok (z : Z) : bool := (- 2 ^ 63 <=? z) && (z <? 2 ^ 63).

(** Go's conversions to int32 and int64, and its sums of int64, wrap around. *)
Definition int32 (z : Z) : Z := (z + 2 ^ 31) mod 2 ^ 32 - 2 ^ 31.
Definition int64 (z : Z) : Z := (z + 2 ^ 63) mod 2 ^ 64 - 2 ^ 63.
Lemma int32_small z : - 2 ^ 31 <= z < 2 ^ 31 -> int32 z = z.
Proof. intros Hz. unfold int32. rewrite Z.mod_small by lia. lia. Qed.
Lemma int64_small z : - 2 ^ 63 <= z < 2 ^ 63 -> int64 z = z.
Proof. intros Hz. unfold int64. rewrite Z.mod_small by lia. lia. Qed.

Lemma u64_small z : 0 <= z < 2 ^ 64 -> u64 z = z.
Proof. apply Z.mod_small. Qed.

Lemma u64_range z : 0 <= u64 z < 2 ^ 64.
Proof. apply Z.mod_pos_bound. lia. Qed.

Lemma u64_sub_small a b : 0 <= b <= a -> a < 2 ^ 64 -> u64_sub a b = a - b.
Proof. intros. apply u64_small. lia. Qed.

Lemma u64_sub_wrap a b : 0 <= a < b -> b < 2 ^ 64 -> u64_sub a b = a - b + 2 ^ 64.
Proof.
  intros. unfold u64_sub, u64.
  rewrite <- (Z.mod_small (a - b + 2 ^ 64) (2 ^ 64)) by lia.
  rewrite <- (Z.mod_add (a - b) 1 (2 ^ 64)) by lia. f_equal.
Qed.

Create Rewrite HintDb u64.
#[export] Hint Rewrite u64_small u64_sub_small using lia : u64.
