(* ===== verification/KvStore.v ===== *)
(** The persistent tables (package kvzoo, a third-party library) and the JSON
    encoding of their values, as interfaces.

    [KvTable] has one operation per call the program makes on a kvzoo.Table or
    a kvzoo.Transaction; a component is written against these operations only.
    [KvLaws] states the documented transactional behaviour the program relies
    on.  [MemTable] is a table in memory whose operations fail on demand; it
    shows the laws can hold and is what the concrete examples run on. *)
From S2P Require Import Prelude.

(** The errors of a table; [KvJson] is a value that cannot be encoded or decoded,
    which the program reports like an error of the table. *)
Inductive kv_error := KvNotFound | KvDuplicate | KvIo | KvJson.

#[export] Instance kv_error_eq_dec : EqDecision kv_error.
Proof. solve_decision. Defined.

(** kvzoo.Table and kvzoo.Transaction.  [kv_begin] opens a transaction,
    [tx_commit] and [tx_rollback] end it and give the table back. *)
Class KvTable (DB : Type) := {
  Tx : Type;
  kv_begin : DB -> result kv_error Tx * DB;
  tx_get : string -> M Tx kv_error string;
  tx_add : string -> string -> M Tx kv_error unit;
  tx_update : string -> string -> M Tx kv_error unit;
  tx_delete : string -> M Tx kv_error unit;
  tx_list : M Tx kv_error (gmap string string);
  tx_commit : Tx -> result kv_error unit * DB;
  tx_rollback : Tx -> DB;
  kv_content : DB -> gmap string string;   (* what the table stores *)
  tx_content : Tx -> gmap string string;   (* what the transaction sees *)
  tx_base : Tx -> gmap string string       (* what a rollback restores *)
}.

(** A call on an open transaction changes what it sees only when it succeeds. *)
Definition tx_effect {DB} `{KvTable DB} {A} (m : M Tx kv_error A)
    (post : gmap string string -> A -> gmap string string -> Prop) : Prop :=
  forall t r t', m t = (r, t') ->
    tx_base t' = tx_base t /\
    match r with
    | Ok a => post (tx_content t) a (tx_content t')
    | Err _ => tx_content t' = tx_content t
    end.

Class KvLaws (DB : Type) `{KvTable DB} : Prop := {
  kv_begin_ok d t d' :
    kv_begin d = (Ok t, d') -> tx_content t = kv_content d /\ tx_base t = kv_content d;
  kv_begin_err d e d' : kv_begin d = (Err e, d') -> kv_content d' = kv_content d;
  tx_get_law k : tx_effect (tx_get k) (fun c v c' => c' = c /\ c !! k = Some v);
  tx_get_not_found k t t' :
    tx_get k t = (Err KvNotFound, t') -> tx_content t !! k = None;
  tx_add_law k v : tx_effect (tx_add k v) (fun c _ c' => c !! k = None /\ c' = <[k := v]> c);
  tx_update_law k v :
    tx_effect (tx_update k v) (fun c _ c' => is_Some (c !! k) /\ c' = <[k := v]> c);
  tx_delete_law k : tx_effect (tx_delete k) (fun c _ c' => c' = delete k c);
  tx_list_law : tx_effect tx_list (fun c l c' => c' = c /\ l = c);
  tx_commit_ok t d' : tx_commit t = (Ok tt, d') -> kv_content d' = tx_content t;
  tx_commit_err t e d' : tx_commit t = (Err e, d') -> kv_content d' = tx_base t;
  tx_rollback_law t : kv_content (tx_rollback t) = tx_base t
}.

(** [tx, err := table.Begin(); if err != nil {return err}; defer tx.Rollback();
    body; return tx.Commit()] *)
Definition with_tx {DB} `{KvTable DB} {A} (body : M Tx kv_error A) : M DB kv_error A :=
  fun d =>
    match kv_begin d with
    | (Err e, d') => (Err e, d')
    | (Ok t, _) =>
        match body t with
        | (Err e, t') => (Err e, tx_rollback t')
        | (Ok a, t') =>
            let (r, d') := tx_commit t' in (result_bind r (fun _ => Ok a), d')
        end
    end.

(** [... defer tx.Commit(); body]: the commit's own error is dropped. *)
Definition with_tx_read {DB} `{KvTable DB} {A} (body : M Tx kv_error A) : M DB kv_error A :=
  fun d =>
    match kv_begin d with
    | (Err e, d') => (Err e, d')
    | (Ok t, _) => let (r, t') := body t in (r, snd (tx_commit t'))
    end.

(** [... defer tx.Rollback(); body]: a read that is never committed. *)
Definition with_tx_view {DB} `{KvTable DB} {A} (body : M Tx kv_error A) : M DB kv_error A :=
  fun d =>
    match kv_begin d with
    | (Err e, d') => (Err e, d')
    | (Ok t, _) => let (r, t') := body t in (r, tx_rollback t')
    end.

Section WithTx.
Context {DB : Type} `{KvLaws DB}.

Lemma with_tx_spec {A} (body : M Tx kv_error A) post d r d' :
  tx_effect body post ->
  with_tx body d = (r, d') ->
  match r with
  | Ok a => post (kv_content d) a (kv_content d')
  | Err _ => kv_content d' = kv_content d
  end.
Proof.
  intros Hbody Hrun. unfold with_tx in Hrun.
  destruct (kv_begin d) as [[t|e] d1] eqn:Hb; simplify_eq/=.
  2: { by eapply kv_begin_err. }
  apply kv_begin_ok in Hb as [Hc Hbase].
  destruct (body t) as [[a|e] t1] eqn:Ht; apply Hbody in Ht as [Hb' Hpost]; simplify_eq/=.
  2: { by rewrite tx_rollback_law, Hb'. }
  destruct (tx_commit t1) as [[[]|e] d2] eqn:Hcm; simplify_eq/=.
  - apply tx_commit_ok in Hcm. by rewrite Hcm, <- Hc.
  - apply tx_commit_err in Hcm. by rewrite Hcm, Hb'.
Qed.

(** The body of a read-only transaction leaves what it sees as it was. *)
Lemma with_tx_read_spec {A} (body : M Tx kv_error A) post d r d' :
  tx_effect body (fun c a c' => c' = c /\ post c a) ->
  with_tx_read body d = (r, d') ->
  kv_content d' = kv_content d /\ match r with Ok a => post (kv_content d) a | Err _ => True end.
Proof.
  intros Hbody Hrun. unfold with_tx_read in Hrun.
  destruct (kv_begin d) as [[t|e] d1] eqn:Hb; simplify_eq/=.
  2: { split; [by eapply kv_begin_err | done]. }
  apply kv_begin_ok in Hb as [Hc Hbase].
  destruct (body t) as [ra t1] eqn:Ht; apply Hbody in Ht as [Hb' Hpost]; simplify_eq/=.
  assert (kv_content (snd (tx_commit t1)) = kv_content d) as ->.
  { destruct (tx_commit t1) as [[[]|e] d2] eqn:Hcm; simpl.
    - apply tx_commit_ok in Hcm. rewrite Hcm. destruct r; naive_solver congruence.
    - apply tx_commit_err in Hcm. congruence. }
  split; [done|]. destruct r; [rewrite <- Hc; naive_solver | done].
Qed.

Lemma tx_effect_bind {A B} (m : M Tx kv_error A) (f : A -> M Tx kv_error B) P Q :
  tx_effect m (fun c a c' => c' = c /\ P c a) ->
  (forall a, tx_effect (f a) (Q a)) ->
  tx_effect (bind m f) (fun c b c' => exists a, P c a /\ Q a c b c').
Proof.
  intros Hm Hf t r t' Hrun. unfold bind in Hrun.
  destruct (m t) as [[a|e] t1] eqn:Ht; apply Hm in Ht as [Hb Hpost].
  - destruct Hpost as [Hc HP]. apply Hf in Hrun as [Hb' HQ].
    split; [congruence|]. destruct r; [|congruence]. rewrite Hc in HQ. eauto.
  - by simplify_eq.
Qed.

Lemma tx_effect_weaken {A} (m : M Tx kv_error A) (P Q : gmap string string -> A -> gmap string string -> Prop) :
  tx_effect m P -> (forall c a c', P c a c' -> Q c a c') -> tx_effect m Q.
Proof.
  intros Hm HPQ t r t' Hrun. apply Hm in Hrun as [Hb Hpost]. split; [done|]. destruct r; eauto.
Qed.

Lemma tx_effect_lift {A} (r : result kv_error A) :
  tx_effect (DB := DB) (lift r) (fun c a c' => c' = c /\ r = Ok a).
Proof. intros t r' t' Hrun. unfold lift in Hrun. simplify_eq. by destruct r'. Qed.

Lemma tx_effect_attempt_get k :
  tx_effect (DB := DB) (attempt (tx_get k)) (fun c (_ : result kv_error string) c' => c' = c /\ True).
Proof.
  intros t r t' Hrun. unfold attempt in Hrun. destruct (tx_get k t) as [a t1] eqn:Hg.
  simplify_eq. apply tx_get_law in Hg as [Hb Hc]. split; [done|]. split; [|done].
  by destruct a; [destruct Hc|].
Qed.

(** A read that is tried first, then a write whichever way the read went. *)
Lemma with_tx_encoded_write {A} (enc : option string) (k : string)
    (write : result kv_error string -> string -> M Tx kv_error A) d r d' :
  (forall ex v, tx_effect (write ex v) (fun c _ c' => c' = <[k := v]> c)) ->
  with_tx (let! v := lift (of_option KvJson enc) in
           let! ex := attempt (tx_get k) in write ex v) d = (r, d') ->
  match r with
  | Ok _ => exists v, enc = Some v /\ kv_content d' = <[k := v]> (kv_content d)
  | Err _ => kv_content d' = kv_content d
  end.
Proof.
  intros Hw Hrun.
  eapply (with_tx_spec _ (fun c _ c' => exists v, enc = Some v /\ c' = <[k := v]> c)) in Hrun;
    [exact Hrun|].
  eapply tx_effect_weaken.
  - eapply tx_effect_bind; [apply tx_effect_lift|]. intros v.
    eapply tx_effect_bind; [apply tx_effect_attempt_get|]. intros ex. apply Hw.
  - simpl. intros c a c' (v & Hv & _ & _ & ->). exists v. by destruct enc; simplify_eq/=.
Qed.

(** One write in one transaction: the shape of every table update of the program. *)
Lemma with_tx_add k v d r d' :
  with_tx (tx_add k v) d = (r, d') ->
  match r with
  | Ok _ => kv_content d !! k = None /\ kv_content d' = <[k := v]> (kv_content d)
  | Err _ => kv_content d' = kv_content d
  end.
Proof. intros Hr. by apply (with_tx_spec _ _ _ _ _ (tx_add_law k v)) in Hr. Qed.

Lemma with_tx_update k v d r d' :
  with_tx (tx_update k v) d = (r, d') ->
  match r with
  | Ok _ => is_Some (kv_content d !! k) /\ kv_content d' = <[k := v]> (kv_content d)
  | Err _ => kv_content d' = kv_content d
  end.
Proof. intros Hr. by apply (with_tx_spec _ _ _ _ _ (tx_update_law k v)) in Hr. Qed.

Lemma with_tx_delete k d r d' :
  with_tx (tx_delete k) d = (r, d') ->
  kv_content d' = match r with Ok _ => delete k (kv_content d) | Err _ => kv_content d end.
Proof. intros Hr. eapply with_tx_spec in Hr; [|apply tx_delete_law]. by destruct r. Qed.

Lemma with_tx_list d r d' :
  with_tx tx_list d = (r, d') ->
  kv_content d' = kv_content d /\ match r with Ok l => l = kv_content d | Err _ => True end.
Proof. intros Hr. eapply with_tx_spec in Hr; [|apply tx_list_law]. by destruct r. Qed.

Lemma with_tx_read_get k d r d' :
  with_tx_read (tx_get k) d = (r, d') ->
  kv_content d' = kv_content d /\
  match r with Ok v => kv_content d !! k = Some v | Err _ => True end.
Proof.
  intros Hr. by eapply (with_tx_read_spec _ (fun c v => c !! k = Some v)) in Hr; [|apply tx_get_law].
Qed.

Lemma with_tx_read_list d r d' :
  with_tx_read tx_list d = (r, d') ->
  kv_content d' = kv_content d /\ match r with Ok l => l = kv_content d | Err _ => True end.
Proof.
  intros Hr. by eapply (with_tx_read_spec _ (fun c l => l = c)) in Hr; [|apply tx_list_law].
Qed.

Lemma with_tx_view_list d r d' :
  with_tx_view tx_list d = (r, d') ->
  kv_content d' = kv_content d /\ match r with Ok l => l = kv_content d | Err _ => True end.
Proof.
  unfold with_tx_view. destruct (kv_begin d) as [[t|e] d1] eqn:Hb.
  2: { intros. simplify_eq. split; [by eapply kv_begin_err|done]. }
  apply kv_begin_ok in Hb as [Hc Hbase]. destruct (tx_list t) as [r1 t1] eqn:Hl.
  apply tx_list_law in Hl as [Hb' Hl]. intros. simplify_eq. rewrite tx_rollback_law, Hb'.
  split; [done|]. destruct r; [by destruct Hl as [_ ->]|done].
Qed.

(** A value is encoded inside the transaction, then written. *)
Lemma with_tx_marshal_add enc k d r d' :
  with_tx (let! v := lift (of_option KvJson enc) in tx_add k v) d = (r, d') ->
  match r with
  | Ok _ => exists v, enc = Some v /\ kv_content d !! k = None /\ kv_content d' = <[k := v]> (kv_content d)
  | Err _ => kv_content d' = kv_content d
  end.
Proof.
  intros Hr. eapply with_tx_spec in Hr; [|eapply tx_effect_bind; [apply tx_effect_lift|intros v; apply tx_add_law]].
  destruct r; [|done]. destruct Hr as (v & Hv & Hr). exists v. by destruct enc; simplify_eq/=.
Qed.

Lemma with_tx_marshal_update enc k d r d' :
  with_tx (let! v := lift (of_option KvJson enc) in tx_update k v) d = (r, d') ->
  match r with
  | Ok _ => exists v, enc = Some v /\ is_Some (kv_content d !! k) /\ kv_content d' = <[k := v]> (kv_content d)
  | Err _ => kv_content d' = kv_content d
  end.
Proof.
  intros Hr. eapply with_tx_spec in Hr; [|eapply tx_effect_bind; [apply tx_effect_lift|intros v; apply tx_update_law]].
  destruct r; [|done]. destruct Hr as (v & Hv & Hr). exists v. by destruct enc; simplify_eq/=.
Qed.
End WithTx.

(** ** A map in memory and the table it is loaded from *)

(** [for k, v := range entries { decode v or return err; m[k] = it }] *)
Fixpoint decode_entries {A} (dec : string -> option A) (l : list (string * string))
    : result kv_error (gmap string A) :=
  match l with
  | [] => Ok ∅
  | (k, v) :: l =>
      match dec v with
      | None => Err KvJson
      | Some a => result_bind (decode_entries dec l) (fun m => Ok (<[k := a]> m))
      end
  end.

(** The map is what the table's entries decode to. *)
Definition mirrors {A} (dec : string -> option A) (us : gmap string A) (m : gmap string string) : Prop :=
  forall k, match m !! k with
            | Some v => exists a, dec v = Some a /\ us !! k = Some a
            | None => us !! k = None
            end.

Section Mirrors.
Context {A : Type} (dec : string -> option A).

Lemma mirrors_empty : mirrors dec ∅ ∅.
Proof. intros k. by rewrite !lookup_empty. Qed.

Lemma mirrors_insert us m k a v :
  dec v = Some a -> mirrors dec us m -> mirrors dec (<[k := a]> us) (<[k := v]> m).
Proof.
  intros Hv Hm k'. destruct (decide (k = k')) as [<-|Hne].
  - rewrite !lookup_insert_eq. by exists a.
  - rewrite !lookup_insert_ne by done. apply Hm.
Qed.

Lemma mirrors_delete us m k : mirrors dec us m -> mirrors dec (delete k us) (delete k m).
Proof.
  intros Hm k'. destruct (decide (k = k')) as [<-|Hne].
  - by rewrite !lookup_delete_eq.
  - rewrite !lookup_delete_ne by done. apply Hm.
Qed.

Lemma mirrors_unique us us' m : mirrors dec us m -> mirrors dec us' m -> us = us'.
Proof.
  intros Hm Hm'. apply map_eq. intros k. specialize (Hm k). specialize (Hm' k).
  destruct (m !! k); naive_solver congruence.
Qed.

Lemma mirrors_lookup_none us m k : mirrors dec us m -> us !! k = None <-> m !! k = None.
Proof. intros Hm. specialize (Hm k). destruct (m !! k); naive_solver. Qed.

Lemma decode_entries_lookup l us :
  NoDup l.*1 -> decode_entries dec l = Ok us -> mirrors dec us (list_to_map l).
Proof.
  revert us. induction l as [|[k v] l IH]; intros us Hnd Hl; simpl in Hl.
  - simplify_eq. apply mirrors_empty.
  - apply NoDup_cons in Hnd as [_ Hnd]. destruct (dec v) as [a|] eqn:Hv; [|done].
    destruct (decode_entries dec l) as [us0|]; simplify_eq/=. apply mirrors_insert; auto.
Qed.

Lemma decode_entries_mirrors m us : decode_entries dec (map_to_list m) = Ok us -> mirrors dec us m.
Proof.
  intros Hl. apply decode_entries_lookup in Hl; [|apply NoDup_fst_map_to_list].
  by rewrite list_to_map_to_list in Hl.
Qed.
End Mirrors.

(** ** JSON *)

(** json.Marshal and json.Unmarshal at one Go type. *)
Class Json (A : Type) := {
  marshal : A -> option string;
  unmarshal : string -> option A
}.

(** A value that was encoded is decoded to itself. *)
Class JsonLaws (A : Type) `{Json A} : Prop :=
  json_round_trip (a : A) s : marshal a = Some s -> unmarshal s = Some a.

(** An encoded value has a text. *)
Class JsonText (A : Type) `{Json A} : Prop := json_not_empty (a : A) : marshal a <> Some "".

(** A concrete codec for the examples: the value's number as a bit string. *)
Fixpoint pos_to_string (p : positive) : string :=
  match p with
  | xH => "."
  | xO p => String "0" (pos_to_string p)
  | xI p => String "1" (pos_to_string p)
  end.

Fixpoint string_to_pos (s : string) : option positive :=
  match s with
  | String "." _ => Some xH
  | String "0" s => xO <$> string_to_pos s
  | String "1" s => xI <$> string_to_pos s
  | _ => None
  end.

Lemma string_to_pos_to_string p : string_to_pos (pos_to_string p) = Some p.
Proof. induction p; simpl; rewrite ?IHp; done. Qed.

(** Values as trees of texts and numbers. *)
Abbreviation tree := (gen_tree (string + Z)%type) (only parsing).
Class Treeable (A : Type) := {
  to_tree : A -> tree;
  of_tree : tree -> option A;
  of_to_tree : forall a : A, of_tree (to_tree a) = Some a
}.

#[export] Instance string_tree : Treeable string.
Proof.
  refine {| to_tree s := GenLeaf (inl s);
            of_tree t := match t with GenLeaf (inl s) => Some s | _ => None end |}.
  reflexivity.
Defined.
#[export] Instance Z_tree : Treeable Z.
Proof.
  refine {| to_tree z := GenLeaf (inr z);
            of_tree t := match t with GenLeaf (inr z) => Some z | _ => None end |}.
  reflexivity.
Defined.
#[export] Instance bool_tree : Treeable bool.
Proof.
  refine {| to_tree (b : bool) := GenNode (if b then 1%nat else 0%nat) [];
            of_tree t := match t with
                         | GenNode 1 [] => Some true | GenNode 0 [] => Some false
                         | _ => None
                         end |}.
  by intros [].
Defined.
#[export] Instance list_tree {A} `{Treeable A} : Treeable (list A).
Proof.
  refine {| to_tree l := GenNode 0 (to_tree <$> l);
            of_tree t := match t with GenNode 0 ts => mapM of_tree ts | _ => None end |}.
  intros l. induction l as [|a l IH]; [done|]. rewrite fmap_cons. cbn [mapM mbind option_bind].
  by rewrite of_to_tree, IH.
Defined.
#[export] Instance option_tree {A} `{Treeable A} : Treeable (option A).
Proof.
  refine {| to_tree o := match o with Some a => GenNode 1 [to_tree a] | None => GenNode 0 [] end;
            of_tree t := match t with
                         | GenNode 1 [t] => Some <$> of_tree t
                         | GenNode 0 [] => Some None
                         | _ => None
                         end |}.
  intros [a|]; simpl; by rewrite ?of_to_tree.
Defined.
#[export] Instance prod_tree {A B} `{Treeable A} `{Treeable B} : Treeable (A * B).
Proof.
  refine {| to_tree p := GenNode 0 [to_tree p.1; to_tree p.2];
            of_tree t := match t with
                         | GenNode 0 [t; u] => a ← of_tree t; b ← of_tree u; Some (a, b)
                         | _ => None
                         end |}.
  intros [a b]. simpl. by rewrite !of_to_tree.
Defined.
(** A record, through the tuple of its fields. *)
Definition iso_tree {A B} `{Treeable B} (f : A -> B) (g : B -> A) (gf : forall a, g (f a) = a) : Treeable A.
Proof.
  refine {| to_tree a := to_tree (f a); of_tree t := g <$> of_tree t |}.
  intros a. rewrite of_to_tree. simpl. by rewrite gf.
Defined.

Definition encode_tree : tree -> positive := encode.
Definition decode_tree : positive -> option tree := decode.

Definition tree_json (A : Type) (T : Treeable A) : Json A := {|
  marshal := fun a => Some (pos_to_string (encode_tree (to_tree a)));
  unmarshal := fun s => p ← string_to_pos s; t ← decode_tree p; of_tree t
|}.

Lemma tree_json_laws (A : Type) (T : Treeable A) : @JsonLaws A (tree_json A T).
Proof.
  intros a s [= <-]. simpl. rewrite string_to_pos_to_string. cbn [mbind option_bind].
  unfold decode_tree, encode_tree. rewrite decode_encode.
  apply of_to_tree.
Qed.

Lemma tree_json_text (A : Type) (T : Treeable A) : @JsonText A (tree_json A T).
Proof. intros a. simpl. destruct (encode_tree _); discriminate. Qed.

(** ** A table in memory *)

(** The stored entries and the outcomes of the coming calls: [true] makes the
    call fail.  With no outcomes left every call works. *)
Record MemTable := mkMem { mem : gmap string string; faults : list bool }.
Record MemTx := mkMemTx { mtx_base : gmap string string; mtx_cur : gmap string string;
                          mtx_faults : list bool }.

Definition mem_table (c : gmap string string) : MemTable := mkMem c [].

Definition mtx_op {A} (f : gmap string string -> result kv_error (A * gmap string string)) :
    M MemTx kv_error A :=
  fun t =>
    let t' := mkMemTx t.(mtx_base) t.(mtx_cur) (tail t.(mtx_faults)) in
    if default false (head t.(mtx_faults)) then (Err KvIo, t')
    else match f t.(mtx_cur) with
         | Ok (a, c) => (Ok a, mkMemTx t.(mtx_base) c (tail t.(mtx_faults)))
         | Err e => (Err e, t')
         end.

#[export] Instance mem_kv : KvTable MemTable := {|
  Tx := MemTx;
  kv_begin d :=
    let d' := mkMem d.(mem) (tail d.(faults)) in
    if default false (head d.(faults)) then (Err KvIo, d')
    else (Ok (mkMemTx d.(mem) d.(mem) (tail d.(faults))), d');
  tx_get k := mtx_op (fun c => match c !! k with Some v => Ok (v, c) | None => Err KvNotFound end);
  tx_add k v := mtx_op (fun c =>
    match c !! k with Some _ => Err KvDuplicate | None => Ok (tt, <[k := v]> c) end);
  tx_update k v := mtx_op (fun c =>
    match c !! k with Some _ => Ok (tt, <[k := v]> c) | None => Err KvNotFound end);
  tx_delete k := mtx_op (fun c => Ok (tt, delete k c));
  tx_list := mtx_op (fun c => Ok (c, c));
  tx_commit t :=
    if default false (head t.(mtx_faults)) then (Err KvIo, mkMem t.(mtx_base) (tail t.(mtx_faults)))
    else (Ok tt, mkMem t.(mtx_cur) (tail t.(mtx_faults)));
  tx_rollback t := mkMem t.(mtx_base) t.(mtx_faults);
  kv_content := mem;
  tx_content := mtx_cur;
  tx_base := mtx_base
|}.

Ltac mem_cases :=
  repeat match goal with
         | H : context [if ?b then _ else _] |- _ => destruct b eqn:?
         | H : context [match ?o with Some _ => _ | None => _ end] |- _ => destruct o eqn:?
         end; simplify_eq/=.

#[export] Instance mem_kv_laws : KvLaws MemTable.
Proof.
  split; unfold tx_effect; simpl; unfold mtx_op; intros; mem_cases; eauto.
Qed.
