(* ===== verification/GoStrings.v ===== *)
(** The parts of Go's standard library on strings and addresses that the program
    uses: strconv.Itoa and Atoi, strings.Split, TrimSpace and HasPrefix, and from
    package net ParseIP, IP.To4, ParseCIDR and IPNet.Contains, as in the Go 1.13
    the program is built with.  A Go string is a sequence of bytes. *)
From S2P Require Import Prelude.
From Stdlib Require Import DecimalString DecimalFacts DecimalPos DecimalN DecimalZ.


(** ** Decimal numbers *)

(** strconv.Itoa, and strconv.FormatUint in base 10. *)
Definition Itoa (z : Z) : string := NilZero.string_of_int (Z.to_int z).

(** Unsigned digits, at least one. *)
Definition parse_digits (s : string) : option Z :=
  match s with
  | "" => None
  | _ => Z.of_uint <$> NilEmpty.uint_of_string s
  end.

(** strconv.Atoi: an optional sign, digits, within int64. *)
Definition Atoi (s : string) : option Z :=
  let n := match s with
           | String "+" r => parse_digits r
           | String "-" r => Z.opp <$> parse_digits r
           | _ => parse_digits s
           end in
  match n with
  | Some z => if int64_ok z then Some z else None
  | None => None
  end.

(** What strconv.Atoi returns beside its error: 0 when there is no number, and the nearest
    int64 when the number is out of range. *)
Definition Atoi_value (s : string) : Z :=
  let n := match s with
           | String "+" r => parse_digits r
           | String "-" r => Z.opp <$> parse_digits r
           | _ => parse_digits s
           end in
  match n with
  | Some z => Z.max (- 2 ^ 63) (Z.min (2 ^ 63 - 1) z)
  | None => 0
  end.

(** ** Searching and splitting *)

(** strings.HasPrefix *)
Definition HasPrefix (s p : string) : bool := String.prefix p s.

(** strings.ToLower, up to the letters outside ASCII whose lower case is outside ASCII too;
    those whose lower case is in ASCII are the dotted capital I and the Kelvin sign. *)
Definition lower_byte (a : ascii) : ascii :=
  let n := N_of_ascii a in if (65 <=? n)%N && (n <=? 90)%N then ascii_of_N (n + 32) else a.
Fixpoint ToLower (s : string) : string :=
  match s with
  | EmptyString => EmptyString
  | String a tl =>
      match tl with
      | EmptyString => String (lower_byte a) EmptyString
      | String b tl2 =>
          if (N_of_ascii a =? 196)%N && (N_of_ascii b =? 176)%N then String "i" (ToLower tl2)
          else match tl2 with
               | EmptyString => String (lower_byte a) (ToLower tl)
               | String c tl3 =>
                   if (N_of_ascii a =? 226)%N && (N_of_ascii b =? 132)%N && (N_of_ascii c =? 170)%N
                   then String "k" (ToLower tl3)
                   else String (lower_byte a) (ToLower tl)
               end
      end
  end.

(** strings.Split at a one-byte separator; the result is never empty. *)
Fixpoint Split (c : ascii) (s : string) : list string :=
  match s with
  | "" => [""]
  | String d r =>
      if Ascii.eqb d c then "" :: Split c r
      else match Split c r with
           | w :: ws => String d w :: ws
           | [] => [String d ""]
           end
  end.

Fixpoint index_byte (c : ascii) (s : string) : option nat :=
  match s with
  | "" => None
  | String d r => if Ascii.eqb d c then Some 0%nat else S <$> index_byte c r
  end.

Fixpoint drop_bytes (n : nat) (s : string) : string :=
  match n, s with
  | S n, String _ r => drop_bytes n r
  | _, _ => s
  end.

Fixpoint take_bytes (n : nat) (s : string) : string :=
  match n, s with
  | S n, String c r => String c (take_bytes n r)
  | _, _ => ""
  end.

(** ** White space *)

Definition bytes (l : list N) : list ascii := ascii_of_N <$> l.

(** The UTF-8 encodings of the runes with unicode.IsSpace. *)
Definition go_spaces : list (list ascii) :=
  bytes <$>
  ([[9]; [10]; [11]; [12]; [13]; [32]; [194; 133]; [194; 160]; [225; 154; 128];
    [226; 128; 128]; [226; 128; 129]; [226; 128; 130]; [226; 128; 131]; [226; 128; 132];
    [226; 128; 133]; [226; 128; 134]; [226; 128; 135]; [226; 128; 136]; [226; 128; 137];
    [226; 128; 138]; [226; 128; 168]; [226; 128; 169]; [226; 128; 175]; [226; 129; 159];
    [227; 128; 128]]%N).

Fixpoint strip_prefix (p l : list ascii) : option (list ascii) :=
  match p, l with
  | [], _ => Some l
  | a :: p, b :: l => if Ascii.eqb a b then strip_prefix p l else None
  | _ :: _, [] => None
  end.

(** Remove the first of the sequences [ps] that begins [l]. *)
Fixpoint strip_any (ps : list (list ascii)) (l : list ascii) : option (list ascii) :=
  match ps with
  | [] => None
  | p :: ps => match strip_prefix p l with Some r => Some r | None => strip_any ps l end
  end.

(** Each round removes at least one byte, so the length is enough fuel. *)
Fixpoint strip_all (fuel : nat) (ps : list (list ascii)) (l : list ascii) : list ascii :=
  match fuel with
  | O => l
  | S fuel => match strip_any ps l with Some r => strip_all fuel ps r | None => l end
  end.

Definition strip_left (ps : list (list ascii)) (l : list ascii) : list ascii :=
  strip_all (length l) ps l.

(** strings.TrimSpace *)
Definition TrimSpace (s : string) : string :=
  let l := strip_left go_spaces (list_ascii_of_string s) in
  string_of_list_ascii (reverse (strip_left (reverse <$> go_spaces) (reverse l))).

(** ** Addresses *)

(** net.IP as ParseIP returns it: 16 bytes. *)
Definition IP := list Z.
Definition v4InV6Prefix : IP := [0; 0; 0; 0; 0; 0; 0; 0; 0; 0; 255; 255].
Definition IPv4 (a b c d : Z) : IP := v4InV6Prefix ++ [a; b; c; d].

Definition dec_digit (c : ascii) : option Z :=
  let n := Z.of_N (N_of_ascii c) in
  if (48 <=? n) && (n <=? 57) then Some (n - 48) else None.

Definition hex_digit (c : ascii) : option Z :=
  let n := Z.of_N (N_of_ascii c) in
  if (48 <=? n) && (n <=? 57) then Some (n - 48)
  else if (97 <=? n) && (n <=? 102) then Some (n - 87)
  else if (65 <=? n) && (n <=? 70) then Some (n - 55)
  else None.

(** dtoi and xtoi: the longest number at the front, and what follows it; [None]
    when there is no digit or the number reaches 0xFFFFFF. *)
Fixpoint leading_number (digit : ascii -> option Z) (base : Z) (seen : bool) (n : Z) (s : string) :
    option (Z * string) :=
  match s with
  | String c r =>
      match digit c with
      | Some d =>
          let n' := n * base + d in
          if 16777215 <=? n' then None else leading_number digit base true n' r
      | None => if seen then Some (n, s) else None
      end
  | "" => if seen then Some (n, s) else None
  end.

Definition dtoi : string -> option (Z * string) := leading_number dec_digit 10 false 0.
Definition xtoi : string -> option (Z * string) := leading_number hex_digit 16 false 0.

(** One octet: a number up to 255. *)
Definition octet (s : string) : option (Z * string) :=
  match dtoi s with
  | Some (n, r) => if n <=? 255 then Some (n, r) else None
  | None => None
  end.

Definition dot_octet (s : string) : option (Z * string) :=
  match s with String "." r => octet r | _ => None end.

(** parseIPv4 *)
Definition parseIPv4 (s : string) : option IP :=
  match octet s with
  | Some (a, s) =>
      match dot_octet s with
      | Some (b, s) =>
          match dot_octet s with
          | Some (c, s) =>
              match dot_octet s with
              | Some (d, "") => Some (IPv4 a b c d)
              | _ => None
              end
          | None => None
          end
      | None => None
      end
  | None => None
  end.

(** The loop of parseIPv6: [ip] holds the bytes parsed so far and [ell] the
    position of the ellipsis.  Nine rounds are enough: each adds two bytes. *)
Fixpoint ipv6_loop (fuel : nat) (ip : IP) (ell : option nat) (s : string) :
    option (IP * option nat * string) :=
  match fuel with
  | O => None
  | S fuel =>
      if (16 <=? length ip)%nat then Some (ip, ell, s) else
      match xtoi s with
      | None => None
      | Some (n, r) =>
          if 65535 <? n then None else
          match r with
          | String "." _ =>
              if match ell with None => negb (length ip =? 12)%nat | Some _ => false end then None
              else if (16 <? length ip + 4)%nat then None
              else match parseIPv4 s with
                   | None => None
                   | Some v4 => Some (ip ++ drop 12 v4, ell, "")
                   end
          | _ =>
              let ip := ip ++ [Z.shiftr n 8; Z.land n 255] in
              match r with
              | "" => Some (ip, ell, "")
              | String ":" (String c r') =>
                  if Ascii.eqb c ":" then
                    match ell with
                    | Some _ => None
                    | None =>
                        match r' with
                        | "" => Some (ip, Some (length ip), "")
                        | _ => ipv6_loop fuel ip (Some (length ip)) r'
                        end
                    end
                  else ipv6_loop fuel ip ell (String c r')
              | _ => None
              end
          end
      end
  end.

(** parseIPv6 *)
Definition parseIPv6 (s : string) : option IP :=
  let finish (st : IP * option nat * string) :=
    let '(ip, ell, rest) := st in
    match rest with
    | "" =>
        if (length ip <? 16)%nat then
          match ell with
          | None => None
          | Some e => Some (take e ip ++ replicate (16 - length ip) 0 ++ drop e ip)
          end
        else match ell with Some _ => None | None => Some ip end
    | _ => None
    end in
  match s with
  | String ":" (String ":" "") => Some (replicate 16 0)
  | String ":" (String ":" r) => ipv6_loop 9 [] (Some 0%nat) r ≫= finish
  | _ => ipv6_loop 9 [] None s ≫= finish
  end.

(** net.ParseIP: the first dot or colon decides the family. *)
Fixpoint ip_family (s : string) : option bool :=
  match s with
  | "" => None
  | String "." _ => Some true
  | String ":" _ => Some false
  | String _ r => ip_family r
  end.

Definition ParseIP (s : string) : option IP :=
  match ip_family s with
  | Some true => parseIPv4 s
  | Some false => parseIPv6 s
  | None => None
  end.

(** IP.To4: the last four bytes of a mapped address. *)
Definition To4 (ip : IP) : option (list Z) :=
  if decide (length ip = 4%nat) then Some ip
  else if decide (length ip = 16%nat /\ take 12 ip = v4InV6Prefix) then Some (drop 12 ip)
  else None.

(** net.CIDRMask *)
Definition mask_byte (n : Z) : Z :=
  if 8 <=? n then 255 else if n <=? 0 then 0 else 255 - Z.shiftr 255 n.
Definition CIDRMask (ones : Z) (len : nat) : list Z :=
  (fun i : nat => mask_byte (ones - 8 * Z.of_nat i)) <$> seq 0 len.

Definition and_bytes (a b : list Z) : list Z := zip_with Z.land a b.

(** net.ParseCIDR: the address, and the network as (address, mask). *)
Definition ParseCIDR (s : string) : option (IP * (list Z * list Z)) :=
  match index_byte "/" s with
  | None => None
  | Some i =>
      let addr := take_bytes i s in
      let mask := drop_bytes (S i) s in
      let parsed :=
        match parseIPv4 addr with
        | Some ip => Some (ip, 4%nat)
        | None => (fun ip => (ip, 16%nat)) <$> parseIPv6 addr
        end in
      match parsed, dtoi mask with
      | Some (ip, len), Some (n, "") =>
          if 8 * Z.of_nat len <? n then None
          else
            let m := CIDRMask n len in
            let masked := if decide (len = 4%nat) then and_bytes (drop 12 ip) m else and_bytes ip m in
            Some (ip, (masked, m))
      | _, _ => None
      end
  end.

(** IPNet.Contains *)
Definition Contains (net : list Z * list Z) (ip : IP) : bool :=
  let '(nip, nmask) := net in
  let '(nn, m) := match To4 nip with
                  | Some v4 => (v4, if decide (length nmask = 16%nat) then drop 12 nmask else nmask)
                  | None => (nip, nmask)
                  end in
  let ip := default ip (To4 ip) in
  bool_decide (length ip = length nn) && bool_decide (and_bytes nn m = and_bytes ip m).

(** ** Facts *)

Lemma parse_digits_string d :
  d <> Decimal.Nil -> parse_digits (NilEmpty.string_of_uint d) = Some (Z.of_uint d).
Proof.
  intros Hd. unfold parse_digits. rewrite NilEmpty.usu.
  destruct d; try done.
Qed.

Lemma string_of_uint_nil d :
  d <> Decimal.Nil -> NilZero.string_of_uint d = NilEmpty.string_of_uint d.
Proof. by destruct d. Qed.

Lemma string_of_uint_head d c r :
  NilEmpty.string_of_uint d = String c r -> c <> "+"%char /\ c <> "-"%char.
Proof. destruct d; simpl; intros; simplify_eq; split; discriminate. Qed.

(** The digits of a number, with their sign when it is negative. *)
Lemma Itoa_shape z :
  exists d, d <> Decimal.Nil /\
    ((0 <= z /\ Z.of_uint d = z /\ Itoa z = NilEmpty.string_of_uint d) \/
     (z < 0 /\ Z.of_uint d = - z /\ Itoa z = String "-" (NilEmpty.string_of_uint d))).
Proof.
  pose proof (DecimalZ.of_to z) as Hz. unfold Itoa. destruct z as [|p|p]; simpl in *.
  - exists (Decimal.D0 Decimal.Nil). split; [discriminate|]. left. repeat split; lia.
  - exists (Pos.to_uint p). pose proof (DecimalPos.Unsigned.to_uint_nonnil p).
    rewrite (string_of_uint_nil (Pos.to_uint p)) by assumption. split; [assumption|]. left. by split; [lia|].
  - exists (Pos.to_uint p). pose proof (DecimalPos.Unsigned.to_uint_nonnil p).
    rewrite (string_of_uint_nil (Pos.to_uint p)) by assumption. split; [assumption|]. right. split; [lia|].
    split; [lia|reflexivity].
Qed.

Lemma Atoi_unsigned s :
  (forall c r, s = String c r -> c <> "+"%char /\ c <> "-"%char) ->
  Atoi s = match parse_digits s with
           | Some z => if int64_ok z then Some z else None
           | None => None
           end.
Proof.
  intros Hs. unfold Atoi. destruct s as [|[[] [] [] [] [] [] [] []] r]; try done;
    destruct (Hs _ _ eq_refl); done.
Qed.

(** Atoi reads back what Itoa prints. *)
Lemma Atoi_Itoa z : int64_ok z = true -> Atoi (Itoa z) = Some z.
Proof.
  intros Hz. destruct (Itoa_shape z) as (d & Hd & [(_ & Ho & ->) | (Hneg & Ho & ->)]).
  - rewrite Atoi_unsigned by (intros; by eapply string_of_uint_head).
    by rewrite parse_digits_string, Ho, Hz.
  - unfold Atoi. rewrite parse_digits_string by done. simpl. rewrite Ho, Z.opp_involutive.
    by rewrite Hz.
Qed.

Lemma Atoi_value_Atoi s z : Atoi s = Some z -> Atoi_value s = z.
Proof.
  unfold Atoi, Atoi_value. set (n := match s with String "+" r => _ | _ => _ end). destruct n as [m|]; [|done].
  unfold int64_ok. destruct (_ && _) eqn:Hb; [|done]. intros [= <-]. apply andb_true_iff in Hb as [H1%Z.leb_le H2%Z.ltb_lt]. lia.
Qed.
Lemma Atoi_value_Itoa z : int64_ok z = true -> Atoi_value (Itoa z) = z.
Proof. intros Hz. by apply Atoi_value_Atoi, Atoi_Itoa. Qed.

Lemma Itoa_inj z1 z2 : Itoa z1 = Itoa z2 -> z1 = z2.
Proof.
  intros Heq.
  destruct (Itoa_shape z1) as (d1 & Hd1 & [(? & Ho1 & E1) | (? & Ho1 & E1)]);
    destruct (Itoa_shape z2) as (d2 & Hd2 & [(? & Ho2 & E2) | (? & Ho2 & E2)]);
    rewrite E1, E2 in Heq.
  - apply (f_equal parse_digits) in Heq. rewrite !parse_digits_string in Heq by done. congruence.
  - by apply string_of_uint_head in Heq as [].
  - by symmetry in Heq; apply string_of_uint_head in Heq as [].
  - injection Heq as Heq. apply (f_equal parse_digits) in Heq.
    rewrite !parse_digits_string in Heq by done. simplify_eq. lia.
Qed.

(** *** Splitting *)

Fixpoint has_byte (c : ascii) (s : string) : bool :=
  match s with "" => false | String d r => Ascii.eqb d c || has_byte c r end.

Lemma Split_no_sep c s : has_byte c s = false -> Split c s = [s].
Proof.
  induction s as [|d r IH]; simpl; [done|].
  intros [-> Hr]%orb_false_iff. by rewrite IH.
Qed.

Lemma Split_app c s r :
  has_byte c s = false -> Split c (s +:+ String c r) = s :: Split c r.
Proof.
  induction s as [|d s IH]; simpl; [by rewrite Ascii.eqb_refl|].
  intros [-> Hr]%orb_false_iff. by rewrite IH.
Qed.

Lemma has_byte_digits c d :
  dec_digit c = None -> has_byte c (NilEmpty.string_of_uint d) = false.
Proof.
  intros Hc. induction d; cbn [has_byte NilEmpty.string_of_uint]; [done|..]; rewrite IHd, orb_false_r;
    apply Ascii.eqb_neq; intros <-; vm_compute in Hc; discriminate.
Qed.

(** A decimal number holds no separator. *)
Lemma has_byte_Itoa c z :
  dec_digit c = None -> c <> "-"%char -> has_byte c (Itoa z) = false.
Proof.
  intros Hc Hm. destruct (Itoa_shape z) as (d & _ & [(_ & _ & ->) | (_ & _ & ->)]).
  - by apply has_byte_digits.
  - cbn [has_byte]. rewrite has_byte_digits by done. rewrite orb_false_r.
    by apply Ascii.eqb_neq.
Qed.

Lemma str_app_assoc (a b c : string) : (a +:+ b) +:+ c = a +:+ b +:+ c.
Proof. induction a as [|x a IH]; [done|]. change (String x ((a +:+ b) +:+ c) = String x (a +:+ b +:+ c)). by rewrite IH. Qed.
Lemma has_byte_app x a b : has_byte x (a +:+ b) = has_byte x a || has_byte x b.
Proof. induction a as [|y a IH]; [done|]. simpl. by rewrite IH, orb_assoc. Qed.

Lemma length_append a b : String.length (a +:+ b) = (String.length a + String.length b)%nat.
Proof. induction a as [|c a IH]; [done|]. simpl. by rewrite IH. Qed.
Lemma str_app_inj_r (a b c : string) : a +:+ c = b +:+ c -> a = b.
Proof.
  revert b. induction a as [|x a IH]; intros b Hb.
  - destruct b as [|y b]; [done|]. exfalso. apply (f_equal String.length) in Hb. revert Hb.
    change (String.length c = String.length (String y (b +:+ c)) -> False). simpl. rewrite length_append. lia.
  - destruct b as [|y b].
    + exfalso. apply (f_equal String.length) in Hb. revert Hb.
      change (String.length (String x (a +:+ c)) = String.length c -> False). simpl. rewrite length_append. lia.
    + change (String x (a +:+ c) = String y (b +:+ c)) in Hb. injection Hb as -> Hb. f_equal. by apply IH.
Qed.

(** The last separator splits a string in one way. *)
Lemma last_sep_inj c a b d e :
  has_byte c d = false -> has_byte c e = false -> a +:+ String c d = b +:+ String c e -> a = b /\ d = e.
Proof.
  intros Hd He. revert b. induction a as [|x a IH]; intros [|y b] Hab.
  - by injection Hab as ->.
  - change (String c d = String y (b +:+ String c e)) in Hab. injection Hab as <- ->.
    by rewrite has_byte_app in Hd; simpl in Hd; rewrite Ascii.eqb_refl, orb_true_r in Hd.
  - change (String x (a +:+ String c d) = String c e) in Hab. injection Hab as -> <-.
    by rewrite has_byte_app in He; simpl in He; rewrite Ascii.eqb_refl, orb_true_r in He.
  - change (String x (a +:+ String c d) = String y (b +:+ String c e)) in Hab. injection Hab as -> Hab.
    apply IH in Hab as [-> ->]. done.
Qed.

Lemma HasPrefix_app s r : HasPrefix (s +:+ r) s = true.
Proof.
  unfold HasPrefix. induction s as [|c s IH]; simpl; [by destruct r|].
  destruct (ascii_dec c c); done.
Qed.

Lemma HasPrefix_spec s p : HasPrefix s p = true <-> exists r, s = p +:+ r.
Proof.
  unfold HasPrefix. split.
  - revert s. induction p as [|c p IH]; intros s Hp; [by exists s|].
    destruct s as [|d s]; simpl in Hp; [done|].
    destruct (ascii_dec c d); [|done]. subst. destruct (IH _ Hp) as [r ->]. by exists r.
  - intros [r ->]. apply HasPrefix_app.
Qed.

(** ** strings.TrimSuffix *)

Fixpoint strip_suffix (s suffix : string) : option string :=
  if String.eqb s suffix then Some ""
  else match s with
       | EmptyString => None
       | String c s => String c <$> strip_suffix s suffix
       end.
Definition TrimSuffix (s suffix : string) : string := default s (strip_suffix s suffix).

Lemma strip_suffix_app a b : strip_suffix (a +:+ b) b = Some a.
Proof.
  induction a as [|c a IH].
  - change ("" +:+ b) with b. destruct b; simpl; by rewrite ?Ascii.eqb_refl, ?String.eqb_refl.
  - change (String c a +:+ b) with (String c (a +:+ b)). cbn [strip_suffix].
    destruct (String.eqb_spec (String c (a +:+ b)) b) as [Hb|_]; [|by rewrite IH].
    exfalso. apply (f_equal String.length) in Hb. simpl in Hb. rewrite length_append in Hb. lia.
Qed.
Lemma TrimSuffix_app a b : TrimSuffix (a +:+ b) b = a.
Proof. unfold TrimSuffix. by rewrite strip_suffix_app. Qed.
