(* ===== verification/GoText.v ===== *)
(** Further functions of Go's packages strings and encoding/base64, on texts as bytes. *)
From S2P Require Import Prelude GoStrings.

(** strings.Contains *)
Fixpoint ContainsText (s sub : string) : bool :=
  HasPrefix s sub || match s with EmptyString => false | String _ r => ContainsText r sub end.

(** strings.HasSuffix *)
Definition HasSuffix (s suffix : string) : bool := is_some (strip_suffix s suffix).

(** strings.Replace of every occurrence of a text that is not empty: [skip] bytes of one are
    still to be passed over. *)
Fixpoint replace_from (old new : string) (skip : nat) (s : string) : string :=
  match s with
  | EmptyString => EmptyString
  | String c r =>
      match skip with
      | S n => replace_from old new n r
      | O => if HasPrefix s old then new +:+ replace_from old new (String.length old - 1) r else String c (replace_from old new 0 r)
      end
  end.
Definition ReplaceAll (s old new : string) : string := replace_from old new 0 s.

(** strings.Split at a text that is not empty; the result is never empty. *)
Fixpoint split_from (sep : string) (skip : nat) (s : string) : list string :=
  match s with
  | EmptyString => [""]
  | String c r =>
      match skip with
      | S n => split_from sep n r
      | O => if HasPrefix s sep then "" :: split_from sep (String.length sep - 1) r
             else match split_from sep 0 r with w :: ws => String c w :: ws | [] => [String c ""] end
      end
  end.
Definition SplitText (sep s : string) : list string := split_from sep 0 s.

(** strings.Fields: the words between white space. *)
Fixpoint words_from (skip : nat) (l : list ascii) : list (list ascii) :=
  match l with
  | [] => [[]]
  | c :: r =>
      match skip with
      | S n => words_from n r
      | O => match strip_any go_spaces l with
             | Some rest => [] :: words_from (length r - length rest) r
             | None => match words_from 0 r with w :: ws => (c :: w) :: ws | [] => [[c]] end
             end
      end
  end.
Definition Fields (s : string) : list string :=
  string_of_list_ascii <$> filter (fun w => w <> []) (words_from 0 (list_ascii_of_string s)).

(** strings.TrimRight of one byte *)
Fixpoint TrimRight (c : ascii) (s : string) : string :=
  match s with
  | EmptyString => EmptyString
  | String d r => match TrimRight c r with EmptyString => if Ascii.eqb d c then "" else String d "" | r => String d r end
  end.

(** strings.Join *)
Fixpoint Join (sep : string) (l : list string) : string :=
  match l with [] => "" | [s] => s | s :: l => s +:+ sep +:+ Join sep l end.

(** base64.StdEncoding.EncodeToString *)
Definition base64_alphabet : string := "ABCDEFGHIJKLMNOPQRSTUVWXYZabcdefghijklmnopqrstuvwxyz0123456789+/".
Definition base64_digit (n : N) : ascii := default "="%char (String.get (N.to_nat n) base64_alphabet).
Definition sextets (n : N) : ascii * ascii * ascii * ascii :=
  (base64_digit (N.shiftr n 18), base64_digit (N.land (N.shiftr n 12) 63), base64_digit (N.land (N.shiftr n 6) 63), base64_digit (N.land n 63)).
Fixpoint base64 (s : string) : string :=
  match s with
  | EmptyString => EmptyString
  | String a EmptyString =>
      let '(w, x, _, _) := sextets (N.shiftl (N_of_ascii a) 16) in String w (String x "==")
  | String a (String b EmptyString) =>
      let '(w, x, y, _) := sextets (N.shiftl (N_of_ascii a) 16 + N.shiftl (N_of_ascii b) 8) in String w (String x (String y "="))
  | String a (String b (String c r)) =>
      let '(w, x, y, z) := sextets (N.shiftl (N_of_ascii a) 16 + N.shiftl (N_of_ascii b) 8 + N_of_ascii c) in
      String w (String x (String y (String z (base64 r))))
  end.

(** A quotation mark, and the end of a line. *)
Definition quote : string := String (ascii_of_N 34) "".
Definition newline : string := String (ascii_of_N 10) "".
Definition quoted (s : string) : string := quote +:+ s +:+ quote.

Example base64_pad : base64 "user:pw" = "dXNlcjpwdw==".
Proof. reflexivity. Qed.
Example base64_full : base64 "Hello!" = "SGVsbG8h".
Proof. reflexivity. Qed.
Example replace_all : ReplaceAll "abcabc" "bc" "x" = "axax".
Proof. reflexivity. Qed.
Example trim_right : TrimRight " " "a b  " = "a b".
Proof. reflexivity. Qed.

Example split_text : SplitText "[P]" "a[P]b[P]" = ["a"; "b"; ""].
Proof. reflexivity. Qed.
Example fields : Fields " @INCLUDE  a.conf " = ["@INCLUDE"; "a.conf"].
Proof. reflexivity. Qed.

(** ** Facts *)

(** The text begins nowhere in [s ++ r] before its end in [s]. *)
Definition absent (old s : string) : Prop := ContainsText s old = false.
Lemma ContainsText_false old s : ContainsText s old = false -> forall a b, s <> a +:+ old +:+ b.
Proof.
  induction s as [|c s IH]; cbn [ContainsText]; intros [Hp Hr]%orb_false_iff a b Hs.
  - destruct a; [|done]. simpl in Hs. assert (HasPrefix "" old = true); [|congruence]. apply HasPrefix_spec. by exists b.
  - destruct a as [|d a].
    + assert (HasPrefix (String c s) old = true); [|congruence]. apply HasPrefix_spec. by exists b.
    + change (String c s = String d (a +:+ old +:+ b)) in Hs. injection Hs as _ Hs. by apply (IH Hr a b).
Qed.

(** *** Splitting and joining *)

Lemma app_String c (a b : string) : String c a +:+ b = String c (a +:+ b).
Proof. reflexivity. Qed.
Lemma app_Empty (b : string) : "" +:+ b = b.
Proof. reflexivity. Qed.
Lemma app_empty_r (a : string) : a +:+ "" = a.
Proof. induction a as [|c a IH]; [done|]. by rewrite app_String, IH. Qed.
Lemma Split_Join c l : l <> [] -> Forall (fun s => has_byte c s = false) l -> Split c (Join (String c "") l) = l.
Proof.
  intros Hl Hall. induction Hall as [|s l Hs Hall IH]; [done|]. destruct l as [|s2 l]; [by apply Split_no_sep|].
  change (Join (String c "") (s :: s2 :: l)) with (s +:+ String c (Join (String c "") (s2 :: l))). rewrite Split_app by done. by rewrite IH.
Qed.

(** *** Trimming *)

Lemma TrimRight_app c a b : TrimRight c b <> "" -> TrimRight c (a +:+ b) = a +:+ TrimRight c b.
Proof.
  intros Hb. induction a as [|d a IH]; [done|]. rewrite app_String. cbn [TrimRight]. rewrite IH.
  destruct (a +:+ TrimRight c b) as [|e r] eqn:He; [|by rewrite app_String, He]. destruct a; [|done]. by destruct Hb.
Qed.

(** *** Occurrences *)

Lemma HasPrefix_cons c d s p : HasPrefix (String c s) (String d p) = Ascii.eqb d c && HasPrefix s p.
Proof. unfold HasPrefix. simpl. by destruct (ascii_dec d c) as [->|Hne]; [rewrite Ascii.eqb_refl|rewrite (proj2 (Ascii.eqb_neq d c) Hne)]. Qed.
(** A text that begins with the end of a line is not found in one line. *)
Lemma ContainsText_line c p a b : has_byte c a = false -> ContainsText (a +:+ b) (String c p) = ContainsText b (String c p).
Proof.
  induction a as [|d a IH]; [done|]. simpl has_byte. intros [Hd Ha]%orb_false_iff. rewrite app_String. cbn [ContainsText].
  rewrite HasPrefix_cons, Ascii.eqb_sym, Hd. cbn [andb orb]. by apply IH.
Qed.
Lemma replace_skip old new p s : replace_from old new (String.length p) (p +:+ s) = replace_from old new 0 s.
Proof. induction p as [|c p IH]; [done|exact IH]. Qed.
(** Where no occurrence begins, the text stays. *)
Lemma replace_clear old new a b :
  (forall a1 a2, a = a1 +:+ a2 -> a2 <> "" -> HasPrefix (a2 +:+ b) old = false) ->
  replace_from old new 0 (a +:+ b) = a +:+ replace_from old new 0 b.
Proof.
  induction a as [|c a IH]; [done|]. intros Hno. rewrite !app_String. cbn [replace_from].
  rewrite <- app_String, (Hno "" (String c a)) by done. f_equal. apply IH. intros a1 a2 Ha. apply (Hno (String c a1)). by rewrite Ha.
Qed.
(** What is added at the end and removed again leaves the text as it was, unless it
    occurs elsewhere. *)
Lemma ReplaceAll_added old a :
  old <> "" -> (forall a1 a2, a = a1 +:+ a2 -> a2 <> "" -> HasPrefix (a2 +:+ old) old = false) ->
  ReplaceAll (a +:+ old) old "" = a.
Proof.
  intros Hne Hno. unfold ReplaceAll. rewrite replace_clear by done. destruct old as [|c old]; [done|]. cbn [replace_from].
  assert (HasPrefix (String c old) (String c old) = true) as ->. { apply HasPrefix_spec. exists "". by rewrite app_empty_r. }
  cbn [String.length]. rewrite Nat.sub_1_r. cbn [Nat.pred]. rewrite app_Empty.
  rewrite <- (app_empty_r old) at 3. rewrite replace_skip. simpl. apply app_empty_r.
Qed.
Lemma app_split (a b c d : string) : a +:+ b = c +:+ d -> (exists e, a = c +:+ e /\ d = e +:+ b) \/ exists e, e <> "" /\ c = a +:+ e /\ b = e +:+ d.
Proof.
  revert c. induction a as [|x a IH]; intros c Hab.
  - destruct c as [|y c]; [left; by exists ""|]. right. by exists (String y c).
  - destruct c as [|y c]; [left; by exists (String x a)|]. rewrite !app_String in Hab. injection Hab as -> Hab.
    destruct (IH c Hab) as [(e & -> & ->)|(e & He & -> & ->)]; [left|right]; by exists e.
Qed.
(** The part of an occurrence at the end of [a] that reaches into what is added is a part
    of the added text that is both its end and its beginning. *)
Lemma ReplaceAll_added_once old a :
  old <> "" -> ContainsText a old = false ->
  (forall a2 s r, old = a2 +:+ s -> old = s +:+ r -> s <> "" -> a2 <> "" -> ContainsText a a2 = false) ->
  ReplaceAll (a +:+ old) old "" = a.
Proof.
  intros Hne Ha Hb. apply ReplaceAll_added; [done|]. intros a1 a2 -> Ha2.
  destruct (HasPrefix (a2 +:+ old) old) eqn:Hp; [|done]. exfalso. apply HasPrefix_spec in Hp as [r Hr].
  apply app_split in Hr as [(e & -> & He)|(e & He & Ho & Ho')].
  - by apply (ContainsText_false _ _ Ha a1 e).
  - apply (ContainsText_false a2 (a1 +:+ a2) (Hb a2 e r Ho Ho' He Ha2) a1 ""). by rewrite app_empty_r.
Qed.
Lemma app_nil_tail (a s : string) : s = a +:+ s -> a = "".
Proof. intros Hs. apply (f_equal String.length) in Hs. rewrite length_append in Hs. destruct a; [done|]. simpl in Hs. lia. Qed.
(** The first separator splits a text in one way. *)
Lemma first_sep_inj c a b d e :
  has_byte c a = false -> has_byte c b = false -> a +:+ String c d = b +:+ String c e -> a = b.
Proof. intros Ha Hb Hab. apply (f_equal (Split c)) in Hab. rewrite !Split_app in Hab by done. by injection Hab. Qed.
Lemma one_byte_split c (a b : string) : String c "" = a +:+ b -> a = "" \/ b = "".
Proof. destruct a as [|x a]; [by left|]. rewrite app_String. intros [= _ Hb]. right. by destruct a. Qed.
Lemma ContainsText_spec s old : ContainsText s old = true <-> exists a b, s = a +:+ old +:+ b.
Proof.
  split.
  - induction s as [|c s IH]; cbn [ContainsText]; intros [Hp|Hr]%orb_true_iff.
    + apply HasPrefix_spec in Hp as [r Hr]. by exists "", r.
    + done.
    + apply HasPrefix_spec in Hp as [r Hr]. by exists "", r.
    + destruct (IH Hr) as (a & b & ->). by exists (String c a), b.
  - intros (a & b & ->). destruct (ContainsText (a +:+ old +:+ b) old) eqn:Hc; [done|]. by destruct (ContainsText_false _ _ Hc a b).
Qed.

(** *** Splitting at a text *)

Lemma split_from_ne sep k s : split_from sep k s <> [].
Proof.
  revert k. induction s as [|c s IH]; intros k; [by destruct k|]. destruct k as [|k]; [|exact (IH k)]. cbn [split_from].
  destruct (HasPrefix (String c s) sep); [discriminate|]. by destruct (split_from sep 0 s).
Qed.
Lemma split_skip sep p s : split_from sep (String.length p) (p +:+ s) = split_from sep 0 s.
Proof. induction p as [|c p IH]; [done|exact IH]. Qed.
Lemma split_none sep s : ContainsText s sep = false -> SplitText sep s = [s].
Proof.
  unfold SplitText. induction s as [|c s IH]; [done|]. cbn [ContainsText]. intros [Hp Hc]%orb_false_iff. cbn [split_from]. by rewrite Hp, IH.
Qed.
(** A text without the byte does not reach over it. *)
Lemma HasPrefix_line n a r sep : has_byte n sep = false -> HasPrefix (a +:+ String n r) sep = HasPrefix a sep.
Proof.
  revert a. induction sep as [|d sep IH]; intros a Hn; [by destruct a|]. simpl in Hn. apply orb_false_iff in Hn as [Hd Hn].
  destruct a as [|c a]; [|by rewrite app_String, !HasPrefix_cons, IH]. change ("" +:+ String n r) with (String n r).
  by rewrite HasPrefix_cons, Ascii.eqb_sym, Ascii.eqb_sym, Hd.
Qed.
Lemma HasPrefix_length s p : HasPrefix s p = true -> (String.length p <= String.length s)%nat.
Proof. intros [r ->]%HasPrefix_spec. rewrite length_append. lia. Qed.
(** What comes after the end of a line and the separator is split by itself. *)
Lemma SplitText_line n sep a b :
  sep <> "" -> has_byte n sep = false -> SplitText sep (a +:+ String n (sep +:+ b)) = SplitText sep (a +:+ String n "") ++ SplitText sep b.
Proof.
  intros Hne Hn. unfold SplitText. enough (Hk : forall k, (k <= String.length a)%nat ->
    split_from sep k (a +:+ String n (sep +:+ b)) = split_from sep k (a +:+ String n "") ++ split_from sep 0 b) by (apply Hk; lia).
  induction a as [|c a IH]; intros k Hk.
  - simpl in Hk. assert (k = 0%nat) as -> by lia. rewrite !app_Empty. cbn [split_from].
    rewrite <- (app_Empty (String n (sep +:+ b))), <- (app_Empty (String n "")), !HasPrefix_line by done.
    destruct sep as [|d sep]; [done|]. change (HasPrefix "" (String d sep)) with false. cbn iota. rewrite app_String. cbn [split_from].
    assert (HasPrefix (String d (sep +:+ b)) (String d sep) = true) as -> by (apply HasPrefix_spec; by exists b).
    cbn [String.length]. rewrite Nat.sub_1_r. cbn [Nat.pred]. by rewrite split_skip.
  - rewrite !(app_String c a). destruct k as [|k]; cbn [split_from]; [|apply IH; simpl in Hk; lia].
    rewrite <- !(app_String c a), !HasPrefix_line by done. destruct (HasPrefix (String c a) sep) eqn:Hp.
    + apply HasPrefix_length in Hp. simpl in Hp. rewrite <- app_comm_cons. f_equal. apply IH. lia.
    + rewrite IH by lia. pose proof (split_from_ne sep 0 (a +:+ String n "")). by destruct (split_from sep 0 (a +:+ String n "")).
Qed.
