(* ===== verification/GoFloat.v ===== *)
(** Numbers of Go's type float64, as far as the program computes with them: conversion from
    int64, division and multiplication, math.Trunc, and their text with two decimals. *)
From S2P Require Import Prelude GoStrings.
From Stdlib Require Import SpecFloat.

Abbreviation float64 := spec_float (only parsing).
Definition to_float (z : Z) : float64 := binary_normalize 53 1024 z 0 false.
Definition fdiv : float64 -> float64 -> float64 := SFdiv 53 1024.
Definition fmul : float64 -> float64 -> float64 := SFmul 53 1024.
Definition Trunc (f : float64) : float64 :=
  match f with
  | S754_finite s m e =>
      if 0 <=? e then f
      else
        let q := Z.pos m / 2 ^ (- e) in
        if q =? 0 then S754_zero s else binary_normalize 53 1024 (if s then - q else q) 0 s
  | _ => f
  end.

(** The nearest number of hundredths; of two that are as near, the even one. *)
Definition nearest_even (x d : Z) : Z :=
  let q := x / d in
  let r := x mod d in
  if 2 * r <? d then q else if d <? 2 * r then q + 1 else if Z.even q then q else q + 1.
Definition hundredths (m e : Z) : Z := if 0 <=? e then 100 * m * 2 ^ e else nearest_even (100 * m) (2 ^ (- e)).
Definition two_digits (z : Z) : string := if z <? 10 then "0" +:+ Itoa z else Itoa z.
Definition decimal (n : Z) : string := Itoa (n / 100) +:+ "." +:+ two_digits (n mod 100).
(** fmt.Sprintf with %.2f. *)
Definition format_2f (f : float64) : string :=
  match f with
  | S754_zero s => (if s then "-" else "") +:+ "0.00"
  | S754_infinity s => if s then "-Inf" else "+Inf"
  | S754_nan => "NaN"
  | S754_finite s m e => (if s then "-" else "") +:+ decimal (hundredths (Z.pos m) e)
  end.

Example third : format_2f (fdiv (to_float 1) (to_float 3)) = "0.33".
Proof. reflexivity. Qed.
Example half_even : format_2f (fdiv (to_float 1) (to_float 8)) = "0.12".
Proof. reflexivity. Qed.
Example nothing_of_nothing : format_2f (fdiv (to_float 0) (to_float 0)) = "NaN".
Proof. reflexivity. Qed.
Example all_of_nothing : format_2f (fdiv (to_float 5) (to_float 0)) = "+Inf".
Proof. reflexivity. Qed.
