(* ===== verification/ClusterTypes.v ===== *)
(** The cluster and node resources (pkg/types/cluster.go, pkg/types/node.go) and
    their translation to and from the configuration of the zke library
    (pkg/zke/zke.go and Cluster.ToScCluster of pkg/zke/cluster.go). *)
From S2P Require Import Prelude KvStore GoStrings.

(** ** Resources *)

(** types.ClusterStatus *)
Inductive ClusterStatus :=
  | CSRunning | CSUnreachable | CSCreating | CSCreateFailed | CSUpdating | CSDeleting | CSDeleted.

#[export] Instance ClusterStatus_eq_dec : EqDecision ClusterStatus.
Proof. solve_decision. Defined.

(** types.NodeRole is a string; these are its constants. *)
Abbreviation NodeRole := string (only parsing).
Definition RoleControlPlane : NodeRole := "controlplane".
Definition RoleEtcd : NodeRole := "etcd".
Definition RoleWorker : NodeRole := "worker".
Definition RoleEdge : NodeRole := "edge".
Definition RoleStorage : NodeRole := "storage".

(** types.Node: the fields a cluster configuration carries (the others report
    the state of the running node and are not read here). *)
Record Node := mkNode { nd_Name : string; nd_Address : string; nd_Roles : list NodeRole }.

#[export] Instance Node_eq_dec : EqDecision Node.
Proof. solve_decision. Defined.

(** Node.HasRole *)
Fixpoint has_role (roles : list NodeRole) (role : NodeRole) : bool :=
  match roles with
  | [] => false
  | role_ :: rest => if String.eqb role role_ then true else has_role rest role
  end.
Definition HasRole (n : Node) (role : NodeRole) : bool := has_role n.(nd_Roles) role.

Record ClusterNetwork := mkNetwork { Plugin : string; Iface : string }.

Record ClusterLoadBalance := mkLB {
  lb_Enable : bool; lb_MasterServer : string; lb_BackupServer : string;
  lb_User : string; lb_Password : string
}.

#[export] Instance ClusterNetwork_eq_dec : EqDecision ClusterNetwork.
Proof. solve_decision. Defined.
#[export] Instance ClusterLoadBalance_eq_dec : EqDecision ClusterLoadBalance.
Proof. solve_decision. Defined.

(** types.Cluster.  [cl_ID] and the two timestamps are those of
    resource.ResourceBase. *)
Record Cluster := mkCluster {
  cl_ID : string; cl_CreationTimestamp : Z; cl_DeletionTimestamp : Z;
  cl_Nodes : list Node; cl_Network : ClusterNetwork; cl_LoadBalance : ClusterLoadBalance;
  cl_SingleCloudAddress : string; cl_Name : string; cl_Status : option ClusterStatus;
  cl_NodesCount : Z; cl_ScVersion : string;
  cl_SSHUser : string; cl_SSHKey : string; cl_SSHPort : string;
  cl_ClusterCidr : string; cl_ServiceCidr : string; cl_ClusterDomain : string;
  cl_ClusterDNSServiceIP : string; cl_ClusterUpstreamDNS : list string
}.

Definition empty_lb : ClusterLoadBalance := mkLB false "" "" "" "".

(** Cluster.CreateDefaultResource *)
Definition CreateDefaultResource : Cluster := {|
  cl_ID := ""; cl_CreationTimestamp := 0; cl_DeletionTimestamp := 0;
  cl_Nodes := []; cl_Network := mkNetwork "flannel" ""; cl_LoadBalance := empty_lb;
  cl_SingleCloudAddress := ""; cl_Name := ""; cl_Status := None; cl_NodesCount := 0;
  cl_ScVersion := ""; cl_SSHUser := ""; cl_SSHKey := ""; cl_SSHPort := "22";
  cl_ClusterCidr := "10.42.0.0/16"; cl_ServiceCidr := "10.43.0.0/16";
  cl_ClusterDomain := "cluster.local"; cl_ClusterDNSServiceIP := "10.43.0.10";
  cl_ClusterUpstreamDNS := ["223.5.5.5"; "114.114.114.114"]
|}.

(** Cluster.TrimFieldSpace: every text field but the keys and the resource's own. *)
Definition TrimFieldSpace (c : Cluster) : Cluster := {|
  cl_ID := c.(cl_ID); cl_CreationTimestamp := c.(cl_CreationTimestamp);
  cl_DeletionTimestamp := c.(cl_DeletionTimestamp);
  cl_Nodes := (fun n => mkNode (TrimSpace n.(nd_Name)) (TrimSpace n.(nd_Address)) n.(nd_Roles))
                <$> c.(cl_Nodes);
  cl_Network := c.(cl_Network);
  cl_LoadBalance := mkLB c.(cl_LoadBalance).(lb_Enable)
                         (TrimSpace c.(cl_LoadBalance).(lb_MasterServer))
                         (TrimSpace c.(cl_LoadBalance).(lb_BackupServer))
                         (TrimSpace c.(cl_LoadBalance).(lb_User))
                         (TrimSpace c.(cl_LoadBalance).(lb_Password));
  cl_SingleCloudAddress := TrimSpace c.(cl_SingleCloudAddress);
  cl_Name := TrimSpace c.(cl_Name); cl_Status := c.(cl_Status);
  cl_NodesCount := c.(cl_NodesCount); cl_ScVersion := c.(cl_ScVersion);
  cl_SSHUser := TrimSpace c.(cl_SSHUser); cl_SSHKey := c.(cl_SSHKey);
  cl_SSHPort := TrimSpace c.(cl_SSHPort); cl_ClusterCidr := TrimSpace c.(cl_ClusterCidr);
  cl_ServiceCidr := TrimSpace c.(cl_ServiceCidr); cl_ClusterDomain := TrimSpace c.(cl_ClusterDomain);
  cl_ClusterDNSServiceIP := TrimSpace c.(cl_ClusterDNSServiceIP);
  cl_ClusterUpstreamDNS := TrimSpace <$> c.(cl_ClusterUpstreamDNS)
|}.

(** ** The zke configuration *)

(** The fields of zke/types.ZKEConfig that the program sets or reads. *)
Record ZKEConfigNode := mkZNode { zn_NodeName : string; zn_Address : string; zn_Role : list string }.

#[export] Instance ZKEConfigNode_eq_dec : EqDecision ZKEConfigNode.
Proof. solve_decision. Defined.

Record ZKEConfigOption := mkOption {
  zo_SSHUser : string; zo_SSHPort : string; zo_SSHKey : string; zo_ClusterCidr : string;
  zo_ServiceCidr : string; zo_ClusterDomain : string; zo_ClusterDNSServiceIP : string;
  zo_ClusterUpstreamDNS : list string
}.

#[export] Instance ZKEConfigOption_eq_dec : EqDecision ZKEConfigOption.
Proof. solve_decision. Defined.

Record ZKEConfig := mkConfig {
  zc_ClusterName : string; zc_Option : ZKEConfigOption; zc_Network : ClusterNetwork;
  zc_SingleCloudAddress : string; zc_Nodes : list ZKEConfigNode; zc_LoadBalance : ClusterLoadBalance
}.

#[export] Instance ZKEConfig_eq_dec : EqDecision ZKEConfig.
Proof. solve_decision. Defined.

(** scClusterToZKENodes: an etcd role follows every controlplane role. *)
Definition zke_roles (roles : list NodeRole) : list string :=
  roles ≫= fun role => if String.eqb role RoleControlPlane then [role; RoleEtcd] else [role].
Definition scClusterToZKENodes (sc : Cluster) : list ZKEConfigNode :=
  (fun n => mkZNode n.(nd_Name) n.(nd_Address) (zke_roles n.(nd_Roles))) <$> sc.(cl_Nodes).

Definition genZKEConfig (c : Cluster) : ZKEConfig := {|
  zc_ClusterName := c.(cl_Name);
  zc_Option := {|
    zo_SSHUser := c.(cl_SSHUser); zo_SSHPort := c.(cl_SSHPort); zo_SSHKey := c.(cl_SSHKey);
    zo_ClusterCidr := c.(cl_ClusterCidr); zo_ServiceCidr := c.(cl_ServiceCidr);
    zo_ClusterDomain := c.(cl_ClusterDomain);
    zo_ClusterDNSServiceIP := c.(cl_ClusterDNSServiceIP);
    zo_ClusterUpstreamDNS := c.(cl_ClusterUpstreamDNS) |};
  zc_Network := mkNetwork c.(cl_Network).(Plugin) c.(cl_Network).(Iface);
  zc_SingleCloudAddress := c.(cl_SingleCloudAddress);
  zc_Nodes := scClusterToZKENodes c;
  zc_LoadBalance := mkLB c.(cl_LoadBalance).(lb_Enable) c.(cl_LoadBalance).(lb_MasterServer)
                         c.(cl_LoadBalance).(lb_BackupServer) c.(cl_LoadBalance).(lb_User)
                         c.(cl_LoadBalance).(lb_Password)
|}.

(** genZKEConfigForUpdate: a copy of the old configuration with the new SSH
    settings, address and nodes; an empty key keeps the old one. *)
Definition genZKEConfigForUpdate (config : ZKEConfig) (sc : Cluster) : ZKEConfig := {|
  zc_ClusterName := config.(zc_ClusterName);
  zc_Option := {|
    zo_SSHUser := sc.(cl_SSHUser); zo_SSHPort := sc.(cl_SSHPort);
    zo_SSHKey := if String.eqb sc.(cl_SSHKey) "" then config.(zc_Option).(zo_SSHKey)
                 else sc.(cl_SSHKey);
    zo_ClusterCidr := config.(zc_Option).(zo_ClusterCidr);
    zo_ServiceCidr := config.(zc_Option).(zo_ServiceCidr);
    zo_ClusterDomain := config.(zc_Option).(zo_ClusterDomain);
    zo_ClusterDNSServiceIP := config.(zc_Option).(zo_ClusterDNSServiceIP);
    zo_ClusterUpstreamDNS := config.(zc_Option).(zo_ClusterUpstreamDNS) |};
  zc_Network := config.(zc_Network);
  zc_SingleCloudAddress := sc.(cl_SingleCloudAddress);
  zc_Nodes := scClusterToZKENodes sc;
  zc_LoadBalance := config.(zc_LoadBalance)
|}.

(** The node part of Cluster.ToScCluster: the etcd role is not shown. *)
Definition sc_roles (roles : list string) : list NodeRole :=
  filter (fun role => role <> RoleEtcd) roles.
Definition zke_nodes_to_sc (ns : list ZKEConfigNode) : list Node :=
  (fun n => mkNode n.(zn_NodeName) n.(zn_Address) (sc_roles n.(zn_Role))) <$> ns.

(** Cluster.ToScCluster, from the fields of the zke.Cluster it reads.  The load
    balancer and the SSH key are not shown. *)
Definition config_to_sc (name scVersion : string) (createTime deleteTime : Z)
    (status : ClusterStatus) (config : ZKEConfig) : Cluster := {|
  cl_ID := name; cl_CreationTimestamp := createTime; cl_DeletionTimestamp := deleteTime;
  cl_Nodes := zke_nodes_to_sc config.(zc_Nodes);
  cl_Network := mkNetwork config.(zc_Network).(Plugin) config.(zc_Network).(Iface);
  cl_LoadBalance := empty_lb;
  cl_SingleCloudAddress := config.(zc_SingleCloudAddress);
  cl_Name := name; cl_Status := Some status;
  cl_NodesCount := Z.of_nat (length config.(zc_Nodes));
  cl_ScVersion := scVersion;
  cl_SSHUser := config.(zc_Option).(zo_SSHUser); cl_SSHKey := "";
  cl_SSHPort := config.(zc_Option).(zo_SSHPort);
  cl_ClusterCidr := config.(zc_Option).(zo_ClusterCidr);
  cl_ServiceCidr := config.(zc_Option).(zo_ServiceCidr);
  cl_ClusterDomain := config.(zc_Option).(zo_ClusterDomain);
  cl_ClusterDNSServiceIP := config.(zc_Option).(zo_ClusterDNSServiceIP);
  cl_ClusterUpstreamDNS := config.(zc_Option).(zo_ClusterUpstreamDNS)
|}.

(** ** Facts *)

Lemma has_role_elem roles role : has_role roles role = true <-> role ∈ roles.
Proof.
  induction roles as [|r rs IH]; simpl; [set_solver|].
  destruct (String.eqb_spec role r) as [->|Hne]; set_solver.
Qed.

Lemma HasRole_elem n role : HasRole n role = true <-> role ∈ n.(nd_Roles).
Proof. apply has_role_elem. Qed.

Lemma HasRole_false n role : HasRole n role = false <-> role ∉ n.(nd_Roles).
Proof. rewrite <- HasRole_elem. by destruct (HasRole n role). Qed.

Create HintDb cluster discriminated.
#[export] Hint Resolve -> HasRole_elem : cluster.
#[export] Hint Resolve <- HasRole_elem : cluster.

(** Adding the etcd roles and hiding them again gives the roles back. *)
Lemma sc_roles_zke_roles roles : RoleEtcd ∉ roles -> sc_roles (zke_roles roles) = roles.
Proof.
  unfold sc_roles, zke_roles. induction roles as [|r rs IH]; [done|].
  intros [Hr Hrs]%not_elem_of_cons. rewrite bind_cons, filter_app, IH by done.
  destruct (String.eqb_spec r RoleControlPlane) as [->|Hne]; [done|].
  by rewrite filter_cons_True by congruence.
Qed.

(** The etcd role of the zke configuration marks exactly the control plane. *)
Lemma zke_roles_etcd roles :
  RoleEtcd ∉ roles -> (RoleEtcd ∈ zke_roles roles <-> RoleControlPlane ∈ roles).
Proof.
  intros Hno. unfold zke_roles. rewrite list_elem_of_bind. split.
  - intros (role & Hin & Hr). destruct (String.eqb_spec role RoleControlPlane) as [Heq|Hne].
    + by subst.
    + apply list_elem_of_singleton in Hin. by subst.
  - intros Hcp. exists RoleControlPlane. split; [|done]. simpl. set_solver.
Qed.

Lemma zke_nodes_round_trip (c : Cluster) :
  Forall (fun n => RoleEtcd ∉ n.(nd_Roles)) c.(cl_Nodes) ->
  zke_nodes_to_sc (scClusterToZKENodes c) = c.(cl_Nodes).
Proof.
  unfold zke_nodes_to_sc, scClusterToZKENodes. rewrite <- list_fmap_compose.
  intros Hall. rewrite <- (list_fmap_id (cl_Nodes c)) at 2.
  apply list_fmap_ext. intros i [name addr roles] Hi. simpl.
  rewrite sc_roles_zke_roles; [done|].
  by apply (Forall_lookup_1 _ _ _ _ Hall Hi).
Qed.
