(* ===== verification/ClusterValidation.v ===== *)
(** The checks a cluster configuration passes before it is created or updated
    (pkg/zke/validation.go and validation_util.go), and what an accepted
    configuration satisfies. *)
From S2P Require Import Prelude GoStrings ClusterTypes.

(** ** Helpers of validation_util.go *)

Definition string_set (l : list string) : gset string := list_to_set l.

Definition isNodeRolesChanage (oldNode newNode : Node) : bool :=
  let oldRoles := string_set oldNode.(nd_Roles) in
  let newRoles := string_set newNode.(nd_Roles) in
  negb (bool_decide (newRoles = oldRoles)).

Definition isNodeRoleDuplicate (node : Node) : bool :=
  negb (Nat.eqb (size (string_set node.(nd_Roles))) (length node.(nd_Roles))).

Definition is_v4 (ip : IP) : bool := match To4 ip with Some _ => true | None => false end.

Definition isIPv4 (input : string) : bool :=
  match ParseIP input with Some ip => is_v4 ip | None => false end.

Definition isCIDRv4 (input : string) : bool :=
  match ParseCIDR input with Some (ip, _) => is_v4 ip | None => false end.

Definition isCIDRv4Contains (network ip : string) : bool :=
  match ParseIP ip with
  | Some ipv4 =>
      if negb (is_v4 ipv4) then false
      else match ParseCIDR network with
           | Some (_, networkv4) => Contains networkv4 ipv4
           | None => false
           end
  | None => false
  end.

Definition isIPv4Host (input : string) : bool :=
  match Split ":" input with
  | [host; port] =>
      match Atoi port with
      | Some port =>
          match ParseIP host with
          | Some ip => is_v4 ip && (0 <? port) && (port <=? 65535)
          | None => false
          end
      | None => false
      end
  | _ => false
  end.

Definition getToDeleteNodes (old new : Cluster) : list string :=
  let newNodes := string_set (nd_Name <$> new.(cl_Nodes)) in
  filter (fun name => name ∉ newNodes) (nd_Name <$> old.(cl_Nodes)).

(** ** Validators *)

(** The error texts of the validators. *)
Inductive ValidationError :=
  | EDnsServiceIP | EUpstreamDNS | EClusterCidr | EServiceCidr | EDnsNotInServiceCidr
  | EDupAddress (addr : string) | EDupName (name : string)
  | ENodeCount
  | ENoMainRole (name : string) | EBothMainRoles (name : string) | EDupRole (name : string)
  | ENodeAddress (addr : string)
  | EScAddress | EScIsNode (addr : string)
  | ELbMaster | ELbBackup | ELbUser
  | ESSHKey
  | EControlPlaneRemoved (addr : string) | ERoleChange (addr : string) | ENameChange (addr : string)
  | EStorageCheck | EStorageNode (name : string).

Definition validator := Cluster -> result ValidationError unit.

Definition validateClusterCIDRAndIPs : validator := fun c =>
  if negb (isIPv4 c.(cl_ClusterDNSServiceIP)) then Err EDnsServiceIP else
  match each (fun ns => check (isIPv4 ns) EUpstreamDNS) c.(cl_ClusterUpstreamDNS) with
  | Err e => Err e
  | Ok _ =>
      if negb (isCIDRv4 c.(cl_ClusterCidr)) then Err EClusterCidr else
      if negb (isCIDRv4 c.(cl_ServiceCidr)) then Err EServiceCidr else
      if negb (isCIDRv4Contains c.(cl_ServiceCidr) c.(cl_ClusterDNSServiceIP))
      then Err EDnsNotInServiceCidr else Ok tt
  end.

(** Every pair of different indices, in the order of the two loops. *)
Definition validateDuplicateNodes : validator := fun c =>
  let nodes := imap pair c.(cl_Nodes) in
  each (fun '(i, a) =>
    each (fun '(j, b) =>
      if decide (i = j) then Ok tt
      else if String.eqb a.(nd_Address) b.(nd_Address) then Err (EDupAddress a.(nd_Address))
      else if String.eqb a.(nd_Name) b.(nd_Name) then Err (EDupName a.(nd_Name))
      else Ok tt) nodes) nodes.

Definition validateNodeCount : validator := fun c =>
  let hasControlplane := existsb (fun n => HasRole n RoleControlPlane) c.(cl_Nodes) in
  let hasWorker := existsb (fun n => HasRole n RoleWorker) c.(cl_Nodes) in
  if negb hasControlplane || negb hasWorker then Err ENodeCount else Ok tt.

Definition validateNodeNameRoleAndAddress : validator := fun c =>
  each (fun n =>
    if negb (HasRole n RoleControlPlane) && negb (HasRole n RoleWorker)
    then Err (ENoMainRole n.(nd_Name)) else
    if HasRole n RoleControlPlane && HasRole n RoleWorker
    then Err (EBothMainRoles n.(nd_Name)) else
    if isNodeRoleDuplicate n then Err (EDupRole n.(nd_Name)) else
    if negb (isIPv4 n.(nd_Address)) then Err (ENodeAddress n.(nd_Address)) else Ok tt)
  c.(cl_Nodes).

(** strings.Split(s, ":")[0] *)
Definition host_part (s : string) : string := default "" (head (Split ":" s)).

Definition validateScAddress : validator := fun c =>
  if negb (isIPv4Host c.(cl_SingleCloudAddress)) then Err EScAddress else
  let scIp := host_part c.(cl_SingleCloudAddress) in
  each (fun n => if String.eqb n.(nd_Address) scIp then Err (EScIsNode n.(nd_Address)) else Ok tt)
       c.(cl_Nodes).

Definition validateLBConfig : validator := fun c =>
  let lb := c.(cl_LoadBalance) in
  if negb lb.(lb_Enable) then Ok tt else
  if negb (isIPv4 lb.(lb_MasterServer)) && negb (isIPv4Host lb.(lb_MasterServer))
  then Err ELbMaster else
  if negb (String.eqb lb.(lb_BackupServer) "") && negb (isIPv4 lb.(lb_BackupServer))
     && negb (isIPv4Host lb.(lb_BackupServer))
  then Err ELbBackup else
  if String.eqb lb.(lb_User) "" then Err ELbUser else Ok tt.

Definition createValidators : list validator :=
  [validateClusterCIDRAndIPs; validateDuplicateNodes; validateNodeCount;
   validateNodeNameRoleAndAddress; validateScAddress; validateLBConfig].

Definition validateClusterSSHKeyNotEmpty : validator := fun c =>
  if String.eqb c.(cl_SSHKey) "" then Err ESSHKey else Ok tt.

Definition validateConfigForCreate : validator := fun c =>
  match each (fun f : validator => f c) createValidators with
  | Err e => Err e
  | Ok _ => validateClusterSSHKeyNotEmpty c
  end.

Definition updateValidator := Cluster -> Cluster -> result ValidationError unit.

Definition validateCannotDeleteNode : updateValidator := fun old new =>
  let cpHosts := string_set (nd_Address <$> filter (fun n => HasRole n RoleControlPlane) new.(cl_Nodes)) in
  each (fun n =>
    if HasRole n RoleControlPlane then
      if decide (n.(nd_Address) ∈ cpHosts) then Ok tt else Err (EControlPlaneRemoved n.(nd_Address))
    else Ok tt) old.(cl_Nodes).

Definition validateNodesRoleChanage : updateValidator := fun old new =>
  each (fun o => each (fun n =>
    if String.eqb o.(nd_Address) n.(nd_Address) then
      if isNodeRolesChanage o n then Err (ERoleChange o.(nd_Address)) else Ok tt
    else Ok tt) new.(cl_Nodes)) old.(cl_Nodes).

Definition validateNodesNameChanage : updateValidator := fun old new =>
  each (fun o => each (fun n =>
    if String.eqb o.(nd_Address) n.(nd_Address) then
      if negb (String.eqb o.(nd_Name) n.(nd_Name)) then Err (ENameChange o.(nd_Address)) else Ok tt
    else Ok tt) new.(cl_Nodes)) old.(cl_Nodes).

Definition updateValidators : list updateValidator :=
  [validateCannotDeleteNode; validateNodesRoleChanage; validateNodesNameChanage].

(** The interface NodeListener, implemented by the storage handler: whether a
    node of the cluster is used for storage; [None] is an error. *)
Class NodeListener := IsStorageNode : string -> string -> option bool.

(** [hasClient] is [currentCluster.kubeClient != nil]. *)
Definition validateToDeleteStorageNodes `{NodeListener} (hasClient : bool)
    : updateValidator := fun old new =>
  if negb hasClient then Ok tt else
  each (fun n =>
    match IsStorageNode old.(cl_Name) n with
    | None => Err EStorageCheck
    | Some true => Err (EStorageNode n)
    | Some false => Ok tt
    end) (getToDeleteNodes old new).

Definition validateConfigForUpdate `{NodeListener} (hasClient : bool) : updateValidator :=
  fun old new =>
  match each (fun f : validator => f new) createValidators with
  | Err e => Err e
  | Ok _ =>
      match each (fun f : updateValidator => f old new) updateValidators with
      | Err e => Err e
      | Ok _ => validateToDeleteStorageNodes hasClient old new
      end
  end.

(** ** What an accepted configuration satisfies *)

(** A node is either a controlplane or a worker, its roles are distinct and it has
    an IPv4 address. *)
Record valid_node (n : Node) : Prop := {
  vn_main : RoleControlPlane ∈ n.(nd_Roles) \/ RoleWorker ∈ n.(nd_Roles);
  vn_one : ~ (RoleControlPlane ∈ n.(nd_Roles) /\ RoleWorker ∈ n.(nd_Roles));
  vn_roles : NoDup n.(nd_Roles);
  vn_addr : isIPv4 n.(nd_Address) = true
}.

Definition v4_or_host (s : string) : Prop := isIPv4 s = true \/ isIPv4Host s = true.

Record valid_lb (lb : ClusterLoadBalance) : Prop := {
  vl_master : v4_or_host lb.(lb_MasterServer);
  vl_backup : lb.(lb_BackupServer) = "" \/ v4_or_host lb.(lb_BackupServer);
  vl_user : lb.(lb_User) <> ""
}.

Record valid_cluster (c : Cluster) : Prop := {
  vc_dns : isIPv4 c.(cl_ClusterDNSServiceIP) = true;
  vc_upstream : Forall (fun ns => isIPv4 ns = true) c.(cl_ClusterUpstreamDNS);
  vc_cidrs : isCIDRv4 c.(cl_ClusterCidr) = true /\ isCIDRv4 c.(cl_ServiceCidr) = true;
  vc_dns_in : isCIDRv4Contains c.(cl_ServiceCidr) c.(cl_ClusterDNSServiceIP) = true;
  vc_addrs : NoDup (nd_Address <$> c.(cl_Nodes));
  vc_names : NoDup (nd_Name <$> c.(cl_Nodes));
  vc_cp : exists n, n ∈ c.(cl_Nodes) /\ RoleControlPlane ∈ n.(nd_Roles);
  vc_worker : exists n, n ∈ c.(cl_Nodes) /\ RoleWorker ∈ n.(nd_Roles);
  vc_nodes : Forall valid_node c.(cl_Nodes);
  vc_sc : isIPv4Host c.(cl_SingleCloudAddress) = true;
  vc_sc_node : host_part c.(cl_SingleCloudAddress) ∉ (nd_Address <$> c.(cl_Nodes));
  vc_lb : c.(cl_LoadBalance).(lb_Enable) = true -> valid_lb c.(cl_LoadBalance)
}.

(** ** Each validator *)

Lemma validateClusterCIDRAndIPs_ok c :
  validateClusterCIDRAndIPs c = Ok tt <->
  isIPv4 c.(cl_ClusterDNSServiceIP) = true /\
  Forall (fun ns => isIPv4 ns = true) c.(cl_ClusterUpstreamDNS) /\
  isCIDRv4 c.(cl_ClusterCidr) = true /\ isCIDRv4 c.(cl_ServiceCidr) = true /\
  isCIDRv4Contains c.(cl_ServiceCidr) c.(cl_ClusterDNSServiceIP) = true.
Proof.
  unfold validateClusterCIDRAndIPs.
  assert (Hup : each (fun ns => check (isIPv4 ns) EUpstreamDNS) c.(cl_ClusterUpstreamDNS) = Ok tt
          <-> Forall (fun ns => isIPv4 ns = true) c.(cl_ClusterUpstreamDNS)).
  { rewrite each_ok. apply Forall_iff. intros. apply check_ok. }
  rewrite <- Hup. clear Hup.
  destruct (isIPv4 _), (each _ _) as [[]|], (isCIDRv4 (cl_ClusterCidr c)),
    (isCIDRv4 (cl_ServiceCidr c)), (isCIDRv4Contains _ _); naive_solver.
Qed.

(** A list whose values at different indices differ has no duplicates. *)
Lemma NoDup_fmap_lookup {A} (f : A -> string) (l : list A) :
  NoDup (f <$> l) <->
  forall i j a b, l !! i = Some a -> l !! j = Some b -> i <> j -> f a <> f b.
Proof.
  rewrite NoDup_alt. split.
  - intros Hnd i j a b Ha Hb Hij Heq. apply Hij. apply (Hnd i j (f a)).
    + by rewrite list_lookup_fmap, Ha.
    + by rewrite list_lookup_fmap, Hb, Heq.
  - intros Hne i j x Hi Hj. rewrite list_lookup_fmap, fmap_Some in Hi, Hj.
    destruct Hi as (a & Ha & ->), Hj as (b & Hb & Heq).
    destruct (decide (i = j)); [done|]. by destruct (Hne i j a b).
Qed.

Lemma elem_of_imap_pair {A} (l : list A) i a : (i, a) ∈ imap pair l <-> l !! i = Some a.
Proof.
  rewrite list_elem_of_lookup. split.
  - intros [k Hk]. rewrite list_lookup_imap in Hk.
    destruct (l !! k) eqn:E; simpl in Hk; congruence.
  - intros Ha. exists i. by rewrite list_lookup_imap, Ha.
Qed.

Lemma validateDuplicateNodes_ok c :
  validateDuplicateNodes c = Ok tt <->
  NoDup (nd_Address <$> c.(cl_Nodes)) /\ NoDup (nd_Name <$> c.(cl_Nodes)).
Proof.
  unfold validateDuplicateNodes. rewrite !NoDup_fmap_lookup, each_ok_in. split.
  - intros H. assert (Hp : forall i j a b, c.(cl_Nodes) !! i = Some a -> c.(cl_Nodes) !! j = Some b ->
      i <> j -> nd_Address a <> nd_Address b /\ nd_Name a <> nd_Name b); [|naive_solver].
    intros i j a b Ha Hb Hij. apply elem_of_imap_pair in Ha, Hb.
    specialize (H _ Ha). simpl in H. rewrite each_ok_in in H. specialize (H _ Hb). simpl in H.
    destruct (decide (i = j)); [done|].
    by destruct (String.eqb_spec (nd_Address a) (nd_Address b)),
      (String.eqb_spec (nd_Name a) (nd_Name b)).
  - intros [Haddr Hname] [i a] Ha. rewrite each_ok_in. intros [j b] Hb.
    apply elem_of_imap_pair in Ha, Hb. destruct (decide (i = j)) as [|Hij]; [done|].
    destruct (String.eqb_spec (nd_Address a) (nd_Address b)); [by destruct (Haddr _ _ _ _ Ha Hb Hij)|].
    destruct (String.eqb_spec (nd_Name a) (nd_Name b)); [by destruct (Hname _ _ _ _ Ha Hb Hij)|done].
Qed.

Lemma existsb_HasRole r l :
  existsb (fun n => HasRole n r) l = true <-> exists n, n ∈ l /\ r ∈ n.(nd_Roles).
Proof.
  rewrite existsb_exists. setoid_rewrite HasRole_elem.
  by setoid_rewrite <- list_elem_of_In.
Qed.

Lemma validateNodeCount_ok c :
  validateNodeCount c = Ok tt <->
  (exists n, n ∈ c.(cl_Nodes) /\ RoleControlPlane ∈ n.(nd_Roles)) /\
  (exists n, n ∈ c.(cl_Nodes) /\ RoleWorker ∈ n.(nd_Roles)).
Proof.
  rewrite <- !existsb_HasRole. unfold validateNodeCount.
  destruct (existsb _ _), (existsb _ _); naive_solver.
Qed.

Lemma size_string_set_le (l : list string) : (size (string_set l) <= length l)%nat.
Proof.
  unfold string_set. induction l as [|a l IH]; [done|]. cbn [list_to_set length].
  rewrite size_union_alt, size_singleton.
  pose proof (subseteq_size (list_to_set l ∖ {[a]}) (list_to_set (C := gset string) l)
    ltac:(set_solver)). lia.
Qed.

Lemma size_list_to_set_NoDup (l : list string) :
  size (string_set l) = length l <-> NoDup l.
Proof.
  unfold string_set. split; [|apply size_list_to_set].
  induction l as [|a l IH]; simpl; intros Hsz; [constructor|].
  pose proof (size_string_set_le l) as Hle. unfold string_set in Hle.
  destruct (decide (a ∈ l)) as [Hin|Hin].
  - rewrite (subseteq_union_1_L {[a]} (list_to_set l : gset string)) in Hsz by set_solver. lia.
  - constructor; [done|]. apply IH. rewrite size_union in Hsz by set_solver.
    rewrite size_singleton in Hsz. lia.
Qed.

Lemma isNodeRoleDuplicate_false n : isNodeRoleDuplicate n = false <-> NoDup n.(nd_Roles).
Proof.
  unfold isNodeRoleDuplicate. by rewrite negb_false_iff, Nat.eqb_eq, size_list_to_set_NoDup.
Qed.

Lemma validateNodeNameRoleAndAddress_ok c :
  validateNodeNameRoleAndAddress c = Ok tt <-> Forall valid_node c.(cl_Nodes).
Proof.
  unfold validateNodeNameRoleAndAddress. rewrite each_ok. apply Forall_iff. intros n.
  pose proof (HasRole_elem n RoleControlPlane) as Hc.
  pose proof (HasRole_elem n RoleWorker) as Hw.
  pose proof (isNodeRoleDuplicate_false n) as Hd.
  split.
  - intros H. destruct (HasRole n RoleControlPlane), (HasRole n RoleWorker),
      (isNodeRoleDuplicate n), (isIPv4 (nd_Address n)) eqn:Ha; try done;
      (split; [naive_solver|naive_solver|naive_solver|done]).
  - intros [Hm Ho Hn Ha]. rewrite Ha.
    destruct (HasRole n RoleControlPlane), (HasRole n RoleWorker), (isNodeRoleDuplicate n);
      naive_solver.
Qed.

Lemma validateScAddress_ok c :
  validateScAddress c = Ok tt <->
  isIPv4Host c.(cl_SingleCloudAddress) = true /\
  host_part c.(cl_SingleCloudAddress) ∉ (nd_Address <$> c.(cl_Nodes)).
Proof.
  unfold validateScAddress. destruct (isIPv4Host _); simpl; [|naive_solver].
  rewrite each_ok_in, list_elem_of_fmap. split.
  - intros H. split; [done|]. intros (n & Heq & Hn). specialize (H n Hn).
    rewrite <- Heq, String.eqb_refl in H. done.
  - intros [_ H] n Hn. destruct (String.eqb_spec (nd_Address n) (host_part (cl_SingleCloudAddress c)));
      naive_solver.
Qed.

Lemma validateLBConfig_ok c :
  validateLBConfig c = Ok tt <->
  (c.(cl_LoadBalance).(lb_Enable) = true -> valid_lb c.(cl_LoadBalance)).
Proof.
  unfold validateLBConfig. destruct (cl_LoadBalance c) as [en ms bs us pw]; simpl.
  destruct en; simpl; [|naive_solver]. split.
  - intros H _. destruct (isIPv4 ms) eqn:?, (isIPv4Host ms) eqn:?; try done;
      destruct (String.eqb_spec bs "") as [|?], (isIPv4 bs) eqn:?, (isIPv4Host bs) eqn:?,
        (String.eqb_spec us "") as [|?]; simpl in H; try done;
      (split; [hnf; simpl; tauto | unfold v4_or_host; simpl; tauto | done]).
  - intros H. destruct H as [Hm Hb Hu]; [done|]. unfold v4_or_host in *; simpl in *.
    destruct (isIPv4 ms), (isIPv4Host ms), (String.eqb_spec bs ""), (isIPv4 bs), (isIPv4Host bs),
      (String.eqb_spec us ""); simpl; naive_solver.
Qed.

Lemma createValidators_ok c :
  each (fun f : validator => f c) createValidators = Ok tt <-> valid_cluster c.
Proof.
  rewrite each_ok. unfold createValidators. rewrite !Forall_cons, Forall_nil.
  rewrite validateClusterCIDRAndIPs_ok, validateDuplicateNodes_ok, validateNodeCount_ok,
    validateNodeNameRoleAndAddress_ok, validateScAddress_ok, validateLBConfig_ok.
  split; [intros; destruct_and!; by constructor | intros []; destruct_and?; naive_solver].
Qed.

(** With distinct addresses, one node has a given address. *)
Lemma filter_one_address (l : list Node) n addr :
  NoDup (nd_Address <$> l) -> n ∈ l -> n.(nd_Address) = addr ->
  filter (fun m => m.(nd_Address) = addr) l = [n].
Proof.
  intros Hnd Hn <-. induction l as [|m l IH]; [set_solver|]. rewrite fmap_cons, NoDup_cons in Hnd.
  destruct Hnd as [Hm Hnd]. apply elem_of_cons in Hn as [->|Hn].
  - rewrite filter_cons_True by done. f_equal. apply filter_none.
    intros m' Hm' Heq. apply Hm. rewrite <- Heq. by apply list_elem_of_fmap_2.
  - rewrite filter_cons_False; [by apply IH|]. intros Heq. apply Hm. rewrite Heq.
    by apply list_elem_of_fmap_2.
Qed.

Lemma isNodeRolesChanage_false o n :
  isNodeRolesChanage o n = false <-> forall r, r ∈ o.(nd_Roles) <-> r ∈ n.(nd_Roles).
Proof.
  unfold isNodeRolesChanage, string_set.
  rewrite negb_false_iff, bool_decide_eq_true. set_solver.
Qed.

(** A loop over pairs of old and new nodes with the same address. *)
Lemma each_same_address {E} (f : Node -> Node -> result E unit) old new :
  each (fun o => each (fun n =>
    if String.eqb o.(nd_Address) n.(nd_Address) then f o n else Ok tt) new) old = Ok tt <->
  forall o n, o ∈ old -> n ∈ new -> o.(nd_Address) = n.(nd_Address) -> f o n = Ok tt.
Proof.
  rewrite each_ok_in. setoid_rewrite each_ok_in. split.
  - intros H o n Ho Hn Heq. specialize (H o Ho n Hn). by rewrite Heq, String.eqb_refl in H.
  - intros H o Ho n Hn. destruct (String.eqb_spec (nd_Address o) (nd_Address n)); eauto.
Qed.

(** What an update keeps of the old configuration: the controlplane nodes stay,
    a node at a known address keeps its name and roles, and, once the cluster
    can be asked, a node used for storage stays. *)
Record update_allowed `{NodeListener} (hasClient : bool) (old new : Cluster) : Prop := {
  ua_controlplane o : o ∈ old.(cl_Nodes) -> RoleControlPlane ∈ o.(nd_Roles) ->
    exists n, n ∈ new.(cl_Nodes) /\ RoleControlPlane ∈ n.(nd_Roles) /\
              n.(nd_Address) = o.(nd_Address);
  ua_same o n : o ∈ old.(cl_Nodes) -> n ∈ new.(cl_Nodes) -> o.(nd_Address) = n.(nd_Address) ->
    o.(nd_Name) = n.(nd_Name) /\ forall r, r ∈ o.(nd_Roles) <-> r ∈ n.(nd_Roles);
  ua_storage name : hasClient = true -> name ∈ nd_Name <$> old.(cl_Nodes) ->
    name ∉ nd_Name <$> new.(cl_Nodes) -> IsStorageNode old.(cl_Name) name = Some false
}.

Lemma validateCannotDeleteNode_ok old new :
  validateCannotDeleteNode old new = Ok tt <->
  forall o, o ∈ old.(cl_Nodes) -> RoleControlPlane ∈ o.(nd_Roles) ->
    exists n, n ∈ new.(cl_Nodes) /\ RoleControlPlane ∈ n.(nd_Roles) /\
              n.(nd_Address) = o.(nd_Address).
Proof.
  unfold validateCannotDeleteNode, string_set. rewrite each_ok_in.
  setoid_rewrite <- HasRole_elem. split.
  - intros H o Ho Hcp. specialize (H o Ho). rewrite Hcp in H.
    destruct (decide _) as [Hin|]; [|done]. rewrite elem_of_list_to_set, list_elem_of_fmap in Hin.
    destruct Hin as (n & Heq & Hn). apply list_elem_of_filter in Hn as [Hr Hn].
    exists n. by destruct (HasRole n RoleControlPlane).
  - intros H o Ho. destruct (HasRole o RoleControlPlane) eqn:Hcp; [|done].
    destruct (decide _) as [|Hin]; [done|]. destruct Hin.
    destruct (H o Ho Hcp) as (n & Hn & Hr & Heq).
    rewrite elem_of_list_to_set, list_elem_of_fmap. exists n. split; [done|].
    apply list_elem_of_filter. by rewrite Hr.
Qed.

Lemma updateValidators_ok old new :
  each (fun f : updateValidator => f old new) updateValidators = Ok tt <->
  (forall o, o ∈ old.(cl_Nodes) -> RoleControlPlane ∈ o.(nd_Roles) ->
     exists n, n ∈ new.(cl_Nodes) /\ RoleControlPlane ∈ n.(nd_Roles) /\
               n.(nd_Address) = o.(nd_Address)) /\
  (forall o n, o ∈ old.(cl_Nodes) -> n ∈ new.(cl_Nodes) -> o.(nd_Address) = n.(nd_Address) ->
     o.(nd_Name) = n.(nd_Name) /\ forall r, r ∈ o.(nd_Roles) <-> r ∈ n.(nd_Roles)).
Proof.
  rewrite each_ok. unfold updateValidators. rewrite !Forall_cons, Forall_nil.
  rewrite validateCannotDeleteNode_ok. apply and_iff_compat_l.
  unfold validateNodesRoleChanage, validateNodesNameChanage. rewrite !each_same_address.
  setoid_rewrite <- isNodeRolesChanage_false. split.
  - intros (Hr & Hn & _) o n Ho Hin Heq. specialize (Hr o n Ho Hin Heq). specialize (Hn o n Ho Hin Heq).
    destruct (isNodeRolesChanage o n), (String.eqb_spec (nd_Name o) (nd_Name n)); naive_solver.
  - intros H. split; [|split; [|done]]; intros o n Ho Hin Heq; destruct (H o n Ho Hin Heq) as [Hnm Hrs].
    + by rewrite Hrs.
    + by rewrite Hnm, String.eqb_refl.
Qed.

Lemma elem_of_getToDeleteNodes old new name :
  name ∈ getToDeleteNodes old new <->
  name ∈ nd_Name <$> old.(cl_Nodes) /\ name ∉ nd_Name <$> new.(cl_Nodes).
Proof.
  unfold getToDeleteNodes, string_set. rewrite list_elem_of_filter, elem_of_list_to_set. tauto.
Qed.

Lemma validateToDeleteStorageNodes_ok `{NodeListener} hasClient old new :
  validateToDeleteStorageNodes hasClient old new = Ok tt <->
  forall name, hasClient = true -> name ∈ nd_Name <$> old.(cl_Nodes) ->
    name ∉ nd_Name <$> new.(cl_Nodes) -> IsStorageNode old.(cl_Name) name = Some false.
Proof.
  unfold validateToDeleteStorageNodes. destruct hasClient; simpl; [|naive_solver].
  rewrite each_ok_in. setoid_rewrite elem_of_getToDeleteNodes. split.
  - intros Hall name _ Ho Hn. specialize (Hall name (conj Ho Hn)).
    by destruct (IsStorageNode _ name) as [[]|].
  - intros Hall name [Ho Hn]. by rewrite (Hall name eq_refl Ho Hn).
Qed.

(** ** Hosts *)

Lemma isIPv4Host_join host z :
  has_byte ":" host = false ->
  isIPv4Host (host +:+ String ":" (Itoa z)) = isIPv4 host && (0 <? z) && (z <=? 65535).
Proof.
  intros Hh. unfold isIPv4Host, isIPv4. rewrite Split_app by done.
  rewrite Split_no_sep by (by apply has_byte_Itoa). cbn [app].
  destruct (int64_ok z) eqn:Hz.
  - rewrite Atoi_Itoa by done. by destruct (ParseIP host).
  - assert ((0 <? z) && (z <=? 65535) = false) as Hf.
    { unfold int64_ok in Hz. lia. }
    rewrite <- andb_assoc, Hf, andb_false_r.
    destruct (Atoi (Itoa z)) as [z'|] eqn:Ha; [|done].
    destruct (Itoa_shape z) as (d & Hd & [(_ & Ho & E) | (_ & Ho & E)]); rewrite E in Ha.
    + rewrite Atoi_unsigned in Ha by (intros; by eapply string_of_uint_head).
      by rewrite parse_digits_string, Ho, Hz in Ha by done.
    + unfold Atoi in Ha. rewrite parse_digits_string in Ha by done. simpl in Ha.
      by rewrite Ho, Z.opp_involutive, Hz in Ha.
Qed.

(** The number at the front of a dotted address. *)
Lemma octet_Itoa n r :
  0 <= n <= 255 -> octet (Itoa n +:+ String "." r) = Some (n, String "." r) /\ octet (Itoa n) = Some (n, "").
Proof.
  intros Hn.
  assert (Hall : Forall (fun k : nat => forall r,
    octet (Itoa (Z.of_nat k) +:+ String "." r) = Some (Z.of_nat k, String "." r) /\
    octet (Itoa (Z.of_nat k)) = Some (Z.of_nat k, "")) (seq 0 256)).
  { cbv [seq]. repeat (constructor; [intros ?; split; reflexivity|]). constructor. }
  rewrite Forall_forall in Hall. specialize (Hall (Z.to_nat n)).
  rewrite Z2Nat.id in Hall by lia. apply Hall. apply elem_of_seq. lia.
Qed.

Lemma dot_octet_app n r :
  0 <= n <= 255 -> dot_octet (String "." (Itoa n +:+ String "." r)) = Some (n, String "." r).
Proof. intros Hn. by destruct (octet_Itoa n r Hn). Qed.

Definition dotted (a b c d : Z) : string :=
  Itoa a +:+ String "." (Itoa b +:+ String "." (Itoa c +:+ String "." (Itoa d))).

Lemma ip_family_digits s r : has_byte "." s = false -> has_byte ":" s = false ->
  ip_family (s +:+ String "." r) = Some true.
Proof.
  induction s as [|x s IH]; [done|]. intros Hd Hc.
  cbn [has_byte] in Hd, Hc. apply orb_false_iff in Hd as [Hd Hd'], Hc as [Hc Hc'].
  apply Ascii.eqb_neq in Hd, Hc. cbn [String.append].
  destruct x as [[] [] [] [] [] [] [] []]; try done; simpl; by apply IH.
Qed.

Lemma ParseIP_dotted a b c d :
  0 <= a <= 255 -> 0 <= b <= 255 -> 0 <= c <= 255 -> 0 <= d <= 255 ->
  ParseIP (dotted a b c d) = Some (IPv4 a b c d).
Proof.
  intros Ha Hb Hc Hd. unfold ParseIP, dotted.
  rewrite ip_family_digits by (by apply has_byte_Itoa).
  unfold parseIPv4. rewrite (proj1 (octet_Itoa a _ Ha)).
  rewrite dot_octet_app, dot_octet_app by done.
  unfold dot_octet. by rewrite (proj2 (octet_Itoa d "" Hd)).
Qed.

(** ** The validators accept exactly the valid configurations *)

(** C33. A cluster creation is accepted exactly when the configuration is well
    formed (distinct node names and IPv4 addresses, every node either controlplane
    or worker, at least one of each, CIDRs and DNS addresses that fit together, a
    singlecloud address that is no node, a usable load balancer) and the SSH key is
    not empty. *)
Theorem validateConfigForCreate_iff (c : Cluster) :
  validateConfigForCreate c = Ok tt <-> valid_cluster c /\ c.(cl_SSHKey) <> "".
Proof.
  unfold validateConfigForCreate. rewrite <- createValidators_ok.
  unfold validateClusterSSHKeyNotEmpty.
  destruct (each _ createValidators) as [[]|e], (String.eqb_spec (cl_SSHKey c) ""); naive_solver.
Qed.

Lemma validateConfigForUpdate_spec `{NodeListener} hasClient old new :
  validateConfigForUpdate hasClient old new = Ok tt <->
  valid_cluster new /\ update_allowed hasClient old new.
Proof.
  unfold validateConfigForUpdate. rewrite <- createValidators_ok.
  pose proof (updateValidators_ok old new) as Hu.
  pose proof (validateToDeleteStorageNodes_ok hasClient old new) as Hs.
  destruct (each _ createValidators) as [[]|e]; [|naive_solver].
  destruct (each _ updateValidators) as [[]|e].
  - rewrite Hs. split; [intros; split; [done|]; constructor; naive_solver|].
    intros [_ []]. done.
  - split; [done|]. intros [_ []]. naive_solver.
Qed.

(** C34. An update is accepted exactly when the new configuration is well formed and
    keeps what may not change: every controlplane node, the name and the roles of
    every node whose address stays, and every node used for storage when the
    cluster's client exists. *)
Theorem validateConfigForUpdate_iff `{NodeListener} (hasClient : bool) (old new : Cluster) :
  validateConfigForUpdate hasClient old new = Ok tt <->
  valid_cluster new /\ update_allowed hasClient old new.
Proof. apply validateConfigForUpdate_spec. Qed.

(** C35. After an accepted update of a well-formed cluster the nodes at an old
    controlplane node's address are exactly one node, with the same name and the
    same roles up to order: the control plane can only grow. *)
Theorem update_keeps_control_plane `{NodeListener} hasClient (old new : Cluster) (o : Node) :
  valid_cluster old -> validateConfigForUpdate hasClient old new = Ok tt ->
  o ∈ old.(cl_Nodes) -> RoleControlPlane ∈ o.(nd_Roles) ->
  exists n, filter (fun n => n.(nd_Address) = o.(nd_Address)) new.(cl_Nodes) = [n] /\
            n.(nd_Name) = o.(nd_Name) /\ n.(nd_Roles) ≡ₚ o.(nd_Roles).
Proof.
  intros Hold Hval Ho Hcp. apply validateConfigForUpdate_spec in Hval as [Hnew [Hcps Hsame _]].
  destruct (Hcps o Ho Hcp) as (n & Hn & _ & Haddr). destruct (Hsame o n Ho Hn) as [Hname Hroles]; [done|].
  exists n. split; [|split; [done|]].
  - apply filter_one_address; [apply Hnew|done|done].
  - pose proof (vc_nodes _ Hold) as Hvo. pose proof (vc_nodes _ Hnew) as Hvn.
    rewrite Forall_forall in Hvo, Hvn.
    apply NoDup_Permutation; [by apply Hvn | by apply Hvo | naive_solver].
Qed.

(** A host accepted as "ip:port" is split at its only colon: with a host part
    that holds no colon it is accepted exactly when that part is an IPv4 address
    and the port lies in 1..65535; every dotted quad of bytes is such an address. *)
Lemma isIPv4Host_iff (a b c d port : Z) (host : string) :
  has_byte ":" host = false ->
  isIPv4Host (host +:+ String ":" (Itoa port)) = isIPv4 host && (0 <? port) && (port <=? 65535) /\
  (0 <= a <= 255 -> 0 <= b <= 255 -> 0 <= c <= 255 -> 0 <= d <= 255 ->
   isIPv4 (dotted a b c d) = true).
Proof.
  intros Hh. split; [by apply isIPv4Host_join|].
  intros. unfold isIPv4. by rewrite ParseIP_dotted.
Qed.

(** ** Examples *)

Definition example_cluster (workers : list Node) : Cluster := {|
  cl_ID := ""; cl_CreationTimestamp := 0; cl_DeletionTimestamp := 0;
  cl_Nodes := mkNode "master" "10.0.0.1" [RoleControlPlane; RoleEdge] :: workers;
  cl_Network := mkNetwork "flannel" ""; cl_LoadBalance := empty_lb;
  cl_SingleCloudAddress := "10.0.0.9:80"; cl_Name := "beijing"; cl_Status := None;
  cl_NodesCount := 0; cl_ScVersion := ""; cl_SSHUser := "root"; cl_SSHKey := "key";
  cl_SSHPort := "22"; cl_ClusterCidr := "10.42.0.0/16"; cl_ServiceCidr := "10.43.0.0/16";
  cl_ClusterDomain := "cluster.local"; cl_ClusterDNSServiceIP := "10.43.0.10";
  cl_ClusterUpstreamDNS := ["223.5.5.5"]
|}.
Definition worker1 : Node := mkNode "worker1" "10.0.0.2" [RoleWorker].
Definition worker2 : Node := mkNode "worker2" "10.0.0.3" [RoleWorker].

Lemma example_cluster_valid : valid_cluster (example_cluster [worker1]).
Proof. apply createValidators_ok. vm_compute. reflexivity. Qed.

Lemma update_keeps_control_plane_witness :
  let no_storage : NodeListener := fun _ _ => Some false in
  exists n, filter (fun n => n.(nd_Address) = "10.0.0.1")
              (example_cluster [worker1; worker2]).(cl_Nodes) = [n] /\
            n.(nd_Name) = "master" /\ n.(nd_Roles) ≡ₚ [RoleControlPlane; RoleEdge].
Proof.
  intros nl.
  apply (update_keeps_control_plane (H := nl) true (example_cluster [worker1])
    (example_cluster [worker1; worker2]) (mkNode "master" "10.0.0.1" [RoleControlPlane; RoleEdge])).
  - exact example_cluster_valid.
  - vm_compute. reflexivity.
  - left.
  - left.
Defined.

Lemma isIPv4Host_iff_witness :
  isIPv4Host ("10.0.0.9" +:+ String ":" (Itoa 8080)) = true /\ isIPv4 (dotted 10 0 0 255) = true.
Proof.
  destruct (isIPv4Host_iff 10 0 0 255 8080 "10.0.0.9" eq_refl) as [Hhost Hdot].
  split; [rewrite Hhost; reflexivity | apply Hdot; lia].
Defined.

(** Go's To4 also takes the IPv4-mapped IPv6 addresses. *)
Example isIPv4_mapped : isIPv4 "::ffff:10.0.0.1" = true.
Proof. reflexivity. Qed.
