(* ===== verification/ClusterState.v ===== *)
(** The stored state of a cluster (pkg/zke/db.go). *)
From S2P Require Import Prelude KvStore ClusterTypes.

(** ** zke core *)

(** core.FullState of the zke library, with what the program reads of it:
    [HasDesiredCerts] is [DesiredState.CertificatesBundle != nil], [TransformPEM]
    applies pki.TransformPEMToObject to the two bundles, [HasCurrentCerts] is
    [CurrentState.CertificatesBundle != nil] and [CertConfig] looks a user up in
    that bundle. *)
Class ZkeCore := {
  FullState : Type;
  EmptyFullState : FullState;
  HasDesiredCerts : FullState -> bool;
  TransformPEM : FullState -> FullState;
  HasCurrentCerts : FullState -> bool;
  CertConfig : FullState -> string -> option string
}.

(** ** clusterState *)

(** The embedded pointer to a FullState can be nil; the configuration is always
    there.  Times are instants, 0 the zero time. *)
Record clusterState `{ZkeCore} := mkState {
  cs_FullState : option FullState; cs_ZKEConfig : ZKEConfig;
  cs_CreateTime : Z; cs_DeleteTime : Z; cs_Created : bool; cs_ScVersion : string
}.

Arguments mkState {_}.

Definition zero_option : ZKEConfigOption := mkOption "" "" "" "" "" "" "" [].
Definition zero_config : ZKEConfig :=
  mkConfig "" zero_option (mkNetwork "" "") "" [] empty_lb.

Section DB.
Context `{ZkeCore} {DB : Type} `{KvTable DB} `{Json clusterState}.

(** clusterState{} *)
Definition zero_state : clusterState := mkState None zero_config 0 0 false "".

Definition set_FullState (s : clusterState) (f : option FullState) : clusterState :=
  mkState f s.(cs_ZKEConfig) s.(cs_CreateTime) s.(cs_DeleteTime) s.(cs_Created) s.(cs_ScVersion).
Definition set_ZKEConfig (s : clusterState) (c : ZKEConfig) : clusterState :=
  mkState s.(cs_FullState) c s.(cs_CreateTime) s.(cs_DeleteTime) s.(cs_Created) s.(cs_ScVersion).
Definition set_DeleteTime (s : clusterState) (t : Z) : clusterState :=
  mkState s.(cs_FullState) s.(cs_ZKEConfig) s.(cs_CreateTime) t s.(cs_Created) s.(cs_ScVersion).
Definition set_Created (s : clusterState) (b : bool) : clusterState :=
  mkState s.(cs_FullState) s.(cs_ZKEConfig) s.(cs_CreateTime) s.(cs_DeleteTime) b s.(cs_ScVersion).

(** The part of readClusterJson after the decoding. *)
Definition load_certs (s : clusterState) : clusterState :=
  match s.(cs_FullState) with
  | Some f => if HasDesiredCerts f then set_FullState s (Some (TransformPEM f)) else s
  | None => s
  end.

Definition readClusterJson (js : string) : option clusterState := load_certs <$> unmarshal js.

Definition getClusterFromDB (clusterID : string) : M DB kv_error clusterState :=
  let! value := with_tx_read (tx_get clusterID) in
  lift (of_option KvJson (readClusterJson value)).

(** The error of the inner Get is dropped: an unreadable entry is added, not updated. *)
Definition createOrUpdateClusterFromDB (clusterID : string) (s : clusterState) : M DB kv_error unit :=
  with_tx (
    let! value := lift (of_option KvJson (marshal s)) in
    let! existValue := attempt (tx_get clusterID) in
    match existValue with
    | Ok _ => tx_update clusterID value
    | Err _ => tx_add clusterID value
    end).

Definition deleteClusterFromDB (clusterID : string) : M DB kv_error unit :=
  with_tx (tx_delete clusterID).

(** Decode every entry; the iteration stops at the first bad one. *)
Fixpoint read_entries (kvs : list (string * string)) : result kv_error (list (string * clusterState)) :=
  match kvs with
  | [] => Ok []
  | (k, v) :: kvs =>
      match readClusterJson v with
      | None => Err KvJson
      | Some s => result_bind (read_entries kvs) (fun l => Ok ((k, s) :: l))
      end
  end.

(** The returned Go map, as the list of its entries. *)
Definition getClustersFromDB : M DB kv_error (list (string * clusterState)) :=
  let! values := with_tx_read tx_list in
  lift (read_entries (map_to_list values)).

(** ** What the functions do to the table *)

(** What the table says of a cluster. *)
Definition stored (c : gmap string string) (id : string) : option clusterState :=
  c !! id ≫= readClusterJson.

Context `{!KvLaws DB} `{!JsonLaws clusterState}.

Lemma createOrUpdate_effect id s d r d' :
  createOrUpdateClusterFromDB id s d = (r, d') ->
  match r with
  | Ok _ => exists v, marshal s = Some v /\ kv_content d' = <[id := v]> (kv_content d)
  | Err _ => kv_content d' = kv_content d
  end.
Proof.
  intros Hrun. eapply with_tx_encoded_write; [|exact Hrun]. intros ex v. simpl.
  destruct ex.
  - eapply tx_effect_weaken; [apply tx_update_law|]. naive_solver.
  - eapply tx_effect_weaken; [apply tx_add_law|]. naive_solver.
Qed.

Lemma createOrUpdate_stored id s d r d' :
  createOrUpdateClusterFromDB id s d = (r, d') ->
  stored (kv_content d') id =
    (if is_ok r then Some (load_certs s) else stored (kv_content d) id) /\
  forall id', id' <> id -> stored (kv_content d') id' = stored (kv_content d) id'.
Proof.
  intros Hrun. apply createOrUpdate_effect in Hrun. unfold stored. destruct r as [[]|e]; simpl.
  - destruct Hrun as (v & Hv & ->). split.
    + rewrite lookup_insert_eq. simpl. unfold readClusterJson. by rewrite (json_round_trip _ _ Hv).
    + intros id' Hne. by rewrite lookup_insert_ne.
  - by rewrite Hrun.
Qed.

Lemma getCluster_stored id d r d' :
  getClusterFromDB id d = (r, d') ->
  kv_content d' = kv_content d /\
  match r with Ok s => stored (kv_content d) id = Some s | Err _ => True end.
Proof.
  unfold getClusterFromDB, bind, lift. destruct (with_tx_read (tx_get id) d) as [rv d1] eqn:Hg.
  apply with_tx_read_get in Hg as [Hc Hv]. destruct rv as [v|e]; intros; simplify_eq; [|done].
  split; [done|]. unfold stored. rewrite Hv. cbn [mbind option_bind].
  by destruct (readClusterJson v).
Qed.

Lemma deleteCluster_stored id d r d' :
  deleteClusterFromDB id d = (r, d') ->
  forall id', stored (kv_content d') id' =
    (if is_ok r && String.eqb id id' then None else stored (kv_content d) id').
Proof.
  intros Hrun id'. apply with_tx_delete in Hrun. rewrite Hrun. unfold stored.
  destruct r; simpl; [|done]. destruct (String.eqb_spec id id') as [->|Hne].
  - by rewrite lookup_delete_eq.
  - by rewrite lookup_delete_ne.
Qed.

Lemma read_entries_ok kvs l :
  read_entries kvs = Ok l ->
  Forall2 (fun kv ks => kv.1 = ks.1 /\ readClusterJson kv.2 = Some ks.2) kvs l.
Proof.
  revert l. induction kvs as [|[k v] kvs IH]; simpl; intros l Hl; [by simplify_eq|].
  destruct (readClusterJson v) eqn:Hv; [|done]. destruct (read_entries kvs); simplify_eq/=.
  constructor; eauto.
Qed.

Lemma getClusters_stored d r d' :
  getClustersFromDB d = (r, d') ->
  kv_content d' = kv_content d /\
  match r with
  | Ok l => NoDup l.*1 /\ (forall id, id ∈ l.*1 <-> is_Some (kv_content d !! id)) /\
            (forall id s, (id, s) ∈ l -> stored (kv_content d) id = Some s)
  | Err _ => True
  end.
Proof.
  unfold getClustersFromDB, bind, lift. destruct (with_tx_read tx_list d) as [rv d1] eqn:Hl.
  apply with_tx_read_list in Hl as [Hc Hv]. destruct rv as [m|e]; intros; simplify_eq; [|done].
  split; [done|]. destruct (read_entries _) as [l|] eqn:Hr; [|done]. apply read_entries_ok in Hr.
  assert (Hk : l.*1 = (map_to_list (kv_content d)).*1).
  { clear -Hr. induction Hr as [|kv ks kvs l [Hk _] _ IH]; [done|].
    rewrite !fmap_cons. by f_equal. }
  rewrite Hk. split; [apply NoDup_fst_map_to_list|]. split.
  - intros id. rewrite list_elem_of_fmap. split.
    + intros ([k v] & -> & Hin%elem_of_map_to_list). by exists v.
    + intros [v Hin]. exists (id, v). split; [done|]. by apply elem_of_map_to_list.
  - intros id s Hin. apply list_elem_of_lookup in Hin as [i Hi].
    destruct (Forall2_lookup_r _ _ _ _ _ Hr Hi) as ([k v] & Hkv & Heq & Hs). simpl in *. subst k.
    apply list_elem_of_lookup_2, elem_of_map_to_list in Hkv. unfold stored. by rewrite Hkv.
Qed.

(** What is stored of a cluster is read back: after a successful write of a
    state under a name, a read under that name that does not fail gives that state
    (its certificates turned from PEM into objects), and a read under another name
    gives what was there before. *)
Lemma cluster_db_round_trip id id' s d d1 d2 s' :
  createOrUpdateClusterFromDB id s d = (Ok tt, d1) ->
  getClusterFromDB id' d1 = (Ok s', d2) ->
  if decide (id' = id) then s' = load_certs s
  else stored (kv_content d) id' = Some s'.
Proof.
  intros Hw Hr. apply createOrUpdate_stored in Hw as [Hsame Hother].
  apply getCluster_stored in Hr as [_ Hr].
  destruct (decide (id' = id)) as [->|Hne]; [by rewrite Hsame in Hr; simplify_eq/= | by rewrite <- Hother].
Qed.

End DB.

(** ** Examples *)

(** A zke core whose full state is a number and whose bundles hold one user. *)
#[export] Instance example_core : ZkeCore := {|
  FullState := nat; EmptyFullState := 0%nat; HasDesiredCerts f := Nat.ltb 0 f;
  TransformPEM f := f; HasCurrentCerts f := Nat.ltb 0 f;
  CertConfig f user := if String.eqb user "kube-admin" then Some "config" else None
|}.

#[export] Instance ZKEConfigNode_tree : Treeable ZKEConfigNode.
Proof.
  apply (iso_tree (fun n => (n.(zn_NodeName), n.(zn_Address), n.(zn_Role)))
    (fun '(a, b, c) => mkZNode a b c)). by intros [].
Defined.
#[export] Instance ClusterNetwork_tree : Treeable ClusterNetwork.
Proof.
  apply (iso_tree (fun n => (n.(Plugin), n.(Iface))) (fun '(a, b) => mkNetwork a b)). by intros [].
Defined.
#[export] Instance ClusterLoadBalance_tree : Treeable ClusterLoadBalance.
Proof.
  apply (iso_tree (fun l => (l.(lb_Enable), l.(lb_MasterServer), l.(lb_BackupServer),
    l.(lb_User), l.(lb_Password))) (fun '(a, b, c, d, e) => mkLB a b c d e)). by intros [].
Defined.
#[export] Instance ZKEConfigOption_tree : Treeable ZKEConfigOption.
Proof.
  apply (iso_tree (fun o => (o.(zo_SSHUser), o.(zo_SSHPort), o.(zo_SSHKey),
    o.(zo_ClusterCidr), o.(zo_ServiceCidr), o.(zo_ClusterDomain), o.(zo_ClusterDNSServiceIP),
    o.(zo_ClusterUpstreamDNS))) (fun '(a, b, c, d, e, f, g, h) => mkOption a b c d e f g h)).
  by intros [].
Defined.
#[export] Instance ZKEConfig_tree : Treeable ZKEConfig.
Proof.
  apply (iso_tree (fun c => (c.(zc_ClusterName), c.(zc_Option), c.(zc_Network),
    c.(zc_SingleCloudAddress), c.(zc_Nodes), c.(zc_LoadBalance)))
    (fun '(a, b, c, d, e, f) => mkConfig a b c d e f)). by intros [].
Defined.

#[export] Instance example_state_tree : Treeable (@clusterState example_core).
Proof.
  apply (iso_tree (fun s : @clusterState example_core =>
      (Z.of_nat <$> (s.(cs_FullState) : option nat), s.(cs_ZKEConfig), s.(cs_CreateTime),
       s.(cs_DeleteTime), s.(cs_Created), s.(cs_ScVersion)))
    (fun '(a, b, c, d, e, f) => mkState (H := example_core) (Z.to_nat <$> a) b c d e f)).
  intros [[n|] c t1 t2 cr v]; simpl; by rewrite ?Nat2Z.id.
Defined.
#[export] Instance example_json : Json (@clusterState example_core) := tree_json _ _.
#[export] Instance example_json_laws : JsonLaws (@clusterState example_core) := tree_json_laws _ _.

Definition example_state : @clusterState example_core :=
  mkState (H := example_core) (Some 3%nat) zero_config 7 0 true "v1".

Lemma cluster_db_round_trip_witness :
  exists d1 d2, createOrUpdateClusterFromDB "beijing" example_state (mem_table ∅) = (Ok tt, d1) /\
    getClusterFromDB "beijing" d1 = (Ok example_state, d2) /\
    (if decide ("beijing" = "beijing") then example_state = load_certs example_state
     else stored (H1 := example_json) (mem (mem_table ∅)) "beijing" = Some example_state).
Proof.
  eexists _, _. split; [vm_compute; reflexivity|]. split; [vm_compute; reflexivity|].
  eapply (cluster_db_round_trip "beijing" "beijing" example_state (mem_table ∅));
    vm_compute; reflexivity.
Defined.
