(* ===== verification/ClusterManager.v ===== *)
(** The cluster manager: the state machine of a cluster (pkg/zke/fsm.go), the
    cluster objects and their background work (pkg/zke/cluster.go, zke.go) and the
    API operations on them (pkg/zke/manager.go). *)
From S2P Require Import Prelude KvStore GoStrings ClusterTypes ClusterValidation ClusterState.

(** ** The state machine *)

Inductive FsmEvent :=
  | CreateSucceedEvent | CreateFailedEvent | CreateCanceledEvent | ContinuteCreateEvent
  | UpdateEvent | UpdateCompletedEvent | UpdateCanceledEvent
  | GetInfoFailedEvent | GetInfoSucceedEvent
  | DeleteEvent | DeleteCompletedEvent.

#[export] Instance FsmEvent_eq_dec : EqDecision FsmEvent.
Proof. solve_decision. Defined.

(** fsm.EventDesc of the cement library. *)
Record Transition := mkTr { tr_Name : FsmEvent; tr_Src : list ClusterStatus; tr_Dst : ClusterStatus }.

(** The table of newClusterFsm. *)
Definition cluster_transitions : list Transition := [
  mkTr CreateSucceedEvent [CSCreating] CSRunning;
  mkTr CreateFailedEvent [CSCreating] CSCreateFailed;
  mkTr CreateCanceledEvent [CSCreating] CSCreateFailed;
  mkTr ContinuteCreateEvent [CSCreateFailed] CSCreating;
  mkTr UpdateEvent [CSRunning] CSUpdating;
  mkTr UpdateCompletedEvent [CSUpdating] CSRunning;
  mkTr UpdateCanceledEvent [CSUpdating] CSRunning;
  mkTr GetInfoFailedEvent [CSRunning] CSUnreachable;
  mkTr GetInfoSucceedEvent [CSUnreachable] CSRunning;
  mkTr DeleteEvent [CSRunning; CSCreateFailed; CSUnreachable] CSDeleting;
  mkTr DeleteCompletedEvent [CSDeleting] CSDeleted
].

(** cement/fsm: the state an event leads to, [None] when the event is refused
    (FSM.Event returns an error and FSM.Can answers false). *)
Class FsmEngine := fsm_next : list Transition -> ClusterStatus -> FsmEvent -> option ClusterStatus.

(** The event is taken along a transition of the table, and refused only when no
    transition carries it from the current state. *)
Class FsmLaws `{FsmEngine} : Prop := {
  fsm_next_sound ts s e d :
    fsm_next ts s e = Some d ->
    exists t, t ∈ ts /\ t.(tr_Name) = e /\ s ∈ t.(tr_Src) /\ t.(tr_Dst) = d;
  fsm_next_complete ts s e t :
    t ∈ ts -> t.(tr_Name) = e -> s ∈ t.(tr_Src) -> is_Some (fsm_next ts s e)
}.

(** ** Cluster objects *)

(** A channel that is only ever closed. *)
Inductive StopCh := ChNil | ChOpen | ChClosed.
#[export] Instance StopCh_eq_dec : EqDecision StopCh.
Proof. solve_decision. Defined.

(** zke.Cluster.  [zl_kubeClient] and [zl_cache] are true when the field is not
    nil, [zl_cancel] names the context the function cancels, [zl_status] is
    [fsm.Current()]. *)
Record ZCluster := mkZCluster {
  zl_Name : string; zl_createTime : Z; zl_deleteTime : Z;
  zl_kubeClient : bool; zl_cache : bool; zl_stopCh : StopCh;
  zl_config : ZKEConfig; zl_cancel : option nat; zl_isCanceled : bool;
  zl_status : ClusterStatus; zl_scVersion : string
}.

Definition set_createTime v (r : ZCluster) : ZCluster :=
  mkZCluster r.(zl_Name) v r.(zl_deleteTime) r.(zl_kubeClient) r.(zl_cache) r.(zl_stopCh)
    r.(zl_config) r.(zl_cancel) r.(zl_isCanceled) r.(zl_status) r.(zl_scVersion).
Definition set_deleteTime v (r : ZCluster) : ZCluster :=
  mkZCluster r.(zl_Name) r.(zl_createTime) v r.(zl_kubeClient) r.(zl_cache) r.(zl_stopCh)
    r.(zl_config) r.(zl_cancel) r.(zl_isCanceled) r.(zl_status) r.(zl_scVersion).
Definition set_kubeClient v (r : ZCluster) : ZCluster :=
  mkZCluster r.(zl_Name) r.(zl_createTime) r.(zl_deleteTime) v r.(zl_cache) r.(zl_stopCh)
    r.(zl_config) r.(zl_cancel) r.(zl_isCanceled) r.(zl_status) r.(zl_scVersion).
Definition set_cache v (r : ZCluster) : ZCluster :=
  mkZCluster r.(zl_Name) r.(zl_createTime) r.(zl_deleteTime) r.(zl_kubeClient) v
    r.(zl_stopCh) r.(zl_config) r.(zl_cancel) r.(zl_isCanceled) r.(zl_status)
    r.(zl_scVersion).
Definition set_stopCh v (r : ZCluster) : ZCluster :=
  mkZCluster r.(zl_Name) r.(zl_createTime) r.(zl_deleteTime) r.(zl_kubeClient) r.(zl_cache)
    v r.(zl_config) r.(zl_cancel) r.(zl_isCanceled) r.(zl_status) r.(zl_scVersion).
Definition set_config v (r : ZCluster) : ZCluster :=
  mkZCluster r.(zl_Name) r.(zl_createTime) r.(zl_deleteTime) r.(zl_kubeClient) r.(zl_cache)
    r.(zl_stopCh) v r.(zl_cancel) r.(zl_isCanceled) r.(zl_status) r.(zl_scVersion).
Definition set_cancel v (r : ZCluster) : ZCluster :=
  mkZCluster r.(zl_Name) r.(zl_createTime) r.(zl_deleteTime) r.(zl_kubeClient) r.(zl_cache)
    r.(zl_stopCh) r.(zl_config) v r.(zl_isCanceled) r.(zl_status) r.(zl_scVersion).
Definition set_isCanceled v (r : ZCluster) : ZCluster :=
  mkZCluster r.(zl_Name) r.(zl_createTime) r.(zl_deleteTime) r.(zl_kubeClient) r.(zl_cache)
    r.(zl_stopCh) r.(zl_config) r.(zl_cancel) v r.(zl_status) r.(zl_scVersion).
Definition set_status v (r : ZCluster) : ZCluster :=
  mkZCluster r.(zl_Name) r.(zl_createTime) r.(zl_deleteTime) r.(zl_kubeClient) r.(zl_cache)
    r.(zl_stopCh) r.(zl_config) r.(zl_cancel) r.(zl_isCanceled) v r.(zl_scVersion).
Definition set_scVersion v (r : ZCluster) : ZCluster :=
  mkZCluster r.(zl_Name) r.(zl_createTime) r.(zl_deleteTime) r.(zl_kubeClient) r.(zl_cache)
    r.(zl_stopCh) r.(zl_config) r.(zl_cancel) r.(zl_isCanceled) r.(zl_status) v.

Definition IsReady (c : ZCluster) : bool :=
  bool_decide (c.(zl_status) = CSRunning) || bool_decide (c.(zl_status) = CSUnreachable).

Definition ToScCluster (c : ZCluster) : Cluster :=
  config_to_sc c.(zl_Name) c.(zl_scVersion) c.(zl_createTime) c.(zl_deleteTime)
               c.(zl_status) c.(zl_config).

Definition GetNodeIpsByRole (c : ZCluster) (role : NodeRole) : list string :=
  nd_Address <$> filter (fun n => HasRole n role) (ToScCluster c).(cl_Nodes).

(** ** The manager and its surroundings *)

Inductive ApiError :=
  | EDuplicateResource | EInvalidOption (e : ValidationError) | EServerError | ENotFound
  | EPermissionDenied
  | EPanic.    (* a nil pointer, a close of a nil or closed channel, a nil function *)

Inductive BusEvent := BusCreate (c : Cluster) | BusDelete (c : Cluster).
Inductive AlarmReason := AlarmCreateFailed | AlarmUpdateFailed | AlarmDeleteFailed.
Record ClusterAlarm := mkClusterAlarm { ca_cluster : string; ca_reason : AlarmReason; ca_message : string }.

Inductive WorkerKind := KCreate | KUpdate | KDestroy.
#[export] Instance WorkerKind_eq_dec : EqDecision WorkerKind.
Proof. solve_decision. Defined.

(** What Create returns: the request with its name and its creation time. *)
Definition created_cluster (c : Cluster) (now : Z) : Cluster :=
  mkCluster c.(cl_Name) now c.(cl_DeletionTimestamp) c.(cl_Nodes) c.(cl_Network) c.(cl_LoadBalance)
    c.(cl_SingleCloudAddress) c.(cl_Name) c.(cl_Status) c.(cl_NodesCount) c.(cl_ScVersion)
    c.(cl_SSHUser) c.(cl_SSHKey) c.(cl_SSHPort) c.(cl_ClusterCidr) c.(cl_ServiceCidr)
    c.(cl_ClusterDomain) c.(cl_ClusterDNSServiceIP) c.(cl_ClusterUpstreamDNS).

Section Manager.
Context `{ZkeCore} {DB : Type} `{KvTable DB} `{Json clusterState} `{FsmEngine} `{NodeListener}.

(** An event to send, with its arguments. *)
Definition Fire : Type := FsmEvent * clusterState * string.

(** The goroutines.  [TWorker] runs Cluster.Create, Update or Destroy with its
    context (none is context.TODO()) and is not yet past the call into zke; [TFire] has its events left to send; [TPurge] is
    past Remove in the callback of a completed deletion; [TCheck] is
    connectionCheckLoop. *)
Inductive Task :=
  | TWorker (kind : WorkerKind) (loc : nat) (ctx : option nat) (state : clusterState) (started : bool)
  | TFire (loc : nat) (evs : list Fire)
  | TPurge (name : string)
  | TCheck (loc : nat)
  | TDone.

(** ZKEManager with what it reaches: the table, the cluster objects (a pointer is
    an index into [w_heap]), the names that have a log, what was published, the
    contexts handed out and those canceled, the goroutines. *)
Record World := mkWorld {
  w_db : DB; w_scVersion : string; w_heap : list ZCluster; w_clusters : list nat;
  w_logs : gset string; w_bus : list BusEvent; w_alarms : list ClusterAlarm;
  w_ctxs : nat; w_cancelled : gset nat; w_tasks : list Task
}.

Definition set_db (v : DB) (r : World) : World :=
  mkWorld v r.(w_scVersion) r.(w_heap) r.(w_clusters) r.(w_logs) r.(w_bus) r.(w_alarms)
    r.(w_ctxs) r.(w_cancelled) r.(w_tasks).
Definition set_heap v (r : World) : World :=
  mkWorld r.(w_db) r.(w_scVersion) v r.(w_clusters) r.(w_logs) r.(w_bus) r.(w_alarms)
    r.(w_ctxs) r.(w_cancelled) r.(w_tasks).
Definition set_clusters v (r : World) : World :=
  mkWorld r.(w_db) r.(w_scVersion) r.(w_heap) v r.(w_logs) r.(w_bus) r.(w_alarms) r.(w_ctxs)
    r.(w_cancelled) r.(w_tasks).
Definition set_logs v (r : World) : World :=
  mkWorld r.(w_db) r.(w_scVersion) r.(w_heap) r.(w_clusters) v r.(w_bus) r.(w_alarms)
    r.(w_ctxs) r.(w_cancelled) r.(w_tasks).
Definition set_bus v (r : World) : World :=
  mkWorld r.(w_db) r.(w_scVersion) r.(w_heap) r.(w_clusters) r.(w_logs) v r.(w_alarms)
    r.(w_ctxs) r.(w_cancelled) r.(w_tasks).
Definition set_alarms v (r : World) : World :=
  mkWorld r.(w_db) r.(w_scVersion) r.(w_heap) r.(w_clusters) r.(w_logs) r.(w_bus) v
    r.(w_ctxs) r.(w_cancelled) r.(w_tasks).
Definition set_ctxs v (r : World) : World :=
  mkWorld r.(w_db) r.(w_scVersion) r.(w_heap) r.(w_clusters) r.(w_logs) r.(w_bus)
    r.(w_alarms) v r.(w_cancelled) r.(w_tasks).
Definition set_cancelled v (r : World) : World :=
  mkWorld r.(w_db) r.(w_scVersion) r.(w_heap) r.(w_clusters) r.(w_logs) r.(w_bus)
    r.(w_alarms) r.(w_ctxs) v r.(w_tasks).
Definition set_tasks v (r : World) : World :=
  mkWorld r.(w_db) r.(w_scVersion) r.(w_heap) r.(w_clusters) r.(w_logs) r.(w_bus)
    r.(w_alarms) r.(w_ctxs) r.(w_cancelled) v.

Abbreviation Op := (M World ApiError) (only parsing).

(** A call on the table; the API answers any failure of it with ServerError. *)
Definition db {A} (m : M DB kv_error A) : Op A :=
  rethrow (fun _ => EServerError) (zoom w_db set_db m).

Definition cluster (l : nat) : Op ZCluster :=
  let! c := gets (fun w => w.(w_heap) !! l) in
  match c with Some c => ret c | None => throw EPanic end.

Definition upd (l : nat) (f : ZCluster -> ZCluster) : Op unit :=
  modify (fun w => set_heap (alter f l w.(w_heap)) w).

Definition go (t : Task) : Op unit := modify (fun w => set_tasks (w.(w_tasks) ++ [t]) w).
Definition publish (e : BusEvent) : Op unit := modify (fun w => set_bus (w.(w_bus) ++ [e]) w).
Definition publish_alarm (a : ClusterAlarm) : Op unit :=
  modify (fun w => set_alarms (w.(w_alarms) ++ [a]) w).
Definition log_add (name : string) : Op unit := modify (fun w => set_logs ({[name]} ∪ w.(w_logs)) w).
Definition log_delete (name : string) : Op unit := modify (fun w => set_logs (w.(w_logs) ∖ {[name]}) w).

(** context.WithCancel *)
Definition WithCancel : Op nat :=
  let! ctx := gets w_ctxs in
  do! modify (set_ctxs (S ctx)) in
  ret ctx.

(** newCluster; the new object is reached only through the returned pointer. *)
Definition newCluster (name : string) (initialStatus : ClusterStatus) : Op nat :=
  let! l := gets (fun w => length w.(w_heap)) in
  let c := mkZCluster name 0 0 false false ChNil zero_config None false initialStatus "" in
  do! modify (fun w => set_heap (w.(w_heap) ++ [c]) w) in
  ret l.

(** ZKEManager.get: the first cluster of the name. *)
Definition named (w : World) (id : string) (l : nat) : bool :=
  match w.(w_heap) !! l with Some c => String.eqb c.(zl_Name) id | None => false end.
Definition find_cluster (w : World) (id : string) : option nat :=
  snd <$> list_find (fun l => named w id l) w.(w_clusters).
Definition get (id : string) : Op (option nat) := gets (fun w => find_cluster w id).

Definition add (l : nat) : Op unit := modify (fun w => set_clusters (w.(w_clusters) ++ [l]) w).

(** ZKEManager.Remove: drop the first cluster of that name. *)
Fixpoint remove_first (p : nat -> bool) (ls : list nat) : list nat :=
  match ls with
  | [] => []
  | l :: ls => if p l then ls else l :: remove_first p ls
  end.
Definition Remove (name : string) : Op unit :=
  modify (fun w => set_clusters (remove_first (named w name) w.(w_clusters)) w).

Definition Can (c : ZCluster) (e : FsmEvent) : bool :=
  match fsm_next cluster_transitions c.(zl_status) e with Some _ => true | None => false end.

(** ** Events and callbacks *)

(** The callbacks of newClusterFsm, run with their three arguments.  The result is
    the name to delete from the table, which the last callback does after Remove. *)
Definition callback (ev : FsmEvent) (l : nat) (state : clusterState) (errMsg : string)
    : Op (option string) :=
  let! c := cluster l in
  let name := c.(zl_Name) in
  let save := attempt (E := ApiError) (db (createOrUpdateClusterFromDB name state)) in
  let alarm reason :=
    if String.eqb errMsg "" then ret tt else publish_alarm (mkClusterAlarm name reason errMsg) in
  match ev with
  | CreateSucceedEvent =>
      do! log_delete name in
      do! save in
      let! c := cluster l in
      do! publish (BusCreate (ToScCluster c)) in
      ret None
  | CreateFailedEvent =>
      do! alarm AlarmCreateFailed in
      do! save in
      ret None
  | CreateCanceledEvent =>
      do! upd l (set_isCanceled false) in
      do! save in
      ret None
  | UpdateCompletedEvent =>
      do! log_delete name in
      do! alarm AlarmUpdateFailed in
      do! save in
      ret None
  | UpdateCanceledEvent =>
      do! upd l (set_isCanceled false) in
      do! save in
      ret None
  | DeleteCompletedEvent =>
      do! alarm AlarmDeleteFailed in
      do! Remove name in
      ret (Some name)
  | _ => ret None
  end.

(** Cluster.event: a refused event is only logged. *)
Definition event (ev : FsmEvent) (l : nat) (state : clusterState) (errMessage : string)
    : Op (option string) :=
  let! c := cluster l in
  match fsm_next cluster_transitions c.(zl_status) ev with
  | None => ret None
  | Some d =>
      do! upd l (set_status d) in
      callback ev l state errMessage
  end.

(** Cluster.Event, without arguments: true when the event was taken.  Of the events
    sent this way none has a callback; one that has would index an empty slice. *)
Definition has_callback (ev : FsmEvent) : bool :=
  match ev with
  | CreateSucceedEvent | CreateFailedEvent | CreateCanceledEvent
  | UpdateCompletedEvent | UpdateCanceledEvent | DeleteCompletedEvent => true
  | _ => false
  end.
Definition c_Event (ev : FsmEvent) (l : nat) : Op bool :=
  let! c := cluster l in
  match fsm_next cluster_transitions c.(zl_status) ev with
  | None => ret false
  | Some d =>
      do! upd l (set_status d) in
      if has_callback ev then throw EPanic else ret true
  end.

(** Cluster.Cancel *)
Definition Cancel (l : nat) : Op unit :=
  let! c := cluster l in
  if bool_decide (c.(zl_status) = CSCreating) || bool_decide (c.(zl_status) = CSUpdating) then
    if c.(zl_isCanceled) then throw EPermissionDenied else
    do! upd l (set_isCanceled true) in
    match c.(zl_cancel) with
    | None => throw EPanic
    | Some ctx => modify (fun w => set_cancelled ({[ctx]} ∪ w.(w_cancelled)) w)
    end
  else throw EPermissionDenied.

(** ** Background work *)

(** What zke, the client libraries and the cache answer in one run of a worker:
    every field is the error, if any, of one call; [uo_panics] is a panic inside
    zke. *)
Record UpOutcome := mkUp {
  uo_panics : option string; uo_state : option FullState; uo_err : option string;
  uo_buildErr : option string; uo_clientErr : option string;
  uo_httpErr : option string; uo_cacheErr : option string
}.

Inductive UpResult :=
  | UpPanic (msg : string)
  | UpReturn (newState : option FullState) (err : option string).

(** upZKECluster: with no error the new state is read for the admin's kubeconfig. *)
Definition upZKECluster (o : UpOutcome) : UpResult :=
  match o.(uo_panics) with
  | Some msg => UpPanic msg
  | None =>
      match o.(uo_err) with
      | Some e => UpReturn o.(uo_state) (Some e)
      | None =>
          match o.(uo_state) with
          | None => UpPanic "nil pointer"
          | Some _ =>
              match o.(uo_buildErr) with
              | Some e => UpReturn o.(uo_state) (Some e)
              | None => UpReturn o.(uo_state) o.(uo_clientErr)
              end
          end
      end
  end.

(** Cluster.setCache; the error, if any. *)
Definition setCache (l : nat) (httpErr cacheErr : option string) : Op (option string) :=
  match httpErr with
  | Some e => ret (Some e)
  | None =>
      do! upd l (set_stopCh ChOpen) in
      match cacheErr with
      | Some e => ret (Some e)
      | None => do! upd l (set_cache true) in ret None
      end
  end.

(** The body of Cluster.Create from the return of upZKECluster on: the events it
    sends, in order.  A panic is recovered into a failure event. *)
Definition Create_body (l : nat) (state : clusterState) (o : UpOutcome) : Op (list Fire) :=
  match upZKECluster o with
  | UpPanic msg => ret [(CreateFailedEvent, state, msg)]
  | UpReturn zkeState err =>
      let state := set_FullState state zkeState in
      let! c := cluster l in
      if c.(zl_isCanceled) then ret [(CreateCanceledEvent, state, "")] else
      match err with
      | Some e => ret [(CreateFailedEvent, state, e)]
      | None =>
          do! upd l (set_kubeClient true) in
          let! cerr := setCache l o.(uo_httpErr) o.(uo_cacheErr) in
          match cerr with
          | Some e => ret [(CreateFailedEvent, state, e)]
          | None =>
              do! go (TCheck l) in
              ret [(CreateSucceedEvent, set_Created state true, "")]
          end
      end
  end.

(** The body of Cluster.Update.  When setCache fails the function goes on to the
    success event: the branch does not return. *)
Definition Update_body (l : nat) (state : clusterState) (o : UpOutcome) : Op (list Fire) :=
  match upZKECluster o with
  | UpPanic msg => ret [(UpdateCompletedEvent, state, msg)]
  | UpReturn zkeState err =>
      let state := set_FullState state zkeState in
      let! c := cluster l in
      if c.(zl_isCanceled) then
        if state.(cs_Created) then ret [(UpdateCanceledEvent, state, "")]
        else ret [(CreateCanceledEvent, state, "")]
      else
      match err with
      | Some e =>
          if state.(cs_Created) then ret [(UpdateCompletedEvent, state, e)]
          else ret [(CreateFailedEvent, state, e)]
      | None =>
          if state.(cs_Created) then ret [(UpdateCompletedEvent, state, "")]
          else
            do! upd l (set_kubeClient true) in
            let! cerr := setCache l o.(uo_httpErr) o.(uo_cacheErr) in
            let failed := match cerr with Some e => [(CreateFailedEvent, state, e)] | None => [] end in
            ret (failed ++ [(CreateSucceedEvent, set_Created state true, "")])
      end
  end.

(** The body of Cluster.Destroy; removeZKECluster answers an error or panics. *)
Definition Destroy_body (o : UpOutcome) : list Fire :=
  match o.(uo_panics), o.(uo_err) with
  | Some msg, _ => [(DeleteCompletedEvent, zero_state, msg)]
  | None, Some e => [(DeleteCompletedEvent, zero_state, e)]
  | None, None => [(DeleteCompletedEvent, zero_state, "")]
  end.

(** ** API operations *)

Definition Create (now : Z) (typesCluster : Cluster) : Op Cluster :=
  let typesCluster := TrimFieldSpace typesCluster in
  let! existCluster := get typesCluster.(cl_Name) in
  match existCluster with
  | Some _ => throw EDuplicateResource
  | None =>
      match validateConfigForCreate typesCluster with
      | Err e => throw (EInvalidOption e)
      | Ok _ =>
          let! scVersion := gets w_scVersion in
          let config := genZKEConfig typesCluster in
          let state := mkState (Some EmptyFullState) config now 0 false scVersion in
          do! db (createOrUpdateClusterFromDB typesCluster.(cl_Name) state) in
          let! l := newCluster typesCluster.(cl_Name) CSCreating in
          do! upd l (set_createTime now) in
          do! upd l (set_config config) in
          do! upd l (set_scVersion scVersion) in
          do! add l in
          let! ctx := WithCancel in
          do! upd l (set_cancel (Some ctx)) in
          do! go (TWorker KCreate l (Some ctx) state false) in
          ret (created_cluster typesCluster now)
      end
  end.

Definition Update (typesCluster : Cluster) : Op Cluster :=
  let typesCluster := TrimFieldSpace typesCluster in
  let! existCluster := get typesCluster.(cl_Name) in
  match existCluster with
  | None => throw ENotFound
  | Some l =>
      let! c := cluster l in
      match validateConfigForUpdate c.(zl_kubeClient) (ToScCluster c) typesCluster with
      | Err e => throw (EInvalidOption e)
      | Ok _ =>
          let config := genZKEConfigForUpdate c.(zl_config) typesCluster in
          let! state := db (getClusterFromDB typesCluster.(cl_Name)) in
          if state.(cs_Created) && negb (Can c UpdateEvent) then throw EPermissionDenied else
          let state := set_ZKEConfig state config in
          do! upd l (set_config config) in
          do! db (createOrUpdateClusterFromDB typesCluster.(cl_Name) state) in
          let! taken := c_Event (if state.(cs_Created) then UpdateEvent else ContinuteCreateEvent) l in
          if negb taken then throw EServerError else
          let! ctx := WithCancel in
          do! upd l (set_cancel (Some ctx)) in
          do! go (TWorker KUpdate l (Some ctx) state false) in
          ret typesCluster
      end
  end.

(** [now] is the deletion time.  The result of the delete event is not looked at. *)
Definition Delete (now : Z) (id : string) : Op unit :=
  let! toDelete := get id in
  match toDelete with
  | None => throw ENotFound
  | Some l =>
      let! c := cluster l in
      if negb (Can c DeleteEvent) then throw EPermissionDenied else
      let! state := db (getClusterFromDB c.(zl_Name)) in
      let! _taken := c_Event DeleteEvent l in
      do! (if state.(cs_Created) then
             let! c := cluster l in
             match c.(zl_stopCh) with
             | ChOpen =>
                 do! upd l (set_stopCh ChClosed) in
                 publish (BusDelete (ToScCluster c))
             | ChNil | ChClosed => throw EPanic
             end
           else ret tt) in
      do! upd l (set_deleteTime now) in
      do! db (createOrUpdateClusterFromDB id (set_DeleteTime state now)) in
      go (TWorker KDestroy l None zero_state false)
  end.

Definition CancelCluster (id : string) : Op unit :=
  let! c := get id in
  match c with
  | None => throw ENotFound
  | Some l => Cancel l
  end.

Definition Get (id : string) : Op (option nat) := get id.

Definition GetReady (id : string) : Op (option nat) :=
  let! c := get id in
  match c with
  | Some l => let! c := cluster l in ret (if IsReady c then Some l else None)
  | None => ret None
  end.

(** The slice itself is returned; the pointers it holds when it is returned. *)
Definition List : Op (list nat) := gets w_clusters.
Definition ready_at (w : World) (l : nat) : bool :=
  match w.(w_heap) !! l with Some c => IsReady c | None => false end.
Definition ListReady : Op (list nat) :=
  gets (fun w => filter (fun l => ready_at w l = true) w.(w_clusters)).

(** Cluster.GetKubeConfig; the empty text when there are no certificates yet. *)
Definition GetKubeConfig (l : nat) (user : string) : Op string :=
  let! c := cluster l in
  let! state := db (getClusterFromDB c.(zl_Name)) in
  match state.(cs_FullState) with
  | None => throw EPanic
  | Some f =>
      if HasCurrentCerts f then
        match CertConfig f user with Some cfg => ret cfg | None => throw EServerError end
      else ret ""
  end.

(** ** Start-up *)

(** What building the client of a loaded cluster answers: the outcome of
    BuildConfig, client.New and the two calls of setCache. *)
Record InitOutcome := mkInit {
  io_buildErr : bool; io_clientErr : bool; io_httpErr : option string; io_cacheErr : option string
}.

(** Cluster.Init; true when it fails. *)
Definition Init (l : nat) (o : InitOutcome) : Op bool :=
  if o.(io_buildErr) then ret true else
  if o.(io_clientErr) then ret true else
  do! upd l (set_kubeClient true) in
  let! err := setCache l o.(io_httpErr) o.(io_cacheErr) in
  match err with
  | Some _ => ret true
  | None => do! go (TCheck l) in ret false
  end.

Fixpoint load_clusters (init : string -> InitOutcome) (states : list (string * clusterState)) : Op unit :=
  match states with
  | [] => ret tt
  | (k, v) :: states =>
      let! l := newCluster k (if v.(cs_Created) then CSRunning else CSCreateFailed) in
      do! upd l (set_config v.(cs_ZKEConfig)) in
      do! upd l (set_createTime v.(cs_CreateTime)) in
      do! upd l (set_scVersion v.(cs_ScVersion)) in
      do! (if v.(cs_Created) then
             match v.(cs_FullState) with
             | None => throw EPanic
             | Some _ =>
                 let! failed := Init l (init k) in
                 if failed then ret tt else
                 do! add l in
                 let! c := cluster l in
                 publish (BusCreate (ToScCluster c))
             end
           else add l) in
      load_clusters init states
  end.

(** loadDB; [order] is the order in which Go ranges over the map. *)
Definition loadDB (order : list (string * clusterState) -> list (string * clusterState))
    (init : string -> InitOutcome) : Op unit :=
  let! states := db getClustersFromDB in
  load_clusters init (order states).

(** newZKEManager, on an open table. *)
Definition newZKEManager order init (table : DB) (scVersion : string) : result ApiError unit * World :=
  loadDB order init (mkWorld table scVersion [] [] ∅ [] [] 0 ∅ []).
End Manager.

(** ** The table's transitions *)

(** The first transition of the table that applies. *)
Fixpoint first_next (ts : list Transition) (s : ClusterStatus) (e : FsmEvent) : option ClusterStatus :=
  match ts with
  | [] => None
  | t :: ts =>
      if decide (t.(tr_Name) = e /\ s ∈ t.(tr_Src)) then Some t.(tr_Dst) else first_next ts s e
  end.

(** An event leads from a state to one state only. *)
Definition deterministic (ts : list Transition) : bool :=
  forallb (fun t => forallb (fun u =>
    bool_decide (t.(tr_Name) = u.(tr_Name) -> t.(tr_Dst) = u.(tr_Dst))) ts) ts.

Lemma first_next_sound ts s e d :
  first_next ts s e = Some d ->
  exists t, t ∈ ts /\ t.(tr_Name) = e /\ s ∈ t.(tr_Src) /\ t.(tr_Dst) = d.
Proof.
  induction ts as [|t ts IH]; simpl; [done|]. case_decide as Hd.
  - intros [= <-]. destruct Hd. exists t. set_solver.
  - intros (t' & ? & ?)%IH. exists t'. set_solver.
Qed.

Lemma first_next_complete ts s e t :
  t ∈ ts -> t.(tr_Name) = e -> s ∈ t.(tr_Src) -> is_Some (first_next ts s e).
Proof.
  induction ts as [|u ts IH]; intros Hin He Hs; [set_solver|]. simpl. case_decide as Hd; [done|].
  apply IH; [|done..]. set_solver.
Qed.

(** An engine for the examples. *)
#[export] Instance table_engine : FsmEngine := first_next.
#[export] Instance table_engine_laws : FsmLaws.
Proof. split; [apply first_next_sound | apply first_next_complete]. Qed.

Lemma fsm_next_table `{FsmLaws} s e :
  fsm_next cluster_transitions s e = first_next cluster_transitions s e.
Proof.
  assert (Hdet : deterministic cluster_transitions = true) by (vm_compute; reflexivity).
  unfold deterministic in Hdet. rewrite forallb_forall in Hdet.
  assert (Heq : forall t u, t ∈ cluster_transitions -> u ∈ cluster_transitions ->
    t.(tr_Name) = u.(tr_Name) -> t.(tr_Dst) = u.(tr_Dst)).
  { intros t u Ht Hu. apply list_elem_of_In in Ht, Hu. specialize (Hdet t Ht).
    rewrite forallb_forall in Hdet. specialize (Hdet u Hu). by apply bool_decide_eq_true in Hdet. }
  destruct (fsm_next cluster_transitions s e) as [d|] eqn:Hf.
  - apply fsm_next_sound in Hf as (t & Ht & Hn & Hs & Hd).
    destruct (first_next_complete _ _ _ _ Ht Hn Hs) as [d' Hd']. rewrite Hd'.
    apply first_next_sound in Hd' as (t' & Ht' & Hn' & _ & <-). f_equal. rewrite <- Hd.
    apply Heq; congruence.
  - destruct (first_next cluster_transitions s e) as [d|] eqn:Hd; [|done].
    apply first_next_sound in Hd as (t & Ht & Hn & Hs & _).
    destruct (fsm_next_complete _ _ _ _ Ht Hn Hs) as [? ?]. congruence.
Qed.

(** The life cycle as a diagram: the one state each event leads to. *)
Definition next_status (s : ClusterStatus) (e : FsmEvent) : option ClusterStatus :=
  match s, e with
  | CSCreating, CreateSucceedEvent => Some CSRunning
  | CSCreating, (CreateFailedEvent | CreateCanceledEvent) => Some CSCreateFailed
  | CSCreateFailed, ContinuteCreateEvent => Some CSCreating
  | CSRunning, UpdateEvent => Some CSUpdating
  | CSUpdating, (UpdateCompletedEvent | UpdateCanceledEvent) => Some CSRunning
  | CSRunning, GetInfoFailedEvent => Some CSUnreachable
  | CSUnreachable, GetInfoSucceedEvent => Some CSRunning
  | (CSRunning | CSCreateFailed | CSUnreachable), DeleteEvent => Some CSDeleting
  | CSDeleting, DeleteCompletedEvent => Some CSDeleted
  | _, _ => None
  end.

Lemma fsm_next_status `{FsmLaws} s e : fsm_next cluster_transitions s e = next_status s e.
Proof. rewrite fsm_next_table. destruct s, e; reflexivity. Qed.
