(* ===== verification/ClusterSafety.v ===== *)
(** The cluster manager under interleaving.  The API operations hold the manager's
    lock and are one step each; a background worker takes one step to start, one for
    everything from the return of the zke call to the choice of its events, one per
    event (the transition with its callback) and one to purge a deleted cluster from
    the table.  [Inv] holds in every state that is reached without a mishap, and with it no
    operation reaches a nil pointer and every running operation is owned by one worker. *)
From S2P Require Import Prelude KvStore GoStrings ClusterTypes ClusterValidation ClusterState ClusterManager.

(** ** Steps *)

Section Steps.
Context `{ZkeCore} {DB : Type} `{KvTable DB} `{Json clusterState} `{FsmEngine} `{NodeListener}.

Inductive Action :=
  | ACreate (now : Z) (c : Cluster) | AUpdate (c : Cluster) | ADelete (now : Z) (id : string)
  | ACancel (id : string)
  | AStart (i : nat)                              (* the goroutine i begins *)
  | AUp (i : nat) (o : UpOutcome)                 (* zke returns to it *)
  | AFire (i : nat)                               (* it sends its next event *)
  | APurge (i : nat)                              (* it deletes the table entry *)
  | ACheck (i : nat) (timer reachable : bool).    (* one round of connectionCheckLoop *)

Definition set_task (i : nat) (t : Task) : M World ApiError unit :=
  modify (fun w : World (DB := DB) => set_tasks (<[i := t]> w.(w_tasks)) w).

(** The first lines of the worker bodies. *)
Definition start_worker (i : nat) (k : WorkerKind) (l : nat) (ctx : option nat) (s : clusterState)
    : M World ApiError unit :=
  let! c := cluster (DB := DB) l in
  do! (if bool_decide (k = KDestroy) then ret tt else log_add c.(zl_Name)) in
  set_task i (TWorker k l ctx s true).

Definition worker_body (k : WorkerKind) (l : nat) (s : clusterState) (o : UpOutcome)
    : M World ApiError (list Fire) :=
  match k with
  | KCreate => Create_body (DB := DB) l s o
  | KUpdate => Update_body l s o
  | KDestroy => ret (Destroy_body o)
  end.

Definition fire (i l : nat) (f : Fire) (rest : list Fire) : M World ApiError unit :=
  let '(ev, s, msg) := f in
  let! purge := event (DB := DB) ev l s msg in
  set_task i (match purge with
              | Some name => TPurge name
              | None => match rest with [] => TDone | _ => TFire l rest end
              end).

(** connectionCheckLoop: the closed channel ends the loop unless the timer was
    chosen; the timer sends an event without arguments. *)
Definition check_round (i l : nat) (timer reachable : bool) : M World ApiError unit :=
  let! c := cluster (DB := DB) l in
  if timer then
    let! _taken := c_Event (if reachable then GetInfoSucceedEvent else GetInfoFailedEvent) l in
    ret tt
  else if bool_decide (c.(zl_stopCh) = ChClosed) then set_task i TDone
  else ret tt.

Definition step (a : Action) (w : World) : option (result ApiError unit * World) :=
  let done {A} (m : M World ApiError A) := Some ((let! _ := m in ret tt) w) in
  match a with
  | ACreate now c => done (Create (DB := DB) now c)
  | AUpdate c => done (Update c)
  | ADelete now id => done (Delete now id)
  | ACancel id => done (CancelCluster id)
  | AStart i =>
      match w.(w_tasks) !! i with
      | Some (TWorker k l ctx s false) => done (start_worker i k l ctx s)
      | _ => None
      end
  | AUp i o =>
      match w.(w_tasks) !! i with
      | Some (TWorker k l ctx s true) =>
          done (let! evs := worker_body k l s o in set_task i (TFire l evs))
      | _ => None
      end
  | AFire i =>
      match w.(w_tasks) !! i with
      | Some (TFire l (f :: rest)) => done (fire i l f rest)
      | _ => None
      end
  | APurge i =>
      match w.(w_tasks) !! i with
      | Some (TPurge name) =>
          done (do! attempt (E := ApiError) (db (deleteClusterFromDB name)) in set_task i TDone)
      | _ => None
      end
  | ACheck i timer reachable =>
      match w.(w_tasks) !! i with
      | Some (TCheck l) => done (check_round i l timer reachable)
      | _ => None
      end
  end.

(** Run a schedule; [None] when an action is not enabled. *)
Fixpoint steps (acts : list Action) (w : World) : option World :=
  match acts with
  | [] => Some w
  | a :: acts => match step a w with Some (_, w') => steps acts w' | None => None end
  end.

(** The two outcomes the worker of a continued creation does not survive: a panic
    (it is answered with an event of updates, which Creating refuses) and a failed
    setCache (two events are sent).  Every other outcome is allowed. *)
Definition quiet (o : UpOutcome) : Prop :=
  (exists st err, upZKECluster o = UpReturn st err) /\ o.(uo_httpErr) = None /\ o.(uo_cacheErr) = None.

Definition allowed (w : World (DB := DB)) (a : Action) : Prop :=
  match a with
  | AUp i o =>
      forall l ctx s st, w.(w_tasks) !! i = Some (TWorker KUpdate l ctx s st) ->
        s.(cs_Created) = false -> quiet o
  | _ => True
  end.

Inductive reach (w0 : World) : World -> Prop :=
  | reach_refl : reach w0 w0
  | reach_step w a r w' : reach w0 w -> allowed w a -> step a w = Some (r, w') -> reach w0 w'.

(** Every run, allowed or not: the actions one after another, each with the state it was
    taken in. *)
Inductive trail (w0 : World) : list (World * Action) -> World -> Prop :=
  | trail_start : trail w0 [] w0
  | trail_step tr w a r w' : trail w0 tr w -> step a w = Some (r, w') -> trail w0 (tr ++ [(w, a)]) w'.
(** What a run may not survive: to the worker that continues a creation zke panics, or the
    client or the cache of the new cluster cannot be built. *)
Definition mishap (p : World (DB := DB) * Action) : Prop :=
  exists i o l ctx s st, snd p = AUp i o /\ (fst p).(w_tasks) !! i = Some (TWorker KUpdate l ctx s st) /\ s.(cs_Created) = false /\
    ((exists msg, upZKECluster o = UpPanic msg) \/ o.(uo_httpErr) <> None \/ o.(uo_cacheErr) <> None).

(** The same conditions, computed. *)
Definition quietb (o : UpOutcome) : bool :=
  match upZKECluster o, o.(uo_httpErr), o.(uo_cacheErr) with
  | UpReturn _ _, None, None => true
  | _, _, _ => false
  end.
Definition allowedb (w : World (DB := DB)) (a : Action) : bool :=
  match a with
  | AUp i o =>
      match w.(w_tasks) !! i with
      | Some (TWorker KUpdate _ _ s _) => s.(cs_Created) || quietb o
      | _ => true
      end
  | _ => true
  end.
Fixpoint allowed_run (acts : list Action) (w : World (DB := DB)) : option World :=
  match acts with
  | [] => Some w
  | a :: acts =>
      if allowedb w a then
        match step a w with Some (_, w') => allowed_run acts w' | None => None end
      else None
  end.

Lemma allowedb_allowed w a : allowedb w a = true -> allowed w a.
Proof.
  destruct a as [| | | | |i o| | |]; simpl; try done. intros Hb l ctx s st Hi Hcs.
  rewrite Hi, Hcs in Hb. simpl in Hb. unfold quietb, quiet in *.
  destruct (upZKECluster o), (uo_httpErr o), (uo_cacheErr o); try done. eauto.
Qed.

Lemma not_allowedb_mishap w a : allowedb w a = false -> mishap (w, a).
Proof.
  destruct a as [| | | | |i o| | |]; simpl; try done. destruct (w_tasks w !! i) as [[[] l ctx s st| | | |]|] eqn:Hi; try done.
  intros [Hs Hq]%orb_false_iff. exists i, o, l, ctx, s, st. split; [done|]. split; [done|]. split; [done|]. unfold quietb in Hq.
  destruct (upZKECluster o) as [msg|]; [left; by exists msg|right].
  destruct (uo_httpErr o); [by left|right]. by destruct (uo_cacheErr o).
Qed.
Lemma allowed_no_mishap w a : allowed w a -> ~ mishap (w, a).
Proof.
  intros Ha (i & o & l & ctx & s & st & Heq & Hi & Hs & Hbad). simpl in Heq, Hi. subst a. destruct (Ha l ctx s st Hi Hs) as ((st' & err & Hup) & Hh & Hc).
  destruct Hbad as [[msg Hm]|[?|?]]; [congruence|done|done].
Qed.
(** A run without such a mishap is an allowed one. *)
Lemma trail_reach w0 tr w : trail w0 tr w -> Exists mishap tr \/ reach w0 w.
Proof.
  induction 1 as [|tr w a r w' _ IH Hs]; [right; constructor|]. destruct IH as [IH|IH]; [left; apply Exists_app; by left|].
  destruct (allowedb w a) eqn:Ha; [right; eapply reach_step; [done|by apply allowedb_allowed|done]|].
  left. apply Exists_app. right. constructor. by apply not_allowedb_mishap.
Qed.
Lemma allowed_run_trail acts w0 w w' tr :
  trail w0 tr w -> ~ Exists mishap tr -> allowed_run acts w = Some w' -> exists tr', trail w0 tr' w' /\ ~ Exists mishap tr'.
Proof.
  revert tr w. induction acts as [|a acts IH]; simpl; intros tr w Ht Hn Hrun; [simplify_eq; eauto|].
  destruct (allowedb w a) eqn:Ha; [|done]. destruct (step a w) as [[r w1]|] eqn:Hs; [|done].
  apply (IH (tr ++ [(w, a)]) w1); [by eapply trail_step| |done].
  rewrite Exists_app. intros [?|Hm]; [done|]. apply Exists_cons in Hm as [Hm|Hm]; [|by apply Exists_nil in Hm].
  by eapply allowed_no_mishap; [apply allowedb_allowed|].
Qed.
(** ** The invariant *)

Definition task_loc (t : Task) : option nat :=
  match t with TWorker _ l _ _ _ | TFire l _ => Some l | _ => None end.

Definition workers (w : World (DB := DB)) (l : nat) : list Task :=
  filter (fun t => task_loc t = Some l) w.(w_tasks).

(** What the table says about the creation of a cluster. *)
Definition created (w : World (DB := DB)) (name : string) : bool :=
  match stored (kv_content w.(w_db)) name with Some s => s.(cs_Created) | None => false end.

(** The status a worker runs in. *)
Definition worker_status (k : WorkerKind) (s : clusterState) : ClusterStatus :=
  match k with
  | KCreate => CSCreating
  | KUpdate => if s.(cs_Created) then CSUpdating else CSCreating
  | KDestroy => CSDeleting
  end.

(** The events that end an operation, by status. *)
Definition ends (st : ClusterStatus) (ev : FsmEvent) : bool :=
  match st, ev with
  | CSCreating, (CreateSucceedEvent | CreateFailedEvent | CreateCanceledEvent) => true
  | CSUpdating, (UpdateCompletedEvent | UpdateCanceledEvent) => true
  | CSDeleting, DeleteCompletedEvent => true
  | _, _ => false
  end.

Definition working (st : ClusterStatus) : Prop := st = CSCreating \/ st = CSUpdating.

Definition owns (c : ZCluster) (t : Task) : Prop :=
  match t with
  | TWorker k _ ctx s _ =>
      c.(zl_status) = worker_status k s /\
      (k = KDestroy \/ (is_Some ctx /\ c.(zl_cancel) = ctx)) /\
      (s.(cs_Created) = true -> k = KUpdate /\ c.(zl_stopCh) = ChOpen)
  | TFire _ [(ev, s, _)] =>
      ends c.(zl_status) ev = true /\
      (ev = CreateSucceedEvent -> c.(zl_stopCh) = ChOpen) /\
      (s.(cs_Created) = true ->
        (ev = CreateSucceedEvent \/ c.(zl_status) = CSUpdating) /\ c.(zl_stopCh) = ChOpen)
  | _ => False
  end.

Record cluster_inv (cr : bool) (c : ZCluster) (ts : list Task) : Prop := {
  ci_worker : match ts with
              | [] => ~ working c.(zl_status)
              | [t] => owns c t
              | _ => False
              end;
  ci_live : c.(zl_status) <> CSDeleted;
  ci_cancel : working c.(zl_status) -> is_Some c.(zl_cancel);
  ci_created : cr = true ->
    c.(zl_status) <> CSCreating /\ c.(zl_status) <> CSCreateFailed /\
    (c.(zl_status) <> CSDeleting -> c.(zl_stopCh) = ChOpen)
}.

Record Inv (w : World (DB := DB)) : Prop := {
  inv_nodup : NoDup w.(w_clusters);
  inv_heap l : l ∈ w.(w_clusters) -> is_Some (w.(w_heap) !! l);
  inv_names l l' c c' :
    l ∈ w.(w_clusters) -> l' ∈ w.(w_clusters) -> w.(w_heap) !! l = Some c -> w.(w_heap) !! l' = Some c' ->
    c.(zl_Name) = c'.(zl_Name) -> l = l';
  inv_tasks t l : t ∈ w.(w_tasks) -> task_loc t = Some l -> l ∈ w.(w_clusters);
  inv_checks l : TCheck l ∈ w.(w_tasks) -> is_Some (w.(w_heap) !! l);
  inv_clusters l c : l ∈ w.(w_clusters) -> w.(w_heap) !! l = Some c ->
    cluster_inv (created w c.(zl_Name)) c (workers w l)
}.
End Steps.

(** ** Lists of tasks *)

Lemma elem_of_insert_inv {A} (l : list A) i x y : y ∈ <[i := x]> l -> y = x \/ y ∈ l.
Proof.
  intros [j Hj]%list_elem_of_lookup. destruct (decide (i = j)) as [<-|Hne].
  - rewrite list_lookup_insert in Hj. case_decide; [by simplify_eq; left|].
    right. by eapply list_elem_of_lookup_2.
  - rewrite list_lookup_insert_ne in Hj by done. right. by eapply list_elem_of_lookup_2.
Qed.

Lemma filter_insert_other {A} (P : A -> Prop) `{!forall x, Decision (P x)} (l : list A) i x y :
  l !! i = Some x -> ~ P x -> ~ P y -> filter P (<[i := y]> l) = filter P l.
Proof.
  intros Hi Hx Hy. rewrite insert_take_drop by by eapply lookup_lt_Some.
  rewrite <- (take_drop_middle l i x Hi) at 3.
  by rewrite !filter_app, filter_cons_False, filter_cons_False by done.
Qed.

Lemma filter_insert_same {A} (P : A -> Prop) `{!forall x, Decision (P x)} (l : list A) i x y z :
  l !! i = Some x -> P x -> filter P l = [z] ->
  filter P (<[i := y]> l) = if decide (P y) then [y] else [].
Proof.
  intros Hi Hx Hf. rewrite insert_take_drop by by eapply lookup_lt_Some.
  rewrite <- (take_drop_middle l i x Hi) in Hf.
  rewrite filter_app, filter_cons_True in Hf by done. rewrite filter_app, filter_cons.
  destruct (filter P (take i l)) as [|a t]; simpl in Hf; simplify_eq.
  - rewrite app_nil_l. destruct (decide (P y)); congruence.
  - by destruct t.
Qed.

Section Frame.
Context `{ZkeCore} {DB : Type} `{KvTable DB} `{Json clusterState} `{FsmEngine} `{NodeListener}.
Context `{!KvLaws DB} `{!JsonLaws clusterState} `{!FsmLaws}.
Local Abbreviation W := (World (DB := DB)).

Lemma workers_app (w w' : W) t l :
  w'.(w_tasks) = w.(w_tasks) ++ [t] ->
  workers w' l = workers w l ++ (if decide (task_loc t = Some l) then [t] else []).
Proof.
  intros Ht. unfold workers. by rewrite Ht, filter_app.
Qed.

Lemma workers_elem (w : W) t l : t ∈ workers w l <-> task_loc t = Some l /\ t ∈ w.(w_tasks).
Proof. unfold workers. by rewrite list_elem_of_filter. Qed.

(** The worker that a task is, is the cluster's one worker. *)
Lemma workers_owner (w : W) i t l c :
  Inv w -> w.(w_tasks) !! i = Some t -> task_loc t = Some l -> w.(w_heap) !! l = Some c ->
  l ∈ w.(w_clusters) /\ workers w l = [t] /\ owns c t.
Proof.
  intros Hinv Hi Hl Hc. assert (Hin : t ∈ w.(w_tasks)) by by eapply list_elem_of_lookup_2.
  pose proof (inv_tasks _ Hinv _ _ Hin Hl) as Hcl. split; [done|].
  pose proof (ci_worker _ _ _ (inv_clusters _ Hinv _ _ Hcl Hc)) as Hw.
  assert (Hwk : t ∈ workers w l) by (apply workers_elem; done).
  destruct (workers w l) as [|t' [|]]; [set_solver| |done].
  apply list_elem_of_singleton in Hwk. by subst.
Qed.

Lemma cluster_inv_created (cr cr' : bool) c ts :
  (cr' = true -> cr = true) -> cluster_inv cr c ts -> cluster_inv cr' c ts.
Proof. intros Himp []. split; naive_solver. Qed.

(** A step that changes one cluster of the list, its workers and its table entry. *)
Lemma Inv_frame (w w' : W) l c c' :
  Inv w -> l ∈ w.(w_clusters) -> w.(w_heap) !! l = Some c ->
  w'.(w_heap) = <[l := c']> w.(w_heap) -> c'.(zl_Name) = c.(zl_Name) ->
  w'.(w_clusters) = w.(w_clusters) ->
  (forall n, n <> c.(zl_Name) -> created w' n = true -> created w n = true) ->
  (forall l', l' <> l -> workers w' l' = workers w l') ->
  (forall l', TCheck l' ∈ w'.(w_tasks) -> l' = l \/ TCheck l' ∈ w.(w_tasks)) ->
  cluster_inv (created w' c.(zl_Name)) c' (workers w' l) ->
  Inv w'.
Proof.
  intros Hinv Hl Hc Hheap Hname Hcls Hcr Hwk Hck Hci.
  assert (Hlt : (l < length w.(w_heap))%nat) by by eapply lookup_lt_Some.
  assert (Hsame : w'.(w_heap) !! l = Some c') by by rewrite Hheap, list_lookup_insert_eq.
  assert (Hother : forall l', l' <> l -> w'.(w_heap) !! l' = w.(w_heap) !! l')
    by (intros; by rewrite Hheap, list_lookup_insert_ne).
  assert (Hnm : forall l' d, w'.(w_heap) !! l' = Some d ->
    exists d0, w.(w_heap) !! l' = Some d0 /\ d0.(zl_Name) = d.(zl_Name)).
  { intros l' d Hd. destruct (decide (l' = l)) as [->|Hne].
    - exists c. split; [done|]. congruence.
    - exists d. by rewrite <- Hother. }
  split.
  - rewrite Hcls. apply Hinv.
  - rewrite Hcls. intros l' Hl'. destruct (decide (l' = l)) as [->|Hne]; [by eauto|].
    rewrite Hother by done. by apply Hinv.
  - rewrite Hcls. intros l1 l2 c1 c2 H1' H2' Hc1 Hc2 Heq.
    apply Hnm in Hc1 as (d1 & Hd1 & He1), Hc2 as (d2 & Hd2 & He2).
    apply (inv_names _ Hinv l1 l2 d1 d2); congruence.
  - intros t l' Ht Hl'. rewrite Hcls. destruct (decide (l' = l)) as [->|Hne]; [done|].
    assert (Htw : t ∈ workers w' l') by (apply workers_elem; done).
    rewrite Hwk in Htw by done. apply workers_elem in Htw as [_ Htw]. by apply (inv_tasks _ Hinv t).
  - intros l' Hl'. destruct (decide (l' = l)) as [->|Hne]; [by eauto|].
    rewrite Hother by done. apply Hck in Hl' as [|Hl']; [done|]. by apply (inv_checks _ Hinv).
  - rewrite Hcls. intros l' d Hl' Hd. destruct (decide (l' = l)) as [->|Hne].
    + rewrite Hsame in Hd. simplify_eq. by rewrite Hname.
    + rewrite Hwk by done. rewrite Hother in Hd by done.
      eapply cluster_inv_created; [|by apply (inv_clusters _ Hinv)].
      apply Hcr. intros Heq. apply Hne. by apply (inv_names _ Hinv l' l d c).
Qed.
End Frame.

Lemma bind_cluster `{ZkeCore} {DB A} l c (k : ZCluster -> M (World (DB := DB)) ApiError A) (w : World) :
  w.(w_heap) !! l = Some c -> bind (cluster l) k w = k c w.
Proof. intros Hc. unfold cluster, bind, gets. by rewrite Hc. Qed.

Lemma bind_upd `{ZkeCore} {DB A} l f (k : unit -> M (World (DB := DB)) ApiError A) (w : World) :
  bind (upd l f) k w = k tt (set_heap (alter f l w.(w_heap)) w).
Proof. reflexivity. Qed.
#[export] Hint Rewrite @bind_upd : monad.

Section Preservation.
Context `{ZkeCore} {DB : Type} `{KvTable DB} `{Json clusterState} `{FsmEngine} `{NodeListener}.
Context `{!KvLaws DB} `{!JsonLaws clusterState} `{!FsmLaws}.
Local Abbreviation W := (World (DB := DB)).

(** ** Calls on the table *)

Lemma load_certs_created s : (load_certs s).(cs_Created) = s.(cs_Created).
Proof.
  unfold load_certs. destruct (cs_FullState s) as [f|]; [|done]. by destruct (HasDesiredCerts f).
Qed.

(** The table after a write, seen through [created]. *)
Definition wrote (w : W) (d' : DB) (name : string) (ok cr : bool) : Prop :=
  created (set_db d' w) name = (if ok then cr else created w name) /\
  forall n, n <> name -> created (set_db d' w) n = created w n.

Lemma db_write name s (w w' : W) r :
  db (createOrUpdateClusterFromDB name s) w = (r, w') ->
  exists d', w' = set_db d' w /\ wrote w d' name (is_ok r) s.(cs_Created) /\
    forall e, r = Err e -> e = EServerError.
Proof.
  unfold db, rethrow, zoom. destruct (createOrUpdateClusterFromDB name s (w_db w)) as [r0 d'] eqn:Hw.
  intros. simplify_eq. exists d'. split; [done|].
  split; [|by intros e; destruct r0; simpl; intros; simplify_eq].
  apply createOrUpdate_stored in Hw as [Hsame Hother]. unfold wrote, created. simpl. split.
  - rewrite Hsame. destruct r0; simpl; [apply load_certs_created | done].
  - intros n Hn. by rewrite Hother.
Qed.

Lemma db_read name (w w' : W) r :
  db (getClusterFromDB name) w = (r, w') ->
  exists d', w' = set_db d' w /\ (forall n, created (set_db d' w) n = created w n) /\
    match r with Ok s => created w name = s.(cs_Created) | Err e => e = EServerError end.
Proof.
  unfold db, rethrow, zoom. destruct (getClusterFromDB name (w_db w)) as [r0 d'] eqn:Hw.
  intros. simplify_eq. exists d'. split; [done|].
  apply getCluster_stored in Hw as [Hc Hr]. unfold created. simpl. split.
  - intros n. by rewrite Hc.
  - destruct r0; simpl; [by rewrite Hr | done].
Qed.

Lemma db_purge name (w w' : W) r :
  db (deleteClusterFromDB name) w = (r, w') ->
  exists d', w' = set_db d' w /\ forall n, created (set_db d' w) n = true -> created w n = true.
Proof.
  unfold db, rethrow, zoom. destruct (deleteClusterFromDB name (w_db w)) as [r0 d'] eqn:Hw.
  intros. simplify_eq. exists d'. split; [done|]. intros n. unfold created. simpl.
  rewrite (deleteCluster_stored _ _ _ _ Hw n). by destruct (is_ok r0 && String.eqb name n).
Qed.

Lemma find_cluster_Some (w : W) id l :
  find_cluster w id = Some l ->
  l ∈ w.(w_clusters) /\ exists c, w.(w_heap) !! l = Some c /\ c.(zl_Name) = id.
Proof.
  unfold find_cluster, named. intros Hf.
  destruct (list_find _ _) as [[i l']|] eqn:Hl; simplify_eq/=.
  apply list_find_Some in Hl as (Hi & Hn & _). split; [by eapply list_elem_of_lookup_2|].
  destruct (w_heap w !! l) as [c|]; [|done]. exists c. split; [done|].
  by destruct (String.eqb_spec (zl_Name c) id).
Qed.

Lemma find_cluster_None (w : W) id l c :
  find_cluster w id = None -> l ∈ w.(w_clusters) -> w.(w_heap) !! l = Some c -> c.(zl_Name) <> id.
Proof.
  unfold find_cluster, named. intros Hf Hl Hc Heq.
  destruct (list_find _ _) as [|] eqn:Hfind; [done|].
  apply list_find_None in Hfind. rewrite Forall_forall in Hfind. apply (Hfind l Hl).
  rewrite Hc, Heq. by rewrite String.eqb_refl.
Qed.

Lemma alter_insert {A} (f : A -> A) (l : list A) i x : l !! i = Some x -> alter f i l = <[i := f x]> l.
Proof.
  intros Hi. apply list_eq. intros j. destruct (decide (i = j)) as [<-|Hne].
  - rewrite list_lookup_alter_eq, list_lookup_insert_eq by (by eapply lookup_lt_Some). by rewrite Hi.
  - by rewrite list_lookup_alter_ne, list_lookup_insert_ne.
Qed.

Lemma alter_insert_eq {A} (f : A -> A) (l : list A) i x y :
  l !! i = Some x -> y = f x -> alter f i l = <[i := y]> l.
Proof. intros Hi ->. by apply alter_insert. Qed.

Lemma alter_compose {A} (f g : A -> A) (l : list A) i : alter f i (alter g i l) = alter (fun x => f (g x)) i l.
Proof. revert i. induction l as [|a l IH]; intros [|i]; simpl; f_equal; auto. apply IH. Qed.

Lemma alter_is_Some {A} (f : A -> A) (l : list A) i j : is_Some (l !! j) -> is_Some (alter f i l !! j).
Proof. rewrite !lookup_lt_is_Some. by rewrite length_alter. Qed.

Lemma alter_last {A} (f : A -> A) (l : list A) x : alter f (length l) (l ++ [x]) = l ++ [f x].
Proof. induction l as [|a l IH]; [done|]. simpl. f_equal. exact IH. Qed.

(** ** Each operation keeps the invariant *)

Local Ltac op H :=
  unfold cluster, upd, go, publish, publish_alarm, log_add, log_delete, get, add, set_task,
    attempt, bind, ret, throw, gets, modify in H; simpl in H.

Lemma Cancel_ok (w w' : W) id r :
  Inv w -> CancelCluster id w = (r, w') -> Inv w' /\ r <> Err EPanic.
Proof.
  intros Hinv Hrun. unfold CancelCluster, Cancel in Hrun. op Hrun.
  destruct (find_cluster w id) as [l|] eqn:Hf; [|by simplify_eq].
  apply find_cluster_Some in Hf as (Hl & c & Hc & Hn).
  rewrite Hc in Hrun.
  pose proof (inv_clusters _ Hinv _ _ Hl Hc) as Hci.
  destruct (bool_decide _ || bool_decide _) eqn:Hst; simpl in Hrun; [|by simplify_eq].
  assert (Hwk : working c.(zl_status)).
  { apply orb_true_iff in Hst as [Hst|Hst]; apply bool_decide_eq_true in Hst; [by left|by right]. }
  destruct (ci_cancel _ _ _ Hci Hwk) as [ctx Hctx].
  destruct (zl_isCanceled c); simpl in Hrun; [by simplify_eq|].
  rewrite Hctx in Hrun. simpl in Hrun. simplify_eq. split; [|done].
  eapply (Inv_frame w _ l c (set_isCanceled true c)); try done.
  - simpl. by rewrite (alter_insert _ _ _ c).
  - auto.
  - destruct Hci. by split.
Qed.

Lemma idle_workers (w : W) l c :
  Inv w -> l ∈ w.(w_clusters) -> w.(w_heap) !! l = Some c -> ~ working c.(zl_status) ->
  c.(zl_status) <> CSDeleting -> workers w l = [].
Proof.
  intros Hinv Hl Hc Hnw Hnd. pose proof (ci_worker _ _ _ (inv_clusters _ Hinv _ _ Hl Hc)) as Hw.
  destruct (workers w l) as [|t [|]]; [done| |done]. exfalso. unfold working in *.
  destruct t as [k l' ctx s st|l' [|[[ev s] m] [|]]| | |]; simpl in Hw; try done.
  - destruct Hw as [Hst _]. destruct k; simpl in Hst; [tauto| |tauto].
    destruct (cs_Created s); tauto.
  - destruct Hw as [Hst _]. destruct (zl_status c); simpl in Hst; try done; naive_solver.
Qed.

(** The same world but for the table, which says the same about creations. *)
Lemma Inv_same (w w' : W) :
  Inv w -> w'.(w_heap) = w.(w_heap) -> w'.(w_clusters) = w.(w_clusters) ->
  w'.(w_tasks) = w.(w_tasks) -> (forall n, created w' n = true -> created w n = true) -> Inv w'.
Proof.
  intros [] Hh Hc Ht Hcr. split; rewrite ?Hh, ?Hc, ?Ht; try done.
  intros l c Hl Hlc. unfold workers. rewrite Ht. eapply cluster_inv_created; [apply Hcr|eauto].
Qed.

Lemma Inv_upd (w : W) l c f :
  Inv w -> l ∈ w.(w_clusters) -> w.(w_heap) !! l = Some c -> (f c).(zl_Name) = c.(zl_Name) ->
  cluster_inv (created w c.(zl_Name)) (f c) (workers w l) ->
  Inv (set_heap (alter f l w.(w_heap)) w).
Proof.
  intros Hinv Hl Hc Hn Hci. eapply (Inv_frame w _ l c (f c)); try done; [|auto].
  simpl. by apply alter_insert.
Qed.

Lemma Inv_write (w : W) d' name ok cr :
  Inv w -> wrote w d' name ok cr -> (ok = true -> cr = true -> created w name = true) ->
  Inv (set_db d' w).
Proof.
  intros Hinv [Hsame Hother] Hcr. apply (Inv_same w); try done. intros n.
  destruct (decide (n = name)) as [->|Hne].
  - rewrite Hsame. destruct ok; [|done]. intros ->. auto.
  - by rewrite Hother.
Qed.

Lemma c_Event_run (w : W) ev l c :
  w.(w_heap) !! l = Some c -> has_callback ev = false ->
  c_Event ev l w = match next_status c.(zl_status) ev with
                   | None => (Ok false, w)
                   | Some d => (Ok true, set_heap (alter (set_status d) l w.(w_heap)) w)
                   end.
Proof.
  intros Hc Hcb. unfold c_Event. rewrite (bind_cluster _ _ _ _ Hc), fsm_next_status, Hcb.
  by destruct (next_status _ _).
Qed.

Lemma lookup_alter_heap (w : W) l f c :
  w.(w_heap) !! l = Some c -> (set_heap (alter f l w.(w_heap)) w).(w_heap) !! l = Some (f c).
Proof. intros Hc. simpl. by rewrite list_lookup_alter_eq, Hc. Qed.

(** A worker is started on an idle cluster that has just become busy. *)
Lemma Inv_spawn (w w' : W) l c c' t :
  Inv w -> l ∈ w.(w_clusters) -> w.(w_heap) !! l = Some c ->
  workers w l = [] -> w'.(w_heap) = <[l := c']> w.(w_heap) -> c'.(zl_Name) = c.(zl_Name) ->
  w'.(w_clusters) = w.(w_clusters) -> w'.(w_tasks) = w.(w_tasks) ++ [t] ->
  task_loc t = Some l ->
  (forall n, created w' n = created w n) ->
  cluster_inv (created w c.(zl_Name)) c' [t] -> Inv w'.
Proof.
  intros Hinv Hl Hc Hidle Hheap Hname Hcls Htasks Hloc Hcr Hci.
  eapply (Inv_frame w w' l c c'); try done.
  - intros n _. by rewrite Hcr.
  - intros l' Hne. rewrite (workers_app w w' t l' Htasks), decide_False by congruence.
    by rewrite app_nil_r.
  - intros l'. rewrite Htasks, elem_of_app, list_elem_of_singleton. intros [|<-]; [by right|done].
  - rewrite Hcr, (workers_app w w' t l Htasks), decide_True by done.
    by rewrite Hidle.
Qed.

(** A cluster that is given up keeps no worker and its status says nothing. *)
Lemma deleting_inv cr c : c.(zl_status) = CSDeleting -> cluster_inv cr c [].
Proof. intros Hst. split; rewrite Hst; unfold working; naive_solver. Qed.

Lemma publish_Inv (w : W) e : Inv w -> Inv (set_bus e w).
Proof. intros Hinv. by apply (Inv_same w). Qed.

(** The end of Delete, once the delete event is taken. *)
Lemma delete_tail (w w' : W) l c s now r :
  Inv w -> l ∈ w.(w_clusters) -> w.(w_heap) !! l = Some c -> c.(zl_status) = CSDeleting ->
  workers w l = [] -> created w c.(zl_Name) = s.(cs_Created) ->
  (s.(cs_Created) = true -> c.(zl_stopCh) = ChOpen) ->
  (do! (if s.(cs_Created) then
          let! c := cluster l in
          match c.(zl_stopCh) with
          | ChOpen => do! upd l (set_stopCh ChClosed) in publish (BusDelete (ToScCluster c))
          | ChNil | ChClosed => throw EPanic
          end
        else ret tt) in
   do! upd l (set_deleteTime now) in
   do! db (createOrUpdateClusterFromDB c.(zl_Name) (set_DeleteTime s now)) in
   go (TWorker KDestroy l None zero_state false)) w = (r, w') ->
  Inv w' /\ r <> Err EPanic.
Proof.
  intros Hinv Hl Hc Hst Hidle Hs Hopen Hrun.
  assert (exists w1 c1, Inv w1 /\ l ∈ w1.(w_clusters) /\ w1.(w_heap) !! l = Some c1 /\
    c1.(zl_status) = CSDeleting /\ workers w1 l = [] /\ c1.(zl_Name) = c.(zl_Name) /\
    created w1 c1.(zl_Name) = s.(cs_Created) /\
    (do! upd l (set_deleteTime now) in
     do! db (createOrUpdateClusterFromDB c.(zl_Name) (set_DeleteTime s now)) in
     go (TWorker KDestroy l None zero_state false)) w1 = (r, w'))
    as (w1 & c1 & Hinv1 & Hl1 & Hc1 & Hst1 & Hidle1 & Hn1 & Hs1 & Hrun1).
  { destruct (cs_Created s); [|by exists w, c].
    autorewrite with monad in Hrun. rewrite (bind_cluster _ _ _ _ Hc), Hopen in Hrun by done.
    autorewrite with monad in Hrun. unfold publish in Hrun. rewrite bind_modify in Hrun.
    match type of Hrun with _ ?w1 = _ => exists w1, (set_stopCh ChClosed c) end.
    split; [|split; [exact Hl|]].
    - apply publish_Inv. eapply Inv_upd; [done..|]. rewrite Hidle. by apply deleting_inv.
    - split; [by apply lookup_alter_heap|]. split; [done|]. split; [exact Hidle|]. split; [done|].
      split; [exact Hs|]. exact Hrun. }
  rewrite <- Hn1 in Hrun1. clear w c Hinv Hl Hc Hst Hidle Hs Hopen Hrun Hn1.
  rename w1 into w, c1 into c. rewrite bind_upd in Hrun1.
  assert (Hinv : Inv (set_heap (alter (set_deleteTime now) l (w_heap w)) w)).
  { eapply Inv_upd; [done..|]. rewrite Hidle1. by apply deleting_inv. }
  pose proof (lookup_alter_heap w l (set_deleteTime now) c Hc1) as Hc.
  apply bind_cases in Hrun1 as [(u & w2 & Hr & Hrun)|(e & Hr & ->)];
    apply db_write in Hr as (d2 & -> & Hw & He); simpl in Hw.
  2: { rewrite (He e eq_refl). split; [|done]. by eapply Inv_write. }
  unfold go, modify in Hrun. simplify_eq. split; [|done].
  assert (Hinv2 : Inv (set_db d2 (set_heap (alter (set_deleteTime now) l (w_heap w)) w))).
  { eapply Inv_write; [done..|]. intros _ Hcs. exact (eq_trans Hs1 Hcs). }
  eapply (Inv_spawn _ _ l _ (set_deleteTime now c) (TWorker KDestroy l None zero_state false) Hinv2);
    [exact Hl1|exact Hc|exact Hidle1| |done|done|done|done|done|].
  - symmetry. apply list_insert_id. exact Hc.
  - split; simpl; rewrite ?Hst1; unfold working; [|done|naive_solver|naive_solver].
    split; [done|]. split; [by left|done].
Qed.

Lemma Delete_ok (w w' : W) now id r :
  Inv w -> Delete now id w = (r, w') -> Inv w' /\ r <> Err EPanic.
Proof.
  intros Hinv Hrun. unfold Delete, get in Hrun. autorewrite with monad in Hrun.
  destruct (find_cluster w id) as [l|] eqn:Hf; [|by unfold throw in Hrun; simplify_eq].
  apply find_cluster_Some in Hf as (Hl & c & Hc & <-). rewrite (bind_cluster _ _ _ _ Hc) in Hrun.
  destruct (negb (Can c DeleteEvent)) eqn:Hcan; [by unfold throw in Hrun; simplify_eq|].
  apply bind_cases in Hrun as [(s & w1 & Hr & Hrun)|(e & Hr & ->)];
    apply db_read in Hr as (d1 & -> & Hcr & Hs).
  2: { rewrite Hs. split; [|done]. apply (Inv_same w); try done. intros n. by rewrite Hcr. }
  assert (Hinv1 : Inv (set_db d1 w)).
  { apply (Inv_same w); try done. intros n. by rewrite Hcr. }
  rewrite <- Hcr in Hs. clear Hcr. revert Hinv1 Hs Hc Hl Hrun.
  change (w_heap w) with (w_heap (set_db d1 w)). change (w_clusters w) with (w_clusters (set_db d1 w)).
  generalize (set_db d1 w). clear w Hinv. intros w Hinv Hs Hc Hl Hrun.
  unfold Can in Hcan. rewrite fsm_next_status in Hcan.
  destruct (next_status _ _) as [d|] eqn:Hd; [|done]. clear Hcan.
  unfold bind at 1 in Hrun. rewrite (c_Event_run _ _ _ _ Hc), Hd in Hrun by done.
  assert (d = CSDeleting /\ ~ working (zl_status c) /\ zl_status c <> CSDeleting) as (-> & Hnw & Hnd).
  { destruct (zl_status c); simpl in Hd; unfold working; naive_solver. }
  pose proof (idle_workers w l c Hinv Hl Hc Hnw Hnd) as Hidle.
  pose proof (inv_clusters _ Hinv _ _ Hl Hc) as Hci.
  eapply (delete_tail (set_heap (alter (set_status CSDeleting) l (w_heap w)) w) w' l
    (set_status CSDeleting c)); [|exact Hl|by apply lookup_alter_heap|done|exact Hidle|exact Hs| |exact Hrun].
  - eapply Inv_upd; [done..|]. rewrite Hidle. by apply deleting_inv.
  - intros Hcs. apply (ci_created _ _ _ Hci); [congruence|done].
Qed.

(** The end of Update: the event and, when it is taken, the worker. *)
Lemma launch_ok (w w' : W) l c s v r :
  Inv w -> l ∈ w.(w_clusters) -> w.(w_heap) !! l = Some c -> created w c.(zl_Name) = s.(cs_Created) ->
  (let! taken := c_Event (if s.(cs_Created) then UpdateEvent else ContinuteCreateEvent) l in
   if negb taken then throw EServerError else
   let! ctx := WithCancel in
   do! upd l (set_cancel (Some ctx)) in
   do! go (TWorker KUpdate l (Some ctx) s false) in
   ret v) w = (r, w') ->
  Inv w' /\ r <> Err (A := Cluster) EPanic.
Proof.
  intros Hinv Hl Hc Hs. unfold bind at 1.
  rewrite (c_Event_run _ _ _ _ Hc) by by destruct (cs_Created s).
  pose proof (inv_clusters _ Hinv _ _ Hl Hc) as Hci.
  destruct (next_status _ _) as [d|] eqn:Hd; simpl; [|unfold throw; intros; by simplify_eq].
  unfold WithCancel. autorewrite with monad. intros Hrun. unfold go, ret, modify, bind in Hrun.
  simplify_eq. split; [|done]. simpl.
  assert (Hst : zl_status c = (if cs_Created s then CSRunning else CSCreateFailed) /\
                d = (if cs_Created s then CSUpdating else CSCreating)).
  { destruct (cs_Created s), (zl_status c); simpl in Hd; naive_solver. }
  destruct Hst as [Hst ->].
  eapply (Inv_spawn w _ l c (set_cancel (Some (w_ctxs w))
    (set_status (if cs_Created s then CSUpdating else CSCreating) c))
    (TWorker KUpdate l (Some (w_ctxs w)) s false)); try done.
  - apply (idle_workers w l c); rewrite ?Hst; [done..| |by destruct (cs_Created s)].
    unfold working. by destruct (cs_Created s); intros [|].
  - simpl. rewrite (alter_insert _ _ _ c Hc).
    erewrite (alter_insert _ _ _ _); [apply list_insert_insert_eq|].
    rewrite list_lookup_insert_eq; [done|by eapply lookup_lt_Some].
  - rewrite Hs. destruct Hci as [_ _ _ Hcr]. rewrite Hs in Hcr. split; simpl.
    + split; [done|]. split; [by right|]. intros Hcs. split; [done|].
      rewrite Hcs in *. apply Hcr; [done|]. by rewrite Hst.
    + by destruct (cs_Created s).
    + done.
    + intros Hcs. rewrite Hcs in *. split; [done|]. split; [done|]. intros _.
      apply Hcr; [done|]. by rewrite Hst.
Qed.

Lemma Update_ok (w w' : W) sc r :
  Inv w -> Update sc w = (r, w') -> Inv w' /\ r <> Err EPanic.
Proof.
  intros Hinv Hrun. unfold Update, get in Hrun. revert Hrun.
  generalize (TrimFieldSpace sc). clear sc. intros sc Hrun. autorewrite with monad in Hrun.
  destruct (find_cluster w (cl_Name sc)) as [l|] eqn:Hf; [|by unfold throw in Hrun; simplify_eq].
  apply find_cluster_Some in Hf as (Hl & c & Hc & Hn). rewrite (bind_cluster _ _ _ _ Hc) in Hrun.
  destruct (validateConfigForUpdate _ _ _) as [[]|e]; [|by unfold throw in Hrun; simplify_eq].
  apply bind_cases in Hrun as [(s & w1 & Hr & Hrun)|(e & Hr & ->)];
    apply db_read in Hr as (d1 & -> & Hcr & Hs).
  2: { rewrite Hs. split; [|done]. apply (Inv_same w); try done. intros n. by rewrite Hcr. }
  assert (Hinv1 : Inv (set_db d1 w)).
  { apply (Inv_same w); try done. intros n. by rewrite Hcr. }
  rewrite <- Hcr in Hs. clear Hcr. revert Hinv1 Hs Hc Hl Hrun.
  change (w_heap w) with (w_heap (set_db d1 w)). change (w_clusters w) with (w_clusters (set_db d1 w)).
  generalize (set_db d1 w). clear w Hinv. intros w Hinv Hs Hc Hl Hrun.
  destruct (cs_Created s && negb (Can c UpdateEvent)) eqn:Hcan; [by unfold throw in Hrun; simplify_eq|].
  autorewrite with monad in Hrun. set (cfg := genZKEConfigForUpdate _ _) in *.
  assert (Hinv1 : Inv (set_heap (alter (set_config cfg) l (w_heap w)) w)).
  { eapply Inv_upd; [done..|]. destruct (inv_clusters _ Hinv _ _ Hl Hc). by split. }
  pose proof (lookup_alter_heap w l (set_config cfg) c Hc) as Hc1.
  assert (Hs1 : created (set_heap (alter (set_config cfg) l (w_heap w)) w) (cl_Name sc) = cs_Created s)
    by done.
  revert Hinv1 Hs1 Hc1 Hl Hrun.
  change (w_clusters w) with (w_clusters (set_heap (alter (set_config cfg) l (w_heap w)) w)).
  generalize (set_heap (alter (set_config cfg) l (w_heap w)) w). clear w Hinv Hs Hc.
  intros w Hinv Hs Hc Hl Hrun.
  apply bind_cases in Hrun as [(u & w1 & Hr & Hrun)|(e & Hr & ->)];
    apply db_write in Hr as (d2 & -> & Hw & He); simpl in Hw.
  2: { rewrite (He e eq_refl). split; [|done]. by eapply Inv_write. }
  assert (Hinv1 : Inv (set_db d2 w)) by (eapply Inv_write; [done..|congruence]).
  eapply launch_ok; [exact Hinv1|exact Hl|exact Hc| |exact Hrun].
  destruct Hw as [Hw _]. simpl. by rewrite Hn.
Qed.

(** A new cluster object joins the list, under a name no listed cluster has. *)
Lemma Inv_new (w w' : W) c' ts :
  Inv w ->
  (forall l c, l ∈ w.(w_clusters) -> w.(w_heap) !! l = Some c -> c.(zl_Name) <> c'.(zl_Name)) ->
  w'.(w_heap) = w.(w_heap) ++ [c'] -> w'.(w_clusters) = w.(w_clusters) ++ [length w.(w_heap)] ->
  w'.(w_tasks) = w.(w_tasks) ++ ts ->
  (forall n, n <> c'.(zl_Name) -> created w' n = true -> created w n = true) ->
  (forall t l, t ∈ ts -> task_loc t = Some l -> l = length w.(w_heap)) ->
  (forall l, TCheck l ∈ ts -> l = length w.(w_heap)) ->
  cluster_inv (created w' c'.(zl_Name)) c' (filter (fun t => task_loc t = Some (length w.(w_heap))) ts) ->
  Inv w'.
Proof.
  intros Hinv Hfresh Hheap Hcls Htasks Hcr Hlocs Hchk Hci. set (l0 := length (w_heap w)) in *.
  assert (Hnew : w'.(w_heap) !! l0 = Some c') by by rewrite Hheap, list_lookup_middle.
  assert (Hold : forall l, l ∈ w.(w_clusters) -> w'.(w_heap) !! l = w.(w_heap) !! l /\ l <> l0).
  { intros l Hl. destruct (inv_heap _ Hinv l Hl) as [c Hc]. pose proof (lookup_lt_Some _ _ _ Hc).
    split; [|subst l0; lia]. rewrite Hheap. by rewrite lookup_app_l by lia. }
  assert (Hin : forall l, l ∈ w'.(w_clusters) <-> l ∈ w.(w_clusters) \/ l = l0).
  { intros l. by rewrite Hcls, elem_of_app, list_elem_of_singleton. }
  assert (Hwk : forall l, workers w' l =
    workers w l ++ filter (fun t => task_loc t = Some l) ts).
  { intros l. unfold workers. by rewrite Htasks, filter_app. }
  split.
  - rewrite Hcls. apply NoDup_app. split; [apply Hinv|]. split; [|apply NoDup_singleton].
    intros l Hl ->%list_elem_of_singleton. by apply (Hold _ Hl).
  - intros l [Hl| ->]%Hin; [|by eauto]. rewrite (proj1 (Hold l Hl)). by apply Hinv.
  - intros l l' c d [Hl| ->]%Hin [Hl'| ->]%Hin Hc Hd Heq; rewrite ?Hnew in *; simplify_eq; [| | |done].
    + rewrite (proj1 (Hold l Hl)) in Hc. rewrite (proj1 (Hold l' Hl')) in Hd.
      by apply (inv_names _ Hinv l l' c d).
    + rewrite (proj1 (Hold l Hl)) in Hc. by destruct (Hfresh l c Hl Hc).
    + rewrite (proj1 (Hold l' Hl')) in Hd. by destruct (Hfresh l' d Hl' Hd).
  - intros t l. rewrite Htasks, elem_of_app, Hin. intros [Ht|Ht] Hl.
    + left. by apply (inv_tasks _ Hinv t).
    + right. by apply (Hlocs t).
  - intros l. rewrite Htasks, elem_of_app. intros [Ht|Ht].
    + destruct (inv_checks _ Hinv l Ht) as [c Hc]. exists c.
      rewrite Hheap. by apply lookup_app_l_Some.
    + apply Hchk in Ht as ->. by eauto.
  - intros l c [Hl| ->]%Hin Hc.
    + destruct (Hold l Hl) as [Hh Hne]. rewrite Hh in Hc. rewrite Hwk.
      assert (filter (fun t => task_loc t = Some l) ts = []) as ->.
      { apply filter_none. intros t Ht Hl'. apply Hne. by apply (Hlocs t). }
      rewrite app_nil_r. eapply cluster_inv_created; [|by apply (inv_clusters _ Hinv)].
      apply Hcr. by apply (Hfresh l c).
    + rewrite Hnew in Hc. simplify_eq. rewrite Hwk.
      assert (workers w l0 = []) as ->; [|exact Hci].
      apply filter_none. intros t Ht Hl'. pose proof (inv_tasks _ Hinv _ _ Ht Hl') as Hl0.
      by apply (Hold _ Hl0).
Qed.

Lemma Create_ok (w w' : W) now sc r :
  Inv w -> Create now sc w = (r, w') -> Inv w' /\ r <> Err EPanic.
Proof.
  intros Hinv Hrun. unfold Create, get in Hrun. revert Hrun.
  generalize (TrimFieldSpace sc). clear sc. intros sc Hrun. autorewrite with monad in Hrun.
  destruct (find_cluster w (cl_Name sc)) as [l|] eqn:Hf; [by unfold throw in Hrun; simplify_eq|].
  destruct (validateConfigForCreate sc) as [[]|e]; [|by unfold throw in Hrun; simplify_eq].
  autorewrite with monad in Hrun.
  apply bind_cases in Hrun as [(u & w1 & Hr & Hrun)|(e & Hr & ->)];
    apply db_write in Hr as (d1 & -> & Hw & He); simpl in Hw.
  2: { rewrite (He e eq_refl). split; [|done]. by eapply Inv_write. }
  unfold newCluster, WithCancel, add, go, upd in Hrun. autorewrite with monad in Hrun.
  unfold ret in Hrun. simplify_eq. split; [|done]. simpl. destruct Hw as [Hw Hwo].
  pose (c' := mkZCluster (cl_Name sc) now 0 false false ChNil (genZKEConfig sc) (Some (w_ctxs w))
    false CSCreating (w_scVersion w)).
  eapply (Inv_new w _ c' [TWorker _ _ _ _ _]);
    [exact Hinv| | |reflexivity|reflexivity| | | |].
  - intros l c Hl Hc. by eapply find_cluster_None.
  - simpl. by rewrite !alter_last.
  - intros n Hn. simpl in Hn. rewrite <- Hwo by exact Hn. intros Hcr. exact Hcr.
  - intros t l ->%list_elem_of_singleton. simpl. congruence.
  - intros l Hl%list_elem_of_singleton. discriminate.
  - rewrite filter_cons_True by done. simpl. split; unfold working; simpl.
    + split; [done|]. split; [right; split; [done|reflexivity]|done].
    + done.
    + done.
    + intros Hcr. change (created (set_db d1 w) (cl_Name sc) = true) in Hcr. congruence.
Qed.

(** A worker's task is replaced by the next one of the same worker, or ends. *)
Lemma Inv_worker (w w' : W) i l t t' c c' extra :
  Inv w -> w.(w_tasks) !! i = Some t -> task_loc t = Some l -> w.(w_heap) !! l = Some c ->
  w'.(w_heap) = <[l := c']> w.(w_heap) -> c'.(zl_Name) = c.(zl_Name) ->
  w'.(w_clusters) = w.(w_clusters) ->
  w'.(w_tasks) = <[i := t']> (w.(w_tasks) ++ extra) ->
  (extra = [] \/ extra = [TCheck l]) -> (forall l', t' <> TCheck l') ->
  (forall n, n <> c.(zl_Name) -> created w' n = true -> created w n = true) ->
  task_loc t' = Some l \/ task_loc t' = None ->
  cluster_inv (created w' c.(zl_Name)) c' (if decide (task_loc t' = Some l) then [t'] else []) ->
  Inv w'.
Proof.
  intros Hinv Hi Hloc Hc Hheap Hname Hcls Htasks Hextra Hchk Hcr Hloc' Hci.
  destruct (workers_owner w i t l c Hinv Hi Hloc Hc) as (Hl & Hwk & Hown).
  assert (Hi' : (w.(w_tasks) ++ extra) !! i = Some t) by by apply lookup_app_l_Some.
  assert (Hext : forall l', filter (fun t => task_loc t = Some l') (w.(w_tasks) ++ extra) = workers w l').
  { intros l'. rewrite filter_app, (filter_none _ extra), app_nil_r; [done|].
    intros x Hx. destruct Hextra as [-> | ->]; [set_solver|]. by apply list_elem_of_singleton in Hx as ->. }
  eapply (Inv_frame w w' l c c'); try done.
  - intros l' Hne. unfold workers at 1. rewrite Htasks, (filter_insert_other _ _ _ t t'); [apply Hext|done|congruence|].
    destruct Hloc' as [-> | ->]; congruence.
  - intros l' Hin. rewrite Htasks in Hin. apply elem_of_insert_inv in Hin as [Hin|Hin]; [by destruct (Hchk l')|].
    apply elem_of_app in Hin as [Hin|Hin]; [by right|]. left.
    destruct Hextra as [-> | ->]; [set_solver|]. apply list_elem_of_singleton in Hin. congruence.
  - unfold workers. rewrite Htasks, (filter_insert_same _ _ _ t t' t); [exact Hci|done|done|].
    by rewrite Hext.
Qed.

Lemma start_ok (w w' : W) i k l ctx s r :
  Inv w -> w.(w_tasks) !! i = Some (TWorker k l ctx s false) ->
  start_worker i k l ctx s w = (r, w') -> Inv w' /\ r <> Err EPanic.
Proof.
  intros Hinv Hi Hrun. pose proof (inv_tasks _ Hinv _ l (list_elem_of_lookup_2 _ _ _ Hi) eq_refl) as Hl.
  destruct (inv_heap _ Hinv l Hl) as [c Hc].
  destruct (workers_owner w i _ l c Hinv Hi eq_refl Hc) as (_ & Hwk & Hown).
  pose proof (inv_clusters _ Hinv _ _ Hl Hc) as Hci. rewrite Hwk in Hci.
  unfold start_worker in Hrun. rewrite (bind_cluster _ _ _ _ Hc) in Hrun.
  assert (Hres : r = Ok tt /\ w'.(w_heap) = w.(w_heap) /\ w'.(w_clusters) = w.(w_clusters) /\
    w'.(w_tasks) = <[i := TWorker k l ctx s true]> w.(w_tasks) /\ w'.(w_db) = w.(w_db)).
  { unfold set_task, log_add, modify, ret, bind in Hrun. by destruct (bool_decide _); simplify_eq. }
  destruct Hres as (-> & Hh & Hcl & Ht & Hdb). split; [|done].
  eapply (Inv_worker w w' i l _ (TWorker k l ctx s true) c c []); try done.
  - by rewrite Hh, list_insert_id.
  - by rewrite app_nil_r.
  - by left.
  - intros n _. unfold created. by rewrite Hdb.
  - by left.
  - rewrite decide_True by done. unfold created. rewrite Hdb. destruct Hci. by split.
Qed.

(** What the part of a worker after the zke call does: it may touch its own cluster,
    but not its name, status or cancel function, may start the connection check, and
    chooses one event that ends the operation. *)
Definition body_post (w w' : W) l c (r : result ApiError (list Fire)) : Prop :=
  exists c' f extra, r = Ok [f] /\
    w'.(w_heap) = <[l := c']> w.(w_heap) /\ w'.(w_clusters) = w.(w_clusters) /\
    w'.(w_tasks) = w.(w_tasks) ++ extra /\ (extra = [] \/ extra = [TCheck l]) /\
    w'.(w_db) = w.(w_db) /\
    c'.(zl_Name) = c.(zl_Name) /\ c'.(zl_status) = c.(zl_status) /\ c'.(zl_cancel) = c.(zl_cancel) /\
    (c'.(zl_stopCh) = c.(zl_stopCh) \/ c.(zl_status) = CSCreating) /\
    owns c' (TFire l [f]).

(** The end of a branch: the cluster is [c'], the goroutines [extra] were started. *)
Local Ltac leaf c' extra :=
  eexists c', _, extra; split; [reflexivity|];
  split; [simpl; rewrite ?alter_compose; first [by rewrite list_insert_id | by eapply alter_insert_eq]|];
  simpl; rewrite ?app_nil_r;
  repeat match goal with |- _ /\ _ => split end; try done; try (by left); try (by right); try congruence.

Lemma Create_body_ok (w w' : W) l c ctx s o r :
  w.(w_heap) !! l = Some c -> owns c (TWorker KCreate l ctx s true) ->
  Create_body l s o w = (r, w') -> body_post w w' l c r.
Proof.
  intros Hc (Hst & _ & Hcr) Hrun. simpl in Hst. unfold Create_body in Hrun.
  assert (Hnc : s.(cs_Created) = false).
  { destruct (cs_Created s); [|done]. by destruct (Hcr eq_refl). }
  destruct (upZKECluster o) as [msg|st err].
  { unfold ret in Hrun. simplify_eq. leaf c (@nil Task). by rewrite Hst. }
  rewrite (bind_cluster _ _ _ _ Hc) in Hrun.
  destruct (zl_isCanceled c). { unfold ret in Hrun. simplify_eq. leaf c (@nil Task). by rewrite Hst. }
  destruct err as [e|]. { unfold ret in Hrun. simplify_eq. leaf c (@nil Task). by rewrite Hst. }
  rewrite bind_upd in Hrun. unfold setCache in Hrun.
  destruct (uo_httpErr o) as [e|].
  { autorewrite with monad in Hrun. unfold ret in Hrun. simplify_eq.
    leaf (set_kubeClient true c) (@nil Task). by rewrite Hst. }
  autorewrite with monad in Hrun.
  destruct (uo_cacheErr o) as [e|].
  { autorewrite with monad in Hrun. unfold ret in Hrun. simplify_eq.
    leaf (set_stopCh ChOpen (set_kubeClient true c)) (@nil Task). by rewrite Hst. }
  autorewrite with monad in Hrun. unfold go, modify, ret, bind in Hrun. simplify_eq.
  leaf (set_cache true (set_stopCh ChOpen (set_kubeClient true c))) [TCheck l]; [by rewrite Hst|].
  intros _. split; [by left|done].
Qed.

Lemma Update_body_ok (w w' : W) l c ctx s o r :
  w.(w_heap) !! l = Some c -> owns c (TWorker KUpdate l ctx s true) ->
  (s.(cs_Created) = false -> quiet o) ->
  Update_body l s o w = (r, w') -> body_post w w' l c r.
Proof.
  intros Hc (Hst & _ & Hcr) Hq Hrun. simpl in Hst. unfold Update_body in Hrun.
  destruct (cs_Created s) eqn:Hcs.
  - destruct (Hcr eq_refl) as [_ Hopen].
    assert (Hpick : exists f, r = Ok [f] /\ w' = w /\
      (f.1.1 = UpdateCompletedEvent \/ f.1.1 = UpdateCanceledEvent)).
    { destruct (upZKECluster o) as [msg|st err]; [unfold ret in Hrun; simplify_eq; by eauto|].
      rewrite (bind_cluster _ _ _ _ Hc) in Hrun.
      assert (cs_Created (set_FullState s st) = true) as Hcs' by done. rewrite Hcs' in Hrun.
      unfold ret in Hrun. destruct (zl_isCanceled c); [by simplify_eq; eauto|].
      destruct err; by simplify_eq; eauto. }
    destruct Hpick as ([[ev s'] m] & -> & -> & Hev). simpl in Hev.
    exists c, (ev, s', m), []. rewrite list_insert_id by done. rewrite app_nil_r.
    do 5 (split; [by auto|]). do 4 (split; [done|]). split; [by left|]. simpl. rewrite Hst.
    destruct Hev as [-> | ->]; (split; [done|]); (split; [done|]); by auto.
  - destruct (Hq eq_refl) as ((st & err & Hup) & Hh & Hca). rewrite Hup in Hrun.
    rewrite (bind_cluster _ _ _ _ Hc) in Hrun.
    assert (cs_Created (set_FullState s st) = false) as Hcs' by done. rewrite Hcs' in Hrun.
    destruct (zl_isCanceled c).
    { unfold ret in Hrun. simplify_eq. leaf c (@nil Task). by rewrite Hst. }
    destruct err as [e|]. { unfold ret in Hrun. simplify_eq. leaf c (@nil Task). by rewrite Hst. }
    rewrite bind_upd in Hrun. unfold setCache in Hrun. rewrite Hh, Hca in Hrun.
    autorewrite with monad in Hrun. unfold ret in Hrun. simplify_eq.
    leaf (set_cache true (set_stopCh ChOpen (set_kubeClient true c))) (@nil Task); [by rewrite Hst|].
    intros _. split; [by left|done].
Qed.

Lemma worker_body_ok (w w' : W) k l c ctx s o r :
  w.(w_heap) !! l = Some c -> owns c (TWorker k l ctx s true) ->
  (k = KUpdate -> s.(cs_Created) = false -> quiet o) ->
  worker_body k l s o w = (r, w') -> body_post w w' l c r.
Proof.
  intros Hc Hown Hq. destruct k; simpl.
  - by eapply Create_body_ok.
  - eapply Update_body_ok; eauto.
  - destruct Hown as (Hst & _ & _). simpl in Hst. unfold ret. intros. simplify_eq.
    unfold Destroy_body. destruct (uo_panics o), (uo_err o); leaf c (@nil Task); by rewrite Hst.
Qed.

Lemma up_ok (w w' : W) i k l ctx s o r :
  Inv w -> w.(w_tasks) !! i = Some (TWorker k l ctx s true) ->
  (k = KUpdate -> s.(cs_Created) = false -> quiet o) ->
  (let! evs := worker_body k l s o in set_task i (TFire l evs)) w = (r, w') ->
  Inv w' /\ r <> Err EPanic.
Proof.
  intros Hinv Hi Hq Hrun.
  pose proof (inv_tasks _ Hinv _ l (list_elem_of_lookup_2 _ _ _ Hi) eq_refl) as Hl.
  destruct (inv_heap _ Hinv l Hl) as [c Hc].
  destruct (workers_owner w i _ l c Hinv Hi eq_refl Hc) as (_ & Hwk & Hown).
  pose proof (inv_clusters _ Hinv _ _ Hl Hc) as Hci. rewrite Hwk in Hci.
  apply bind_cases in Hrun as [(evs & w1 & Hr & Hrun)|(e & Hr & ->)];
    eapply worker_body_ok in Hr as (c' & f & extra & Hf & Hh & Hcl & Ht & Hx & Hdb & Hn & Hs & Hca & Hsc & Hown');
    try done.
  simplify_eq. unfold set_task, modify in Hrun. simplify_eq. split; [|done].
  eapply (Inv_worker w _ i l _ (TFire l [f]) c c' extra); try done.
  - simpl. by rewrite Ht.
  - intros n _. unfold created. simpl. by rewrite Hdb.
  - by left.
  - rewrite decide_True by done. unfold created. simpl. rewrite Hdb. destruct Hci as [_ Hlv Hcn Hcr].
    split; rewrite ?Hs, ?Hca; try done.
    intros Hc'. destruct (Hcr Hc') as (H1' & H2' & H3'). do 2 (split; [done|]). intros Hnd.
    destruct Hsc as [-> | Hsc]; [by apply H3' | congruence].
Qed.

(** What a callback that ends a creation or an update does to the manager. *)
Definition callback_post (w w' : W) l c (s : clusterState) : Prop :=
  exists c', w'.(w_heap) = <[l := c']> w.(w_heap) /\ w'.(w_clusters) = w.(w_clusters) /\
    w'.(w_tasks) = w.(w_tasks) /\
    (c' = c \/ c' = set_isCanceled false c) /\
    (forall n, n <> c.(zl_Name) -> created w' n = created w n) /\
    (created w' c.(zl_Name) = true -> created w c.(zl_Name) = true \/ s.(cs_Created) = true).

Lemma save_post name s (w : W) :
  exists d', snd (db (createOrUpdateClusterFromDB name s) w) = set_db d' w /\
    (forall n, n <> name -> created (set_db d' w) n = created w n) /\
    (created (set_db d' w) name = true -> created w name = true \/ s.(cs_Created) = true).
Proof.
  destruct (db (createOrUpdateClusterFromDB name s) w) as [r0 w1] eqn:Hw.
  apply db_write in Hw as (d' & -> & [Hsame Hother] & _). exists d'. split; [done|].
  split; [done|]. rewrite Hsame. destruct (is_ok r0); auto.
Qed.

Lemma alarm_post {A} (w : W) (b : bool) a (k : unit -> M World ApiError A) :
  exists al, bind (if b then ret tt else publish_alarm a) k w = k tt (set_alarms al w).
Proof.
  destruct b; [exists (w_alarms w) | exists (w_alarms w ++ [a])]; [by destruct w | done].
Qed.

(** The callbacks of the events that end a creation or an update. *)
Definition ending (ev : FsmEvent) : bool :=
  match ev with
  | CreateSucceedEvent | CreateFailedEvent | CreateCanceledEvent
  | UpdateCompletedEvent | UpdateCanceledEvent => true
  | _ => false
  end.

Lemma callback_ok (w w' : W) ev l c s msg r :
  w.(w_heap) !! l = Some c -> ending ev = true ->
  callback ev l s msg w = (r, w') -> r = Ok None /\ callback_post w w' l c s.
Proof.
  intros Hc Hev Hrun. unfold callback in Hrun. rewrite (bind_cluster _ _ _ _ Hc) in Hrun.
  assert (Hid : w.(w_heap) = <[l := c]> w.(w_heap)) by by rewrite list_insert_id.
  destruct ev; try done.
  - unfold log_delete in Hrun. rewrite bind_modify, bind_attempt in Hrun.
    destruct (save_post (zl_Name c) s (set_logs (w_logs w ∖ {[zl_Name c]}) w)) as (d' & Hd & Ho & Hs).
    rewrite Hd in Hrun. rewrite (bind_cluster l c) in Hrun by exact Hc.
    unfold publish, bind, modify, ret in Hrun. simplify_eq. split; [done|].
    exists c. by auto 10.
  - destruct (alarm_post w (String.eqb msg "") (mkClusterAlarm (zl_Name c) AlarmCreateFailed msg)
      (fun _ => do! attempt (db (createOrUpdateClusterFromDB (zl_Name c) s)) in ret (None (A := string)))) as [al Hal].
    rewrite Hal, bind_attempt in Hrun. destruct (save_post (zl_Name c) s (set_alarms al w)) as (d' & Hd & Ho & Hs).
    rewrite Hd in Hrun. unfold ret in Hrun. simplify_eq. split; [done|]. exists c. by auto 10.
  - rewrite bind_upd, bind_attempt in Hrun.
    destruct (save_post (zl_Name c) s (set_heap (alter (set_isCanceled false) l (w_heap w)) w)) as (d' & Hd & Ho & Hs).
    rewrite Hd in Hrun. unfold ret in Hrun. simplify_eq. split; [done|].
    exists (set_isCanceled false c). split; [by apply alter_insert|]. by auto 10.
  - unfold log_delete in Hrun. rewrite bind_modify in Hrun.
    set (w0 := set_logs (w_logs w ∖ {[zl_Name c]}) w) in *.
    destruct (alarm_post w0 (String.eqb msg "") (mkClusterAlarm (zl_Name c) AlarmUpdateFailed msg)
      (fun _ => do! attempt (db (createOrUpdateClusterFromDB (zl_Name c) s)) in ret (None (A := string)))) as [al Hal].
    rewrite Hal, bind_attempt in Hrun. destruct (save_post (zl_Name c) s (set_alarms al w0)) as (d' & Hd & Ho & Hs).
    rewrite Hd in Hrun. unfold ret in Hrun. simplify_eq. split; [done|]. exists c. by auto 10.
  - rewrite bind_upd, bind_attempt in Hrun.
    destruct (save_post (zl_Name c) s (set_heap (alter (set_isCanceled false) l (w_heap w)) w)) as (d' & Hd & Ho & Hs).
    rewrite Hd in Hrun. unfold ret in Hrun. simplify_eq. split; [done|].
    exists (set_isCanceled false c). split; [by apply alter_insert|]. by auto 10.
Qed.

(** The end of an operation that is not a deletion. *)
Lemma fire_end_ok (w w' : W) i l c ev s msg r :
  Inv w -> w.(w_tasks) !! i = Some (TFire l [(ev, s, msg)]) -> w.(w_heap) !! l = Some c ->
  ending ev = true -> fire i l (ev, s, msg) [] w = (r, w') -> Inv w' /\ r <> Err EPanic.
Proof.
  intros Hinv Hi Hc Hev Hrun.
  destruct (workers_owner w i _ l c Hinv Hi eq_refl Hc) as (Hl & Hwk & Hown).
  pose proof (inv_clusters _ Hinv _ _ Hl Hc) as Hci.
  destruct Hown as (Hends & Hopen & Hcr). simpl in Hends.
  unfold fire, event in Hrun. rewrite bind_assoc, (bind_cluster _ _ _ _ Hc), fsm_next_status in Hrun.
  assert (exists d, next_status (zl_status c) ev = Some d /\
    (d = CSRunning \/ (d = CSCreateFailed /\ ev <> CreateSucceedEvent /\ zl_status c <> CSUpdating)))
    as (d & Hd & Hdc).
  { destruct (zl_status c), ev; simpl in *; try done; eexists; split; try done;
      first [by left | right; split; [done|]; by split]. }
  rewrite Hd, bind_assoc, bind_upd in Hrun.
  pose proof (lookup_alter_heap w l (set_status d) c Hc) as Hc1.
  apply bind_cases in Hrun as [(p & w1 & Hr & Hrun)|(e & Hr & ->)];
    eapply callback_ok in Hr as (Hp & c' & Hh & Hcl & Ht & Hc' & Ho & Hs); try done.
  simplify_eq. unfold set_task, modify in Hrun. simplify_eq. split; [|done]. simpl in *.
  rewrite (alter_insert _ _ _ c Hc), list_insert_insert_eq in Hh.
  eapply (Inv_worker w _ i l _ TDone c c' []); try done.
  - by destruct Hc' as [-> | ->].
  - simpl. by rewrite app_nil_r, Ht.
  - by left.
  - intros n Hn Hcn. specialize (Ho n Hn). unfold created in *. simpl in *. congruence.
  - by right.
  - simpl. destruct Hci as [_ Hlv Hcn Hcrd].
    assert (Hst : c'.(zl_status) = d /\ c'.(zl_stopCh) = c.(zl_stopCh)) by by destruct Hc' as [-> | ->].
    destruct Hst as [Hst Hsc].
    assert (Hd' : ~ working d /\ d <> CSDeleted).
    { unfold working. destruct Hdc as [->|(-> & _)]; by split; [intros [|]|]. }
    destruct Hd' as [Hdw Hdd].
    split; rewrite ?Hst; [done|done|done|].
    intros Hcr'. apply Hs in Hcr'. rewrite Hsc.
    assert (Hopen' : d = CSRunning /\ zl_stopCh c = ChOpen).
    { destruct Hcr' as [Hcr'|Hcr'].
      - change (created w (zl_Name c) = true) in Hcr'. destruct (Hcrd Hcr') as (H1' & H2' & H3').
        destruct Hdc as [->|(-> & Hne & Hnu)]; [|by destruct (zl_status c), ev].
        split; [done|]. apply H3'. by destruct (zl_status c), ev.
      - destruct (Hcr Hcr') as [Hev' Ho']. split; [|done]. destruct Hdc as [->|(-> & Hne & Hnu)]; [done|].
        tauto. }
    destruct Hopen' as [-> Hopen']. by rewrite Hopen'.
Qed.

Lemma remove_first_elem (p : nat -> bool) ls l :
  NoDup ls -> (forall l', l' ∈ ls -> p l' = true <-> l' = l) ->
  NoDup (remove_first p ls) /\ forall l', l' ∈ remove_first p ls <-> l' ∈ ls /\ l' <> l.
Proof.
  intros Hnd Hp. induction ls as [|a ls IH]; simpl; [set_solver|].
  apply NoDup_cons in Hnd as [Ha Hnd]. destruct (p a) eqn:Hpa.
  - assert (a = l) as -> by (apply Hp; [set_solver|done]). split; [done|].
    intros l'. rewrite elem_of_cons. split; [|naive_solver]. intros Hl'. split; [by right|].
    intros ->. done.
  - assert (a <> l) as Hne by (intros ->; assert (p l = true) by (apply Hp; set_solver); congruence).
    destruct IH as [Hnd' IH]; [done|intros; apply Hp; set_solver|]. split.
    + apply NoDup_cons. split; [|done]. rewrite IH. tauto.
    + intros l'. rewrite !elem_of_cons, IH. naive_solver.
Qed.

(** The end of a deletion: the cluster leaves the list, its entry is still to go. *)
Lemma fire_delete_ok (w w' : W) i l c s msg r :
  Inv w -> w.(w_tasks) !! i = Some (TFire l [(DeleteCompletedEvent, s, msg)]) ->
  w.(w_heap) !! l = Some c -> fire i l (DeleteCompletedEvent, s, msg) [] w = (r, w') ->
  Inv w' /\ r <> Err EPanic.
Proof.
  intros Hinv Hi Hc Hrun.
  destruct (workers_owner w i _ l c Hinv Hi eq_refl Hc) as (Hl & Hwk & Hown & _). simpl in Hown.
  assert (Hst : zl_status c = CSDeleting) by by destruct (zl_status c).
  unfold fire, event in Hrun. rewrite bind_assoc, (bind_cluster _ _ _ _ Hc), fsm_next_status, Hst in Hrun.
  simpl in Hrun. rewrite bind_assoc, bind_upd in Hrun.
  pose proof (lookup_alter_heap w l (set_status CSDeleted) c Hc) as Hc1.
  set (w1 := set_heap (alter (set_status CSDeleted) l (w_heap w)) w) in *.
  unfold callback in Hrun. rewrite bind_assoc, (bind_cluster _ _ _ _ Hc1), bind_assoc in Hrun.
  match type of Hrun with bind (if ?b then _ else publish_alarm ?a) ?k _ = _ =>
    destruct (alarm_post w1 b a k) as [al Hal]; rewrite Hal in Hrun end.
  unfold Remove, set_task in Hrun. autorewrite with monad in Hrun. unfold modify in Hrun.
  simplify_eq. split; [|done].
  destruct (remove_first_elem (named (set_alarms al w1) (zl_Name c)) (w_clusters w) l) as [Hnd Hrem].
  { apply Hinv. }
  { intros l' Hl'. destruct (decide (l' = l)) as [->|Hne].
    - unfold named. split; [done|]. intros _. simpl. rewrite list_lookup_alter_eq, Hc. simpl.
      apply String.eqb_refl.
    - split; [|done]. unfold named. simpl. rewrite list_lookup_alter_ne by done.
      destruct (w_heap w !! l') as [d|] eqn:Hd; [|done]. intros Heq%String.eqb_eq.
      by apply (inv_names _ Hinv l' l d c). }
  assert (Hheap : forall l', l' <> l -> alter (set_status CSDeleted) l (w_heap w) !! l' = w_heap w !! l').
  { intros. by rewrite list_lookup_alter_ne. }
  set (ts' := <[i := TPurge (zl_Name c)]> (w_tasks w)).
  assert (Hself : filter (fun t => task_loc t = Some l) ts' = []).
  { unfold ts'. erewrite filter_insert_same; [|exact Hi|done|exact Hwk]. done. }
  assert (Hothers : forall l', l' <> l -> filter (fun t => task_loc t = Some l') ts' = workers w l').
  { intros l' Hne. unfold ts'. erewrite filter_insert_other; [done|exact Hi| |done].
    simpl. congruence. }
  split; simpl.
  - exact Hnd.
  - intros l' [Hl' Hne]%Hrem. rewrite Hheap by done. by apply Hinv.
  - intros l1 l2 c1 c2 [H1' Hn1]%Hrem [H2' Hn2]%Hrem. rewrite !Hheap by done. by apply Hinv.
  - intros t l' Ht Hl'. fold ts' in Ht. apply Hrem. split.
    + apply elem_of_insert_inv in Ht as [-> |Ht]; [done|]. by apply (inv_tasks _ Hinv t).
    + intros ->. assert (Htw : t ∈ filter (fun t => task_loc t = Some l) ts') by (rewrite list_elem_of_filter; done).
      rewrite Hself in Htw. by apply elem_of_nil in Htw.
  - intros l' Ht. apply elem_of_insert_inv in Ht as [|Ht]; [done|].
    apply alter_is_Some. by apply (inv_checks _ Hinv).
  - intros l' d [Hl' Hne]%Hrem Hd. rewrite Hheap in Hd by done.
    pose proof (inv_clusters _ Hinv l' d Hl' Hd) as Hci. unfold workers. simpl. fold ts'.
    by rewrite Hothers.
Qed.

Lemma fire_ok (w w' : W) i l f rest r :
  Inv w -> w.(w_tasks) !! i = Some (TFire l (f :: rest)) ->
  fire i l f rest w = (r, w') -> Inv w' /\ r <> Err EPanic.
Proof.
  intros Hinv Hi Hrun.
  pose proof (inv_tasks _ Hinv _ l (list_elem_of_lookup_2 _ _ _ Hi) eq_refl) as Hl.
  destruct (inv_heap _ Hinv l Hl) as [c Hc].
  destruct (workers_owner w i _ l c Hinv Hi eq_refl Hc) as (_ & Hwk & Hown).
  destruct f as [[ev s] msg], rest as [|]; [|by destruct Hown].
  destruct (ending ev) eqn:Hev; [by eapply fire_end_ok|].
  destruct Hown as [Hends _]. simpl in Hends.
  assert (ev = DeleteCompletedEvent) as -> by by destruct (zl_status c), ev.
  by eapply fire_delete_ok.
Qed.

Lemma purge_ok (w w' : W) i name r :
  Inv w -> w.(w_tasks) !! i = Some (TPurge name) ->
  (do! attempt (E := ApiError) (F := ApiError) (db (deleteClusterFromDB name)) in set_task i TDone) w = (r, w') ->
  Inv w' /\ r <> Err EPanic.
Proof.
  intros Hinv Hi Hrun. rewrite bind_attempt in Hrun.
  destruct (db (deleteClusterFromDB name) w) as [r0 w1] eqn:Hd.
  apply db_purge in Hd as (d' & -> & Hcr). unfold set_task, modify in Hrun. simpl in Hrun.
  simplify_eq. split; [|done].
  assert (Hwk : forall l, filter (fun t => task_loc t = Some l) (<[i := TDone]> (w_tasks w)) = workers w l).
  { intros l. erewrite filter_insert_other; [done|exact Hi|done|done]. }
  destruct Hinv as [Hnd Hh Hn Ht Hck Hci]. split; simpl; try done.
  - intros t l Hin Hl. apply elem_of_insert_inv in Hin as [-> |Hin]; [done|by apply (Ht t)].
  - intros l Hin. apply elem_of_insert_inv in Hin as [|Hin]; [done|auto].
  - intros l c Hl Hc. unfold workers. simpl. rewrite Hwk.
    eapply cluster_inv_created; [apply Hcr|by apply Hci].
Qed.

Lemma check_round_ok (w w' : W) i l timer reachable r :
  Inv w -> w.(w_tasks) !! i = Some (TCheck l) ->
  check_round i l timer reachable w = (r, w') -> Inv w' /\ r <> Err EPanic.
Proof.
  intros Hinv Hi Hrun. destruct (inv_checks _ Hinv l) as [c Hc]; [by eapply list_elem_of_lookup_2|].
  unfold check_round in Hrun. rewrite (bind_cluster _ _ _ _ Hc) in Hrun. destruct timer.
  - unfold bind, ret in Hrun.
    rewrite (c_Event_run _ _ _ _ Hc) in Hrun by by destruct reachable.
    destruct (next_status _ _) as [d|] eqn:Hd; simplify_eq; [|done]. split; [|done].
    assert (Hst : (zl_status c = CSRunning \/ zl_status c = CSUnreachable) /\
                  (d = CSRunning \/ d = CSUnreachable)).
    { destruct reachable, (zl_status c); simpl in Hd; simplify_eq; auto. }
    destruct Hst as [Hst Hdst].
    destruct (decide (l ∈ w_clusters w)) as [Hl|Hl].
    + assert (workers w l = []) as Hwk.
      { apply (idle_workers w l c); unfold working; [done|done|done| |]; by destruct Hst as [-> | ->]; try intros [|]. }
      pose proof (inv_clusters _ Hinv _ _ Hl Hc) as Hci. eapply Inv_upd; [done..|].
      rewrite Hwk. destruct Hci as [_ _ _ Hcr].
      split; simpl; unfold working; [| | |];
        [by destruct Hdst as [-> | ->]; intros [|] | by destruct Hdst as [-> | ->] |
         by destruct Hdst as [-> | ->]; intros [|] |].
      intros Hcr'. destruct (Hcr Hcr') as (_ & _ & Ho).
      split; [by destruct Hdst as [-> | ->]|]. split; [by destruct Hdst as [-> | ->]|].
      intros _. apply Ho. by destruct Hst as [-> | ->].
    + destruct Hinv as [Hnd Hh Hn Ht Hck Hci].
      assert (Hother : forall l', l' ∈ w_clusters w ->
        alter (set_status d) l (w_heap w) !! l' = w_heap w !! l').
      { intros l' Hl'. rewrite list_lookup_alter_ne; [done|]. by intros ->. }
      split; simpl; try done.
      * intros l' Hl'. rewrite Hother by done. auto.
      * intros l1 l2 c1 c2 H1' H2'. rewrite !Hother by done. eauto.
      * intros l' Hl'. apply alter_is_Some. auto.
      * intros l' x Hl'. rewrite Hother by done. intros Hx. apply (Hci l' x Hl' Hx).
  - destruct (bool_decide _); [|unfold ret in Hrun; by simplify_eq].
    unfold set_task, modify in Hrun. simplify_eq. split; [|done].
    assert (Hwk : forall l', filter (fun t => task_loc t = Some l') (<[i := TDone]> (w_tasks w)) = workers w l').
    { intros l'. erewrite filter_insert_other; [done|exact Hi|done|done]. }
    destruct Hinv as [Hnd Hh Hn Ht Hck Hci]. split; simpl; try done.
    + intros t l' Hin Hl. apply elem_of_insert_inv in Hin as [-> |Hin]; [done|by apply (Ht t)].
    + intros l' Hin. apply elem_of_insert_inv in Hin as [|Hin]; [done|auto].
    + intros l' x Hl Hx. unfold workers. simpl. rewrite Hwk. by apply Hci.
Qed.

(** ** Steps and schedules *)

Lemma done_inv {A} (m : M World ApiError A) (w w' : W) r :
  (let! _ := m in ret tt) w = (r, w') ->
  exists r0, m w = (r0, w') /\ (r = Err EPanic -> r0 = Err EPanic).
Proof.
  unfold bind, ret. destruct (m w) as [[a|e] w1]; intros; simplify_eq; eexists; (split; [done|]); congruence.
Qed.

Lemma step_ok (w w' : W) a r :
  Inv w -> allowed w a -> step a w = Some (r, w') -> Inv w' /\ r <> Err EPanic.
Proof.
  intros Hinv Hal Hs.
  assert (Hdone : forall A (m : M World ApiError A),
    (forall r0, m w = (r0, w') -> Inv w' /\ r0 <> Err EPanic) ->
    (let! _ := m in ret tt) w = (r, w') -> Inv w' /\ r <> Err EPanic).
  { intros A m Hm Hrun. apply done_inv in Hrun as (r0 & Hr & Hp).
    destruct (Hm r0 Hr). split; [done|]. auto. }
  destruct a as [now c|c|now id|id|i|i o|i|i|i timer reachable]; simpl in Hs.
  - simplify_eq. eapply Hdone; [|done]. intros r0. by apply Create_ok.
  - simplify_eq. eapply Hdone; [|done]. intros r0. by apply Update_ok.
  - simplify_eq. eapply Hdone; [|done]. intros r0. by apply Delete_ok.
  - simplify_eq. eapply Hdone; [|done]. intros r0. by apply Cancel_ok.
  - destruct (w_tasks w !! i) as [[k l ctx s []| | | |]|] eqn:Hi; simplify_eq.
    eapply Hdone; [|done]. intros r0. by eapply start_ok.
  - destruct (w_tasks w !! i) as [[k l ctx s []| | | |]|] eqn:Hi; simplify_eq.
    eapply Hdone; [|done]. intros r0. eapply up_ok; [done..|]. intros -> Hcs.
    by apply (Hal _ _ _ _ Hi).
  - destruct (w_tasks w !! i) as [[|l [|f rest]| | |]|] eqn:Hi; simplify_eq.
    eapply Hdone; [|done]. intros r0. by eapply fire_ok.
  - destruct (w_tasks w !! i) as [[| |name| |]|] eqn:Hi; simplify_eq.
    eapply Hdone; [|done]. intros r0. by eapply purge_ok.
  - destruct (w_tasks w !! i) as [[| | |l|]|] eqn:Hi; simplify_eq.
    eapply Hdone; [|done]. intros r0. by eapply check_round_ok.
Qed.

Lemma reach_Inv (w0 w : W) : Inv w0 -> reach w0 w -> Inv w.
Proof. intros H0'. induction 1 as [|w a r w' _ IH Hal Hst]; [done|]. by eapply step_ok. Qed.

(** ** Start-up *)

(** A cluster object that is not listed changes nothing. *)
Lemma Inv_unlisted (w w' : W) c' :
  Inv w -> w'.(w_heap) = w.(w_heap) ++ [c'] -> w'.(w_clusters) = w.(w_clusters) ->
  w'.(w_tasks) = w.(w_tasks) -> w'.(w_db) = w.(w_db) -> Inv w'.
Proof.
  intros Hinv Hheap Hcls Ht Hdb. destruct Hinv as [Hnd Hh Hn Htk Hck Hci].
  assert (Hold : forall l, is_Some (w.(w_heap) !! l) -> w'.(w_heap) !! l = w.(w_heap) !! l).
  { intros l [c Hc]. rewrite Hheap. rewrite Hc. by apply lookup_app_l_Some. }
  split; rewrite ?Hcls, ?Ht; try done.
  - intros l Hl. rewrite Hold; auto.
  - intros l l' c d Hl Hl'. rewrite !Hold by auto. eauto.
  - intros l Hl. rewrite Hold; auto.
  - intros l c Hl. rewrite Hold by auto. intros Hc. unfold workers, created. rewrite Ht, Hdb.
    by apply Hci.
Qed.

(** What loading one entry does: a listed cluster with its status and perhaps its
    connection check, or an unlisted object when its client cannot be built. *)
Definition load_post (w w' : W) (k : string) (v : clusterState) : Prop :=
  exists c', c'.(zl_Name) = k /\ w'.(w_heap) = w.(w_heap) ++ [c'] /\ w'.(w_db) = w.(w_db) /\
    c'.(zl_status) = (if v.(cs_Created) then CSRunning else CSCreateFailed) /\
    ((w'.(w_clusters) = w.(w_clusters) /\ w'.(w_tasks) = w.(w_tasks)) \/
     (w'.(w_clusters) = w.(w_clusters) ++ [length w.(w_heap)] /\
      exists ts, w'.(w_tasks) = w.(w_tasks) ++ ts /\ (ts = [] \/ ts = [TCheck (length w.(w_heap))]) /\
        (v.(cs_Created) = true -> c'.(zl_stopCh) = ChOpen))).

Lemma load_inv (w w' : W) k v :
  Inv w -> (forall l c, l ∈ w.(w_clusters) -> w.(w_heap) !! l = Some c -> c.(zl_Name) <> k) ->
  created w k = v.(cs_Created) -> load_post w w' k v -> Inv w'.
Proof.
  intros Hinv Hfresh Hcr (c' & <- & Hheap & Hdb & Hst & [[Hcls Ht]|(Hcls & ts & Ht & Hts & Hopen)]).
  - by eapply Inv_unlisted.
  - assert (Hc : forall n, created w' n = created w n) by (intros; unfold created; by rewrite Hdb).
    eapply (Inv_new w w' c' ts); try done.
    + intros n _. by rewrite Hc.
    + intros t l Hin. destruct Hts as [-> | ->]; [set_solver|].
      by apply list_elem_of_singleton in Hin as ->.
    + intros l Hin. destruct Hts as [-> | ->]; [set_solver|].
      apply list_elem_of_singleton in Hin. congruence.
    + assert (filter (fun t => task_loc t = Some (length (w_heap w))) ts = []) as ->
        by by destruct Hts as [-> | ->].
      rewrite Hc, Hcr. unfold working.
      split; rewrite ?Hst; destruct (cs_Created v); try done; try (by intros [|]).
      intros _. split; [done|]. split; [done|]. by intros _; apply Hopen.
Qed.

(** The result of [Init] on the object just allocated. *)
Lemma Init_run (w : W) ws c o :
  w.(w_heap) = ws ++ [c] ->
  exists w' c' b, Init (length ws) o w = (Ok b, w') /\ w'.(w_heap) = ws ++ [c'] /\
    w'.(w_clusters) = w.(w_clusters) /\ w'.(w_db) = w.(w_db) /\
    c'.(zl_Name) = c.(zl_Name) /\ c'.(zl_status) = c.(zl_status) /\
    if b then w'.(w_tasks) = w.(w_tasks)
    else w'.(w_tasks) = w.(w_tasks) ++ [TCheck (length ws)] /\ c'.(zl_stopCh) = ChOpen.
Proof.
  intros Hh. unfold Init.
  destruct (io_buildErr o). { exists w, c, true. by rewrite Hh. }
  destruct (io_clientErr o). { exists w, c, true. by rewrite Hh. }
  rewrite bind_upd. unfold setCache.
  destruct (io_httpErr o).
  { eexists _, _, true. autorewrite with monad. split; [reflexivity|]. simpl.
    rewrite Hh, alter_last. done. }
  autorewrite with monad. destruct (io_cacheErr o).
  { eexists _, _, true. autorewrite with monad. split; [reflexivity|]. simpl.
    rewrite Hh, !alter_last. done. }
  eexists _, _, false. autorewrite with monad. unfold go, bind, modify, ret. split; [reflexivity|]. simpl.
  rewrite Hh, !alter_last. done.
Qed.

Lemma load_one init k v rest (w w' : W) :
  load_clusters init ((k, v) :: rest) w = (Ok tt, w') ->
  exists w1, load_post w w1 k v /\ load_clusters init rest w1 = (Ok tt, w').
Proof.
  cbn [load_clusters]. unfold newCluster. autorewrite with monad.
  set (c0 := mkZCluster _ _ _ _ _ _ _ _ _ _ _).
  match goal with |- bind _ _ ?w1 = _ -> _ => set (w0 := w1) end.
  set (c1 := set_scVersion (cs_ScVersion v) (set_createTime (cs_CreateTime v) (set_config (cs_ZKEConfig v) c0))).
  assert (Hh : w0.(w_heap) = w.(w_heap) ++ [c1]) by (unfold w0; simpl; by rewrite !alter_last).
  destruct (cs_Created v) eqn:Hcr.
  - destruct (cs_FullState v); [|unfold throw, bind; done].
    destruct (Init_run w0 (w_heap w) c1 (init k) Hh) as (w2 & c2 & b & Hi & Hh2 & Hcl & Hdb & Hn & Hs & Hb).
    rewrite bind_assoc. unfold bind at 1. rewrite Hi. destruct b.
    + rewrite bind_ret_l. intros Hrun. exists w2. split; [|exact Hrun]. exists c2.
      split; [done|]. split; [done|]. split; [done|]. split; [by rewrite Hs, Hcr|]. by left.
    + destruct Hb as [Ht Ho].
      unfold add, publish. rewrite !bind_assoc, bind_modify, bind_assoc.
      assert (Hl : (set_clusters (w_clusters w2 ++ [length (w_heap w)]) w2).(w_heap) !! length (w_heap w) = Some c2)
        by (simpl; by rewrite Hh2, list_lookup_middle).
      rewrite (bind_cluster _ _ _ _ Hl), bind_modify. intros Hrun. eexists. split; [|exact Hrun].
      exists c2. split; [done|]. split; [exact Hh2|]. split; [exact Hdb|]. split; [by rewrite Hs, Hcr|].
      right. split; [simpl; by rewrite Hcl|]. eexists. split; [exact Ht|]. split; [by right|]. by intros _.
  - unfold add. rewrite bind_modify. intros Hrun. eexists. split; [|exact Hrun].
    exists c1. split; [done|]. split; [exact Hh|]. split; [done|]. split; [by rewrite Hcr|].
    right. split; [done|]. exists []. split; [by rewrite app_nil_r|]. split; [by left|by rewrite Hcr].
Qed.

(** The names of the listed clusters after loading come from the entries. *)
Lemma load_all init states (w w' : W) :
  Inv w -> NoDup states.*1 ->
  (forall l c, l ∈ w.(w_clusters) -> w.(w_heap) !! l = Some c -> c.(zl_Name) ∉ states.*1) ->
  (forall k v, (k, v) ∈ states -> created w k = v.(cs_Created)) ->
  load_clusters init states w = (Ok tt, w') -> Inv w'.
Proof.
  revert w. induction states as [|[k v] states IH]; intros w Hinv Hnd Hfresh Hcr Hrun.
  { unfold load_clusters, ret in Hrun. by simplify_eq. }
  apply load_one in Hrun as (w1 & Hpost & Hrun). rewrite fmap_cons, NoDup_cons in Hnd.
  destruct Hnd as [Hk Hnd].
  assert (Hinv1 : Inv w1).
  { eapply load_inv; [exact Hinv| | |exact Hpost]; [|apply Hcr; set_solver].
    intros l c Hl Hc Heq. apply (Hfresh l c Hl Hc). rewrite Heq. set_solver. }
  destruct Hpost as (c' & Hn & Hheap & Hdb & _ & Hcls).
  apply (IH w1); [done|done| |intros k' v' Hin; unfold created; rewrite Hdb; apply Hcr; set_solver|done].
  intros l c Hl Hc Hin. rewrite Hheap in Hc.
  assert (Hl' : l ∈ w.(w_clusters) \/ l = length w.(w_heap)).
  { destruct Hcls as [[Hcls _]|[Hcls _]]; rewrite Hcls in Hl; set_solver. }
  destruct Hl' as [Hl' | ->].
  - destruct (inv_heap _ Hinv l Hl') as [d Hd]. rewrite (lookup_app_l_Some _ _ _ _ Hd) in Hc.
    simplify_eq. apply (Hfresh l c Hl' Hd). set_solver.
  - rewrite list_lookup_middle in Hc by done. injection Hc as <-. apply Hk. by rewrite <- Hn.
Qed.

Lemma loaded_Inv order init table ver (w : W) :
  (forall l, order l ≡ₚ l) -> newZKEManager order init table ver = (Ok tt, w) -> Inv w.
Proof.
  intros Hord Hrun. unfold newZKEManager, loadDB in Hrun.
  set (w0 := mkWorld table ver [] [] ∅ [] [] 0 ∅ []) in *.
  assert (Hinv0 : Inv w0).
  { split; simpl; [constructor|set_solver|set_solver|set_solver|set_solver|set_solver]. }
  apply bind_inv_ok in Hrun as (states & w1 & Hr & Hrun).
  unfold db, rethrow, zoom in Hr. destruct (getClustersFromDB (w_db w0)) as [r0 d] eqn:Hg.
  apply getClusters_stored in Hg as [Hc Hg]. destruct r0 as [l|]; simplify_eq/=.
  destruct Hg as (Hnd & Hkeys & Hst).
  apply (load_all init (order states) (set_db d w0) w); [| | | |exact Hrun].
  - apply (Inv_same w0); try done. intros n. unfold created. simpl. by rewrite Hc.
  - by rewrite Hord.
  - simpl. set_solver.
  - intros k v Hin. rewrite Hord in Hin. unfold created. simpl. rewrite Hc.
    by rewrite (Hst k v Hin).
Qed.
End Preservation.
