(* ===== verification/ClusterTheorems.v ===== *)
(** What the cluster manager guarantees: in every run up to a mishap, of each API
    operation, and the schedules in which it does not do what it means to. *)
From S2P Require Import Prelude KvStore GoStrings ClusterTypes ClusterValidation ClusterState ClusterManager ClusterSafety.

(** ** Every reachable state *)

Section Reachable.
Context `{ZkeCore} {DB : Type} `{KvTable DB} `{Json clusterState} `{FsmEngine} `{NodeListener}.
Context `{!KvLaws DB} `{!JsonLaws clusterState} `{!FsmLaws}.

(** The manager has loaded its table. *)
Definition started (order : list (string * clusterState) -> list (string * clusterState))
    (init : string -> InitOutcome) (table : DB) (ver : string) (w0 : World (DB := DB)) : Prop :=
  (forall l, order l ≡ₚ l) /\ newZKEManager order init table ver = (Ok tt, w0).

Lemma trail_Inv order init table ver w0 tr w :
  started order init table ver w0 -> trail w0 tr w -> Exists mishap tr \/ Inv w.
Proof.
  intros [Hord Hload] Ht. apply trail_reach in Ht as [?|Hr]; [by left|right]. eapply reach_Inv; [|done]. by eapply loaded_Inv.
Qed.

(** C1. In any run of a started manager, however operations interleave and whatever the table,
    the state machine's users and zke answer, an API operation, a worker step or a connection
    check reaches a nil pointer, calls a nil cancel function or closes a nil or closed channel
    only after a mishap: to a worker that continues a creation, zke panicked or the client or
    the cache could not be built.  [failed_client_panics_delete] below is a run in which that
    happens. *)
Theorem manager_no_panic order init table ver w0 tr w a r w' :
  started order init table ver w0 -> trail w0 tr w -> step a w = Some (r, w') -> r = Err EPanic ->
  Exists mishap (tr ++ [(w, a)]).
Proof.
  intros Hst Ht Hs Hr. rewrite Exists_app. destruct (trail_Inv _ _ _ _ _ _ _ Hst Ht) as [?|Hinv]; [by left|right]. constructor.
  destruct (allowedb w a) eqn:Ha; [|by apply not_allowedb_mishap].
  destruct (step_ok w w' a r Hinv (allowedb_allowed w a Ha) Hs) as [_ Hn]. congruence.
Qed.

(** C2. One worker per cluster: in any run of a started manager without such a mishap, a listed
    cluster has at most one goroutine creating, updating or destroying it, it has exactly one
    while it is in Creating or Updating, and the event with which the worker will end is one the
    state machine takes in the cluster's present status, so that no operation is left hanging.
    [failed_cache_two_workers] and [continued_creation_panic_is_stuck] below are runs with a
    mishap where it is otherwise. *)
Theorem manager_one_worker order init table ver w0 tr w l c :
  started order init table ver w0 -> trail w0 tr w -> l ∈ w.(w_clusters) -> w.(w_heap) !! l = Some c ->
  Exists mishap tr \/
  (length (workers w l) <= 1)%nat /\
  (c.(zl_status) = CSCreating \/ c.(zl_status) = CSUpdating -> length (workers w l) = 1%nat) /\
  forall i evs, w.(w_tasks) !! i = Some (TFire l evs) ->
    exists ev s msg, evs = [(ev, s, msg)] /\ is_Some (fsm_next cluster_transitions c.(zl_status) ev).
Proof.
  intros Hst Ht Hl Hc. destruct (trail_Inv _ _ _ _ _ _ _ Hst Ht) as [?|Hinv]; [by left|right].
  pose proof (inv_clusters _ Hinv l c Hl Hc) as [Hw _ _ _]. split; [|split].
  - destruct (workers w l) as [|t [|]]; simpl; [lia|lia|done].
  - intros Hs. destruct (workers w l) as [|t [|]]; simpl; [|lia|done]. by destruct Hw.
  - intros i evs Hi. destruct (workers_owner w i _ l c Hinv Hi eq_refl Hc) as (_ & _ & Hown).
    destruct evs as [|[[ev s] m] [|]]; simpl in Hown; try done. exists ev, s, m. split; [done|].
    rewrite fsm_next_status. destruct Hown as [He _]. by destruct (zl_status c), ev.
Qed.

(** C7. Names identify clusters: in any run of a started manager without such a mishap, a cluster
    in the manager's list is the one that Get, Update, Delete and Cancel find under its name, no
    cluster in the list is deleted, and a cluster stored as created has an open stop channel
    until its deletion begins. *)
Theorem manager_names order init table ver w0 tr w l c :
  started order init table ver w0 -> trail w0 tr w -> l ∈ w.(w_clusters) -> w.(w_heap) !! l = Some c ->
  Exists mishap tr \/
  find_cluster w c.(zl_Name) = Some l /\ c.(zl_status) <> CSDeleted /\
  (created w c.(zl_Name) = true -> c.(zl_status) <> CSDeleting -> c.(zl_stopCh) = ChOpen).
Proof.
  intros Hst Ht Hl Hc. destruct (trail_Inv _ _ _ _ _ _ _ Hst Ht) as [?|Hinv]; [by left|right].
  pose proof (inv_clusters _ Hinv l c Hl Hc) as [_ Hlive _ Hcr]. split; [|split; [done|naive_solver]].
  destruct (find_cluster w (zl_Name c)) as [l'|] eqn:Hf.
  - apply find_cluster_Some in Hf as (Hl' & c' & Hc' & Hn). f_equal.
    by apply (inv_names _ Hinv l' l c' c).
  - by destruct (find_cluster_None _ _ _ _ Hf Hl Hc).
Qed.
End Reachable.

(** ** The API operations *)

Section Operations.
Context `{ZkeCore} {DB : Type} `{KvTable DB} `{Json clusterState} `{FsmEngine} `{NodeListener}.
Context `{!KvLaws DB} `{!JsonLaws clusterState} `{!FsmLaws}.
Local Abbreviation W := (World (DB := DB)).

(** Where a canceled creation or update ends. *)
Definition resting (s : clusterState) : ClusterStatus :=
  if s.(cs_Created) then CSRunning else CSCreateFailed.

(** What the table stores of a cluster. *)
Definition entry (w : W) (name : string) : option clusterState := stored (kv_content w.(w_db)) name.

(** The world but for the table's own state: same objects, goroutines and entries. *)
Definition untouched (w w' : W) : Prop :=
  w'.(w_heap) = w.(w_heap) /\ w'.(w_clusters) = w.(w_clusters) /\ w'.(w_tasks) = w.(w_tasks) /\
  forall n, entry w' n = entry w n.

Lemma untouched_refl w : untouched w w.
Proof. done. Qed.

Lemma entry_write name s (w w' : W) r :
  db (createOrUpdateClusterFromDB name s) w = (r, w') ->
  exists d', w' = set_db d' w /\
    entry w' name = (if is_ok r then Some (load_certs s) else entry w name) /\
    (forall n, n <> name -> entry w' n = entry w n) /\
    match r with Ok _ => True | Err e => e = EServerError end.
Proof.
  unfold db, rethrow, zoom. destruct (createOrUpdateClusterFromDB name s (w_db w)) as [r0 d'] eqn:Hw.
  intros. simplify_eq. exists d'. split; [done|].
  apply createOrUpdate_stored in Hw as [Hsame Hother]. unfold entry. simpl.
  split; [rewrite Hsame; by destruct r0|]. split; [done|by destruct r0].
Qed.

Lemma entry_write_err name s (w w' : W) e :
  db (createOrUpdateClusterFromDB name s) w = (Err e, w') -> e = EServerError /\ untouched w w'.
Proof.
  intros Hw. apply entry_write in Hw as (d' & -> & Hs & Ho & He). split; [done|].
  do 3 (split; [done|]). intros n. destruct (decide (n = name)) as [->|]; auto.
Qed.

Lemma entry_read name (w w' : W) r :
  db (getClusterFromDB name) w = (r, w') ->
  exists d', w' = set_db d' w /\ (forall n, entry w' n = entry w n) /\
    match r with Ok s => entry w name = Some s | Err e => e = EServerError end.
Proof.
  unfold db, rethrow, zoom. destruct (getClusterFromDB name (w_db w)) as [r0 d'] eqn:Hw.
  intros. simplify_eq. exists d'. split; [done|].
  apply getCluster_stored in Hw as [Hc Hr]. unfold entry. simpl.
  split; [intros; by rewrite Hc|by destruct r0].
Qed.

(** C36. Creating a cluster: a duplicate name and an invalid configuration are refused
    and change nothing; a failing table is a server error that changes nothing; else
    the cluster is in the list in Creating with the configuration and the time of the
    request, the table has its entry, not yet created, and its worker is started with
    the context that cancels it. *)
Theorem Create_result (w w' : W) now req r :
  Inv w -> Create now req w = (r, w') ->
  let sc := TrimFieldSpace req in
  let state := mkState (Some EmptyFullState) (genZKEConfig sc) now 0 false w.(w_scVersion) in
  match r with
  | Err EDuplicateResource => is_Some (find_cluster w sc.(cl_Name)) /\ w' = w
  | Err (EInvalidOption e) =>
      find_cluster w sc.(cl_Name) = None /\ validateConfigForCreate sc = Err e /\ w' = w
  | Err EServerError => untouched w w'
  | Err _ => False
  | Ok c =>
      c = created_cluster sc now /\ find_cluster w sc.(cl_Name) = None /\
      validateConfigForCreate sc = Ok tt /\
      exists l ctx, find_cluster w' sc.(cl_Name) = Some l /\
        w'.(w_heap) !! l = Some (mkZCluster sc.(cl_Name) now 0 false false ChNil (genZKEConfig sc)
                                  (Some ctx) false CSCreating w.(w_scVersion)) /\
        entry w' sc.(cl_Name) = Some (load_certs state) /\
        w'.(w_tasks) = w.(w_tasks) ++ [TWorker KCreate l (Some ctx) state false]
  end.
Proof.
  intros Hinv Hrun sc state. revert Hrun. unfold Create, get. fold sc. autorewrite with monad.
  destruct (find_cluster w (cl_Name sc)) as [l|] eqn:Hf.
  { unfold throw. intros. simplify_eq. by split; [eexists|]. }
  destruct (validateConfigForCreate sc) as [[]|e] eqn:Hv; [|unfold throw; intros; by simplify_eq].
  autorewrite with monad. fold state. intros Hrun.
  apply bind_cases in Hrun as [(u & w1 & Hr & Hrun)|(e & Hr & ->)].
  2: { apply entry_write_err in Hr as [-> Hu]. done. }
  apply entry_write in Hr as (d1 & -> & Hs & _). simpl in Hs.
  unfold newCluster, WithCancel, add, go, upd in Hrun. autorewrite with monad in Hrun.
  unfold ret in Hrun. simplify_eq. do 3 (split; [done|]).
  exists (length (w_heap w)), (w_ctxs w).
  match goal with |- find_cluster ?w1 _ = _ /\ _ => set (w2 := w1) end.
  assert (Hheap : w2.(w_heap) = w.(w_heap) ++ [mkZCluster (cl_Name sc) now 0 false false ChNil
    (genZKEConfig sc) (Some (w_ctxs w)) false CSCreating (w_scVersion w)]).
  { unfold w2. simpl. by rewrite !alter_last. }
  assert (Hlast : w2.(w_heap) !! length (w_heap w) = Some (mkZCluster (cl_Name sc) now 0 false false
    ChNil (genZKEConfig sc) (Some (w_ctxs w)) false CSCreating (w_scVersion w))).
  { rewrite Hheap. by apply list_lookup_middle. }
  split; [|split; [exact Hlast|split; [exact Hs|done]]].
  destruct (find_cluster w2 (cl_Name sc)) as [l|] eqn:Hf2.
  - apply find_cluster_Some in Hf2 as (Hl & c & Hc & Hn). f_equal.
    apply elem_of_app in Hl as [Hl|Hl%list_elem_of_singleton]; [|done]. exfalso.
    destruct (inv_heap _ Hinv l Hl) as [d Hd]. rewrite Hheap, (lookup_app_l_Some _ _ _ _ Hd) in Hc.
    simplify_eq. by destruct (find_cluster_None _ _ _ _ Hf Hl Hd).
  - exfalso. apply (find_cluster_None _ _ (length (w_heap w)) _ Hf2 ltac:(unfold w2; simpl; set_solver) Hlast).
    done.
Qed.

(** Updating a cluster succeeds only from Running, or from CreateFailed when it
    was never created; the cluster then is in Updating or Creating with the old
    configuration changed by the request, the table has that configuration, and the
    worker is started with a fresh context. *)
Lemma Update_result (w w' : W) req c :
  Update req w = (Ok c, w') ->
  let sc := TrimFieldSpace req in
  exists l z s ctx, find_cluster w sc.(cl_Name) = Some l /\ w.(w_heap) !! l = Some z /\
    entry w sc.(cl_Name) = Some s /\
    validateConfigForUpdate z.(zl_kubeClient) (ToScCluster z) sc = Ok tt /\
    z.(zl_status) = (if s.(cs_Created) then CSRunning else CSCreateFailed) /\
    let cfg := genZKEConfigForUpdate z.(zl_config) sc in
    let st := if s.(cs_Created) then CSUpdating else CSCreating in
    w'.(w_heap) !! l = Some (set_cancel (Some ctx) (set_status st (set_config cfg z))) /\
    entry w' sc.(cl_Name) = Some (load_certs (set_ZKEConfig s cfg)) /\
    w'.(w_tasks) = w.(w_tasks) ++ [TWorker KUpdate l (Some ctx) (set_ZKEConfig s cfg) false] /\
    c = sc.
Proof.
  intros Hrun sc. revert Hrun. unfold Update, get. fold sc. autorewrite with monad.
  destruct (find_cluster w (cl_Name sc)) as [l|] eqn:Hf; [|done].
  apply find_cluster_Some in Hf as Hf'. destruct Hf' as (Hl & z & Hz & Hn).
  rewrite (bind_cluster _ _ _ _ Hz).
  destruct (validateConfigForUpdate _ _ _) as [[]|e] eqn:Hv; [|done]. intros Hrun.
  apply bind_inv_ok in Hrun as (s & w1 & Hr & Hrun). apply entry_read in Hr as (d1 & -> & _ & Hs).
  destruct (cs_Created s && negb (Can z UpdateEvent)); [done|]. autorewrite with monad in Hrun.
  set (cfg := genZKEConfigForUpdate (zl_config z) sc) in *.
  apply bind_inv_ok in Hrun as (u & w2 & Hr & Hrun).
  apply entry_write in Hr as (d2 & -> & He & _). simpl in He.
  set (w3 := set_db d2 _) in Hrun.
  assert (Hz3 : w3.(w_heap) !! l = Some (set_config cfg z)) by (apply (lookup_alter_heap w l _ z Hz)).
  assert (cs_Created (set_ZKEConfig s cfg) = cs_Created s) as Hcs by done. rewrite Hcs in Hrun.
  unfold bind at 1 in Hrun. rewrite (c_Event_run _ _ _ _ Hz3) in Hrun by by destruct (cs_Created s).
  destruct (next_status _ _) as [d|] eqn:Hd; [|done]. simpl in Hrun.
  unfold WithCancel, go in Hrun. autorewrite with monad in Hrun. unfold ret in Hrun. simplify_eq.
  exists l, z, s, (w_ctxs w). do 4 (split; [done|]).
  assert (zl_status z = (if cs_Created s then CSRunning else CSCreateFailed) /\
          d = (if cs_Created s then CSUpdating else CSCreating)) as [-> ->].
  { simpl in Hd. destruct (cs_Created s), (zl_status z); simpl in Hd; by simplify_eq. }
  split; [done|]. split; [|split; [exact He|done]].
  simpl in Hz3 |- *. by rewrite !list_lookup_alter_eq, Hz.
Qed.

(** Deleting a cluster succeeds only from Running, Unreachable or CreateFailed;
    the cluster then is in Deleting with the deletion time set, the table has that
    time, the worker that destroys it is started, and for a created cluster the stop
    channel is closed and the deletion is published. *)
Lemma Delete_result (w w' : W) now id :
  Delete now id w = (Ok tt, w') ->
  exists l z s, find_cluster w id = Some l /\ w.(w_heap) !! l = Some z /\ entry w id = Some s /\
    z.(zl_status) ∈ [CSRunning; CSUnreachable; CSCreateFailed] /\
    w'.(w_heap) !! l = Some (set_deleteTime now (set_stopCh
      (if s.(cs_Created) then ChClosed else z.(zl_stopCh)) (set_status CSDeleting z))) /\
    entry w' id = Some (load_certs (set_DeleteTime s now)) /\
    w'.(w_tasks) = w.(w_tasks) ++ [TWorker KDestroy l None zero_state false] /\
    w'.(w_bus) = w.(w_bus) ++
      (if s.(cs_Created) then [BusDelete (ToScCluster (set_status CSDeleting z))] else []).
Proof.
  unfold Delete, get. autorewrite with monad.
  destruct (find_cluster w id) as [l|] eqn:Hf; [|done].
  apply find_cluster_Some in Hf as Hf'. destruct Hf' as (Hl & z & Hz & <-).
  rewrite (bind_cluster _ _ _ _ Hz). destruct (Can z DeleteEvent) eqn:Hcan; [|done]. simpl. intros Hrun.
  apply bind_inv_ok in Hrun as (s & w1 & Hr & Hrun). apply entry_read in Hr as (d1 & -> & _ & Hs).
  unfold Can in Hcan. rewrite fsm_next_status in Hcan.
  assert (Hz1 : (set_db d1 w).(w_heap) !! l = Some z) by done.
  unfold bind at 1 in Hrun. rewrite (c_Event_run _ _ _ _ Hz1) in Hrun by done.
  assert (next_status (zl_status z) DeleteEvent = Some CSDeleting /\
    z.(zl_status) ∈ [CSRunning; CSUnreachable; CSCreateFailed]) as [Hd Hst].
  { destruct (zl_status z); simpl in Hcan; try done; split; set_solver. }
  rewrite Hd in Hrun. set (w2 := set_heap _ _) in Hrun.
  assert (Hz2 : w2.(w_heap) !! l = Some (set_status CSDeleting z)) by (apply (lookup_alter_heap w l _ z Hz)).
  exists l, z, s. do 4 (split; [done|]).
  assert (Htail : forall (w3 : W) z3, w3.(w_heap) !! l = Some z3 ->
    (do! upd l (set_deleteTime now) in
     do! db (createOrUpdateClusterFromDB (zl_Name z) (set_DeleteTime s now)) in
     go (TWorker KDestroy l None zero_state false)) w3 = (Ok tt, w') ->
    w'.(w_heap) !! l = Some (set_deleteTime now z3) /\ w'.(w_bus) = w3.(w_bus) /\
    entry w' (zl_Name z) = Some (load_certs (set_DeleteTime s now)) /\
    w'.(w_tasks) = w3.(w_tasks) ++ [TWorker KDestroy l None zero_state false]).
  { intros w3 z3 Hz3 Hrun3. rewrite bind_upd in Hrun3.
    apply bind_inv_ok in Hrun3 as (u & w4 & Hr & Hrun3). apply entry_write in Hr as (d4 & -> & He & _).
    unfold go, modify in Hrun3. simplify_eq. split; [by apply lookup_alter_heap|]. done. }
  destruct (cs_Created s).
  - autorewrite with monad in Hrun. rewrite (bind_cluster _ _ _ _ Hz2) in Hrun.
    cbn [zl_stopCh set_status] in Hrun.
    destruct (zl_stopCh z); try (unfold throw, bind in Hrun; done).
    unfold publish in Hrun. autorewrite with monad in Hrun.
    apply (Htail _ (set_stopCh ChClosed (set_status CSDeleting z))) in Hrun as (Hh & Hb & He & Ht).
    + by rewrite Hh, Hb, He, Ht.
    + simpl. by rewrite !list_lookup_alter_eq, Hz.
  - rewrite bind_ret_l in Hrun. apply (Htail w2 _ Hz2) in Hrun as (Hh & Hb & He & Ht).
    rewrite Hh, Hb, He, Ht. split; [|split; [done|split; [done|by rewrite app_nil_r]]].
    by destruct z.
Qed.

(** Cancel on a cluster with a running worker. *)
Lemma Cancel_run (w w' : W) id l c :
  find_cluster w id = Some l -> w.(w_heap) !! l = Some c -> CancelCluster id w = (Ok tt, w') ->
  exists ctx, c.(zl_cancel) = Some ctx /\
    w' = set_cancelled ({[ctx]} ∪ w.(w_cancelled)) (set_heap (alter (set_isCanceled true) l w.(w_heap)) w).
Proof.
  intros Hf Hc. unfold CancelCluster, Cancel, get. autorewrite with monad. rewrite Hf.
  rewrite (bind_cluster _ _ _ _ Hc). destruct (bool_decide _ || bool_decide _); [|done].
  destruct (zl_isCanceled c); [done|]. rewrite bind_upd.
  destruct (zl_cancel c) as [ctx|]; [|done]. unfold modify. intros. simplify_eq. by exists ctx.
Qed.

(** A worker that finds its cluster canceled sends the cancel event. *)
Lemma canceled_body (w : W) k l c s o :
  w.(w_heap) !! l = Some c -> c.(zl_isCanceled) = true -> k <> KDestroy ->
  (k = KCreate -> s.(cs_Created) = false) -> (forall msg, upZKECluster o <> UpPanic msg) ->
  exists s', s'.(cs_Created) = s.(cs_Created) /\
    worker_body k l s o w =
      (Ok [(if s.(cs_Created) then UpdateCanceledEvent else CreateCanceledEvent, s', "")], w).
Proof.
  intros Hc Hcan Hk Hkc Hnp. destruct (upZKECluster o) as [msg|st err] eqn:Ho; [by destruct (Hnp msg)|].
  exists (set_FullState s st). split; [done|].
  destruct k; simpl; [unfold Create_body|unfold Update_body|done]; rewrite Ho, (bind_cluster _ _ _ _ Hc), Hcan.
  - by rewrite Hkc.
  - simpl. by destruct (cs_Created s).
Qed.

(** The cancel event clears the mark and ends the operation. *)
Lemma canceled_fire (w w' : W) i l c s r :
  w.(w_heap) !! l = Some c -> c.(zl_status) = (if s.(cs_Created) then CSUpdating else CSCreating) ->
  (let! _ := fire i l (if s.(cs_Created) then UpdateCanceledEvent else CreateCanceledEvent, s, "") [] in
   ret tt) w = (r, w') ->
  exists c', w'.(w_heap) !! l = Some c' /\ c'.(zl_isCanceled) = false /\
    c'.(zl_status) = (if s.(cs_Created) then CSRunning else CSCreateFailed).
Proof.
  intros Hc Hst. unfold fire, event. rewrite !bind_assoc, (bind_cluster _ _ _ _ Hc), fsm_next_status, Hst.
  set (d := if s.(cs_Created) then CSRunning else CSCreateFailed).
  assert (next_status (if s.(cs_Created) then CSUpdating else CSCreating)
    (if s.(cs_Created) then UpdateCanceledEvent else CreateCanceledEvent) = Some d) as ->
    by (unfold d; by destruct (cs_Created s)).
  rewrite !bind_assoc, bind_upd.
  pose proof (lookup_alter_heap w l (set_status d) c Hc) as Hc1. set (w1 := set_heap _ _) in *.
  assert (Hcb : callback (if s.(cs_Created) then UpdateCanceledEvent else CreateCanceledEvent) l s "" w1 =
    (do! upd l (set_isCanceled false) in
     do! attempt (E := ApiError) (F := ApiError) (db (createOrUpdateClusterFromDB (zl_Name c) s)) in
     ret None) w1).
  { unfold callback. rewrite (bind_cluster _ _ _ _ Hc1). by destruct (cs_Created s). }
  unfold bind at 1. rewrite Hcb, bind_upd, bind_attempt.
  destruct (save_post (zl_Name c) s (set_heap (alter (set_isCanceled false) l (w_heap w1)) w1)) as (d' & -> & _).
  unfold set_task, modify, ret, bind. intros. simplify_eq. simpl.
  exists (set_isCanceled false (set_status d c)). by rewrite !list_lookup_alter_eq, Hc.
Qed.

(** The cluster's one worker is one goroutine. *)
Lemma one_task (w : W) i j l t t' :
  workers w l = [t] -> w.(w_tasks) !! i = Some t -> task_loc t = Some l -> w.(w_tasks) !! j = Some t' -> task_loc t' = Some l -> j = i.
Proof.
  unfold workers. generalize (w_tasks w) as ts. intros ts. revert i j. induction ts as [|u ts IH]; intros i j Hf Hi Ht Hj Ht'; [done|].
  rewrite filter_cons in Hf. destruct (decide (task_loc u = Some l)) as [Hu|Hu].
  - injection Hf as -> Hnil. assert (Hno : forall k v, ts !! k = Some v -> task_loc v <> Some l).
    { intros k v Hv Hl. apply list_elem_of_lookup_2 in Hv. assert (Hin : v ∈ filter (fun t => task_loc t = Some l) ts) by (by apply list_elem_of_filter).
      rewrite Hnil in Hin. by apply elem_of_nil in Hin. }
    destruct i as [|i], j as [|j]; simpl in *; [done|by destruct (Hno j t')|by destruct (Hno i t)|by destruct (Hno j t')].
  - destruct i as [|i], j as [|j]; simpl in *; simplify_eq; f_equal; eauto.
Qed.

(** ** What other actions leave alone *)

(** The goroutine [i] is at [t], it is the only one that works on the cluster at [l], and that
    cluster is canceled and in [st]. *)
Record pinned (i l : nat) (t : Task) (st : ClusterStatus) (w : W) : Prop := {
  pi_task : w.(w_tasks) !! i = Some t;
  pi_only j t' : w.(w_tasks) !! j = Some t' -> task_loc t' = Some l -> j = i;
  pi_cluster : exists c, w.(w_heap) !! l = Some c /\ c.(zl_isCanceled) = true /\ c.(zl_status) = st
}.
Definition stays {A} (P : W -> Prop) (m : M W ApiError A) : Prop := forall w, P w -> P (snd (m w)).

Section Pinned.
Context (i l : nat) (t : Task) (st : ClusterStatus) (Hst : working st) (Ht : task_loc t = Some l).
Local Abbreviation P := (pinned i l t st).

Lemma pinned_ext (w w' : W) : w'.(w_heap) = w.(w_heap) -> w'.(w_tasks) = w.(w_tasks) -> P w -> P w'.
Proof. intros Hh Hw [T1 T2 T3]. split; rewrite ?Hh, ?Hw; done. Qed.
Lemma stays_ret {A} (a : A) : stays P (ret a).
Proof. by intros w. Qed.
Lemma stays_throw {A} e : stays P (throw e : M W ApiError A).
Proof. by intros w. Qed.
Lemma stays_bind {A B} (m : M W ApiError A) (k : A -> M W ApiError B) : stays P m -> (forall a, stays P (k a)) -> stays P (bind m k).
Proof. intros Hm Hk w Hw. specialize (Hm w Hw). unfold bind. destruct (m w) as [[a|e] w1]; [by apply Hk|done]. Qed.
Lemma stays_attempt {A B} (m : M W ApiError A) (k : result ApiError A -> M W ApiError B) :
  stays P m -> (forall a, stays P (k a)) -> stays P (bind (attempt m) k).
Proof. intros Hm Hk w Hw. rewrite bind_attempt. apply Hk, Hm, Hw. Qed.
Lemma stays_gets {A} (f : W -> A) : stays P (gets f).
Proof. by intros w. Qed.
Lemma stays_modify f : (forall w, (f w).(w_heap) = w.(w_heap) /\ (f w).(w_tasks) = w.(w_tasks)) -> stays P (modify f : M W ApiError unit).
Proof. intros Hf w. destruct (Hf w). by apply pinned_ext. Qed.
Lemma stays_db {A} (m : M DB kv_error A) : stays P (db m).
Proof. intros w. unfold db, rethrow, zoom. destruct (m (w_db w)). by apply pinned_ext. Qed.
Lemma stays_upd l' f : (l' = l -> forall c, zl_isCanceled (f c) = zl_isCanceled c /\ zl_status (f c) = zl_status c) -> stays P (upd l' f).
Proof.
  intros Hf w [T1 T2 (c & Hc & T3)]. split; [done|done|]. simpl. destruct (decide (l' = l)) as [->|Hne].
  - exists (f c). rewrite list_lookup_alter_eq, Hc. destruct (Hf eq_refl c) as [-> ->]. done.
  - exists c. by rewrite list_lookup_alter_ne by done.
Qed.
Lemma stays_go t' : task_loc t' <> Some l -> stays P (go t').
Proof.
  intros Hl w [T1 T2 T3]. split; [|intros j t''|done]; simpl.
  - by apply lookup_app_l_Some.
  - intros [Hj|[_ Hj]]%lookup_app_Some Ht''; [by eapply T2|]. apply list_lookup_singleton_Some in Hj as [_ <-]. done.
Qed.
Lemma stays_set_task j t' : j <> i -> task_loc t' <> Some l -> stays P (set_task j t').
Proof.
  intros Hj Hl w [T1 T2 T3]. split; [|intros j' t''|done]; simpl.
  - by rewrite list_lookup_insert_ne.
  - intros [[<- [<- _]]|[_ Hj']]%list_lookup_insert_Some Ht''; [done|by eapply T2].
Qed.
Lemma stays_cluster {A} l' (k : ZCluster -> M W ApiError A) :
  (forall c, (l' = l -> c.(zl_isCanceled) = true /\ c.(zl_status) = st) -> stays P (k c)) -> stays P (bind (cluster l') k).
Proof.
  intros Hk w Hw. unfold cluster, bind, gets. destruct (w_heap w !! l') as [c|] eqn:Hc; [|done]. apply Hk; [|done].
  intros ->. destruct Hw as [_ _ (c0 & Hc0 & ?)]. congruence.
Qed.
Lemma stays_newCluster {A} name s (k : nat -> M W ApiError A) :
  (forall l', l' <> l -> stays P (k l')) -> stays P (bind (newCluster name s) k).
Proof.
  intros Hk w [T1 T2 (c & Hc & T3)]. unfold newCluster, bind, gets, modify, ret. apply Hk.
  - apply lookup_lt_Some in Hc. lia.
  - split; [done|done|]. exists c. split; [|done]. simpl. by apply lookup_app_l_Some.
Qed.
Lemma stays_c_Event {A} ev l' (k : bool -> M W ApiError A) :
  (l' = l -> next_status st ev = None) -> (forall b, (l' = l -> b = false) -> stays P (k b)) -> stays P (bind (c_Event ev l') k).
Proof.
  intros Hev Hk. unfold c_Event. intros w. rewrite bind_assoc. revert w. apply stays_cluster. intros c Hc w Hw.
  rewrite fsm_next_status. destruct (next_status (zl_status c) ev) as [d|] eqn:Hn; [|by apply Hk].
  assert (Hne : l' <> l) by (intros ->; destruct (Hc eq_refl) as [_ Hs]; rewrite Hs, Hev in Hn by done; done).
  rewrite bind_assoc, bind_upd. pose proof (stays_upd l' (set_status d) ltac:(done) w Hw) as Hw'. destruct (has_callback ev); [done|].
  by apply Hk.
Qed.
Ltac stay1 :=
  lazymatch goal with
  | |- stays _ (ret _) => apply stays_ret
  | |- stays _ (throw _) => apply stays_throw
  | |- stays _ (gets _) => apply stays_gets
  | |- stays _ (db _) => apply stays_db
  | |- stays _ (bind (attempt _) _) => apply stays_attempt; [|intros ?]
  | |- stays _ (bind (newCluster _ _) _) => apply stays_newCluster; intros ? ?
  | |- stays _ (bind (cluster _) _) => apply stays_cluster; intros ? ?
  | |- stays _ (bind (c_Event _ _) _) => fail
  | |- stays _ (bind _ _) => apply stays_bind; [|intros ?]
  | |- stays _ (upd _ _) => apply stays_upd; intros ?; (done || by intros [])
  | |- stays _ (go _) => apply stays_go; simpl; congruence
  | |- stays _ WithCancel => unfold WithCancel
  | |- stays _ (if _ then _ else _) => fail
  | |- stays _ (match _ with _ => _ end) => fail
  | |- stays _ _ => apply stays_modify; by intros
  end.
Ltac stay := repeat stay1.

(** The operations, on this cluster or another. *)
Lemma Create_stays now c : stays P (Create now c).
Proof. unfold Create, get. stay. case_match; stay. case_match; stay. Qed.
Lemma busy_cannot l' c ev : (l' = l -> c.(zl_isCanceled) = true /\ c.(zl_status) = st) -> next_status st ev = None -> Can c ev = true -> l' <> l.
Proof. intros Hc Hev Hcan ->. destruct (Hc eq_refl) as [_ Hs]. unfold Can in Hcan. by rewrite fsm_next_status, Hs, Hev in Hcan. Qed.
Lemma Update_stays c : stays P (Update c).
Proof.
  unfold Update, get. stay. destruct a as [l'|]; stay. rename c0 into z. destruct (validateConfigForUpdate _ _ _); stay. rename a0 into s.
  destruct (cs_Created s && negb (Can z UpdateEvent)) eqn:Hcan; stay.
  assert (Hev : l' = l -> next_status st (if cs_Created s then UpdateEvent else ContinuteCreateEvent) = None).
  { intros _. by destruct Hst as [->| ->], (cs_Created s). }
  apply stays_c_Event; [done|]. intros [] Hb; simpl; stay; apply stays_go || apply stays_upd; naive_solver.
Qed.
Lemma Delete_stays now id : stays P (Delete now id).
Proof.
  unfold Delete, get. stay. destruct a as [l'|]; stay. rename c into z. destruct (Can z DeleteEvent) eqn:Hcan; simpl; stay.
  assert (Hne : l' <> l) by (apply (busy_cannot l' z DeleteEvent); [done|by destruct Hst as [->| ->]|done]).
  apply stays_c_Event; [done|]. intros b _. repeat (case_match; stay).
Qed.
Lemma Cancel_stays id : stays P (CancelCluster id).
Proof.
  unfold CancelCluster, Cancel, get. stay. destruct a as [l'|]; stay. rename c into z. case_match; stay.
  destruct (zl_isCanceled z) eqn:Hz; stay; [apply stays_upd; naive_solver|]. case_match; stay.
Qed.
(** The goroutines of other clusters. *)
Lemma start_stays j k l' ctx s : j <> i -> l' <> l -> stays P (start_worker j k l' ctx s).
Proof. intros Hj Hl. unfold start_worker. stay; [case_match; stay|]. apply stays_set_task; simpl; congruence. Qed.
Lemma setCache_stays l' e1 e2 : stays P (setCache l' e1 e2).
Proof. unfold setCache. case_match; stay. case_match; stay. Qed.
Lemma worker_body_stays k l' s o : stays P (worker_body k l' s o).
Proof.
  destruct k; simpl; [unfold Create_body|unfold Update_body|stay]; (destruct (upZKECluster o); stay);
    repeat (case_match; stay); try apply setCache_stays; repeat (case_match; stay).
Qed.
Lemma fire_stays j l' f rest : j <> i -> l' <> l -> stays P (fire j l' f rest).
Proof.
  intros Hj Hl. destruct f as [[ev s] msg]. unfold fire, event. stay.
  - case_match; stay. unfold callback. stay. destruct ev; stay; repeat (case_match; stay); apply stays_upd; congruence.
  - apply stays_set_task; [done|]. repeat case_match; simpl; congruence.
Qed.
Lemma check_stays j l' timer r : j <> i -> stays P (check_round j l' timer r).
Proof.
  intros Hj. unfold check_round. stay. destruct timer.
  - apply stays_c_Event; [|intros; stay]. intros _. by destruct Hst as [->| ->], r.
  - case_match; stay. by apply stays_set_task.
Qed.

(** The goroutine an action is a step of. *)
Definition actor (a : Action) : option nat :=
  match a with AStart j | AUp j _ | AFire j | APurge j | ACheck j _ _ => Some j | _ => None end.
Lemma pinned_step a (w w' : W) r : actor a <> Some i -> step a w = Some (r, w') -> P w -> P w'.
Proof.
  intros Ha Hs Hw. assert (Hdone : forall A (m : M W ApiError A), stays P m -> (let! _ := m in ret tt) w = (r, w') -> P w').
  { intros A m Hm Hr. pose proof (stays_bind m (fun _ => ret tt) Hm (fun _ => stays_ret tt) w Hw) as Hb. by rewrite Hr in Hb. }
  assert (Hother : forall j t' l', w.(w_tasks) !! j = Some t' -> task_loc t' = Some l' -> j <> i -> l' <> l).
  { intros j t' l' Hj Hl Hne ->. apply Hne. by eapply (pi_only _ _ _ _ _ Hw). }
  destruct a as [now c|c|now id|id|j|j o|j|j|j timer rc]; simpl in Hs, Ha.
  - injection Hs as Hs. by eapply Hdone; [apply Create_stays|].
  - injection Hs as Hs. by eapply Hdone; [apply Update_stays|].
  - injection Hs as Hs. by eapply Hdone; [apply Delete_stays|].
  - injection Hs as Hs. by eapply Hdone; [apply Cancel_stays|].
  - destruct (w_tasks w !! j) as [[k l' ctx s []| | | |]|] eqn:Hj; try done. injection Hs as Hs. eapply Hdone; [apply start_stays|exact Hs]; [congruence|].
    by eapply Hother; [exact Hj| |congruence].
  - destruct (w_tasks w !! j) as [[k l' ctx s []| | | |]|] eqn:Hj; try done. injection Hs as Hs. eapply Hdone; [|exact Hs].
    apply stays_bind; [apply worker_body_stays|intros evs]. apply stays_set_task; [congruence|]. simpl. intros [= ->].
    by eapply Hother; [exact Hj| |congruence|].
  - destruct (w_tasks w !! j) as [[|l' [|f rest]| | |]|] eqn:Hj; try done. injection Hs as Hs. eapply Hdone; [apply fire_stays|exact Hs]; [congruence|].
    by eapply Hother; [exact Hj| |congruence].
  - destruct (w_tasks w !! j) as [[| |name| |]|] eqn:Hj; try done. injection Hs as Hs. eapply Hdone; [|exact Hs].
    apply stays_attempt; [apply stays_db|intros ?]. apply stays_set_task; [congruence|done].
  - destruct (w_tasks w !! j) as [[| | |l'|]|] eqn:Hj; try done. injection Hs as Hs. eapply Hdone; [apply check_stays|exact Hs]. congruence.
Qed.
End Pinned.

(** Any actions, but none of the goroutine [i]. *)
Definition meanwhile (i : nat) : W -> W -> Prop := rtc (fun w w' => exists a r, actor a <> Some i /\ step a w = Some (r, w')).
Lemma meanwhile_pinned i l t st (w w' : W) : working st -> task_loc t = Some l -> meanwhile i w w' -> pinned i l t st w -> pinned i l t st w'.
Proof. intros Hst Ht. induction 1 as [|w w1 w' (a & r & Ha & Hs) _ IH]; [done|]. intros Hp. eapply IH, pinned_step; done. Qed.

(** What AUp does to a canceled cluster: the worker is to send the cancel event. *)
Lemma canceled_up (w w' : W) i l k ctx s o r :
  pinned i l (TWorker k l ctx s true) (worker_status k s) w -> k <> KDestroy -> (k = KCreate -> s.(cs_Created) = false) ->
  (forall msg, upZKECluster o <> UpPanic msg) -> step (AUp i o) w = Some (r, w') ->
  exists s', s'.(cs_Created) = s.(cs_Created) /\
    pinned i l (TFire l [(if s.(cs_Created) then UpdateCanceledEvent else CreateCanceledEvent, s', "")]) (worker_status k s) w'.
Proof.
  intros [Hi Honly (c & Hc & Hcan & Hst)] Hk Hkc Hnp Hup. destruct (canceled_body w k l c s o Hc Hcan Hk Hkc Hnp) as (s' & Hs' & Hbody).
  simpl in Hup. rewrite Hi in Hup. unfold bind in Hup. rewrite Hbody in Hup. unfold set_task, modify, ret in Hup. simplify_eq.
  exists s'. split; [done|]. split; simpl.
  - rewrite list_lookup_insert_eq by by eapply lookup_lt_Some. done.
  - intros j t'. intros [[<- _]|[_ Hj]]%list_lookup_insert_Some; [done|by apply Honly].
  - by exists c.
Qed.

End Operations.

(** ** Examples and schedules *)

(** Two clusters are stored: beijing was created, shanghai was not. *)
Definition named_cluster (name : string) (workers : list Node) : Cluster :=
  let c := example_cluster workers in
  mkCluster "" 0 0 c.(cl_Nodes) c.(cl_Network) c.(cl_LoadBalance) c.(cl_SingleCloudAddress) name None 0 ""
    c.(cl_SSHUser) c.(cl_SSHKey) c.(cl_SSHPort) c.(cl_ClusterCidr) c.(cl_ServiceCidr)
    c.(cl_ClusterDomain) c.(cl_ClusterDNSServiceIP) c.(cl_ClusterUpstreamDNS).

#[export] Instance no_storage : NodeListener := fun _ _ => Some false.

Abbreviation EState := (@clusterState example_core).
Abbreviation EWorld := (@World example_core MemTable).

Definition example_entry (name : string) (cr : bool) : EState :=
  mkState (H := example_core) (Some 1%nat) (genZKEConfig (named_cluster name [worker1])) 5 0 cr "v1".
Definition put (name : string) (s : EState) (d : MemTable) : MemTable :=
  snd (createOrUpdateClusterFromDB name s d).
Definition example_table : MemTable :=
  put "beijing" (example_entry "beijing" true)
    (put "shanghai" (example_entry "shanghai" false) (mem_table ∅)).
Definition all_well : string -> InitOutcome := fun _ => mkInit false false None None.
Definition in_order (l : list (string * EState)) : list (string * EState) := l.
Definition example_w0 : EWorld := snd (newZKEManager in_order all_well example_table "v2").
Definition example_at (acts : list Action) : EWorld := default example_w0 (allowed_run acts example_w0).
Definition up_ok_outcome : UpOutcome (H := example_core) := mkUp (H := example_core) None (Some 2%nat) None None None None None.

Lemma example_started : started in_order all_well example_table "v2" example_w0.
Proof. split; [done|]. vm_compute. reflexivity. Qed.
Lemma example_trail acts :
  is_ok (of_option tt (allowed_run acts example_w0)) = true -> exists tr, trail example_w0 tr (example_at acts) /\ ~ Exists mishap tr.
Proof.
  intros Hok. unfold example_at. destruct (allowed_run acts example_w0) as [w|] eqn:Hr; [|done].
  apply (allowed_run_trail acts example_w0 example_w0 w []); [constructor|by intros ?%Exists_nil|done].
Qed.

(** The request for a second worker, and the goroutine it starts. *)
Definition update_beijing : list (Action (H := example_core)) := [AUpdate (named_cluster "beijing" [worker1; worker2])].

Definition beijing_loc : nat := 1.
Definition beijing (w : EWorld) : ZCluster :=
  default (mkZCluster "" 0 0 false false ChNil zero_config None false CSDeleted "") (w.(w_heap) !! beijing_loc).

Lemma manager_no_panic_witness :
  let acts := update_beijing ++ [AStart 1; AUp 1 up_ok_outcome; AFire 1] in
  match step (ADelete 9 "beijing") (example_at acts) with
  | Some (r, _) => r <> Err EPanic
  | None => False
  end.
Proof.
  intros acts. destruct (step (ADelete 9 "beijing") (example_at acts)) as [[r w']|] eqn:Hs.
  - intros Hr. destruct (example_trail acts ltac:(vm_compute; reflexivity)) as (tr & Ht & Hn).
    pose proof (manager_no_panic in_order all_well example_table "v2" example_w0 tr (example_at acts) (ADelete 9 "beijing") r w'
      example_started Ht Hs Hr) as Hm.
    apply Exists_app in Hm as [Hm|Hm]; [exact (Hn Hm)|]. apply Exists_cons in Hm as [Hm|Hm]; [|inversion Hm].
    exact (allowed_no_mishap (example_at acts) (ADelete 9 "beijing") I Hm).
  - exfalso. discriminate Hs.
Defined.

Lemma manager_one_worker_witness :
  let w := example_at (update_beijing ++ [AStart 1; AUp 1 up_ok_outcome]) in
  (length (workers w beijing_loc) <= 1)%nat /\
  ((beijing w).(zl_status) = CSCreating \/ (beijing w).(zl_status) = CSUpdating ->
    length (workers w beijing_loc) = 1%nat) /\
  forall i evs, w.(w_tasks) !! i = Some (TFire beijing_loc evs) ->
    exists ev s msg, evs = [(ev, s, msg)] /\
      is_Some (fsm_next cluster_transitions (beijing w).(zl_status) ev).
Proof.
  intros w. destruct (example_trail (update_beijing ++ [AStart 1; AUp 1 up_ok_outcome]) ltac:(vm_compute; reflexivity)) as (tr & Ht & Hn).
  destruct (manager_one_worker in_order all_well example_table "v2" example_w0 tr w beijing_loc (beijing w) example_started Ht) as [Hm|Hw].
  - apply (bool_decide_eq_true_1 _). vm_compute. reflexivity.
  - vm_compute. reflexivity.
  - destruct (Hn Hm).
  - exact Hw.
Defined.

Lemma manager_names_witness :
  find_cluster example_w0 "beijing" = Some beijing_loc /\ (beijing example_w0).(zl_status) <> CSDeleted /\
  (created example_w0 "beijing" = true -> (beijing example_w0).(zl_status) <> CSDeleting ->
    (beijing example_w0).(zl_stopCh) = ChOpen).
Proof.
  destruct (manager_names in_order all_well example_table "v2" example_w0 [] example_w0 beijing_loc (beijing example_w0)
    example_started (trail_start _)) as [Hm|Hw].
  - apply (bool_decide_eq_true_1 _). vm_compute. reflexivity.
  - vm_compute. reflexivity.
  - inversion Hm.
  - exact Hw.
Defined.

Lemma example_Inv acts :
  is_ok (of_option tt (allowed_run acts example_w0)) = true -> Inv (example_at acts).
Proof.
  intros Hok. destruct (example_trail acts Hok) as (tr & Ht & Hn). by destruct (trail_Inv _ _ _ _ _ _ _ example_started Ht).
Qed.

Definition tokyo : Cluster := named_cluster " tokyo " [worker1].

Lemma Create_result_witness :
  match fst (Create 8 tokyo example_w0) with
  | Ok c => c = created_cluster (TrimFieldSpace tokyo) 8 /\ find_cluster example_w0 "tokyo" = None
  | Err _ => False
  end.
Proof.
  destruct (Create 8 tokyo example_w0) as [r w'] eqn:Hr.
  pose proof (Create_result example_w0 w' 8 tokyo r (example_Inv [] eq_refl) Hr) as Hres.
  destruct r as [c|e]; [|apply (f_equal fst) in Hr; vm_compute in Hr; discriminate Hr].
  destruct Hres as (Hc & Hf & _). split; [exact Hc|exact Hf].
Defined.

Lemma Update_result_witness :
  exists l z, find_cluster example_w0 "beijing" = Some l /\ example_w0.(w_heap) !! l = Some z /\
    z.(zl_status) = CSRunning.
Proof.
  destruct (Update (named_cluster "beijing" [worker1; worker2]) example_w0) as [r w'] eqn:Hr.
  destruct r as [c|e]; [|apply (f_equal fst) in Hr; vm_compute in Hr; discriminate Hr].
  destruct (Update_result example_w0 w' _ c Hr) as (l & z & s & ctx & Hf & Hz & He & _ & Hst & _).
  exists l, z. split; [exact Hf|]. split; [exact Hz|]. rewrite Hst.
  vm_compute in He. injection He as <-. reflexivity.
Defined.

Lemma Delete_result_witness :
  exists l z, find_cluster example_w0 "shanghai" = Some l /\ example_w0.(w_heap) !! l = Some z /\
    z.(zl_status) ∈ [CSRunning; CSUnreachable; CSCreateFailed].
Proof.
  destruct (Delete 9 "shanghai" example_w0) as [r w'] eqn:Hr.
  destruct r as [[]|e]; [|apply (f_equal fst) in Hr; vm_compute in Hr; discriminate Hr].
  destruct (Delete_result example_w0 w' 9 "shanghai" Hr) as (l & z & s & Hf & Hz & _ & Hst & _).
  exists l, z. split; [exact Hf|]. split; [exact Hz|exact Hst].
Defined.

Definition step_to (a : Action) (w : EWorld) : EWorld :=
  match step a w with Some (_, w') => w' | None => w end.
Definition step_result (a : Action) (w : EWorld) : result ApiError unit :=
  match step a w with Some (r, _) => r | None => Err EPanic end.

Lemma step_to_eq a w :
  is_ok (of_option tt (step a w)) = true -> step a w = Some (step_result a w, step_to a w).
Proof. unfold step_to, step_result. by destruct (step a w) as [[r w']|]. Qed.

Lemma Cancel_to_eq id (w : EWorld) :
  is_ok (fst (CancelCluster id w)) = true -> CancelCluster id w = (Ok tt, snd (CancelCluster id w)).
Proof. by destruct (CancelCluster id w) as [[[]|e] w']. Qed.

Definition canceling : EWorld := example_at (update_beijing ++ [AStart 1]).
Definition canceled1 : EWorld := snd (CancelCluster "beijing" canceling).
(** A check of the cluster and an update of it are refused in between. *)
Definition canceled1' : EWorld := step_to (AUpdate (named_cluster "beijing" [worker1])) (step_to (ACheck 0 true false) canceled1).
Definition canceled2 : EWorld := step_to (AUp 1 up_ok_outcome) canceled1'.
Definition canceled3 : EWorld := step_to (AFire 1) canceled2.
Lemma meanwhile_step i a (w w' : EWorld) :
  actor a <> Some i -> is_ok (of_option tt (step a w)) = true -> meanwhile i (step_to a w) w' -> meanwhile i w w'.
Proof. intros Ha Hs Hm. eapply rtc_l; [|exact Hm]. exists a, (step_result a w). split; [done|by apply step_to_eq]. Qed.


(** ** Schedules that go wrong *)

Definition run_to (acts : list (Action (H := example_core))) : EWorld := default example_w0 (steps acts example_w0).
Definition shanghai_loc : nat := 0.
Definition status_of (w : EWorld) (l : nat) : option ClusterStatus := zl_status <$> w.(w_heap) !! l.
Definition canceled_mark (w : EWorld) (l : nat) : option bool := zl_isCanceled <$> w.(w_heap) !! l.
Definition shanghai2 : Cluster := named_cluster "shanghai" [worker1; worker2].

(** zke panics while a creation is continued: the recovery sends the event of a
    finished update, Creating refuses it, and the cluster stays in Creating with no
    worker; canceling it does not help either. *)
Lemma continued_creation_panic_is_stuck :
  let w := run_to [AUpdate shanghai2; AStart 1; AUp 1 (mkUp (H := example_core) (Some "boom") None None None None None None);
                   AFire 1; ACancel "shanghai"] in
  status_of w shanghai_loc = Some CSCreating /\ workers w shanghai_loc = [] /\
  fst (Update shanghai2 w) = Err EServerError /\ fst (Delete 9 "shanghai" w) = Err EPermissionDenied.
Proof. vm_compute. auto. Qed.

(** setCache fails while a creation is continued: both events are sent, and a user
    who continues again between the two has a second worker on the cluster. *)
Lemma failed_cache_two_workers :
  let bad := mkUp (H := example_core) None (Some 2%nat) None None None None (Some "cache") in
  let w := run_to [AUpdate shanghai2; AStart 1; AUp 1 bad; AFire 1; AUpdate shanghai2] in
  length (workers w shanghai_loc) = 2%nat /\
  status_of (run_to [AUpdate shanghai2; AStart 1; AUp 1 bad; AFire 1; AUpdate shanghai2; AFire 1])
    shanghai_loc = Some CSRunning.
Proof. vm_compute. auto. Qed.

(** The client cannot be built while a creation is continued, and a user continues again between
    the two events: the cluster is Running and stored as created without a stop channel, and its
    deletion closes a nil channel. *)
Lemma failed_client_panics_delete :
  let bad := mkUp (H := example_core) None (Some 2%nat) None None None (Some "client") None in
  let w := run_to [AUpdate shanghai2; AStart 1; AUp 1 bad; AFire 1; AUpdate shanghai2; AFire 1] in
  status_of w shanghai_loc = Some CSRunning /\ created w "shanghai" = true /\ (zl_stopCh <$> w.(w_heap) !! shanghai_loc) = Some ChNil /\
  fst (Delete 9 "shanghai" w) = Err EPanic.
Proof. vm_compute. auto. Qed.

(** A cancel that arrives after the worker has looked at the mark: the cluster ends in
    Running with the mark set, so that the next update cannot be canceled and is
    reported as canceled. *)
Lemma late_cancel_keeps_mark :
  let w := run_to [AUpdate (named_cluster "beijing" [worker1; worker2]); AStart 1; AUp 1 up_ok_outcome;
                   ACancel "beijing"; AFire 1] in
  status_of w beijing_loc = Some CSRunning /\ canceled_mark w beijing_loc = Some true /\
  let w' := step_to (AUpdate (named_cluster "beijing" [worker1])) w in
  status_of w' beijing_loc = Some CSUpdating /\
  fst (CancelCluster "beijing" w') = Err EPermissionDenied.
Proof. vm_compute. auto. Qed.

(** The deletion drops the cluster from the list before it drops the table entry: a
    cluster created in between under the same name loses its entry. *)
Lemma recreated_cluster_loses_entry :
  let w := run_to [ADelete 9 "beijing"; AStart 1; AUp 1 up_ok_outcome; AFire 1;
                   ACreate 10 (named_cluster "beijing" [worker1]); APurge 1] in
  find_cluster w "beijing" = Some 2%nat /\ entry w "beijing" = None.
Proof. vm_compute. auto. Qed.

(** An update of a cluster that is still being created answers a server error, yet
    the configuration in memory and in the table is the requested one. *)
Lemma update_while_creating_is_applied :
  let w := run_to [ACreate 10 (named_cluster "tokyo" [worker1])] in
  let (r, w') := Update (named_cluster "tokyo" [worker1; worker2]) w in
  r = Err EServerError /\
  (length ∘ zc_Nodes ∘ zl_config) <$> w.(w_heap) !! 2%nat = Some 2%nat /\
  (length ∘ zc_Nodes ∘ zl_config) <$> w'.(w_heap) !! 2%nat = Some 3%nat /\
  (length ∘ zc_Nodes ∘ cs_ZKEConfig) <$> entry w' "tokyo" = Some 3%nat.
Proof. vm_compute. auto. Qed.

(** A table that fails at the end of Delete leaves the cluster in Deleting with no
    worker, and no operation is accepted on it any more. *)
Definition fail_table (fs : list bool) (w : EWorld) : EWorld := set_db (mkMem w.(w_db).(mem) fs) w.
Lemma failed_delete_is_stuck :
  let (r, w) := Delete 9 "beijing" (fail_table [false; false; false; true] example_w0) in
  r = Err EServerError /\ status_of w beijing_loc = Some CSDeleting /\ workers w beijing_loc = [] /\
  fst (Delete 10 "beijing" w) = Err EPermissionDenied /\
  fst (CancelCluster "beijing" w) = Err EPermissionDenied.
Proof. vm_compute. auto. Qed.
