(* ===== verification/EventRing.v ===== *)
(** The bounded buffers that feed listeners: the kubernetes event watcher
    (pkg/k8seventwatcher/eventwatcher.go) and the cluster log watcher
    (pkg/zke/zkelog/log_manager.go), which are the same structure over different
    contents, and the managers that keep one per cluster. *)
From S2P Require Import Prelude.

(** ** The buffer *)

Section Ring.
Context {A : Type}.

(** EventWatcher and LogWatcher: the last number handed out and the kept entries,
    oldest first, each with its number. *)
Record Watcher := mkWatcher { wt_id : Z; wt_list : list (Z * A) }.

(** EventListener and LogListener: the number of the last entry sent, and the
    entries sent so far. *)
Record Listener := mkListener { ls_lastID : Z; ls_sent : list A }.
Definition newListener : Listener := mkListener 0 [].

(** EventWatcher.add: number the entry, append it, drop the oldest beyond the size. *)
Definition add (maxSize : Z) (w : Watcher) (a : A) : Watcher :=
  let id := u64_add w.(wt_id) 1 in
  let l := w.(wt_list) ++ [(id, a)] in
  mkWatcher id (if maxSize <? Z.of_nat (length l) then tail l else l).

(** The walks over the linked list; [None] is the nil pointer they reach when they
    walk off it. *)
Fixpoint walk_forward (id : Z) (elems : list (Z * A)) : option (list (Z * A)) :=
  match elems with
  | [] => None
  | (i, a) :: next => if i <=? id then walk_forward id next else Some elems
  end.
(** From the last element towards the first: [rest] is what follows the element. *)
Fixpoint walk_back (id : Z) (elems rest : list (Z * A)) : option (list (Z * A)) :=
  match elems with
  | [] => None
  | (i, a) :: prev => if id <? i then walk_back id prev ((i, a) :: rest) else Some rest
  end.

(** getEventsFromElem: the entries from an element on, at most [batch] of them, with
    the number of the last. *)
Definition getEventsFromElem (elem : list (Z * A)) (batch : nat) : option (Z * list A) :=
  match elem with
  | [] => None
  | (startID, _) :: _ =>
      let events := snd <$> take batch elem in
      Some (u64_add startID (u64_sub (Z.of_nat (length events)) 1), events)
  end.

Definition getEventsFromOutdated (w : Watcher) (id : Z) (batch : nat) : option (Z * list A) :=
  walk_forward id w.(wt_list) ≫= fun elem => getEventsFromElem elem batch.
Definition getEventsFromLatest (w : Watcher) (id : Z) (batch : nat) : option (Z * list A) :=
  walk_back id (reverse w.(wt_list)) [] ≫= fun elem => getEventsFromElem elem batch.

(** getEventsAfterID; [None] is a panic. *)
Definition getEventsAfterID (w : Watcher) (id : Z) (batch : nat) : option (Z * list A) :=
  match head w.(wt_list), last w.(wt_list) with
  | Some (begID, _), Some (endID, _) =>
      if id <? begID then getEventsFromOutdated w id batch
      else if id =? endID then Some (0, [])
      else if u64_sub id begID <? u64_sub endID id then getEventsFromOutdated w id batch
      else getEventsFromLatest w id batch
  | _, _ => Some (0, [])
  end.

(** One round of publishEvent for a listener that is not stopped: with nothing new it
    waits, else it sends the batch. *)
Definition publish (batch : nat) (w : Watcher) (l : Listener) : option Listener :=
  match getEventsAfterID w l.(ls_lastID) batch with
  | None => None
  | Some (_, []) => Some l
  | Some (lastID, events) => Some (mkListener lastID (l.(ls_sent) ++ events))
  end.

(** A watcher with one listener, and the interleaving of what happens to them. *)
Inductive Occurs := Added (a : A) | Round.

Fixpoint run_ring (maxSize : Z) (batch : nat) (os : list Occurs) (w : Watcher) (l : Listener)
    : option (Watcher * Listener) :=
  match os with
  | [] => Some (w, l)
  | Added a :: os => run_ring maxSize batch os (add maxSize w a) l
  | Round :: os =>
      match publish batch w l with
      | Some l' => run_ring maxSize batch os w l'
      | None => None
      end
  end.

Definition added (os : list Occurs) : list A :=
  os ≫= fun o => match o with Added a => [a] | Round => [] end.

(** ** What the buffer holds *)

(** A history numbered from [n + 1]. *)
Definition numbered (n : Z) (h : list A) : list (Z * A) := imap (fun i a => (n + 1 + Z.of_nat i, a)) h.

(** The buffer after a history: its last [maxSize] entries with their numbers. *)
Definition holds (maxSize : nat) (n : Z) (h : list A) (w : Watcher) : Prop :=
  w.(wt_id) = n + Z.of_nat (length h) /\
  w.(wt_list) = drop (length h - maxSize) (numbered n h).

Lemma numbered_app n h h' : numbered n (h ++ h') = numbered n h ++ numbered (n + Z.of_nat (length h)) h'.
Proof.
  unfold numbered. rewrite imap_app. f_equal. apply imap_ext. intros i x _. simpl. f_equal. lia.
Qed.

Lemma numbered_length n h : length (numbered n h) = length h.
Proof. apply length_imap. Qed.

Lemma numbered_lookup n h i : numbered n h !! i = (fun a => (n + 1 + Z.of_nat i, a)) <$> h !! i.
Proof. unfold numbered. rewrite list_lookup_imap. by destruct (h !! i). Qed.

Lemma numbered_drop n h k : drop k (numbered n h) = numbered (n + Z.of_nat k) (drop k h).
Proof.
  apply list_eq. intros i. rewrite lookup_drop, !numbered_lookup, lookup_drop.
  destruct (h !! (k + i)%nat); [|done]. simpl. do 2 f_equal. lia.
Qed.

Lemma numbered_snd n h : snd <$> numbered n h = h.
Proof.
  apply list_eq. intros i. rewrite list_lookup_fmap, numbered_lookup. by destruct (h !! i).
Qed.

Lemma tail_drop {B} (l : list B) k : tail (drop k l) = drop (S k) l.
Proof. revert l. induction k; intros [|x l]; simpl; auto. Qed.

Lemma add_holds maxSize n h w a :
  holds maxSize n h w -> 0 <= n -> n + Z.of_nat (length h) + 1 < 2 ^ 64 ->
  holds maxSize n (h ++ [a]) (add (Z.of_nat maxSize) w a).
Proof.
  intros [Hid Hl] Hn Hb. unfold holds, add, u64_add. simpl. rewrite Hid, u64_small by lia.
  rewrite length_app. simpl. split; [lia|].
  rewrite Hl, length_app, length_drop, numbered_length, numbered_app. simpl.
  assert (numbered (n + Z.of_nat (length h)) [a] = [(n + Z.of_nat (length h) + 1, a)]) as ->.
  { unfold numbered. simpl. do 2 f_equal. lia. }
  destruct (Z.ltb_spec (Z.of_nat maxSize) (Z.of_nat (length h - (length h - maxSize) + 1))) as [Hlt|Hge].
  - assert (length h + 1 - maxSize = S (length h - maxSize))%nat as -> by lia.
    rewrite <- tail_drop. rewrite drop_app_le; [done|]. rewrite numbered_length. lia.
  - assert (length h + 1 - maxSize = length h - maxSize)%nat as -> by lia.
    rewrite drop_app_le; [done|]. rewrite numbered_length. lia.
Qed.

(** ** Reading the buffer *)

Lemma numbered_cons n a h : numbered n (a :: h) = (n + 1, a) :: numbered (n + 1) h.
Proof.
  change (a :: h) with ([a] ++ h). rewrite numbered_app. unfold numbered at 1. simpl. do 2 f_equal. lia.
Qed.

Lemma walk_forward_numbered n h id :
  (Z.to_nat (id - n) < length h)%nat ->
  walk_forward id (numbered n h) = Some (drop (Z.to_nat (id - n)) (numbered n h)).
Proof.
  revert n. induction h as [|a h IH]; intros n Hid; simpl in Hid.
  - lia.
  - rewrite numbered_cons. simpl. destruct (Z.leb_spec (n + 1) id) as [Hle|Hgt].
    + rewrite IH by lia.
      assert (Z.to_nat (id - n) = S (Z.to_nat (id - (n + 1)))) as -> by lia. done.
    + assert (Z.to_nat (id - n) = 0%nat) as -> by lia. done.
Qed.

Lemma walk_back_numbered n h id rest :
  h <> [] -> n + 1 <= id ->
  walk_back id (reverse (numbered n h)) rest = Some (drop (Z.to_nat (id - n)) (numbered n h) ++ rest).
Proof.
  revert rest. induction h as [|a h IH] using rev_ind; intros rest Hne Hid; [done|].
  rewrite numbered_app, numbered_cons, reverse_app. simpl.
  destruct (Z.ltb_spec id (n + Z.of_nat (length h) + 1)) as [Hlt|Hge].
  - rewrite IH; [|intros ->; simpl in Hlt; lia|done].
    rewrite drop_app_le by (rewrite numbered_length; lia). by rewrite <- app_assoc.
  - rewrite drop_ge; [done|]. rewrite length_app, numbered_length. simpl. lia.
Qed.

(** The position in the history from which a reader at [id] goes on. *)
Definition position (maxSize : nat) (n : Z) (h : list A) (id : Z) : nat :=
  Nat.max (length h - maxSize) (Z.to_nat (id - n)).

Lemma getEventsFromElem_numbered n h batch :
  h <> [] -> (0 < batch)%nat -> 0 <= n -> n + Z.of_nat (length h) < 2 ^ 64 ->
  getEventsFromElem (numbered n h) batch =
    Some (n + Z.of_nat (length (take batch h)), take batch h).
Proof.
  intros Hne Hb Hn Hlt. destruct h as [|a h]; [done|]. unfold getEventsFromElem.
  rewrite numbered_cons at 1. cbn match. rewrite fmap_take, numbered_snd.
  do 2 f_equal. destruct batch as [|batch]; [lia|]. simpl in *.
  unfold u64_add. rewrite length_take, u64_sub_small by lia. rewrite u64_small by lia. lia.
Qed.

Lemma getEvents_spec maxSize n h w id batch :
  holds maxSize n h w -> (0 < batch)%nat -> 0 <= n -> n + Z.of_nat (length h) < 2 ^ 64 ->
  0 <= id <= n + Z.of_nat (length h) ->
  let events := take batch (drop (position maxSize n h id) h) in
  getEventsAfterID w id batch =
    Some (if decide (events = []) then 0
          else n + Z.of_nat (position maxSize n h id) + Z.of_nat (length events), events).
Proof.
  intros [_ Hl] Hb Hn Hbound Hid events.
  set (k := (length h - maxSize)%nat) in *.
  rewrite numbered_drop in Hl. set (m := n + Z.of_nat k) in *. set (g := drop k h) in *.
  assert (Hg : length g = (length h - k)%nat) by apply length_drop.
  assert (Hpos : drop (position maxSize n h id) h = drop (Z.to_nat (id - m)) g).
  { unfold g, position. rewrite drop_drop. f_equal. unfold m. lia. }
  assert (Hget : forall elem, elem = drop (Z.to_nat (id - m)) (numbered m g) ->
    (Z.to_nat (id - m) < length g)%nat ->
    getEventsFromElem elem batch = Some (if decide (events = []) then 0
      else n + Z.of_nat (position maxSize n h id) + Z.of_nat (length events), events)).
  { intros elem -> Hk. rewrite numbered_drop.
    rewrite getEventsFromElem_numbered; [|intros He; apply (f_equal length) in He; rewrite length_drop in He; simpl in He; lia
      |done|lia|rewrite length_drop; lia].
    unfold events. rewrite <- Hpos. rewrite decide_False.
    - do 2 f_equal. unfold position. lia.
    - rewrite Hpos. intros He. apply (f_equal length) in He. rewrite length_take, length_drop in He. simpl in He. lia. }
  unfold getEventsAfterID, getEventsFromOutdated, getEventsFromLatest. rewrite Hl.
  destruct g as [|a g'] eqn:Eg.
  { simpl. unfold events. rewrite Hpos, drop_nil, take_nil. by rewrite decide_True. }
  rewrite <- Eg in *. assert (Hge : g <> []) by (rewrite Eg; discriminate).
  assert (head (numbered m g) = Some (m + 1, a)) as -> by (rewrite Eg, numbered_cons; done).
  assert (exists b, last (numbered m g) = Some (m + Z.of_nat (length g), b)) as [b ->].
  { rewrite last_lookup, numbered_length, numbered_lookup.
    destruct (lookup_lt_is_Some_2 g (pred (length g))) as [b Hb'].
    - destruct g; simpl; [done|lia].
    - rewrite Hb'. exists b. simpl. do 2 f_equal. destruct g; simpl in *; [done|lia]. }
  assert (Hlen : (0 < length g)%nat) by (destruct g; simpl; [done|lia]).
  destruct (Z.ltb_spec id (m + 1)) as [Hlt|Hge1].
  { rewrite walk_forward_numbered by lia. simpl. apply Hget; [done|lia]. }
  destruct (Z.eqb_spec id (m + Z.of_nat (length g))) as [Heq|Hne].
  { unfold events. rewrite Hpos, drop_ge by lia. by rewrite take_nil, decide_True. }
  destruct (u64_sub id (m + 1) <? u64_sub (m + Z.of_nat (length g)) id).
  - rewrite walk_forward_numbered by lia. simpl. apply Hget; [done|lia].
  - rewrite walk_back_numbered by (done || lia). simpl. rewrite app_nil_r. apply Hget; [done|lia].
Qed.

(** ** Delivery *)

(** A listener that has been sent, in order and once each, some of the first entries
    of the history up to the position it reads from; all of them while nothing was
    dropped. *)
Record follows (maxSize : nat) (n : Z) (h : list A) (l : Listener) : Prop := {
  fw_range : 0 <= l.(ls_lastID) <= n + Z.of_nat (length h);
  fw_sub : l.(ls_sent) `sublist_of` take (Z.to_nat (l.(ls_lastID) - n)) h;
  fw_all : (length h <= maxSize)%nat -> l.(ls_sent) = take (Z.to_nat (l.(ls_lastID) - n)) h
}.

Lemma follows_add maxSize n h a l : follows maxSize n h l -> follows maxSize n (h ++ [a]) l.
Proof.
  intros [Hr Hs Ha]. split; rewrite ?length_app; simpl.
  - lia.
  - rewrite take_app_le by lia. done.
  - intros Hle. rewrite take_app_le by lia. apply Ha. lia.
Qed.

(** Where a listener stands after one more round. *)
Definition after_round (maxSize : nat) (n : Z) (h : list A) (batch : nat) (l : Listener) : Listener :=
  let p := position maxSize n h l.(ls_lastID) in
  let events := take batch (drop p h) in
  match events with
  | [] => l
  | _ => mkListener (n + Z.of_nat p + Z.of_nat (length events)) (l.(ls_sent) ++ events)
  end.

Lemma publish_spec maxSize n h w l batch :
  holds maxSize n h w -> follows maxSize n h l -> (0 < batch)%nat -> 0 <= n ->
  n + Z.of_nat (length h) < 2 ^ 64 ->
  publish batch w l = Some (after_round maxSize n h batch l) /\
  follows maxSize n h (after_round maxSize n h batch l).
Proof.
  intros Hw [Hr Hs Ha] Hb Hn Hbound. unfold publish, after_round.
  rewrite (getEvents_spec maxSize n h w _ batch Hw Hb Hn Hbound Hr).
  set (p := position maxSize n h (ls_lastID l)).
  destruct (take batch (drop p h)) as [|a ev] eqn:Hev; (split; [done|]); [by split|].
  assert (Hlen : length (a :: ev) = Nat.min batch (length h - p)) by
    (rewrite <- Hev, length_take, length_drop; done).
  assert (Hp : (Z.to_nat (ls_lastID l - n) <= p)%nat) by (unfold p, position; lia).
  assert (Htake : take (p + length (a :: ev)) h = take p h ++ a :: ev).
  { rewrite <- take_take_drop. f_equal. rewrite <- Hev, length_take.
    destruct (decide (batch <= length (drop p h))%nat); [f_equal; lia|].
    rewrite !take_ge by lia. done. }
  simpl in Hlen. split; simpl.
  - lia.
  - replace (Z.to_nat (n + Z.of_nat p + Z.of_nat (S (length ev)) - n)) with (p + length (a :: ev))%nat by (simpl; lia).
    rewrite Htake. apply sublist_app; [|done]. etrans; [exact Hs|].
    replace (Z.to_nat (ls_lastID l - n)) with (Nat.min (Z.to_nat (ls_lastID l - n)) p) by lia.
    rewrite <- take_take. apply sublist_take.
  - intros Hle. replace (Z.to_nat (n + Z.of_nat p + Z.of_nat (S (length ev)) - n)) with (p + length (a :: ev))%nat by (simpl; lia).
    rewrite Htake, (Ha Hle). do 2 f_equal. unfold p, position. lia.
Qed.

Lemma run_ring_ok maxSize batch os n h w l :
  holds maxSize n h w -> follows maxSize n h l -> (0 < batch)%nat -> 0 <= n ->
  n + Z.of_nat (length h + length (added os)) < 2 ^ 64 ->
  exists w' l', run_ring (Z.of_nat maxSize) batch os w l = Some (w', l') /\
    holds maxSize n (h ++ added os) w' /\ follows maxSize n (h ++ added os) l'.
Proof.
  intros Hw Hl Hb Hn. revert h w l Hw Hl. induction os as [|o os IH]; intros h w l Hw Hl Hbound.
  - exists w, l. simpl. by rewrite app_nil_r.
  - destruct o as [a|]; simpl.
    + change (added (Added a :: os)) with (a :: added os) in *. simpl in Hbound.
      destruct (IH (h ++ [a]) (add (Z.of_nat maxSize) w a) l) as (w' & l' & Hr & Hw' & Hl').
      * apply add_holds; [done|done|lia].
      * by apply follows_add.
      * rewrite length_app. simpl. lia.
      * exists w', l'. rewrite <- app_assoc in Hw', Hl'. done.
    + change (added (Round :: os)) with (added os) in *.
      destruct (publish_spec maxSize n h w l batch Hw Hl Hb Hn ltac:(lia)) as [-> Hl1]. by apply IH.
Qed.

(** Rounds with nothing added: each sends the next [batch] kept entries. *)
Lemma rounds_drain maxSize batch r n h w l :
  holds maxSize n h w -> follows maxSize n h l -> (0 < batch)%nat -> 0 <= n ->
  n + Z.of_nat (length h) < 2 ^ 64 ->
  (length h - position maxSize n h l.(ls_lastID) <= r * batch)%nat ->
  exists l', run_ring (Z.of_nat maxSize) batch (replicate r Round) w l = Some (w, l') /\
    l'.(ls_sent) = l.(ls_sent) ++ drop (position maxSize n h l.(ls_lastID)) h.
Proof.
  intros Hw Hl Hb Hn Hbound. revert l Hl. induction r as [|r IH]; intros l Hl Hle; simpl.
  - exists l. rewrite drop_ge by lia. by rewrite app_nil_r.
  - destruct (publish_spec maxSize n h w l batch Hw Hl Hb Hn Hbound) as [-> Hl1].
    set (p := position maxSize n h (ls_lastID l)) in *.
    unfold after_round in *. fold p in Hl1 |- *.
    destruct (take batch (drop p h)) as [|a ev] eqn:Hev.
    + assert (drop p h = []) as Hd.
      { destruct batch; [lia|]. by destruct (drop p h). }
      destruct (IH l Hl) as (l' & Hr & Hs).
      * fold p. apply (f_equal length) in Hd. rewrite length_drop in Hd. simpl in Hd. lia.
      * exists l'. done.
    + assert (Hlen : length (a :: ev) = Nat.min batch (length h - p)) by
        (rewrite <- Hev, length_take, length_drop; done).
      set (l1 := mkListener (n + Z.of_nat p + Z.of_nat (length (a :: ev))) (ls_sent l ++ a :: ev)) in *.
      assert (Hp1 : position maxSize n h (ls_lastID l1) = (p + length (a :: ev))%nat).
      { unfold position. simpl. unfold p at 1, position. simpl in Hlen. unfold p, position in Hlen |- *. lia. }
      destruct (IH l1 Hl1) as (l' & Hr & Hs); [rewrite Hp1; lia|].
      exists l'. split; [done|]. rewrite Hs, Hp1. simpl ls_sent. rewrite <- app_assoc. f_equal.
      rewrite <- (take_drop batch (drop p h)) at 1. rewrite Hev. f_equal. rewrite drop_drop.
      destruct (decide (batch <= length h - p)%nat); [f_equal; lia|].
      rewrite !drop_ge by lia. done.
Qed.

Lemma add_all_holds maxSize n h :
  0 <= n -> n + Z.of_nat (length h) < 2 ^ 64 ->
  holds maxSize n h (foldl (add (Z.of_nat maxSize)) (mkWatcher n []) h).
Proof.
  intros Hn. induction h as [|a h IH] using rev_ind; intros Hb.
  - split; [simpl; lia|done].
  - rewrite foldl_snoc. rewrite length_app in Hb. simpl in Hb. apply add_holds; [|done|lia].
    apply IH. lia.
Qed.
End Ring.
Arguments Watcher : clear implicits.
Arguments Listener : clear implicits.
Arguments Occurs : clear implicits.

(** ** The event watchers (pkg/k8seventwatcher) *)

Module Events.
Section Events.
Context {Event : Type}.

(** NewEventWatcher counts from 1, so that its first event has number 2. *)
Definition NewEventWatcher : Watcher Event := mkWatcher 1 [].
Definition MaxEventCount : nat := 4096.

(** OnCreate and OnUpdate add the object, the two other handlers do nothing. *)
Inductive Notice := NCreate (e : Event) | NUpdate (e : Event) | NDelete | NGeneric.
Definition OnNotice (maxSize : nat) (w : Watcher Event) (e : Notice) : Watcher Event :=
  match e with
  | NCreate e | NUpdate e => add (Z.of_nat maxSize) w e
  | NDelete | NGeneric => w
  end.

Definition batchSize (maxSize : nat) : nat := (maxSize / 4)%nat.

(** The events of WatcherManager.eventLoop: a cluster was created (and building its
    watcher works or not) or deleted. *)
Inductive ClusterEvent := ClusterCreated (name : string) (ok : bool) | ClusterDeleted (name : string).
Definition eventLoop_step (watchers : gmap string (Watcher Event)) (e : ClusterEvent)
    : gmap string (Watcher Event) :=
  match e with
  | ClusterCreated name ok =>
      match watchers !! name with
      | Some _ => watchers
      | None => if ok then <[name := NewEventWatcher]> watchers else watchers
      end
  | ClusterDeleted name => delete name watchers
  end.
End Events.
End Events.

(** ** The cluster logs (pkg/zke/zkelog) *)

Module Logs.
Definition MaxLogSize : nat := 100.
Definition LogWatcher : Type := Watcher string.
Definition newLogWatcher : LogWatcher := mkWatcher 0 [].
Definition add : LogWatcher -> string -> LogWatcher := EventRing.add (Z.of_nat MaxLogSize).
Definition batchSize : nat := (MaxLogSize / 4)%nat.
Definition getLogsAfterID (lw : LogWatcher) (id : Z) : option (Z * list string) :=
  getEventsAfterID lw id batchSize.
Definition getLogsFromOutdated (lw : LogWatcher) (id : Z) := getEventsFromOutdated lw id batchSize.
Definition getLogsFromLatest (lw : LogWatcher) (id : Z) := getEventsFromLatest lw id batchSize.
Definition getLogsFromElem (elem : list (Z * string)) := getEventsFromElem elem batchSize.
Definition publishLog : LogWatcher -> Listener string -> option (Listener string) := publish batchSize.

(** LogManager: the watcher of each name. *)
Definition LogManager : Type := gmap string LogWatcher.
Definition New : LogManager := ∅.
Definition AddOrUpdate (name : string) (lm : LogManager) : LogManager := <[name := newLogWatcher]> lm.
Definition Delete (name : string) (lm : LogManager) : result unit unit * LogManager :=
  match lm !! name with
  | None => (Err tt, lm)
  | Some _ => (Ok tt, delete name lm)
  end.
Definition get (name : string) (lm : LogManager) : option LogWatcher := lm !! name.
End Logs.

(** ** Properties *)

(** The buffer of a watcher holds exactly the last entries added, up to its size,
    numbered consecutively: adding a history entry by entry gives that buffer, which is
    what the reader sees. *)
Lemma buffer_holds_last {A} (maxSize : nat) (n : Z) (h : list A) :
  0 <= n -> n + Z.of_nat (length h) < 2 ^ 64 ->
  let w := foldl (add (Z.of_nat maxSize)) (mkWatcher n []) h in
  w.(wt_id) = n + Z.of_nat (length h) /\
  w.(wt_list) = drop (length h - maxSize) (numbered n h).
Proof.
  intros Hn Hb. by apply add_all_holds.
Qed.

(** Reading after a number: for every number up to the last one handed out the
    reader does not walk off the list, whichever end it starts from, and gets the next
    kept entries after that number, at most a batch, with the number of the last. *)
Lemma getEventsAfterID_reads {A} (maxSize : nat) (n : Z) (h : list A) (id : Z) (batch : nat) :
  0 <= n -> n + Z.of_nat (length h) < 2 ^ 64 -> 0 <= id <= n + Z.of_nat (length h) -> (0 < batch)%nat ->
  let w := foldl (add (Z.of_nat maxSize)) (mkWatcher n []) h in
  let from := Nat.max (length h - maxSize) (Z.to_nat (id - n)) in
  let events := take batch (drop from h) in
  getEventsAfterID w id batch =
    Some (match events with [] => 0 | _ => n + Z.of_nat from + Z.of_nat (length events) end, events).
Proof.
  intros Hn Hb Hid Hbatch w from events.
  rewrite (getEvents_spec maxSize n h w id batch); [|by apply add_all_holds|done..].
  unfold position. fold from. fold events. clearbody events.
  destruct events; [by rewrite decide_True | by rewrite decide_False].
Qed.

(** Delivery: however additions and rounds interleave, the listener is sent entries
    of the history in order and never twice, and none is lost as long as the history
    fits the buffer: after enough rounds everything added was sent. *)
Lemma listener_delivery {A} (maxSize batch : nat) (n : Z) (os : list (Occurs A)) (r : nat) :
  (0 < batch)%nat -> 0 <= n -> n + Z.of_nat (length (added os)) < 2 ^ 64 ->
  (length (added os) <= r * batch)%nat ->
  exists w l w' l',
    run_ring (Z.of_nat maxSize) batch os (mkWatcher n []) newListener = Some (w, l) /\
    l.(ls_sent) `sublist_of` added os /\
    run_ring (Z.of_nat maxSize) batch (replicate r Round) w l = Some (w', l') /\
    ((length (added os) <= maxSize)%nat -> l'.(ls_sent) = added os).
Proof.
  intros Hb Hn Hbound Hr.
  destruct (run_ring_ok maxSize batch os n [] (mkWatcher n []) newListener) as (w & l & Hrun & Hw & Hl);
    [split; [simpl; lia|done]|split; simpl; [lia|apply sublist_nil_l|by rewrite take_nil]|done..|].
  simpl in Hw, Hl.
  destruct (rounds_drain maxSize batch r n (added os) w l Hw Hl Hb Hn Hbound) as (l' & Hrun' & Hs); [lia|].
  exists w, l, w, l'. split; [done|]. split; [|split; [done|]].
  - destruct Hl as [_ Hsub _]. etrans; [exact Hsub|]. apply sublist_take.
  - intros Hle. rewrite Hs. destruct Hl as [_ _ Hall]. rewrite (Hall Hle). unfold position.
    replace (length (added os) - maxSize)%nat with 0%nat by lia. apply take_drop.
Qed.

Lemma buffer_holds_last_witness :
  (foldl (add 2) (mkWatcher 1 []) ["a"; "b"; "c"]).(wt_list) = [(3, "b"); (4, "c")].
Proof. exact (proj2 (buffer_holds_last 2 1 ["a"; "b"; "c"] ltac:(lia) ltac:(simpl; lia))). Defined.

Lemma getEventsAfterID_reads_witness :
  getEventsAfterID (foldl (add 3) (mkWatcher 1 []) ["a"; "b"; "c"; "d"]) 3 2 = Some (5, ["c"; "d"]).
Proof.
  exact (getEventsAfterID_reads 3 1 ["a"; "b"; "c"; "d"] 3 2 ltac:(lia) ltac:(simpl; lia) ltac:(simpl; lia) ltac:(lia)).
Defined.

Lemma listener_delivery_witness :
  let os := [Added "a"; Round; Added "b"; Added "c"] in
  exists w l w' l', run_ring 8 2 os (mkWatcher 1 []) newListener = Some (w, l) /\
    l.(ls_sent) `sublist_of` added os /\
    run_ring 8 2 (replicate 2 Round) w l = Some (w', l') /\
    ((length (added os) <= 8)%nat -> l'.(ls_sent) = added os).
Proof.
  intros os. apply (listener_delivery 8 2 1 os 2); [lia|lia|simpl; lia|simpl; lia].
Defined.
