(* ===== verification/Alarm.v ===== *)
(** The alarms (pkg/alarm and pkg/types/alarm.go): the cache that numbers, stores and
    keeps the latest alarms, its listeners, and the sources that feed it. *)
From S2P Require Import Prelude KvStore GoStrings.

(** ** Resources *)

(** types.Alarm; the time is an instant and the type one of the two texts below. *)
Record Alarm := mkAlarm {
  al_ID : string; al_UID : Z; al_Time : Z; al_Cluster : string; al_Type : string;
  al_Namespace : string; al_Kind : string; al_Name : string; al_Reason : string;
  al_Message : string; al_Acknowledged : bool
}.

#[export] Instance Alarm_eq_dec : EqDecision Alarm.
Proof. solve_decision. Defined.

Definition EventType : string := "Event".
Definition ZcloudType : string := "Alarm".

(** alarm.New and the setters of AlarmEvent, in one record of what they set. *)
Definition New (now : Z) : Alarm := mkAlarm "" 0 now "" "" "" "" "" "" "" false.
Definition set_Cluster v (a : Alarm) : Alarm :=
  mkAlarm a.(al_ID) a.(al_UID) a.(al_Time) v a.(al_Type) a.(al_Namespace) a.(al_Kind) a.(al_Name)
    a.(al_Reason) a.(al_Message) a.(al_Acknowledged).
Definition set_Type v (a : Alarm) : Alarm :=
  mkAlarm a.(al_ID) a.(al_UID) a.(al_Time) a.(al_Cluster) v a.(al_Namespace) a.(al_Kind) a.(al_Name)
    a.(al_Reason) a.(al_Message) a.(al_Acknowledged).
Definition set_Namespace v (a : Alarm) : Alarm :=
  mkAlarm a.(al_ID) a.(al_UID) a.(al_Time) a.(al_Cluster) a.(al_Type) v a.(al_Kind) a.(al_Name)
    a.(al_Reason) a.(al_Message) a.(al_Acknowledged).
Definition set_Kind v (a : Alarm) : Alarm :=
  mkAlarm a.(al_ID) a.(al_UID) a.(al_Time) a.(al_Cluster) a.(al_Type) a.(al_Namespace) v a.(al_Name)
    a.(al_Reason) a.(al_Message) a.(al_Acknowledged).
Definition set_Name v (a : Alarm) : Alarm :=
  mkAlarm a.(al_ID) a.(al_UID) a.(al_Time) a.(al_Cluster) a.(al_Type) a.(al_Namespace) a.(al_Kind) v
    a.(al_Reason) a.(al_Message) a.(al_Acknowledged).
Definition set_Reason v (a : Alarm) : Alarm :=
  mkAlarm a.(al_ID) a.(al_UID) a.(al_Time) a.(al_Cluster) a.(al_Type) a.(al_Namespace) a.(al_Kind)
    a.(al_Name) v a.(al_Message) a.(al_Acknowledged).
Definition set_Message v (a : Alarm) : Alarm :=
  mkAlarm a.(al_ID) a.(al_UID) a.(al_Time) a.(al_Cluster) a.(al_Type) a.(al_Namespace) a.(al_Kind)
    a.(al_Name) a.(al_Reason) v a.(al_Acknowledged).
Definition set_UID uid (a : Alarm) : Alarm :=
  mkAlarm (Itoa uid) uid a.(al_Time) a.(al_Cluster) a.(al_Type) a.(al_Namespace) a.(al_Kind)
    a.(al_Name) a.(al_Reason) a.(al_Message) a.(al_Acknowledged).
Definition set_Acknowledged v (a : Alarm) : Alarm :=
  mkAlarm a.(al_ID) a.(al_UID) a.(al_Time) a.(al_Cluster) a.(al_Type) a.(al_Namespace) a.(al_Kind)
    a.(al_Name) a.(al_Reason) a.(al_Message) v.

(** Alarms.Less, and sort.Sort on it: the numbers of the sorted alarms differ, so the
    order is the only one. *)
Definition Less (a b : Alarm) : Prop := a.(al_UID) <= b.(al_UID).
#[export] Instance Less_dec a b : Decision (Less a b).
Proof. unfold Less. apply _. Defined.
#[export] Instance Less_total : Total Less.
Proof. intros a b. unfold Less. lia. Qed.
#[export] Instance Less_trans : Transitive Less.
Proof. intros a b c. unfold Less. lia. Qed.
Definition Sort (l : list Alarm) : list Alarm := merge_sort Less l.

(** ** The cache *)

Definition MaxAlarmCount : Z := 1000.
Definition uintToStr (uid : Z) : string := Itoa uid.

Definition isRepeat (lastAlarm newAlarm : Alarm) : bool :=
  String.eqb lastAlarm.(al_Cluster) newAlarm.(al_Cluster) &&
  String.eqb lastAlarm.(al_Namespace) newAlarm.(al_Namespace) &&
  String.eqb lastAlarm.(al_Kind) newAlarm.(al_Kind) &&
  String.eqb lastAlarm.(al_Reason) newAlarm.(al_Reason) &&
  String.eqb lastAlarm.(al_Message) newAlarm.(al_Message) &&
  String.eqb lastAlarm.(al_Name) newAlarm.(al_Name).

Inductive AlarmError := EAlarmTable | EAlarmNotFound | EAlarmPanic.

Section Cache.
Context {DB : Type} `{KvTable DB} `{Json Alarm}.
(** ClusterKinds: the kinds that have no namespace. *)
Definition ClusterKinds : list string :=
  ["Node"; "node"; "Cluster"; "cluster"].

Record AlarmCache := mkCache { ac_table : DB; ac_list : list Alarm; ac_eventID : Z }.
Definition set_table d (c : AlarmCache) := mkCache d c.(ac_list) c.(ac_eventID).
Definition set_list l (c : AlarmCache) := mkCache c.(ac_table) l c.(ac_eventID).
Definition set_eventID e (c : AlarmCache) := mkCache c.(ac_table) c.(ac_list) e.

(** *** table.go *)

Definition addOrUpdateAlarmToDB (alarm : Alarm) (isAdd : bool) : M DB kv_error unit :=
  let! value := lift (of_option KvJson (marshal alarm)) in
  with_tx (if isAdd then tx_add (uintToStr alarm.(al_UID)) value
           else tx_update (uintToStr alarm.(al_UID)) value).

Fixpoint read_alarms (vs : list string) : result kv_error (list Alarm) :=
  match vs with
  | [] => Ok []
  | v :: vs =>
      match unmarshal v with
      | None => Err KvJson
      | Some a => result_bind (read_alarms vs) (fun l => Ok (a :: l))
      end
  end.

Definition getAlarmsFromDB : M DB kv_error (list Alarm) :=
  let! values := with_tx_read tx_list in
  let! alarms := lift (read_alarms (snd <$> map_to_list values)) in
  ret (Sort alarms).

Definition deleteAlarmFromDB (id : string) : M DB kv_error unit := with_tx (tx_delete id).

(** *** alarmcache.go *)

(** NewAlarmCache with initFromDB, on an open table. *)
Definition initFromDB (c : AlarmCache) : result kv_error unit * AlarmCache :=
  match getAlarmsFromDB c.(ac_table) with
  | (Err e, d) => (Err e, set_table d c)
  | (Ok alarms, d) =>
      let l := c.(ac_list) ++ alarms in
      (Ok tt, mkCache d l (match last l with Some a => a.(al_UID) | None => c.(ac_eventID) end))
  end.
Definition NewAlarmCache (table : DB) : result kv_error unit * AlarmCache :=
  initFromDB (mkCache table [] 0).

(** The number of entries deleteoldest drops: the first, and those that follow as long
    as they are not younger than a month. *)
Fixpoint delNum (monthAgo : Z) (rest : list Alarm) : nat :=
  match rest with
  | [] => 1
  | a :: rest => if monthAgo <? a.(al_Time) then 1 else S (delNum monthAgo rest)
  end.

(** The loop: delete the entry of the number [firstID + i], then drop the front. *)
Fixpoint delete_loop (n : nat) (i firstID : Z) (c : AlarmCache) : AlarmCache :=
  match n with
  | O => c
  | S n =>
      match deleteAlarmFromDB (uintToStr (u64_add i firstID)) c.(ac_table) with
      | (Err _, d) => set_table d c
      | (Ok _, d) => delete_loop n (i + 1) firstID (mkCache d (tail c.(ac_list)) c.(ac_eventID))
      end
  end.

Definition deleteoldest (monthAgo : Z) (c : AlarmCache) : AlarmCache :=
  match c.(ac_list) with
  | [] => c
  | first :: rest => delete_loop (delNum monthAgo rest) 0 first.(al_UID) c
  end.

(** The namespace of a cluster-wide kind is dropped. *)
Definition normalize (alarm : Alarm) : Alarm :=
  if decide (alarm.(al_Kind) ∈ ClusterKinds) then set_Namespace "" alarm else alarm.

(** The part of Add under the lock; true when the alarm was kept. *)
Definition Add_locked (monthAgo : Z) (alarm : Alarm) (c : AlarmCache) : bool * AlarmCache :=
  let alarm := normalize alarm in
  if match last c.(ac_list) with Some l => isRepeat l alarm | None => false end then (false, c) else
  let alarm := set_UID (u64_add c.(ac_eventID) 1) alarm in
  match addOrUpdateAlarmToDB alarm true c.(ac_table) with
  | (Err _, d) => (false, set_table d c)
  | (Ok _, d) =>
      let c := set_list (c.(ac_list) ++ [alarm]) (set_table d c) in
      (true, if MaxAlarmCount <? Z.of_nat (length c.(ac_list)) then deleteoldest monthAgo c else c)
  end.

(** The part after the lock is released. *)
Definition Add_after (c : AlarmCache) : AlarmCache := set_eventID (u64_add c.(ac_eventID) 1) c.

Definition Add (monthAgo : Z) (alarm : Alarm) (c : AlarmCache) : AlarmCache :=
  let (kept, c) := Add_locked monthAgo alarm c in
  if kept then Add_after c else c.

(** getAlarmFromList: the search from the nearer end; [None] when the list is empty,
    where the code follows a nil pointer. *)
Fixpoint find_uid (id : Z) (l : list Alarm) : option nat :=
  match l with
  | [] => None
  | a :: l => if a.(al_UID) =? id then Some 0%nat else S <$> find_uid id l
  end.
Definition getAlarmFromOutdated (id : Z) (l : list Alarm) : option nat := find_uid id l.
Definition getAlarmFromLatest (id : Z) (l : list Alarm) : option nat :=
  (fun i => (length l - 1 - i)%nat) <$> find_uid id (reverse l).
Definition getAlarmFromList (id : Z) (l : list Alarm) : option (option nat) :=
  match head l, last l with
  | Some b, Some e =>
      Some (if u64_sub id b.(al_UID) <? u64_sub e.(al_UID) id then getAlarmFromOutdated id l
            else getAlarmFromLatest id l)
  | _, _ => None
  end.

Definition Update (alarm : Alarm) (c : AlarmCache) : result AlarmError unit * AlarmCache :=
  match addOrUpdateAlarmToDB alarm false c.(ac_table) with
  | (Err _, d) => (Err EAlarmTable, set_table d c)
  | (Ok _, d) =>
      let c := set_table d c in
      match getAlarmFromList alarm.(al_UID) c.(ac_list) with
      | None => (Err EAlarmPanic, c)
      | Some None => (Err EAlarmNotFound, c)
      | Some (Some i) => (Ok tt, set_list (alter (set_Acknowledged true) i c.(ac_list)) c)
      end
  end.

(** deleteAlarmForCluster: an entry the table does not delete is kept. *)
Fixpoint delete_cluster_loop (cluster : string) (l : list Alarm) (d : DB) : list Alarm * DB :=
  match l with
  | [] => ([], d)
  | a :: l =>
      if String.eqb a.(al_Cluster) cluster then
        match deleteAlarmFromDB (uintToStr a.(al_UID)) d with
        | (Err _, d) => let (l, d) := delete_cluster_loop cluster l d in (a :: l, d)
        | (Ok _, d) => delete_cluster_loop cluster l d
        end
      else let (l, d) := delete_cluster_loop cluster l d in (a :: l, d)
  end.
Definition deleteAlarmForCluster (cluster : string) (c : AlarmCache) : AlarmCache :=
  let (l, d) := delete_cluster_loop cluster c.(ac_list) c.(ac_table) in
  mkCache d l c.(ac_eventID).

(** getAlarmsAfterID: from the last backwards while the number is greater. *)
Fixpoint take_newer (id : Z) (l : list Alarm) : list Alarm :=
  match l with
  | [] => []
  | a :: l => if id <? a.(al_UID) then a :: take_newer id l else []
  end.
Definition getAlarmsAfterID (id : Z) (c : AlarmCache) : list Alarm :=
  Sort (take_newer id (reverse c.(ac_list))).

Definition getUnAckNumber (c : AlarmCache) : nat :=
  length (filter (fun a => a.(al_Acknowledged) = false) c.(ac_list)).

(** A listener: the number it has read up to, the last count of unacknowledged alarms
    it was sent, and what it was sent. *)
Record AlarmListener := mkAListener { ln_lastID : Z; ln_unAck : nat; ln_sent : list (Alarm + nat) }.

Definition AddListener (c : AlarmCache) : AlarmListener := mkAListener c.(ac_eventID) 0 [].

(** One round of publishEvent and of publishAck. *)
Definition publishEvent (c : AlarmCache) (l : AlarmListener) : AlarmListener :=
  let alarms := getAlarmsAfterID l.(ln_lastID) c in
  match alarms with
  | [] => l
  | _ => mkAListener (u64_add l.(ln_lastID) (Z.of_nat (length alarms))) l.(ln_unAck)
           (l.(ln_sent) ++ (inl <$> alarms))
  end.
Definition publishAck (c : AlarmCache) (l : AlarmListener) : AlarmListener :=
  let num := getUnAckNumber c in
  if Nat.eqb l.(ln_unAck) num then l
  else mkAListener l.(ln_lastID) num (l.(ln_sent) ++ [inr num]).

(** *** alarmmanager.go, zcloudcache.go and eventcache.go *)

(** subscribeAlarmEvent: a published alarm. *)
Definition subscribeAlarmEvent (monthAgo : Z) (alarm : Alarm) (c : AlarmCache) : AlarmCache :=
  Add monthAgo (set_Type ZcloudType alarm) c.

(** A kubernetes event, as far as it is read here. *)
Record K8sEvent := mkK8sEvent {
  ev_LastTimestamp : Z; ev_Component : string; ev_Namespace : string; ev_Kind : string;
  ev_Name : string; ev_Reason : string; ev_Message : string
}.
Definition resourceMonitorSource : string := "resource-monitor".
Definition clusterAgentCollectorSource : string := "cluster-agent-collector".
Definition supportEventSource : list string := [resourceMonitorSource; clusterAgentCollectorSource].
Definition checkEventTypeAndKind (e : K8sEvent) : bool :=
  bool_decide (e.(ev_Component) ∈ supportEventSource).
Definition k8sEventToAlarm (cluster : string) (e : K8sEvent) : Alarm :=
  mkAlarm "" 0 e.(ev_LastTimestamp) cluster
    (if String.eqb e.(ev_Component) clusterAgentCollectorSource then ZcloudType
     else if String.eqb e.(ev_Component) resourceMonitorSource then EventType else "")
    e.(ev_Namespace) e.(ev_Kind) e.(ev_Name) e.(ev_Reason) e.(ev_Message) false.

(** EventCache.OnCreate and OnUpdate: events from before the start are ignored. *)
Definition OnEvent (monthAgo startTime : Z) (cluster : string) (e : K8sEvent) (c : AlarmCache) : AlarmCache :=
  if (startTime <? e.(ev_LastTimestamp)) && checkEventTypeAndKind e
  then Add monthAgo (k8sEventToAlarm cluster e) c else c.

(** AlarmManager: the clusters with an event cache, with its start time. *)
Record AlarmManager := mkAlarmManager { am_cache : AlarmCache; am_clusters : gmap string Z }.
Inductive ClusterEvent := CCreated (cluster : string) (now : Z) | CDeleted (cluster : string).
Definition eventLoop_step (m : AlarmManager) (e : ClusterEvent) : AlarmManager :=
  match e with
  | CCreated cluster now => mkAlarmManager m.(am_cache) (<[cluster := now]> m.(am_clusters))
  | CDeleted cluster =>
      mkAlarmManager (deleteAlarmForCluster cluster m.(am_cache)) (delete cluster m.(am_clusters))
  end.

(** AlarmManager.List, latest first. *)
Definition List (m : AlarmManager) : list Alarm := reverse m.(am_cache).(ac_list).
End Cache.
Arguments AlarmCache : clear implicits.

(** ** Invariants *)

Section Invariants.
Context {DB : Type} `{KvTable DB} `{Json Alarm} `{!KvLaws DB} `{!JsonLaws Alarm}.
Local Abbreviation Cache := (AlarmCache DB).

Definition uids (l : list Alarm) : list Z := al_UID <$> l.

(** What a table of alarms stores: under a number, an alarm of that number. *)
Definition stored_ok (m : gmap string string) : Prop :=
  forall k v, m !! k = Some v ->
    exists a, unmarshal v = Some a /\ uintToStr a.(al_UID) = k /\ 0 < a.(al_UID) < 2 ^ 64.

(** The list and the table hold the same numbers, which increase along the list and
    lie between 1 and [e]. *)
Record alarms_ok (e : Z) (m : gmap string string) (l : list Alarm) : Prop := {
  ao_sorted : StronglySorted Z.lt (uids l);
  ao_range u : u ∈ uids l -> 0 < u <= e;
  ao_keys k : is_Some (m !! k) <-> k ∈ uintToStr <$> uids l;
  ao_stored : stored_ok m
}.

Definition alarm_inv (c : Cache) : Prop :=
  0 <= c.(ac_eventID) < 2 ^ 64 /\ alarms_ok c.(ac_eventID) (kv_content c.(ac_table)) c.(ac_list).

(** No number is missing between the kept alarms and the last number handed out. *)
Definition contiguous_to (e : Z) (l : list Alarm) : Prop :=
  uids l = seqZ (e - Z.of_nat (length l) + 1) (Z.of_nat (length l)).
Definition contiguous (c : Cache) : Prop := contiguous_to c.(ac_eventID) c.(ac_list).

Lemma uintToStr_inj : Inj (=) (=) uintToStr.
Proof. intros a b. apply Itoa_inj. Qed.

Lemma addOrUpdate_effect alarm isAdd (d d' : DB) r :
  addOrUpdateAlarmToDB alarm isAdd d = (r, d') ->
  match r with
  | Ok _ => exists v, marshal alarm = Some v /\
      kv_content d' = <[uintToStr alarm.(al_UID) := v]> (kv_content d) /\
      (if isAdd then kv_content d !! uintToStr alarm.(al_UID) = None
       else is_Some (kv_content d !! uintToStr alarm.(al_UID)))
  | Err _ => kv_content d' = kv_content d
  end.
Proof.
  unfold addOrUpdateAlarmToDB, bind, lift. destruct (marshal alarm) as [v|]; simpl.
  - destruct isAdd; intros Hr; [apply with_tx_add in Hr|apply with_tx_update in Hr]; destruct r; naive_solver.
  - intros. by simplify_eq.
Qed.

Lemma alarms_ok_table e m l (d d' : DB) :
  kv_content d = m -> kv_content d' = kv_content d -> alarms_ok e m l -> alarms_ok e (kv_content d') l.
Proof. intros <- ->. done. Qed.

Lemma stored_ok_insert m a v :
  stored_ok m -> marshal a = Some v -> 0 < a.(al_UID) < 2 ^ 64 -> stored_ok (<[uintToStr a.(al_UID) := v]> m).
Proof.
  intros Hm Hv Ha k w. destruct (decide (uintToStr (al_UID a) = k)) as [<-|Hne].
  - rewrite lookup_insert_eq. intros [= <-]. exists a. split; [by apply json_round_trip|done].
  - rewrite lookup_insert_ne by done. apply Hm.
Qed.

Lemma stored_ok_delete m k : stored_ok m -> stored_ok (delete k m).
Proof. intros Hm k' v Hk. apply lookup_delete_Some in Hk as [_ Hk]. by apply (Hm k' v). Qed.

(** A new alarm at the end. *)
Lemma alarms_ok_snoc e m l a v :
  alarms_ok e m l -> 0 <= e -> e + 1 < 2 ^ 64 -> marshal a = Some v -> a.(al_UID) = e + 1 ->
  alarms_ok (e + 1) (<[uintToStr a.(al_UID) := v]> m) (l ++ [a]).
Proof.
  intros [Hs Hr Hk Hst] He Hb Hv Ha. unfold uids in *. split.
  - unfold uids. rewrite fmap_app. apply StronglySorted_app. split; [|split; [done|repeat constructor]].
    simpl. intros x1 x2 H1 ->%list_elem_of_singleton. apply Hr in H1. lia.
  - intros u. unfold uids. rewrite fmap_app, elem_of_app. intros [Hu|Hu].
    + apply Hr in Hu. lia.
    + apply list_elem_of_singleton in Hu. lia.
  - intros k. unfold uids. rewrite !fmap_app, elem_of_app, lookup_insert_is_Some. simpl.
    rewrite list_elem_of_singleton, Hk. destruct (decide (uintToStr (al_UID a) = k)); naive_solver.
  - apply stored_ok_insert; [done|done|lia].
Qed.

(** The first alarm goes from both. *)
Lemma alarms_ok_tail e m a l :
  alarms_ok e m (a :: l) -> alarms_ok e (delete (uintToStr a.(al_UID)) m) l.
Proof.
  intros [Hs Hr Hk Hst]. unfold uids in *. apply StronglySorted_inv in Hs as [Hs Ha]. split.
  - done.
  - intros u Hu. apply Hr. by right.
  - intros k. rewrite lookup_delete_is_Some, Hk. simpl. rewrite elem_of_cons. split; [naive_solver|].
    intros Hin. split; [|by right]. intros <-. apply list_elem_of_fmap in Hin as (u & Heq & Hu).
    apply uintToStr_inj in Heq. subst u. rewrite Forall_forall in Ha. specialize (Ha _ Hu). lia.
  - by apply stored_ok_delete.
Qed.

Lemma StronglySorted_remove (u v : list Z) (x : Z) :
  StronglySorted Z.lt (u ++ x :: v) -> StronglySorted Z.lt (u ++ v) /\ x ∉ u ++ v.
Proof.
  rewrite !StronglySorted_app. intros (Huv & Hu & Hxv). apply StronglySorted_inv in Hxv as [Hv Hx].
  rewrite Forall_forall in Hx. split.
  - split; [|done]. intros a b Ha Hb. apply Huv; [done|by right].
  - rewrite elem_of_app. intros [Hin|Hin].
    + specialize (Huv x x Hin ltac:(left)). lia.
    + specialize (Hx x Hin). lia.
Qed.

(** One alarm goes from both. *)
Lemma alarms_ok_middle e m pre a l :
  alarms_ok e m (pre ++ a :: l) -> alarms_ok e (delete (uintToStr a.(al_UID)) m) (pre ++ l).
Proof.
  intros [Hs Hr Hk Hst]. unfold uids in *. rewrite !fmap_app in *. simpl in *.
  apply StronglySorted_remove in Hs as [Hs Ha]. split; unfold uids; rewrite ?fmap_app.
  - done.
  - intros u Hu. apply Hr. rewrite elem_of_app in *. rewrite elem_of_cons. tauto.
  - intros k. rewrite lookup_delete_is_Some, Hk, ?fmap_app, !elem_of_app, elem_of_cons.
    split; [intros [Hne [Hk'|[Hk'|Hk']]]; [by left|by destruct Hne|by right]|].
    intros Hin. split; [|tauto]. intros <-. apply Ha. rewrite elem_of_app.
    destruct Hin as [Hin|Hin]; apply list_elem_of_fmap in Hin as (u & Heq%uintToStr_inj & Hu); subst; auto.
  - by apply stored_ok_delete.
Qed.

Lemma seqZ_cons_inv u n (x : Z) xs : x :: xs = seqZ u n -> x = u /\ xs = seqZ (u + 1) (Z.of_nat (length xs)).
Proof.
  intros Heq. assert (0 < n) as Hn.
  { destruct (decide (n <= 0)); [|lia]. rewrite seqZ_nil in Heq by done. done. }
  rewrite seqZ_cons in Heq by done. injection Heq as -> ->. split; [done|].
  rewrite length_seqZ. f_equal; lia.
Qed.

(** The table did not delete the entry of the alarm at [k], and that was the end of it. *)
Definition refused (k : nat) (l : list Alarm) (d : DB) : Prop :=
  exists b d0 er, l !! k = Some b /\ deleteAlarmFromDB (uintToStr b.(al_UID)) d0 = (Err er, d).
(** The entries of these alarms are gone. *)
Definition without (l : list Alarm) (m : gmap string string) : gmap string string := foldl (fun m b => delete (uintToStr b.(al_UID)) m) m l.
(** The first [k] alarms went, from the list and from the table: [n] of them, or fewer when the
    table refused to delete the next. *)
Definition dropped (n k : nat) (c c' : Cache) : Prop :=
  (k <= n)%nat /\ c'.(ac_list) = drop k c.(ac_list) /\ c'.(ac_eventID) = c.(ac_eventID) /\
  kv_content c'.(ac_table) = without (take k c.(ac_list)) (kv_content c.(ac_table)) /\
  (k = n \/ refused k c.(ac_list) c'.(ac_table)).

Lemma delete_loop_ok n i first (c : Cache) e :
  alarms_ok e (kv_content c.(ac_table)) c.(ac_list) -> e < 2 ^ 64 ->
  uids c.(ac_list) = seqZ (i + first) (Z.of_nat (length c.(ac_list))) -> (n <= length c.(ac_list))%nat ->
  0 <= i -> 0 <= first ->
  exists k, dropped n k c (delete_loop n i first c) /\
    alarms_ok e (kv_content (delete_loop n i first c).(ac_table)) (delete_loop n i first c).(ac_list).
Proof.
  unfold dropped. revert i c. induction n as [|n IH]; intros i c Hok He Hu Hn Hi Hf; simpl.
  { exists 0%nat. rewrite take_0. auto 10. }
  destruct (ac_list c) as [|a l] eqn:Hl; [simpl in Hn; lia|].
  assert (Hua : al_UID a = i + first /\ uids l = seqZ (i + first + 1) (Z.of_nat (length (uids l)))).
  { apply (seqZ_cons_inv _ _ _ _ Hu). }
  destruct Hua as [Ha Hul].
  assert (Hrange : 0 < al_UID a <= e) by (apply (ao_range _ _ _ Hok); left).
  unfold u64_add. rewrite u64_small by lia.
  destruct (deleteAlarmFromDB (uintToStr (i + first)) (ac_table c)) as [[[]|er] d] eqn:Hd.
  - apply with_tx_delete in Hd. specialize (IH (i + 1) (mkCache d l (ac_eventID c))). simpl in IH.
    destruct IH as (k & (Hk & Hlist & Hev & Hm & Hend) & Hok').
    + rewrite Hd, <- Ha. by apply alarms_ok_tail.
    + done.
    + rewrite Hul. unfold uids. rewrite length_fmap. f_equal. lia.
    + simpl in Hn. lia.
    + lia.
    + done.
    + exists (S k). split; [|done]. split; [lia|]. split; [done|]. split; [done|].
      split; [simpl; etransitivity; [exact Hm|by rewrite Hd, <- Ha]|]. destruct Hend as [->|Hend]; [by left|by right].
  - exists 0%nat. simpl. split; [|apply with_tx_delete in Hd; by rewrite Hd, Hl]. split; [lia|]. split; [done|]. split; [done|].
    split; [by apply with_tx_delete in Hd|]. right. exists a, (ac_table c), er. by rewrite Ha.
Qed.

(** The number of alarms that are to go: the first, and those that follow as long as they are
    not younger than a month. *)
Definition outdated (monthAgo : Z) (all : list Alarm) (n : nat) : Prop :=
  (1 <= n <= length all)%nat /\ (forall i b, (1 <= i < n)%nat -> all !! i = Some b -> b.(al_Time) <= monthAgo) /\
  (forall b, all !! n = Some b -> monthAgo < b.(al_Time)).
Lemma delNum_outdated monthAgo a rest : outdated monthAgo (a :: rest) (delNum monthAgo rest).
Proof.
  revert a. induction rest as [|b rest IH]; intros a; simpl.
  { split; [simpl; lia|]. split; [lia|done]. }
  destruct (Z.ltb_spec monthAgo (al_Time b)) as [Hlt|Hge].
  { split; [simpl; lia|]. split; [lia|]. intros c [= <-]. done. }
  destruct (IH b) as (Hn & Hold & Hnew). split; [simpl in *; lia|]. split; [|done].
  intros [|[|i]] c Hi Hc; [lia|simpl in Hc; by injection Hc as <-|]. apply (Hold (S i) c); [lia|done].
Qed.

Lemma deleteoldest_ok monthAgo (c : Cache) e :
  alarms_ok e (kv_content c.(ac_table)) c.(ac_list) -> e < 2 ^ 64 -> contiguous_to e c.(ac_list) -> c.(ac_list) <> [] ->
  (exists n k, outdated monthAgo c.(ac_list) n /\ dropped n k c (deleteoldest monthAgo c)) /\
  alarms_ok e (kv_content (deleteoldest monthAgo c).(ac_table)) (deleteoldest monthAgo c).(ac_list).
Proof.
  intros Hok He Hc Hne. unfold deleteoldest. destruct (ac_list c) as [|a l] eqn:Hl; [done|].
  pose proof (delNum_outdated monthAgo a l) as Hout.
  destruct (delete_loop_ok (delNum monthAgo l) 0 (al_UID a) c e) as (k & Hk & Hok'); rewrite ?Hl; try done.
  - unfold contiguous_to in Hc. simpl. unfold uids in *. simpl in *.
    destruct (seqZ_cons_inv _ _ _ _ Hc) as [Ha _]. by rewrite Ha at 2.
  - apply Hout.
  - destruct (ao_range _ _ _ Hok (al_UID a)); [left|lia].
  - split; [|done]. by exists (delNum monthAgo l), k.
Qed.

Lemma contiguous_drop e l k : contiguous_to e l -> contiguous_to e (drop k l).
Proof.
  unfold contiguous_to, uids. intros Hc. rewrite fmap_drop, Hc, length_drop.
  destruct (decide (k <= length l)%nat) as [Hk|Hk].
  - apply list_eq. intros i. rewrite lookup_drop. destruct (decide (k + i < length l)%nat).
    + rewrite !lookup_seqZ_lt by lia. f_equal. lia.
    + rewrite !lookup_seqZ_ge by lia. done.
  - rewrite drop_ge by (rewrite length_seqZ; lia). rewrite seqZ_nil; [done|lia].
Qed.

Lemma contiguous_snoc e l a :
  contiguous_to e l -> a.(al_UID) = e + 1 -> contiguous_to (e + 1) (l ++ [a]).
Proof.
  unfold contiguous_to, uids. intros Hc Ha. rewrite fmap_app, Hc, length_app. simpl. rewrite Ha.
  replace (Z.of_nat (length l + 1)) with (Z.of_nat (length l) + 1) by lia.
  rewrite seqZ_app by lia. f_equal; [f_equal; lia|]. rewrite seqZ_cons by lia. rewrite seqZ_nil by lia.
  f_equal. lia.
Qed.

(** The last alarm is of the same cluster and object and for the same reason. *)
Definition repeats (l : list Alarm) (a : Alarm) : Prop :=
  exists b, last l = Some b /\ b.(al_Cluster) = a.(al_Cluster) /\ b.(al_Namespace) = a.(al_Namespace) /\ b.(al_Kind) = a.(al_Kind) /\
    b.(al_Reason) = a.(al_Reason) /\ b.(al_Message) = a.(al_Message) /\ b.(al_Name) = a.(al_Name).
Lemma isRepeat_last l a : match last l with Some b => isRepeat b a | None => false end = true <-> repeats l a.
Proof.
  unfold repeats, isRepeat. destruct (last l) as [b|]; [|split; [done|intros (? & ? & _); done]].
  rewrite !andb_true_iff, !String.eqb_eq. split; [intros; exists b; tauto|intros (? & [= <-] & ?); tauto].
Qed.
(** [a] comes last; when that makes too many, the oldest go. *)
Definition kept_last (monthAgo : Z) (a : Alarm) (c c' : Cache) : Prop :=
  exists v d, marshal a = Some v /\ addOrUpdateAlarmToDB a true c.(ac_table) = (Ok tt, d) /\
    kv_content d = <[uintToStr a.(al_UID) := v]> (kv_content c.(ac_table)) /\
    let all := c.(ac_list) ++ [a] in
    if Z.of_nat (length c.(ac_list)) <? MaxAlarmCount then c'.(ac_list) = all /\ c'.(ac_table) = d
    else exists n k, outdated monthAgo all n /\ (k <= n)%nat /\ c'.(ac_list) = drop k all /\
           kv_content c'.(ac_table) = without (take k all) (kv_content d) /\ (k = n \/ refused k all c'.(ac_table)).

(** What the locked part of Add does. *)
Lemma Add_locked_ok monthAgo alarm (c : Cache) :
  alarm_inv c -> c.(ac_eventID) + 1 < 2 ^ 64 ->
  contiguous c \/ Z.of_nat (length c.(ac_list)) < MaxAlarmCount ->
  let e := c.(ac_eventID) in
  let (kept, c') := Add_locked monthAgo alarm c in
  c'.(ac_eventID) = e /\
  if kept then
    ~ repeats c.(ac_list) (normalize alarm) /\
    alarms_ok (e + 1) (kv_content c'.(ac_table)) c'.(ac_list) /\
    kept_last monthAgo (set_UID (e + 1) (normalize alarm)) c c' /\
    (contiguous c -> contiguous_to (e + 1) c'.(ac_list))
  else c'.(ac_list) = c.(ac_list) /\ kv_content c'.(ac_table) = kv_content c.(ac_table) /\
    (repeats c.(ac_list) (normalize alarm) /\ c' = c \/
     ~ repeats c.(ac_list) (normalize alarm) /\
     exists er, addOrUpdateAlarmToDB (set_UID (e + 1) (normalize alarm)) true c.(ac_table) = (Err er, c'.(ac_table))).
Proof.
  intros [He Hok] Hb Hor e. unfold Add_locked.
  pose proof (isRepeat_last (ac_list c) (normalize alarm)) as Hrep.
  set (a0 := normalize alarm) in *. destruct (match last _ with Some _ => _ | None => _ end).
  { split; [done|]. split; [done|]. split; [done|]. left. by split; [apply Hrep|]. }
  assert (Hnot : ~ repeats (ac_list c) a0) by (intros Hr; by apply Hrep in Hr). clear Hrep.
  unfold u64_add. rewrite u64_small by lia. fold e. set (a := set_UID (e + 1) a0).
  destruct (addOrUpdateAlarmToDB a true (ac_table c)) as [[[]|er] d] eqn:Hadd; pose proof Hadd as Hd; apply addOrUpdate_effect in Hd;
    [|split; [done|]; split; [done|]; split; [done|]; right; split; [done|by exists er]].
  destruct Hd as (v & Hv & Hd & _).
  set (c1 := set_list (ac_list c ++ [a]) (set_table d c)).
  assert (Hok1 : alarms_ok (e + 1) (kv_content c1.(ac_table)) c1.(ac_list)).
  { simpl. rewrite Hd. apply alarms_ok_snoc; [done|unfold e; lia|done|done|done]. }
  assert (Hlen : Z.of_nat (length (ac_list c1)) = Z.of_nat (length (ac_list c)) + 1) by (simpl; rewrite length_app; simpl; lia).
  unfold kept_last. destruct (Z.ltb_spec MaxAlarmCount (Z.of_nat (length (ac_list c1)))) as [Hlt|Hge].
  - assert (Hc : contiguous c) by (destruct Hor; [done|lia]). apply contiguous_snoc with (a := a) in Hc as Hc1; [|done].
    destruct (deleteoldest_ok monthAgo c1 (e + 1) Hok1 Hb Hc1) as ((n & k & Hn & Hk & Hl & Hev & Hm & Hend) & Hok'); [simpl; by destruct (ac_list c)|].
    split; [done|]. split; [done|]. split; [done|]. split; [|intros _; rewrite Hl; by apply contiguous_drop].
    exists v, d. split; [done|]. split; [done|]. split; [done|]. destruct (Z.ltb_spec (Z.of_nat (length (ac_list c))) MaxAlarmCount); [lia|].
    by exists n, k.
  - split; [done|]. split; [done|]. split; [done|]. split; [|intros Hc; by apply contiguous_snoc].
    exists v, d. split; [done|]. split; [done|]. split; [done|]. destruct (Z.ltb_spec (Z.of_nat (length (ac_list c))) MaxAlarmCount); [done|lia].
Qed.

Lemma find_uid_spec id l i : find_uid id l = Some i -> exists a, l !! i = Some a /\ a.(al_UID) = id.
Proof.
  revert i. induction l as [|a l IH]; intros i; simpl; [done|].
  destruct (Z.eqb_spec (al_UID a) id) as [He|Hne].
  - intros [= <-]. by exists a.
  - destruct (find_uid id l) as [j|]; simpl; [|done]. intros [= <-]. by apply IH.
Qed.

Lemma find_uid_some id l : id ∈ uids l -> is_Some (find_uid id l).
Proof.
  induction l as [|a l IH]; simpl; [set_solver|]. intros Hin.
  destruct (Z.eqb_spec (al_UID a) id) as [He|Hne]; [by eexists|].
  apply elem_of_cons in Hin as [Hin|Hin]; [done|]. destruct (IH Hin) as [j ->]. by eexists.
Qed.

Lemma getAlarmFromList_spec id l :
  id ∈ uids l -> exists i a, getAlarmFromList id l = Some (Some i) /\ l !! i = Some a /\ a.(al_UID) = id.
Proof.
  intros Hin. unfold getAlarmFromList.
  assert (exists b, head l = Some b) as [b ->] by (destruct l; [set_solver|by eexists]).
  assert (exists e, last l = Some e) as [e ->].
  { destruct (last l) eqn:E; [by eexists|]. apply last_None in E. subst. set_solver. }
  destruct (_ <? _).
  - destruct (find_uid_some id l Hin) as [i Hi]. destruct (find_uid_spec _ _ _ Hi) as (a & Ha & Hu).
    exists i, a. unfold getAlarmFromOutdated. by rewrite Hi.
  - assert (id ∈ uids (reverse l)) as Hr by (unfold uids in *; rewrite fmap_reverse; by rewrite elem_of_reverse).
    destruct (find_uid_some id _ Hr) as [i Hi]. destruct (find_uid_spec _ _ _ Hi) as (a & Ha & Hu).
    exists (length l - 1 - i)%nat, a. unfold getAlarmFromLatest. rewrite Hi. simpl. split; [done|].
    split; [|done]. apply lookup_lt_Some in Ha as Hlt. rewrite length_reverse in Hlt.
    rewrite reverse_lookup in Ha by done. rewrite <- Ha. f_equal. lia.
Qed.

Lemma uids_alter f i l : (forall a, al_UID (f a) = al_UID a) -> uids (alter f i l) = uids l.
Proof.
  intros Hf. unfold uids. apply list_eq. intros j. rewrite !list_lookup_fmap.
  destruct (decide (i = j)) as [<-|Hne].
  - rewrite list_lookup_alter_eq. destruct (l !! i); simpl; [by rewrite Hf|done].
  - by rewrite list_lookup_alter_ne.
Qed.

Lemma alarms_ok_mono e e' m l : e <= e' -> alarms_ok e m l -> alarms_ok e' m l.
Proof. intros Hle [Hs Hr Hk Hst]. split; try done. intros u Hu. apply Hr in Hu. lia. Qed.

(** The list is not longer than before, or not longer than its bound, unless the table refused to
    delete the oldest. *)
Lemma kept_last_bounded monthAgo a (c c' : Cache) :
  kept_last monthAgo a c c' ->
  Z.of_nat (length c'.(ac_list)) <= MaxAlarmCount `max` Z.of_nat (length c.(ac_list)) \/
  exists k, refused k (c.(ac_list) ++ [a]) c'.(ac_table).
Proof.
  intros (v & d & _ & _ & _ & Hk). destruct (Z.ltb_spec (Z.of_nat (length (ac_list c))) MaxAlarmCount) as [Hlt|Hge].
  - left. destruct Hk as [-> _]. rewrite length_app. simpl. lia.
  - destruct Hk as (n & k & (Hn & _) & _ & Hl & _ & [->|Hr]); [left|eauto]. rewrite Hl, length_drop, length_app in *. simpl in *. lia.
Qed.

(** C14. Adding an alarm keeps the cache and its table in step, with increasing numbers, as long
    as no number is missing or the cache is not full.  A repetition of the last alarm changes
    nothing, and neither does an alarm that the table refuses; any other is kept, last, in the
    list and in the table under the next number.  When the list was full, the oldest go from
    both: the first, and those after it that are a month old; fewer only when the table refuses
    to delete one of them.  So the list grows beyond its bound only by such a refusal. *)
Theorem Add_keeps monthAgo alarm (c : Cache) :
  alarm_inv c -> c.(ac_eventID) + 1 < 2 ^ 64 ->
  contiguous c \/ Z.of_nat (length c.(ac_list)) < MaxAlarmCount ->
  let a := set_UID (c.(ac_eventID) + 1) (normalize alarm) in
  let c' := Add monthAgo alarm c in
  alarm_inv c' /\ (contiguous c -> contiguous c') /\
  (repeats c.(ac_list) (normalize alarm) -> c' = c) /\
  (~ repeats c.(ac_list) (normalize alarm) ->
     (exists er, addOrUpdateAlarmToDB a true c.(ac_table) = (Err er, c'.(ac_table))) /\
     c'.(ac_list) = c.(ac_list) /\ c'.(ac_eventID) = c.(ac_eventID) /\ kv_content c'.(ac_table) = kv_content c.(ac_table) \/
     c'.(ac_eventID) = c.(ac_eventID) + 1 /\ kept_last monthAgo a c c') /\
  (Z.of_nat (length c'.(ac_list)) <= MaxAlarmCount `max` Z.of_nat (length c.(ac_list)) \/
   exists k, refused k (c.(ac_list) ++ [a]) c'.(ac_table)).
Proof.
  intros Hinv Hb Hor a c'. pose proof (Add_locked_ok monthAgo alarm c Hinv Hb Hor) as Hadd.
  unfold c', Add. destruct (Add_locked monthAgo alarm c) as [kept c1]. destruct Hinv as [He Hok].
  destruct Hadd as [Hev Hadd]. destruct kept.
  - destruct Hadd as (Hnot & Hok1 & Hk & Hc). unfold Add_after, alarm_inv, contiguous. simpl.
    unfold u64_add. rewrite Hev, u64_small by lia. split; [split; [lia|done]|]. split; [done|]. split; [done|].
    split; [intros _; by right|by apply (kept_last_bounded monthAgo)].
  - destruct Hadd as (Hl & Hd & Hw). unfold alarm_inv, contiguous. rewrite Hl, Hd, Hev. split; [done|]. split; [done|].
    destruct Hw as [[Hr ->]|[Hn Hr]]; (split; [done|]); (split; [intros Hn'; (done || by left)|left; lia]).
Qed.

(** Acknowledging an alarm that the table knows always succeeds: the search from
    either end of the list finds the alarm of that number, and only that alarm changes;
    a failing table changes nothing. *)
Lemma Update_finds alarm (c c' : Cache) r :
  alarm_inv c -> 0 < alarm.(al_UID) < 2 ^ 64 -> Update alarm c = (r, c') ->
  alarm_inv c' /\
  match r with
  | Ok _ => exists i a, c.(ac_list) !! i = Some a /\ a.(al_UID) = alarm.(al_UID) /\
              c'.(ac_list) = alter (set_Acknowledged true) i c.(ac_list)
  | Err e => e = EAlarmTable /\ c'.(ac_list) = c.(ac_list)
  end.
Proof.
  intros [He Hok] Huid. unfold Update.
  destruct (addOrUpdateAlarmToDB alarm false (ac_table c)) as [[[]|er] d] eqn:Hd; apply addOrUpdate_effect in Hd.
  - destruct Hd as (v & Hv & Hd & Hin). simpl.
    assert (Hu : al_UID alarm ∈ uids (ac_list c)).
    { apply (ao_keys _ _ _ Hok) in Hin. apply list_elem_of_fmap in Hin as (u & Hu & Hin).
      apply uintToStr_inj in Hu. by subst. }
    destruct (getAlarmFromList_spec _ _ Hu) as (i & a & -> & Ha & Hau). intros. simplify_eq.
    split; [|by exists i, a]. split; [done|]. simpl. rewrite Hd. destruct Hok as [Hs Hr Hk Hst].
    assert (Hsame : uids (alter (set_Acknowledged true) i (ac_list c)) = uids (ac_list c))
      by by apply uids_alter.
    split; rewrite ?Hsame; try done.
    + intros k. rewrite lookup_insert_is_Some, Hk. split; [|destruct (decide (uintToStr (al_UID alarm) = k)); naive_solver].
      intros [<-|[_ ?]]; [|done]. apply list_elem_of_fmap. by exists (al_UID alarm).
    + by apply stored_ok_insert.
  - intros. simplify_eq. split; [|done]. split; [done|]. simpl. by rewrite Hd.
Qed.

(** A sublist of the list, with a table of its numbers. *)
Lemma delete_cluster_loop_ok cluster l (d : DB) (pre : list Alarm) e l' d' :
  alarms_ok e (kv_content d) (pre ++ l) -> delete_cluster_loop cluster l d = (l', d') ->
  alarms_ok e (kv_content d') (pre ++ l') /\
  (forall a, a ∈ l -> a.(al_Cluster) <> cluster -> a ∈ l') /\ l' `sublist_of` l.
Proof.
  revert d pre l' d'. induction l as [|a l IH]; intros d pre l' d' Hok Hrun; simpl in Hrun.
  { simplify_eq. split; [done|]. split; [done|done]. }
  assert (Hkeep : forall d1 l1 d2, kv_content d1 = kv_content d ->
    delete_cluster_loop cluster l d1 = (l1, d2) ->
    alarms_ok e (kv_content d2) (pre ++ a :: l1) /\
    (forall b, b ∈ a :: l -> b.(al_Cluster) <> cluster -> b ∈ a :: l1) /\ (a :: l1) `sublist_of` (a :: l)).
  { intros d1 l1 d2 Hd1 Hr. destruct (IH d1 (pre ++ [a]) l1 d2) as (Hok' & Hin & Hsub); [|done|].
    - rewrite Hd1, <- app_assoc. done.
    - rewrite <- app_assoc in Hok'. split; [done|]. split; [set_solver|by constructor]. }
  destruct (String.eqb_spec (al_Cluster a) cluster) as [Hcl|Hcl].
  - destruct (deleteAlarmFromDB (uintToStr (al_UID a)) d) as [[[]|er] d1] eqn:Hd; apply with_tx_delete in Hd.
    + destruct (IH d1 pre l' d') as (Hok' & Hin & Hsub); [|done|].
      * rewrite Hd. by apply alarms_ok_middle.
      * split; [done|]. split; [set_solver|by constructor].
    + destruct (delete_cluster_loop cluster l d1) as [l1 d2] eqn:Hr. simplify_eq. by eapply Hkeep.
  - destruct (delete_cluster_loop cluster l d) as [l1 d2] eqn:Hr. simplify_eq. by eapply Hkeep.
Qed.

(** Deleting the alarms of a cluster keeps the cache and its table in step whatever
    calls on the table fail, removes nothing of another cluster and reorders nothing. *)
Lemma deleteAlarmForCluster_keeps cluster (c : Cache) :
  alarm_inv c ->
  let c' := deleteAlarmForCluster cluster c in
  alarm_inv c' /\ c'.(ac_list) `sublist_of` c.(ac_list) /\
  forall a, a ∈ c.(ac_list) -> a.(al_Cluster) <> cluster -> a ∈ c'.(ac_list).
Proof.
  intros [He Hok] c'. unfold c', deleteAlarmForCluster, alarm_inv.
  destruct (delete_cluster_loop cluster (ac_list c) (ac_table c)) as [l' d'] eqn:Hr.
  destruct (delete_cluster_loop_ok _ _ _ [] _ _ _ Hok Hr) as (Hok' & Hin & Hsub). simpl in *. auto.
Qed.

(** *** Sorting and reading *)

(** In a sorted list distinct elements have distinct numbers. *)
Lemma sorted_uid_inj l a b :
  StronglySorted Z.lt (uids l) -> a ∈ l -> b ∈ l -> a.(al_UID) = b.(al_UID) -> a = b.
Proof.
  intros Hs Ha Hb Heq. apply list_elem_of_lookup in Ha as [i Hi], Hb as [j Hj].
  enough (i = j) as -> by congruence. eapply (NoDup_lookup (uids l)).
  - clear -Hs. induction (uids l) as [|x xs IH]; [constructor|]. apply StronglySorted_inv in Hs as [Hs Hx].
    constructor; [|auto]. intros Hin. rewrite Forall_forall in Hx. specialize (Hx _ Hin). lia.
  - unfold uids. rewrite list_lookup_fmap, Hi. done.
  - unfold uids. rewrite list_lookup_fmap, Hj. simpl. by rewrite Heq.
Qed.

Lemma sorted_lt_le l : StronglySorted Z.lt (uids l) -> StronglySorted Less l.
Proof.
  unfold uids. induction l as [|a l IH]; intros Hs; [constructor|]. rewrite fmap_cons in Hs.
  apply StronglySorted_inv in Hs as [Hs Ha]. constructor; [auto|].
  rewrite Forall_forall in Ha. rewrite Forall_forall. intros b Hb.
  assert (Hab : al_UID a < al_UID b) by (apply Ha, list_elem_of_fmap_2, Hb). unfold Less. lia.
Qed.

(** Sorting a rearrangement of a sorted list gives the sorted list. *)
Lemma Sort_perm l l' : StronglySorted Z.lt (uids l) -> l' ≡ₚ l -> Sort l' = l.
Proof.
  intros Hs Hp. unfold Sort. apply (StronglySorted_unique_strong Less).
  - intros a b Ha Hb Hab Hba. apply (sorted_uid_inj l); [done| |done|].
    + rewrite merge_sort_Permutation, Hp in Ha. done.
    + unfold Less in *. lia.
  - apply StronglySorted_merge_sort; apply _.
  - by apply sorted_lt_le.
  - by rewrite merge_sort_Permutation.
Qed.

Lemma sorted_filter l id : StronglySorted Z.lt (uids l) -> StronglySorted Z.lt (uids (filter (fun a => id < a.(al_UID)) l)).
Proof.
  unfold uids. induction l as [|a l IH]; intros Hs; [constructor|].
  rewrite fmap_cons in Hs. apply StronglySorted_inv in Hs as [Hs Ha].
  rewrite filter_cons. case_decide; [|auto]. simpl. constructor; [auto|].
  rewrite Forall_forall in Ha. rewrite Forall_forall. intros u Hu. apply Ha. apply list_elem_of_fmap in Hu as (b & -> & Hb).
  apply list_elem_of_fmap_2. by apply list_elem_of_filter in Hb as [].
Qed.

Lemma take_newer_reverse id l :
  StronglySorted Z.lt (uids l) -> take_newer id (reverse l) ≡ₚ filter (fun a => id < a.(al_UID)) l.
Proof.
  unfold uids. induction l as [|a l IH] using rev_ind; intros Hs; [done|].
  rewrite reverse_app. simpl. rewrite fmap_app in Hs. apply StronglySorted_app in Hs as (Hla & Hl & _).
  rewrite filter_app, filter_cons, filter_nil. destruct (Z.ltb_spec id (al_UID a)) as [Hlt|Hge].
  - rewrite decide_True by done. rewrite (IH Hl). by rewrite Permutation_app_comm.
  - rewrite decide_False by lia. rewrite filter_none; [done|]. intros b Hb Hlt.
    specialize (Hla (al_UID b) (al_UID a)). ospecialize (Hla _ _); [by apply list_elem_of_fmap_2|simpl; set_solver|lia].
Qed.

Lemma getAlarmsAfterID_spec id (c : Cache) :
  StronglySorted Z.lt (uids c.(ac_list)) ->
  getAlarmsAfterID id c = filter (fun a => id < a.(al_UID)) c.(ac_list).
Proof.
  intros Hs. unfold getAlarmsAfterID. apply Sort_perm; [by apply sorted_filter|by apply take_newer_reverse].
Qed.

Lemma filter_fmap_uid id (l : list Alarm) :
  filter (fun u => id < u) (al_UID <$> l) = al_UID <$> filter (fun a => id < a.(al_UID)) l.
Proof.
  induction l as [|a l IH]; [done|]. rewrite fmap_cons, !filter_cons.
  case_decide; [by rewrite fmap_cons, IH|done].
Qed.

Lemma filter_seqZ id u n : u - 1 <= id <= u + n - 1 ->
  filter (fun x => id < x) (seqZ u n) = seqZ (id + 1) (u + n - 1 - id).
Proof.
  intros Hid. replace n with ((id - u + 1) + (u + n - 1 - id)) at 1 by lia.
  rewrite seqZ_app by lia. rewrite filter_app, filter_none, filter_all.
  - simpl. f_equal. lia.
  - intros x Hx. apply elem_of_seqZ in Hx. lia.
  - intros x Hx. apply elem_of_seqZ in Hx. lia.
Qed.

(** A listener that is not behind the kept alarms is sent, in one round, exactly the
    alarms after the last one it read, in the order of their numbers, and stands at the
    last number, so that nothing is sent twice. *)
Lemma publishEvent_delivers (c : Cache) (l : AlarmListener) :
  alarm_inv c -> contiguous c ->
  c.(ac_eventID) - Z.of_nat (length c.(ac_list)) <= l.(ln_lastID) <= c.(ac_eventID) -> 0 <= l.(ln_lastID) ->
  let news := filter (fun a => l.(ln_lastID) < a.(al_UID)) c.(ac_list) in
  let l' := publishEvent c l in
  l'.(ln_sent) = l.(ln_sent) ++ (inl <$> news) /\ l'.(ln_lastID) = c.(ac_eventID) /\
  publishEvent c l' = l'.
Proof.
  intros [He Hok] Hc Hr Hl news l'.
  assert (Hnew : getAlarmsAfterID (ln_lastID l) c = news) by (apply getAlarmsAfterID_spec, Hok).
  assert (Hlen : Z.of_nat (length news) = ac_eventID c - ln_lastID l).
  { unfold contiguous, contiguous_to in Hc. unfold news.
    rewrite <- (length_fmap al_UID), <- filter_fmap_uid. fold (uids (ac_list c)). rewrite Hc.
    rewrite filter_seqZ by lia. rewrite length_seqZ. lia. }
  assert (Hlast : ln_lastID l' = ac_eventID c /\ ln_sent l' = ln_sent l ++ (inl <$> news)).
  { unfold l', publishEvent. rewrite Hnew. destruct news as [|a ns] eqn:Hn.
    - simpl in *. rewrite app_nil_r. split; [lia|done].
    - simpl ln_lastID. unfold u64_add. rewrite u64_small by (simpl in *; lia). split; [simpl in *; lia|done]. }
  destruct Hlast as [Hlast Hsent]. split; [done|]. split; [done|].
  unfold publishEvent at 1. rewrite Hlast, getAlarmsAfterID_spec by apply Hok.
  rewrite filter_none; [done|]. intros a Ha Hlt.
  pose proof (ao_range _ _ _ Hok (al_UID a) (list_elem_of_fmap_2 _ _ _ Ha)). lia.
Qed.

(** *** Start-up *)

Lemma read_alarms_ok vs l : read_alarms vs = Ok l -> Forall2 (fun v a => unmarshal v = Some a) vs l.
Proof.
  revert l. induction vs as [|v vs IH]; simpl; intros l Hl; [by simplify_eq|].
  destruct (unmarshal v) eqn:Hv; [|done]. destruct (read_alarms vs); simplify_eq/=. constructor; eauto.
Qed.

(** The decoded entries of a well-keyed table, in the order they were listed. *)
Lemma read_entries_keys m l (kvs : list (string * string)) :
  stored_ok m -> (forall kv, kv ∈ kvs -> m !! kv.1 = Some kv.2) -> read_alarms (snd <$> kvs) = Ok l ->
  uintToStr <$> uids l = fst <$> kvs /\ Forall2 (fun kv a => unmarshal kv.2 = Some a) kvs l.
Proof.
  intros Hst. revert l. induction kvs as [|[k v] kvs IH]; intros l Hin Hr; simpl in Hr; [by simplify_eq|].
  destruct (Hst k v) as (a & Hv & Hk & _); [by apply (Hin (k, v)); left|]. rewrite Hv in Hr.
  fold (snd <$> kvs) in Hr. destruct (read_alarms (snd <$> kvs)) as [l0|] eqn:Hr0; simplify_eq/=.
  destruct (IH l0) as [Hk0 Hf]; [intros; apply Hin; by right|done|].
  split; [unfold uids in *; simpl; by f_equal|by constructor].
Qed.

Lemma sorted_le_lt l : NoDup (uids l) -> StronglySorted Less l -> StronglySorted Z.lt (uids l).
Proof.
  unfold uids. induction l as [|a l IH]; intros Hnd Hs; [constructor|].
  rewrite fmap_cons in Hnd |- *. apply NoDup_cons in Hnd as [Ha Hnd].
  apply StronglySorted_inv in Hs as [Hs Hle]. constructor; [auto|].
  rewrite Forall_forall in Hle. rewrite Forall_forall. intros u Hu. assert (u <> al_UID a) by by intros ->.
  apply list_elem_of_fmap in Hu as (b & -> & Hb). specialize (Hle b Hb). unfold Less in Hle. lia.
Qed.

(** The last element of a sorted list bounds it. *)
Lemma sorted_last_bound l a b :
  StronglySorted Z.lt (uids l) -> last l = Some b -> a ∈ l -> a.(al_UID) <= b.(al_UID).
Proof.
  intros Hs Hl Ha. apply last_Some in Hl as [l0 ->]. unfold uids in Hs. rewrite fmap_app in Hs.
  apply StronglySorted_app in Hs as (Hlt & _). apply elem_of_app in Ha as [Ha|Ha%list_elem_of_singleton].
  - specialize (Hlt (al_UID a) (al_UID b)). ospecialize (Hlt _ _);
      [by apply list_elem_of_fmap_2|simpl; set_solver|lia].
  - by subst.
Qed.

(** Starting on a table of alarms rebuilds the cache: the list holds every stored
    alarm once, in the order of their numbers, in step with the table, and the next
    number follows the greatest. *)
Lemma NewAlarmCache_loads (table : DB) c :
  stored_ok (kv_content table) -> NewAlarmCache table = (Ok tt, c) ->
  alarm_inv c /\
  (forall a, a ∈ c.(ac_list) <->
     exists k v, kv_content table !! k = Some v /\ unmarshal v = Some a) /\
  c.(ac_eventID) = match last c.(ac_list) with Some a => a.(al_UID) | None => 0 end.
Proof.
  intros Hst. unfold NewAlarmCache, initFromDB, getAlarmsFromDB. simpl.
  destruct ((let! values := with_tx_read tx_list in _) table) as [r d] eqn:Hr.
  destruct r as [l|e]; [|done]. intros [= <-]. simpl.
  apply bind_inv_ok in Hr as (m & d1 & Hl & Hr). apply with_tx_read_list in Hl as [Hd1 ->].
  apply bind_inv_ok in Hr as (l0 & d2 & Hl0 & Hr). unfold lift in Hl0. unfold ret in Hr.
  injection Hl0 as Hl0 ->. injection Hr as <- <-. set (m := kv_content table) in *.
  destruct (read_entries_keys m l0 (map_to_list m) Hst) as [Hkeys Hf]; [|exact Hl0|].
  { intros [k v] Hin. by apply elem_of_map_to_list. }
  assert (Hnd : NoDup (uids l0)).
  { apply (NoDup_fmap_1 uintToStr). rewrite Hkeys. apply NoDup_fst_map_to_list. }
  assert (Hp : Sort l0 ≡ₚ l0) by apply merge_sort_Permutation.
  assert (Hs : StronglySorted Z.lt (uids (Sort l0))).
  { apply sorted_le_lt; [unfold uids; by rewrite Hp|]. apply StronglySorted_merge_sort; apply _. }
  assert (Hin : forall a, a ∈ Sort l0 <-> exists k v, m !! k = Some v /\ unmarshal v = Some a).
  { intros a. rewrite Hp. split.
    - intros [i Hi]%list_elem_of_lookup. destruct (Forall2_lookup_r _ _ _ _ _ Hf Hi) as ([k v] & Hkv & Hv).
      exists k, v. split; [|done]. by apply elem_of_map_to_list, (list_elem_of_lookup_2 _ i).
    - intros (k & v & Hk & Hv). apply elem_of_map_to_list, list_elem_of_lookup in Hk as [i Hi].
      destruct (Forall2_lookup_l _ _ _ _ _ Hf Hi) as (a' & Ha' & Hv'). simpl in Hv'. simplify_eq.
      by apply list_elem_of_lookup_2 in Ha'. }
  assert (Hrange : forall a, a ∈ Sort l0 -> 0 < a.(al_UID) < 2 ^ 64).
  { intros a Ha. apply Hin in Ha as (k & v & Hk & Hv). destruct (Hst k v Hk) as (a' & Hv' & _ & Hr). congruence. }
  set (e := match last (Sort l0) with Some a => al_UID a | None => 0 end).
  split; [|done]. unfold alarm_inv. simpl.
  assert (He : 0 <= e < 2 ^ 64).
  { unfold e. destruct (last (Sort l0)) as [a|] eqn:Hlast; [|lia].
    specialize (Hrange a). ospecialize (Hrange _); [|lia].
    apply last_Some in Hlast as [l1 ->]. set_solver. }
  split; [exact He|]. split; [exact Hs| | |].
  - intros u Hu. apply list_elem_of_fmap in Hu as (a & -> & Ha). split; [by apply Hrange|].
    unfold e. destruct (last (Sort l0)) as [b|] eqn:Hlast; [by apply (sorted_last_bound (Sort l0) a b)|].
    apply last_None in Hlast. rewrite Hlast in Ha. by apply elem_of_nil in Ha.
  - intros k. rewrite Hd1. fold m.
    assert (uintToStr <$> uids (Sort l0) ≡ₚ fst <$> map_to_list m) as -> by (unfold uids; rewrite Hp; by rewrite <- Hkeys).
    rewrite list_elem_of_fmap. split.
    + intros [v Hv]. exists (k, v). split; [done|]. by apply elem_of_map_to_list.
    + intros ([k' v] & -> & Hkv). apply elem_of_map_to_list in Hkv. by exists v.
  - rewrite Hd1. exact Hst.
Qed.
End Invariants.

(** ** Examples *)

#[export] Instance Alarm_tree : Treeable Alarm.
Proof.
  apply (iso_tree (fun a => (a.(al_ID), a.(al_UID), a.(al_Time), a.(al_Cluster), a.(al_Type), a.(al_Namespace),
    a.(al_Kind), a.(al_Name), a.(al_Reason), a.(al_Message), a.(al_Acknowledged)))
    (fun '(a, b, c, d, e, f, g, h, i, j, k) => mkAlarm a b c d e f g h i j k)). by intros [].
Defined.
#[export] Instance Alarm_json : Json Alarm := tree_json _ _.
#[export] Instance Alarm_json_laws : JsonLaws Alarm := tree_json_laws _ _.

Definition alarm_of (cluster reason : string) (time : Z) : Alarm :=
  set_Reason reason (set_Kind "Pod" (set_Cluster cluster (New time))).
Definition empty_cache : AlarmCache MemTable := mkCache (mem_table ∅) [] 0.

Lemma empty_cache_inv : alarm_inv empty_cache /\ contiguous empty_cache.
Proof.
  split; [|done]. split; [simpl; lia|]. split; simpl.
  - constructor.
  - intros u Hu. by apply elem_of_nil in Hu.
  - intros k. split; [intros [v Hv]; done|intros Hk; by apply elem_of_nil in Hk].
  - intros k v Hk. done.
Qed.

Lemma Add_keeps_witness :
  alarm_inv (Add 0 (alarm_of "a" "r" 5) empty_cache) /\ contiguous (Add 0 (alarm_of "a" "r" 5) empty_cache).
Proof.
  destruct empty_cache_inv as [Hi Hc].
  destruct (Add_keeps 0 (alarm_of "a" "r" 5) empty_cache Hi ltac:(simpl; lia) (or_introl Hc)) as (H1 & H2 & _).
  split; [exact H1|exact (H2 Hc)].
Defined.

Definition cache3 : AlarmCache MemTable :=
  Add 0 (alarm_of "b" "r3" 7) (Add 0 (alarm_of "x" "r2" 6) (Add 0 (alarm_of "b" "r1" 5) empty_cache)).

Lemma Add_all_inv (l : list Alarm) (c : AlarmCache MemTable) :
  alarm_inv c -> contiguous c -> c.(ac_eventID) + Z.of_nat (length l) < 2 ^ 64 ->
  alarm_inv (foldl (fun c a => Add 0 a c) c l) /\ contiguous (foldl (fun c a => Add 0 a c) c l).
Proof.
  revert c. induction l as [|a l IH]; intros c Hi Hc Hb; [done|]. simpl in *.
  pose proof (Add_locked_ok 0 a c Hi ltac:(lia) (or_introl Hc)) as Hadd. unfold Add.
  destruct (Add_locked 0 a c) as [[] c1]; destruct Hi as [He Hok], Hadd as [Hev Hadd].
  - destruct Hadd as (_ & Hok1 & _ & Hc1). unfold Add_after, u64_add. rewrite Hev, u64_small by lia.
    apply IH; [split; simpl; [lia|done] | exact (Hc1 Hc) | simpl; lia].
  - destruct Hadd as (Hl & Hd & _). apply IH; [split; rewrite ?Hev, ?Hl, ?Hd; done | unfold contiguous; by rewrite Hev, Hl | lia].
Qed.

Lemma cache3_inv : alarm_inv cache3 /\ contiguous cache3.
Proof.
  destruct empty_cache_inv as [Hi Hc].
  apply (Add_all_inv [alarm_of "b" "r1" 5; alarm_of "x" "r2" 6; alarm_of "b" "r3" 7] empty_cache Hi Hc).
  simpl. lia.
Qed.

Lemma Update_finds_witness :
  let a := set_UID 2 (alarm_of "x" "r2" 6) in
  fst (Update a cache3) = Ok tt /\ exists i b, cache3.(ac_list) !! i = Some b /\ b.(al_UID) = 2.
Proof.
  intros a. split; [vm_compute; reflexivity|].
  destruct (Update a cache3) as [r c'] eqn:Hu.
  destruct (Update_finds a cache3 c' r (proj1 cache3_inv) ltac:(simpl; lia) Hu) as [_ Hr].
  destruct r as [[]|e]; [destruct Hr as (i & b & Hi & Hb & _); exists i, b; split; [exact Hi|exact Hb]|].
  apply (f_equal fst) in Hu. vm_compute in Hu. discriminate Hu.
Defined.

Lemma deleteAlarmForCluster_keeps_witness :
  alarm_inv (deleteAlarmForCluster "x" cache3) /\
  (deleteAlarmForCluster "x" cache3).(ac_list) `sublist_of` cache3.(ac_list).
Proof.
  destruct (deleteAlarmForCluster_keeps "x" cache3 (proj1 cache3_inv)) as (Hi & Hs & _).
  split; [exact Hi|exact Hs].
Defined.

Lemma publishEvent_delivers_witness :
  (publishEvent cache3 (mkAListener 1 0 [])).(ln_lastID) = 3.
Proof.
  destruct (publishEvent_delivers cache3 (mkAListener 1 0 []) (proj1 cache3_inv) (proj2 cache3_inv)
    ltac:(vm_compute; split; discriminate) ltac:(simpl; lia)) as (_ & Hl & _).
  exact Hl.
Defined.

Lemma NewAlarmCache_loads_witness :
  exists c, NewAlarmCache cache3.(ac_table) = (Ok tt, c) /\ alarm_inv c.
Proof.
  destruct (NewAlarmCache cache3.(ac_table)) as [r c] eqn:Hn.
  destruct r as [[]|e]; [|apply (f_equal fst) in Hn; vm_compute in Hn; discriminate Hn].
  exists c. split; [reflexivity|].
  exact (proj1 (NewAlarmCache_loads cache3.(ac_table) c (ao_stored _ _ _ (proj2 (proj1 cache3_inv))) Hn)).
Defined.

(** ** What missing numbers break *)

(** After the alarms of a cluster are gone the numbers have a gap; a listener counts
    what it reads instead of looking at the numbers and is sent an alarm twice. *)
Lemma gap_sends_twice :
  let c := deleteAlarmForCluster "x" cache3 in
  let l := publishEvent c (publishEvent c (mkAListener 0 0 [])) in
  omap (fun m => match m with inl a => Some a.(al_UID) | inr _ => None end) l.(ln_sent) = [1; 3; 3].
Proof. vm_compute. reflexivity. Qed.

(** deleteoldest deletes the entries of consecutive numbers, not those of the alarms it
    drops: with a gap an alarm leaves the list and stays in the table. *)
Lemma gap_leaves_entry :
  let c := deleteoldest 100 (deleteAlarmForCluster "x" cache3) in
  c.(ac_list) = [] /\ is_Some (c.(ac_table).(mem) !! "3").
Proof. vm_compute. split; [reflexivity|eexists; reflexivity]. Qed.

(** The number is taken under the lock but counted after it: of two alarms added at
    the same time the second gets the number of the first and is refused by the table. *)
Lemma concurrent_adds_lose_one :
  let (k1, c1) := Add_locked 0 (alarm_of "a" "r1" 5) empty_cache in
  let (k2, c2) := Add_locked 0 (alarm_of "a" "r2" 5) c1 in
  k1 = true /\ k2 = false /\ length (Add_after (Add_after c2)).(ac_list) = 1%nat.
Proof. vm_compute. auto. Qed.
