(* ===== verification/Listeners.v ===== *)
(** The goroutine that feeds a listener (publishEvent of pkg/k8seventwatcher/eventwatcher.go and
    publishLog of pkg/zke/zkelog/log_manager.go) between those that add entries and the one
    that reads: what it waits for, what wakes it, and how it is stopped.  Module AlarmFeeds: the
    two goroutines of a listener of alarms (publishEvent of pkg/alarm/alarmcache.go and
    publishAck of pkg/alarm/unackcache.go), with the reader of the channel that they share. *)
From S2P Require Import Prelude KvStore Alarm EventRing.

Section Publisher.
Context {A : Type} (maxSize batch : nat).

(** ** States *)

(** Where the goroutine is: before the look at the buffer; with what it saw, before the test
    of the stop channel; with nothing new, before the lock; in cond.Wait; with a batch, the
    rest of which is to be sent; before the answer to a stop; at its end.  [Panicked]: the
    look walked off the list. *)
Inductive publisher := Look | Looked (lastID : Z) (events : list A) | Sleepy | Waiting | Sending (events : list A) | Acking | Done | Panicked.
(** The reader: it receives; it is in Stop, before the goroutine took its message; before the
    answer; done.  The reader of events leaves without a Stop when its socket fails. *)
Inductive reader := Reading | Asking | AwaitAck | Stopped | Gone.
#[export] Instance reader_eq_dec : EqDecision reader. Proof. solve_decision. Defined.
(** [pb_casts]: entries that were added and whose Broadcast is still to come. *)
Record Publishing := mkPublishing { pb_watcher : Watcher A; pb_lastID : Z; pb_got : list A; pb_at : publisher; pb_reader : reader; pb_casts : nat }.
(** NewEventWatcher and AddListener, with entries numbered from [n + 1]. *)
Definition start (n : Z) : Publishing := mkPublishing (mkWatcher n []) 0 [] Look Reading 0.

(** ** Steps *)

(** A step of the goroutine, with the reader where both take part; and a Broadcast. *)
Inductive goes : Publishing -> Publishing -> Prop :=
  | looks w id got rd c last events : getEventsAfterID w id batch = Some (last, events) ->
      goes (mkPublishing w id got Look rd c) (mkPublishing w id got (Looked last events) rd c)
  | panics w id got rd c : getEventsAfterID w id batch = None ->
      goes (mkPublishing w id got Look rd c) (mkPublishing w id got Panicked rd c)
  | stops_first w id got last events c :
      goes (mkPublishing w id got (Looked last events) Asking c) (mkPublishing w id got Acking AwaitAck c)
  | finds_nothing w id got last rd c : rd <> Asking ->
      goes (mkPublishing w id got (Looked last []) rd c) (mkPublishing w id got Sleepy rd c)
  | takes w id got last events rd c : rd <> Asking -> events <> [] ->
      goes (mkPublishing w id got (Looked last events) rd c) (mkPublishing w last got (Sending events) rd c)
  | waits w id got rd c :
      goes (mkPublishing w id got Sleepy rd c) (mkPublishing w id got Waiting rd c)
  | sends w id got a events c :
      goes (mkPublishing w id got (Sending (a :: events)) Reading c) (mkPublishing w id (got ++ [a]) (Sending events) Reading c)
  | stops w id got a events c :
      goes (mkPublishing w id got (Sending (a :: events)) Asking c) (mkPublishing w id got Acking AwaitAck c)
  | sent w id got rd c :
      goes (mkPublishing w id got (Sending []) rd c) (mkPublishing w id got Look rd c)
  | acks w id got c :
      goes (mkPublishing w id got Acking AwaitAck c) (mkPublishing w id got Done Stopped c)
  | wakes w id got rd c :
      goes (mkPublishing w id got Waiting rd (S c)) (mkPublishing w id got Look rd c)
  | wakes_none w id got p rd c : p <> Waiting ->
      goes (mkPublishing w id got p rd (S c)) (mkPublishing w id got p rd c).
(** An entry is added. *)
Definition adds (a : A) (s : Publishing) : Publishing :=
  mkPublishing (add (Z.of_nat maxSize) s.(pb_watcher) a) s.(pb_lastID) s.(pb_got) s.(pb_at) s.(pb_reader) (S s.(pb_casts)).
(** The reader calls Stop. *)
Definition asks (s : Publishing) : Publishing := mkPublishing s.(pb_watcher) s.(pb_lastID) s.(pb_got) s.(pb_at) Asking s.(pb_casts).
(** The reader ends without a Stop. *)
Definition leaves (s : Publishing) : Publishing := mkPublishing s.(pb_watcher) s.(pb_lastID) s.(pb_got) s.(pb_at) Gone s.(pb_casts).
(** The states that are reached, with the entries that were added. *)
Inductive reached (n : Z) : list A -> Publishing -> Prop :=
  | reached_start : reached n [] (start n)
  | reached_goes h s s' : reached n h s -> goes s s' -> reached n h s'
  | reached_adds h s a : reached n h s -> reached n (h ++ [a]) (adds a s)
  | reached_asks h s : reached n h s -> s.(pb_reader) = Reading -> reached n h (asks s)
  | reached_leaves h s : reached n h s -> s.(pb_reader) = Reading -> reached n h (leaves s).

(** ** What holds in every state *)

(** What was taken and is still to be sent. *)
Definition pending (p : publisher) : list A := match p with Sending events => events | _ => [] end.
Definition listener (s : Publishing) : Listener A := mkListener s.(pb_lastID) (s.(pb_got) ++ pending s.(pb_at)).
Definition publisher_ok (n : Z) (h : list A) (s : Publishing) : Prop :=
  match s.(pb_at) with
  | Panicked => False
  | Acking | Done => True
  | Looked last events =>
      events <> [] -> follows maxSize n h (mkListener last (s.(pb_got) ++ events)) /\ s.(pb_lastID) + Z.of_nat (length events) <= last
  | _ => True
  end.
Definition together (p : publisher) (rd : reader) : Prop :=
  match p, rd with Acking, AwaitAck | Done, Stopped => True | Acking, _ | Done, _ | _, AwaitAck | _, Stopped => False | _, _ => True end.
Record publishing_ok (n : Z) (h : list A) (s : Publishing) : Prop := {
  po_holds : holds maxSize n h s.(pb_watcher);
  po_range : 0 <= s.(pb_lastID) <= n + Z.of_nat (length h);
  po_follows : s.(pb_at) <> Acking -> s.(pb_at) <> Done -> follows maxSize n h (listener s);
  po_sub : s.(pb_got) `sublist_of` h;
  po_at : publisher_ok n h s;
  po_together : together s.(pb_at) s.(pb_reader)
}.

Lemma follows_start n : 0 <= n -> follows maxSize n ([] : list A) newListener.
Proof. intros Hn. split; cbn; [lia|by rewrite take_nil|by rewrite take_nil]. Qed.
Lemma follows_sub n (h : list A) (l : Listener A) : follows maxSize n h l -> l.(ls_sent) `sublist_of` h.
Proof. intros [_ Hs _]. etrans; [exact Hs|apply sublist_take]. Qed.
Lemma start_publishing_ok n : 0 <= n -> publishing_ok n [] (start n).
Proof.
  intros Hn. split; cbn; [split; [simpl; lia|done]|lia|intros _ _; by apply follows_start|done|done|done].
Qed.
Lemma adds_ok n (h : list A) s a : 0 <= n -> n + Z.of_nat (length h) + 1 < 2 ^ 64 -> publishing_ok n h s -> publishing_ok n (h ++ [a]) (adds a s).
Proof.
  intros Hn Hb [Hh Hr Hf Hs Ha Ht]. split; cbn; [by apply add_holds|rewrite length_app; cbn; lia|intros ? ?; by apply follows_add, Hf|by apply sublist_inserts_r| |done].
  unfold publisher_ok in *. cbn. destruct (pb_at s); try done. intros He. destruct (Ha He) as [Hl Hle]. split; [by apply follows_add|done].
Qed.
Lemma asks_ok n (h : list A) s : publishing_ok n h s -> s.(pb_reader) = Reading -> publishing_ok n h (asks s).
Proof. intros [Hh Hr Hf Hs Ha Ht] He. split; cbn; try done. rewrite He in Ht. unfold together in *. by destruct (pb_at s). Qed.
Lemma leaves_ok n (h : list A) s : publishing_ok n h s -> s.(pb_reader) = Reading -> publishing_ok n h (leaves s).
Proof. intros [Hh Hr Hf Hs Ha Ht] He. split; cbn; try done. rewrite He in Ht. unfold together in *. by destruct (pb_at s). Qed.
(** What a look sees. *)
Lemma look_ok n (h : list A) w id got last events : (0 < batch)%nat -> 0 <= n -> n + Z.of_nat (length h) < 2 ^ 64 ->
  holds maxSize n h w -> follows maxSize n h (mkListener id got) -> getEventsAfterID w id batch = Some (last, events) ->
  (events = [] -> (length h <= position maxSize n h id)%nat) /\
  (events <> [] -> follows maxSize n h (mkListener last (got ++ events)) /\ id + Z.of_nat (length events) <= last).
Proof.
  intros Hb Hn Hlt Hw Hl He. pose proof (fw_range _ _ _ _ Hl) as Hid. cbn in Hid.
  pose proof (publish_spec maxSize n h w _ batch Hw Hl Hb Hn Hlt) as [_ Hf]. unfold after_round in Hf. cbn [ls_lastID ls_sent] in Hf.
  rewrite (getEvents_spec maxSize n h w id batch Hw Hb Hn Hlt Hid) in He. set (p := position maxSize n h id) in *. injection He as Hlast He. split.
  - intros ->. apply (f_equal length) in He. rewrite length_take, length_drop in He. cbn in He. lia.
  - intros Hne. rewrite He in *. destruct events as [|a events]; [done|]. rewrite decide_False in Hlast by done. subst last. split; [exact Hf|].
    unfold p, position. lia.
Qed.
Lemma goes_ok n (h : list A) s s' : (0 < batch)%nat -> 0 <= n -> n + Z.of_nat (length h) < 2 ^ 64 -> publishing_ok n h s -> goes s s' -> publishing_ok n h s'.
Proof.
  intros Hb Hn Hlt [Hh Hr Hf Hs Ha Ht] Hg. unfold listener in *.
  destruct Hg as [w id got rd c lst events He|w id got rd c He|w id got lst events c|w id got lst rd c Hrd|w id got lst events rd c Hrd He
    |w id got rd c|w id got a events c|w id got a events c|w id got rd c|w id got c|w id got rd c|w id got p rd c Hp];
    unfold publisher_ok in Ha; cbn [pb_watcher pb_lastID pb_got pb_at pb_reader pb_casts pending] in *.
  - destruct (look_ok n h w id (got ++ []) lst events Hb Hn Hlt Hh ltac:(by apply Hf) He) as [_ Hl]. rewrite app_nil_r in Hl.
    split; unfold publisher_ok, listener; cbn; auto; by destruct rd.
  - exfalso. by rewrite (getEvents_spec maxSize n h w id batch Hh Hb Hn Hlt Hr) in He.
  - by split.
  - split; unfold publisher_ok, listener; cbn; auto; by destruct rd.
  - destruct (Ha He) as [Hl Hle]. split; unfold publisher_ok, listener; cbn; auto. exact (fw_range _ _ _ _ Hl).
  - split; unfold publisher_ok, listener; cbn; auto; by destruct rd.
  - assert (Hf' : follows maxSize n h (mkListener id ((got ++ [a]) ++ events))) by (rewrite <- app_assoc; by apply Hf).
    split; unfold publisher_ok, listener; cbn; auto. etrans; [|exact (follows_sub _ _ _ Hf')]. by apply sublist_inserts_r.
  - by split.
  - split; unfold publisher_ok, listener; cbn; auto; by destruct rd.
  - by split.
  - split; unfold publisher_ok, listener; cbn; auto; by destruct rd.
  - split; unfold publisher_ok, listener; cbn; auto.
Qed.
Lemma reached_ok n (h : list A) s : (0 < batch)%nat -> 0 <= n -> n + Z.of_nat (length h) < 2 ^ 64 -> reached n h s -> publishing_ok n h s.
Proof.
  intros Hb Hn Hlt Hr. induction Hr as [|h s s' _ IH Hg|h s a _ IH|h s _ IH He|h s _ IH He].
  - by apply start_publishing_ok.
  - apply (goes_ok n h s); auto.
  - rewrite length_app in Hlt. cbn in Hlt. apply adds_ok; [done|lia|]. apply IH. lia.
  - by apply asks_ok; auto.
  - by apply leaves_ok; auto.
Qed.

(** ** Runs of the goroutine end *)

(** What is left to do: the Broadcasts, the entries after the last that was taken, and the way
    to the wait. *)
Definition weight (p : publisher) : nat :=
  match p with Look => 3 | Looked _ _ => 2 | Sleepy | Acking => 1 | Sending events => length events + 4 | Waiting | Done | Panicked => 0 end.
Definition measure (n : Z) (h : list A) (s : Publishing) : nat :=
  4 * s.(pb_casts) + 4 * Z.to_nat (n + Z.of_nat (length h) - s.(pb_lastID)) + weight s.(pb_at).

Lemma goes_decreases n (h : list A) s s' : (0 < batch)%nat -> 0 <= n -> n + Z.of_nat (length h) < 2 ^ 64 ->
  publishing_ok n h s -> goes s s' -> (measure n h s' < measure n h s)%nat.
Proof.
  intros Hb Hn Hlt [Hh Hr Hf Hs Ha Ht] Hg. unfold measure.
  destruct Hg as [w id got rd c lst events He|w id got rd c He|w id got lst events c|w id got lst rd c Hrd|w id got lst events rd c Hrd He
    |w id got rd c|w id got a events c|w id got a events c|w id got rd c|w id got c|w id got rd c|w id got p rd c Hp];
    unfold publisher_ok in Ha; cbn [pb_watcher pb_lastID pb_got pb_at pb_reader pb_casts weight length] in *; try lia.
  destruct (Ha He) as [Hl Hle]. pose proof (fw_range _ _ _ _ Hl) as Hr'. cbn in Hr'. destruct events; [done|]. cbn [length] in *. lia.
Qed.
Lemma runs_end n (h : list A) k s s' : (0 < batch)%nat -> 0 <= n -> n + Z.of_nat (length h) < 2 ^ 64 ->
  publishing_ok n h s -> nsteps goes k s s' -> publishing_ok n h s' /\ (k + measure n h s' <= measure n h s)%nat.
Proof.
  intros Hb Hn Hlt Hs Hr. induction Hr as [s|k s s' s'' Hg _ IH]; [by split|].
  pose proof (goes_decreases n h s s' Hb Hn Hlt Hs Hg). destruct IH as [? ?]; [by apply (goes_ok n h s)|]. split; [done|lia].
Qed.
Lemma goes_or_rests s : (exists s', goes s s') \/ nf goes s.
Proof.
  destruct s as [w id got p rd c]. destruct (decide (c = 0%nat)) as [->|Hc].
  - destruct p as [|lst events| | |[|a events]| | |].
    + left. destruct (getEventsAfterID w id batch) as [[lst events]|] eqn:He; eexists; [by apply looks|by apply panics].
    + left. destruct (decide (rd = Asking)) as [->|Hrd]; [eexists; apply stops_first|].
      destruct events; eexists; [by apply finds_nothing|by apply takes].
    + left. eexists. apply waits.
    + right. intros [s' Hs']. inversion Hs'.
    + left. eexists. apply sent.
    + destruct rd; [left; eexists; apply sends|left; eexists; apply stops|right|right|right]; intros [s' Hs']; inversion Hs'.
    + destruct rd; [right|right|left; eexists; apply acks|right|right]; intros [s' Hs']; inversion Hs'.
    + right. intros [s' Hs']. inversion Hs'.
    + right. intros [s' Hs']. inversion Hs'.
  - destruct c as [|c]; [done|]. left. destruct p; eexists; first [by apply wakes|by apply wakes_none].
Qed.
Lemma comes_to_rest n (h : list A) s : (0 < batch)%nat -> 0 <= n -> n + Z.of_nat (length h) < 2 ^ 64 ->
  publishing_ok n h s -> exists s', rtc goes s s' /\ nf goes s'.
Proof.
  intros Hb Hn Hlt. remember (measure n h s) as k eqn:Hk. revert s Hk. induction k as [k IH] using lt_wf_ind. intros s -> Hs.
  destruct (goes_or_rests s) as [[s' Hg]|Hr]; [|by exists s].
  destruct (IH (measure n h s') ltac:(by apply goes_decreases) s' eq_refl) as (s'' & Hrun & Hr); [by apply (goes_ok n h s)|]. exists s''. split; [by eapply rtc_l|done].
Qed.

(** ** What a wake-up reaches *)

(** The goroutine is going to look again. *)
Definition awake (s : Publishing) : Prop :=
  match s.(pb_at) with Look | Sending _ => True | Looked _ events => events <> [] | Waiting => s.(pb_casts) <> 0%nat | _ => False end.
(** Everything kept was taken. *)
Definition caught_up (n : Z) (h : list A) (s : Publishing) : Prop := (length h <= position maxSize n h s.(pb_lastID))%nat.
(** A Stop that is answered, or is going to be. *)
Definition answers (s : Publishing) : Prop :=
  match s.(pb_reader) with
  | Reading | Gone => False
  | Asking => match s.(pb_at) with Look | Looked _ _ | Sending _ => True | Waiting => s.(pb_casts) <> 0%nat | _ => False end
  | AwaitAck | Stopped => True
  end.
Definition served (n : Z) (h : list A) (s : Publishing) : Prop := s.(pb_reader) = Reading /\ (awake s \/ caught_up n h s).

Lemma served_goes n (h : list A) s s' : (0 < batch)%nat -> 0 <= n -> n + Z.of_nat (length h) < 2 ^ 64 ->
  publishing_ok n h s -> goes s s' -> served n h s -> served n h s'.
Proof.
  intros Hb Hn Hlt [Hh Hr Hf Hs Ha Ht] Hg [He Hw]. unfold served, awake, caught_up, listener in *.
  destruct Hg as [w id got rd c lst events Hl|w id got rd c Hl|w id got lst events c|w id got lst rd c Hrd|w id got lst events rd c Hrd Hl
    |w id got rd c|w id got a events c|w id got a events c|w id got rd c|w id got c|w id got rd c|w id got p rd c Hp];
    cbn [pb_watcher pb_lastID pb_got pb_at pb_reader pb_casts pending] in *; try (by split; auto); try done.
  - split; [done|]. destruct (look_ok n h w id (got ++ []) lst events Hb Hn Hlt Hh ltac:(by apply Hf) Hl) as [Hnone _].
    destruct events; [right; by apply Hnone|by left].
  - by rewrite (getEvents_spec maxSize n h w id batch Hh Hb Hn Hlt Hr) in Hl.
  - split; [done|]. right. by destruct Hw.
  - split; [done|]. right. by destruct Hw.
  - split; [done|]. destruct Hw as [Hw|Hw]; [left|by right]. by destruct p.
Qed.
Lemma answers_goes s s' : goes s s' -> s'.(pb_at) <> Panicked -> answers s -> answers s'.
Proof. unfold answers. destruct 1 as [| | | | | | | | | | |w id got p rd c Hp]; cbn; try done; try (by destruct rd).
  intros _. destruct rd; try done. by destruct p.
Qed.
Lemma served_rtc n (h : list A) s s' : (0 < batch)%nat -> 0 <= n -> n + Z.of_nat (length h) < 2 ^ 64 ->
  publishing_ok n h s -> rtc goes s s' -> publishing_ok n h s' /\ (served n h s -> served n h s') /\ (answers s -> answers s').
Proof.
  intros Hb Hn Hlt Hs Hr. induction Hr as [s|s s1 s' Hg _ IH]; [done|].
  pose proof (goes_ok n h s s1 Hb Hn Hlt Hs Hg) as H1. destruct (IH H1) as (H' & Hw & Ha). split; [done|]. split.
  - intros H. apply Hw. by apply (served_goes n h s).
  - intros H. apply Ha, (answers_goes s s1 Hg); [|done]. pose proof (po_at _ _ _ H1) as Hp. unfold publisher_ok in Hp. by destruct (pb_at s1).
Qed.
Lemma rests_at n (h : list A) s : publishing_ok n h s -> nf goes s ->
  s.(pb_casts) = 0%nat /\ match s.(pb_reader) with Reading | Asking => s.(pb_at) = Waiting | AwaitAck => False | Stopped => s.(pb_at) = Done | Gone => s.(pb_at) = Waiting \/ exists a events, s.(pb_at) = Sending (a :: events) end.
Proof.
  intros [_ _ _ _ Ha Ht] Hnf. destruct s as [w id got p rd c]. unfold publisher_ok, together in *. cbn in *.
  assert (c = 0%nat) as ->.
  { destruct c as [|c]; [done|]. exfalso. apply Hnf. destruct p; eexists; first [by apply wakes|by apply wakes_none]. }
  split; [done|]. destruct p as [|lst events| | |[|a events]| | |]; try done.
  - exfalso. apply Hnf. destruct (getEventsAfterID w id batch) as [[lst events]|] eqn:He; eexists; [by apply looks|by apply panics].
  - exfalso. apply Hnf. destruct (decide (rd = Asking)) as [->|Hrd]; [eexists; apply stops_first|]. destruct events; eexists; [by apply finds_nothing|by apply takes].
  - exfalso. apply Hnf. eexists. apply waits.
  - destruct rd; try done; auto.
  - exfalso. apply Hnf. eexists. apply sent.
  - destruct rd; try done; [..|by eauto]; exfalso; apply Hnf; eexists; constructor.
  - destruct rd; try done. exfalso. apply Hnf. eexists. apply acks.
  - by destruct rd.
Qed.
Lemma follows_caught_up n (h : list A) (s : Publishing) : follows maxSize n h (listener s) -> caught_up n h s -> s.(pb_at) = Waiting ->
  (length h <= maxSize)%nat -> s.(pb_got) = h.
Proof.
  unfold listener, caught_up, position. intros [_ _ Hall] Hc Hp Hle. rewrite Hp in Hall. cbn in Hall. rewrite app_nil_r in Hall.
  rewrite (Hall Hle). apply take_ge. lia.
Qed.
Lemma ok_not_panicked n (h : list A) s : publishing_ok n h s -> s.(pb_at) <> Panicked.
Proof. intros [_ _ _ _ Ha _]. unfold publisher_ok in Ha. by destruct (pb_at s). Qed.
(** At rest, a served reader has everything. *)
Lemma served_at_rest n (h : list A) s : publishing_ok n h s -> nf goes s -> served n h s ->
  s.(pb_at) = Waiting /\ caught_up n h s /\ ((length h <= maxSize)%nat -> s.(pb_got) = h).
Proof.
  intros Hok Hnf [Hr Hs]. destruct (rests_at n h s Hok Hnf) as [Hc Hat]. rewrite Hr in Hat.
  assert (caught_up n h s) as Hcu by (unfold awake in Hs; rewrite Hat, Hc in Hs; by destruct Hs). split_and!; [done..|].
  intros Hle. apply (follows_caught_up n h); [|done..]. apply Hok; by rewrite Hat.
Qed.
(** What wakes the goroutine: an entry that is added, unless the goroutine has just found
    nothing and does not wait yet. *)
Lemma adds_awake a s : s.(pb_at) <> Sleepy -> (forall last, s.(pb_at) <> Looked last []) -> s.(pb_reader) = Reading ->
  together s.(pb_at) s.(pb_reader) -> s.(pb_at) <> Panicked -> awake (adds a s).
Proof.
  unfold awake, adds. cbn. intros Hs Hl Hr Ht Hp. rewrite Hr in Ht. destruct (pb_at s) as [|lst events| | | | | |]; try done. intros ->. by apply (Hl lst).
Qed.
(** Runs of the goroutine between the entries [l] that are added meanwhile. *)
Inductive run : nat -> list A -> Publishing -> Publishing -> Prop :=
  | run_ends s : run 0 [] s s
  | run_goes k l s s1 s' : goes s s1 -> run k l s1 s' -> run (S k) l s s'
  | run_adds k a l s s' : run k l (adds a s) s' -> run k (a :: l) s s'.
Lemma answers_adds a s : answers s -> answers (adds a s).
Proof. unfold answers, adds. cbn. destruct (pb_reader s); try done. by destruct (pb_at s). Qed.
Lemma run_ok n (h : list A) k l s s' : (0 < batch)%nat -> 0 <= n -> n + Z.of_nat (length h + length l) < 2 ^ 64 ->
  publishing_ok n h s -> run k l s s' ->
  publishing_ok n (h ++ l) s' /\ (k + measure n (h ++ l) s' <= measure n h s + 8 * length l)%nat /\ (answers s -> answers s').
Proof.
  intros Hb Hn Hlt Hs Hr. revert h Hs Hlt. induction Hr as [s|k l s s1 s' Hg _ IH|k a l s s' _ IH]; intros h Hs Hlt.
  - rewrite app_nil_r. split; [done|]. split; [cbn; lia|done].
  - assert (Hlt' : n + Z.of_nat (length h) < 2 ^ 64) by lia. pose proof (goes_ok n h s s1 Hb Hn Hlt' Hs Hg) as H1.
    pose proof (goes_decreases n h s s1 Hb Hn Hlt' Hs Hg). destruct (IH h H1 Hlt) as (? & ? & Hans). split; [done|]. split; [lia|].
    intros Ha. apply Hans, (answers_goes s s1 Hg); [|done]. pose proof (po_at _ _ _ H1) as Hp. unfold publisher_ok in Hp. by destruct (pb_at s1).
  - cbn [length] in *. replace (h ++ a :: l) with ((h ++ [a]) ++ l) by (by rewrite <- app_assoc).
    destruct (IH (h ++ [a])) as (? & Hk & Hans); [apply adds_ok; [done|lia|done]|rewrite length_app; cbn; lia|]. split; [done|].
    assert (Hm : (measure n (h ++ [a]) (adds a s) <= measure n h s + 8)%nat) by (unfold measure, adds; cbn [pb_casts pb_lastID pb_at]; rewrite length_app; cbn [length]; lia).
    split; [lia|]. intros Ha. by apply Hans, answers_adds.
Qed.
End Publisher.
Arguments Publishing : clear implicits.

(** ** Properties *)

(** C13. A listener is served: whatever the goroutine that feeds it, those that add entries and
    the reader do, the goroutine never walks off the buffer and the reader has received entries
    of the history in order, each at most once. From every reached state the goroutine stops
    moving after boundedly many steps; and if the reader keeps receiving and the goroutine was
    awake or had taken everything, it then waits with every kept entry taken, so that a reader
    whose history fits the buffer has received all of it. *)
Theorem listener_served {A} (maxSize batch : nat) (n : Z) (h : list A) (s : Publishing A) :
  (0 < batch)%nat -> 0 <= n -> n + Z.of_nat (length h) < 2 ^ 64 -> reached maxSize batch n h s ->
  s.(pb_at) <> Panicked /\ s.(pb_got) `sublist_of` h /\
  (forall k s', nsteps (goes batch) k s s' -> (k <= measure n h s)%nat /\ s'.(pb_at) <> Panicked) /\
  (exists s', rtc (goes batch) s s' /\ nf (goes batch) s') /\
  (served maxSize n h s -> forall s', rtc (goes batch) s s' -> nf (goes batch) s' ->
     s'.(pb_at) = Waiting /\ caught_up maxSize n h s' /\ ((length h <= maxSize)%nat -> s'.(pb_got) = h)).
Proof.
  intros Hb Hn Hlt Hr. pose proof (reached_ok maxSize batch n h s Hb Hn Hlt Hr) as Hok. split_and!.
  - exact (ok_not_panicked maxSize n h s Hok).
  - exact (po_sub maxSize n h s Hok).
  - intros k s' Hk. destruct (runs_end maxSize batch n h k s s' Hb Hn Hlt Hok Hk) as [Hok' Hle].
    split; [lia|exact (ok_not_panicked maxSize n h s' Hok')].
  - exact (comes_to_rest maxSize batch n h s Hb Hn Hlt Hok).
  - intros Hs s' Hrun Hrest. destruct (served_rtc maxSize batch n h s s' Hb Hn Hlt Hok Hrun) as (Hok' & Hw & _).
    exact (served_at_rest maxSize batch n h s' Hok' Hrest (Hw Hs)).
Qed.

(** C26. Stop: if the goroutine is before the test of the stop channel, or is sent to it by a
    Broadcast, the answer comes after boundedly many of its steps, four for each Broadcast still
    to come and for each entry not yet taken and those of the batch it sends, with eight more for
    each entry that is added meanwhile: as long as the reader is not past Stop with the goroutine
    at its end, the goroutine can go on.  At its end it never sends again; and what the reader
    had received are entries of the history in order. *)
Theorem stop_answered {A} (maxSize batch : nat) (n : Z) (h l : list A) (s s' : Publishing A) k :
  (0 < batch)%nat -> 0 <= n -> n + Z.of_nat (length h + length l) < 2 ^ 64 -> reached maxSize batch n h s -> answers s ->
  run maxSize batch k l s s' ->
  (k <= 4 * (s.(pb_casts) + Z.to_nat (n + Z.of_nat (length h) - s.(pb_lastID)) + 1) + length (pending s.(pb_at)) + 8 * length l)%nat /\
  (s'.(pb_reader) = Stopped /\ s'.(pb_at) = Done \/ exists s1, goes batch s' s1) /\
  s'.(pb_got) `sublist_of` h ++ l /\
  (s'.(pb_at) = Done -> forall s1, goes batch s' s1 -> s1.(pb_at) = Done /\ s1.(pb_got) = s'.(pb_got)).
Proof.
  intros Hb Hn Hlt Hr Ha Hrun. pose proof (reached_ok maxSize batch n h s Hb Hn ltac:(lia) Hr) as Hok.
  destruct (run_ok maxSize batch n h k l s s' Hb Hn Hlt Hok Hrun) as (Hok' & Hk & Hans). specialize (Hans Ha). split; [|split; [|split]].
  - assert (Hm : (measure n h s <= 4 * (s.(pb_casts) + Z.to_nat (n + Z.of_nat (length h) - s.(pb_lastID)) + 1) + length (pending s.(pb_at)))%nat); [|lia].
    unfold measure. destruct (pb_at s); cbn [weight pending length]; lia.
  - destruct (goes_or_rests batch s') as [Hg|Hrest]; [by right|left].
    destruct (rests_at maxSize batch n (h ++ l) s' Hok' Hrest) as [Hc Hat].
    unfold answers in Hans. by destruct (pb_reader s'); [|rewrite Hat, Hc in Hans| | |].
  - exact (po_sub maxSize n (h ++ l) s' Hok').
  - intros Hd s1 Hg. destruct Hg; cbn in *; done.
Qed.

(** ** Findings *)

(** A listener of an empty buffer: before the lock, and in the wait. *)
Definition sleepy : Publishing string := mkPublishing (mkWatcher 1 []) 0 [] Sleepy Reading 0.
Definition waiting : Publishing string := mkPublishing (mkWatcher 1 []) 0 [] Waiting Reading 0.
Lemma reached_sleepy : reached 8 2 1 [] sleepy.
Proof.
  eapply reached_goes; [eapply reached_goes; [apply reached_start|by apply (looks 2 _ _ _ _ _ 0 [])]|by apply finds_nothing].
Qed.
Lemma reached_waiting : reached 8 2 1 [] waiting.
Proof. eapply reached_goes; [exact reached_sleepy|apply waits]. Qed.

(** The lock is not held from the look to the wait: an entry that is added between them wakes
    nobody, and the listener waits for the next one although the entry is there. *)
Lemma wakeup_lost :
  exists s : Publishing string, reached 8 2 1 ["Killing"] s /\ s.(pb_reader) = Reading /\ nf (goes 2) s /\
    s.(pb_got) = [] /\ s.(pb_watcher).(wt_list) = [(2, "Killing")].
Proof.
  exists (mkPublishing (mkWatcher 2 [(2, "Killing")]) 0 [] Waiting Reading 0). split.
  - eapply reached_goes; [eapply reached_goes; [exact (reached_adds 8 2 1 [] _ "Killing" reached_sleepy)|by apply wakes_none]|apply waits].
  - split; [done|]. split; [|done]. intros [s' Hs']. inversion Hs'.
Qed.
(** A goroutine that waits does not see the stop: Stop blocks until something is added. *)
Lemma stop_blocks : exists s : Publishing string, reached 8 2 1 [] s /\ s.(pb_reader) = Asking /\ nf (goes 2) s.
Proof.
  exists (asks waiting). split; [by apply reached_asks; [exact reached_waiting|]|]. split; [done|]. intros [s' Hs']. inversion Hs'.
Qed.
(** Nor does a goroutine end whose reader left without a Stop: it keeps the next event for ever. *)
Lemma left_listener_kept :
  exists s : Publishing string, reached 8 2 1 ["Killing"] s /\ s.(pb_reader) = Gone /\ nf (goes 2) s /\ s.(pb_at) = Sending ["Killing"].
Proof.
  exists (mkPublishing (mkWatcher 2 [(2, "Killing")]) 2 [] (Sending ["Killing"]) Gone 0). split.
  - eapply reached_goes; [eapply reached_goes; [eapply reached_goes; [|by apply wakes]|]|].
    + exact (reached_adds 8 2 1 [] _ "Killing" (reached_leaves 8 2 1 [] _ reached_waiting eq_refl)).
    + by apply (looks 2 _ _ _ _ _ 2 ["Killing"]).
    + by apply takes.
  - split; [done|]. split; [|done]. intros [s' Hs']. inversion Hs'.
Qed.

(** ** Witnesses *)

Lemma listener_served_witness :
  exists s', rtc (goes 2) (adds 8 "Killing" waiting) s' /\ nf (goes 2) s' /\ s'.(pb_got) = ["Killing"].
Proof.
  destruct (listener_served 8 2 1 ["Killing"] (adds 8 "Killing" waiting) ltac:(lia) ltac:(lia) ltac:(simpl; lia)
    (reached_adds _ _ _ _ _ "Killing" reached_waiting)) as (_ & _ & _ & (s' & Hrun & Hrest) & Hall).
  exists s'. split; [exact Hrun|]. split; [exact Hrest|].
  refine (proj2 (proj2 (Hall _ s' Hrun Hrest)) _); [split; [reflexivity|left; discriminate]|simpl; lia].
Defined.
Lemma stop_answered_witness :
  exists s', rtc (goes 2) (asks (adds 8 "Killing" waiting)) s' /\ s'.(pb_reader) = Stopped /\ s'.(pb_at) = Done.
Proof.
  set (s0 := asks (adds 8 "Killing" waiting)).
  set (s1 := mkPublishing (pb_watcher s0) 0 ([] : list string) Look Asking 0). set (s2 := mkPublishing (pb_watcher s0) 0 ([] : list string) (Looked 2 ["Killing"]) Asking 0).
  set (s3 := mkPublishing (pb_watcher s0) 0 ([] : list string) Acking AwaitAck 0). set (s4 := mkPublishing (pb_watcher s0) 0 ([] : list string) Done Stopped 0).
  assert (G1 : goes 2 s0 s1) by apply wakes. assert (G2 : goes 2 s1 s2) by (by apply looks). assert (G3 : goes 2 s2 s3) by apply stops_first.
  assert (G4 : goes 2 s3 s4) by apply acks.
  destruct (stop_answered 8 2 1 ["Killing"] [] s0 s4 4 ltac:(lia) ltac:(lia) ltac:(simpl; lia)
    (reached_asks _ _ _ _ _ (reached_adds _ _ _ _ _ "Killing" reached_waiting) eq_refl) ltac:(discriminate)) as (_ & Hs & _).
  { eapply run_goes; [exact G1|]. eapply run_goes; [exact G2|]. eapply run_goes; [exact G3|]. eapply run_goes; [exact G4|apply run_ends]. }
  exists s4. split; [eapply rtc_l; [exact G1|]; eapply rtc_l; [exact G2|]; eapply rtc_l; [exact G3|]; eapply rtc_l; [exact G4|apply rtc_refl]|].
  destruct Hs as [Hs|[s5 Hs]]; [exact Hs|]. split; reflexivity.
Defined.

(** ** The listeners of alarms *)

Module AlarmFeeds.
Import Alarm.
Section Feeders.
Context {DB : Type} `{KvTable DB} `{Json Alarm}.
Abbreviation Cache := (AlarmCache DB).

(** *** States *)

(** publishEvent: before the test of the stop channel; with nothing new, before the lock; in
    cond.Wait; with alarms, the rest of which is to be sent; before the answer to a stop; at
    its end. *)
Inductive events_at := ELook | ESleepy | EWaiting | ESending (alarms : list Alarm) | EAcking | EDone.
(** publishAck: before the count; with the count that was sent last; in cond.Wait; with a new
    count; [CPanicked]: it sent on a closed channel. *)
Inductive acks_at := CLook | CSleepy | CWaiting | CSending (num : nat) | CPanicked.
Record Feeding := mkFeeding { fd_cache : Cache; fd_listener : AlarmListener; fd_events : events_at; fd_acks : acks_at; fd_reader : reader; fd_casts : nat }.
Definition listen (c : Cache) : Feeding := mkFeeding c (AddListener c) ELook CLook Reading 0.
Definition set_lastID (id : Z) (l : AlarmListener) := mkAListener id l.(ln_unAck) l.(ln_sent).
Definition set_unAck (num : nat) (l : AlarmListener) := mkAListener l.(ln_lastID) num l.(ln_sent).
Definition sends_message (m : Alarm + nat) (l : AlarmListener) := mkAListener l.(ln_lastID) l.(ln_unAck) (l.(ln_sent) ++ [m]).

(** *** Steps *)

(** What changes the alarms, and whether it ends with a Broadcast. *)
Inductive change := ChAdd (monthAgo : Z) (alarm : Alarm) | ChUpdate (alarm : Alarm) | ChDelete (cluster : string).
Definition changes (ch : change) (c : Cache) : bool * Cache :=
  match ch with
  | ChAdd monthAgo alarm => (fst (Add_locked monthAgo alarm c), Add monthAgo alarm c)
  | ChUpdate alarm => (is_ok (fst (Update alarm c)), snd (Update alarm c))
  | ChDelete cluster => (true, deleteAlarmForCluster cluster c)
  end.
Definition wake_events (p : events_at) : events_at := match p with EWaiting => ELook | _ => p end.
Definition wake_acks (q : acks_at) : acks_at := match q with CWaiting => CLook | _ => q end.
(** A step of one of the goroutines, with the reader where it takes part; and a Broadcast. *)
Inductive feeds : Feeding -> Feeding -> Prop :=
  | e_stops c l q n : feeds (mkFeeding c l ELook q Asking n) (mkFeeding c l EAcking q AwaitAck n)
  | e_finds_nothing c l q rd n : rd <> Asking -> getAlarmsAfterID l.(ln_lastID) c = [] ->
      feeds (mkFeeding c l ELook q rd n) (mkFeeding c l ESleepy q rd n)
  | e_takes c l q rd n alarms : rd <> Asking -> getAlarmsAfterID l.(ln_lastID) c = alarms -> alarms <> [] ->
      feeds (mkFeeding c l ELook q rd n) (mkFeeding c (set_lastID (u64_add l.(ln_lastID) (Z.of_nat (length alarms))) l) (ESending alarms) q rd n)
  | e_waits c l q rd n : feeds (mkFeeding c l ESleepy q rd n) (mkFeeding c l EWaiting q rd n)
  | e_sends c l q n a alarms : feeds (mkFeeding c l (ESending (a :: alarms)) q Reading n) (mkFeeding c (sends_message (inl a) l) (ESending alarms) q Reading n)
  | e_stops_sending c l q n a alarms : feeds (mkFeeding c l (ESending (a :: alarms)) q Asking n) (mkFeeding c l EAcking q AwaitAck n)
  | e_sent c l q rd n : feeds (mkFeeding c l (ESending []) q rd n) (mkFeeding c l ELook q rd n)
  | e_acks c l q n : feeds (mkFeeding c l EAcking q AwaitAck n) (mkFeeding c l EDone q Stopped n)
  | c_finds_nothing c l p rd n : l.(ln_unAck) = getUnAckNumber c -> feeds (mkFeeding c l p CLook rd n) (mkFeeding c l p CSleepy rd n)
  | c_takes c l p rd n num : l.(ln_unAck) <> num -> getUnAckNumber c = num ->
      feeds (mkFeeding c l p CLook rd n) (mkFeeding c (set_unAck num l) p (CSending num) rd n)
  | c_waits c l p rd n : feeds (mkFeeding c l p CSleepy rd n) (mkFeeding c l p CWaiting rd n)
  | c_sends c l p n num : feeds (mkFeeding c l p (CSending num) Reading n) (mkFeeding c (sends_message (inr num) l) p CLook Reading n)
  | c_panics c l p n num : feeds (mkFeeding c l p (CSending num) Stopped n) (mkFeeding c l p CPanicked Stopped n)
  | casts c l p q rd n : feeds (mkFeeding c l p q rd (S n)) (mkFeeding c l (wake_events p) (wake_acks q) rd n).
Inductive fed (c0 : Cache) : Feeding -> Prop :=
  | fed_start : fed c0 (listen c0)
  | fed_feeds s s' : fed c0 s -> feeds s s' -> fed c0 s'
  | fed_changes s ch : fed c0 s ->
      let r := changes ch s.(fd_cache) in
      fed c0 (mkFeeding r.2 s.(fd_listener) s.(fd_events) s.(fd_acks) s.(fd_reader) (s.(fd_casts) + if r.1 then 1 else 0))
  | fed_asks s : fed c0 s -> s.(fd_reader) = Reading -> fed c0 (mkFeeding s.(fd_cache) s.(fd_listener) s.(fd_events) s.(fd_acks) Asking s.(fd_casts))
  | fed_leaves s : fed c0 s -> s.(fd_reader) = Reading -> fed c0 (mkFeeding s.(fd_cache) s.(fd_listener) s.(fd_events) s.(fd_acks) Gone s.(fd_casts)).

(** *** What a reader knows *)

(** The last count that was sent. *)
Definition last_count (sent : list (Alarm + nat)) : nat :=
  default 0%nat (last (omap (fun m => match m with inr n => Some n | inl _ => None end) sent)).
Definition counts_ok (s : Feeding) : Prop :=
  match s.(fd_acks) with
  | CSending num => s.(fd_listener).(ln_unAck) = num
  | CPanicked => s.(fd_reader) = Stopped
  | _ => last_count s.(fd_listener).(ln_sent) = s.(fd_listener).(ln_unAck)
  end.
Lemma last_count_inl a sent : last_count (sent ++ [inl a]) = last_count sent.
Proof. unfold last_count, omap. rewrite omap_app. cbn. by rewrite app_nil_r. Qed.
Lemma last_count_inr n sent : last_count (sent ++ [inr n]) = n.
Proof. unfold last_count, omap. rewrite omap_app. cbn. by rewrite last_snoc. Qed.
Lemma counts_feeds s s' : feeds s s' -> counts_ok s -> counts_ok s'.
Proof.
  unfold counts_ok. intros []; cbn; auto; try (by destruct q; cbn; rewrite ?last_count_inl; auto).
  all: rewrite ?last_count_inr; auto.
Qed.
Lemma counts_fed c0 s : fed c0 s -> counts_ok s.
Proof.
  induction 1 as [|s s' _ IH Hf|s ch _ IH r|s _ IH Hr|s _ IH Hr]; [done|by apply (counts_feeds s)|exact IH| |]; revert IH; unfold counts_ok; cbn.
  all: destruct (fd_acks s); auto; congruence.
Qed.
(** The counter goes to the count, or waits with the true one. *)
Definition counting (s : Feeding) : Prop :=
  match s.(fd_acks) with
  | CLook | CSending _ => True
  | CSleepy | CWaiting => s.(fd_listener).(ln_unAck) = getUnAckNumber s.(fd_cache) \/ s.(fd_acks) = CWaiting /\ s.(fd_casts) <> 0%nat
  | CPanicked => False
  end.
Lemma counting_feeds s s' : feeds s s' -> s.(fd_reader) = Reading -> counting s -> counting s'.
Proof.
  unfold counting. intros []; cbn; intros Hr; try done; try (by destruct q; auto); try (by intros [|[]]; auto); auto.
  destruct q; cbn; auto. intros [|[]]; by auto.
Qed.
Lemma counting_runs s s' : rtc feeds s s' -> s'.(fd_reader) = Reading -> counting s -> counting s'.
Proof.
  induction 1 as [s|s s1 s' Hf Hr IH]; [done|]. intros He Hc. apply IH; [done|]. apply (counting_feeds s s1 Hf); [|done].
  enough (Hback : forall s s', rtc feeds s s' -> s'.(fd_reader) = Reading -> s.(fd_reader) = Reading) by (apply (Hback s s'); [by eapply rtc_l|done]).
  clear. induction 1 as [|s s1 s' Hf _ IH]; [done|]. intros He. specialize (IH He). by destruct Hf.
Qed.
(** At rest, a reader that was counted for has the count of the alarms nobody acknowledged. *)
Lemma counts_served c0 s s' : fed c0 s -> counting s -> rtc feeds s s' -> s'.(fd_reader) = Reading -> nf feeds s' ->
  s'.(fd_cache) = s.(fd_cache) /\ last_count s'.(fd_listener).(ln_sent) = getUnAckNumber s'.(fd_cache).
Proof.
  intros Hfed Hc Hrun Hr Hnf. pose proof (counting_runs s s' Hrun Hr Hc) as Hc'. split.
  - clear -Hrun. induction Hrun as [|s s1 s' Hf _ IH]; [done|]. rewrite IH. by destruct Hf.
  - assert (Hfed' : fed c0 s') by (clear -Hfed Hrun; induction Hrun as [|s s1 s' Hf _ IH]; [done|]; apply IH; by apply (fed_feeds c0 s)).
    pose proof (counts_fed c0 s' Hfed') as Hok. destruct s' as [c l p q rd n]. unfold counts_ok, counting in *. cbn in *. subst rd.
    destruct n as [|n]; [|exfalso; apply Hnf; eexists; apply casts].
    destruct q as [| | |num|]; try done.
    + exfalso. apply Hnf. destruct (decide (l.(ln_unAck) = getUnAckNumber c)); eexists; [by apply c_finds_nothing|by eapply c_takes].
    + exfalso. apply Hnf. eexists. apply c_waits.
    + rewrite Hok. by destruct Hc' as [|[]].
    + exfalso. apply Hnf. eexists. apply c_sends.
Qed.
End Feeders.

(** *** What goes wrong *)

Definition first_alarm : Alarm := alarm_of "a" "r" 5.
Definition cache1 : AlarmCache MemTable := Add 0 first_alarm empty_cache.
(** A reader that left, as OpenAlarm does when its socket fails, keeps both goroutines: one with
    the next alarm, the other with the next count. *)
Lemma left_feeders_kept :
  exists s, fed empty_cache s /\ s.(fd_reader) = Gone /\ nf (feeds (DB := MemTable)) s /\
    (exists a, s.(fd_events) = ESending [a]) /\ s.(fd_acks) = CSending 1.
Proof.
  set (a := set_UID 1 first_alarm). set (l := mkAListener 1 1 []).
  exists (mkFeeding cache1 l (ESending [a]) (CSending 1) Gone 0). split.
  - pose proof (fed_leaves empty_cache _ (fed_start empty_cache) eq_refl) as H0.
    pose proof (fed_changes empty_cache _ (ChAdd 0 first_alarm) H0) as H1. vm_compute in H1.
    eapply fed_feeds; [eapply fed_feeds; [eapply fed_feeds; [exact H1|]|]|].
    + by eapply (e_takes _ _ _ _ _ [a]).
    + by eapply (c_takes _ _ _ _ _ 1).
    + apply casts.
  - split; [done|]. split; [|split; [by exists a|done]]. intros [s' Hs']. inversion Hs'.
Qed.
(** publishAck listens to the stop of the cache and not to that of its listener: after the Stop
    of a listener the next count is sent on the closed channel. *)
Lemma stopped_listener_panics : exists s, fed empty_cache s /\ s.(fd_acks) = CPanicked.
Proof.
  pose proof (fed_asks empty_cache _ (fed_start empty_cache) eq_refl) as H0.
  pose proof (fed_feeds _ _ _ (fed_feeds _ _ _ H0 (e_stops _ _ _ _)) (e_acks _ _ _ _)) as H1.
  pose proof (fed_changes empty_cache _ (ChAdd 0 first_alarm) H1) as H2. vm_compute in H2.
  eexists. split; [eapply fed_feeds; [eapply fed_feeds; [exact H2|by eapply (c_takes _ _ _ _ _ 1)]|apply c_panics]|done].
Qed.
End AlarmFeeds.
