(* ===== verification/AuditLog.v ===== *)
(** The audit log (pkg/auditlog, pkg/auditlog/storage and pkg/types/auditlog.go): the
    bounded store of records, the record made of each request, and who may read it. *)
From S2P Require Import Prelude KvStore GoStrings.

(** types.AuditLog, with the identifier and the creation time of its base. *)
Record AuditLog := mkLog {
  lg_ID : string; lg_CreationTimestamp : Z; lg_UID : Z; lg_User : string; lg_SourceAddress : string;
  lg_Operation : string; lg_ResourceKind : string; lg_ResourcePath : string; lg_Detail : string
}.

Definition with_uid (uid : Z) (a : AuditLog) : AuditLog :=
  mkLog (Itoa uid) a.(lg_CreationTimestamp) uid a.(lg_User) a.(lg_SourceAddress) a.(lg_Operation)
    a.(lg_ResourceKind) a.(lg_ResourcePath) a.(lg_Detail).

(** AuditLogs.Less and sort.Sort. *)
Definition Less (a b : AuditLog) : Prop := a.(lg_UID) <= b.(lg_UID).
#[export] Instance log_Less_dec a b : Decision (Less a b).
Proof. unfold Less. apply _. Defined.
#[export] Instance log_Less_total : Total Less.
Proof. intros a b. unfold Less. lia. Qed.
#[export] Instance log_Less_trans : Transitive Less.
Proof. intros a b c. unfold Less. lia. Qed.
Definition Sort (l : list AuditLog) : list AuditLog := merge_sort Less l.

(** ** The storage driver *)

Section Storage.
Context {DB : Type} `{KvTable DB} `{Json AuditLog}.

Record DefaultDriver := mkDriver {
  dr_maxRecordCount : Z; dr_table : DB; dr_firstID : Z; dr_currentID : Z
}.
Definition set_table d (dr : DefaultDriver) :=
  mkDriver dr.(dr_maxRecordCount) d dr.(dr_firstID) dr.(dr_currentID).

Definition uintToStr (uid : Z) : string := Itoa uid.

Definition addToDB (log : AuditLog) : M DB kv_error unit :=
  let! value := lift (of_option KvJson (marshal log)) in
  with_tx (tx_add log.(lg_ID) value).

Definition deleteFromDB (id : string) : M DB kv_error unit := with_tx (tx_delete id).

Fixpoint read_logs (vs : list string) : result kv_error (list AuditLog) :=
  match vs with
  | [] => Ok []
  | v :: vs =>
      match unmarshal v with
      | None => Err KvJson
      | Some a => result_bind (read_logs vs) (fun l => Ok (a :: l))
      end
  end.

Definition listFromDB : M DB kv_error (list AuditLog) :=
  let! values := with_tx_read tx_list in
  lift (read_logs (snd <$> map_to_list values)).

Definition initDB (dr : DefaultDriver) : result kv_error unit * DefaultDriver :=
  match listFromDB dr.(dr_table) with
  | (Err e, d) => (Err e, set_table d dr)
  | (Ok logs, d) =>
      let logs := Sort logs in
      (Ok tt,
       match head logs, last logs with
       | Some f, Some l => mkDriver dr.(dr_maxRecordCount) d f.(lg_UID) l.(lg_UID)
       | _, _ => set_table d dr
       end)
  end.

Definition NewDefaultDriver (table : DB) (maxRecordCount : Z) : result kv_error unit * DefaultDriver :=
  initDB (mkDriver maxRecordCount table 0 0).

(** DefaultDriver.Add: the oldest record makes room, then the new one is stored. *)
Definition make_room (dr : DefaultDriver) : result kv_error unit * DefaultDriver :=
  if u64 (dr.(dr_maxRecordCount) - 2) <? u64_sub dr.(dr_currentID) dr.(dr_firstID) then
    match deleteFromDB (uintToStr dr.(dr_firstID)) dr.(dr_table) with
    | (Err e, d) => (Err e, set_table d dr)
    | (Ok _, d) => (Ok tt, mkDriver dr.(dr_maxRecordCount) d (u64_add dr.(dr_firstID) 1) dr.(dr_currentID))
    end
  else (Ok tt, dr).

Definition Add (a : AuditLog) (dr : DefaultDriver) : result kv_error unit * DefaultDriver :=
  match make_room dr with
  | (Err e, dr) => (Err e, dr)
  | (Ok _, dr) =>
      let a := with_uid (u64_add dr.(dr_currentID) 1) a in
      match addToDB a dr.(dr_table) with
      | (Err e, d) => (Err e, set_table d dr)
      | (Ok _, d) =>
          (Ok tt, mkDriver dr.(dr_maxRecordCount) d dr.(dr_firstID) (u64_add dr.(dr_currentID) 1))
      end
  end.

Definition List (dr : DefaultDriver) : result kv_error (list AuditLog) * DefaultDriver :=
  let (r, d) := listFromDB dr.(dr_table) in (r, set_table d dr).

(** ** The logger *)

Definition Administrator : string := "admin".
Definition MaxAuditLogCount : Z := 1000.
Definition ActionLogin : string := "login".
Definition OperationTypeCreate : string := "create".
Definition OperationTypeUpdate : string := "update".
Definition OperationTypeDelete : string := "delete".

(** A request, as far as the logger reads it: the resource and the input of its action
    are the results of encoding them ([None] is an encoding error). *)
Record Request := mkRequest {
  rq_User : option string; rq_RemoteAddr : string; rq_Kind : string; rq_Path : string;
  rq_Method : string; rq_Resource : option string; rq_Action : option (string * option string)
}.

Definition getCurrentUser (r : Request) : string := default "" r.(rq_User).

(** AuditLogger.List: newest first; a user other than the administrator sees the
    records of that user. *)
Definition LoggerList (user : string) (dr : DefaultDriver) : result kv_error (list AuditLog) * DefaultDriver :=
  match List dr with
  | (Err e, dr) => (Err e, dr)
  | (Ok logs, dr) =>
      let logs := reverse (Sort logs) in
      (Ok (if String.eqb user Administrator then logs
           else filter (fun l => l.(lg_User) = user) logs), dr)
  end.

(** The record of a request: none for a read or a login. *)
Definition method_operation (method : string) : option string :=
  if String.eqb method "POST" then Some OperationTypeCreate
  else if String.eqb method "PUT" then Some OperationTypeUpdate
  else if String.eqb method "DELETE" then Some OperationTypeDelete
  else None.

Inductive AuditError := EMarshal | EStorage.

Definition request_log (r : Request) : result AuditError (option AuditLog) :=
  match method_operation r.(rq_Method) with
  | None => Ok None
  | Some op =>
      let entry op detail :=
        mkLog "" 0 0 (getCurrentUser r) r.(rq_RemoteAddr) op r.(rq_Kind) r.(rq_Path) detail in
      let finish op detail :=
        if String.eqb op OperationTypeDelete then Ok (Some (entry op ""))
        else match detail with
             | None => Err EMarshal
             | Some d => Ok (Some (entry op d))
             end in
      match r.(rq_Action) with
      | Some (name, input) => if String.eqb name ActionLogin then Ok None else finish name input
      | None => finish op r.(rq_Resource)
      end
  end.

Definition stamp (now : Z) (a : AuditLog) : AuditLog :=
  mkLog a.(lg_ID) now a.(lg_UID) a.(lg_User) a.(lg_SourceAddress) a.(lg_Operation) a.(lg_ResourceKind)
    a.(lg_ResourcePath) a.(lg_Detail).

Definition AuditHandler (now : Z) (r : Request) (dr : DefaultDriver) : result AuditError unit * DefaultDriver :=
  match request_log r with
  | Err e => (Err e, dr)
  | Ok None => (Ok tt, dr)
  | Ok (Some log) =>
      let (res, dr) := Add (stamp now log) dr in (map_err (fun _ => EStorage) res, dr)
  end.

(** ** Invariant *)

(** The table holds the records of the numbers from the first to the current one and
    no others, each under its number, and not more than the maximum. *)
Definition holds_between (m : gmap string string) (lo hi : Z) : Prop :=
  (forall k, is_Some (m !! k) <-> exists i, lo <= i <= hi /\ k = uintToStr i) /\
  (forall k v, m !! k = Some v -> exists a, unmarshal v = Some a /\ uintToStr a.(lg_UID) = k).

Record driver_inv (dr : DefaultDriver) : Prop := {
  di_max : 2 <= dr.(dr_maxRecordCount) < 2 ^ 63;
  di_ids : 0 <= dr.(dr_firstID) <= dr.(dr_currentID);
  di_bound : dr.(dr_currentID) < 2 ^ 64;
  di_count : dr.(dr_currentID) - dr.(dr_firstID) <= dr.(dr_maxRecordCount) - 1;
  di_table : holds_between (kv_content dr.(dr_table)) (Z.max 1 dr.(dr_firstID)) dr.(dr_currentID)
}.
End Storage.
Arguments DefaultDriver : clear implicits.

Section Facts.
Context {DB : Type} `{KvTable DB} `{Json AuditLog} `{!KvLaws DB} `{!JsonLaws AuditLog}.
Local Abbreviation Driver := (DefaultDriver DB).

Lemma log_str_inj a b : uintToStr a = uintToStr b -> a = b.
Proof. apply Itoa_inj. Qed.

Lemma addToDB_effect log (d d' : DB) r :
  addToDB log d = (r, d') ->
  match r with
  | Ok _ => exists v, marshal log = Some v /\ kv_content d !! log.(lg_ID) = None /\
              kv_content d' = <[log.(lg_ID) := v]> (kv_content d)
  | Err _ => kv_content d' = kv_content d
  end.
Proof.
  unfold addToDB, bind, lift. destruct (marshal log) as [v|]; simpl.
  - intros Hr. apply with_tx_add in Hr. destruct r; naive_solver.
  - intros. by simplify_eq.
Qed.

Lemma make_room_ok (dr dr' : Driver) r :
  driver_inv dr -> make_room dr = (r, dr') ->
  driver_inv dr' /\ dr'.(dr_currentID) = dr.(dr_currentID) /\
  dr'.(dr_maxRecordCount) = dr.(dr_maxRecordCount) /\
  (forall i, dr'.(dr_firstID) <= i -> 
    kv_content dr'.(dr_table) !! uintToStr i = kv_content dr.(dr_table) !! uintToStr i) /\
  (r = Ok tt -> dr'.(dr_currentID) - dr'.(dr_firstID) <= dr.(dr_maxRecordCount) - 2).
Proof.
  intros Hinv. pose proof Hinv as [Hm Hi Hb Hc [Hk Hs]]. unfold make_room.
  unfold u64_sub. rewrite !u64_small by lia.
  destruct (Z.ltb_spec (dr_maxRecordCount dr - 2) (dr_currentID dr - dr_firstID dr)) as [Hlt|Hge].
  2: { intros. simplify_eq. split; [done|]. auto with lia. }
  destruct (deleteFromDB (uintToStr (dr_firstID dr)) (dr_table dr)) as [[[]|e] d] eqn:Hd;
    apply with_tx_delete in Hd; intros; simplify_eq; simpl.
  - unfold u64_add. rewrite u64_small by lia. split; [|split; [done|split; [done|split; [|lia]]]].
    + split; simpl; [done|lia|done|lia|]. rewrite Hd. split.
      * intros k. rewrite lookup_delete_is_Some, Hk. split.
        { intros (Hne & i & Hi' & ->). exists i. split; [|done].
          destruct (decide (i = dr_firstID dr)) as [->|]; [done|lia]. }
        { intros (i & Hi' & ->). split; [intros Heq%log_str_inj; lia|]. exists i. split; [lia|done]. }
      * intros k v Hv. apply lookup_delete_Some in Hv as [_ Hv]. by apply (Hs k v).
    + intros i Hi'. rewrite Hd, lookup_delete_ne; [done|]. intros Heq%log_str_inj. lia.
  - split; [|split; [done|split; [done|split; [by rewrite Hd|done]]]].
    split; simpl; [done|done|done|done|]. by rewrite Hd.
Qed.

(** What Add does, for the theorems below. *)
Lemma Add_inv a (dr dr' : Driver) r :
  driver_inv dr -> dr.(dr_currentID) + 1 < 2 ^ 64 -> Add a dr = (r, dr') ->
  driver_inv dr' /\
  match r with
  | Ok _ => exists v, marshal (with_uid (dr.(dr_currentID) + 1) a) = Some v /\
      kv_content dr'.(dr_table) !! uintToStr (dr.(dr_currentID) + 1) = Some v /\
      dr'.(dr_currentID) = dr.(dr_currentID) + 1 /\
      forall i, dr'.(dr_firstID) <= i <= dr.(dr_currentID) ->
        kv_content dr'.(dr_table) !! uintToStr i = kv_content dr.(dr_table) !! uintToStr i
  | Err _ => dr'.(dr_currentID) = dr.(dr_currentID)
  end.
Proof.
  intros Hinv Hb. unfold Add. destruct (make_room dr) as [r1 dr1] eqn:Hroom.
  destruct (make_room_ok _ _ _ Hinv Hroom) as (Hinv1 & Hcur & Hmax & Hsame & Hroom').
  destruct r1 as [[]|e]; [|intros; by simplify_eq].
  pose proof Hinv1 as [Hm Hi Hbd Hc [Hk Hs]].
  unfold u64_add. rewrite Hcur, u64_small by lia. set (id := dr_currentID dr + 1) in *.
  destruct (addToDB (with_uid id a) (dr_table dr1)) as [[[]|e] d] eqn:Hd; apply addToDB_effect in Hd;
    intros; simplify_eq; simpl in *.
  - destruct Hd as (v & Hv & _ & Hd). specialize (Hroom' eq_refl). split.
    + split; simpl; [done|lia|lia|lia|]. rewrite Hd. split.
      * intros k. rewrite lookup_insert_is_Some, Hk. split.
        { intros [<-|(_ & i & Hi' & ->)]; [exists id; split; [lia|done]|exists i; split; [lia|done]]. }
        { intros (i & Hi' & ->). destruct (decide (i = id)) as [->|Hne]; [by left|].
          right. split; [intros Heq%log_str_inj; congruence|]. exists i. split; [lia|done]. }
      * intros k w. destruct (decide (uintToStr id = k)) as [<-|Hne].
        { rewrite lookup_insert_eq. intros [= <-]. exists (with_uid id a).
          split; [by apply json_round_trip|done]. }
        { rewrite lookup_insert_ne by done. apply Hs. }
    + exists v. split; [done|]. split; [by rewrite Hd, lookup_insert_eq|]. split; [done|].
      intros i Hi'. rewrite Hd, lookup_insert_ne by (intros Heq%log_str_inj; lia). apply Hsame. lia.
  - split; [|done]. split; simpl; [done|done|done|done|]. by rewrite Hd.
Qed.

Lemma Add_stores a (dr dr' : Driver) :
  driver_inv dr -> dr.(dr_currentID) + 1 < 2 ^ 64 -> Add a dr = (Ok tt, dr') ->
  exists v, marshal (with_uid (dr.(dr_currentID) + 1) a) = Some v /\
    kv_content dr'.(dr_table) !! uintToStr (dr.(dr_currentID) + 1) = Some v.
Proof.
  intros Hinv Hb Ha. destruct (Add_inv _ _ _ _ Hinv Hb Ha) as (_ & v & Hv & Hk & _). by exists v.
Qed.


(** *** Reading *)

Lemma read_logs_ok (m : gmap string string) l (kvs : list (string * string)) :
  (forall kv, kv ∈ kvs -> m !! kv.1 = Some kv.2) ->
  (forall k v, m !! k = Some v -> exists a, unmarshal v = Some a /\ uintToStr a.(lg_UID) = k) ->
  read_logs (snd <$> kvs) = Ok l ->
  uintToStr <$> (lg_UID <$> l) = fst <$> kvs /\ Forall2 (fun kv a => unmarshal kv.2 = Some a) kvs l.
Proof.
  intros Hin Hs. revert l. induction kvs as [|[k v] kvs IH]; intros l Hr; simpl in Hr; [by simplify_eq|].
  destruct (Hs k v) as (a & Hv & Hk); [by apply (Hin (k, v)); left|]. rewrite Hv in Hr.
  fold (snd <$> kvs) in Hr. destruct (read_logs (snd <$> kvs)) as [l0|] eqn:Hr0; simplify_eq/=.
  destruct (IH ltac:(intros; apply Hin; by right) l0) as [Hk0 Hf]; [done|].
  split; [simpl; by f_equal|by constructor].
Qed.

Lemma listFromDB_ok (d d' : DB) l lo hi :
  holds_between (kv_content d) lo hi -> listFromDB d = (Ok l, d') ->
  kv_content d' = kv_content d /\ NoDup (lg_UID <$> l) /\
  (forall i, i ∈ lg_UID <$> l <-> lo <= i <= hi) /\
  forall a, a ∈ l <-> exists v, kv_content d !! uintToStr a.(lg_UID) = Some v /\ unmarshal v = Some a.
Proof.
  intros [Hk Hs] Hr. apply bind_inv_ok in Hr as (m & d1 & Hl & Hr). apply with_tx_read_list in Hl as [Hd ->].
  unfold lift in Hr. injection Hr as Hr <-.
  destruct (read_logs_ok _ _ _ (fun kv Hkv => ltac:(destruct kv; by apply elem_of_map_to_list)) Hs Hr) as [Hkeys Hf].
  split; [done|]. split; [|split].
  - apply (NoDup_fmap_1 uintToStr). rewrite Hkeys. apply NoDup_fst_map_to_list.
  - intros i. assert (i ∈ lg_UID <$> l <-> uintToStr i ∈ uintToStr <$> (lg_UID <$> l)) as ->.
    { rewrite (list_elem_of_fmap uintToStr). split; [intros Hi; by exists i|].
      intros (j & Heq%log_str_inj & Hj). by subst. }
    rewrite Hkeys. assert (uintToStr i ∈ (map_to_list (kv_content d)).*1 <-> is_Some (kv_content d !! uintToStr i)) as ->.
    { rewrite list_elem_of_fmap. split.
      - intros ([k v] & Heq & Hkv). simpl in Heq. apply elem_of_map_to_list in Hkv. rewrite Heq. by exists v.
      - intros [v Hv]. exists (uintToStr i, v). split; [done|]. by apply elem_of_map_to_list. }
    rewrite Hk. split; [intros (j & Hj & Heq%log_str_inj); by subst|]. intros Hi. by exists i.
  - intros a. split.
    + intros [i Hi]%list_elem_of_lookup. destruct (Forall2_lookup_r _ _ _ _ _ Hf Hi) as ([k v] & Hkv & Hv).
      apply list_elem_of_lookup_2, elem_of_map_to_list in Hkv. simpl in Hv. exists v.
      destruct (Hs k v Hkv) as (a' & Ha' & Hk'). simplify_eq. done.
    + intros (v & Hv & Ha). apply elem_of_map_to_list, list_elem_of_lookup in Hv as [i Hi].
      destruct (Forall2_lookup_l _ _ _ _ _ Hf Hi) as (a' & Ha' & Hv'). simpl in Hv'. simplify_eq.
      by eapply list_elem_of_lookup_2.
Qed.

Lemma Sort_strict l : NoDup (lg_UID <$> l) -> StronglySorted (fun a b => a.(lg_UID) < b.(lg_UID)) (Sort l).
Proof.
  intros Hnd. assert (Hp : Sort l ≡ₚ l) by apply merge_sort_Permutation.
  assert (Hs : StronglySorted Less (Sort l)) by (apply StronglySorted_merge_sort; apply _).
  assert (Hnd' : NoDup (lg_UID <$> Sort l)) by by rewrite Hp. clear Hp Hnd.
  induction (Sort l) as [|a s IH]; [constructor|]. rewrite fmap_cons in Hnd'. apply NoDup_cons in Hnd' as [Ha Hnd].
  apply StronglySorted_inv in Hs as [Hs Hle]. constructor; [auto|].
  rewrite Forall_forall in Hle. rewrite Forall_forall. intros b Hb. specialize (Hle b Hb). unfold Less in Hle.
  assert (al : lg_UID b ∈ lg_UID <$> s) by (by apply list_elem_of_fmap_2).
  assert (lg_UID a <> lg_UID b) by (intros Heq; apply Ha; by rewrite Heq). lia.
Qed.

Lemma StronglySorted_filter {A} (R : A -> A -> Prop) (P : A -> Prop) `{!forall x, Decision (P x)} l :
  StronglySorted R l -> StronglySorted R (filter P l).
Proof.
  induction l as [|a l IH]; intros Hs; [constructor|]. apply StronglySorted_inv in Hs as [Hs Ha].
  rewrite filter_cons. case_decide; [|auto]. constructor; [auto|].
  rewrite Forall_forall in Ha. rewrite Forall_forall. intros b Hb. apply Ha.
  by apply list_elem_of_filter in Hb as [].
Qed.

Lemma StronglySorted_reverse {A} (R : A -> A -> Prop) l :
  StronglySorted R l -> StronglySorted (fun a b => R b a) (reverse l).
Proof.
  induction l as [|a l IH]; intros Hs; [constructor|]. apply StronglySorted_inv in Hs as [Hs Ha].
  rewrite reverse_cons. apply StronglySorted_app. split; [|split; [auto|repeat constructor]].
  intros x y Hx Hy%list_elem_of_singleton. subst. rewrite Forall_forall in Ha. apply Ha.
  by rewrite elem_of_reverse in Hx.
Qed.

(** Reading the log: the administrator gets every stored record, anyone else exactly
    the records of that user, newest first in both cases and nothing twice. *)
Lemma List_shows user (dr dr' : Driver) l :
  driver_inv dr -> LoggerList user dr = (Ok l, dr') ->
  StronglySorted (fun a b => b.(lg_UID) < a.(lg_UID)) l /\
  forall a, a ∈ l <->
    (user = Administrator \/ a.(lg_User) = user) /\
    exists v, kv_content dr.(dr_table) !! uintToStr a.(lg_UID) = Some v /\ unmarshal v = Some a.
Proof.
  intros Hinv. unfold LoggerList, List. destruct (listFromDB (dr_table dr)) as [[l0|e] d] eqn:Hl; [|done].
  destruct (listFromDB_ok _ _ _ _ _ (di_table _ Hinv) Hl) as (_ & Hnd & _ & Hin).
  intros [= <- <-].
  pose proof (StronglySorted_reverse _ _ (Sort_strict l0 Hnd)) as Hs.
  assert (Hp : forall a, a ∈ reverse (Sort l0) <-> a ∈ l0).
  { intros a. rewrite elem_of_reverse. unfold Sort. by rewrite merge_sort_Permutation. }
  destruct (String.eqb_spec user Administrator) as [->|Hne].
  - split; [done|]. intros a. rewrite Hp, Hin. tauto.
  - split; [by apply StronglySorted_filter|]. intros a. rewrite list_elem_of_filter, Hp, Hin. naive_solver.
Qed.

(** Restart: a driver opened on a table of consecutive records goes on from it, with
    the first and the current number of the records. *)
Lemma NewDefaultDriver_resumes (table : DB) maxRecordCount lo hi dr :
  2 <= maxRecordCount < 2 ^ 63 -> 1 <= lo <= hi -> hi < 2 ^ 64 -> hi - lo <= maxRecordCount - 1 ->
  holds_between (kv_content table) lo hi ->
  NewDefaultDriver table maxRecordCount = (Ok tt, dr) ->
  driver_inv dr /\ dr.(dr_firstID) = lo /\ dr.(dr_currentID) = hi.
Proof.
  intros Hmax Hlo Hb Hc Ht. unfold NewDefaultDriver, initDB. simpl.
  destruct (listFromDB table) as [[l|e] d] eqn:Hl; [|done].
  destruct (listFromDB_ok _ _ _ _ _ Ht Hl) as (Hd & Hnd & Hu & _).
  pose proof (Sort_strict l Hnd) as Hs.
  assert (Hp : forall i, i ∈ lg_UID <$> Sort l <-> lo <= i <= hi).
  { intros i. rewrite <- Hu. unfold Sort. by rewrite merge_sort_Permutation. }
  assert (Hmin : exists f, head (Sort l) = Some f /\ f.(lg_UID) = lo).
  { destruct (Sort l) as [|f s]; [by assert (lo ∈ (lg_UID <$> [] : list Z)) as Hn%elem_of_nil by (apply Hp; lia)|].
    exists f. split; [done|]. apply StronglySorted_inv in Hs as [_ Hf]. rewrite Forall_forall in Hf.
    assert (lo <= lg_UID f <= hi) by (apply Hp; left).
    assert (Hin : lo ∈ lg_UID <$> f :: s) by (apply Hp; lia). rewrite fmap_cons in Hin.
    apply elem_of_cons in Hin as [Hin|Hin]; [done|].
    apply list_elem_of_fmap in Hin as (b & -> & Hb'). specialize (Hf b Hb'). lia. }
  assert (Hmaxi : exists g, last (Sort l) = Some g /\ g.(lg_UID) = hi).
  { destruct (last (Sort l)) as [g|] eqn:Hlast.
    - exists g. split; [done|]. apply last_Some in Hlast as [s Hsl]. rewrite Hsl in Hs, Hp.
      apply StronglySorted_app in Hs as (Hlt & _).
      assert (lo <= lg_UID g <= hi) by (apply Hp; rewrite fmap_app; set_solver).
      assert (Hin : hi ∈ lg_UID <$> s ++ [g]) by (apply Hp; lia). rewrite fmap_app in Hin.
      apply elem_of_app in Hin as [Hin|Hin]; [|by apply list_elem_of_singleton in Hin].
      apply list_elem_of_fmap in Hin as (b & -> & Hb'). specialize (Hlt b g Hb' ltac:(left)). lia.
    - apply last_None in Hlast. destruct Hmin as (f & Hf & _). by rewrite Hlast in Hf. }
  destruct Hmin as (f & Hf & Hflo), Hmaxi as (g & Hg & Hghi). simpl. rewrite Hf, Hg. intros [= <-].
  simpl. split; [|done]. split; simpl; [done|lia|lia|lia|]. rewrite Hflo, Hghi, Hd.
  by replace (Z.max 1 lo) with lo by lia.
Qed.

(** A request that leaves no record. *)
Definition unrecorded (rq : Request) : Prop :=
  method_operation rq.(rq_Method) = None \/ exists input, rq.(rq_Action) = Some (ActionLogin, input).

(** The operation, and the content it is recorded with. *)
Definition operation_of (rq : Request) (name : string) (content : option string) : Prop :=
  match rq.(rq_Action) with
  | Some (n, input) => n = name /\ input = content
  | None => method_operation rq.(rq_Method) = Some name /\ rq.(rq_Resource) = content
  end.

Lemma request_log_spec rq :
  match request_log rq with
  | Ok None => unrecorded rq
  | Ok (Some log) => ~ unrecorded rq /\ exists name content d, operation_of rq name content /\
      (if String.eqb name OperationTypeDelete then d = "" else content = Some d) /\
      log = mkLog "" 0 0 (getCurrentUser rq) rq.(rq_RemoteAddr) name rq.(rq_Kind) rq.(rq_Path) d
  | Err _ => ~ unrecorded rq
  end.
Proof.
  unfold request_log, unrecorded, operation_of.
  destruct (method_operation (rq_Method rq)) as [op|] eqn:Hm; [|by left].
  destruct (rq_Action rq) as [[name input]|] eqn:Ha.
  - destruct (String.eqb_spec name ActionLogin) as [->|Hne]; [right; by exists input|].
    assert (Hnot : ~ (Some op = None \/ exists i, Some (name, input) = Some (ActionLogin, i))).
    { intros [|[i Hi]]; [done|]. by injection Hi. }
    destruct (String.eqb name OperationTypeDelete) eqn:Hd.
    + split; [done|]. exists name, input, "". by rewrite Hd.
    + destruct input as [d|]; [|done]. split; [done|]. exists name, (Some d), d. by rewrite Hd.
  - assert (Hnot : ~ (Some op = None \/ exists i : option string, None = Some (ActionLogin, i)))
      by (intros [|[i Hi]]; done).
    destruct (String.eqb op OperationTypeDelete) eqn:Hd.
    + split; [done|]. exists op, (rq_Resource rq), "". by rewrite Hd.
    + destruct (rq_Resource rq) as [d|]; [|done]. split; [done|]. exists op, (Some d), d. by rewrite Hd.
Qed.

(** What is recorded: a read or a login leaves no record; any other request that the
    handler lets through was recorded under the next number, with its user, path,
    operation (the action's name, if it has one) and, unless it deletes, its content. *)
Lemma AuditHandler_records now rq (dr dr' : Driver) :
  driver_inv dr -> dr.(dr_currentID) + 1 < 2 ^ 64 -> AuditHandler now rq dr = (Ok tt, dr') ->
  (unrecorded rq -> dr' = dr) /\
  (~ unrecorded rq -> exists name content d v, operation_of rq name content /\
     (if String.eqb name OperationTypeDelete then d = "" else content = Some d) /\
     kv_content dr'.(dr_table) !! uintToStr (dr.(dr_currentID) + 1) = Some v /\
     unmarshal v = Some (with_uid (dr.(dr_currentID) + 1)
       (mkLog "" now 0 (getCurrentUser rq) rq.(rq_RemoteAddr) name rq.(rq_Kind) rq.(rq_Path) d))).
Proof.
  intros Hinv Hb. unfold AuditHandler. pose proof (request_log_spec rq) as Hspec.
  destruct (request_log rq) as [[log|]|e]; [| |done].
  - destruct Hspec as (Hnot & name & content & d & Hop & Hd & ->).
    match goal with |- context [Add ?l dr] => destruct (Add l dr) as [[[]|e] dr1] eqn:Ha end; simpl; [|done].
    intros [= <-]. split; [done|]. intros _.
    destruct (Add_stores _ _ _ Hinv Hb Ha) as (v & Hv & Hk). exists name, content, d, v.
    do 3 (split; [done|]). by apply json_round_trip.
  - intros [= <-]. split; [done|]. intros Hn. by destruct Hn.
Qed.
End Facts.

(** ** Examples *)

#[export] Instance AuditLog_tree : Treeable AuditLog.
Proof.
  apply (iso_tree (fun a => (a.(lg_ID), a.(lg_CreationTimestamp), a.(lg_UID), a.(lg_User), a.(lg_SourceAddress),
    a.(lg_Operation), a.(lg_ResourceKind), a.(lg_ResourcePath), a.(lg_Detail)))
    (fun '(a, b, c, d, e, f, g, h, i) => mkLog a b c d e f g h i)). by intros [].
Defined.
#[export] Instance AuditLog_json : Json AuditLog := tree_json _ _.
#[export] Instance AuditLog_json_laws : JsonLaws AuditLog := tree_json_laws _ _.

Definition new_driver : DefaultDriver MemTable := mkDriver 3 (mem_table ∅) 0 0.
Definition some_log : AuditLog := mkLog "" 0 0 "zhang" "10.0.0.7" "create" "cluster" "/clusters" "{}".
Definition logged : DefaultDriver MemTable := snd (Add some_log new_driver).

Lemma new_driver_inv : driver_inv new_driver.
Proof.
  split; simpl; [lia|lia|lia|lia|]. split; [|done]. intros k. split; [by intros [v Hv]|].
  intros (i & Hi & _). lia.
Qed.

Lemma Add_to_eq a (dr : DefaultDriver MemTable) :
  is_ok (fst (Add a dr)) = true -> Add a dr = (Ok tt, snd (Add a dr)).
Proof. by destruct (Add a dr) as [[[]|e] d]. Qed.

Lemma logged_inv : driver_inv logged.
Proof.
  destruct (Add_inv some_log new_driver logged (Ok tt) new_driver_inv) as [Hi _]; [simpl; lia| |exact Hi].
  apply Add_to_eq. vm_compute. reflexivity.
Qed.


Lemma List_shows_witness :
  exists l, fst (LoggerList "zhang" logged) = Ok l /\
    StronglySorted (fun a b => b.(lg_UID) < a.(lg_UID)) l.
Proof.
  destruct (LoggerList "zhang" logged) as [[l|e] d] eqn:Hl.
  - exists l. split; [reflexivity|]. exact (proj1 (List_shows "zhang" logged d l logged_inv Hl)).
  - apply (f_equal fst) in Hl. vm_compute in Hl. discriminate Hl.
Defined.

Lemma NewDefaultDriver_resumes_witness :
  exists dr, NewDefaultDriver logged.(dr_table) 3 = (Ok tt, dr) /\ dr.(dr_currentID) = 1.
Proof.
  destruct (NewDefaultDriver logged.(dr_table) 3) as [[[]|e] dr] eqn:Hn.
  - exists dr. split; [reflexivity|].
    apply (NewDefaultDriver_resumes logged.(dr_table) 3 1 1 dr ltac:(lia) ltac:(lia) ltac:(lia) ltac:(lia)
      (di_table _ logged_inv) Hn).
  - apply (f_equal fst) in Hn. vm_compute in Hn. discriminate Hn.
Defined.

Definition some_request : Request :=
  mkRequest (Some "zhang") "10.0.0.7" "cluster" "/clusters" "POST" (Some "{}") None.

Lemma AuditHandler_records_witness :
  exists name content d v, operation_of some_request name content /\
    (if String.eqb name OperationTypeDelete then d = "" else content = Some d) /\
    kv_content (snd (AuditHandler 9 some_request logged)).(dr_table) !! uintToStr (logged.(dr_currentID) + 1) = Some v /\
    unmarshal v = Some (with_uid (logged.(dr_currentID) + 1) (mkLog "" 9 0 "zhang" "10.0.0.7" name "cluster" "/clusters" d)).
Proof.
  assert (Hr : AuditHandler 9 some_request logged = (Ok tt, snd (AuditHandler 9 some_request logged)))
    by (vm_compute; reflexivity).
  apply (AuditHandler_records 9 some_request logged _ logged_inv ltac:(vm_compute; reflexivity) Hr).
  intros [Hu|[i Hi]]; discriminate.
Defined.
