(* ===== verification/Authorizer.v ===== *)
(** Authorization (pkg/authorization and pkg/types/user.go): the projects of each user,
    kept in memory and in a table, and the decision whether a user may act in a namespace
    of a cluster.  Times are in seconds, as they are stored. *)
From S2P Require Import Prelude KvStore.

(** ** The resources (pkg/types/user.go) *)

Record Project := mkProject { pj_Cluster : string; pj_Namespace : string }.
#[export] Instance Project_eq_dec : EqDecision Project.
Proof. solve_decision. Defined.

Record User := mkUser {
  us_ID : string; us_Name : string; us_Password : string; us_Projects : list Project;
  us_CreationTimestamp : Z; us_DeletionTimestamp : Z
}.

Definition Administrator : string := "admin".
Definition AllNamespaces : string := "_all_namespaces".
Definition AllClusters : string := "_all_clusters".

(** ** The authorizer *)

(** authorization.User, what the table stores of a user. *)
Record AuthUser := mkAuthUser {
  au_Projects : list Project; au_CreationTimestamp : Z; au_DeletionTimestamp : Z
}.

Inductive AuthError := EUserExists | EUserUnknown | EUserTable (e : kv_error).
#[export] Instance AuthError_eq_dec : EqDecision AuthError.
Proof. solve_decision. Defined.

(** The zero time.Time, in seconds since 1970, and 2019-02-28T00:00:00Z. *)
Definition zero_time : Z := -62135596800.
Definition zcloudStartTime : Z := 1551312000.

Definition adminUser : User :=
  mkUser Administrator Administrator "" [mkProject AllClusters AllNamespaces] zcloudStartTime zero_time.

Section Authorizer.
Context {DB : Type} `{KvTable DB} `{Json AuthUser}.

Record Authorizer := mkAuthorizer { az_users : gmap string AuthUser; az_db : DB }.

(** *** The table *)

Definition loadUsers : M DB kv_error (gmap string AuthUser) :=
  let! usersInDB := with_tx_view tx_list in lift (decode_entries unmarshal (map_to_list usersInDB)).
Definition addUser (name : string) (user : AuthUser) : M DB kv_error unit :=
  with_tx (let! data := lift (of_option KvJson (marshal user)) in tx_add name data).
Definition deleteUser (userName : string) : M DB kv_error unit := with_tx (tx_delete userName).
Definition updateUser (name : string) (user : AuthUser) : M DB kv_error unit :=
  with_tx (let! data := lift (of_option KvJson (marshal user)) in tx_update name data).

(** *** The operations *)

Definition AddUser (user : User) (a : Authorizer) : result AuthError unit * Authorizer :=
  let name := user.(us_ID) in
  match a.(az_users) !! name with
  | Some _ => (Err EUserExists, a)
  | None =>
      let user_ := mkAuthUser user.(us_Projects) user.(us_CreationTimestamp) zero_time in
      match addUser name user_ a.(az_db) with
      | (Err e, d) => (Err (EUserTable e), mkAuthorizer a.(az_users) d)
      | (Ok _, d) => (Ok tt, mkAuthorizer (<[name := user_]> a.(az_users)) d)
      end
  end.

Definition HasUser (userName : string) (a : Authorizer) : bool := bool_decide (is_Some (a.(az_users) !! userName)).

Definition to_user (name : string) (user_ : AuthUser) : User :=
  mkUser name name "" user_.(au_Projects) user_.(au_CreationTimestamp) user_.(au_DeletionTimestamp).

Definition GetUser (userName : string) (a : Authorizer) : option User :=
  to_user userName <$> a.(az_users) !! userName.

(** The users in some order, that of a walk over the map. *)
Definition ListUser (a : Authorizer) : list User := (fun '(name, u) => to_user name u) <$> map_to_list a.(az_users).

Definition DeleteUser (user : string) (a : Authorizer) : result AuthError unit * Authorizer :=
  match a.(az_users) !! user with
  | Some _ =>
      match deleteUser user a.(az_db) with
      | (Err e, d) => (Err (EUserTable e), mkAuthorizer a.(az_users) d)
      | (Ok _, d) => (Ok tt, mkAuthorizer (delete user a.(az_users)) d)
      end
  | None => (Err EUserUnknown, a)
  end.

(** The projects are replaced in memory before the table is written. *)
Definition UpdateUser (user : User) (a : Authorizer) : result AuthError unit * Authorizer :=
  let name := user.(us_ID) in
  match a.(az_users) !! name with
  | None => (Err EUserUnknown, a)
  | Some user_ =>
      let user_ := mkAuthUser user.(us_Projects) user_.(au_CreationTimestamp) user_.(au_DeletionTimestamp) in
      let (r, d) := updateUser name user_ a.(az_db) in
      (map_err EUserTable r, mkAuthorizer (<[name := user_]> a.(az_users)) d)
  end.

Definition project_allows (cluster namespace : string) (p : Project) : bool :=
  (String.eqb p.(pj_Cluster) AllClusters || String.eqb p.(pj_Cluster) cluster) &&
  (String.eqb namespace "" || String.eqb p.(pj_Namespace) AllNamespaces || String.eqb p.(pj_Namespace) namespace).

Definition Authorize (userName cluster namespace : string) (a : Authorizer) : bool :=
  if String.eqb userName Administrator then true
  else match a.(az_users) !! userName with
       | None => false
       | Some user => existsb (project_allows cluster namespace) user.(au_Projects)
       end.

(** New: the error of adding the administrator is dropped. *)
Definition New (table : DB) : result kv_error Authorizer * DB :=
  match loadUsers table with
  | (Err e, d) => (Err e, d)
  | (Ok users, d) =>
      let auth := mkAuthorizer users d in
      let auth := match users !! Administrator with
                  | Some _ => auth
                  | None => snd (AddUser adminUser auth)
                  end in
      (Ok auth, auth.(az_db))
  end.

(** ** Invariant *)

Definition authorizer_ok (a : Authorizer) : Prop := mirrors unmarshal a.(az_users) (kv_content a.(az_db)).
End Authorizer.
Arguments Authorizer : clear implicits.
Arguments authorizer_ok {_ _ _} _ : simpl never.

(** The calls that change the users. *)
Inductive UserCall := CallAdd (user : User) | CallDelete (user : string) | CallUpdate (user : User).

Definition run_call {DB} `{KvTable DB} `{Json AuthUser} (c : UserCall)
    : Authorizer DB -> result AuthError unit * Authorizer DB :=
  match c with
  | CallAdd user => AddUser user
  | CallDelete user => DeleteUser user
  | CallUpdate user => UpdateUser user
  end.

(** What the table is to hold after a call that worked. *)
Definition call_effect (c : UserCall) (users : gmap string AuthUser) : gmap string AuthUser :=
  match c with
  | CallAdd user =>
      <[user.(us_ID) := mkAuthUser user.(us_Projects) user.(us_CreationTimestamp) zero_time]> users
  | CallDelete user => delete user users
  | CallUpdate user =>
      alter (fun u => mkAuthUser user.(us_Projects) u.(au_CreationTimestamp) u.(au_DeletionTimestamp))
        user.(us_ID) users
  end.

(** A grant read off the projects. *)
Definition grants (projects : list Project) (cluster namespace : string) : Prop :=
  exists p, p ∈ projects /\
    (p.(pj_Cluster) = AllClusters \/ p.(pj_Cluster) = cluster) /\
    (namespace = "" \/ p.(pj_Namespace) = AllNamespaces \/ p.(pj_Namespace) = namespace).

Section Facts.
Context {DB : Type} `{KvTable DB} `{Json AuthUser} `{!KvLaws DB} `{!JsonLaws AuthUser}.
Implicit Types a : Authorizer DB.

Lemma addUser_effect name user (d d' : DB) r :
  addUser name user d = (r, d') ->
  match r with
  | Ok _ => exists v, unmarshal v = Some user /\ kv_content d' = <[name := v]> (kv_content d)
  | Err _ => kv_content d' = kv_content d
  end.
Proof.
  intros Hr. apply with_tx_marshal_add in Hr. destruct r; [|done]. destruct Hr as (v & Hv & _ & Hd).
  exists v. split; [by apply json_round_trip|done].
Qed.

Lemma updateUser_effect name user (d d' : DB) r :
  updateUser name user d = (r, d') ->
  match r with
  | Ok _ => exists v, unmarshal v = Some user /\ kv_content d' = <[name := v]> (kv_content d)
  | Err _ => kv_content d' = kv_content d
  end.
Proof.
  intros Hr. apply with_tx_marshal_update in Hr. destruct r; [|done]. destruct Hr as (v & Hv & _ & Hd).
  exists v. split; [by apply json_round_trip|done].
Qed.

Lemma loadUsers_ok (d d' : DB) us :
  loadUsers d = (Ok us, d') -> kv_content d' = kv_content d /\ mirrors unmarshal us (kv_content d).
Proof.
  intros Hl. apply bind_inv_ok in Hl as (m & d1 & Hv & Hl). apply with_tx_view_list in Hv as [Hd ->].
  unfold lift in Hl. injection Hl as Hl <-. split; [done|]. by apply decode_entries_mirrors.
Qed.

Lemma AddUser_cases user a r a' :
  authorizer_ok a -> AddUser user a = (r, a') ->
  match r with
  | Ok _ => authorizer_ok a' /\ a.(az_users) !! user.(us_ID) = None /\
      a'.(az_users) = call_effect (CallAdd user) a.(az_users)
  | Err e => kv_content a'.(az_db) = kv_content a.(az_db) /\ a'.(az_users) = a.(az_users) /\
      (e = EUserExists <-> is_Some (a.(az_users) !! user.(us_ID)))
  end.
Proof.
  intros Hok. unfold AddUser. destruct (az_users a !! us_ID user) as [u|] eqn:Hu.
  - intros [= <- <-]. split; [done|]. split; [done|]. split; [by eexists|done].
  - destruct (addUser _ _ _) as [[[]|e] d] eqn:Ha; apply addUser_effect in Ha; intros [= <- <-]; simpl.
    + destruct Ha as (v & Hv & Hd). split; [|done]. unfold authorizer_ok. simpl. rewrite Hd. by apply mirrors_insert.
    + split; [done|]. split; [done|]. split; [done|]. by intros [? ?].
Qed.

Lemma DeleteUser_cases user a r a' :
  authorizer_ok a -> DeleteUser user a = (r, a') ->
  match r with
  | Ok _ => authorizer_ok a' /\ is_Some (a.(az_users) !! user) /\
      a'.(az_users) = call_effect (CallDelete user) a.(az_users)
  | Err e => kv_content a'.(az_db) = kv_content a.(az_db) /\ a'.(az_users) = a.(az_users) /\
      (e = EUserUnknown <-> a.(az_users) !! user = None)
  end.
Proof.
  intros Hok. unfold DeleteUser. destruct (az_users a !! user) as [u|] eqn:Hu.
  - destruct (deleteUser _ _) as [[[]|e] d] eqn:Ha; apply with_tx_delete in Ha; intros [= <- <-]; simpl.
    + split; [|split; [by eexists|done]]. unfold authorizer_ok. simpl. rewrite Ha. by apply mirrors_delete.
    + split; [done|]. split; [done|]. split; done.
  - intros [= <- <-]. done.
Qed.

Lemma alter_insert_alt {A} (f : A -> A) (m : gmap string A) k x : m !! k = Some x -> alter f k m = <[k := f x]> m.
Proof.
  intros Hk. apply map_eq. intros i. destruct (decide (i = k)) as [->|Hne].
  - by rewrite lookup_alter_eq, lookup_insert_eq, Hk.
  - by rewrite lookup_alter_ne, lookup_insert_ne by done.
Qed.

Lemma UpdateUser_cases user a r a' :
  authorizer_ok a -> UpdateUser user a = (r, a') ->
  match r with
  | Ok _ => authorizer_ok a' /\ is_Some (a.(az_users) !! user.(us_ID)) /\
      a'.(az_users) = call_effect (CallUpdate user) a.(az_users)
  | Err e => kv_content a'.(az_db) = kv_content a.(az_db) /\
      match e with
      | EUserUnknown => a.(az_users) !! user.(us_ID) = None /\ a'.(az_users) = a.(az_users)
      | _ => a'.(az_users) = call_effect (CallUpdate user) a.(az_users)
      end
  end.
Proof.
  intros Hok. unfold UpdateUser. destruct (az_users a !! us_ID user) as [u|] eqn:Hu.
  - destruct (updateUser _ _ _) as [[[]|e] d] eqn:Ha; apply updateUser_effect in Ha; intros [= <- <-]; simpl;
      rewrite (alter_insert_alt _ _ _ _ Hu); simpl.
    + destruct Ha as (v & Hv & Hd). split; [|split; [by eexists|done]].
      unfold authorizer_ok. simpl. rewrite Hd. by apply mirrors_insert.
    + done.
  - by intros [= <- <-].
Qed.

Lemma Authorize_spec (name cluster namespace : string) a :
  Authorize name cluster namespace a = true <->
  name = Administrator \/
  exists user, a.(az_users) !! name = Some user /\ grants user.(au_Projects) cluster namespace.
Proof.
  unfold Authorize. destruct (String.eqb_spec name Administrator) as [->|Hne]; [by split; [left|]|].
  destruct (az_users a !! name) as [user|]; [|naive_solver].
  rewrite existsb_exists. unfold grants, project_allows.
  setoid_rewrite andb_true_iff. setoid_rewrite orb_true_iff. setoid_rewrite orb_true_iff.
  setoid_rewrite String.eqb_eq. setoid_rewrite <- list_elem_of_In. split.
  - intros (p & Hp & ?). right. exists user. split; [done|]. exists p. tauto.
  - intros [?|(user' & [= <-] & p & Hp & ?)]; [done|]. exists p. tauto.
Qed.

(** C37. Who may act where: the administrator everywhere, anyone else exactly where one of
    the user's projects names the cluster and, when a namespace is asked for, the
    namespace. *)
Theorem Authorize_iff (name cluster namespace : string) a :
  Authorize name cluster namespace a = true <->
  name = Administrator \/
  exists user, a.(az_users) !! name = Some user /\ grants user.(au_Projects) cluster namespace.
Proof. apply Authorize_spec. Qed.

Lemma run_call_cases (c : UserCall) a r a' :
  authorizer_ok a -> run_call c a = (r, a') ->
  match r with
  | Ok _ => authorizer_ok a' /\ a'.(az_users) = call_effect c a.(az_users)
  | Err e => kv_content a'.(az_db) = kv_content a.(az_db) /\
      (a'.(az_users) = a.(az_users) \/
       (exists user, c = CallUpdate user) /\ a'.(az_users) = call_effect c a.(az_users))
  end.
Proof.
  intros Hok Hr. destruct c; simpl in Hr.
  - apply AddUser_cases in Hr; [|done]. destruct r; naive_solver.
  - apply DeleteUser_cases in Hr; [|done]. destruct r; naive_solver.
  - apply UpdateUser_cases in Hr; [|done]. destruct r as [|[]]; naive_solver.
Qed.

(** Every call on the authorizer does all of what it says or fails: when it works the
    users in memory change exactly so and are still what the table holds; when it fails
    the table is as it was, and so is the memory, except that an update of a known user
    is in force although it was not stored. *)
Lemma run_call_effect (c : UserCall) a r a' :
  authorizer_ok a -> run_call c a = (r, a') ->
  match r with
  | Ok _ => authorizer_ok a' /\ a'.(az_users) = call_effect c a.(az_users)
  | Err e => kv_content a'.(az_db) = kv_content a.(az_db) /\
      (a'.(az_users) = a.(az_users) \/
       (exists user, c = CallUpdate user) /\ a'.(az_users) = call_effect c a.(az_users))
  end.
Proof. apply run_call_cases. Qed.

(** A sequence of calls none of which is an update that failed. *)
Inductive calls : Authorizer DB -> Authorizer DB -> Prop :=
  | calls_none a : calls a a
  | calls_ok a a1 a2 c : calls a a1 -> run_call c a1 = (Ok tt, a2) -> calls a a2
  | calls_err a a1 a2 c e :
      calls a a1 -> run_call c a1 = (Err e, a2) -> (forall user, c <> CallUpdate user) -> calls a a2.

Lemma calls_mirror a a' : calls a a' -> authorizer_ok a -> authorizer_ok a'.
Proof.
  intros Hc Hok. induction Hc as [a|a a1 a2 c Hc IH Hr|a a1 a2 c e Hc IH Hr Hne]; [done| |];
    specialize (IH Hok); pose proof (run_call_cases _ _ _ _ IH Hr) as Hcases; simpl in Hcases.
  - by destruct Hcases.
  - destruct Hcases as (Hd & [Hu|[[user Hu] _]]); [|by destruct (Hne user)].
    unfold authorizer_ok in *. by rewrite Hd, Hu.
Qed.

Lemma New_users (table d : DB) a :
  New table = (Ok a, d) ->
  exists us, mirrors unmarshal us (kv_content table) /\
    (is_Some (us !! Administrator) -> a.(az_users) = us /\ kv_content a.(az_db) = kv_content table) /\
    authorizer_ok a.
Proof.
  unfold New. destruct (loadUsers table) as [[us|e] d1] eqn:Hl; [|done]. apply loadUsers_ok in Hl as [Hd Hm].
  assert (Hok : authorizer_ok (mkAuthorizer us d1)) by (unfold authorizer_ok; simpl; by rewrite Hd).
  intros [= <- <-]. exists us. split; [done|]. destruct (us !! Administrator) as [u|] eqn:Hadm; [done|].
  split; [by intros [? ?]|]. destruct (AddUser adminUser _) as [r a] eqn:Ha. simpl.
  apply AddUser_cases in Ha; [|done]. destruct r as [[]|e].
  - by destruct Ha.
  - destruct Ha as (Hd' & Hu & _). unfold authorizer_ok in *. by rewrite Hd', Hu.
Qed.

(** Restart: after any calls in which no update failed, an authorizer that is
    opened on the table again decides every request the same way. *)
Lemma New_restores a0 a (d : DB) a' :
  authorizer_ok a0 -> calls a0 a -> is_Some (a.(az_users) !! Administrator) ->
  New a.(az_db) = (Ok a', d) ->
  a'.(az_users) = a.(az_users) /\
  forall name cluster namespace, Authorize name cluster namespace a' = Authorize name cluster namespace a.
Proof.
  intros Hok Hc Hadm Hn. apply (calls_mirror _ _ Hc) in Hok. apply New_users in Hn as (us & Hm & Hus & _).
  assert (us = az_users a) as -> by by eapply mirrors_unique.
  destruct (Hus Hadm) as [Hu _]. split; [done|]. intros. unfold Authorize. by rewrite Hu.
Qed.

(** An update whose write fails is in force until the next restart. *)
Lemma failed_update_is_in_force user user_ a e (d : DB) :
  a.(az_users) !! user.(us_ID) = Some user_ ->
  updateUser user.(us_ID)
    (mkAuthUser user.(us_Projects) user_.(au_CreationTimestamp) user_.(au_DeletionTimestamp)) a.(az_db) = (Err e, d) ->
  exists a', UpdateUser user a = (Err (EUserTable e), a') /\ kv_content a'.(az_db) = kv_content a.(az_db) /\
    forall cluster namespace, grants user.(us_Projects) cluster namespace ->
      Authorize user.(us_ID) cluster namespace a' = true.
Proof.
  intros Hu He. unfold UpdateUser. rewrite Hu, He. eexists. split; [reflexivity|]. split.
  - by apply updateUser_effect in He.
  - intros c ns Hg. apply Authorize_spec. right. eexists. simpl. by rewrite lookup_insert_eq.
Qed.
End Facts.

(** ** Examples *)

#[export] Instance Project_tree : Treeable Project.
Proof.
  apply (iso_tree (fun p => (p.(pj_Cluster), p.(pj_Namespace))) (fun '(c, n) => mkProject c n)). by intros [].
Defined.
#[export] Instance AuthUser_tree : Treeable AuthUser.
Proof.
  apply (iso_tree (fun u => (u.(au_Projects), u.(au_CreationTimestamp), u.(au_DeletionTimestamp)))
    (fun '(p, c, d) => mkAuthUser p c d)). by intros [].
Defined.
#[export] Instance AuthUser_json : Json AuthUser := tree_json _ _.
#[export] Instance AuthUser_json_laws : JsonLaws AuthUser := tree_json_laws _ _.

Definition ben : User := mkUser "ben" "ben" "" [mkProject "local" "default"] zcloudStartTime zero_time.
Definition fresh_authorizer : Authorizer MemTable := mkAuthorizer ∅ (mem_table ∅).
Definition admin_authorizer : Authorizer MemTable := snd (AddUser adminUser fresh_authorizer).
Definition ben_authorizer : Authorizer MemTable := snd (AddUser ben admin_authorizer).

Lemma fresh_authorizer_ok : authorizer_ok fresh_authorizer.
Proof. apply mirrors_empty. Qed.
Lemma admin_call : run_call (CallAdd adminUser) fresh_authorizer = (Ok tt, admin_authorizer).
Proof. vm_compute. reflexivity. Qed.
Lemma ben_call : run_call (CallAdd ben) admin_authorizer = (Ok tt, ben_authorizer).
Proof. vm_compute. reflexivity. Qed.

Lemma run_call_effect_witness :
  authorizer_ok admin_authorizer /\ admin_authorizer.(az_users) = call_effect (CallAdd adminUser) ∅.
Proof. exact (run_call_effect _ _ _ _ fresh_authorizer_ok admin_call). Defined.

Lemma New_restores_witness :
  exists a' d, New ben_authorizer.(az_db) = (Ok a', d) /\ a'.(az_users) = ben_authorizer.(az_users) /\
    Authorize "ben" "local" "default" a' = true /\ Authorize "ben" "local" "other" a' = false.
Proof.
  assert (Hn : exists a' d, New ben_authorizer.(az_db) = (Ok a', d)).
  { destruct (New ben_authorizer.(az_db)) as [[a'|e] d] eqn:Hn; [by exists a', d|].
    apply (f_equal (fun x => is_ok (fst x))) in Hn. vm_compute in Hn. discriminate Hn. }
  destruct Hn as (a' & d & Hn). exists a', d.
  destruct (New_restores fresh_authorizer ben_authorizer d a' fresh_authorizer_ok) as [Hu Ha].
  - eapply calls_ok; [eapply calls_ok; [apply calls_none|exact admin_call]|exact ben_call].
  - apply (bool_decide_unpack _). vm_compute. exact I.
  - exact Hn.
  - split; [exact Hn|]. split; [exact Hu|]. split; rewrite Ha; vm_compute; reflexivity.
Defined.
