(* ===== verification/Authenticator.v ===== *)
(** Authentication (pkg/authentication and its packages jwt and session): signed tokens with
    an expiry, sessions that hold them, the passwords of the users, and what the HTTP
    middleware makes of a request.  The token library (jwt-go) and the answer of a CAS
    server are parameters.  Times are in nanoseconds. *)
From S2P Require Import Prelude KvStore GoStrings Authorizer.

(** strings.Split, for a separator that is not empty. *)
Fixpoint index_sub (sep s : string) : option nat :=
  if HasPrefix s sep then Some 0%nat
  else match s with EmptyString => None | String _ s => S <$> index_sub sep s end.
Fixpoint split_fuel (fuel : nat) (sep s : string) : list string :=
  match fuel with
  | O => [s]
  | S fuel =>
      match index_sub sep s with
      | None => [s]
      | Some i => take_bytes i s :: split_fuel fuel sep (drop_bytes (i + String.length sep) s)
      end
  end.
Definition SplitSep (sep s : string) : list string := split_fuel (S (String.length s)) sep s.

(** ** Requests *)

Record Request := mkRequest {
  rq_Path : string; rq_Cookies : list (string * string); rq_Authorization : string; rq_CurrentUser : option string
}.

(** http.Request.Cookie: the value of the first cookie of that name. *)
Definition Cookie (name : string) (r : Request) : option string :=
  (fun found => found.2.2) <$> list_find (fun c => c.1 = name) r.(rq_Cookies).

(** ** Tokens (jwt/token.go) *)

(** The value of a claim; a number stands for what it is as an int64. *)
Inductive ClaimValue := CString (s : string) | CNumber (n : Z) | COther.
Definition Claims : Type := gmap string ClaimValue.
Inductive SigningMethod := HMAC | OtherMethod.
Record JwtToken := mkToken { tk_Valid : bool; tk_Claims : option Claims }.

(** jwt-go: signing a set of claims with HS256, and reading a token with the function
    that gives the key for its signing method. *)
Class JwtLib := {
  SignedString : string -> Claims -> option string;
  jwt_method : string -> option SigningMethod;
  jwt_Parse : string -> (SigningMethod -> option string) -> option JwtToken
}.

(** The claims that jwt-go itself does not look at, with numbers a float64 holds. *)
Definition plain_claims (c : Claims) : Prop :=
  c !! "exp" = None /\ c !! "iat" = None /\ c !! "nbf" = None /\
  forall k n, c !! k = Some (CNumber n) -> Z.abs n <= 2 ^ 53.

(** A token signed with a key is read back with that key, and has a text; a token is refused when there
    is no key for its method. *)
Class JwtLaws `{JwtLib} : Prop := {
  jwt_round_trip secret claims raw key :
    SignedString secret claims = Some raw -> plain_claims claims -> key HMAC = Some secret ->
    jwt_Parse raw key = Some (mkToken true (Some claims));
  jwt_not_empty secret claims : SignedString secret claims <> Some "";
  jwt_no_key raw m key : jwt_method raw = Some m -> key m = None -> jwt_Parse raw key = None
}.

Inductive TokenError := ErrInvalidToken | ErrExpiredToken.
Definition UserKey : string := "user".
Definition ExpireKey : string := "expireAt".

Definition second : Z := 10 ^ 9.
Definition Unix (t : Z) : Z := t / second.

Section Tokens.
Context `{JwtLib}.

Record TokenRepo := mkRepo { tr_secret : string; tr_validDuration : Z }.

Definition token_claims (user : string) (expire : Z) : Claims :=
  {[ UserKey := CString user; ExpireKey := CNumber expire ]}.

Definition repo_CreateToken (now : Z) (user : string) (r : TokenRepo) : option string :=
  SignedString r.(tr_secret) (token_claims user (Unix (now + r.(tr_validDuration)))).

Definition token_key (r : TokenRepo) (m : SigningMethod) : option string :=
  match m with HMAC => Some r.(tr_secret) | OtherMethod => None end.

Definition ParseToken (now : Z) (tokenRaw : string) (r : TokenRepo) : result TokenError string :=
  match jwt_Parse tokenRaw (token_key r) with
  | None => Err ErrInvalidToken
  | Some token =>
      if negb token.(tk_Valid) then Err ErrInvalidToken
      else match token.(tk_Claims) with
           | None => Err ErrInvalidToken
           | Some claims =>
               match claims !! ExpireKey with
               | Some (CNumber expire) =>
                   if expire * second <? now then Err ErrExpiredToken
                   else match claims !! UserKey with
                        | Some (CString user) => if String.eqb user "" then Err ErrInvalidToken else Ok user
                        | _ => Err ErrInvalidToken
                        end
               | _ => Err ErrInvalidToken
               end
           end
  end.

Definition RenewToken (now : Z) (tokenRaw : string) (r : TokenRepo) : result TokenError (option string) :=
  result_bind (ParseToken now tokenRaw r) (fun user => Ok (repo_CreateToken now user r)).
End Tokens.

(** ** Sessions (session/session.go) *)

Record SessionMgr := mkSessions { sm_key : string; sm_sessions : gmap string string }.
Definition session_New (key : string) : SessionMgr := mkSessions key ∅.

Definition GetSession (r : Request) (mgr : SessionMgr) : string :=
  match Cookie mgr.(sm_key) r with
  | None => ""
  | Some c => default "" (mgr.(sm_sessions) !! c)
  end.

(** The cookie a response sets: a session, or the end of one. *)
Inductive SetCookie := SetSession (value : string) | ExpireSession (value : string).

Definition AddSession (sessionKey value : string) (mgr : SessionMgr) : SetCookie * SessionMgr :=
  (SetSession sessionKey, mkSessions mgr.(sm_key) (<[sessionKey := value]> mgr.(sm_sessions))).

Definition ClearSession (r : Request) (mgr : SessionMgr) : option SetCookie * SessionMgr :=
  match Cookie mgr.(sm_key) r with
  | None => (None, mgr)
  | Some c => (Some (ExpireSession c), mkSessions mgr.(sm_key) (delete c mgr.(sm_sessions)))
  end.

(** ** Passwords, sessions and tokens together (jwt/authenticator.go, jwt/db.go) *)

Definition AdminPasswd : string := "0192309fba8c6f0929b5b00867ebccac9a39e34e".
Definition SessionCookieName : string := "_jwt_session".
Definition tokenSecret : string := "hello single cloud".
Definition tokenValidDuration : Z := 24 * 3600 * second.

Definition getFromHeader (req : Request) : string :=
  let reqToken := req.(rq_Authorization) in
  if String.eqb reqToken "" then ""
  else match SplitSep "Bearer " reqToken with
       | [_; token] => token
       | _ => ""
       end.

Inductive JwtError :=
  | EJwtExists | EJwtUnknown | EAdminUndeletable | EWrongPassword | EEmptyPassword
  | EJwtSign | EJwtTable (e : kv_error) | ELoginBody | ELoginFormat.

Module Jwt.
Section Jwt.
Context {DB : Type} `{KvTable DB} `{JwtLib}.

Record Authenticator := mkAuth {
  ja_repo : TokenRepo; ja_users : gmap string string; ja_sessions : SessionMgr; ja_db : DB
}.
Definition set_users_db users d (a : Authenticator) := mkAuth a.(ja_repo) users a.(ja_sessions) d.
Definition set_sessions s (a : Authenticator) := mkAuth a.(ja_repo) a.(ja_users) s a.(ja_db).

Definition loadUsers : M DB kv_error (gmap string string) :=
  let! usersInDB := with_tx_view tx_list in lift (decode_entries Some (map_to_list usersInDB)).
Definition addUser (user : User) : M DB kv_error unit := with_tx (tx_add user.(us_ID) user.(us_Password)).
Definition deleteUser (userName : string) : M DB kv_error unit := with_tx (tx_delete userName).
Definition updateUser (userName password : string) : M DB kv_error unit := with_tx (tx_update userName password).

Definition AddUser (user : User) (a : Authenticator) : result JwtError unit * Authenticator :=
  let name := user.(us_ID) in
  match a.(ja_users) !! name with
  | Some _ => (Err EJwtExists, a)
  | None =>
      match addUser user a.(ja_db) with
      | (Err e, d) => (Err (EJwtTable e), set_users_db a.(ja_users) d a)
      | (Ok _, d) => (Ok tt, set_users_db (<[name := user.(us_Password)]> a.(ja_users)) d a)
      end
  end.

Definition HasUser (userName : string) (a : Authenticator) : bool := bool_decide (is_Some (a.(ja_users) !! userName)).

Definition DeleteUser (userName : string) (a : Authenticator) : result JwtError unit * Authenticator :=
  if String.eqb userName Administrator then (Err EAdminUndeletable, a)
  else match a.(ja_users) !! userName with
       | Some _ =>
           match deleteUser userName a.(ja_db) with
           | (Err e, d) => (Err (EJwtTable e), set_users_db a.(ja_users) d a)
           | (Ok _, d) => (Ok tt, set_users_db (delete userName a.(ja_users)) d a)
           end
       | None => (Err EJwtUnknown, a)
       end.

Definition ResetPassword (userName old new : string) (force : bool) (a : Authenticator)
    : result JwtError unit * Authenticator :=
  match a.(ja_users) !! userName with
  | None => (Err EJwtUnknown, a)
  | Some old_ =>
      if negb force && negb (String.eqb old_ old) then (Err EWrongPassword, a)
      else if String.eqb new "" then (Err EEmptyPassword, a)
      else match updateUser userName new a.(ja_db) with
           | (Err e, d) => (Err (EJwtTable e), set_users_db a.(ja_users) d a)
           | (Ok _, d) => (Ok tt, set_users_db (<[userName := new]> a.(ja_users)) d a)
           end
  end.

Definition CreateToken (now : Z) (userName password : string) (a : Authenticator) : result JwtError string :=
  match a.(ja_users) !! userName with
  | None => Err EJwtUnknown
  | Some password_ =>
      if negb (String.eqb password password_) then Err EWrongPassword
      else of_option EJwtSign (repo_CreateToken now userName a.(ja_repo))
  end.

(** The user of a request; [Ok ""] when it carries no token. *)
Definition Authenticate (now : Z) (req : Request) (a : Authenticator) : result TokenError string :=
  let token := GetSession req a.(ja_sessions) in
  let token := if String.eqb token "" then getFromHeader req else token in
  if String.eqb token "" then Ok "" else ParseToken now token a.(ja_repo).

(** The body of a login: it cannot be read, is not the JSON of a login, or is one. *)
Inductive LoginBody := BodyUnreadable | BodyInvalid | BodyLogin (name password : string).

Definition Login (now : Z) (sessionKey : string) (body : LoginBody) (a : Authenticator)
    : result JwtError SetCookie * Authenticator :=
  match body with
  | BodyUnreadable => (Err ELoginBody, a)
  | BodyInvalid => (Err ELoginFormat, a)
  | BodyLogin name password =>
      match CreateToken now name password a with
      | Err e => (Err e, a)
      | Ok token =>
          let (c, s) := AddSession sessionKey token a.(ja_sessions) in (Ok c, set_sessions s a)
      end
  end.

Definition Logout (req : Request) (a : Authenticator) : option SetCookie * Authenticator :=
  match req.(rq_CurrentUser) with
  | None => (None, a)
  | Some _ => let (c, s) := ClearSession req a.(ja_sessions) in (c, set_sessions s a)
  end.

Definition admin_account : User :=
  mkUser Administrator Administrator AdminPasswd [] zero_time zero_time.

Definition NewAuthenticator (table : DB) : result kv_error Authenticator * DB :=
  match loadUsers table with
  | (Err e, d) => (Err e, d)
  | (Ok users, d) =>
      let auth := mkAuth (mkRepo tokenSecret tokenValidDuration) users (session_New SessionCookieName) d in
      let auth := match users !! Administrator with
                  | Some _ => auth
                  | None => snd (AddUser admin_account auth)
                  end in
      (Ok auth, auth.(ja_db))
  end.
End Jwt.
Arguments Authenticator : clear implicits.
End Jwt.

(** ** The authenticator and the middleware (authenticator.go, middleware.go) *)

Definition WebLogoutPath : string := "/web/logout".
Definition WebLoginPath : string := "/web/login".
Definition WebRolePath : string := "/web/role".
Definition WebCASRedirectPath : string := "/web/casredirect".

Section Authenticator.
Context {DB : Type} `{KvTable DB} `{JwtLib}.

(** Whether a CAS server is configured; the user it answers for a request is an argument
    of the operations. *)
Record Authenticator := mkAuthenticator { at_JwtAuth : Jwt.Authenticator DB; at_CasAuth : bool }.

Definition cas_user (cas : option string) : string := default "" cas.

Definition Authenticate (now : Z) (cas : option string) (req : Request) (a : Authenticator)
    : result TokenError string * Authenticator :=
  match Jwt.Authenticate now req a.(at_JwtAuth) with
  | Err e => (Err e, a)
  | Ok user =>
      if negb (String.eqb user "") then (Ok user, a)
      else if negb a.(at_CasAuth) then (Ok "", a)
      else
        let user := cas_user cas in
        if negb (String.eqb user "") && negb (Jwt.HasUser user a.(at_JwtAuth)) then
          let newUser := mkUser user user "" [] zero_time zero_time in
          (Ok user, mkAuthenticator (snd (Jwt.AddUser newUser a.(at_JwtAuth))) a.(at_CasAuth))
        else (Ok user, a)
  end.

(** The handler of WebRolePath: the user and who vouches for that user. *)
Definition role (now : Z) (cas : option string) (req : Request) (a : Authenticator) : string * string :=
  let (user, authBy) := if a.(at_CasAuth) then (cas_user cas, "CAS") else ("", "") in
  if String.eqb user "" then
    let user := match Jwt.Authenticate now req a.(at_JwtAuth) with Ok u => u | Err _ => "" end in
    (user, if negb (String.eqb user "") then "JWT" else authBy)
  else (user, authBy).

(** The handler of WebLogoutPath: a session is cleared, or the CAS ticket. *)
Inductive LogoutAnswer := JwtLogout (c : option SetCookie) | CasLogout | NoLogout.
Definition logout (now : Z) (req : Request) (a : Authenticator) : LogoutAnswer * Authenticator :=
  let user := match Jwt.Authenticate now req a.(at_JwtAuth) with Ok u => u | Err _ => "" end in
  if negb (String.eqb user "") then
    let (c, j) := Jwt.Logout req a.(at_JwtAuth) in (JwtLogout c, mkAuthenticator j a.(at_CasAuth))
  else if a.(at_CasAuth) then (CasLogout, a) else (NoLogout, a).

(** What the middleware does: it goes on with the request as it is, with the current
    user set, or answers with a redirection. *)
Inductive Outcome := Continue | ContinueAs (user : string) | RedirectToCas | RedirectToLogin.

Definition authExceptionPaths : list string := ["/assets"; "/apis/ws.zcloud.cn"; WebRolePath; WebCASRedirectPath].
Definition jumpExceptionalPaths : list string := ["/apis"; "/login"; "/web"].

Definition MiddlewareFunc (now : Z) (cas : option string) (req : Request) (a : Authenticator)
    : Outcome * Authenticator :=
  if existsb (HasPrefix req.(rq_Path)) authExceptionPaths then (Continue, a)
  else match Authenticate now cas req a with
       | (Err _, a) => (Continue, a)
       | (Ok userName, a) =>
           if negb (String.eqb userName "") then (ContinueAs userName, a)
           else if existsb (HasPrefix req.(rq_Path)) jumpExceptionalPaths then (Continue, a)
           else (if a.(at_CasAuth) then RedirectToCas else RedirectToLogin, a)
       end.
End Authenticator.
Arguments Authenticator : clear implicits.

(** ** Tokens *)

Section TokenFacts.
Context `{JwtLib} `{!JwtLaws}.

(** The times at which the expiry of a token is a number that JSON keeps. *)
Definition time_ok (r : TokenRepo) (now : Z) : Prop := Z.abs (Unix (now + r.(tr_validDuration))) <= 2 ^ 53.

Lemma token_claims_plain user expire : Z.abs expire <= 2 ^ 53 -> plain_claims (token_claims user expire).
Proof.
  intros He. split; [done|]. split; [done|]. split; [done|]. intros k n. unfold token_claims.
  intros [(_ & Hn)|(_ & [_ [= ->]]%lookup_singleton_Some)]%lookup_insert_Some; done.
Qed.

Lemma ParseToken_created (r : TokenRepo) t now user raw :
  time_ok r t -> repo_CreateToken t user r = Some raw ->
  ParseToken now raw r =
    if Unix (t + r.(tr_validDuration)) * second <? now then Err ErrExpiredToken
    else if String.eqb user "" then Err ErrInvalidToken else Ok user.
Proof.
  intros Ht Hc. unfold ParseToken.
  rewrite (jwt_round_trip _ _ _ (token_key r) Hc); [|by apply token_claims_plain|done]. reflexivity.
Qed.

Lemma Unix_bounds t : t - second < Unix t * second <= t.
Proof.
  unfold Unix. pose proof (Z.div_mod t second ltac:(done)). pose proof (Z.mod_pos_bound t second ltac:(done)). lia.
Qed.

(** The life of a token: a token created for a user names that user until it
    expires, which is a validity and less than a second after its creation at the
    latest and a second earlier at the earliest; after that, and for no user, it is
    refused. *)
Lemma token_lifetime (r : TokenRepo) t now user raw :
  time_ok r t -> user <> "" -> repo_CreateToken t user r = Some raw ->
  exists expiry, t + r.(tr_validDuration) - second < expiry <= t + r.(tr_validDuration) /\
    ParseToken now raw r = if expiry <? now then Err ErrExpiredToken else Ok user.
Proof.
  intros Ht Hu Hc. exists (Unix (t + tr_validDuration r) * second). split.
  - apply Unix_bounds.
  - rewrite (ParseToken_created _ _ _ _ _ Ht Hc). by destruct (String.eqb_spec user "").
Qed.

(** A token signed with any other method is refused, whatever it claims. *)
Lemma ParseToken_method (r : TokenRepo) now raw :
  jwt_method raw = Some OtherMethod -> ParseToken now raw r = Err ErrInvalidToken.
Proof. intros Hm. unfold ParseToken. by rewrite (jwt_no_key _ _ _ Hm). Qed.
End TokenFacts.

(** ** Sessions *)

Section JwtFacts.
Context {DB : Type} `{KvTable DB} `{JwtLib} `{!KvLaws DB} `{!JwtLaws}.
Implicit Types a : Jwt.Authenticator DB.

Definition users_ok (users : gmap string string) (d : DB) : Prop := mirrors Some users (kv_content d).

Lemma users_ok_eq users d : users_ok users d -> users = kv_content d.
Proof.
  intros Hm. apply map_eq. intros k. specialize (Hm k). destruct (kv_content d !! k) as [v|]; [|done].
  by destruct Hm as (w & [= <-] & ->).
Qed.

Lemma users_ok_refl (d : DB) : users_ok (kv_content d) d.
Proof. intros k. destruct (kv_content d !! k) as [v|]; [by exists v|done]. Qed.

(** The operations on the passwords, on every branch. *)
Lemma AddUser_jwt user a r a' :
  users_ok a.(Jwt.ja_users) a.(Jwt.ja_db) -> Jwt.AddUser user a = (r, a') ->
  users_ok a'.(Jwt.ja_users) a'.(Jwt.ja_db) /\ a'.(Jwt.ja_sessions) = a.(Jwt.ja_sessions) /\
  a'.(Jwt.ja_repo) = a.(Jwt.ja_repo) /\
  match r with
  | Ok _ => a.(Jwt.ja_users) !! user.(us_ID) = None /\
            a'.(Jwt.ja_users) = <[user.(us_ID) := user.(us_Password)]> a.(Jwt.ja_users)
  | Err e => a'.(Jwt.ja_users) = a.(Jwt.ja_users) /\ (e = EJwtExists <-> is_Some (a.(Jwt.ja_users) !! user.(us_ID)))
  end.
Proof.
  intros Hm. unfold Jwt.AddUser. destruct (Jwt.ja_users a !! us_ID user) as [p|] eqn:Hu.
  { intros [= <- <-]. split; [done|]. split; [done|]. split; [done|]. split; [done|]. split; [by eexists|done]. }
  destruct (Jwt.addUser user _) as [[[]|e] d] eqn:Ha; apply with_tx_add in Ha; intros [= <- <-]; simpl.
  - destruct Ha as [_ Hd]. split; [|done]. unfold users_ok. rewrite Hd. by apply mirrors_insert.
  - split; [by unfold users_ok; rewrite Ha|]. split; [done|]. split; [done|]. split; [done|].
    split; [done|by intros [? ?]].
Qed.

Lemma DeleteUser_jwt name a r a' :
  users_ok a.(Jwt.ja_users) a.(Jwt.ja_db) -> Jwt.DeleteUser name a = (r, a') ->
  users_ok a'.(Jwt.ja_users) a'.(Jwt.ja_db) /\ a'.(Jwt.ja_sessions) = a.(Jwt.ja_sessions) /\
  a'.(Jwt.ja_repo) = a.(Jwt.ja_repo) /\
  match r with
  | Ok _ => name <> Administrator /\ is_Some (a.(Jwt.ja_users) !! name) /\
            a'.(Jwt.ja_users) = delete name a.(Jwt.ja_users)
  | Err e => a'.(Jwt.ja_users) = a.(Jwt.ja_users)
  end.
Proof.
  intros Hm. unfold Jwt.DeleteUser. destruct (String.eqb_spec name Administrator) as [->|Hne];
    [intros [= <- <-]; done|].
  destruct (Jwt.ja_users a !! name) as [p|] eqn:Hu; [|intros [= <- <-]; done].
  destruct (Jwt.deleteUser name _) as [[[]|e] d] eqn:Ha; apply with_tx_delete in Ha; intros [= <- <-]; simpl.
  - split; [unfold users_ok; rewrite Ha; by apply mirrors_delete|]. split; [done|]. split; [done|]. split; [done|].
    split; [by eexists|done].
  - split; [by unfold users_ok; rewrite Ha|]. done.
Qed.

Lemma ResetPassword_jwt name old new force a r a' :
  users_ok a.(Jwt.ja_users) a.(Jwt.ja_db) -> Jwt.ResetPassword name old new force a = (r, a') ->
  users_ok a'.(Jwt.ja_users) a'.(Jwt.ja_db) /\ a'.(Jwt.ja_sessions) = a.(Jwt.ja_sessions) /\
  a'.(Jwt.ja_repo) = a.(Jwt.ja_repo) /\
  match r with
  | Ok _ => (exists p, a.(Jwt.ja_users) !! name = Some p /\ (force = true \/ p = old)) /\ new <> "" /\
            a'.(Jwt.ja_users) = <[name := new]> a.(Jwt.ja_users)
  | Err e => a'.(Jwt.ja_users) = a.(Jwt.ja_users)
  end.
Proof.
  intros Hm. unfold Jwt.ResetPassword. destruct (Jwt.ja_users a !! name) as [p|] eqn:Hu; [|intros [= <- <-]; done].
  destruct (negb force && negb (String.eqb p old)) eqn:Hw; [intros [= <- <-]; done|].
  destruct (String.eqb_spec new "") as [->|Hne]; [intros [= <- <-]; done|].
  destruct (Jwt.updateUser name new _) as [[[]|e] d] eqn:Ha; apply with_tx_update in Ha; intros [= <- <-]; simpl.
  - destruct Ha as [_ Hd]. split; [unfold users_ok; rewrite Hd; by apply mirrors_insert|]. split; [done|].
    split; [done|]. split; [|done]. exists p. split; [done|].
    destruct force; [by left|right]. by destruct (String.eqb_spec p old).
  - split; [by unfold users_ok; rewrite Ha|]. done.
Qed.

Lemma CreateToken_ok now name password a token :
  Jwt.CreateToken now name password a = Ok token <->
  a.(Jwt.ja_users) !! name = Some password /\ repo_CreateToken now name a.(Jwt.ja_repo) = Some token.
Proof.
  unfold Jwt.CreateToken. destruct (Jwt.ja_users a !! name) as [p|]; [|naive_solver].
  destruct (String.eqb_spec password p) as [->|Hne]; simpl; [|naive_solver].
  destruct (repo_CreateToken _ _ _); naive_solver.
Qed.

(** A login that was answered with a session: when, of whom, with which password, and the
    passwords at that time. *)
Record LoginEvent := mkLogin { ev_time : Z; ev_user : string; ev_password : string; ev_users : gmap string string }.

(** The states of an authenticator that was opened and used, with its logins. *)
Inductive reach : Jwt.Authenticator DB -> list LoginEvent -> Prop :=
  | reach_new table a d : Jwt.NewAuthenticator table = (Ok a, d) -> reach a []
  | reach_add a h user r a' : reach a h -> Jwt.AddUser user a = (r, a') -> reach a' h
  | reach_delete a h name r a' : reach a h -> Jwt.DeleteUser name a = (r, a') -> reach a' h
  | reach_reset a h name old new force r a' :
      reach a h -> Jwt.ResetPassword name old new force a = (r, a') -> reach a' h
  | reach_logout a h req c a' : reach a h -> Jwt.Logout req a = (c, a') -> reach a' h
  | reach_refused a h now key body e a' : reach a h -> Jwt.Login now key body a = (Err e, a') -> reach a' h
  | reach_login a h now key name password c a' :
      reach a h -> time_ok a.(Jwt.ja_repo) now ->
      Jwt.Login now key (Jwt.BodyLogin name password) a = (Ok c, a') ->
      reach a' (mkLogin now name password a.(Jwt.ja_users) :: h).

Record jwt_inv a (h : list LoginEvent) : Prop := {
  ji_repo : a.(Jwt.ja_repo) = mkRepo tokenSecret tokenValidDuration;
  ji_users : users_ok a.(Jwt.ja_users) a.(Jwt.ja_db);
  ji_sessions : forall key token, a.(Jwt.ja_sessions).(sm_sessions) !! key = Some token ->
    exists ev, ev ∈ h /\ ev.(ev_users) !! ev.(ev_user) = Some ev.(ev_password) /\
      time_ok a.(Jwt.ja_repo) ev.(ev_time) /\
      repo_CreateToken ev.(ev_time) ev.(ev_user) a.(Jwt.ja_repo) = Some token
}.

Lemma NewAuthenticator_users (table d : DB) a :
  Jwt.NewAuthenticator table = (Ok a, d) ->
  a.(Jwt.ja_repo) = mkRepo tokenSecret tokenValidDuration /\ users_ok a.(Jwt.ja_users) a.(Jwt.ja_db) /\
  a.(Jwt.ja_sessions) = session_New SessionCookieName /\
  (is_Some (kv_content table !! Administrator) -> a.(Jwt.ja_users) = kv_content table).
Proof.
  unfold Jwt.NewAuthenticator. destruct (Jwt.loadUsers table) as [[us|e] d1] eqn:Hl; [|done].
  apply bind_inv_ok in Hl as (m & d2 & Hv & Hl). apply with_tx_view_list in Hv as [Hd ->].
  unfold lift in Hl. injection Hl as Hl <-. apply decode_entries_mirrors in Hl.
  rewrite <- Hd in Hl. pose proof (users_ok_eq _ _ Hl) as Heq. intros [= <- _].
  destruct (us !! Administrator) as [p|] eqn:Hadm.
  - split; [done|]. split; [done|]. split; [done|]. intros _. simpl. by rewrite Heq, Hd.
  - destruct (Jwt.AddUser Jwt.admin_account _) as [r a] eqn:Ha. simpl.
    apply AddUser_jwt in Ha as (Hok & Hs & Hr & _); [|done]. simpl in *. split; [done|]. split; [done|].
    split; [done|]. rewrite <- Hd, <- Heq, Hadm. by intros [? ?].
Qed.

Lemma sessions_same a a' h :
  jwt_inv a h -> users_ok a'.(Jwt.ja_users) a'.(Jwt.ja_db) -> a'.(Jwt.ja_sessions) = a.(Jwt.ja_sessions) ->
  a'.(Jwt.ja_repo) = a.(Jwt.ja_repo) -> jwt_inv a' h.
Proof. intros [Hr Hu Hs] Hu' Heq Hrep. split; [by rewrite Hrep|done|]. rewrite Heq, Hrep. apply Hs. Qed.

Lemma reach_inv a h : reach a h -> jwt_inv a h.
Proof.
  induction 1 as [table a d Hn|a h user r a' _ IH Ha|a h name r a' _ IH Hd|a h name old new force r a' _ IH Hr
                 |a h req c a' _ IH Hl|a h now key body e a' _ IH Hl|a h now key name password c a' _ IH Ht Hl].
  - apply NewAuthenticator_users in Hn as (Hr & Hu & Hs & _). split; [done|done|]. rewrite Hs. done.
  - apply AddUser_jwt in Ha as (Hu & Hs & Hr & _); [|apply IH]. by eapply sessions_same.
  - apply DeleteUser_jwt in Hd as (Hu & Hs & Hr & _); [|apply IH]. by eapply sessions_same.
  - apply ResetPassword_jwt in Hr as (Hu & Hs & Hr' & _); [|apply IH]. by eapply sessions_same.
  - unfold Jwt.Logout in Hl. destruct (rq_CurrentUser req); [|by simplify_eq].
    destruct (ClearSession req _) as [c' s1] eqn:Hc. simplify_eq. destruct IH as [Hr Hu Hs].
    split; [done|done|]. simpl. intros key token Hk. apply (Hs key). unfold ClearSession in Hc.
    destruct (Cookie _ _); simplify_eq/=; [|done]. by apply lookup_delete_Some in Hk as [_ ?].
  - unfold Jwt.Login in Hl. destruct body; simplify_eq; try done. destruct (Jwt.CreateToken _ _ _ _); [done|].
    by simplify_eq.
  - simpl in Hl. destruct (Jwt.CreateToken now name password a) as [token|] eqn:Hc; simplify_eq/=.
    apply CreateToken_ok in Hc as [Hp Hc]. destruct IH as [Hr Hu Hs].
    split; [done|done|]. simpl. intros k tok [[<- <-]|[_ Hk]]%lookup_insert_Some.
    + eexists. split; [by left|]. done.
    + destruct (Hs k tok Hk) as (ev & Hev & ?). exists ev. split; [by right|done].
Qed.

Lemma GetSession_inv a h req :
  jwt_inv a h -> GetSession req a.(Jwt.ja_sessions) <> "" ->
  exists ev, ev ∈ h /\ ev.(ev_users) !! ev.(ev_user) = Some ev.(ev_password) /\
    time_ok a.(Jwt.ja_repo) ev.(ev_time) /\
    repo_CreateToken ev.(ev_time) ev.(ev_user) a.(Jwt.ja_repo) = Some (GetSession req a.(Jwt.ja_sessions)).
Proof.
  intros [_ _ Hs]. unfold GetSession. destruct (Cookie _ req) as [c|]; [|done].
  destruct (sm_sessions _ !! c) as [token|] eqn:Hk; [|done]. intros _. by apply (Hs c).
Qed.

(** C8. Whom a session speaks for: whatever was added, deleted and reset, a request that
    carries no token of its own and is authenticated is one of a user who logged in at
    most a day before with the password of that time. *)
Theorem session_authentic a h now req user :
  reach a h -> req.(rq_Authorization) = "" -> Jwt.Authenticate now req a = Ok user -> user <> "" ->
  exists ev, ev ∈ h /\ ev.(ev_user) = user /\ ev.(ev_users) !! user = Some ev.(ev_password) /\
    now <= ev.(ev_time) + 24 * 3600 * second.
Proof.
  intros Hr Hh Ha Hu. apply reach_inv in Hr as Hinv. unfold Jwt.Authenticate in Ha.
  destruct (String.eqb_spec (GetSession req (Jwt.ja_sessions a)) "") as [_|Hne].
  { unfold getFromHeader in Ha. rewrite Hh in Ha. simpl in Ha. congruence. }
  destruct (String.eqb_spec (GetSession req (Jwt.ja_sessions a)) "") as [|_]; [done|].
  destruct (GetSession_inv _ _ _ Hinv Hne) as (ev & Hev & Hp & Ht & Hc). exists ev. split; [done|].
  rewrite (ParseToken_created _ _ _ _ _ Ht Hc) in Ha.
  destruct (Z.ltb_spec (Unix (ev_time ev + tr_validDuration (Jwt.ja_repo a)) * second) now) as [|Hle]; [done|].
  destruct (String.eqb (ev_user ev) ""); [done|]. injection Ha as <-. split; [done|]. split; [done|].
  rewrite (ji_repo _ _ Hinv) in Hle. simpl in Hle. unfold tokenValidDuration in Hle.
  pose proof (Unix_bounds (ev_time ev + 24 * 3600 * second)). lia.
Qed.

(** Login and logout: a login with the right password opens a session under which
    the requests of that user are recognised until the token expires, and no other
    session changes; after the logout a request with that session has no user. *)
Lemma login_logout a h now key name password c a1 :
  reach a h -> time_ok a.(Jwt.ja_repo) now -> name <> "" ->
  Jwt.Login now key (Jwt.BodyLogin name password) a = (Ok c, a1) ->
  c = SetSession key /\ a.(Jwt.ja_users) !! name = Some password /\
  forall req, Cookie a.(Jwt.ja_sessions).(sm_key) req = Some key ->
    (exists expiry, now + tokenValidDuration - second < expiry <= now + tokenValidDuration /\
       forall t, Jwt.Authenticate t req a1 = if expiry <? t then Err ErrExpiredToken else Ok name) /\
    (forall other, Cookie a.(Jwt.ja_sessions).(sm_key) other <> Some key ->
       forall t, Jwt.Authenticate t other a1 = Jwt.Authenticate t other a) /\
    forall user cookie a2 t, req.(rq_CurrentUser) = Some user -> req.(rq_Authorization) = "" ->
      Jwt.Logout req a1 = (cookie, a2) -> Jwt.Authenticate t req a2 = Ok "".
Proof.
  intros Hr Ht Hn Hl. apply reach_inv in Hr as [Hrep _ _]. simpl in Hl.
  destruct (Jwt.CreateToken now name password a) as [token|] eqn:Hc; simplify_eq/=.
  apply CreateToken_ok in Hc as [Hp Hc]. split; [done|]. split; [done|]. intros req Hk.
  assert (Htok : String.eqb token "" = false).
  { apply String.eqb_neq. intros ->. by apply jwt_not_empty in Hc. }
  split; [|split].
  - exists (Unix (now + tokenValidDuration) * second). split; [apply Unix_bounds|]. intros t. unfold Jwt.Authenticate, GetSession. simpl. rewrite Hk, lookup_insert_eq. simpl. rewrite !Htok.
    rewrite (ParseToken_created _ _ _ _ _ Ht Hc), Hrep. simpl. by destruct (String.eqb_spec name "").
  - intros other Hne t. unfold Jwt.Authenticate, GetSession. simpl.
    destruct (Cookie _ other) as [k|]; [|done]. rewrite lookup_insert_ne; [done|]. congruence.
  - intros user cookie a2 t Hcu Hauth. unfold Jwt.Logout. rewrite Hcu. unfold ClearSession. simpl. rewrite Hk.
    intros [= _ <-]. unfold Jwt.Authenticate, GetSession. simpl. rewrite Hk, lookup_delete_eq. simpl.
    unfold getFromHeader. by rewrite Hauth.
Qed.

(** Restart: an authenticator that is opened again on its table knows the same users
    with the same passwords, and no session. *)
Lemma NewAuthenticator_restores a h (d : DB) a' :
  reach a h -> is_Some (a.(Jwt.ja_users) !! Administrator) ->
  Jwt.NewAuthenticator a.(Jwt.ja_db) = (Ok a', d) ->
  a'.(Jwt.ja_users) = a.(Jwt.ja_users) /\ a'.(Jwt.ja_sessions) = session_New SessionCookieName /\
  forall now name password, Jwt.CreateToken now name password a' = Jwt.CreateToken now name password a.
Proof.
  intros Hr Hadm Hn. apply reach_inv in Hr as [Hrep Hu _]. apply users_ok_eq in Hu.
  apply NewAuthenticator_users in Hn as (Hrep' & _ & Hs & Husers). rewrite Hu in Hadm. specialize (Husers Hadm).
  rewrite <- Hu in Husers. split; [done|]. split; [done|]. intros. unfold Jwt.CreateToken.
  by rewrite Husers, Hrep, Hrep'.
Qed.

(** Deleting a user leaves the sessions of that user open. *)
Lemma deleted_user_stays_authenticated a h name r a' now req :
  reach a h -> Jwt.DeleteUser name a = (r, a') -> Jwt.Authenticate now req a' = Jwt.Authenticate now req a.
Proof.
  intros Hr Hd. apply reach_inv in Hr as [_ Hu _]. apply DeleteUser_jwt in Hd as (_ & Hs & Hrep & _); [|done].
  unfold Jwt.Authenticate. by rewrite Hs, Hrep.
Qed.
End JwtFacts.

(** ** The middleware *)

Section MiddlewareFacts.
Context {DB : Type} `{KvTable DB} `{JwtLib}.

Definition exempt (path : string) : Prop := exists p r, p ∈ authExceptionPaths /\ path = p +:+ r.

Lemma exempt_iff path : existsb (HasPrefix path) authExceptionPaths = true <-> exempt path.
Proof.
  rewrite existsb_exists. unfold exempt. split.
  - intros (p & Hp & [r Hr]%HasPrefix_spec). exists p, r. by rewrite list_elem_of_In.
  - intros (p & r & Hp & Hr). exists p. rewrite <- list_elem_of_In. split; [done|]. apply HasPrefix_spec. by exists r.
Qed.

(** Who a request acts for behind the middleware: it acts for a user exactly when its
    path is not exempt and that user is the one of its token, or, when it has no token,
    the one the CAS server answers; and a request is sent to a login page only when it
    has no user and its path is neither exempt nor an API, a login or a web path. *)
Lemma MiddlewareFunc_user now cas req user (a : Authenticator DB) :
  (fst (MiddlewareFunc now cas req a) = ContinueAs user <->
   ~ exempt req.(rq_Path) /\ user <> "" /\
   (Jwt.Authenticate now req a.(at_JwtAuth) = Ok user \/
    Jwt.Authenticate now req a.(at_JwtAuth) = Ok "" /\ a.(at_CasAuth) = true /\ cas = Some user)) /\
  (fst (MiddlewareFunc now cas req a) = RedirectToCas \/ fst (MiddlewareFunc now cas req a) = RedirectToLogin ->
   ~ exempt req.(rq_Path) /\ existsb (HasPrefix req.(rq_Path)) jumpExceptionalPaths = false /\
   Jwt.Authenticate now req a.(at_JwtAuth) = Ok "").
Proof.
  unfold MiddlewareFunc. pose proof (exempt_iff (rq_Path req)) as He.
  destruct (existsb (HasPrefix (rq_Path req)) authExceptionPaths); [simpl; naive_solver|].
  assert (Hne : ~ exempt (rq_Path req)) by (intros ?%He; done). clear He.
  unfold Authenticate, cas_user.
  generalize (existsb (HasPrefix (rq_Path req)) jumpExceptionalPaths). intros jump.
  destruct (Jwt.Authenticate now req (at_JwtAuth a)) as [u|e]; [|simpl; naive_solver].
  destruct (String.eqb_spec u "") as [->|Hu]; simpl; [|destruct (String.eqb_spec u ""); simpl; naive_solver].
  destruct (at_CasAuth a) eqn:Hcas; simpl; [|destruct jump; rewrite ?Hcas; simpl; naive_solver].
  destruct cas as [u|]; simpl; [|destruct jump; rewrite ?Hcas; simpl; naive_solver].
  destruct (String.eqb_spec u "") as [->|Hu]; simpl; [destruct jump; rewrite ?Hcas; simpl; naive_solver|].
  destruct (Jwt.HasUser u (at_JwtAuth a)); simpl; destruct (String.eqb_spec u ""); simpl; naive_solver.
Qed.

(** A user that CAS vouches for is given an account with an empty password, which the
    login handler accepts. *)
Lemma cas_user_logs_in_without_password now key user (a a' : Jwt.Authenticator DB) token :
  a.(Jwt.ja_users) !! user = None ->
  Jwt.AddUser (mkUser user user "" [] zero_time zero_time) a = (Ok tt, a') ->
  repo_CreateToken now user a'.(Jwt.ja_repo) = Some token ->
  fst (Jwt.Login now key (Jwt.BodyLogin user "") a') = Ok (SetSession key).
Proof.
  intros Hu. unfold Jwt.AddUser. simpl. rewrite Hu.
  destruct (Jwt.addUser _ _) as [[[]|e] d]; [|done]. intros [= <-] Hc. simpl. unfold Jwt.CreateToken. simpl.
  rewrite lookup_insert_eq. simpl. simpl in Hc. by rewrite Hc.
Qed.
End MiddlewareFacts.

(** ** Examples *)

#[export] Instance ClaimValue_tree : Treeable ClaimValue.
Proof.
  apply (iso_tree (fun c => match c with CString s => (0, s, 0) | CNumber n => (1, "", n) | COther => (2, "", 0) end)
    (fun '(t, s, n) => if t =? 0 then CString s else if t =? 1 then CNumber n else COther)). by intros [].
Defined.
#[export] Instance Claims_tree : Treeable Claims.
Proof.
  apply (iso_tree (map_to_list : Claims -> list (string * ClaimValue)) list_to_map). intros m. apply list_to_map_to_list.
Defined.

Definition token_json : Json (string * Claims) := tree_json _ _.

(** A token library whose tokens are the key and the claims, and where only HMAC exists. *)
#[export] Instance plain_jwt : JwtLib := {|
  SignedString secret claims := @marshal _ token_json (secret, claims);
  jwt_method raw := match @unmarshal _ token_json raw with Some _ => Some HMAC | None => None end;
  jwt_Parse raw key :=
    match @unmarshal _ token_json raw, key HMAC with
    | Some (secret, claims), Some k => if String.eqb secret k then Some (mkToken true (Some claims)) else None
    | _, _ => None
    end
|}.

#[export] Instance plain_jwt_laws : JwtLaws.
Proof.
  split; cbn [SignedString jwt_method jwt_Parse plain_jwt].
  - intros secret claims raw key Hs _ Hk. apply (@json_round_trip _ token_json (tree_json_laws _ _)) in Hs.
    by rewrite Hs, Hk, String.eqb_refl.
  - intros secret claims. unfold token_json, tree_json, marshal. destruct (encode_tree _); discriminate.
  - intros raw m key. destruct (unmarshal raw) as [[s c]|]; [|done]. intros [= <-] ->. done.
Qed.

Definition repo0 : TokenRepo := mkRepo tokenSecret tokenValidDuration.
Lemma repo0_time now : 0 <= now <= 10 ^ 18 -> time_ok repo0 now.
Proof.
  intros Hn. unfold time_ok, Unix. simpl.
  pose proof (Z.div_pos (now + tokenValidDuration) second ltac:(unfold tokenValidDuration, second; lia) ltac:(done)).
  assert ((now + tokenValidDuration) / second <= 2 ^ 53)
    by (apply Z.div_le_upper_bound; [done|unfold tokenValidDuration, second; lia]). lia.
Qed.

Lemma token_lifetime_witness :
  exists raw, repo_CreateToken 5 "ben" repo0 = Some raw /\ ParseToken 7 raw repo0 = Ok "ben".
Proof.
  destruct (repo_CreateToken 5 "ben" repo0) as [raw|] eqn:Hc; [|vm_compute in Hc; discriminate Hc].
  exists raw. split; [reflexivity|].
  destruct (token_lifetime repo0 5 7 "ben" raw (repo0_time 5 ltac:(lia)) ltac:(discriminate) Hc) as (x & Hx & ->).
  destruct (Z.ltb_spec x 7) as [Hlt|_]; [|reflexivity].
  exfalso. unfold repo0, tokenValidDuration, second in Hx. simpl in Hx. lia.
Defined.

(** An authenticator opened on a table with the administrator, and a login. *)
Definition admin_table : MemTable := mem_table {[ Administrator := AdminPasswd ]}.
Definition jwt0 : Jwt.Authenticator MemTable :=
  Jwt.mkAuth repo0 {[ Administrator := AdminPasswd ]} (session_New SessionCookieName) admin_table.
Definition admin_login : Jwt.LoginBody := Jwt.BodyLogin Administrator AdminPasswd.
Definition jwt1 : Jwt.Authenticator MemTable := snd (Jwt.Login 5 "k1" admin_login jwt0).
Definition admin_request : Request := mkRequest "/apis" [(SessionCookieName, "k1")] "" (Some Administrator).

Lemma jwt0_new : Jwt.NewAuthenticator admin_table = (Ok jwt0, admin_table).
Proof. vm_compute. reflexivity. Qed.

Lemma jwt1_login : Jwt.Login 5 "k1" admin_login jwt0 = (Ok (SetSession "k1"), jwt1).
Proof. vm_compute. reflexivity. Qed.

Lemma jwt1_reach : reach jwt1 [mkLogin 5 Administrator AdminPasswd {[ Administrator := AdminPasswd ]}].
Proof.
  apply (reach_login jwt0 [] 5 "k1" Administrator AdminPasswd (SetSession "k1") jwt1);
    [by eapply reach_new, jwt0_new|apply repo0_time; lia|exact jwt1_login].
Qed.

Lemma session_authentic_witness : exists ev, ev.(ev_user) = Administrator /\ 7 <= ev.(ev_time) + 24 * 3600 * second.
Proof.
  destruct (session_authentic jwt1 _ 7 admin_request Administrator jwt1_reach eq_refl) as (ev & _ & Hu & _ & Ht).
  - vm_compute. reflexivity.
  - discriminate.
  - exists ev. split; [exact Hu|exact Ht].
Defined.

Lemma login_logout_witness :
  Jwt.Authenticate 7 admin_request (snd (Jwt.Logout admin_request jwt1)) = Ok "".
Proof.
  destruct (login_logout jwt0 [] 5 "k1" Administrator AdminPasswd (SetSession "k1") jwt1) as (_ & _ & Hall).
  - eapply reach_new. exact jwt0_new.
  - apply repo0_time. lia.
  - discriminate.
  - exact jwt1_login.
  - destruct (Hall admin_request) as (_ & _ & Hlogout); [vm_compute; reflexivity|].
    apply (Hlogout Administrator (fst (Jwt.Logout admin_request jwt1)) _ 7 eq_refl eq_refl).
    destruct (Jwt.Logout admin_request jwt1). reflexivity.
Defined.

Lemma NewAuthenticator_restores_witness :
  exists a' d, Jwt.NewAuthenticator jwt1.(Jwt.ja_db) = (Ok a', d) /\
    a'.(Jwt.ja_users) = jwt1.(Jwt.ja_users) /\ a'.(Jwt.ja_sessions) = session_New SessionCookieName.
Proof.
  exists jwt0, admin_table.
  assert (Hn : Jwt.NewAuthenticator jwt1.(Jwt.ja_db) = (Ok jwt0, admin_table)) by (vm_compute; reflexivity).
  split; [exact Hn|].
  destruct (NewAuthenticator_restores jwt1 _ admin_table jwt0 jwt1_reach) as (Hu & Hs & _).
  - vm_compute. eexists. reflexivity.
  - exact Hn.
  - split; [exact Hu|exact Hs].
Defined.

(** A token in the Authorization header is the text after Bearer. *)
Example header_token : getFromHeader (mkRequest "/apis" [] "Bearer abc" None) = "abc".
Proof. reflexivity. Qed.
Example header_two_tokens : getFromHeader (mkRequest "/apis" [] "Bearer a Bearer b" None) = "".
Proof. reflexivity. Qed.
