(* ===== verification/CasClient.v ===== *)
(** The client of a CAS server (pkg/authentication/cas): the tickets that the server vouched
    for, the sessions that hold them, and what is read of its answers. *)
From S2P Require Import Prelude KvStore GoStrings GoText Authorizer Authenticator.

Definition CasCookieName : string := "_cas_session".

(** ** Answers (service_response.go, xml_service_response.go) *)

Record xmlAuthenticationFailure := mkXmlFailure { xf_Code : string; xf_Message : string }.
(** An element by its name and its text. *)
Record xmlAttribute := mkXmlAttribute { xa_Name : string; xa_Value : string }.
Record xmlUserAttributes := mkXmlUser { xu_Attributes : list xmlAttribute; xu_AnyAttributes : list xmlAttribute }.
Record xmlAttributes := mkXmlAttributes {
  xs_AuthenticationDate : Z; xs_LongTermAuthenticationRequestTokenUsed : bool; xs_IsFromNewLogin : bool; xs_MemberOf : list string;
  xs_UserAttributes : option xmlUserAttributes; xs_ExtraAttributes : list xmlAttribute
}.
Record xmlAuthenticationSuccess := mkXmlSuccess {
  xm_User : string; xm_ProxyGrantingTicket : string; xm_Proxies : option (list string); xm_Attributes : option xmlAttributes;
  xm_ExtraAttributes : list xmlAttribute
}.
Record xmlServiceResponse := mkXmlResponse { xr_Failure : option xmlAuthenticationFailure; xr_Success : option xmlAuthenticationSuccess }.

Definition UserAttributes : Type := gmap string (list string).
Record AuthenticationResponse := mkResponse {
  re_User : string; re_ProxyGrantingTicket : string; re_Proxies : list string; re_AuthenticationDate : Z; re_IsNewLogin : bool;
  re_IsRememberedLogin : bool; re_MemberOf : list string; re_Attributes : UserAttributes
}.
Definition user_response (user : string) : AuthenticationResponse := mkResponse user "" [] zero_time false false [] ∅.

(** [CPanic]: a nil dereference or a slice out of its bounds. *)
Inductive cas_error := CFailure (code message : string) | CAnswer | CPanic.

(** encoding/xml on an answer, and the YAML of an attribute: an error has a text. *)
#[warnings="-register-all"]
Inductive yaml := YNull | YString (s : string) | YSlice (l : list yaml) | YOther.
Class CasText := { unmarshal_response : string -> option xmlServiceResponse; unmarshal_yaml : string -> result string yaml }.

(** UserAttributes.Add and Get. *)
Definition attributes_Get (a : UserAttributes) (name : string) : result cas_error string :=
  match a !! name with Some (v :: _) => Ok v | Some [] => Err CPanic | None => Ok "" end.
Definition attributes_Add (name value : string) (a : UserAttributes) : UserAttributes :=
  <[name := default [] (a !! name) ++ [value]]> a.

Section Answers.
Context `{CasText}.

(** The kind of nil is asked for: a panic. *)
Fixpoint add_slice (key : string) (l : list yaml) (a : UserAttributes) : result cas_error UserAttributes :=
  match l with
  | [] => Ok a
  | YNull :: _ => Err CPanic
  | YString s :: l => add_slice key l (attributes_Add key s a)
  | _ :: l => add_slice key l a
  end.
Definition addRubycasAttribute (key value : string) (a : UserAttributes) : result cas_error UserAttributes :=
  if negb (HasPrefix value "---") then Ok (attributes_Add key value a)
  else if String.eqb value "--- true" then Ok (attributes_Add key "true" a)
  else if String.eqb value "--- false" then Ok (attributes_Add key "false" a)
  else
    match unmarshal_yaml value with
    | Err e => Ok (attributes_Add key e a)
    | Ok (YSlice l) => add_slice key l a
    | Ok (YString s) => Ok (attributes_Add key s a)
    | Ok YNull => Err CPanic
    | Ok YOther => Ok a
    end.
Definition add_named (x : xmlAttribute) (a : UserAttributes) : UserAttributes := attributes_Add x.(xa_Name) (TrimSpace x.(xa_Value)) a.
Definition user_attributes (x : xmlAttributes) : UserAttributes :=
  let a := match x.(xs_UserAttributes) with
           | None => ∅
           | Some u =>
               foldl (fun a x => add_named x a)
                 (foldl (fun a x => if String.eqb x.(xa_Name) "" then a else add_named x a) ∅ u.(xu_Attributes)) u.(xu_AnyAttributes)
           end in
  foldl (fun a x => add_named x a) a x.(xs_ExtraAttributes).
Fixpoint add_extra (l : list xmlAttribute) (a : UserAttributes) : result cas_error UserAttributes :=
  match l with
  | [] => Ok a
  | x :: l => result_bind (addRubycasAttribute x.(xa_Name) (TrimSpace x.(xa_Value)) a) (add_extra l)
  end.
Definition success_response (s : xmlAuthenticationSuccess) (attributes : UserAttributes) : AuthenticationResponse :=
  mkResponse s.(xm_User) s.(xm_ProxyGrantingTicket) (default [] s.(xm_Proxies)) (from_option xs_AuthenticationDate zero_time s.(xm_Attributes))
    (from_option xs_IsFromNewLogin false s.(xm_Attributes)) (from_option xs_LongTermAuthenticationRequestTokenUsed false s.(xm_Attributes))
    (from_option xs_MemberOf [] s.(xm_Attributes)) attributes.
Definition ParseServiceResponse (data : string) : result cas_error AuthenticationResponse :=
  match unmarshal_response data with
  | None => Err CAnswer
  | Some x =>
      match x.(xr_Failure), x.(xr_Success) with
      | Some f, _ => Err (CFailure f.(xf_Code) (TrimSpace f.(xf_Message)))
      | None, None => Err CPanic
      | None, Some s =>
          result_bind (add_extra s.(xm_ExtraAttributes) (from_option user_attributes ∅ s.(xm_Attributes))) (fun attributes =>
            Ok (success_response s attributes))
      end
  end.

(** ** Tickets and sessions (memory_store.go, client.go) *)

Definition MemoryStore : Type := gmap string AuthenticationResponse.
Record Client := mkClient { cl_tickets : MemoryStore; cl_sessions : SessionMgr }.
Definition NewClient : Client := mkClient ∅ (session_New CasCookieName).
Definition write_ticket (id : string) (ticket : AuthenticationResponse) (c : Client) : Client := mkClient (<[id := ticket]> c.(cl_tickets)) c.(cl_sessions).

(** What the server answers at one of its addresses when it is asked for a ticket: the status
    and the body, as far as they can be read. *)
Record http_answer := mkHttp { ha_StatusCode : Z; ha_Body : option string }.
Definition CasServer : Type := string -> string -> option http_answer.
Definition StatusOK : Z := 200.
Definition StatusNotFound : Z := 404.

(** The part of a text between two positions. *)
Definition slice (s : string) (from to : Z) : option string :=
  if (0 <=? from) && (from <=? to) && (to <=? Z.of_nat (String.length s))
  then Some (take_bytes (Z.to_nat (to - from)) (drop_bytes (Z.to_nat from) s)) else None.
Definition not_logged_in : string := "no" +:+ newline +:+ newline.
(** [Ok None]: the server said no, and that is no error. *)
Definition answer_cas1 (a : option http_answer) : result cas_error (option AuthenticationResponse) :=
  match a with
  | None => Err CAnswer
  | Some a =>
      match a.(ha_Body) with
      | None => Err CAnswer
      | Some body =>
          if negb (a.(ha_StatusCode) =? StatusOK) then Err CAnswer
          else if String.eqb body not_logged_in then Ok None
          else match slice body 4 (Z.of_nat (String.length body) - 1) with Some user => Ok (Some (user_response user)) | None => Err CPanic end
      end
  end.
Definition answer_cas2 (a : http_answer) : result cas_error (option AuthenticationResponse) :=
  match a.(ha_Body) with
  | None => Err CAnswer
  | Some body => if negb (a.(ha_StatusCode) =? StatusOK) then Err CAnswer else result_bind (ParseServiceResponse body) (fun r => Ok (Some r))
  end.
Definition ask (server : CasServer) (ticket : string) : result cas_error (option AuthenticationResponse) :=
  match server "serviceValidate" ticket with
  | None => Err CAnswer
  | Some a => if a.(ha_StatusCode) =? StatusNotFound then answer_cas1 (server "validate" ticket) else answer_cas2 a
  end.
Definition validateTicket (server : CasServer) (ticket : string) (c : Client) : result cas_error unit * Client :=
  match ask server ticket with
  | Err e => (Err e, c)
  | Ok None => (Ok tt, c)
  | Ok (Some r) => (Ok tt, write_ticket ticket r c)
  end.
(** SaveTicket; the session gets the key [sessionKey]. *)
Definition SaveTicket (server : CasServer) (sessionKey ticket : string) (c : Client) : result cas_error SetCookie * Client :=
  if String.eqb ticket "" then (Err CAnswer, c)
  else
    match validateTicket server ticket c with
    | (Err e, c) => (Err e, c)
    | (Ok _, c) =>
        let (cookie, s) := AddSession sessionKey ticket c.(cl_sessions) in (Ok cookie, mkClient c.(cl_tickets) s)
    end.
Definition clear_session (r : Request) (c : Client) : option SetCookie * Client :=
  let (cookie, s) := ClearSession r c.(cl_sessions) in (cookie, mkClient c.(cl_tickets) s).
Definition GetAuthResponse (r : Request) (c : Client) : option AuthenticationResponse * Client :=
  match c.(cl_tickets) !! GetSession r c.(cl_sessions) with
  | Some resp => (Some resp, c)
  | None => (None, snd (clear_session r c))
  end.
Definition RemoveTicket (r : Request) (c : Client) : Client :=
  let ticket := GetSession r c.(cl_sessions) in
  let c := if String.eqb ticket "" then c else mkClient (delete ticket c.(cl_tickets)) c.(cl_sessions) in
  snd (clear_session r c).

(** Authenticator.Authenticate and Logout of package cas; the second session to clear is the
    same. *)
Definition cas_Authenticate (r : Request) (c : Client) : string * Client :=
  let (resp, c) := GetAuthResponse r c in (from_option re_User "" resp, c).
Definition cas_Logout (r : Request) (c : Client) : Client := snd (clear_session r (RemoveTicket r c)).
End Answers.

(** ** Whom a CAS session speaks for *)

(** The server vouched for a ticket; a session was opened with a ticket. *)
Inductive cas_event := Vouched (ticket : string) (resp : AuthenticationResponse) | Opened (key ticket : string).

Section Facts.
Context `{CasText}.

Definition save_events (server : CasServer) (key ticket : string) (r : result cas_error SetCookie) : list cas_event :=
  (match ask server ticket with Ok (Some resp) => [Vouched ticket resp] | _ => [] end) ++ (if is_ok r then [Opened key ticket] else []).
(** The runs of a client: every time the server may answer anything. *)
Inductive cas_reach : Client -> list cas_event -> Prop :=
  | reach_new : cas_reach NewClient []
  | reach_save c h server key ticket r c' :
      cas_reach c h -> SaveTicket server key ticket c = (r, c') -> ticket <> "" -> cas_reach c' (h ++ save_events server key ticket r)
  | reach_get c h req u c' : cas_reach c h -> cas_Authenticate req c = (u, c') -> cas_reach c' h
  | reach_logout c h req : cas_reach c h -> cas_reach (cas_Logout req c) h.
Record cas_inv (c : Client) (h : list cas_event) : Prop := {
  ci_key : c.(cl_sessions).(sm_key) = CasCookieName;
  ci_tickets : forall t resp, c.(cl_tickets) !! t = Some resp -> t <> "" /\ Vouched t resp ∈ h;
  ci_sessions : forall key t, c.(cl_sessions).(sm_sessions) !! key = Some t -> Opened key t ∈ h
}.

(** Fewer tickets and sessions. *)
Definition within (c c' : Client) : Prop :=
  c'.(cl_sessions).(sm_key) = c.(cl_sessions).(sm_key) /\ c'.(cl_tickets) ⊆ c.(cl_tickets) /\
  c'.(cl_sessions).(sm_sessions) ⊆ c.(cl_sessions).(sm_sessions).
#[local] Instance within_preorder : PreOrder within.
Proof.
  split; [done|]. intros c1 c2 c3 (K1 & T1 & S1) (K2 & T2 & S2). split; [congruence|]. split; etransitivity; eauto.
Qed.
Lemma within_inv c c' h : within c c' -> cas_inv c h -> cas_inv c' h.
Proof.
  intros (Hk & Ht & Hs) [Ik It Is]. split; [congruence| |]; intros; [by eapply It, lookup_weaken|by eapply Is, lookup_weaken].
Qed.
Lemma clear_within req c : within c (snd (clear_session req c)).
Proof.
  unfold clear_session, ClearSession. destruct (Cookie _ req) as [k|]; [|done]. split; [done|]. split; [done|]. apply delete_subseteq.
Qed.
Lemma get_within req c : within c (snd (cas_Authenticate req c)).
Proof.
  unfold cas_Authenticate, GetAuthResponse. destruct (cl_tickets c !! _) as [resp|]; [done|]. apply clear_within.
Qed.
Lemma remove_within req c : within c (RemoveTicket req c).
Proof.
  unfold RemoveTicket. etransitivity; [|apply clear_within]. destruct (String.eqb _ ""); [done|]. split; [done|]. split; [apply delete_subseteq|done].
Qed.
Lemma logout_within req c : within c (cas_Logout req c).
Proof. unfold cas_Logout. etransitivity; [apply remove_within|apply clear_within]. Qed.

Lemma logged_out req c : GetSession req c.(cl_sessions) <> "" -> (cas_Logout req c).(cl_tickets) !! GetSession req c.(cl_sessions) = None.
Proof.
  intros Hne. unfold cas_Logout, RemoveTicket. destruct (String.eqb_spec (GetSession req (cl_sessions c)) "") as [|_]; [done|].
  assert (Hc : forall c, cl_tickets (snd (clear_session req c)) = cl_tickets c) by (intros x; unfold clear_session; by destruct (ClearSession _ _)).
  rewrite !Hc. apply lookup_delete_eq.
Qed.

Lemma save_inv server key ticket c r c' h :
  SaveTicket server key ticket c = (r, c') -> ticket <> "" -> cas_inv c h -> cas_inv c' (h ++ save_events server key ticket r).
Proof.
  intros Hs Ht [Ik It Is]. unfold SaveTicket in Hs. destruct (String.eqb_spec ticket "") as [|_]; [done|].
  unfold validateTicket in Hs. unfold save_events. destruct (ask server ticket) as [[resp|]|e]; injection Hs as <- <-; simpl.
  - split; [done| |].
    + intros t resp' Hr. cbn in Hr. rewrite elem_of_app, !elem_of_cons. apply lookup_insert_Some in Hr as [[<- <-]|[_ Hr]]; [auto|]. apply It in Hr as [? ?]. auto.
    + intros k t Hk. cbn in Hk. rewrite elem_of_app, !elem_of_cons. apply lookup_insert_Some in Hk as [[<- <-]|[_ Hk]]; [auto|]. apply Is in Hk. auto.
  - split; [done| |].
    + intros t resp' Hr. rewrite elem_of_app. apply It in Hr as [? ?]. auto.
    + intros k t Hk. cbn in Hk. rewrite elem_of_app, elem_of_cons. apply lookup_insert_Some in Hk as [[<- <-]|[_ Hk]]; [auto|]. apply Is in Hk. auto.
  - rewrite app_nil_r. by split.
Qed.
Lemma cas_reach_inv c h : cas_reach c h -> cas_inv c h.
Proof.
  induction 1 as [|c h server key ticket r c' _ IH Hs Ht|c h req u c' _ IH Ha|c h req _ IH].
  - split; [done|intros t resp Hl|intros key t Hl]; [change ((∅ : MemoryStore) !! t = Some resp) in Hl|change ((∅ : gmap string string) !! key = Some t) in Hl];
      by apply lookup_empty_Some in Hl.
  - by apply (save_inv _ _ _ _ _ _ _ Hs).
  - eapply within_inv; [|exact IH]. pose proof (get_within req c) as Hw. by rewrite Ha in Hw.
  - eapply within_inv; [apply logout_within|exact IH].
Qed.

Lemma cas_user_vouched c h req user c' :
  cas_inv c h -> cas_Authenticate req c = (user, c') -> user <> "" ->
  exists key ticket resp, Cookie CasCookieName req = Some key /\ Opened key ticket ∈ h /\ Vouched ticket resp ∈ h /\ resp.(re_User) = user.
Proof.
  intros [Ik It Is] Ha Hu. unfold cas_Authenticate, GetAuthResponse in Ha.
  destruct (cl_tickets c !! GetSession req _) as [resp|] eqn:Ht; [|by injection Ha as <- _].
  injection Ha as <- _. destruct (It _ _ Ht) as [Hne Hv]. unfold GetSession in *. rewrite Ik in *.
  destruct (Cookie CasCookieName req) as [key|]; [|done]. destruct (sm_sessions _ !! key) as [t|] eqn:Hk; [|done]. exists key, t, resp. auto.
Qed.
(** After a logout no request finds that ticket. *)
Lemma cas_logout_ends c h req other :
  cas_inv c h -> GetSession other c.(cl_sessions) = GetSession req c.(cl_sessions) -> fst (cas_Authenticate other (cas_Logout req c)) = "".
Proof.
  intros Hinv Ho. unfold cas_Authenticate, GetAuthResponse.
  destruct (cl_tickets (cas_Logout req c) !! GetSession other (cl_sessions (cas_Logout req c))) as [resp|] eqn:Ht; [exfalso|done].
  assert (Hw := logout_within req c). destruct (within_inv _ _ _ Hw Hinv) as [_ It' _]. destruct (It' _ _ Ht) as [Hne _].
  assert (Hg : GetSession other (cl_sessions (cas_Logout req c)) = GetSession req (cl_sessions c)).
  { rewrite <- Ho. destruct Hw as (Hk & _ & Hs). unfold GetSession in *. rewrite Hk in *. destruct (Cookie _ other) as [k|]; [|done].
    destruct (sm_sessions (cl_sessions (cas_Logout req c)) !! k) as [t|] eqn:Hl; [|done]. by rewrite (lookup_weaken _ _ _ _ Hl Hs). }
  rewrite Hg in Ht, Hne. apply (logged_out req c) in Hne. congruence.
Qed.
End Facts.

(** ** The middleware with the client *)

Section Middleware.
Context `{CasText} {DB : Type} `{KvTable DB} `{JwtLib}.

(** The client is asked when the request has no token of its own. *)
Definition cas_asked (now : Z) (req : Request) (a : Authenticator DB) : bool :=
  negb (existsb (HasPrefix req.(rq_Path)) authExceptionPaths) && a.(at_CasAuth) &&
  match Jwt.Authenticate now req a.(at_JwtAuth) with Ok user => String.eqb user "" | Err _ => false end.
Definition MiddlewareWithCas (now : Z) (req : Request) (s : Authenticator DB * Client) : Outcome * (Authenticator DB * Client) :=
  let (user, c) := if cas_asked now req s.1 then cas_Authenticate req s.2 else ("", s.2) in
  let (o, a) := MiddlewareFunc now (Some user) req s.1 in (o, (a, c)).
(** The handler of WebCASRedirectPath: an answer that the request is not authorized, or the
    way to the index. *)
Inductive RedirectAnswer := Unauthorised (e : cas_error) | ToIndex (c : option SetCookie).
Definition casredirect (server : CasServer) (sessionKey ticket : string) (s : Authenticator DB * Client) : RedirectAnswer * (Authenticator DB * Client) :=
  if s.1.(at_CasAuth) then
    match SaveTicket server sessionKey ticket s.2 with
    | (Err e, c) => (Unauthorised e, (s.1, c))
    | (Ok cookie, c) => (ToIndex (Some cookie), (s.1, c))
    end
  else (ToIndex None, s).

End Middleware.

(** ** Examples *)

#[export] Instance cas_text : CasText := {|
  unmarshal_response s :=
    if String.eqb s "alice" then Some (mkXmlResponse None (Some (mkXmlSuccess "alice" "" None None [])))
    else if String.eqb s "null" then Some (mkXmlResponse None (Some (mkXmlSuccess "bob" "" None None [mkXmlAttribute "groups" "---"])))
    else if String.eqb s "empty" then Some (mkXmlResponse None None)
    else Some (mkXmlResponse (Some (mkXmlFailure "INVALID_TICKET" s)) None);
  unmarshal_yaml _ := Ok YNull
|}.
Definition answers (status : Z) (body : string) : CasServer := fun _ _ => Some (mkHttp status (Some body)).
(** A server that knows only the first version of the protocol. *)
Definition first_version (body : string) : CasServer := fun endpoint _ =>
  Some (if String.eqb endpoint "validate" then mkHttp 200 (Some body) else mkHttp 404 (Some "")).
Definition yes_alice : string := "yes" +:+ newline +:+ "alice" +:+ newline.
Definition save (server : CasServer) (key : string) (c : Client) : Client := snd (SaveTicket server key "ST-1" c).
Definition with_cookie (key : string) : Request := mkRequest "/index" [(CasCookieName, key)] "" None.
Definition alice_client : Client := save (answers 200 "alice") "k1" NewClient.
Definition cas_site : Authenticator MemTable := mkAuthenticator jwt0 true.

Lemma alice_reached : cas_reach alice_client (save_events (answers 200 "alice") "k1" "ST-1" (Ok (SetSession "k1"))).
Proof.
  assert (Hs : fst (SaveTicket (answers 200 "alice") "k1" "ST-1" NewClient) = Ok (SetSession "k1")) by (vm_compute; reflexivity).
  exact (reach_save _ [] _ _ _ _ _ reach_new (pair_eq_snd _ _ Hs) ltac:(done)).
Qed.

(** A server of the first version says no to a ticket that was used: the session is opened all
    the same, and speaks for who used the ticket first. *)
Lemma used_ticket_accepted :
  let c := save (first_version not_logged_in) "k2" (save (first_version yes_alice) "k1" NewClient) in
  fst (cas_Authenticate (with_cookie "k2") c) = "alice".
Proof. vm_compute. reflexivity. Qed.
(** Short answers and answers without a result panic, and so does the attribute ---. *)
Lemma answers_that_panic :
  ask (first_version "no") "ST-1" = Err CPanic /\ ask (answers 200 "empty") "ST-1" = Err CPanic /\ ask (answers 200 "null") "ST-1" = Err CPanic.
Proof. split; [|split]; vm_compute; reflexivity. Qed.
