(* ===== verification/CasUrl.v ===== *)
(** The addresses that the CAS client makes (pkg/authentication/cas/client.go and sanitise.go):
    where a browser is sent to log in and out, and where a ticket is validated, with the
    queries of net/url that they are made of. *)
From S2P Require Import Prelude GoStrings GoText Authenticator.

(** ** Queries (net/url of go 1.13) *)

Definition upper_hex (n : N) : ascii := default "0"%char (String.get (N.to_nat n) "0123456789ABCDEF").
(** Letters, digits, and four marks are kept. *)
Definition unreserved (c : ascii) : bool :=
  let n := N_of_ascii c in
  ((48 <=? n) && (n <=? 57) || (65 <=? n) && (n <=? 90) || (97 <=? n) && (n <=? 122))%N || has_byte c "-_.~".
Definition escape_byte (c : ascii) : string :=
  if unreserved c then String c ""
  else if Ascii.eqb c " " then "+"
  else String "%" (String (upper_hex (N_of_ascii c / 16)) (String (upper_hex (N_of_ascii c mod 16)) "")).
Fixpoint QueryEscape (s : string) : string := match s with "" => "" | String c s => escape_byte c +:+ QueryEscape s end.
Fixpoint QueryUnescape (s : string) : option string :=
  match s with
  | "" => Some ""
  | String c r =>
      if Ascii.eqb c "%" then
        match r with
        | String a (String b r) =>
            match hex_digit a, hex_digit b with Some x, Some y => String (ascii_of_N (Z.to_N (16 * x + y))) <$> QueryUnescape r | _, _ => None end
        | _ => None
        end
      else String (if Ascii.eqb c "+" then " "%char else c) <$> QueryUnescape r
  end.

(** url.Values: no list of it is empty when it comes from a query. *)
Abbreviation Values := (gmap string (list string)).
Definition values_Add (v : Values) (kv : string * string) : Values := <[kv.1 := default [] (v !! kv.1) ++ [kv.2]]> v.
Definition values_Get (v : Values) (key : string) : string := match v !! key with Some (x :: _) => x | _ => "" end.
Definition values_Del (v : Values) (key : string) : Values := delete key v.

(** The parts of a query: what is between two separators. *)
Fixpoint parts (s : string) : list string :=
  match s with
  | "" => [""]
  | String d r =>
      if Ascii.eqb d "&" || Ascii.eqb d ";" then "" :: parts r
      else match parts r with w :: ws => String d w :: ws | [] => [String d ""] end
  end.
(** A part that is empty or cannot be read is left out. *)
Definition pair_of (part : string) : option (string * string) :=
  if String.eqb part "" then None
  else
    let (key, value) := match index_byte "=" part with Some i => (take_bytes i part, drop_bytes (S i) part) | None => (part, "") end in
    match QueryUnescape key, QueryUnescape value with Some k, Some v => Some (k, v) | _, _ => None end.
Definition pairs_of (query : string) : list (string * string) := omap pair_of (parts query).
Definition Query (query : string) : Values := foldl values_Add ∅ (pairs_of query).
Definition KeyNotGreater (a b : string * list string) : Prop := String.leb a.1 b.1 = true.
#[export] Instance KeyNotGreater_dec : RelDecision KeyNotGreater := fun a b => decide (String.leb a.1 b.1 = true).
Definition encode_pair (kv : string * string) : string := QueryEscape kv.1 +:+ "=" +:+ QueryEscape kv.2.
Definition pairs (l : list (string * list string)) : list (string * string) := l ≫= (fun kv => pair kv.1 <$> kv.2).
Definition Encode (v : Values) : string := Join "&" (encode_pair <$> pairs (merge_sort KeyNotGreater (map_to_list v))).

(** *** What is encoded is read back *)

Lemma unescape_byte c r : QueryUnescape (escape_byte c +:+ r) = String c <$> QueryUnescape r.
Proof. by destruct c as [[] [] [] [] [] [] [] []]. Qed.
Lemma unescape_escape s : QueryUnescape (QueryEscape s) = Some s.
Proof. induction s as [|c s IH]; [done|]. cbn [QueryEscape]. by rewrite unescape_byte, IH. Qed.
Definition separators : list ascii := ["&"; ";"; "="; "?"; "/"; "#"]%char.
Lemma escape_byte_clear c : forallb (fun d => negb (has_byte d (escape_byte c))) separators = true.
Proof. by destruct c as [[] [] [] [] [] [] [] []]. Qed.
Lemma escape_clear d s : d ∈ separators -> has_byte d (QueryEscape s) = false.
Proof.
  intros Hd. induction s as [|c s IH]; [done|]. cbn [QueryEscape]. rewrite has_byte_app, IH, orb_false_r.
  pose proof (escape_byte_clear c) as Hc. rewrite forallb_forall in Hc. apply negb_true_iff, Hc. by apply list_elem_of_In.
Qed.

Lemma parts_app a b : parts (a +:+ "&" +:+ b) = parts a ++ parts b.
Proof.
  induction a as [|d a IH]; [done|]. rewrite app_String. cbn [parts]. rewrite IH. destruct (Ascii.eqb d "&" || Ascii.eqb d ";"); [done|].
  by destruct (parts a) eqn:E; [destruct a as [|x a]; cbn in E; [|destruct (Ascii.eqb x "&" || Ascii.eqb x ";"); [|destruct (parts a)]]|].
Qed.
Lemma parts_clear s : has_byte "&" s = false -> has_byte ";" s = false -> parts s = [s].
Proof.
  induction s as [|d s IH]; [done|]. cbn [has_byte parts]. intros [Ha Hs]%orb_false_iff [Hb Hs']%orb_false_iff.
  by rewrite Ha, Hb, (IH Hs Hs').
Qed.
Lemma cut_at c a b : has_byte c a = false ->
  index_byte c (a +:+ String c b) = Some (String.length a) /\ take_bytes (String.length a) (a +:+ String c b) = a /\
  drop_bytes (S (String.length a)) (a +:+ String c b) = b.
Proof.
  induction a as [|d a IH]; [rewrite app_Empty; cbn [index_byte String.length take_bytes drop_bytes]; by rewrite Ascii.eqb_refl|]. cbn [has_byte]. intros [Hd Ha]%orb_false_iff. destruct (IH Ha) as (Hi & Ht & Hr).
  rewrite app_String. cbn [index_byte String.length take_bytes drop_bytes] in *. by rewrite Hd, Hi, Ht.
Qed.
Lemma cut_none c a : has_byte c a = false -> index_byte c a = None.
Proof. induction a as [|d a IH]; [done|]. cbn [has_byte index_byte]. intros [-> Ha]%orb_false_iff. by rewrite IH. Qed.
Lemma encode_pair_clear kv : parts (encode_pair kv) = [encode_pair kv].
Proof. apply parts_clear; unfold encode_pair; rewrite !has_byte_app, !escape_clear by (vm_compute; set_solver); done. Qed.
Lemma pair_of_encode kv : pair_of (encode_pair kv) = Some kv.
Proof.
  destruct kv as [k v]. unfold pair_of, encode_pair. cbn [fst snd].
  destruct (String.eqb_spec (QueryEscape k +:+ "=" +:+ QueryEscape v) "") as [He|_]; [by destruct (QueryEscape k)|].
  destruct (cut_at "=" (QueryEscape k) (QueryEscape v)) as (Hi & Ht & Hd); [apply escape_clear; vm_compute; set_solver|].
  change ("=" +:+ QueryEscape v) with (String "=" (QueryEscape v)). by rewrite Hi, Ht, Hd, !unescape_escape.
Qed.
Lemma pairs_of_Join l : pairs_of (Join "&" (encode_pair <$> l)) = l.
Proof.
  unfold pairs_of. induction l as [|kv [|kv' l] IH]; [done| |].
  - change (Join "&" (encode_pair <$> [kv])) with (encode_pair kv). rewrite encode_pair_clear. cbn. by rewrite pair_of_encode.
  - change (Join "&" (encode_pair <$> kv :: kv' :: l)) with (encode_pair kv +:+ "&" +:+ Join "&" (encode_pair <$> kv' :: l)).
    rewrite parts_app, encode_pair_clear. cbn [app omap]. unfold omap in *. cbn [list_omap app]. by rewrite pair_of_encode, IH.
Qed.
Definition values_ok (v : Values) : Prop := forall k l, v !! k = Some l -> l <> [].
Lemma add_all (v : Values) k (l : list string) : foldl values_Add v (pair k <$> l) = match l with [] => v | _ => <[k := default [] (v !! k) ++ l]> v end.
Proof.
  revert v. induction l as [|x l IH]; [done|]. intros v. cbn [fmap list_fmap foldl]. rewrite IH. unfold values_Add. cbn [fst snd].
  destruct l as [|y l]; [done|]. rewrite lookup_insert_eq, insert_insert_eq. cbn. by rewrite <- app_assoc.
Qed.
Lemma add_pairs (l : list (string * list string)) (v : Values) :
  NoDup l.*1 -> (forall k, k ∈ l.*1 -> v !! k = None) -> (forall kv, kv ∈ l -> kv.2 <> []) ->
  foldl values_Add v (pairs l) = list_to_map l ∪ v.
Proof.
  revert v. induction l as [|[k vs] l IH]; intros v Hnd Hv Hne; [cbn; by rewrite left_id_L by apply _|].
  inversion Hnd as [|? ? Hk Hnd']; subst. unfold pairs. cbn [mbind list_bind fst snd]. rewrite foldl_app, add_all.
  rewrite (Hv k) by (cbn; set_solver). cbn [default app]. destruct vs as [|x vs]; [by destruct (Hne (k, []) ltac:(set_solver))|].
  fold (pairs l). rewrite IH; [|done| |by intros; apply Hne; set_solver].
  - cbn. rewrite <- insert_union_r; [by rewrite insert_union_l|]. by apply not_elem_of_list_to_map_1.
  - intros k' Hk'. rewrite lookup_insert_ne by (intros ->; done). apply Hv. cbn. set_solver.
Qed.
Lemma added_once (kvs : list (string * string)) : NoDup kvs.*1 -> foldl values_Add ∅ kvs = list_to_map ((fun kv => (kv.1, [kv.2])) <$> kvs).
Proof.
  intros Hnd. assert (Hkvs : kvs = pairs ((fun kv => (kv.1, [kv.2])) <$> kvs)).
  { clear. unfold pairs. induction kvs as [|[k v] l IH]; [done|]. cbn. by f_equal. }
  rewrite Hkvs at 1. rewrite add_pairs.
  - by rewrite right_id_L by apply _.
  - by rewrite <- list_fmap_compose.
  - intros k' _. apply lookup_empty.
  - intros kv Hkv. by apply list_elem_of_fmap in Hkv as ([? ?] & -> & _).
Qed.
(** Encode, then Query. *)
Lemma Query_Encode v : values_ok v -> Query (Encode v) = v.
Proof.
  intros Hok. unfold Query, Encode. rewrite pairs_of_Join. set (l := merge_sort KeyNotGreater (map_to_list v)).
  assert (Hp : l ≡ₚ map_to_list v) by apply merge_sort_Permutation.
  rewrite add_pairs.
  - rewrite right_id_L by apply _. rewrite (list_to_map_proper l (map_to_list v)); [apply list_to_map_to_list| |done]. rewrite Hp. apply NoDup_fst_map_to_list.
  - rewrite Hp. apply NoDup_fst_map_to_list.
  - intros k _. apply lookup_empty.
  - intros [k vs] Hin. rewrite Hp in Hin. by apply elem_of_map_to_list, Hok in Hin.
Qed.
Lemma values_Add_ok v kv : values_ok v -> values_ok (values_Add v kv).
Proof. intros Hv k l. unfold values_Add. rewrite lookup_insert_Some. intros [[_ <-]|[_ Hl]]; [by destruct (default [] _)|by apply Hv in Hl]. Qed.
Lemma Query_ok s : values_ok (Query s).
Proof.
  unfold Query. assert (H : values_ok ∅) by (intros k l Hl; by rewrite lookup_empty in Hl). revert H. generalize (∅ : Values).
  induction (pairs_of s) as [|kv l IH]; intros v Hv; [done|]. apply IH. by apply values_Add_ok.
Qed.
(** A part that is appended. *)
Lemma Query_append s kv : Query (s +:+ "&" +:+ encode_pair kv) = values_Add (Query s) kv.
Proof.
  unfold Query, pairs_of. rewrite parts_app, encode_pair_clear. unfold omap. rewrite omap_app, foldl_app. cbn [omap list_omap]. by rewrite pair_of_encode.
Qed.

(** ** Addresses *)

Record URL := mkURL { u_Scheme : string; u_Host : string; u_Path : string; u_RawQuery : string }.
Definition set_Path (path : string) (u : URL) : URL := mkURL u.(u_Scheme) u.(u_Host) path u.(u_RawQuery).
Definition set_RawQuery (query : string) (u : URL) : URL := mkURL u.(u_Scheme) u.(u_Host) u.(u_Path) query.

Fixpoint every (p : ascii -> bool) (s : string) : bool := match s with "" => true | String c s => p c && every p s end.
(** What url.Parse reads back from what URL.String wrote, without a change: the names of http
    hosts, paths of unreserved bytes, and queries of visible bytes. *)
Definition decimal (c : ascii) : bool := is_some (dec_digit c).
Definition plain_host (h : string) : bool :=
  negb (String.eqb h "") &&
  match index_byte ":" h with Some i => every unreserved (take_bytes i h) && every decimal (drop_bytes (S i) h) | None => every unreserved h end.
Definition path_byte (c : ascii) : bool := unreserved c || Ascii.eqb c "/".
Definition plain_path (p : string) : bool :=
  match p with String c r => Ascii.eqb c "/" && negb (HasPrefix r "/") && every path_byte r | "" => false end.
Definition query_byte (c : ascii) : bool := let n := N_of_ascii c in (33 <=? n)%N && (n <=? 126)%N && negb (Ascii.eqb c "#").
Definition plain_scheme (s : string) : bool := String.eqb s "http" || String.eqb s "https".
Definition absolute (u : URL) : bool :=
  plain_scheme u.(u_Scheme) && plain_host u.(u_Host) && (String.eqb u.(u_Path) "" || plain_path u.(u_Path)) && every query_byte u.(u_RawQuery).
(** The address of a request: a path and a query. *)
Definition requested (u : URL) : bool :=
  String.eqb u.(u_Scheme) "" && String.eqb u.(u_Host) "" && plain_path u.(u_Path) && every query_byte u.(u_RawQuery).

(** url.Parse, URL.String, URL.Parse and path.Join. *)
Class UrlText := {
  url_Parse : string -> option URL;
  url_String : URL -> string;
  url_Ref : URL -> string -> option URL;
  path_Join : string -> string -> string
}.
Class UrlLaws `{UrlText} := {
  url_Parse_String u : absolute u || requested u = true -> url_Parse (url_String u) = Some u;
  url_Ref_server u target : absolute u = true -> target ∈ ["login"; "logout"; "serviceValidate"; "validate"] ->
    exists p, plain_path p = true /\ url_Ref u (path_Join u.(u_Path) target) = Some (mkURL u.(u_Scheme) u.(u_Host) p "")
}.

(** What a request says about itself: its address, its Host and X-Forwarded-Proto headers, and
    whether it came over TLS. *)
Record WebRequest := mkWebRequest { wr_URL : URL; wr_Host : string; wr_ForwardedProto : string; wr_TLS : bool }.
(** [UPanic]: the address that could not be parsed again is used. *)
Inductive url_error := UParse | UPanic.

Section Client.
Context `{UrlText}.

Definition request_scheme (r : WebRequest) : string :=
  if negb (String.eqb r.(wr_ForwardedProto) "") then r.(wr_ForwardedProto) else if r.(wr_TLS) then "https" else "http".
Definition requestURL (r : WebRequest) : result url_error URL :=
  match url_Parse (url_String r.(wr_URL)) with
  | None => Err UParse
  | Some u => Ok (mkURL (request_scheme r) r.(wr_Host) u.(u_Path) u.(u_RawQuery))
  end.
Definition urlCleanParameters : list string := ["gateway"; "renew"; "service"; "ticket"].
Definition clean (v : Values) : Values := foldl values_Del v urlCleanParameters.
Definition sanitisedURL (unclean : URL) : result url_error URL :=
  match url_Parse (url_String unclean) with
  | None => Err UPanic
  | Some u => Ok (set_RawQuery (Encode (clean (Query u.(u_RawQuery)))) u)
  end.
Definition sanitisedURLString (unclean : URL) : result url_error string := result_bind (sanitisedURL unclean) (fun u => Ok (url_String u)).
Definition server_url (casServer : URL) (target : string) : result url_error URL :=
  match url_Ref casServer (path_Join casServer.(u_Path) target) with Some u => Ok u | None => Err UParse end.
Definition with_values (u : URL) (kvs : list (string * string)) : string :=
  url_String (set_RawQuery (Encode (foldl values_Add (Query u.(u_RawQuery)) kvs)) u).

Definition casUrlForRequest (casServer : URL) (r : WebRequest) (target service : string) : result url_error string :=
  result_bind (server_url casServer target) (fun u =>
  result_bind (requestURL r) (fun serviceUrl =>
  result_bind (sanitisedURLString (set_Path service serviceUrl)) (fun s => Ok (with_values u [("service", s)])))).
Definition loginUrlForRequest (casServer : URL) (r : WebRequest) (service : string) := casUrlForRequest casServer r "login" service.
Definition logoutUrlForRequest (casServer : URL) (r : WebRequest) (service : string) := casUrlForRequest casServer r "logout" service.
Definition validate_url (target : string) (casServer : URL) (ticket : string) (r : WebRequest) : result url_error string :=
  result_bind (server_url casServer target) (fun u =>
  result_bind (requestURL r) (fun service =>
  result_bind (sanitisedURLString service) (fun s => Ok (with_values u [("service", s); ("ticket", ticket)])))).
Definition serviceValidateUrlForRequest := validate_url "serviceValidate".
Definition validateUrlForRequest := validate_url "validate".

(** Where the browser is sent; an address that cannot be made is answered with an error. *)
Inductive Redirection := Found (address : string) | InternalServerError | Panics.
Definition redirect (u : result url_error string) : Redirection :=
  match u with Ok u => Found u | Err UParse => InternalServerError | Err UPanic => Panics end.
Definition RedirectToLogin (casServer : URL) (r : WebRequest) (service : string) : Redirection := redirect (loginUrlForRequest casServer r service).
Definition RedirectToLogout (casServer : URL) (r : WebRequest) (service : string) : Redirection := redirect (logoutUrlForRequest casServer r service).
(** SaveTicket: the ticket of a request. *)
Definition ticket_of (r : WebRequest) : string := values_Get (Query r.(wr_URL).(u_RawQuery)) "ticket".

(** The pages of the user interface (pkg/authentication/middleware.go). *)
Definition indexPath (r : WebRequest) (index : string) : result url_error string :=
  match url_Parse (url_String r.(wr_URL)) with
  | None => Err UPanic
  | Some u =>
      Ok (url_String (mkURL (request_scheme r) r.(wr_Host) index (Encode (foldl values_Del (Query u.(u_RawQuery)) ["ticket"; "service"]))))
  end.
(** Where a request goes that the middleware does not let through. *)
Definition redirection (casServer : URL) (r : WebRequest) (o : Outcome) : option Redirection :=
  match o with
  | Authenticator.RedirectToCas => Some (RedirectToLogin casServer r WebCASRedirectPath)
  | Authenticator.RedirectToLogin => Some (redirect (indexPath r "/login"))
  | _ => None
  end.
End Client.

(** ** A login and the validation of its ticket *)

Lemma every_app p a b : every p (a +:+ b) = every p a && every p b.
Proof. induction a as [|c a IH]; [done|]. rewrite app_String. cbn [every]. by rewrite IH, andb_assoc. Qed.
Lemma escape_plain s : every query_byte (QueryEscape s) = true.
Proof. induction s as [|c s IH]; [done|]. cbn [QueryEscape]. rewrite every_app, IH, andb_true_r. by destruct c as [[] [] [] [] [] [] [] []]. Qed.
Lemma encode_pair_plain kv : every query_byte (encode_pair kv) = true.
Proof. unfold encode_pair. by rewrite !every_app, !escape_plain. Qed.
Lemma Encode_plain v : every query_byte (Encode v) = true.
Proof.
  unfold Encode. generalize (pairs (merge_sort KeyNotGreater (map_to_list v))). intros l. induction l as [|kv [|kv' l] IH]; [done| |].
  - apply encode_pair_plain.
  - change (Join "&" (encode_pair <$> kv :: kv' :: l)) with (encode_pair kv +:+ "&" +:+ Join "&" (encode_pair <$> kv' :: l)).
    by rewrite !every_app, encode_pair_plain, IH.
Qed.
Lemma clean_lookup v k : clean v !! k = if decide (k ∈ urlCleanParameters) then None else v !! k.
Proof.
  unfold clean, urlCleanParameters, values_Del. cbn [foldl]. rewrite !lookup_delete. repeat case_decide; subst; try done; set_solver.
Qed.
Lemma clean_ok v : values_ok v -> values_ok (clean v).
Proof. intros Hv k l. rewrite clean_lookup. case_decide; [done|]. apply Hv. Qed.
(** What CAS adds is what is taken away. *)
Lemma clean_added v k x : k ∈ urlCleanParameters -> (forall k, k ∈ urlCleanParameters -> v !! k = None) -> clean (values_Add v (k, x)) = v.
Proof.
  intros Hk Hv. apply map_eq. intros k'. rewrite clean_lookup. case_decide as Hk'; [by rewrite Hv|].
  unfold values_Add. cbn [fst snd]. by rewrite lookup_insert_ne by (intros ->; done).
Qed.
Lemma Query_empty : Query "" = ∅.
Proof. done. Qed.

Section Login.
Context `{UrlLaws}.

(** A request that can be answered: its address and Host are plain, and the proxy in front says
    http or https, if it says anything. *)
Definition plain_request (r : WebRequest) : bool :=
  requested r.(wr_URL) && plain_host r.(wr_Host) && plain_scheme (request_scheme r).
(** The server sends the browser back to the service, with the ticket in the query. *)
Definition returns (r : WebRequest) (service : URL) (ticket : string) : WebRequest :=
  mkWebRequest (mkURL "" "" service.(u_Path)
      ((if String.eqb service.(u_RawQuery) "" then "" else service.(u_RawQuery) +:+ "&") +:+ encode_pair ("ticket", ticket)))
    r.(wr_Host) r.(wr_ForwardedProto) r.(wr_TLS).
(** An address that has a parameter, once, with a value. *)
Definition asks_for (address k v : string) : Prop := exists u, url_Parse address = Some u /\ Query u.(u_RawQuery) !! k = Some [v].

Definition service_of (r : WebRequest) (path : string) : URL :=
  mkURL (request_scheme r) r.(wr_Host) path (Encode (clean (Query r.(wr_URL).(u_RawQuery)))).
Lemma absolute_query u q : absolute u = true -> every query_byte q = true -> absolute (set_RawQuery q u) = true.
Proof. unfold absolute. cbn. intros Hu Hq. rewrite !andb_true_iff in *. naive_solver. Qed.
Lemma requestURL_plain r : plain_request r = true -> requestURL r = Ok (mkURL (request_scheme r) r.(wr_Host) r.(wr_URL).(u_Path) r.(wr_URL).(u_RawQuery)).
Proof. unfold plain_request, requestURL. rewrite !andb_true_iff. intros [[Hu _] _]. rewrite url_Parse_String; [done|]. by rewrite Hu, orb_true_r. Qed.
Lemma request_absolute r path : plain_request r = true -> plain_path path = true ->
  absolute (mkURL (request_scheme r) r.(wr_Host) path r.(wr_URL).(u_RawQuery)) = true.
Proof. unfold plain_request, requested, absolute. cbn. intros Hr ->. rewrite !andb_true_iff, !orb_true_r in *. naive_solver. Qed.
Lemma sanitised_service r path : plain_request r = true -> plain_path path = true ->
  sanitisedURLString (mkURL (request_scheme r) r.(wr_Host) path r.(wr_URL).(u_RawQuery)) = Ok (url_String (service_of r path)).
Proof. intros Hr Hp. unfold sanitisedURLString, sanitisedURL. rewrite url_Parse_String by (by rewrite request_absolute). done. Qed.
Lemma service_absolute r path : plain_request r = true -> plain_path path = true -> absolute (service_of r path) = true.
Proof. intros Hr Hp. apply (absolute_query _ (Encode _) (request_absolute r path Hr Hp)), Encode_plain. Qed.

(** A page of the user interface is one of the server that was asked, without a ticket. *)
Lemma indexPath_clean r index : plain_request r = true -> plain_path index = true ->
  exists a u, indexPath r index = Ok a /\ url_Parse a = Some u /\ u.(u_Scheme) = request_scheme r /\ u.(u_Host) = r.(wr_Host) /\ u.(u_Path) = index /\
    forall k, Query u.(u_RawQuery) !! k = if decide (k = "ticket" \/ k = "service") then None else Query r.(wr_URL).(u_RawQuery) !! k.
Proof.
  intros Hr Hp. unfold indexPath. rewrite url_Parse_String by (unfold plain_request in Hr; rewrite !andb_true_iff in Hr; destruct Hr as [[-> _] _]; by rewrite orb_true_r).
  set (v := foldl values_Del _ _).
  assert (Hv : forall k, v !! k = if decide (k = "ticket" \/ k = "service") then None else Query (u_RawQuery (wr_URL r)) !! k).
  { intros k. unfold v, values_Del. cbn [foldl]. rewrite !lookup_delete. repeat case_decide; naive_solver. }
  pose proof (absolute_query _ (Encode v) (request_absolute r index Hr Hp) (Encode_plain v)) as Habs. unfold set_RawQuery in Habs. cbn [u_Scheme u_Host u_Path] in Habs.
  eexists _, _. split; [done|]. rewrite url_Parse_String by (by rewrite Habs).
  split; [done|]. do 3 (split; [done|]). intros k. cbn [u_RawQuery]. rewrite Query_Encode; [apply Hv|]. intros k' l. rewrite Hv. case_decide; [done|]. apply Query_ok.
Qed.
(** The address of the server with parameters. *)
Lemma server_asks casServer target kvs : absolute casServer = true -> target ∈ ["login"; "logout"; "serviceValidate"; "validate"] -> NoDup kvs.*1 ->
  exists u, server_url casServer target = Ok u /\ forall k v, (k, v) ∈ kvs -> asks_for (with_values u kvs) k v.
Proof.
  intros Hs Ht Hnd. destruct (url_Ref_server casServer target Hs Ht) as (p & Hp & Hu). unfold server_url. rewrite Hu. eexists. split; [done|].
  intros k v Hin. unfold asks_for, with_values. cbn [u_RawQuery]. rewrite Query_empty. eexists. split.
  - apply url_Parse_String. apply orb_true_intro. left. apply absolute_query; [|apply Encode_plain].
    unfold absolute in *. cbn. rewrite Hp, orb_true_r. rewrite !andb_true_iff in *. naive_solver.
  - cbn [u_RawQuery set_RawQuery]. rewrite added_once by done. rewrite Query_Encode.
    + apply elem_of_list_to_map_1; [by rewrite <- list_fmap_compose|]. by apply list_elem_of_fmap; exists (k, v).
    + intros k' l Hl. apply elem_of_list_to_map_2 in Hl. apply list_elem_of_fmap in Hl as ([? ?] & ? & _). by simplify_eq.
Qed.
(** The service of the request that comes back is the one that was logged in to. *)
Lemma service_returns r path ticket : plain_request r = true -> plain_path path = true ->
  let r' := returns r (service_of r path) ticket in
  plain_request r' = true /\ ticket_of r' = ticket /\ service_of r' path = service_of r path /\ r'.(wr_URL).(u_Path) = path.
Proof.
  intros Hr Hp. cbn zeta. set (v := clean (Query (u_RawQuery (wr_URL r)))).
  assert (Hv : values_ok v) by (apply clean_ok, Query_ok).
  assert (Hnone : forall k, k ∈ urlCleanParameters -> v !! k = None) by (intros k Hk; unfold v; rewrite clean_lookup; by rewrite decide_True).
  set (q := (if String.eqb (Encode v) "" then "" else Encode v +:+ "&") +:+ encode_pair ("ticket", ticket)).
  assert (Hq : Query q = values_Add v ("ticket", ticket)).
  { unfold q. destruct (String.eqb_spec (Encode v) "") as [He|_].
    - pose proof (Query_Encode v Hv) as Hve. rewrite He, Query_empty in Hve. rewrite <- Hve. rewrite app_Empty. unfold Query, pairs_of. rewrite encode_pair_clear.
      cbn [omap list_omap]. by rewrite pair_of_encode.
    - by rewrite str_app_assoc, Query_append, Query_Encode. }
  change (returns r (service_of r path) ticket) with (mkWebRequest (mkURL "" "" path q) r.(wr_Host) r.(wr_ForwardedProto) r.(wr_TLS)).
  split_and!; [| | |done].
  - unfold plain_request, requested, request_scheme in *. cbn [wr_URL wr_Host wr_ForwardedProto wr_TLS u_Scheme u_Host u_Path u_RawQuery] in *.
    rewrite !andb_true_iff in *. destruct Hr as [[_ Hh] Hs]. split_and!; try done.
    unfold q. destruct (String.eqb (Encode v) ""); [by rewrite app_Empty, encode_pair_plain|].
    by rewrite str_app_assoc, every_app, Encode_plain, (every_app _ "&"), encode_pair_plain.
  - unfold ticket_of, values_Get. cbn [wr_URL u_RawQuery]. rewrite Hq. unfold values_Add. cbn [fst snd].
    by rewrite lookup_insert_eq, (Hnone "ticket") by (by apply (bool_decide_unpack _)).
  - unfold service_of, request_scheme. cbn [wr_URL wr_Host wr_ForwardedProto wr_TLS u_RawQuery]. rewrite Hq, clean_added; [done| |done]. by apply (bool_decide_unpack _).
Qed.
Lemma validate_asks casServer target ticket r path : absolute casServer = true -> plain_request r = true -> plain_path path = true ->
  r.(wr_URL).(u_Path) = path -> target ∈ ["login"; "logout"; "serviceValidate"; "validate"] ->
  exists a, validate_url target casServer ticket r = Ok a /\ asks_for a "service" (url_String (service_of r path)) /\ asks_for a "ticket" ticket.
Proof.
  intros Hs Hr Hp Hpath Ht.
  destruct (server_asks casServer target [("service", url_String (service_of r path)); ("ticket", ticket)] Hs Ht) as (u & Hu & Ha); [repeat constructor; set_solver|].
  eexists. split; [|split; apply Ha; set_solver]. unfold validate_url. rewrite Hu, (requestURL_plain r Hr), Hpath. cbn [result_bind].
  by rewrite (sanitised_service r path Hr Hp).
Qed.
End Login.

(** ** Properties *)

(** C10. A login through the CAS server comes back to itself: the browser is sent to the login
    address of the server with a service of the host and path of the request, which carries no
    ticket; when the server sends it back there with a ticket, that ticket is read from the
    request, and both versions of the validation ask the server for that ticket and for the
    very service that was logged in to, without which the server refuses the ticket. *)
Theorem login_service_validated `{UrlLaws} (casServer : URL) (r : WebRequest) (path ticket : string) :
  absolute casServer = true -> plain_request r = true -> plain_path path = true ->
  exists login service,
    RedirectToLogin casServer r path = Found login /\ asks_for login "service" (url_String service) /\
    service.(u_Host) = r.(wr_Host) /\ service.(u_Path) = path /\ Query service.(u_RawQuery) !! "ticket" = None /\
    let r' := returns r service ticket in
    ticket_of r' = ticket /\
    exists validation validation1,
      serviceValidateUrlForRequest casServer ticket r' = Ok validation /\ validateUrlForRequest casServer ticket r' = Ok validation1 /\
      (forall v, v = validation \/ v = validation1 -> asks_for v "service" (url_String service) /\ asks_for v "ticket" ticket).
Proof.
  intros Hs Hr Hp. set (service := service_of r path).
  destruct (server_asks casServer "login" [("service", url_String service)] Hs) as (u & Hu & Ha); [set_solver|apply NoDup_singleton|].
  exists (with_values u [("service", url_String service)]), service. split_and!.
  - unfold RedirectToLogin, loginUrlForRequest, casUrlForRequest. rewrite Hu, (requestURL_plain r Hr). unfold set_Path. cbn [result_bind u_Scheme u_Host u_RawQuery].
    by rewrite (sanitised_service r path Hr Hp).
  - apply Ha. set_solver.
  - done.
  - done.
  - unfold service, service_of. cbn [u_RawQuery]. rewrite Query_Encode by apply clean_ok, Query_ok. by rewrite clean_lookup.
  - cbn zeta. destruct (service_returns r path ticket Hr Hp) as (Hr' & Ht & Hsv & Hp'). fold service in Hr', Ht, Hsv, Hp'. split; [done|].
    pose proof (validate_asks casServer "serviceValidate" ticket _ path Hs Hr' Hp Hp' ltac:(by apply (bool_decide_unpack _))) as (v & Hv & Hav).
    pose proof (validate_asks casServer "validate" ticket _ path Hs Hr' Hp Hp' ltac:(by apply (bool_decide_unpack _))) as (v1 & Hv1 & Hav1).
    exists v, v1. split; [done|]. split; [done|]. rewrite Hsv in Hav, Hav1. by intros ? [->| ->].
Qed.

(** ** An instance *)

Module Plain.
Definition string_of (u : URL) : string :=
  (if String.eqb u.(u_Scheme) "" then "" else u.(u_Scheme) +:+ "://" +:+ u.(u_Host)) +:+ u.(u_Path) +:+
  (if String.eqb u.(u_RawQuery) "" then "" else String "?" u.(u_RawQuery)).
Definition cut (c : ascii) (s : string) : string * option string :=
  match index_byte c s with Some i => (take_bytes i s, Some (drop_bytes (S i) s)) | None => (s, None) end.
Definition scheme_of (s : string) : string * string :=
  if HasPrefix s "http://" then ("http", drop_bytes 7 s) else if HasPrefix s "https://" then ("https", drop_bytes 8 s) else ("", s).
Definition parse (s : string) : option URL :=
  let (scheme, rest) := scheme_of s in
  if String.eqb scheme "" && negb (HasPrefix rest "/") then None else
  let (address, query) := cut "?" rest in
  let (host, path) := if String.eqb scheme "" then ("", address) else let (host, path) := cut "/" address in (host, from_option (String "/") "" path) in
  Some (mkURL scheme host path (default "" query)).
Definition join (p target : string) : string := (if String.eqb p "/" then "" else p) +:+ String "/" target.
#[export] Instance plain_text : UrlText := {
  url_Parse := parse; url_String := string_of; url_Ref u p := Some (mkURL u.(u_Scheme) u.(u_Host) p ""); path_Join := join
}.

Lemma every_clear p c s : p c = false -> every p s = true -> has_byte c s = false.
Proof.
  intros Hc. induction s as [|d s IH]; [done|]. cbn [every has_byte]. intros [Hd Hs]%andb_true_iff. rewrite (IH Hs), orb_false_r.
  apply Ascii.eqb_neq. congruence.
Qed.
Lemma cut_sep c a b : has_byte c a = false -> cut c (a +:+ String c b) = (a, Some b).
Proof. intros Ha. unfold cut. by destruct (cut_at c a b Ha) as (-> & -> & ->). Qed.
Lemma cut_clear c a : has_byte c a = false -> cut c a = (a, None).
Proof. intros Ha. unfold cut. by rewrite cut_none. Qed.
Lemma cut_query a q : has_byte "?" a = false -> exists o, cut "?" (a +:+ (if String.eqb q "" then "" else String "?" q)) = (a, o) /\ default "" o = q.
Proof.
  intros Ha. destruct (String.eqb_spec q "") as [->|_]; [exists None; by rewrite app_empty_r, cut_clear|exists (Some q); by rewrite cut_sep].
Qed.
Lemma path_clear p : plain_path p = true -> has_byte "?" p = false /\ exists r, p = String "/" r /\ HasPrefix r "/" = false.
Proof.
  destruct p as [|c r]; [done|]. cbn [plain_path]. rewrite !andb_true_iff. intros [[->%Ascii.eqb_eq Hr] He]. apply negb_true_iff in Hr.
  split; [|by exists r]. cbn [has_byte]. by rewrite (every_clear path_byte "?").
Qed.
Lemma index_split c s i : index_byte c s = Some i -> s = take_bytes i s +:+ String c (drop_bytes (S i) s).
Proof.
  revert i. induction s as [|d s IH]; intros i; [done|]. cbn [index_byte]. destruct (Ascii.eqb_spec d c) as [->|_]; [by intros [= <-]|].
  destruct (index_byte c s) as [j|]; [|done]. intros [= <-]. cbn [take_bytes drop_bytes]. rewrite app_String. f_equal. by apply IH.
Qed.
Lemma host_clear c h : plain_host h = true -> unreserved c || decimal c || Ascii.eqb c ":" = false -> has_byte c h = false.
Proof.
  unfold plain_host. rewrite andb_true_iff, !orb_false_iff. intros [_ Hh] [[Hu Hd] He]. destruct (index_byte ":" h) as [i|] eqn:Hi; [|by apply (every_clear unreserved)].
  apply andb_true_iff in Hh as [Ht Hr]. rewrite (index_split _ _ _ Hi), has_byte_app. cbn [has_byte].
  rewrite Ascii.eqb_sym, He, (every_clear unreserved c _ Hu Ht), (every_clear decimal c _ Hd Hr). done.
Qed.
Lemma parse_absolute u : absolute u = true -> parse (string_of u) = Some u.
Proof.
  destruct u as [s h p q]. unfold absolute. cbn [u_Scheme u_Host u_Path u_RawQuery]. rewrite !andb_true_iff. intros [[[Hs Hh] Hp] _].
  assert (Hhq : has_byte "?" h = false) by (by apply host_clear). assert (Hhs : has_byte "/" h = false) by (by apply host_clear).
  assert (Hc : has_byte "?" (h +:+ p) = false /\ cut "/" (h +:+ p) = (h, if String.eqb p "" then None else Some (drop_bytes 1 p)) /\ from_option (String "/") "" (if String.eqb p "" then None else Some (drop_bytes 1 p)) = p).
  { rewrite has_byte_app, Hhq. destruct (String.eqb_spec p "") as [->|_]; [by rewrite app_empty_r, cut_clear|].
    destruct (path_clear p) as (-> & r & -> & _); [by destruct p|]. by rewrite cut_sep. }
  destruct Hc as (Hq & Hcut & Hpath). destruct (cut_query (h +:+ p) q Hq) as (o & Ho & Hdq).
  assert (Hrest : string_of (mkURL s h p q) = s +:+ "://" +:+ (h +:+ p) +:+ (if String.eqb q "" then "" else String "?" q)).
  { unfold string_of. cbn [u_Scheme u_Host u_Path u_RawQuery]. destruct (String.eqb_spec s "") as [->|_]; [done|]. by rewrite !str_app_assoc. }
  unfold parse. rewrite Hrest. assert (Hscheme : forall x, scheme_of (s +:+ "://" +:+ x) = (s, x)).
  { intros x. unfold plain_scheme in Hs. apply orb_true_iff in Hs as [->%String.eqb_eq| ->%String.eqb_eq];
      unfold scheme_of; rewrite !app_String, !app_Empty, !HasPrefix_cons; by destruct x. }
  rewrite Hscheme, Ho, Hcut, Hpath, Hdq. by destruct (String.eqb_spec s "") as [->|_].
Qed.
Lemma parse_requested u : requested u = true -> parse (string_of u) = Some u.
Proof.
  destruct u as [s h p q]. unfold requested. cbn [u_Scheme u_Host u_Path u_RawQuery]. rewrite !andb_true_iff. intros [[[->%String.eqb_eq ->%String.eqb_eq] Hp] _].
  destruct (path_clear p Hp) as (Hq & r & -> & _). destruct (cut_query _ q Hq) as (o & Ho & Hdq).
  unfold parse, string_of. cbn [u_Scheme u_Host u_Path u_RawQuery]. rewrite String.eqb_refl, app_Empty.
  assert (Hscheme : forall x, scheme_of (String "/" r +:+ x) = ("", String "/" r +:+ x)) by (intros x; unfold scheme_of; by rewrite app_String, !HasPrefix_cons).
  assert (Hslash : forall x, HasPrefix (String "/" r +:+ x) "/" = true) by (intros x; rewrite app_String, HasPrefix_cons; by destruct (r +:+ x)).
  rewrite Hscheme, Hslash, Ho. cbn [String.eqb andb negb]. by rewrite Hdq.
Qed.
Lemma join_plain p target : String.eqb p "" || plain_path p = true -> target ∈ ["login"; "logout"; "serviceValidate"; "validate"] -> plain_path (join p target) = true.
Proof.
  intros Hp Ht. assert (Hsegment : HasPrefix target "/" = false /\ every path_byte target = true) by (repeat (apply elem_of_cons in Ht as [->|Ht]; [done|]); by apply not_elem_of_nil in Ht).
  destruct Hsegment as [Hf He]. unfold join.
  assert (Hroot : plain_path ("" +:+ String "/" target) = true) by (rewrite app_Empty; cbn [plain_path]; by rewrite Hf, He).
  destruct (String.eqb_spec p "/") as [->|Hne]; [exact Hroot|]. apply orb_true_iff in Hp as [->%String.eqb_eq|Hp]; [exact Hroot|].
  destruct p as [|c [|d r]]; [done|cbn [plain_path] in Hp; rewrite !andb_true_iff in Hp; destruct Hp as [[->%Ascii.eqb_eq _] _]; done|].
  rewrite !app_String. cbn [plain_path every] in *. rewrite HasPrefix_cons, every_app in *. cbn [every]. rewrite !andb_true_iff in *. rewrite He.
  destruct Hp as [[Hc Hd] [Hb Hr]]. split_and!; try done. by destruct r.
Qed.
#[export] Instance plain_laws : UrlLaws.
Proof.
  split.
  - intros u. destruct (absolute u) eqn:Ha; [intros _; by apply parse_absolute|apply parse_requested].
  - intros u target Ha Ht. exists (join u.(u_Path) target). split; [|done]. apply join_plain; [|done].
    unfold absolute in Ha. rewrite !andb_true_iff in Ha. tauto.
Qed.

(** ** Examples and witnesses *)

Definition cas_server : URL := mkURL "https" "cas.example.com" "/cas" "".
Definition page : WebRequest := mkWebRequest (mkURL "" "" "/clusters" "tab=a+b&ticket=old") "zcloud.example.com:8443" "" true.
Example login_address : RedirectToLogin cas_server page "/web/casredirect" =
  Found "https://cas.example.com/cas/login?service=https%3A%2F%2Fzcloud.example.com%3A8443%2Fweb%2Fcasredirect%3Ftab%3Da%2Bb".
Proof. vm_compute. reflexivity. Qed.
Lemma login_service_validated_witness :
  exists login service, RedirectToLogin cas_server page "/web/casredirect" = Found login /\ asks_for login "service" (url_String service) /\
    ticket_of (returns page service "ST-1") = "ST-1".
Proof.
  destruct (login_service_validated cas_server page "/web/casredirect" "ST-1" ltac:(reflexivity) ltac:(reflexivity) ltac:(reflexivity))
    as (login & service & Hl & Ha & _ & _ & _ & Ht & _).
  exists login, service. split; [exact Hl|]. split; [exact Ha|exact Ht].
Defined.
Example page_without_cas : redirection cas_server page Authenticator.RedirectToLogin = Some (Found "https://zcloud.example.com:8443/login?tab=a+b").
Proof. vm_compute. reflexivity. Qed.
(** An address that cannot be parsed again is used all the same: a header that the client sets
    is enough. *)
Example forged_scheme_panics :
  RedirectToLogin cas_server (mkWebRequest (mkURL "" "" "/clusters" "") "zcloud.example.com" "1" true) "/web/casredirect" = Panics.
Proof. vm_compute. reflexivity. Qed.
End Plain.
