(* ===== verification/RestApi.v ===== *)
(** What the handlers share: the error codes of the REST library (gorest) and of
    pkg/types/error.go that the program answers with, and the user a request acts for (pkg/handler/user_manager.go). *)
From S2P Require Import Prelude Authorizer.

Inductive api_error :=
  | PermissionDenied | NotNullable | DuplicateResource | NotFound | InvalidFormat | InvalidBodyContent
  | InvalidAction | ServerError | Unauthorized | ConnectClusterFailed | InvalidClusterConfig.
#[export] Instance api_error_eq_dec : EqDecision api_error.
Proof. solve_decision. Defined.

(** The value the middleware put into the context of the request. *)
Definition getCurrentUser (ctx : option string) : string := default "" ctx.
Definition isAdmin (user : string) : bool := String.eqb user Administrator.

Lemma isAdmin_iff user : isAdmin user = true <-> user = Administrator.
Proof. apply String.eqb_eq. Qed.
Lemma isAdmin_false user : user <> Administrator -> isAdmin user = false.
Proof. intros Hne. by apply String.eqb_neq. Qed.
