(* ===== verification/UserManager.v ===== *)
(** The user handler (pkg/handler/user_manager.go): accounts, kept by the authenticator (the
    passwords) and the authorizer (the projects), and who may do what with them. *)
From S2P Require Import Prelude KvStore GoStrings Authorizer Authenticator RestApi.

Definition ActionLogin : string := "login".
Definition ActionResetPassword : string := "resetPassword".
Inductive ActionInput :=
  | UserPassword (Password : string)
  | ResetPassword (OldPassword NewPassword : string)
  | OtherInput.

(** The answer of a handler. *)
Inductive Answer := ANone | AUser (user : User) | AUsers (users : list User) | AToken (token : string).

Section UserManager.
Context {DB : Type} `{KvTable DB} `{Json AuthUser} `{JwtLib}.

Record UserManager := mkUserManager { um_authenticator : Jwt.Authenticator DB; um_authorizer : Authorizer DB }.
Definition set_authenticator j (m : UserManager) := mkUserManager j m.(um_authorizer).
Definition set_authorizer a (m : UserManager) := mkUserManager m.(um_authenticator) a.

Definition Create (now : Z) (currentUser : string) (user : User) (m : UserManager)
    : result api_error Answer * UserManager :=
  if negb (isAdmin currentUser) then (Err PermissionDenied, m)
  else if String.eqb user.(us_Password) "" then (Err NotNullable, m)
  else
    let user := mkUser user.(us_Name) user.(us_Name) user.(us_Password) user.(us_Projects) now user.(us_DeletionTimestamp) in
    match Jwt.AddUser user m.(um_authenticator) with
    | (Err _, j) => (Err DuplicateResource, set_authenticator j m)
    | (Ok _, j) =>
        match Authorizer.AddUser user m.(um_authorizer) with
        | (Err _, a) => (Err DuplicateResource, mkUserManager j a)
        | (Ok _, a) => (Ok (AUser user), mkUserManager j a)
        end
    end.

Definition Get (currentUser target : string) (m : UserManager) : result api_error Answer :=
  if negb (isAdmin currentUser) && negb (String.eqb currentUser target) then Ok ANone
  else match GetUser target m.(um_authorizer) with
       | Some user => Ok (AUser user)
       | None => Err NotFound
       end.

Definition Delete (currentUser userName : string) (m : UserManager) : result api_error Answer * UserManager :=
  if negb (isAdmin currentUser) then (Err PermissionDenied, m)
  else match Jwt.DeleteUser userName m.(um_authenticator) with
       | (Err _, j) => (Err NotFound, set_authenticator j m)
       | (Ok _, j) =>
           match Authorizer.DeleteUser userName m.(um_authorizer) with
           | (Err _, a) => (Err NotFound, mkUserManager j a)
           | (Ok _, a) => (Ok ANone, mkUserManager j a)
           end
       end.

(** The administrator resets a password without the old one, then sets the projects. *)
Definition Update (currentUser : string) (user : User) (m : UserManager) : result api_error Answer * UserManager :=
  if negb (isAdmin currentUser) then (Err PermissionDenied, m)
  else
    let (r, m) :=
      if String.eqb user.(us_Password) "" then (Ok tt, m)
      else let (r, j) := Jwt.ResetPassword user.(us_ID) "" user.(us_Password) true m.(um_authenticator) in
           (r, set_authenticator j m) in
    match r with
    | Err _ => (Err NotFound, m)
    | Ok _ =>
        match UpdateUser user m.(um_authorizer) with
        | (Err _, a) => (Err NotFound, set_authorizer a m)
        | (Ok _, a) => (Ok (AUser user), set_authorizer a m)
        end
    end.

Definition List (currentUser : string) (m : UserManager) : result api_error Answer :=
  if isAdmin currentUser then Ok (AUsers (ListUser m.(um_authorizer)))
  else match GetUser currentUser m.(um_authorizer) with
       | Some user => Ok (AUsers [user])
       | None => Ok (AUsers [])
       end.

Definition login (now : Z) (userName : string) (input : ActionInput) (m : UserManager) : result api_error Answer :=
  match input with
  | UserPassword password =>
      if String.eqb password "" then Err NotNullable
      else match Jwt.CreateToken now userName password m.(um_authenticator) with
           | Err _ => Err InvalidBodyContent
           | Ok token => Ok (AToken token)
           end
  | _ => Err InvalidFormat
  end.

Definition resetPassword (currentUser target : string) (input : ActionInput) (m : UserManager)
    : result api_error Answer * UserManager :=
  match input with
  | ResetPassword old new =>
      if negb (String.eqb currentUser target) then (Err PermissionDenied, m)
      else match Jwt.ResetPassword currentUser old new false m.(um_authenticator) with
           | (Err _, j) => (Err PermissionDenied, set_authenticator j m)
           | (Ok _, j) => (Ok ANone, set_authenticator j m)
           end
  | _ => (Err InvalidFormat, m)
  end.

Definition Action (now : Z) (currentUser target name : string) (input : ActionInput) (m : UserManager)
    : result api_error Answer * UserManager :=
  if String.eqb name ActionLogin then (login now target input m, m)
  else if String.eqb name ActionResetPassword then resetPassword currentUser target input m
  else (Ok ANone, m).

(** A request to the handler. *)
Inductive UserRequest :=
  | RCreate (user : User) | RGet (target : string) | RDelete (userName : string) | RUpdate (user : User)
  | RList | RAction (target name : string) (input : ActionInput).

Definition handle (now : Z) (currentUser : string) (rq : UserRequest) (m : UserManager)
    : result api_error Answer * UserManager :=
  match rq with
  | RCreate user => Create now currentUser user m
  | RGet target => (Get currentUser target m, m)
  | RDelete userName => Delete currentUser userName m
  | RUpdate user => Update currentUser user m
  | RList => (List currentUser m, m)
  | RAction target name input => Action now currentUser target name input m
  end.

Definition manager_ok (m : UserManager) : Prop :=
  users_ok m.(um_authenticator).(Jwt.ja_users) m.(um_authenticator).(Jwt.ja_db) /\ authorizer_ok m.(um_authorizer).
End UserManager.
Arguments UserManager : clear implicits.

Section Facts.
Context {DB : Type} `{KvTable DB} `{Json AuthUser} `{JwtLib} `{!KvLaws DB} `{!JsonLaws AuthUser}.
Implicit Types m : UserManager DB.

(** C3. No escalation: whatever a user other than the administrator asks for, the projects
    of every user stay as they are, and the only password that can change is that
    user's own, for someone who gives the old one; and what is shown of accounts is
    that user's own, without a password. *)
Theorem non_admin_confined now currentUser rq m r m' :
  manager_ok m -> currentUser <> Administrator -> handle now currentUser rq m = (r, m') ->
  m'.(um_authorizer) = m.(um_authorizer) /\
  (m'.(um_authenticator).(Jwt.ja_users) = m.(um_authenticator).(Jwt.ja_users) \/
   exists old new, rq = RAction currentUser ActionResetPassword (ResetPassword old new) /\ new <> "" /\
     m.(um_authenticator).(Jwt.ja_users) !! currentUser = Some old /\
     m'.(um_authenticator).(Jwt.ja_users) = <[currentUser := new]> m.(um_authenticator).(Jwt.ja_users)) /\
  match r with
  | Ok (AUser user) => user.(us_ID) = currentUser /\ user.(us_Password) = ""
  | Ok (AUsers users) => forall user, user ∈ users -> user.(us_ID) = currentUser /\ user.(us_Password) = ""
  | _ => True
  end.
Proof.
  intros [Hj Ha] Hne%isAdmin_false. unfold handle, Create, Get, Delete, Update, List, Action, login.
  rewrite Hne. destruct rq as [user|target|name|user| |target name input]; simpl.
  - by intros [= <- <-]; auto.
  - intros [= <- <-]. split; [done|]. split; [by left|]. destruct (String.eqb_spec currentUser target) as [->|]; [|done].
    simpl. unfold GetUser. by destruct (az_users _ !! _).
  - by intros [= <- <-]; auto.
  - by intros [= <- <-]; auto.
  - intros [= <- <-]. split; [done|]. split; [by left|]. unfold GetUser.
    destruct (az_users _ !! _); simpl; [|by intros user ?%elem_of_nil]. by intros user ->%list_elem_of_singleton.
  - destruct (String.eqb name ActionLogin).
    { intros [= <- <-]. split; [done|]. split; [by left|]. destruct input as [p| |]; try done.
      destruct (String.eqb p ""); [done|]. by destruct (Jwt.CreateToken _ _ _ _). }
    destruct (String.eqb_spec name ActionResetPassword) as [->|]; [|by intros [= <- <-]; auto].
    unfold resetPassword. destruct input as [|old new|]; try by intros [= <- <-]; auto.
    destruct (String.eqb_spec currentUser target) as [<-|]; [|by intros [= <- <-]; auto]. simpl.
    destruct (Jwt.ResetPassword currentUser old new false _) as [[[]|e] j] eqn:Hr;
      apply ResetPassword_jwt in Hr as (_ & _ & _ & Hr); [|done| |done]; intros [= <- <-]; simpl; [|by auto].
    split; [done|]. split; [|done]. right. destruct Hr as ((p & Hp & [? | ->]) & Hnew & Hu); [done|]. by exists old, new.
Qed.

Lemma Create_account now user m answer m' :
  manager_ok m -> Create now Administrator user m = (Ok answer, m') ->
  manager_ok m' /\
  m'.(um_authenticator).(Jwt.ja_users) = <[user.(us_Name) := user.(us_Password)]> m.(um_authenticator).(Jwt.ja_users) /\
  user.(us_Password) <> "" /\ m.(um_authenticator).(Jwt.ja_users) !! user.(us_Name) = None /\
  exists u, m'.(um_authorizer).(az_users) = <[user.(us_Name) := u]> m.(um_authorizer).(az_users) /\
    u.(au_Projects) = user.(us_Projects) /\ u.(au_CreationTimestamp) = now.
Proof.
  intros [Hj Ha]. unfold Create. simpl. destruct (String.eqb_spec (us_Password user) "") as [|Hp]; [done|].
  destruct (Jwt.AddUser _ _) as [[[]|e] j] eqn:Hadd; [|done]. apply AddUser_jwt in Hadd as (Hj' & _ & _ & Hn & Hu); [|done].
  destruct (Authorizer.AddUser _ _) as [[[]|e] a] eqn:Hadd; [|done].
  apply AddUser_cases in Hadd as (Ha' & _ & Hus); [|done]. intros [= <- <-]. simpl in *.
  split; [done|]. split; [done|]. split; [done|]. split; [done|]. by eexists.
Qed.

Lemma Delete_account name m answer m' :
  manager_ok m -> Delete Administrator name m = (Ok answer, m') ->
  manager_ok m' /\ name <> Administrator /\ m'.(um_authenticator).(Jwt.ja_users) !! name = None /\
  forall cluster namespace, Authorize name cluster namespace m'.(um_authorizer) = false.
Proof.
  intros [Hj Ha]. unfold Delete. simpl.
  destruct (Jwt.DeleteUser _ _) as [[[]|e] j] eqn:Hd; [|done]. apply DeleteUser_jwt in Hd as (Hj' & _ & _ & Hn & _ & Hu); [|done].
  destruct (Authorizer.DeleteUser _ _) as [[[]|e] a] eqn:Hd; [|done].
  apply DeleteUser_cases in Hd as (Ha' & _ & Hus); [|done]. intros [= <- <-]. simpl in *.
  split; [done|]. split; [done|]. split; [by rewrite Hu, lookup_delete_eq|].
  intros c ns. unfold Authorize. rewrite Hus. destruct (String.eqb_spec name Administrator); [done|].
  by rewrite lookup_delete_eq.
Qed.

Lemma Update_account user m answer m' :
  manager_ok m -> Update Administrator user m = (Ok answer, m') ->
  manager_ok m' /\
  (us_Password user <> "" -> m'.(um_authenticator).(Jwt.ja_users) !! user.(us_ID) = Some user.(us_Password)) /\
  (exists u, m'.(um_authorizer).(az_users) !! user.(us_ID) = Some u /\ u.(au_Projects) = user.(us_Projects)) /\
  forall other, other <> user.(us_ID) ->
    m'.(um_authenticator).(Jwt.ja_users) !! other = m.(um_authenticator).(Jwt.ja_users) !! other /\
    m'.(um_authorizer).(az_users) !! other = m.(um_authorizer).(az_users) !! other.
Proof.
  intros [Hj Ha]. unfold Update. simpl.
  assert (Hproj : forall a r, UpdateUser user m.(um_authorizer) = (Ok r, a) -> authorizer_ok a /\
    (exists u, a.(az_users) !! user.(us_ID) = Some u /\ u.(au_Projects) = user.(us_Projects)) /\
    forall other, other <> user.(us_ID) -> a.(az_users) !! other = m.(um_authorizer).(az_users) !! other).
  { intros a r Hup. apply UpdateUser_cases in Hup as (Ha' & [u Hu] & Hus); [|done]. split; [done|].
    rewrite Hus. simpl. split; [|intros other Hne; by rewrite lookup_alter_ne].
    rewrite lookup_alter_eq, Hu. by eexists. }
  destruct (String.eqb_spec (us_Password user) "") as [Hp|Hp].
  - destruct (UpdateUser user _) as [[r|e] a] eqn:Hup; [|done]. intros [= <- <-].
    destruct (Hproj a r eq_refl) as (Ha' & Hu & Ho). simpl. split; [done|]. split; [done|]. split; [done|]. auto.
  - destruct (Jwt.ResetPassword _ _ _ _ _) as [[[]|e] j] eqn:Hr; [|done].
    apply ResetPassword_jwt in Hr as (Hj' & _ & _ & _ & _ & Husers); [|done]. simpl.
    destruct (UpdateUser user _) as [[r|e] a] eqn:Hup; [|done]. intros [= <- <-].
    destruct (Hproj a r eq_refl) as (Ha' & Hu & Ho). simpl. split; [done|]. rewrite Husers.
    split; [by rewrite lookup_insert_eq|]. split; [done|]. intros other Hne. split; [by rewrite lookup_insert_ne|auto].
Qed.

Lemma Action_ok now currentUser target name input m answer m' :
  manager_ok m -> Action now currentUser target name input m = (Ok answer, m') ->
  manager_ok m' /\ m'.(um_authorizer) = m.(um_authorizer).
Proof.
  intros [Hj Ha]. unfold Action. destruct (String.eqb name ActionLogin); [by intros [= _ <-]|].
  destruct (String.eqb name ActionResetPassword); [|by intros [= _ <-]]. unfold resetPassword.
  destruct input as [|old new|]; try done. destruct (negb _); [done|].
  destruct (Jwt.ResetPassword _ _ _ _ _) as [[[]|e] j] eqn:Hr; [|done]. apply ResetPassword_jwt in Hr as (Hj' & _); [|done].
  by intros [= <- <-].
Qed.

(** The accounts of the administrator: a created user has the password and exactly the
    projects that were given, and is stored; a deleted one has neither a password nor
    access to any cluster; an updated one has the projects of the update and, when one
    was given, its password. *)
Lemma admin_accounts now rq m answer m' :
  manager_ok m -> handle now Administrator rq m = (Ok answer, m') ->
  manager_ok m' /\
  match rq with
  | RCreate user =>
      m'.(um_authenticator).(Jwt.ja_users) = <[user.(us_Name) := user.(us_Password)]> m.(um_authenticator).(Jwt.ja_users) /\
      user.(us_Password) <> "" /\ m.(um_authenticator).(Jwt.ja_users) !! user.(us_Name) = None /\
      exists u, m'.(um_authorizer).(az_users) = <[user.(us_Name) := u]> m.(um_authorizer).(az_users) /\
        u.(au_Projects) = user.(us_Projects) /\ u.(au_CreationTimestamp) = now
  | RDelete name =>
      name <> Administrator /\ m'.(um_authenticator).(Jwt.ja_users) !! name = None /\
      forall cluster namespace, Authorize name cluster namespace m'.(um_authorizer) = false
  | RUpdate user =>
      (us_Password user <> "" -> m'.(um_authenticator).(Jwt.ja_users) !! user.(us_ID) = Some user.(us_Password)) /\
      (exists u, m'.(um_authorizer).(az_users) !! user.(us_ID) = Some u /\ u.(au_Projects) = user.(us_Projects)) /\
      forall other, other <> user.(us_ID) ->
        m'.(um_authenticator).(Jwt.ja_users) !! other = m.(um_authenticator).(Jwt.ja_users) !! other /\
        m'.(um_authorizer).(az_users) !! other = m.(um_authorizer).(az_users) !! other
  | _ => m'.(um_authorizer) = m.(um_authorizer)
  end.
Proof.
  intros Hm. destruct rq as [user|target|name|user| |target name input]; cbn [handle]; intros Hr.
  - by eapply Create_account.
  - by simplify_eq.
  - by eapply Delete_account.
  - by eapply Update_account.
  - by simplify_eq.
  - by eapply Action_ok.
Qed.

(** An account whose second half cannot be made is left with a password and no projects,
    and the administrator cannot create it again. *)
Lemma half_made_account now user m j e a :
  us_Password user <> "" ->
  let user' := mkUser user.(us_Name) user.(us_Name) user.(us_Password) user.(us_Projects) now user.(us_DeletionTimestamp) in
  Jwt.AddUser user' m.(um_authenticator) = (Ok tt, j) ->
  AddUser user' m.(um_authorizer) = (Err e, a) ->
  Create now Administrator user m = (Err DuplicateResource, mkUserManager j a) /\
  Create now Administrator user (mkUserManager j a) = (Err DuplicateResource, mkUserManager j a).
Proof.
  intros Hp user' Hj Ha. unfold Create. simpl. fold user'. destruct (String.eqb_spec (us_Password user) "") as [|_]; [done|].
  rewrite Hj, Ha. split; [done|]. unfold Jwt.AddUser in Hj |- *.
  destruct (Jwt.ja_users (um_authenticator m) !! us_ID user'); [done|].
  destruct (Jwt.addUser user' _) as [[[]|e'] d]; [|done]. injection Hj as <-. simpl. by rewrite lookup_insert_eq.
Qed.
End Facts.

(** ** Examples *)

Definition manager0 : UserManager MemTable :=
  mkUserManager jwt0 (mkAuthorizer {[ Administrator := mkAuthUser [] 0 0 ]}
    (mem_table {[ Administrator := default "" (marshal (mkAuthUser [] 0 0)) ]})).
Definition zhang : User := mkUser "" "zhang" "secret" [mkProject "local" "web"] 0 zero_time.
Definition manager1 : UserManager MemTable := snd (handle 9 Administrator (RCreate zhang) manager0).

Lemma manager0_ok : manager_ok manager0.
Proof.
  split.
  - intros k. simpl. destruct (decide (Administrator = k)) as [<-|Hne].
    + rewrite !lookup_singleton_eq. by eexists.
    + by rewrite !lookup_singleton_ne.
  - intros k. simpl. destruct (decide (Administrator = k)) as [<-|Hne].
    + rewrite !lookup_singleton_eq. eexists. split; [vm_compute; reflexivity|done].
    + by rewrite !lookup_singleton_ne.
Qed.

Lemma handle_ok now user rq (m : UserManager MemTable) :
  is_ok (fst (handle now user rq m)) = true ->
  exists answer, handle now user rq m = (Ok answer, snd (handle now user rq m)).
Proof. destruct (handle now user rq m) as [[answer|e] m']; [|done]. intros _. by exists answer. Qed.

Lemma manager1_ok : manager_ok manager1.
Proof.
  destruct (handle_ok 9 Administrator (RCreate zhang) manager0) as [answer Ha]; [vm_compute; reflexivity|].
  by eapply Create_account in Ha as [Hm _]; [|apply manager0_ok].
Qed.

Lemma non_admin_confined_witness :
  (snd (handle 9 "zhang" (RDelete "admin") manager1)).(um_authorizer) = manager1.(um_authorizer).
Proof.
  apply (non_admin_confined 9 "zhang" (RDelete "admin") manager1
    (fst (handle 9 "zhang" (RDelete "admin") manager1))).
  - exact manager1_ok.
  - discriminate.
  - destruct (handle 9 "zhang" (RDelete "admin") manager1). reflexivity.
Defined.

Lemma admin_accounts_witness :
  manager_ok manager1 /\ manager1.(um_authenticator).(Jwt.ja_users) !! "zhang" = Some "secret".
Proof.
  destruct (handle_ok 9 Administrator (RCreate zhang) manager0) as [answer Ha]; [vm_compute; reflexivity|].
  destruct (admin_accounts 9 (RCreate zhang) manager0 answer _ manager0_ok Ha) as (Hm & Hu & _).
  split; [exact Hm|]. unfold manager1. rewrite Hu. apply lookup_insert_eq.
Defined.
