(* ===== verification/KubeApi.v ===== *)
(** The Kubernetes client (package gok8s, a third-party library), as an interface: the calls
    of client.Client on the objects of one kind, and what the program relies on.

    A cluster is a state [K] that changes only by the calls made on it; each call may
    fail.  [kube_objects] is what the cluster stores, by namespace and name.  The server
    completes what a client sends it: [kube_spec] is the part of an object that is the
    client's. *)
From S2P Require Import Prelude.

Inductive kube_error := KNotFound | KAlreadyExists | KOther.
#[export] Instance kube_error_eq_dec : EqDecision kube_error.
Proof. solve_decision. Defined.

Definition IsNotFound (e : kube_error) : bool := bool_decide (e = KNotFound).
Definition IsAlreadyExists (e : kube_error) : bool := bool_decide (e = KAlreadyExists).

(** The name of an object, the part a client decides, and whether it is being deleted. *)
Class KubeObject (Obj : Type) := {
  Spec : Type;
  kube_key : Obj -> string * string;   (* namespace and name *)
  kube_spec : Obj -> Spec;
  kube_deleting : Obj -> bool
}.

Class KubeKind (K Obj : Type) `{KubeObject Obj} := {
  kube_get : string -> string -> M K kube_error Obj;
  kube_list : string -> M K kube_error (list Obj);
  kube_create : Obj -> M K kube_error Obj;
  kube_update : Obj -> M K kube_error Obj;
  kube_delete : string -> string -> M K kube_error unit;
  kube_objects : K -> gmap (string * string) Obj
}.

(** [same_kind]: the objects of the kind are as they were. *)
Definition same_kind (Obj : Type) {K} `{KubeKind K Obj} (k k' : K) : Prop :=
  kube_objects (Obj := Obj) k' = kube_objects k.

Class KubeLaws (K Obj : Type) `{KubeKind K Obj} : Prop := {
  kube_get_law ns name k r k' :
    kube_get ns name k = (r, k') -> same_kind Obj k k' /\
    match r with
    | Ok o => kube_objects k !! (ns, name) = Some o /\ kube_key o = (ns, name)
    | Err KNotFound => kube_objects k !! (ns, name) = None
    | Err _ => True
    end;
  kube_list_law ns k r k' :
    kube_list ns k = (r, k') -> same_kind Obj k k' /\
    match r with
    | Ok l => NoDup l /\ forall o, o ∈ l <->
        kube_objects k !! kube_key o = Some o /\ (ns = "" \/ fst (kube_key o) = ns)
    | Err _ => True
    end;
  kube_create_law o k r k' :
    kube_create o k = (r, k') ->
    match r with
    | Ok o' => kube_key o' = kube_key o /\ kube_spec o' = kube_spec o /\ kube_objects k !! kube_key o = None /\
        kube_objects k' = <[kube_key o := o']> (kube_objects k)
    | Err e => same_kind Obj k k' /\ (e = KAlreadyExists -> is_Some (kube_objects k !! kube_key o))
    end;
  kube_update_law o k r k' :
    kube_update o k = (r, k') ->
    match r with
    | Ok o' => kube_key o' = kube_key o /\ kube_spec o' = kube_spec o /\ is_Some (kube_objects k !! kube_key o) /\
        kube_objects k' = <[kube_key o := o']> (kube_objects k)
    | Err e => same_kind Obj k k'
    end;
  (* a deleted object goes away at once or is marked and goes away later *)
  kube_delete_law ns name k r k' :
    kube_delete ns name k = (r, k') ->
    match r with
    | Ok _ =>
        kube_objects k' = delete (ns, name) (kube_objects k) \/
        exists o, kube_objects k' = <[(ns, name) := o]> (kube_objects k) /\ kube_deleting o = true /\
                  kube_key o = (ns, name) /\ kube_spec <$> kube_objects k !! (ns, name) = Some (kube_spec o)
    | Err e => same_kind Obj k k' /\ (e = KNotFound -> kube_objects k !! (ns, name) = None)
    end
}.

(** An update does not change whether an object is being deleted. *)
Class KubeKeepsDeletion (K Obj : Type) `{KubeKind K Obj} : Prop :=
  kube_update_deleting o k o' k' old :
    kube_update o k = (Ok o', k') -> kube_objects k !! kube_key o = Some old -> kube_deleting o = kube_deleting old ->
    kube_deleting o' = kube_deleting old.

(** metav1.LabelSelector, and what it is translated to. *)
Class LabelSelectors := {
  LabelSelector : Type;
  MatchLabels : gmap string string -> LabelSelector;
  Selector : Type;
  LabelSelectorAsSelector : LabelSelector -> option Selector
}.
(** A list restricted by labels, and a patch: [apply_patch] is what the patch asks for, and
    the server may answer it with an error. *)
Class KubeSelect (K Obj : Type) `{KubeKind K Obj} `{LabelSelectors} :=
  kube_select : string -> Selector -> M K kube_error (list Obj).
Class KubeSelectLaws (K Obj : Type) `{KubeSelect K Obj} : Prop :=
  kube_select_law ns s k r k' : kube_select (Obj := Obj) ns s k = (r, k') -> same_kind Obj k k' /\
    match r with
    | Ok l => forall o, o ∈ l -> kube_objects k !! kube_key o = Some o /\ fst (kube_key o) = ns
    | Err _ => True
    end.
Class KubePatch (K Obj P : Type) `{KubeKind K Obj} := {
  apply_patch : P -> Obj -> Obj;
  kube_patch : Obj -> P -> M K kube_error unit
}.
Class KubePatchLaws (K Obj P : Type) `{KubePatch K Obj P} : Prop :=
  kube_patch_law o p k r k' : kube_patch o p k = (r, k') ->
    match r with
    | Ok _ => exists old o', kube_objects k !! kube_key o = Some old /\ kube_key o' = kube_key o /\
        kube_spec o' = kube_spec (apply_patch p old) /\ kube_objects k' = <[kube_key o := o']> (kube_objects k)
    | Err _ => same_kind Obj k k'
    end.

(** The calls on the objects of one kind leave those of another kind alone; this need not
    hold of a deletion, since that of a namespace deletes what is in it. *)
Class KubeFrame (K A B : Type) `{KubeKind K A} `{KubeKind K B} : Prop := {
  frame_get ns name k : same_kind B k (snd (kube_get (Obj := A) ns name k));
  frame_list ns k : same_kind B k (snd (kube_list (Obj := A) ns k));
  frame_create (o : A) k : same_kind B k (snd (kube_create o k));
  frame_update (o : A) k : same_kind B k (snd (kube_update o k))
}.

(** The deletion of an object of the kind A leaves the objects of B alone. *)
Class KubeDeleteFrame (K A B : Type) `{KubeKind K A} `{KubeKind K B} : Prop :=
  frame_delete ns name k : same_kind B k (snd (kube_delete (Obj := A) ns name k)).

(** A list of objects of the kind A leaves the objects of B alone. *)
Class KubeSelectFrame (K A B : Type) `{KubeSelect K A} `{KubeKind K B} : Prop :=
  frame_select ns s k : same_kind B k (snd (kube_select (Obj := A) ns s k)).

(** apiresource.ParseQuantity and Quantity.String. *)
Class Quantities := {
  Quantity : Type;
  ParseQuantity : string -> option Quantity;
  Quantity_String : Quantity -> string
}.
Class QuantityLaws `{Quantities} : Prop :=
  ParseQuantity_String q : ParseQuantity (Quantity_String q) = Some q.

(** Quantity.Value and MilliValue. *)
Class QuantityValues `{Quantities} := { Value : Quantity -> Z; MilliValue : Quantity -> Z }.

(** The cluster a request names, when it is ready: ClusterManager.GetClusterForSubResource
    and GetClusterByName of pkg/handler/cluster_manager.go. *)
Definition on_cluster {K E A} (missing : E) (cluster : string) (m : M K E A) : M (gmap string K) E A :=
  fun ks => match ks !! cluster with
            | None => (Err missing, ks)
            | Some k => let (r, k') := m k in (r, <[cluster := k']> ks)
            end.

Lemma on_cluster_inv {K E A} (missing : E) cluster (m : M K E A) ks r ks' :
  on_cluster missing cluster m ks = (r, ks') ->
  (ks !! cluster = None /\ r = Err missing /\ ks' = ks) \/
  exists k k', ks !! cluster = Some k /\ m k = (r, k') /\ ks' = <[cluster := k']> ks.
Proof.
  unfold on_cluster. destruct (ks !! cluster) as [k|]; [|intros [= <- <-]; by left].
  destruct (m k) as [r1 k1] eqn:Hm. intros [= <- <-]. right. by exists k, k1.
Qed.

Lemma on_cluster_at {K E A} (missing : E) cluster (m : M K E A) ks r ks' k :
  on_cluster missing cluster m ks = (r, ks') -> ks !! cluster = Some k ->
  exists k', m k = (r, k') /\ ks' = <[cluster := k']> ks.
Proof. intros [(? & _)|(k1 & k' & Hk & Hm & ->)]%on_cluster_inv Hk'; [congruence|]. exists k'. split; [congruence|done]. Qed.

(** A read leaves the objects of its own kind alone. *)
Lemma get_same {K A} `{KubeLaws K A} ns name (k : K) : same_kind A k (snd (kube_get (Obj := A) ns name k)).
Proof. destruct (kube_get ns name k) as [r k'] eqn:Hg. apply (kube_get_law ns name k r k' Hg). Qed.
Lemma list_same {K A} `{KubeLaws K A} ns (k : K) : same_kind A k (snd (kube_list (Obj := A) ns k)).
Proof. destruct (kube_list ns k) as [r k'] eqn:Hl. apply (kube_list_law ns k r k' Hl). Qed.

(** The read of an object that is there finds it or fails as the cluster fails. *)
Lemma kube_get_stored {K Obj} `{KubeLaws K Obj} ns name (o : Obj) k r k' :
  kube_get ns name k = (r, k') -> kube_objects k !! (ns, name) = Some o ->
  r = Ok o \/ exists e, r = Err e /\ e <> KNotFound.
Proof.
  intros [_ Hr]%kube_get_law Ho. destruct r as [o'|e].
  - destruct Hr as [Ho' _]. left. congruence.
  - right. exists e. split; [done|]. intros ->. congruence.
Qed.

(** ** A cluster in memory, for the examples *)

Section Fake.
Context {K Obj : Type} `{KubeObject Obj} (get : K -> gmap (string * string) Obj) (set : gmap (string * string) Obj -> K -> K)
  (pop : K -> bool * K).

(** [pop] tells whether the call fails. *)
Definition fake_call {A} (f : gmap (string * string) Obj -> result kube_error (A * gmap (string * string) Obj)) : M K kube_error A :=
  fun k =>
    let (bad, k) := pop k in
    if bad then (Err KOther, k)
    else match f (get k) with
         | Err e => (Err e, k)
         | Ok (a, m) => (Ok a, set m k)
         end.

Definition fake_kind : KubeKind K Obj := {|
  kube_get ns name := fake_call (fun m => match m !! (ns, name) with
    | Some o => if bool_decide (kube_key o = (ns, name)) then Ok (o, m) else Err KOther | None => Err KNotFound end);
  kube_list ns := fake_call (fun m =>
    Ok (snd <$> filter (fun ko => kube_key ko.2 = ko.1 /\ (ns = "" \/ fst (kube_key ko.2) = ns)) (map_to_list m), m));
  kube_create o := fake_call (fun m => match m !! kube_key o with Some _ => Err KAlreadyExists | None => Ok (o, <[kube_key o := o]> m) end);
  kube_update o := fake_call (fun m => match m !! kube_key o with Some _ => Ok (o, <[kube_key o := o]> m) | None => Err KNotFound end);
  kube_delete ns name := fake_call (fun m => match m !! (ns, name) with Some _ => Ok (tt, delete (ns, name) m) | None => Err KNotFound end);
  kube_objects := get
|}.

Context (get_set : forall m k, get (set m k) = m) (get_pop : forall k, get (snd (pop k)) = get k).

Lemma fake_call_inv {A} f k (r : result kube_error A) k' :
  fake_call f k = (r, k') ->
  (r = Err KOther /\ get k' = get k) \/
  match f (get k) with
  | Err e => r = Err e /\ get k' = get k
  | Ok (a, m) => r = Ok a /\ get k' = m
  end.
Proof.
  unfold fake_call. specialize (get_pop k). destruct (pop k) as [[] k1]; simpl in get_pop.
  - intros [= <- <-]. by left.
  - rewrite <- get_pop. right. destruct (f (get k1)) as [[a m]|e]; simplify_eq; auto.
Qed.

Lemma fake_laws : @KubeLaws K Obj _ fake_kind.
Proof.
  split; unfold same_kind; simpl; intros *; intros [[-> Hk]|Hf]%fake_call_inv; try (split; [done|]; done).
  - destruct (get k !! (ns, name)) as [o|] eqn:Ho; [|by destruct Hf as [-> ->]].
    case_bool_decide; destruct Hf as [-> ->]; auto.
  - destruct Hf as [-> ->]. split; [done|]. split.
    + apply NoDup_fmap_2_strong; [|apply NoDup_filter, NoDup_map_to_list].
      intros [k1 o1] [k2 o2] [[Hk1 _] _]%list_elem_of_filter [[Hk2 _] _]%list_elem_of_filter. simpl in *. congruence.
    + intros o. rewrite list_elem_of_fmap. setoid_rewrite list_elem_of_filter. split.
      * intros ([k1 o1] & -> & [Hk1 Hns] & Hin%elem_of_map_to_list). simpl in *. by subst.
      * intros [Ho Hns]. exists (kube_key o, o). split; [done|]. split; [done|]. by apply elem_of_map_to_list.
  - destruct (get k !! kube_key o) as [o'|] eqn:Ho; destruct Hf as [-> ->]; eauto 8.
  - done.
  - destruct (get k !! kube_key o) as [o'|] eqn:Ho; destruct Hf as [-> ->]; eauto 8.
  - destruct (get k !! (ns, name)) as [o'|] eqn:Ho; destruct Hf as [-> ->]; eauto 8.
Qed.

Lemma fake_keeps_deletion : @KubeKeepsDeletion K Obj _ fake_kind.
Proof.
  intros o k o' k' old Hu Ho Hd. simpl in Hu, Ho. apply fake_call_inv in Hu as [[Hr _]|Hu]; [done|].
  rewrite Ho in Hu. destruct Hu as [[= ->] _]. exact Hd.
Qed.

(** Another part of the cluster stays. *)
Lemma fake_call_frame {A B} (other : K -> B) (other_set : forall m k, other (set m k) = other k)
    (other_pop : forall k, other (snd (pop k)) = other k) (f : _ -> result kube_error (A * _)) k :
  other (snd (fake_call f k)) = other k.
Proof.
  unfold fake_call. specialize (other_pop k). destruct (pop k) as [[] k1]; [done|].
  destruct (f (get k1)) as [[a m]|e]; [|done]. simpl in *. by rewrite other_set.
Qed.
End Fake.
