(* ===== verification/ResourceQuota.v ===== *)
(** Resource quotas (pkg/handler/resourcequota_manager.go, k8sutil.go and
    pkg/types/resourcequota.go): the limits of a namespace, to and from Kubernetes. *)
From S2P Require Import Prelude GoStrings RestApi KubeApi.

(** types.ResourceQuota. *)
Record ResourceQuota := mkResourceQuota {
  rq_ID : string; rq_Name : string; rq_Limits : gmap string string;
  rq_StatusLimits : gmap string string; rq_StatusUsed : gmap string string;
  rq_CreationTimestamp : Z; rq_DeletionTimestamp : option Z
}.

(** scQuotaResourceNameToK8sResourceName: the name in small letters, if it is known. *)
Definition quota_resources : list string :=
  ["requests.cpu"; "requests.memory"; "limits.cpu"; "limits.memory"; "requests.storage"].
Definition known_resource (names : list string) (name : string) : option string :=
  if bool_decide (ToLower name ∈ names) then Some (ToLower name) else None.
Definition scQuotaResourceNameToK8sResourceName : string -> option string := known_resource quota_resources.

(** An error of a call on the cluster, or one of the limits. *)
Inductive quota_error := QKube (e : kube_error) | QName | QQuantity.
#[export] Instance quota_error_eq_dec : EqDecision quota_error.
Proof. solve_decision. Defined.
Definition quota_AlreadyExists (e : quota_error) : bool := bool_decide (e = QKube KAlreadyExists).

Section ResourceQuota.
Context `{Quantities}.

(** corev1.ResourceQuota. *)
Record K8sResourceQuota := mkK8sQuota {
  kq_Namespace : string; kq_Name : string; kq_Hard : gmap string Quantity;
  kq_StatusHard : gmap string Quantity; kq_StatusUsed : gmap string Quantity;
  kq_ResourceVersion : string; kq_CreationTimestamp : Z; kq_DeletionTimestamp : option Z
}.

#[export] Instance K8sResourceQuota_object : KubeObject K8sResourceQuota := {|
  Spec := gmap string Quantity;
  kube_key o := (o.(kq_Namespace), o.(kq_Name));
  kube_spec := kq_Hard;
  kube_deleting o := bool_decide (is_Some o.(kq_DeletionTimestamp))
|}.

Context {K : Type} `{!KubeKind K K8sResourceQuota}.

(** The limits in the order of a walk over the map; a later entry of the same resource
    replaces an earlier one. *)
Fixpoint limits_loop (resource_name : string -> option string) (l : list (string * string)) (acc : gmap string Quantity)
    : result quota_error (gmap string Quantity) :=
  match l with
  | [] => Ok acc
  | (name, quantity) :: l =>
      match resource_name name with
      | None => Err QName
      | Some k8sResourceName =>
          match ParseQuantity quantity with
          | None => Err QQuantity
          | Some q => limits_loop resource_name l (<[k8sResourceName := q]> acc)
          end
      end
  end.
Definition scQuotaResourceListToK8sResourceList (resourceList : gmap string string)
    : result quota_error (gmap string Quantity) :=
  limits_loop scQuotaResourceNameToK8sResourceName (map_to_list resourceList) ∅.

Definition known_texts (names : list string) (l : gmap string Quantity) : gmap string string :=
  Quantity_String <$> filter (fun kv => kv.1 ∈ names) l.
Definition k8sResourceListToSCQuotaResourceList (l : gmap string Quantity) : gmap string string :=
  known_texts quota_resources l.

Definition getResourceQuota (namespace name : string) : M K kube_error K8sResourceQuota := kube_get namespace name.
Definition getResourceQuotas (namespace : string) : M K kube_error (list K8sResourceQuota) := kube_list namespace.
Definition deleteResourceQuota (namespace name : string) : M K kube_error unit := kube_delete namespace name.

Definition new_quota (namespace name : string) (hard : gmap string Quantity) : K8sResourceQuota :=
  mkK8sQuota namespace name hard ∅ ∅ "" 0 None.
Definition createResourceQuota (namespace : string) (resourceQuota : ResourceQuota) : M K quota_error unit :=
  let! k8sHard := lift (scQuotaResourceListToK8sResourceList resourceQuota.(rq_Limits)) in
  do! rethrow QKube (kube_create (new_quota namespace resourceQuota.(rq_Name) k8sHard)) in ret tt.

Definition k8sResourceQuotaToSCResourceQuota (k : K8sResourceQuota) : ResourceQuota :=
  mkResourceQuota k.(kq_Name) k.(kq_Name) (k8sResourceListToSCQuotaResourceList k.(kq_Hard))
    (k8sResourceListToSCQuotaResourceList k.(kq_StatusHard)) (k8sResourceListToSCQuotaResourceList k.(kq_StatusUsed))
    k.(kq_CreationTimestamp) k.(kq_DeletionTimestamp).

(** The handlers, for a quota of a namespace of a cluster. *)
Definition set_rq_ID id (r : ResourceQuota) : ResourceQuota :=
  mkResourceQuota id r.(rq_Name) r.(rq_Limits) r.(rq_StatusLimits) r.(rq_StatusUsed)
    r.(rq_CreationTimestamp) r.(rq_DeletionTimestamp).

Definition Create (cluster namespace : string) (resourceQuota : ResourceQuota) : M (gmap string K) api_error ResourceQuota :=
  on_cluster NotFound cluster
    (do! rethrow (fun e => if quota_AlreadyExists e then DuplicateResource else ConnectClusterFailed)
           (createResourceQuota namespace resourceQuota) in
     ret (set_rq_ID resourceQuota.(rq_Name) resourceQuota)).

Definition kube_api_error (e : kube_error) : api_error := if IsNotFound e then NotFound else ServerError.

Definition List (cluster namespace : string) : M (gmap string K) api_error (list ResourceQuota) :=
  on_cluster NotFound cluster
    (let! items := rethrow kube_api_error (getResourceQuotas namespace) in
     ret (k8sResourceQuotaToSCResourceQuota <$> items)).

Definition Get (cluster namespace id : string) : M (gmap string K) api_error ResourceQuota :=
  on_cluster NotFound cluster
    (let! k8sResourceQuota := rethrow kube_api_error (getResourceQuota namespace id) in
     ret (k8sResourceQuotaToSCResourceQuota k8sResourceQuota)).

Definition Delete (cluster namespace id : string) : M (gmap string K) api_error unit :=
  on_cluster NotFound cluster (rethrow kube_api_error (deleteResourceQuota namespace id)).
End ResourceQuota.

Section Facts.
Context `{Quantities} {K : Type} `{!KubeKind K K8sResourceQuota} `{!KubeLaws K K8sResourceQuota}.

Lemma quota_resources_small n : n ∈ quota_resources -> ToLower n = n.
Proof.
  unfold quota_resources. intros Hn. repeat (apply elem_of_cons in Hn as [->|Hn]; [by vm_compute|]).
  by apply elem_of_nil in Hn.
Qed.
Lemma known_resource_small names n : n ∈ names -> ToLower n = n -> known_resource names n = Some n.
Proof. intros Hn Hs. unfold known_resource. rewrite Hs. by rewrite bool_decide_true. Qed.
Lemma quota_resources_lower n : n ∈ quota_resources -> scQuotaResourceNameToK8sResourceName n = Some n.
Proof. intros Hn. by apply known_resource_small, quota_resources_small. Qed.

Section Limits.
Context (names : list string) (small : forall n, n ∈ names -> ToLower n = n).

Lemma limits_loop_known l acc hard :
  limits_loop (known_resource names) l acc = Ok hard -> (forall n, is_Some (acc !! n) -> n ∈ names) ->
  forall n, is_Some (hard !! n) -> n ∈ names.
Proof.
  revert acc. induction l as [|[n q] l IH]; intros acc Hl Hacc; simpl in Hl; [by simplify_eq|].
  destruct (known_resource names n) as [m|] eqn:Hn; [|done]. unfold known_resource in Hn. case_bool_decide as Hin; [|done].
  injection Hn as <-. destruct (ParseQuantity q) as [x|]; [|done]. apply (IH _ Hl). intros k [y Hy].
  apply lookup_insert_Some in Hy as [[<- _]|[_ Hy]]; [done|apply Hacc; by exists y].
Qed.

Lemma limits_loop_lookup l acc hard :
  limits_loop (known_resource names) l acc = Ok hard -> NoDup l.*1 -> (forall kv, kv ∈ l -> kv.1 ∈ names) ->
  forall n, hard !! n = match (list_to_map l : gmap string string) !! n with
                        | Some q => ParseQuantity q
                        | None => acc !! n
                        end.
Proof.
  revert acc. induction l as [|[n q] l IH]; intros acc Hl Hnd Hin k; simpl in Hl; [by simplify_eq|].
  assert (Hn' : n ∈ names) by apply (Hin (n, q)), elem_of_cons, or_introl, eq_refl.
  apply NoDup_cons in Hnd as [Hn Hnd]. rewrite known_resource_small in Hl by auto.
  destruct (ParseQuantity q) as [x|] eqn:Hq; [|done].
  rewrite (IH _ Hl Hnd ltac:(intros; apply Hin; by right)). simpl in Hn.
  apply (not_elem_of_list_to_map_1 (M := gmap string)) in Hn. simpl. destruct (decide (n = k)) as [<-|Hne].
  - by rewrite Hn, !lookup_insert_eq.
  - by rewrite !lookup_insert_ne.
Qed.

(** Limits of known resources are shown as they were given, in the notation of the
    cluster. *)
Lemma limits_round_trip (limits : gmap string string) hard :
  (forall n, is_Some (limits !! n) -> n ∈ names) -> limits_loop (known_resource names) (map_to_list limits) ∅ = Ok hard ->
  forall n, known_texts names hard !! n = Quantity_String <$> (limits !! n ≫= ParseQuantity).
Proof.
  intros Hnames Hh n.
  assert (Hn : hard !! n = limits !! n ≫= ParseQuantity).
  { rewrite (limits_loop_lookup _ _ _ Hh).
    - rewrite list_to_map_to_list. by destruct (limits !! n).
    - apply NoDup_fst_map_to_list.
    - intros [k' v] Hin%elem_of_map_to_list. apply Hnames. by exists v. }
  unfold known_texts. rewrite lookup_fmap. f_equal. rewrite <- Hn. destruct (hard !! n) as [q|] eqn:Hq.
  - apply map_lookup_filter_Some. split; [done|]. eapply limits_loop_known; [exact Hh| |by exists q].
    intros k' [? Hk']. by rewrite lookup_empty in Hk'.
  - apply map_lookup_filter_None. by left.
Qed.
End Limits.

Lemma createResourceQuota_effect namespace (rq : ResourceQuota) (k k' : K) r :
  createResourceQuota namespace rq k = (r, k') ->
  match r with
  | Ok _ => exists hard o, scQuotaResourceListToK8sResourceList rq.(rq_Limits) = Ok hard /\
      o.(kq_Hard) = hard /\ kube_objects k !! (namespace, rq.(rq_Name)) = None /\
      kube_objects k' = <[(namespace, rq.(rq_Name)) := o]> (kube_objects k)
  | Err _ => same_kind K8sResourceQuota k k'
  end.
Proof.
  unfold createResourceQuota, bind, lift, rethrow, ret.
  destruct (scQuotaResourceListToK8sResourceList _) as [hard|e]; [|by intros [= <- <-]].
  destruct (kube_create _ k) as [[o|e] k1] eqn:Hc; apply kube_create_law in Hc; intros [= <- <-].
  - destruct Hc as (Hkey & Hspec & Hn & Hk). simpl in *. by exists hard, o.
  - by destruct Hc.
Qed.

(** A quota that was created is read back with its limits: under the name and in the
    namespace it was created in, each with the quantity that was asked for, in the
    notation of the cluster. *)
Lemma resource_quota_round_trip cluster namespace (rq : ResourceQuota) ks ks' ks'' created got :
  (forall n, is_Some (rq.(rq_Limits) !! n) -> n ∈ quota_resources) ->
  Create cluster namespace rq ks = (Ok created, ks') ->
  Get cluster namespace rq.(rq_Name) ks' = (Ok got, ks'') ->
  got.(rq_Name) = rq.(rq_Name) /\ got.(rq_ID) = created.(rq_ID) /\
  forall n, got.(rq_Limits) !! n = Quantity_String <$> (rq.(rq_Limits) !! n ≫= ParseQuantity).
Proof.
  intros Hnames Hc Hg. apply on_cluster_inv in Hc as [(_ & ? & _)|(k & k1 & Hk & Hc & ->)]; [done|].
  apply on_cluster_inv in Hg as [(_ & ? & _)|(k1' & k2 & Hk1 & Hg & ->)]; [done|].
  rewrite lookup_insert_eq in Hk1. injection Hk1 as <-.
  apply bind_inv_ok in Hc as ([] & k1' & Hc & Hret). unfold ret in Hret. injection Hret as <- <-.
  unfold rethrow in Hc. destruct (createResourceQuota namespace rq k) as [[[]|e] k1''] eqn:Hcr; simplify_eq/=.
  apply createResourceQuota_effect in Hcr as (hard & o & Hh & Ho & _ & Hobj).
  apply bind_inv_ok in Hg as (o' & k2' & Hg & Hret). unfold ret in Hret. injection Hret as <- <-.
  unfold rethrow, getResourceQuota in Hg. destruct (kube_get _ _ k1') as [[o''|e] k3] eqn:Hgr; simplify_eq/=.
  apply kube_get_law in Hgr as (_ & Hlook & Hkey). rewrite Hobj, lookup_insert_eq in Hlook. injection Hlook as ->.
  injection Hkey as _ Hname. split; [done|]. split; [done|]. intros n.
  by apply (limits_round_trip _ quota_resources_small _ _ Hnames Hh).
Qed.
End Facts.
