(* ===== verification/LimitRange.v ===== *)
(** Limit ranges (pkg/handler/limitrange_manager.go, k8sutil.go and pkg/types/limitrange.go):
    the bounds of what a container of a namespace may ask for. *)
From S2P Require Import Prelude GoStrings RestApi KubeApi ResourceQuota.

Record LimitRange := mkLimitRange {
  lr_ID : string; lr_Name : string; lr_Max : gmap string string; lr_Min : gmap string string;
  lr_CreationTimestamp : Z; lr_DeletionTimestamp : option Z
}.

Definition container_resources : list string := ["cpu"; "memory"].
Definition scResourceNameToK8sResourceName : string -> option string := known_resource container_resources.
Definition LimitTypeContainer : string := "Container".

(** [LLimits]: neither a minimum nor a maximum, or one that cannot be read. *)
Inductive limit_error := LKube (e : kube_error) | LLimits.

Section LimitRange.
Context `{Quantities}.

Record LimitRangeItem := mkLimitItem { li_Type : string; li_Max : gmap string Quantity; li_Min : gmap string Quantity }.
Record K8sLimitRange := mkK8sLimitRange {
  kl_Namespace : string; kl_Name : string; kl_Limits : list LimitRangeItem; kl_CreationTimestamp : Z; kl_DeletionTimestamp : option Z
}.
#[export] Instance K8sLimitRange_object : KubeObject K8sLimitRange := {|
  Spec := list LimitRangeItem; kube_key o := (o.(kl_Namespace), o.(kl_Name)); kube_spec := kl_Limits;
  kube_deleting o := bool_decide (is_Some o.(kl_DeletionTimestamp))
|}.

Definition scLimitResourceListToK8sResourceList (l : gmap string string) : result quota_error (gmap string Quantity) :=
  limits_loop scResourceNameToK8sResourceName (map_to_list l) ∅.
Definition k8sResourceListToSCLimitResourceList : gmap string Quantity -> gmap string string := known_texts container_resources.
(** The first item for containers. *)
Definition k8sLimitRangeToSCLimitRange (k : K8sLimitRange) : LimitRange :=
  let limit := find (fun i => String.eqb i.(li_Type) LimitTypeContainer) k.(kl_Limits) in
  let texts f := match limit with Some i => k8sResourceListToSCLimitResourceList (f i) | None => ∅ end in
  mkLimitRange k.(kl_Name) k.(kl_Name) (texts li_Max) (texts li_Min) k.(kl_CreationTimestamp) k.(kl_DeletionTimestamp).

Context {K : Type} `{!KubeKind K K8sLimitRange}.

Definition getLimitRange (namespace name : string) : M K kube_error K8sLimitRange := kube_get namespace name.
Definition getLimitRanges (namespace : string) : M K kube_error (list K8sLimitRange) := kube_list namespace.
Definition createLimitRange (namespace : string) (limitRange : LimitRange) : M K limit_error unit :=
  if bool_decide (limitRange.(lr_Max) = ∅) && bool_decide (limitRange.(lr_Min) = ∅) then throw LLimits
  else
    let! max := rethrow (fun _ => LLimits) (lift (scLimitResourceListToK8sResourceList limitRange.(lr_Max))) in
    let! min := rethrow (fun _ => LLimits) (lift (scLimitResourceListToK8sResourceList limitRange.(lr_Min))) in
    do! rethrow LKube (kube_create (mkK8sLimitRange namespace limitRange.(lr_Name) [mkLimitItem LimitTypeContainer max min] 0 None)) in
    ret tt.
Definition deleteLimitRange (namespace name : string) : M K kube_error unit := kube_delete (Obj := K8sLimitRange) namespace name.

Definition create_error (e : limit_error) : api_error :=
  match e with LKube KAlreadyExists => DuplicateResource | _ => ConnectClusterFailed end.
Definition set_id (id : string) (l : LimitRange) : LimitRange :=
  mkLimitRange id l.(lr_Name) l.(lr_Max) l.(lr_Min) l.(lr_CreationTimestamp) l.(lr_DeletionTimestamp).
Definition Create (cluster namespace : string) (limitRange : LimitRange) : M (gmap string K) api_error LimitRange :=
  on_cluster NotFound cluster
    (do! rethrow create_error (createLimitRange namespace limitRange) in ret (set_id limitRange.(lr_Name) limitRange)).
Definition List (cluster namespace : string) : M (gmap string K) api_error (list LimitRange) :=
  on_cluster NotFound cluster
    (let! items := rethrow kube_api_error (getLimitRanges namespace) in ret (k8sLimitRangeToSCLimitRange <$> items)).
Definition Get (cluster namespace id : string) : M (gmap string K) api_error LimitRange :=
  on_cluster NotFound cluster
    (let! k8sLimitRange := rethrow kube_api_error (getLimitRange namespace id) in ret (k8sLimitRangeToSCLimitRange k8sLimitRange)).
Definition Delete (cluster namespace id : string) : M (gmap string K) api_error unit :=
  on_cluster NotFound cluster (rethrow kube_api_error (deleteLimitRange namespace id)).
End LimitRange.

(** ** Facts *)

Lemma container_resources_small n : n ∈ container_resources -> ToLower n = n.
Proof.
  unfold container_resources. intros Hn. repeat (apply elem_of_cons in Hn as [->|Hn]; [by vm_compute|]).
  by apply elem_of_nil in Hn.
Qed.
Lemma container_resource name n : scResourceNameToK8sResourceName name = Some n -> n ∈ container_resources.
Proof. unfold scResourceNameToK8sResourceName, known_resource. case_bool_decide; [|done]. by intros [= <-]. Qed.

(** A limit range that was created is read back with its bounds, in the notation of the
    cluster; the read fails only as the cluster fails. *)
Lemma limit_range_round_trip `{Quantities} {K : Type} `{!KubeKind K K8sLimitRange} `{!KubeLaws K K8sLimitRange}
    cluster namespace l answer (ks ks1 ks2 : gmap string K) r :
  (forall n, is_Some (l.(lr_Max) !! n) \/ is_Some (l.(lr_Min) !! n) -> n ∈ container_resources) ->
  Create cluster namespace l ks = (Ok answer, ks1) -> Get cluster namespace l.(lr_Name) ks1 = (r, ks2) ->
  match r with
  | Ok read =>
      read.(lr_ID) = l.(lr_Name) /\ read.(lr_Name) = l.(lr_Name) /\
      (forall n, read.(lr_Max) !! n = Quantity_String <$> (l.(lr_Max) !! n ≫= ParseQuantity)) /\
      (forall n, read.(lr_Min) !! n = Quantity_String <$> (l.(lr_Min) !! n ≫= ParseQuantity))
  | Err e => e = ServerError
  end.
Proof.
  intros Hnames Hc Hg. apply on_cluster_inv in Hc as [(? & ? & _)|(k & k1 & Hk & Hc & ->)]; [done|].
  unfold createLimitRange, bind, rethrow, lift, ret, throw in Hc. destruct (_ && _); [done|].
  destruct (scLimitResourceListToK8sResourceList (lr_Max l)) as [max|] eqn:Hmax; [|done]. cbn [map_err] in Hc.
  destruct (scLimitResourceListToK8sResourceList (lr_Min l)) as [min|] eqn:Hmin; [|done]. cbn [map_err] in Hc.
  destruct (kube_create _ k) as [[o|e] k1'] eqn:Hcr; [|done]. injection Hc as <- ->.
  apply kube_create_law in Hcr as (Hkey & Hspec & _ & Hobj). unfold kube_key, kube_spec in Hkey, Hspec, Hobj. simpl in Hkey, Hspec, Hobj.
  apply (on_cluster_at _ _ _ _ _ _ k1) in Hg as (k2 & Hg & _); [|apply lookup_insert_eq].
  unfold bind, rethrow, getLimitRange, ret in Hg. destruct (kube_get namespace _ k1) as [rg k3] eqn:Hget.
  apply kube_get_stored with (o := o) in Hget as [->|(e & -> & He)]; [| |by rewrite Hobj, lookup_insert_eq];
    simpl in Hg; injection Hg as <- _; [|by destruct e].
  injection Hkey as _ Hn. unfold k8sLimitRangeToSCLimitRange. rewrite Hspec. simpl. rewrite Hn.
  split; [done|]. split; [done|]. split; intros n; apply (limits_round_trip _ container_resources_small); auto.
Qed.
