(* ===== verification/Namespace.v ===== *)
(** Namespaces and the permission check in front of every handler
    (pkg/handler/namespace_manager.go and the authorization handler of
    pkg/handler/cluster_manager.go). *)
From S2P Require Import Prelude KvStore Authorizer RestApi KubeApi.

(** types.Namespace, as far as it is a name. *)
Record Namespace := mkNamespace {
  ns_ID : string; ns_Name : string; ns_CreationTimestamp : Z; ns_DeletionTimestamp : option Z
}.

(** corev1.Namespace. *)
Record K8sNamespace := mkK8sNamespace {
  kn_Name : string; kn_CreationTimestamp : Z; kn_DeletionTimestamp : option Z
}.
#[export] Instance K8sNamespace_object : KubeObject K8sNamespace := {|
  Spec := unit;
  kube_key o := ("", o.(kn_Name));
  kube_spec _ := tt;
  kube_deleting o := bool_decide (is_Some o.(kn_DeletionTimestamp))
|}.

(** The owner of an object, and the objects searchPod looks at. *)
Record OwnerReference := mkOwner { ow_Kind : string; ow_Name : string }.
Record K8sPod := mkPod { pd_Namespace : string; pd_Name : string; pd_OwnerReferences : list OwnerReference }.
Record K8sReplicaSet := mkReplicaSet { rs_Namespace : string; rs_Name : string; rs_OwnerReferences : list OwnerReference }.
#[export] Instance K8sPod_object : KubeObject K8sPod := {|
  Spec := unit; kube_key o := (o.(pd_Namespace), o.(pd_Name)); kube_spec _ := tt; kube_deleting _ := false |}.
#[export] Instance K8sReplicaSet_object : KubeObject K8sReplicaSet := {|
  Spec := unit; kube_key o := (o.(rs_Namespace), o.(rs_Name)); kube_spec _ := tt; kube_deleting _ := false |}.
Record PodInfo := mkPodInfo { pi_Kind : string; pi_Name : string }.

Definition HiddenNamespaces : list string :=
  ["zcloud"; "ingress-nginx"; "kube-node-lease"; "kube-public"; "kube-system"].

Definition IsNamespaceVisiable (ns : string) (enableDebug : bool) : bool :=
  enableDebug || negb (existsb (String.eqb ns) HiddenNamespaces).

(** ** Calls on a cluster *)

Section Cluster.
Context {K : Type} `{!KubeKind K K8sNamespace}.

Definition getNamespaces : M K kube_error (list K8sNamespace) := kube_list "".
Definition createNamespace (name : string) : M K kube_error unit :=
  do! kube_create (mkK8sNamespace name 0 None) in ret tt.
Definition deleteNamespace (name : string) : M K kube_error unit := kube_delete (Obj := K8sNamespace) "" name.
Definition getNamespace (name : string) : M K kube_error K8sNamespace := kube_get "" name.
Definition hasNamespace {E} (name : string) : M K E bool :=
  let! r := attempt (getNamespace name) in ret (is_ok r).

Definition k8sNamespaceToSCNamespace (k : K8sNamespace) : Namespace :=
  mkNamespace k.(kn_Name) k.(kn_Name) k.(kn_CreationTimestamp) k.(kn_DeletionTimestamp).
End Cluster.

(** ** The state of the handlers *)

(** The clients of the ready clusters, the authorizer, the table of the user quotas and the
    namespaces whose deletion was published. *)
Record World (DB K : Type) := mkWorld {
  w_clusters : gmap string K; w_authorizer : Authorizer DB; w_quotas : DB; w_deleted : list string
}.
Arguments mkWorld {DB K}.
Arguments w_clusters {DB K}.
Arguments w_authorizer {DB K}.
Arguments w_quotas {DB K}.
Arguments w_deleted {DB K}.

Section Handlers.
Context {DB K : Type} `{KvTable DB} `{Json AuthUser} `{!KubeKind K K8sNamespace} `{!KubeKind K K8sPod} `{!KubeKind K K8sReplicaSet}.
Implicit Types w : World DB K.

Definition set_clusters (ks : gmap string K) w : World DB K := mkWorld ks w.(w_authorizer) w.(w_quotas) w.(w_deleted).
Definition set_w_authorizer a w : World DB K := mkWorld w.(w_clusters) a w.(w_quotas) w.(w_deleted).
Definition set_quotas d w : World DB K := mkWorld w.(w_clusters) w.(w_authorizer) d w.(w_deleted).
Definition publish_deleted ns w : World DB K := mkWorld w.(w_clusters) w.(w_authorizer) w.(w_quotas) (w.(w_deleted) ++ [ns]).

(** A call on the client of a cluster. *)
Definition on_client {E A} (missing : E) (cluster : string) (m : M K E A) : M (World DB K) E A :=
  zoom w_clusters set_clusters (on_cluster missing cluster m).

Definition Create (currentUser cluster : string) (namespace : Namespace) : M (World DB K) api_error Namespace :=
  do! guard (isAdmin currentUser) PermissionDenied in
  do! on_client NotFound cluster
        (rethrow (fun e => if IsAlreadyExists e then DuplicateResource else ConnectClusterFailed)
           (createNamespace namespace.(ns_Name))) in
  ret (mkNamespace namespace.(ns_Name) namespace.(ns_Name) namespace.(ns_CreationTimestamp) namespace.(ns_DeletionTimestamp)).

Definition List (enableDebug : bool) (currentUser cluster : string) : M (World DB K) api_error (list Namespace) :=
  let! items := on_client NotFound cluster
                  (rethrow (fun e => if IsNotFound e then NotFound else ServerError) getNamespaces) in
  let! authorizer := gets w_authorizer in
  ret (k8sNamespaceToSCNamespace <$>
       filter (fun ns => Is_true (IsNamespaceVisiable ns.(kn_Name) enableDebug) /\
                         Is_true (Authorize currentUser cluster ns.(kn_Name) authorizer)) items).

(** isExistsInUserQuotaTable: an error of the read counts as absence; an empty value does not. *)
Definition isExistsInUserQuotaTable (namespace : string) : M (World DB K) api_error bool :=
  fun w => match kv_begin w.(w_quotas) with
           | (Err _, d) => (Err NotFound, set_quotas d w)
           | (Ok t, _) => let (r, t') := tx_get namespace t in (Ok (is_ok r), set_quotas (snd (tx_commit t')) w)
           end.

(** The cluster is looked up before the table is asked. *)
Definition Delete (enableDebug : bool) (currentUser cluster namespace : string) : M (World DB K) api_error unit :=
  do! guard (IsNamespaceVisiable namespace enableDebug) PermissionDenied in
  do! guard (isAdmin currentUser) PermissionDenied in
  do! on_client NotFound cluster (ret tt) in
  let! exits := isExistsInUserQuotaTable namespace in
  do! guard (negb exits) PermissionDenied in
  do! on_client NotFound cluster
        (rethrow (fun e => if IsNotFound e then NotFound else ServerError) (deleteNamespace namespace)) in
  modify (publish_deleted namespace).

(** searchPod: the workload a pod belongs to. *)
Definition searchPod (currentUser cluster namespace : string) (target : option string) : M (World DB K) api_error PodInfo :=
  do! on_client NotFound cluster (ret tt) in
  let! authorizer := gets w_authorizer in
  do! guard (Authorize currentUser cluster namespace authorizer) Unauthorized in
  match target with
  | None => throw InvalidFormat
  | Some name =>
      do! guard (negb (String.eqb name "")) NotNullable in
      let! pod := on_client NotFound cluster (rethrow (fun _ => NotFound) (kube_get (Obj := K8sPod) namespace name)) in
      match pod.(pd_OwnerReferences) with
      | [owner] =>
          if negb (String.eqb owner.(ow_Kind) "ReplicaSet") then ret (mkPodInfo owner.(ow_Kind) owner.(ow_Name))
          else
            let! rs := on_client NotFound cluster
                         (rethrow (fun _ => ServerError) (kube_get (Obj := K8sReplicaSet) namespace owner.(ow_Name))) in
            match rs.(rs_OwnerReferences) with
            | [owner] => ret (mkPodInfo owner.(ow_Kind) owner.(ow_Name))
            | _ => throw ServerError
            end
      | _ => ret (mkPodInfo "pod" pod.(pd_Name))
      end
  end.

(** ** The permission check of every request *)

(** The resource of a request: a user or something else, the name of its action, and what
    it is below, the outermost first. *)
Inductive Ancestor := InCluster (id : string) | InNamespace (id : string) | InOther (id : string).
Record RestRequest := mkRest { rr_isUser : bool; rr_action : option string; rr_ancestors : list Ancestor }.

Definition is_login (rq : RestRequest) : bool :=
  rq.(rr_isUser) && bool_decide (rq.(rr_action) = Some "login").

(** A user the authenticator knows and the authorizer does not is added without projects. *)
Definition ensure_user (now : Z) (user : string) (a : Authorizer DB) : Authorizer DB :=
  match GetUser user a with
  | Some _ => a
  | None => snd (AddUser (mkUser user user "" [] now zero_time) a)
  end.

Definition authorizationHandler (enableDebug : bool) (now : Z) (ctx : option string) (rq : RestRequest) : M (World DB K) api_error unit :=
  if is_login rq then ret tt
  else
    let user := getCurrentUser ctx in
    do! guard (negb (String.eqb user "")) Unauthorized in
    do! modify (fun w => set_w_authorizer (ensure_user now user w.(w_authorizer)) w) in
    match rq.(rr_ancestors) with
    | InCluster cluster :: InNamespace namespace :: _ =>
        do! guard (IsNamespaceVisiable namespace enableDebug) PermissionDenied in
        let! authorizer := gets w_authorizer in
        guard (Authorize user cluster namespace authorizer) PermissionDenied
    | _ => ret tt
    end.
End Handlers.

Section Facts.
Context {DB K : Type} `{KvTable DB} `{Json AuthUser} `{!KvLaws DB} `{!JsonLaws AuthUser}.
Context `{!KubeKind K K8sNamespace} `{!KubeKind K K8sPod} `{!KubeKind K K8sReplicaSet} `{!KubeLaws K K8sNamespace}.
Implicit Types w : World DB K.

(** Adding a user without projects decides nothing. *)
Lemma ensure_user_decides now user (a : Authorizer DB) name cluster namespace :
  Authorize name cluster namespace (ensure_user now user a) = Authorize name cluster namespace a.
Proof.
  unfold ensure_user, GetUser. destruct (az_users a !! user) as [u|] eqn:Hu; [done|]. cbn [fmap option_fmap option_map].
  unfold AddUser. simpl. rewrite Hu. destruct (addUser _ _ _) as [[[]|e] d]; [|done]. unfold Authorize. simpl.
  destruct (String.eqb name Administrator); [done|]. destruct (decide (user = name)) as [->|Hne].
  - by rewrite lookup_insert_eq, Hu.
  - by rewrite lookup_insert_ne.
Qed.

(** A request that may go on to its handler. *)
Definition permitted (enableDebug : bool) (ctx : option string) (rq : RestRequest) (a : Authorizer DB) : Prop :=
  is_login rq = true \/
  exists user, ctx = Some user /\ user <> "" /\
    forall cluster namespace rest, rq.(rr_ancestors) = InCluster cluster :: InNamespace namespace :: rest ->
      IsNamespaceVisiable namespace enableDebug = true /\
      (user = Administrator \/
       exists u, a.(az_users) !! user = Some u /\ grants u.(au_Projects) cluster namespace).

(** Every request is checked: one is let through exactly when it is a login, or it has
    a user and, if it is about something in a namespace of a cluster, that namespace is
    not a hidden one and the user is the administrator or has a project for it; whether
    it is let through or not, no cluster and no permission changes. *)
Lemma authorizationHandler_permits enableDebug now ctx rq w r w' :
  authorizationHandler enableDebug now ctx rq w = (r, w') ->
  (r = Ok tt <-> permitted enableDebug ctx rq w.(w_authorizer)) /\
  w'.(w_clusters) = w.(w_clusters) /\ w'.(w_quotas) = w.(w_quotas) /\
  forall name cluster namespace,
    Authorize name cluster namespace w'.(w_authorizer) = Authorize name cluster namespace w.(w_authorizer).
Proof.
  unfold authorizationHandler, permitted. destruct (is_login rq); [intros [= <- <-]; naive_solver|].
  unfold getCurrentUser. destruct ctx as [user|]; [|intros [= <- <-]; naive_solver]. simpl.
  unfold bind, guard, modify, gets. destruct (String.eqb_spec user "") as [->|Hu]; simpl; [intros [= <- <-]; naive_solver|].
  destruct (rr_ancestors rq) as [|[cluster| |] [|[|namespace|] rest]]; simpl;
    try (intros [= <- <-]; split; [naive_solver|]; split; [done|]; split; [done|]; simpl; intros; apply ensure_user_decides).
  destruct (IsNamespaceVisiable namespace enableDebug) eqn:Hv; simpl.
  2: { intros [= <- <-]. split; [|split; [done|]; split; [done|]; intros; apply ensure_user_decides].
       split; [done|]. intros [|(u & _ & _ & Hall)]; [done|]. destruct (Hall _ _ _ eq_refl). congruence. }
  rewrite ensure_user_decides. pose proof (Authorize_spec user cluster namespace (w_authorizer w)) as Hspec.
  destruct (Authorize user cluster namespace (w_authorizer w)); intros [= <- <-];
    (split; [|split; [done|]; split; [done|]; intros; apply ensure_user_decides]).
  - split; [|done]. intros _. right. exists user. split; [done|]. split; [done|]. intros ? ? ? [= <- <- <-]. tauto.
  - split; [done|]. intros [|(u & [= <-] & _ & Hall)]; [done|]. destruct (Hall _ _ _ eq_refl) as [_ Hg]. by apply Hspec in Hg.
Qed.

(** The namespace is gone, or on its way. *)
Definition deleted_in (k k' : K) (namespace : string) : Prop :=
  kube_objects (Obj := K8sNamespace) k' = delete ("", namespace) (kube_objects k) \/
  exists o : K8sNamespace, kube_deleting o = true /\ kube_objects k' = <[("", namespace) := o]> (kube_objects k).

Lemma on_client_inv {E A} (missing : E) cluster (m : M K E A) w r w' :
  on_client missing cluster m w = (r, w') ->
  (w.(w_clusters) !! cluster = None /\ r = Err missing /\ w' = w) \/
  exists k k', w.(w_clusters) !! cluster = Some k /\ m k = (r, k') /\ w' = set_clusters (<[cluster := k']> w.(w_clusters)) w.
Proof.
  unfold on_client, zoom. destruct (on_cluster missing cluster m (w_clusters w)) as [r1 ks] eqn:Ho. intros [= <- <-].
  apply on_cluster_inv in Ho as [(Hn & -> & ->)|(k & k' & Hk & Hm & ->)]; [left|right].
  - split; [done|]. split; [done|]. by destruct w.
  - by exists k, k'.
Qed.

Lemma deleteNamespace_cases name (k k' : K) r :
  deleteNamespace name k = (r, k') ->
  match r with Ok _ => deleted_in k k' name | Err _ => same_kind K8sNamespace k k' end.
Proof.
  unfold deleteNamespace. intros Hd. apply kube_delete_law in Hd. destruct r as [[]|e]; [|by destruct Hd].
  destruct Hd as [?|(o & ? & ? & ?)]; [by left|right]. by exists o.
Qed.

(** Deleting a namespace: it takes the administrator, a namespace that is not hidden
    and one that no user quota holds; then it is deleted in that cluster and nowhere else,
    and its deletion is published; otherwise nothing is published.  (A read of the table
    that fails passes for a quota that does not exist.) *)
Lemma Delete_namespace enableDebug currentUser cluster namespace w r w' :
  Delete enableDebug currentUser cluster namespace w = (r, w') ->
  kv_content w'.(w_quotas) = kv_content w.(w_quotas) /\ w'.(w_authorizer) = w.(w_authorizer) /\
  match r with
  | Ok _ => currentUser = Administrator /\ IsNamespaceVisiable namespace enableDebug = true /\
      (kv_content w.(w_quotas) !! namespace = None \/
       exists t d e t', kv_begin w.(w_quotas) = (Ok t, d) /\ tx_get namespace t = (Err e, t') /\ e <> KvNotFound) /\
      w'.(w_deleted) = w.(w_deleted) ++ [namespace] /\
      exists k k', w.(w_clusters) !! cluster = Some k /\ deleted_in k k' namespace /\
        w'.(w_clusters) = <[cluster := k']> w.(w_clusters)
  | Err _ => w'.(w_deleted) = w.(w_deleted)
  end.
Proof.
  unfold Delete. intros Hd. apply bind_cases in Hd as [([] & w1 & Hg & Hd)|(e & Hg & ->)]; unfold guard in Hg.
  2: { destruct (IsNamespaceVisiable _ _); unfold throw in Hg; by simplify_eq. }
  destruct (IsNamespaceVisiable namespace enableDebug) eqn:Hv; unfold ret in Hg; simplify_eq.
  apply bind_cases in Hd as [([] & w2 & Hg & Hd)|(e & Hg & ->)]; unfold guard in Hg.
  2: { destruct (isAdmin _); unfold throw in Hg; by simplify_eq. }
  destruct (isAdmin currentUser) eqn:Ha; unfold ret in Hg; simplify_eq. apply isAdmin_iff in Ha as ->.
  apply bind_cases in Hd as [([] & w3 & Hc & Hd)|(e & Hc & ->)]; apply on_client_inv in Hc as [(Hn & Hr & ->)|(k & k' & Hk & Hm & ->)];
    unfold ret in *; simplify_eq; [|done].
  rewrite (insert_id _ _ _ Hk) in Hd. replace (set_clusters (w_clusters w2) w2) with w2 in Hd by by destruct w2.
  apply bind_cases in Hd as [(exits & w4 & Hx & Hd)|(e & Hx & ->)]; unfold isExistsInUserQuotaTable in Hx;
    destruct (kv_begin (w_quotas w2)) as [[t|e'] d] eqn:Hb; simplify_eq/=.
  2: { destruct (tx_get namespace t); simplify_eq. }
  2: { apply kv_begin_err in Hb. by rewrite Hb. }
  destruct (tx_get namespace t) as [rg t'] eqn:Hg. simplify_eq/=.
  assert (Hd4 : kv_content (snd (tx_commit t')) = kv_content (w_quotas w2)).
  { apply kv_begin_ok in Hb as [Hc Hbase]. pose proof (tx_get_law _ _ _ _ Hg) as [Hb' Hc'].
    destruct (tx_commit t') as [[[]|e] d2] eqn:Hcm; simpl.
    - apply tx_commit_ok in Hcm. rewrite Hcm. destruct rg; naive_solver congruence.
    - apply tx_commit_err in Hcm. congruence. }
  assert (Hquota : is_ok rg = false -> kv_content (w_quotas w2) !! namespace = None \/
    exists t d e t', kv_begin (w_quotas w2) = (Ok t, d) /\ tx_get namespace t = (Err e, t') /\ e <> KvNotFound).
  { destruct rg as [|e]; [done|]. intros _. destruct (decide (e = KvNotFound)) as [->|Hne].
    - left. apply tx_get_not_found in Hg. apply kv_begin_ok in Hb as [Hc _]. by rewrite <- Hc.
    - right. by exists t, d, e, t'. }
  apply bind_cases in Hd as [([] & w5 & Hg5 & Hd)|(e & Hg5 & ->)]; unfold guard in Hg5;
    destruct (is_ok rg); unfold throw, ret in Hg5; simpl in Hg5; simplify_eq; [|done].
  specialize (Hquota eq_refl).
  apply bind_cases in Hd as [([] & w6 & Hc & Hd)|(e & Hc & ->)]; apply on_client_inv in Hc as [(Hn & Hr & ->)|(k2 & k3 & Hk2 & Hm2 & ->)];
    try done; unfold rethrow in Hm2; simpl in Hk2; simplify_eq;
    destruct (deleteNamespace namespace _) as [[[]|e'] k4] eqn:Hdel; simplify_eq/=; try done.
  apply deleteNamespace_cases in Hdel. unfold modify in Hd. simplify_eq/=.
  split; [done|]. split; [done|]. split; [done|]. split; [done|]. rewrite Hb in Hquota.
  split; [exact Hquota|]. split; [done|]. eexists _, _. done.
Qed.
End Facts.
