(* ===== verification/UserQuota.v ===== *)
(** User quotas (pkg/handler/userquota_manager.go and pkg/types/userquota.go): a user asks
    for a namespace with some resources, the administrator approves or rejects, and an
    approved request is a namespace with a quota and a project of the user.  Times are
    in seconds. *)
From S2P Require Import Prelude KvStore GoStrings Authorizer RestApi KubeApi ResourceQuota Namespace.

Definition TypeUserQuotaCreate : string := "create".
Definition TypeUserQuotaUpdate : string := "update".
Definition StatusUserQuotaProcessing : string := "processing".
Definition StatusUserQuotaApproval : string := "approval".
Definition StatusUserQuotaRejection : string := "rejection".
Definition ActionApproval : string := "approval".
Definition ActionRejection : string := "reject".

Record UserQuota := mkUserQuota {
  uq_ID : string; uq_CreationTimestamp : Z; uq_Name : string; uq_ClusterName : string; uq_Namespace : string;
  uq_UserName : string; uq_CPU : string; uq_Memory : string; uq_Storage : string; uq_RequestType : string;
  uq_Status : string; uq_Purpose : string; uq_Requestor : string; uq_Telephone : string;
  uq_RejectionReason : string; uq_ResponseTimestamp : Z
}.

Definition setUserQuota (userQuota : UserQuota) (userName requestType : string) (creationTimestamp : Z) : UserQuota :=
  let q := userQuota in
  mkUserQuota q.(uq_Namespace) creationTimestamp q.(uq_Namespace) q.(uq_ClusterName) q.(uq_Namespace)
    userName q.(uq_CPU) q.(uq_Memory) q.(uq_Storage) requestType StatusUserQuotaProcessing q.(uq_Purpose)
    q.(uq_Requestor) q.(uq_Telephone) q.(uq_RejectionReason) q.(uq_ResponseTimestamp).

Definition setUserQuotaByAdmin (userQuota : UserQuota) (clusterName reason status : string) (now : Z) : UserQuota :=
  let q := userQuota in
  mkUserQuota q.(uq_ID) q.(uq_CreationTimestamp) q.(uq_Name) clusterName q.(uq_Namespace) q.(uq_UserName)
    q.(uq_CPU) q.(uq_Memory) q.(uq_Storage) q.(uq_RequestType) status q.(uq_Purpose) q.(uq_Requestor)
    q.(uq_Telephone) reason now.

(** UserQuotas.Less: by creation, then user, then name. *)
Definition Less (a b : UserQuota) : bool :=
  if a.(uq_CreationTimestamp) =? b.(uq_CreationTimestamp) then
    if String.eqb a.(uq_UserName) b.(uq_UserName) then String.ltb a.(uq_Name) b.(uq_Name)
    else String.ltb a.(uq_UserName) b.(uq_UserName)
  else a.(uq_CreationTimestamp) <? b.(uq_CreationTimestamp).
Definition NotGreater (a b : UserQuota) : Prop := Less b a = false.
#[export] Instance NotGreater_dec a b : Decision (NotGreater a b).
Proof. unfold NotGreater. apply _. Defined.

(** A byte of [-a-z0-9]. *)
Definition namespace_byte (c : ascii) : bool :=
  let n := N_of_ascii c in
  (n =? 45)%N || ((97 <=? n)%N && (n <=? 122)%N) || ((48 <=? n)%N && (n <=? 57)%N).

Section UserQuota.
Context `{Quantities} {DB K : Type} `{KvTable DB} `{Json UserQuota} `{Json AuthUser}.
Context `{!KubeKind K K8sNamespace} `{!KubeKind K K8sResourceQuota}.
Implicit Types w : World DB K.

(** Every byte of the namespace is allowed, and the quantities can be parsed. *)
Definition checkUserQuotaParamsValid (quota : UserQuota) : bool :=
  forallb namespace_byte (list_ascii_of_string quota.(uq_Namespace)) &&
  bool_decide (is_Some (ParseQuantity quota.(uq_CPU))) &&
  bool_decide (is_Some (ParseQuantity quota.(uq_Memory))) &&
  bool_decide (is_Some (ParseQuantity quota.(uq_Storage))).

Definition storageResourceValueToSCUserQuota (value : string) : result kv_error UserQuota :=
  if String.eqb value "" then Err KvJson else of_option KvJson (unmarshal value).
Definition getUserQuotaFromDB (id : string) : M Tx kv_error UserQuota :=
  let! value := tx_get id in lift (storageResourceValueToSCUserQuota value).

(** [tx, err := m.db.Begin(); ...; defer tx.Rollback()]: [body] runs on the open transaction
    and the rest of the state, and [finish] after it was committed or rolled back. *)
Definition with_quota_tx {A} (body : M (Tx * World DB K) api_error A) : M (World DB K) api_error A :=
  fun w =>
    match kv_begin w.(w_quotas) with
    | (Err _, d) => (Err ServerError, set_quotas d w)
    | (Ok t, _) =>
        match body (t, w) with
        | (Err e, (t', w')) => (Err e, set_quotas (tx_rollback t') w')
        | (Ok a, (t', w')) =>
            let (r, d) := tx_commit t' in
            (result_bind (map_err (fun _ => ServerError) r) (fun _ => Ok a), set_quotas d w')
        end
    end.
Definition on_tx {A} (m : M Tx kv_error A) : M (Tx * World DB K) api_error A :=
  zoom fst (fun t s => (t, snd s)) (rethrow (fun _ => ServerError) m).
Definition on_world {A} (m : M (World DB K) api_error A) : M (Tx * World DB K) api_error A :=
  zoom snd (fun w s => (fst s, w)) m.

(** *** The handlers *)

(** The quota is stored under its namespace; one that is there already is refused. *)
Definition Create (now : Z) (userName : string) (userQuota : UserQuota) : M (World DB K) api_error UserQuota :=
  do! guard (negb (String.eqb userName "")) ConnectClusterFailed in
  do! guard (checkUserQuotaParamsValid userQuota) InvalidClusterConfig in
  let userQuota := setUserQuota userQuota userName TypeUserQuotaCreate now in
  let! value := lift (of_option ConnectClusterFailed (marshal userQuota)) in
  do! with_quota_tx (on_tx (tx_add userQuota.(uq_ID) value)) in
  ret userQuota.

Fixpoint read_quotas (vs : list string) : result kv_error (list UserQuota) :=
  match vs with
  | [] => Ok []
  | v :: vs =>
      result_bind (storageResourceValueToSCUserQuota v) (fun q => result_bind (read_quotas vs) (fun l => Ok (q :: l)))
  end.

(** [defer tx.Commit()] after a read. *)
Definition read_tx {A} (m : M Tx kv_error A) : M (World DB K) api_error A :=
  fun w => let (r, d) := with_tx_read m w.(w_quotas) in (map_err (fun _ => ServerError) r, set_quotas d w).

Definition List (userName : string) : M (World DB K) api_error (list UserQuota) :=
  let! quotas := read_tx (let! values := tx_list in lift (read_quotas (snd <$> map_to_list values))) in
  ret (merge_sort NotGreater (filter (fun q => Is_true (isAdmin userName) \/ q.(uq_UserName) = userName) quotas)).

Definition Get (userName id : string) : M (World DB K) api_error UserQuota :=
  let! quota := read_tx (getUserQuotaFromDB id) in
  do! guard (isAdmin userName || String.eqb quota.(uq_UserName) userName) NotFound in
  ret quota.

Definition Update (userName id : string) (userQuota : UserQuota) : M (World DB K) api_error UserQuota :=
  do! guard (negb (String.eqb userName "")) ConnectClusterFailed in
  do! guard (checkUserQuotaParamsValid userQuota) InvalidClusterConfig in
  with_quota_tx
    (let! quota := on_tx (getUserQuotaFromDB id) in
     do! guard (String.eqb quota.(uq_UserName) userName) ServerError in
     do! guard (negb (String.eqb quota.(uq_Status) StatusUserQuotaProcessing)) ServerError in
     do! guard (String.eqb quota.(uq_Namespace) userQuota.(uq_Namespace) &&
                String.eqb quota.(uq_ClusterName) userQuota.(uq_ClusterName)) ServerError in
     let userQuota := setUserQuota userQuota userName TypeUserQuotaUpdate quota.(uq_CreationTimestamp) in
     let! value := lift (of_option ConnectClusterFailed (marshal userQuota)) in
     do! on_tx (tx_update userQuota.(uq_ID) value) in
     ret userQuota).

(** The first project for that namespace is taken away. *)
Fixpoint remove_project (p : Project) (l : list Project) : list Project :=
  match l with
  | [] => []
  | q :: l => if decide (q = p) then l else q :: remove_project p l
  end.
Definition set_projects (f : list Project -> list Project) (user : User) : User :=
  mkUser user.(us_ID) user.(us_Name) user.(us_Password) (f user.(us_Projects))
    user.(us_CreationTimestamp) user.(us_DeletionTimestamp).
(** GetUser, a change of the projects and UpdateUser; the error of the update is dropped. *)
Definition change_projects (userName : string) (f : list Project -> list Project) (a : Authorizer DB) : Authorizer DB :=
  match GetUser userName a with
  | None => a
  | Some user => snd (UpdateUser (set_projects f user) a)
  end.

Definition Delete (userName id : string) : M (World DB K) api_error unit :=
  do! guard (negb (String.eqb userName "")) ConnectClusterFailed in
  let! quota := with_quota_tx
    (let! quota := on_tx (getUserQuotaFromDB id) in
     do! guard (isAdmin userName || String.eqb quota.(uq_UserName) userName) ServerError in
     do! guard (negb (String.eqb quota.(uq_Status) StatusUserQuotaProcessing)) ServerError in
     do! (if String.eqb quota.(uq_ClusterName) "" then ret tt
          else on_world (on_client NotFound quota.(uq_ClusterName)
                 (fun k => match deleteNamespace quota.(uq_Namespace) k with
                           | (Err e, k) => if IsNotFound e then (Ok tt, k) else (Err ServerError, k)
                           | ok => (Ok tt, snd ok)
                           end))) in
     do! on_tx (tx_delete id) in
     ret quota) in
  if String.eqb quota.(uq_ClusterName) "" then ret tt
  else modify (fun w => set_w_authorizer
         (change_projects quota.(uq_UserName) (remove_project (mkProject quota.(uq_ClusterName) quota.(uq_Namespace)))
            w.(w_authorizer)) w).

(** *** Approval *)

(** updateResourceQuota: the limits are replaced; the answer is what restores them. *)
Definition updateResourceQuota (namespace : string) (limits : gmap string string) : M K quota_error K8sResourceQuota :=
  let! k8sResourceQuota := rethrow QKube (getResourceQuota namespace namespace) in
  let! k8sHard := lift (scQuotaResourceListToK8sResourceList limits) in
  let oldHard := k8sResourceQuota.(kq_Hard) in
  let q := k8sResourceQuota in
  let! q := rethrow QKube (kube_update (mkK8sQuota q.(kq_Namespace) q.(kq_Name) k8sHard q.(kq_StatusHard) q.(kq_StatusUsed)
              q.(kq_ResourceVersion) q.(kq_CreationTimestamp) q.(kq_DeletionTimestamp))) in
  ret (mkK8sQuota q.(kq_Namespace) q.(kq_Name) oldHard q.(kq_StatusHard) q.(kq_StatusUsed) ""
         q.(kq_CreationTimestamp) q.(kq_DeletionTimestamp)).

(** What approval does in the cluster: the namespace with its quota is made, or the quota
    of the namespace that is there is changed; the answer is the old quota then. *)
Definition storage_quota (quota : UserQuota) : ResourceQuota :=
  mkResourceQuota "" quota.(uq_Namespace) {[ "requests.storage" := quota.(uq_Storage) ]} ∅ ∅ zero_time None.

Definition prepare (quota : UserQuota) : M K api_error (option K8sResourceQuota) :=
  let! exists_ := hasNamespace quota.(uq_Namespace) in
  if negb exists_ then
    do! rethrow (fun _ => ConnectClusterFailed) (createNamespace quota.(uq_Namespace)) in
    let! r := attempt (createResourceQuota quota.(uq_Namespace) (storage_quota quota)) in
    match r with
    | Ok _ => ret None
    | Err _ =>
        let! ignored := attempt (deleteNamespace quota.(uq_Namespace)) in throw ServerError
    end
  else
    let! old := rethrow (fun _ => ConnectClusterFailed)
                  (updateResourceQuota quota.(uq_Namespace) (storage_quota quota).(rq_Limits)) in
    ret (Some old).

Definition rollbackResource (namespace : string) (old : option K8sResourceQuota) : M K api_error unit :=
  match old with
  | None => let! ignored := attempt (deleteNamespace namespace) in ret tt
  | Some q => let! ignored := attempt (kube_update q) in ret tt
  end.

Definition approval (now : Z) (id : string) (input : option string) : M (World DB K) api_error unit :=
  match input with
  | None => throw InvalidFormat
  | Some clusterName =>
      do! guard (negb (String.eqb clusterName "")) InvalidFormat in
      do! on_client NotFound clusterName (ret tt) in
      fun w =>
        match kv_begin w.(w_quotas) with
        | (Err _, d) => (Err ServerError, set_quotas d w)
        | (Ok t, _) =>
            match getUserQuotaFromDB id t with
            | (Err _, t) => (Err ServerError, set_quotas (tx_rollback t) w)
            | (Ok quota, t) =>
                if negb (String.eqb quota.(uq_Status) StatusUserQuotaProcessing)
                then (Err ServerError, set_quotas (tx_rollback t) w)
                else
                  match on_client NotFound clusterName (prepare quota) w with
                  | (Err e, w) => (Err e, set_quotas (tx_rollback t) w)
                  | (Ok old, w) =>
                      let quota := setUserQuotaByAdmin quota clusterName "" StatusUserQuotaApproval now in
                      match marshal quota with
                      | None => (Err ConnectClusterFailed, set_quotas (tx_rollback t) w)
                      | Some value =>
                          let undo w := snd (on_client NotFound clusterName (rollbackResource quota.(uq_Namespace) old) w) in
                          match tx_update id value t with
                          | (Err _, t) => (Err ServerError, set_quotas (tx_rollback t) (undo w))
                          | (Ok _, t) =>
                              match tx_commit t with
                              | (Err _, d) => (Err ServerError, set_quotas d (undo w))
                              | (Ok _, d) =>
                                  let w := set_quotas d w in
                                  (Ok tt,
                                   match old with
                                   | None =>
                                       set_w_authorizer
                                         (change_projects quota.(uq_UserName)
                                            (fun l => l ++ [mkProject clusterName quota.(uq_Namespace)]) w.(w_authorizer)) w
                                   | Some _ => w
                                   end)
                              end
                          end
                      end
                  end
            end
        end
  end.

Definition reject (now : Z) (id : string) (input : option string) : M (World DB K) api_error unit :=
  match input with
  | None => throw InvalidFormat
  | Some reason =>
      do! guard (negb (String.eqb reason "")) InvalidFormat in
      with_quota_tx
        (let! quota := on_tx (getUserQuotaFromDB id) in
         do! guard (String.eqb quota.(uq_Status) StatusUserQuotaProcessing) ServerError in
         let quota := setUserQuotaByAdmin quota quota.(uq_ClusterName) reason StatusUserQuotaRejection now in
         let! value := lift (of_option ConnectClusterFailed (marshal quota)) in
         on_tx (tx_update id value))
  end.

(** The input of an action: of an approval, of a rejection, or of neither. *)
Inductive QuotaInput := InputCluster (ClusterName : string) | InputReason (Reason : string) | InputOther.

Definition Action (now : Z) (userName id name : string) (input : QuotaInput) : M (World DB K) api_error unit :=
  do! guard (isAdmin userName) PermissionDenied in
  if String.eqb name ActionApproval then
    approval now id (match input with InputCluster c => Some c | _ => None end)
  else if String.eqb name ActionRejection then
    reject now id (match input with InputReason r => Some r | _ => None end)
  else throw InvalidAction.
End UserQuota.

Arguments UserQuota : clear implicits.

(** A request to the handler. *)
Inductive QuotaRequest :=
  | QCreate (userQuota : UserQuota) | QUpdate (id : string) (userQuota : UserQuota) | QDelete (id : string)
  | QGet (id : string) | QList | QAction (id name : string) (input : QuotaInput).

Definition handle `{Quantities} {DB K : Type} `{KvTable DB} `{Json UserQuota} `{Json AuthUser}
    `{!KubeKind K K8sNamespace} `{!KubeKind K K8sResourceQuota} (now : Z) (userName : string) (rq : QuotaRequest)
    : M (World DB K) api_error unit :=
  match rq with
  | QCreate q => do! Create now userName q in ret tt
  | QUpdate id q => do! Update userName id q in ret tt
  | QDelete id => Delete userName id
  | QGet id => do! Get userName id in ret tt
  | QList => do! List userName in ret tt
  | QAction id name input => Action now userName id name input
  end.

(** ** The states of a request *)

(** What a user may do to the request stored under an identifier: ask for it, ask again once
    it is decided, take it back once it is decided; the administrator decides one that
    is being processed, once. *)
Inductive quota_step (now : Z) (user id : string) : option UserQuota -> option UserQuota -> Prop :=
  | step_ask q :
      q.(uq_Namespace) = id -> user <> "" ->
      quota_step now user id None (Some (setUserQuota q user TypeUserQuotaCreate now))
  | step_ask_again old q :
      old.(uq_UserName) = user -> old.(uq_Status) <> StatusUserQuotaProcessing ->
      q.(uq_Namespace) = old.(uq_Namespace) -> q.(uq_ClusterName) = old.(uq_ClusterName) ->
      quota_step now user id (Some old)
        (Some (setUserQuota q user TypeUserQuotaUpdate old.(uq_CreationTimestamp)))
  | step_take_back old :
      user = Administrator \/ old.(uq_UserName) = user -> old.(uq_Status) <> StatusUserQuotaProcessing ->
      quota_step now user id (Some old) None
  | step_approve old cluster :
      user = Administrator -> old.(uq_Status) = StatusUserQuotaProcessing -> cluster <> "" ->
      quota_step now user id (Some old)
        (Some (setUserQuotaByAdmin old cluster "" StatusUserQuotaApproval now))
  | step_reject old reason :
      user = Administrator -> old.(uq_Status) = StatusUserQuotaProcessing -> reason <> "" ->
      quota_step now user id (Some old)
        (Some (setUserQuotaByAdmin old old.(uq_ClusterName) reason StatusUserQuotaRejection now)).

Section Facts.
Context `{Quantities} {DB K : Type} `{KvTable DB} `{Json UserQuota} `{Json AuthUser}.
Context `{!KubeKind K K8sNamespace} `{!KubeKind K K8sResourceQuota}.
Context `{!KvLaws DB} `{!JsonLaws UserQuota} `{!JsonText UserQuota} `{!JsonLaws AuthUser}.
Implicit Types w : World DB K.

Definition decode_quota (v : string) : option UserQuota :=
  match storageResourceValueToSCUserQuota v with Ok q => Some q | Err _ => None end.
Definition quota_at (m : gmap string string) (id : string) : option UserQuota := m !! id ≫= decode_quota.

Lemma decode_marshal q v : marshal q = Some v -> decode_quota v = Some q.
Proof.
  intros Hv. unfold decode_quota, storageResourceValueToSCUserQuota.
  destruct (String.eqb_spec v "") as [->|_]; [by apply json_not_empty in Hv|].
  by rewrite (json_round_trip _ _ Hv).
Qed.

(** A quota is stored under its namespace. *)
Definition quotas_ok (m : gmap string string) : Prop :=
  forall id q, quota_at m id = Some q -> q.(uq_Namespace) = id.

(** One step on one identifier, or none. *)
Definition quota_change (now : Z) (user : string) (m m' : gmap string string) : Prop :=
  exists id, quota_step now user id (quota_at m id) (quota_at m' id) /\
    (quota_at m id = None -> m !! id = None) /\ forall other, other <> id -> m' !! other = m !! other.

Lemma getUserQuota_effect id :
  tx_effect (DB := DB) (getUserQuotaFromDB id) (fun c q c' => c' = c /\ quota_at c id = Some q).
Proof.
  eapply tx_effect_weaken.
  - eapply tx_effect_bind; [apply tx_get_law|intros v; apply tx_effect_lift].
  - simpl. intros c q c' (v & Hv & -> & Hq). split; [done|]. unfold quota_at. rewrite Hv. simpl.
    unfold decode_quota. by rewrite Hq.
Qed.

(** What the body of a transaction does to what it sees and to the rest of the state. *)
Definition body_ok {A} (body : M (Tx * World DB K) api_error A)
    (P : gmap string string -> A -> gmap string string -> Prop) (Q : World DB K -> World DB K -> Prop) : Prop :=
  forall t w r t' w', body (t, w) = (r, (t', w')) ->
    tx_base t' = tx_base t /\ Q w w' /\ match r with Ok a => P (tx_content t) a (tx_content t') | Err _ => True end.

Lemma with_quota_tx_spec {A} (body : M (Tx * World DB K) api_error A) P Q w r w' :
  body_ok body P Q -> (forall w, Q w w) -> with_quota_tx body w = (r, w') ->
  (exists w1 d, Q w w1 /\ w' = set_quotas d w1) /\
  match r with
  | Ok a => P (kv_content w.(w_quotas)) a (kv_content w'.(w_quotas))
  | Err _ => kv_content w'.(w_quotas) = kv_content w.(w_quotas)
  end.
Proof.
  intros Hbody Hq. unfold with_quota_tx. destruct (kv_begin (w_quotas w)) as [[t|e] d] eqn:Hb.
  2: { intros [= <- <-]. split; [by exists w, d|]. simpl. by eapply kv_begin_err. }
  apply kv_begin_ok in Hb as [Hc Hbase]. destruct (body (t, w)) as [rb [t' w1]] eqn:Hrun.
  apply Hbody in Hrun as (Hb' & HQ & HP). destruct rb as [a|e].
  - destruct (tx_commit t') as [[[]|e] d2] eqn:Hcm; intros [= <- <-]; (split; [by exists w1, d2|]); simpl.
    + apply tx_commit_ok in Hcm. by rewrite Hcm, <- Hc.
    + apply tx_commit_err in Hcm. congruence.
  - intros [= <- <-]. split; [by eexists w1, _|]. simpl. rewrite tx_rollback_law. congruence.
Qed.

Lemma bind_on_tx {A B} (m : M Tx kv_error A) (k : A -> M (Tx * World DB K) api_error B) t w r s' :
  bind (on_tx m) k (t, w) = (r, s') ->
  exists r0 t', m t = (r0, t') /\
    match r0 with Ok a => k a (t', w) = (r, s') | Err _ => r = Err ServerError /\ s' = (t', w) end.
Proof.
  unfold bind, on_tx, zoom, rethrow. simpl. destruct (m t) as [r0 t'] eqn:Hm. intros Hr. exists r0, t'.
  split; [done|]. destruct r0; simpl in Hr; [done|]. by simplify_eq.
Qed.

Lemma on_tx_inv {A} (m : M Tx kv_error A) t w r s' :
  on_tx m (t, w) = (r, s') ->
  exists r0 t', m t = (r0, t') /\ s' = (t', w) /\ r = map_err (fun _ => ServerError) r0.
Proof.
  unfold on_tx, zoom, rethrow. simpl. destruct (m t) as [r0 t'] eqn:Hm. intros [= <- <-]. by exists r0, t'.
Qed.

(** *** The handlers, one by one *)

Definition only_quotas w w' : Prop := exists d, w' = set_quotas d w.

Lemma quota_insert m id q v : marshal q = Some v -> quota_at (<[id := v]> m) id = Some q.
Proof. intros Hv. unfold quota_at. rewrite lookup_insert_eq. by apply decode_marshal. Qed.

Lemma quota_change_insert now user m id q v :
  marshal q = Some v -> (quota_at m id = None -> m !! id = None) ->
  quota_step now user id (quota_at m id) (Some q) -> quota_change now user m (<[id := v]> m).
Proof.
  intros Hv Hn Hs. exists id. rewrite (quota_insert _ _ _ _ Hv). split; [done|]. split; [done|].
  intros other Hne. by rewrite lookup_insert_ne.
Qed.

Lemma Create_step now user q w r w' :
  Create now user q w = (r, w') ->
  only_quotas w w' /\
  match r with
  | Ok _ => quota_change now user (kv_content w.(w_quotas)) (kv_content w'.(w_quotas))
  | Err _ => kv_content w'.(w_quotas) = kv_content w.(w_quotas)
  end.
Proof.
  assert (Hid : only_quotas w w) by (exists w.(w_quotas); by destruct w).
  unfold Create. intros [[Hu Hr]|(_ & -> & ->)]%bind_guard_inv; [|done].
  apply bind_guard_inv in Hr as [[_ Hr]|(_ & -> & ->)]; [|done]. cbv zeta in Hr.
  apply bind_lift_inv in Hr as [(v & Hv & Hr)|(e & _ & -> & ->)]; [|done].
  destruct (marshal _) as [v'|] eqn:Hm; [|done]. simpl in Hv. injection Hv as ->.
  apply bind_cases in Hr as [([] & w1 & Hr & Hret)|(e & Hr & ->)].
  - unfold ret in Hret. simplify_eq.
    eapply (with_quota_tx_spec _ (fun c _ c' => c !! q.(uq_Namespace) = None /\ c' = <[q.(uq_Namespace) := v]> c) eq) in Hr
      as [(w2 & d & <- & ->) [Hn Hc]]; [|intros t w2 r2 t' w2' Hrun|done].
    + split; [by exists d|]. rewrite Hc. eapply quota_change_insert; [exact Hm|done|].
      unfold quota_at. rewrite Hn. simpl. apply step_ask; [done|]. by destruct (String.eqb_spec user "").
    + apply on_tx_inv in Hrun as (r0 & t1 & Ht & [= -> ->] & ->). apply tx_add_law in Ht as [Hb Hp].
      split; [done|]. split; [done|]. by destruct r0 as [[]|].
  - eapply (with_quota_tx_spec _ (fun _ _ _ => True) eq) in Hr as [(w2 & d & <- & ->) Hc]; [|intros t w2 r2 t' w2' Hrun|done].
    + split; [by exists d|done].
    + apply on_tx_inv in Hrun as (r0 & t1 & Ht & [= -> ->] & ->). apply tx_add_law in Ht as [Hb Hp].
      split; [done|]. split; [done|]. by destruct r0 as [[]|].
Qed.

(** The bodies that read the request, check it and write. *)
Lemma body_read {A} (id : string) (k : UserQuota -> M (Tx * World DB K) api_error A) P Q :
  (forall w, Q w w) ->
  (forall q t0 w r t' w', quota_at (tx_content t0) id = Some q -> k q (t0, w) = (r, (t', w')) ->
     tx_base t' = tx_base t0 /\ Q w w' /\ match r with Ok a => P (tx_content t0) a (tx_content t') | Err _ => True end) ->
  body_ok (bind (on_tx (getUserQuotaFromDB id)) k) P Q.
Proof.
  intros Hq Hk t w r t' w' Hrun. apply bind_on_tx in Hrun as (r0 & t1 & Hg & Hrun).
  apply getUserQuota_effect in Hg as [Hb Hg]. destruct r0 as [q|e].
  - destruct Hg as [Hc Hq']. rewrite <- Hc in Hq'. destruct (Hk _ _ _ _ _ _ Hq' Hrun) as (Hb' & HQ & HP).
    split; [congruence|]. split; [done|]. by rewrite <- Hc.
  - destruct Hrun as [-> [= -> ->]]. done.
Qed.

Lemma Update_step now user id q w r w' :
  Update user id q w = (r, w') ->
  only_quotas w w' /\
  (quotas_ok (kv_content w.(w_quotas)) ->
  match r with
  | Ok _ => quota_change now user (kv_content w.(w_quotas)) (kv_content w'.(w_quotas))
  | Err _ => kv_content w'.(w_quotas) = kv_content w.(w_quotas)
  end).
Proof.
  assert (Hid : only_quotas w w) by (exists w.(w_quotas); by destruct w).
  unfold Update. intros [[Hu Hr]|(_ & -> & ->)]%bind_guard_inv; [|done].
  apply bind_guard_inv in Hr as [[_ Hr]|(_ & -> & ->)]; [|done].
  eapply (with_quota_tx_spec _ (fun c _ c' => exists old v, quota_at c id = Some old /\ old.(uq_UserName) = user /\
      old.(uq_Status) <> StatusUserQuotaProcessing /\ q.(uq_Namespace) = old.(uq_Namespace) /\
      q.(uq_ClusterName) = old.(uq_ClusterName) /\
      marshal (setUserQuota q user TypeUserQuotaUpdate old.(uq_CreationTimestamp)) = Some v /\
      c' = <[q.(uq_Namespace) := v]> c) eq) in Hr as [(w2 & d & <- & ->) Hr]; [| |done].
  - split; [by exists d|]. intros Hok. destruct r as [a|e]; [|done].
    destruct Hr as (old & v & Hold & Hown & Hst & Hns & Hcl & Hv & ->).
    assert (Hkey : id = uq_Namespace q) by (rewrite Hns; symmetry; by apply Hok). subst id.
    eapply quota_change_insert; [exact Hv|by rewrite Hold|]. rewrite Hold. by apply step_ask_again.
  - apply body_read; [done|]. intros old t w0 r0 t' w0' Hold Hrun.
    apply bind_guard_inv in Hrun as [[Hown Hrun]|(_ & -> & [= -> ->])]; [|done].
    apply bind_guard_inv in Hrun as [[Hst Hrun]|(_ & -> & [= -> ->])]; [|done].
    apply bind_guard_inv in Hrun as [[Hsame Hrun]|(_ & -> & [= -> ->])]; [|done]. cbv zeta in Hrun.
    apply bind_lift_inv in Hrun as [(v & Hv & Hrun)|(e & _ & -> & [= -> ->])]; [|done].
    destruct (marshal _) as [v'|] eqn:Hm; [|done]. simpl in Hv. injection Hv as ->.
    apply bind_on_tx in Hrun as (r1 & t1 & Ht & Hrun). apply tx_update_law in Ht as [Hb Hp].
    destruct r1 as [[]|e]; [|by destruct Hrun as [-> [= -> ->]]]. unfold ret in Hrun. simplify_eq/=.
    split; [done|]. split; [done|]. destruct Hp as [_ Hp]. apply String.eqb_eq in Hown.
    apply andb_prop in Hsame as [Hns%String.eqb_eq Hcl%String.eqb_eq]. exists old, v.
    split; [done|]. split; [done|]. split; [by destruct (String.eqb_spec (uq_Status old) StatusUserQuotaProcessing)|]. done.
Qed.

Lemma reject_step now id input w r w' :
  reject now id input w = (r, w') ->
  only_quotas w w' /\
  match r with
  | Ok _ => quota_change now Administrator (kv_content w.(w_quotas)) (kv_content w'.(w_quotas))
  | Err _ => kv_content w'.(w_quotas) = kv_content w.(w_quotas)
  end.
Proof.
  assert (Hid : only_quotas w w) by (exists w.(w_quotas); by destruct w).
  unfold reject. destruct input as [reason|]; [|by intros [= <- <-]].
  intros [[Hu Hr]|(_ & -> & ->)]%bind_guard_inv; [|done].
  eapply (with_quota_tx_spec _ (fun c _ c' => exists old v, quota_at c id = Some old /\
      old.(uq_Status) = StatusUserQuotaProcessing /\
      marshal (setUserQuotaByAdmin old old.(uq_ClusterName) reason StatusUserQuotaRejection now) = Some v /\
      c' = <[id := v]> c) eq) in Hr as [(w2 & d & <- & ->) Hr]; [| |done].
  - split; [by exists d|]. destruct r as [a|e]; [|done]. destruct Hr as (old & v & Hold & Hst & Hv & ->).
    eapply quota_change_insert; [exact Hv|by rewrite Hold|]. rewrite Hold. apply step_reject; [done|done|].
    by destruct (String.eqb_spec reason "").
  - apply body_read; [done|]. intros old t w0 r0 t' w0' Hold Hrun.
    apply bind_guard_inv in Hrun as [[Hst%String.eqb_eq Hrun]|(_ & -> & [= -> ->])]; [|done]. cbv zeta in Hrun.
    apply bind_lift_inv in Hrun as [(v & Hv & Hrun)|(e & _ & -> & [= -> ->])]; [|done].
    destruct (marshal _) as [v'|] eqn:Hm; [|done]. simpl in Hv. injection Hv as ->.
    apply on_tx_inv in Hrun as (r1 & t1 & Ht & [= -> ->] & ->). apply tx_update_law in Ht as [Hb Hp].
    split; [done|]. split; [done|]. destruct r1 as [[]|e]; [|done]. simpl. destruct Hp as [_ Hp]. by exists old, v.
Qed.

(** *** The projects *)

Lemma change_projects_users userName f (a : Authorizer DB) :
  (change_projects userName f a).(az_users) =
    match a.(az_users) !! userName with
    | None => a.(az_users)
    | Some u => <[userName := mkAuthUser (f u.(au_Projects)) u.(au_CreationTimestamp) u.(au_DeletionTimestamp)]> a.(az_users)
    end.
Proof.
  unfold change_projects, GetUser. destruct (az_users a !! userName) as [u|] eqn:Hu; [|done].
  cbn [fmap option_fmap option_map]. unfold UpdateUser. simpl. rewrite Hu. by destruct (updateUser _ _ _).
Qed.

Lemma remove_project_subset p l q : q ∈ remove_project p l -> q ∈ l.
Proof.
  induction l as [|x l IH]; simpl; [done|]. case_decide; [by right|].
  intros [->|?]%elem_of_cons; [by left|right; auto].
Qed.

(** Taking a project away lets nobody do anything new. *)
Lemma removal_grants_nothing user p (a : Authorizer DB) name cluster namespace :
  Authorize name cluster namespace (change_projects user (remove_project p) a) = true ->
  Authorize name cluster namespace a = true.
Proof.
  rewrite !Authorize_spec, change_projects_users. intros [?|(x & Hx & q & Hq & Hg)]; [by left|]. right.
  destruct (az_users a !! user) as [u|] eqn:Hu; [|by exists x; split; [done|exists q]].
  apply lookup_insert_Some in Hx as [[<- <-]|[_ Hx]]; [|by exists x; split; [done|exists q]].
  exists u. split; [done|]. exists q. simpl in Hq. split; [by eapply remove_project_subset|done].
Qed.

(** *** Taking a request back *)

Definition deleted_namespace w w' (quota : UserQuota) : Prop :=
  w' = w \/ exists k k' r, w.(w_clusters) !! quota.(uq_ClusterName) = Some k /\
    deleteNamespace quota.(uq_Namespace) k = (r, k') /\ w' = set_clusters (<[quota.(uq_ClusterName) := k']> w.(w_clusters)) w.

Definition keeps_authorizer w w1 : Prop := w1.(w_authorizer) = w.(w_authorizer).
Definition taken_back (user id : string) (c : gmap string string) (q : UserQuota) (c' : gmap string string) : Prop :=
  quota_at c id = Some q /\ (user = Administrator \/ q.(uq_UserName) = user) /\
  q.(uq_Status) <> StatusUserQuotaProcessing /\ c' = delete id c.

Lemma Delete_step now user id w r w' :
  Delete user id w = (r, w') ->
  match r with
  | Ok _ => quota_change now user (kv_content w.(w_quotas)) (kv_content w'.(w_quotas)) /\
      exists quota, quota_at (kv_content w.(w_quotas)) id = Some quota /\
        w'.(w_authorizer) = if String.eqb quota.(uq_ClusterName) "" then w.(w_authorizer)
          else change_projects quota.(uq_UserName)
                 (remove_project (mkProject quota.(uq_ClusterName) quota.(uq_Namespace))) w.(w_authorizer)
  | Err _ => kv_content w'.(w_quotas) = kv_content w.(w_quotas) /\ w'.(w_authorizer) = w.(w_authorizer)
  end.
Proof.
  unfold Delete. intros [[Hu Hr]|(_ & -> & ->)]%bind_guard_inv; [|done].
  match type of Hr with bind (with_quota_tx ?b) _ _ = _ => assert (Hb : body_ok b (taken_back user id) keeps_authorizer) end.
  { apply body_read; [done|]. intros q t w0 r0 t' w0' Hq Hrun.
    apply bind_guard_inv in Hrun as [[Hown Hrun]|(_ & -> & [= -> ->])]; [|done].
    apply bind_guard_inv in Hrun as [[Hst Hrun]|(_ & -> & [= -> ->])]; [|done].
    assert (Hown' : user = Administrator \/ uq_UserName q = user).
    { apply orb_prop in Hown as [?%isAdmin_iff|?%String.eqb_eq]; auto. }
    assert (Hst' : uq_Status q <> StatusUserQuotaProcessing) by by destruct (String.eqb_spec (uq_Status q) StatusUserQuotaProcessing).
    assert (Htail : forall w1, bind (on_tx (tx_delete id)) (fun _ => ret q) (t, w1) = (r0, (t', w0')) ->
      tx_base t' = tx_base t /\ w0' = w1 /\ match r0 with Ok a => taken_back user id (tx_content t) a (tx_content t') | Err _ => True end).
    { intros w1 Hd. apply bind_on_tx in Hd as (r1 & t1 & Ht & Hd). apply tx_delete_law in Ht as [Hb Hp].
      destruct r1 as [[]|e]; [|by destruct Hd as [-> [= -> ->]]]. unfold ret in Hd. by simplify_eq/=. }
    destruct (String.eqb (uq_ClusterName q) "").
    - apply Htail in Hrun as (? & -> & ?). done.
    - apply bind_cases in Hrun as [([] & [t1 w1] & Hc & Hrun)|(e & Hc & ->)]; unfold on_world, zoom in Hc;
        destruct (on_client _ _ _ _) as [r1 w2] eqn:Hon; simpl in Hc; simplify_eq;
        apply on_client_inv in Hon as [(_ & ? & ->)|(k & k' & _ & _ & ->)]; try done.
      apply Htail in Hrun as (? & -> & ?). done. }
  apply bind_cases in Hr as [(q & w1 & Hr & Hrest)|(e & Hr & ->)];
    apply (with_quota_tx_spec _ _ _ _ _ _ Hb) in Hr as [(w2 & d & HQ & ->) HP]; try done.
  unfold keeps_authorizer in HQ. destruct HP as (Hq & Hown & Hst & Hc).
  assert (Hch : quota_change now user (kv_content (w_quotas w)) (kv_content d)).
  { simpl in Hc. rewrite Hc. exists id. rewrite Hq. unfold quota_at at 1. rewrite lookup_delete_eq.
    split; [by apply step_take_back|]. split; [done|]. intros other Hne. by rewrite lookup_delete_ne. }
  destruct (String.eqb (uq_ClusterName q) "") eqn:Hcl; unfold ret, modify in Hrest; simplify_eq/=;
    (split; [done|]; exists q; rewrite Hcl; split; [done|]); [done|by rewrite HQ].
Qed.

(** *** Approval *)

Lemma set_clusters_same w : set_clusters w.(w_clusters) w = w.
Proof. by destruct w. Qed.

Lemma approval_step now id input w r w' :
  approval now id input w = (r, w') ->
  match r with
  | Ok _ => exists cluster quota old k k', input = Some cluster /\ cluster <> "" /\
      quota_at (kv_content w.(w_quotas)) id = Some quota /\ quota.(uq_Status) = StatusUserQuotaProcessing /\
      w.(w_clusters) !! cluster = Some k /\ prepare quota k = (Ok old, k') /\
      w'.(w_clusters) = <[cluster := k']> w.(w_clusters) /\
      (exists v, marshal (setUserQuotaByAdmin quota cluster "" StatusUserQuotaApproval now) = Some v /\
         kv_content w'.(w_quotas) = <[id := v]> (kv_content w.(w_quotas))) /\
      w'.(w_authorizer) =
        match old with
        | None => change_projects quota.(uq_UserName) (fun l => l ++ [mkProject cluster quota.(uq_Namespace)]) w.(w_authorizer)
        | Some _ => w.(w_authorizer)
        end
  | Err _ => kv_content w'.(w_quotas) = kv_content w.(w_quotas) /\ w'.(w_authorizer) = w.(w_authorizer)
  end.
Proof.
  unfold approval. destruct input as [cluster|]; [|by intros [= <- <-]].
  intros [[Hcl Hr]|(_ & -> & ->)]%bind_guard_inv; [|done].
  assert (Hne : cluster <> "") by by destruct (String.eqb_spec cluster "").
  apply bind_cases in Hr as [([] & w1 & Hc & Hr)|(e & Hc & ->)];
    apply on_client_inv in Hc as [(_ & Herr & ->)|(k & k1 & Hk & Hm & ->)]; unfold ret in *; simplify_eq; [|done].
  rewrite (insert_id _ _ _ Hk), set_clusters_same in Hr.
  destruct (kv_begin (w_quotas w)) as [[t|e] d] eqn:Hb.
  2: { simplify_eq. simpl. split; [by eapply kv_begin_err|done]. }
  apply kv_begin_ok in Hb as [Hct Hbt].
  destruct (getUserQuotaFromDB id t) as [rq t1] eqn:Hg. apply getUserQuota_effect in Hg as [Hb1 Hg].
  destruct rq as [quota|e]; [|simplify_eq; simpl; by rewrite tx_rollback_law, Hb1].
  destruct Hg as [Hc1 Hq]. rewrite Hct in Hq.
  destruct (String.eqb_spec (uq_Status quota) StatusUserQuotaProcessing) as [Hst|_]; simpl in Hr.
  2: { simplify_eq. simpl. by rewrite tx_rollback_law, Hb1. }
  destruct (on_client NotFound cluster (prepare quota) w) as [rp w2] eqn:Hp.
  apply on_client_inv in Hp as [(Hnone & _)|(k' & k2 & Hk' & Hp & ->)]; [congruence|].
  assert (k' = k1) as -> by congruence.
  destruct rp as [old|e]; [|simplify_eq; simpl; by rewrite tx_rollback_law, Hb1].
  set (quota' := setUserQuotaByAdmin quota cluster "" StatusUserQuotaApproval now) in *.
  destruct (marshal quota') as [v|] eqn:Hv; [|simplify_eq; simpl; by rewrite tx_rollback_law, Hb1].
  assert (Hundo : forall w3, (snd (on_client NotFound cluster (rollbackResource (uq_Namespace quota') old) w3)).(w_authorizer) = w3.(w_authorizer)).
  { intros w3. destruct (on_client NotFound cluster (rollbackResource _ _) w3) as [ru w4] eqn:Hu.
    by apply on_client_inv in Hu as [(_ & _ & ->)|(? & ? & _ & _ & ->)]. }
  destruct (tx_update id v t1) as [ru t2] eqn:Hup. apply tx_update_law in Hup as [Hb2 Hup].
  destruct ru as [[]|e]; [|simplify_eq; simpl; rewrite tx_rollback_law; split; [congruence|by rewrite Hundo]].
  destruct (tx_commit t2) as [[[]|e] d2] eqn:Hcm.
  2: { apply tx_commit_err in Hcm. simplify_eq. simpl. split; [congruence|by rewrite Hundo]. }
  apply tx_commit_ok in Hcm. destruct Hup as [_ Hup]. simplify_eq. exists cluster, quota, old, k1, k2.
  split; [done|]. split; [done|]. split; [done|]. split; [done|]. split; [done|]. split; [done|].
  split; [by destruct old|]. split; [|by destruct old]. exists v. split; [done|].
  destruct old; simpl; congruence.
Qed.

(** *** All requests *)

Lemma quota_change_ok now user m m' : quotas_ok m -> quota_change now user m m' -> quotas_ok m'.
Proof.
  intros Hok (id & Hs & Hn & Ho) id' q Hq. destruct (decide (id' = id)) as [->|Hne].
  2: { apply Hok. unfold quota_at in *. by rewrite <- Ho. }
  rewrite Hq in Hs. remember (quota_at m id) as o eqn:Hold. remember (Some q) as o' eqn:Hnew.
  destruct Hs; simplify_eq; simpl; try done; try (by apply Hok).
  match goal with H : uq_Namespace ?q = uq_Namespace ?old |- _ => rewrite H; by apply Hok end.
Qed.

Lemma read_tx_quiet {A} (m : M Tx kv_error A) w r w' :
  tx_effect m (fun c _ c' => c' = c /\ True) -> read_tx m w = (r, w') ->
  kv_content w'.(w_quotas) = kv_content w.(w_quotas) /\ w'.(w_authorizer) = w.(w_authorizer).
Proof.
  intros Hm. unfold read_tx. destruct (with_tx_read m (w_quotas w)) as [r1 d] eqn:Hr.
  apply (with_tx_read_spec _ (fun _ _ => True)) in Hr as [Hc _]; [|done]. by intros [= <- <-].
Qed.

Lemma reads_quiet now user rq w r w' :
  match rq with QGet _ | QList => True | _ => False end -> handle now user rq w = (r, w') ->
  kv_content w'.(w_quotas) = kv_content w.(w_quotas) /\ w'.(w_authorizer) = w.(w_authorizer).
Proof.
  destruct rq as [| | |id| |]; try done; intros _; cbn [handle].
  - intros Hr. apply bind_cases in Hr as [(q & w1 & Hg & [= <- <-])|(e & Hg & _)]; unfold Get in Hg;
      apply bind_cases in Hg as [(q' & w2 & Hg & Hk)|(e' & Hg & _)];
      (apply read_tx_quiet in Hg as [? ?]; [|eapply tx_effect_weaken; [apply getUserQuota_effect|naive_solver]]); try done;
      apply bind_guard_inv in Hk as [[_ Hk]|(_ & ? & ->)]; unfold ret in *; by simplify_eq.
  - intros Hr. apply bind_cases in Hr as [(q & w1 & Hg & [= <- <-])|(e & Hg & _)]; unfold List in Hg;
      apply bind_cases in Hg as [(q' & w2 & Hg & Hk)|(e' & Hg & _)];
      (apply read_tx_quiet in Hg as [? ?]; [|eapply tx_effect_weaken;
         [eapply tx_effect_bind; [apply tx_list_law|intros; apply tx_effect_lift]|naive_solver]]); try done;
      unfold ret in *; by simplify_eq.
Qed.

Lemma Action_inv now user id name input w r w' :
  Action now user id name input w = (r, w') ->
  (user = Administrator /\ ((exists c, approval now id c w = (r, w')) \/ (exists c, reject now id c w = (r, w')))) \/
  (w' = w /\ exists e, r = Err e).
Proof.
  unfold Action. intros [[Ha%isAdmin_iff Hr]|(_ & -> & ->)]%bind_guard_inv; [|right; split; [done|by eexists]].
  destruct (String.eqb name ActionApproval); [left; split; [done|left; by eexists]|].
  destruct (String.eqb name ActionRejection); [left; split; [done|right; by eexists]|].
  unfold throw in Hr. simplify_eq. right. split; [done|by eexists].
Qed.

(** C6. The states of the requests: whatever a request to the handler is and whichever of its
    calls fail, the table stays as it is or exactly one entry of it makes one allowed
    step, on behalf of the user who asked; a failing request leaves the table alone. *)
Theorem quota_requests_refine now user rq w r w' :
  quotas_ok (kv_content w.(w_quotas)) -> handle now user rq w = (r, w') ->
  quotas_ok (kv_content w'.(w_quotas)) /\
  (kv_content w'.(w_quotas) = kv_content w.(w_quotas) \/
   is_ok r = true /\ quota_change now user (kv_content w.(w_quotas)) (kv_content w'.(w_quotas))).
Proof.
  intros Hok Hr.
  assert (Hgoal : kv_content w'.(w_quotas) = kv_content w.(w_quotas) \/
    is_ok r = true /\ quota_change now user (kv_content w.(w_quotas)) (kv_content w'.(w_quotas))).
  { destruct rq as [q|id q|id|id| |id name input].
    - apply bind_cases in Hr as [(a & w1 & Hc & [= <- <-])|(e & Hc & ->)]; apply Create_step in Hc as [_ Hc]; auto.
    - apply bind_cases in Hr as [(a & w1 & Hc & [= <- <-])|(e & Hc & ->)]; apply (Update_step now) in Hc as [_ Hc]; specialize (Hc Hok); auto.
    - apply (Delete_step now) in Hr. destruct r; naive_solver.
    - left. by eapply (reads_quiet now user (QGet id)).
    - left. by eapply (reads_quiet now user QList).
    - apply Action_inv in Hr as [(-> & [[c Hr]|[c Hr]])|(-> & e & ->)]; [| |by left].
      + apply approval_step in Hr. destruct r as [a|e]; [|by left; destruct Hr]. right. split; [done|].
        destruct Hr as (cl & q & old & k & k' & _ & Hcl & Hq & Hst & _ & _ & _ & (v & Hv & ->) & _).
        eapply quota_change_insert; [exact Hv|by rewrite Hq|]. rewrite Hq. by apply step_approve.
      + apply reject_step in Hr as [_ Hr]. destruct r; auto. }
  split; [|done]. destruct Hgoal as [->|[_ Hch]]; [done|by eapply quota_change_ok].
Qed.

(** C32. Only the administrator gives access: no request of another user lets anyone act
    anywhere that person could not act before. *)
Theorem quota_requests_grant_nothing now user rq w r w' name cluster namespace :
  user <> Administrator -> handle now user rq w = (r, w') ->
  Authorize name cluster namespace w'.(w_authorizer) = true ->
  Authorize name cluster namespace w.(w_authorizer) = true.
Proof.
  intros Hne Hr. destruct rq as [q|id q|id|id| |id aname input].
  - apply bind_cases in Hr as [(a & w1 & Hc & [= <- <-])|(e & Hc & ->)]; apply Create_step in Hc as [Hq _]; destruct Hq as [d ->]; done.
  - apply bind_cases in Hr as [(a & w1 & Hc & [= <- <-])|(e & Hc & ->)]; apply (Update_step now) in Hc as [Hq _]; destruct Hq as [d ->]; done.
  - apply (Delete_step now) in Hr. destruct r as [a|e]; [|by destruct Hr as [_ ->]].
    destruct Hr as (_ & q & _ & ->). destruct (String.eqb _ ""); [done|]. apply removal_grants_nothing.
  - by apply (reads_quiet now user (QGet id)) in Hr as [_ ->].
  - by apply (reads_quiet now user QList) in Hr as [_ ->].
  - apply Action_inv in Hr as [(-> & _)|(-> & _)]; done.
Qed.
End Facts.

(** ** What an approval makes *)

Section Approval.
Context `{Quantities} {DB K : Type} `{KvTable DB} `{Json UserQuota} `{Json AuthUser}.
Context `{!KubeKind K K8sNamespace} `{!KubeKind K K8sResourceQuota}.
Context `{!KvLaws DB} `{!JsonLaws UserQuota} `{!JsonText UserQuota} `{!JsonLaws AuthUser}.
Context `{!KubeLaws K K8sNamespace} `{!KubeLaws K K8sResourceQuota}.
Context `{!KubeFrame K K8sNamespace K8sResourceQuota} `{!KubeFrame K K8sResourceQuota K8sNamespace}.
Implicit Types (w : World DB K) (k : K).

Definition has_namespace (namespace : string) k : Prop := is_Some (kube_objects (Obj := K8sNamespace) k !! ("", namespace)).

(** The namespace has a quota of its own name with that storage and no other limit. *)
Definition has_storage_quota (quota : UserQuota) k : Prop :=
  exists o q, kube_objects k !! (quota.(uq_Namespace), quota.(uq_Namespace)) = Some o /\
    ParseQuantity quota.(uq_Storage) = Some q /\ o.(kq_Hard) = {[ "requests.storage" := q ]}.

Lemma storage_limits s hard :
  scQuotaResourceListToK8sResourceList {[ "requests.storage" := s ]} = Ok hard ->
  exists q, ParseQuantity s = Some q /\ hard = {[ "requests.storage" := q ]}.
Proof.
  unfold scQuotaResourceListToK8sResourceList. rewrite map_to_list_singleton. cbn [limits_loop].
  rewrite (quota_resources_lower "requests.storage") by (vm_compute; set_solver).
  destruct (ParseQuantity s) as [q|]; [|done]. intros [= <-]. by exists q.
Qed.

Lemma updateResourceQuota_effect namespace limits k old k' :
  updateResourceQuota namespace limits k = (Ok old, k') ->
  same_kind K8sNamespace k k' /\
  exists hard o, scQuotaResourceListToK8sResourceList limits = Ok hard /\ o.(kq_Hard) = hard /\
    kube_objects k' !! (namespace, namespace) = Some o.
Proof.
  unfold updateResourceQuota, getResourceQuota. intros Hr.
  apply bind_inv_ok in Hr as (q & k1 & Hg & Hr). unfold rethrow in Hg.
  destruct (kube_get namespace namespace k) as [[q'|e] k1'] eqn:Hg'; simplify_eq/=.
  pose proof (frame_get (B := K8sNamespace) (A := K8sResourceQuota) namespace namespace k) as Hf1. rewrite Hg' in Hf1.
  apply kube_get_law in Hg' as (_ & _ & Hkey).
  apply bind_inv_ok in Hr as (hard & k2 & Hl & Hr). unfold lift in Hl. simplify_eq.
  apply bind_inv_ok in Hr as (o & k3 & Hu & Hr). unfold rethrow in Hu.
  match type of Hu with (let (_, _) := kube_update ?o ?k in _) = _ =>
    pose proof (frame_update (B := K8sNamespace) o k) as Hf2; destruct (kube_update o k) as [[o'|e] k3'] eqn:Hup; simplify_eq/= end.
  unfold ret in Hr. simplify_eq. apply kube_update_law in Hup as (Hk & Hs & _ & Hobj). simpl in Hs, Hf1, Hf2.
  split; [unfold same_kind in *; congruence|]. exists hard, o. split; [done|]. split; [done|].
  rewrite Hobj. simpl.
  match goal with |- <[?a := _]> _ !! ?b = _ => replace b with a by congruence end.
  by rewrite lookup_insert_eq.
Qed.

Lemma prepare_effect quota k old k' :
  prepare quota k = (Ok old, k') ->
  has_namespace quota.(uq_Namespace) k' /\ has_storage_quota quota k' /\
  (forall other, other <> quota.(uq_Namespace) ->
     kube_objects (Obj := K8sNamespace) k' !! ("", other) = kube_objects k !! ("", other)) /\
  (old = None <-> ~ has_namespace quota.(uq_Namespace) k).
Proof.
  unfold prepare, hasNamespace, getNamespace. rewrite bind_assoc, bind_attempt.
  destruct (kube_get "" (uq_Namespace quota) k) as [rg k1] eqn:Hg.
  apply kube_get_law in Hg as [Hk1 Hg]. unfold ret at 1. cbn [bind fst snd].
  change (bind (ret (is_ok rg)) ?f k1) with (f (is_ok rg) k1). destruct rg as [ns|e]; simpl.
  - intros Hr. apply bind_inv_ok in Hr as (q & k2 & Hu & Hr). unfold ret in Hr. simplify_eq. unfold rethrow in Hu.
    destruct (updateResourceQuota _ _ k1) as [[q'|e] k2'] eqn:Hup; simplify_eq/=.
    apply updateResourceQuota_effect in Hup as (Hsame & hard & o & Hl & Ho & Hobj).
    apply storage_limits in Hl as (x & Hx & ->). unfold same_kind in *.
    assert (Hns : kube_objects (Obj := K8sNamespace) k' = kube_objects k) by congruence. destruct Hg as [Hg _].
    split; [unfold has_namespace; rewrite Hns; by exists ns|]. split; [by exists o, x|].
    split; [by rewrite Hns|]. split; [done|]. intros Hn. destruct Hn. by exists ns.
  - intros Hr. apply bind_inv_ok in Hr as ([] & k2 & Hc & Hr). unfold rethrow in Hc.
    destruct (createNamespace _ k1) as [[[]|e'] k2'] eqn:Hcn; [|discriminate Hc]. injection Hc as ->.
    unfold createNamespace in Hcn. apply bind_inv_ok in Hcn as (ns & k2' & Hcn & Hret). injection Hret as ->.
    apply kube_create_law in Hcn as (Hkey & _ & Hnone & Hobj). simpl in Hkey, Hnone, Hobj.
    rewrite bind_attempt in Hr. destruct (createResourceQuota _ _ k2) as [rq k3] eqn:Hq. cbn [fst snd] in Hr.
    assert (Hf : same_kind K8sNamespace k2 k3).
    { unfold createResourceQuota, bind, lift, rethrow, ret in Hq.
      destruct (scQuotaResourceListToK8sResourceList _) as [hard|]; [|by injection Hq as <- <-].
      match type of Hq with context [kube_create ?o ?k] => pose proof (frame_create (B := K8sNamespace) o k) as Hf end.
      destruct (kube_create _ k2) as [[o|e2] k4]; by injection Hq as <- <-. }
    destruct rq as [[]|e2]; [|by rewrite bind_attempt in Hr]. injection Hr as <- <-.
    apply createResourceQuota_effect in Hq as (hard & o & Hl & Ho & _ & Hobjq).
    apply storage_limits in Hl as (x & Hx & ->). unfold same_kind in *. rewrite Hf in *. simpl in Hobjq.
    split; [|split; [|split]].
    + unfold has_namespace. rewrite Hf, Hobj, lookup_insert_eq. by eexists.
    + exists o, x. split; [by rewrite Hobjq, lookup_insert_eq|done].
    + intros other Hne. rewrite Hobj, lookup_insert_ne by congruence. by rewrite Hk1.
    + split; [|done]. intros _ [ns' Hns']. rewrite Hk1 in Hnone. congruence.
Qed.

(** C11. An approval is all or nothing for the table and the permissions, and after one that
    works the request is approved for that cluster, the namespace is there with the storage
    asked for as its limit, and no other namespace was touched.  If the namespace is new and the
    user who asked has an account, that user may act in it, and elsewhere only as before; if
    the namespace was there before or there is no such account, no permission changes
    ([QuotaExamples.approval_of_existing_namespace]).  Nobody else may do anything new.  After
    one that fails the table and the permissions are as they were. *)
Theorem approval_complete now id input w r w' :
  approval now id input w = (r, w') ->
  match r with
  | Err _ => kv_content w'.(w_quotas) = kv_content w.(w_quotas) /\ w'.(w_authorizer) = w.(w_authorizer)
  | Ok _ => exists cluster quota k k',
      input = Some cluster /\ quota_at (kv_content w.(w_quotas)) id = Some quota /\
      quota_at (kv_content w'.(w_quotas)) id = Some (setUserQuotaByAdmin quota cluster "" StatusUserQuotaApproval now) /\
      w.(w_clusters) !! cluster = Some k /\ w'.(w_clusters) = <[cluster := k']> w.(w_clusters) /\
      has_namespace quota.(uq_Namespace) k' /\ has_storage_quota quota k' /\
      (forall other, other <> quota.(uq_Namespace) ->
         kube_objects (Obj := K8sNamespace) k' !! ("", other) = kube_objects k !! ("", other)) /\
      (~ has_namespace quota.(uq_Namespace) k -> forall account, w.(w_authorizer).(az_users) !! quota.(uq_UserName) = Some account ->
         forall c ns, Authorize quota.(uq_UserName) c ns w'.(w_authorizer) = true <->
           Authorize quota.(uq_UserName) c ns w.(w_authorizer) = true \/ grants [mkProject cluster quota.(uq_Namespace)] c ns) /\
      (has_namespace quota.(uq_Namespace) k \/ w.(w_authorizer).(az_users) !! quota.(uq_UserName) = None ->
         w'.(w_authorizer) = w.(w_authorizer)) /\
      forall name c ns, name <> quota.(uq_UserName) ->
        Authorize name c ns w'.(w_authorizer) = Authorize name c ns w.(w_authorizer)
  end.
Proof.
  intros Hr. apply approval_step in Hr. destruct r as [a|e]; [|done].
  destruct Hr as (cluster & quota & old & k & k' & Hin & _ & Hq & _ & Hk & Hp & Hks & (v & Hv & Hd) & Ha).
  exists cluster, quota, k, k'. apply prepare_effect in Hp as (Hns & Hst & Hother & Hold).
  split; [done|]. split; [done|]. split; [rewrite Hd; by apply quota_insert|]. do 5 (split; [done|]). split; [|split].
  - intros Hnew u Hu c ns. apply Hold in Hnew as ->. rewrite Ha, !Authorize_spec, change_projects_users, Hu.
    cbn [az_users]. rewrite lookup_insert_eq. split.
    + intros [?|(x & [= <-] & p & Hin' & Hg)]; [by left; left|]. cbn [au_Projects] in Hin'. apply elem_of_app in Hin' as [Hin'|Hin'].
      * left. right. exists u. split; [done|]. by exists p.
      * right. by exists p.
    + intros [[?|(x & [= <-] & p & Hin' & Hg)]|(p & Hin' & Hg)]; [by left|right..]; eexists; (split; [done|]); exists p;
        (split; [apply elem_of_app; by (left + right)|done]).
  - intros [Hex|Hno]; rewrite Ha; destruct old as [o|]; try done; [by destruct (proj1 Hold eq_refl)|].
    unfold change_projects, GetUser. by rewrite Hno.
  - intros name c ns Hne. rewrite Ha. destruct old; [done|]. unfold Authorize. rewrite change_projects_users.
    destruct (az_users (w_authorizer w) !! uq_UserName quota); [|done]. by rewrite lookup_insert_ne.
Qed.
End Approval.
