(* ===== verification/Kinds.v ===== *)
(** The kinds of resources that the server serves (pkg/types), what they are below, the order
    in which pkg/handler/app.go registers them, and which of their requests the permission
    check in front of the handlers decides. *)
From S2P Require Import Prelude KvStore Authorizer RestApi KubeApi Namespace.

(** ** The kinds *)

Inductive Kind :=
  Cluster | Alarm | Node | PodNetwork | NodeNetwork | ServiceNetwork | BlockDevice | Namespace | Chart | ConfigMap | CronJob | DaemonSet | Deployment
  | Ingress | Job | LimitRange | PersistentVolumeClaim | PersistentVolume | ResourceQuota | Secret | Service | StatefulSet | Pod | UDPIngress | StorageClass
  | InnerService | OuterService | KubeConfig | FluentBitConfig | SvcMeshWorkload | SvcMeshPod | Metric | WorkFlow | WorkFlowTask | AuditLog | UserQuota
  | Application | Monitor | EFK | Registry | Threshold | Storage | User | HorizontalPodAutoscaler | Tap.
#[export] Instance Kind_eq_dec : EqDecision Kind.
Proof. solve_decision. Defined.

(** GetParents of every type; a type that has none of its own is a root. *)
Definition GetParents (k : Kind) : list Kind :=
  match k with
  | Cluster | Alarm | AuditLog | UserQuota | Threshold | User => []
  | Node | PodNetwork | NodeNetwork | ServiceNetwork | BlockDevice | Namespace | PersistentVolume | StorageClass | KubeConfig | Monitor | EFK | Registry
  | Storage => [Cluster]
  | FluentBitConfig | Metric => [Deployment; DaemonSet; StatefulSet]
  | Pod => [Deployment; DaemonSet; StatefulSet; Job; CronJob]
  | SvcMeshPod => [SvcMeshWorkload]
  | WorkFlowTask => [WorkFlow]
  | _ => [Namespace]
  end.

(** App.registerRestHandler: the kinds in the order of their imports. *)
Definition registered : list Kind :=
  [Cluster; Alarm; Node; PodNetwork; NodeNetwork; ServiceNetwork; BlockDevice; Namespace; Chart; ConfigMap; CronJob; DaemonSet; Deployment; Ingress; Job;
   LimitRange; PersistentVolumeClaim; PersistentVolume; ResourceQuota; Secret; Service; StatefulSet; Pod; UDPIngress; StorageClass; InnerService;
   OuterService; KubeConfig; FluentBitConfig; SvcMeshWorkload; SvcMeshPod; Metric; WorkFlow; WorkFlowTask; AuditLog; UserQuota; Application; Monitor; EFK;
   Registry; Threshold; Storage; User; HorizontalPodAutoscaler].
(** types.Resources: the kinds whose documentation is generated. *)
Definition Resources : list Kind :=
  [Cluster; Node; PodNetwork; NodeNetwork; ServiceNetwork; BlockDevice; Namespace; Chart; ConfigMap; CronJob; DaemonSet; Deployment; Ingress; Job;
   LimitRange; PersistentVolumeClaim; PersistentVolume; ResourceQuota; Secret; Service; StatefulSet; Pod; UDPIngress; StorageClass; InnerService;
   OuterService; KubeConfig; UserQuota; Application; Monitor; Registry; EFK; User; HorizontalPodAutoscaler; FluentBitConfig; SvcMeshWorkload; SvcMeshPod;
   Threshold; Metric; AuditLog; Storage; WorkFlow; WorkFlowTask].

(** What a resource can be below, the outermost first. *)
Inductive lineage : list Kind -> Kind -> Prop :=
  | lineage_root k : GetParents k = [] -> lineage [] k
  | lineage_below ps p k : p ∈ GetParents k -> lineage ps p -> lineage (ps ++ [p]) k.

(** ** The permission check *)

(** The resource of a request: its kind, its action, and the kinds and names of what it is
    below. *)
Definition ancestor (k : Kind) (id : string) : Ancestor :=
  match k with Cluster => InCluster id | Namespace => InNamespace id | _ => InOther id end.
Definition request_of (k : Kind) (action : option string) (ps : list Kind) (ids : list string) : RestRequest :=
  mkRest (bool_decide (k = User)) action (zip_with ancestor ps ids).

(** The kinds that are in a namespace. *)
Definition namespaced (k : Kind) : bool := match GetParents k with [] | [Cluster] => false | _ => true end.

Lemma lineage_shape ps k : lineage ps k ->
  match GetParents k with [] => ps = [] | [Cluster] => ps = [Cluster] | _ => exists rest, ps = Cluster :: Namespace :: rest end.
Proof.
  induction 1 as [k Hk|ps p k Hp _ IH]; [by rewrite Hk|].
  destruct k; cbn in Hp |- *; repeat (apply elem_of_cons in Hp as [->|Hp]); try (by apply elem_of_nil in Hp); cbn in IH; subst.
  all: try done; try (by eexists); destruct IH as [rest ->]; by eexists.
Qed.
Lemma namespaced_shape ps k : lineage ps k -> if namespaced k then exists rest, ps = Cluster :: Namespace :: rest else ps = [] \/ ps = [Cluster].
Proof. intros Hl%lineage_shape. unfold namespaced. destruct (GetParents k) as [|[] [|]]; auto. Qed.

Section Requests.
Context {DB K : Type} `{KvTable DB} `{Json AuthUser} `{!KvLaws DB} `{!JsonLaws AuthUser}.
Context `{!KubeKind K K8sNamespace} `{!KubeKind K K8sPod} `{!KubeKind K K8sReplicaSet} `{!KubeLaws K K8sNamespace}.

(** Who may ask for something in a namespace of a cluster. *)
Definition may_enter (enableDebug : bool) (user cluster namespace : string) (a : Authorizer DB) : Prop :=
  IsNamespaceVisiable namespace enableDebug = true /\
  (user = Administrator \/ exists u, a.(az_users) !! user = Some u /\ grants u.(au_Projects) cluster namespace).

(** C5. Every request to every kind is checked: but for a login, it takes a user; a request to
    a kind that is in a namespace, however deep, is let through exactly when that namespace of
    that cluster is not a hidden one and the user is the administrator or has a project for it;
    a request to any other kind, that is one at the root or directly below a cluster, is let
    through for every user.  Whether it is let through or not, no cluster and no permission
    changes. *)
Theorem requests_checked enableDebug now ctx k action ps ids (w : World DB K) r w' :
  lineage ps k -> length ids = length ps -> ~ (k = User /\ action = Some "login") ->
  authorizationHandler enableDebug now ctx (request_of k action ps ids) w = (r, w') ->
  (if namespaced k
   then exists cluster namespace rest, ids = cluster :: namespace :: rest /\
     (r = Ok tt <-> exists user, ctx = Some user /\ user <> "" /\ may_enter enableDebug user cluster namespace w.(w_authorizer))
   else r = Ok tt <-> exists user, ctx = Some user /\ user <> "") /\
  w'.(w_clusters) = w.(w_clusters) /\ w'.(w_quotas) = w.(w_quotas) /\
  forall name cluster namespace,
    Authorize name cluster namespace w'.(w_authorizer) = Authorize name cluster namespace w.(w_authorizer).
Proof.
  intros Hl Hids Hlogin Hrun. destruct (authorizationHandler_permits _ _ _ _ _ _ _ Hrun) as [Hok Hsame]. split; [|exact Hsame].
  assert (Hno : is_login (request_of k action ps ids) = false).
  { unfold is_login, request_of. cbn. apply andb_false_iff. destruct (decide (k = User)) as [->|Hk]; [right|left]; apply bool_decide_eq_false; tauto. }
  unfold permitted in Hok. rewrite Hno in Hok. pose proof (namespaced_shape ps k Hl) as Hshape. destruct (namespaced k).
  - destruct Hshape as [rest ->]. destruct ids as [|cluster [|namespace ids]]; [done|done|]. exists cluster, namespace, ids. split; [done|].
    rewrite Hok. unfold request_of, may_enter. cbn. split.
    + intros [|(user & Hc & Hu & Hall)]; [done|]. exists user. split; [done|]. split; [done|]. by apply (Hall _ _ _ eq_refl).
    + intros (user & Hc & Hu & Hmay). right. exists user. split; [done|]. split; [done|]. by intros ? ? ? [= <- <- _].
  - rewrite Hok. split; [intros [|(user & Hc & Hu & _)]; [done|by exists user]|]. intros (user & Hc & Hu). right. exists user. split; [done|]. split; [done|].
    unfold request_of. cbn. by destruct Hshape as [-> | ->], ids as [|? [|]].
Qed.
End Requests.

(** ** The registration *)

(** The kinds before an entry of a list. *)
Definition parents_first (ks : list Kind) : Prop :=
  forall i k, ks !! i = Some k -> forall p, p ∈ GetParents k -> p ∈ take i ks.
Definition parents_first_bool (ks : list Kind) : bool :=
  forallb (fun i => match ks !! i with Some k => forallb (fun p => bool_decide (p ∈ take i ks)) (GetParents k) | None => true end) (seq 0 (length ks)).
Lemma parents_first_reflect ks : parents_first_bool ks = true -> parents_first ks.
Proof.
  unfold parents_first_bool. rewrite forallb_forall. intros Hall i k Hk p Hp. specialize (Hall i). rewrite Hk, forallb_forall in Hall.
  apply (bool_decide_eq_true (p ∈ take i ks)), Hall; [|by apply list_elem_of_In]. apply in_seq. apply lookup_lt_Some in Hk. lia.
Qed.
(** A kind is imported once, after what it can be below; every kind of pkg/types but taps is;
    the documentation leaves alarms out. *)
Lemma kinds_registered : parents_first registered /\ NoDup registered /\
  (forall k, k ∈ registered <-> k <> Tap) /\ (forall k, k ∈ Resources <-> k ∈ registered /\ k <> Alarm).
Proof.
  split; [apply parents_first_reflect; vm_compute; reflexivity|]. split; [apply (bool_decide_unpack _); vm_compute; exact I|].
  split; intros k; (destruct k; split; intros Hk; try done; try (apply (bool_decide_unpack _); vm_compute; exact I);
    exfalso; revert Hk; try (intros [_ Hk]; done); apply (bool_decide_unpack _); vm_compute; exact I).
Qed.
(** A request needs more than a login exactly below these. *)
Lemma login_is_enough k : namespaced k = false <->
  k ∈ [Cluster; Alarm; AuditLog; UserQuota; Threshold; User; Node; PodNetwork; NodeNetwork; ServiceNetwork; BlockDevice; Namespace; PersistentVolume;
       StorageClass; KubeConfig; Monitor; EFK; Registry; Storage].
Proof.
  destruct k; (split; intros Hk; [try done; apply (bool_decide_unpack _); vm_compute; exact I|try reflexivity; exfalso; revert Hk; apply (bool_decide_unpack _); vm_compute; exact I]).
Qed.
