(* ===== verification/QuotaExamples.v ===== *)
(** Concrete runs of the namespace, resource quota and user quota handlers and of the permission
    check, on a cluster in memory, and the instances of the theorems about them. *)
From S2P Require Import Prelude KvStore GoStrings Kinds Authorizer RestApi KubeApi ResourceQuota Namespace UserQuota.

(** Quantities that are texts; the empty one is none. *)
#[export] Instance text_quantities : Quantities := {|
  Quantity := string;
  ParseQuantity s := if String.eqb s "" then None else Some s;
  Quantity_String := id
|}.

(** A cluster in memory and the outcomes of the coming calls. *)
Record FakeCluster := mkFake {
  fk_namespaces : gmap (string * string) K8sNamespace; fk_quotas : gmap (string * string) K8sResourceQuota;
  fk_pods : gmap (string * string) K8sPod; fk_replicasets : gmap (string * string) K8sReplicaSet;
  fk_faults : list bool
}.
Definition fk_pop (k : FakeCluster) : bool * FakeCluster :=
  (default false (head k.(fk_faults)), mkFake k.(fk_namespaces) k.(fk_quotas) k.(fk_pods) k.(fk_replicasets) (tail k.(fk_faults))).

#[export] Instance fake_namespaces : KubeKind FakeCluster K8sNamespace :=
  fake_kind fk_namespaces (fun m k => mkFake m k.(fk_quotas) k.(fk_pods) k.(fk_replicasets) k.(fk_faults)) fk_pop.
#[export] Instance fake_quotas : KubeKind FakeCluster K8sResourceQuota :=
  fake_kind fk_quotas (fun m k => mkFake k.(fk_namespaces) m k.(fk_pods) k.(fk_replicasets) k.(fk_faults)) fk_pop.
#[export] Instance fake_pods : KubeKind FakeCluster K8sPod :=
  fake_kind fk_pods (fun m k => mkFake k.(fk_namespaces) k.(fk_quotas) m k.(fk_replicasets) k.(fk_faults)) fk_pop.
#[export] Instance fake_replicasets : KubeKind FakeCluster K8sReplicaSet :=
  fake_kind fk_replicasets (fun m k => mkFake k.(fk_namespaces) k.(fk_quotas) k.(fk_pods) m k.(fk_faults)) fk_pop.

#[export] Instance fake_namespaces_laws : KubeLaws FakeCluster K8sNamespace.
Proof. by apply fake_laws. Qed.
#[export] Instance fake_quotas_laws : KubeLaws FakeCluster K8sResourceQuota.
Proof. by apply fake_laws. Qed.

Ltac fake_frame := intros; unfold same_kind; simpl; unfold fake_call; simpl;
  repeat (case_match; simplify_eq/=; try done).
#[export] Instance fake_frame_nq : KubeFrame FakeCluster K8sNamespace K8sResourceQuota.
Proof. split; fake_frame. Qed.
#[export] Instance fake_frame_qn : KubeFrame FakeCluster K8sResourceQuota K8sNamespace.
Proof. split; fake_frame. Qed.

#[export] Instance UserQuota_tree : Treeable UserQuota.
Proof.
  apply (iso_tree
    (fun q => ((q.(uq_ID), q.(uq_CreationTimestamp), q.(uq_Name), q.(uq_ClusterName), q.(uq_Namespace), q.(uq_UserName),
       q.(uq_CPU), q.(uq_Memory)), (q.(uq_Storage), q.(uq_RequestType), q.(uq_Status), q.(uq_Purpose), q.(uq_Requestor),
       q.(uq_Telephone), q.(uq_RejectionReason), q.(uq_ResponseTimestamp))))
    (fun '((a, b, c, d, e, f, g, h), (i, j, k, l, m, n, o, p)) => mkUserQuota a b c d e f g h i j k l m n o p)).
  by intros [].
Defined.
#[export] Instance UserQuota_json : Json UserQuota := tree_json _ _.
#[export] Instance UserQuota_json_laws : JsonLaws UserQuota := tree_json_laws _ _.
#[export] Instance UserQuota_json_text : JsonText UserQuota := tree_json_text _ _.

(** A ready cluster, the users admin and ben, and no requests. *)
Definition empty_cluster : FakeCluster := mkFake ∅ ∅ ∅ ∅ [].
Definition world0 : World MemTable FakeCluster := mkWorld {[ "local" := empty_cluster ]} ben_authorizer (mem_table ∅) [].
Definition asked : UserQuota :=
  mkUserQuota "" 0 "" "" "web" "" "2" "4Gi" "10Gi" "" "" "a site" "ben" "" "" 0.
Definition world1 : World MemTable FakeCluster := snd (UserQuota.handle 1 "ben" (QCreate asked) world0).
Definition approve : QuotaRequest := QAction "web" ActionApproval (InputCluster "local").
Definition world2 : World MemTable FakeCluster := snd (UserQuota.handle 2 "admin" approve world1).

Lemma handle_to_eq now user rq (w : World MemTable FakeCluster) :
  UserQuota.handle now user rq w = (fst (UserQuota.handle now user rq w), snd (UserQuota.handle now user rq w)).
Proof. by destruct (UserQuota.handle now user rq w). Qed.

(** The run: ben may act in the namespace only after the approval. *)
Example ben_before : Authorize "ben" "local" "web" world1.(w_authorizer) = false.
Proof. vm_compute. reflexivity. Qed.
Example ben_after : Authorize "ben" "local" "web" world2.(w_authorizer) = true.
Proof. vm_compute. reflexivity. Qed.

Lemma world0_ok : quotas_ok (kv_content world0.(w_quotas)).
Proof. intros id q. unfold quota_at. simpl. by rewrite lookup_empty. Qed.

Lemma quota_requests_refine_witness :
  quotas_ok (kv_content world1.(w_quotas)) /\ fst (UserQuota.handle 1 "ben" (QCreate asked) world0) = Ok tt.
Proof.
  split; [|vm_compute; reflexivity].
  apply (quota_requests_refine 1 "ben" (QCreate asked) world0 _ _ world0_ok (handle_to_eq _ _ _ _)).
Defined.

Lemma quota_requests_grant_nothing_witness :
  Authorize "ben" "local" "default" world0.(w_authorizer) = true.
Proof.
  apply (quota_requests_grant_nothing 1 "ben" (QCreate asked) world0 _ _ "ben" "local" "default" ltac:(discriminate)
    (handle_to_eq _ _ _ _)).
  vm_compute. reflexivity.
Defined.

Lemma approval_complete_witness :
  exists k', world2.(w_clusters) !! "local" = Some k' /\ has_namespace "web" k'.
Proof.
  assert (Ha : approval 2 "web" (Some "local") world1 = (Ok tt, world2)) by (vm_compute; reflexivity).
  destruct (approval_complete 2 "web" (Some "local") world1 (Ok tt) world2 Ha)
    as (c & q & k & k' & Hc & Hq & _ & _ & Hks & Hns & _).
  injection Hc as <-. exists k'. split; [rewrite Hks; apply lookup_insert_eq|].
  assert (Hname : quota_at (kv_content world1.(w_quotas)) "web" = Some (setUserQuota asked "ben" TypeUserQuotaCreate 1))
    by (vm_compute; reflexivity).
  rewrite Hname in Hq. injection Hq as <-. exact Hns.
Defined.

(** ** Namespaces *)

Definition list_pods : RestRequest := mkRest false None [InCluster "local"; InNamespace "default"].

Lemma authorizationHandler_permits_witness :
  fst (authorizationHandler false 1 (Some "ben") list_pods world0) = Ok tt.
Proof.
  apply (authorizationHandler_permits false 1 (Some "ben") list_pods world0
    (fst (authorizationHandler false 1 (Some "ben") list_pods world0))
    (snd (authorizationHandler false 1 (Some "ben") list_pods world0))).
  - by destruct (authorizationHandler false 1 (Some "ben") list_pods world0).
  - right. exists "ben". split; [reflexivity|]. split; [discriminate|]. intros c ns rest [= <- <- <-].
    split; [reflexivity|]. right. eexists. split; [vm_compute; reflexivity|].
    exists (mkProject "local" "default"). split; [left|]. simpl. auto.
Defined.

Definition web_cluster : FakeCluster := mkFake {[ ("", "web") := mkK8sNamespace "web" 0 None ]} ∅ ∅ ∅ [].
Definition web_world : World MemTable FakeCluster := mkWorld {[ "local" := web_cluster ]} ben_authorizer (mem_table ∅) [].

Lemma Delete_namespace_witness :
  (snd (Namespace.Delete false "admin" "local" "web" web_world)).(w_deleted) = ["web"].
Proof.
  assert (Hd : Namespace.Delete false "admin" "local" "web" web_world =
               (Ok tt, snd (Namespace.Delete false "admin" "local" "web" web_world))) by (vm_compute; reflexivity).
  destruct (Delete_namespace false "admin" "local" "web" web_world _ _ Hd) as (_ & _ & _ & _ & _ & Hp & _).
  exact Hp.
Defined.

(** A namespace whose quota cannot be read is deleted although a user has it. *)
Definition faulty_world : World MemTable FakeCluster :=
  mkWorld {[ "local" := web_cluster ]} ben_authorizer (mkMem {[ "web" := "{}" ]} [false; true]) [].
Lemma unread_quota_is_ignored :
  fst (Namespace.Delete false "admin" "local" "web" faulty_world) = Ok tt /\
  kv_content faulty_world.(w_quotas) !! "web" = Some "{}".
Proof. split; vm_compute; reflexivity. Qed.

(** Approving a request for a namespace that is there gives the user no access to it. *)
Definition taken_cluster : FakeCluster :=
  mkFake {[ ("", "web") := mkK8sNamespace "web" 0 None ]} {[ ("web", "web") := mkK8sQuota "web" "web" ∅ ∅ ∅ "" 0 None ]} ∅ ∅ [].
Definition taken_world : World MemTable FakeCluster :=
  set_clusters {[ "local" := taken_cluster ]} world1.
Lemma approval_of_existing_namespace :
  fst (UserQuota.handle 2 "admin" approve taken_world) = Ok tt /\
  Authorize "ben" "local" "web" (snd (UserQuota.handle 2 "admin" approve taken_world)).(w_authorizer) = false.
Proof. split; vm_compute; reflexivity. Qed.

(** ** Resource quotas *)

Definition cpu_quota : ResourceQuota := mkResourceQuota "" "limits" {[ "limits.cpu" := "2" ]} ∅ ∅ 0 None.

Lemma resource_quota_round_trip_witness :
  exists created got ks' ks'',
    ResourceQuota.Create "local" "web" cpu_quota {[ "local" := empty_cluster ]} = (Ok created, ks') /\
    ResourceQuota.Get "local" "web" "limits" ks' = (Ok got, ks'') /\ got.(rq_Limits) !! "limits.cpu" = Some "2".
Proof.
  set (r1 := ResourceQuota.Create "local" "web" cpu_quota {[ "local" := empty_cluster ]}).
  set (r2 := ResourceQuota.Get "local" "web" "limits" (snd r1)).
  destruct r1 as [[created|e] ks'] eqn:H1; [|apply (f_equal (fun x => is_ok (fst x))) in H1; vm_compute in H1; discriminate H1].
  destruct r2 as [[got|e] ks''] eqn:H2;
    [|apply (f_equal (fun x => is_ok (fst x))) in H2; subst r2; simpl in H2;
      assert (Hs : ks' = snd r1) by (subst r1; by rewrite H1); rewrite Hs in H2; vm_compute in H2; discriminate H2].
  exists created, got, ks', ks''. split; [reflexivity|]. split; [exact H2|].
  destruct (resource_quota_round_trip "local" "web" cpu_quota {[ "local" := empty_cluster ]} ks' ks'' created got) as (_ & _ & Hl).
  - intros n [v Hv]. change (({[ "limits.cpu" := "2" ]} : gmap string string) !! n = Some v) in Hv.
    apply lookup_singleton_Some in Hv as [<- _]. vm_compute. do 2 right. left.
  - exact H1.
  - exact H2.
  - rewrite Hl. vm_compute. reflexivity.
Defined.

(** ** Kinds *)

(** The pods of a deployment. *)
Definition pods_of : list Kind := [Kinds.Cluster; Kinds.Namespace; Kinds.Deployment].
Lemma pods_lineage : lineage pods_of Kinds.Pod.
Proof.
  apply (lineage_below [Kinds.Cluster; Kinds.Namespace] Kinds.Deployment); [left|].
  apply (lineage_below [Kinds.Cluster] Kinds.Namespace); [left|]. apply (lineage_below [] Kinds.Cluster); [left|]. by apply lineage_root.
Qed.
Definition pods_request (namespace : string) : RestRequest := request_of Kinds.Pod None pods_of ["local"; namespace; "web"].
Lemma requests_checked_witness :
  fst (authorizationHandler false 1 (Some "ben") (pods_request "default") world0) = Ok tt.
Proof.
  destruct (requests_checked false 1 (Some "ben") Kinds.Pod None pods_of ["local"; "default"; "web"] world0 _ _ pods_lineage eq_refl
    ltac:(intros [? ?]; discriminate) (surjective_pairing _)) as [(c & ns & rest & Hids & Hok) _].
  injection Hids as <- <- _. apply Hok. exists "ben". split; [reflexivity|]. split; [discriminate|]. split; [reflexivity|]. right.
  eexists. split; [vm_compute; reflexivity|]. exists (mkProject "local" "default"). split; [left|]. simpl. auto.
Defined.
Example other_namespaces_refused : fst (authorizationHandler false 1 (Some "ben") (pods_request "web") world0) = Err PermissionDenied.
Proof. vm_compute. reflexivity. Qed.
(** Nothing but a login is asked of those who delete a volume of a cluster, and their handler
    does not ask who they are. *)
Example anybody_deletes_volumes :
  fst (authorizationHandler false 1 (Some "eve") (request_of Kinds.PersistentVolume None [Kinds.Cluster] ["local"]) world0) = Ok tt.
Proof. vm_compute. reflexivity. Qed.
