(* ===== verification/GlobalDns.v ===== *)
(** Global DNS (pkg/globaldns): for each cluster a zone on a DNS server that has an address
    record for every ingress host of the cluster and every ready edge node.  The names
    (package g53), the server (vanguard) and what is read from a cluster are parameters;
    a name is a name up to capitals, as g53 compares them. *)
From S2P Require Import Prelude KvStore GoStrings.

(** g53.Name: parsing, and whether the first name is in the zone of the second. *)
Class DnsNames := {
  Name : Type;
  #[global] Name_eq_dec :: EqDecision Name;
  NameFromString : string -> option Name;
  IsSubDomain : Name -> Name -> bool
}.

(** An address record: its zone, its name and its address. *)
Record AuthRR `{DnsNames} := mkRR { rr_Zone : Name; rr_Name : Name; rr_Rdata : string }.
#[export] Instance AuthRR_eq_dec `{DnsNames} : EqDecision AuthRR.
Proof. solve_decision. Defined.

(** The commands of the server, and the records it answers with. *)
Class DnsServer (D : Type) `{DnsNames} := {
  cmd_AddAuthZone : Name -> M D unit unit;
  cmd_DeleteAuthZone : Name -> M D unit unit;
  cmd_AddAuthRrs : list AuthRR -> M D unit unit;
  cmd_DeleteAuthRrs : list AuthRR -> M D unit unit;
  cmd_UpdateAuthRrs : list AuthRR -> list AuthRR -> M D unit unit;
  srv_has : D -> AuthRR -> Prop
}.

(** A command that fails changes nothing; a zone that was just added is empty. *)
Definition cmd_effect {D} `{DnsServer D} (m : M D unit unit) (post : (AuthRR -> Prop) -> AuthRR -> Prop) : Prop :=
  forall d r d', m d = (r, d') -> forall x,
    srv_has d' x <-> match r with Ok _ => post (srv_has d) x | Err _ => srv_has d x end.
Class DnsLaws (D : Type) `{DnsServer D} : Prop := {
  add_zone_law z : cmd_effect (cmd_AddAuthZone z) (fun had x => had x /\ x.(rr_Zone) <> z);
  delete_zone_law z : cmd_effect (cmd_DeleteAuthZone z) (fun had x => had x /\ x.(rr_Zone) <> z);
  add_rrs_law l : cmd_effect (cmd_AddAuthRrs l) (fun had x => had x \/ x ∈ l);
  delete_rrs_law l : cmd_effect (cmd_DeleteAuthRrs l) (fun had x => had x /\ x ∉ l);
  update_rrs_law old new : cmd_effect (cmd_UpdateAuthRrs old new) (fun had x => had x /\ x ∉ old \/ x ∈ new)
}.

(** ** The proxy (proxy.go) *)

Section Proxy.
Context {D : Type} `{DnsServer D}.

Definition genAuthRRs (zoneName : Name) (domains : list Name) (ips : list string) : list AuthRR :=
  domains ≫= fun domain => (fun ip => mkRR _ zoneName domain ip) <$> ips.

(** newDnsProxy accepts host:port with a number for the port; its connection is a parameter. *)
Definition valid_cmd_addr (addr : string) : bool :=
  match Split ":"%char addr with
  | [_; port] => bool_decide (is_Some (Atoi port))
  | _ => false
  end.

Definition AddAuthZone (zoneName : Name) : M D unit unit :=
  let! ignored := attempt (cmd_DeleteAuthZone zoneName) in cmd_AddAuthZone zoneName.
Definition DeleteAuthZone (zoneName : Name) : M D unit unit := cmd_DeleteAuthZone zoneName.
Definition AddAuthRRs (zoneName : Name) (domains : list Name) (ips : list string) : M D unit unit :=
  match domains, ips with
  | [], _ | _, [] => ret tt
  | _, _ => cmd_AddAuthRrs (genAuthRRs zoneName domains ips)
  end.
Definition DeleteAuthRRs (zoneName : Name) (domains : list Name) (ips : list string) : M D unit unit :=
  match domains, ips with
  | [], _ | _, [] => ret tt
  | _, _ => cmd_DeleteAuthRrs (genAuthRRs zoneName domains ips)
  end.
Definition UpdateAuthRRs (zoneName : Name) (oldDomains newDomains : list Name) (ips : list string) : M D unit unit :=
  match oldDomains ++ newDomains, ips with
  | [], _ | _, [] => ret tt
  | _, _ => cmd_UpdateAuthRrs (genAuthRRs zoneName oldDomains ips) (genAuthRRs zoneName newDomains ips)
  end.
End Proxy.

(** ** The syncer of a cluster (clusterdnssyncer.go) *)

(** corev1.Node, as far as it is read: the label of edge nodes, the addresses with their
    type and the conditions with their status. *)
Record K8sNode := mkNode {
  nd_edge : bool; nd_Addresses : list (string * string); nd_Conditions : list (string * string)
}.

Definition isNodeReady (n : K8sNode) : bool :=
  existsb (fun c => String.eqb (fst c) "Ready" && String.eqb (snd c) "True") n.(nd_Conditions).
Definition getK8sNodeIP (n : K8sNode) : string :=
  match list_find (fun a => (a.1 = "InternalIP" \/ a.1 = "ExternalIP") /\ a.2 <> "") n.(nd_Addresses) with
  | Some (_, a) => snd a
  | None => ""
  end.

(** What a controller reports; an ingress is the hosts of its rules. *)
Inductive SyncEvent :=
  | NodeCreated (n : K8sNode) | NodeUpdated (old new : K8sNode) | NodeDeleted (n : K8sNode)
  | IngressCreated (hosts : list string) | IngressUpdated (old new : list string) | IngressDeleted (hosts : list string).

Section Syncer.
Context {D : Type} `{DnsServer D}.

Record ClusterDNSSyncer := mkSyncer { sy_zoneName : Name; sy_edgeNodeIPs : list string; sy_ingressDomains : list Name }.
Definition set_ips ips (c : ClusterDNSSyncer) := mkSyncer c.(sy_zoneName) ips c.(sy_ingressDomains).
Definition set_domains ds (c : ClusterDNSSyncer) := mkSyncer c.(sy_zoneName) c.(sy_edgeNodeIPs) ds.

(** The handlers change the syncer first and then send one command, whose error they log:
    the answer is the syncer and the command. *)
Definition Handled : Type := ClusterDNSSyncer * M D unit unit.

Definition addNode (n : K8sNode) (c : ClusterDNSSyncer) : Handled :=
  let nodeIP := getK8sNodeIP n in
  if String.eqb nodeIP "" then (c, ret tt)
  else if existsb (String.eqb nodeIP) c.(sy_edgeNodeIPs) then (c, ret tt)
  else (set_ips (c.(sy_edgeNodeIPs) ++ [nodeIP]) c, AddAuthRRs c.(sy_zoneName) c.(sy_ingressDomains) [nodeIP]).

Definition OnNewNode (n : K8sNode) (c : ClusterDNSSyncer) : Handled :=
  if isNodeReady n then addNode n c else (c, ret tt).

(** The first occurrence is taken out. *)
Fixpoint remove_one {A} `{EqDecision A} (a : A) (l : list A) : list A :=
  match l with
  | [] => []
  | b :: l => if decide (a = b) then l else b :: remove_one a l
  end.

Definition deleteNode (n : K8sNode) (c : ClusterDNSSyncer) : Handled :=
  let nodeIP := getK8sNodeIP n in
  if String.eqb nodeIP "" then (c, ret tt)
  else if existsb (String.eqb nodeIP) c.(sy_edgeNodeIPs) then
    (set_ips (remove_one nodeIP c.(sy_edgeNodeIPs)) c, DeleteAuthRRs c.(sy_zoneName) c.(sy_ingressDomains) [nodeIP])
  else (c, ret tt).

Definition OnUpdateNode (old new : K8sNode) (c : ClusterDNSSyncer) : Handled :=
  if Bool.eqb (isNodeReady new) (isNodeReady old) then (c, ret tt)
  else if isNodeReady new then addNode new c else deleteNode new c.

Definition OnDeleteNode (n : K8sNode) (c : ClusterDNSSyncer) : Handled :=
  if isNodeReady n then deleteNode n c else (c, ret tt).

Definition hasIngressDomain (d : Name) (c : ClusterDNSSyncer) : bool :=
  existsb (fun d' => bool_decide (d' = d)) c.(sy_ingressDomains).

Inductive HostError := HostInvalid | ErrNotInZone.
Definition k8sIngressHostToSCDomain (host : string) (c : ClusterDNSSyncer) : result HostError (Name * bool) :=
  match NameFromString host with
  | None => Err HostInvalid
  | Some d => if IsSubDomain d c.(sy_zoneName) then Ok (d, hasIngressDomain d c) else Err ErrNotInZone
  end.

(** The hosts in the zone that are known, or not, as [known] says; nothing when a host
    cannot be parsed. *)
Fixpoint host_domains (known : bool) (hosts : list string) (c : ClusterDNSSyncer) : option (list Name) :=
  match hosts with
  | [] => Some []
  | host :: hosts =>
      match k8sIngressHostToSCDomain host c with
      | Ok (d, there) => if Bool.eqb there known then cons d <$> host_domains known hosts c else host_domains known hosts c
      | Err ErrNotInZone => host_domains known hosts c
      | Err HostInvalid => None
      end
  end.

Definition OnNewIngress (hosts : list string) (c : ClusterDNSSyncer) : Handled :=
  match host_domains false hosts c with
  | None => (c, ret tt)
  | Some newDomains =>
      (set_domains (c.(sy_ingressDomains) ++ newDomains) c, AddAuthRRs c.(sy_zoneName) newDomains c.(sy_edgeNodeIPs))
  end.

Definition deleteIngressDomains (domains : list Name) (c : ClusterDNSSyncer) : ClusterDNSSyncer :=
  set_domains (foldl (fun l d => remove_one d l) c.(sy_ingressDomains) domains) c.

Definition OnDeleteIngress (hosts : list string) (c : ClusterDNSSyncer) : Handled :=
  match host_domains true hosts c with
  | None => (c, ret tt)
  | Some oldDomains =>
      (deleteIngressDomains oldDomains c, DeleteAuthRRs c.(sy_zoneName) oldDomains c.(sy_edgeNodeIPs))
  end.

(** The hosts of the first rules that are not among those of the second. *)
Definition diffK8sIngressRules (rules1 rules2 : list string) (needExist : bool) (c : ClusterDNSSyncer) : option (list Name) :=
  host_domains needExist (filter (fun h => h ∉ rules2) rules1) c.

Definition OnUpdateIngress (old new : list string) (c : ClusterDNSSyncer) : Handled :=
  match diffK8sIngressRules old new true c with
  | None => (c, ret tt)
  | Some oldDomains =>
      match diffK8sIngressRules new old false c with
      | None => (c, ret tt)
      | Some newDomains =>
          match oldDomains ++ newDomains with
          | [] => (c, ret tt)
          | _ =>
              let c := deleteIngressDomains oldDomains c in
              (set_domains (c.(sy_ingressDomains) ++ newDomains) c,
               UpdateAuthRRs c.(sy_zoneName) oldDomains newDomains c.(sy_edgeNodeIPs))
          end
      end
  end.

(** OnCreate, OnUpdate and OnDelete: nodes without the label are not looked at. *)
Definition on_event (e : SyncEvent) (c : ClusterDNSSyncer) : Handled :=
  match e with
  | NodeCreated n => if n.(nd_edge) then OnNewNode n c else (c, ret tt)
  | NodeUpdated old new => if new.(nd_edge) then OnUpdateNode old new c else (c, ret tt)
  | NodeDeleted n => if n.(nd_edge) then OnDeleteNode n c else (c, ret tt)
  | IngressCreated hosts => OnNewIngress hosts c
  | IngressUpdated old new => OnUpdateIngress old new c
  | IngressDeleted hosts => OnDeleteIngress hosts c
  end.

(** The event, and whether its command worked: the error is only logged. *)
Definition sync {E} (e : SyncEvent) (c : ClusterDNSSyncer) : M D E (ClusterDNSSyncer * bool) :=
  let (c', cmd) := on_event e c in
  let! r := attempt cmd in ret (c', is_ok r).

(** newClusterDNSSyncer: the zone is made, then the edge nodes of the cluster are added;
    the errors of their commands are logged. *)
Definition add_nodes (nodes : list K8sNode) (c : ClusterDNSSyncer) : M D unit ClusterDNSSyncer :=
  foldl (fun m n => let! c := m in
                    let (c', cmd) := OnNewNode n c in
                    let! ignored := attempt (F := unit) cmd in ret c') (ret c) nodes.
Definition newClusterDNSSyncer (zoneName : Name) (nodes : option (list K8sNode)) : M D unit ClusterDNSSyncer :=
  match nodes with
  | None => throw tt
  | Some nodes =>
      do! AddAuthZone zoneName in add_nodes nodes (mkSyncer zoneName [] [])
  end.
End Syncer.

(** ** All clusters (globaldns.go) *)

(** The syncer of each cluster. *)
Abbreviation GlobalDNS := (gmap string ClusterDNSSyncer).

Section GlobalDNS.
Context {D : Type} `{DnsServer D}.

(** What is read of a new cluster: the domain in its configuration (none when it cannot be
    read or decoded) and its edge nodes. *)
Record ClusterRead := mkRead { cr_ClusterDomain : option string; cr_nodes : option (list K8sNode) }.

Definition new_cluster_syncer (clusterName : string) (r : ClusterRead) (g : GlobalDNS) : M D unit GlobalDNS :=
  match g !! clusterName, r.(cr_ClusterDomain) with
  | Some _, _ | _, None => throw tt
  | None, Some clusterDomain =>
      if String.eqb clusterDomain "" then throw tt
      else match NameFromString clusterDomain with
           | None => throw tt
           | Some zoneName =>
               if existsb (fun c => bool_decide (sy_zoneName c = zoneName)) (snd <$> map_to_list g) then throw tt
               else let! syncer := newClusterDNSSyncer zoneName r.(cr_nodes) in
                    ret (<[clusterName := syncer]> g)
           end
  end.

(** The events of the loop, and those of the controllers of the syncers. *)
Inductive DnsEvent :=
  | ClusterCreated (name : string) (r : ClusterRead)
  | ClusterDeleted (name : string)
  | Reported (name : string) (e : SyncEvent).

(** The answer tells whether the command of a controller's event worked. *)
Definition eventLoop_step {E} (e : DnsEvent) (g : GlobalDNS) : M D E (GlobalDNS * bool) :=
  match e with
  | ClusterCreated name r =>
      let! r := attempt (new_cluster_syncer name r g) in
      ret (match r with Ok g' => g' | Err _ => g end, true)
  | ClusterDeleted name =>
      match g !! name with
      | None => ret (g, true)
      | Some syncer =>
          let! ignored := attempt (DeleteAuthZone syncer.(sy_zoneName)) in ret (delete name g, true)
      end
  | Reported name e =>
      match g !! name with
      | None => ret (g, true)
      | Some c => let! p := sync e c in ret (<[name := fst p]> g, snd p)
      end
  end.
End GlobalDNS.

Section Facts.
Context {D : Type} `{DnsServer D} `{!DnsLaws D}.
Implicit Types c : ClusterDNSSyncer.

Lemma elem_of_genAuthRRs z ds ips x :
  x ∈ genAuthRRs z ds ips <-> x.(rr_Zone) = z /\ x.(rr_Name) ∈ ds /\ x.(rr_Rdata) ∈ ips.
Proof.
  unfold genAuthRRs. rewrite list_elem_of_bind. setoid_rewrite list_elem_of_fmap. split.
  - by intros (d & (ip & -> & Hip) & Hd).
  - intros (Hz & Hd & Hip). exists x.(rr_Name). split; [|done]. exists x.(rr_Rdata). split; [|done].
    destruct x. simpl in *. by subst.
Qed.

Lemma AddAuthRRs_effect z ds ips (d d' : D) :
  AddAuthRRs z ds ips d = (Ok tt, d') ->
  forall x, srv_has d' x <-> srv_has d x \/ x ∈ genAuthRRs z ds ips.
Proof.
  unfold AddAuthRRs. destruct ds as [|n ds]; [|destruct ips as [|ip ips]].
  1, 2: intros [= ->] x; rewrite elem_of_genAuthRRs; set_solver.
  intros Hc x. apply (add_rrs_law _ _ _ _ Hc).
Qed.

Lemma DeleteAuthRRs_effect z ds ips (d d' : D) :
  DeleteAuthRRs z ds ips d = (Ok tt, d') ->
  forall x, srv_has d' x <-> srv_has d x /\ x ∉ genAuthRRs z ds ips.
Proof.
  unfold DeleteAuthRRs. destruct ds as [|n ds]; [|destruct ips as [|ip ips]].
  1, 2: intros [= ->] x; rewrite elem_of_genAuthRRs; set_solver.
  intros Hc x. apply (delete_rrs_law _ _ _ _ Hc).
Qed.

Lemma UpdateAuthRRs_effect z old new ips (d d' : D) :
  UpdateAuthRRs z old new ips d = (Ok tt, d') ->
  forall x, srv_has d' x <-> srv_has d x /\ x ∉ genAuthRRs z old ips \/ x ∈ genAuthRRs z new ips.
Proof.
  unfold UpdateAuthRRs. destruct (old ++ new) as [|n ds] eqn:Happ; [|destruct ips as [|ip ips]].
  - apply app_nil in Happ as [-> ->]. intros [= ->] x. rewrite !elem_of_genAuthRRs. set_solver.
  - intros [= ->] x. rewrite !elem_of_genAuthRRs. set_solver.
  - intros Hc x. apply (update_rrs_law _ _ _ _ _ Hc).
Qed.

(** *** Lists *)

Lemma elem_of_remove_one {A} `{EqDecision A} (a b : A) l : NoDup l -> b ∈ remove_one a l <-> b ∈ l /\ b <> a.
Proof.
  induction l as [|x l IH]; intros Hnd; simpl; [set_solver|]. apply NoDup_cons in Hnd as [Hx Hnd].
  destruct (decide (a = x)) as [->|Hne]; [set_solver|]. rewrite !elem_of_cons, IH by done. naive_solver.
Qed.

Lemma NoDup_remove_one {A} `{EqDecision A} (a : A) l : NoDup l -> NoDup (remove_one a l).
Proof.
  induction l as [|x l IH]; intros Hnd; simpl; [done|]. apply NoDup_cons in Hnd as [Hx Hnd].
  destruct (decide (a = x)); [done|]. apply NoDup_cons. rewrite elem_of_remove_one by done. naive_solver.
Qed.

Lemma foldl_remove_one {A} `{EqDecision A} (ds l : list A) :
  NoDup l -> NoDup (foldl (fun l d => remove_one d l) l ds) /\
  forall b, b ∈ foldl (fun l d => remove_one d l) l ds <-> b ∈ l /\ b ∉ ds.
Proof.
  revert l. induction ds as [|d ds IH]; intros l Hnd; simpl; [split; [done|set_solver]|].
  destruct (IH (remove_one d l) (NoDup_remove_one _ _ Hnd)) as [Hnd' Hin]. split; [done|].
  intros b. rewrite Hin, elem_of_remove_one, elem_of_cons by done. naive_solver.
Qed.

Lemma existsb_string_elem s l : existsb (String.eqb s) l = true <-> s ∈ l.
Proof.
  rewrite existsb_exists. setoid_rewrite String.eqb_eq. setoid_rewrite <- list_elem_of_In. naive_solver.
Qed.

Lemma hasIngressDomain_iff d c : hasIngressDomain d c = true <-> d ∈ c.(sy_ingressDomains).
Proof.
  unfold hasIngressDomain. rewrite existsb_exists. setoid_rewrite bool_decide_eq_true.
  setoid_rewrite <- list_elem_of_In. naive_solver.
Qed.

(** The names of a list of hosts differ; so do those an event adds. *)
Definition distinct_hosts (hosts : list string) : Prop := NoDup (omap NameFromString hosts).
Definition distinct_event (e : SyncEvent) : Prop :=
  match e with
  | IngressCreated hosts | IngressUpdated _ hosts => distinct_hosts hosts
  | _ => True
  end.

Lemma host_domains_sublist known hosts c l :
  host_domains known hosts c = Some l -> l `sublist_of` omap NameFromString hosts.
Proof.
  revert l. induction hosts as [|h hosts IH]; intros l Hl; simpl in Hl; [by simplify_eq|].
  unfold k8sIngressHostToSCDomain in Hl. simpl. destruct (NameFromString h) as [d|]; [|done]. simpl.
  destruct (IsSubDomain d _); [|by apply sublist_cons, IH].
  destruct (Bool.eqb _ known); [|by apply sublist_cons, IH].
  destruct (host_domains known hosts c) as [l'|]; simplify_eq/=. apply sublist_skip. by apply IH.
Qed.

Lemma host_domains_known known hosts c l d :
  host_domains known hosts c = Some l -> d ∈ l -> (d ∈ c.(sy_ingressDomains) <-> known = true).
Proof.
  revert l. induction hosts as [|h hosts IH]; intros l Hl Hd; simpl in Hl; [by simplify_eq; apply elem_of_nil in Hd|].
  unfold k8sIngressHostToSCDomain in Hl. destruct (NameFromString h) as [n|]; [|done].
  destruct (IsSubDomain n _); [|by eapply IH].
  destruct (Bool.eqb _ known) eqn:Hk; [|by eapply IH].
  destruct (host_domains known hosts c) as [l'|]; simplify_eq/=. apply elem_of_cons in Hd as [->|Hd]; [|by eapply IH].
  apply Bool.eqb_prop in Hk. by rewrite <- hasIngressDomain_iff, Hk.
Qed.

Lemma host_domains_nodup known hosts c l : distinct_hosts hosts -> host_domains known hosts c = Some l -> NoDup l.
Proof. intros Hd Hl. eapply sublist_NoDup; [exact Hd|by eapply host_domains_sublist]. Qed.

Lemma distinct_filter P `{!forall h, Decision (P h)} hosts : distinct_hosts hosts -> distinct_hosts (filter P hosts).
Proof.
  unfold distinct_hosts. intros Hd. eapply sublist_NoDup; [exact Hd|]. clear Hd.
  induction hosts as [|h hosts IH]; [done|]. rewrite filter_cons. case_decide; simpl; destruct (NameFromString h); simpl.
  - by apply sublist_skip.
  - done.
  - by apply sublist_cons.
  - done.
Qed.

(** *** The records are in step *)

(** The records of the zone are one for every name and address the syncer remembers; what it
    remembers of the cluster is [reflects] below. *)
Record in_step c (d : D) : Prop := {
  is_ips : NoDup c.(sy_edgeNodeIPs);
  is_domains : NoDup c.(sy_ingressDomains);
  is_records x : x.(rr_Zone) = c.(sy_zoneName) ->
    (srv_has d x <-> x.(rr_Name) ∈ c.(sy_ingressDomains) /\ x.(rr_Rdata) ∈ c.(sy_edgeNodeIPs))
}.

(** What a handled event does when its command works. *)
Definition keeps c (h : Handled (D := D)) : Prop :=
  forall d d', in_step c d -> snd h d = (Ok tt, d') ->
    in_step (fst h) d' /\ (fst h).(sy_zoneName) = c.(sy_zoneName) /\
    forall x, x.(rr_Zone) <> c.(sy_zoneName) -> (srv_has d' x <-> srv_has d x).

Lemma keeps_nothing c : keeps c (c, ret tt).
Proof. intros d d' Hs [= ->]. done. Qed.

Lemma addNode_keeps n c : keeps c (addNode n c).
Proof.
  unfold addNode. destruct (String.eqb _ ""); [apply keeps_nothing|].
  destruct (existsb _ (sy_edgeNodeIPs c)) eqn:Hin; [apply keeps_nothing|].
  assert (Hnew : getK8sNodeIP n ∉ sy_edgeNodeIPs c) by (rewrite <- existsb_string_elem; by rewrite Hin).
  intros d d' [Hips Hds Hrec] Hc. pose proof (AddAuthRRs_effect _ _ _ _ _ Hc) as He. clear Hc. simpl. split; [split; simpl|split; [done|]].
  - apply NoDup_app. set_solver by eauto using NoDup_singleton.
  - done.
  - intros x Hz. rewrite He, elem_of_genAuthRRs, Hrec by done. set_solver.
  - intros x Hz. rewrite He, elem_of_genAuthRRs. naive_solver.
Qed.

Lemma deleteNode_keeps n c : keeps c (deleteNode n c).
Proof.
  unfold deleteNode. destruct (String.eqb _ ""); [apply keeps_nothing|].
  destruct (existsb _ (sy_edgeNodeIPs c)); [|apply keeps_nothing].
  intros d d' [Hips Hds Hrec] Hc. pose proof (DeleteAuthRRs_effect _ _ _ _ _ Hc) as He. clear Hc. simpl. split; [split; simpl|split; [done|]].
  - by apply NoDup_remove_one.
  - done.
  - intros x Hz. rewrite He, elem_of_genAuthRRs, Hrec, elem_of_remove_one by done. set_solver.
  - intros x Hz. rewrite He, elem_of_genAuthRRs. naive_solver.
Qed.

Lemma OnNewIngress_keeps hosts c : distinct_hosts hosts -> keeps c (OnNewIngress hosts c).
Proof.
  intros Hd. unfold OnNewIngress. destruct (host_domains false hosts c) as [l|] eqn:Hl; [|apply keeps_nothing].
  pose proof (host_domains_nodup _ _ _ _ Hd Hl) as Hnd.
  assert (Hnew : forall x, x ∈ l -> x ∉ sy_ingressDomains c) by (intros x Hx Hin; by apply (host_domains_known _ _ _ _ x Hl Hx) in Hin).
  intros d d' [Hips Hds Hrec] Hc. pose proof (AddAuthRRs_effect _ _ _ _ _ Hc) as He. clear Hc. simpl. split; [split; simpl|split; [done|]].
  - done.
  - apply NoDup_app. set_solver.
  - intros x Hz. rewrite He, elem_of_genAuthRRs, Hrec by done. set_solver.
  - intros x Hz. rewrite He, elem_of_genAuthRRs. naive_solver.
Qed.

Lemma OnDeleteIngress_keeps hosts c : keeps c (OnDeleteIngress hosts c).
Proof.
  unfold OnDeleteIngress. destruct (host_domains true hosts c) as [l|] eqn:Hl; [|apply keeps_nothing].
  intros d d' [Hips Hds Hrec] Hc. destruct (foldl_remove_one l _ Hds) as [Hnd Hin].
  pose proof (DeleteAuthRRs_effect _ _ _ _ _ Hc) as He. clear Hc. simpl. split; [split; simpl|split; [done|]].
  - done.
  - done.
  - intros x Hz. rewrite He, elem_of_genAuthRRs, Hrec, Hin by done. set_solver.
  - intros x Hz. rewrite He, elem_of_genAuthRRs. naive_solver.
Qed.

Lemma OnUpdateIngress_keeps old new c : distinct_hosts new -> keeps c (OnUpdateIngress old new c).
Proof.
  intros Hnew. unfold OnUpdateIngress, diffK8sIngressRules.
  destruct (host_domains true _ c) as [lo|] eqn:Hlo; [|apply keeps_nothing].
  destruct (host_domains false _ c) as [ln|] eqn:Hln; [|apply keeps_nothing].
  assert (Hgoal : keeps c (set_domains (sy_ingressDomains (deleteIngressDomains lo c) ++ ln) (deleteIngressDomains lo c),
    UpdateAuthRRs (sy_zoneName (deleteIngressDomains lo c)) lo ln (sy_edgeNodeIPs (deleteIngressDomains lo c)))).
  2: { by destruct (lo ++ ln); [apply keeps_nothing|]. }
  pose proof (host_domains_nodup _ _ _ _ (distinct_filter _ _ Hnew) Hln) as Hnd.
  assert (Hfresh : forall x, x ∈ ln -> x ∉ sy_ingressDomains c) by (intros x Hx Hin; by apply (host_domains_known _ _ _ _ x Hln Hx) in Hin).
  intros d d' [Hips Hds Hrec] Hc. destruct (foldl_remove_one lo _ Hds) as [Hnd' Hin].
  pose proof (UpdateAuthRRs_effect _ _ _ _ _ _ Hc) as He. clear Hc. simpl in *. split; [split; simpl|split; [done|]].
  - done.
  - apply NoDup_app. split; [done|]. split; [|done]. intros x Hx Hx'. apply Hin in Hx as [Hx _]. by apply (Hfresh x).
  - intros x Hz. rewrite He, !elem_of_genAuthRRs, Hrec, elem_of_app, Hin by done. naive_solver.
  - intros x Hz. rewrite He, !elem_of_genAuthRRs. naive_solver.
Qed.

Lemma on_event_keeps e c : distinct_event e -> keeps c (on_event e c).
Proof.
  destruct e as [n|old new|n|hosts|old new|hosts]; simpl; intros Hd.
  - unfold OnNewNode. destruct (nd_edge n), (isNodeReady n); auto using keeps_nothing, addNode_keeps.
  - unfold OnUpdateNode. destruct (nd_edge new); [|apply keeps_nothing].
    destruct (Bool.eqb _ _); [apply keeps_nothing|]. destruct (isNodeReady new); auto using addNode_keeps, deleteNode_keeps.
  - unfold OnDeleteNode. destruct (nd_edge n), (isNodeReady n); auto using keeps_nothing, deleteNode_keeps.
  - by apply OnNewIngress_keeps.
  - by apply OnUpdateIngress_keeps.
  - by apply OnDeleteIngress_keeps.
Qed.

(** *** All clusters *)

(** Every syncer is in step, and no two have the same zone. *)
Definition all_in_step (g : GlobalDNS) (d : D) : Prop :=
  (forall name c, g !! name = Some c -> in_step c d) /\
  forall n1 n2 c1 c2, g !! n1 = Some c1 -> g !! n2 = Some c2 -> c1.(sy_zoneName) = c2.(sy_zoneName) -> n1 = n2.

Lemma in_step_frame c (d d' : D) :
  (forall x, x.(rr_Zone) = c.(sy_zoneName) -> (srv_has d' x <-> srv_has d x)) -> in_step c d -> in_step c d'.
Proof. intros Hf [Hi Hd Hr]. split; [done|done|]. intros x Hz. by rewrite Hf, Hr. Qed.

Lemma AddAuthZone_effect z (d d' : D) r :
  AddAuthZone z d = (r, d') ->
  (forall x, x.(rr_Zone) <> z -> (srv_has d' x <-> srv_has d x)) /\
  (r = Ok tt -> forall x, x.(rr_Zone) = z -> ~ srv_has d' x).
Proof.
  unfold AddAuthZone. rewrite bind_attempt. destruct (cmd_DeleteAuthZone z d) as [rd d1] eqn:Hd. simpl. intros Ha.
  pose proof (delete_zone_law _ _ _ _ Hd) as He. pose proof (add_zone_law _ _ _ _ Ha) as He'. simpl in He, He'. split.
  - intros x Hz. rewrite He'. destruct r, rd; rewrite ?He; naive_solver.
  - intros -> x Hz. rewrite He'. naive_solver.
Qed.

(** Without ingress hosts no command is sent. *)
Lemma OnNewNode_empty n c :
  c.(sy_ingressDomains) = [] ->
  snd (OnNewNode (D := D) n c) = ret tt /\ (fst (OnNewNode (D := D) n c)).(sy_ingressDomains) = [].
Proof.
  intros Hc. unfold OnNewNode, addNode. destruct (isNodeReady n); [|done].
  destruct (String.eqb _ ""); [done|]. destruct (existsb _ _); [done|]. simpl. by rewrite Hc.
Qed.

Lemma add_nodes_in_step nodes (m : M D unit ClusterDNSSyncer) c (d d1 : D) :
  m d = (Ok c, d1) -> c.(sy_ingressDomains) = [] -> in_step c d1 ->
  exists c', c' = foldl (fun c n => fst (OnNewNode (D := D) n c)) c nodes /\ foldl (fun m n => let! c := m in
                    let (c', cmd) := OnNewNode n c in
                    let! ignored := attempt (F := unit) cmd in ret c') m nodes d = (Ok c', d1) /\
    in_step c' d1 /\ c'.(sy_zoneName) = c.(sy_zoneName).
Proof.
  revert m c. induction nodes as [|n nodes IH]; intros m c Hm Hc Hs; cbn [foldl]; [by exists c|].
  destruct (OnNewNode_empty n c Hc) as [Hcmd Hds].
  assert (Hkeep : keeps c (OnNewNode n c)).
  { unfold OnNewNode. destruct (isNodeReady n); auto using keeps_nothing, addNode_keeps. }
  destruct (OnNewNode n c) as [c1 cmd] eqn:Hn. cbn [fst snd] in *. subst cmd.
  destruct (Hkeep d1 d1 Hs eq_refl) as (Hs1 & Hz & _). cbn [fst] in Hs1, Hz.
  edestruct (IH (let! c := m in let (c', cmd) := OnNewNode n c in let! ignored := attempt (F := unit) cmd in ret c') c1)
    as (c' & Hfold & Hrun & Hs' & Hz'); [|done|done|].
  - unfold bind at 1. rewrite Hm, Hn. done.
  - exists c'. split; [done|]. split; [exact Hrun|]. split; [done|congruence].
Qed.

Lemma newClusterDNSSyncer_in_step z nodes (d d' : D) r :
  newClusterDNSSyncer z nodes d = (r, d') ->
  (forall x, x.(rr_Zone) <> z -> (srv_has d' x <-> srv_has d x)) /\
  match r with
  | Ok c => in_step c d' /\ c.(sy_zoneName) = z /\
      exists l, nodes = Some l /\ c = foldl (fun c n => fst (OnNewNode (D := D) n c)) (mkSyncer z [] []) l
  | Err _ => nodes = None \/ exists d1, AddAuthZone z d = (Err tt, d1)
  end.
Proof.
  unfold newClusterDNSSyncer. destruct nodes as [nodes|]; [|intros [= <- <-]; split; [done|by left]]. intros Hr.
  apply bind_cases in Hr as [([] & d1 & Ha & Hr)|([] & Ha & ->)]; pose proof Ha as Hadd; apply AddAuthZone_effect in Ha as [Hother Hempty];
    [|split; [done|right; by exists d']].
  assert (Hs : in_step (mkSyncer z [] []) d1).
  { split; simpl; [constructor|constructor|]. intros x Hz. specialize (Hempty eq_refl x Hz). set_solver. }
  destruct (add_nodes_in_step nodes (ret (mkSyncer z [] [])) (mkSyncer z [] []) d1 d1 eq_refl eq_refl Hs) as (c & Hfold & Hrun & Hc & Hz).
  unfold add_nodes in Hr. rewrite Hrun in Hr. injection Hr as <- <-. split; [done|]. split; [done|]. split; [done|]. by exists nodes.
Qed.

Definition distinct_dns_event (e : DnsEvent) : Prop :=
  match e with Reported _ e => distinct_event e | _ => True end.

Lemma eventLoop_in_step e (g g' : GlobalDNS) (d d' : D) :
  all_in_step g d -> distinct_dns_event e ->
  eventLoop_step (E := unit) e g d = (Ok (g', true), d') -> all_in_step g' d'.
Proof.
  intros [Hstep Hzones] He. destruct e as [name r|name|name e]; cbn [eventLoop_step].
  - rewrite bind_attempt. unfold ret. intros [= <- <-]. unfold new_cluster_syncer.
    destruct (g !! name) as [c0|] eqn:Hname; [done|]. destruct (cr_ClusterDomain r) as [dom|]; [|done].
    destruct (String.eqb dom ""); [done|]. destruct (NameFromString dom) as [z|]; [|done].
    destruct (existsb _ _) eqn:Hex; [done|].
    assert (Hfresh : forall n c, g !! n = Some c -> c.(sy_zoneName) <> z).
    { intros n c Hc Hz. apply not_true_iff_false in Hex. apply Hex, existsb_exists. exists c.
      split; [|by apply bool_decide_eq_true]. apply list_elem_of_In, list_elem_of_fmap. exists (n, c).
      split; [done|by apply (elem_of_map_to_list (M := gmap string))]. }
    unfold bind. destruct (newClusterDNSSyncer z (cr_nodes r) d) as [rn d1] eqn:Hn.
    apply newClusterDNSSyncer_in_step in Hn as [Hother Hc].
    assert (Hold : forall n c, g !! n = Some c -> in_step c d1).
    { intros n c Hg. eapply in_step_frame; [|by eapply Hstep]. intros x Hz. apply Hother. rewrite Hz. by eapply Hfresh. }
    destruct rn as [c|]; simpl; [|by split]. destruct Hc as (Hc & Hcz & _). split.
    + intros n c1 [[<- <-]|[_ Hg]]%lookup_insert_Some; [done|by eapply Hold].
    + intros n1 n2 c1 c2 [[<- <-]|[Hn1 Hg1]]%lookup_insert_Some [[<- <-]|[Hn2 Hg2]]%lookup_insert_Some Hz; try done.
      * destruct (Hfresh _ _ Hg2). congruence.
      * destruct (Hfresh _ _ Hg1). congruence.
      * by eapply Hzones.
  - destruct (g !! name) as [c|] eqn:Hname; [|by intros [= <- <-]]. rewrite bind_attempt. unfold ret. intros [= <- <-].
    destruct (DeleteAuthZone (sy_zoneName c) d) as [rd d1] eqn:Hd. simpl.
    pose proof (delete_zone_law _ _ _ _ Hd) as Hdel. simpl in Hdel. split.
    + intros n c1 [Hne Hg]%lookup_delete_Some. eapply in_step_frame; [|by eapply Hstep]. intros x Hz. rewrite Hdel.
      destruct rd; [|done]. split; [tauto|]. intros Hx. split; [done|]. intros Hxz. apply Hne. eapply Hzones; [done..|congruence].
    + intros n1 n2 c1 c2 [_ Hg1]%lookup_delete_Some [_ Hg2]%lookup_delete_Some. by eapply Hzones.
  - destruct (g !! name) as [c|] eqn:Hname; [|by intros [= <- <-]]. unfold sync.
    pose proof (on_event_keeps e c He) as Hkeep. destruct (on_event e c) as [c' cmd]. rewrite bind_assoc, bind_attempt.
    unfold bind, ret. destruct (cmd d) as [rc d1] eqn:Hcmd. simpl. intros [= <- Hrc <-].
    destruct rc as [[]|]; [|done]. destruct (Hkeep d d1 (Hstep _ _ Hname) Hcmd) as (Hs & Hz & Hother). simpl in Hs, Hz. split.
    + intros n c1 [[<- <-]|[Hne Hg]]%lookup_insert_Some; [done|]. eapply in_step_frame; [|by eapply Hstep].
      intros x Hx. apply Hother. rewrite Hx. intros Heq. apply Hne. by eapply Hzones.
    + intros n1 n2 c1 c2 [[<- <-]|[Hn1 Hg1]]%lookup_insert_Some [[<- <-]|[Hn2 Hg2]]%lookup_insert_Some Heq; try done.
      * eapply Hzones; [done..|congruence].
      * eapply Hzones; [done..|congruence].
      * by eapply Hzones.
Qed.

(** *** The clusters themselves *)

(** A cluster as far as it was reported: its edge nodes when it was listed, and the nodes and
    ingresses of the reports since. *)
Record Cluster := mkCluster { cl_nodes : gmap string K8sNode; cl_ingresses : gmap string (list string) }.

(** The address of a node: the first one inside or outside that is not empty. *)
Definition outward (ty : string) : Prop := ty = "InternalIP" \/ ty = "ExternalIP".
Definition address (n : K8sNode) (ip : string) : Prop :=
  ip <> "" /\ exists i ty, n.(nd_Addresses) !! i = Some (ty, ip) /\ outward ty /\
    forall j ty' a, (j < i)%nat -> n.(nd_Addresses) !! j = Some (ty', a) -> outward ty' -> a = "".
Definition ready (n : K8sNode) : Prop := ("Ready", "True") ∈ n.(nd_Conditions).
(** A ready edge node of this address; an ingress with a host of this name in the zone. *)
Definition serves (n : K8sNode) (ip : string) : Prop := n.(nd_edge) = true /\ ready n /\ address n ip.
Definition names (z : Name) (hosts : list string) (d : Name) : Prop :=
  IsSubDomain d z = true /\ exists h, h ∈ hosts /\ NameFromString h = Some d.

(** Some object is so; some object of another name is. *)
Definition among {A X} (P : A -> X -> Prop) (m : gmap string A) (x : X) : Prop := exists k a, m !! k = Some a /\ P a x.
Definition elsewhere {A X} (P : A -> X -> Prop) (m : gmap string A) (k : string) (x : X) : Prop :=
  exists k' a, k' <> k /\ m !! k' = Some a /\ P a x.
Lemma among_split {A X} (P : A -> X -> Prop) (m : gmap string A) k a x : m !! k = Some a -> among P m x <-> P a x \/ elsewhere P m k x.
Proof.
  intros Hk. split; [|intros [HP|(k' & b & _ & Hb & HP)]; [by exists k, a|by exists k', b]].
  intros (k' & b & Hb & HP). destruct (decide (k' = k)) as [->|Hne]; [left; congruence|right; by exists k', b].
Qed.
Lemma elsewhere_insert {A X} (P : A -> X -> Prop) (m : gmap string A) k a x : elsewhere P (<[k := a]> m) k x <-> elsewhere P m k x.
Proof. split; intros (k' & b & Hne & Hb & HP); exists k', b; (split; [done|]); by rewrite lookup_insert_ne in *. Qed.
Lemma among_insert {A X} (P : A -> X -> Prop) (m : gmap string A) k a x : among P (<[k := a]> m) x <-> P a x \/ elsewhere P m k x.
Proof. rewrite (among_split _ _ k a) by apply lookup_insert_eq. by rewrite elsewhere_insert. Qed.
Lemma among_delete {A X} (P : A -> X -> Prop) (m : gmap string A) k x : among P (delete k m) x <-> elsewhere P m k x.
Proof.
  split; [intros (k' & a & [Hne Ha]%lookup_delete_Some & HP); exists k', a; split; [congruence|done]|].
  intros (k' & a & Hne & Ha & HP). exists k', a. by rewrite lookup_delete_ne.
Qed.
Lemma among_fresh {A X} (P : A -> X -> Prop) (m : gmap string A) k x : m !! k = None -> among P m x <-> elsewhere P m k x.
Proof.
  intros Hk. split; [|intros (k' & a & _ & Ha & HP); by exists k', a].
  intros (k' & a & Ha & HP). exists k', a. split; [congruence|done].
Qed.
(** Something created, or reported again as it is. *)
Lemma among_created {A X} (P : A -> X -> Prop) (m : gmap string A) k a x :
  m !! k = None \/ m !! k = Some a -> among P (<[k := a]> m) x <-> among P m x \/ P a x.
Proof. rewrite among_insert. intros [Hk|Hk]; [rewrite (among_fresh _ m k) by done|rewrite (among_split _ m k a) by done]; tauto. Qed.

(** What the program relies on in a cluster: no two ready edge nodes have one address; every
    host of an ingress is a name, no ingress has a name twice and no two ingresses have one
    name. *)
Record plain (cl : Cluster) : Prop := {
  pl_nodes k1 k2 n1 n2 ip : cl.(cl_nodes) !! k1 = Some n1 -> cl.(cl_nodes) !! k2 = Some n2 -> serves n1 ip -> serves n2 ip -> k1 = k2;
  pl_hosts k hosts : cl.(cl_ingresses) !! k = Some hosts -> distinct_hosts hosts /\ Forall (fun h => is_Some (NameFromString h)) hosts;
  pl_ingresses k1 k2 l1 l2 z d : cl.(cl_ingresses) !! k1 = Some l1 -> cl.(cl_ingresses) !! k2 = Some l2 -> names z l1 d -> names z l2 d -> k1 = k2
}.

(** The reports of what happens in a cluster.  An object may be reported as created again, as the
    nodes that were listed are.  While a node is ready, neither its label nor its address
    changes; an ingress that is changed does not spell a name in another way. *)
Inductive reports (cl : Cluster) : SyncEvent -> Cluster -> Prop :=
| reports_node k n :
    cl.(cl_nodes) !! k = None \/ cl.(cl_nodes) !! k = Some n ->
    reports cl (NodeCreated n) (mkCluster (<[k := n]> cl.(cl_nodes)) cl.(cl_ingresses))
| reports_node_update k old new :
    cl.(cl_nodes) !! k = Some old ->
    (ready old -> new.(nd_edge) = old.(nd_edge) /\ forall ip, address new ip <-> address old ip) ->
    reports cl (NodeUpdated old new) (mkCluster (<[k := new]> cl.(cl_nodes)) cl.(cl_ingresses))
| reports_node_delete k n :
    cl.(cl_nodes) !! k = Some n -> reports cl (NodeDeleted n) (mkCluster (delete k cl.(cl_nodes)) cl.(cl_ingresses))
| reports_ingress k hosts :
    cl.(cl_ingresses) !! k = None \/ cl.(cl_ingresses) !! k = Some hosts ->
    reports cl (IngressCreated hosts) (mkCluster cl.(cl_nodes) (<[k := hosts]> cl.(cl_ingresses)))
| reports_ingress_update k old new :
    cl.(cl_ingresses) !! k = Some old ->
    (forall h h', h ∈ old -> h' ∈ new -> NameFromString h = NameFromString h' -> h = h') ->
    reports cl (IngressUpdated old new) (mkCluster cl.(cl_nodes) (<[k := new]> cl.(cl_ingresses)))
| reports_ingress_delete k hosts :
    cl.(cl_ingresses) !! k = Some hosts -> reports cl (IngressDeleted hosts) (mkCluster cl.(cl_nodes) (delete k cl.(cl_ingresses))).

(** The syncer remembers the addresses of the ready edge nodes and the names of the ingresses. *)
Record reflects (cl : Cluster) c : Prop := {
  rf_ips ip : ip ∈ c.(sy_edgeNodeIPs) <-> among serves cl.(cl_nodes) ip;
  rf_domains d : d ∈ c.(sy_ingressDomains) <-> among (names c.(sy_zoneName)) cl.(cl_ingresses) d
}.

Lemma isNodeReady_iff n : isNodeReady n = true <-> ready n.
Proof.
  unfold isNodeReady, ready. rewrite existsb_exists. setoid_rewrite <- list_elem_of_In. split.
  - intros ([a b] & Hin & [Ha%String.eqb_eq Hb%String.eqb_eq]%andb_prop). simpl in *. by subst.
  - intros Hin. by exists ("Ready", "True").
Qed.
Lemma getK8sNodeIP_iff n ip : address n ip <-> getK8sNodeIP n = ip /\ ip <> "".
Proof.
  unfold address, getK8sNodeIP, outward. destruct (list_find _ _) as [[i [ty a]]|] eqn:Hf.
  - apply list_find_Some in Hf as (Hi & [Hty Ha] & Hfirst). simpl in *. split.
    + intros (Hne & i' & ty' & Hi' & Hty' & Hfirst'). split; [|done]. destruct (Nat.lt_trichotomy i i') as [Hlt|[->|Hlt]].
      * by destruct (Ha (Hfirst' i ty a Hlt Hi Hty)).
      * congruence.
      * by destruct (Hfirst i' (ty', ip) Hi' Hlt).
    + intros [-> Hne]. split; [done|]. exists i, ty. split; [done|]. split; [done|]. intros j ty' a' Hj Ha' Hty'.
      destruct (decide (a' = "")); [done|]. by destruct (Hfirst j (ty', a') Ha' Hj).
  - apply list_find_None in Hf. rewrite Forall_forall in Hf. split; [|by intros [<- ?]].
    intros (Hne & i & ty & Hi & Hty & _). by destruct (Hf (ty, ip) (list_elem_of_lookup_2 _ _ _ Hi)).
Qed.

Lemma addNode_remembers n c :
  let c' := fst (addNode (D := D) n c) in
  c'.(sy_zoneName) = c.(sy_zoneName) /\ c'.(sy_ingressDomains) = c.(sy_ingressDomains) /\
  forall ip, ip ∈ c'.(sy_edgeNodeIPs) <-> ip ∈ c.(sy_edgeNodeIPs) \/ address n ip.
Proof.
  unfold addNode. destruct (String.eqb_spec (getK8sNodeIP n) "") as [He|He].
  { split; [done|]. split; [done|]. intros ip. rewrite getK8sNodeIP_iff. naive_solver. }
  destruct (existsb _ _) eqn:Hin; simpl; (split; [done|]); (split; [done|]); intros ip; rewrite getK8sNodeIP_iff.
  - apply existsb_string_elem in Hin. naive_solver.
  - rewrite elem_of_app, list_elem_of_singleton. naive_solver.
Qed.
Lemma deleteNode_remembers n c :
  NoDup c.(sy_edgeNodeIPs) ->
  let c' := fst (deleteNode (D := D) n c) in
  c'.(sy_zoneName) = c.(sy_zoneName) /\ c'.(sy_ingressDomains) = c.(sy_ingressDomains) /\
  forall ip, ip ∈ c'.(sy_edgeNodeIPs) <-> ip ∈ c.(sy_edgeNodeIPs) /\ ~ address n ip.
Proof.
  intros Hnd. unfold deleteNode. destruct (String.eqb_spec (getK8sNodeIP n) "") as [He|He].
  { split; [done|]. split; [done|]. intros ip. rewrite getK8sNodeIP_iff. naive_solver. }
  destruct (existsb _ _) eqn:Hin; simpl; (split; [done|]); (split; [done|]); intros ip; rewrite getK8sNodeIP_iff.
  - rewrite elem_of_remove_one by done. naive_solver.
  - apply not_true_iff_false in Hin. rewrite existsb_string_elem in Hin. naive_solver.
Qed.

Lemma host_domains_spec known hosts c l :
  host_domains known hosts c = Some l ->
  forall d, d ∈ l <-> names c.(sy_zoneName) hosts d /\ (d ∈ c.(sy_ingressDomains) <-> known = true).
Proof.
  unfold names. intros Hl d. split.
  { intros Hd. split; [|by eapply host_domains_known]. revert l Hl Hd. induction hosts as [|h hosts IH]; intros l Hl Hd; simpl in Hl.
    { simplify_eq. by apply elem_of_nil in Hd. }
    unfold k8sIngressHostToSCDomain in Hl. destruct (NameFromString h) as [n|] eqn:Hn; [|done].
    assert (Hrest : forall l, host_domains known hosts c = Some l -> d ∈ l -> IsSubDomain d (sy_zoneName c) = true /\ exists h0, h0 ∈ h :: hosts /\ NameFromString h0 = Some d).
    { intros l0 Hl0 Hd0. destruct (IH l0 Hl0 Hd0) as (Hs & h0 & Hh0 & ?). split; [done|]. exists h0. split; [by right|done]. }
    destruct (IsSubDomain n _) eqn:Hs; [|by eapply Hrest]. destruct (Bool.eqb _ known); [|by eapply Hrest].
    destruct (host_domains known hosts c) as [l'|]; simplify_eq/=. apply elem_of_cons in Hd as [->|Hd]; [|by eapply Hrest].
    split; [done|]. exists h. split; [by left|done]. }
  intros [[Hs (h & Hh & Hn)] Hk]. revert l Hl. induction hosts as [|h0 hosts IH]; intros l Hl; [by apply elem_of_nil in Hh|]. simpl in Hl.
  unfold k8sIngressHostToSCDomain in Hl. destruct (NameFromString h0) as [n|] eqn:Hn0; [|done]. apply elem_of_cons in Hh as [<-|Hh].
  - assert (n = d) as -> by congruence. rewrite Hs in Hl. rewrite <- hasIngressDomain_iff in Hk.
    assert (Bool.eqb (hasIngressDomain d c) known = true) as Heq by (destruct known, (hasIngressDomain d c); naive_solver). rewrite Heq in Hl.
    destruct (host_domains known hosts c) as [l'|]; simplify_eq/=. by left.
  - destruct (IsSubDomain n _); [|by eapply IH]. destruct (Bool.eqb _ known); [|by eapply IH].
    destruct (host_domains known hosts c) as [l'|]; simplify_eq/=. right. by eapply IH.
Qed.
Lemma host_domains_parsed known hosts c : Forall (fun h => is_Some (NameFromString h)) hosts -> is_Some (host_domains known hosts c).
Proof.
  induction 1 as [|h hosts [d Hd] _ [l Hl]]; simpl; [by eexists|]. unfold k8sIngressHostToSCDomain. rewrite Hd, Hl.
  destruct (IsSubDomain d _); [destruct (Bool.eqb (hasIngressDomain d c) known)|]; by eexists.
Qed.

Lemma OnNewIngress_remembers hosts c :
  Forall (fun h => is_Some (NameFromString h)) hosts ->
  let c' := fst (OnNewIngress (D := D) hosts c) in
  c'.(sy_zoneName) = c.(sy_zoneName) /\ c'.(sy_edgeNodeIPs) = c.(sy_edgeNodeIPs) /\
  forall d, d ∈ c'.(sy_ingressDomains) <-> d ∈ c.(sy_ingressDomains) \/ names c.(sy_zoneName) hosts d.
Proof.
  intros Hp. unfold OnNewIngress. destruct (host_domains_parsed false hosts c Hp) as [l Hl]. rewrite Hl. simpl.
  split; [done|]. split; [done|]. intros d. rewrite elem_of_app, (host_domains_spec _ _ _ _ Hl).
  destruct (decide (d ∈ sy_ingressDomains c)); naive_solver.
Qed.
Lemma OnDeleteIngress_remembers hosts c :
  Forall (fun h => is_Some (NameFromString h)) hosts -> NoDup c.(sy_ingressDomains) ->
  let c' := fst (OnDeleteIngress (D := D) hosts c) in
  c'.(sy_zoneName) = c.(sy_zoneName) /\ c'.(sy_edgeNodeIPs) = c.(sy_edgeNodeIPs) /\
  forall d, d ∈ c'.(sy_ingressDomains) <-> d ∈ c.(sy_ingressDomains) /\ ~ names c.(sy_zoneName) hosts d.
Proof.
  intros Hp Hnd. unfold OnDeleteIngress. destruct (host_domains_parsed true hosts c Hp) as [l Hl]. rewrite Hl. simpl.
  split; [done|]. split; [done|]. intros d. rewrite (proj2 (foldl_remove_one l _ Hnd)), (host_domains_spec _ _ _ _ Hl). naive_solver.
Qed.
(** The names of the hosts that are new come for those of the hosts that are gone. *)
Lemma OnUpdateIngress_remembers old new c :
  Forall (fun h => is_Some (NameFromString h)) old -> Forall (fun h => is_Some (NameFromString h)) new -> NoDup c.(sy_ingressDomains) ->
  let c' := fst (OnUpdateIngress (D := D) old new c) in
  let z := c.(sy_zoneName) in
  c'.(sy_zoneName) = z /\ c'.(sy_edgeNodeIPs) = c.(sy_edgeNodeIPs) /\
  forall d, d ∈ c'.(sy_ingressDomains) <->
    d ∈ c.(sy_ingressDomains) /\ ~ names z (filter (fun h => h ∉ new) old) d \/ (d ∉ c.(sy_ingressDomains)) /\ names z (filter (fun h => h ∉ old) new) d.
Proof.
  intros Ho Hn Hnd. unfold OnUpdateIngress, diffK8sIngressRules.
  destruct (host_domains_parsed true (filter (fun h => h ∉ new) old) c) as [lo Hlo].
  { apply Forall_forall. intros h [_ Hh]%list_elem_of_filter. rewrite Forall_forall in Ho. by apply Ho. }
  destruct (host_domains_parsed false (filter (fun h => h ∉ old) new) c) as [ln Hln].
  { apply Forall_forall. intros h [_ Hh]%list_elem_of_filter. rewrite Forall_forall in Hn. by apply Hn. }
  rewrite Hlo, Hln. pose proof (host_domains_spec _ _ _ _ Hlo) as Slo. pose proof (host_domains_spec _ _ _ _ Hln) as Sln.
  assert (Hgoal : forall d, (d ∈ sy_ingressDomains (deleteIngressDomains lo c) \/ d ∈ ln) <->
    d ∈ c.(sy_ingressDomains) /\ ~ names (sy_zoneName c) (filter (fun h => h ∉ new) old) d \/
    (d ∉ c.(sy_ingressDomains)) /\ names (sy_zoneName c) (filter (fun h => h ∉ old) new) d).
  { intros d. unfold deleteIngressDomains. simpl. rewrite (proj2 (foldl_remove_one lo _ Hnd)), Slo, Sln.
    destruct (decide (d ∈ sy_ingressDomains c)); naive_solver. }
  destruct (lo ++ ln) as [|x l] eqn:Happ; simpl; (split; [done|]); (split; [done|]); intros d; rewrite <- Hgoal; [|by rewrite elem_of_app].
  apply app_nil in Happ as [-> ->]. simpl. set_solver.
Qed.

Lemma on_event_reflects e cl cl' c :
  plain cl -> plain cl' -> reports cl e cl' -> NoDup c.(sy_edgeNodeIPs) -> NoDup c.(sy_ingressDomains) ->
  reflects cl c -> reflects cl' (fst (on_event (D := D) e c)).
Proof.
  intros Hpl Hpl' Hr Hips Hds [Rips Rds].
  assert (Hnoone : forall k n ip, cl_nodes cl !! k = Some n -> serves n ip -> ~ elsewhere serves (cl_nodes cl) k ip).
  { intros k n ip Hk Hn (k' & n' & Hne & Hk' & Hn'). apply Hne. by eapply (pl_nodes _ Hpl). }
  destruct Hr as [k n Hk|k old new Hk Hsame|k n Hk|k hosts Hk|k old new Hk Hspell|k hosts Hk]; simpl.
  - assert (Hs : forall ip, serves n ip <-> nd_edge n = true /\ isNodeReady n = true /\ address n ip) by (intros; unfold serves; by rewrite isNodeReady_iff).
    unfold OnNewNode. destruct (addNode_remembers n c) as (Hz & Hd & Ha).
    destruct (nd_edge n), (isNodeReady n); simpl; split; simpl; intros x; rewrite ?Hd, ?Hz, ?Rds; try done; rewrite among_created, <- Rips, Hs by done;
      rewrite ?Ha; naive_solver.
  - assert (Hs : forall n ip, serves n ip <-> nd_edge n = true /\ isNodeReady n = true /\ address n ip) by (intros; unfold serves; by rewrite isNodeReady_iff).
    rewrite <- isNodeReady_iff in Hsame. unfold OnUpdateNode.
    destruct (addNode_remembers new c) as (Hz & Hd & Ha). destruct (deleteNode_remembers new c Hips) as (Hz' & Hd' & Ha').
    assert (Hold : forall ip, ip ∈ sy_edgeNodeIPs c <-> serves old ip \/ elsewhere serves (cl_nodes cl) k ip) by (intros; by rewrite Rips, (among_split _ _ k old)).
    assert (Hno : forall ip, serves old ip -> ~ elsewhere serves (cl_nodes cl) k ip) by eauto.
    split; intros x.
    + assert (Hsame' : isNodeReady old = true -> nd_edge new = nd_edge old /\ (address new x <-> address old x))
        by (intros Hr; destruct (Hsame Hr) as [? Hx]; split; [done|apply Hx]).
      specialize (Hno x). specialize (Hold x). specialize (Ha x). specialize (Ha' x). rewrite Hs in Hno, Hold. simpl. rewrite among_insert, Hs.
      clear Hnoone Hk Hpl Hpl' Rips Rds Hsame Hs.
      destruct (nd_edge new), (isNodeReady new), (isNodeReady old), (nd_edge old); simpl; rewrite ?Ha, ?Ha', ?Hold; clear -Hno Hsame'; intuition congruence.
    + destruct (nd_edge new), (isNodeReady new), (isNodeReady old); simpl; by rewrite ?Hd, ?Hz, ?Hd', ?Hz', ?Rds.
  - assert (Hs : forall ip, serves n ip <-> nd_edge n = true /\ isNodeReady n = true /\ address n ip) by (intros; unfold serves; by rewrite isNodeReady_iff).
    unfold OnDeleteNode. destruct (deleteNode_remembers n c Hips) as (Hz & Hd & Ha).
    split; intros x.
    + pose proof (Hnoone k n x Hk) as Hno. specialize (Ha x). specialize (Rips x). rewrite (among_split _ _ k n) in Rips by done.
      rewrite Hs in Hno, Rips. simpl. rewrite among_delete.
      destruct (nd_edge n), (isNodeReady n); simpl; rewrite ?Ha, Rips; clear -Hno; intuition congruence.
    + destruct (nd_edge n), (isNodeReady n); simpl; by rewrite ?Hd, ?Hz, ?Rds.
  - destruct (pl_hosts _ Hpl' k hosts) as [_ Hp]; [apply lookup_insert_eq|].
    destruct (OnNewIngress_remembers hosts c Hp) as (Hz & Hi & Hd). split; intros x; simpl; [by rewrite Hi, Rips|].
    by rewrite Hz, Hd, among_created, Rds.
  - destruct (pl_hosts _ Hpl k old Hk) as [_ Hp]. destruct (pl_hosts _ Hpl' k new) as [_ Hp']; [apply lookup_insert_eq|].
    destruct (OnUpdateIngress_remembers old new c Hp Hp' Hds) as (Hz & Hi & Hd). split; intros x; simpl; [by rewrite Hi, Rips|].
    rewrite Hz, Hd, among_insert, Rds, (among_split _ _ k old) by done. set (z := sy_zoneName c).
    assert (Hno : names z old x -> ~ elsewhere (names z) (cl_ingresses cl) k x).
    { intros Hx (k' & l & Hne & Hk' & Hl). apply Hne. by eapply (pl_ingresses _ Hpl). }
    assert (Hno' : names z new x -> ~ elsewhere (names z) (cl_ingresses cl) k x).
    { intros Hx. rewrite <- (elsewhere_insert _ _ k new). intros (k' & l & Hne & Hk' & Hl). apply Hne.
      eapply (pl_ingresses _ Hpl'); [exact Hk'|apply lookup_insert_eq|done|done]. }
    assert (Hgone : names z (filter (fun h => h ∉ new) old) x <-> names z old x /\ ~ names z new x).
    { split.
      - intros [Hs (h & [Hn Hh]%list_elem_of_filter & He)]. split; [split; [done|by exists h]|].
        intros [_ (h' & Hh' & He')]. apply Hn. by rewrite (Hspell h h' Hh Hh') by congruence.
      - intros [[Hs (h & Hh & He)] Hn]. split; [done|]. exists h. split; [|done]. apply list_elem_of_filter. split; [|done].
        intros Hin. apply Hn. split; [done|by exists h]. }
    assert (Hnew : names z (filter (fun h => h ∉ old) new) x <-> names z new x /\ ~ names z old x).
    { split.
      - intros [Hs (h & [Hn Hh]%list_elem_of_filter & He)]. split; [split; [done|by exists h]|].
        intros [_ (h' & Hh' & He')]. apply Hn. by rewrite <- (Hspell h' h Hh' Hh) by congruence.
      - intros [[Hs (h & Hh & He)] Hn]. split; [done|]. exists h. split; [|done]. apply list_elem_of_filter. split; [|done].
        intros Hin. apply Hn. split; [done|by exists h]. }
    rewrite Hgone, Hnew. assert (Hdec : names z old x \/ ~ names z old x).
    { destruct (decide (Exists (fun h => NameFromString h = Some x) old)) as [He|He]; rewrite Exists_exists in He;
        destruct (IsSubDomain x z) eqn:Hs; [left|right|right|right]; unfold names; rewrite Hs; naive_solver. }
    assert (Hdec' : names z new x \/ ~ names z new x).
    { destruct (decide (Exists (fun h => NameFromString h = Some x) new)) as [He|He]; rewrite Exists_exists in He;
        destruct (IsSubDomain x z) eqn:Hs; [left|right|right|right]; unfold names; rewrite Hs; naive_solver. }
    tauto.
  - destruct (pl_hosts _ Hpl k hosts Hk) as [_ Hp].
    destruct (OnDeleteIngress_remembers hosts c Hp Hds) as (Hz & Hi & Hd). split; intros x; simpl; [by rewrite Hi, Rips|].
    rewrite Hz, Hd, among_delete, Rds, (among_split _ _ k hosts) by done.
    assert (Hno : names (sy_zoneName c) hosts x -> ~ elsewhere (names (sy_zoneName c)) (cl_ingresses cl) k x); [|tauto].
    intros Hx (k' & l & Hne & Hk' & Hl). apply Hne. by eapply (pl_ingresses _ Hpl).
Qed.

Lemma listed_remembers l c :
  let c' := foldl (fun c n => fst (OnNewNode (D := D) n c)) c l in
  c'.(sy_zoneName) = c.(sy_zoneName) /\ c'.(sy_ingressDomains) = c.(sy_ingressDomains) /\
  forall ip, ip ∈ c'.(sy_edgeNodeIPs) <-> ip ∈ c.(sy_edgeNodeIPs) \/ exists n, n ∈ l /\ ready n /\ address n ip.
Proof.
  revert c. induction l as [|n l IH]; intros c; cbn [foldl].
  { split; [done|]. split; [done|]. intros ip. split; [by left|]. intros [?|(n & Hn & _)]; [done|by apply elem_of_nil in Hn]. }
  assert (Hn : let c1 := fst (OnNewNode (D := D) n c) in
    c1.(sy_zoneName) = c.(sy_zoneName) /\ c1.(sy_ingressDomains) = c.(sy_ingressDomains) /\
    forall ip, ip ∈ c1.(sy_edgeNodeIPs) <-> ip ∈ c.(sy_edgeNodeIPs) \/ ready n /\ address n ip).
  { unfold OnNewNode. setoid_rewrite <- isNodeReady_iff. destruct (addNode_remembers n c) as (Hz & Hd & Ha).
    destruct (isNodeReady n); simpl; [|naive_solver]. split; [done|]. split; [done|]. intros ip. rewrite Ha. naive_solver. }
  destruct Hn as (Hz & Hd & Ha), (IH (fst (OnNewNode n c))) as (Hz' & Hd' & Ha'). split; [congruence|]. split; [congruence|].
  intros ip. rewrite Ha', Ha. setoid_rewrite elem_of_cons. naive_solver.
Qed.
(** The nodes of a list, under their names. *)
Definition listed (nodes : gmap string K8sNode) (l : list K8sNode) : Prop := l ≡ₚ snd <$> map_to_list nodes /\ Forall (fun n => n.(nd_edge) = true) l.
Lemma listed_reflects z nodes l :
  listed nodes l -> reflects (mkCluster nodes ∅) (foldl (fun c n => fst (OnNewNode (D := D) n c)) (mkSyncer z [] []) l).
Proof.
  intros [Hp Hedge]. destruct (listed_remembers l (mkSyncer z [] [])) as (Hz & Hd & Ha). rewrite Forall_forall in Hedge. split; simpl.
  - assert (Hin : forall n, n ∈ l <-> exists k, nodes !! k = Some n).
    { intros n. rewrite Hp, list_elem_of_fmap. split.
      - intros ([k n'] & -> & Hk%elem_of_map_to_list). by exists k.
      - intros [k Hk]. exists (k, n). split; [done|]. by apply elem_of_map_to_list. }
    intros ip. rewrite Ha. split.
    + intros [Hn%elem_of_nil|(n & Hn & Hr & Hi)]; [done|]. specialize (Hedge n Hn). apply Hin in Hn as [k Hk]. by exists k, n.
    + intros (k & n & Hk & _ & Hr & Hi). right. exists n. split; [apply Hin; eauto|done].
  - intros d. rewrite Hd. simpl. split; [by intros ?%elem_of_nil|]. intros (k & a & Hk & _). by rewrite lookup_empty in Hk.
Qed.

(** *** What happens in the clusters, and the loop that hears of it *)

(** A cluster that comes is read, or cannot be; what is reported of one that is known has
    happened in it. *)
Inductive happens (cls : gmap string Cluster) : DnsEvent -> gmap string Cluster -> Prop :=
| happens_created name r nodes l :
    cls !! name = None -> r.(cr_nodes) = Some l -> listed nodes l -> plain (mkCluster nodes ∅) ->
    happens cls (ClusterCreated name r) (<[name := mkCluster nodes ∅]> cls)
| happens_unread name r : r.(cr_nodes) = None -> happens cls (ClusterCreated name r) cls
| happens_deleted name : happens cls (ClusterDeleted name) (delete name cls)
| happens_in name e cl cl' :
    cls !! name = Some cl -> reports cl e cl' -> plain cl' -> happens cls (Reported name e) (<[name := cl']> cls).
(** From the start, the events heard one after another, their commands accepted by the server. *)
Inductive heard : GlobalDNS -> gmap string Cluster -> D -> Prop :=
| heard_nothing d : heard ∅ ∅ d
| heard_event g cls d e g' cls' d' :
    heard g cls d -> happens cls e cls' -> eventLoop_step (E := unit) e g d = (Ok (g', true), d') -> heard g' cls' d'.

(** Every syncer is in step with its cluster. *)
Definition known (g : GlobalDNS) (cls : gmap string Cluster) : Prop :=
  forall name c, g !! name = Some c -> exists cl, cls !! name = Some cl /\ plain cl /\ reflects cl c.

Lemma happens_distinct cls e cls' : happens cls e cls' -> distinct_dns_event e.
Proof.
  intros [| | |name e0 cl cl' _ Hr Hpl]; [done..|]. destruct Hr; try done; simpl;
    by eapply (pl_hosts _ Hpl); simpl; rewrite lookup_insert_eq.
Qed.
Lemma known_step g cls (d : D) e g' cls' d' :
  all_in_step g d -> known g cls -> happens cls e cls' -> eventLoop_step (E := unit) e g d = (Ok (g', true), d') -> known g' cls'.
Proof.
  intros [Hstep _] Hk Hh. destruct Hh as [name r nodes l Hnew Hread Hl Hpl|name r Hread|name|name e0 cl cl' Hcl Hr Hpl']; cbn [eventLoop_step].
  - rewrite bind_attempt. unfold ret. intros [= <- <-]. unfold new_cluster_syncer.
    assert (Hkeep : known g (<[name := mkCluster nodes ∅]> cls)).
    { intros n c Hc. destruct (Hk n c Hc) as (cl & Hcl & ?). exists cl. rewrite lookup_insert_ne by congruence. done. }
    destruct (g !! name) eqn:Hg; [done|]. destruct (cr_ClusterDomain r) as [dom|]; [|done]. destruct (String.eqb dom ""); [done|].
    destruct (NameFromString dom) as [z|]; [|done]. destruct (existsb _ _); [done|]. rewrite Hread.
    unfold bind. destruct (newClusterDNSSyncer z (Some l) d) as [[c|e'] d1] eqn:Hn; [|done].
    apply newClusterDNSSyncer_in_step in Hn as (_ & _ & _ & l' & [= <-] & ->). simpl.
    intros n c [[<- <-]|[Hne Hc]]%lookup_insert_Some; [|by apply Hkeep].
    eexists. split; [apply lookup_insert_eq|]. split; [done|by apply listed_reflects].
  - rewrite bind_attempt. unfold ret. intros [= <- <-]. unfold new_cluster_syncer. rewrite Hread.
    destruct (g !! name); [done|]. destruct (cr_ClusterDomain r) as [dom|]; [|done]. destruct (String.eqb dom ""); [done|].
    destruct (NameFromString dom) as [z|]; [|done]. by destruct (existsb _ _).
  - intros Hd. assert (Hg' : g' = delete name g).
    { destruct (g !! name) as [c|] eqn:Hg; [rewrite bind_attempt in Hd|]; injection Hd as <- <-; [done|by rewrite delete_id]. }
    subst g'. intros n c [Hne Hc]%lookup_delete_Some. destruct (Hk n c Hc) as (cl & Hcl & ?). exists cl. by rewrite lookup_delete_ne.
  - assert (Hkeep : g !! name = None -> known g (<[name := cl']> cls)).
    { intros Hg n c Hc. destruct (Hk n c Hc) as (cl0 & Hcl0 & ?). exists cl0. rewrite lookup_insert_ne by congruence. done. }
    destruct (g !! name) as [c|] eqn:Hg; [|intros [= <- <-]; by apply Hkeep]. unfold sync.
    destruct (Hk name c Hg) as (cl0 & Hcl0 & Hpl & Hrf). assert (cl0 = cl) as -> by congruence. destruct (Hstep name c Hg) as [Hips Hds _].
    pose proof (on_event_reflects e0 cl cl' c Hpl Hpl' Hr Hips Hds Hrf) as Hrf'. destruct (on_event e0 c) as [c' cmd].
    rewrite bind_assoc, bind_attempt. unfold bind, ret. simpl. intros [= <- _ _]. intros n c1 [[<- <-]|[Hne Hc]]%lookup_insert_Some.
    + exists cl'. rewrite lookup_insert_eq. done.
    + destruct (Hk n c1 Hc) as (cl1 & Hcl1 & ?). exists cl1. by rewrite lookup_insert_ne.
Qed.
Lemma heard_known g cls (d : D) : heard g cls d -> all_in_step g d /\ known g cls.
Proof.
  induction 1 as [d|g cls d e g' cls' d' _ [Hs Hk] Hh He].
  - split; [split; intros *; by rewrite lookup_empty|intros n c; by rewrite lookup_empty].
  - split; [by eapply eventLoop_in_step; [..|exact He]; [|by eapply happens_distinct]|by eapply known_step].
Qed.

(** C16. The DNS server answers for what runs in the clusters: after every event that was
    heard, as long as the server accepted the commands, a zone has a record exactly for each
    name of an ingress in it and each address of a ready edge node, and no two clusters share a
    zone.  A cluster that comes gets its zone, when its domain is a name that no other has,
    unless the server refuses it.  The clusters are taken to be [plain] and to change as
    [reports] says: the label and the address of a node stay while it is ready, and no two
    ingresses have one name; [unlabelled_node_is_kept] and [shared_host_is_lost] below are what
    the code does otherwise. *)
Theorem zones_answer g cls (d : D) :
  heard g cls d ->
  (forall name c, g !! name = Some c -> exists cl, cls !! name = Some cl /\
     forall x, x.(rr_Zone) = c.(sy_zoneName) ->
       (srv_has d x <-> among (names c.(sy_zoneName)) cl.(cl_ingresses) x.(rr_Name) /\ among serves cl.(cl_nodes) x.(rr_Rdata))) /\
  (forall n1 n2 c1 c2, g !! n1 = Some c1 -> g !! n2 = Some c2 -> c1.(sy_zoneName) = c2.(sy_zoneName) -> n1 = n2) /\
  (forall name r dom z l g' ok d', g !! name = None -> r.(cr_ClusterDomain) = Some dom -> dom <> "" -> NameFromString dom = Some z ->
     (forall n c, g !! n = Some c -> c.(sy_zoneName) <> z) -> r.(cr_nodes) = Some l ->
     eventLoop_step (E := unit) (ClusterCreated name r) g d = (Ok (g', ok), d') ->
     (exists c, g' = <[name := c]> g /\ c.(sy_zoneName) = z) \/ exists d1, AddAuthZone z d = (Err tt, d1)).
Proof.
  intros [[Hstep Hzones] Hk]%heard_known. split; [|split; [done|]].
  - intros name c Hc. destruct (Hk name c Hc) as (cl & Hcl & _ & [Hips Hds]). exists cl. split; [done|].
    intros x Hx. by rewrite (is_records _ _ (Hstep name c Hc) x Hx), Hips, Hds.
  - intros name r dom z l g' ok d' Hnew Hdom Hne Hz Hfree Hl. cbn [eventLoop_step]. rewrite bind_attempt. unfold ret. intros [= <- <-].
    unfold new_cluster_syncer. rewrite Hnew, Hdom, Hz, Hl. destruct (String.eqb_spec dom ""); [done|].
    destruct (existsb _ _) eqn:Hex.
    { apply existsb_exists in Hex as (c & Hin & Heq%bool_decide_eq_true). apply list_elem_of_In, list_elem_of_fmap in Hin as ([n' c'] & -> & Hin).
      apply elem_of_map_to_list in Hin. by destruct (Hfree n' c'). }
    unfold bind. destruct (newClusterDNSSyncer z (Some l) d) as [[c|e'] d1] eqn:Hn; apply newClusterDNSSyncer_in_step in Hn as [_ Hn].
    + left. exists c. destruct Hn as (_ & Hcz & _). done.
    + destruct Hn as [?|?]; [done|by right].
Qed.
End Facts.

(** ** Examples *)

(** Names that are texts, in a zone when they end with its text; a server that is a list of
    records and never fails. *)
Fixpoint ends_with (s z : string) : bool :=
  String.eqb s z || match s with EmptyString => false | String _ s => ends_with s z end.
#[export] Instance text_names : DnsNames := {|
  Name := string;
  NameFromString s := if String.eqb s "" then None else Some s;
  IsSubDomain := ends_with
|}.

#[export] Instance list_server : DnsServer (list AuthRR) := {|
  cmd_AddAuthZone z := fun d => (Ok tt, filter (fun x => x.(rr_Zone) <> z) d);
  cmd_DeleteAuthZone z := fun d => (Ok tt, filter (fun x => x.(rr_Zone) <> z) d);
  cmd_AddAuthRrs l := fun d => (Ok tt, d ++ l);
  cmd_DeleteAuthRrs l := fun d => (Ok tt, filter (fun x => x ∉ l) d);
  cmd_UpdateAuthRrs old new := fun d => (Ok tt, filter (fun x => x ∉ old) d ++ new);
  srv_has d x := x ∈ d
|}.
#[export] Instance list_server_laws : DnsLaws (list AuthRR).
Proof.
  split; unfold cmd_effect; simpl; intros *; intros [= <- <-] x; rewrite ?elem_of_app, ?list_elem_of_filter; tauto.
Qed.

Definition edge (ip : string) : K8sNode := mkNode true [("InternalIP", ip)] [("Ready", "True")].
Definition local_read : ClusterRead := mkRead (Some "zc.cn") (Some [edge "10.0.0.1"]).

(** The events one after another; the first component tells whether all commands worked. *)
Fixpoint run_events (es : list DnsEvent) (g : GlobalDNS) (d : list AuthRR) : bool * GlobalDNS * list AuthRR :=
  match es with
  | [] => (true, g, d)
  | e :: es =>
      match eventLoop_step (E := unit) e g d with
      | (Ok (g', ok), d') => let '(ok', g'', d'') := run_events es g' d' in (ok && ok', g'', d'')
      | (Err _, d') => (false, g, d')
      end
  end.

Definition dns_state := (snd (fst (run_events [ClusterCreated "local" local_read] ∅ [])), snd (run_events [ClusterCreated "local" local_read] ∅ [])).
Definition web_ingress : DnsEvent := Reported "local" (IngressCreated ["www.zc.cn"]).

Lemma heard_run cls e cls' g (d : list AuthRR) :
  heard g cls d -> happens cls e cls' -> (run_events [e] g d).1.1 = true -> heard (run_events [e] g d).1.2 cls' (run_events [e] g d).2.
Proof.
  intros Hh He. simpl. destruct (eventLoop_step e g d) as [[[g1 ok]|[]] d1] eqn:Hs; simpl; [|done]. rewrite andb_true_r. intros ->.
  by eapply heard_event.
Qed.

(** One edge node, and an ingress with one host. *)
Definition one_node : gmap string K8sNode := {["n1" := edge "10.0.0.1"]}.
Definition web : Cluster := mkCluster one_node {["web" := ["www.zc.cn"]]}.
Definition web_state := run_events [web_ingress] (fst dns_state) (snd dns_state).
Lemma one_node_plain ingresses : (ingresses = ∅ \/ ingresses = {["web" := ["www.zc.cn"]]}) -> plain (mkCluster one_node ingresses).
Proof.
  intros Hi. split; cbn [cl_nodes cl_ingresses].
  - unfold one_node. intros k1 k2 n1 n2 ip [<- _]%lookup_singleton_Some [<- _]%lookup_singleton_Some. done.
  - intros k hosts Hk. destruct Hi as [->| ->]; [done|]. apply lookup_singleton_Some in Hk as [_ <-]. split; [exact (NoDup_singleton "www.zc.cn")|].
    constructor; [by eexists|constructor].
  - intros k1 k2 l1 l2 z x Hk1 Hk2. destruct Hi as [->| ->]; [done|].
    by apply lookup_singleton_Some in Hk1 as [<- _], Hk2 as [<- _].
Qed.
Lemma web_heard : heard (snd (fst web_state)) {["local" := web]} (snd web_state).
Proof.
  assert (Hc : heard (fst dns_state) {["local" := mkCluster one_node ∅]} (snd dns_state)).
  { apply (heard_run ∅ (ClusterCreated "local" local_read) _ ∅ []); [constructor| |vm_compute; reflexivity].
    apply (happens_created ∅ "local" local_read one_node [edge "10.0.0.1"]); [done|done| |apply one_node_plain; by left].
    split; [unfold one_node; by rewrite map_to_list_singleton|by repeat constructor]. }
  assert (Hw : happens {["local" := mkCluster one_node ∅]} web_ingress {["local" := web]}).
  { rewrite <- (insert_singleton_eq (M := gmap string) "local" web (mkCluster one_node ∅)).
    apply (happens_in _ "local" _ (mkCluster one_node ∅)); [apply lookup_singleton_eq| |apply one_node_plain; by right].
    apply (reports_ingress (mkCluster one_node ∅) "web"). by left. }
  apply (heard_run _ _ _ _ _ Hc Hw). vm_compute. reflexivity.
Qed.
Lemma zones_answer_witness : srv_has (snd web_state) (mkRR _ "zc.cn" "www.zc.cn" "10.0.0.1").
Proof.
  destruct (zones_answer _ _ _ web_heard) as [Hz _].
  edestruct (Hz "local") as (cl & Hcl & Hx); [vm_compute; reflexivity|].
  rewrite lookup_singleton_eq in Hcl. injection Hcl as <-. apply Hx; [done|]. split.
  - exists "web", ["www.zc.cn"]. split; [reflexivity|]. split; [reflexivity|]. exists "www.zc.cn". split; [by left|reflexivity].
  - exists "n1", (edge "10.0.0.1"). split; [reflexivity|]. split; [reflexivity|]. split; [by left|]. split; [done|].
    exists 0%nat, "InternalIP". split; [done|]. split; [by left|]. intros j ty' a Hj. lia.
Defined.

(** Two ingresses with one host: deleting the second takes the record of the first. *)
Lemma shared_host_is_lost :
  snd (run_events [ClusterCreated "local" local_read; web_ingress; web_ingress] ∅ []) = [mkRR _ "zc.cn" "www.zc.cn" "10.0.0.1"] /\
  snd (run_events [ClusterCreated "local" local_read; web_ingress; web_ingress; Reported "local" (IngressDeleted ["www.zc.cn"])] ∅ []) = [].
Proof. split; vm_compute; reflexivity. Qed.

(** An ingress that names a host in two rules, and another one that is deleted: the host
    is still known, so that it is not added again, and has no record. *)
Lemma host_in_two_rules_is_lost :
  let '(ok, g, d) := run_events [ClusterCreated "local" local_read; Reported "local" (IngressCreated ["www.zc.cn"; "www.zc.cn"]);
    Reported "local" (IngressDeleted ["www.zc.cn"]); web_ingress] ∅ [] in
  ok = true /\ d = [] /\ sy_ingressDomains <$> g !! "local" = Some ["www.zc.cn"].
Proof. vm_compute. auto. Qed.

(** A node that loses the label of edge nodes keeps its records. *)
Lemma unlabelled_node_is_kept :
  snd (run_events [ClusterCreated "local" local_read; web_ingress;
    Reported "local" (NodeUpdated (edge "10.0.0.1") (mkNode false [("InternalIP", "10.0.0.1")] [("Ready", "True")]));
    Reported "local" (NodeDeleted (mkNode false [("InternalIP", "10.0.0.1")] [("Ready", "True")]))] ∅ []) =
  [mkRR _ "zc.cn" "www.zc.cn" "10.0.0.1"].
Proof. vm_compute. reflexivity. Qed.

(** A node that was ready when the nodes were listed and is not when the reports begin keeps
    its records. *)
Lemma unready_when_reported_is_kept :
  snd (run_events [ClusterCreated "local" local_read; Reported "local" (NodeCreated (mkNode true [("InternalIP", "10.0.0.1")] [("Ready", "False")]));
    web_ingress] ∅ []) = [mkRR _ "zc.cn" "www.zc.cn" "10.0.0.1"].
Proof. vm_compute. reflexivity. Qed.
