(* ===== verification/ConfigMap.v ===== *)
(** Config maps (pkg/handler/configmap_manager.go and pkg/types/configmap.go): named texts,
    to and from Kubernetes. *)
From S2P Require Import Prelude RestApi KubeApi.

Record Config := mkConfig { cf_Name : string; cf_Data : string }.
#[export] Instance Config_eq_dec : EqDecision Config.
Proof. solve_decision. Defined.

(** types.ConfigMap. *)
Record ConfigMap := mkConfigMap {
  cm_ID : string; cm_Name : string; cm_Configs : list Config; cm_CreationTimestamp : Z; cm_DeletionTimestamp : option Z
}.

(** corev1.ConfigMap. *)
Record K8sConfigMap := mkK8sConfigMap {
  km_Namespace : string; km_Name : string; km_Data : gmap string string; km_ResourceVersion : string;
  km_CreationTimestamp : Z; km_DeletionTimestamp : option Z
}.
#[export] Instance K8sConfigMap_object : KubeObject K8sConfigMap := {|
  Spec := gmap string string;
  kube_key o := (o.(km_Namespace), o.(km_Name));
  kube_spec := km_Data;
  kube_deleting o := bool_decide (is_Some o.(km_DeletionTimestamp))
|}.

Inductive config_error := CKube (e : kube_error) | ErrDuplicateKeyInConfigMap | ErrUpdateDeletingConfigMap.
#[export] Instance config_error_eq_dec : EqDecision config_error.
Proof. solve_decision. Defined.

(** The entries in order; a name that comes twice is an error. *)
Fixpoint config_data (configs : list Config) (data : gmap string string) : result config_error (gmap string string) :=
  match configs with
  | [] => Ok data
  | c :: configs =>
      match data !! c.(cf_Name) with
      | Some _ => Err ErrDuplicateKeyInConfigMap
      | None => config_data configs (<[c.(cf_Name) := c.(cf_Data)]> data)
      end
  end.
Definition scConfigMapToK8sConfigMap (cm : ConfigMap) (namespace : string) : result config_error K8sConfigMap :=
  result_bind (config_data cm.(cm_Configs) ∅) (fun data => Ok (mkK8sConfigMap namespace cm.(cm_Name) data "" 0 None)).

(** The entries in the order of a walk over the map. *)
Definition k8sConfigMapToSCConfigMap (k : K8sConfigMap) : ConfigMap :=
  mkConfigMap k.(km_Name) k.(km_Name) ((fun nd => mkConfig nd.1 nd.2) <$> map_to_list k.(km_Data))
    k.(km_CreationTimestamp) k.(km_DeletionTimestamp).

Section ConfigMap.
Context {K : Type} `{!KubeKind K K8sConfigMap}.

Definition getConfigMap (namespace name : string) : M K kube_error K8sConfigMap := kube_get namespace name.
Definition getConfigMaps (namespace : string) : M K kube_error (list K8sConfigMap) := kube_list namespace.
Definition createConfigMap (namespace : string) (cm : ConfigMap) : M K config_error unit :=
  let! k8sConfigMap := lift (scConfigMapToK8sConfigMap cm namespace) in
  do! rethrow CKube (kube_create k8sConfigMap) in ret tt.
Definition set_data (data : gmap string string) (k : K8sConfigMap) : K8sConfigMap :=
  mkK8sConfigMap k.(km_Namespace) k.(km_Name) data k.(km_ResourceVersion) k.(km_CreationTimestamp) k.(km_DeletionTimestamp).
Definition updateConfigMap (namespace : string) (cm : ConfigMap) : M K config_error unit :=
  let! target := rethrow CKube (getConfigMap namespace cm.(cm_ID)) in
  match target.(km_DeletionTimestamp) with
  | Some _ => throw ErrUpdateDeletingConfigMap
  | None =>
      let! k8sConfigMap := lift (scConfigMapToK8sConfigMap cm namespace) in
      do! rethrow CKube (kube_update (set_data k8sConfigMap.(km_Data) target)) in ret tt
  end.
Definition deleteConfigMap (namespace name : string) : M K kube_error unit := kube_delete namespace name.

(** The handlers. *)
Definition create_error (e : config_error) : api_error :=
  match e with CKube KAlreadyExists | ErrDuplicateKeyInConfigMap => DuplicateResource | _ => ConnectClusterFailed end.
Definition update_error (e : config_error) : api_error :=
  match e with CKube KNotFound => NotFound | _ => ConnectClusterFailed end.
Definition read_error (e : kube_error) : api_error := if IsNotFound e then NotFound else ServerError.

Definition Create (cluster namespace : string) (cm : ConfigMap) : M (gmap string K) api_error ConfigMap :=
  on_cluster NotFound cluster
    (do! rethrow create_error (createConfigMap namespace cm) in
     ret (mkConfigMap cm.(cm_Name) cm.(cm_Name) cm.(cm_Configs) cm.(cm_CreationTimestamp) cm.(cm_DeletionTimestamp))).
Definition Update (cluster namespace : string) (cm : ConfigMap) : M (gmap string K) api_error ConfigMap :=
  on_cluster NotFound cluster (do! rethrow update_error (updateConfigMap namespace cm) in ret cm).
Definition List (cluster namespace : string) : M (gmap string K) api_error (list ConfigMap) :=
  on_cluster NotFound cluster
    (let! items := rethrow read_error (getConfigMaps namespace) in ret (k8sConfigMapToSCConfigMap <$> items)).
Definition Get (cluster namespace id : string) : M (gmap string K) api_error ConfigMap :=
  on_cluster NotFound cluster
    (let! k8sConfigMap := rethrow read_error (getConfigMap namespace id) in ret (k8sConfigMapToSCConfigMap k8sConfigMap)).
Definition Delete (cluster namespace id : string) : M (gmap string K) api_error unit :=
  on_cluster NotFound cluster (rethrow read_error (deleteConfigMap namespace id)).
End ConfigMap.

(** ** Facts *)

(** The entries are accepted exactly when their names differ, and the map then holds them
    and nothing else. *)
Lemma config_data_spec configs data data' :
  config_data configs data = Ok data' ->
  NoDup (cf_Name <$> configs) /\ (forall c, c ∈ configs -> data !! c.(cf_Name) = None) /\
  forall n v, data' !! n = Some v <-> data !! n = Some v \/ mkConfig n v ∈ configs.
Proof.
  revert data. induction configs as [|[n v] configs IH]; intros data Hd; simpl in Hd.
  - simplify_eq. split; [constructor|]. set_solver.
  - destruct (data !! n) as [x|] eqn:Hn; [done|]. apply IH in Hd as (Hnd & Hnone & Hin).
    assert (Hother : forall c, c ∈ configs -> n <> cf_Name c /\ data !! cf_Name c = None).
    { intros c Hc. specialize (Hnone c Hc). apply lookup_insert_None in Hnone. tauto. }
    split; [|split].
    + apply NoDup_cons. split; [|done]. intros (c & Hc & Hin')%list_elem_of_fmap. by destruct (Hother c Hin') as [Hne _].
    + intros c [->|Hc]%elem_of_cons; [done|by apply Hother].
    + intros n' v'. rewrite Hin, lookup_insert_Some, elem_of_cons. naive_solver.
Qed.

Lemma config_data_total configs data :
  NoDup (cf_Name <$> configs) -> (forall c, c ∈ configs -> data !! c.(cf_Name) = None) ->
  exists data', config_data configs data = Ok data'.
Proof.
  revert data. induction configs as [|[n v] configs IH]; intros data Hnd Hnone; simpl; [by eexists|].
  pose proof (Hnone (mkConfig n v) ltac:(left)) as Hn. simpl in Hn. rewrite Hn.
  apply NoDup_cons in Hnd as [Hn' Hnd]. apply IH; [done|]. intros c Hc. rewrite lookup_insert_ne; [apply Hnone; by right|].
  intros Heq. apply Hn'. simpl. rewrite Heq. by apply list_elem_of_fmap_2.
Qed.

Lemma config_data_map_to_list (data : gmap string string) :
  config_data ((fun nd => mkConfig nd.1 nd.2) <$> map_to_list data) ∅ = Ok data.
Proof.
  destruct (config_data_total ((fun nd => mkConfig nd.1 nd.2) <$> map_to_list data) ∅) as [data' Hd].
  - rewrite <- list_fmap_compose. simpl. apply NoDup_fst_map_to_list.
  - intros c _. apply lookup_empty.
  - rewrite Hd. apply config_data_spec in Hd as (_ & _ & Hin). f_equal. apply map_eq. intros n.
    apply option_eq. intros v. rewrite Hin, lookup_empty, list_elem_of_fmap. split.
    + intros [|([n' v'] & [= -> ->] & Hin')]; [done|]. by apply elem_of_map_to_list.
    + intros Hv. right. exists (n, v). split; [done|]. by apply elem_of_map_to_list.
Qed.

Section Facts.
Context {K : Type} `{!KubeKind K K8sConfigMap} `{!KubeLaws K K8sConfigMap}.

Lemma createConfigMap_effect namespace cm (k k' : K) r :
  createConfigMap namespace cm k = (r, k') ->
  match r with
  | Ok _ => exists o : K8sConfigMap, (config_data cm.(cm_Configs) ∅ = Ok o.(km_Data)) /\ kube_key o = (namespace, cm.(cm_Name)) /\
      kube_objects k !! (namespace, cm.(cm_Name)) = None /\
      kube_objects k' = <[(namespace, cm.(cm_Name)) := o]> (kube_objects k)
  | Err _ => same_kind K8sConfigMap k k'
  end.
Proof.
  unfold createConfigMap, scConfigMapToK8sConfigMap, bind, lift, rethrow, ret.
  destruct (config_data _ _) as [data|e]; simpl; [|by intros [= <- <-]].
  destruct (kube_create _ k) as [[o|e] k1] eqn:Hc; apply kube_create_law in Hc; intros [= <- <-].
  - destruct Hc as (Hkey & Hspec & Hn & Hk). simpl in *. exists o. by rewrite Hspec.
  - by destruct Hc.
Qed.

Lemma updateConfigMap_effect namespace cm (k k' : K) r :
  updateConfigMap namespace cm k = (r, k') ->
  match r with
  | Ok _ => exists o : K8sConfigMap, (config_data cm.(cm_Configs) ∅ = Ok o.(km_Data)) /\ kube_key o = (namespace, cm.(cm_ID)) /\
      is_Some (kube_objects k !! (namespace, cm.(cm_ID))) /\
      kube_objects k' = <[(namespace, cm.(cm_ID)) := o]> (kube_objects k)
  | Err _ => same_kind K8sConfigMap k k'
  end.
Proof.
  unfold updateConfigMap, getConfigMap, scConfigMapToK8sConfigMap, bind, lift, rethrow, ret, throw.
  destruct (kube_get _ _ k) as [[o|e] k1] eqn:Hg; apply kube_get_law in Hg as [Hk1 Hg]; simpl; [|by intros [= <- <-]].
  destruct Hg as [Ho Hkey]. destruct (km_DeletionTimestamp o); [by intros [= <- <-]|].
  destruct (config_data _ _) as [data|e]; simpl; [|by intros [= <- <-]].
  destruct (kube_update _ k1) as [[o'|e] k2] eqn:Hu; apply kube_update_law in Hu; intros [= <- <-];
    unfold same_kind in *; [|congruence].
  destruct Hu as (Hkey' & Hspec & Hs & Hobj). simpl in Hkey', Hspec, Hs, Hobj. simpl in Hkey. rewrite Hkey in *.
  exists o'. rewrite Hspec. split; [done|]. split; [done|]. split; [by eexists|]. by rewrite Hobj, Hk1.
Qed.
End Facts.
