(* ===== verification/UdpIngress.v ===== *)
(** UDP ingresses (pkg/handler/udpingress_manager.go and pkg/types/udpingress.go): the ports
    of a cluster that the nginx ingress hands to services, kept as the entries
    "port: namespace/service:port" of one config map. *)
From S2P Require Import Prelude GoStrings RestApi KubeApi ConfigMap.

(** types.UDPIngress. *)
Record UDPIngress := mkUDPIngress { ui_ID : string; ui_Port : Z; ui_ServiceName : string; ui_ServicePort : Z }.

Definition NginxIngressNamespace : string := "ingress-nginx".
Definition NginxUDPConfigMapName : string := "udp-services".

Inductive udp_error := UKube (e : kube_error) | UConfig (e : config_error) | UInvalidEntry | UPortUsed.

(** fmt.Sprintf("%s/%s:%d"). *)
Definition service_text (namespace service : string) (port : Z) : string :=
  namespace +:+ "/" +:+ service +:+ ":" +:+ Itoa port.

(** The entry of a config map, and what it says: nothing when it is of another namespace or
    port, an error when it is not of the form. *)
Definition entry_ingress (namespace portStr : string) (c : Config) : result udp_error (option UDPIngress) :=
  match Split ":"%char c.(cf_Data) with
  | [service; svcPort] =>
      match Atoi c.(cf_Name) with
      | None | Some 0 => Err UInvalidEntry
      | Some port =>
          match Split "/"%char service with
          | [ns; svc] =>
              if negb (String.eqb namespace "") && negb (String.eqb ns namespace) then Ok None
              else match Atoi svcPort with
                   | None | Some 0 => Err UInvalidEntry
                   | Some svcPort =>
                       if negb (String.eqb portStr "") && negb (String.eqb c.(cf_Name) portStr) then Ok None
                       else Ok (Some (mkUDPIngress c.(cf_Name) port svc svcPort))
                   end
          | _ => Err UInvalidEntry
          end
      end
  | _ => Err UInvalidEntry
  end.

(** The loop over the entries; with a port it ends at the first match. *)
Fixpoint collect (namespace portStr : string) (configs : list Config) : result udp_error (list UDPIngress) :=
  match configs with
  | [] => Ok []
  | c :: configs =>
      match entry_ingress namespace portStr c with
      | Err e => Err e
      | Ok None => collect namespace portStr configs
      | Ok (Some i) =>
          if negb (String.eqb portStr "") then Ok [i]
          else result_bind (collect namespace portStr configs) (fun l => Ok (i :: l))
      end
  end.

(** The loop of createUDPIngress. *)
Fixpoint check_ports (port : Z) (configs : list Config) : result udp_error unit :=
  match configs with
  | [] => Ok tt
  | c :: configs =>
      match Atoi c.(cf_Name) with
      | None => Err UInvalidEntry
      | Some p => if p =? port then Err UPortUsed else check_ports port configs
      end
  end.

Definition set_configs (configs : list Config) (cm : ConfigMap) : ConfigMap :=
  mkConfigMap cm.(cm_ID) cm.(cm_Name) configs cm.(cm_CreationTimestamp) cm.(cm_DeletionTimestamp).

(** The first entry of that name is taken out. *)
Fixpoint remove_config (name : string) (configs : list Config) : option (list Config) :=
  match configs with
  | [] => None
  | c :: configs => if String.eqb c.(cf_Name) name then Some configs else cons c <$> remove_config name configs
  end.

Section UdpIngress.
Context {K : Type} `{!KubeKind K K8sConfigMap}.

Definition udp_services : M K udp_error ConfigMap :=
  let! k8sCM := rethrow UKube (getConfigMap NginxIngressNamespace NginxUDPConfigMapName) in
  ret (k8sConfigMapToSCConfigMap k8sCM).
Definition write_services (cm : ConfigMap) : M K udp_error unit :=
  rethrow UConfig (updateConfigMap NginxIngressNamespace cm).

Definition createUDPIngress (namespace : string) (ingress : UDPIngress) : M K udp_error unit :=
  let! cm := udp_services in
  do! lift (check_ports ingress.(ui_Port) cm.(cm_Configs)) in
  let service := service_text namespace ingress.(ui_ServiceName) ingress.(ui_ServicePort) in
  write_services (set_configs (cm.(cm_Configs) ++ [mkConfig (Itoa ingress.(ui_Port)) service]) cm).

Definition getTransportLayerIngress (namespace portStr : string) : M K udp_error (list UDPIngress) :=
  let! cm := udp_services in lift (collect namespace portStr cm.(cm_Configs)).

Definition deleteTransportLayerIngress (port : string) : M K udp_error bool :=
  let! cm := udp_services in
  match remove_config port cm.(cm_Configs) with
  | None => ret false
  | Some configs => do! write_services (set_configs configs cm) in ret true
  end.

Definition clearTransportLayerIngress (namespace svcName : string) : M K udp_error unit :=
  let! cm := udp_services in
  let prefix := namespace +:+ "/" +:+ (if String.eqb svcName "" then "" else svcName +:+ ":") in
  let newConfigs := filter (fun c => HasPrefix c.(cf_Data) prefix = false) cm.(cm_Configs) in
  if (length newConfigs =? length cm.(cm_Configs))%nat then ret tt
  else write_services (set_configs newConfigs cm).

(** The handlers. *)
Definition Create (cluster namespace : string) (ingress : UDPIngress) : M (gmap string K) api_error UDPIngress :=
  on_cluster NotFound cluster
    (do! rethrow (fun e => match e with UKube KAlreadyExists | UConfig (CKube KAlreadyExists) => DuplicateResource
                                      | _ => ConnectClusterFailed end)
           (createUDPIngress namespace ingress) in
     ret (mkUDPIngress (Itoa ingress.(ui_Port)) ingress.(ui_Port) ingress.(ui_ServiceName) ingress.(ui_ServicePort))).
Definition List (cluster namespace : string) : M (gmap string K) api_error (list UDPIngress) :=
  on_cluster NotFound cluster (rethrow (fun _ => ServerError) (getTransportLayerIngress namespace "")).
Definition Get (cluster namespace id : string) : M (gmap string K) api_error UDPIngress :=
  on_cluster NotFound cluster
    (let! udpRules := rethrow (fun _ => ServerError) (getTransportLayerIngress namespace id) in
     match udpRules with [i] => ret i | _ => throw NotFound end).
(** The namespace of the request is not looked at. *)
Definition Delete (cluster namespace id : string) : M (gmap string K) api_error unit :=
  on_cluster NotFound cluster
    (let! hasIngress := rethrow (fun _ => ServerError) (deleteTransportLayerIngress id) in
     if hasIngress then ret tt else throw NotFound).

(** The event loop: the errors are logged. *)
Inductive DeleteEvent := NamespaceDeleted (cluster namespace : string) | ServiceDeleted (cluster namespace service : string).
Definition on_delete (e : DeleteEvent) (ks : gmap string K) : gmap string K :=
  match e with
  | NamespaceDeleted cluster namespace =>
      snd (on_cluster UInvalidEntry cluster (clearTransportLayerIngress namespace "") ks)
  | ServiceDeleted cluster namespace service =>
      snd (on_cluster UInvalidEntry cluster (clearTransportLayerIngress namespace service) ks)
  end.
End UdpIngress.

(** ** Facts *)

Lemma check_ports_ok port configs c p :
  check_ports port configs = Ok tt -> c ∈ configs -> Atoi c.(cf_Name) = Some p -> p <> port.
Proof.
  induction configs as [|x configs IH]; simpl; [by intros _ ?%elem_of_nil|].
  destruct (Atoi (cf_Name x)) as [q|] eqn:Hq; [|done]. destruct (Z.eqb_spec q port); [done|].
  intros Hc [->|Hin]%elem_of_cons Hp; [congruence|by apply IH].
Qed.

(** Without a port the loop is a filter of its entries. *)
Definition entry_option (namespace : string) (c : Config) : option UDPIngress :=
  match entry_ingress namespace "" c with Ok o => o | Err _ => None end.
Lemma collect_omap namespace configs l :
  collect namespace "" configs = Ok l -> l = omap (entry_option namespace) configs.
Proof.
  revert l. induction configs as [|c configs IH]; intros l Hl; simpl in Hl; [by simplify_eq|].
  simpl. unfold entry_option at 1. destruct (entry_ingress namespace "" c) as [[i|]|e]; simpl in *; [|by apply IH|done].
  destruct (collect namespace "" configs) as [l'|]; simplify_eq/=. f_equal. by apply IH.
Qed.

(** What createUDPIngress writes is read back. *)
Definition service_name_ok (s : string) : Prop := has_byte ":"%char s = false /\ has_byte "/"%char s = false.

Lemma entry_ingress_service namespace service port svcPort :
  service_name_ok namespace -> service_name_ok service ->
  port <> 0 -> int64_ok port = true -> svcPort <> 0 -> int64_ok svcPort = true ->
  entry_ingress namespace "" (mkConfig (Itoa port) (service_text namespace service svcPort)) =
  Ok (Some (mkUDPIngress (Itoa port) port service svcPort)).
Proof.
  intros [Hn1 Hn2] [Hs1 Hs2] Hp Hpo Hv Hvo. unfold entry_ingress, service_text. simpl cf_Data. simpl cf_Name.
  replace (namespace +:+ "/" +:+ service +:+ ":" +:+ Itoa svcPort)
    with ((namespace +:+ "/" +:+ service) +:+ String ":"%char (Itoa svcPort)) by (by rewrite !str_app_assoc).
  rewrite Split_app by (rewrite !has_byte_app, Hn1, Hs1; done).
  rewrite (Split_no_sep ":"%char (Itoa svcPort)) by by apply has_byte_Itoa.
  rewrite !Atoi_Itoa by done.
  replace (namespace +:+ "/" +:+ service) with (namespace +:+ String "/"%char service) by done.
  rewrite Split_app, Split_no_sep, String.eqb_refl by done.
  rewrite andb_false_r. destruct port, svcPort; done.
Qed.

(** Listing succeeds when every entry is of the form, and shows those of the namespace. *)
Definition entry_ok (namespace : string) (c : Config) : Prop := exists o, entry_ingress namespace "" c = Ok o.
Lemma collect_ok namespace configs l :
  collect namespace "" configs = Ok l -> Forall (entry_ok namespace) configs.
Proof.
  revert l. induction configs as [|c configs IH]; intros l Hl; [constructor|]. simpl in Hl.
  unfold entry_ok. destruct (entry_ingress namespace "" c) as [[i|]|e] eqn:He; [| |done].
  - simpl in Hl. destruct (collect namespace "" configs) as [l'|]; [|done]. constructor; [by eexists|by eapply IH].
  - constructor; [by eexists|by eapply IH].
Qed.
Lemma collect_total namespace configs :
  Forall (entry_ok namespace) configs -> collect namespace "" configs = Ok (omap (entry_option namespace) configs).
Proof.
  induction 1 as [|c configs [o Ho] _ IH]; [done|]. simpl. unfold entry_option at 1. rewrite Ho.
  destruct o; simpl; by rewrite IH.
Qed.

Lemma config_data_app l1 l2 data :
  config_data (l1 ++ l2) data = result_bind (config_data l1 data) (config_data l2).
Proof.
  revert data. induction l1 as [|c l1 IH]; intros data; simpl; [done|]. destruct (data !! cf_Name c); [done|apply IH].
Qed.

Abbreviation configs_of data := ((fun nd : string * string => mkConfig nd.1 nd.2) <$> map_to_list data).
Lemma configs_of_insert (data : gmap string string) n v :
  data !! n = None -> configs_of (<[n := v]> data) ≡ₚ mkConfig n v :: configs_of data.
Proof. intros Hn. by rewrite map_to_list_insert. Qed.

(** A port in use is refused, so the entry is new. *)
Lemma check_ports_fresh (data : gmap string string) port :
  int64_ok port = true -> check_ports port (configs_of data) = Ok tt -> data !! Itoa port = None.
Proof.
  intros Hp Hc. destruct (data !! Itoa port) as [v|] eqn:Hv; [|done]. exfalso.
  eapply (check_ports_ok _ _ (mkConfig (Itoa port) v)); [done| |by apply Atoi_Itoa|done].
  apply list_elem_of_fmap. exists (Itoa port, v). split; [done|]. by apply elem_of_map_to_list.
Qed.

Abbreviation udp_key := (NginxIngressNamespace, NginxUDPConfigMapName).

Section Facts.
Context {K : Type} `{!KubeKind K K8sConfigMap} `{!KubeLaws K K8sConfigMap}.

Lemma udp_services_inv (k k' : K) r :
  udp_services k = (r, k') -> same_kind K8sConfigMap k k' /\
  match r with
  | Ok cm => exists o : K8sConfigMap, kube_objects k !! udp_key = Some o /\ cm = k8sConfigMapToSCConfigMap o /\
               cm.(cm_ID) = NginxUDPConfigMapName
  | Err _ => exists e, fst (getConfigMap NginxIngressNamespace NginxUDPConfigMapName k) = Err e
  end.
Proof.
  unfold udp_services, bind, rethrow, ret. destruct (getConfigMap _ _ k) as [[o|e] k1] eqn:Hg; intros [= <- <-];
    apply kube_get_law in Hg as [Hk Hg]; (split; [done|]).
  - destruct Hg as [Ho Hkey]. exists o. split; [done|]. split; [done|]. simpl in *. congruence.
  - by exists e.
Qed.

Lemma createUDPIngress_effect namespace i (k k' : K) r :
  int64_ok i.(ui_Port) = true ->
  createUDPIngress namespace i k = (r, k') ->
  match r with
  | Ok _ => exists o o' : K8sConfigMap,
      kube_objects k !! udp_key = Some o /\ o.(km_Data) !! Itoa i.(ui_Port) = None /\
      kube_objects k' = <[udp_key := o']> (kube_objects k) /\
      o'.(km_Data) = <[Itoa i.(ui_Port) := service_text namespace i.(ui_ServiceName) i.(ui_ServicePort)]> o.(km_Data)
  | Err _ => same_kind K8sConfigMap k k'
  end.
Proof.
  intros Hp. unfold createUDPIngress, bind. destruct (udp_services k) as [[cm|e] k1] eqn:Hu;
    apply udp_services_inv in Hu as [Hk1 Hu]; [|by intros [= <- <-]].
  destruct Hu as (o & Ho & -> & Hid). unfold lift. destruct (check_ports _ _) as [[]|e] eqn:Hc; [|by intros [= <- <-]].
  apply check_ports_fresh in Hc; [|done]. unfold write_services, rethrow.
  destruct (updateConfigMap _ _ k1) as [r2 k2] eqn:Hup. apply updateConfigMap_effect in Hup.
  destruct r2 as [[]|e]; intros [= <- <-]; unfold same_kind in *; [|congruence].
  destruct Hup as (o' & Hd & _ & _ & Hobj). simpl in Hd, Hid, Hobj.
  rewrite config_data_app, config_data_map_to_list in Hd. simpl in Hd. rewrite Hc in Hd.
  exists o, o'. rewrite Hid, Hk1 in Hobj. split; [done|]. split; [done|]. split; [done|]. by injection Hd.
Qed.

Lemma List_inv cluster namespace (ks ks' : gmap string K) r :
  List cluster namespace ks = (r, ks') ->
  (exists e, r = Err e /\ (ks !! cluster = None \/ exists k e, ks !! cluster = Some k /\
     fst (getConfigMap (K := K) NginxIngressNamespace NginxUDPConfigMapName k) = Err e)) \/
  exists k k' (o : K8sConfigMap), ks !! cluster = Some k /\ ks' = <[cluster := k']> ks /\ same_kind K8sConfigMap k k' /\
    kube_objects k !! udp_key = Some o /\
    r = match collect namespace "" (configs_of o.(km_Data)) with Ok l => Ok l | Err _ => Err ServerError end.
Proof.
  unfold List. intros [(Hn & -> & ->)|(k & k' & Hk & Hm & ->)]%on_cluster_inv; [left; eauto|].
  unfold rethrow, getTransportLayerIngress, bind in Hm.
  destruct (udp_services k) as [[cm|e] k1] eqn:Hu; apply udp_services_inv in Hu as [Hk1 Hu].
  - destruct Hu as (o & Ho & -> & _). right. exists k, k', o. unfold lift in Hm. simpl in Hm.
    destruct (collect _ _ _); injection Hm as <- <-; done.
  - left. injection Hm as <- _. destruct Hu as [e' He']. eauto 8.
Qed.
End Facts.

(** A UDP ingress that was created is listed from then on in its namespace, along with what
    was listed before; its id is its port.  Listing can then only fail as the read of the
    config map fails.  The names must not hold the separators of an entry and the ports must
    not be 0. *)
Lemma udp_ingress_round_trip {K : Type} `{!KubeKind K K8sConfigMap} `{!KubeLaws K K8sConfigMap}
    cluster namespace i (ks ks1 ks2 ks3 : gmap string K) before created after :
  service_name_ok namespace -> service_name_ok i.(ui_ServiceName) ->
  i.(ui_Port) <> 0 -> int64_ok i.(ui_Port) = true -> i.(ui_ServicePort) <> 0 -> int64_ok i.(ui_ServicePort) = true ->
  List cluster namespace ks = (Ok before, ks1) ->
  Create cluster namespace i ks1 = (Ok created, ks2) ->
  List cluster namespace ks2 = (after, ks3) ->
  created = mkUDPIngress (Itoa i.(ui_Port)) i.(ui_Port) i.(ui_ServiceName) i.(ui_ServicePort) /\
  match after with
  | Ok l => l ≡ₚ created :: before
  | Err _ => exists k e, ks2 !! cluster = Some k /\
      fst (getConfigMap (K := K) NginxIngressNamespace NginxUDPConfigMapName k) = Err e
  end.
Proof.
  intros Hns Hsv Hp Hpo Hv Hvo Hb Hc Ha.
  apply List_inv in Hb as [(? & ? & _)|(k & k1 & o & Hk & -> & Hk1 & Ho & Hb)]; [done|].
  destruct (collect namespace "" (configs_of (km_Data o))) as [l|] eqn:Hl; [|done]. injection Hb as ->.
  pose proof (collect_omap _ _ _ Hl) as ->. apply collect_ok in Hl.
  unfold Create in Hc. apply on_cluster_inv in Hc as [(? & ? & _)|(k1' & k2 & Hk1' & Hc & ->)]; [done|].
  rewrite lookup_insert_eq in Hk1'. injection Hk1' as <-.
  unfold bind, rethrow, ret in Hc. destruct (createUDPIngress namespace i k1) as [[[]|e] k2'] eqn:Hcr; [|done].
  injection Hc as <- <-. split; [done|]. apply createUDPIngress_effect in Hcr; [|done].
  destruct Hcr as (o1 & o2 & Ho1 & Hfresh & Hobj & Hdata). unfold same_kind in Hk1. rewrite Hk1, Ho in Ho1. injection Ho1 as <-.
  apply List_inv in Ha as [(e & -> & [Hn|Hf])|(k3 & k4 & o3 & Hk3 & _ & _ & Ho3 & ->)]; [|done|].
  - by rewrite lookup_insert_eq in Hn.
  - rewrite lookup_insert_eq in Hk3. injection Hk3 as <-. rewrite Hobj, lookup_insert_eq in Ho3. injection Ho3 as <-.
    rewrite Hdata. pose proof (configs_of_insert _ _ (service_text namespace (ui_ServiceName i) (ui_ServicePort i)) Hfresh) as Hperm.
    pose proof (entry_ingress_service namespace _ _ _ Hns Hsv Hp Hpo Hv Hvo) as He.
    rewrite collect_total; [|rewrite Hperm; constructor; [by eexists|done]].
    rewrite Hperm. simpl. unfold entry_option at 1. by rewrite He.
Qed.

(** ** A cluster in memory *)

Module Demo.
Definition Store := gmap (string * string) K8sConfigMap.
#[local] Instance kind : KubeKind Store K8sConfigMap := fake_kind id (fun m _ => m) (fun k => (false, k)).
#[local] Instance laws : KubeLaws Store K8sConfigMap.
Proof. by apply fake_laws. Qed.

Definition services : K8sConfigMap :=
  mkK8sConfigMap NginxIngressNamespace NginxUDPConfigMapName {["53" := "net/dns:5353"]} "" 0 None.
Definition clusters : gmap string Store := {["c" := {[udp_key := services]}]}.
Definition vpn : UDPIngress := mkUDPIngress "" 500 "vpn" 4500.
Definition read : gmap string Store := snd (List "c" "net" clusters).
Definition created : gmap string Store := snd (Create "c" "net" vpn read).
Definition listed (r : result api_error (list UDPIngress)) : list (Z * string * Z) :=
  match r with Ok l => (fun i => (ui_Port i, ui_ServiceName i, ui_ServicePort i)) <$> l | Err _ => [] end.
End Demo.

Lemma udp_ingress_round_trip_witness :
  Demo.listed (fst (List (KubeKind0 := Demo.kind) "c" "net" Demo.created)) ≡ₚ [(500, "vpn", 4500); (53, "dns", 5353)].
Proof.
  assert (H1 : List (KubeKind0 := Demo.kind) "c" "net" Demo.clusters = (Ok [mkUDPIngress "53" 53 "dns" 5353], Demo.read))
    by (by apply pair_eq_snd; vm_compute).
  assert (H2 : Create (KubeKind0 := Demo.kind) "c" "net" Demo.vpn Demo.read = (Ok (mkUDPIngress "500" 500 "vpn" 4500), Demo.created))
    by (by apply pair_eq_snd; vm_compute).
  destruct (List (KubeKind0 := Demo.kind) "c" "net" Demo.created) as [after ks] eqn:H3.
  destruct (udp_ingress_round_trip (KubeLaws0 := Demo.laws) "c" "net" Demo.vpn _ _ _ _ _ _ _
    ltac:(by split) ltac:(by split) ltac:(discriminate) ltac:(reflexivity) ltac:(discriminate) ltac:(reflexivity) H1 H2 H3) as [_ Hl].
  destruct after as [l|e]; [cbn [fst Demo.listed]; rewrite Hl; reflexivity|].
  apply (f_equal fst) in H3. cbn [fst] in H3. exfalso. vm_compute in H3. discriminate H3.
Defined.

(** Delete does not look at the namespace of the request: a user of one namespace of a
    cluster can delete the ports of every other one. *)
Lemma other_namespace_deleted :
  fst (Delete (KubeKind0 := Demo.kind) "c" "other" "53" Demo.clusters) = Ok tt /\
  fst (List (KubeKind0 := Demo.kind) "c" "other" Demo.clusters) = Ok [] /\
  fst (List (KubeKind0 := Demo.kind) "c" "net" (snd (Delete (KubeKind0 := Demo.kind) "c" "other" "53" Demo.clusters))) = Ok [].
Proof. split; [vm_compute; reflexivity|]. split; vm_compute; reflexivity. Qed.
