(* ===== verification/Ingress.v ===== *)
(** Ingresses (pkg/handler/ingress_manager.go and pkg/types/ingress.go): the rules of an HTTP
    ingress, sorted and grouped by host for Kubernetes and flattened again. *)
From S2P Require Import Prelude GoStrings RestApi KubeApi.

(** types.IngressRule and types.Ingress. *)
Record IngressRule := mkRule { ir_Host : string; ir_Path : string; ir_ServiceName : string; ir_ServicePort : Z }.
#[export] Instance IngressRule_eq_dec : EqDecision IngressRule.
Proof. solve_decision. Defined.
Record Ingress := mkIngress {
  in_ID : string; in_Name : string; in_Rules : list IngressRule; in_MaxBodySize : Z; in_MaxBodySizeUnit : string;
  in_CreationTimestamp : Z; in_DeletionTimestamp : option Z
}.

(** intstr.IntOrString of apimachinery: a number that fits 32 bits comes back. *)
Class ServicePorts := { IntOrString : Type; FromInt : Z -> IntOrString; IntValue : IntOrString -> Z }.
Definition int32_ok (z : Z) : bool := (- 2 ^ 31 <=? z) && (z <? 2 ^ 31).
Class ServicePortLaws `{ServicePorts} : Prop := IntValue_FromInt z : int32_ok z = true -> IntValue (FromInt z) = z.

Definition NginxAffinity : string := "nginx.ingress.kubernetes.io/affinity".
Definition NginxProxyBodySize : string := "nginx.ingress.kubernetes.io/proxy-body-size".

(** ** Sorting *)

(** SortedIngressRule.Less. *)
Definition Less (a b : IngressRule) : bool :=
  if negb (String.eqb a.(ir_Host) b.(ir_Host)) then String.ltb a.(ir_Host) b.(ir_Host)
  else if negb (String.eqb a.(ir_Path) b.(ir_Path)) then String.ltb a.(ir_Path) b.(ir_Path)
  else false.
Definition isIngressRuleEqual (r1 r2 : IngressRule) : bool :=
  String.eqb r1.(ir_Host) r2.(ir_Host) && String.eqb r1.(ir_Path) r2.(ir_Path).

(** sort.Sort: the order of rules with the same host and path is not determined, and they are
    an error whatever it is. *)
Definition NotGreater (a b : IngressRule) : Prop := Less b a = false.
#[export] Instance NotGreater_dec a b : Decision (NotGreater a b).
Proof. unfold NotGreater. apply _. Defined.
Definition Sort (rules : list IngressRule) : list IngressRule := merge_sort NotGreater rules.

Inductive rule_error := ErrDuplicateRule | ErrNoHost | ErrEmptyPath.
#[export] Instance rule_error_eq_dec : EqDecision rule_error.
Proof. solve_decision. Defined.

(** The loop of validateAndSortRules over the sorted rules. *)
Fixpoint check_rules (rules : list IngressRule) : result rule_error unit :=
  match rules with
  | [] => Ok tt
  | r :: rest =>
      if match rest with r2 :: _ => isIngressRuleEqual r r2 | [] => false end then Err ErrDuplicateRule
      else if String.eqb r.(ir_Host) "" then Err ErrNoHost
      else if String.eqb r.(ir_Path) "" then Err ErrEmptyPath
      else check_rules rest
  end.
(** The rules are sorted in place: the caller has them in the new order. *)
Definition validateAndSortRules (rules : list IngressRule) : result rule_error (list IngressRule) :=
  let rules := Sort rules in result_bind (check_rules rules) (fun _ => Ok rules).

(** ** Kubernetes objects *)

Section Ingress.
Context `{ServicePorts}.

(** extv1beta1.HTTPIngressPath, IngressRule and Ingress. *)
Record HTTPIngressPath := mkPath { hp_Path : string; hp_ServiceName : string; hp_ServicePort : IntOrString }.
Record K8sIngressRule := mkK8sRule { kr_Host : string; kr_HTTP : option (list HTTPIngressPath) }.
Record K8sIngress := mkK8sIngress {
  ki_Name : string; ki_Namespace : string; ki_Annotations : gmap string string; ki_Rules : list K8sIngressRule;
  ki_ResourceVersion : string; ki_CreationTimestamp : Z; ki_DeletionTimestamp : option Z
}.
#[export] Instance K8sIngress_object : KubeObject K8sIngress := {|
  Spec := gmap string string * list K8sIngressRule;
  kube_key o := (o.(ki_Namespace), o.(ki_Name));
  kube_spec o := (o.(ki_Annotations), o.(ki_Rules));
  kube_deleting o := bool_decide (is_Some o.(ki_DeletionTimestamp))
|}.

Definition rule_path (r : IngressRule) : HTTPIngressPath := mkPath r.(ir_Path) r.(ir_ServiceName) (FromInt r.(ir_ServicePort)).
(** One round of the loop: the path joins the last rule when the host is the same. *)
Definition add_rule (httpRules : list K8sIngressRule) (r : IngressRule) : list K8sIngressRule :=
  match last httpRules with
  | Some l =>
      if String.eqb r.(ir_Host) l.(kr_Host)
      then alter (fun l => mkK8sRule l.(kr_Host) ((fun paths => paths ++ [rule_path r]) <$> l.(kr_HTTP)))
             (length httpRules - 1)%nat httpRules
      else httpRules ++ [mkK8sRule r.(ir_Host) (Some [rule_path r])]
  | None => httpRules ++ [mkK8sRule r.(ir_Host) (Some [rule_path r])]
  end.
Definition group_rules (rules : list IngressRule) : list K8sIngressRule := foldl add_rule [] rules.

Definition body_size_annotation (i : Ingress) : gmap string string :=
  let affinity := {[NginxAffinity := "cookie"]} in
  if (0 <? i.(in_MaxBodySize)) && negb (String.eqb i.(in_MaxBodySizeUnit) "")
  then <[NginxProxyBodySize := Itoa i.(in_MaxBodySize) +:+ i.(in_MaxBodySizeUnit)]> affinity
  else affinity.

(** The rules of the ingress are left sorted: they are part of the result. *)
Definition scIngressTok8sIngress (namespace : string) (i : Ingress) : result rule_error (K8sIngress * list IngressRule) :=
  result_bind (validateAndSortRules i.(in_Rules)) (fun rules =>
    Ok (mkK8sIngress i.(in_Name) namespace (body_size_annotation i) (group_rules rules) "" 0 None, rules)).

(** A rule without http is a nil pointer. *)
Definition flatten_rule (r : K8sIngressRule) : option (list IngressRule) :=
  match r.(kr_HTTP) with
  | Some paths => Some ((fun p => mkRule r.(kr_Host) p.(hp_Path) p.(hp_ServiceName) (IntValue p.(hp_ServicePort))) <$> paths)
  | None => None
  end.
Definition flatten_rules (rules : list K8sIngressRule) : option (list IngressRule) := mjoin (M := list) <$> mapM flatten_rule rules.

Definition read_body_size (annotations : gmap string string) : Z * string :=
  match annotations !! NginxProxyBodySize with
  | Some bss =>
      let l := String.length bss in
      if (1 <? l)%nat then (default 0 (Atoi (take_bytes (l - 1) bss)), drop_bytes (l - 1) bss) else (0, "")
  | None => (0, "")
  end.

Definition k8sIngressToSCIngress (k : K8sIngress) : option Ingress :=
  (fun rules => let (size, unit) := read_body_size k.(ki_Annotations) in
     mkIngress k.(ki_Name) k.(ki_Name) rules size unit k.(ki_CreationTimestamp) k.(ki_DeletionTimestamp))
  <$> flatten_rules k.(ki_Rules).

(** ** Handlers *)

Inductive ingress_error := Answer (e : api_error) | NilPointer.
Inductive create_error := IRule (e : rule_error) | IKube (e : kube_error).

Context {K : Type} `{!KubeKind K K8sIngress}.

Definition getIngress (namespace name : string) : M K kube_error K8sIngress := kube_get namespace name.
Definition getIngresss (namespace : string) : M K kube_error (list K8sIngress) := kube_list namespace.
Definition createIngress (namespace : string) (i : Ingress) : M K create_error (list IngressRule) :=
  let! translated := rethrow IRule (lift (scIngressTok8sIngress namespace i)) in
  do! rethrow IKube (kube_create translated.1) in ret translated.2.
Definition deleteIngress (namespace name : string) : M K kube_error unit := kube_delete namespace name.

Definition set_rules rules (i : Ingress) : Ingress :=
  mkIngress i.(in_ID) i.(in_Name) rules i.(in_MaxBodySize) i.(in_MaxBodySizeUnit) i.(in_CreationTimestamp) i.(in_DeletionTimestamp).
Definition set_id id (i : Ingress) : Ingress :=
  mkIngress id i.(in_Name) i.(in_Rules) i.(in_MaxBodySize) i.(in_MaxBodySizeUnit) i.(in_CreationTimestamp) i.(in_DeletionTimestamp).
Definition set_k8s_rules rules (k : K8sIngress) : K8sIngress :=
  mkK8sIngress k.(ki_Name) k.(ki_Namespace) k.(ki_Annotations) rules k.(ki_ResourceVersion) k.(ki_CreationTimestamp) k.(ki_DeletionTimestamp).

Definition read_error (e : kube_error) : ingress_error := Answer (if IsNotFound e then NotFound else ServerError).
Definition on_create_error (e : create_error) : ingress_error :=
  Answer (match e with IKube KAlreadyExists => DuplicateResource | _ => ConnectClusterFailed end).
Definition no_nil {A} (o : option A) : M K ingress_error A := lift (of_option NilPointer o).

Definition Create (cluster namespace : string) (i : Ingress) : M (gmap string K) ingress_error Ingress :=
  on_cluster (Answer NotFound) cluster
    (let! rules := rethrow on_create_error (createIngress namespace i) in
     ret (set_id i.(in_Name) (set_rules rules i))).
Definition List (cluster namespace : string) : M (gmap string K) ingress_error (list Ingress) :=
  on_cluster (Answer NotFound) cluster
    (let! items := rethrow read_error (getIngresss namespace) in no_nil (mapM k8sIngressToSCIngress items)).
Definition Get (cluster namespace id : string) : M (gmap string K) ingress_error Ingress :=
  on_cluster (Answer NotFound) cluster
    (let! k8sIngress := rethrow read_error (getIngress namespace id) in no_nil (k8sIngressToSCIngress k8sIngress)).
(** Only the rules of the object are changed. *)
Definition Update (cluster namespace : string) (i : Ingress) : M (gmap string K) ingress_error Ingress :=
  on_cluster (Answer NotFound) cluster
    (let! k8sIngress := rethrow read_error (getIngress namespace i.(in_ID)) in
     let! translated := rethrow (fun _ => Answer ConnectClusterFailed) (lift (scIngressTok8sIngress namespace i)) in
     do! rethrow (fun _ => Answer ConnectClusterFailed) (kube_update (set_k8s_rules translated.1.(ki_Rules) k8sIngress)) in
     ret (set_rules translated.2 i)).
Definition Delete (cluster namespace id : string) : M (gmap string K) ingress_error unit :=
  on_cluster (Answer NotFound) cluster (rethrow read_error (deleteIngress namespace id)).
End Ingress.

(** ** The order of the rules *)

Lemma ltb_false a b : String.ltb a b = false <-> String.le b a.
Proof.
  unfold String.ltb, String.le, String.leb. rewrite (String.compare_antisym b a).
  by destruct (String.compare a b); simpl; split.
Qed.
Lemma NotGreater_iff a b :
  NotGreater a b <-> (ir_Host a <> ir_Host b /\ String.le (ir_Host a) (ir_Host b)) \/
                     (ir_Host a = ir_Host b /\ String.le (ir_Path a) (ir_Path b)).
Proof.
  unfold NotGreater, Less. destruct (String.eqb_spec (ir_Host b) (ir_Host a)) as [Hh|Hh]; simpl.
  - destruct (String.eqb_spec (ir_Path b) (ir_Path a)) as [Hp|Hp]; simpl.
    + rewrite Hh, Hp. split; [intros _; right; by split|done].
    + rewrite ltb_false. naive_solver.
  - rewrite ltb_false. naive_solver.
Qed.
Lemma NotGreater_host a b : NotGreater a b -> String.le (ir_Host a) (ir_Host b).
Proof. rewrite NotGreater_iff. intros [[_ ?]|[-> _]]; done. Qed.
#[export] Instance NotGreater_trans : Transitive NotGreater.
Proof.
  intros a b c Hab Hbc. pose proof (NotGreater_host _ _ Hab). pose proof (NotGreater_host _ _ Hbc).
  apply NotGreater_iff in Hab, Hbc. apply NotGreater_iff.
  destruct (decide (ir_Host a = ir_Host c)) as [Heq|Hne]; [right|left; split; [done|by trans (ir_Host b)]].
  split; [done|]. assert (ir_Host a = ir_Host b) as Hh by (apply (anti_symm String.le); congruence).
  destruct Hab as [[? _]|[_ Hp1]]; [done|]. destruct Hbc as [[? _]|[_ Hp2]]; [congruence|]. by trans (ir_Path b).
Qed.
#[export] Instance NotGreater_total : Total NotGreater.
Proof.
  intros a b. rewrite !NotGreater_iff. destruct (total String.le (ir_Host a) (ir_Host b)), (total String.le (ir_Path a) (ir_Path b));
    destruct (decide (ir_Host a = ir_Host b)) as [Heq|Hne]; naive_solver.
Qed.

Definition rule_key (r : IngressRule) : string * string := (r.(ir_Host), r.(ir_Path)).
Lemma isIngressRuleEqual_iff a b : isIngressRuleEqual a b = true <-> rule_key a = rule_key b.
Proof.
  unfold isIngressRuleEqual, rule_key. rewrite andb_true_iff, !String.eqb_eq. split; [intros [-> ->]; done|by intros [= -> ->]].
Qed.
Lemma NotGreater_antisym a b : NotGreater a b -> NotGreater b a -> rule_key a = rule_key b.
Proof.
  rewrite !NotGreater_iff. unfold rule_key. intros H1 H2.
  assert (ir_Host a = ir_Host b) as Hh.
  { destruct H1 as [[Hne H1]|[H1 _]]; [|done]. destruct H2 as [[_ H2]|[H2 _]]; [|by symmetry].
    by apply (anti_symm String.le). }
  rewrite Hh. f_equal. apply (anti_symm String.le); naive_solver.
Qed.

Definition rule_complete (r : IngressRule) : Prop := r.(ir_Host) <> "" /\ r.(ir_Path) <> "".

(** In a sorted list equal keys are next to each other. *)
Lemma check_rules_ok rules :
  StronglySorted NotGreater rules ->
  check_rules rules = Ok tt <-> NoDup (rule_key <$> rules) /\ Forall rule_complete rules.
Proof.
  induction 1 as [|r rules Hs IH Hle]; simpl; [by repeat constructor|].
  rewrite NoDup_cons, Forall_cons. unfold rule_complete at 1.
  assert (Hin : (exists r2 rest, rules = r2 :: rest /\ isIngressRuleEqual r r2 = true) <-> rule_key r ∈ rule_key <$> rules).
  { rewrite list_elem_of_fmap. setoid_rewrite isIngressRuleEqual_iff. split.
    - intros (r2 & rest & -> & Hk). exists r2. split; [done|by left].
    - intros (x & Hk & Hx). destruct rules as [|r2 rest]; [by apply elem_of_nil in Hx|]. exists r2, rest. split; [done|].
      apply elem_of_cons in Hx as [->|Hx]; [done|]. apply StronglySorted_inv in Hs as [_ Hr2].
      rewrite Forall_forall in Hle, Hr2. pose proof (Hle r2 ltac:(left)) as H1. pose proof (Hr2 x Hx) as H2.
      apply NotGreater_antisym; [done|]. unfold rule_key in Hk. injection Hk as Hh Hp.
      rewrite NotGreater_iff in H2 |- *. by rewrite Hh, Hp. }
  assert (Hdup : match rules with r2 :: _ => isIngressRuleEqual r r2 | [] => false end = true <->
                 rule_key r ∈ rule_key <$> rules) by (rewrite <- Hin; destruct rules; naive_solver).
  destruct (match rules with r2 :: _ => isIngressRuleEqual r r2 | [] => false end); [naive_solver|].
  assert (rule_key r ∉ rule_key <$> rules) by naive_solver.
  destruct (String.eqb_spec (ir_Host r) ""), (String.eqb_spec (ir_Path r) ""); rewrite ?IH; naive_solver.
Qed.

Lemma Sort_spec rules : Sort rules ≡ₚ rules /\ StronglySorted NotGreater (Sort rules).
Proof. split; [apply merge_sort_Permutation|apply StronglySorted_merge_sort; apply _]. Qed.

Lemma validateAndSortRules_ok rules sorted :
  validateAndSortRules rules = Ok sorted <->
  sorted = Sort rules /\ NoDup (rule_key <$> rules) /\ Forall rule_complete rules.
Proof.
  destruct (Sort_spec rules) as [Hp Hs]. unfold validateAndSortRules. pose proof (check_rules_ok _ Hs) as Hc.
  assert (Hnd : NoDup (rule_key <$> Sort rules) <-> NoDup (rule_key <$> rules)) by by rewrite Hp.
  assert (Hall : Forall rule_complete (Sort rules) <-> Forall rule_complete rules) by by rewrite Hp.
  destruct (check_rules (Sort rules)) as [[]|e]; simpl; [|split; [done|]]; naive_solver.
Qed.

(** ** Grouping *)

Section Facts.
Context `{ServicePorts}.

Abbreviation new_rule r := (mkK8sRule r.(ir_Host) (Some [rule_path r])).
Definition with_path (r : IngressRule) (l : K8sIngressRule) : K8sIngressRule :=
  mkK8sRule l.(kr_Host) ((fun paths => paths ++ [rule_path r]) <$> l.(kr_HTTP)).

Lemma add_rule_snoc acc l r :
  add_rule (acc ++ [l]) r =
  if String.eqb r.(ir_Host) l.(kr_Host) then acc ++ [with_path r l] else (acc ++ [l]) ++ [new_rule r].
Proof.
  unfold add_rule. rewrite last_snoc, length_app. simpl. destruct (String.eqb _ _); [|done].
  replace (length acc + 1 - 1)%nat with (length acc + 0)%nat by lia. by rewrite alter_app_r.
Qed.

Lemma group_rules_snoc rules r : group_rules (rules ++ [r]) = add_rule (group_rules rules) r.
Proof. unfold group_rules. by rewrite foldl_app. Qed.

Lemma flatten_rules_app l1 l2 rs1 rs2 :
  flatten_rules l1 = Some rs1 -> flatten_rules l2 = Some rs2 -> flatten_rules (l1 ++ l2) = Some (rs1 ++ rs2).
Proof.
  unfold flatten_rules. intros (a & Ha & ->)%fmap_Some (b & Hb & ->)%fmap_Some. apply fmap_Some.
  exists (a ++ b). split; [|by rewrite join_app]. apply mapM_Some. apply mapM_Some in Ha, Hb. by apply Forall2_app.
Qed.

(** What grouping does: the keys are in order, no rule is without paths, and the last rule is
    of the host of the last key. *)
Definition k8s_keys (rules : list K8sIngressRule) : list (string * string) :=
  rules ≫= (fun r => (fun p => (r.(kr_Host), p.(hp_Path))) <$> default [] r.(kr_HTTP)).
Record grouped (rules : list IngressRule) (acc : list K8sIngressRule) : Prop := {
  gr_keys : k8s_keys acc = rule_key <$> rules;
  gr_paths : Forall (fun r => exists paths, r.(kr_HTTP) = Some paths /\ paths <> []) acc;
  gr_last : kr_Host <$> last acc = ir_Host <$> last rules;
  gr_flat : Forall (fun r => IntValue (FromInt r.(ir_ServicePort)) = r.(ir_ServicePort)) rules -> flatten_rules acc = Some rules
}.

Lemma k8s_keys_app l1 l2 : k8s_keys (l1 ++ l2) = k8s_keys l1 ++ k8s_keys l2.
Proof. apply bind_app. Qed.

Lemma add_new_rule_grouped rules acc r :
  grouped rules acc -> grouped (rules ++ [r]) (acc ++ [new_rule r]).
Proof.
  intros [Hk Hp Hl Hf]. split.
  - rewrite k8s_keys_app, Hk, fmap_app. done.
  - apply Forall_app. split; [done|]. repeat constructor. by eexists.
  - by rewrite !last_snoc.
  - intros [Hr1 Hr2]%Forall_app. apply flatten_rules_app; [by apply Hf|]. apply Forall_cons in Hr2 as [Hr2 _].
    unfold flatten_rules. simpl. rewrite Hr2. by destruct r.
Qed.

Lemma group_rules_grouped rules : grouped rules (group_rules rules).
Proof.
  induction rules as [|r rules IH] using rev_ind; [by repeat constructor|]. rewrite group_rules_snoc.
  destruct (group_rules rules) as [|l acc _] eqn:Hacc using rev_ind; [by apply (add_new_rule_grouped _ [])|].
  rewrite add_rule_snoc. destruct (String.eqb_spec (ir_Host r) (kr_Host l)) as [Hh|Hh]; [|by apply add_new_rule_grouped].
  destruct IH as [Hk Hp Hl Hf]. apply Forall_app in Hp as [Hp [(paths & Hpaths & Hne) _]%Forall_cons]. split.
  - rewrite fmap_app, <- Hk, !k8s_keys_app, <- (assoc_L app). f_equal. unfold k8s_keys. simpl.
    rewrite Hpaths. simpl. rewrite !app_nil_r, fmap_app. simpl. by rewrite <- Hh.
  - apply Forall_app. split; [done|]. apply Forall_singleton. simpl. rewrite Hpaths. eexists. split; [done|]. by destruct paths.
  - rewrite !last_snoc. simpl. by rewrite Hh.
  - intros [Hr1 Hr2]%Forall_app. apply Forall_cons in Hr2 as [Hr2 _]. specialize (Hf Hr1).
    unfold flatten_rules in *. apply fmap_Some in Hf as (ls & Hf & ->). apply mapM_Some in Hf.
    apply Forall2_app_inv_l in Hf as (ls1 & ls2 & Hf1 & Hf2 & ->). apply Forall2_cons_inv_l in Hf2 as (x & ? & Hx & Hnil & ->).
    apply Forall2_nil_inv_l in Hnil as ->. apply fmap_Some. exists (ls1 ++ [x ++ [r]]).
    split; [|rewrite !join_app; simpl; by rewrite !app_nil_r, (assoc_L app)].
    apply mapM_Some, Forall2_app; [done|]. constructor; [|constructor]. unfold flatten_rule in Hx |- *. rewrite Hpaths in Hx.
    injection Hx as <-. simpl. rewrite Hpaths. simpl. rewrite fmap_app. simpl. rewrite Hr2, <- Hh. by destruct r.
Qed.

(** Sorted rules of a host are next to each other. *)
Lemma group_rules_hosts rules :
  StronglySorted NotGreater rules -> NoDup (kr_Host <$> group_rules rules) /\ kr_Host <$> group_rules rules ⊆ ir_Host <$> rules.
Proof.
  induction rules as [|r rules IH] using rev_ind; [by repeat constructor|]. intros (Hle & Hs & _)%StronglySorted_app.
  destruct (IH Hs) as [Hnd Hsub]. rewrite group_rules_snoc. destruct (group_rules_grouped rules) as [_ _ Hl _].
  assert (Hnew : kr_Host <$> last (group_rules rules) <> Some (ir_Host r) -> ir_Host r ∉ kr_Host <$> group_rules rules).
  { intros Hne Hin. apply Hsub, list_elem_of_fmap in Hin as (x & Hx & Hin). apply Hne. rewrite Hl.
    destruct rules as [|z rules' _] using rev_ind; [by apply elem_of_nil in Hin|]. rewrite last_snoc. simpl. f_equal.
    apply (anti_symm String.le).
    - apply NotGreater_host, Hle; [apply elem_of_app; right; by left|by left].
    - rewrite Hx. apply StronglySorted_app in Hs as (Hz & _ & _). apply elem_of_app in Hin as [Hin|Hin%list_elem_of_singleton].
      + apply NotGreater_host, Hz; [done|by left].
      + by subst. }
  destruct (group_rules rules) as [|l acc _] using rev_ind.
  - simpl. split; [repeat constructor; set_solver|]. rewrite fmap_app. set_solver.
  - rewrite add_rule_snoc. rewrite last_snoc in Hnew. simpl in Hnew. destruct (String.eqb_spec (ir_Host r) (kr_Host l)) as [Hh|Hh].
    + rewrite !fmap_app in *. simpl in *. split; [done|]. set_solver.
    + rewrite fmap_app. split.
      * apply NoDup_app. split; [done|]. split; [|apply NoDup_singleton]. intros x Hx ->%list_elem_of_singleton.
        destruct (Hnew ltac:(congruence)). done.
      * rewrite !fmap_app. rewrite fmap_app in Hsub. set_solver.
Qed.

(** The size limit is an annotation: a number and a unit of one byte. *)
Lemma take_drop_bytes_app a b :
  take_bytes (String.length a) (a +:+ b) = a /\ drop_bytes (String.length a) (a +:+ b) = b.
Proof. induction a as [|c a [IH1 IH2]]; [by split; destruct b|]. split; [|done]. simpl. by rewrite IH1. Qed.
Lemma Itoa_not_empty z : int64_ok z = true -> Itoa z <> "".
Proof. intros Hz He. apply Atoi_Itoa in Hz. by rewrite He in Hz. Qed.

Definition shown_size (i : Ingress) : Z * string :=
  if (0 <? i.(in_MaxBodySize)) && negb (String.eqb i.(in_MaxBodySizeUnit) "")
  then (i.(in_MaxBodySize), i.(in_MaxBodySizeUnit)) else (0, "").

Lemma read_body_size_annotation i :
  int64_ok i.(in_MaxBodySize) = true -> (String.length i.(in_MaxBodySizeUnit) <= 1)%nat ->
  read_body_size (body_size_annotation i) = shown_size i.
Proof.
  intros Hz Hu. unfold read_body_size, body_size_annotation, shown_size.
  destruct (0 <? in_MaxBodySize i); [|done]. destruct (in_MaxBodySizeUnit i) as [|u [|]]; simpl in *; [done| |lia].
  rewrite lookup_insert_eq, length_append. simpl.
  pose proof (Itoa_not_empty _ Hz) as Hne. destruct (Itoa (in_MaxBodySize i)) as [|c s] eqn:Hs; [done|]. rewrite <- Hs.
  replace (1 <? _)%nat with true by (rewrite Hs; simpl; symmetry; apply Nat.ltb_lt; lia).
  replace (String.length (Itoa (in_MaxBodySize i)) + 1 - 1)%nat with (String.length (Itoa (in_MaxBodySize i))) by lia.
  destruct (take_drop_bytes_app (Itoa (in_MaxBodySize i)) (String u "")) as [-> ->]. by rewrite Atoi_Itoa.
Qed.

Lemma scIngressTok8sIngress_ok namespace i k rules :
  scIngressTok8sIngress namespace i = Ok (k, rules) ->
  rules = Sort i.(in_Rules) /\ NoDup (rule_key <$> i.(in_Rules)) /\ Forall rule_complete i.(in_Rules) /\
  kube_key k = (namespace, i.(in_Name)) /\ k.(ki_Annotations) = body_size_annotation i /\ k.(ki_Rules) = group_rules rules.
Proof.
  unfold scIngressTok8sIngress. destruct (validateAndSortRules (in_Rules i)) as [sorted|] eqn:Hv; [|done].
  intros [= <- <-]. apply validateAndSortRules_ok in Hv as (-> & ? & ?). done.
Qed.

Lemma flatten_group rules :
  ServicePortLaws -> Forall (fun r => int32_ok r.(ir_ServicePort) = true) rules -> flatten_rules (group_rules rules) = Some rules.
Proof. intros Hl Hr. apply gr_flat; [apply group_rules_grouped|]. eapply Forall_impl; [done|]. intros r. apply Hl. Qed.

Context {K : Type} `{!KubeKind K K8sIngress} `{!KubeLaws K K8sIngress}.

(** What is read when an object is in the cluster. *)
Lemma Get_stored cluster namespace name (ks ks' : gmap string K) k o r i :
  ks !! cluster = Some k -> kube_objects k !! (namespace, name) = Some o -> k8sIngressToSCIngress o = Some i ->
  Get cluster namespace name ks = (r, ks') -> r = Ok i \/ r = Err (Answer ServerError).
Proof.
  intros Hk Ho Hi [(Hn & _)|(k1 & k2 & Hk1 & Hm & _)]%on_cluster_inv; [congruence|].
  assert (k1 = k) as -> by congruence. unfold bind, rethrow, no_nil, lift, read_error, getIngress in Hm.
  destruct (kube_get namespace name k) as [[o'|e] k'] eqn:Hg; apply kube_get_law in Hg as [_ Hg].
  - destruct Hg as [Ho' _]. assert (o' = o) as -> by congruence. simpl in Hm. rewrite Hi in Hm. simpl in Hm. left. congruence.
  - right. destruct e; simpl in Hm; [congruence| |]; congruence.
Qed.
End Facts.

(** The translation of an ingress succeeds exactly when every rule has a host and a path
    and no two rules have both the same.  The Kubernetes object then has one rule for every
    host, none without paths, and its hosts and paths are those of the ingress, in the order
    in which the rules are left. *)
Lemma scIngressTok8sIngress_wf `{ServicePorts} namespace i :
  match scIngressTok8sIngress namespace i with
  | Ok (k, rules) =>
      NoDup (rule_key <$> i.(in_Rules)) /\ Forall rule_complete i.(in_Rules) /\
      rules ≡ₚ i.(in_Rules) /\ StronglySorted NotGreater rules /\
      NoDup (kr_Host <$> k.(ki_Rules)) /\ k8s_keys k.(ki_Rules) = rule_key <$> rules /\
      Forall (fun r => exists paths, r.(kr_HTTP) = Some paths /\ paths <> []) k.(ki_Rules)
  | Err _ => ~ (NoDup (rule_key <$> i.(in_Rules)) /\ Forall rule_complete i.(in_Rules))
  end.
Proof.
  destruct (scIngressTok8sIngress namespace i) as [[k rules]|e] eqn:Ht.
  - apply scIngressTok8sIngress_ok in Ht as (-> & Hnd & Hc & _ & _ & ->). destruct (Sort_spec (in_Rules i)) as [Hp Hs].
    destruct (group_rules_grouped (Sort (in_Rules i))), (group_rules_hosts _ Hs) as [Hh _]. done.
  - intros [Hnd Hc]. unfold scIngressTok8sIngress in Ht.
    by rewrite (proj2 (validateAndSortRules_ok (in_Rules i) _) (conj eq_refl (conj Hnd Hc))) in Ht.
Qed.

(** An ingress that was created is read back with its name, its rules in the order the
    creation answered with, and its size limit when it has one; the read fails only as the
    cluster fails. *)
Lemma ingress_round_trip `{ServicePortLaws} {K : Type} `{!KubeKind K K8sIngress} `{!KubeLaws K K8sIngress}
    cluster namespace i created (ks ks1 ks2 : gmap string K) r :
  Forall (fun r => int32_ok r.(ir_ServicePort) = true) i.(in_Rules) ->
  int64_ok i.(in_MaxBodySize) = true -> (String.length i.(in_MaxBodySizeUnit) <= 1)%nat ->
  Create cluster namespace i ks = (Ok created, ks1) ->
  Get cluster namespace i.(in_Name) ks1 = (r, ks2) ->
  created.(in_ID) = i.(in_Name) /\ created.(in_Rules) ≡ₚ i.(in_Rules) /\
  match r with
  | Ok j => j.(in_ID) = i.(in_Name) /\ j.(in_Name) = i.(in_Name) /\ j.(in_Rules) = created.(in_Rules) /\
            (j.(in_MaxBodySize), j.(in_MaxBodySizeUnit)) = shown_size i
  | Err e => e = Answer ServerError
  end.
Proof.
  intros Hp Hz Hu [(? & ? & _)|(k & k1 & Hk & Hc & ->)]%on_cluster_inv Hg; [done|].
  unfold createIngress, bind, rethrow, lift, ret in Hc. destruct (scIngressTok8sIngress namespace i) as [[sent rules]|] eqn:Ht; [|done].
  apply scIngressTok8sIngress_ok in Ht as (-> & _ & _ & Hkey & Hann & Hrules). simpl in Hc.
  destruct (kube_create sent k) as [[o|e] k'] eqn:Hcr; [|done]. injection Hc as <- <-.
  apply kube_create_law in Hcr as (Hkey' & Hspec & _ & Hobj). rewrite Hkey in *.
  destruct (Sort_spec (in_Rules i)) as [Hperm _]. split; [done|]. split; [done|].
  simpl in Hspec, Hkey'. injection Hspec as Ha Hr. injection Hkey' as _ Hname. rewrite Hann in Ha. rewrite Hrules in Hr.
  assert (Hshow : exists j, k8sIngressToSCIngress o = Some j /\ in_ID j = in_Name i /\ in_Name j = in_Name i /\
            in_Rules j = Sort (in_Rules i) /\ (in_MaxBodySize j, in_MaxBodySizeUnit j) = shown_size i).
  { unfold k8sIngressToSCIngress. rewrite Ha, Hr, read_body_size_annotation by done.
    rewrite flatten_group by (try done; by rewrite Hperm). destruct (shown_size i) as [size unit] eqn:Hsz.
    eexists. split; [reflexivity|]. simpl. done. }
  destruct Hshow as (j & Hj & Hjs).
  apply (Get_stored _ _ _ _ _ k' o _ j) in Hg as [->| ->]; [done|done|by rewrite lookup_insert_eq| |done].
  by rewrite Hobj, lookup_insert_eq.
Qed.

(** ** A cluster in memory *)

Module Demo.
#[export] Instance ports : ServicePorts := {|
  IntOrString := Z; FromInt z := (z + 2 ^ 31) mod 2 ^ 32 - 2 ^ 31; IntValue := id
|}.
Lemma ports_laws : ServicePortLaws.
Proof.
  intros z [H1%Z.leb_le H2%Z.ltb_lt]%andb_true_iff. unfold IntValue, FromInt, ports, id.
  rewrite Z.mod_small; lia.
Qed.

Definition Store := gmap (string * string) K8sIngress.
#[export] Instance kind : KubeKind Store K8sIngress := fake_kind id (fun m _ => m) (fun k => (false, k)).
Lemma ingress_laws : KubeLaws Store K8sIngress.
Proof. by apply fake_laws. Qed.

Definition shop : Ingress :=
  mkIngress "" "shop" [mkRule "b.cn" "/x" "web" 80; mkRule "a.cn" "/" "web" 81; mkRule "b.cn" "/" "api" 82] 20 "m" 0 None.
Definition clusters : gmap string Store := {["c" := ∅]}.
Definition created : gmap string Store := snd (Create "c" "net" shop clusters).
Definition sorted_rules : list IngressRule := [mkRule "a.cn" "/" "web" 81; mkRule "b.cn" "/" "api" 82; mkRule "b.cn" "/x" "web" 80].
Definition size_of (r : result ingress_error Ingress) : option (Z * string) :=
  match r with Ok i => Some (i.(in_MaxBodySize), i.(in_MaxBodySizeUnit)) | Err _ => None end.
End Demo.
#[local] Existing Instances Demo.ports Demo.kind.

Lemma ingress_round_trip_witness :
  fst (Create "c" "net" Demo.shop Demo.clusters) = Ok (set_id "shop" (set_rules Demo.sorted_rules Demo.shop)) /\
  exists j, fst (Get "c" "net" "shop" Demo.created) = Ok j /\ in_Rules j = Demo.sorted_rules /\
    (in_MaxBodySize j, in_MaxBodySizeUnit j) = (20, "m").
Proof.
  assert (Hc : fst (Create "c" "net" Demo.shop Demo.clusters) = Ok (set_id "shop" (set_rules Demo.sorted_rules Demo.shop)))
    by (vm_compute; reflexivity).
  split; [done|]. apply pair_eq_snd in Hc. destruct (Get "c" "net" "shop" Demo.created) as [r ks2] eqn:Hg.
  destruct (ingress_round_trip (H0 := Demo.ports_laws) (KubeLaws0 := Demo.ingress_laws) "c" "net" Demo.shop _ _ _ _ _
    ltac:(repeat constructor) ltac:(reflexivity) ltac:(by apply Nat.leb_le) Hc Hg) as (_ & _ & Hr).
  destruct r as [j|e].
  - exists j. split; [done|]. destruct Hr as (_ & _ & -> & ->). done.
  - exfalso. apply (f_equal fst) in Hg. cbn [fst] in Hg. vm_compute in Hg. discriminate Hg.
Defined.

(** An update answers with the size limit it was sent, and keeps the old one. *)
Lemma update_ignores_size :
  let bigger := mkIngress "shop" "shop" Demo.sorted_rules 50 "m" 0 None in
  Demo.size_of (fst (Update "c" "net" bigger Demo.created)) = Some (50, "m") /\
  Demo.size_of (fst (Get "c" "net" "shop" (snd (Update "c" "net" bigger Demo.created)))) = Some (20, "m").
Proof. split; vm_compute; reflexivity. Qed.

(** One ingress with a rule that has no paths, which Kubernetes allows, and listing its
    namespace is a nil pointer. *)
Lemma rule_without_paths_panics :
  let bare := mkK8sIngress "bare" "net" ∅ [mkK8sRule "c.cn" None] "" 0 None in
  fst (List "c" "net" ({["c" := {[("net", "bare") := bare]}]} : gmap string Demo.Store)) = Err NilPointer.
Proof. vm_compute. reflexivity. Qed.
