(* ===== verification/Secret.v ===== *)
(** Secrets (pkg/handler/secret_manager.go and pkg/types/secret.go): named texts that
    Kubernetes keeps as bytes. *)
From S2P Require Import Prelude RestApi KubeApi ConfigMap.

Record SecretData := mkSecretData { sd_Key : string; sd_Value : string }.
#[export] Instance SecretData_eq_dec : EqDecision SecretData.
Proof. solve_decision. Defined.

(** types.Secret. *)
Record Secret := mkSecret {
  se_ID : string; se_Name : string; se_Data : list SecretData; se_CreationTimestamp : Z; se_DeletionTimestamp : option Z
}.

(** corev1.Secret. *)
Record K8sSecret := mkK8sSecret {
  ks_Namespace : string; ks_Name : string; ks_Data : gmap string string; ks_Type : string; ks_ResourceVersion : string;
  ks_CreationTimestamp : Z; ks_DeletionTimestamp : option Z
}.
#[export] Instance K8sSecret_object : KubeObject K8sSecret := {|
  Spec := gmap string string * string;
  kube_key o := (o.(ks_Namespace), o.(ks_Name));
  kube_spec o := (o.(ks_Data), o.(ks_Type));
  kube_deleting o := bool_decide (is_Some o.(ks_DeletionTimestamp))
|}.

Definition SecretTypeOpaque : string := "Opaque".
Inductive secret_error := SKube (e : kube_error) | ErrDuplicateKeyInSecret | ErrUpdateDeletingSecret.
#[export] Instance secret_error_eq_dec : EqDecision secret_error.
Proof. solve_decision. Defined.

(** The entries in order; a key that comes twice is an error. *)
Fixpoint secret_data (l : list SecretData) (data : gmap string string) : result secret_error (gmap string string) :=
  match l with
  | [] => Ok data
  | s :: l =>
      match data !! s.(sd_Key) with
      | Some _ => Err ErrDuplicateKeyInSecret
      | None => secret_data l (<[s.(sd_Key) := s.(sd_Value)]> data)
      end
  end.
Definition scSecretToK8sSecret (s : Secret) (namespace : string) : result secret_error K8sSecret :=
  result_bind (secret_data s.(se_Data) ∅) (fun data => Ok (mkK8sSecret namespace s.(se_Name) data SecretTypeOpaque "" 0 None)).

(** The entries in the order of a walk over the map. *)
Definition k8sSecretToSCSecret (k : K8sSecret) : Secret :=
  mkSecret k.(ks_Name) k.(ks_Name) ((fun kv => mkSecretData kv.1 kv.2) <$> map_to_list k.(ks_Data))
    k.(ks_CreationTimestamp) k.(ks_DeletionTimestamp).

Section Secret.
Context {K : Type} `{!KubeKind K K8sSecret}.

Definition getSecret (namespace name : string) : M K kube_error K8sSecret := kube_get namespace name.
Definition getSecrets (namespace : string) : M K kube_error (list K8sSecret) := kube_list namespace.
Definition createSecret (namespace : string) (s : Secret) : M K secret_error unit :=
  let! k8sSecret := lift (scSecretToK8sSecret s namespace) in
  do! rethrow SKube (kube_create k8sSecret) in ret tt.
Definition set_secret (data : gmap string string) (type : string) (k : K8sSecret) : K8sSecret :=
  mkK8sSecret k.(ks_Namespace) k.(ks_Name) data type k.(ks_ResourceVersion) k.(ks_CreationTimestamp) k.(ks_DeletionTimestamp).
Definition updateSecret (namespace : string) (s : Secret) : M K secret_error unit :=
  let! target := rethrow SKube (getSecret namespace s.(se_ID)) in
  match target.(ks_DeletionTimestamp) with
  | Some _ => throw ErrUpdateDeletingSecret
  | None =>
      let! k8sSecret := lift (scSecretToK8sSecret s namespace) in
      do! rethrow SKube (kube_update (set_secret k8sSecret.(ks_Data) k8sSecret.(ks_Type) target)) in ret tt
  end.
Definition deleteSecret (namespace name : string) : M K kube_error unit := kube_delete namespace name.

(** The handlers; unlike that of a config map, a key that comes twice is not a duplicate
    resource. *)
Definition create_error (e : secret_error) : api_error :=
  match e with SKube KAlreadyExists => DuplicateResource | _ => ConnectClusterFailed end.
Definition update_error (e : secret_error) : api_error :=
  match e with SKube KNotFound => NotFound | _ => ConnectClusterFailed end.

Definition Create (cluster namespace : string) (s : Secret) : M (gmap string K) api_error Secret :=
  on_cluster NotFound cluster
    (do! rethrow create_error (createSecret namespace s) in
     ret (mkSecret s.(se_Name) s.(se_Name) s.(se_Data) s.(se_CreationTimestamp) s.(se_DeletionTimestamp))).
Definition Update (cluster namespace : string) (s : Secret) : M (gmap string K) api_error Secret :=
  on_cluster NotFound cluster (do! rethrow update_error (updateSecret namespace s) in ret s).
Definition List (cluster namespace : string) : M (gmap string K) api_error (list Secret) :=
  on_cluster NotFound cluster
    (let! items := rethrow read_error (getSecrets namespace) in ret (k8sSecretToSCSecret <$> items)).
Definition Get (cluster namespace id : string) : M (gmap string K) api_error Secret :=
  on_cluster NotFound cluster
    (let! k8sSecret := rethrow read_error (getSecret namespace id) in ret (k8sSecretToSCSecret k8sSecret)).
Definition Delete (cluster namespace id : string) : M (gmap string K) api_error unit :=
  on_cluster NotFound cluster (rethrow read_error (deleteSecret namespace id)).
End Secret.

(** ** Facts *)

(** The loop is that of config maps. *)
Definition entry (s : SecretData) : Config := mkConfig s.(sd_Key) s.(sd_Value).
Lemma secret_data_config l data data' :
  secret_data l data = Ok data' <-> config_data (entry <$> l) data = Ok data'.
Proof.
  revert data. induction l as [|s l IH]; intros data; simpl; [naive_solver|].
  destruct (data !! sd_Key s); [done|apply IH].
Qed.

Lemma secret_entries l data :
  secret_data l ∅ = Ok data -> (fun kv => mkSecretData kv.1 kv.2) <$> map_to_list data ≡ₚ l.
Proof.
  intros Hd%secret_data_config. pose proof (config_data_spec _ _ _ Hd) as (Hnd & _ & Hin). apply NoDup_Permutation.
  - apply NoDup_fmap_2; [|apply NoDup_map_to_list]. intros [??] [??]. by intros [= -> ->].
  - apply (NoDup_fmap_1 (fun s => cf_Name (entry s))). rewrite <- list_fmap_compose in Hnd. done.
  - intros [n v]. rewrite list_elem_of_fmap. split.
    + intros ([n' v'] & [= -> ->] & Hnv%elem_of_map_to_list). apply Hin in Hnv as [Hnv|Hnv]; [done|].
      apply list_elem_of_fmap in Hnv as ([k w] & [= -> ->] & Hkw). done.
    + intros Hnv. exists (n, v). split; [done|]. apply elem_of_map_to_list, Hin. right.
      apply list_elem_of_fmap. by exists (mkSecretData n v).
Qed.

Section Facts.
Context {K : Type} `{!KubeKind K K8sSecret} `{!KubeLaws K K8sSecret}.

(** What is stored under the name of a secret. *)
Definition holds (namespace name : string) (l : list SecretData) (k : K) : Prop :=
  exists o : K8sSecret, kube_objects k !! (namespace, name) = Some o /\ o.(ks_Name) = name /\ secret_data l ∅ = Ok o.(ks_Data).

Lemma createSecret_holds namespace s (k k' : K) :
  createSecret namespace s k = (Ok tt, k') -> holds namespace s.(se_Name) s.(se_Data) k'.
Proof.
  unfold createSecret, scSecretToK8sSecret, bind, lift, rethrow, ret.
  destruct (secret_data _ _) as [data|e] eqn:Hd; simpl; [|done].
  destruct (kube_create _ k) as [[o|e] k1] eqn:Hc; [|done]. intros [= <-].
  apply kube_create_law in Hc as (Hkey & Hspec & _ & Hk). simpl in *. exists o. rewrite Hk, lookup_insert_eq.
  split; [done|]. injection Hkey as _ ->. injection Hspec as -> _. done.
Qed.

Lemma updateSecret_holds namespace s (k k' : K) :
  updateSecret namespace s k = (Ok tt, k') -> holds namespace s.(se_ID) s.(se_Data) k'.
Proof.
  unfold updateSecret, getSecret, scSecretToK8sSecret, bind, lift, rethrow, ret, throw.
  destruct (kube_get _ _ k) as [[t|e] k1] eqn:Hg; [|done]. apply kube_get_law in Hg as [_ [_ Hkey]]. simpl in Hkey |- *.
  destruct (ks_DeletionTimestamp t); [by intros [=]|]. destruct (secret_data _ _) as [data|e] eqn:Hd; simpl; [|by intros [=]].
  destruct (kube_update _ k1) as [[o|e] k2] eqn:Hu; [|done]. intros [= <-].
  apply kube_update_law in Hu as (Hkey' & Hspec & _ & Hk). simpl in *. rewrite Hkey in *. exists o.
  rewrite Hk, lookup_insert_eq. injection Hkey' as _ ->. injection Hspec as -> _. done.
Qed.

Lemma Get_holds cluster namespace name l (ks ks' : gmap string K) k r :
  ks !! cluster = Some k -> holds namespace name l k -> Get cluster namespace name ks = (r, ks') ->
  match r with
  | Ok s => s.(se_ID) = name /\ s.(se_Name) = name /\ s.(se_Data) ≡ₚ l
  | Err e => e = ServerError
  end.
Proof.
  intros Hk (o & Ho & Hname & Hd) Hg. apply (on_cluster_at _ _ _ _ _ _ k) in Hg as (k' & Hm & _); [|done].
  unfold bind, rethrow, ret, getSecret in Hm. destruct (kube_get namespace name k) as [rg k1] eqn:Hg.
  apply kube_get_stored with (o := o) in Hg as [->|(e & -> & Hne)]; [| |done].
  - injection Hm as <- _. simpl. split; [done|]. split; [done|]. by apply secret_entries.
  - injection Hm as <- _. by destruct e.
Qed.
End Facts.

(** A secret that was created or updated is read back with its name and the entries it
    was given, in some order; the read fails only as the cluster fails. *)
Lemma secret_round_trip {K : Type} `{!KubeKind K K8sSecret} `{!KubeLaws K K8sSecret}
    cluster namespace s answer (ks ks1 ks2 : gmap string K) r name :
  (Create cluster namespace s ks = (Ok answer, ks1) /\ name = s.(se_Name) \/
   Update cluster namespace s ks = (Ok answer, ks1) /\ name = s.(se_ID)) ->
  Get cluster namespace name ks1 = (r, ks2) ->
  answer.(se_Data) = s.(se_Data) /\
  match r with
  | Ok read => read.(se_ID) = name /\ read.(se_Name) = name /\ read.(se_Data) ≡ₚ s.(se_Data)
  | Err e => e = ServerError
  end.
Proof.
  intros [[Hc ->]|[Hc ->]] Hg; apply on_cluster_inv in Hc as [(? & ? & _)|(k & k1 & Hk & Hm & ->)]; try done;
    unfold bind, rethrow, ret in Hm.
  - destruct (createSecret namespace s k) as [[[]|e] k1'] eqn:Hs; [|done]. injection Hm as <- <-.
    apply createSecret_holds in Hs. split; [done|]. eapply Get_holds; [by rewrite lookup_insert_eq|done..].
  - destruct (updateSecret namespace s k) as [[[]|e] k1'] eqn:Hs; [|done]. injection Hm as <- <-.
    apply updateSecret_holds in Hs. split; [done|]. eapply Get_holds; [by rewrite lookup_insert_eq|done..].
Qed.

(** ** A cluster in memory *)

Module Demo.
Definition Store := gmap (string * string) K8sSecret.
#[export] Instance kind : KubeKind Store K8sSecret := fake_kind id (fun m _ => m) (fun k => (false, k)).
Lemma secret_laws : KubeLaws Store K8sSecret.
Proof. by apply fake_laws. Qed.
Definition login : Secret := mkSecret "" "login" [mkSecretData "user" "ben"; mkSecretData "password" "x"] 0 None.
Definition clusters : gmap string Store := {["c" := ∅]}.
End Demo.
#[local] Existing Instance Demo.kind.

Lemma secret_round_trip_witness :
  exists answer ks1 read,
    Create "c" "net" Demo.login Demo.clusters = (Ok answer, ks1) /\ fst (Get "c" "net" "login" ks1) = Ok read /\
    read.(se_Data) ≡ₚ [mkSecretData "user" "ben"; mkSecretData "password" "x"].
Proof.
  assert (Hc : fst (Create "c" "net" Demo.login Demo.clusters) = Ok (mkSecret "login" "login" Demo.login.(se_Data) 0 None))
    by (vm_compute; reflexivity).
  apply pair_eq_snd in Hc. destruct (Get "c" "net" "login" (snd (Create "c" "net" Demo.login Demo.clusters))) as [r ks2] eqn:Hg.
  destruct (secret_round_trip (KubeLaws0 := Demo.secret_laws) "c" "net" Demo.login _ _ _ _ _ "login"
    ltac:(left; split; [exact Hc|reflexivity]) Hg) as [_ Hr].
  destruct r as [read|e].
  - do 2 eexists. exists read. split; [exact Hc|]. rewrite Hg. split; [done|]. apply Hr.
  - exfalso. apply (f_equal fst) in Hg. cbn [fst] in Hg. vm_compute in Hg. discriminate Hg.
Defined.
