(* ===== verification/PersistentVolume.v ===== *)
(** Persistent volumes, their claims and the storage classes (pkg/handler/pv_manager.go,
    pvc_manager.go and storageclass_manager.go). *)
From S2P Require Import Prelude GoStrings RestApi KubeApi.

Definition ResourceStorage : string := "storage".
Definition annStorageProvisioner : string := "volume.beta.kubernetes.io/storage-provisioner".
Definition PersistentVolumeFilesystem : string := "Filesystem".

(** types.ClaimRef, PersistentVolume and PersistentVolumeClaim. *)
Record ClaimRef := mkClaimRef { cr_Kind : string; cr_Name : string; cr_Namespace : string }.
Record PersistentVolume := mkPV {
  pv_ID : string; pv_Name : string; pv_StorageSize : string; pv_StorageClassName : string; pv_ClaimRef : ClaimRef;
  pv_Status : string; pv_CreationTimestamp : Z; pv_DeletionTimestamp : option Z
}.
Record PersistentVolumeClaim := mkPVC {
  pvc_ID : string; pvc_Name : string; pvc_RequestStorageSize : string; pvc_StorageClassName : string; pvc_VolumeName : string;
  pvc_ActualStorageSize : string; pvc_Status : string; pvc_Driver : string; pvc_Used : bool; pvc_Pods : list string; pvc_Node : string;
  pvc_CreationTimestamp : Z; pvc_DeletionTimestamp : option Z
}.

(** types.StorageClass and storagev1.StorageClass. *)
Record StorageClass := mkShownClass { sl_ID : string; sl_Name : string; sl_CreationTimestamp : Z; sl_DeletionTimestamp : option Z }.
Record K8sStorageClass := mkStorageClass {
  sc_Name : string; sc_Annotations : gmap string string; sc_Parameters : gmap string string; sc_CreationTimestamp : Z;
  sc_DeletionTimestamp : option Z
}.
#[export] Instance K8sStorageClass_object : KubeObject K8sStorageClass := {|
  Spec := gmap string string; kube_key o := ("", o.(sc_Name)); kube_spec := sc_Parameters;
  kube_deleting o := bool_decide (is_Some o.(sc_DeletionTimestamp)) |}.
Definition StorageClassDefaultKey : string := "storageclass.kubernetes.io/is-default-class".
Definition strToBool (s : string) : bool := String.eqb s "true".
Definition k8sStorageClassToScStorageClass (k : K8sStorageClass) : StorageClass :=
  mkShownClass k.(sc_Name) k.(sc_Name) k.(sc_CreationTimestamp) k.(sc_DeletionTimestamp).

Section Volumes.
Context `{Quantities}.

(** corev1.PersistentVolume and PersistentVolumeClaim. *)
Record K8sPV := mkK8sPV {
  kpv_Name : string; kpv_Capacity : gmap string Quantity; kpv_StorageClassName : string; kpv_ClaimRef : option ClaimRef;
  kpv_Phase : string; kpv_CreationTimestamp : Z; kpv_DeletionTimestamp : option Z
}.
#[export] Instance K8sPV_object : KubeObject K8sPV := {|
  Spec := gmap string Quantity * string;
  kube_key o := ("", o.(kpv_Name));
  kube_spec o := (o.(kpv_Capacity), o.(kpv_StorageClassName));
  kube_deleting o := bool_decide (is_Some o.(kpv_DeletionTimestamp))
|}.
Record K8sPVC := mkK8sPVC {
  kc_Namespace : string; kc_Name : string; kc_Annotations : gmap string string; kc_AccessModes : list string;
  kc_Requests : gmap string Quantity; kc_StorageClassName : option string; kc_VolumeMode : option string; kc_VolumeName : string;
  kc_Capacity : gmap string Quantity; kc_Phase : string; kc_CreationTimestamp : Z; kc_DeletionTimestamp : option Z
}.
#[export] Instance K8sPVC_object : KubeObject K8sPVC := {|
  Spec := list string * gmap string Quantity * option string * option string;
  kube_key o := (o.(kc_Namespace), o.(kc_Name));
  kube_spec o := (o.(kc_AccessModes), o.(kc_Requests), o.(kc_StorageClassName), o.(kc_VolumeMode));
  kube_deleting o := bool_decide (is_Some o.(kc_DeletionTimestamp))
|}.

Definition size_text (l : gmap string Quantity) : string :=
  match l !! ResourceStorage with Some q => Quantity_String q | None => "" end.

Definition k8sPVToSCPV (k : K8sPV) : PersistentVolume :=
  mkPV k.(kpv_Name) k.(kpv_Name) (size_text k.(kpv_Capacity)) k.(kpv_StorageClassName)
    (default (mkClaimRef "" "" "") k.(kpv_ClaimRef)) k.(kpv_Phase) k.(kpv_CreationTimestamp) k.(kpv_DeletionTimestamp).
Definition k8sPVCToSCPVC (k : K8sPVC) : PersistentVolumeClaim :=
  mkPVC k.(kc_Name) k.(kc_Name) (size_text k.(kc_Requests)) (default "" k.(kc_StorageClassName)) k.(kc_VolumeName)
    (size_text k.(kc_Capacity)) k.(kc_Phase) (default "" (k.(kc_Annotations) !! annStorageProvisioner))
    false [] "" k.(kc_CreationTimestamp) k.(kc_DeletionTimestamp).

(** ** Calls on a cluster *)

Context {K : Type} `{!KubeKind K K8sPV} `{!KubeKind K K8sPVC} `{!KubeKind K K8sStorageClass}.

Definition getPersistentVolume (name : string) : M K kube_error K8sPV := kube_get "" name.
Definition getPersistentVolumes : M K kube_error (list K8sPV) := kube_list "".
Definition deletePersistentVolume (name : string) : M K kube_error unit := kube_delete (Obj := K8sPV) "" name.
Definition getPersistentVolumeClaim (namespace name : string) : M K kube_error K8sPVC := kube_get namespace name.
Definition deletePersistentVolumeClaim (namespace name : string) : M K kube_error unit :=
  kube_delete (Obj := K8sPVC) namespace name.
Definition getStorageClass (name : string) : M K kube_error K8sStorageClass := kube_get "" name.
Definition getStorageClasses : M K kube_error (list K8sStorageClass) := kube_list "".
(** A class of the name, or any class that is the default one; when the classes cannot be
    listed there are none. *)
Definition isStorageClassOrDefaultExist {E} (name : string) : M K E bool :=
  let! scs := attempt getStorageClasses in
  ret (existsb (fun sc => String.eqb sc.(sc_Name) name ||
                          match sc.(sc_Annotations) !! StorageClassDefaultKey with Some d => strToBool d | None => false end)
         (match scs with Ok items => items | Err _ => [] end)).

(** The handlers of persistent volumes and storage classes. *)
Definition read_error (e : kube_error) : api_error := if IsNotFound e then NotFound else ServerError.
Definition List (cluster : string) : M (gmap string K) api_error (list PersistentVolume) :=
  on_cluster NotFound cluster (let! items := rethrow read_error getPersistentVolumes in ret (k8sPVToSCPV <$> items)).
Definition Get (cluster id : string) : M (gmap string K) api_error PersistentVolume :=
  on_cluster NotFound cluster (let! pv := rethrow read_error (getPersistentVolume id) in ret (k8sPVToSCPV pv)).
Definition Delete (cluster id : string) : M (gmap string K) api_error unit :=
  on_cluster NotFound cluster (rethrow read_error (deletePersistentVolume id)).
Definition ListStorageClasses (cluster : string) : M (gmap string K) api_error (list StorageClass) :=
  on_cluster NotFound cluster
    (let! items := rethrow read_error getStorageClasses in ret (k8sStorageClassToScStorageClass <$> items)).
End Volumes.
