(* ===== verification/PodTemplate.v ===== *)
(** Pod templates (pkg/handler/podtemplate.go, and of k8sutil.go what it calls): the
    containers and volumes of a workload, to and from Kubernetes, and the claims that are
    made and deleted with it. *)
From S2P Require Import Prelude GoStrings RestApi KubeApi ConfigMap Secret PersistentVolume.

(** types.Container and its parts, PersistentVolumeTemplate, AdvancedOptions. *)
Record ContainerPort := mkPort { cp_Name : string; cp_Port : Z; cp_Protocol : string }.
Record EnvVar := mkEnv { ev_Name : string; ev_Value : string }.
Record Volume := mkVolume { vo_Type : string; vo_Name : string; vo_MountPath : string }.
Record Container := mkContainer {
  co_Name : string; co_Image : string; co_Command : list string; co_Args : list string;
  co_ExposedPorts : list ContainerPort; co_Env : list EnvVar; co_Volumes : list Volume
}.
Record PersistentVolumeTemplate := mkTemplate { pt_Name : string; pt_Size : string; pt_StorageClassName : string }.
Record ExposedMetric := mkMetric { em_Path : string; em_Port : Z }.
Record AdvancedOptions := mkOptions {
  ao_ExposedMetric : ExposedMetric; ao_ReloadWhenConfigChange : bool; ao_DeletePVsWhenDeleteWorkload : bool;
  ao_InjectServiceMesh : bool
}.
#[export] Instance PersistentVolumeTemplate_eq_dec : EqDecision PersistentVolumeTemplate.
Proof. solve_decision. Defined.
#[export] Instance Volume_eq_dec : EqDecision Volume.
Proof. solve_decision. Defined.
#[export] Instance Container_eq_dec : EqDecision Container.
Proof.
  assert (EqDecision ContainerPort) by solve_decision. assert (EqDecision EnvVar) by solve_decision. solve_decision.
Defined.

Definition VolumeTypeConfigMap : string := "configmap".
Definition VolumeTypeSecret : string := "secret".
Definition VolumeTypePersistentVolume : string := "persistentVolume".
Definition StorageClassNameTemp : string := "temporary".
Definition DefaultRequestCPU : string := "10m".
Definition DefaultRequestMemory : string := "20Mi".
Definition VolumeNamePrefix : string := "vol".

(** Annotations. *)
Definition AnnotationForCreateWorkload : string := "init version".
Definition ChangeCauseAnnotation : string := "kubernetes.io/change-cause".
Definition AnnkeyForWordloadAdvancedoption : string := "zcloud_workload_advanded_options".
Definition AnnkeyForPromethusScrape : string := "prometheus.io/scrape".
Definition AnnkeyForPromethusPort : string := "prometheus.io/port".
Definition AnnkeyForPromethusPath : string := "prometheus.io/path".
Definition AnnKeyForReloadWhenConfigChange : string := "zcloud.cn/update-on-config-change".
Definition AnnKeyForConfigHashAnnotation : string := "zcloud.cn/config-hash".
Definition AnnkeyForDeletePVsWhenDeleteWorkload : string := "zcloud_delete_pvs_when_delete_workload".
Definition AnnKeyForInjectServiceMesh : string := "linkerd.io/inject".

Inductive pod_error :=
  | PKube (e : kube_error)        (* an error of the cluster, passed on as it is *)
  | ErrEmptyStorageClass | ErrSize | ErrStorageClass | ErrNoSize
  | ErrVolumeNotFound | ErrVolumeType | ErrProtocol | ErrPortName | ErrDuplicatePortName | ErrCreatePVC
  | NilPointer | MustParsePanic.

(** json.Marshal of the options, and json.Unmarshal into a zero value whose error is
    dropped; the digest of the configuration a pod uses: SHA-256 of its JSON. *)
Class WorkloadText := {
  marshal_options : AdvancedOptions -> string;
  unmarshal_options : string -> AdvancedOptions;
  config_digest : gmap string (gmap string string) -> gmap string (gmap string string) -> string
}.
Class WorkloadTextLaws `{WorkloadText} : Prop :=
  unmarshal_marshal_options o : unmarshal_options (marshal_options o) = o.

(** ** Names *)

(** scPortProtocolToK8SProtocol. *)
Definition scPortProtocolToK8SProtocol (protocol : string) : option string :=
  if String.eqb (ToLower protocol) "tcp" then Some "TCP"
  else if String.eqb (ToLower protocol) "udp" then Some "UDP"
  else None.

Definition is_letter (c : ascii) : bool := let n := N_of_ascii c in (97 <=? n)%N && (n <=? 122)%N.
Definition is_digit (c : ascii) : bool := let n := N_of_ascii c in (48 <=? n)%N && (n <=? 57)%N.
Definition is_hyphen (c : ascii) : bool := Ascii.eqb c "-".
Fixpoint double_hyphen (l : list ascii) : bool :=
  match l with
  | a :: ((b :: _) as tl) => is_hyphen a && is_hyphen b || double_hyphen tl
  | _ => false
  end.
Definition maxPortNameLen : nat := 15.
Definition validatePortName (name : string) : bool :=
  let l := list_ascii_of_string name in
  (length l <=? maxPortNameLen)%nat &&
  (negb (bool_decide (l = [])) && forallb (fun c => is_hyphen c || is_letter c || is_digit c) l) &&
  existsb is_letter l &&
  negb (double_hyphen l) &&
  match head l, last l with
  | Some a, Some z => negb (is_hyphen a || is_hyphen z)
  | _, _ => true
  end.

Section PodTemplate.
Context `{Quantities}.

(** ** Kubernetes objects *)

(** corev1.VolumeSource: one pointer per kind of source. *)
Record VolumeSource := mkSource {
  vs_ConfigMap : option string; vs_Secret : option string; vs_PersistentVolumeClaim : option string;
  vs_EmptyDir : option (option Quantity)
}.
Record K8sVolume := mkK8sVolume { kv_Name : string; kv_Source : VolumeSource }.
Record VolumeMount := mkMount { vm_Name : string; vm_MountPath : string; vm_ReadOnly : bool }.
Record K8sContainerPort := mkK8sPort { kp_Name : string; kp_ContainerPort : Z; kp_Protocol : string }.
Record K8sContainer := mkK8sContainer {
  kn_Name : string; kn_Image : string; kn_Command : list string; kn_Args : list string; kn_VolumeMounts : list VolumeMount;
  kn_Ports : list K8sContainerPort; kn_Env : list EnvVar; kn_Requests : gmap string Quantity
}.
Record PodSpec := mkPodSpec { ps_Containers : list K8sContainer; ps_Volumes : list K8sVolume }.

(** ** From the API to Kubernetes *)

Definition parse_size (size : string) : result pod_error (option Quantity) :=
  if String.eqb size "" then Ok None
  else match ParseQuantity size with None => Err ErrSize | Some q => Ok (Some q) end.
Definition claim (name accessMode class : string) (size : Quantity) : K8sPVC :=
  mkK8sPVC "" name ∅ [accessMode] {[ResourceStorage := size]} (Some class) (Some PersistentVolumeFilesystem) "" ∅ "" 0 None.
Definition empty_dir (name : string) (size : option Quantity) : K8sVolume :=
  mkK8sVolume name (mkSource None None None (Some size)).

Section Claims.
Context {K : Type} `{!KubeKind K K8sPV} `{!KubeKind K K8sPVC} `{!KubeKind K K8sStorageClass}.

(** scPVCsToK8sVolumesAndPVCs.  When a storage class has no access mode the error that is
    formatted is nil. *)
Fixpoint scPVCsToK8sVolumesAndPVCs (pvs : list PersistentVolumeTemplate) : M K pod_error (list K8sVolume * list K8sPVC) :=
  match pvs with
  | [] => ret ([], [])
  | pv :: pvs =>
      let storageClassName := pv.(pt_StorageClassName) in
      if String.eqb storageClassName "" then throw ErrEmptyStorageClass
      else
        let! k8sQuantity := lift (parse_size pv.(pt_Size)) in
        if String.eqb storageClassName StorageClassNameTemp then
          let! rest := scPVCsToK8sVolumesAndPVCs pvs in
          ret (empty_dir pv.(pt_Name) k8sQuantity :: rest.1, rest.2)
        else
          let! storageClass := rethrow (fun _ => ErrStorageClass) (getStorageClass storageClassName) in
          match storageClass.(sc_Parameters) !! "accessMode" with
          | None => throw NilPointer
          | Some accessMode =>
              match k8sQuantity with
              | None => throw ErrNoSize
              | Some size =>
                  let! rest := scPVCsToK8sVolumesAndPVCs pvs in
                  ret (rest.1, claim pv.(pt_Name) accessMode storageClassName size :: rest.2)
              end
          end
  end.
End Claims.

(** The name, the source and the mode of the volume of a mount. *)
Definition named_volume (c : Container) (i : nat) : string :=
  c.(co_Name) +:+ "-" +:+ VolumeNamePrefix +:+ Itoa (Z.of_nat i).
Definition mount_source (k8sEmptyDirs : list K8sVolume) (k8sPVCs : list K8sPVC) (c : Container) (i : nat) (v : Volume)
    : result pod_error (string * VolumeSource * bool) :=
  if String.eqb v.(vo_Type) VolumeTypeConfigMap then Ok (named_volume c i, mkSource (Some v.(vo_Name)) None None None, true)
  else if String.eqb v.(vo_Type) VolumeTypeSecret then Ok (named_volume c i, mkSource None (Some v.(vo_Name)) None None, true)
  else if String.eqb v.(vo_Type) VolumeTypePersistentVolume then
    match find (fun d => String.eqb d.(kv_Name) v.(vo_Name)) k8sEmptyDirs with
    | Some d => Ok (d.(kv_Name), d.(kv_Source), false)
    | None =>
        match find (fun p => String.eqb p.(kc_Name) v.(vo_Name)) k8sPVCs with
        | Some p => Ok (p.(kc_Name), mkSource None None (Some v.(vo_Name)) None, false)
        | None => Err ErrVolumeNotFound
        end
    end
  else Err ErrVolumeType.

(** One round: the volume is declared unless it is a persistent one that is there. *)
Definition mount_volume k8sEmptyDirs k8sPVCs (c : Container) (i : nat) (v : Volume) (k8sVolumes : list K8sVolume)
    : result pod_error (list K8sVolume * VolumeMount) :=
  result_bind (mount_source k8sEmptyDirs k8sPVCs c i v) (fun '(volumeName, volumeSource, readOnly) =>
    let declared := negb readOnly && existsb (fun kv => String.eqb kv.(kv_Name) volumeName) k8sVolumes in
    Ok (if declared then k8sVolumes else k8sVolumes ++ [mkK8sVolume volumeName volumeSource],
        mkMount volumeName v.(vo_MountPath) readOnly)).
Fixpoint mount_volumes k8sEmptyDirs k8sPVCs (c : Container) (i : nat) (vs : list Volume) (k8sVolumes : list K8sVolume)
    : result pod_error (list K8sVolume * list VolumeMount) :=
  match vs with
  | [] => Ok (k8sVolumes, [])
  | v :: vs =>
      result_bind (mount_volume k8sEmptyDirs k8sPVCs c i v k8sVolumes) (fun '(k8sVolumes, m) =>
      result_bind (mount_volumes k8sEmptyDirs k8sPVCs c (S i) vs k8sVolumes) (fun '(k8sVolumes, ms) =>
      Ok (k8sVolumes, m :: ms)))
  end.

Fixpoint container_ports (portNames : list string) (specs : list ContainerPort) : result pod_error (list K8sContainerPort) :=
  match specs with
  | [] => Ok []
  | spec :: specs =>
      match scPortProtocolToK8SProtocol spec.(cp_Protocol) with
      | None => Err ErrProtocol
      | Some protocol =>
          if negb (validatePortName spec.(cp_Name)) then Err ErrPortName
          else if existsb (String.eqb spec.(cp_Name)) portNames then Err ErrDuplicatePortName
          else result_bind (container_ports (portNames ++ [spec.(cp_Name)]) specs) (fun ports =>
                 Ok (mkK8sPort spec.(cp_Name) (int32 spec.(cp_Port)) protocol :: ports))
      end
  end.

Definition MustParse (s : string) : result pod_error Quantity := of_option MustParsePanic (ParseQuantity s).
Definition default_requests : result pod_error (gmap string Quantity) :=
  result_bind (MustParse DefaultRequestCPU) (fun cpu =>
  result_bind (MustParse DefaultRequestMemory) (fun memory => Ok {["cpu" := cpu; "memory" := memory]})).

Fixpoint pod_containers k8sEmptyDirs k8sPVCs (containers : list Container) (k8sVolumes : list K8sVolume)
    : result pod_error (list K8sVolume * list K8sContainer) :=
  match containers with
  | [] => Ok (k8sVolumes, [])
  | c :: containers =>
      result_bind (mount_volumes k8sEmptyDirs k8sPVCs c 0 c.(co_Volumes) k8sVolumes) (fun '(k8sVolumes, mounts) =>
      result_bind (container_ports [] c.(co_ExposedPorts)) (fun ports =>
      result_bind default_requests (fun requests =>
      result_bind (pod_containers k8sEmptyDirs k8sPVCs containers k8sVolumes) (fun '(k8sVolumes, k8sContainers) =>
      Ok (k8sVolumes,
          mkK8sContainer c.(co_Name) c.(co_Image) c.(co_Command) c.(co_Args) mounts ports c.(co_Env) requests :: k8sContainers)))))
  end.
Definition scContainersAndPVToK8sPodSpec (containers : list Container) k8sEmptyDirs k8sPVCs : result pod_error PodSpec :=
  result_bind (pod_containers k8sEmptyDirs k8sPVCs containers []) (fun '(k8sVolumes, k8sContainers) =>
    Ok (mkPodSpec k8sContainers k8sVolumes)).

(** ** From Kubernetes to the API *)

(** What a mount of a volume shows, and the template it stands for; the sources are looked
    at in this order. *)
Definition volume_of (v : K8sVolume) (mountPath : string) : option Volume :=
  let s := v.(kv_Source) in
  match s.(vs_ConfigMap), s.(vs_Secret), s.(vs_PersistentVolumeClaim), s.(vs_EmptyDir) with
  | Some name, _, _, _ => Some (mkVolume VolumeTypeConfigMap name mountPath)
  | None, Some name, _, _ => Some (mkVolume VolumeTypeSecret name mountPath)
  | None, None, Some name, _ => Some (mkVolume VolumeTypePersistentVolume name mountPath)
  | None, None, None, Some _ => Some (mkVolume VolumeTypePersistentVolume v.(kv_Name) mountPath)
  | None, None, None, None => None
  end.
Definition template_of (v : K8sVolume) : option PersistentVolumeTemplate :=
  let s := v.(kv_Source) in
  match s.(vs_ConfigMap), s.(vs_Secret), s.(vs_PersistentVolumeClaim), s.(vs_EmptyDir) with
  | None, None, Some name, _ => if String.eqb name "" then None else Some (mkTemplate name "" "")
  | None, None, None, Some size =>
      if String.eqb v.(kv_Name) "" then None
      else Some (mkTemplate v.(kv_Name) (match size with Some q => Quantity_String q | None => "" end) StorageClassNameTemp)
  | _, _, _, _ => None
  end.
(** The first volume of the name. *)
Definition find_volume (k8sVolumes : list K8sVolume) (vm : VolumeMount) : option K8sVolume :=
  find (fun v => String.eqb v.(kv_Name) vm.(vm_Name)) k8sVolumes.
Definition read_mount (k8sVolumes : list K8sVolume) (vm : VolumeMount) : option Volume :=
  v ← find_volume k8sVolumes vm; volume_of v vm.(vm_MountPath).
Definition read_template (k8sVolumes : list K8sVolume) (vm : VolumeMount) : option PersistentVolumeTemplate :=
  find_volume k8sVolumes vm ≫= template_of.
Definition add_template (templates : list PersistentVolumeTemplate) (t : PersistentVolumeTemplate) : list PersistentVolumeTemplate :=
  if existsb (fun t' => String.eqb t'.(pt_Name) t.(pt_Name)) templates then templates else templates ++ [t].

Definition read_port (p : K8sContainerPort) : ContainerPort :=
  mkPort p.(kp_Name) p.(kp_ContainerPort) (ToLower p.(kp_Protocol)).
Definition read_container (k8sVolumes : list K8sVolume) (c : K8sContainer) : Container :=
  mkContainer c.(kn_Name) c.(kn_Image) c.(kn_Command) c.(kn_Args) (read_port <$> c.(kn_Ports)) c.(kn_Env)
    (omap (read_mount k8sVolumes) c.(kn_VolumeMounts)).
Definition k8sPodSpecToScContainersAndVCTemplates (k8sContainers : list K8sContainer) (k8sVolumes : list K8sVolume)
    : list Container * list PersistentVolumeTemplate :=
  (read_container k8sVolumes <$> k8sContainers,
   foldl add_template [] (omap (read_template k8sVolumes) (k8sContainers ≫= kn_VolumeMounts))).

(** ** Annotations *)

Context `{WorkloadText}.

(** The fields of a workload that are read by their names; [po_StatefulSet] is its type. *)
Record PodOwner := mkOwner {
  po_Name : string; po_AdvancedOptions : AdvancedOptions; po_Containers : list Container;
  po_PersistentVolumes : list PersistentVolumeTemplate; po_Memo : string; po_StatefulSet : bool
}.
Record ObjectMeta := mkMeta { om_Name : string; om_Namespace : string; om_Labels : gmap string string; om_Annotations : gmap string string }.
Record PodTemplateSpec := mkPodTemplate { tp_Meta : ObjectMeta; tp_Spec : PodSpec }.

Definition insert_if (b : bool) (k v : string) (m : gmap string string) : gmap string string := if b then <[k := v]> m else m.
Definition generatePodOwnerObjectMeta (namespace : string) (owner : PodOwner) : ObjectMeta :=
  let opts := owner.(po_AdvancedOptions) in
  let memo := if String.eqb owner.(po_Memo) "" then AnnotationForCreateWorkload else owner.(po_Memo) in
  mkMeta owner.(po_Name) namespace ∅
    (insert_if opts.(ao_DeletePVsWhenDeleteWorkload) AnnkeyForDeletePVsWhenDeleteWorkload "true"
    (insert_if opts.(ao_ReloadWhenConfigChange) AnnKeyForReloadWhenConfigChange "true"
       (<[ChangeCauseAnnotation := memo]> {[AnnkeyForWordloadAdvancedoption := marshal_options opts]}))).

Definition k8sAnnotationsToScExposedMetric (annotations : gmap string string) : ExposedMetric :=
  match annotations !! AnnkeyForPromethusScrape with
  | Some doScrape =>
      if String.eqb doScrape "true"
      then mkMetric (default "" (annotations !! AnnkeyForPromethusPath))
             (Atoi_value (default "" (annotations !! AnnkeyForPromethusPort)))
      else mkMetric "" 0
  | None => mkMetric "" 0
  end.

Definition addWorkloadUpdateMemoToAnnotations (annotations : gmap string string) (memo : string) : gmap string string :=
  <[ChangeCauseAnnotation := memo]> annotations.

(** The conditions of a workload; a deployment's have one time more. *)
Record K8sCondition := mkK8sCondition {
  kcd_Type : string; kcd_Status : string; kcd_LastUpdateTime : Z; kcd_LastTransitionTime : Z; kcd_Reason : string; kcd_Message : string
}.
Record WorkloadCondition := mkCondition {
  wc_Type : string; wc_Status : string; wc_LastTransitionTime : Z; wc_LastUpdateTime : option Z; wc_Reason : string; wc_Message : string
}.
Definition k8sWorkloadConditionsToScWorkloadConditions (k8sConditions : list K8sCondition) (isDeploy : bool) : list WorkloadCondition :=
  (fun c => mkCondition c.(kcd_Type) c.(kcd_Status) c.(kcd_LastTransitionTime)
              (if isDeploy then Some c.(kcd_LastUpdateTime) else None) c.(kcd_Reason) c.(kcd_Message)) <$> k8sConditions.

(** The objects a pod uses, each once; [seen] holds the names of the config maps and of the
    secrets that were read. *)
Inductive ConfigObject := UsedConfigMap (cm : K8sConfigMap) | UsedSecret (s : K8sSecret).

Section Calls.
Context {K : Type} `{!KubeKind K K8sPV} `{!KubeKind K K8sPVC} `{!KubeKind K K8sStorageClass}
  `{!KubeKind K K8sConfigMap} `{!KubeKind K K8sSecret}.

Fixpoint used_configs (namespace : string) (volumes : list Volume) (configmaps secrets : gset string)
    : M K kube_error (list ConfigObject) :=
  match volumes with
  | [] => ret []
  | v :: volumes =>
      if String.eqb v.(vo_Type) VolumeTypeConfigMap then
        if bool_decide (v.(vo_Name) ∈ configmaps) then used_configs namespace volumes configmaps secrets
        else
          let! cm := getConfigMap namespace v.(vo_Name) in
          let! rest := used_configs namespace volumes ({[v.(vo_Name)]} ∪ configmaps) secrets in
          ret (UsedConfigMap cm :: rest)
      else if String.eqb v.(vo_Type) VolumeTypeSecret then
        if bool_decide (v.(vo_Name) ∈ secrets) then used_configs namespace volumes configmaps secrets
        else
          let! secret := getSecret namespace v.(vo_Name) in
          let! rest := used_configs namespace volumes configmaps ({[v.(vo_Name)]} ∪ secrets) in
          ret (UsedSecret secret :: rest)
      else used_configs namespace volumes configmaps secrets
  end.
Definition getConfigmapAndSecretContainersUse (namespace : string) (containers : list Container) : M K kube_error (list ConfigObject) :=
  used_configs namespace (containers ≫= co_Volumes) ∅ ∅.

(** Both maps are filled by name, the last object of a name staying. *)
Definition calculateConfigHash (objects : list ConfigObject) : string :=
  let put o '(cms, ss) := match o with
                          | UsedConfigMap cm => (<[cm.(km_Name) := cm.(km_Data)]> cms, ss)
                          | UsedSecret s => (cms, <[s.(ks_Name) := s.(ks_Data)]> ss)
                          end in
  let '(cms, ss) := foldl (fun m o => put o m) (∅, ∅) objects in config_digest cms ss.

Definition createPodTempateObjectMeta (name namespace : string) (opts : AdvancedOptions) (containers : list Container)
    : M K kube_error ObjectMeta :=
  let metric := opts.(ao_ExposedMetric) in
  let scraped := if negb (metric.(em_Port) =? 0) && negb (String.eqb metric.(em_Path) "")
                 then <[AnnkeyForPromethusPath := metric.(em_Path)]>
                        (<[AnnkeyForPromethusPort := Itoa metric.(em_Port)]> {[AnnkeyForPromethusScrape := "true"]})
                 else ∅ in
  let! hashed := (if opts.(ao_ReloadWhenConfigChange) then
                    let! configs := getConfigmapAndSecretContainersUse namespace containers in
                    ret (match configs with
                         | [] => scraped
                         | _ => <[AnnKeyForConfigHashAnnotation := calculateConfigHash configs]> scraped
                         end)
                  else ret scraped) in
  ret (mkMeta "" "" {["app" := name]} (insert_if opts.(ao_InjectServiceMesh) AnnKeyForInjectServiceMesh "enabled" hashed)).

(** ** Claims *)

Definition with_namespace (namespace : string) (p : K8sPVC) : K8sPVC :=
  mkK8sPVC namespace p.(kc_Name) p.(kc_Annotations) p.(kc_AccessModes) p.(kc_Requests) p.(kc_StorageClassName)
    p.(kc_VolumeMode) p.(kc_VolumeName) p.(kc_Capacity) p.(kc_Phase) p.(kc_CreationTimestamp) p.(kc_DeletionTimestamp).

(** deletePVC: every error is only logged. *)
Definition deletePVC {E} (namespace pvcName : string) : M K E unit :=
  let! r := attempt (getPersistentVolumeClaim namespace pvcName) in
  match r with
  | Err _ => ret tt
  | Ok k8sPVC =>
      do! attempt (deletePersistentVolumeClaim namespace pvcName) in
      if String.eqb k8sPVC.(kc_VolumeName) "" then ret tt
      else
        let! v := attempt (getPersistentVolume k8sPVC.(kc_VolumeName)) in
        match v with
        | Err _ => ret tt
        | Ok _ => do! attempt (deletePersistentVolume k8sPVC.(kc_VolumeName)) in ret tt
        end
  end.
Fixpoint deletePVCs {E} (namespace : string) (k8sPVCs : list K8sPVC) : M K E unit :=
  match k8sPVCs with
  | [] => ret tt
  | pvc :: k8sPVCs => do! deletePVC namespace pvc.(kc_Name) in deletePVCs namespace k8sPVCs
  end.
Fixpoint deleteWorkLoadPVCs {E} (namespace : string) (k8sVolumes : list K8sVolume) : M K E unit :=
  match k8sVolumes with
  | [] => ret tt
  | v :: k8sVolumes =>
      do! match v.(kv_Source).(vs_PersistentVolumeClaim) with
          | Some claimName => deletePVC namespace claimName
          | None => ret tt
          end in
      deleteWorkLoadPVCs namespace k8sVolumes
  end.

(** createPVCs: the loop ends at the first error, after which all the claims are deleted. *)
Fixpoint create_claims (namespace : string) (k8sPVCs : list K8sPVC) : M K kube_error unit :=
  match k8sPVCs with
  | [] => ret tt
  | pvc :: k8sPVCs => do! kube_create (with_namespace namespace pvc) in create_claims namespace k8sPVCs
  end.
Definition createPVCs (namespace : string) (k8sPVCs : list K8sPVC) : M K pod_error unit :=
  let! r := attempt (create_claims namespace k8sPVCs) in
  match r with
  | Ok _ => ret tt
  | Err _ => do! deletePVCs namespace k8sPVCs in throw ErrCreatePVC
  end.

Fixpoint getPVCs (namespace : string) (templates : list PersistentVolumeTemplate) : M K kube_error (list PersistentVolumeTemplate) :=
  match templates with
  | [] => ret []
  | t :: templates =>
      if String.eqb t.(pt_StorageClassName) StorageClassNameTemp then getPVCs namespace templates
      else
        let! k8sPVC := getPersistentVolumeClaim namespace t.(pt_Name) in
        let pvc := k8sPVCToSCPVC k8sPVC in
        let! rest := getPVCs namespace templates in
        ret (mkTemplate pvc.(pvc_Name) pvc.(pvc_RequestStorageSize) pvc.(pvc_StorageClassName) :: rest)
  end.

Definition scPodSpecToK8sPodSpecAndPVCs (containers : list Container) (pvs : list PersistentVolumeTemplate)
    : M K pod_error (PodSpec * list K8sPVC) :=
  let! volumes := scPVCsToK8sVolumesAndPVCs pvs in
  let! k8sPodSpec := lift (scContainersAndPVToK8sPodSpec containers volumes.1 volumes.2) in
  ret (k8sPodSpec, volumes.2).

Definition createPodTempateSpec (namespace : string) (owner : PodOwner) : M K pod_error (PodTemplateSpec * list K8sPVC) :=
  let! spec := scPodSpecToK8sPodSpecAndPVCs owner.(po_Containers) owner.(po_PersistentVolumes) in
  let! meta := rethrow PKube (createPodTempateObjectMeta owner.(po_Name) namespace owner.(po_AdvancedOptions) owner.(po_Containers)) in
  do! (if owner.(po_StatefulSet) then ret tt else createPVCs namespace spec.2) in
  ret (mkPodTemplate meta spec.1, spec.2).
End Calls.
End PodTemplate.

(** ** Port names *)

Definition alphanumeric (w : string) : Prop := Forall (fun c => is_letter c || is_digit c = true) (list_ascii_of_string w).

(** Without the rule for the first byte: words between hyphens, the first of which may be
    empty. *)
Lemma port_name_words s :
  (forallb (fun c => is_hyphen c || is_letter c || is_digit c) (list_ascii_of_string s) = true /\
   double_hyphen (list_ascii_of_string s) = false /\
   match last (list_ascii_of_string s) with Some z => is_hyphen z = false | None => True end) <->
  match Split "-"%char s with
  | w :: ws => alphanumeric w /\ Forall (fun w => w <> "" /\ alphanumeric w) ws
  | [] => True
  end.
Proof.
  induction s as [|c r IH]; [simpl; unfold alphanumeric; simpl; split; auto|].
  change (list_ascii_of_string (String c r)) with (c :: list_ascii_of_string r).
  cbn [forallb Split]. rewrite last_cons. fold (is_hyphen c).
  destruct (Split "-"%char r) as [|w' ws'] eqn:Hr; [by destruct r as [|d ?]; simpl in Hr; [|destruct (Ascii.eqb d "-"), (Split "-" _)]|].
  destruct (is_hyphen c) eqn:Hc.
  - assert (Hw : match list_ascii_of_string r with d :: _ => is_hyphen d = false | [] => False end <-> w' <> "").
    { destruct r as [|d r']; simpl in Hr |- *; [by injection Hr as <- <-|]. unfold is_hyphen.
      destruct (Ascii.eqb d "-"); [by injection Hr as <- <-|]. destruct (Split "-" r'); injection Hr as <- <-; done. }
    rewrite Forall_cons. assert (alphanumeric "") by constructor.
    transitivity (w' <> "" /\ alphanumeric w' /\ Forall (fun w => w <> "" /\ alphanumeric w) ws'); [|tauto].
    rewrite <- IH, <- Hw. destruct (list_ascii_of_string r) as [|d l]; [simpl; rewrite Hc; naive_solver|].
    destruct (last (d :: l)) as [z|] eqn:Hz; [|by apply last_None in Hz].
    simpl. rewrite Hc. destruct (is_hyphen d) eqn:Hd; simpl; [naive_solver|tauto].
  - unfold alphanumeric at 1. simpl. rewrite Forall_cons. fold (alphanumeric w').
    destruct (list_ascii_of_string r) as [|d l] eqn:Hl; simpl.
    + destruct r; [|done]. simpl in Hr. injection Hr as <- <-. unfold alphanumeric. simpl. rewrite Hc.
      destruct (is_letter c || is_digit c); naive_solver.
    + destruct (last (d :: l)) as [z|] eqn:Hz; [|by apply last_None in Hz]. rewrite Hc. simpl.
      simpl in IH. rewrite andb_true_iff in IH; rewrite !andb_true_iff. destruct (is_letter c || is_digit c) eqn:Ha; [|naive_solver]. tauto.
Qed.

(** A port name is at most 15 bytes with a letter, and its words between hyphens are not
    empty and of small letters and digits. *)
Definition port_name (name : string) : Prop :=
  (String.length name <= 15)%nat /\ (exists c, c ∈ list_ascii_of_string name /\ is_letter c = true) /\
  Forall (fun w => w <> "" /\ alphanumeric w) (Split "-"%char name).

Lemma length_list_ascii s : length (list_ascii_of_string s) = String.length s.
Proof. induction s as [|c s IH]; [done|]. simpl. by rewrite IH. Qed.

Lemma validatePortName_ok name : validatePortName name = true <-> port_name name.
Proof.
  unfold validatePortName, port_name. rewrite !andb_true_iff, Nat.leb_le, length_list_ascii, negb_true_iff, bool_decide_eq_false.
  rewrite existsb_exists. setoid_rewrite <- list_elem_of_In. rewrite negb_true_iff.
  pose proof (port_name_words name) as Hw.
  destruct (Split "-"%char name) as [|w ws] eqn:Hs.
  { destruct name as [|c r]; simpl in Hs; [done|]. by destruct (Ascii.eqb c "-"), (Split "-" r). }
  destruct name as [|c r]; [split; [naive_solver|]|].
  { intros (_ & (c & Hc & _) & _). by apply elem_of_nil in Hc. }
  rewrite Forall_cons. unfold maxPortNameLen.
  assert (Hne : w <> "" <-> is_hyphen c = false).
  { unfold is_hyphen. simpl in Hs. destruct (Ascii.eqb c "-"); [by injection Hs as <- <-|].
    destruct (Split "-" r); injection Hs as <- <-; done. }
  change (list_ascii_of_string (String c r)) with (c :: list_ascii_of_string r) in *.
  destruct (last (c :: list_ascii_of_string r)) as [z|] eqn:Hz; [|by apply last_None in Hz].
  cbn [head]. rewrite negb_true_iff, orb_false_iff.
  assert (c :: list_ascii_of_string r <> []) by done. tauto.
Qed.

(** ** The volumes of a pod *)

Lemma find_eqb_Some {A} (f : A -> string) n l x :
  find (fun a => String.eqb (f a) n) l = Some x -> x ∈ l /\ f x = n.
Proof. intros [Hin ->%String.eqb_eq]%find_some. split; [by apply list_elem_of_In|done]. Qed.
Lemma find_eqb_None {A} (f : A -> string) n l :
  find (fun a => String.eqb (f a) n) l = None <-> n ∉ f <$> l.
Proof.
  rewrite list_elem_of_fmap. induction l as [|a l IH]; simpl; [set_solver|].
  destruct (String.eqb_spec (f a) n) as [<-|Hne]; [set_solver|]. rewrite IH. set_solver.
Qed.
(** Under distinct names the search finds the element. *)
Lemma find_eqb_unique {A} (f : A -> string) l x :
  NoDup (f <$> l) -> x ∈ l -> find (fun a => String.eqb (f a) (f x)) l = Some x.
Proof.
  induction l as [|a l IH]; simpl; [by intros _ ?%elem_of_nil|]. intros [Ha Hl]%NoDup_cons [->|Hx]%elem_of_cons.
  - by rewrite String.eqb_refl.
  - destruct (String.eqb_spec (f a) (f x)) as [Heq|]; [|by apply IH].
    destruct Ha. rewrite Heq. by apply list_elem_of_fmap_2.
Qed.
Lemma list_fmap_mono_elem {A} (f : A -> string) (l k : list A) n : l ⊆ k -> n ∈ f <$> l -> n ∈ f <$> k.
Proof. intros Hs (a & -> & Ha)%list_elem_of_fmap. by apply list_elem_of_fmap_2, Hs. Qed.
Lemma existsb_eqb {A} (f : A -> string) n l : existsb (fun a => String.eqb (f a) n) l = true <-> n ∈ f <$> l.
Proof.
  rewrite existsb_exists, list_elem_of_fmap. setoid_rewrite <- list_elem_of_In. setoid_rewrite String.eqb_eq. naive_solver.
Qed.

Lemma NoDup_fmap_elem_inj {A B} (f : A -> B) (l : list A) x y : NoDup (f <$> l) -> x ∈ l -> y ∈ l -> f x = f y -> x = y.
Proof.
  induction l as [|a l IH]; [by intros _ ?%elem_of_nil|]. rewrite fmap_cons. intros [Ha Hl]%NoDup_cons.
  intros [->|Hx]%elem_of_cons [->|Hy]%elem_of_cons Hf; [done|..|by apply IH]; destruct Ha.
  - rewrite Hf. by apply list_elem_of_fmap_2.
  - rewrite <- Hf. by apply list_elem_of_fmap_2.
Qed.
Lemma omap_Forall2 {A B} (f : A -> option B) l k : Forall2 (fun a b => f a = Some b) l k -> omap f l = k.
Proof. induction 1 as [|a b l k Hab _ IH]; [done|]. cbn. rewrite Hab. by f_equal. Qed.

(** The name a volume of a config map or secret gets determines its container and number. *)
Lemma named_volume_inj c1 c2 i j : named_volume c1 i = named_volume c2 j -> co_Name c1 = co_Name c2 /\ i = j.
Proof.
  unfold named_volume, VolumeNamePrefix. intros Hn.
  assert (forall n, has_byte "l" (Itoa n) = false) as Hl by (intros n; by apply has_byte_Itoa).
  destruct (last_sep_inj "l"%char (co_Name c1 +:+ "-vo") (co_Name c2 +:+ "-vo") (Itoa (Z.of_nat i)) (Itoa (Z.of_nat j))) as [Hc Hi];
    [apply Hl|apply Hl|by rewrite !str_app_assoc|].
  apply str_app_inj_r in Hc. apply Itoa_inj in Hi. split; [done|lia].
Qed.

Section Facts.
Context `{Quantities}.

(** ** Containers *)

Definition normal_port (p : ContainerPort) : ContainerPort := mkPort p.(cp_Name) (int32 p.(cp_Port)) (ToLower p.(cp_Protocol)).
(** The container as it is shown: protocols in small letters. *)
Definition normal (c : Container) : Container :=
  mkContainer c.(co_Name) c.(co_Image) c.(co_Command) c.(co_Args) (normal_port <$> c.(co_ExposedPorts)) c.(co_Env) c.(co_Volumes).

Lemma container_ports_ok names specs ports :
  container_ports names specs = Ok ports ->
  read_port <$> ports = normal_port <$> specs /\ kp_Name <$> ports = cp_Name <$> specs /\
  NoDup (kp_Name <$> ports) /\ Forall (fun n => port_name n /\ n ∉ names) (kp_Name <$> ports) /\
  Forall (fun p => p.(kp_Protocol) = "TCP" \/ p.(kp_Protocol) = "UDP") ports.
Proof.
  revert names ports. induction specs as [|spec specs IH]; intros names ports Hp; simpl in Hp.
  { injection Hp as <-. repeat constructor. }
  destruct (scPortProtocolToK8SProtocol _) as [protocol|] eqn:Hpr; [|done].
  destruct (validatePortName (cp_Name spec)) eqn:Hv; [|done]. simpl in Hp. apply validatePortName_ok in Hv.
  destruct (existsb _ names) eqn:Hex; [done|].
  destruct (container_ports _ specs) as [ports'|] eqn:Hps; [|done]. injection Hp as <-.
  apply IH in Hps as (Hr & Hn & Hnd & Hall & Hprs). rewrite !fmap_cons, Hr, Hn. cbn [kp_Name].
  assert (Hpc : ToLower protocol = ToLower (cp_Protocol spec) /\ (protocol = "TCP" \/ protocol = "UDP")).
  { unfold scPortProtocolToK8SProtocol in Hpr. destruct (String.eqb_spec (ToLower (cp_Protocol spec)) "tcp") as [->|].
    - injection Hpr as <-. auto.
    - destruct (String.eqb_spec (ToLower (cp_Protocol spec)) "udp") as [->|]; [|done]. injection Hpr as <-. auto. }
  destruct Hpc as [Hpc Hpc']. rewrite Hn in Hnd, Hall.
  assert (Hout : cp_Name spec ∉ names).
  { intros Hin. apply not_true_iff_false in Hex. apply Hex. apply existsb_exists. exists (cp_Name spec).
    split; [by apply list_elem_of_In|apply String.eqb_refl]. }
  rewrite Forall_forall in Hall. split; [by unfold read_port, normal_port; simpl; rewrite Hpc|]. split; [done|]. split; [|split].
  - apply NoDup_cons. split; [|done]. intros Hin. destruct (Hall _ Hin) as [_ Hn']. set_solver.
  - constructor; [done|]. apply Forall_forall. intros n Hin. destruct (Hall n Hin) as [? Hn']. set_solver.
  - by constructor.
Qed.

(** The source of a persistent volume, by name. *)
Definition pv_source (k8sEmptyDirs : list K8sVolume) (k8sPVCs : list K8sPVC) (name : string) : option VolumeSource :=
  match find (fun d => String.eqb d.(kv_Name) name) k8sEmptyDirs with
  | Some d => Some d.(kv_Source)
  | None => match find (fun p => String.eqb p.(kc_Name) name) k8sPVCs with
            | Some _ => Some (mkSource None None (Some name) None)
            | None => None
            end
  end.

Section Volumes.
Context (k8sEmptyDirs : list K8sVolume) (k8sPVCs : list K8sPVC).

Lemma mount_source_cases c i v n src ro :
  mount_source k8sEmptyDirs k8sPVCs c i v = Ok (n, src, ro) ->
  if String.eqb v.(vo_Type) VolumeTypePersistentVolume
  then n = v.(vo_Name) /\ ro = false /\ pv_source k8sEmptyDirs k8sPVCs n = Some src
  else n = named_volume c i /\ ro = true /\
       volume_of (mkK8sVolume n src) v.(vo_MountPath) = Some v /\ template_of (mkK8sVolume n src) = None.
Proof.
  unfold mount_source, pv_source. destruct v as [type name path]. simpl.
  destruct (String.eqb_spec type VolumeTypeConfigMap) as [->|]; [by intros [= <- <- <-]|].
  destruct (String.eqb_spec type VolumeTypeSecret) as [->|]; [by intros [= <- <- <-]|].
  destruct (String.eqb_spec type VolumeTypePersistentVolume) as [->|]; [|done].
  destruct (find _ k8sEmptyDirs) as [d|] eqn:Hd.
  - apply find_eqb_Some in Hd as Hd'. destruct Hd' as [_ <-]. intros [= <- <- <-]. by rewrite Hd.
  - destruct (find _ k8sPVCs) as [p|] eqn:Hp; [|done]. apply find_eqb_Some in Hp as Hp'. destruct Hp' as [_ <-].
    intros [= <- <- <-]. by rewrite Hd, Hp.
Qed.

(** Where a declared volume comes from: it is persistent, or of an earlier mount of the
    containers [done] or of the first [i] mounts of [c]. *)
Definition origin (earlier : list Container) (c : Container) (i : nat) (kv : K8sVolume) : Prop :=
  pv_source k8sEmptyDirs k8sPVCs kv.(kv_Name) = Some kv.(kv_Source) \/
  pv_source k8sEmptyDirs k8sPVCs kv.(kv_Name) = None /\ template_of kv = None /\
  exists c' j, kv.(kv_Name) = named_volume c' j /\ (c' ∈ earlier \/ c' = c /\ (j < i)%nat).
Definition declared_ok earlier c i (vols : list K8sVolume) : Prop :=
  NoDup (kv_Name <$> vols) /\ Forall (origin earlier c i) vols.

(** What a mount shows in the declared volumes. *)
Definition shows (vols : list K8sVolume) (vm : VolumeMount) (v : Volume) : Prop :=
  exists kv, kv ∈ vols /\ kv.(kv_Name) = vm.(vm_Name) /\ volume_of kv vm.(vm_MountPath) = Some v.
Lemma shows_mono vols vols' vm v : vols ⊆ vols' -> shows vols vm v -> shows vols' vm v.
Proof. intros Hsub (kv & Hin & ?). exists kv. split; [by apply Hsub|done]. Qed.
Lemma shows_read vols vm v : NoDup (kv_Name <$> vols) -> shows vols vm v -> read_mount vols vm = Some v.
Proof.
  intros Hnd (kv & Hin & Hn & Hv). unfold read_mount, find_volume. rewrite <- Hn, find_eqb_unique by done. done.
Qed.

Context (Hempty : Forall (fun d => exists size, d = empty_dir d.(kv_Name) size) k8sEmptyDirs).

Lemma pv_source_shows n src path :
  pv_source k8sEmptyDirs k8sPVCs n = Some src ->
  volume_of (mkK8sVolume n src) path = Some (mkVolume VolumeTypePersistentVolume n path).
Proof.
  unfold pv_source. destruct (find _ k8sEmptyDirs) as [d|] eqn:Hd.
  - intros [= <-]. apply find_eqb_Some in Hd as [Hin <-]. rewrite Forall_forall in Hempty.
    destruct (Hempty d Hin) as [size ->]. done.
  - destruct (find _ k8sPVCs); [|done]. by intros [= <-].
Qed.

(** No persistent volume has the name that a mount of the container would get. *)
Definition no_clash (c : Container) : Prop := forall j, pv_source k8sEmptyDirs k8sPVCs (named_volume c j) = None.

Lemma mount_volume_ok earlier c i v vols vols' m :
  no_clash c -> Forall (fun c' => co_Name c' <> co_Name c) earlier -> declared_ok earlier c i vols ->
  mount_volume k8sEmptyDirs k8sPVCs c i v vols = Ok (vols', m) ->
  declared_ok earlier c (S i) vols' /\ vols ⊆ vols' /\ shows vols' m v.
Proof.
  intros Hclash Hearlier [Hnd Horigin] Hm. unfold mount_volume in Hm.
  destruct (mount_source k8sEmptyDirs k8sPVCs c i v) as [[[n src] ro]|] eqn:Hs; [|done]. simpl in Hm.
  apply mount_source_cases in Hs.
  assert (Hmono : Forall (origin earlier c (S i)) vols).
  { eapply Forall_impl; [exact Horigin|]. intros kv [?|(? & ? & c' & j & ? & [?|[-> ?]])]; [by left|right; eauto 8|].
    right. split; [done|]. split; [done|]. exists c, j. split; [done|]. right. split; [done|lia]. }
  assert (Hnew : n ∉ kv_Name <$> vols -> origin earlier c (S i) (mkK8sVolume n src) ->
            declared_ok earlier c (S i) (vols ++ [mkK8sVolume n src])).
  { intros Hn Ho. split; [|apply Forall_app; split; [done|by constructor]].
    rewrite fmap_app. apply NoDup_app. split; [done|]. split; [|apply NoDup_singleton].
    intros x Hx ->%list_elem_of_singleton. done. }
  destruct (String.eqb_spec (vo_Type v) VolumeTypePersistentVolume) as [Hty|Hty].
  - destruct Hs as (-> & -> & Hsrc). simpl in Hm.
    assert (Hshow : volume_of (mkK8sVolume (vo_Name v) src) (vo_MountPath v) = Some v).
    { rewrite (pv_source_shows _ _ _ Hsrc). rewrite <- Hty. by destruct v. }
    destruct (existsb _ vols) eqn:Hex; injection Hm as <- <-.
    + split; [by split|]. split; [done|]. apply existsb_eqb, list_elem_of_fmap in Hex as (kv & Hn & Hin).
      exists kv. split; [done|]. split; [done|]. rewrite Forall_forall in Horigin.
      destruct (Horigin kv Hin) as [Ho|[Ho _]]; [|congruence]. rewrite <- Hn, Hsrc in *.
      destruct kv as [kn ks]. simpl in *. subst kn. by injection Ho as <-.
    + split; [|split; [set_solver|]].
      * apply Hnew; [|by left]. intros Hin%existsb_eqb. congruence.
      * exists (mkK8sVolume (vo_Name v) src). split; [set_solver|done].
  - destruct Hs as (-> & -> & Hshow & Htemp). simpl in Hm. injection Hm as <- <-.
    split; [|split; [set_solver|]].
    + apply Hnew.
      * intros (kv & Hn & Hin)%list_elem_of_fmap. rewrite Forall_forall in Horigin.
        destruct (Horigin kv Hin) as [Ho|(_ & _ & c' & j & Hc' & Hj)].
        { rewrite <- Hn, (Hclash i) in Ho. done. }
        rewrite Hc' in Hn. apply named_volume_inj in Hn as [Hcn ->]. destruct Hj as [Hj|[_ Hj]]; [|lia].
        rewrite Forall_forall in Hearlier. by apply (Hearlier c' Hj).
      * right. split; [apply Hclash|]. split; [done|]. exists c, i. split; [done|]. right. split; [done|lia].
    + exists (mkK8sVolume (named_volume c i) src). split; [set_solver|done].
Qed.

Lemma mount_volumes_ok earlier c i vs vols vols' ms :
  no_clash c -> Forall (fun c' => co_Name c' <> co_Name c) earlier -> declared_ok earlier c i vols ->
  mount_volumes k8sEmptyDirs k8sPVCs c i vs vols = Ok (vols', ms) ->
  declared_ok earlier c (i + length vs) vols' /\ vols ⊆ vols' /\ Forall2 (shows vols') ms vs.
Proof.
  intros Hclash Hearlier. revert i vols ms. induction vs as [|v vs IH]; intros i vols ms Hd Hm; simpl in Hm.
  - injection Hm as <- <-. rewrite Nat.add_0_r. done.
  - destruct (mount_volume _ _ c i v vols) as [[vols1 m]|] eqn:Hm1; [|done]. simpl in Hm.
    destruct (mount_volumes _ _ c (S i) vs vols1) as [[vols2 ms2]|] eqn:Hm2; [|done]. injection Hm as <- <-.
    apply (mount_volume_ok earlier) in Hm1 as (Hd1 & Hsub1 & Hs1); [|done..].
    apply IH in Hm2 as (Hd2 & Hsub2 & Hs2); [|done]. simpl. rewrite <- Nat.add_succ_comm.
    split; [done|]. split; [by etrans|]. constructor; [|done]. by eapply shows_mono.
Qed.

Record built (vols : list K8sVolume) (c : Container) (kc : K8sContainer) : Prop := {
  bu_same : (kc.(kn_Name), kc.(kn_Image), kc.(kn_Command), kc.(kn_Args), kc.(kn_Env)) =
            (c.(co_Name), c.(co_Image), c.(co_Command), c.(co_Args), c.(co_Env));
  bu_mounts : Forall2 (shows vols) kc.(kn_VolumeMounts) c.(co_Volumes);
  bu_ports : container_ports [] c.(co_ExposedPorts) = Ok kc.(kn_Ports)
}.

Lemma built_read vols c kc : NoDup (kv_Name <$> vols) -> built vols c kc -> read_container vols kc = normal c.
Proof.
  intros Hnd [Hs Hm Hp]. injection Hs as H1 H2 H3 H4 H5. apply container_ports_ok in Hp as (Hr & _).
  unfold read_container, normal. rewrite H1, H2, H3, H4, H5, Hr. f_equal.
  apply omap_Forall2. eapply Forall2_impl; [exact Hm|]. intros m v. by apply shows_read.
Qed.

Definition settled (earlier : list Container) (vols : list K8sVolume) : Prop := forall c, declared_ok earlier c 0 vols.
Lemma declared_settled earlier c i vols : declared_ok earlier c i vols -> settled (c :: earlier) vols.
Proof.
  intros [Hnd Ho] c'. split; [done|]. eapply Forall_impl; [exact Ho|].
  intros kv [?|(? & ? & x & j & ? & [?|[-> ?]])]; [by left|right; split; [done|]; split; [done|]..].
  - exists x, j. split; [done|]. left. by right.
  - exists c, j. split; [done|]. left. by left.
Qed.

(** Every declared volume is a persistent one with its source, or stands for no template. *)
Definition persistent_or_private (kv : K8sVolume) : Prop :=
  pv_source k8sEmptyDirs k8sPVCs kv.(kv_Name) = Some kv.(kv_Source) \/
  pv_source k8sEmptyDirs k8sPVCs kv.(kv_Name) = None /\ template_of kv = None.

Lemma pod_containers_ok earlier containers vols vols' kcs :
  Forall no_clash containers -> NoDup (co_Name <$> containers) ->
  Forall (fun c => Forall (fun c' => co_Name c' <> co_Name c) earlier) containers ->
  settled earlier vols -> pod_containers k8sEmptyDirs k8sPVCs containers vols = Ok (vols', kcs) ->
  NoDup (kv_Name <$> vols') /\ vols ⊆ vols' /\ Forall2 (built vols') containers kcs /\ Forall persistent_or_private vols'.
Proof.
  revert earlier vols kcs. induction containers as [|c containers IH]; intros earlier vols kcs Hcl Hnd Hea Hse Hp; simpl in Hp.
  { injection Hp as <- <-. destruct (Hse (mkContainer "" "" [] [] [] [] [])) as [Hv Ho]. split; [done|]. split; [done|].
    split; [done|]. eapply Forall_impl; [exact Ho|]. intros kv [?|(? & ? & _)]; [by left|by right]. }
  apply Forall_cons in Hcl as [Hc Hcl]. apply NoDup_cons in Hnd as [Hnc Hnd]. apply Forall_cons in Hea as [Hec Hea].
  destruct (mount_volumes _ _ c 0 _ vols) as [[vols1 ms]|] eqn:Hm; [|done]. simpl in Hp.
  destruct (container_ports [] _) as [ports|] eqn:Hports; [|done]. simpl in Hp.
  destruct default_requests as [reqs|]; [|done]. simpl in Hp.
  destruct (pod_containers _ _ containers vols1) as [[vols2 kcs2]|] eqn:Hrest; [|done]. injection Hp as <- <-.
  apply (mount_volumes_ok earlier) in Hm as (Hd & Hsub & Hs); [|done|done|apply Hse]. apply declared_settled in Hd.
  apply (IH (c :: earlier)) in Hrest as (Hnd2 & Hsub2 & Hb & Hpp); [|done|done| |done].
  - split; [done|]. split; [by etrans|]. split; [|done]. constructor; [|done]. split; [done| |done].
    eapply Forall2_impl; [exact Hs|]. intros m v. by apply shows_mono.
  - apply Forall_forall. intros c' Hc'. constructor; [|by rewrite Forall_forall in Hea; apply Hea].
    intros Heq. apply Hnc. rewrite Heq. by apply list_elem_of_fmap_2.
Qed.
End Volumes.

Section AnyNames.
Context (k8sEmptyDirs : list K8sVolume) (k8sPVCs : list K8sPVC).

(** Whatever the names are: a mount names a volume that is declared, and a container keeps
    its name and has checked ports. *)
Lemma mount_volume_any c i v vols vols' m :
  mount_volume k8sEmptyDirs k8sPVCs c i v vols = Ok (vols', m) -> vols ⊆ vols' /\ m.(vm_Name) ∈ kv_Name <$> vols'.
Proof.
  unfold mount_volume. destruct (mount_source _ _ c i v) as [[[n src] ro]|]; [|done]. simpl. intros Hm.
  destruct (negb ro && existsb _ vols) eqn:Hd; injection Hm as <- <-; cbn [vm_Name].
  - apply andb_true_iff in Hd as [_ Hd]. split; [done|]. by apply existsb_eqb.
  - split; [set_solver|]. rewrite fmap_app. set_solver.
Qed.
Lemma mount_volumes_any c i vs vols vols' ms :
  mount_volumes k8sEmptyDirs k8sPVCs c i vs vols = Ok (vols', ms) ->
  vols ⊆ vols' /\ Forall (fun m => m.(vm_Name) ∈ kv_Name <$> vols') ms.
Proof.
  revert i vols ms. induction vs as [|v vs IH]; intros i vols ms Hm; simpl in Hm; [by injection Hm as <- <-|].
  destruct (mount_volume _ _ c i v vols) as [[vols1 m]|] eqn:Hm1; [|done]. simpl in Hm.
  destruct (mount_volumes _ _ c (S i) vs vols1) as [[vols2 ms2]|] eqn:Hm2; [|done]. injection Hm as <- <-.
  apply mount_volume_any in Hm1 as [Hsub1 Hin]. apply IH in Hm2 as [Hsub2 Hall].
  split; [by etrans|]. constructor; [|done]. by apply (list_fmap_mono_elem kv_Name vols1).
Qed.
Record checked (vols : list K8sVolume) (c : Container) (kc : K8sContainer) : Prop := {
  ch_name : kc.(kn_Name) = c.(co_Name);
  ch_mounts : Forall (fun m => m.(vm_Name) ∈ kv_Name <$> vols) kc.(kn_VolumeMounts);
  ch_ports : container_ports [] c.(co_ExposedPorts) = Ok kc.(kn_Ports)
}.
Lemma pod_containers_any containers vols vols' kcs :
  pod_containers k8sEmptyDirs k8sPVCs containers vols = Ok (vols', kcs) ->
  vols ⊆ vols' /\ Forall2 (checked vols') containers kcs.
Proof.
  revert vols kcs. induction containers as [|c containers IH]; intros vols kcs Hp; simpl in Hp; [by injection Hp as <- <-|].
  destruct (mount_volumes _ _ c 0 _ vols) as [[vols1 ms]|] eqn:Hm; [|done]. simpl in Hp.
  destruct (container_ports [] _) as [ports|] eqn:Hports; [|done]. simpl in Hp.
  destruct default_requests as [reqs|]; [|done]. simpl in Hp.
  destruct (pod_containers _ _ containers vols1) as [[vols2 kcs2]|] eqn:Hrest; [|done]. injection Hp as <- <-.
  apply mount_volumes_any in Hm as [Hsub1 Hall]. apply IH in Hrest as [Hsub2 Hc].
  split; [by etrans|]. constructor; [|done]. split; [done| |done].
  eapply Forall_impl; [exact Hall|]. intros m. by apply list_fmap_mono_elem.
Qed.
End AnyNames.
End Facts.

(** ** Templates *)

Lemma add_template_names ts t :
  NoDup (pt_Name <$> ts) -> NoDup (pt_Name <$> add_template ts t) /\
  forall n, n ∈ pt_Name <$> add_template ts t <-> n ∈ pt_Name <$> ts \/ n = pt_Name t.
Proof.
  intros Hnd. unfold add_template. pose proof (existsb_eqb pt_Name (pt_Name t) ts) as Hex.
  destruct (existsb _ ts).
  - split; [done|]. intros n. destruct Hex as [Hex _]. split; [by left|]. intros [?| ->]; [done|by apply Hex].
  - rewrite fmap_app. split.
    + apply NoDup_app. split; [done|]. split; [|apply NoDup_singleton]. intros x Hx ->%list_elem_of_singleton.
      apply Hex in Hx. done.
    + intros n. rewrite elem_of_app. simpl. by rewrite list_elem_of_singleton.
Qed.
Lemma add_templates_names l ts :
  NoDup (pt_Name <$> ts) -> NoDup (pt_Name <$> foldl add_template ts l) /\
  forall n, n ∈ pt_Name <$> foldl add_template ts l <-> n ∈ pt_Name <$> ts \/ n ∈ pt_Name <$> l.
Proof.
  revert ts. induction l as [|t l IH]; intros ts Hnd; [simpl; set_solver|]. cbn [foldl].
  destruct (add_template_names ts t Hnd) as [Hnd' Hn]. destruct (IH _ Hnd') as [Hnd2 Hn2]. split; [done|].
  intros n. rewrite Hn2, Hn, fmap_cons, elem_of_cons. tauto.
Qed.

Section Translation.
Context `{Quantities} {K : Type} `{!KubeKind K K8sPV} `{!KubeKind K K8sPVC} `{!KubeKind K K8sStorageClass}.

Lemma template_of_shown kv path v :
  volume_of kv path = Some v ->
  pt_Name <$> template_of kv =
  if String.eqb v.(vo_Type) VolumeTypePersistentVolume && negb (String.eqb v.(vo_Name) "") then Some v.(vo_Name) else None.
Proof.
  unfold volume_of, template_of.
  destruct (vs_ConfigMap (kv_Source kv)); [by intros [= <-]|]. destruct (vs_Secret (kv_Source kv)); [by intros [= <-]|].
  destruct (vs_PersistentVolumeClaim (kv_Source kv)) as [name|].
  { intros [= <-]. simpl. by destruct (String.eqb name ""). }
  destruct (vs_EmptyDir (kv_Source kv)) as [size|]; [|done]. intros [= <-]. simpl. by destruct (String.eqb (kv_Name kv) "").
Qed.

(** The names of the persistent volumes that containers mount. *)
Definition mounted_pvs (containers : list Container) : list string :=
  vo_Name <$> filter (fun v => v.(vo_Type) = VolumeTypePersistentVolume /\ v.(vo_Name) <> "") (containers ≫= co_Volumes).

Lemma read_templates_names vols ms vs :
  NoDup (kv_Name <$> vols) -> Forall2 (shows vols) ms vs ->
  pt_Name <$> omap (read_template vols) ms =
  vo_Name <$> filter (fun v => v.(vo_Type) = VolumeTypePersistentVolume /\ v.(vo_Name) <> "") vs.
Proof.
  intros Hnd. induction 1 as [|m v ms vs (kv & Hin & Hn & Hv) _ IH]; [done|].
  assert (Hr : read_template vols m = template_of kv).
  { unfold read_template, find_volume. rewrite <- Hn, find_eqb_unique by done. done. }
  rewrite filter_cons. change (omap (read_template vols) (m :: ms)) with
    (match read_template vols m with Some t => t :: omap (read_template vols) ms | None => omap (read_template vols) ms end).
  pose proof (template_of_shown _ _ _ Hv) as Ht. rewrite Hr.
  destruct (String.eqb_spec (vo_Type v) VolumeTypePersistentVolume) as [Hty|Hty], (String.eqb_spec (vo_Name v) "") as [He|He];
    simpl in Ht; destruct (template_of kv) as [t|]; try discriminate Ht; case_decide; try tauto.
  cbn [fmap list_fmap]. injection Ht as ->. f_equal. exact IH.
Qed.

(** The volumes a workload asks for, and what is made of them. *)
Definition temporary (pv : PersistentVolumeTemplate) : Prop := pv.(pt_StorageClassName) = StorageClassNameTemp.
#[export] Instance temporary_dec pv : Decision (temporary pv).
Proof. unfold temporary. apply _. Defined.
Lemma scPVCs_ok pvs (k k' : K) eds claims :
  scPVCsToK8sVolumesAndPVCs pvs k = (Ok (eds, claims), k') ->
  Forall2 (fun pv d => exists size, parse_size pv.(pt_Size) = Ok size /\ d = empty_dir pv.(pt_Name) size) (filter temporary pvs) eds /\
  Forall2 (fun pv p => exists accessMode size, parse_size pv.(pt_Size) = Ok (Some size) /\
             p = claim pv.(pt_Name) accessMode pv.(pt_StorageClassName) size) (filter (fun pv => ~ temporary pv) pvs) claims.
Proof.
  revert k eds claims. induction pvs as [|pv pvs IH]; intros k eds claims Hs; simpl in Hs; [unfold ret in Hs; injection Hs as <- <- <-; by split|].
  destruct (String.eqb _ ""); [done|]. unfold bind, lift, rethrow, ret, throw in Hs.
  destruct (parse_size (pt_Size pv)) as [q|] eqn:Hq; [|done].
  destruct (String.eqb_spec (pt_StorageClassName pv) StorageClassNameTemp) as [Ht|Ht].
  - destruct (scPVCsToK8sVolumesAndPVCs pvs k) as [[[eds1 claims1]|] k1] eqn:Hr; [|done]. injection Hs as <- <- <-.
    apply IH in Hr as [H1 H2]. rewrite filter_cons_True by done. rewrite filter_cons_False by (by intros []).
    split; [|done]. constructor; [by exists q|done].
  - destruct (getStorageClass _ k) as [[sc|] k1]; [|done]. simpl in Hs. destruct (sc_Parameters sc !! "accessMode") as [mode|]; [|done].
    destruct q as [size|]; [|done].
    destruct (scPVCsToK8sVolumesAndPVCs pvs k1) as [[[eds1 claims1]|] k2] eqn:Hr; [|done]. injection Hs as <- <- <-.
    apply IH in Hr as [H1 H2]. rewrite filter_cons_False by done. rewrite filter_cons_True by done.
    split; [done|]. constructor; [by exists mode, size|done].
Qed.

Lemma Forall2_names {A B} (f : A -> string) (g : B -> string) (R : A -> B -> Prop) l k n :
  Forall2 R l k -> (forall a b, R a b -> g b = f a) -> n ∈ g <$> k -> n ∈ f <$> l.
Proof. intros HR Hfg. induction HR as [|a b l k Hab _ IH]; [done|]. rewrite !fmap_cons, !elem_of_cons, (Hfg a b Hab). tauto. Qed.
Lemma filter_names {A} (f : A -> string) (P : A -> Prop) `{!forall a, Decision (P a)} (l : list A) n : n ∈ f <$> filter P l -> n ∈ f <$> l.
Proof. rewrite !list_elem_of_fmap. intros (a & -> & [_ Ha]%list_elem_of_filter). by exists a. Qed.
Lemma pv_source_None eds cl n : n ∉ kv_Name <$> eds -> n ∉ kc_Name <$> cl -> pv_source eds cl n = None.
Proof.
  intros He%find_eqb_None Hc%find_eqb_None. unfold pv_source. by rewrite He, Hc.
Qed.

Record pod_names_ok (containers : list Container) (pvs : list PersistentVolumeTemplate) : Prop := {
  pn_distinct : NoDup (co_Name <$> containers);
  pn_no_clash : forall c j, c ∈ containers -> named_volume c j ∉ pt_Name <$> pvs
}.

Lemma pod_spec_built containers pvs (k k' : K) spec claims :
  pod_names_ok containers pvs ->
  scPodSpecToK8sPodSpecAndPVCs containers pvs k = (Ok (spec, claims), k') ->
  NoDup (kv_Name <$> spec.(ps_Volumes)) /\ Forall2 (built spec.(ps_Volumes)) containers spec.(ps_Containers) /\
  exists eds k1, scPVCsToK8sVolumesAndPVCs pvs k = (Ok (eds, claims), k1) /\
                 Forall (persistent_or_private eds claims) spec.(ps_Volumes).
Proof.
  intros [Hnd Hno] Hs. unfold scPodSpecToK8sPodSpecAndPVCs, bind, lift, ret in Hs.
  destruct (scPVCsToK8sVolumesAndPVCs pvs k) as [[[eds cl]|] k1] eqn:Hp; [|done]. pose proof Hp as Hp'. apply scPVCs_ok in Hp as [He Hc].
  cbn [fst snd] in Hs. unfold scContainersAndPVToK8sPodSpec in Hs.
  destruct (pod_containers eds cl containers []) as [[vols kcs]|] eqn:Hpc; [|done]. injection Hs as <- <- <-.
  apply (pod_containers_ok eds cl) with (earlier := []) in Hpc as (H1 & _ & H2 & H3); [by eauto 8|..].
  - apply Forall_forall. intros d Hd. apply list_elem_of_lookup in Hd as [i Hi].
    destruct (Forall2_lookup_r _ _ _ _ _ He Hi) as (pv & _ & size & _ & ->). by exists size.
  - apply Forall_forall. intros c Hcin j. apply pv_source_None; intros Hin; apply (Hno c j Hcin).
    + apply (Forall2_names pt_Name kv_Name _ _ _ _ He) in Hin; [by apply (filter_names pt_Name temporary)|].
      by intros pv d (size & _ & ->).
    + apply (Forall2_names pt_Name kc_Name _ _ _ _ Hc) in Hin; [by apply (filter_names pt_Name (fun pv => ~ temporary pv))|].
      by intros pv p (mode & size & _ & ->).
  - done.
  - apply Forall_forall. intros c _. constructor.
  - intros c. split; constructor.
Qed.

Lemma pod_spec_checked containers pvs (k k' : K) spec claims :
  scPodSpecToK8sPodSpecAndPVCs containers pvs k = (Ok (spec, claims), k') ->
  Forall2 (checked spec.(ps_Volumes)) containers spec.(ps_Containers).
Proof.
  intros Hs. unfold scPodSpecToK8sPodSpecAndPVCs, bind, lift, ret in Hs.
  destruct (scPVCsToK8sVolumesAndPVCs pvs k) as [[[eds cl]|] k1]; [|done]. cbn [fst snd] in Hs.
  unfold scContainersAndPVToK8sPodSpec in Hs. destruct (pod_containers eds cl containers []) as [[vols kcs]|] eqn:Hpc; [|done].
  injection Hs as <- <- <-. apply pod_containers_any in Hpc as [_ Hc]. exact Hc.
Qed.

(** What a volume of a pod holds for a container that asks for [v]. *)
Definition supplies (v : Volume) (kv : K8sVolume) : Prop :=
  v.(vo_Type) = VolumeTypeConfigMap /\ kv.(kv_Source).(vs_ConfigMap) = Some v.(vo_Name) \/
  v.(vo_Type) = VolumeTypeSecret /\ kv.(kv_Source).(vs_Secret) = Some v.(vo_Name) \/
  v.(vo_Type) = VolumeTypePersistentVolume /\
    (kv.(kv_Source).(vs_PersistentVolumeClaim) = Some v.(vo_Name) \/
     kv.(kv_Name) = v.(vo_Name) /\ is_Some kv.(kv_Source).(vs_EmptyDir)).
Lemma volume_of_supplies kv path v : volume_of kv path = Some v -> path = v.(vo_MountPath) /\ supplies v kv.
Proof.
  unfold volume_of, supplies. destruct (vs_ConfigMap (kv_Source kv)); [intros [= <-]; simpl; auto|].
  destruct (vs_Secret (kv_Source kv)); [intros [= <-]; simpl; auto|].
  destruct (vs_PersistentVolumeClaim (kv_Source kv)); [intros [= <-]; simpl; auto 6|].
  destruct (vs_EmptyDir (kv_Source kv)); [intros [= <-]; simpl; eauto 8|done].
Qed.

(** C38. A pod specification that is built has one container for every container that was
    given; every mount names a volume of the pod, and the ports of a container have distinct
    names of the right form and a known protocol (their numbers are not checked).  When the
    containers have distinct names and no persistent volume has a name that a mount of a
    container would get, the volumes have distinct names, and every mount leads to what was
    asked for: the config map, the secret, the claim or the empty directory. *)
Theorem pod_spec_wf containers pvs (k k' : K) spec claims :
  scPodSpecToK8sPodSpecAndPVCs containers pvs k = (Ok (spec, claims), k') ->
  kn_Name <$> spec.(ps_Containers) = co_Name <$> containers /\
  (forall kc, kc ∈ spec.(ps_Containers) ->
    Forall (fun m => m.(vm_Name) ∈ kv_Name <$> spec.(ps_Volumes)) kc.(kn_VolumeMounts) /\
    NoDup (kp_Name <$> kc.(kn_Ports)) /\
    Forall (fun p => port_name p.(kp_Name) /\ (p.(kp_Protocol) = "TCP" \/ p.(kp_Protocol) = "UDP")) kc.(kn_Ports)) /\
  (pod_names_ok containers pvs ->
    NoDup (kv_Name <$> spec.(ps_Volumes)) /\
    Forall2 (fun c kc =>
      Forall2 (fun v m => m.(vm_MountPath) = v.(vo_MountPath) /\
                          exists kv, kv ∈ spec.(ps_Volumes) /\ kv.(kv_Name) = m.(vm_Name) /\ supplies v kv)
        c.(co_Volumes) kc.(kn_VolumeMounts)) containers spec.(ps_Containers)).
Proof.
  intros Hs. split; [|split].
  - apply pod_spec_checked in Hs. induction Hs as [|c kc cs kcs [Hn _ _] _ IH]; [done|]. by rewrite !fmap_cons, Hn, IH.
  - intros kc Hkc. apply pod_spec_checked in Hs. apply list_elem_of_lookup in Hkc as [i Hi].
    destruct (Forall2_lookup_r _ _ _ _ _ Hs Hi) as (c & _ & [_ Hm Hp]). split; [done|].
    apply container_ports_ok in Hp as (_ & _ & Hnd & Hall & Hpr). split; [done|]. rewrite Forall_fmap in Hall.
    apply Forall_and. split; [|done]. eapply Forall_impl; [exact Hall|]. by intros p [? _].
  - intros Hn. apply pod_spec_built in Hs as (Hnd & Hb & _); [|done]. split; [done|].
    eapply Forall2_impl; [exact Hb|]. intros c kc [_ Hm _]. apply Forall2_flip. eapply Forall2_impl; [exact Hm|].
    intros m v (kv & Hin & Heq & [Hpath Hsup]%volume_of_supplies). split; [done|]. by exists kv.
Qed.

Lemma pod_spec_round_trip' containers pvs (k k' : K) spec claims :
  pod_names_ok containers pvs ->
  scPodSpecToK8sPodSpecAndPVCs containers pvs k = (Ok (spec, claims), k') ->
  let read := k8sPodSpecToScContainersAndVCTemplates spec.(ps_Containers) spec.(ps_Volumes) in
  read.1 = normal <$> containers /\
  NoDup (pt_Name <$> read.2) /\ (forall n, n ∈ pt_Name <$> read.2 <-> n ∈ mounted_pvs containers).
Proof.
  intros Hn Hs. apply pod_spec_built in Hs as (Hnd & Hb & _); [|done]. unfold k8sPodSpecToScContainersAndVCTemplates. cbn [fst snd].
  assert (Hms : Forall2 (shows (ps_Volumes spec)) (ps_Containers spec ≫= kn_VolumeMounts) (containers ≫= co_Volumes)).
  { clear -Hb. induction Hb as [|c kc cs kcs [_ Hm _] _ IH]; [constructor|]. by apply Forall2_app. }
  split; [|split].
  - clear -Hb Hnd. induction Hb as [|c kc cs kcs Hc _ IH]; [done|]. rewrite !fmap_cons, IH. f_equal. by apply built_read.
  - apply add_templates_names. constructor.
  - intros n. destruct (add_templates_names (omap (read_template (ps_Volumes spec)) (ps_Containers spec ≫= kn_VolumeMounts)) [])
      as [_ ->]; [constructor|]. rewrite (read_templates_names _ _ _ Hnd Hms). unfold mounted_pvs. simpl. set_solver.
Qed.

(** Reading a specification back gives the containers it was made from, with their
    volumes in order and the names of the protocols in small letters, and one template for
    every persistent volume that is mounted. *)
Lemma pod_spec_round_trip containers pvs (k k' : K) spec claims :
  pod_names_ok containers pvs ->
  scPodSpecToK8sPodSpecAndPVCs containers pvs k = (Ok (spec, claims), k') ->
  let read := k8sPodSpecToScContainersAndVCTemplates spec.(ps_Containers) spec.(ps_Volumes) in
  read.1 = normal <$> containers /\
  NoDup (pt_Name <$> read.2) /\ (forall n, n ∈ pt_Name <$> read.2 <-> n ∈ mounted_pvs containers).
Proof. apply pod_spec_round_trip'. Qed.
End Translation.

(** ** Claims *)

Section Claims.
Context `{Quantities} {K : Type} `{!KubeKind K K8sPV} `{!KubeKind K K8sPVC} `{!KubeKind K K8sStorageClass}.

Lemma foldl_add_template_elem l ts t : t ∈ foldl add_template ts l -> t ∈ ts \/ t ∈ l.
Proof.
  revert ts. induction l as [|x l IH]; intros ts Hin; [by left|]. cbn [foldl] in Hin. apply IH in Hin as [Hin|Hin]; [|set_solver].
  unfold add_template in Hin. destruct (existsb _ ts); set_solver.
Qed.

Definition optional_size (size : option Quantity) : string := match size with Some q => Quantity_String q | None => "" end.
(** A template that is read is temporary, of an empty directory, or names a claim. *)
Lemma read_template_kind eds claims spec t :
  Forall (fun d => exists size, d = empty_dir d.(kv_Name) size) eds ->
  Forall (persistent_or_private eds claims) spec.(ps_Volumes) ->
  t ∈ snd (k8sPodSpecToScContainersAndVCTemplates spec.(ps_Containers) spec.(ps_Volumes)) ->
  (temporary t /\ (pt_Name t ∈ kv_Name <$> eds) /\
   exists size, empty_dir (pt_Name t) size ∈ eds /\ t = mkTemplate (pt_Name t) (optional_size size) StorageClassNameTemp) \/
  (~ temporary t /\ (pt_Name t ∉ kv_Name <$> eds) /\ pt_Name t ∈ kc_Name <$> claims).
Proof.
  intros He Hpp Hin. unfold k8sPodSpecToScContainersAndVCTemplates in Hin. cbn [snd] in Hin.
  apply foldl_add_template_elem in Hin as [Hin|Hin]; [by apply elem_of_nil in Hin|].
  apply list_elem_of_omap in Hin as (m & _ & Hm). unfold read_template, find_volume in Hm.
  destruct (find _ (ps_Volumes spec)) as [kv|] eqn:Hf; [|done]. simpl in Hm. apply find_eqb_Some in Hf as [Hkv _].
  rewrite Forall_forall in Hpp. destruct (Hpp kv Hkv) as [Hsrc|[_ Hn]]; [|congruence].
  unfold pv_source in Hsrc. destruct (find _ eds) as [d|] eqn:Hd.
  - injection Hsrc as Hsrc. apply find_eqb_Some in Hd as [Hd Hdn]. rewrite Forall_forall in He. destruct (He d Hd) as [size Hsize].
    rewrite Hsize in Hsrc. unfold template_of in Hm. rewrite <- Hsrc in Hm. simpl in Hm.
    destruct (String.eqb (kv_Name kv) ""); [done|]. injection Hm as <-. left. split; [done|]. simpl. rewrite <- Hdn.
    split; [by apply list_elem_of_fmap_2|]. exists size. by rewrite <- Hsize.
  - apply find_eqb_None in Hd. destruct (find _ claims) as [p|] eqn:Hp; [|done]. injection Hsrc as Hsrc.
    unfold template_of in Hm. rewrite <- Hsrc in Hm. simpl in Hm. destruct (String.eqb (kv_Name kv) ""); [done|]. injection Hm as <-.
    apply find_eqb_Some in Hp as [Hp Hpn]. right. split; [done|]. split; [done|]. simpl. rewrite <- Hpn. by apply list_elem_of_fmap_2.
Qed.

Context `{!KubeLaws K K8sPVC}.

(** What getPVCs shows of a claim. *)
Definition claim_template (p : K8sPVC) : PersistentVolumeTemplate :=
  mkTemplate p.(kc_Name) (size_text p.(kc_Requests)) (default "" p.(kc_StorageClassName)).
Lemma getPVCs_ok namespace ts (k k' : K) r :
  Forall (fun t => ~ temporary t -> is_Some (kube_objects (Obj := K8sPVC) k !! (namespace, pt_Name t))) ts ->
  getPVCs namespace ts k = (r, k') ->
  same_kind K8sPVC k k' /\
  match r with
  | Ok l => Forall2 (fun t t' => exists p, kube_objects k !! (namespace, pt_Name t) = Some p /\ kc_Name p = pt_Name t /\ t' = claim_template p)
              (filter (fun t => ~ temporary t) ts) l
  | Err e => e <> KNotFound
  end.
Proof.
  revert k k' r. induction ts as [|t ts IH]; intros k k' r Hall Hg; simpl in Hg; [by injection Hg as <- <-|].
  apply Forall_cons in Hall as [Ht Hall].
  destruct (String.eqb_spec (pt_StorageClassName t) StorageClassNameTemp) as [Htemp|Htemp].
  - rewrite filter_cons_False by (by intros []). by apply IH.
  - rewrite filter_cons_True by done. destruct (Ht Htemp) as [p Hp]. unfold getPersistentVolumeClaim, bind, ret in Hg.
    destruct (kube_get namespace (pt_Name t) k) as [rg k1] eqn:Hk. pose proof (kube_get_law _ _ _ _ _ Hk) as [Hk1 Hr].
    apply kube_get_stored with (o := p) in Hk as [->|(e & -> & He)]; [| |done].
    + destruct (getPVCs namespace ts k1) as [r2 k2] eqn:H2. apply IH in H2 as [Hk2 H2]; [|by unfold same_kind in Hk1; rewrite Hk1].
      unfold same_kind in *. destruct r2 as [l|e]; injection Hg as <- <-; (split; [congruence|]); [|done].
      constructor; [exists p|].
      * split; [done|]. destruct Hr as [_ Hkey]. simpl in Hkey. split; [congruence|done].
      * eapply Forall2_impl; [exact H2|]. by rewrite Hk1.
    + injection Hg as <- <-. done.
Qed.

(** Claims that were created are there, under names that were free. *)
Lemma create_claims_ok namespace claims (k k' : K) :
  create_claims namespace claims k = (Ok tt, k') ->
  (forall p, p ∈ claims -> kube_objects (Obj := K8sPVC) k !! (namespace, kc_Name p) = None /\
     exists o, kube_objects k' !! (namespace, kc_Name p) = Some o /\ kube_spec o = kube_spec p) /\
  (forall key o, kube_objects k !! key = Some o -> kube_objects k' !! key = Some o).
Proof.
  revert k. induction claims as [|p claims IH]; intros k Hc; simpl in Hc.
  { injection Hc as <-. split; [|done]. intros p Hp. by apply elem_of_nil in Hp. }
  unfold bind in Hc. destruct (kube_create _ k) as [[o|e] k1] eqn:Hk; [|done].
  apply kube_create_law in Hk as (Hkey & Hspec & Hn & Hk1). simpl in Hkey, Hn, Hk1, Hspec. apply IH in Hc as [Hall Hmono].
  assert (Hkeep : forall key o', kube_objects (Obj := K8sPVC) k !! key = Some o' -> kube_objects k1 !! key = Some o').
  { intros key o' Ho. rewrite Hk1, lookup_insert_ne; [done|]. intros <-. congruence. }
  split; [|by auto]. intros q [->|Hq]%elem_of_cons.
  - split; [done|]. exists o. split; [|done]. apply Hmono. by rewrite Hk1, lookup_insert_eq.
  - destruct (Hall q Hq) as [Hnone Hex]. split; [|done]. destruct (kube_objects k !! (namespace, kc_Name q)) as [x|] eqn:Hx; [|done].
    apply Hkeep in Hx. congruence.
Qed.

(** Deleting the claims of a workload changes no other claim. *)
Definition others_kept (namespace : string) (names : list string) (k k' : K) : Prop :=
  forall ns n, ~ (ns = namespace /\ n ∈ names) -> kube_objects (Obj := K8sPVC) k' !! (ns, n) = kube_objects k !! (ns, n).
Lemma others_kept_trans namespace l1 l2 k1 k2 k3 :
  others_kept namespace l1 k1 k2 -> others_kept namespace l2 k2 k3 -> others_kept namespace (l1 ++ l2) k1 k3.
Proof.
  intros H1 H2 ns n Hn. rewrite elem_of_app in Hn. rewrite H2, H1; tauto.
Qed.
Lemma others_kept_same namespace names k k' : same_kind K8sPVC k k' -> others_kept namespace names k k'.
Proof. intros Hs ns n _. by rewrite Hs. Qed.

Context `{!KubeFrame K K8sPV K8sPVC} `{!KubeDeleteFrame K K8sPV K8sPVC}.

Lemma deletePVC_kept {E} namespace name (k : K) (r : result E unit) k' :
  deletePVC namespace name k = (r, k') -> others_kept namespace [name] k k'.
Proof.
  unfold deletePVC, bind, attempt, ret. intros Hd.
  destruct (getPersistentVolumeClaim namespace name k) as [rg k1] eqn:Hg. apply kube_get_law in Hg as [Hk1 _].
  destruct rg as [p|e]; [|injection Hd as <- <-; by apply others_kept_same].
  destruct (deletePersistentVolumeClaim namespace name k1) as [rd k2] eqn:Hdel. apply kube_delete_law in Hdel.
  assert (H12 : others_kept namespace [name] k k2).
  { intros ns n Hn. rewrite list_elem_of_singleton in Hn. rewrite <- Hk1. destruct rd as [[]|e].
    - destruct Hdel as [Heq|(o & Heq & _)]; rewrite Heq.
      + apply lookup_delete_ne. intros [= <- <-]. tauto.
      + apply lookup_insert_ne. intros [= <- <-]. tauto.
    - destruct Hdel as [Hs _]. by rewrite Hs. }
  destruct (String.eqb (kc_VolumeName p) ""); [injection Hd as <- <-; done|].
  pose proof (frame_get (A := K8sPV) (B := K8sPVC) "" (kc_VolumeName p) k2) as H23. unfold getPersistentVolume in Hd.
  destruct (kube_get (Obj := K8sPV) "" (kc_VolumeName p) k2) as [rv k3]. cbn [snd] in H23.
  assert (H13 : others_kept namespace [name] k k3) by (intros ns n Hn; rewrite H23; by apply H12).
  destruct rv as [v|e]; [|injection Hd as <- <-; done].
  pose proof (frame_delete (A := K8sPV) (B := K8sPVC) "" (kc_VolumeName p) k3) as H34. unfold deletePersistentVolume in Hd.
  destruct (kube_delete "" (kc_VolumeName p) k3) as [rv' k4]. cbn [snd] in H34. injection Hd as <- <-.
  intros ns n Hn. rewrite H34. by apply H13.
Qed.

Definition volume_claims (vols : list K8sVolume) : list string := omap (fun v => v.(kv_Source).(vs_PersistentVolumeClaim)) vols.
Lemma deleteWorkLoadPVCs_kept {E} namespace vols (k : K) (r : result E unit) k' :
  deleteWorkLoadPVCs namespace vols k = (r, k') -> others_kept namespace (volume_claims vols) k k'.
Proof.
  revert k. induction vols as [|v vols IH]; intros k Hd; simpl in Hd; [by injection Hd as <- <-|].
  unfold bind in Hd. unfold volume_claims. simpl. destruct (vs_PersistentVolumeClaim (kv_Source v)) as [n|].
  - destruct (deletePVC namespace n k) as [r1 k1] eqn:H1. pose proof (deletePVC_kept _ _ _ _ _ H1) as Hk1.
    destruct r1 as [[]|e]; [|injection Hd as <- <-; intros ns m Hm; apply Hk1; set_solver].
    apply IH in Hd. apply (others_kept_trans namespace [n] _ k k1 k' Hk1 Hd).
  - by apply IH.
Qed.
End Claims.

(** The deletion of claims leaves another kind alone. *)
Section Frame.
Context `{Quantities} {K B : Type} `{!KubeKind K K8sPV} `{!KubeKind K K8sPVC} `{KubeKind K B}
  `{!KubeFrame K K8sPV B} `{!KubeDeleteFrame K K8sPV B} `{!KubeFrame K K8sPVC B} `{!KubeDeleteFrame K K8sPVC B}.

Lemma deletePVC_frame {E} namespace name (k : K) (r : result E unit) k' :
  deletePVC namespace name k = (r, k') -> same_kind B k k'.
Proof.
  unfold deletePVC, bind, attempt, ret, getPersistentVolumeClaim, deletePersistentVolumeClaim, getPersistentVolume,
    deletePersistentVolume. intros Hd.
  pose proof (frame_get (A := K8sPVC) (B := B) namespace name k) as F1.
  destruct (kube_get namespace name k) as [[p|e] k1]; [|by injection Hd as <- <-].
  pose proof (frame_delete (A := K8sPVC) (B := B) namespace name k1) as F2.
  destruct (kube_delete namespace name k1) as [rd k2]. cbn [snd] in F1, F2. unfold same_kind in *.
  destruct (String.eqb (kc_VolumeName p) ""); [injection Hd as <- <-; congruence|].
  pose proof (frame_get (A := K8sPV) (B := B) "" (kc_VolumeName p) k2) as F3.
  destruct (kube_get "" (kc_VolumeName p) k2) as [[v|e] k3]; cbn [snd] in F3; unfold same_kind in *;
    [|injection Hd as <- <-; congruence].
  pose proof (frame_delete (A := K8sPV) (B := B) "" (kc_VolumeName p) k3) as F4.
  destruct (kube_delete "" (kc_VolumeName p) k3) as [rv k4]. cbn [snd] in F4. unfold same_kind in *.
  injection Hd as <- <-. congruence.
Qed.
Lemma deleteWorkLoadPVCs_frame {E} namespace vols (k : K) (r : result E unit) k' :
  deleteWorkLoadPVCs namespace vols k = (r, k') -> same_kind B k k'.
Proof.
  revert k. induction vols as [|v vols IH]; intros k Hd; simpl in Hd; [by injection Hd as <- <-|]. unfold bind in Hd.
  destruct (vs_PersistentVolumeClaim (kv_Source v)) as [n|].
  - destruct (deletePVC namespace n k) as [r1 k1] eqn:Hk1. apply deletePVC_frame in Hk1. unfold same_kind in *.
    destruct r1 as [[]|e]; [apply IH in Hd; congruence|injection Hd as <- <-; done].
  - by apply IH.
Qed.
Lemma deletePVC_ok {E} namespace name (k : K) (r : result E unit) k' : deletePVC namespace name k = (r, k') -> r = Ok tt.
Proof.
  unfold deletePVC, bind, attempt, ret.
  destruct (getPersistentVolumeClaim namespace name k) as [[p|e] k1]; [|by intros [= <- <-]].
  destruct (deletePersistentVolumeClaim namespace name k1) as [rd k2]. destruct (String.eqb _ ""); [by intros [= <- <-]|].
  destruct (getPersistentVolume (kc_VolumeName p) k2) as [[v|e] k3]; [|by intros [= <- <-]].
  destruct (deletePersistentVolume (kc_VolumeName p) k3) as [rv k4]. by intros [= <- <-].
Qed.
Lemma deleteWorkLoadPVCs_ok {E} namespace vols (k : K) (r : result E unit) k' :
  deleteWorkLoadPVCs namespace vols k = (r, k') -> r = Ok tt.
Proof.
  revert k. induction vols as [|v vols IH]; intros k Hd; simpl in Hd; [by injection Hd as <- <-|]. unfold bind in Hd.
  destruct (vs_PersistentVolumeClaim (kv_Source v)) as [n|]; [|by apply IH in Hd].
  destruct (deletePVC (E := E) namespace n k) as [r1 k1] eqn:Hk1. apply deletePVC_ok in Hk1 as ->. by apply IH in Hd.
Qed.
End Frame.
