(* ===== verification/Workload.v ===== *)
(** What deployments, stateful sets and daemon sets share (pkg/handler/workloadversion.go and
    pkg/types/deployment.go): the status, the versions and their owners, and what the cluster
    holds after a workload was created. *)
From S2P Require Import Prelude GoStrings RestApi KubeApi ConfigMap Secret PersistentVolume PodTemplate.

Record WorkloadStatus := mkStatus {
  st_ReadyReplicas : Z; st_Updating : bool; st_CurrentReplicas : Z; st_UpdatingReplicas : Z; st_UpdatedReplicas : Z;
  st_Conditions : list WorkloadCondition
}.
Record VersionInfo := mkVersion {
  ve_Name : string; ve_Namespace : string; ve_Version : Z; ve_ChangeReason : string; ve_Containers : list Container
}.

Inductive workload_error := Answer (e : api_error) | Panic.
Definition read_error (e : kube_error) : workload_error := Answer (if IsNotFound e then NotFound else ServerError).
Definition on_create_error (e : pod_error) : workload_error :=
  match e with
  | PKube KAlreadyExists => Answer DuplicateResource
  | NilPointer | MustParsePanic => Panic
  | _ => Answer ConnectClusterFailed
  end.
Definition on_update_error (e : pod_error) : workload_error :=
  match e with NilPointer | MustParsePanic => Panic | _ => Answer ConnectClusterFailed end.

(** The clusters and the workloads whose deletion was published, as namespace and name. *)
Definition publishing {K E} (item : string * string) (m : M (gmap string K) E unit)
    : M (gmap string K * list (string * string)) E unit :=
  do! zoom fst (fun ks w => (ks, w.2)) m in modify (fun w => (w.1, w.2 ++ [item])).
Lemma publishing_inv {K E} item (m : M (gmap string K) E unit) ks published r ks' published' :
  publishing item m (ks, published) = (r, (ks', published')) ->
  m ks = (r, ks') /\ published' = match r with Ok _ => published ++ [item] | Err _ => published end.
Proof.
  unfold publishing, bind, zoom, modify. cbn [fst snd]. destruct (m ks) as [[[]|e] ks1]; by intros [= <- <- <-].
Qed.

(** The claims of a workload that asks for it are deleted with it. *)
Definition delete_claims `{Quantities} {K} `{!KubeKind K K8sPV} `{!KubeKind K K8sPVC} {E}
    (annotations : gmap string string) (namespace : string) (volumes : list K8sVolume) : M K E unit :=
  if bool_decide (annotations !! AnnkeyForDeletePVsWhenDeleteWorkload = Some "true")
  then deleteWorkLoadPVCs namespace volumes
  else ret tt.

(** metav1.OwnerReference. *)
Record OwnerReference := mkOwnerRef { ow_Kind : string; ow_Name : string; ow_Controller : option bool; ow_UID : string }.
Definition isControllerBy (ownerRefs : list OwnerReference) (uid : string) : bool :=
  existsb (fun ref => match ref.(ow_Controller) with Some true => String.eqb ref.(ow_UID) uid | _ => false end) ownerRefs.

(** VersionInfos.Less; versions that are equal come in no particular order. *)
Definition NotNewer (a b : VersionInfo) : Prop := a.(ve_Version) <= b.(ve_Version).
#[export] Instance NotNewer_dec a b : Decision (NotNewer a b).
Proof. unfold NotNewer. apply _. Defined.
(** The versions but the last; cutting the last one off an empty slice is a panic. *)
Definition history (versionInfos : list VersionInfo) : result workload_error (list VersionInfo) :=
  match merge_sort NotNewer versionInfos with
  | [] => Err Panic
  | l => Ok (take (length l - 1) l)
  end.

(** appsv1.ControllerRevision: [cv_Raw] is the patch that restores the revision. *)
Record ControllerRevision := mkRevision {
  cv_Namespace : string; cv_Name : string; cv_OwnerReferences : list OwnerReference; cv_Annotations : gmap string string;
  cv_Revision : Z; cv_Raw : string
}.
#[export] Instance ControllerRevision_object : KubeObject ControllerRevision := {|
  Spec := unit; kube_key o := (o.(cv_Namespace), o.(cv_Name)); kube_spec _ := tt; kube_deleting _ := false |}.

Section Revisions.
Context `{Quantities} `{LabelSelectors} {K : Type} `{!KubeKind K ControllerRevision} `{!KubeSelect K ControllerRevision}.

(** The errors of the selector are not those of the cluster. *)
Definition getControllerRevisions (namespace : string) (selector : LabelSelector) (uid : string)
    : M K (option kube_error) (list ControllerRevision) :=
  match LabelSelectorAsSelector selector with
  | None => throw None
  | Some labels =>
      let! items := rethrow Some (kube_select (Obj := ControllerRevision) namespace labels) in
      ret (filter (fun cr => isControllerBy cr.(cv_OwnerReferences) uid = true) items)
  end.
End Revisions.

(** json.Unmarshal of a revision into a workload: its containers and volumes. *)
Class RevisionText `{Quantities} := revision_spec : string -> option PodSpec.
Definition revision_info `{RevisionText} (namespace id : string) (cr : ControllerRevision) : option VersionInfo :=
  (fun spec => mkVersion id namespace cr.(cv_Revision) (default "" (cr.(cv_Annotations) !! ChangeCauseAnnotation))
                 (k8sPodSpecToScContainersAndVCTemplates spec.(ps_Containers) spec.(ps_Volumes)).1)
  <$> revision_spec cr.(cv_Raw).
Definition revision_history `{RevisionText} (namespace id : string) (crs : list ControllerRevision)
    : result workload_error (list VersionInfo) :=
  match mapM (revision_info namespace id) crs with
  | None => Err (Answer InvalidFormat)
  | Some versionInfos => history versionInfos
  end.
(** The patch of the first revision of the version that has one. *)
Definition find_patch (version : Z) (crs : list ControllerRevision) : option string :=
  match find (fun cr => cr.(cv_Revision) =? version) crs with
  | Some cr => if String.eqb cr.(cv_Raw) "" then None else Some cr.(cv_Raw)
  | None => None
  end.

(** The options of a workload as they are shown: those of its annotations, with the metric of
    its pods. *)
Definition shown_options `{Quantities} `{WorkloadText} (annotations : gmap string string) (template : PodTemplateSpec) : AdvancedOptions :=
  let opts := match annotations !! AnnkeyForWordloadAdvancedoption with
              | Some opts => unmarshal_options opts
              | None => mkOptions (mkMetric "" 0) false false false
              end in
  mkOptions (k8sAnnotationsToScExposedMetric template.(tp_Meta).(om_Annotations)) opts.(ao_ReloadWhenConfigChange)
    opts.(ao_DeletePVsWhenDeleteWorkload) opts.(ao_InjectServiceMesh).

(** ** Stateful sets, as the cluster keeps them *)

Section StatefulSets.
Context `{Quantities} `{LabelSelectors}.

(** appsv1.StatefulSet; the server sets the number of replicas when it is not given, and the
    numbers of its status are 32 bits wide. *)
Record K8sStatefulSet := mkK8sStatefulSet {
  kst_Namespace : string; kst_Name : string; kst_UID : string; kst_Annotations : gmap string string;
  kst_Replicas : Z; kst_ServiceName : string; kst_Selector : option LabelSelector; kst_Template : PodTemplateSpec;
  kst_VolumeClaimTemplates : list K8sPVC;
  kst_ReadyReplicas : Z; kst_UpdatedReplicas : Z; kst_CurrentRevision : string; kst_UpdateRevision : string;
  kst_Conditions : list K8sCondition; kst_CreationTimestamp : Z; kst_DeletionTimestamp : option Z
}.
#[export] Instance K8sStatefulSet_object : KubeObject K8sStatefulSet := {|
  Spec := gmap string string * Z * string * option LabelSelector * PodTemplateSpec * list K8sPVC;
  kube_key o := (o.(kst_Namespace), o.(kst_Name));
  kube_spec o := (o.(kst_Annotations), o.(kst_Replicas), o.(kst_ServiceName), o.(kst_Selector), o.(kst_Template),
                  o.(kst_VolumeClaimTemplates));
  kube_deleting o := bool_decide (is_Some o.(kst_DeletionTimestamp))
|}.

Definition getStatefulSet {K : Type} `{!KubeKind K K8sStatefulSet} (namespace name : string) : M K workload_error K8sStatefulSet :=
  rethrow read_error (kube_get namespace name).
End StatefulSets.

(** ** Facts *)

Section Facts.
Context `{Quantities} `{WorkloadText}
  {K : Type} `{!KubeKind K K8sPV} `{!KubeKind K K8sPVC} `{!KubeKind K K8sStorageClass} `{!KubeKind K K8sConfigMap}
  `{!KubeKind K K8sSecret} `{!KubeLaws K K8sPVC}.

(** The metric that is scraped is read back from the annotations of the pods. *)
Definition shown_metric (m : ExposedMetric) : ExposedMetric :=
  if negb (m.(em_Port) =? 0) && negb (String.eqb m.(em_Path) "") then m else mkMetric "" 0.
Lemma insert_if_ne b k k' v (m : gmap string string) : k <> k' -> insert_if b k v m !! k' = m !! k'.
Proof. intros Hne. destruct b; [by apply lookup_insert_ne|done]. Qed.

Lemma scraped_metric (m m0 : gmap string string) metric :
  int64_ok metric.(em_Port) = true ->
  m0 = (if negb (metric.(em_Port) =? 0) && negb (String.eqb metric.(em_Path) "")
        then <[AnnkeyForPromethusPath := metric.(em_Path)]>
               (<[AnnkeyForPromethusPort := Itoa metric.(em_Port)]> {[AnnkeyForPromethusScrape := "true"]}) else ∅) ->
  (forall k, k ∈ [AnnkeyForPromethusScrape; AnnkeyForPromethusPort; AnnkeyForPromethusPath] -> m !! k = m0 !! k) ->
  k8sAnnotationsToScExposedMetric m = shown_metric metric.
Proof.
  intros Hp -> Hm. unfold k8sAnnotationsToScExposedMetric, shown_metric. rewrite !Hm by set_solver.
  destruct (negb _ && negb _); [|by rewrite lookup_empty].
  rewrite lookup_insert_ne, lookup_insert_ne, lookup_singleton_eq by done. simpl.
  rewrite lookup_insert_eq, lookup_insert_ne, lookup_insert_eq by done. simpl. rewrite Atoi_value_Itoa by done. by destruct metric.
Qed.

Lemma createPodTempateObjectMeta_metric name namespace opts containers (k k' : K) meta :
  int64_ok opts.(ao_ExposedMetric).(em_Port) = true ->
  createPodTempateObjectMeta name namespace opts containers k = (Ok meta, k') ->
  k8sAnnotationsToScExposedMetric meta.(om_Annotations) = shown_metric opts.(ao_ExposedMetric).
Proof.
  intros Hp Hc. unfold createPodTempateObjectMeta, bind, ret in Hc. cbv zeta in Hc.
  set (m0 := if negb _ && _ then _ else ∅) in Hc.
  assert (Hne : forall k, k ∈ [AnnkeyForPromethusScrape; AnnkeyForPromethusPort; AnnkeyForPromethusPath] ->
                AnnKeyForInjectServiceMesh <> k /\ AnnKeyForConfigHashAnnotation <> k) by (intros x Hx; set_solver).
  destruct (ao_ReloadWhenConfigChange opts).
  - destruct (getConfigmapAndSecretContainersUse namespace containers k) as [[configs|] k1]; [|done]. injection Hc as <- _. simpl.
    apply (scraped_metric _ m0); [done|done|]. intros x Hx. destruct (Hne x Hx) as [Hi Hh]. rewrite insert_if_ne by done.
    destruct configs; [done|]. by apply lookup_insert_ne.
  - injection Hc as <- _. simpl. apply (scraped_metric _ m0); [done|done|]. intros x Hx. by apply insert_if_ne, Hne.
Qed.

(** The options a workload is created with, as they are shown. *)
Definition visible_options (o : AdvancedOptions) : AdvancedOptions :=
  mkOptions (shown_metric o.(ao_ExposedMetric)) o.(ao_ReloadWhenConfigChange) o.(ao_DeletePVsWhenDeleteWorkload) o.(ao_InjectServiceMesh).
Lemma shown_options_created `{!WorkloadTextLaws} namespace owner annotations template (k k' : K) :
  int64_ok owner.(po_AdvancedOptions).(ao_ExposedMetric).(em_Port) = true ->
  createPodTempateObjectMeta owner.(po_Name) namespace owner.(po_AdvancedOptions) owner.(po_Containers) k = (Ok template.(tp_Meta), k') ->
  annotations !! AnnkeyForWordloadAdvancedoption =
    (generatePodOwnerObjectMeta namespace owner).(om_Annotations) !! AnnkeyForWordloadAdvancedoption ->
  shown_options annotations template = visible_options owner.(po_AdvancedOptions).
Proof.
  intros Hp Hm Ha. unfold shown_options, visible_options. rewrite Ha, (createPodTempateObjectMeta_metric _ _ _ _ _ _ _ Hp Hm).
  unfold generatePodOwnerObjectMeta. simpl.
  rewrite !insert_if_ne, lookup_insert_ne, lookup_singleton_eq, unmarshal_marshal_options by done. done.
Qed.

(** What the creation of the template of a workload leaves in the cluster. *)
Lemma createPodTempateSpec_ok namespace owner (k k' : K) template claims :
  createPodTempateSpec namespace owner k = (Ok (template, claims), k') ->
  exists k1 k2 k3,
    scPodSpecToK8sPodSpecAndPVCs owner.(po_Containers) owner.(po_PersistentVolumes) k = (Ok (template.(tp_Spec), claims), k1) /\
    createPodTempateObjectMeta owner.(po_Name) namespace owner.(po_AdvancedOptions) owner.(po_Containers) k2 = (Ok template.(tp_Meta), k3) /\
    (owner.(po_StatefulSet) = false ->
     forall p, p ∈ claims -> exists q, kube_objects k' !! (namespace, kc_Name p) = Some q /\ kube_spec q = kube_spec p).
Proof.
  unfold createPodTempateSpec, bind, rethrow, ret. intros Hc.
  destruct (scPodSpecToK8sPodSpecAndPVCs _ _ k) as [[[spec cl]|] k1] eqn:Hs; [|done].
  destruct (createPodTempateObjectMeta _ _ _ _ k1) as [[meta|] k2] eqn:Hm; [|done]. cbn [fst snd] in Hc.
  exists k1, k1, k2. destruct (po_StatefulSet owner); [by injection Hc as <- <- <-|].
  unfold createPVCs, bind, attempt, ret, throw in Hc.
  destruct (create_claims namespace cl k2) as [[[]|e] k3] eqn:Hcl; [|by destruct (deletePVCs namespace cl k3) as [[]]].
  injection Hc as <- <- <-. split; [done|]. split; [done|]. intros _ p Hp.
  apply create_claims_ok in Hcl as [Hall _]. by apply Hall.
Qed.

(** The persistent volumes a workload is shown with: those that are mounted and not
    temporary. *)
Definition shown_volume (containers : list Container) (pvs : list PersistentVolumeTemplate) (t : PersistentVolumeTemplate) : Prop :=
  exists pv q, pv ∈ pvs /\ ~ temporary pv /\ pt_Name pv ∈ mounted_pvs containers /\
    ParseQuantity pv.(pt_Size) = Some q /\ t = mkTemplate (pt_Name pv) (Quantity_String q) (pt_StorageClassName pv).

(** What was translated, as the reader of a pod finds it. *)
Lemma translated containers pvs (k k1 : K) spec claims :
  pod_names_ok containers pvs -> scPodSpecToK8sPodSpecAndPVCs containers pvs k = (Ok (spec, claims), k1) ->
  exists eds,
    Forall2 (fun pv d => exists size, parse_size pv.(pt_Size) = Ok size /\ d = empty_dir pv.(pt_Name) size) (filter temporary pvs) eds /\
    Forall2 (fun pv p => exists accessMode size, parse_size pv.(pt_Size) = Ok (Some size) /\
               p = claim pv.(pt_Name) accessMode pv.(pt_StorageClassName) size) (filter (fun pv => ~ temporary pv) pvs) claims /\
    let read := (k8sPodSpecToScContainersAndVCTemplates spec.(ps_Containers) spec.(ps_Volumes)).2 in
    (forall n, n ∈ pt_Name <$> read <-> n ∈ mounted_pvs containers) /\
    forall t, t ∈ read ->
      (temporary t /\ (pt_Name t ∈ kv_Name <$> eds) /\
       exists size, empty_dir (pt_Name t) size ∈ eds /\ t = mkTemplate (pt_Name t) (optional_size size) StorageClassNameTemp) \/
      (~ temporary t /\ (pt_Name t ∉ kv_Name <$> eds) /\ pt_Name t ∈ kc_Name <$> claims).
Proof.
  intros Hn Hs. pose proof (pod_spec_built _ _ _ _ _ _ Hn Hs) as (_ & _ & eds & k1' & Hp & Hpp).
  pose proof (pod_spec_round_trip' _ _ _ _ _ _ Hn Hs) as (_ & _ & Hmounted).
  apply scPVCs_ok in Hp as [He Hc]. exists eds. split; [done|]. split; [done|]. split; [done|].
  intros t. apply (read_template_kind eds claims spec); [|done]. apply Forall_forall. intros x Hx.
  apply list_elem_of_lookup in Hx as [i Hi]. destruct (Forall2_lookup_r _ _ _ _ _ He Hi) as (pv & _ & size & _ & ->). by exists size.
Qed.

(** The empty directory of a name comes from the temporary volume of that name. *)
Lemma empty_dir_origin pvs eds n :
  Forall2 (fun pv d => exists size, parse_size pv.(pt_Size) = Ok size /\ d = empty_dir pv.(pt_Name) size) (filter temporary pvs) eds ->
  (n ∈ kv_Name <$> eds -> exists pv, pv ∈ pvs /\ temporary pv /\ pt_Name pv = n) /\
  forall size, empty_dir n size ∈ eds -> exists pv, pv ∈ pvs /\ temporary pv /\ pt_Name pv = n /\ parse_size pv.(pt_Size) = Ok size.
Proof.
  intros He. assert (Hof : forall d, d ∈ eds -> exists pv size, pv ∈ pvs /\ temporary pv /\ parse_size pv.(pt_Size) = Ok size /\
                                                  d = empty_dir pv.(pt_Name) size).
  { intros d Hd. apply list_elem_of_lookup in Hd as [i Hi]. destruct (Forall2_lookup_r _ _ _ _ _ He Hi) as (pv & Hpv & size & Hs & ->).
    apply list_elem_of_lookup_2, list_elem_of_filter in Hpv as [? ?]. eauto 8. }
  split.
  - intros (d & -> & Hd)%list_elem_of_fmap. destruct (Hof d Hd) as (pv & size & ? & ? & _ & ->). by exists pv.
  - intros size Hd. destruct (Hof _ Hd) as (pv & size' & ? & ? & ? & [= -> ->]). by exists pv.
Qed.

(** A claim shows one persistent volume. *)
Lemma claim_origin pvs claims (p q : K8sPVC) :
  Forall2 (fun pv p => exists accessMode size, parse_size pv.(pt_Size) = Ok (Some size) /\
             p = claim pv.(pt_Name) accessMode pv.(pt_StorageClassName) size) (filter (fun pv => ~ temporary pv) pvs) claims ->
  p ∈ claims -> kc_Name q = kc_Name p -> q.(kc_Requests) = p.(kc_Requests) -> q.(kc_StorageClassName) = p.(kc_StorageClassName) ->
  exists pv size, pv ∈ pvs /\ ~ temporary pv /\ pt_Name pv = kc_Name p /\ ParseQuantity pv.(pt_Size) = Some size /\
    claim_template q = mkTemplate (pt_Name pv) (Quantity_String size) (pt_StorageClassName pv).
Proof.
  intros Hc Hp Hqn Hr Hsc. apply list_elem_of_lookup in Hp as [i Hi].
  destruct (Forall2_lookup_r _ _ _ _ _ Hc Hi) as (pv & Hpv & mode & size & Hsize & ->).
  apply list_elem_of_lookup_2, list_elem_of_filter in Hpv as [Htemp Hpv]. exists pv, size. split; [done|]. split; [done|]. split; [done|].
  split.
  - unfold parse_size in Hsize. destruct (String.eqb _ ""); [done|]. destruct (ParseQuantity _); congruence.
  - unfold claim_template. rewrite Hqn, Hr, Hsc. unfold claim. cbn [kc_Requests kc_StorageClassName kc_Name]. unfold size_text.
    by rewrite lookup_singleton_eq.
Qed.

Lemma shown_volumes containers pvs (k k1 k2 : K) spec claims namespace l k' :
  let read := k8sPodSpecToScContainersAndVCTemplates spec.(ps_Containers) spec.(ps_Volumes) in
  pod_names_ok containers pvs -> NoDup (pt_Name <$> pvs) ->
  scPodSpecToK8sPodSpecAndPVCs containers pvs k = (Ok (spec, claims), k1) ->
  (forall p, p ∈ claims -> exists q, kube_objects k2 !! (namespace, kc_Name p) = Some q /\
     q.(kc_Requests) = p.(kc_Requests) /\ q.(kc_StorageClassName) = p.(kc_StorageClassName)) ->
  getPVCs namespace read.2 k2 = (l, k') ->
  match l with Ok l => forall t, t ∈ l <-> shown_volume containers pvs t | Err e => e <> KNotFound end.
Proof.
  intros read Hn Hnd Hs Hclaims Hg. destruct (translated _ _ _ _ _ _ Hn Hs) as (eds & He & Hc & Hmounted & Hkind).
  fold read in Hmounted, Hkind. apply getPVCs_ok in Hg as [_ Hg].
  2:{ apply Forall_forall. intros t Ht Htemp. destruct (Hkind t Ht) as [[? _]|(_ & _ & Hin)]; [done|].
      apply list_elem_of_fmap in Hin as (p & -> & Hp). destruct (Hclaims p Hp) as (q & -> & _). done. }
  destruct l as [l|e]; [|done].
  assert (Hone : forall p q, p ∈ claims -> kube_objects k2 !! (namespace, kc_Name p) = Some q -> kc_Name q = kc_Name p ->
            exists pv size, pv ∈ pvs /\ ~ temporary pv /\ pt_Name pv = kc_Name p /\ ParseQuantity pv.(pt_Size) = Some size /\
                            claim_template q = mkTemplate (pt_Name pv) (Quantity_String size) (pt_StorageClassName pv)).
  { intros p q Hp Hq Hqn. destruct (Hclaims p Hp) as (q' & Hq' & Hr & Hsc). assert (q' = q) as -> by congruence.
    by apply (claim_origin pvs claims p). }
  intros t. split.
  - intros Ht. apply list_elem_of_lookup in Ht as [i Hi]. destruct (Forall2_lookup_r _ _ _ _ _ Hg Hi) as (t0 & Ht0 & q & Hq & Hqn & ->).
    apply list_elem_of_lookup_2, list_elem_of_filter in Ht0 as [Htemp Ht0].
    destruct (Hkind t0 Ht0) as [[? _]|(_ & _ & Hin)]; [done|]. apply list_elem_of_fmap in Hin as (p & Hpn & Hp). rewrite Hpn in *.
    destruct (Hone p q Hp Hq Hqn) as (pv & size & Hpv & Hnt & Hname & Hsize & ->). exists pv, size.
    split; [done|]. split; [done|]. split; [|done]. apply Hmounted. rewrite Hname, <- Hpn. by apply list_elem_of_fmap_2.
  - intros (pv & size & Hpv & Hnt & Hmount & Hsize & ->). apply Hmounted, list_elem_of_fmap in Hmount as (t0 & Hname & Ht0).
    destruct (Hkind t0 Ht0) as [(_ & Hin & _)|(Htemp & _ & Hin)].
    + exfalso. apply (empty_dir_origin pvs) in Hin as (pv' & Hpv' & Htemp & Hn'); [|done].
      assert (pv = pv') as -> by (apply (NoDup_fmap_elem_inj pt_Name pvs); [done..|congruence]). done.
    + apply list_elem_of_fmap in Hin as (p & Hpn & Hp). assert (Htf : t0 ∈ filter (fun t => ~ temporary t) read.2) by (by apply list_elem_of_filter).
      apply list_elem_of_lookup in Htf as [i Hi]. destruct (Forall2_lookup_l _ _ _ _ _ Hg Hi) as (t' & Ht' & q & Hq & Hqn & ->).
      rewrite Hpn in Hq, Hqn. destruct (Hone p q Hp Hq Hqn) as (pv' & size' & Hpv' & _ & Hname' & Hsize' & Ht).
      assert (pv = pv') as -> by (apply (NoDup_fmap_elem_inj pt_Name pvs); [done..|congruence]).
      assert (size = size') as -> by congruence. rewrite <- Ht. by apply list_elem_of_lookup_2 in Ht'.
Qed.

(** The temporary volumes that are read are those that are mounted. *)
Definition shown_temporary (containers : list Container) (pvs : list PersistentVolumeTemplate) (t : PersistentVolumeTemplate) : Prop :=
  exists pv size, pv ∈ pvs /\ temporary pv /\ pt_Name pv ∈ mounted_pvs containers /\ parse_size pv.(pt_Size) = Ok size /\
    t = mkTemplate (pt_Name pv) (optional_size size) StorageClassNameTemp.
Lemma temporary_templates containers pvs (k k1 : K) spec claims t :
  pod_names_ok containers pvs -> NoDup (pt_Name <$> pvs) ->
  scPodSpecToK8sPodSpecAndPVCs containers pvs k = (Ok (spec, claims), k1) ->
  t ∈ filter temporary (k8sPodSpecToScContainersAndVCTemplates spec.(ps_Containers) spec.(ps_Volumes)).2 <->
  shown_temporary containers pvs t.
Proof.
  intros Hn Hnd Hs. destruct (translated _ _ _ _ _ _ Hn Hs) as (eds & He & Hc & Hmounted & Hkind). rewrite list_elem_of_filter. split.
  - intros [Htemp Ht]. destruct (Hkind t Ht) as [(_ & _ & size & Hed & ->)|[? _]]; [|done].
    destruct (empty_dir_origin pvs eds (pt_Name t) He) as [_ Ho]. destruct (Ho size Hed) as (pv & ? & ? & Hname & ?).
    exists pv, size. split; [done|]. split; [done|]. rewrite Hname. split; [|done]. apply Hmounted.
    apply list_elem_of_fmap. eexists. split; [|exact Ht]. done.
  - intros (pv & size & Hpv & Htemp & Hm & Hsize & ->). split; [done|]. apply Hmounted, list_elem_of_fmap in Hm as (t0 & Hname & Ht0).
    destruct (Hkind t0 Ht0) as [(_ & _ & size' & Hed & Ht)|(_ & _ & Hin)].
    + destruct (empty_dir_origin pvs eds (pt_Name t0) He) as [_ Ho]. destruct (Ho size' Hed) as (pv' & ? & ? & Hname' & Hsize').
      assert (pv = pv') as -> by (apply (NoDup_fmap_elem_inj pt_Name pvs); [done..|congruence]).
      assert (size' = size) as -> by congruence. rewrite Hname'. by rewrite <- Ht.
    + exfalso. apply list_elem_of_fmap in Hin as (p & Hpn & Hp).
      destruct (claim_origin pvs claims p p Hc Hp) as (pv' & ? & ? & Hnt & Hname' & _); [done..|].
      assert (pv = pv') as -> by (apply (NoDup_fmap_elem_inj pt_Name pvs); [done..|congruence]). done.
Qed.
End Facts.

Section DeleteClaims.
Context `{Quantities} {K B : Type} `{!KubeKind K K8sPV} `{!KubeKind K K8sPVC} `{KubeKind K B} `{!KubeLaws K K8sPVC}
  `{!KubeFrame K K8sPV K8sPVC} `{!KubeDeleteFrame K K8sPV K8sPVC}
  `{!KubeFrame K K8sPV B} `{!KubeDeleteFrame K K8sPV B} `{!KubeFrame K K8sPVC B} `{!KubeDeleteFrame K K8sPVC B}.

Lemma delete_claims_ok {E} annotations namespace volumes (k : K) (r : result E unit) k' :
  delete_claims annotations namespace volumes k = (r, k') ->
  r = Ok tt /\ same_kind B k k' /\
  if bool_decide (annotations !! AnnkeyForDeletePVsWhenDeleteWorkload = Some "true")
  then others_kept namespace (volume_claims volumes) k k' else same_kind K8sPVC k k'.
Proof.
  unfold delete_claims. destruct (bool_decide _); intros Hd; [|by injection Hd as <- <-].
  split; [by eapply deleteWorkLoadPVCs_ok|]. split; [by eapply deleteWorkLoadPVCs_frame|]. by eapply deleteWorkLoadPVCs_kept.
Qed.
End DeleteClaims.
