(* ===== verification/Service.v ===== *)
(** Services (pkg/handler/service_manager.go, k8sutil.go and pkg/types/service.go): the ports
    under which the pods of a workload are reached. *)
From S2P Require Import Prelude GoStrings RestApi KubeApi PodTemplate Workload.

(** A port as a number or by its name. *)
Inductive IntOrString := FromInt (n : Z) | FromString (s : string).
Record ServicePort := mkServicePort {
  sp_Name : string; sp_Port : Z; sp_TargetPort : IntOrString; sp_Protocol : string; sp_NodePort : Z
}.
Record Service := mkService {
  sv_ID : string; sv_Name : string; sv_ServiceType : string; sv_Headless : bool; sv_ClusterIP : string;
  sv_ExposedPorts : list ServicePort; sv_LoadBalanceVIP : string; sv_LoadBalanceMethod : string;
  sv_CreationTimestamp : Z; sv_DeletionTimestamp : option Z
}.

Definition NoneClusterIP : string := "None".
Definition ZcloudLBVIPAnnotationKey : string := "lb.zcloud.cn/vip".
Definition ZcloudLBMethodAnnotationKey : string := "lb.zcloud.cn/method".
Definition ZcloudDefaultLBMethod : string := "rr".

(** corev1.Service. *)
Record K8sServicePort := mkK8sServicePort {
  ksp_Name : string; ksp_Protocol : string; ksp_Port : Z; ksp_TargetPort : IntOrString; ksp_NodePort : Z
}.
Record K8sService := mkK8sService {
  ksv_Namespace : string; ksv_Name : string; ksv_Annotations : gmap string string; ksv_Selector : gmap string string;
  ksv_Ports : list K8sServicePort; ksv_Type : string; ksv_ClusterIP : string; ksv_CreationTimestamp : Z;
  ksv_DeletionTimestamp : option Z
}.
(** The server chooses an address and the ports on the nodes. *)
#[export] Instance K8sService_object : KubeObject K8sService := {|
  Spec := gmap string string * gmap string string * list (string * string * Z * IntOrString) * string;
  kube_key o := (o.(ksv_Namespace), o.(ksv_Name));
  kube_spec o := (o.(ksv_Annotations), o.(ksv_Selector),
    (fun p => (p.(ksp_Name), p.(ksp_Protocol), p.(ksp_Port), p.(ksp_TargetPort))) <$> o.(ksv_Ports), o.(ksv_Type));
  kube_deleting o := bool_decide (is_Some o.(ksv_DeletionTimestamp))
|}.

Definition scServiceTypeToK8sServiceType (typ : string) : option string :=
  if String.eqb (ToLower typ) "clusterip" then Some "ClusterIP"
  else if String.eqb (ToLower typ) "nodeport" then Some "NodePort"
  else if String.eqb (ToLower typ) "loadbalancer" then Some "LoadBalancer"
  else None.
Definition isIpv4 (input : string) : bool := is_some (ParseIP input ≫= To4).
Definition validateIfLoadBalancerService (s : Service) : bool :=
  negb (String.eqb s.(sv_ServiceType) "loadbalancer") || isIpv4 s.(sv_LoadBalanceVIP).

(** [SOther]: a type or a protocol that is not known. *)
Inductive service_error := SKube (e : kube_error) | SOther.

Definition service_port (p : ServicePort) : result service_error K8sServicePort :=
  match scPortProtocolToK8SProtocol p.(sp_Protocol) with
  | None => Err SOther
  | Some protocol => Ok (mkK8sServicePort p.(sp_Name) protocol (int32 p.(sp_Port)) p.(sp_TargetPort) 0)
  end.
Definition scServiceToLBK8sServiceAnnotation (s : Service) : gmap string string :=
  let result : gmap string string :=
    <[ZcloudLBMethodAnnotationKey := ZcloudDefaultLBMethod]> {[ZcloudLBVIPAnnotationKey := s.(sv_LoadBalanceVIP)]} in
  if String.eqb s.(sv_LoadBalanceMethod) "" then result else <[ZcloudLBMethodAnnotationKey := s.(sv_LoadBalanceMethod)]> result.
Definition new_service (namespace : string) (s : Service) (typ : string) (ports : list K8sServicePort) : K8sService :=
  mkK8sService namespace s.(sv_Name)
    (if String.eqb typ "LoadBalancer" then scServiceToLBK8sServiceAnnotation s else ∅)
    {["app" := s.(sv_Name)]} ports typ
    (if String.eqb typ "ClusterIP" && s.(sv_Headless) then NoneClusterIP else "") 0 None.
Definition shown_port (p : K8sServicePort) : ServicePort :=
  mkServicePort p.(ksp_Name) p.(ksp_Port) p.(ksp_TargetPort) (ToLower p.(ksp_Protocol)) p.(ksp_NodePort).
Definition k8sServiceToSCService (k : K8sService) : Service :=
  mkService k.(ksv_Name) k.(ksv_Name) (ToLower k.(ksv_Type)) false k.(ksv_ClusterIP) (shown_port <$> k.(ksv_Ports))
    (default "" (k.(ksv_Annotations) !! ZcloudLBVIPAnnotationKey)) (default "" (k.(ksv_Annotations) !! ZcloudLBMethodAnnotationKey))
    k.(ksv_CreationTimestamp) k.(ksv_DeletionTimestamp).

Section Service.
Context {K : Type} `{!KubeKind K K8sService}.

Definition getService (namespace name : string) : M K kube_error K8sService := kube_get namespace name.
Definition getServices (namespace : string) : M K kube_error (list K8sService) := kube_list namespace.
Definition createService (namespace : string) (service : Service) : M K service_error unit :=
  let! typ := lift (of_option SOther (scServiceTypeToK8sServiceType service.(sv_ServiceType))) in
  let! ports := lift (map_result service_port service.(sv_ExposedPorts)) in
  do! rethrow SKube (kube_create (new_service namespace service typ ports)) in
  ret tt.
Definition deleteService (namespace name : string) : M K kube_error unit := kube_delete (Obj := K8sService) namespace name.

Definition create_error (e : service_error) : api_error :=
  match e with SKube KAlreadyExists => DuplicateResource | _ => ConnectClusterFailed end.
Definition read_error (e : kube_error) : api_error := if IsNotFound e then NotFound else ServerError.
Definition set_id (id : string) (s : Service) : Service :=
  mkService id s.(sv_Name) s.(sv_ServiceType) s.(sv_Headless) s.(sv_ClusterIP) s.(sv_ExposedPorts) s.(sv_LoadBalanceVIP)
    s.(sv_LoadBalanceMethod) s.(sv_CreationTimestamp) s.(sv_DeletionTimestamp).
Definition Create (cluster namespace : string) (service : Service) : M (gmap string K) api_error Service :=
  on_cluster NotFound cluster
    (do! guard (validateIfLoadBalancerService service) PermissionDenied in
     do! rethrow create_error (createService namespace service) in
     ret (set_id service.(sv_Name) service)).
Definition List (cluster namespace : string) : M (gmap string K) api_error (list Service) :=
  on_cluster NotFound cluster
    (let! items := rethrow read_error (getServices namespace) in ret (k8sServiceToSCService <$> items)).
Definition Get (cluster namespace id : string) : M (gmap string K) api_error Service :=
  on_cluster NotFound cluster
    (let! k8sService := rethrow read_error (getService namespace id) in ret (k8sServiceToSCService k8sService)).
(** [snd] holds the services whose deletion was published. *)
Definition Delete (cluster namespace id : string) : M (gmap string K * list (string * string)) api_error unit :=
  publishing (namespace, id) (on_cluster NotFound cluster (rethrow read_error (deleteService namespace id))).
End Service.

(** ** Facts *)

Lemma service_types typ t : scServiceTypeToK8sServiceType typ = Some t -> ToLower t = ToLower typ.
Proof.
  unfold scServiceTypeToK8sServiceType.
  destruct (String.eqb_spec (ToLower typ) "clusterip") as [->|]; [by intros [= <-]|].
  destruct (String.eqb_spec (ToLower typ) "nodeport") as [->|]; [by intros [= <-]|].
  destruct (String.eqb_spec (ToLower typ) "loadbalancer") as [->|]; [by intros [= <-]|done].
Qed.
Lemma port_protocols p t : scPortProtocolToK8SProtocol p = Some t -> ToLower t = ToLower p.
Proof.
  unfold scPortProtocolToK8SProtocol.
  destruct (String.eqb_spec (ToLower p) "tcp") as [->|]; [by intros [= <-]|].
  destruct (String.eqb_spec (ToLower p) "udp") as [->|]; [by intros [= <-]|done].
Qed.
(** A port as it is shown: the number 32 bits wide, the protocol in small letters, and the
    port on the nodes that the server chose. *)
Definition same_port (p q : ServicePort) : Prop :=
  q.(sp_Name) = p.(sp_Name) /\ q.(sp_Port) = int32 p.(sp_Port) /\ q.(sp_TargetPort) = p.(sp_TargetPort) /\
  q.(sp_Protocol) = ToLower p.(sp_Protocol).
Lemma service_ports_shown ports k8s_ports shown :
  Forall2 (fun p k => service_port p = Ok k) ports k8s_ports ->
  (fun p => (p.(ksp_Name), p.(ksp_Protocol), p.(ksp_Port), p.(ksp_TargetPort))) <$> shown =
  (fun p => (p.(ksp_Name), p.(ksp_Protocol), p.(ksp_Port), p.(ksp_TargetPort))) <$> k8s_ports ->
  Forall2 same_port ports (shown_port <$> shown).
Proof.
  intros Hp. revert shown. induction Hp as [|p k ports k8s Hk _ IH]; intros shown Hs.
  { apply fmap_nil_inv in Hs as ->. constructor. }
  destruct shown as [|q shown]; [discriminate Hs|]. revert Hs.
  intros [= Hn Hpr Hport Ht Hrest]. simpl. constructor; [|by apply IH].
  unfold service_port in Hk. destruct (scPortProtocolToK8SProtocol (sp_Protocol p)) as [t|] eqn:Hproto; [|done].
  injection Hk as <-. simpl in *. split; [done|]. split; [done|]. split; [done|]. simpl. rewrite Hpr. by apply port_protocols.
Qed.

(** A service that was created has a known type, and an IPv4 address to be balanced at when
    its type is that; it is read back with its type in small letters, its ports in order, and
    its address and method. *)
Lemma service_round_trip {K : Type} `{!KubeKind K K8sService} `{!KubeLaws K K8sService}
    cluster namespace s answer (ks ks1 ks2 : gmap string K) r :
  Create cluster namespace s ks = (Ok answer, ks1) -> Get cluster namespace s.(sv_Name) ks1 = (r, ks2) ->
  (s.(sv_ServiceType) = "loadbalancer" -> isIpv4 s.(sv_LoadBalanceVIP) = true) /\
  match r with
  | Ok read =>
      read.(sv_ID) = s.(sv_Name) /\ read.(sv_Name) = s.(sv_Name) /\ read.(sv_ServiceType) = ToLower s.(sv_ServiceType) /\
      Forall2 same_port s.(sv_ExposedPorts) read.(sv_ExposedPorts) /\
      (ToLower s.(sv_ServiceType) = "loadbalancer" ->
       read.(sv_LoadBalanceVIP) = s.(sv_LoadBalanceVIP) /\
       read.(sv_LoadBalanceMethod) = if String.eqb s.(sv_LoadBalanceMethod) "" then ZcloudDefaultLBMethod else s.(sv_LoadBalanceMethod))
  | Err e => e = ServerError
  end.
Proof.
  intros Hc Hg. apply on_cluster_inv in Hc as [(? & ? & _)|(k & k1 & Hk & Hc & ->)]; [done|].
  unfold createService, bind, rethrow, guard, lift, ret, throw in Hc.
  destruct (validateIfLoadBalancerService s) eqn:Hv; [|done]. split.
  { intros Ht. unfold validateIfLoadBalancerService in Hv. by rewrite Ht in Hv. }
  destruct (scServiceTypeToK8sServiceType (sv_ServiceType s)) as [typ|] eqn:Htyp; [|done]. cbn [of_option] in Hc.
  destruct (map_result service_port (sv_ExposedPorts s)) as [ports|] eqn:Hports; [|done]. apply map_result_ok in Hports.
  destruct (kube_create _ k) as [[o|e] k1'] eqn:Hcr; [|done]. injection Hc as <- ->.
  apply kube_create_law in Hcr as (Hkey & Hspec & _ & Hobj). unfold kube_key, kube_spec in Hkey, Hspec, Hobj. simpl in Hkey, Hspec, Hobj.
  injection Hkey as _ Hn. injection Hspec as Hann _ Hp Ht.
  apply (on_cluster_at _ _ _ _ _ _ k1) in Hg as (k2 & Hg & _); [|apply lookup_insert_eq].
  unfold bind, rethrow, getService, ret in Hg. destruct (kube_get namespace _ k1) as [rg k3] eqn:Hget.
  apply kube_get_stored with (o := o) in Hget as [->|(e & -> & He)]; [| |by rewrite Hobj, lookup_insert_eq];
    simpl in Hg; injection Hg as <- _; [|by destruct e].
  unfold k8sServiceToSCService. simpl. split; [done|]. split; [done|]. rewrite Ht. split; [by apply service_types|].
  split; [by apply (service_ports_shown _ ports)|]. intros Hlb. rewrite <- (service_types _ _ Htyp) in Hlb.
  assert (typ = "LoadBalancer") as ->.
  { unfold scServiceTypeToK8sServiceType in Htyp. destruct (String.eqb (ToLower (sv_ServiceType s)) "clusterip"); [by injection Htyp as <-|].
    destruct (String.eqb (ToLower (sv_ServiceType s)) "nodeport"); [by injection Htyp as <-|].
    destruct (String.eqb (ToLower (sv_ServiceType s)) "loadbalancer"); [by injection Htyp as <-|done]. }
  rewrite Hann. simpl. unfold scServiceToLBK8sServiceAnnotation.
  destruct (String.eqb (sv_LoadBalanceMethod s) ""); split; by vm_compute.
Qed.
