(* ===== verification/Deployment.v ===== *)
(** Deployments (pkg/handler/deployment_manager.go, workloadversion.go and
    pkg/types/deployment.go): creation with claims, reading, update, deletion, and the
    actions on versions and replicas. *)
From S2P Require Import Prelude GoStrings RestApi KubeApi ConfigMap Secret PersistentVolume PodTemplate Workload.

Definition RevisionAnnotation : string := "deployment.kubernetes.io/revision".
Definition AnnotationsToSkip : gset string :=
  {["kubectl.kubernetes.io/last-applied-configuration"; RevisionAnnotation; "deployment.kubernetes.io/revision-history";
    "deployment.kubernetes.io/desired-replicas"; "deployment.kubernetes.io/max-replicas"; "deprecated.deployment.rollback.to"]}.
Definition DefaultDeploymentUniqueLabelKey : string := "pod-template-hash".

(** types.Deployment. *)
Record Deployment := mkDeployment {
  de_ID : string; de_Name : string; de_Replicas : Z; de_Containers : list Container; de_AdvancedOptions : AdvancedOptions;
  de_PersistentVolumes : list PersistentVolumeTemplate; de_Status : WorkloadStatus; de_Memo : string;
  de_CreationTimestamp : Z; de_DeletionTimestamp : option Z
}.

Section Deployment.
Context `{Quantities} `{WorkloadText} `{LabelSelectors}.

(** appsv1.Deployment and ReplicaSet.  The server sets the number of replicas when it is not
    given. *)
Record K8sDeployment := mkK8sDeployment {
  kd_Namespace : string; kd_Name : string; kd_UID : string; kd_Annotations : gmap string string;
  kd_Replicas : Z; kd_Selector : option LabelSelector; kd_Template : PodTemplateSpec; kd_Paused : bool;
  kd_StatusReplicas : Z; kd_ReadyReplicas : Z; kd_UpdatedReplicas : Z; kd_UnavailableReplicas : Z; kd_ObservedGeneration : Z;
  kd_Conditions : list K8sCondition; kd_CreationTimestamp : Z; kd_DeletionTimestamp : option Z
}.
#[export] Instance K8sDeployment_object : KubeObject K8sDeployment := {|
  Spec := gmap string string * Z * option LabelSelector * PodTemplateSpec;
  kube_key o := (o.(kd_Namespace), o.(kd_Name));
  kube_spec o := (o.(kd_Annotations), o.(kd_Replicas), o.(kd_Selector), o.(kd_Template));
  kube_deleting o := bool_decide (is_Some o.(kd_DeletionTimestamp))
|}.
Record K8sReplicaSet := mkK8sReplicaSet {
  kr_Namespace : string; kr_Name : string; kr_OwnerReferences : list OwnerReference; kr_Annotations : gmap string string;
  kr_Template : PodTemplateSpec; kr_StatusReplicas : Z; kr_ReadyReplicas : Z
}.
#[export] Instance K8sReplicaSet_object : KubeObject K8sReplicaSet := {|
  Spec := unit; kube_key o := (o.(kr_Namespace), o.(kr_Name)); kube_spec _ := tt; kube_deleting _ := false |}.

(** The patches: of the replicas, and of the template and the annotations. *)
Inductive DeploymentPatch := PatchReplicas (n : Z) | PatchVersion (template : PodTemplateSpec) (annotations : gmap string string).
Definition set_template t (d : K8sDeployment) : K8sDeployment :=
  mkK8sDeployment d.(kd_Namespace) d.(kd_Name) d.(kd_UID) d.(kd_Annotations) d.(kd_Replicas) d.(kd_Selector) t d.(kd_Paused)
    d.(kd_StatusReplicas) d.(kd_ReadyReplicas) d.(kd_UpdatedReplicas) d.(kd_UnavailableReplicas) d.(kd_ObservedGeneration)
    d.(kd_Conditions) d.(kd_CreationTimestamp) d.(kd_DeletionTimestamp).
Definition set_annotations a (d : K8sDeployment) : K8sDeployment :=
  mkK8sDeployment d.(kd_Namespace) d.(kd_Name) d.(kd_UID) a d.(kd_Replicas) d.(kd_Selector) d.(kd_Template) d.(kd_Paused)
    d.(kd_StatusReplicas) d.(kd_ReadyReplicas) d.(kd_UpdatedReplicas) d.(kd_UnavailableReplicas) d.(kd_ObservedGeneration)
    d.(kd_Conditions) d.(kd_CreationTimestamp) d.(kd_DeletionTimestamp).
Definition set_replicas n (d : K8sDeployment) : K8sDeployment :=
  mkK8sDeployment d.(kd_Namespace) d.(kd_Name) d.(kd_UID) d.(kd_Annotations) n d.(kd_Selector) d.(kd_Template) d.(kd_Paused)
    d.(kd_StatusReplicas) d.(kd_ReadyReplicas) d.(kd_UpdatedReplicas) d.(kd_UnavailableReplicas) d.(kd_ObservedGeneration)
    d.(kd_Conditions) d.(kd_CreationTimestamp) d.(kd_DeletionTimestamp).
Definition apply_deployment_patch (p : DeploymentPatch) (d : K8sDeployment) : K8sDeployment :=
  match p with
  | PatchReplicas n => set_replicas n d
  | PatchVersion t a => set_annotations a (set_template t d)
  end.

(** ** Calls on a cluster *)

Context {K : Type} `{!KubeKind K K8sPV} `{!KubeKind K K8sPVC} `{!KubeKind K K8sStorageClass} `{!KubeKind K K8sConfigMap}
  `{!KubeKind K K8sSecret} `{!KubeKind K K8sDeployment} `{!KubeKind K K8sReplicaSet} `{!KubeSelect K K8sReplicaSet}
  `{!KubePatch K K8sDeployment DeploymentPatch}.

Definition getDeployment (namespace name : string) : M K workload_error K8sDeployment :=
  rethrow read_error (kube_get namespace name).
Definition getDeployments (namespace : string) : M K kube_error (list K8sDeployment) := kube_list namespace.
Definition deleteDeployment (namespace name : string) : M K kube_error unit := kube_delete (Obj := K8sDeployment) namespace name.

Definition owner_of (d : Deployment) : PodOwner :=
  mkOwner d.(de_Name) d.(de_AdvancedOptions) d.(de_Containers) d.(de_PersistentVolumes) d.(de_Memo) false.
Definition new_deployment (namespace : string) (d : Deployment) (template : PodTemplateSpec) : K8sDeployment :=
  mkK8sDeployment namespace d.(de_Name) "" (generatePodOwnerObjectMeta namespace (owner_of d)).(om_Annotations)
    (int32 d.(de_Replicas)) (Some (MatchLabels {["app" := d.(de_Name)]})) template false 0 0 0 0 0 [] 0 None.
Definition createDeployment (namespace : string) (d : Deployment) : M K pod_error unit :=
  let! template := createPodTempateSpec namespace (owner_of d) in
  let! r := attempt (kube_create (new_deployment namespace d template.1)) in
  match r with
  | Ok _ => ret tt
  | Err e => do! deletePVCs namespace template.2 in throw (PKube e)
  end.

(** getReplicaSets: the replica sets of the selector that the deployment controls; the errors
    of the selector are not those of the cluster. *)
Definition getReplicaSets (d : K8sDeployment) (selector : LabelSelector) : M K (option kube_error) (list K8sReplicaSet) :=
  match LabelSelectorAsSelector selector with
  | None => throw None
  | Some labels =>
      let! items := rethrow Some (kube_select (Obj := K8sReplicaSet) d.(kd_Namespace) labels) in
      ret (filter (fun rs => isControllerBy rs.(kr_OwnerReferences) d.(kd_UID) = true) items)
  end.

Definition deployIsUpdating (d : K8sDeployment) : bool :=
  if match d.(kd_Annotations) !! RevisionAnnotation with Some v => String.eqb v "1" | None => false end then false
  else negb ((d.(kd_ObservedGeneration) =? 1) ||
             ((d.(kd_Replicas) =? d.(kd_StatusReplicas)) && (d.(kd_StatusReplicas) =? d.(kd_ReadyReplicas)) &&
              (d.(kd_ReadyReplicas) =? d.(kd_UpdatedReplicas)) && (d.(kd_UnavailableReplicas) =? 0))).

(** The loop over the replica sets: [Err] is the return in the middle of it. *)
Fixpoint update_status (version : string) (ready : Z) (rss : list K8sReplicaSet) (st : WorkloadStatus) : WorkloadStatus :=
  match rss with
  | [] => st
  | rs :: rss =>
      match rs.(kr_Annotations) !! RevisionAnnotation with
      | None => update_status version ready rss st
      | Some v =>
          if String.eqb v version then
            update_status version ready rss
              (mkStatus st.(st_ReadyReplicas) st.(st_Updating) st.(st_CurrentReplicas)
                 (int32 (rs.(kr_StatusReplicas) - rs.(kr_ReadyReplicas))) rs.(kr_ReadyReplicas) st.(st_Conditions))
          else if String.eqb v (Itoa (int64 (Atoi_value version - 1))) then
            if rs.(kr_StatusReplicas) =? 0 then mkStatus ready false 0 0 0 []
            else update_status version ready rss
                   (mkStatus st.(st_ReadyReplicas) st.(st_Updating) rs.(kr_StatusReplicas) st.(st_UpdatingReplicas)
                      st.(st_UpdatedReplicas) st.(st_Conditions))
          else update_status version ready rss st
      end
  end.
Definition getDeploymentUpdateStatus (d : K8sDeployment) : M K workload_error WorkloadStatus :=
  match d.(kd_Annotations) !! RevisionAnnotation with
  | None => throw (Answer ServerError)
  | Some version =>
      match d.(kd_Selector) with
      | None => throw (Answer ServerError)   (* a nil selector matches nothing *)
      | Some selector =>
          let! rss := rethrow (fun _ => Answer ServerError) (getReplicaSets d selector) in
          do! guard (2 <=? length rss)%nat (Answer ServerError) in
          ret (update_status version d.(kd_ReadyReplicas) rss (mkStatus d.(kd_ReadyReplicas) true 0 0 0 []))
      end
  end.

Definition k8sDeployToSCDeploy (d : K8sDeployment) : M K workload_error Deployment :=
  let read := k8sPodSpecToScContainersAndVCTemplates d.(kd_Template).(tp_Spec).(ps_Containers) d.(kd_Template).(tp_Spec).(ps_Volumes) in
  let! pvs := rethrow read_error (getPVCs d.(kd_Namespace) read.2) in
  let! status := (if deployIsUpdating d then getDeploymentUpdateStatus d
                  else ret (mkStatus d.(kd_ReadyReplicas) false 0 0 0 [])) in
  ret (mkDeployment d.(kd_Name) d.(kd_Name) d.(kd_Replicas) read.1
         (shown_options d.(kd_Annotations) d.(kd_Template))
         pvs
         (mkStatus status.(st_ReadyReplicas) status.(st_Updating) status.(st_CurrentReplicas) status.(st_UpdatingReplicas)
            status.(st_UpdatedReplicas) (k8sWorkloadConditionsToScWorkloadConditions d.(kd_Conditions) true))
         "" d.(kd_CreationTimestamp) d.(kd_DeletionTimestamp)).

(** ** Handlers *)

Fixpoint each_deployment (l : list K8sDeployment) : M K workload_error (list Deployment) :=
  match l with
  | [] => ret []
  | d :: l => let! deploy := k8sDeployToSCDeploy d in let! deploys := each_deployment l in ret (deploy :: deploys)
  end.
Definition set_id id (d : Deployment) : Deployment :=
  mkDeployment id d.(de_Name) d.(de_Replicas) d.(de_Containers) d.(de_AdvancedOptions) d.(de_PersistentVolumes) d.(de_Status)
    d.(de_Memo) d.(de_CreationTimestamp) d.(de_DeletionTimestamp).
Definition Create (cluster namespace : string) (d : Deployment) : M (gmap string K) workload_error Deployment :=
  on_cluster (Answer NotFound) cluster
    (do! rethrow on_create_error (createDeployment namespace d) in ret (set_id d.(de_Name) d)).
Definition List (cluster namespace : string) : M (gmap string K) workload_error (list Deployment) :=
  on_cluster (Answer NotFound) cluster
    (let! items := rethrow read_error (getDeployments namespace) in each_deployment items).
Definition Get (cluster namespace id : string) : M (gmap string K) workload_error Deployment :=
  on_cluster (Answer NotFound) cluster (let! d := getDeployment namespace id in k8sDeployToSCDeploy d).

Definition update_spec (spec : PodSpec) (memo : string) (d : K8sDeployment) : K8sDeployment :=
  set_annotations (addWorkloadUpdateMemoToAnnotations d.(kd_Annotations) memo)
    (set_template (mkPodTemplate d.(kd_Template).(tp_Meta) spec) d).
Definition Update (cluster namespace : string) (d : Deployment) : M (gmap string K) workload_error Deployment :=
  on_cluster (Answer NotFound) cluster
    (let! k8sDeploy := getDeployment namespace d.(de_ID) in
     let! spec := rethrow on_update_error (scPodSpecToK8sPodSpecAndPVCs d.(de_Containers) d.(de_PersistentVolumes)) in
     do! rethrow (fun _ => Answer ConnectClusterFailed) (kube_update (update_spec spec.1 d.(de_Memo) k8sDeploy)) in
     ret d).

(** A deletion is published: [fst] holds the clusters and [snd] the deployments that were
    published, as namespace and name. *)
Definition Delete (cluster namespace id : string) : M (gmap string K * list (string * string)) workload_error unit :=
  publishing (namespace, id)
    (on_cluster (Answer NotFound) cluster
      (let! k8sDeploy := getDeployment namespace id in
       do! rethrow (fun _ => Answer ServerError) (deleteDeployment namespace id) in
       delete_claims k8sDeploy.(kd_Annotations) namespace k8sDeploy.(kd_Template).(tp_Spec).(ps_Volumes))).

(** ** Actions *)

Definition getDeploymentAndReplicaSets (namespace name : string) : M K workload_error (K8sDeployment * list K8sReplicaSet) :=
  let! k8sDeploy := getDeployment namespace name in
  match k8sDeploy.(kd_Selector) with
  | None => throw (Answer ServerError)
  | Some selector =>
      let! rss := rethrow (fun e => match e with Some e => read_error e | None => Answer ServerError end)
                    (getReplicaSets k8sDeploy selector) in
      ret (k8sDeploy, rss)
  end.

Definition version_info (namespace id : string) (rs : K8sReplicaSet) : option VersionInfo :=
  (fun v => mkVersion id namespace (Atoi_value v) (default "" (rs.(kr_Annotations) !! ChangeCauseAnnotation))
              (k8sPodSpecToScContainersAndVCTemplates rs.(kr_Template).(tp_Spec).(ps_Containers)
                 rs.(kr_Template).(tp_Spec).(ps_Volumes)).1)
  <$> rs.(kr_Annotations) !! RevisionAnnotation.
Definition getDeploymentHistory (cluster namespace id : string) : M (gmap string K) workload_error (list VersionInfo) :=
  on_cluster (Answer NotFound) cluster
    (let! found := getDeploymentAndReplicaSets namespace id in
     lift (history (omap (version_info namespace id) found.2))).

Definition rollback_annotations (d : K8sDeployment) (rs : K8sReplicaSet) (memo : string) : gmap string string :=
  <[ChangeCauseAnnotation := memo]>
    (filter (fun kv => kv.1 ∉ AnnotationsToSkip) rs.(kr_Annotations) ∪ filter (fun kv => kv.1 ∈ AnnotationsToSkip) d.(kd_Annotations)).
Definition without_hash (t : PodTemplateSpec) : PodTemplateSpec :=
  mkPodTemplate (mkMeta t.(tp_Meta).(om_Name) t.(tp_Meta).(om_Namespace)
                   (delete DefaultDeploymentUniqueLabelKey t.(tp_Meta).(om_Labels)) t.(tp_Meta).(om_Annotations)) t.(tp_Spec).
Definition rollback (cluster namespace id : string) (param : option (Z * string)) : M (gmap string K) workload_error unit :=
  on_cluster (Answer NotFound) cluster
    (match param with
     | None => throw (Answer InvalidFormat)
     | Some (version, memo) =>
         let! found := getDeploymentAndReplicaSets namespace id in
         do! guard (negb found.1.(kd_Paused)) (Answer ConnectClusterFailed) in
         match find (fun rs => bool_decide (rs.(kr_Annotations) !! RevisionAnnotation = Some (Itoa version))) found.2 with
         | None => throw (Answer ConnectClusterFailed)
         | Some rs =>
             rethrow (fun _ => Answer ConnectClusterFailed)
               (kube_patch found.1 (PatchVersion (without_hash rs.(kr_Template)) (rollback_annotations found.1 rs memo)))
         end
     end).

Definition setPodCount (cluster namespace id : string) (param : option Z) : M (gmap string K) workload_error Z :=
  on_cluster (Answer NotFound) cluster
    (match param with
     | None => throw (Answer InvalidFormat)
     | Some replicas =>
         let! k8sDeploy := getDeployment namespace id in
         do! (if k8sDeploy.(kd_Replicas) =? replicas then ret tt
              else rethrow (fun _ => Answer ConnectClusterFailed) (kube_patch k8sDeploy (PatchReplicas replicas))) in
         ret replicas
     end).
End Deployment.

(** ** Facts *)

Section Facts.
Context `{Quantities} `{WorkloadText} `{LabelSelectors}
  {K : Type} `{!KubeKind K K8sPV} `{!KubeKind K K8sPVC} `{!KubeKind K K8sStorageClass} `{!KubeKind K K8sConfigMap}
  `{!KubeKind K K8sSecret} `{!KubeKind K K8sDeployment} `{!KubeKind K K8sReplicaSet} `{!KubeSelect K K8sReplicaSet}
  `{!KubePatch K K8sDeployment DeploymentPatch}
  `{!KubeLaws K K8sPVC} `{!KubeLaws K K8sDeployment} `{!KubeFrame K K8sDeployment K8sPVC}.

Lemma frame_get_pvc namespace name (d : K8sDeployment) (k k' : K) :
  kube_get namespace name k = (Ok d, k') -> same_kind K8sPVC k k'.
Proof. intros Hg. pose proof (frame_get (A := K8sDeployment) (B := K8sPVC) namespace name k) as Hf. by rewrite Hg in Hf. Qed.

(** What a creation leaves in the cluster. *)
Lemma createDeployment_ok namespace d (k k' : K) :
  createDeployment namespace d k = (Ok tt, k') ->
  exists template claims k1 k2 k3 (o : K8sDeployment),
    scPodSpecToK8sPodSpecAndPVCs d.(de_Containers) d.(de_PersistentVolumes) k = (Ok (template.(tp_Spec), claims), k1) /\
    createPodTempateObjectMeta d.(de_Name) namespace d.(de_AdvancedOptions) d.(de_Containers) k2 = (Ok template.(tp_Meta), k3) /\
    kube_objects k' !! (namespace, d.(de_Name)) = Some o /\ kube_key o = (namespace, d.(de_Name)) /\
    kube_spec o = kube_spec (new_deployment namespace d template) /\
    forall p, p ∈ claims -> exists q, kube_objects k' !! (namespace, kc_Name p) = Some q /\ kube_spec q = kube_spec p.
Proof.
  unfold createDeployment, bind, attempt, ret, throw. intros Hc.
  destruct (createPodTempateSpec namespace (owner_of d) k) as [[[template claims]|] k3] eqn:Ht; [|done]. cbn [fst snd] in Hc.
  apply createPodTempateSpec_ok in Ht as (k1 & ka & kb & Hs & Hm & Hcl).
  destruct (kube_create _ k3) as [[o|e] k4] eqn:Ho; [|by destruct (deletePVCs namespace claims k4) as [[]]].
  injection Hc as <-. pose proof (frame_create (B := K8sPVC) (new_deployment namespace d template) k3) as Hf.
  rewrite Ho in Hf. cbn [snd] in Hf. apply kube_create_law in Ho as (Hkey & Hspec & _ & Hobj).
  exists template, claims, k1, ka, kb, o. split; [done|]. split; [done|]. split; [by rewrite Hobj, lookup_insert_eq|].
  split; [done|]. split; [done|]. intros p Hp. rewrite Hf. by apply Hcl.
Qed.

(** A later state of the cluster: the deployment was processed and is not being updated, and
    its claims are there. *)
Record later (namespace name : string) (k1 k2 : K) : Prop := {
  la_deployment : exists o1 o2 : K8sDeployment,
    kube_objects k1 !! (namespace, name) = Some o1 /\ kube_objects k2 !! (namespace, name) = Some o2 /\
    o2.(kd_Namespace) = namespace /\ o2.(kd_Name) = name /\
    o2.(kd_Template) = o1.(kd_Template) /\ o2.(kd_Replicas) = o1.(kd_Replicas) /\
    o2.(kd_Annotations) !! AnnkeyForWordloadAdvancedoption = o1.(kd_Annotations) !! AnnkeyForWordloadAdvancedoption /\
    deployIsUpdating o2 = false;
  la_claims : forall n (p : K8sPVC), kube_objects k1 !! (namespace, n) = Some p ->
    exists p', kube_objects k2 !! (namespace, n) = Some p' /\ p'.(kc_Requests) = p.(kc_Requests) /\
               p'.(kc_StorageClassName) = p.(kc_StorageClassName)
}.

Lemma lookup_choose (skip : gset string) (a b : gmap string string) k :
  (filter (fun kv => kv.1 ∉ skip) a ∪ filter (fun kv => kv.1 ∈ skip) b) !! k = if bool_decide (k ∈ skip) then b !! k else a !! k.
Proof.
  apply option_eq. intros v. rewrite lookup_union_Some_raw, !map_lookup_filter_Some, map_lookup_filter_None. simpl.
  case_bool_decide; naive_solver.
Qed.

(** A patch is applied as it says. *)
Definition patch_applied : Prop := forall p (d : K8sDeployment), apply_patch (K := K) p d = apply_deployment_patch p d.

Lemma Get_inv cluster namespace id (ks ks' : gmap string K) k r :
  ks !! cluster = Some k -> Get cluster namespace id ks = (r, ks') ->
  (exists (d : K8sDeployment) k1 k2, kube_objects k !! (namespace, id) = Some d /\ same_kind K8sDeployment k k1 /\
     kube_get namespace id k = (Ok d, k1) /\ k8sDeployToSCDeploy d k1 = (r, k2)) \/
  exists e, r = Err (read_error e) /\ (e = KNotFound -> kube_objects (Obj := K8sDeployment) k !! (namespace, id) = None).
Proof.
  intros Hk Hg. apply (on_cluster_at _ _ _ _ _ _ k) in Hg as (k' & Hm & _); [|done].
  unfold bind, getDeployment, rethrow in Hm. destruct (kube_get namespace id k) as [rg k1] eqn:Hget.
  pose proof (kube_get_law _ _ _ _ _ Hget) as [Hk1 Hr]. destruct rg as [d|e]; simpl in Hm.
  - left. destruct Hr as [Hd _]. eauto 8.
  - right. injection Hm as <- _. exists e. split; [done|]. intros ->. exact Hr.
Qed.
End Facts.

(** Deleting a deployment: on success it is gone or marked and the deletion is published
    once; claims are deleted only when the deployment asks for it, and only those its own
    volumes name.  On an error nothing changes and nothing is published. *)
Lemma Delete_deployment `{Quantities} `{WorkloadText} `{LabelSelectors}
    {K : Type} `{!KubeKind K K8sPV} `{!KubeKind K K8sPVC} `{!KubeKind K K8sDeployment}
    `{!KubeLaws K K8sPVC} `{!KubeLaws K K8sDeployment}
    `{!KubeFrame K K8sDeployment K8sPVC} `{!KubeDeleteFrame K K8sDeployment K8sPVC}
    `{!KubeFrame K K8sPV K8sPVC} `{!KubeDeleteFrame K K8sPV K8sPVC}
    `{!KubeFrame K K8sPV K8sDeployment} `{!KubeDeleteFrame K K8sPV K8sDeployment}
    `{!KubeFrame K K8sPVC K8sDeployment} `{!KubeDeleteFrame K K8sPVC K8sDeployment}
    cluster namespace id (ks ks' : gmap string K) published published' k k' r :
  Delete cluster namespace id (ks, published) = (r, (ks', published')) ->
  ks !! cluster = Some k -> ks' !! cluster = Some k' ->
  match r with
  | Ok _ =>
      published' = published ++ [(namespace, id)] /\
      exists d : K8sDeployment, kube_objects k !! (namespace, id) = Some d /\
        (kube_objects (Obj := K8sDeployment) k' = delete (namespace, id) (kube_objects k) \/
         exists marked : K8sDeployment, kube_deleting marked = true /\
           kube_objects k' = <[(namespace, id) := marked]> (kube_objects k)) /\
        if bool_decide (d.(kd_Annotations) !! AnnkeyForDeletePVsWhenDeleteWorkload = Some "true")
        then others_kept namespace (volume_claims d.(kd_Template).(tp_Spec).(ps_Volumes)) k k'
        else same_kind K8sPVC k k'
  | Err _ => published' = published /\ same_kind K8sDeployment k k' /\ same_kind K8sPVC k k'
  end.
Proof.
  intros [Hm Hp]%publishing_inv Hk Hk'. apply (on_cluster_at _ _ _ _ _ _ k) in Hm as (kc & Hm & ->); [|done].
  rewrite lookup_insert_eq in Hk'. injection Hk' as ->. unfold bind, getDeployment, deleteDeployment, rethrow in Hm.
  destruct (kube_get namespace id k) as [rg k1] eqn:Hg. pose proof (kube_get_law _ _ _ _ _ Hg) as [Hk1 Hrg].
  pose proof (frame_get (A := K8sDeployment) (B := K8sPVC) namespace id k) as F1. rewrite Hg in F1. cbn [snd] in F1.
  destruct rg as [d|e]; simpl in Hm; [|by injection Hm as <- <-].
  pose proof (frame_delete (A := K8sDeployment) (B := K8sPVC) namespace id k1) as F2.
  destruct (kube_delete namespace id k1) as [rd k2] eqn:Hdel. pose proof (kube_delete_law _ _ _ _ _ Hdel) as Hobj. cbn [snd] in F2.
  unfold same_kind in Hk1, F1, F2. destruct rd as [[]|e]; simpl in Hm.
  2:{ injection Hm as <- <-. destruct Hobj as [Hobj _]. unfold same_kind in *. split; [done|]. split; congruence. }
  destruct Hrg as [Hd _]. rewrite Hk1 in Hobj.
  apply (delete_claims_ok (B := K8sDeployment)) in Hm as (-> & F3 & F4). split; [done|]. unfold same_kind in F3. exists d.
  rewrite F3. split; [done|]. split; [destruct Hobj as [?|(m & ? & ? & _)]; eauto|]. destruct (bool_decide _).
  - intros ns n Hn. rewrite F4 by done. by rewrite F2, F1.
  - unfold same_kind in *. congruence.
Qed.

(** C39. A deployment whose names are apart is read back after its creation, once the
    cluster has processed it: with its name, replicas (as 32 bits), containers (protocols in
    small letters) and options, the metric when one is scraped.  Of its persistent volumes it
    is read with exactly those that are mounted and not temporary, each with its size and
    class; temporary volumes and those no container mounts are lost.  The read fails only as
    the cluster fails.  The names are apart when the containers and the persistent volumes
    have distinct names and no persistent volume has a name that a mount of a container
    would get. *)
Theorem deployment_round_trip `{Quantities} `{WorkloadTextLaws} `{LabelSelectors}
    {K : Type} `{!KubeKind K K8sPV} `{!KubeKind K K8sPVC} `{!KubeKind K K8sStorageClass} `{!KubeKind K K8sConfigMap}
    `{!KubeKind K K8sSecret} `{!KubeKind K K8sDeployment} `{!KubeKind K K8sReplicaSet} `{!KubeSelect K K8sReplicaSet}
    `{!KubeLaws K K8sPVC} `{!KubeLaws K K8sDeployment} `{!KubeFrame K K8sDeployment K8sPVC}
    cluster namespace d answer (ks ks1 ks2 ks3 : gmap string K) k1 k2 r :
  pod_names_ok d.(de_Containers) d.(de_PersistentVolumes) -> NoDup (pt_Name <$> d.(de_PersistentVolumes)) ->
  int64_ok d.(de_AdvancedOptions).(ao_ExposedMetric).(em_Port) = true ->
  Create cluster namespace d ks = (Ok answer, ks1) -> ks1 !! cluster = Some k1 ->
  later namespace d.(de_Name) k1 k2 -> ks2 !! cluster = Some k2 ->
  Get cluster namespace d.(de_Name) ks2 = (r, ks3) ->
  match r with
  | Ok read =>
      read.(de_ID) = d.(de_Name) /\ read.(de_Name) = d.(de_Name) /\ read.(de_Replicas) = int32 d.(de_Replicas) /\
      read.(de_Containers) = normal <$> d.(de_Containers) /\
      read.(de_AdvancedOptions) = visible_options d.(de_AdvancedOptions) /\
      (forall t, t ∈ read.(de_PersistentVolumes) <-> shown_volume d.(de_Containers) d.(de_PersistentVolumes) t) /\
      read.(de_Status).(st_Updating) = false
  | Err e => e = Answer ServerError
  end.
Proof.
  intros Hn Hnd Hport Hc Hk1 [(o1 & o2 & Ho1 & Ho2 & Hns & Hname & Htp & Hrep & Hann & Hup) Hcl] Hk2 Hg.
  apply on_cluster_inv in Hc as [(? & ? & _)|(k & k1' & Hk & Hm & ->)]; [done|]. rewrite lookup_insert_eq in Hk1. injection Hk1 as ->.
  unfold bind, rethrow, ret in Hm. destruct (createDeployment namespace d k) as [[[]|e] k1'] eqn:Hcr; [|done]. injection Hm as <- ->.
  apply createDeployment_ok in Hcr as (template & claims & ka & kb & kc & o & Hs & Hmeta & Ho & Hkey & Hspec & Hclaims).
  assert (o1 = o) as -> by congruence. unfold kube_spec in Hspec. simpl in Hspec. injection Hspec as Ha Hr Hsel Ht.
  pose proof (pod_spec_round_trip' _ _ _ _ _ _ Hn Hs) as (Hconts & _ & _).
  apply (Get_inv _ _ _ _ _ k2) in Hg as [(d2 & kg & kh & Hd2 & Hsame & Hget & Hg)|(e & -> & He)]; [| |done].
  2:{ destruct e; try done. specialize (He eq_refl). congruence. }
  assert (d2 = o2) as -> by congruence. unfold k8sDeployToSCDeploy, bind, rethrow, ret in Hg. cbv zeta in Hg.
  rewrite Hup, Htp, Ht, Hns, Hname, Hrep, Hr in Hg.
  destruct (getPVCs namespace _ kg) as [l kl] eqn:Hpvcs.
  pose proof (frame_get_pvc _ _ _ _ _ Hget) as Hframe.
  apply (shown_volumes d.(de_Containers) d.(de_PersistentVolumes) k ka kg (tp_Spec template) claims) in Hpvcs; [|done..|].
  2:{ intros p Hp. destruct (Hclaims p Hp) as (q & Hq & Hqs). destruct (Hcl _ _ Hq) as (q' & Hq' & Hq1 & Hq2).
      exists q'. unfold kube_spec in Hqs. simpl in Hqs. injection Hqs as _ Hqr Hqc _. rewrite Hframe, Hq1, Hq2. done. }
  destruct l as [l|e]; simpl in Hg; [|injection Hg as <- _; by destruct e].
  injection Hg as <- _. cbn [de_ID de_Name de_Replicas de_Containers de_AdvancedOptions de_PersistentVolumes de_Status st_Updating].
  repeat (split; [done|]). split; [|by split].
  apply (shown_options_created namespace (owner_of d) _ _ kb kc); [done..|]. by rewrite Hann, Ha.
Qed.

(** C40. A rollback puts the pod template of the named version back, without the label that
    names its replica set, and takes over the annotations of that version, except those that
    belong to the deployment and the reason of the change; everything else of the deployment
    stays.  The version is one of a replica set the deployment controls, and on an error
    nothing changes. *)
Theorem rollback_restores `{Quantities} `{WorkloadText} `{LabelSelectors}
    {K : Type} `{!KubeKind K K8sDeployment} `{!KubeKind K K8sReplicaSet} `{!KubeSelect K K8sReplicaSet}
    `{!KubePatch K K8sDeployment DeploymentPatch} `{!KubeLaws K K8sDeployment} `{!KubeSelectLaws K K8sReplicaSet}
    `{!KubePatchLaws K K8sDeployment DeploymentPatch} `{!KubeSelectFrame K K8sReplicaSet K8sDeployment} (Hpatch : patch_applied (K := K))
    `{!KubeFrame K K8sDeployment K8sReplicaSet}
    cluster namespace id version memo (ks ks' : gmap string K) k k' r :
  rollback cluster namespace id (Some (version, memo)) ks = (r, ks') -> ks !! cluster = Some k -> ks' !! cluster = Some k' ->
  match r with
  | Ok _ => exists (d d' : K8sDeployment) (rs : K8sReplicaSet),
      kube_objects k !! (namespace, id) = Some d /\ d.(kd_Paused) = false /\
      kube_objects k !! kube_key rs = Some rs /\ isControllerBy rs.(kr_OwnerReferences) d.(kd_UID) = true /\
      rs.(kr_Annotations) !! RevisionAnnotation = Some (Itoa version) /\
      kube_objects k' = <[(namespace, id) := d']> (kube_objects k) /\
      d'.(kd_Template) = without_hash rs.(kr_Template) /\
      d'.(kd_Replicas) = d.(kd_Replicas) /\ d'.(kd_Selector) = d.(kd_Selector) /\
      forall key, d'.(kd_Annotations) !! key =
        if bool_decide (key = ChangeCauseAnnotation) then Some memo
        else if bool_decide (key ∈ AnnotationsToSkip) then d.(kd_Annotations) !! key
        else rs.(kr_Annotations) !! key
  | Err _ => same_kind K8sDeployment k k'
  end.
Proof.
  intros Hr Hk Hk'. apply (on_cluster_at _ _ _ _ _ _ k) in Hr as (kc & Hm & ->); [|done]. rewrite lookup_insert_eq in Hk'. injection Hk' as ->.
  unfold getDeploymentAndReplicaSets, getReplicaSets, getDeployment, bind, rethrow, throw, ret, guard in Hm.
  destruct (kube_get namespace id k) as [rg k1] eqn:Hg. pose proof (kube_get_law _ _ _ _ _ Hg) as [Hk1 Hd].
  pose proof (frame_get (A := K8sDeployment) (B := K8sReplicaSet) namespace id k) as F1. rewrite Hg in F1. cbn [snd] in F1.
  destruct rg as [d|e]; simpl in Hm; [|by injection Hm as <- <-]. destruct Hd as [Hd Hkey].
  destruct (kd_Selector d) as [selector|]; simpl in Hm; [|by injection Hm as <- <-].
  destruct (LabelSelectorAsSelector selector) as [labels|]; simpl in Hm; [|by injection Hm as <- <-].
  destruct (kube_select (kd_Namespace d) labels k1) as [rl k2] eqn:Hl. pose proof (frame_select (A := K8sReplicaSet) (B := K8sDeployment) (kd_Namespace d) labels k1) as F2. rewrite Hl in F2. cbn [snd] in F2.
  pose proof (kube_select_law _ _ _ _ _ Hl) as [_ Hin]. unfold same_kind in *.
  destruct rl as [items|e]; simpl in Hm; [|injection Hm as <- <-; congruence].
  destruct (kd_Paused d) eqn:Hpaused; simpl in Hm; [injection Hm as <- <-; congruence|].
  destruct (find _ _) as [rs|] eqn:Hf; [|injection Hm as <- <-; congruence].
  apply find_some in Hf as [Hrs Hrev%bool_decide_eq_true]. apply list_elem_of_In, list_elem_of_filter in Hrs as [Hctl Hrs].
  destruct (kube_patch d _ k2) as [rp k3] eqn:Hp. injection Hm as <- <-.
  pose proof (kube_patch_law _ _ _ _ _ Hp) as Hlaw. destruct rp as [[]|e]; simpl; [|unfold same_kind in Hlaw; congruence].
  destruct Hlaw as (old & d' & Hold & _ & Hspec & Hobj). rewrite F2, Hk1, Hkey in *. assert (old = d) as -> by congruence.
  rewrite Hpatch in Hspec. unfold kube_spec in Hspec. simpl in Hspec. injection Hspec as Ha Hrep Hsel Htp.
  exists d, d', rs. destruct (Hin rs Hrs) as [Hobjrs _]. rewrite F1 in Hobjrs.
  repeat (split; [done|]). intros key. rewrite Ha. unfold rollback_annotations.
  case_bool_decide as Hc; [subst; apply lookup_insert_eq|]. rewrite lookup_insert_ne by done. apply lookup_choose.
Qed.
