(* ===== verification/DaemonSet.v ===== *)
(** Daemon sets (pkg/handler/daemonset_manager.go and pkg/types/daemonset.go): as deployments,
    on every node and without a number of replicas; their versions are controller revisions. *)
From S2P Require Import Prelude GoStrings RestApi KubeApi ConfigMap Secret PersistentVolume PodTemplate Workload.

Record DaemonSet := mkDaemonSet {
  ds_ID : string; ds_Name : string; ds_Replicas : Z; ds_Containers : list Container; ds_AdvancedOptions : AdvancedOptions;
  ds_PersistentVolumes : list PersistentVolumeTemplate; ds_Status : WorkloadStatus; ds_Memo : string;
  ds_CreationTimestamp : Z; ds_DeletionTimestamp : option Z
}.

Section DaemonSet.
Context `{Quantities} `{WorkloadText} `{LabelSelectors}.

(** appsv1.DaemonSet; the numbers of its status are 32 bits wide. *)
Record K8sDaemonSet := mkK8sDaemonSet {
  kds_Namespace : string; kds_Name : string; kds_UID : string; kds_Annotations : gmap string string;
  kds_Selector : option LabelSelector; kds_Template : PodTemplateSpec;
  kds_DesiredNumberScheduled : Z; kds_NumberReady : Z; kds_NumberAvailable : Z; kds_NumberUnavailable : Z;
  kds_UpdatedNumberScheduled : Z; kds_ObservedGeneration : Z; kds_Conditions : list K8sCondition;
  kds_CreationTimestamp : Z; kds_DeletionTimestamp : option Z
}.
#[export] Instance K8sDaemonSet_object : KubeObject K8sDaemonSet := {|
  Spec := gmap string string * option LabelSelector * PodTemplateSpec;
  kube_key o := (o.(kds_Namespace), o.(kds_Name));
  kube_spec o := (o.(kds_Annotations), o.(kds_Selector), o.(kds_Template));
  kube_deleting o := bool_decide (is_Some o.(kds_DeletionTimestamp))
|}.
(** A strategic merge patch, as it is kept in a revision. *)
Inductive DaemonSetPatch := PatchRaw (patch : string).

Context {K : Type} `{!KubeKind K K8sPV} `{!KubeKind K K8sPVC} `{!KubeKind K K8sStorageClass} `{!KubeKind K K8sConfigMap}
  `{!KubeKind K K8sSecret} `{!KubeKind K K8sDaemonSet} `{!KubeKind K ControllerRevision} `{!KubeSelect K ControllerRevision}
  `{!KubePatch K K8sDaemonSet DaemonSetPatch} `{!RevisionText}.

Definition getDaemonSet (namespace name : string) : M K workload_error K8sDaemonSet :=
  rethrow read_error (kube_get namespace name).
Definition getDaemonSets (namespace : string) : M K kube_error (list K8sDaemonSet) := kube_list namespace.
Definition deleteDaemonSet (namespace name : string) : M K kube_error unit := kube_delete (Obj := K8sDaemonSet) namespace name.

Definition owner_of (d : DaemonSet) : PodOwner :=
  mkOwner d.(ds_Name) d.(ds_AdvancedOptions) d.(ds_Containers) d.(ds_PersistentVolumes) d.(ds_Memo) false.
Definition new_daemonset (namespace : string) (d : DaemonSet) (template : PodTemplateSpec) : K8sDaemonSet :=
  mkK8sDaemonSet namespace d.(ds_Name) "" (generatePodOwnerObjectMeta namespace (owner_of d)).(om_Annotations)
    (Some (MatchLabels {["app" := d.(ds_Name)]})) template 0 0 0 0 0 0 [] 0 None.
Definition createDaemonSet (namespace : string) (d : DaemonSet) : M K pod_error unit :=
  let! template := createPodTempateSpec namespace (owner_of d) in
  let! r := attempt (kube_create (new_daemonset namespace d template.1)) in
  match r with
  | Ok _ => ret tt
  | Err e => do! deletePVCs namespace template.2 in throw (PKube e)
  end.

Definition daemonsetIsUpdate (d : K8sDaemonSet) : bool :=
  negb ((d.(kds_ObservedGeneration) =? 1) ||
        ((d.(kds_DesiredNumberScheduled) =? d.(kds_NumberAvailable)) && (d.(kds_NumberAvailable) =? d.(kds_NumberReady)) &&
         (d.(kds_NumberReady) =? d.(kds_UpdatedNumberScheduled)) && (d.(kds_NumberUnavailable) =? 0))).
Definition daemonset_status (d : K8sDaemonSet) : WorkloadStatus :=
  let conditions := k8sWorkloadConditionsToScWorkloadConditions d.(kds_Conditions) false in
  if daemonsetIsUpdate d then
    if negb (d.(kds_UpdatedNumberScheduled) =? 0)
    then mkStatus d.(kds_NumberReady) true (int32 (d.(kds_DesiredNumberScheduled) - d.(kds_UpdatedNumberScheduled)))
           d.(kds_NumberUnavailable) (int32 (d.(kds_UpdatedNumberScheduled) - d.(kds_NumberUnavailable))) conditions
    else mkStatus d.(kds_NumberReady) true (int32 (d.(kds_DesiredNumberScheduled) - d.(kds_NumberUnavailable)))
           d.(kds_NumberUnavailable) 0 conditions
  else mkStatus d.(kds_NumberReady) false 0 0 0 conditions.

Definition k8sDaemonSetToSCDaemonSet (d : K8sDaemonSet) : M K workload_error DaemonSet :=
  let read := k8sPodSpecToScContainersAndVCTemplates d.(kds_Template).(tp_Spec).(ps_Containers) d.(kds_Template).(tp_Spec).(ps_Volumes) in
  let! pvs := rethrow read_error (getPVCs d.(kds_Namespace) read.2) in
  ret (mkDaemonSet d.(kds_Name) d.(kds_Name) d.(kds_DesiredNumberScheduled) read.1
         (shown_options d.(kds_Annotations) d.(kds_Template)) pvs (daemonset_status d) "" d.(kds_CreationTimestamp)
         d.(kds_DeletionTimestamp)).

(** ** Handlers *)

Fixpoint each_daemonset (l : list K8sDaemonSet) : M K workload_error (list DaemonSet) :=
  match l with
  | [] => ret []
  | d :: l => let! ds := k8sDaemonSetToSCDaemonSet d in let! rest := each_daemonset l in ret (ds :: rest)
  end.
Definition set_id id (d : DaemonSet) : DaemonSet :=
  mkDaemonSet id d.(ds_Name) d.(ds_Replicas) d.(ds_Containers) d.(ds_AdvancedOptions) d.(ds_PersistentVolumes) d.(ds_Status)
    d.(ds_Memo) d.(ds_CreationTimestamp) d.(ds_DeletionTimestamp).

Definition Create (cluster namespace : string) (d : DaemonSet) : M (gmap string K) workload_error DaemonSet :=
  on_cluster (Answer NotFound) cluster
    (do! rethrow on_create_error (createDaemonSet namespace d) in ret (set_id d.(ds_Name) d)).
Definition List (cluster namespace : string) : M (gmap string K) workload_error (list DaemonSet) :=
  on_cluster (Answer NotFound) cluster
    (let! items := rethrow read_error (getDaemonSets namespace) in each_daemonset items).
Definition Get (cluster namespace id : string) : M (gmap string K) workload_error DaemonSet :=
  on_cluster (Answer NotFound) cluster (let! d := getDaemonSet namespace id in k8sDaemonSetToSCDaemonSet d).

Definition update_spec (spec : PodSpec) (memo : string) (d : K8sDaemonSet) : K8sDaemonSet :=
  mkK8sDaemonSet d.(kds_Namespace) d.(kds_Name) d.(kds_UID) (addWorkloadUpdateMemoToAnnotations d.(kds_Annotations) memo)
    d.(kds_Selector) (mkPodTemplate d.(kds_Template).(tp_Meta) spec) d.(kds_DesiredNumberScheduled) d.(kds_NumberReady)
    d.(kds_NumberAvailable) d.(kds_NumberUnavailable) d.(kds_UpdatedNumberScheduled) d.(kds_ObservedGeneration)
    d.(kds_Conditions) d.(kds_CreationTimestamp) d.(kds_DeletionTimestamp).
Definition Update (cluster namespace : string) (d : DaemonSet) : M (gmap string K) workload_error DaemonSet :=
  on_cluster (Answer NotFound) cluster
    (let! k8sDaemonSet := getDaemonSet namespace d.(ds_ID) in
     let! spec := rethrow on_update_error (scPodSpecToK8sPodSpecAndPVCs d.(ds_Containers) d.(ds_PersistentVolumes)) in
     do! rethrow (fun _ => Answer ConnectClusterFailed) (kube_update (update_spec spec.1 d.(ds_Memo) k8sDaemonSet)) in
     ret d).

(** [snd] holds the daemon sets whose deletion was published. *)
Definition Delete (cluster namespace id : string) : M (gmap string K * list (string * string)) workload_error unit :=
  publishing (namespace, id)
    (on_cluster (Answer NotFound) cluster
      (let! k8sDaemonSet := getDaemonSet namespace id in
       do! rethrow (fun _ => Answer ServerError) (deleteDaemonSet namespace id) in
       delete_claims k8sDaemonSet.(kds_Annotations) namespace k8sDaemonSet.(kds_Template).(tp_Spec).(ps_Volumes))).

Definition getDaemonSetAndControllerRevisions (namespace name : string) : M K workload_error (K8sDaemonSet * list ControllerRevision) :=
  let! k8sDaemonSet := getDaemonSet namespace name in
  match k8sDaemonSet.(kds_Selector) with
  | None => throw (Answer ServerError)
  | Some selector =>
      let! crs := rethrow (fun e => match e with Some e => read_error e | None => Answer ServerError end)
                    (getControllerRevisions namespace selector k8sDaemonSet.(kds_UID)) in
      ret (k8sDaemonSet, crs)
  end.
Definition getDaemonsetHistory (cluster namespace id : string) : M (gmap string K) workload_error (list VersionInfo) :=
  on_cluster (Answer NotFound) cluster
    (let! found := getDaemonSetAndControllerRevisions namespace id in lift (revision_history namespace id found.2)).
Definition rollback (cluster namespace id : string) (param : option Z) : M (gmap string K) workload_error unit :=
  on_cluster (Answer NotFound) cluster
    (match param with
     | None => throw (Answer InvalidFormat)
     | Some version =>
         let! found := getDaemonSetAndControllerRevisions namespace id in
         match find_patch version found.2 with
         | None => throw (Answer NotFound)
         | Some patch => rethrow (fun _ => Answer ConnectClusterFailed) (kube_patch found.1 (PatchRaw patch))
         end
     end).
End DaemonSet.
