(* ===== verification/Job.v ===== *)
(** Jobs and cron jobs (pkg/handler/job_manager.go, cronjob_manager.go, pkg/types/job.go and
    cronjob.go): pods without persistent volumes that end. *)
From S2P Require Import Prelude GoStrings RestApi KubeApi PersistentVolume PodTemplate Workload.

(** types.Job and CronJob; a time that is not set is the zero time, [None]. *)
Record JobCondition := mkJobCondition {
  jc_Type : string; jc_Status : string; jc_LastProbeTime : Z; jc_LastTransitionTime : Z; jc_Reason : string; jc_Message : string
}.
Record JobStatus := mkJobStatus {
  js_StartTime : option Z; js_CompletionTime : option Z; js_Active : Z; js_Succeeded : Z; js_Failed : Z;
  js_JobConditions : list JobCondition
}.
Record Job := mkJob {
  jo_ID : string; jo_Name : string; jo_RestartPolicy : string; jo_Containers : list Container; jo_Status : JobStatus;
  jo_CreationTimestamp : Z; jo_DeletionTimestamp : option Z
}.
Record ObjectReference := mkObjectRef {
  or_Kind : string; or_Namespace : string; or_Name : string; or_UID : string; or_APIVersion : string;
  or_ResourceVersion : string; or_FieldPath : string
}.
Record CronJobStatus := mkCronStatus { cs_LastScheduleTime : option Z; cs_ObjectReferences : list ObjectReference }.
Record CronJob := mkCronJob {
  cj_ID : string; cj_Name : string; cj_Schedule : string; cj_RestartPolicy : string; cj_Containers : list Container;
  cj_Status : CronJobStatus; cj_CreationTimestamp : Z; cj_DeletionTimestamp : option Z
}.

Definition scRestartPolicyToK8sRestartPolicy (policy : string) : option string :=
  if String.eqb (ToLower policy) "onfailure" then Some "OnFailure"
  else if String.eqb (ToLower policy) "never" then Some "Never"
  else None.

Inductive job_error := JPod (e : pod_error) | ErrRestartPolicy.

Section Job.
Context `{Quantities} `{LabelSelectors}.

(** batchv1.Job and batchv1beta1.CronJob; of the pods of a job their specification and
    restart policy. *)
Record K8sJob := mkK8sJob {
  kj_Namespace : string; kj_Name : string; kj_UID : string; kj_OwnerReferences : list OwnerReference;
  kj_Selector : option LabelSelector; kj_Pod : PodSpec; kj_RestartPolicy : string; kj_Status : JobStatus;
  kj_CreationTimestamp : Z; kj_DeletionTimestamp : option Z
}.
#[export] Instance K8sJob_object : KubeObject K8sJob := {|
  Spec := option LabelSelector * PodSpec * string;
  kube_key o := (o.(kj_Namespace), o.(kj_Name));
  kube_spec o := (o.(kj_Selector), o.(kj_Pod), o.(kj_RestartPolicy));
  kube_deleting o := bool_decide (is_Some o.(kj_DeletionTimestamp))
|}.
Record K8sCronJob := mkK8sCronJob {
  kcj_Namespace : string; kcj_Name : string; kcj_Schedule : string; kcj_Pod : PodSpec; kcj_RestartPolicy : string;
  kcj_LastScheduleTime : option Z; kcj_Active : list ObjectReference;
  kcj_CreationTimestamp : Z; kcj_DeletionTimestamp : option Z
}.
#[export] Instance K8sCronJob_object : KubeObject K8sCronJob := {|
  Spec := string * PodSpec * string;
  kube_key o := (o.(kcj_Namespace), o.(kcj_Name));
  kube_spec o := (o.(kcj_Schedule), o.(kcj_Pod), o.(kcj_RestartPolicy));
  kube_deleting o := bool_decide (is_Some o.(kcj_DeletionTimestamp))
|}.

Definition k8sJobToSCJob (j : K8sJob) : Job :=
  mkJob j.(kj_Name) j.(kj_Name) j.(kj_RestartPolicy)
    (k8sPodSpecToScContainersAndVCTemplates j.(kj_Pod).(ps_Containers) j.(kj_Pod).(ps_Volumes)).1 j.(kj_Status)
    j.(kj_CreationTimestamp) j.(kj_DeletionTimestamp).
Definition k8sCronJobToScCronJob (j : K8sCronJob) : CronJob :=
  mkCronJob j.(kcj_Name) j.(kcj_Name) j.(kcj_Schedule) j.(kcj_RestartPolicy)
    (k8sPodSpecToScContainersAndVCTemplates j.(kcj_Pod).(ps_Containers) j.(kcj_Pod).(ps_Volumes)).1
    (mkCronStatus j.(kcj_LastScheduleTime) j.(kcj_Active)) j.(kcj_CreationTimestamp) j.(kcj_DeletionTimestamp).

(** ** Calls on a cluster *)

Context {K : Type} `{!KubeKind K K8sPV} `{!KubeKind K K8sPVC} `{!KubeKind K K8sStorageClass}
  `{!KubeKind K K8sJob} `{!KubeKind K K8sCronJob}.

Definition getJob (namespace name : string) : M K kube_error K8sJob := kube_get namespace name.
Definition getJobs (namespace : string) : M K kube_error (list K8sJob) := kube_list namespace.
Definition deleteJob (namespace name : string) : M K kube_error unit := kube_delete (Obj := K8sJob) namespace name.
Definition getCronJob (namespace name : string) : M K kube_error K8sCronJob := kube_get namespace name.
Definition getCronJobs (namespace : string) : M K kube_error (list K8sCronJob) := kube_list namespace.
Definition deleteCronJob (namespace name : string) : M K kube_error unit := kube_delete (Obj := K8sCronJob) namespace name.

(** The pods and the restart policy of both. *)
Definition job_pod (containers : list Container) (policy : string) : M K job_error (PodSpec * string) :=
  let! spec := rethrow JPod (scPodSpecToK8sPodSpecAndPVCs containers []) in
  let! policy := lift (of_option ErrRestartPolicy (scRestartPolicyToK8sRestartPolicy policy)) in
  ret (spec.1, policy).
Definition no_job_status : JobStatus := mkJobStatus None None 0 0 0 [].
Definition createJob (namespace : string) (job : Job) : M K job_error unit :=
  let! pod := job_pod job.(jo_Containers) job.(jo_RestartPolicy) in
  do! rethrow (JPod ∘ PKube) (kube_create (mkK8sJob namespace job.(jo_Name) "" []
        (Some (MatchLabels {["job-name" := job.(jo_Name)]})) pod.1 pod.2 no_job_status 0 None)) in
  ret tt.
Definition createCronJob (namespace : string) (cronJob : CronJob) : M K job_error unit :=
  let! pod := job_pod cronJob.(cj_Containers) cronJob.(cj_RestartPolicy) in
  do! rethrow (JPod ∘ PKube) (kube_create (mkK8sCronJob namespace cronJob.(cj_Name) cronJob.(cj_Schedule) pod.1 pod.2 None [] 0 None)) in
  ret tt.

(** ** Handlers *)

Definition on_job_error (e : job_error) : workload_error :=
  match e with JPod e => on_create_error e | ErrRestartPolicy => Answer ConnectClusterFailed end.

Definition CreateJob (cluster namespace : string) (job : Job) : M (gmap string K) workload_error Job :=
  on_cluster (Answer NotFound) cluster
    (do! rethrow on_job_error (createJob namespace job) in
     ret (mkJob job.(jo_Name) job.(jo_Name) job.(jo_RestartPolicy) job.(jo_Containers) job.(jo_Status)
            job.(jo_CreationTimestamp) job.(jo_DeletionTimestamp))).
(** The jobs that a cron job made are left out. *)
Definition ListJobs (cluster namespace : string) : M (gmap string K) workload_error (list Job) :=
  on_cluster (Answer NotFound) cluster
    (let! items := rethrow read_error (getJobs namespace) in
     ret (k8sJobToSCJob <$> filter (fun j => length j.(kj_OwnerReferences) = 0%nat) items)).
Definition GetJob (cluster namespace id : string) : M (gmap string K) workload_error Job :=
  on_cluster (Answer NotFound) cluster (let! j := rethrow read_error (getJob namespace id) in ret (k8sJobToSCJob j)).
Definition DeleteJob (cluster namespace id : string) : M (gmap string K) workload_error unit :=
  on_cluster (Answer NotFound) cluster (rethrow read_error (deleteJob namespace id)).

Definition CreateCronJob (cluster namespace : string) (cronJob : CronJob) : M (gmap string K) workload_error CronJob :=
  on_cluster (Answer NotFound) cluster
    (do! rethrow on_job_error (createCronJob namespace cronJob) in
     ret (mkCronJob cronJob.(cj_Name) cronJob.(cj_Name) cronJob.(cj_Schedule) cronJob.(cj_RestartPolicy) cronJob.(cj_Containers)
            cronJob.(cj_Status) cronJob.(cj_CreationTimestamp) cronJob.(cj_DeletionTimestamp))).
Definition ListCronJobs (cluster namespace : string) : M (gmap string K) workload_error (list CronJob) :=
  on_cluster (Answer NotFound) cluster
    (let! items := rethrow read_error (getCronJobs namespace) in ret (k8sCronJobToScCronJob <$> items)).
Definition GetCronJob (cluster namespace id : string) : M (gmap string K) workload_error CronJob :=
  on_cluster (Answer NotFound) cluster
    (let! j := rethrow read_error (getCronJob namespace id) in ret (k8sCronJobToScCronJob j)).
Definition DeleteCronJob (cluster namespace id : string) : M (gmap string K) workload_error unit :=
  on_cluster (Answer NotFound) cluster (rethrow read_error (deleteCronJob namespace id)).
End Job.
