(* ===== verification/Pod.v ===== *)
(** Pods (pkg/handler/pod_manager.go and pkg/types/pod.go): the pods of a workload, and what
    is shown of one. *)
From S2P Require Import Prelude GoStrings RestApi KubeApi ConfigMap Secret PersistentVolume PodTemplate Workload Deployment.
From S2P Require Import DaemonSet Job.

(** types.Pod and its parts; a time that is not set is the zero time, [None]. *)
Record PodCondition := mkPodCondition { pc_Type : string; pc_Status : string; pc_LastProbeTime : Z; pc_LastTransitionTime : Z }.
Record ContainerState := mkState {
  cst_Type : string; cst_ContainerID : string; cst_ExitCode : Z; cst_Reason : string; cst_Message : string;
  cst_StartedAt : option Z; cst_FinishedAt : option Z
}.
Record ContainerStatus := mkContainerStatus {
  ct_Name : string; ct_Ready : bool; ct_RestartCount : Z; ct_Image : string; ct_ImageID : string; ct_ContainerID : string;
  ct_LastState : option ContainerState; ct_State : option ContainerState
}.
Record PodStatus := mkPodStatus {
  ps_Phase : string; ps_StartTime : option Z; ps_HostIP : string; ps_PodIP : string; ps_PodConditions : list PodCondition;
  ps_ContainerStatuses : list ContainerStatus
}.
Record Pod := mkPod {
  po_ID : string; po_PodName : string; po_NodeName : string; po_State : string; po_PodContainers : list Container;
  po_Status : PodStatus; po_CreationTimestamp : Z; po_DeletionTimestamp : option Z
}.

(** corev1.ContainerState: one pointer per state. *)
Record Terminated := mkTerminated {
  te_ContainerID : string; te_ExitCode : Z; te_Reason : string; te_StartedAt : Z; te_FinishedAt : Z
}.
Record K8sContainerState := mkK8sState {
  ks_Waiting : option (string * string); ks_Running : option Z; ks_Terminated : option Terminated
}.
Record K8sContainerStatus := mkK8sContainerStatus {
  kcs_Name : string; kcs_Ready : bool; kcs_RestartCount : Z; kcs_Image : string; kcs_ImageID : string; kcs_ContainerID : string;
  kcs_LastTerminationState : K8sContainerState; kcs_State : K8sContainerState
}.

Definition WaitingState : string := "Waiting".
Definition RunningState : string := "Running".
Definition TerminatedState : string := "Terminated".
Definition k8sContainerStateToScContainerState (s : K8sContainerState) : option ContainerState :=
  match s.(ks_Waiting), s.(ks_Running), s.(ks_Terminated) with
  | Some (reason, message), _, _ => Some (mkState WaitingState "" 0 reason message None None)
  | None, Some startedAt, _ => Some (mkState RunningState "" 0 "" "" (Some startedAt) None)
  | None, None, Some t =>
      Some (mkState TerminatedState t.(te_ContainerID) t.(te_ExitCode) t.(te_Reason) "" (Some t.(te_StartedAt)) (Some t.(te_FinishedAt)))
  | None, None, None => None
  end.
Definition read_status (s : K8sContainerStatus) : ContainerStatus :=
  mkContainerStatus s.(kcs_Name) s.(kcs_Ready) s.(kcs_RestartCount) s.(kcs_Image) s.(kcs_ImageID) s.(kcs_ContainerID)
    (k8sContainerStateToScContainerState s.(kcs_LastTerminationState)) (k8sContainerStateToScContainerState s.(kcs_State)).

Definition OwnerKindReplicaset : string := "ReplicaSet".
Definition OwnerKindStatefulSet : string := "StatefulSet".
Definition OwnerKindDaemonSet : string := "DaemonSet".
(** The names of the kinds, in small letters. *)
Definition ResourceTypeDeployment : string := "deployment".
Definition ResourceTypeDaemonSet : string := "daemonset".
Definition ResourceTypeStatefulSet : string := "statefulset".
Definition ResourceTypeJob : string := "job".
Definition ResourceTypeCronJob : string := "cronjob".

Section Pod.
Context `{Quantities} `{WorkloadText} `{LabelSelectors}.

(** corev1.Pod. *)
Record K8sPod := mkK8sPod {
  kp_Namespace : string; kp_PodName : string; kp_Labels : gmap string string; kp_OwnerReferences : list OwnerReference;
  kp_Spec : PodSpec; kp_NodeName : string; kp_Phase : string; kp_StartTime : option Z; kp_HostIP : string; kp_PodIP : string;
  kp_Conditions : list PodCondition; kp_ContainerStatuses : list K8sContainerStatus;
  kp_CreationTimestamp : Z; kp_DeletionTimestamp : option Z
}.
#[export] Instance K8sPod_object : KubeObject K8sPod := {|
  Spec := PodSpec; kube_key o := (o.(kp_Namespace), o.(kp_PodName)); kube_spec := kp_Spec;
  kube_deleting o := bool_decide (is_Some o.(kp_DeletionTimestamp))
|}.

(** helper.GetPodState of the client library. *)
Class PodStates := GetPodState : K8sPod -> string.
(** Requirements on one label: that its value is one of a list, or equal to one. *)
Class LabelRequirements := {
  requirement_in : string -> list string -> option Selector;
  requirement_equals : string -> string -> option Selector
}.
Context `{!PodStates} `{!LabelRequirements}.

Definition k8sPodToSCPod (p : K8sPod) : Pod :=
  mkPod p.(kp_PodName) p.(kp_PodName) p.(kp_NodeName) (GetPodState p)
    (k8sPodSpecToScContainersAndVCTemplates p.(kp_Spec).(ps_Containers) p.(kp_Spec).(ps_Volumes)).1
    (mkPodStatus p.(kp_Phase) p.(kp_StartTime) p.(kp_HostIP) p.(kp_PodIP) p.(kp_Conditions) (read_status <$> p.(kp_ContainerStatuses)))
    p.(kp_CreationTimestamp) p.(kp_DeletionTimestamp).

(** ** The pods of a workload *)

Definition owned (typ name : string) (p : K8sPod) : bool :=
  if String.eqb typ ResourceTypeDeployment then
    match p.(kp_Labels) !! DefaultDeploymentUniqueLabelKey, p.(kp_OwnerReferences) with
    | Some rsHash, [owner] =>
        String.eqb owner.(ow_Kind) OwnerKindReplicaset && String.eqb owner.(ow_Name) (name +:+ "-" +:+ rsHash)
    | _, _ => false
    end
  else if String.eqb typ ResourceTypeDaemonSet || String.eqb typ ResourceTypeStatefulSet then
    let kind := if String.eqb typ ResourceTypeStatefulSet then OwnerKindStatefulSet else OwnerKindDaemonSet in
    match p.(kp_OwnerReferences) with
    | [owner] => String.eqb owner.(ow_Name) name && String.eqb owner.(ow_Kind) kind
    | _ => false
    end
  else String.eqb typ ResourceTypeJob || String.eqb typ ResourceTypeCronJob.
Definition filterPodBasedOnOwner (pods : list K8sPod) (typ name : string) : list K8sPod :=
  filter (fun p => owned typ name p = true) pods.

(** ** Calls on a cluster *)

Context {K : Type} `{!KubeKind K K8sPV} `{!KubeKind K K8sPVC} `{!KubeKind K K8sStorageClass} `{!KubeKind K K8sConfigMap}
  `{!KubeKind K K8sSecret} `{!KubeKind K K8sDeployment} `{!KubeKind K K8sDaemonSet} `{!KubeKind K K8sStatefulSet}
  `{!KubeKind K K8sJob} `{!KubeKind K K8sCronJob} `{!KubeKind K K8sPod} `{!KubeSelect K K8sPod}.

Definition getPod (namespace name : string) : M K kube_error K8sPod := kube_get namespace name.
Definition getPods (namespace : string) (selector : Selector) : M K kube_error (list K8sPod) :=
  kube_select (Obj := K8sPod) namespace selector.
Definition deletePod (namespace name : string) : M K kube_error unit := kube_delete (Obj := K8sPod) namespace name.

(** The errors of the selectors, [None], are not those of the cluster; nor is the answer that
    a workload does not exist, which is an error of the API. *)
Definition as_selector (selector : option LabelSelector) : result (option kube_error) (option Selector) :=
  match selector with
  | None => Ok None
  | Some selector => match LabelSelectorAsSelector selector with Some s => Ok (Some s) | None => Err None end
  end.
Definition as_requirement (s : option Selector) : result (option kube_error) (option Selector) :=
  match s with Some s => Ok (Some s) | None => Err None end.
Definition genJobSelector (namespace jobName : string) : M K (option kube_error) (option Selector) :=
  let! k8sJob := rethrow Some (getJob namespace jobName) in
  lift (as_requirement (requirement_equals "controller-uid" k8sJob.(kj_UID))).
Definition genCronJobSelector (namespace cronjobName : string) : M K (option kube_error) (option Selector) :=
  let! k8sCronJob := rethrow Some (getCronJob namespace cronjobName) in
  match k8sCronJob.(kcj_Active) with
  | [] => ret None
  | _ => lift (as_requirement (requirement_in "controller-uid" (or_UID <$> k8sCronJob.(kcj_Active))))
  end.
Definition getPodParentSelector (namespace typ name : string) : M K (option kube_error) (option Selector) :=
  if String.eqb typ ResourceTypeDeployment then
    let! d := rethrow (fun _ => None) (getDeployment namespace name) in lift (as_selector d.(kd_Selector))
  else if String.eqb typ ResourceTypeDaemonSet then
    let! d := rethrow (fun _ => None) (getDaemonSet namespace name) in lift (as_selector d.(kds_Selector))
  else if String.eqb typ ResourceTypeStatefulSet then
    let! s := rethrow (fun _ => None) (getStatefulSet namespace name) in lift (as_selector s.(kst_Selector))
  else if String.eqb typ ResourceTypeJob then genJobSelector namespace name
  else if String.eqb typ ResourceTypeCronJob then genCronJobSelector namespace name
  else throw None.
Definition getOwnerPods (namespace ownerType ownerName : string) : M K (option kube_error) (list K8sPod) :=
  let! selector := getPodParentSelector namespace ownerType ownerName in
  match selector with
  | None => throw None
  | Some selector =>
      let! k8sPods := rethrow Some (getPods namespace selector) in
      ret (filterPodBasedOnOwner k8sPods ownerType ownerName)
  end.

(** ** Handlers *)

Definition pods_error (e : option kube_error) : api_error :=
  match e with Some KNotFound => NotFound | _ => ServerError end.
Definition List (cluster namespace ownerType ownerName : string) : M (gmap string K) api_error (list Pod) :=
  on_cluster NotFound cluster
    (let! k8sPods := rethrow pods_error (getOwnerPods namespace ownerType ownerName) in ret (k8sPodToSCPod <$> k8sPods)).
Definition Get (cluster namespace id : string) : M (gmap string K) api_error Pod :=
  on_cluster NotFound cluster
    (let! k8sPod := rethrow ConfigMap.read_error (getPod namespace id) in ret (k8sPodToSCPod k8sPod)).
(** A cluster that is not there is no error. *)
Definition Delete (cluster namespace id : string) : M (gmap string K) api_error unit :=
  fun ks => match ks !! cluster with
            | None => (Ok tt, ks)
            | Some _ => on_cluster NotFound cluster (rethrow ConfigMap.read_error (deletePod namespace id)) ks
            end.
End Pod.

(** ** Facts *)

(** The types whose pods have one owner. *)
Definition single_owner (typ : string) : Prop :=
  typ = ResourceTypeDeployment \/ typ = ResourceTypeDaemonSet \/ typ = ResourceTypeStatefulSet.

(** The kind and name of the owner that a pod of a workload has, as far as the pod determines
    them. *)
Definition owner_kind (typ : string) : string :=
  if String.eqb typ ResourceTypeDeployment then OwnerKindReplicaset
  else if String.eqb typ ResourceTypeDaemonSet then OwnerKindDaemonSet else OwnerKindStatefulSet.
Definition owner_name `{Quantities} (typ name : string) (p : K8sPod) : string :=
  if String.eqb typ ResourceTypeDeployment
  then name +:+ "-" +:+ default "" (p.(kp_Labels) !! DefaultDeploymentUniqueLabelKey) else name.

Section Facts.
Context `{Quantities}.

Lemma owned_owner typ name p :
  single_owner typ -> owned typ name p = true ->
  exists owner, p.(kp_OwnerReferences) = [owner] /\ owner.(ow_Kind) = owner_kind typ /\ owner.(ow_Name) = owner_name typ name p.
Proof.
  unfold owned, owner_kind, owner_name. intros [-> | [-> | ->]]; simpl.
  - destruct (kp_Labels p !! _) as [h|]; [|done]. destruct (kp_OwnerReferences p) as [|o rest]; [done|]; destruct rest; [|done].
    intros [Hk%String.eqb_eq Hn%String.eqb_eq]%andb_true_iff. by exists o.
  - destruct (kp_OwnerReferences p) as [|o rest]; [done|]; destruct rest; [|done].
    intros [Hn%String.eqb_eq Hk%String.eqb_eq]%andb_true_iff. by exists o.
  - destruct (kp_OwnerReferences p) as [|o rest]; [done|]; destruct rest; [|done].
    intros [Hn%String.eqb_eq Hk%String.eqb_eq]%andb_true_iff. by exists o.
Qed.

Lemma owned_once t1 n1 t2 n2 p :
  single_owner t1 -> single_owner t2 -> owned t1 n1 p = true -> owned t2 n2 p = true -> t1 = t2 /\ n1 = n2.
Proof.
  intros Ht1 Ht2 Ho1 Ho2. apply owned_owner in Ho1 as (o & Ho & Hk1 & Hn1); [|done].
  apply owned_owner in Ho2 as (o' & Ho' & Hk2 & Hn2); [|done]. rewrite Ho in Ho'. injection Ho' as <-. rewrite Hk1 in Hk2. rewrite Hn1 in Hn2.
  destruct Ht1 as [-> | [-> | ->]], Ht2 as [-> | [-> | ->]]; try (vm_compute in Hk2; discriminate Hk2); (split; [done|]); [|done..].
  unfold owner_name in Hn2. simpl in Hn2. by apply str_app_inj_r in Hn2.
Qed.
End Facts.

(** A pod is listed under at most one deployment, daemon set or stateful set of its
    namespace, and it is a pod of the cluster that has that workload's owner as its only
    one. *)
Lemma owner_pods_disjoint `{Quantities} `{WorkloadText} `{LabelSelectors} `{!LabelRequirements}
    {K : Type} `{!KubeKind K K8sDeployment} `{!KubeKind K K8sDaemonSet} `{!KubeKind K K8sStatefulSet}
    `{!KubeKind K K8sJob} `{!KubeKind K K8sCronJob} `{!KubeKind K K8sPod} `{!KubeSelect K K8sPod}
    namespace t1 n1 t2 n2 (k1 k1' k2 k2' : K) l1 l2 p :
  single_owner t1 -> single_owner t2 ->
  getOwnerPods namespace t1 n1 k1 = (Ok l1, k1') -> getOwnerPods namespace t2 n2 k2 = (Ok l2, k2') ->
  p ∈ l1 ->
  (exists owner, p.(kp_OwnerReferences) = [owner] /\ owner.(ow_Kind) = owner_kind t1 /\ owner.(ow_Name) = owner_name t1 n1 p) /\
  (p ∈ l2 -> t1 = t2 /\ n1 = n2).
Proof.
  intros Ht1 Ht2 Hg1 Hg2 Hp.
  assert (Hown : forall t n (k k' : K) l, getOwnerPods namespace t n k = (Ok l, k') -> forall q, q ∈ l -> owned t n q = true).
  { intros t n k k' l Hg q Hq. unfold getOwnerPods, bind, throw, ret, rethrow in Hg.
    destruct (getPodParentSelector namespace t n k) as [[[sel|]|e] ka]; try done.
    destruct (getPods namespace sel ka) as [[items|e] kb]; [|done]. injection Hg as <- _.
    by apply list_elem_of_filter in Hq as [? _]. }
  specialize (Hown _ _ _ _ _ Hg1 p Hp) as Ho1. split; [by apply owned_owner|].
  intros Hp2. apply (owned_once _ _ _ _ p); [done..|]. by apply (Hown _ _ _ _ _ Hg2).
Qed.
