(* ===== verification/Node.v ===== *)
(** Nodes (pkg/handler/node_manager.go and pkg/types/node.go): what is shown of a node, and
    the actions that take it out of scheduling and put it back. *)
From S2P Require Import Prelude GoStrings GoFloat ClusterTypes Authorizer RestApi KubeApi ConfigMap PodTemplate Pod.

(** types.Node; Cpu is in thousandths. *)
Record Node := mkShownNode {
  no_ID : string; no_Name : string; no_Status : string; no_Address : string; no_Roles : list NodeRole;
  no_Labels : gmap string string; no_Annotations : gmap string string; no_OperatingSystem : string;
  no_OperatingSystemImage : string; no_DockerVersion : string; no_Cpu : Z; no_CpuUsed : Z; no_CpuUsedRatio : string;
  no_Memory : Z; no_MemoryUsed : Z; no_MemoryUsedRatio : string; no_Pod : Z; no_PodUsed : Z; no_PodUsedRatio : string;
  no_CreationTimestamp : Z; no_DeletionTimestamp : option Z
}.
Definition NSReady : string := "Ready".
Definition NSNotReady : string := "NotReady".
Definition NSCordoned : string := "Cordoned".
Definition NSDrained : string := "Drained".
Definition NodeCordon : string := "cordon".
Definition NodeUnCordon : string := "uncordon".
Definition NodeDrain : string := "drain".

(** corev1.Taint. *)
Record Taint := mkTaint { ta_Key : string; ta_Value : string; ta_Effect : string; ta_TimeAdded : option Z }.
Definition nodeDrainedNoExecuteTaintKey : string := "node.zcloud.cn/unexecutable".

Definition zkeRoleLabelPrefix : string := "node-role.kubernetes.io/".
Definition zkeRoles : list NodeRole := [RoleControlPlane; RoleWorker; RoleEdge; RoleStorage].
Definition getRoleFromLabels (labels : gmap string string) : list NodeRole :=
  filter (fun r => labels !! (zkeRoleLabelPrefix +:+ r) = Some "true") zkeRoles.

Section Node.
Context `{Quantities} `{!QuantityValues} `{WorkloadText} `{LabelSelectors}.

(** corev1.Node: an address is its type and itself. *)
Record K8sNode := mkK8sNode {
  kn_Name : string; kn_Labels : gmap string string; kn_Annotations : gmap string string; kn_Taints : list Taint;
  kn_Unschedulable : bool; kn_Addresses : list (string * string); kn_Allocatable : gmap string Quantity;
  kn_OperatingSystem : string; kn_KernelVersion : string; kn_OSImage : string; kn_ContainerRuntimeVersion : string;
  kn_Conditions : list (string * string); kn_CreationTimestamp : Z; kn_DeletionTimestamp : option Z
}.
#[export] Instance K8sNode_object : KubeObject K8sNode := {|
  Spec := gmap string string * gmap string string * list Taint * bool;
  kube_key o := ("", o.(kn_Name));
  kube_spec o := (o.(kn_Labels), o.(kn_Annotations), o.(kn_Taints), o.(kn_Unschedulable));
  kube_deleting o := bool_decide (is_Some o.(kn_DeletionTimestamp))
|}.
(** metricsapi.NodeMetrics, from the client's metrics of one node or, without a name, of all;
    helper.IsNodeReady of the client library. *)
Record NodeMetrics := mkNodeMetrics { nm_Name : string; nm_Usage : gmap string Quantity }.
Class NodeMetricsApi (K : Type) := GetNodeMetrics : string -> M K kube_error (list NodeMetrics).
Class NodeReadiness := IsNodeReady : K8sNode -> bool.

Definition isNodeCordoned (node : K8sNode) : bool := node.(kn_Unschedulable).
Definition is_drained_taint (t : Taint) : bool := String.eqb t.(ta_Key) nodeDrainedNoExecuteTaintKey.
Definition isNodeDrained (node : K8sNode) : bool := existsb is_drained_taint node.(kn_Taints).
Definition checkNodeByRole (node : K8sNode) (role : NodeRole) : bool := has_role (getRoleFromLabels node.(kn_Labels)) role.

(** A resource that is not listed is none of it. *)
Definition amount (value : Quantity -> Z) (resource : string) (l : gmap string Quantity) : Z := default 0 (value <$> l !! resource).
Definition ratio (used available : Z) : string := format_2f (fdiv (to_float used) (to_float available)).
(** The last host name, and the first address of another kind that is known and not empty. *)
Fixpoint node_addresses (l : list (string * string)) (host address : string) : string * string :=
  match l with
  | [] => (host, address)
  | (typ, a) :: l =>
      if String.eqb typ "Hostname" then node_addresses l a address
      else if String.eqb typ "InternalIP" || String.eqb typ "ExternalIP"
      then node_addresses l host (if String.eqb address "" then a else address)
      else node_addresses l host address
  end.
Context `{!NodeReadiness}.
Definition node_status (node : K8sNode) : string :=
  if isNodeDrained node then NSDrained
  else if isNodeCordoned node then NSCordoned
  else if IsNodeReady node then NSReady else NSNotReady.
Definition k8sNodeToSCNode (node : K8sNode) (nodeMetrics : gmap string NodeMetrics) (podCountOnNode : gmap string Z) : Node :=
  let (host, address) := node_addresses node.(kn_Addresses) "" "" in
  let usage := default ∅ (nm_Usage <$> nodeMetrics !! node.(kn_Name)) in
  let cpuAva := amount MilliValue "cpu" node.(kn_Allocatable) in
  let memoryAva := amount Value "memory" node.(kn_Allocatable) in
  let podAva := amount Value "pods" node.(kn_Allocatable) in
  let cpuUsed := amount MilliValue "cpu" usage in
  let memoryUsed := amount Value "memory" usage in
  let podUsed := default 0 (podCountOnNode !! node.(kn_Name)) in
  mkShownNode host host (node_status node) address (getRoleFromLabels node.(kn_Labels)) node.(kn_Labels) node.(kn_Annotations)
    (node.(kn_OperatingSystem) +:+ " " +:+ node.(kn_KernelVersion)) node.(kn_OSImage) node.(kn_ContainerRuntimeVersion)
    cpuAva cpuUsed (ratio cpuUsed cpuAva) memoryAva memoryUsed (ratio memoryUsed memoryAva) podAva podUsed (ratio podUsed podAva)
    node.(kn_CreationTimestamp) node.(kn_DeletionTimestamp).

(** ** Calls on a cluster *)

Context {K : Type} `{!KubeKind K K8sNode} `{!KubeKind K K8sPod} `{!NodeMetricsApi K}.

Definition getK8SNode (name : string) : M K kube_error K8sNode := kube_get "" name.
Definition getK8SNodes : M K kube_error (list K8sNode) := kube_list "".

(** The running pods of a node, or of all; when they cannot be listed there are none. *)
Definition count_pod (name : string) (p : K8sPod) (podCountOnNode : gmap string Z) : gmap string Z :=
  if negb (String.eqb p.(kp_Phase) "Running") then podCountOnNode
  else if negb (String.eqb name "") && negb (String.eqb p.(kp_NodeName) name) then podCountOnNode
  else <[p.(kp_NodeName) := default 0 (podCountOnNode !! p.(kp_NodeName)) + 1]> podCountOnNode.
Definition getPodCountOnNode {E} (name : string) : M K E (gmap string Z) :=
  let! pods := attempt (kube_list (Obj := K8sPod) "") in
  match pods with
  | Err _ => ret ∅
  | Ok items => ret (foldl (fun m p => count_pod name p m) ∅ items)
  end.
Definition getNodeMetrics {E} (name : string) : M K E (gmap string NodeMetrics) :=
  let! metrics := attempt (GetNodeMetrics name) in
  match metrics with
  | Err _ => ret ∅
  | Ok items => ret (foldl (fun m x => <[x.(nm_Name) := x]> m) ∅ items)
  end.
Definition getNodes : M K kube_error (list Node) :=
  let! k8sNodes := getK8SNodes in
  let! podCountOnNode := getPodCountOnNode "" in
  let! nodeMetrics := getNodeMetrics "" in
  ret ((fun n => k8sNodeToSCNode n nodeMetrics podCountOnNode) <$> k8sNodes).

(** ** The actions *)

Definition set_scheduling (taints : list Taint) (unschedulable : bool) (n : K8sNode) : K8sNode :=
  mkK8sNode n.(kn_Name) n.(kn_Labels) n.(kn_Annotations) taints unschedulable n.(kn_Addresses) n.(kn_Allocatable)
    n.(kn_OperatingSystem) n.(kn_KernelVersion) n.(kn_OSImage) n.(kn_ContainerRuntimeVersion) n.(kn_Conditions)
    n.(kn_CreationTimestamp) n.(kn_DeletionTimestamp).
Definition getK8sNodeIfNotControlplaneOrStorage (name : string) : M K api_error K8sNode :=
  let! node := rethrow read_error (getK8SNode name) in
  do! guard (negb (checkNodeByRole node RoleControlPlane)) PermissionDenied in
  do! guard (negb (checkNodeByRole node RoleStorage)) PermissionDenied in
  ret node.
Definition update_node (node : K8sNode) : M K api_error unit :=
  do! rethrow (fun _ => ServerError) (kube_update node) in ret tt.
Definition cordonNode (name : string) : M K api_error unit :=
  let! node := getK8sNodeIfNotControlplaneOrStorage name in
  do! guard (negb (isNodeCordoned node || isNodeDrained node)) PermissionDenied in
  update_node (set_scheduling node.(kn_Taints) true node).
(** [now] is the time of the call. *)
Definition drainNode (now : Z) (name : string) : M K api_error unit :=
  let! node := getK8sNodeIfNotControlplaneOrStorage name in
  do! guard (negb (isNodeDrained node)) PermissionDenied in
  update_node (set_scheduling (node.(kn_Taints) ++ [mkTaint nodeDrainedNoExecuteTaintKey "" "NoExecute" (Some now)]) true node).
Fixpoint remove_drained (l : list Taint) : list Taint :=
  match l with
  | [] => []
  | t :: l => if is_drained_taint t then l else t :: remove_drained l
  end.
Definition uncordonNode (name : string) : M K api_error unit :=
  let! node := getK8sNodeIfNotControlplaneOrStorage name in
  let taints := if isNodeDrained node then remove_drained node.(kn_Taints) else node.(kn_Taints) in
  do! guard (isNodeCordoned node) PermissionDenied in
  update_node (set_scheduling taints false node).

(** ** Handlers *)

Definition Get (cluster id : string) : M (gmap string K) api_error Node :=
  on_cluster NotFound cluster
    (let! k8sNode := rethrow read_error (getK8SNode id) in
     let! nodeMetrics := getNodeMetrics id in
     let! podCountOnNode := getPodCountOnNode id in
     ret (k8sNodeToSCNode k8sNode nodeMetrics podCountOnNode)).
Definition List (cluster : string) : M (gmap string K) api_error (list Node) :=
  on_cluster NotFound cluster (rethrow read_error getNodes).
Definition Action (user : option string) (cluster name action : string) (now : Z) : M (gmap string K) api_error unit :=
  if negb (isAdmin (getCurrentUser user)) then throw PermissionDenied
  else
    on_cluster NotFound cluster
      (if String.eqb action NodeCordon then cordonNode name
       else if String.eqb action NodeUnCordon then uncordonNode name
       else if String.eqb action NodeDrain then drainNode now name
       else ret tt).
End Node.

(** ** The states of a node *)

Inductive Scheduling := Schedulable | Cordoned | Drained.
(** What an action makes of a node that may be acted on; [None]: it is refused. *)
Definition next (action : string) (s : Scheduling) : option Scheduling :=
  if String.eqb action NodeCordon then match s with Schedulable => Some Cordoned | _ => None end
  else if String.eqb action NodeDrain then match s with Drained => None | _ => Some Drained end
  else match s with Schedulable => None | _ => Some Schedulable end.
Definition node_action (action : string) : Prop := action = NodeCordon \/ action = NodeUnCordon \/ action = NodeDrain.

Section Facts.
Context `{Quantities}.

Definition state_of (n : K8sNode) : Scheduling :=
  if isNodeDrained n then Drained else if isNodeCordoned n then Cordoned else Schedulable.
(** The taints of others. *)
Definition other_taints (n : K8sNode) : list Taint := filter (fun t => is_drained_taint t = false) n.(kn_Taints).
(** A drained node has one taint for it, and takes no new pods. *)
Definition node_ok (n : K8sNode) : Prop :=
  (length (filter (fun t => is_drained_taint t = true) n.(kn_Taints)) <= 1)%nat /\
  (isNodeDrained n = true -> n.(kn_Unschedulable) = true).
Definition movable (n : K8sNode) : bool := negb (checkNodeByRole n RoleControlPlane || checkNodeByRole n RoleStorage).

Lemma drained_filter (l : list Taint) : existsb is_drained_taint l = false -> filter (fun t => is_drained_taint t = true) l = [].
Proof.
  intros He. apply filter_none. intros t Ht Hd. assert (existsb is_drained_taint l = true); [|congruence].
  apply existsb_exists. exists t. by rewrite <- list_elem_of_In.
Qed.
Lemma remove_drained_ok (l : list Taint) :
  filter (fun t => is_drained_taint t = false) (remove_drained l) = filter (fun t => is_drained_taint t = false) l /\
  ((length (filter (fun t => is_drained_taint t = true) l) <= 1)%nat -> filter (fun t => is_drained_taint t = true) (remove_drained l) = []).
Proof.
  induction l as [|t l [IH1 IH2]]; [done|]. simpl. destruct (is_drained_taint t) eqn:Ht.
  - rewrite (filter_cons_False _ t), (filter_cons_True _ t) by congruence. split; [done|]. simpl. intros Hl.
    apply length_zero_iff_nil. lia.
  - rewrite !(filter_cons_True _ t), !(filter_cons_False _ t) by congruence. rewrite IH1. by split.
Qed.
Lemma none_drained (l : list Taint) : filter (fun t => is_drained_taint t = true) l = [] -> existsb is_drained_taint l = false.
Proof.
  intros Hf. destruct (existsb is_drained_taint l) eqn:He; [|done]. apply existsb_exists in He as (t & Ht & Hd).
  assert (Hin : t ∈ filter (fun t => is_drained_taint t = true) l) by (apply list_elem_of_filter; by rewrite list_elem_of_In).
  rewrite Hf in Hin. by apply elem_of_nil in Hin.
Qed.

(** What each action makes of a node. *)
Lemma cordoned_ok n :
  node_ok n -> isNodeCordoned n || isNodeDrained n = false ->
  node_ok (set_scheduling n.(kn_Taints) true n) /\ state_of n = Schedulable /\
  state_of (set_scheduling n.(kn_Taints) true n) = Cordoned.
Proof.
  unfold node_ok, state_of, isNodeDrained, isNodeCordoned. simpl. intros [Hl Hd] [Hc Hx]%orb_false_iff. by rewrite Hc, Hx.
Qed.
Lemma drained_ok now n :
  node_ok n -> isNodeDrained n = false ->
  let n' := set_scheduling (n.(kn_Taints) ++ [mkTaint nodeDrainedNoExecuteTaintKey "" "NoExecute" (Some now)]) true n in
  node_ok n' /\ state_of n' = Drained /\ other_taints n' = other_taints n.
Proof.
  unfold node_ok, state_of, other_taints, isNodeDrained, isNodeCordoned. simpl. intros _ Hx.
  rewrite !filter_app, drained_filter by done. rewrite existsb_app, Hx. simpl. split; [|split; [done|]].
  - split; [|done]. by vm_compute.
  - apply app_nil_r.
Qed.
Lemma uncordoned_ok n :
  node_ok n -> isNodeCordoned n = true ->
  let n' := set_scheduling (if isNodeDrained n then remove_drained n.(kn_Taints) else n.(kn_Taints)) false n in
  node_ok n' /\ state_of n <> Schedulable /\ state_of n' = Schedulable /\ other_taints n' = other_taints n.
Proof.
  unfold node_ok, state_of, other_taints, isNodeDrained, isNodeCordoned. simpl. intros [Hl Hd] Hc. rewrite Hc.
  assert (Hnone : filter (fun t => is_drained_taint t = true)
    (if existsb is_drained_taint (kn_Taints n) then remove_drained (kn_Taints n) else kn_Taints n) = []).
  { destruct (existsb is_drained_taint (kn_Taints n)) eqn:Hx; [by apply remove_drained_ok|by apply drained_filter]. }
  rewrite Hnone, (none_drained _ Hnone). split; [split; [simpl; lia|done]|].
  split; [by destruct (existsb _ _)|]. split; [done|]. destruct (existsb _ _); [apply remove_drained_ok|done].
Qed.

(** These depend only on what the client decides. *)
Lemma same_spec n n' :
  kube_spec n' = kube_spec n ->
  n'.(kn_Labels) = n.(kn_Labels) /\ (node_ok n -> node_ok n') /\ state_of n' = state_of n /\ other_taints n' = other_taints n.
Proof.
  destruct n, n'. unfold kube_spec, node_ok, state_of, other_taints, isNodeDrained, isNodeCordoned. simpl. intros [= -> -> -> ->]. done.
Qed.
End Facts.

Section Actions.
Context `{Quantities} {K : Type} `{!KubeKind K K8sNode} `{!KubeLaws K K8sNode}.

Lemma movable_node_ok name (k k' : K) r :
  getK8sNodeIfNotControlplaneOrStorage name k = (r, k') ->
  same_kind K8sNode k k' /\
  match r with
  | Ok n => kube_objects k !! ("", name) = Some n /\ kube_key n = ("", name) /\ movable n = true
  | Err PermissionDenied => exists n : K8sNode, kube_objects k !! ("", name) = Some n /\ movable n = false
  | Err _ => True
  end.
Proof.
  unfold getK8sNodeIfNotControlplaneOrStorage, getK8SNode, bind, rethrow, guard, ret, throw, movable. intros Hg.
  destruct (kube_get "" name k) as [rn k1] eqn:Hn. apply kube_get_law in Hn as [Hk Hn]. destruct rn as [n|e].
  - destruct Hn as [Hn Hkey]. simpl in Hg. destruct (checkNodeByRole n RoleControlPlane) eqn:H1.
    { injection Hg as <- <-. split; [done|]. exists n. by rewrite H1. }
    simpl in Hg. destruct (checkNodeByRole n RoleStorage) eqn:H2; injection Hg as <- <-; (split; [done|]).
    + exists n. by rewrite H1, H2.
    + by rewrite H1, H2.
  - injection Hg as <- <-. split; [done|]. by destruct e.
Qed.

(** An action on a node that is there: the change [f] when it is allowed. *)
Lemma node_change_ok name (allowed : K8sNode -> bool) (f : K8sNode -> K8sNode) (k k' : K) r :
  (forall n, kube_key (f n) = kube_key n) ->
  (let! node := getK8sNodeIfNotControlplaneOrStorage name in
   do! guard (allowed node) PermissionDenied in update_node (f node)) k = (r, k') ->
  match r with
  | Ok _ => exists n n' : K8sNode, kube_objects k !! ("", name) = Some n /\ movable n = true /\ allowed n = true /\
      kube_spec n' = kube_spec (f n) /\ kube_objects k' = <[("", name) := n']> (kube_objects k)
  | Err e => same_kind K8sNode k k' /\
      (e = PermissionDenied ->
       exists n : K8sNode, kube_objects k !! ("", name) = Some n /\ (movable n = false \/ allowed n = false))
  end.
Proof.
  intros Hf. unfold bind. intros Hg. destruct (getK8sNodeIfNotControlplaneOrStorage name k) as [rn k1] eqn:Hn.
  apply movable_node_ok in Hn as [Hk Hn]. destruct rn as [n|e].
  2:{ injection Hg as <- <-. split; [done|]. intros ->. destruct Hn as (n & Hn & Hm). eauto. }
  destruct Hn as (Hn & Hkey & Hm). unfold guard, update_node, bind, rethrow, ret, throw in Hg. destruct (allowed n) eqn:Ha.
  2:{ injection Hg as <- <-. split; [done|]. intros _. eauto. }
  destruct (kube_update (f n) k1) as [[o|e] k2] eqn:Hu; apply kube_update_law in Hu; injection Hg as <- <-; unfold same_kind in *.
  - destruct Hu as (_ & Hs & _ & Hobj). exists n, o. rewrite Hf, Hkey, Hk in Hobj. done.
  - split; [congruence|done].
Qed.

Definition nodes_ok (k : K) : Prop := forall n (o : K8sNode), kube_objects k !! n = Some o -> node_ok o.
(** A step of the node of a name, and a refusal that has a reason. *)
Definition node_stepped (action name : string) (k k' : K) : Prop :=
  exists o o' : K8sNode, kube_objects k !! ("", name) = Some o /\ kube_objects k' = <[("", name) := o']> (kube_objects k) /\
    movable o = true /\ next action (state_of o) = Some (state_of o') /\
    o'.(kn_Labels) = o.(kn_Labels) /\ other_taints o' = other_taints o.
Definition node_refused (action name : string) (k : K) : Prop :=
  exists o : K8sNode, kube_objects k !! ("", name) = Some o /\ (movable o = false \/ next action (state_of o) = None).

Lemma node_change_refines action name (allowed : K8sNode -> bool) (f : K8sNode -> K8sNode) (k k' : K) r :
  (forall n, kube_key (f n) = kube_key n /\ (f n).(kn_Labels) = n.(kn_Labels)) ->
  (forall n, node_ok n ->
     if allowed n then node_ok (f n) /\ next action (state_of n) = Some (state_of (f n)) /\ other_taints (f n) = other_taints n
     else next action (state_of n) = None) ->
  (let! node := getK8sNodeIfNotControlplaneOrStorage name in
   do! guard (allowed node) PermissionDenied in update_node (f node)) k = (r, k') ->
  nodes_ok k ->
  nodes_ok k' /\
  match r with
  | Ok _ => node_stepped action name k k'
  | Err e => same_kind K8sNode k k' /\ (e = PermissionDenied -> node_refused action name k)
  end.
Proof.
  intros Hf Hstep Ha Hok. apply node_change_ok in Ha; [|intros n; apply Hf]. destruct r as [[]|e].
  - destruct Ha as (n & n' & Hn & Hm & Hal & Hs & Hobj). specialize (Hstep n (Hok _ _ Hn)). rewrite Hal in Hstep.
    destruct Hstep as (Hok' & Hnext & Hot). apply same_spec in Hs as (Hl & Hspec & Hst & Ho). split.
    + intros m o Ho'. rewrite Hobj in Ho'. apply lookup_insert_Some in Ho' as [[_ <-]|[_ Ho']]; [by apply Hspec|by apply (Hok m)].
    + exists n, n'. rewrite Hst, Hl, Ho. destruct (Hf n) as [_ ->]. done.
  - destruct Ha as [Hs Hp]. split; [intros m o Ho'; rewrite Hs in Ho'; by apply (Hok m)|]. split; [done|].
    intros He. destruct (Hp He) as (n & Hn & Hor). exists n. split; [done|]. destruct Hor as [Hor|Hor]; [by left|right].
    specialize (Hstep n (Hok _ _ Hn)). by rewrite Hor in Hstep.
Qed.

Lemma node_action_refines action now name (k k' : K) r :
  node_action action ->
  (if String.eqb action NodeCordon then cordonNode name
   else if String.eqb action NodeUnCordon then uncordonNode name
   else if String.eqb action NodeDrain then drainNode now name else ret tt) k = (r, k') ->
  nodes_ok k ->
  nodes_ok k' /\
  match r with
  | Ok _ => node_stepped action name k k'
  | Err e => same_kind K8sNode k k' /\ (e = PermissionDenied -> node_refused action name k)
  end.
Proof.
  intros [-> | [-> | ->]]; simpl.
  - apply (node_change_refines NodeCordon name (fun n => negb (isNodeCordoned n || isNodeDrained n))
             (fun n => set_scheduling n.(kn_Taints) true n)); [done|].
    intros n Hn. destruct (isNodeCordoned n || isNodeDrained n) eqn:Hc; simpl.
    + unfold state_of. destruct (isNodeDrained n); [done|]. rewrite orb_false_r in Hc. by rewrite Hc.
    + destruct (cordoned_ok n Hn Hc) as (Hok' & -> & Hst). rewrite Hst. done.
  - apply (node_change_refines NodeUnCordon name isNodeCordoned
             (fun n => set_scheduling (if isNodeDrained n then remove_drained n.(kn_Taints) else n.(kn_Taints)) false n)); [done|].
    intros n Hn. destruct (isNodeCordoned n) eqn:Hc.
    + destruct (uncordoned_ok n Hn Hc) as (Hok' & Hne & Hst & Hot). rewrite Hst. by destruct (state_of n).
    + unfold state_of. rewrite Hc. destruct (isNodeDrained n) eqn:Hd; [|done]. destruct Hn as [_ Hn]. specialize (Hn Hd).
      unfold isNodeCordoned in Hc. congruence.
  - apply (node_change_refines NodeDrain name (fun n => negb (isNodeDrained n)) (fun n => set_scheduling
      (n.(kn_Taints) ++ [mkTaint nodeDrainedNoExecuteTaintKey "" "NoExecute" (Some now)]) true n)); [done|].
    intros n Hn. destruct (isNodeDrained n) eqn:Hd; simpl.
    + unfold state_of. by rewrite Hd.
    + destruct (drained_ok now n Hn Hd) as (Hok' & Hst & Hot). rewrite Hst. unfold state_of. rewrite Hd. by destruct (isNodeCordoned n).
Qed.
End Actions.

(** C29. The actions on nodes are the steps of a state machine with the states schedulable,
    cordoned and drained.  Only the administrator takes one, and only on a node that is
    neither of the control plane nor of the storage.  An action that the state machine has a
    step for takes it, keeping the labels, the taints of others and the other nodes; one that
    it has no step for is refused and changes nothing; and a drained node has one taint for
    it and takes no pods. *)
Theorem node_actions_refine `{Quantities} {K : Type} `{!KubeKind K K8sNode} `{!KubeLaws K K8sNode}
    user cluster name action now (ks ks' : gmap string K) k k' r :
  node_action action -> Action user cluster name action now ks = (r, ks') -> ks !! cluster = Some k -> ks' !! cluster = Some k' ->
  nodes_ok k ->
  nodes_ok k' /\
  match r with
  | Ok _ => user = Some Administrator /\ node_stepped action name k k'
  | Err e =>
      same_kind K8sNode k k' /\
      (e = PermissionDenied -> getCurrentUser user <> Administrator \/ node_refused action name k)
  end.
Proof.
  intros Hact Ha Hk Hk' Hok. unfold Action in Ha. destruct (isAdmin (getCurrentUser user)) eqn:Hadm; simpl in Ha.
  - apply isAdmin_iff in Hadm. assert (user = Some Administrator) as -> by (destruct user; simpl in Hadm; [congruence|done]).
    apply (on_cluster_at _ _ _ _ _ _ k) in Ha as (kc & Ha & ->); [|done]. rewrite lookup_insert_eq in Hk'. injection Hk' as ->.
    apply node_action_refines in Ha as [Hok' Hr]; [|done..]. split; [done|].
    destruct r; [done|]. destruct Hr as [Hs Hp]. split; [done|]. intros He. right. by apply Hp.
  - injection Ha as <- <-. assert (k' = k) as -> by congruence. split; [done|]. split; [done|]. intros _. left. intros Heq.
    apply isAdmin_iff in Heq. congruence.
Qed.
