(* ===== verification/VolumeClaim.v ===== *)
(** The handlers of volume claims (pkg/handler/pvc_manager.go): which pods use a claim, and
    its deletion and extension. *)
From S2P Require Import Prelude GoStrings RestApi KubeApi PersistentVolume PodTemplate Workload Deployment Pod.

Definition IscsiDriverSuffix : string := "iscsi.storage.zcloud.cn".
Definition NfsDriverSuffix : string := "nfs.storage.zcloud.cn".
Definition LvmDriverSuffix : string := "lvm.storage.zcloud.cn".

(** storagev1.VolumeAttachment of Kubernetes; one of an inline volume has no name. *)
Record VolumeAttachment := mkAttachment {
  va_Name : string; va_Attacher : string; va_PersistentVolumeName : option string; va_NodeName : string; va_Attached : bool
}.
#[export] Instance VolumeAttachment_object : KubeObject VolumeAttachment := {|
  Spec := string * option string * string; kube_key o := ("", o.(va_Name));
  kube_spec o := (o.(va_Attacher), o.(va_PersistentVolumeName), o.(va_NodeName)); kube_deleting _ := false |}.

Definition set_use (used : bool) (pods : list string) (node : string) (p : PersistentVolumeClaim) : PersistentVolumeClaim :=
  mkPVC p.(pvc_ID) p.(pvc_Name) p.(pvc_RequestStorageSize) p.(pvc_StorageClassName) p.(pvc_VolumeName) p.(pvc_ActualStorageSize)
    p.(pvc_Status) p.(pvc_Driver) used pods node p.(pvc_CreationTimestamp) p.(pvc_DeletionTimestamp).

(** [CKube]: as the cluster fails; [CNil]: a name that is not there is dereferenced. *)
Inductive claim_error := CKube (e : kube_error) | CNil | COther.

Section VolumeClaim.
Context `{Quantities} `{!QuantityValues} `{WorkloadText} `{LabelSelectors}.

Definition mounts_claim (name : string) (p : K8sPod) : bool :=
  existsb (fun v => match v.(kv_Source).(vs_PersistentVolumeClaim) with Some n => String.eqb n name | None => false end)
    p.(kp_Spec).(ps_Volumes).
Definition users (name : string) (pods : list K8sPod) : list string := kp_PodName <$> filter (fun p => mounts_claim name p = true) pods.
Definition genUseInfoForNfsPVC (pods : list K8sPod) (pvc : PersistentVolumeClaim) : PersistentVolumeClaim :=
  let names := users pvc.(pvc_Name) pods in
  set_use (pvc.(pvc_Used) || negb (bool_decide (names = []))) (pvc.(pvc_Pods) ++ names) pvc.(pvc_Node) pvc.
(** Whether the last attachment of the volume is in use, and the node of a local one. *)
Fixpoint attachments (volume : string) (vas : list VolumeAttachment) (used : bool) (node : string) : option (bool * string) :=
  match vas with
  | [] => Some (used, node)
  | va :: vas =>
      match va.(va_PersistentVolumeName) with
      | None => None
      | Some n =>
          if String.eqb n volume
          then attachments volume vas va.(va_Attached)
                 (if va.(va_Attached) && is_some (strip_suffix va.(va_Attacher) LvmDriverSuffix) then va.(va_NodeName) else node)
          else attachments volume vas used node
      end
  end.

Context {K : Type} `{!KubeKind K K8sPV} `{!KubeKind K K8sPVC} `{!KubeKind K K8sPod} `{!KubeSelect K K8sPod}
  `{!KubeKind K VolumeAttachment}.
(** labels.Everything, which every object matches. *)
Context (Everything : Selector).

Definition getPersistentVolumeClaims (namespace : string) : M K kube_error (list K8sPVC) := kube_list namespace.
Definition genUseInfoForPVC (pods : list K8sPod) (vas : list VolumeAttachment) (pvc : PersistentVolumeClaim)
    : M K claim_error PersistentVolumeClaim :=
  let! pv := rethrow CKube (getPersistentVolume pvc.(pvc_VolumeName)) in
  match attachments pv.(kpv_Name) vas pvc.(pvc_Used) pvc.(pvc_Node) with
  | None => throw CNil
  | Some (used, node) => ret (set_use used (pvc.(pvc_Pods) ++ if used then users pvc.(pvc_Name) pods else []) node pvc)
  end.
(** The walk ends at the first claim that is not bound. *)
Fixpoint gen_use_info (pods : list K8sPod) (vas : list VolumeAttachment) (pvcs : list PersistentVolumeClaim)
    : M K claim_error (list PersistentVolumeClaim) :=
  match pvcs with
  | [] => ret []
  | pvc :: rest =>
      if negb (String.eqb pvc.(pvc_Status) "Bound") then ret (pvc :: rest)
      else
        let! pvc := (if is_some (strip_suffix pvc.(pvc_Driver) NfsDriverSuffix) then ret (genUseInfoForNfsPVC pods pvc)
                     else genUseInfoForPVC pods vas pvc) in
        let! rest := gen_use_info pods vas rest in
        ret (pvc :: rest)
  end.
Definition genUseInfoForPVCs (namespace : string) (pvcs : list PersistentVolumeClaim) : M K claim_error (list PersistentVolumeClaim) :=
  let! vas := rethrow CKube (kube_list (Obj := VolumeAttachment) "") in
  let! pods := rethrow CKube (getPods namespace Everything) in
  gen_use_info pods vas pvcs.
(** An error while the use is found is answered with success and nothing, [None]. *)
Definition List (cluster namespace : string) : M (gmap string K) workload_error (option (list PersistentVolumeClaim)) :=
  on_cluster (Answer NotFound) cluster
    (let! items := rethrow Workload.read_error (getPersistentVolumeClaims namespace) in
     let! shown := attempt (genUseInfoForPVCs namespace (k8sPVCToSCPVC <$> items)) in
     match shown with
     | Ok pvcs => ret (Some pvcs)
     | Err CNil => throw Panic
     | Err _ => ret None
     end).

(** The error is not one of the cluster, [None], when a pod uses the claim. *)
Definition isUsed (namespace name : string) : M K (option kube_error) unit :=
  let! pods := rethrow Some (kube_list (Obj := K8sPod) namespace) in
  if existsb (mounts_claim name) pods then throw None else ret tt.
Definition Delete (cluster namespace id : string) : M (gmap string K) api_error unit :=
  on_cluster NotFound cluster
    (do! rethrow pods_error (isUsed namespace id) in
     rethrow PersistentVolume.read_error (deletePersistentVolumeClaim namespace id)).

Definition set_request (size : Quantity) (c : K8sPVC) : K8sPVC :=
  mkK8sPVC c.(kc_Namespace) c.(kc_Name) c.(kc_Annotations) c.(kc_AccessModes) (<[ResourceStorage := size]> c.(kc_Requests))
    c.(kc_StorageClassName) c.(kc_VolumeMode) c.(kc_VolumeName) c.(kc_Capacity) c.(kc_Phase) c.(kc_CreationTimestamp)
    c.(kc_DeletionTimestamp).
Definition can_extend (k8sPvc : K8sPVC) (used : bool) : bool :=
  match k8sPvc.(kc_Annotations) !! annStorageProvisioner with
  | Some provisioner =>
      negb (is_some (strip_suffix provisioner IscsiDriverSuffix) || is_some (strip_suffix provisioner NfsDriverSuffix)) &&
      negb (is_some (strip_suffix provisioner LvmDriverSuffix) && used)
  | None => true
  end.
Definition updatePersistentVolumeClaim (namespace : string) (pvc : PersistentVolumeClaim) : M K claim_error unit :=
  let! k8sPvc := rethrow CKube (getPersistentVolumeClaim namespace pvc.(pvc_Name)) in
  do! guard (can_extend k8sPvc pvc.(pvc_Used)) COther in
  if String.eqb pvc.(pvc_ActualStorageSize) "" then ret tt
  else
    let! quantity := lift (of_option COther (ParseQuantity pvc.(pvc_ActualStorageSize))) in
    do! guard (match k8sPvc.(kc_Capacity) !! ResourceStorage with
               | Some current => negb (Value quantity <=? Value current)
               | None => true
               end) COther in
    do! rethrow CKube (kube_update (set_request quantity k8sPvc)) in
    ret tt.
Definition Update (cluster namespace : string) (pvc : PersistentVolumeClaim) : M (gmap string K) api_error PersistentVolumeClaim :=
  on_cluster NotFound cluster
    (do! rethrow (fun _ => ConnectClusterFailed) (updatePersistentVolumeClaim namespace pvc) in ret pvc).
End VolumeClaim.

(** ** Facts *)

Section Facts.
Context `{Quantities} `{!QuantityValues} {K : Type} `{!KubeKind K K8sPVC} `{!KubeKind K K8sPod} `{!KubeLaws K K8sPVC}.

(** No volume of the pod is the claim. *)
Definition unmounted (id : string) (p : K8sPod) : Prop :=
  forall v, v ∈ p.(kp_Spec).(ps_Volumes) -> v.(kv_Source).(vs_PersistentVolumeClaim) <> Some id.
Lemma mounts_claim_false id p : mounts_claim id p = false -> unmounted id p.
Proof.
  intros Hm v Hv Hid. assert (mounts_claim id p = true); [|congruence]. apply existsb_exists. exists v.
  rewrite <- list_elem_of_In, Hid. by rewrite String.eqb_refl.
Qed.
(** What the driver of a claim allows, by the end of its name. *)
Definition ends_with (suffix s : string) : Prop := exists a, s = a +:+ suffix.
Definition extendable (c : K8sPVC) (used : bool) : Prop :=
  forall driver, c.(kc_Annotations) !! annStorageProvisioner = Some driver ->
    ~ ends_with IscsiDriverSuffix driver /\ ~ ends_with NfsDriverSuffix driver /\ (ends_with LvmDriverSuffix driver -> used = false).
Lemma can_extend_true c used : can_extend c used = true -> extendable c used.
Proof.
  unfold can_extend. intros Hc driver Hd. rewrite Hd in Hc. apply andb_prop in Hc as [Hc Hl].
  apply negb_true_iff, orb_false_iff in Hc as [Hi Hn]. apply negb_true_iff in Hl.
  split; [|split]; intros [a ->]; rewrite strip_suffix_app in *; [done..|by destruct used].
Qed.
(** The claim with another requested size, otherwise as it was. *)
Definition resized (q : Quantity) (c o : K8sPVC) : Prop :=
  o.(kc_Requests) = <[ResourceStorage := q]> c.(kc_Requests) /\ o.(kc_AccessModes) = c.(kc_AccessModes) /\
  o.(kc_StorageClassName) = c.(kc_StorageClassName) /\ o.(kc_VolumeMode) = c.(kc_VolumeMode).

Lemma updatePersistentVolumeClaim_ok namespace pvc (k k' : K) r :
  updatePersistentVolumeClaim namespace pvc k = (r, k') ->
  match r with
  | Ok _ =>
      exists c : K8sPVC, kube_objects k !! (namespace, pvc.(pvc_Name)) = Some c /\ extendable c pvc.(pvc_Used) /\
        (pvc.(pvc_ActualStorageSize) = "" /\ same_kind K8sPVC k k' \/
         exists q (o : K8sPVC), ParseQuantity pvc.(pvc_ActualStorageSize) = Some q /\
           (forall current, c.(kc_Capacity) !! ResourceStorage = Some current -> Value current < Value q) /\
           resized q c o /\
           kube_objects k' = <[(namespace, pvc.(pvc_Name)) := o]> (kube_objects k))
  | Err _ => same_kind K8sPVC k k'
  end.
Proof.
  unfold updatePersistentVolumeClaim, getPersistentVolumeClaim, bind, rethrow, guard, lift, ret, throw. intros Hu.
  destruct (kube_get namespace _ k) as [rc k1] eqn:Hg. apply kube_get_law in Hg as [Hk Hc].
  destruct rc as [c|e]; simpl in Hu; [|by injection Hu as <- <-]. destruct Hc as [Hc Hkey].
  destruct (can_extend c (pvc_Used pvc)) eqn:Hext; [|by injection Hu as <- <-]. apply can_extend_true in Hext.
  destruct (String.eqb_spec (pvc_ActualStorageSize pvc) "") as [Hs|Hs]; [injection Hu as <- <-; eauto 6|].
  destruct (ParseQuantity _) as [q|] eqn:Hq; simpl in Hu; [|by injection Hu as <- <-].
  destruct (match kc_Capacity c !! ResourceStorage with Some current => _ | None => true end) eqn:Hsize; [|by injection Hu as <- <-].
  destruct (kube_update _ k1) as [[o|e] k2] eqn:Hup; apply kube_update_law in Hup; injection Hu as <- <-; unfold same_kind in *; [|congruence].
  destruct Hup as (_ & Hspec & _ & Hobj). unfold kube_key in Hkey, Hobj. simpl in Hkey, Hobj. rewrite Hkey, Hk in Hobj. exists c.
  split; [done|]. split; [done|]. right. exists q, o. split; [done|]. split; [intros current Hcur; rewrite Hcur in Hsize; lia|].
  split; [|done]. unfold resized. unfold kube_spec in Hspec. by injection Hspec as -> -> -> ->.
Qed.

Lemma isUsed_ok `{!KubeLaws K K8sPod} `{!KubeFrame K K8sPod K8sPVC} namespace name (k k' : K) r :
  isUsed namespace name k = (r, k') ->
  same_kind K8sPVC k k' /\
  (r = Ok tt -> forall p : K8sPod, kube_objects k !! kube_key p = Some p -> p.(kp_Namespace) = namespace -> unmounted name p).
Proof.
  unfold isUsed, bind, rethrow, ret, throw. intros Hu.
  pose proof (frame_list (A := K8sPod) (B := K8sPVC) namespace k) as F1.
  destruct (kube_list namespace k) as [rl k1] eqn:Hl. apply kube_list_law in Hl as [_ Hl]. cbn [snd] in F1.
  destruct rl as [pods|e]; simpl in Hu; [|by injection Hu as <- <-]. destruct Hl as [_ Hl].
  destruct (existsb (mounts_claim name) pods) eqn:He; injection Hu as <- <-; (split; [done|]); [done|].
  intros _ p Hp Hns. assert (Hin : p ∈ pods) by (apply Hl; auto).
  apply mounts_claim_false. destruct (mounts_claim name p) eqn:Hm; [|done]. assert (existsb (mounts_claim name) pods = true); [|congruence].
  apply existsb_exists. exists p. by rewrite <- list_elem_of_In.
Qed.
End Facts.

(** C30. A claim is deleted only when it is no volume of any pod of its namespace, and nothing
    but that claim goes; a claim is extended only beyond its present capacity, never when the
    name of its driver ends as the iSCSI or the NFS driver's, nor when it ends as the local
    driver's and the request says that the claim is in use, and nothing but the size it requests
    changes.  A request that fails changes no claim. *)
Theorem claims_guarded `{Quantities} `{!QuantityValues} {K : Type} `{!KubeKind K K8sPVC} `{!KubeKind K K8sPod}
    `{!KubeLaws K K8sPVC} `{!KubeLaws K K8sPod} `{!KubeFrame K K8sPod K8sPVC}
    cluster namespace (ks ks' : gmap string K) k k' :
  ks !! cluster = Some k -> ks' !! cluster = Some k' ->
  (forall id r, Delete cluster namespace id ks = (r, ks') ->
     match r with
     | Ok _ =>
         (forall p : K8sPod, kube_objects k !! kube_key p = Some p -> p.(kp_Namespace) = namespace -> unmounted id p) /\
         (kube_objects (Obj := K8sPVC) k' = delete (namespace, id) (kube_objects k) \/
          exists marked : K8sPVC, kube_deleting marked = true /\ kube_objects k' = <[(namespace, id) := marked]> (kube_objects k))
     | Err _ => same_kind K8sPVC k k'
     end) /\
  (forall pvc r, Update cluster namespace pvc ks = (r, ks') ->
     match r with
     | Ok _ =>
         exists c : K8sPVC, kube_objects k !! (namespace, pvc.(pvc_Name)) = Some c /\ extendable c pvc.(pvc_Used) /\
           (pvc.(pvc_ActualStorageSize) = "" /\ same_kind K8sPVC k k' \/
            exists q (o : K8sPVC), ParseQuantity pvc.(pvc_ActualStorageSize) = Some q /\
              (forall current, c.(kc_Capacity) !! ResourceStorage = Some current -> Value current < Value q) /\
              resized q c o /\
              kube_objects k' = <[(namespace, pvc.(pvc_Name)) := o]> (kube_objects k))
     | Err _ => same_kind K8sPVC k k'
     end).
Proof.
  intros Hk Hk'. split.
  - intros id r Hd. apply (on_cluster_at _ _ _ _ _ _ k) in Hd as (kc & Hd & ->); [|done]. rewrite lookup_insert_eq in Hk'. injection Hk' as ->.
    unfold bind, rethrow, deletePersistentVolumeClaim in Hd. destruct (isUsed namespace id k) as [ru k1] eqn:Hu.
    apply isUsed_ok in Hu as [Hk1 Hnone]. destruct ru as [[]|e]; simpl in Hd; [|by injection Hd as <- <-].
    destruct (kube_delete namespace id k1) as [rd k2] eqn:Hdel. apply kube_delete_law in Hdel. unfold same_kind in *.
    destruct rd as [[]|e]; simpl in Hd; injection Hd as <- <-.
    + split; [by apply Hnone|]. rewrite Hk1 in Hdel. destruct Hdel as [?|(m & ? & ? & _)]; eauto.
    + destruct Hdel; congruence.
  - intros pvc r Hu. apply (on_cluster_at _ _ _ _ _ _ k) in Hu as (kc & Hu & ->); [|done]. rewrite lookup_insert_eq in Hk'. injection Hk' as ->.
    unfold bind, rethrow, ret in Hu. destruct (updatePersistentVolumeClaim namespace pvc k) as [ru k1] eqn:Hup.
    apply updatePersistentVolumeClaim_ok in Hup. destruct ru; simpl in Hu; by injection Hu as <- <-.
Qed.
