(* ===== verification/StatefulSet.v ===== *)
(** Stateful sets (pkg/handler/statefulset_manager.go and pkg/types/statefulset.go): every pod
    has claims of its own, made from templates by the cluster. *)
From S2P Require Import Prelude GoStrings RestApi KubeApi ConfigMap Secret PersistentVolume PodTemplate Workload Deployment.
From S2P Require Import DaemonSet Job Pod.

Record StatefulSet := mkStatefulSet {
  sf_ID : string; sf_Name : string; sf_Replicas : Z; sf_Containers : list Container; sf_AdvancedOptions : AdvancedOptions;
  sf_PersistentVolumes : list PersistentVolumeTemplate; sf_Status : WorkloadStatus; sf_Memo : string;
  sf_CreationTimestamp : Z; sf_DeletionTimestamp : option Z
}.

Section StatefulSet.
Context `{Quantities} `{WorkloadText} `{LabelSelectors}.

Definition set_k8s_replicas n (s : K8sStatefulSet) : K8sStatefulSet :=
  mkK8sStatefulSet s.(kst_Namespace) s.(kst_Name) s.(kst_UID) s.(kst_Annotations) n s.(kst_ServiceName) s.(kst_Selector)
    s.(kst_Template) s.(kst_VolumeClaimTemplates) s.(kst_ReadyReplicas) s.(kst_UpdatedReplicas) s.(kst_CurrentRevision)
    s.(kst_UpdateRevision) s.(kst_Conditions) s.(kst_CreationTimestamp) s.(kst_DeletionTimestamp).
(** The patches: a revision, and the number of replicas. *)
Inductive StatefulSetPatch := PatchRevision (patch : string) | PatchReplicas (n : Z).

(** The zero quantity is shown as 0. *)
Definition size_or_zero (l : gmap string Quantity) : string :=
  match l !! ResourceStorage with Some q => Quantity_String q | None => "0" end.
(** What is shown: the temporary volumes of the pods and the templates of claims. *)
Definition claim_volume (p : K8sPVC) : option PersistentVolumeTemplate :=
  (fun class => mkTemplate p.(kc_Name) (size_or_zero p.(kc_Requests)) class) <$> p.(kc_StorageClassName).
Definition shown_volumes_of (s : K8sStatefulSet) (templates : list PersistentVolumeTemplate) : list PersistentVolumeTemplate :=
  filter temporary templates ++ omap claim_volume s.(kst_VolumeClaimTemplates).
Definition statefulset_status (s : K8sStatefulSet) : WorkloadStatus :=
  let conditions := k8sWorkloadConditionsToScWorkloadConditions s.(kst_Conditions) false in
  if String.eqb s.(kst_CurrentRevision) s.(kst_UpdateRevision)
  then mkStatus s.(kst_ReadyReplicas) false 0 0 0 conditions
  else if negb (s.(kst_UpdatedReplicas) =? 0)
  then mkStatus s.(kst_ReadyReplicas) true (int32 (s.(kst_Replicas) - s.(kst_UpdatedReplicas))) 1
         (int32 (s.(kst_UpdatedReplicas) - 1)) conditions
  else mkStatus s.(kst_ReadyReplicas) true (int32 (s.(kst_Replicas) - 1)) 1 0 conditions.
Definition k8sStatefulSetToSCStatefulSet (s : K8sStatefulSet) : StatefulSet :=
  let read := k8sPodSpecToScContainersAndVCTemplates s.(kst_Template).(tp_Spec).(ps_Containers) s.(kst_Template).(tp_Spec).(ps_Volumes) in
  mkStatefulSet s.(kst_Name) s.(kst_Name) s.(kst_Replicas) read.1 (shown_options s.(kst_Annotations) s.(kst_Template))
    (shown_volumes_of s read.2) (statefulset_status s) "" s.(kst_CreationTimestamp) s.(kst_DeletionTimestamp).

(** ** Calls on a cluster *)

Context {K : Type} `{!KubeKind K K8sPV} `{!KubeKind K K8sPVC} `{!KubeKind K K8sStorageClass} `{!KubeKind K K8sConfigMap}
  `{!KubeKind K K8sSecret} `{!KubeKind K K8sDeployment} `{!KubeKind K K8sDaemonSet} `{!KubeKind K K8sStatefulSet}
  `{!KubeKind K K8sJob} `{!KubeKind K K8sCronJob} `{!KubeKind K K8sPod} `{!KubeSelect K K8sPod}
  `{!KubeKind K ControllerRevision} `{!KubeSelect K ControllerRevision} `{!KubePatch K K8sStatefulSet StatefulSetPatch}
  `{!RevisionText} `{!LabelRequirements}.

Definition getStatefulSets (namespace : string) : M K kube_error (list K8sStatefulSet) := kube_list namespace.
Definition deleteStatefulSet (namespace name : string) : M K kube_error unit := kube_delete (Obj := K8sStatefulSet) namespace name.

Definition owner_of (s : StatefulSet) : PodOwner :=
  mkOwner s.(sf_Name) s.(sf_AdvancedOptions) s.(sf_Containers) s.(sf_PersistentVolumes) s.(sf_Memo) true.
Definition new_statefulset (namespace : string) (s : StatefulSet) (template : PodTemplateSpec) (claims : list K8sPVC) : K8sStatefulSet :=
  mkK8sStatefulSet namespace s.(sf_Name) "" (generatePodOwnerObjectMeta namespace (owner_of s)).(om_Annotations)
    (int32 s.(sf_Replicas)) s.(sf_Name) (Some (MatchLabels {["app" := s.(sf_Name)]})) template claims 0 0 "" "" [] 0 None.
Definition createStatefulSet (namespace : string) (s : StatefulSet) : M K pod_error unit :=
  let! template := createPodTempateSpec namespace (owner_of s) in
  do! rethrow PKube (kube_create (new_statefulset namespace s template.1 template.2)) in
  ret tt.
Definition getStatefulSetPodsVolumes (namespace : string) (s : K8sStatefulSet) : M K (option kube_error) (list K8sVolume) :=
  let! k8sPods := getOwnerPods namespace ResourceTypeStatefulSet s.(kst_Name) in
  ret (k8sPods ≫= fun p => p.(kp_Spec).(ps_Volumes)).

(** ** Handlers *)

Definition set_id id (s : StatefulSet) : StatefulSet :=
  mkStatefulSet id s.(sf_Name) s.(sf_Replicas) s.(sf_Containers) s.(sf_AdvancedOptions) s.(sf_PersistentVolumes) s.(sf_Status)
    s.(sf_Memo) s.(sf_CreationTimestamp) s.(sf_DeletionTimestamp).
Definition Create (cluster namespace : string) (s : StatefulSet) : M (gmap string K) workload_error StatefulSet :=
  on_cluster (Answer NotFound) cluster
    (do! rethrow on_create_error (createStatefulSet namespace s) in ret (set_id s.(sf_Name) s)).
Definition List (cluster namespace : string) : M (gmap string K) workload_error (list StatefulSet) :=
  on_cluster (Answer NotFound) cluster
    (let! items := rethrow read_error (getStatefulSets namespace) in ret (k8sStatefulSetToSCStatefulSet <$> items)).
Definition Get (cluster namespace id : string) : M (gmap string K) workload_error StatefulSet :=
  on_cluster (Answer NotFound) cluster
    (let! s := getStatefulSet namespace id in ret (k8sStatefulSetToSCStatefulSet s)).

Definition update_spec (spec : PodSpec) (memo : string) (s : K8sStatefulSet) : K8sStatefulSet :=
  mkK8sStatefulSet s.(kst_Namespace) s.(kst_Name) s.(kst_UID) (addWorkloadUpdateMemoToAnnotations s.(kst_Annotations) memo)
    s.(kst_Replicas) s.(kst_ServiceName) s.(kst_Selector) (mkPodTemplate s.(kst_Template).(tp_Meta) spec)
    s.(kst_VolumeClaimTemplates) s.(kst_ReadyReplicas) s.(kst_UpdatedReplicas) s.(kst_CurrentRevision)
    s.(kst_UpdateRevision) s.(kst_Conditions) s.(kst_CreationTimestamp) s.(kst_DeletionTimestamp).
Definition Update (cluster namespace : string) (s : StatefulSet) : M (gmap string K) workload_error StatefulSet :=
  on_cluster (Answer NotFound) cluster
    (let! k8sStatefulSet := getStatefulSet namespace s.(sf_ID) in
     let! spec := rethrow on_update_error (scPodSpecToK8sPodSpecAndPVCs s.(sf_Containers) s.(sf_PersistentVolumes)) in
     do! rethrow (fun _ => Answer ConnectClusterFailed) (kube_update (update_spec spec.1 s.(sf_Memo) k8sStatefulSet)) in
     ret s).

(** The volumes of the pods are read before the deletion; [snd] holds the stateful sets whose
    deletion was published. *)
Definition Delete (cluster namespace id : string) : M (gmap string K * list (string * string)) workload_error unit :=
  publishing (namespace, id)
    (on_cluster (Answer NotFound) cluster
      (let! k8sStatefulSet := getStatefulSet namespace id in
       let! volumes := rethrow (Answer ∘ pods_error) (getStatefulSetPodsVolumes namespace k8sStatefulSet) in
       do! rethrow (fun _ => Answer ServerError) (deleteStatefulSet namespace id) in
       delete_claims k8sStatefulSet.(kst_Annotations) namespace volumes)).

Definition getStatefulSetAndControllerRevisions (namespace name : string)
    : M K workload_error (K8sStatefulSet * list ControllerRevision) :=
  let! k8sStatefulSet := getStatefulSet namespace name in
  match k8sStatefulSet.(kst_Selector) with
  | None => throw (Answer ServerError)
  | Some selector =>
      let! crs := rethrow (fun e => match e with Some e => read_error e | None => Answer ServerError end)
                    (getControllerRevisions namespace selector k8sStatefulSet.(kst_UID)) in
      ret (k8sStatefulSet, crs)
  end.
Definition getStatefulSetHistory (cluster namespace id : string) : M (gmap string K) workload_error (list VersionInfo) :=
  on_cluster (Answer NotFound) cluster
    (let! found := getStatefulSetAndControllerRevisions namespace id in lift (revision_history namespace id found.2)).
Definition rollback (cluster namespace id : string) (param : option Z) : M (gmap string K) workload_error unit :=
  on_cluster (Answer NotFound) cluster
    (match param with
     | None => throw (Answer InvalidFormat)
     | Some version =>
         let! found := getStatefulSetAndControllerRevisions namespace id in
         match find_patch version found.2 with
         | None => throw (Answer NotFound)
         | Some patch => rethrow (fun _ => Answer ConnectClusterFailed) (kube_patch found.1 (PatchRevision patch))
         end
     end).
Definition setPodCount (cluster namespace id : string) (param : option Z) : M (gmap string K) workload_error Z :=
  on_cluster (Answer NotFound) cluster
    (match param with
     | None => throw (Answer InvalidFormat)
     | Some replicas =>
         let! k8sStatefulSet := getStatefulSet namespace id in
         do! (if k8sStatefulSet.(kst_Replicas) =? replicas then ret tt
              else rethrow (fun _ => Answer ConnectClusterFailed) (kube_patch k8sStatefulSet (PatchReplicas replicas))) in
         ret replicas
     end).
End StatefulSet.

(** ** Facts *)

Section Facts.
Context `{Quantities} `{WorkloadText} `{LabelSelectors}
  {K : Type} `{!KubeKind K K8sPV} `{!KubeKind K K8sPVC} `{!KubeKind K K8sStorageClass} `{!KubeKind K K8sConfigMap}
  `{!KubeKind K K8sSecret} `{!KubeKind K K8sStatefulSet} `{!KubeLaws K K8sPVC} `{!KubeLaws K K8sStatefulSet}.

Lemma createStatefulSet_ok namespace s (k k' : K) :
  createStatefulSet namespace s k = (Ok tt, k') ->
  exists template claims k1 k2 k3 (o : K8sStatefulSet),
    scPodSpecToK8sPodSpecAndPVCs s.(sf_Containers) s.(sf_PersistentVolumes) k = (Ok (template.(tp_Spec), claims), k1) /\
    createPodTempateObjectMeta s.(sf_Name) namespace s.(sf_AdvancedOptions) s.(sf_Containers) k2 = (Ok template.(tp_Meta), k3) /\
    kube_objects k' !! (namespace, s.(sf_Name)) = Some o /\ kube_spec o = kube_spec (new_statefulset namespace s template claims).
Proof.
  unfold createStatefulSet, bind, rethrow, ret. intros Hc.
  destruct (createPodTempateSpec namespace (owner_of s) k) as [[[template claims]|] k3] eqn:Ht; [|done]. cbn [fst snd] in Hc.
  apply createPodTempateSpec_ok in Ht as (k1 & ka & kb & Hs & Hm & _).
  destruct (kube_create _ k3) as [[o|e] k4] eqn:Ho; [|done]. injection Hc as <-.
  apply kube_create_law in Ho as (_ & Hspec & _ & Hobj). exists template, claims, k1, ka, kb, o.
  split; [done|]. split; [done|]. split; [by rewrite Hobj, lookup_insert_eq|done].
Qed.

(** A later state of the cluster: the stateful set is there with the specification that was
    given. *)
Definition later_set (namespace name : string) (k1 k2 : K) : Prop :=
  exists o1 o2 : K8sStatefulSet,
    kube_objects k1 !! (namespace, name) = Some o1 /\ kube_objects k2 !! (namespace, name) = Some o2 /\
    o2.(kst_Name) = name /\ o2.(kst_Template) = o1.(kst_Template) /\ o2.(kst_Replicas) = o1.(kst_Replicas) /\
    o2.(kst_VolumeClaimTemplates) = o1.(kst_VolumeClaimTemplates) /\
    o2.(kst_Annotations) !! AnnkeyForWordloadAdvancedoption = o1.(kst_Annotations) !! AnnkeyForWordloadAdvancedoption.

(** What is shown of the claims: every volume that is not temporary, mounted or not. *)
Definition shown_claim (pvs : list PersistentVolumeTemplate) (t : PersistentVolumeTemplate) : Prop :=
  exists pv q, pv ∈ pvs /\ ~ temporary pv /\ ParseQuantity pv.(pt_Size) = Some q /\
    t = mkTemplate (pt_Name pv) (Quantity_String q) (pt_StorageClassName pv).
Lemma claim_volumes pvs claims t :
  Forall2 (fun pv p => exists accessMode size, parse_size pv.(pt_Size) = Ok (Some size) /\
             p = claim pv.(pt_Name) accessMode pv.(pt_StorageClassName) size) (filter (fun pv => ~ temporary pv) pvs) claims ->
  t ∈ omap claim_volume claims <-> shown_claim pvs t.
Proof.
  assert (Hone : forall pv mode size, parse_size (pt_Size pv) = Ok (Some size) -> ParseQuantity (pt_Size pv) = Some size /\
            claim_volume (claim (pt_Name pv) mode (pt_StorageClassName pv) size) =
            Some (mkTemplate (pt_Name pv) (Quantity_String size) (pt_StorageClassName pv))).
  { intros pv mode size Hs. unfold parse_size in Hs. destruct (String.eqb _ ""); [done|]. split; [by destruct (ParseQuantity _); congruence|].
    unfold claim_volume, claim, size_or_zero. simpl. by rewrite lookup_singleton_eq. }
  intros Hc. rewrite list_elem_of_omap. split.
  - intros (p & Hp & Ht). apply list_elem_of_lookup in Hp as [i Hi]. destruct (Forall2_lookup_r _ _ _ _ _ Hc Hi) as (pv & Hpv & mode & size & Hs & ->).
    apply list_elem_of_lookup_2, list_elem_of_filter in Hpv as [Htemp Hpv]. destruct (Hone pv mode size Hs) as [Hq Hcl].
    rewrite Hcl in Ht. injection Ht as <-. by exists pv, size.
  - intros (pv & q & Hpv & Htemp & Hq & ->). assert (Hin : pv ∈ filter (fun pv => ~ temporary pv) pvs) by (by apply list_elem_of_filter).
    apply list_elem_of_lookup in Hin as [i Hi]. destruct (Forall2_lookup_l _ _ _ _ _ Hc Hi) as (p & Hp & mode & size & Hs & ->).
    destruct (Hone pv mode size Hs) as [Hq' Hcl]. apply list_elem_of_lookup_2 in Hp. eexists. split; [exact Hp|]. rewrite Hcl. congruence.
Qed.
End Facts.

(** A stateful set that was created is read back with its replicas, containers and
    options, with the temporary volumes that are mounted, and with every other persistent
    volume, mounted or not; whether it is being updated or not.  The read fails only as the
    cluster fails. *)
Lemma statefulset_round_trip `{Quantities} `{WorkloadTextLaws} `{LabelSelectors}
    {K : Type} `{!KubeKind K K8sPV} `{!KubeKind K K8sPVC} `{!KubeKind K K8sStorageClass} `{!KubeKind K K8sConfigMap}
    `{!KubeKind K K8sSecret} `{!KubeKind K K8sStatefulSet} `{!KubeLaws K K8sPVC} `{!KubeLaws K K8sStatefulSet}
    cluster namespace s answer (ks ks1 ks2 ks3 : gmap string K) k1 k2 r :
  pod_names_ok s.(sf_Containers) s.(sf_PersistentVolumes) -> NoDup (pt_Name <$> s.(sf_PersistentVolumes)) ->
  int64_ok s.(sf_AdvancedOptions).(ao_ExposedMetric).(em_Port) = true ->
  Create cluster namespace s ks = (Ok answer, ks1) -> ks1 !! cluster = Some k1 ->
  later_set namespace s.(sf_Name) k1 k2 -> ks2 !! cluster = Some k2 ->
  Get cluster namespace s.(sf_Name) ks2 = (r, ks3) ->
  match r with
  | Ok read =>
      read.(sf_ID) = s.(sf_Name) /\ read.(sf_Name) = s.(sf_Name) /\ read.(sf_Replicas) = int32 s.(sf_Replicas) /\
      read.(sf_Containers) = normal <$> s.(sf_Containers) /\
      read.(sf_AdvancedOptions) = visible_options s.(sf_AdvancedOptions) /\
      (forall t, t ∈ read.(sf_PersistentVolumes) <->
         shown_temporary s.(sf_Containers) s.(sf_PersistentVolumes) t \/ shown_claim s.(sf_PersistentVolumes) t)
  | Err e => e = Answer ServerError
  end.
Proof.
  intros Hn Hnd Hport Hc Hk1 (o1 & o2 & Ho1 & Ho2 & Hname & Htp & Hrep & Hcl & Hann) Hk2 Hg.
  apply on_cluster_inv in Hc as [(? & ? & _)|(k & k1' & Hk & Hm & ->)]; [done|]. rewrite lookup_insert_eq in Hk1. injection Hk1 as ->.
  unfold bind, rethrow, ret in Hm. destruct (createStatefulSet namespace s k) as [[[]|e] k1'] eqn:Hcr; [|done]. injection Hm as <- ->.
  apply createStatefulSet_ok in Hcr as (template & claims & ka & kb & kc & o & Hs & Hmeta & Ho & Hspec).
  assert (o1 = o) as -> by congruence. unfold kube_spec in Hspec. simpl in Hspec. injection Hspec as Ha Hr _ _ Ht Hvct.
  pose proof (pod_spec_round_trip' _ _ _ _ _ _ Hn Hs) as (Hconts & _ & _).
  destruct (translated _ _ _ _ _ _ Hn Hs) as (eds & _ & Hclaims & _).
  apply (on_cluster_at _ _ _ _ _ _ k2) in Hg as (k3 & Hm & _); [|done].
  unfold bind, getStatefulSet, rethrow, ret in Hm. destruct (kube_get namespace (sf_Name s) k2) as [rg k4] eqn:Hget.
  apply kube_get_stored with (o := o2) in Hget as [->|(e & -> & He)]; [| |done]; simpl in Hm; injection Hm as <- _; [|by destruct e].
  unfold k8sStatefulSetToSCStatefulSet. rewrite Htp, Ht, Hname, Hrep, Hr.
  cbn [sf_ID sf_Name sf_Replicas sf_Containers sf_AdvancedOptions sf_PersistentVolumes].
  repeat (split; [done|]). split.
  - apply (shown_options_created namespace (owner_of s) _ _ kb kc); [done..|]. by rewrite Hann, Ha.
  - intros t. unfold shown_volumes_of. rewrite elem_of_app, Hcl, Hvct, (claim_volumes _ _ _ Hclaims).
    by rewrite (temporary_templates _ _ _ _ _ _ _ Hn Hnd Hs).
Qed.

(** ** Deletion *)

Section Deletion.
Context `{Quantities} `{WorkloadText} `{LabelSelectors}
  {K : Type} `{!KubeKind K K8sPV} `{!KubeKind K K8sPVC} `{!KubeKind K K8sDeployment} `{!KubeKind K K8sDaemonSet}
  `{!KubeKind K K8sStatefulSet} `{!KubeKind K K8sJob} `{!KubeKind K K8sCronJob} `{!KubeKind K K8sPod} `{!KubeSelect K K8sPod}
  `{!LabelRequirements} `{!KubeSelectLaws K K8sPod}
  `{!KubeFrame K K8sStatefulSet K8sPVC} `{!KubeSelectFrame K K8sPod K8sPVC}
  `{!KubeFrame K K8sStatefulSet K8sPod} `{!KubeLaws K K8sStatefulSet} `{!KubeSelectFrame K K8sPod K8sStatefulSet}.

(** The claims that the pods of a stateful set use. *)
Definition claim_of_pod (namespace name n : string) (k : K) : Prop :=
  exists p : K8sPod, kube_objects k !! kube_key p = Some p /\ p.(kp_Namespace) = namespace /\
    owned ResourceTypeStatefulSet name p = true /\ n ∈ volume_claims p.(kp_Spec).(ps_Volumes).

Lemma getStatefulSetPodsVolumes_ok namespace s (k k' : K) r :
  getStatefulSetPodsVolumes namespace s k = (r, k') ->
  same_kind K8sPVC k k' /\ same_kind K8sStatefulSet k k' /\
  forall volumes n, r = Ok volumes -> n ∈ volume_claims volumes -> claim_of_pod namespace s.(kst_Name) n k.
Proof.
  unfold getStatefulSetPodsVolumes, getOwnerPods, getPodParentSelector, getStatefulSet, getPods, bind, rethrow, lift, throw, ret.
  simpl. intros Hv.
  pose proof (frame_get (A := K8sStatefulSet) (B := K8sPVC) namespace (kst_Name s) k) as F1.
  pose proof (frame_get (A := K8sStatefulSet) (B := K8sPod) namespace (kst_Name s) k) as F2.
  destruct (kube_get namespace (kst_Name s) k) as [rg k1] eqn:Hg. cbn [snd] in F1, F2.
  pose proof (kube_get_law _ _ _ _ _ Hg) as [F3 _].
  destruct rg as [t|e]; [|by injection Hv as <- <-]. simpl in Hv.
  destruct (as_selector (kst_Selector t)) as [[sel|]|e]; [|by injection Hv as <- <-..].
  pose proof (frame_select (A := K8sPod) (B := K8sPVC) namespace sel k1) as F4.
  pose proof (frame_select (A := K8sPod) (B := K8sStatefulSet) namespace sel k1) as F5.
  destruct (kube_select namespace sel k1) as [rl k2] eqn:Hl. cbn [snd] in F4, F5.
  pose proof (kube_select_law _ _ _ _ _ Hl) as [_ Hin]. unfold same_kind in *.
  destruct rl as [pods|e]; simpl in Hv; injection Hv as <- <-; (split; [congruence|]); (split; [congruence|]); [|done].
  intros volumes n [= <-] Hn. unfold volume_claims in Hn. apply list_elem_of_omap in Hn as (v & Hv & Hvn).
  apply list_elem_of_bind in Hv as (p & Hv & Hp). apply list_elem_of_filter in Hp as [Ho Hp]. destruct (Hin p Hp) as [Hobj Hns].
  exists p. rewrite <- F2. split; [done|]. split; [done|]. split; [done|]. apply list_elem_of_omap. by exists v.
Qed.
End Deletion.

(** Deleting a stateful set: on success it is gone or marked and the deletion is
    published once; claims are deleted only when it asks for it, and then only claims that a
    pod of its own uses: one in its namespace that has it as the only owner.  On an error
    nothing changes and nothing is published. *)
Lemma Delete_statefulset `{Quantities} `{WorkloadText} `{LabelSelectors}
    {K : Type} `{!KubeKind K K8sPV} `{!KubeKind K K8sPVC} `{!KubeKind K K8sDeployment} `{!KubeKind K K8sDaemonSet}
    `{!KubeKind K K8sStatefulSet} `{!KubeKind K K8sJob} `{!KubeKind K K8sCronJob} `{!KubeKind K K8sPod} `{!KubeSelect K K8sPod}
    `{!LabelRequirements} `{!KubeSelectLaws K K8sPod} `{!KubeLaws K K8sPVC} `{!KubeLaws K K8sStatefulSet}
    `{!KubeFrame K K8sStatefulSet K8sPVC} `{!KubeDeleteFrame K K8sStatefulSet K8sPVC} `{!KubeFrame K K8sStatefulSet K8sPod}
    `{!KubeSelectFrame K K8sPod K8sPVC} `{!KubeSelectFrame K K8sPod K8sStatefulSet}
    `{!KubeFrame K K8sPV K8sPVC} `{!KubeDeleteFrame K K8sPV K8sPVC}
    `{!KubeFrame K K8sPV K8sStatefulSet} `{!KubeDeleteFrame K K8sPV K8sStatefulSet}
    `{!KubeFrame K K8sPVC K8sStatefulSet} `{!KubeDeleteFrame K K8sPVC K8sStatefulSet}
    cluster namespace id (ks ks' : gmap string K) published published' k k' r :
  Delete cluster namespace id (ks, published) = (r, (ks', published')) ->
  ks !! cluster = Some k -> ks' !! cluster = Some k' ->
  match r with
  | Ok _ =>
      published' = published ++ [(namespace, id)] /\
      exists s : K8sStatefulSet, kube_objects k !! (namespace, id) = Some s /\
        (kube_objects (Obj := K8sStatefulSet) k' = delete (namespace, id) (kube_objects k) \/
         exists marked : K8sStatefulSet, kube_deleting marked = true /\
           kube_objects k' = <[(namespace, id) := marked]> (kube_objects k)) /\
        forall ns n, kube_objects (Obj := K8sPVC) k' !! (ns, n) <> kube_objects k !! (ns, n) ->
          s.(kst_Annotations) !! AnnkeyForDeletePVsWhenDeleteWorkload = Some "true" /\ ns = namespace /\
          claim_of_pod namespace id n k
  | Err _ => published' = published /\ same_kind K8sStatefulSet k k' /\ same_kind K8sPVC k k'
  end.
Proof.
  intros [Hm Hp]%publishing_inv Hk Hk'. apply (on_cluster_at _ _ _ _ _ _ k) in Hm as (kc & Hm & ->); [|done].
  rewrite lookup_insert_eq in Hk'. injection Hk' as ->. unfold bind, getStatefulSet, deleteStatefulSet, rethrow in Hm.
  destruct (kube_get namespace id k) as [rg k1] eqn:Hg. pose proof (kube_get_law _ _ _ _ _ Hg) as [Hk1 Hrg].
  pose proof (frame_get (A := K8sStatefulSet) (B := K8sPVC) namespace id k) as F1. rewrite Hg in F1. cbn [snd] in F1.
  pose proof (frame_get (A := K8sStatefulSet) (B := K8sPod) namespace id k) as P1. rewrite Hg in P1. cbn [snd] in P1.
  destruct rg as [s|e]; simpl in Hm; [|by injection Hm as <- <-]. destruct Hrg as [Hs Hkey]. simpl in Hkey.
  destruct (getStatefulSetPodsVolumes namespace s k1) as [rv k2] eqn:Hv.
  apply getStatefulSetPodsVolumes_ok in Hv as (F2 & Hk2 & Hof). unfold same_kind in *.
  destruct rv as [volumes|e]; simpl in Hm; [|injection Hm as <- <-; split; [done|]; split; congruence].
  pose proof (frame_delete (A := K8sStatefulSet) (B := K8sPVC) namespace id k2) as F3.
  destruct (kube_delete namespace id k2) as [rd k3] eqn:Hdel. pose proof (kube_delete_law _ _ _ _ _ Hdel) as Hobj. cbn [snd] in F3.
  unfold same_kind in F3. destruct rd as [[]|e]; simpl in Hm.
  2:{ injection Hm as <- <-. destruct Hobj as [Hobj _]. unfold same_kind in *. split; [done|]. split; congruence. }
  rewrite Hk2, Hk1 in Hobj. apply (delete_claims_ok (B := K8sStatefulSet)) in Hm as (-> & F4 & F5). split; [done|].
  unfold same_kind in F4. exists s. rewrite F4. split; [done|]. split; [destruct Hobj as [?|(m & ? & ? & _)]; eauto|].
  intros ns n Hne. destruct (decide (ns = namespace /\ n ∈ volume_claims volumes)) as [[-> Hn]|Hn].
  - case_bool_decide as Hask; [|unfold same_kind in F5; congruence]. split; [done|]. split; [done|].
    assert (Hid : kst_Name s = id) by congruence. rewrite <- Hid.
    destruct (Hof volumes n eq_refl Hn) as (p & Hobjp & ?). exists p. by rewrite <- P1.
  - destruct Hne. case_bool_decide; [rewrite F5 by done|unfold same_kind in F5]; congruence.
Qed.

(** ** Replicas *)

(** The replicas that are shown while a stateful set or a daemon set is updated, those of
    the old version, those in change and those of the new one, add up to the wanted ones; no
    number overflows or is negative as long as there is a replica and the changed ones were
    counted among the updated ones. *)
Lemma replicas_add_up `{Quantities} `{LabelSelectors} :
  (forall s : K8sStatefulSet,
     1 <= s.(kst_Replicas) < 2 ^ 31 -> 0 <= s.(kst_UpdatedReplicas) <= s.(kst_Replicas) ->
     let st := statefulset_status s in
     st.(st_Updating) = true ->
     st.(st_CurrentReplicas) + st.(st_UpdatingReplicas) + st.(st_UpdatedReplicas) = s.(kst_Replicas) /\
     0 <= st.(st_CurrentReplicas) /\ 0 <= st.(st_UpdatedReplicas)) /\
  (forall d : K8sDaemonSet,
     0 <= d.(kds_DesiredNumberScheduled) < 2 ^ 31 -> 0 <= d.(kds_UpdatedNumberScheduled) <= d.(kds_DesiredNumberScheduled) ->
     0 <= d.(kds_NumberUnavailable) <= d.(kds_DesiredNumberScheduled) ->
     let st := daemonset_status d in
     st.(st_Updating) = true ->
     st.(st_CurrentReplicas) + st.(st_UpdatingReplicas) + st.(st_UpdatedReplicas) = d.(kds_DesiredNumberScheduled) /\
     0 <= st.(st_CurrentReplicas) /\
     (d.(kds_NumberUnavailable) <= d.(kds_UpdatedNumberScheduled) -> 0 <= st.(st_UpdatedReplicas))).
Proof.
  split.
  - intros s Hr Hu. unfold statefulset_status. destruct (String.eqb _ _); [done|]. intros _.
    destruct (Z.eqb_spec (kst_UpdatedReplicas s) 0); simpl; rewrite !int32_small by lia; lia.
  - intros d Hd Hu Hn. unfold daemonset_status. destruct (daemonsetIsUpdate d); [|done]. intros _.
    destruct (Z.eqb_spec (kds_UpdatedNumberScheduled d) 0); simpl; rewrite !int32_small by lia; lia.
Qed.
