(* ===== verification/Autoscaler.v ===== *)
(** Autoscalers (pkg/handler/hpa_manager.go and pkg/types/hpa.go): an autoscaler watches
    resources and metrics of the program it scales; for each of the latter the configuration
    of the Prometheus adapter gets a rule. *)
From S2P Require Import Prelude GoStrings RestApi KubeApi LimitRange ConfigMap Secret PersistentVolume PodTemplate Workload Deployment.
From S2P Require Import DaemonSet Job Pod.

Record ResourceMetricSpec := mkResourceMetric {
  rm_ResourceName : string; rm_TargetType : string; rm_AverageValue : string; rm_AverageUtilization : Z
}.
(** Labels that are not given are [None], the nil map. *)
Record CustomMetricSpec := mkCustomMetric {
  cu_MetricName : string; cu_Labels : option (gmap string string); cu_AverageValue : string
}.
Record MetricStatus := mkMetricStatus { mst_ResourceMetrics : list ResourceMetricSpec; mst_CustomMetrics : list CustomMetricSpec }.
Record HorizontalPodAutoscalerStatus := mkHPAStatus {
  hs_CurrentReplicas : Z; hs_DesiredReplicas : Z; hs_CurrentMetrics : MetricStatus
}.
Record HorizontalPodAutoscaler := mkHPA {
  hp_ID : string; hp_Name : string; hp_ScaleTargetKind : string; hp_ScaleTargetName : string; hp_MinReplicas : Z;
  hp_MaxReplicas : Z; hp_ResourceMetrics : list ResourceMetricSpec; hp_CustomMetrics : list CustomMetricSpec;
  hp_Status : HorizontalPodAutoscalerStatus; hp_CreationTimestamp : Z; hp_DeletionTimestamp : option Z
}.

Definition MetricTargetTypeUtilization : string := "Utilization".
Definition MetricTargetTypeAverageValue : string := "AverageValue".
Definition WorkloadAPIVersion : string := "apps/v1".
Definition PrometheusAdapterNamespace : string := "zcloud".
Definition PrometheusAdapter : string := "monitor-prometheus-adapter".
Definition PrometheusAdapterConfigMapDataKey : string := "config.yaml".

(** The configuration of the adapter. *)
Record RuleResources := mkResources { rr_Template : string; rr_Overrides : gmap string (gmap string string) }.
Record Rule := mkRule {
  ru_SeriesQuery : string; ru_SeriesFilters : list (string * string); ru_Resources : RuleResources; ru_Matches : string;
  ru_As : string; ru_MetricsQuery : string
}.
Definition DefaultRuleResources : RuleResources :=
  mkResources "" {["kubernetes_namespace" := {["resource" := "namespace"]}; "kubernetes_pod_name" := {["resource" := "pod"]}]}.

(** The YAML of the configuration; the JSON of labels and the digits of a SHA-256. *)
Class AdapterText := {
  unmarshal_rules : string -> option (list Rule);
  marshal_rules : list Rule -> option string;
  marshal_labels : option (gmap string string) -> string;
  sha256_digits : string -> string
}.
Definition hashMetricLabel `{AdapterText} (labels : option (gmap string string)) : string :=
  substring 0 12 (sha256_digits (marshal_labels labels)).
Class AdapterTextLaws `{AdapterText} : Prop :=
  unmarshal_marshal_rules rules s : marshal_rules rules = Some s -> unmarshal_rules s = Some rules.

Inductive hpa_error := HKube (e : kube_error) | HOther | HNilPointer.

(** ** Templates *)

Definition quote : string := String "034" "".
Definition NameAs (metricName labelsHash namespace hpaName : string) : string :=
  metricName +:+ "_" +:+ labelsHash +:+ "_" +:+ namespace +:+ "_" +:+ hpaName.
Definition SeriesQuery (metricName namespace : string) : string :=
  "{__name__=~" +:+ quote +:+ metricName +:+ quote +:+ ",kubernetes_pod_name!=" +:+ quote +:+ quote +:+ ",kubernetes_namespace="
  +:+ quote +:+ namespace +:+ quote +:+ "}".
Definition NameMatches (metricName : string) : string := "^" +:+ metricName +:+ "$".
Definition MetricsQuery (metricName labels : string) : string :=
  "sum(" +:+ metricName +:+ "{" +:+ labels +:+ "}) by (<<.GroupBy>>)".
Definition LabelMatcher (name value : string) : string := name +:+ "=" +:+ quote +:+ value +:+ quote +:+ ",".
(** In the order of a walk over the map. *)
Definition labelsToString (labels : option (gmap string string)) : string :=
  TrimSuffix (foldr (fun kv b => LabelMatcher kv.1 kv.2 +:+ b) "" (map_to_list (default ∅ labels))) ",".

Section Autoscaler.
Context `{Quantities} `{!QuantityValues} `{AdapterText} `{WorkloadText} `{LabelSelectors}.

(** asv2beta2.MetricTarget and MetricValueStatus, MetricSpec and MetricStatus: one pointer per
    kind of source.  A selector is the labels it matches; on the way to the server and back,
    labels that are given and empty become labels that are not given. *)
Record MetricTarget := mkTarget { mt_Type : string; mt_AverageValue : option Quantity; mt_AverageUtilization : option Z }.
Record ResourceMetricSource := mkResourceSource { rs_Name : string; rs_Target : MetricTarget }.
Record PodsMetricSource := mkPodsSource {
  pm_Name : string; pm_Selector : option (gmap string string); pm_Target : MetricTarget
}.
Record MetricSpec := mkMetricSpec { ms_Type : string; ms_Resource : option ResourceMetricSource; ms_Pods : option PodsMetricSource }.
Definition ObjectMetricSourceType : string := "Object".
Definition ResourceMetricSourceType : string := "Resource".
Definition PodsMetricSourceType : string := "Pods".

Record HPASpec := mkHPASpec {
  sp_MinReplicas : option Z; sp_MaxReplicas : Z; sp_APIVersion : string; sp_Kind : string; sp_TargetName : string;
  sp_Metrics : list MetricSpec
}.
Record K8sHPA := mkK8sHPA {
  kh_Namespace : string; kh_Name : string; kh_Labels : gmap string string; kh_Spec : HPASpec; kh_CurrentReplicas : Z;
  kh_DesiredReplicas : Z; kh_CurrentMetrics : list MetricSpec; kh_CreationTimestamp : Z; kh_DeletionTimestamp : option Z
}.
#[export] Instance K8sHPA_object : KubeObject K8sHPA := {|
  Spec := HPASpec; kube_key o := (o.(kh_Namespace), o.(kh_Name)); kube_spec := kh_Spec;
  kube_deleting o := bool_decide (is_Some o.(kh_DeletionTimestamp))
|}.

(** ** From the API to Kubernetes *)

Definition scMetricValueToK8sMetricTarget (typ value : string) (utilization : Z) : result hpa_error MetricTarget :=
  if String.eqb typ MetricTargetTypeUtilization then
    if utilization =? 0 then Err HOther else Ok (mkTarget "Utilization" None (Some (int32 utilization)))
  else if String.eqb typ MetricTargetTypeAverageValue then
    if String.eqb value "" then Err HOther
    else match ParseQuantity value with
         | None => Err HOther
         | Some averageValue => Ok (mkTarget "AverageValue" (Some averageValue) None)
         end
  else Err HOther.
Definition scResourceMetricSpecToK8sMetricSpec (m : ResourceMetricSpec) : result hpa_error MetricSpec :=
  result_bind (scMetricValueToK8sMetricTarget m.(rm_TargetType) m.(rm_AverageValue) m.(rm_AverageUtilization)) (fun target =>
  match scResourceNameToK8sResourceName m.(rm_ResourceName) with
  | None => Err HOther
  | Some name => Ok (mkMetricSpec ResourceMetricSourceType (Some (mkResourceSource name target)) None)
  end).
Definition genPrometheusAdapterConfigMapRule (namespace hpaName : string) (m : CustomMetricSpec) : Rule * string :=
  let metricName := NameAs m.(cu_MetricName) (hashMetricLabel m.(cu_Labels)) namespace hpaName in
  (mkRule (SeriesQuery m.(cu_MetricName) namespace) [] DefaultRuleResources (NameMatches m.(cu_MetricName)) metricName
     (MetricsQuery m.(cu_MetricName) (labelsToString m.(cu_Labels))), metricName).
Definition scCustomMetricSpecToK8sMetricSpec (metricName : string) (m : CustomMetricSpec) : result hpa_error MetricSpec :=
  result_bind (scMetricValueToK8sMetricTarget MetricTargetTypeAverageValue m.(cu_AverageValue) 0) (fun target =>
  Ok (mkMetricSpec PodsMetricSourceType None (Some (mkPodsSource metricName (Some (default ∅ m.(cu_Labels))) target)))).
Definition custom_metric (namespace hpaName : string) (m : CustomMetricSpec) : result hpa_error (MetricSpec * Rule) :=
  let (rule, metricName) := genPrometheusAdapterConfigMapRule namespace hpaName m in
  result_bind (scCustomMetricSpecToK8sMetricSpec metricName m) (fun spec => Ok (spec, rule)).
Definition scHPAToK8sHPASpec (namespace : string) (hpa : HorizontalPodAutoscaler) : result hpa_error (HPASpec * list Rule) :=
  result_bind (map_result scResourceMetricSpecToK8sMetricSpec hpa.(hp_ResourceMetrics)) (fun resources =>
  result_bind (map_result (custom_metric namespace hpa.(hp_Name)) hpa.(hp_CustomMetrics)) (fun customs =>
  Ok (mkHPASpec (Some (int32 hpa.(hp_MinReplicas))) (int32 hpa.(hp_MaxReplicas)) WorkloadAPIVersion hpa.(hp_ScaleTargetKind)
        hpa.(hp_ScaleTargetName) (resources ++ (fst <$> customs)), snd <$> customs))).

(** ** From Kubernetes to the API *)

Definition k8sMetricSpecToScResourceMetricSpec (name : string) (t : MetricTarget) : ResourceMetricSpec :=
  mkResourceMetric name ""
    (match t.(mt_AverageValue) with
     | Some q => if String.eqb name "cpu" then Itoa (MilliValue q) else if String.eqb name "memory" then Itoa (Value q) else ""
     | None => ""
     end)
    (default 0 t.(mt_AverageUtilization)).
Definition read_labels (l : gmap string string) : option (gmap string string) := if bool_decide (l = ∅) then None else Some l.
(** A selector that is not given is dereferenced. *)
Definition k8sMetricSpecToScCustomMetricSpec (namespace hpaName : string) (p : PodsMetricSource) : option CustomMetricSpec :=
  (fun l =>
     let labels := read_labels l in
     mkCustomMetric (TrimSuffix p.(pm_Name) (NameAs "" (hashMetricLabel labels) namespace hpaName)) labels
       (match p.(pm_Target).(mt_AverageValue) with Some q => Itoa (Value q) | None => "" end))
  <$> p.(pm_Selector).
Definition set_target_type (typ : string) (m : ResourceMetricSpec) : ResourceMetricSpec :=
  mkResourceMetric m.(rm_ResourceName) typ m.(rm_AverageValue) m.(rm_AverageUtilization).
Definition resource_source (m : MetricSpec) : option ResourceMetricSource :=
  if String.eqb m.(ms_Type) ResourceMetricSourceType then m.(ms_Resource) else None.
Definition pods_source (m : MetricSpec) : option PodsMetricSource :=
  if String.eqb m.(ms_Type) PodsMetricSourceType then m.(ms_Pods) else None.
Definition read_customs (namespace name : string) (metrics : list MetricSpec) : option (list CustomMetricSpec) :=
  mapM (k8sMetricSpecToScCustomMetricSpec namespace name) (omap pods_source metrics).
Definition k8sHpaToScHpa (k : K8sHPA) : option HorizontalPodAutoscaler :=
  customs ← read_customs k.(kh_Namespace) k.(kh_Name) k.(kh_Spec).(sp_Metrics);
  current ← read_customs k.(kh_Namespace) k.(kh_Name) k.(kh_CurrentMetrics);
  Some (mkHPA k.(kh_Name) k.(kh_Name) k.(kh_Spec).(sp_Kind) k.(kh_Spec).(sp_TargetName) (default 0 k.(kh_Spec).(sp_MinReplicas))
    k.(kh_Spec).(sp_MaxReplicas)
    ((fun r => set_target_type r.(rs_Target).(mt_Type) (k8sMetricSpecToScResourceMetricSpec r.(rs_Name) r.(rs_Target)))
       <$> omap resource_source k.(kh_Spec).(sp_Metrics))
    customs
    (mkHPAStatus k.(kh_CurrentReplicas) k.(kh_DesiredReplicas)
       (mkMetricStatus ((fun r => k8sMetricSpecToScResourceMetricSpec r.(rs_Name) r.(rs_Target)) <$> omap resource_source k.(kh_CurrentMetrics))
          current))
    k.(kh_CreationTimestamp) k.(kh_DeletionTimestamp)).

(** ** The rules of the adapter *)

(** Only the name of an old rule is set. *)
Definition getOldRules (metrics : list MetricSpec) : list string := omap (fun m => pm_Name <$> pods_source m) metrics.
Fixpoint remove_rule (name : string) (rules : list Rule) : option (list Rule) :=
  match rules with
  | [] => None
  | r :: rules => if String.eqb r.(ru_As) name then Some rules else cons r <$> remove_rule name rules
  end.
Definition remove_rules : list string -> list Rule -> result hpa_error (list Rule) :=
  fold_result (fun name rules => of_option HOther (remove_rule name rules)).
Definition add_rule (r : Rule) (rules : list Rule) : result hpa_error (list Rule) :=
  if existsb (fun r' => String.eqb r'.(ru_As) r.(ru_As)) rules then Err HOther else Ok (rules ++ [r]).
Definition add_rules : list Rule -> list Rule -> result hpa_error (list Rule) := fold_result add_rule.
Definition update_rules (old : list string) (new rules : list Rule) : result hpa_error (list Rule) :=
  result_bind (remove_rules old rules) (add_rules new).

(** ** Calls on a cluster *)

Context {K : Type} `{!KubeKind K K8sConfigMap} `{!KubeKind K K8sDeployment} `{!KubeKind K K8sDaemonSet} `{!KubeKind K K8sStatefulSet}
  `{!KubeKind K K8sJob} `{!KubeKind K K8sCronJob} `{!KubeKind K K8sPod} `{!KubeSelect K K8sPod} `{!LabelRequirements}
  `{!KubeKind K K8sHPA} `{!KubeSelect K K8sHPA}.

Definition getHPA (namespace name : string) : M K kube_error K8sHPA := kube_get namespace name.
Definition getHPAs (namespace : string) (selector : option Selector) : M K kube_error (list K8sHPA) :=
  match selector with
  | None => kube_list namespace
  | Some selector => kube_select (Obj := K8sHPA) namespace selector
  end.

(** The pods of the adapter are deleted, after which they start with the new configuration. *)
Fixpoint delete_pods (pods : list K8sPod) : M K hpa_error unit :=
  match pods with
  | [] => ret tt
  | p :: pods => do! rethrow (fun _ => HOther) (deletePod PrometheusAdapterNamespace p.(kp_PodName)) in delete_pods pods
  end.
Definition updatePrometheusAdapterConfigMap (old : list string) (new : list Rule) : M K hpa_error unit :=
  if bool_decide (old = [] /\ new = []) then ret tt
  else
    let! cm := rethrow (fun _ => HOther) (getConfigMap PrometheusAdapterNamespace PrometheusAdapter) in
    let! rulesRaw := lift (of_option HOther (cm.(km_Data) !! PrometheusAdapterConfigMapDataKey)) in
    let! config := lift (of_option HOther (unmarshal_rules rulesRaw)) in
    let! config := lift (update_rules old new config) in
    let! data := lift (of_option HOther (marshal_rules config)) in
    do! rethrow (fun _ => HOther) (kube_update (set_data (<[PrometheusAdapterConfigMapDataKey := data]> cm.(km_Data)) cm)) in
    let! k8sPods := rethrow (fun _ => HOther) (getOwnerPods PrometheusAdapterNamespace ResourceTypeDeployment PrometheusAdapter) in
    delete_pods k8sPods.

Definition same_target (hpa : HorizontalPodAutoscaler) (k : K8sHPA) : bool :=
  String.eqb k.(kh_Name) hpa.(hp_Name) ||
  (String.eqb k.(kh_Spec).(sp_Kind) hpa.(hp_ScaleTargetKind) && String.eqb k.(kh_Spec).(sp_TargetName) hpa.(hp_ScaleTargetName)).
Definition new_hpa (namespace : string) (hpa : HorizontalPodAutoscaler) (spec : HPASpec) : K8sHPA :=
  mkK8sHPA namespace hpa.(hp_Name) {[hpa.(hp_ScaleTargetKind) := hpa.(hp_ScaleTargetName)]} spec 0 0 [] 0 None.
Definition createHPA (namespace : string) (hpa : HorizontalPodAutoscaler) : M K hpa_error unit :=
  let! listed := attempt (getHPAs namespace None) in
  match listed with
  | Err KNotFound | Ok _ =>
      let items := match listed with Ok items => items | Err _ => [] end in
      do! guard (negb (existsb (same_target hpa) items)) HOther in
      let! spec := lift (scHPAToK8sHPASpec namespace hpa) in
      do! updatePrometheusAdapterConfigMap [] spec.2 in
      do! rethrow HKube (kube_create (new_hpa namespace hpa spec.1)) in
      ret tt
  | Err _ => throw HOther
  end.
Definition set_spec (spec : HPASpec) (k : K8sHPA) : K8sHPA :=
  mkK8sHPA k.(kh_Namespace) k.(kh_Name) k.(kh_Labels) spec k.(kh_CurrentReplicas) k.(kh_DesiredReplicas) k.(kh_CurrentMetrics)
    k.(kh_CreationTimestamp) k.(kh_DeletionTimestamp).
Definition updateHPA (namespace : string) (hpa : HorizontalPodAutoscaler) : M K hpa_error unit :=
  let! k8sHpa := rethrow HKube (getHPA namespace hpa.(hp_ID)) in
  let! spec := lift (scHPAToK8sHPASpec namespace hpa) in
  do! updatePrometheusAdapterConfigMap (getOldRules k8sHpa.(kh_Spec).(sp_Metrics)) spec.2 in
  do! rethrow HKube (kube_update (set_spec spec.1 k8sHpa)) in
  ret tt.
Definition updatePrometheusAdapterCMAndDeleteHPA (k8sHpa : K8sHPA) : M K hpa_error unit :=
  do! updatePrometheusAdapterConfigMap (getOldRules k8sHpa.(kh_Spec).(sp_Metrics)) [] in
  rethrow HKube (kube_delete (Obj := K8sHPA) k8sHpa.(kh_Namespace) k8sHpa.(kh_Name)).
Definition deleteHPA (namespace name : string) : M K hpa_error unit :=
  let! k8sHpa := rethrow HKube (getHPA namespace name) in updatePrometheusAdapterCMAndDeleteHPA k8sHpa.

(** The autoscaler of a workload; a selector that is not one is an error. *)
Definition getHPAByWorkload (namespace workloadType workloadName : string) : M K hpa_error (option K8sHPA) :=
  match LabelSelectorAsSelector (MatchLabels {[workloadType := workloadName]}) with
  | None => throw HOther
  | Some selector =>
      let! listed := attempt (getHPAs namespace (Some selector)) in
      match listed with
      | Ok items =>
          ret (find (fun k => String.eqb k.(kh_Spec).(sp_Kind) workloadType && String.eqb k.(kh_Spec).(sp_TargetName) workloadName) items)
      | Err KNotFound => ret None
      | Err e => throw (HKube e)
      end
  end.
(** The event that a workload was deleted; an error is logged. *)
Definition deleteHPAWhenDeleteWorkload (namespace workloadType workloadName : string) : M K hpa_error unit :=
  let! k8sHpa := getHPAByWorkload namespace workloadType workloadName in
  match k8sHpa with
  | None => ret tt
  | Some k8sHpa => updatePrometheusAdapterCMAndDeleteHPA k8sHpa
  end.

(** ** Handlers *)

Definition create_error (e : hpa_error) : workload_error :=
  match e with HKube KAlreadyExists => Answer DuplicateResource | HNilPointer => Panic | _ => Answer ConnectClusterFailed end.
Definition update_error (e : hpa_error) : workload_error :=
  match e with HKube KNotFound => Answer NotFound | HNilPointer => Panic | _ => Answer ConnectClusterFailed end.
Definition delete_error (e : hpa_error) : workload_error :=
  match e with HKube KNotFound => Answer NotFound | HNilPointer => Panic | _ => Answer ServerError end.
Definition no_nil {A} (o : option A) : M K workload_error A := lift (of_option Panic o).
Definition set_id (id : string) (hpa : HorizontalPodAutoscaler) : HorizontalPodAutoscaler :=
  mkHPA id hpa.(hp_Name) hpa.(hp_ScaleTargetKind) hpa.(hp_ScaleTargetName) hpa.(hp_MinReplicas) hpa.(hp_MaxReplicas)
    hpa.(hp_ResourceMetrics) hpa.(hp_CustomMetrics) hpa.(hp_Status) hpa.(hp_CreationTimestamp) hpa.(hp_DeletionTimestamp).

Definition Create (cluster namespace : string) (hpa : HorizontalPodAutoscaler) : M (gmap string K) workload_error HorizontalPodAutoscaler :=
  on_cluster (Answer NotFound) cluster (do! rethrow create_error (createHPA namespace hpa) in ret (set_id hpa.(hp_Name) hpa)).
Definition List (cluster namespace : string) : M (gmap string K) workload_error (list HorizontalPodAutoscaler) :=
  on_cluster (Answer NotFound) cluster
    (let! items := rethrow read_error (getHPAs namespace None) in no_nil (mapM k8sHpaToScHpa items)).
Definition Get (cluster namespace id : string) : M (gmap string K) workload_error HorizontalPodAutoscaler :=
  on_cluster (Answer NotFound) cluster
    (let! k8sHpa := rethrow read_error (getHPA namespace id) in no_nil (k8sHpaToScHpa k8sHpa)).
Definition Update (cluster namespace : string) (hpa : HorizontalPodAutoscaler) : M (gmap string K) workload_error HorizontalPodAutoscaler :=
  on_cluster (Answer NotFound) cluster (do! rethrow update_error (updateHPA namespace hpa) in ret hpa).
Definition Delete (cluster namespace id : string) : M (gmap string K) workload_error unit :=
  on_cluster (Answer NotFound) cluster (rethrow delete_error (deleteHPA namespace id)).
(** One round of the event loop: the workload of a cluster, a namespace, a type and a name
    was deleted. *)
Definition on_workload_deleted (cluster namespace workloadType workloadName : string) (ks : gmap string K) : gmap string K :=
  snd (on_cluster HOther cluster (deleteHPAWhenDeleteWorkload namespace workloadType workloadName) ks).
End Autoscaler.

(** ** The rules *)

Lemma remove_rule_ok name rules rules' :
  NoDup (ru_As <$> rules) -> remove_rule name rules = Some rules' ->
  (name ∈ ru_As <$> rules) /\ NoDup (ru_As <$> rules') /\
  forall a, a ∈ ru_As <$> rules' <-> (a ∈ ru_As <$> rules) /\ a <> name.
Proof.
  revert rules'. induction rules as [|r rules IH]; intros rules' Hnd Hr; simpl in Hr; [done|].
  rewrite fmap_cons in Hnd |- *. apply NoDup_cons in Hnd as [Hn Hnd]. destruct (String.eqb_spec (ru_As r) name) as [<-|Hne].
  - injection Hr as <-. split; [left|]. split; [done|]. set_solver.
  - destruct (remove_rule name rules) as [rest|]; [|done]. injection Hr as <-. destruct (IH rest Hnd eq_refl) as (Hin & Hnd' & Hiff).
    split; [by right|]. rewrite fmap_cons. split.
    + apply NoDup_cons. split; [|done]. rewrite Hiff. tauto.
    + intros a. rewrite !elem_of_cons, Hiff. naive_solver.
Qed.

Lemma remove_rules_ok old rules rules' :
  NoDup (ru_As <$> rules) -> remove_rules old rules = Ok rules' ->
  (forall a, a ∈ old -> a ∈ ru_As <$> rules) /\ NoDup old /\ NoDup (ru_As <$> rules') /\
  forall a, a ∈ ru_As <$> rules' <-> (a ∈ ru_As <$> rules) /\ a ∉ old.
Proof.
  unfold remove_rules. revert rules. induction old as [|name old IH]; intros rules Hnd Hr; simpl in Hr.
  - injection Hr as <-. split; [by intros a ?%elem_of_nil|]. split; [constructor|]. split; [done|]. set_solver.
  - destruct (remove_rule name rules) as [rest|] eqn:Hrest; [|done]. simpl in Hr.
    apply remove_rule_ok in Hrest as (Hin & Hnd' & Hiff); [|done]. apply IH in Hr as (Hall & Hold & Hnd2 & Hiff2); [|done].
    split; [intros a [->|Ha]%elem_of_cons; [done|by apply Hall, Hiff in Ha as [? _]]|]. split.
    + apply NoDup_cons. split; [|done]. intros Hn%Hall%Hiff. by destruct Hn.
    + split; [done|]. intros a. rewrite Hiff2, Hiff, elem_of_cons. naive_solver.
Qed.

Lemma add_rules_ok new rules rules' :
  NoDup (ru_As <$> rules) -> add_rules new rules = Ok rules' ->
  rules' = rules ++ new /\ NoDup (ru_As <$> rules').
Proof.
  unfold add_rules. revert rules. induction new as [|r new IH]; intros rules Hnd Hr; simpl in Hr.
  - injection Hr as <-. by rewrite app_nil_r.
  - unfold add_rule in Hr. pose proof (existsb_eqb ru_As (ru_As r) rules) as Hex. destruct (existsb _ rules); [done|]. simpl in Hr.
    apply IH in Hr as [-> Hnd']; [by rewrite <- app_assoc in Hnd' |- *|]. rewrite fmap_app. apply NoDup_app. split; [done|].
    split; [|apply NoDup_singleton]. intros x Hx ->%list_elem_of_singleton. destruct Hex as [_ Hex]. by specialize (Hex Hx).
Qed.

(** The names after an update, when the names were distinct. *)
Lemma update_rules_ok old new rules rules' :
  NoDup (ru_As <$> rules) -> update_rules old new rules = Ok rules' ->
  NoDup (ru_As <$> rules') /\ (forall a, a ∈ old -> a ∈ ru_As <$> rules) /\
  forall a, a ∈ ru_As <$> rules' <-> (a ∈ ru_As <$> rules) /\ (a ∉ old) \/ a ∈ ru_As <$> new.
Proof.
  unfold update_rules. intros Hnd Hu. destruct (remove_rules old rules) as [rest|] eqn:Hr; [|done].
  apply remove_rules_ok in Hr as (Hall & _ & Hnd1 & Hiff); [|done]. simpl in Hu. apply add_rules_ok in Hu as [-> Hnd2]; [|done].
  split; [done|]. split; [done|]. intros a. rewrite fmap_app, elem_of_app, Hiff. tauto.
Qed.

(** ** The names of the metrics *)

(** No byte of a name separates; the names of resources are domain names. *)
Definition plain (s : string) : Prop := has_byte "_" s = false.
Definition alias_of (namespace name a : string) : Prop := exists m, a = m +:+ "_" +:+ namespace +:+ "_" +:+ name.
Lemma alias_of_once ns n ns' n' a :
  plain ns -> plain n -> plain ns' -> plain n' -> alias_of ns n a -> alias_of ns' n' a -> ns = ns' /\ n = n'.
Proof.
  intros Hns Hn Hns' Hn' [m ->] [m' Heq].
  assert (Heq2 : (m +:+ "_" +:+ ns) +:+ "_" +:+ n = (m' +:+ "_" +:+ ns') +:+ "_" +:+ n') by (rewrite !str_app_assoc; exact Heq).
  apply (last_sep_inj "_"%char (m +:+ "_" +:+ ns) (m' +:+ "_" +:+ ns') n n') in Heq2 as [Heq2 ->]; [|done..].
  by apply (last_sep_inj "_"%char m m' ns ns') in Heq2 as [_ ->].
Qed.

Section Translation.
Context `{Quantities} `{AdapterText}.

(** The metrics of a specification are those of its rules, and they are named after it. *)
Lemma spec_rules namespace hpa spec rules :
  scHPAToK8sHPASpec namespace hpa = Ok (spec, rules) ->
  getOldRules spec.(sp_Metrics) = ru_As <$> rules /\ Forall (alias_of namespace hpa.(hp_Name)) (ru_As <$> rules).
Proof.
  unfold scHPAToK8sHPASpec. destruct (map_result _ (hp_ResourceMetrics hpa)) as [res|] eqn:Hres; [|done]. simpl.
  destruct (map_result _ (hp_CustomMetrics hpa)) as [cus|] eqn:Hcus; [|done]. intros [= <- <-]. simpl.
  apply map_result_ok in Hres, Hcus. unfold getOldRules. rewrite omap_app.
  assert (Hnone : omap (fun m => pm_Name <$> pods_source m) res = []).
  { clear -Hres. induction Hres as [|m s ms ss Hs _ IH]; [done|]. unfold scResourceMetricSpecToK8sMetricSpec in Hs.
    destruct (scMetricValueToK8sMetricTarget _ _ _); [|done]. simpl in Hs. destruct (scResourceNameToK8sResourceName _); [|done].
    injection Hs as <-. exact IH. }
  rewrite Hnone. clear Hres Hnone. simpl. induction Hcus as [|m s ms ss Hs _ [IH1 IH2]]; [by split; constructor|].
  unfold custom_metric, scCustomMetricSpecToK8sMetricSpec in Hs. simpl in Hs.
  destruct (scMetricValueToK8sMetricTarget _ _ _); [|done]. injection Hs as <-.
  split.
  - transitivity (NameAs (cu_MetricName m) (hashMetricLabel (cu_Labels m)) namespace (hp_Name hpa) :: getOldRules (fst <$> ss));
      [reflexivity|]. exact (f_equal (cons _) IH1).
  - constructor; [|exact IH2]. exists (cu_MetricName m +:+ "_" +:+ hashMetricLabel (cu_Labels m)). simpl. unfold NameAs.
    by rewrite !str_app_assoc.
Qed.
End Translation.

(** ** The adapter serves the metrics of the autoscalers *)

Section Serving.
Context `{Quantities} `{!QuantityValues} `{AdapterTextLaws} `{WorkloadText} `{LabelSelectors}
  {K : Type} `{!KubeKind K K8sConfigMap} `{!KubeKind K K8sDeployment} `{!KubeKind K K8sDaemonSet} `{!KubeKind K K8sStatefulSet}
  `{!KubeKind K K8sJob} `{!KubeKind K K8sCronJob} `{!KubeKind K K8sPod} `{!KubeSelect K K8sPod} `{!LabelRequirements}
  `{!KubeKind K K8sHPA} `{!KubeSelect K K8sHPA}
  `{!KubeLaws K K8sConfigMap} `{!KubeLaws K K8sHPA} `{!KubeSelectLaws K K8sHPA}
  `{!KubeFrame K K8sHPA K8sConfigMap} `{!KubeDeleteFrame K K8sHPA K8sConfigMap} `{!KubeSelectFrame K K8sHPA K8sConfigMap}
  `{!KubeFrame K K8sConfigMap K8sHPA}
  `{!KubeFrame K K8sDeployment K8sHPA} `{!KubeSelectFrame K K8sPod K8sHPA} `{!KubeDeleteFrame K K8sPod K8sHPA}
  `{!KubeFrame K K8sDeployment K8sConfigMap} `{!KubeSelectFrame K K8sPod K8sConfigMap} `{!KubeDeleteFrame K K8sPod K8sConfigMap}.

Lemma adapter_pods_frame {B} `{KubeKind K B} `{!KubeFrame K K8sDeployment B} `{!KubeSelectFrame K K8sPod B} namespace name (k k' : K) r :
  getOwnerPods namespace ResourceTypeDeployment name k = (r, k') -> same_kind B k k'.
Proof.
  unfold getOwnerPods, getPodParentSelector, getDeployment, getPods, bind, rethrow, lift, throw, ret. simpl. intros Hg.
  pose proof (frame_get (A := K8sDeployment) (B := B) namespace name k) as F1.
  destruct (kube_get namespace name k) as [[d|e] k1]; cbn [snd] in F1; simpl in Hg; [|by injection Hg as _ <-].
  destruct (as_selector (kd_Selector d)) as [[sel|]|e]; [|by injection Hg as _ <-..].
  pose proof (frame_select (A := K8sPod) (B := B) namespace sel k1) as F2.
  destruct (kube_select namespace sel k1) as [[pods|e] k2]; cbn [snd] in F2; injection Hg as _ <-; unfold same_kind in *; congruence.
Qed.
Lemma delete_pods_frame {B} `{KubeKind K B} `{!KubeDeleteFrame K K8sPod B} pods (k k' : K) r :
  delete_pods pods k = (r, k') -> same_kind B k k'.
Proof.
  revert k. induction pods as [|p pods IH]; intros k Hd; simpl in Hd; [by injection Hd as _ <-|].
  unfold bind, rethrow, deletePod in Hd.
  pose proof (frame_delete (A := K8sPod) (B := B) PrometheusAdapterNamespace (kp_PodName p) k) as F1.
  destruct (kube_delete _ _ k) as [[[]|e] k1]; cbn [snd] in F1; [apply IH in Hd; unfold same_kind in *; congruence|by injection Hd as _ <-].
Qed.

(** The rules that the adapter is configured with. *)
Definition adapter_rules (k : K) : option (list Rule) :=
  cm ← kube_objects (Obj := K8sConfigMap) k !! (PrometheusAdapterNamespace, PrometheusAdapter);
  s ← cm.(km_Data) !! PrometheusAdapterConfigMapDataKey; unmarshal_rules s.
Lemma adapter_rules_same (k k' : K) : same_kind K8sConfigMap k k' -> adapter_rules k' = adapter_rules k.
Proof. unfold adapter_rules. by intros ->. Qed.

Lemma update_adapter_ok old new (k k' : K) r rules :
  updatePrometheusAdapterConfigMap old new k = (r, k') -> adapter_rules k = Some rules ->
  same_kind K8sHPA k k' /\
  forall u, r = Ok u -> exists rules', update_rules old new rules = Ok rules' /\ adapter_rules k' = Some rules'.
Proof.
  intros Hu Hrules. unfold updatePrometheusAdapterConfigMap in Hu. case_bool_decide as Hempty.
  { injection Hu as <- <-. destruct Hempty as [-> ->]. split; [done|]. intros _ _. by exists rules. }
  unfold bind, rethrow, lift, getConfigMap in Hu.
  pose proof (frame_get (A := K8sConfigMap) (B := K8sHPA) PrometheusAdapterNamespace PrometheusAdapter k) as F1.
  destruct (kube_get _ _ k) as [rg k1] eqn:Hg. pose proof (kube_get_law _ _ _ _ _ Hg) as [Hk1 Hcm]. cbn [snd] in F1.
  destruct rg as [cm|e]; [|by injection Hu as <- <-]. destruct Hcm as [Hcm Hkey].
  unfold adapter_rules in Hrules. rewrite Hcm in Hrules. cbn [mbind option_bind] in Hrules.
  destruct (km_Data cm !! PrometheusAdapterConfigMapDataKey) as [s|] eqn:Hs; [|done]. cbn [mbind option_bind] in Hrules. simpl in Hu.
  rewrite Hs in Hu. simpl in Hu. rewrite Hrules in Hu. simpl in Hu.
  destruct (update_rules old new rules) as [rules'|e]; [|by injection Hu as <- <-]. simpl in Hu.
  destruct (marshal_rules rules') as [data|] eqn:Hdata; [|by injection Hu as <- <-]. simpl in Hu.
  match type of Hu with context [kube_update ?o ?k] => pose proof (frame_update (B := K8sHPA) o k) as F2;
    destruct (kube_update o k) as [[o'|e] k2] eqn:Hup end; cbn [snd] in F2; unfold same_kind in *; [|by injection Hu as <- <-; split; [congruence|]].
  destruct (getOwnerPods _ _ _ k2) as [rp k3] eqn:Hp.
  pose proof (adapter_pods_frame (B := K8sHPA) _ _ _ _ _ Hp) as F3. pose proof (adapter_pods_frame (B := K8sConfigMap) _ _ _ _ _ Hp) as G3.
  unfold same_kind in *. destruct rp as [pods|e]; [|by injection Hu as <- <-; split; [congruence|]].
  pose proof (delete_pods_frame (B := K8sHPA) _ _ _ _ Hu) as F4. pose proof (delete_pods_frame (B := K8sConfigMap) _ _ _ _ Hu) as G4.
  unfold same_kind in *. split; [congruence|]. intros u ->. exists rules'. split; [done|]. unfold adapter_rules. rewrite G4, G3.
  apply kube_update_law in Hup as (_ & Hspec & _ & Hobj). rewrite Hobj. unfold set_data, kube_key in Hkey |- *. simpl in *. rewrite Hkey.
  rewrite lookup_insert_eq. cbn [mbind option_bind]. rewrite Hspec, lookup_insert_eq. cbn [mbind option_bind].
  by apply unmarshal_marshal_rules.
Qed.

Definition metric_names (h : K8sHPA) : list string := getOldRules h.(kh_Spec).(sp_Metrics).
(** The metrics of the autoscaler of a name, if there is one. *)
Definition metrics_at (k : K) (namespace name : string) : list string :=
  match kube_objects (Obj := K8sHPA) k !! (namespace, name) with Some h => metric_names h | None => [] end.

(** The adapter has no two rules of a name, and of the names that belong to an autoscaler it
    has those of its metrics. *)
Record serving (k : K) : Prop := {
  sv_names : forall ns n, is_Some (kube_objects (Obj := K8sHPA) k !! (ns, n)) ->
    plain ns /\ plain n /\ Forall (alias_of ns n) (metrics_at k ns n);
  sv_rules : exists rules, adapter_rules k = Some rules /\ NoDup (ru_As <$> rules) /\
    forall ns n a, plain ns -> plain n -> alias_of ns n a -> (a ∈ ru_As <$> rules <-> a ∈ metrics_at k ns n)
}.

Lemma metrics_at_of k ns n a : serving k -> a ∈ metrics_at k ns n -> alias_of ns n a.
Proof.
  intros Hs Ha. destruct (kube_objects (Obj := K8sHPA) k !! (ns, n)) as [h|] eqn:Hh.
  - destruct (sv_names k Hs ns n) as (_ & _ & Hall); [by eexists|]. rewrite Forall_forall in Hall. by apply Hall.
  - unfold metrics_at in Ha. rewrite Hh in Ha. by apply elem_of_nil in Ha.
Qed.

(** One autoscaler changes, and the rules with it. *)
Lemma serving_step (k k' : K) ns n new rules rules' :
  serving k -> adapter_rules k = Some rules -> update_rules (metrics_at k ns n) new rules = Ok rules' -> adapter_rules k' = Some rules' ->
  (forall key, key <> (ns, n) -> kube_objects (Obj := K8sHPA) k' !! key = kube_objects k !! key) ->
  metrics_at k' ns n = ru_As <$> new -> Forall (alias_of ns n) (ru_As <$> new) -> plain ns -> plain n -> serving k'.
Proof.
  intros Hs Hr Hu Hr' Hother Hat Hof Hns Hn. pose proof Hs as [Hnames (rules0 & Hr0 & Hnd & Hiff)]. assert (rules0 = rules) as -> by congruence.
  apply update_rules_ok in Hu as (Hnd' & _ & Hiff'); [|done]. rewrite Forall_forall in Hof.
  assert (Hat' : forall ns' n', (ns', n') <> (ns, n) -> metrics_at k' ns' n' = metrics_at k ns' n').
  { intros ns' n' Hne. unfold metrics_at. by rewrite Hother. }
  split.
  - intros ns' n' Hsome. destruct (decide ((ns', n') = (ns, n))) as [[= -> ->]|Hne].
    + split; [done|]. split; [done|]. rewrite Hat. by apply Forall_forall.
    + rewrite Hat' by done. apply Hnames. by rewrite <- Hother.
  - exists rules'. split; [done|]. split; [done|]. intros ns' n' a Hns' Hn' Ha. rewrite Hiff'.
    destruct (decide ((ns', n') = (ns, n))) as [[= -> ->]|Hne].
    + rewrite (Hiff ns n a), Hat by done. tauto.
    + rewrite (Hiff ns' n' a), Hat' by done.
      assert (a ∉ metrics_at k ns n).
      { intros Hin%metrics_at_of; [|done]. by destruct (alias_of_once ns n ns' n' a) as [-> ->]. }
      assert (a ∉ ru_As <$> new) by (intros Hin%Hof; by destruct (alias_of_once ns n ns' n' a) as [-> ->]). tauto.
Qed.

Lemma serving_same (k k' : K) : serving k -> same_kind K8sHPA k k' -> same_kind K8sConfigMap k k' -> serving k'.
Proof.
  intros [Hn Hr] Hh Hc. split; unfold metrics_at in *; [by rewrite Hh|]. by rewrite Hh, (adapter_rules_same _ _ Hc).
Qed.
Lemma serving_rules k : serving k -> exists rules, adapter_rules k = Some rules.
Proof. intros [_ (rules & Hr & _)]. by exists rules. Qed.

(** ** The requests *)

(** A call keeps the autoscalers when it fails, and what the adapter serves when it does
    not. *)
Definition serves {A} (m : M K hpa_error A) : Prop :=
  forall k r k', serving k -> m k = (r, k') -> match r with Ok _ => serving k' | Err _ => same_kind K8sHPA k k' end.

Lemma create_serves namespace hpa : plain namespace -> plain hpa.(hp_Name) -> serves (createHPA namespace hpa).
Proof.
  intros Hns Hn k r k' Hs Hc. unfold createHPA, bind, attempt, getHPAs in Hc.
  pose proof (frame_list (A := K8sHPA) (B := K8sConfigMap) namespace k) as C1.
  destruct (kube_list namespace k) as [rl k1] eqn:Hl. apply kube_list_law in Hl as [Hk1 _]. cbn [snd] in C1.
  pose proof (serving_same _ _ Hs Hk1 C1) as Hs1. destruct (serving_rules k1 Hs1) as [rules Hr].
  assert (Hgo : forall items,
    (do! guard (negb (existsb (same_target hpa) items)) HOther in
     let! spec := lift (scHPAToK8sHPASpec namespace hpa) in
     do! updatePrometheusAdapterConfigMap [] spec.2 in
     do! rethrow HKube (kube_create (new_hpa namespace hpa spec.1)) in ret tt) k1 = (r, k') ->
    match r with Ok _ => serving k' | Err _ => same_kind K8sHPA k k' end).
  { clear Hc. intros items Hc. unfold bind, guard, lift, rethrow, ret, throw in Hc.
    destruct (negb _); [|by injection Hc as <- <-].
    destruct (scHPAToK8sHPASpec namespace hpa) as [[spec new]|e] eqn:Hspec; [|by injection Hc as <- <-]. cbn [fst snd] in Hc.
    apply spec_rules in Hspec as [Hnew Hof].
    destruct (updatePrometheusAdapterConfigMap [] new k1) as [ru k2] eqn:Hu.
    apply (update_adapter_ok _ _ _ _ _ rules) in Hu as [Hk2 Hok]; [|done]. unfold same_kind in Hk1, Hk2.
    destruct ru as [[]|e]; [|injection Hc as <- <-; unfold same_kind; congruence]. destruct (Hok tt eq_refl) as (rules' & Hup & Hr').
    pose proof (frame_create (A := K8sHPA) (B := K8sConfigMap) (new_hpa namespace hpa spec) k2) as C3.
    destruct (kube_create _ k2) as [[o|e] k3] eqn:Hcr; cbn [snd] in C3; injection Hc as <- <-; apply kube_create_law in Hcr.
    - destruct Hcr as (_ & Ho & Hnone & Hobj). unfold kube_key in Hnone, Hobj. simpl in Hnone, Hobj.
      apply (serving_step k1 k3 namespace hpa.(hp_Name) new rules rules'); try done.
      + unfold metrics_at. by rewrite <- Hk2, Hnone.
      + by rewrite (adapter_rules_same _ _ C3).
      + intros key Hne. by rewrite Hobj, lookup_insert_ne, Hk2.
      + unfold metrics_at. rewrite Hobj, lookup_insert_eq, <- Hnew. unfold metric_names. change (kh_Spec o) with (kube_spec o). by rewrite Ho.
    - destruct Hcr as [Hk3 _]. unfold same_kind in *. congruence. }
  destruct rl as [items|[| |]]; [by apply (Hgo items)|by apply (Hgo [])|..]; injection Hc as <- <-; done.
Qed.

Lemma update_serves namespace hpa : plain namespace -> hpa.(hp_Name) = hpa.(hp_ID) -> serves (updateHPA namespace hpa).
Proof.
  intros Hns Hid k r k' Hs Hc. unfold updateHPA, getHPA, bind, lift, rethrow, ret in Hc.
  pose proof (frame_get (A := K8sHPA) (B := K8sConfigMap) namespace hpa.(hp_ID) k) as C1.
  destruct (kube_get namespace _ k) as [rg k1] eqn:Hg. apply kube_get_law in Hg as [Hk1 Hrg]. cbn [snd] in C1.
  destruct rg as [h|e]; [|by injection Hc as <- <-]. destruct Hrg as [Hh Hkey].
  pose proof (serving_same _ _ Hs Hk1 C1) as Hs1. destruct (serving_rules k1 Hs1) as [rules Hr]. rewrite <- Hk1 in Hh.
  destruct (scHPAToK8sHPASpec namespace hpa) as [[spec new]|e] eqn:Hspec; [|by injection Hc as <- <-]. cbn [fst snd] in Hc.
  apply spec_rules in Hspec as [Hnew Hof]. rewrite Hid in Hof.
  assert (Hm : getOldRules (sp_Metrics (kh_Spec h)) = metrics_at k1 namespace (hp_ID hpa)) by (unfold metrics_at; by rewrite Hh).
  cbn [map_err] in Hc. rewrite Hm in Hc. destruct (updatePrometheusAdapterConfigMap _ new k1) as [ru k2] eqn:Hu.
  apply (update_adapter_ok _ _ _ _ _ rules) in Hu as [Hk2 Hok]; [|done]. unfold same_kind in Hk1, Hk2.
  destruct ru as [[]|e]; [|injection Hc as <- <-; unfold same_kind; congruence]. destruct (Hok tt eq_refl) as (rules' & Hup & Hr').
  pose proof (frame_update (A := K8sHPA) (B := K8sConfigMap) (set_spec spec h) k2) as C3.
  destruct (kube_update _ k2) as [[o|e] k3] eqn:Hcr; cbn [snd] in C3; injection Hc as <- <-; apply kube_update_law in Hcr;
    [|unfold same_kind in *; congruence].
  destruct Hcr as (_ & Ho & _ & Hobj). unfold kube_key in Hobj, Hkey. simpl in Hobj, Hkey. rewrite Hkey in Hobj.
  destruct (sv_names k1 Hs1 namespace hpa.(hp_ID)) as (_ & Hn & _); [by eexists|].
  apply (serving_step k1 k3 namespace hpa.(hp_ID) new rules rules'); try done.
  - by rewrite (adapter_rules_same _ _ C3).
  - intros key Hne. by rewrite Hobj, lookup_insert_ne, Hk2.
  - unfold metrics_at. rewrite Hobj, lookup_insert_eq, <- Hnew. unfold metric_names. change (kh_Spec o) with (kube_spec o). by rewrite Ho.
Qed.

(** A deletion takes an autoscaler away at once. *)
Context (prompt : forall ns n (k k' : K), kube_delete (Obj := K8sHPA) ns n k = (Ok tt, k') ->
                    kube_objects (Obj := K8sHPA) k' = delete (ns, n) (kube_objects k)).

Lemma take_down_serves (h : K8sHPA) k r k' :
  serving k -> kube_objects k !! kube_key h = Some h -> updatePrometheusAdapterCMAndDeleteHPA h k = (r, k') ->
  match r with Ok _ => serving k' | Err _ => same_kind K8sHPA k k' end.
Proof.
  unfold kube_key. simpl. intros Hs Hh Hc. destruct (serving_rules k Hs) as [rules Hr].
  destruct (sv_names k Hs (kh_Namespace h) (kh_Name h)) as (Hns & Hn & _); [by eexists|].
  assert (Hm : getOldRules (sp_Metrics (kh_Spec h)) = metrics_at k (kh_Namespace h) (kh_Name h)) by (unfold metrics_at; by rewrite Hh).
  unfold updatePrometheusAdapterCMAndDeleteHPA, bind, rethrow in Hc. rewrite Hm in Hc.
  destruct (updatePrometheusAdapterConfigMap _ [] k) as [ru k1] eqn:Hu.
  apply (update_adapter_ok _ _ _ _ _ rules) in Hu as [Hk1 Hok]; [|done]. unfold same_kind in Hk1.
  destruct ru as [[]|e]; [|by injection Hc as <- <-]. destruct (Hok tt eq_refl) as (rules' & Hup & Hr').
  pose proof (frame_delete (A := K8sHPA) (B := K8sConfigMap) (kh_Namespace h) (kh_Name h) k1) as C2.
  destruct (kube_delete _ _ k1) as [[[]|e] k2] eqn:Hdel; cbn [snd] in C2; injection Hc as <- <-.
  - apply prompt in Hdel. apply (serving_step k k2 (kh_Namespace h) (kh_Name h) [] rules rules'); try done.
    + by rewrite (adapter_rules_same _ _ C2).
    + intros key Hne. by rewrite Hdel, lookup_delete_ne, Hk1.
    + unfold metrics_at. by rewrite Hdel, lookup_delete_eq.
  - apply kube_delete_law in Hdel as [Hk2 _]. unfold same_kind in *. congruence.
Qed.
Lemma delete_serves namespace id : serves (deleteHPA namespace id).
Proof using All.
  intros k r k' Hs Hc. unfold deleteHPA, getHPA, bind, rethrow in Hc.
  pose proof (frame_get (A := K8sHPA) (B := K8sConfigMap) namespace id k) as C1.
  destruct (kube_get namespace id k) as [rg k1] eqn:Hg. apply kube_get_law in Hg as [Hk1 Hrg]. cbn [snd] in C1.
  destruct rg as [h|e]; [|by injection Hc as <- <-]. destruct Hrg as [Hh Hkey]. rewrite <- Hkey, <- Hk1 in Hh.
  pose proof (serving_same _ _ Hs Hk1 C1) as Hs1. cbn [map_err] in Hc. apply (take_down_serves h k1) in Hc; [|done..].
  unfold same_kind in *. destruct r; [done|congruence].
Qed.
Lemma workload_deleted_serves namespace typ name : serves (deleteHPAWhenDeleteWorkload namespace typ name).
Proof using All.
  intros k r k' Hs Hc. unfold deleteHPAWhenDeleteWorkload, getHPAByWorkload, getHPAs, bind, attempt, ret, throw in Hc.
  destruct (LabelSelectorAsSelector _) as [sel|]; [|by injection Hc as <- <-].
  pose proof (frame_select (A := K8sHPA) (B := K8sConfigMap) namespace sel k) as C1.
  destruct (kube_select namespace sel k) as [rl k1] eqn:Hl. apply kube_select_law in Hl as [Hk1 Hin]. cbn [snd] in C1.
  pose proof (serving_same _ _ Hs Hk1 C1) as Hs1.
  destruct rl as [items|[| |]]; [|by injection Hc as <- <-..].
  destruct (find _ items) as [h|] eqn:Hf; [|by injection Hc as <- <-].
  apply find_some in Hf as [Hf%list_elem_of_In _]. destruct (Hin h Hf) as [Hh _]. rewrite <- Hk1 in Hh.
  apply (take_down_serves h k1) in Hc; [|done..]. unfold same_kind in *. destruct r; [done|congruence].
Qed.

Inductive HpaRequest :=
  | RqCreate (hpa : HorizontalPodAutoscaler) | RqUpdate (hpa : HorizontalPodAutoscaler) | RqDelete (id : string)
  | RqWorkloadDeleted (typ name : string).
Definition request (namespace : string) (rq : HpaRequest) : M K hpa_error unit :=
  match rq with
  | RqCreate hpa => createHPA namespace hpa
  | RqUpdate hpa => updateHPA namespace hpa
  | RqDelete id => deleteHPA namespace id
  | RqWorkloadDeleted typ name => deleteHPAWhenDeleteWorkload namespace typ name
  end.
(** Names are domain names, and an update does not change the name. *)
Definition request_ok (rq : HpaRequest) : Prop :=
  match rq with RqCreate hpa => plain hpa.(hp_Name) | RqUpdate hpa => hpa.(hp_Name) = hpa.(hp_ID) | _ => True end.

(** C17. The adapter serves exactly the metrics of the autoscalers: of the names that belong
    to an autoscaler it has one rule for every metric of it, and none when there is no such
    autoscaler.  Every request that succeeds, a creation, an update, a deletion or the news
    that a workload is gone, keeps this; a request that fails changes no autoscaler. *)
Theorem requests_serve namespace rq (k : K) r k' :
  plain namespace -> request_ok rq -> serving k -> request namespace rq k = (r, k') ->
  match r with Ok _ => serving k' | Err _ => same_kind K8sHPA k k' end.
Proof using All.
  intros Hns Hok Hs. destruct rq as [hpa|hpa|id|typ name]; simpl in *.
  - by apply create_serves.
  - by apply update_serves.
  - by apply delete_serves.
  - by apply workload_deleted_serves.
Qed.
End Serving.

(** ** Reading an autoscaler back *)

Lemma omap_cons {A B} (f : A -> option B) x l : omap f (x :: l) = match f x with Some y => y :: omap f l | None => omap f l end.
Proof. done. Qed.

Section RoundTrip.
Context `{Quantities} `{!QuantityValues} `{AdapterText}.

(** A metric as it is shown: with the value of its target as a number, for the processor in
    thousandths. *)
Definition shown_resource (m r : ResourceMetricSpec) : Prop :=
  Some r.(rm_ResourceName) = scResourceNameToK8sResourceName m.(rm_ResourceName) /\ r.(rm_TargetType) = m.(rm_TargetType) /\
  if String.eqb m.(rm_TargetType) MetricTargetTypeUtilization
  then r.(rm_AverageUtilization) = int32 m.(rm_AverageUtilization) /\ r.(rm_AverageValue) = ""
  else exists q, ParseQuantity m.(rm_AverageValue) = Some q /\
       r.(rm_AverageValue) = Itoa (if String.eqb r.(rm_ResourceName) "cpu" then MilliValue q else Value q) /\ r.(rm_AverageUtilization) = 0.
Definition shown_custom (m c : CustomMetricSpec) : Prop :=
  c.(cu_Labels) = read_labels (default ∅ m.(cu_Labels)) /\ (m.(cu_Labels) <> Some ∅ -> c.(cu_MetricName) = m.(cu_MetricName)) /\
  exists q, ParseQuantity m.(cu_AverageValue) = Some q /\ c.(cu_AverageValue) = Itoa (Value q).

Lemma target_cases typ value utilization t :
  scMetricValueToK8sMetricTarget typ value utilization = Ok t ->
  t.(mt_Type) = typ /\
  if String.eqb typ MetricTargetTypeUtilization
  then t.(mt_AverageUtilization) = Some (int32 utilization) /\ t.(mt_AverageValue) = None
  else exists q, ParseQuantity value = Some q /\ t.(mt_AverageValue) = Some q /\ t.(mt_AverageUtilization) = None.
Proof.
  unfold scMetricValueToK8sMetricTarget. destruct (String.eqb_spec typ MetricTargetTypeUtilization) as [->|].
  - destruct (utilization =? 0); [done|]. by intros [= <-].
  - destruct (String.eqb_spec typ MetricTargetTypeAverageValue) as [->|]; [|done]. destruct (String.eqb value ""); [done|].
    destruct (ParseQuantity value) as [q|]; [|done]. intros [= <-]. split; [done|]. by exists q.
Qed.

Definition read_resource (r : ResourceMetricSource) : ResourceMetricSpec :=
  set_target_type r.(rs_Target).(mt_Type) (k8sMetricSpecToScResourceMetricSpec r.(rs_Name) r.(rs_Target)).
Lemma resource_round_trip m s :
  scResourceMetricSpecToK8sMetricSpec m = Ok s ->
  pods_source s = None /\ exists r, resource_source s = Some r /\ shown_resource m (read_resource r).
Proof.
  unfold scResourceMetricSpecToK8sMetricSpec. destruct (scMetricValueToK8sMetricTarget _ _ _) as [t|] eqn:Ht; [|done]. simpl.
  destruct (scResourceNameToK8sResourceName (rm_ResourceName m)) as [name|] eqn:Hn; [|done]. intros [= <-]. split; [done|].
  eexists. split; [done|]. unfold shown_resource, read_resource, k8sMetricSpecToScResourceMetricSpec, set_target_type. cbn.
  apply target_cases in Ht as [-> Ht]. rewrite Hn. split; [done|]. split; [done|].
  destruct (String.eqb (rm_TargetType m) _); [by destruct Ht as [-> ->]|]. destruct Ht as (q & Hq & -> & ->).
  exists q. split; [done|]. split; [|done]. apply container_resource in Hn. unfold container_resources in Hn.
  by apply elem_of_cons in Hn as [->|[->|Hn%elem_of_nil]%elem_of_cons].
Qed.
Lemma custom_round_trip namespace name m s rule :
  custom_metric namespace name m = Ok (s, rule) ->
  resource_source s = None /\
  exists p c, pods_source s = Some p /\ k8sMetricSpecToScCustomMetricSpec namespace name p = Some c /\ shown_custom m c.
Proof.
  unfold custom_metric, scCustomMetricSpecToK8sMetricSpec. simpl.
  destruct (scMetricValueToK8sMetricTarget _ _ _) as [t|] eqn:Ht; [|done]. intros [= <- <-]. split; [done|].
  eexists _, _. split; [done|]. split; [done|]. split; [done|]. cbn. apply target_cases in Ht as [_ (q & Hq & -> & _)]. split; [|by exists q].
  intros Hne. assert (Hl : read_labels (default ∅ (cu_Labels m)) = cu_Labels m).
  { unfold read_labels. destruct (cu_Labels m) as [l|]; simpl; [by case_bool_decide; [subst|]|by rewrite bool_decide_true]. }
  rewrite Hl. unfold NameAs. change ("" +:+ ?s) with s. apply TrimSuffix_app.
Qed.

Lemma metrics_round_trip namespace hpa spec rules :
  scHPAToK8sHPASpec namespace hpa = Ok (spec, rules) ->
  Forall2 shown_resource hpa.(hp_ResourceMetrics) (read_resource <$> omap resource_source spec.(sp_Metrics)) /\
  exists customs, read_customs namespace hpa.(hp_Name) spec.(sp_Metrics) = Some customs /\
    Forall2 shown_custom hpa.(hp_CustomMetrics) customs.
Proof.
  unfold scHPAToK8sHPASpec. destruct (map_result _ (hp_ResourceMetrics hpa)) as [res|] eqn:Hres; [|done]. simpl.
  destruct (map_result _ (hp_CustomMetrics hpa)) as [cus|] eqn:Hcus; [|done]. intros [= <- <-]. simpl.
  apply map_result_ok in Hres, Hcus. unfold read_customs. rewrite !omap_app.
  assert (Hr1 : omap pods_source res = [] /\
               Forall2 shown_resource (hp_ResourceMetrics hpa) (read_resource <$> omap resource_source res)).
  { clear -Hres. induction Hres as [|m s ms ss Hs _ [IH1 IH2]]; [by split; constructor|].
    apply resource_round_trip in Hs as (Hp & r & Hr & Hshown).
    rewrite !omap_cons, Hp, Hr. split; [done|].
    rewrite fmap_cons. by constructor. }
  assert (Hr2 : omap resource_source (fst <$> cus) = [] /\
               exists customs, mapM (k8sMetricSpecToScCustomMetricSpec namespace hpa.(hp_Name)) (omap pods_source (fst <$> cus)) = Some customs /\
                 Forall2 shown_custom (hp_CustomMetrics hpa) customs).
  { clear -Hcus. induction Hcus as [|m [s rule] ms ss Hs _ [IH1 (cs & IH2 & IH3)]]; [split; [done|]; exists []; by split; [|constructor]|].
    apply custom_round_trip in Hs as (Hr & p & c & Hp & Hc & Hshown). rewrite !fmap_cons. cbn [fst].
    rewrite !omap_cons, Hp, Hr. split; [done|].
    exists (c :: cs). split; [|by constructor]. apply mapM_Some. constructor; [done|]. by apply mapM_Some. }
  destruct Hr1 as [-> Hr1], Hr2 as [-> Hr2]. rewrite app_nil_r. by split.
Qed.
End RoundTrip.

Lemma createHPA_ok `{Quantities} `{!QuantityValues} `{AdapterText} `{WorkloadText} `{LabelSelectors}
    {K : Type} `{!KubeKind K K8sConfigMap} `{!KubeKind K K8sDeployment} `{!KubeKind K K8sDaemonSet} `{!KubeKind K K8sStatefulSet}
    `{!KubeKind K K8sJob} `{!KubeKind K K8sCronJob} `{!KubeKind K K8sPod} `{!KubeSelect K K8sPod} `{!LabelRequirements}
    `{!KubeKind K K8sHPA} `{!KubeSelect K K8sHPA} `{!KubeLaws K K8sHPA} namespace hpa (k k' : K) :
  createHPA namespace hpa k = (Ok tt, k') ->
  exists spec rules (o : K8sHPA), scHPAToK8sHPASpec namespace hpa = Ok (spec, rules) /\
    kube_objects k' !! (namespace, hpa.(hp_Name)) = Some o /\ kube_spec o = spec /\ kube_key o = (namespace, hpa.(hp_Name)).
Proof.
  unfold createHPA, bind, attempt, getHPAs, guard, lift, rethrow, ret, throw. intros Hc.
  destruct (kube_list namespace k) as [rl k1].
  assert (Hgo : forall items : list K8sHPA,
    (do! guard (negb (existsb (same_target hpa) items)) HOther in
     let! spec := lift (scHPAToK8sHPASpec namespace hpa) in
     do! updatePrometheusAdapterConfigMap [] spec.2 in
     do! rethrow HKube (kube_create (new_hpa namespace hpa spec.1)) in ret tt) k1 = (Ok tt, k') ->
    exists spec rules (o : K8sHPA), scHPAToK8sHPASpec namespace hpa = Ok (spec, rules) /\
      kube_objects k' !! (namespace, hpa.(hp_Name)) = Some o /\ kube_spec o = spec /\ kube_key o = (namespace, hpa.(hp_Name))).
  { clear Hc. intros items Hc. unfold bind, guard, lift, rethrow, ret, throw in Hc. destruct (negb _); [|done].
    destruct (scHPAToK8sHPASpec namespace hpa) as [[spec new]|e] eqn:Hspec; [|done]. cbn [fst snd] in Hc.
    destruct (updatePrometheusAdapterConfigMap [] new k1) as [[[]|e] k2]; [|done].
    destruct (kube_create _ k2) as [[o|e] k3] eqn:Hcr; [|done]. injection Hc as <-.
    apply kube_create_law in Hcr as (Hkey & Ho & _ & Hobj). exists spec, new, o.
    split; [done|]. split; [by rewrite Hobj, lookup_insert_eq|done]. }
  destruct rl as [items|[| |]]; [by apply (Hgo items)|by apply (Hgo [])|done..].
Qed.

(** An autoscaler that was created is read back with its target and the numbers of
    replicas, 32 bits wide, and with its metrics in order: those of resources with their
    target, those of the program with their name, unless the labels are given and empty, with
    their labels and their value.  The read fails only as the cluster fails, or, with a panic,
    when the status has a metric without a selector. *)
Lemma hpa_round_trip `{Quantities} `{!QuantityValues} `{AdapterText} `{WorkloadText} `{LabelSelectors}
    {K : Type} `{!KubeKind K K8sConfigMap} `{!KubeKind K K8sDeployment} `{!KubeKind K K8sDaemonSet} `{!KubeKind K K8sStatefulSet}
    `{!KubeKind K K8sJob} `{!KubeKind K K8sCronJob} `{!KubeKind K K8sPod} `{!KubeSelect K K8sPod} `{!LabelRequirements}
    `{!KubeKind K K8sHPA} `{!KubeSelect K K8sHPA} `{!KubeLaws K K8sHPA}
    cluster namespace hpa answer (ks ks1 ks2 : gmap string K) r :
  Create cluster namespace hpa ks = (Ok answer, ks1) -> Get cluster namespace hpa.(hp_Name) ks1 = (r, ks2) ->
  match r with
  | Ok read =>
      read.(hp_ID) = hpa.(hp_Name) /\ read.(hp_Name) = hpa.(hp_Name) /\
      read.(hp_ScaleTargetKind) = hpa.(hp_ScaleTargetKind) /\ read.(hp_ScaleTargetName) = hpa.(hp_ScaleTargetName) /\
      read.(hp_MinReplicas) = int32 hpa.(hp_MinReplicas) /\ read.(hp_MaxReplicas) = int32 hpa.(hp_MaxReplicas) /\
      Forall2 shown_resource hpa.(hp_ResourceMetrics) read.(hp_ResourceMetrics) /\
      Forall2 shown_custom hpa.(hp_CustomMetrics) read.(hp_CustomMetrics)
  | Err Panic => exists k h, ks1 !! cluster = Some k /\ kube_objects k !! (namespace, hpa.(hp_Name)) = Some h /\
      read_customs namespace hpa.(hp_Name) h.(kh_CurrentMetrics) = None
  | Err e => e = Answer ServerError
  end.
Proof.
  intros Hc Hg. apply on_cluster_inv in Hc as [(? & ? & _)|(k & k1 & Hk & Hm & ->)]; [done|].
  unfold bind, rethrow, ret in Hm. destruct (createHPA namespace hpa k) as [[[]|e] k1'] eqn:Hcr; [|done]. injection Hm as <- ->.
  apply createHPA_ok in Hcr as (spec & rules & o & Hspec & Ho & Hos & Hkey). injection Hkey as Hns Hn.
  apply metrics_round_trip in Hspec as Hmet. destruct Hmet as (Hres & customs & Hcus & Hshown).
  apply (on_cluster_at _ _ _ _ _ _ k1) in Hg as (k2 & Hm & _); [|apply lookup_insert_eq].
  unfold bind, getHPA, rethrow, no_nil, lift in Hm. destruct (kube_get namespace (hp_Name hpa) k1) as [rg k3] eqn:Hget.
  apply kube_get_stored with (o := o) in Hget as [->|(e & -> & He)]; [| |done]; [|by injection Hm as <- _; destruct e].
  cbn [map_err] in Hm. unfold k8sHpaToScHpa in Hm. unfold kube_spec in Hos. simpl in Hos. rewrite Hns, Hn, Hos, Hcus in Hm.
  cbn [mbind option_bind] in Hm. destruct (read_customs namespace (hp_Name hpa) (kh_CurrentMetrics o)) as [current|] eqn:Hcur.
  - injection Hm as <- _. simpl. unfold scHPAToK8sHPASpec in Hspec. destruct (map_result _ (hp_ResourceMetrics hpa)); [|done]. simpl in Hspec.
    destruct (map_result _ (hp_CustomMetrics hpa)); [|done]. injection Hspec as <- _. done.
  - injection Hm as <- _. exists k1, o. split; [apply lookup_insert_eq|done].
Qed.
