(* ===== verification/StorageTypes.v ===== *)
(** The storages of a cluster (pkg/types/storage.go and what the kinds of storages share in
    pkg/handler/storage_manage.go): the data, their translation, and the interface of a kind
    of storage with what the storage manager relies on. *)
From S2P Require Import Prelude GoStrings GoFloat RestApi KubeApi.

Definition LvmType : string := "lvm".
Definition CephfsType : string := "cephfs".
Definition IscsiType : string := "iscsi".
Definition NfsType : string := "nfs".

(** A slice that is not given is [None] where the program tells it from an empty one. *)
Record IscsiParameter := mkIscsiParameter {
  ip_Targets : option (list string); ip_Port : string; ip_Iqn : string; ip_Chap : bool; ip_Username : string; ip_Password : string;
  ip_Initiators : option (list string)
}.
Record NfsParameter := mkNfsParameter { np_Server : string; np_Path : string }.
(** types.Parameter: one pointer per kind; the parameter of the first two is their hosts. *)
Record StorageParameter := mkParameter {
  pa_Lvm : option (list string); pa_CephFs : option (list string); pa_Iscsi : option IscsiParameter; pa_Nfs : option NfsParameter
}.
Definition no_parameter : StorageParameter := mkParameter None None None None.
Record PV := mkStoragePV {
  spv_Name : string; spv_Size : string; spv_UsedSize : string; spv_FreeSize : string; spv_Pods : list string;
  spv_StorageClassName : string; spv_Node : string; spv_PVC : string
}.
Record StorageNode := mkStorageNode {
  sn_Name : string; sn_Size : string; sn_UsedSize : string; sn_FreeSize : string; sn_Stat : bool
}.
Record Storage := mkStorage {
  st_ID : string; st_Name : string; st_Type : string; st_Parameter : StorageParameter; st_Default : bool; st_Phase : string;
  st_Size : string; st_UsedSize : string; st_FreeSize : string; st_Nodes : list StorageNode; st_PVs : list PV;
  st_CreationTimestamp : Z; st_DeletionTimestamp : option Z
}.

(** What the operators report: sizes as texts, in all and per instance on a host. *)
Record Size := mkSize { sz_Total : string; sz_Used : string; sz_Free : string }.
Record StorageInstance := mkInstance { in_Host : string; in_Stat : bool; in_Info : Size }.
Record Capacity := mkCapacity { cy_Total : Size; cy_Instances : list StorageInstance }.
(** The phases and the finalizer of the operators' library. *)
Class StoragePhases := { Creating : string; Updating : string; Deleting : string; StoragePrestopHookFinalizer : string }.
(** The agent in a cluster: the volumes of a storage, and the devices of the hosts.  It reads
    the cluster, and fails without a status of the server. *)
Record ClusterAgentDev := mkAgentDev { ad_Name : string; ad_Size : string; ad_Parted : bool; ad_Filesystem : bool; ad_Mount : bool }.
Record ClusterAgentBlockDevice := mkAgentDevice { ab_NodeName : string; ab_BlockDevices : list ClusterAgentDev }.
Class ClusterAgent (K : Type) := {
  agent_storage : K -> string -> option (list PV);
  agent_devices : K -> option (list ClusterAgentBlockDevice)
}.

(** [EKube]: an error with a status of the server; [ENil]: a parameter that is not there is
    used. *)
Inductive storage_error := EKube (e : kube_error) | EOther | ENil.
Definition is_not_found (e : storage_error) : bool := match e with EKube KNotFound => true | _ => false end.

(** ** Sizes *)

Definition sToi : string -> Z := Atoi_value.
Definition byteToGb (num : Z) : string :=
  let f := fdiv (to_float num) (to_float (1024 * 1024 * 1024)) in
  format_2f (fmul (Trunc (fmul f (to_float 100))) (fdiv (to_float 1) (to_float 100))).

Record Usage := mkUsage { us_stat : bool; us_sizes : gmap string (Z * Z * Z); us_stats : gmap string bool }.
(** The mark [us_stat] is never set again. *)
Definition add_instance (u : Usage) (i : StorageInstance) : Usage :=
  let stat := u.(us_stat) && i.(in_Stat) in
  let '(t, s, f) := default (0, 0, 0) (u.(us_sizes) !! i.(in_Host)) in
  mkUsage stat
    (<[i.(in_Host) := (int64 (t + sToi i.(in_Info).(sz_Total)), int64 (s + sToi i.(in_Info).(sz_Used)), int64 (f + sToi i.(in_Info).(sz_Free)))]> u.(us_sizes))
    (<[i.(in_Host) := stat]> u.(us_stats)).
Definition NodeNotGreater (a b : StorageNode) : Prop := String.leb a.(sn_Name) b.(sn_Name) = true.
#[export] Instance NodeNotGreater_dec a b : Decision (NodeNotGreater a b).
Proof. unfold NodeNotGreater. apply _. Defined.
Definition genStorageNodeFromInstances (instances : list StorageInstance) : list StorageNode :=
  let u := foldl add_instance (mkUsage true ∅ ∅) instances in
  merge_sort NodeNotGreater
    ((fun '(k, (t, s, f)) => mkStorageNode k (byteToGb t) (byteToGb s) (byteToGb f) (default false (u.(us_stats) !! k)))
       <$> map_to_list u.(us_sizes)).

(** What is shown of a storage in a list. *)
Definition shown_storage (name typ : string) (parameter : StorageParameter) (isDefault : bool) (phase : string) (total : Size)
    (creation : Z) (deletion : option Z) : Storage :=
  mkStorage name name typ parameter isDefault phase (byteToGb (sToi total.(sz_Total))) (byteToGb (sToi total.(sz_Used)))
    (byteToGb (sToi total.(sz_Free))) [] [] creation deletion.
Definition with_detail (nodes : list StorageNode) (pvs : list PV) (s : Storage) : Storage :=
  mkStorage s.(st_ID) s.(st_Name) s.(st_Type) s.(st_Parameter) s.(st_Default) s.(st_Phase) s.(st_Size) s.(st_UsedSize)
    s.(st_FreeSize) nodes pvs s.(st_CreationTimestamp) s.(st_DeletionTimestamp).
Definition genStoragePVFromClusterAgent {K} `{ClusterAgent K} (name : string) : M K storage_error (list PV) :=
  fun k => (of_option EOther (agent_storage k name), k).

(** A storage is busy while an operator works on it, and free when no claim uses it. *)
Definition busy `{StoragePhases} (phase : string) : bool :=
  String.eqb phase Creating || String.eqb phase Updating || String.eqb phase Deleting.
Definition unused `{StoragePhases} (finalizers : list string) : bool :=
  match finalizers with [] => true | [f] => String.eqb f StoragePrestopHookFinalizer | _ => false end.

(** ** The interface of a kind of storage *)

Record StorageHandle (K : Type) := mkHandle {
  GetType : string;
  GetStorages : M K storage_error (list Storage);
  GetStorage : string -> M K storage_error Storage;
  HandleDelete : string -> M K storage_error unit;
  HandleCreate : Storage -> M K storage_error unit;
  HandleUpdate : Storage -> M K storage_error unit
}.
Arguments mkHandle {K}.
Arguments GetType {K}.
Arguments GetStorages {K}.
Arguments GetStorage {K}.
Arguments HandleDelete {K}.
Arguments HandleCreate {K}.
Arguments HandleUpdate {K}.
