(* ===== verification/StorageCluster.v ===== *)
(** Storages made of the disks of hosts (pkg/handler/lvm.go, cephfs.go and
    blockdevice_manager.go): LVM and CephFS, which share one kind of object, and the disks
    that are free. *)
From S2P Require Import Prelude GoStrings ClusterTypes RestApi KubeApi PersistentVolume PodTemplate Pod Node VolumeClaim StorageTypes.

(** types.BlockDevice and types.Dev. *)
Record Dev := mkDev { dv_Name : string; dv_Size : string }.
Record BlockDevice := mkBlockDevice { bd_NodeName : string; bd_BlockDevices : list Dev; bd_UsedBy : string }.

(** The object Cluster of the storage operator; [sk_Config] are the hosts with the devices
    that are taken. *)
Record K8sStorageCluster := mkStorageCluster {
  sk_Name : string; sk_Annotations : gmap string string; sk_StorageType : string; sk_Hosts : list string; sk_Phase : string;
  sk_Capacity : Capacity; sk_Config : list (string * list string); sk_Finalizers : list string; sk_CreationTimestamp : Z;
  sk_DeletionTimestamp : option Z
}.
#[export] Instance K8sStorageCluster_object : KubeObject K8sStorageCluster := {|
  Spec := gmap string string * string * list string; kube_key o := ("", o.(sk_Name));
  kube_spec o := (o.(sk_Annotations), o.(sk_StorageType), o.(sk_Hosts));
  kube_deleting o := bool_decide (is_Some o.(sk_DeletionTimestamp))
|}.

Section StorageCluster.
Context `{Quantities} `{StoragePhases} {K : Type} `{!KubeKind K K8sStorageCluster} `{!KubeKind K K8sNode}
  `{!KubeKind K VolumeAttachment} `{!ClusterAgent K}.

Definition getStorageCluster (name : string) : M K kube_error K8sStorageCluster := kube_get "" name.
Definition getStorageClusters : M K kube_error (list K8sStorageCluster) := kube_list "".

Definition storageClusterToSCStorage (s : K8sStorageCluster) : Storage :=
  shown_storage s.(sk_Name) s.(sk_StorageType)
    (if String.eqb s.(sk_StorageType) LvmType then mkParameter (Some s.(sk_Hosts)) None None None
     else if String.eqb s.(sk_StorageType) CephfsType then mkParameter None (Some s.(sk_Hosts)) None None
     else no_parameter)
    (match s.(sk_Annotations) !! StorageClassDefaultKey with Some d => strToBool d | None => false end)
    s.(sk_Phase) s.(sk_Capacity).(cy_Total) s.(sk_CreationTimestamp) s.(sk_DeletionTimestamp).
Definition storageClusterToSCStorageDetail (s : K8sStorageCluster) : M K storage_error Storage :=
  let! pvs := genStoragePVFromClusterAgent s.(sk_Name) in
  ret (with_detail (genStorageNodeFromInstances s.(sk_Capacity).(cy_Instances)) pvs (storageClusterToSCStorage s)).

(** ** Block devices *)

(** The hosts with the storage that took devices and these; without the storages, when they
    cannot be listed, none is taken. *)
Definition getStorageUsed {E} : M K E (gmap string (list string)) :=
  let! scs := attempt getStorageClusters in
  ret (foldl (fun infos sc => foldl (fun infos info => <[fst info := sc.(sk_Name) :: snd info]> infos) infos sc.(sk_Config))
         ∅ (match scs with Ok items => items | Err _ => [] end)).
Definition isValidHost {E} (name : string) : M K E bool :=
  let! node := attempt (getK8SNode name) in
  ret (match node with
       | Err _ => false
       | Ok node => negb (is_some (node.(kn_Labels) !! (zkeRoleLabelPrefix +:+ RoleControlPlane)) ||
                          is_some (node.(kn_Labels) !! (zkeRoleLabelPrefix +:+ RoleEtcd)))
       end).
(** The storage that took a device, which is the first of the list; [other]: somebody else. *)
Definition getUsed (host : string) (dev : ClusterAgentDev) (infos : gmap string (list string)) : string :=
  match infos !! host with
  | None => if dev.(ad_Parted) || dev.(ad_Filesystem) || dev.(ad_Mount) then "other" else ""
  | Some info => if existsb (String.eqb dev.(ad_Name)) info then default "" (head info) else "other"
  end.
Definition host_devices (host : string) (infos : gmap string (list string)) (devs : list ClusterAgentDev) : list Dev * string :=
  foldl (fun '(shown, usedby) d =>
           let used := getUsed host d infos in
           if String.eqb used "other" then (shown, usedby)
           else (shown ++ [mkDev d.(ad_Name) d.(ad_Size)], if String.eqb used "" then usedby else used)) ([], "") devs.
Fixpoint cut_hosts {E} (infos : gmap string (list string)) (resp : list ClusterAgentBlockDevice) : M K E (list BlockDevice) :=
  match resp with
  | [] => ret []
  | h :: resp =>
      let! valid := isValidHost h.(ab_NodeName) in
      let (devs, usedby) := host_devices h.(ab_NodeName) infos h.(ab_BlockDevices) in
      let! rest := cut_hosts infos resp in
      ret (if valid && negb (bool_decide (h.(ab_BlockDevices) = [])) && negb (bool_decide (devs = []))
           then mkBlockDevice h.(ab_NodeName) devs usedby :: rest else rest)
  end.
Definition cutInvalid {E} (resp : list ClusterAgentBlockDevice) : M K E (list BlockDevice) :=
  let! infos := getStorageUsed in cut_hosts infos resp.
Definition getAllDevices : M K storage_error (list ClusterAgentBlockDevice) := fun k => (of_option EOther (agent_devices k), k).
Definition getBlockDevices : M K storage_error (list BlockDevice) := let! all := getAllDevices in cutInvalid all.
Definition ListBlockDevices (cluster : string) : M (gmap string K) api_error (list BlockDevice) :=
  on_cluster NotFound cluster (rethrow (fun _ => ServerError) getBlockDevices).

(** ** LVM and CephFS *)

Definition cluster_storages (typ : string) : M K storage_error (list Storage) :=
  let! storageClusters := rethrow EKube getStorageClusters in
  ret (storageClusterToSCStorage <$> filter (fun s => s.(sk_StorageType) = typ) storageClusters).
(** Of either type. *)
Definition cluster_storage (name : string) : M K storage_error Storage :=
  let! storageCluster := rethrow EKube (getStorageCluster name) in storageClusterToSCStorageDetail storageCluster.

Definition checkStorageClusterTypeExist (typ : string) : M K storage_error bool :=
  let! storageclusters := rethrow EKube getStorageClusters in
  ret (existsb (fun s => String.eqb s.(sk_StorageType) typ) storageclusters).
(** A host without a device that is free. *)
Definition checkUsed (blockinfo : list BlockDevice) (node : string) : bool :=
  negb (existsb (fun info => String.eqb info.(bd_NodeName) node && String.eqb info.(bd_UsedBy) "") blockinfo).
Definition isHostsValidate (hosts : list string) : M K storage_error unit :=
  let! resp := getBlockDevices in guard (negb (existsb (checkUsed resp) hosts)) EOther.
Definition createStorageCluster (name typ : string) (hosts : list string) : M K storage_error unit :=
  let! found := checkStorageClusterTypeExist typ in
  do! guard (negb found) EOther in
  do! isHostsValidate hosts in
  do! rethrow EKube (kube_create (mkStorageCluster name
        (if String.eqb typ LvmType then {[StorageClassDefaultKey := "true"]} else ∅) typ hosts ""
        (mkCapacity (mkSize "" "" "") []) [] [] 0 None)) in
  ret tt.
Definition deleteStorageCluster (name : string) : M K storage_error unit :=
  let! storageCluster := rethrow EKube (getStorageCluster name) in
  do! guard (negb (busy storageCluster.(sk_Phase))) EOther in
  do! guard (unused storageCluster.(sk_Finalizers)) EOther in
  rethrow EKube (kube_delete (Obj := K8sStorageCluster) "" storageCluster.(sk_Name)).

(** The hosts to which a volume of the driver is attached. *)
Definition getAttachedHosts (driverName : string) (nodes : list string) : M K storage_error (list string) :=
  let! volumeAttachments := rethrow EKube (kube_list (Obj := VolumeAttachment) "") in
  ret (foldl (fun hosts va =>
                if String.eqb va.(va_Attacher) driverName && bool_decide (va.(va_NodeName) ∈ nodes) && negb (bool_decide (va.(va_NodeName) ∈ hosts))
                then hosts ++ [va.(va_NodeName)] else hosts) [] volumeAttachments).
Definition isDelHostsUsed (name typ : string) (hosts : list string) : M K storage_error unit :=
  let! suffix := lift (if String.eqb typ LvmType then Ok LvmDriverSuffix
                       else if String.eqb typ IscsiType then Ok IscsiDriverSuffix else Err EOther) in
  let! usedHosts := getAttachedHosts (name +:+ "." +:+ suffix) hosts in
  guard (bool_decide (usedHosts = [])) EOther.
Definition difference (a b : list string) : list string :=
  elements ((list_to_set a : gset string) ∖ list_to_set b).
Definition set_hosts (hosts : list string) (s : K8sStorageCluster) : K8sStorageCluster :=
  mkStorageCluster s.(sk_Name) s.(sk_Annotations) s.(sk_StorageType) hosts s.(sk_Phase) s.(sk_Capacity) s.(sk_Config)
    s.(sk_Finalizers) s.(sk_CreationTimestamp) s.(sk_DeletionTimestamp).
(** [typ] is the type the request names. *)
Definition updateStorageCluster (name typ : string) (hosts : list string) : M K storage_error unit :=
  let! k8sStorageCluster := rethrow EKube (getStorageCluster name) in
  do! guard (negb (busy k8sStorageCluster.(sk_Phase) || is_some k8sStorageCluster.(sk_DeletionTimestamp))) EOther in
  do! (if String.eqb typ LvmType then isDelHostsUsed name typ (difference k8sStorageCluster.(sk_Hosts) hosts) else ret tt) in
  do! isHostsValidate (difference hosts k8sStorageCluster.(sk_Hosts)) in
  do! rethrow EKube (kube_update (set_hosts hosts k8sStorageCluster)) in
  ret tt.

Definition LvmManager : StorageHandle K :=
  mkHandle LvmType (cluster_storages LvmType) cluster_storage deleteStorageCluster
    (fun storage => match storage.(st_Parameter).(pa_Lvm) with
                    | Some hosts => createStorageCluster storage.(st_Name) storage.(st_Type) hosts | None => throw EOther end)
    (fun storage => match storage.(st_Parameter).(pa_Lvm) with
                    | Some hosts => updateStorageCluster storage.(st_Name) storage.(st_Type) hosts | None => throw ENil end).
Definition CephFsManager : StorageHandle K :=
  mkHandle CephfsType (cluster_storages CephfsType) cluster_storage deleteStorageCluster
    (fun storage => match storage.(st_Parameter).(pa_CephFs) with
                    | Some hosts => createStorageCluster storage.(st_Name) storage.(st_Type) hosts | None => throw EOther end)
    (fun storage => match storage.(st_Parameter).(pa_CephFs) with
                    | Some hosts => updateStorageCluster storage.(st_Name) storage.(st_Type) hosts | None => throw ENil end).
End StorageCluster.
