(* ===== verification/NetStorage.v ===== *)
(** Storages on the network (pkg/handler/iscsi.go and nfs.go): iSCSI, whose password is kept
    in a secret, and NFS. *)
From S2P Require Import Prelude GoStrings ClusterTypes RestApi KubeApi Secret PersistentVolume PodTemplate Pod Node VolumeClaim Service.
From S2P Require Import StorageTypes StorageCluster.

Definition ZCloudNamespace : string := "zcloud".
Definition IscsiInstanceSecretSuffix : string := "iscsi-secret".
Definition secret_name (name : string) : string := name +:+ "-" +:+ IscsiInstanceSecretSuffix.

(** The objects Iscsi and Nfs of the storage operator. *)
Record IscsiSpec := mkIscsiSpec {
  is_Targets : option (list string); is_Port : string; is_Iqn : string; is_Chap : bool; is_Initiators : option (list string)
}.
Record K8sIscsi := mkIscsi {
  ki_Name : string; ki_Spec : IscsiSpec; ki_Phase : string; ki_Capacity : Capacity; ki_Finalizers : list string;
  ki_CreationTimestamp : Z; ki_DeletionTimestamp : option Z
}.
#[export] Instance K8sIscsi_object : KubeObject K8sIscsi := {|
  Spec := IscsiSpec; kube_key o := ("", o.(ki_Name)); kube_spec := ki_Spec;
  kube_deleting o := bool_decide (is_Some o.(ki_DeletionTimestamp))
|}.
Record K8sNfs := mkNfs {
  kf_Name : string; kf_Server : string; kf_Path : string; kf_Phase : string; kf_Capacity : Capacity; kf_Finalizers : list string;
  kf_CreationTimestamp : Z; kf_DeletionTimestamp : option Z
}.
#[export] Instance K8sNfs_object : KubeObject K8sNfs := {|
  Spec := string * string; kube_key o := ("", o.(kf_Name)); kube_spec o := (o.(kf_Server), o.(kf_Path));
  kube_deleting o := bool_decide (is_Some o.(kf_DeletionTimestamp))
|}.
Definition no_capacity : Capacity := mkCapacity (mkSize "" "" "") [].

(** The same elements, as often in all; a slice that is not given differs from an empty
    one. *)
Definition checkSliceEq (a b : option (list string)) : bool :=
  match a, b with
  | None, None => true
  | Some a, Some b =>
      (length a =? length b)%nat && bool_decide (difference b a = []) && bool_decide (difference a b = [])
  | _, _ => false
  end.
Fixpoint has_space (s : string) : bool :=
  match s with EmptyString => false | String c s => Ascii.eqb c " " || has_space s end.
Fixpoint distinct_targets (seen targets : list string) : bool :=
  match targets with
  | [] => true
  | t :: targets => isIpv4 t && negb (bool_decide (t ∈ seen)) && distinct_targets (t :: seen) targets
  end.
Definition iscsiFormatValidation (p : IscsiParameter) : bool :=
  negb (has_space p.(ip_Iqn)) && distinct_targets [] (default [] p.(ip_Targets)) &&
  negb (bool_decide (default [] p.(ip_Initiators) = [])) &&
  (negb p.(ip_Chap) || negb (String.eqb p.(ip_Username) "" || String.eqb p.(ip_Password) "")).
Definition iscsi_spec (p : IscsiParameter) : IscsiSpec :=
  mkIscsiSpec p.(ip_Targets) p.(ip_Port) p.(ip_Iqn) p.(ip_Chap) p.(ip_Initiators).
Definition genIscsiSecret (name : string) (p : IscsiParameter) : Secret :=
  mkSecret "" (secret_name name) [mkSecretData "username" p.(ip_Username); mkSecretData "password" p.(ip_Password)] 0 None.
Definition iscsiToSCStorage (i : K8sIscsi) : Storage :=
  shown_storage i.(ki_Name) IscsiType
    (mkParameter None None (Some (mkIscsiParameter i.(ki_Spec).(is_Targets) i.(ki_Spec).(is_Port) i.(ki_Spec).(is_Iqn)
       i.(ki_Spec).(is_Chap) "" "" i.(ki_Spec).(is_Initiators))) None)
    false i.(ki_Phase) i.(ki_Capacity).(cy_Total) i.(ki_CreationTimestamp) i.(ki_DeletionTimestamp).
Definition nfsToSCStorage (n : K8sNfs) : Storage :=
  shown_storage n.(kf_Name) NfsType (mkParameter None None None (Some (mkNfsParameter n.(kf_Server) n.(kf_Path))))
    false n.(kf_Phase) n.(kf_Capacity).(cy_Total) n.(kf_CreationTimestamp) n.(kf_DeletionTimestamp).
(** The last value of a key of the secret. *)
Definition secret_value (key : string) (old : string) (data : list SecretData) : string :=
  foldl (fun v d => if String.eqb d.(sd_Key) key then d.(sd_Value) else v) old data.
Definition with_password (username password : string) (s : Storage) : Storage :=
  mkStorage s.(st_ID) s.(st_Name) s.(st_Type)
    (mkParameter s.(st_Parameter).(pa_Lvm) s.(st_Parameter).(pa_CephFs)
       ((fun p => mkIscsiParameter p.(ip_Targets) p.(ip_Port) p.(ip_Iqn) p.(ip_Chap) username password p.(ip_Initiators))
          <$> s.(st_Parameter).(pa_Iscsi)) s.(st_Parameter).(pa_Nfs))
    s.(st_Default) s.(st_Phase) s.(st_Size) s.(st_UsedSize) s.(st_FreeSize) s.(st_Nodes) s.(st_PVs) s.(st_CreationTimestamp)
    s.(st_DeletionTimestamp).
Definition secret_failed (e : secret_error) : storage_error := match e with Secret.SKube e => EKube e | _ => EOther end.

Section NetStorage.
Context `{Quantities} `{StoragePhases} {K : Type} `{!KubeKind K K8sIscsi} `{!KubeKind K K8sNfs} `{!KubeKind K K8sSecret}
  `{!KubeKind K K8sNode} `{!KubeKind K VolumeAttachment} `{!ClusterAgent K}.

(** ** iSCSI *)

Definition getIscsi (name : string) : M K kube_error K8sIscsi := kube_get "" name.
Definition getIscsis : M K kube_error (list K8sIscsi) := kube_list "".
Definition getIscsiSecret (namespace name : string) : M K kube_error Secret :=
  let! k8sSecret := getSecret namespace name in ret (k8sSecretToSCSecret k8sSecret).
Definition iscsi_storages : M K storage_error (list Storage) :=
  let! iscsis := rethrow EKube getIscsis in ret (iscsiToSCStorage <$> iscsis).
Definition iscsiToSCStorageDetail (iscsi : K8sIscsi) : M K storage_error Storage :=
  let! pvs := genStoragePVFromClusterAgent iscsi.(ki_Name) in
  let storage := with_detail (genStorageNodeFromInstances iscsi.(ki_Capacity).(cy_Instances)) pvs (iscsiToSCStorage iscsi) in
  if iscsi.(ki_Spec).(is_Chap) then
    let! secret := rethrow EKube (getIscsiSecret ZCloudNamespace (secret_name iscsi.(ki_Name))) in
    ret (with_password (secret_value "username" "" secret.(se_Data)) (secret_value "password" "" secret.(se_Data)) storage)
  else ret storage.
Definition iscsi_storage (name : string) : M K storage_error Storage :=
  let! iscsi := rethrow EKube (getIscsi name) in iscsiToSCStorageDetail iscsi.

Definition delete_iscsi (name : string) : M K storage_error unit :=
  let! iscsi := rethrow EKube (getIscsi name) in
  do! guard (negb (busy iscsi.(ki_Phase))) EOther in
  do! guard (unused iscsi.(ki_Finalizers)) EOther in
  do! (if iscsi.(ki_Spec).(is_Chap) then rethrow EKube (deleteSecret ZCloudNamespace (secret_name name)) else ret tt) in
  rethrow EKube (kube_delete (Obj := K8sIscsi) "" iscsi.(ki_Name)).

Definition iscsiDuplicateValidation (p : IscsiParameter) : M K storage_error bool :=
  let! iscsis := rethrow EKube getIscsis in
  ret (existsb (fun i => checkSliceEq i.(ki_Spec).(is_Targets) p.(ip_Targets) && String.eqb i.(ki_Spec).(is_Port) p.(ip_Port) &&
                         String.eqb i.(ki_Spec).(is_Iqn) p.(ip_Iqn)) iscsis).
Fixpoint initiatorsRoleValidation (initiators : list string) : M K storage_error bool :=
  match initiators with
  | [] => ret true
  | name :: initiators =>
      let! node := rethrow EKube (getK8SNode name) in
      if is_some (node.(kn_Labels) !! (zkeRoleLabelPrefix +:+ RoleControlPlane)) then ret false
      else if is_some (node.(kn_Labels) !! (zkeRoleLabelPrefix +:+ RoleEtcd)) then ret false
      else initiatorsRoleValidation initiators
  end.
Definition create_iscsi (storage : Storage) : M K storage_error unit :=
  match storage.(st_Parameter).(pa_Iscsi) with
  | None => throw EOther
  | Some p =>
      do! guard (iscsiFormatValidation p) EOther in
      let! duplicate := iscsiDuplicateValidation p in
      do! guard (negb duplicate) EOther in
      let! ok := initiatorsRoleValidation (default [] p.(ip_Initiators)) in
      do! guard ok EOther in
      do! (if p.(ip_Chap) then rethrow secret_failed (createSecret ZCloudNamespace (genIscsiSecret storage.(st_Name) p)) else ret tt) in
      do! rethrow EKube (kube_create (mkIscsi storage.(st_Name) (iscsi_spec p) "" no_capacity [] 0 None)) in
      ret tt
  end.

Definition updateIscsiSecret (name : string) (p : IscsiParameter) : M K storage_error unit :=
  let! old := rethrow EKube (getSecret ZCloudNamespace (secret_name name)) in
  let! new := rethrow secret_failed (lift (scSecretToK8sSecret (genIscsiSecret name p) ZCloudNamespace)) in
  do! rethrow EKube (kube_update (set_secret new.(ks_Data) old.(ks_Type) old)) in
  ret tt.
(** Initiators that leave must have no volume attached; those that come must be no node of
    the control plane. *)
Definition check_initiators (k8sIscsi : K8sIscsi) (p : IscsiParameter) : M K storage_error unit :=
  if checkSliceEq k8sIscsi.(ki_Spec).(is_Initiators) p.(ip_Initiators) then ret tt
  else
    let old := default [] k8sIscsi.(ki_Spec).(is_Initiators) in
    let new := default [] p.(ip_Initiators) in
    do! isDelHostsUsed k8sIscsi.(ki_Name) IscsiType (difference old new) in
    let! ok := initiatorsRoleValidation (difference new old) in
    guard ok EOther.
Definition chap_changes (data : list SecretData) (p : IscsiParameter) : bool :=
  existsb (fun d => String.eqb d.(sd_Key) "username" && negb (String.eqb d.(sd_Value) p.(ip_Username)) ||
                    String.eqb d.(sd_Key) "password" && negb (String.eqb d.(sd_Value) p.(ip_Password))) data.
Definition set_iscsi_spec (spec : IscsiSpec) (i : K8sIscsi) : K8sIscsi :=
  mkIscsi i.(ki_Name) spec i.(ki_Phase) i.(ki_Capacity) i.(ki_Finalizers) i.(ki_CreationTimestamp) i.(ki_DeletionTimestamp).
Definition other_target (s : IscsiSpec) (p : IscsiParameter) : bool :=
  negb (checkSliceEq s.(is_Targets) p.(ip_Targets)) || negb (String.eqb s.(is_Port) p.(ip_Port)) ||
  negb (String.eqb s.(is_Iqn) p.(ip_Iqn)) || negb (Bool.eqb s.(is_Chap) p.(ip_Chap)).
(** The secret comes, goes or changes with the authentication. *)
Definition change_secret (name : string) (k8sIscsi : K8sIscsi) (p : IscsiParameter) (chapChange : bool) : M K storage_error unit :=
  do! guard (unused k8sIscsi.(ki_Finalizers)) EOther in
  do! (if k8sIscsi.(ki_Spec).(is_Chap) && negb p.(ip_Chap)
       then rethrow EKube (deleteSecret ZCloudNamespace (secret_name k8sIscsi.(ki_Name))) else ret tt) in
  do! (if negb k8sIscsi.(ki_Spec).(is_Chap) && p.(ip_Chap)
       then rethrow secret_failed (createSecret ZCloudNamespace (genIscsiSecret name p)) else ret tt) in
  if chapChange then updateIscsiSecret name p else ret tt.
Definition update_iscsi (storage : Storage) : M K storage_error unit :=
  match storage.(st_Parameter).(pa_Iscsi) with
  | None => throw ENil
  | Some p =>
      do! guard (iscsiFormatValidation p) EOther in
      let! k8sIscsi := rethrow EKube (getIscsi storage.(st_Name)) in
      do! guard (negb (busy k8sIscsi.(ki_Phase))) EOther in
      do! guard (negb (is_some k8sIscsi.(ki_DeletionTimestamp))) EOther in
      do! check_initiators k8sIscsi p in
      let! chapChange :=
        (if p.(ip_Chap) && Bool.eqb k8sIscsi.(ki_Spec).(is_Chap) p.(ip_Chap) then
           let! secret := rethrow EKube (getIscsiSecret ZCloudNamespace (secret_name k8sIscsi.(ki_Name))) in
           ret (chap_changes secret.(se_Data) p)
         else ret false) in
      do! (if other_target k8sIscsi.(ki_Spec) p || chapChange then change_secret storage.(st_Name) k8sIscsi p chapChange else ret tt) in
      do! rethrow EKube (kube_update (set_iscsi_spec (iscsi_spec p) k8sIscsi)) in
      ret tt
  end.
Definition IscsiManager : StorageHandle K :=
  mkHandle IscsiType iscsi_storages iscsi_storage delete_iscsi create_iscsi update_iscsi.

(** ** NFS *)

Definition getNfs (name : string) : M K kube_error K8sNfs := kube_get "" name.
Definition getNfss : M K kube_error (list K8sNfs) := kube_list "".
Definition nfs_storages : M K storage_error (list Storage) :=
  let! nfss := rethrow EKube getNfss in ret (nfsToSCStorage <$> nfss).
Definition nfsToSCStorageDetail (nfs : K8sNfs) : M K storage_error Storage :=
  let! pvs := genStoragePVFromClusterAgent nfs.(kf_Name) in
  ret (with_detail (genStorageNodeFromInstances nfs.(kf_Capacity).(cy_Instances)) pvs (nfsToSCStorage nfs)).
Definition nfs_storage (name : string) : M K storage_error Storage :=
  let! nfs := rethrow EKube (getNfs name) in nfsToSCStorageDetail nfs.
Definition nfsDuplicateValidation (p : NfsParameter) : M K storage_error bool :=
  let! nfses := rethrow EKube getNfss in
  ret (existsb (fun n => String.eqb n.(kf_Server) p.(np_Server) && String.eqb n.(kf_Path) p.(np_Path)) nfses).
Definition create_nfs (storage : Storage) : M K storage_error unit :=
  match storage.(st_Parameter).(pa_Nfs) with
  | None => throw EOther
  | Some p =>
      do! guard (isIpv4 p.(np_Server)) EOther in
      let! duplicate := nfsDuplicateValidation p in
      do! guard (negb duplicate) EOther in
      do! rethrow EKube (kube_create (mkNfs storage.(st_Name) p.(np_Server) p.(np_Path) "" no_capacity [] 0 None)) in
      ret tt
  end.
Definition delete_nfs (name : string) : M K storage_error unit :=
  let! nfs := rethrow EKube (getNfs name) in
  do! guard (negb (busy nfs.(kf_Phase))) EOther in
  do! guard (unused nfs.(kf_Finalizers)) EOther in
  rethrow EKube (kube_delete (Obj := K8sNfs) "" nfs.(kf_Name)).
Definition set_export (server path : string) (n : K8sNfs) : K8sNfs :=
  mkNfs n.(kf_Name) server path n.(kf_Phase) n.(kf_Capacity) n.(kf_Finalizers) n.(kf_CreationTimestamp) n.(kf_DeletionTimestamp).
Definition update_nfs (storage : Storage) : M K storage_error unit :=
  match storage.(st_Parameter).(pa_Nfs) with
  | None => throw ENil
  | Some p =>
      do! guard (isIpv4 p.(np_Server)) EOther in
      let! k8sNfs := rethrow EKube (getNfs storage.(st_Name)) in
      do! guard (negb (busy k8sNfs.(kf_Phase))) EOther in
      do! guard (negb (is_some k8sNfs.(kf_DeletionTimestamp))) EOther in
      do! guard (unused k8sNfs.(kf_Finalizers)) EOther in
      do! rethrow EKube (kube_update (set_export p.(np_Server) p.(np_Path) k8sNfs)) in
      ret tt
  end.
Definition NfsManager : StorageHandle K :=
  mkHandle NfsType nfs_storages nfs_storage delete_nfs create_nfs update_nfs.
End NetStorage.
