(* ===== verification/Storage.v ===== *)
(** The storage manager (pkg/handler/storage_manage.go): it hands the requests to the kinds
    of storages.  Its theorems are proved against the interface of a kind; the four kinds
    implement it. *)
From S2P Require Import Prelude GoStrings ClusterTypes Authorizer RestApi KubeApi Secret PersistentVolume PodTemplate Pod Node VolumeClaim.
From S2P Require Import StorageTypes StorageCluster NetStorage.

Definition NameNotGreater (a b : Storage) : Prop := String.leb a.(st_Name) b.(st_Name) = true.
#[export] Instance NameNotGreater_dec a b : Decision (NameNotGreater a b).
Proof. unfold NameNotGreater. apply _. Defined.

Section Manager.
Context {K : Type} (storageHandles : list (StorageHandle K)).

Fixpoint all_storages (handles : list (StorageHandle K)) : M K storage_error (list Storage) :=
  match handles with
  | [] => ret []
  | h :: handles => let! s := GetStorages h in let! rest := all_storages handles in ret (s ++ rest)
  end.
Definition getStorages : M K storage_error (list Storage) :=
  let! storages := all_storages storageHandles in ret (merge_sort NameNotGreater storages).
Definition getHandleFromType (typ : string) : option (StorageHandle K) :=
  find (fun h => String.eqb typ (GetType h)) storageHandles.
(** The first kind that has the storage; an error other than that it is not found ends the
    search. *)
Fixpoint find_storage (name : string) (handles : list (StorageHandle K)) : M K storage_error (StorageHandle K * Storage) :=
  match handles with
  | [] => throw EOther
  | h :: handles =>
      let! r := attempt (GetStorage h name) in
      match r with
      | Ok storage => ret (h, storage)
      | Err e => if is_not_found e then find_storage name handles else throw e
      end
  end.
Definition getStorage (name : string) : M K storage_error Storage :=
  let! found := find_storage name storageHandles in ret found.2.
Definition deleteStorage (name : string) : M K storage_error unit :=
  let! found := find_storage name storageHandles in HandleDelete found.1 name.
Definition checkStorageExist (name : string) : M K storage_error bool :=
  let! storages := getStorages in ret (existsb (fun s => String.eqb s.(st_Name) name) storages).
Definition createStorage (storage : Storage) : M K storage_error unit :=
  let! found := checkStorageExist storage.(st_Name) in
  do! guard (negb found) EOther in
  let! h := lift (of_option EOther (getHandleFromType storage.(st_Type))) in
  HandleCreate h storage.
Definition updateStorage (storage : Storage) : M K storage_error unit :=
  let! h := lift (of_option EOther (getHandleFromType storage.(st_Type))) in
  HandleUpdate h storage.

(** ** Handlers *)

Definition panics (f : storage_error -> api_error) (e : storage_error) : Workload.workload_error :=
  match e with ENil => Workload.Panic | _ => Workload.Answer (f e) end.
Definition read_failed (e : storage_error) : api_error := if is_not_found e then NotFound else ServerError.
Definition create_failed (e : storage_error) : api_error :=
  match e with EKube KAlreadyExists => DuplicateResource | _ => ConnectClusterFailed end.
Definition delete_failed (e : storage_error) : api_error := if is_not_found e then NotFound else ConnectClusterFailed.
Definition set_storage_id (id : string) (s : Storage) : Storage :=
  mkStorage id s.(st_Name) s.(st_Type) s.(st_Parameter) s.(st_Default) s.(st_Phase) s.(st_Size) s.(st_UsedSize)
    s.(st_FreeSize) s.(st_Nodes) s.(st_PVs) s.(st_CreationTimestamp) s.(st_DeletionTimestamp).
Definition as_admin {A} (user : option string) (cluster : string) (m : M K Workload.workload_error A)
    : M (gmap string K) Workload.workload_error A :=
  if isAdmin (getCurrentUser user) then on_cluster (Workload.Answer NotFound) cluster m else throw (Workload.Answer PermissionDenied).

Definition List (cluster : string) : M (gmap string K) Workload.workload_error (list Storage) :=
  on_cluster (Workload.Answer NotFound) cluster (rethrow (panics read_failed) getStorages).
Definition Get (cluster id : string) : M (gmap string K) Workload.workload_error Storage :=
  on_cluster (Workload.Answer NotFound) cluster (rethrow (panics read_failed) (getStorage id)).
Definition Create (user : option string) (cluster : string) (storage : Storage) : M (gmap string K) Workload.workload_error Storage :=
  as_admin user cluster
    (do! rethrow (panics create_failed) (createStorage storage) in ret (set_storage_id storage.(st_Name) storage)).
Definition Update (user : option string) (cluster : string) (storage : Storage) : M (gmap string K) Workload.workload_error Storage :=
  as_admin user cluster (do! rethrow (panics (fun _ => ConnectClusterFailed)) (updateStorage storage) in ret storage).
Definition Delete (user : option string) (cluster id : string) : M (gmap string K) Workload.workload_error unit :=
  as_admin user cluster (rethrow (panics delete_failed) (deleteStorage id)).

(** ** What the manager relies on, and what follows *)

(** [has t n k]: the cluster has a storage of the kind [t] and the name [n]. *)
Context (has : string -> string -> K -> Prop).
Definition same_storages (k k' : K) : Prop := forall t n, has t n k' <-> has t n k.
#[export] Instance same_storages_preorder : PreOrder same_storages.
Proof. split; [done|]. intros k1 k2 k3 H12 H23 t n. by rewrite (H23 t n). Qed.

Class HandleLaws (h : StorageHandle K) : Prop := {
  handle_list k r k' : GetStorages h k = (r, k') -> same_storages k k' /\
    forall l, r = Ok l -> forall n, has (GetType h) n k <-> n ∈ st_Name <$> l;
  handle_get name : keeps same_storages (GetStorage h name);
  handle_create s k r k' : s.(st_Type) = GetType h -> HandleCreate h s k = (r, k') ->
    match r with
    | Ok _ => forall t n, has t n k' <-> has t n k \/ t = GetType h /\ n = s.(st_Name)
    | Err _ => same_storages k k'
    end;
  handle_delete name k r k' : HandleDelete h name k = (r, k') ->
    match r with
    | Ok _ => forall t n, (has t n k' -> has t n k) /\ (n <> name -> has t n k -> has t n k')
    | Err _ => same_storages k k'
    end;
  handle_update s : keeps same_storages (HandleUpdate h s)
}.

(** A name belongs to one kind of storage, which is one of the manager's. *)
Definition names_ok (k : K) : Prop :=
  (forall t t' n, has t n k -> has t' n k -> t = t') /\ (forall t n, has t n k -> t ∈ GetType <$> storageHandles).
Lemma same_names_ok k k' : same_storages k k' -> names_ok k -> names_ok k'.
Proof. intros Hs [Hu Hn]. split; [intros t t' n|intros t n]; rewrite !(Hs _ n); [apply Hu|apply Hn]. Qed.

Section WithLaws.
Context (laws : forall h, h ∈ storageHandles -> HandleLaws h).

Lemma all_storages_ok handles k r k' :
  handles ⊆ storageHandles -> all_storages handles k = (r, k') ->
  same_storages k k' /\
  forall l, r = Ok l -> forall n, n ∈ st_Name <$> l <-> exists h, h ∈ handles /\ has (GetType h) n k.
Proof.
  revert k r k'. induction handles as [|h handles IH]; intros k r k' Hsub Ha; simpl in Ha.
  - injection Ha as <- <-. split; [done|]. intros l [= <-] n. set_solver.
  - assert (Hl : HandleLaws h) by (apply laws, Hsub; left). unfold bind, ret in Ha.
    destruct (GetStorages h k) as [[s|e] k1] eqn:Hg; apply handle_list in Hg as [Hk1 Hs]; [|by injection Ha as <- <-].
    destruct (all_storages handles k1) as [rr k2] eqn:Hr. apply IH in Hr as [Hk2 Hrest]; [|set_solver].
    destruct rr as [rest|e]; injection Ha as <- <-; (split; [by transitivity k1|]); [|done].
    intros l [= <-] n. rewrite fmap_app, elem_of_app, <- (Hs s eq_refl n), (Hrest rest eq_refl n). setoid_rewrite (Hk1 _ n).
    set_solver.
Qed.
Lemma checkStorageExist_ok name k r k' :
  checkStorageExist name k = (r, k') ->
  same_storages k k' /\ (r = Ok false -> names_ok k -> forall t, ~ has t name k).
Proof.
  unfold checkStorageExist, getStorages, bind, ret. intros Hc. destruct (all_storages storageHandles k) as [ra k1] eqn:Ha.
  apply all_storages_ok in Ha as [Hk1 Hl]; [|done]. destruct ra as [l|e]; injection Hc as <- <-; (split; [done|]); [|done].
  intros [= Hno] [_ Hn] t Ht. specialize (Hl l eq_refl name) as [_ Hin].
  assert (Hname : name ∈ st_Name <$> l).
  { apply Hin. apply Hn in Ht as Hh. apply list_elem_of_fmap in Hh as (h & -> & Hh). eauto. }
  apply list_elem_of_fmap in Hname as (s & Hs & Hinl). assert (existsb (fun s => String.eqb (st_Name s) name) (merge_sort NameNotGreater l) = true); [|congruence].
  apply existsb_exists. exists s. split; [apply list_elem_of_In; by rewrite merge_sort_Permutation|by apply String.eqb_eq].
Qed.
Lemma getHandleFromType_ok typ h : getHandleFromType typ = Some h -> h ∈ storageHandles /\ GetType h = typ.
Proof. unfold getHandleFromType. intros [Hin Heq]%find_some. apply String.eqb_eq in Heq. by rewrite list_elem_of_In. Qed.

Lemma createStorage_ok s k r k' :
  createStorage s k = (r, k') -> names_ok k ->
  match r with
  | Ok _ => (forall t, ~ has t s.(st_Name) k) /\ forall t n, has t n k' <-> has t n k \/ t = s.(st_Type) /\ n = s.(st_Name)
  | Err _ => same_storages k k'
  end /\ names_ok k'.
Proof.
  intros Hc Hok. unfold createStorage, bind, guard, lift, throw, ret in Hc.
  destruct (checkStorageExist (st_Name s) k) as [rc k1] eqn:He. apply checkStorageExist_ok in He as [Hk1 Hno].
  pose proof (same_names_ok _ _ Hk1 Hok) as Hok1. destruct rc as [[]|e]; [by injection Hc as <- <-| |by injection Hc as <- <-].
  specialize (Hno eq_refl Hok). simpl in Hc.
  destruct (getHandleFromType (st_Type s)) as [h|] eqn:Hh; [|by injection Hc as <- <-]. apply getHandleFromType_ok in Hh as [Hin Ht].
  simpl in Hc. apply (@handle_create h (laws h Hin)) in Hc; [|done]. rewrite Ht in Hc. destruct r as [[]|e].
  - assert (Hiff : forall t n, has t n k' <-> has t n k \/ t = st_Type s /\ n = st_Name s) by (intros t n; by rewrite (Hc t n), (Hk1 t n)).
    split; [done|]. destruct Hok as [Hu Hn]. split.
    + intros t t' n. rewrite !Hiff. intros [Ha|[-> ->]] [Hb|[-> Hb]]; [by apply (Hu _ _ n)| | |done].
      * subst. by apply Hno in Ha.
      * by apply Hno in Hb.
    + intros t n [Ha|[-> ->]]%Hiff; [by apply (Hn _ n)|]. rewrite <- Ht. by apply list_elem_of_fmap_2.
  - assert (Hs : same_storages k k') by (by transitivity k1). split; [done|by apply (same_names_ok k)].
Qed.
Lemma updateStorage_keeps s : keeps same_storages (updateStorage s).
Proof.
  intros k. unfold updateStorage, bind, lift. destruct (getHandleFromType (st_Type s)) as [h|] eqn:Hh; simpl; [|done].
  apply getHandleFromType_ok in Hh as [Hin _]. apply (@handle_update h (laws h Hin)).
Qed.
Lemma find_storage_ok name handles k r k' :
  handles ⊆ storageHandles -> find_storage name handles k = (r, k') ->
  same_storages k k' /\ forall h s, r = Ok (h, s) -> h ∈ storageHandles.
Proof.
  revert k. induction handles as [|h handles IH]; intros k Hsub Hf; simpl in Hf; [by injection Hf as <- <-|].
  assert (Hin : h ∈ storageHandles) by (apply Hsub; left). unfold bind, attempt, ret, throw in Hf.
  destruct (GetStorage h name k) as [rg k1] eqn:Hg. apply (keeps_run same_storages) in Hg; [|apply (@handle_get h (laws h Hin))].
  destruct rg as [s|e]; [injection Hf as <- <-; split; [done|]; by intros ?? [= <- _]|].
  destruct (is_not_found e); [|by injection Hf as <- <-]. apply IH in Hf as [Hk Hh]; [|set_solver]. split; [by transitivity k1|done].
Qed.
Lemma deleteStorage_ok name k r k' :
  deleteStorage name k = (r, k') -> names_ok k ->
  match r with
  | Ok _ => forall t n, (has t n k' -> has t n k) /\ (n <> name -> has t n k -> has t n k')
  | Err _ => same_storages k k'
  end /\ names_ok k'.
Proof.
  unfold deleteStorage, bind. intros Hd Hok. destruct (find_storage name storageHandles k) as [rf k1] eqn:Hf.
  apply find_storage_ok in Hf as [Hk1 Hin]; [|done]. destruct rf as [[h s]|e].
  2:{ injection Hd as <- <-. split; [done|by apply (same_names_ok k)]. }
  apply (@handle_delete h (laws h (Hin h s eq_refl))) in Hd. destruct r as [[]|e].
  - assert (Hiff : forall t n, (has t n k' -> has t n k) /\ (n <> name -> has t n k -> has t n k')).
    { intros t n. rewrite <- (Hk1 t n). apply Hd. }
    split; [done|]. destruct Hok as [Hu Hn]. split; [intros t t' n Ha Hb|intros t n Ha].
    + apply (Hu _ _ n); by apply Hiff.
    + apply (Hn _ n). by apply Hiff.
  - assert (Hs : same_storages k k') by (by transitivity k1). split; [done|by apply (same_names_ok k)].
Qed.

Inductive StorageRequest := RqCreate (s : Storage) | RqUpdate (s : Storage) | RqDelete (name : string).
Definition storage_request (user : option string) (cluster : string) (rq : StorageRequest)
    : M (gmap string K) Workload.workload_error unit :=
  match rq with
  | RqCreate s => do! Create user cluster s in ret tt
  | RqUpdate s => do! Update user cluster s in ret tt
  | RqDelete name => Delete user cluster name
  end.
(** What a request that succeeds does to the storages there are. *)
Definition storages_after (rq : StorageRequest) (k k' : K) : Prop :=
  match rq with
  | RqCreate s => (forall t, ~ has t s.(st_Name) k) /\ forall t n, has t n k' <-> has t n k \/ t = s.(st_Type) /\ n = s.(st_Name)
  | RqUpdate _ => same_storages k k'
  | RqDelete name => forall t n, (has t n k' -> has t n k) /\ (n <> name -> has t n k -> has t n k')
  end.
Lemma as_admin_at {A} user cluster (m : M K Workload.workload_error A) ks ks' k k' r :
  as_admin user cluster m ks = (r, ks') -> ks !! cluster = Some k -> ks' !! cluster = Some k' ->
  (r = Err (Workload.Answer PermissionDenied) /\ k' = k) \/ (getCurrentUser user = Administrator /\ m k = (r, k')).
Proof.
  unfold as_admin. destruct (isAdmin (getCurrentUser user)) eqn:Ha; intros Hm Hk Hk'.
  - right. apply isAdmin_iff in Ha. split; [done|]. apply (on_cluster_at _ _ _ _ _ _ k) in Hm as (kc & Hm & ->); [|done].
    rewrite lookup_insert_eq in Hk'. by injection Hk' as ->.
  - left. injection Hm as <- <-. split; [done|congruence].
Qed.
Lemma storage_request_ok user cluster rq (ks ks' : gmap string K) k k' r :
  storage_request user cluster rq ks = (r, ks') -> ks !! cluster = Some k -> ks' !! cluster = Some k' -> names_ok k ->
  names_ok k' /\
  match r with
  | Ok _ => getCurrentUser user = Administrator /\ storages_after rq k k'
  | Err _ => same_storages k k'
  end.
Proof.
  intros Hr Hk Hk' Hok. destruct rq as [s|s|name]; simpl in *; unfold Create, Update, Delete, bind, ret in Hr.
  - destruct (as_admin _ _ _ ks) as [r1 ks1] eqn:Hm. assert (Hrr : r = match r1 with Ok _ => Ok tt | Err e => Err e end /\ ks' = ks1)
      by (destruct r1; by injection Hr as <- <-). destruct Hrr as [-> ->].
    apply (as_admin_at _ _ _ _ _ k k') in Hm as [[-> ->]|[Ha Hm]]; [done| |done..].
    unfold rethrow in Hm. destruct (createStorage s k) as [rc kc] eqn:Hc. apply createStorage_ok in Hc as [Hst Hok']; [|done].
    destruct rc; simpl in Hm; injection Hm as <- <-; by split.
  - destruct (as_admin _ _ _ ks) as [r1 ks1] eqn:Hm. assert (Hrr : r = match r1 with Ok _ => Ok tt | Err e => Err e end /\ ks' = ks1)
      by (destruct r1; by injection Hr as <- <-). destruct Hrr as [-> ->].
    apply (as_admin_at _ _ _ _ _ k k') in Hm as [[-> ->]|[Ha Hm]]; [done| |done..].
    unfold rethrow in Hm. destruct (updateStorage s k) as [rc kc] eqn:Hc.
    apply (keeps_run same_storages) in Hc; [|apply updateStorage_keeps].
    destruct rc; simpl in Hm; injection Hm as <- <-; (split; [by apply (same_names_ok k)|done]).
  - apply (as_admin_at _ _ _ _ _ k k') in Hr as [[-> ->]|[Ha Hm]]; [done| |done..].
    unfold rethrow in Hm. destruct (deleteStorage name k) as [rc kc] eqn:Hc. apply deleteStorage_ok in Hc as [Hst Hok']; [|done].
    destruct rc; simpl in Hm; injection Hm as <- <-; by split.
Qed.
End WithLaws.
End Manager.
