(* ===== verification/StorageLaws.v ===== *)
(** The four kinds of storages implement the interface of the storage manager. *)
From S2P Require Import Prelude GoStrings ClusterTypes Authorizer RestApi KubeApi Secret PersistentVolume PodTemplate Pod Node VolumeClaim.
From S2P Require Import StorageTypes StorageCluster NetStorage Storage.

(** The calls on one kind of object leave the storages of the other kinds alone. *)
Class StorageFrames `{Quantities} (K : Type) `{!KubeKind K K8sStorageCluster} `{!KubeKind K K8sIscsi} `{!KubeKind K K8sNfs}
    `{!KubeKind K K8sSecret} `{!KubeKind K K8sNode} `{!KubeKind K VolumeAttachment} : Prop := {
  cluster_iscsi :: KubeFrame K K8sStorageCluster K8sIscsi;
  cluster_nfs :: KubeFrame K K8sStorageCluster K8sNfs;
  iscsi_cluster :: KubeFrame K K8sIscsi K8sStorageCluster;
  iscsi_nfs :: KubeFrame K K8sIscsi K8sNfs;
  nfs_cluster :: KubeFrame K K8sNfs K8sStorageCluster;
  nfs_iscsi :: KubeFrame K K8sNfs K8sIscsi;
  secret_cluster :: KubeFrame K K8sSecret K8sStorageCluster;
  secret_iscsi :: KubeFrame K K8sSecret K8sIscsi;
  secret_nfs :: KubeFrame K K8sSecret K8sNfs;
  node_cluster :: KubeFrame K K8sNode K8sStorageCluster;
  node_iscsi :: KubeFrame K K8sNode K8sIscsi;
  node_nfs :: KubeFrame K K8sNode K8sNfs;
  attachment_cluster :: KubeFrame K VolumeAttachment K8sStorageCluster;
  attachment_iscsi :: KubeFrame K VolumeAttachment K8sIscsi;
  attachment_nfs :: KubeFrame K VolumeAttachment K8sNfs;
  drop_cluster_iscsi :: KubeDeleteFrame K K8sStorageCluster K8sIscsi;
  drop_cluster_nfs :: KubeDeleteFrame K K8sStorageCluster K8sNfs;
  drop_iscsi_cluster :: KubeDeleteFrame K K8sIscsi K8sStorageCluster;
  drop_iscsi_nfs :: KubeDeleteFrame K K8sIscsi K8sNfs;
  drop_nfs_cluster :: KubeDeleteFrame K K8sNfs K8sStorageCluster;
  drop_nfs_iscsi :: KubeDeleteFrame K K8sNfs K8sIscsi;
  drop_secret_cluster :: KubeDeleteFrame K K8sSecret K8sStorageCluster;
  drop_secret_iscsi :: KubeDeleteFrame K K8sSecret K8sIscsi;
  drop_secret_nfs :: KubeDeleteFrame K K8sSecret K8sNfs
}.

(** ** Storages that are objects of one kind *)

Section Objects.
Context {K A : Type} `{KubeLaws K A} (typ : A -> option string) (typ_spec : forall o o', kube_spec o' = kube_spec o -> typ o' = typ o).

(** An object of the name and of the type. *)
Definition has_of (t n : string) (k : K) : Prop :=
  exists o : A, kube_objects k !! ("", n) = Some o /\ kube_key o = ("", n) /\ typ o = Some t.

Lemma has_of_same k k' t n : same_kind A k k' -> has_of t n k' <-> has_of t n k.
Proof. unfold has_of, same_kind. by intros ->. Qed.
Lemma listed k l k' t n :
  kube_list "" k = (Ok l, k') -> has_of t n k <-> exists o, o ∈ l /\ kube_key o = ("", n) /\ typ o = Some t.
Proof.
  intros (_ & _ & Hl)%kube_list_law. unfold has_of. split.
  - intros (o & Ho & Hkey & Ht). exists o. rewrite Hl, Hkey. auto.
  - intros (o & Hin & Hkey & Ht). apply Hl in Hin as [Ho _]. rewrite Hkey in Ho. eauto.
Qed.
Lemma has_of_inserted (m : gmap (string * string) A) k k' key o :
  kube_objects k = m -> kube_objects k' = <[key := o]> m -> kube_key o = key ->
  forall t n, has_of t n k' <-> (("", n) = key /\ typ o = Some t) \/ (("", n) <> key /\ has_of t n k).
Proof.
  intros Hk Hk' Ho t n. unfold has_of. rewrite Hk, Hk'. destruct (decide (("", n) = key)) as [Heq|Hne].
  - rewrite Heq, lookup_insert_eq. naive_solver.
  - rewrite lookup_insert_ne by congruence. naive_solver.
Qed.
Lemma created o k o' k' :
  kube_create o k = (Ok o', k') -> forall t n, has_of t n k' <-> has_of t n k \/ typ o = Some t /\ ("", n) = kube_key o.
Proof.
  intros (Hkey & Hspec & Hnone & Hobj)%kube_create_law t n.
  rewrite (has_of_inserted _ k k' _ o' eq_refl Hobj Hkey), (typ_spec o o' Hspec).
  destruct (decide (("", n) = kube_key o)) as [Heq|Hne]; [|naive_solver].
  assert (~ has_of t n k) by (intros (x & Hx & _); congruence). naive_solver.
Qed.
Lemma updated o k r k' old :
  kube_objects k !! kube_key o = Some old -> kube_key old = kube_key o -> typ old = typ o ->
  kube_update o k = (r, k') -> forall t n, has_of t n k' <-> has_of t n k.
Proof.
  intros Hold Hkeyo Ht Hu t n. destruct r as [o'|e]; apply kube_update_law in Hu; [|by apply has_of_same].
  destruct Hu as (Hkey & Hspec & _ & Hobj). rewrite (has_of_inserted _ k k' _ o' eq_refl Hobj Hkey), (typ_spec o o' Hspec).
  destruct (decide (("", n) = kube_key o)) as [Heq|Hne]; [|naive_solver].
  assert (has_of t n k <-> typ o = Some t); [|naive_solver]. unfold has_of. rewrite Heq, Hold, <- Ht. naive_solver.
Qed.
Lemma deleted name k k' old :
  kube_objects k !! ("", name) = Some old -> kube_key old = ("", name) -> kube_delete "" name k = (Ok tt, k') ->
  forall t n, (has_of t n k' -> has_of t n k) /\ (n <> name -> has_of t n k -> has_of t n k').
Proof.
  intros Hold Hkeyo [Hd|(m & Hd & _ & Hkey & Hspec)]%kube_delete_law t n.
  - unfold has_of. rewrite Hd. destruct (decide (n = name)) as [->|Hne]; [rewrite lookup_delete_eq; naive_solver|].
    rewrite lookup_delete_ne by congruence. naive_solver.
  - rewrite (has_of_inserted _ k k' _ m eq_refl Hd Hkey). rewrite Hold in Hspec. injection Hspec as Hspec.
    rewrite (typ_spec old m (eq_sym Hspec)). split; [|intros Hne Hh; right; split; [congruence|done]].
    intros [[[= ->] Ht]|[_ Hh]]; [|done]. by exists old.
Qed.
End Objects.

Section Laws.
Context `{Quantities} `{StoragePhases} {K : Type} `{!KubeKind K K8sStorageCluster} `{!KubeKind K K8sIscsi} `{!KubeKind K K8sNfs}
  `{!KubeKind K K8sSecret} `{!KubeKind K K8sNode} `{!KubeKind K VolumeAttachment} `{!ClusterAgent K}
  `{!KubeLaws K K8sStorageCluster} `{!KubeLaws K K8sIscsi} `{!KubeLaws K K8sNfs} `{!StorageFrames K}.

(** The storages of a cluster, by type and name. *)
Definition cluster_type (s : K8sStorageCluster) : option string :=
  if String.eqb s.(sk_StorageType) IscsiType || String.eqb s.(sk_StorageType) NfsType then None else Some s.(sk_StorageType).
Definition iscsi_type (_ : K8sIscsi) : option string := Some IscsiType.
Definition nfs_type (_ : K8sNfs) : option string := Some NfsType.
Definition has_storage (t n : string) (k : K) : Prop := has_of cluster_type t n k \/ has_of iscsi_type t n k \/ has_of nfs_type t n k.

(** Runs that touch no storage. *)
Definition quiet (k k' : K) : Prop := same_kind K8sStorageCluster k k' /\ same_kind K8sIscsi k k' /\ same_kind K8sNfs k k'.
#[local] Instance quiet_preorder : PreOrder quiet.
Proof.
  split; [done|]. intros k1 k2 k3 (H1 & H2 & H3) (H4 & H5 & H6). unfold quiet, same_kind in *.
  split; [congruence|]. split; congruence.
Qed.
Lemma quiet_same k k' : quiet k k' -> same_storages has_storage k k'.
Proof. intros (Hc & Hi & Hn) t n. unfold has_storage. by rewrite !(has_of_same _ k k'). Qed.
Lemma keeps_same {E A} (m : M K E A) : keeps quiet m -> keeps (same_storages has_storage) m.
Proof. apply keeps_weaken, quiet_same. Qed.

Lemma get_kind_same {A} `{KubeLaws K A} ns n (k : K) : same_kind A k (snd (kube_get (Obj := A) ns n k)).
Proof. destruct (kube_get ns n k) eqn:Hg. by apply kube_get_law in Hg as [? _]. Qed.
Lemma list_kind_same {A} `{KubeLaws K A} ns (k : K) : same_kind A k (snd (kube_list (Obj := A) ns k)).
Proof. destruct (kube_list ns k) eqn:Hg. by apply kube_list_law in Hg as [? _]. Qed.

Ltac quiet_call :=
  let c := fresh "c" in intros c; unfold quiet; split; [|split];
  first [apply frame_get | apply frame_list | apply frame_create | apply frame_update | apply frame_delete
        | apply get_kind_same | apply list_kind_same].
#[local] Hint Extern 1 (keeps quiet (kube_get _ _)) => quiet_call : keeps.
#[local] Hint Extern 1 (keeps quiet (kube_list _)) => quiet_call : keeps.
#[local] Hint Extern 1 (keeps quiet (kube_create _)) => quiet_call : keeps.
#[local] Hint Extern 1 (keeps quiet (kube_update _)) => quiet_call : keeps.
#[local] Hint Extern 1 (keeps quiet (kube_delete _ _)) => quiet_call : keeps.

Lemma quiet_agent name : keeps quiet (genStoragePVFromClusterAgent (K := K) name).
Proof. intros k. reflexivity. Qed.
Lemma quiet_devices : keeps quiet (getAllDevices (K := K)).
Proof. intros k. reflexivity. Qed.
#[local] Hint Resolve quiet_agent quiet_devices : keeps.

Lemma quiet_cut_hosts {E} infos resp : keeps quiet (cut_hosts (K := K) (E := E) infos resp).
Proof. induction resp; simpl; unfold isValidHost, getK8SNode; keep. Qed.
#[local] Hint Resolve quiet_cut_hosts : keeps.
Lemma quiet_valid_hosts hosts : keeps quiet (isHostsValidate (K := K) hosts).
Proof. unfold isHostsValidate, getBlockDevices, cutInvalid, getStorageUsed, getStorageClusters. keep. Qed.
Lemma quiet_cluster_storage name : keeps quiet (cluster_storage (K := K) name).
Proof. unfold cluster_storage, getStorageCluster, storageClusterToSCStorageDetail. keep. Qed.
Lemma quiet_type_exists typ : keeps quiet (checkStorageClusterTypeExist (K := K) typ).
Proof. unfold checkStorageClusterTypeExist, getStorageClusters. keep. Qed.
Lemma quiet_del_hosts name typ hosts : keeps quiet (isDelHostsUsed (K := K) name typ hosts).
Proof. unfold isDelHostsUsed, getAttachedHosts. keep. Qed.
Lemma quiet_iscsi_storage name : keeps quiet (iscsi_storage (K := K) name).
Proof. unfold iscsi_storage, getIscsi, iscsiToSCStorageDetail, getIscsiSecret, getSecret. keep. Qed.
Lemma quiet_roles l : keeps quiet (initiatorsRoleValidation (K := K) l).
Proof. induction l; simpl; unfold getK8SNode; keep. Qed.
#[local] Hint Resolve quiet_valid_hosts quiet_type_exists quiet_del_hosts quiet_roles : keeps.
Lemma quiet_check_initiators i p : keeps quiet (check_initiators (K := K) i p).
Proof. unfold check_initiators. keep. Qed.
Lemma quiet_change_secret name i p c : keeps quiet (change_secret (K := K) name i p c).
Proof. unfold change_secret, deleteSecret, createSecret, updateIscsiSecret, getSecret. keep. Qed.
Lemma quiet_nfs_storage name : keeps quiet (nfs_storage (K := K) name).
Proof. unfold nfs_storage, getNfs, nfsToSCStorageDetail. keep. Qed.
#[local] Hint Resolve quiet_check_initiators quiet_change_secret : keeps.

(** ** Runs that change one storage *)

(** From a state with the property [Pre]: [Q] holds of the states before and after a success,
    and an error leaves the storages as they were. *)
Definition effect {A} (Pre : K -> Prop) (Q : K -> K -> Prop) (m : M K storage_error A) : Prop :=
  forall k r k', Pre k -> m k = (r, k') -> match r with Ok _ => Q k k' | Err _ => same_storages has_storage k k' end.
Definition closed (Q : K -> K -> Prop) : Prop := forall k1 k2 k3, same_storages has_storage k1 k2 -> Q k2 k3 -> Q k1 k3.
Definition stable (Pre : K -> Prop) : Prop := forall k1 k2, quiet k1 k2 -> Pre k1 -> Pre k2.
Lemma effect_bind {A B} Pre Q (m : M K storage_error A) (f : A -> M K storage_error B) :
  stable Pre -> closed Q -> keeps quiet m -> (forall a, effect Pre Q (f a)) -> effect Pre Q (bind m f).
Proof.
  intros HP HQ Hm Hf k r k' Hk Hb. unfold bind in Hb.
  destruct (m k) as [[a|e] k1] eqn:Hmk; apply (keeps_run quiet) in Hmk as Hq; try done; [|injection Hb as <- <-; by apply quiet_same].
  apply Hf in Hb; [|by apply (HP k)]. apply quiet_same in Hq. destruct r; [by apply (HQ _ k1)|by transitivity k1].
Qed.
(** The read of an object, which is then there. *)
Lemma effect_get {A B} `{KubeLaws K A} Q name (f : A -> M K storage_error B) :
  closed Q -> keeps quiet (kube_get (Obj := A) "" name) ->
  (forall o, kube_key o = ("", name) -> effect (fun k => kube_objects (Obj := A) k !! ("", name) = Some o) Q (f o)) ->
  effect (fun _ => True) Q (let! o := rethrow EKube (kube_get (Obj := A) "" name) in f o).
Proof.
  intros HQ Hquiet Hf k r k' _ Hb. unfold bind, rethrow in Hb. destruct (kube_get "" name k) as [rg k1] eqn:Hg.
  apply (keeps_run quiet) in Hg as Hq; [|done]. apply quiet_same in Hq. apply kube_get_law in Hg as [Hk1 Hr].
  destruct rg as [o|e]; [|by injection Hb as <- <-]. destruct Hr as [Ho Hkey]. apply Hf in Hb; [|done|by rewrite Hk1].
  destruct r; [by apply (HQ _ k1)|by transitivity k1].
Qed.

Definition added (t0 n0 : string) (k k' : K) : Prop := forall t n, has_storage t n k' <-> has_storage t n k \/ t = t0 /\ n = n0.
Definition dropped (name : string) (k k' : K) : Prop :=
  forall t n, (has_storage t n k' -> has_storage t n k) /\ (n <> name -> has_storage t n k -> has_storage t n k').
Lemma closed_added t n : closed (added t n).
Proof. intros k1 k2 k3 H12 H23 t' n'. by rewrite (H23 t' n'), (H12 t' n'). Qed.
Lemma closed_dropped n : closed (dropped n).
Proof. intros k1 k2 k3 H12 H23 t' n'. rewrite <- (H12 t' n'). apply H23. Qed.
Lemma closed_same : closed (same_storages has_storage).
Proof. intros k1 k2 k3 H12 H23. by transitivity k2. Qed.
Lemma stable_true : stable (fun _ => True).
Proof. done. Qed.
Lemma stable_cluster n (o : K8sStorageCluster) : stable (fun k => kube_objects k !! ("", n) = Some o).
Proof. intros k1 k2 (Hc & _ & _). by rewrite Hc. Qed.
Lemma stable_iscsi n (o : K8sIscsi) : stable (fun k => kube_objects k !! ("", n) = Some o).
Proof. intros k1 k2 (_ & Hi & _). by rewrite Hi. Qed.
Lemma stable_nfs n (o : K8sNfs) : stable (fun k => kube_objects k !! ("", n) = Some o).
Proof. intros k1 k2 (_ & _ & Hn). by rewrite Hn. Qed.

(** ** The last call *)

Section LastCall.
Context {A} `{KubeLaws K A} (typ : A -> option string) (typ_spec : forall o o', kube_spec o' = kube_spec o -> typ o' = typ o)
  (rest : string -> string -> K -> Prop) (parts : forall t n k, has_storage t n k <-> has_of typ t n k \/ rest t n k)
  (rest_create : forall (o : A) k t n, rest t n (snd (kube_create o k)) <-> rest t n k)
  (rest_update : forall (o : A) k t n, rest t n (snd (kube_update o k)) <-> rest t n k)
  (rest_delete : forall ns name k t n, rest t n (snd (kube_delete (Obj := A) ns name k)) <-> rest t n k).

Lemma created_effect (o : A) t0 n0 :
  typ o = Some t0 -> kube_key o = ("", n0) -> effect (fun _ => True) (added t0 n0) (do! rethrow EKube (kube_create o) in ret tt).
Proof.
  intros Ht0 Hkey k r k' _ Hc. unfold bind, rethrow, ret in Hc. pose proof (rest_create o k) as Hrest.
  destruct (kube_create o k) as [[o'|e] k1] eqn:Ho; cbn [snd] in Hrest; injection Hc as <- <-.
  - intros t n. rewrite !parts, Hrest, (created typ typ_spec _ _ _ _ Ho), Hkey, Ht0. naive_solver.
  - apply kube_create_law in Ho as [Ho _]. intros t n. by rewrite !parts, Hrest, (has_of_same typ _ _ _ _ Ho).
Qed.
Lemma updated_effect (o old : A) n0 :
  typ old = typ o -> kube_key old = ("", n0) -> kube_key o = ("", n0) ->
  effect (fun k => kube_objects k !! ("", n0) = Some old) (same_storages has_storage) (do! rethrow EKube (kube_update o) in ret tt).
Proof.
  intros Ht Hko Hk k r k' Hold Hu. unfold bind, rethrow, ret in Hu. pose proof (rest_update o k) as Hrest.
  destruct (kube_update o k) as [ru k1] eqn:Ho. cbn [snd] in Hrest.
  assert (Hs : same_storages has_storage k k1).
  { intros t n. rewrite !parts, Hrest. rewrite (updated typ typ_spec o k ru k1 old); [done|congruence..|done|done]. }
  destruct ru; injection Hu as <- <-; exact Hs.
Qed.
Lemma deleted_effect (old : A) n0 :
  kube_key old = ("", n0) ->
  effect (fun k => kube_objects k !! ("", n0) = Some old) (dropped n0) (rethrow EKube (kube_delete (Obj := A) "" n0)).
Proof.
  intros Hko k r k' Hold Hd. unfold rethrow in Hd. pose proof (rest_delete "" n0 k) as Hrest.
  destruct (kube_delete "" n0 k) as [[[]|e] k1] eqn:Ho; cbn [snd] in Hrest; injection Hd as <- <-.
  - intros t n. rewrite !parts, Hrest. pose proof (deleted typ typ_spec n0 k k1 old Hold Hko Ho t n). naive_solver.
  - apply kube_delete_law in Ho as [Ho _]. intros t n. by rewrite !parts, Hrest, (has_of_same typ _ _ _ _ Ho).
Qed.
End LastCall.

Definition cluster_rest (t n : string) (k : K) : Prop := has_of iscsi_type t n k \/ has_of nfs_type t n k.
Definition iscsi_rest (t n : string) (k : K) : Prop := has_of cluster_type t n k \/ has_of nfs_type t n k.
Definition nfs_rest (t n : string) (k : K) : Prop := has_of cluster_type t n k \/ has_of iscsi_type t n k.
Lemma cluster_parts t n k : has_storage t n k <-> has_of cluster_type t n k \/ cluster_rest t n k.
Proof. done. Qed.
Lemma iscsi_parts t n k : has_storage t n k <-> has_of iscsi_type t n k \/ iscsi_rest t n k.
Proof. unfold has_storage, iscsi_rest. tauto. Qed.
Lemma nfs_parts t n k : has_storage t n k <-> has_of nfs_type t n k \/ nfs_rest t n k.
Proof. unfold has_storage, nfs_rest. tauto. Qed.
Lemma cluster_type_spec (o o' : K8sStorageCluster) : kube_spec o' = kube_spec o -> cluster_type o' = cluster_type o.
Proof. unfold kube_spec, cluster_type. simpl. by intros [= _ -> _]. Qed.
Lemma iscsi_type_spec (o o' : K8sIscsi) : kube_spec o' = kube_spec o -> iscsi_type o' = iscsi_type o.
Proof. done. Qed.
Lemma nfs_type_spec (o o' : K8sNfs) : kube_spec o' = kube_spec o -> nfs_type o' = nfs_type o.
Proof. done. Qed.
Lemma rest_of_same {A B} `{KubeObject A} `{KubeObject B} `{!KubeKind K A} `{!KubeKind K B} (ta : A -> option string) (tb : B -> option string) k k' t n :
  same_kind A k k' -> same_kind B k k' -> has_of ta t n k' \/ has_of tb t n k' <-> has_of ta t n k \/ has_of tb t n k.
Proof. intros Ha Hb. by rewrite (has_of_same ta _ _ _ _ Ha), (has_of_same tb _ _ _ _ Hb). Qed.
Ltac rest_same := intros; apply rest_of_same; first [apply frame_create | apply frame_update | apply frame_delete].

Ltac last_call := solve [done | rest_same].

Lemma cluster_created (o : K8sStorageCluster) t0 :
  cluster_type o = Some t0 -> effect (fun _ => True) (added t0 o.(sk_Name)) (do! rethrow EKube (kube_create o) in ret tt).
Proof. intros Ht. apply (created_effect cluster_type cluster_type_spec cluster_rest cluster_parts); last_call. Qed.
Lemma iscsi_created (o : K8sIscsi) : effect (fun _ => True) (added IscsiType o.(ki_Name)) (do! rethrow EKube (kube_create o) in ret tt).
Proof. apply (created_effect iscsi_type iscsi_type_spec iscsi_rest iscsi_parts); last_call. Qed.
Lemma nfs_created (o : K8sNfs) : effect (fun _ => True) (added NfsType o.(kf_Name)) (do! rethrow EKube (kube_create o) in ret tt).
Proof. apply (created_effect nfs_type nfs_type_spec nfs_rest nfs_parts); last_call. Qed.

(** ** The kinds *)

Ltac quiet_step := first [apply closed_added | apply closed_dropped | apply closed_same | apply stable_true | apply stable_cluster
  | apply stable_iscsi | apply stable_nfs | solve [keep]].
Ltac quiet_head := apply effect_bind; [quiet_step|quiet_step|quiet_step|intros ?].
Lemma effect_throw {A} Pre Q (e : storage_error) : effect (A := A) Pre Q (throw e).
Proof. by intros k r k' _ [= <- <-]. Qed.
Lemma effect_same {A} (m : M K storage_error A) : effect (fun _ => True) (same_storages has_storage) m -> keeps (same_storages has_storage) m.
Proof. intros Hm k. destruct (m k) as [r k'] eqn:Hr. apply Hm in Hr; [by destruct r|done]. Qed.

Lemma deleteStorageCluster_effect name : effect (fun _ => True) (dropped name) (deleteStorageCluster (K := K) name).
Proof.
  apply effect_get; [quiet_step|quiet_step|]. intros o [= Ho]. do 2 quiet_head. rewrite Ho.
  apply (deleted_effect cluster_type cluster_type_spec cluster_rest cluster_parts); [rest_same|rest_same|rest_same|]. unfold kube_key. simpl. congruence.
Qed.
Lemma updateStorageCluster_effect name typ hosts :
  effect (fun _ => True) (same_storages has_storage) (updateStorageCluster (K := K) name typ hosts).
Proof.
  apply effect_get; [quiet_step|quiet_step|]. intros o Ho. do 3 quiet_head.
  apply (updated_effect cluster_type cluster_type_spec cluster_rest cluster_parts); last_call.
Qed.
Lemma createStorageCluster_effect name typ hosts :
  cluster_type (mkStorageCluster name ∅ typ hosts "" (mkCapacity (mkSize "" "" "") []) [] [] 0 None) = Some typ ->
  effect (fun _ => True) (added typ name) (createStorageCluster (K := K) name typ hosts).
Proof. intros Ht. unfold createStorageCluster. do 3 quiet_head. apply cluster_created. exact Ht. Qed.

Lemma delete_iscsi_effect name : effect (fun _ => True) (dropped name) (delete_iscsi (K := K) name).
Proof.
  apply effect_get; [quiet_step|quiet_step|]. intros o [= Ho]. unfold deleteSecret. do 3 quiet_head. rewrite Ho.
  apply (deleted_effect iscsi_type iscsi_type_spec iscsi_rest iscsi_parts); [rest_same|rest_same|rest_same|]. unfold kube_key. simpl. congruence.
Qed.
Lemma create_iscsi_effect s : effect (fun _ => True) (added IscsiType s.(st_Name)) (create_iscsi (K := K) s).
Proof.
  unfold create_iscsi, iscsiDuplicateValidation, getIscsis, createSecret. destruct (pa_Iscsi _); [|apply effect_throw].
  do 6 quiet_head. apply (iscsi_created (mkIscsi _ _ _ _ _ _ _)).
Qed.
Lemma update_iscsi_effect s : effect (fun _ => True) (same_storages has_storage) (update_iscsi (K := K) s).
Proof.
  unfold update_iscsi. destruct (pa_Iscsi _); [|apply effect_throw]. quiet_head.
  apply effect_get; [quiet_step|quiet_step|]. intros o Ho. unfold getIscsiSecret, getSecret. do 5 quiet_head.
  apply (updated_effect iscsi_type iscsi_type_spec iscsi_rest iscsi_parts); last_call.
Qed.

Lemma delete_nfs_effect name : effect (fun _ => True) (dropped name) (delete_nfs (K := K) name).
Proof.
  apply effect_get; [quiet_step|quiet_step|]. intros o [= Ho]. do 2 quiet_head. rewrite Ho.
  apply (deleted_effect nfs_type nfs_type_spec nfs_rest nfs_parts); [rest_same|rest_same|rest_same|]. unfold kube_key. simpl. congruence.
Qed.
Lemma create_nfs_effect s : effect (fun _ => True) (added NfsType s.(st_Name)) (create_nfs (K := K) s).
Proof.
  unfold create_nfs, nfsDuplicateValidation, getNfss. destruct (pa_Nfs _); [|apply effect_throw].
  do 3 quiet_head. apply (nfs_created (mkNfs _ _ _ _ _ _ _ _)).
Qed.
Lemma update_nfs_effect s : effect (fun _ => True) (same_storages has_storage) (update_nfs (K := K) s).
Proof.
  unfold update_nfs. destruct (pa_Nfs _); [|apply effect_throw]. quiet_head.
  apply effect_get; [quiet_step|quiet_step|]. intros o Ho. do 3 quiet_head.
  apply (updated_effect nfs_type nfs_type_spec nfs_rest nfs_parts); last_call.
Qed.

(** What a kind lists are its storages. *)
Lemma shown_listed {A} `{KubeLaws K A} (typ : A -> option string) (name : A -> string) (show : A -> Storage) (keep : A -> Prop)
    `{!forall o, Decision (keep o)} t (k k' : K) r :
  (forall o, kube_key o = ("", name o)) -> (forall o, st_Name (show o) = name o) -> (forall o, keep o <-> typ o = Some t) ->
  (forall n, has_storage t n k <-> has_of typ t n k) -> keeps quiet (kube_list (Obj := A) "") ->
  bind (rethrow EKube (kube_list (Obj := A) "")) (fun l => ret (show <$> filter keep l)) k = (r, k') ->
  same_storages has_storage k k' /\ forall l, r = Ok l -> forall n, has_storage t n k <-> n ∈ st_Name <$> l.
Proof.
  intros Hkey Hname Hkeep Hhas Hquiet Hl. unfold bind, rethrow, ret in Hl. destruct (kube_list "" k) as [rl k1] eqn:Hk.
  apply (keeps_run quiet) in Hk as Hq; [|done]. apply quiet_same in Hq. destruct rl as [l|e]; simpl in Hl; injection Hl as <- <-; (split; [done|]); [|done].
  intros ls [= <-] n. rewrite Hhas, (listed typ k l k1 t n Hk), <- list_fmap_compose, list_elem_of_fmap. setoid_rewrite list_elem_of_filter.
  setoid_rewrite Hkeep. setoid_rewrite Hkey. unfold compose. setoid_rewrite Hname. naive_solver.
Qed.
Lemma no_iscsi t n (k : K) : t <> IscsiType -> ~ has_of iscsi_type t n k.
Proof. intros Ht (o & _ & _ & [= He]). by subst. Qed.
Lemma no_nfs t n (k : K) : t <> NfsType -> ~ has_of nfs_type t n k.
Proof. intros Ht (o & _ & _ & [= He]). by subst. Qed.
Lemma cluster_type_iff o t : cluster_type o = Some t <-> t <> IscsiType /\ t <> NfsType /\ o.(sk_StorageType) = t.
Proof. unfold cluster_type. destruct (String.eqb_spec (sk_StorageType o) IscsiType), (String.eqb_spec (sk_StorageType o) NfsType); naive_solver. Qed.
Lemma no_cluster t n (k : K) : t = IscsiType \/ t = NfsType -> ~ has_of cluster_type t n k.
Proof. intros Ht (o & _ & _ & (H1 & H2 & _)%cluster_type_iff). naive_solver. Qed.
Lemma has_cluster t n k : t <> IscsiType -> t <> NfsType -> has_storage t n k <-> has_of cluster_type t n k.
Proof. intros H1 H2. unfold has_storage. pose proof (no_iscsi t n k H1). pose proof (no_nfs t n k H2). tauto. Qed.
Lemma has_iscsi n k : has_storage IscsiType n k <-> has_of iscsi_type IscsiType n k.
Proof. unfold has_storage. pose proof (no_cluster IscsiType n k (or_introl eq_refl)). assert (~ has_of nfs_type IscsiType n k) by by apply no_nfs. tauto. Qed.
Lemma has_nfs n k : has_storage NfsType n k <-> has_of nfs_type NfsType n k.
Proof. unfold has_storage. pose proof (no_cluster NfsType n k (or_intror eq_refl)). assert (~ has_of iscsi_type NfsType n k) by by apply no_iscsi. tauto. Qed.

Lemma cluster_storages_ok t k r k' :
  t <> IscsiType -> t <> NfsType -> cluster_storages t k = (r, k') ->
  same_storages has_storage k k' /\ forall l, r = Ok l -> forall n, has_storage t n k <-> n ∈ st_Name <$> l.
Proof.
  intros H1 H2. apply (shown_listed cluster_type sk_Name); [done|done| | |quiet_call].
  - intros o. rewrite cluster_type_iff. naive_solver.
  - intros n. by apply has_cluster.
Qed.
Lemma iscsi_storages_ok k r k' :
  iscsi_storages k = (r, k') ->
  same_storages has_storage k k' /\ forall l, r = Ok l -> forall n, has_storage IscsiType n k <-> n ∈ st_Name <$> l.
Proof.
  intros Hl. apply (shown_listed iscsi_type ki_Name iscsiToSCStorage (fun _ => True)); [done|done|done|intros n; apply has_iscsi|quiet_call|].
  unfold iscsi_storages, getIscsis, bind, ret in Hl |- *. destruct (rethrow _ _ k) as [[l|] k1]; [|done]. by rewrite filter_all.
Qed.
Lemma nfs_storages_ok k r k' :
  nfs_storages k = (r, k') ->
  same_storages has_storage k k' /\ forall l, r = Ok l -> forall n, has_storage NfsType n k <-> n ∈ st_Name <$> l.
Proof.
  intros Hl. apply (shown_listed nfs_type kf_Name nfsToSCStorage (fun _ => True)); [done|done|done|intros n; apply has_nfs|quiet_call|].
  unfold nfs_storages, getNfss, bind, ret in Hl |- *. destruct (rethrow _ _ k) as [[l|] k1]; [|done]. by rewrite filter_all.
Qed.
Lemma effect_run {A} (Q : K -> K -> Prop) (m : M K storage_error A) k r k' :
  effect (fun _ => True) Q m -> m k = (r, k') -> match r with Ok _ => Q k k' | Err _ => same_storages has_storage k k' end.
Proof. intros Hm Hr. by apply Hm. Qed.

#[export] Instance LvmManager_laws : HandleLaws has_storage LvmManager.
Proof.
  split; simpl.
  - intros k r k'. by apply cluster_storages_ok.
  - intros name. apply keeps_same, quiet_cluster_storage.
  - intros s k r k' ->. apply (effect_run (added LvmType s.(st_Name))). destruct (pa_Lvm _); [by apply createStorageCluster_effect|apply effect_throw].
  - intros name k r k'. apply (effect_run (dropped name)), deleteStorageCluster_effect.
  - intros s. destruct (pa_Lvm _); apply effect_same; [apply updateStorageCluster_effect|apply effect_throw].
Qed.
#[export] Instance CephFsManager_laws : HandleLaws has_storage CephFsManager.
Proof.
  split; simpl.
  - intros k r k'. by apply cluster_storages_ok.
  - intros name. apply keeps_same, quiet_cluster_storage.
  - intros s k r k' ->. apply (effect_run (added CephfsType s.(st_Name))). destruct (pa_CephFs _); [by apply createStorageCluster_effect|apply effect_throw].
  - intros name k r k'. apply (effect_run (dropped name)), deleteStorageCluster_effect.
  - intros s. destruct (pa_CephFs _); apply effect_same; [apply updateStorageCluster_effect|apply effect_throw].
Qed.
#[export] Instance IscsiManager_laws : HandleLaws has_storage IscsiManager.
Proof.
  split; simpl.
  - intros k r k'. apply iscsi_storages_ok.
  - intros name. apply keeps_same, quiet_iscsi_storage.
  - intros s k r k' _. apply (effect_run (added IscsiType s.(st_Name))), create_iscsi_effect.
  - intros name k r k'. apply (effect_run (dropped name)), delete_iscsi_effect.
  - intros s. apply effect_same, update_iscsi_effect.
Qed.
#[export] Instance NfsManager_laws : HandleLaws has_storage NfsManager.
Proof.
  split; simpl.
  - intros k r k'. apply nfs_storages_ok.
  - intros name. apply keeps_same, quiet_nfs_storage.
  - intros s k r k' _. apply (effect_run (added NfsType s.(st_Name))), create_nfs_effect.
  - intros name k r k'. apply (effect_run (dropped name)), delete_nfs_effect.
  - intros s. apply effect_same, update_nfs_effect.
Qed.

(** The kinds of storages of the manager. *)
Definition storageHandles : list (StorageHandle K) := [LvmManager; CephFsManager; IscsiManager; NfsManager].

(** C18. Requests to the storages of a cluster, whatever calls on it fail: a name belongs to
    one storage before and after each of them; only the administrator's succeed; one that
    fails leaves the storages as they were; a storage is created under a name that no
    storage has, of the kind that was asked for and beside the storages there are; an
    update makes and takes none; a deletion takes at most the storages of its name. *)
Theorem storage_requests user cluster rq (ks ks' : gmap string K) k k' r :
  storage_request storageHandles user cluster rq ks = (r, ks') -> ks !! cluster = Some k -> ks' !! cluster = Some k' ->
  names_ok storageHandles has_storage k ->
  names_ok storageHandles has_storage k' /\
  match r with
  | Ok _ => getCurrentUser user = Administrator /\ storages_after has_storage rq k k'
  | Err _ => same_storages has_storage k k'
  end.
Proof.
  apply storage_request_ok. unfold storageHandles.
  intros h [->|[->|[->|[->|[]%not_elem_of_nil]%elem_of_cons]%elem_of_cons]%elem_of_cons]%elem_of_cons; apply _.
Qed.
End Laws.
