(* ===== verification/Threshold.v ===== *)
(** The thresholds of the resources of all clusters (pkg/handler/threshold_manager.go and
    pkg/types/threshold.go): kept in memory, in a table, and in a config map of every
    cluster. *)
From S2P Require Import Prelude KvStore GoStrings Authorizer RestApi KubeApi ConfigMap Alarm NetStorage.

Definition ThresholdTable : string := "threshold".
Definition CpuConfigName : string := "cpu".
Definition MemoryConfigName : string := "memory".
Definition StorageConfigName : string := "storage".
Definition PodCountConfigName : string := "podCount".
Definition DefaultCpu : Z := 80.
Definition DefaultMemory : Z := 80.
Definition DefaultStorage : Z := 80.
Definition DefaultPodCount : Z := 80.

Record Mail := mkMail { ml_User : string; ml_Password : string; ml_Host : string; ml_Port : Z }.
Record Threshold := mkThreshold {
  th_ID : string; th_Cpu : Z; th_Memory : Z; th_Storage : Z; th_PodCount : Z; th_MailFrom : Mail; th_MailTo : list string
}.
Definition thresholdToConfigmap (t : Threshold) : ConfigMap :=
  mkConfigMap "" ThresholdTable
    [mkConfig CpuConfigName (Itoa t.(th_Cpu)); mkConfig MemoryConfigName (Itoa t.(th_Memory));
     mkConfig StorageConfigName (Itoa t.(th_Storage)); mkConfig PodCountConfigName (Itoa t.(th_PodCount))] 0 None.
Definition set_cm_id (cm : ConfigMap) : ConfigMap :=
  mkConfigMap cm.(cm_Name) cm.(cm_Name) cm.(cm_Configs) cm.(cm_CreationTimestamp) cm.(cm_DeletionTimestamp).

(** [TTable]: as the table fails; [TConfig]: as a cluster or its config map does. *)
Inductive threshold_error := TTable (e : kv_error) | TConfig (e : config_error).

Section Threshold.
Context {DB K : Type} `{KvTable DB} `{Json Threshold} `{!KubeKind K K8sConfigMap} (error_text : config_error -> string).

Inductive action := AddAction | UpdateAction.
Definition addOrUpdateThresholdToDB (threshold : Threshold) (a : action) : M DB kv_error unit :=
  let! value := lift (of_option KvJson (marshal threshold)) in
  with_tx (match a with AddAction => tx_add threshold.(th_ID) value | UpdateAction => tx_update threshold.(th_ID) value end).
Definition getThresholdFromDB (name : string) : M DB kv_error Threshold :=
  with_tx_read (let! value := tx_get name in lift (of_option KvJson (unmarshal value))).
Definition default_threshold (name : string) : Threshold :=
  mkThreshold name DefaultCpu DefaultMemory DefaultStorage DefaultPodCount (mkMail "" "" "" 0) [].
Definition createDefaultThreshold (name : string) : M DB kv_error Threshold :=
  do! addOrUpdateThresholdToDB (default_threshold name) AddAction in ret (default_threshold name).
(** The threshold the manager starts with. *)
Definition initThreshold : M DB kv_error Threshold :=
  let! r := attempt (getThresholdFromDB ThresholdTable) in
  match r with
  | Ok threshold => ret threshold
  | Err KvNotFound => createDefaultThreshold ThresholdTable
  | Err e => throw e
  end.

(** The manager, its table, and the ready clusters in their order. *)
Record ThresholdManager := mkManager { tm_threshold : Threshold; tm_table : DB; tm_clusters : list (string * K) }.

Definition apply_threshold (threshold : Threshold) : M K config_error unit :=
  let sccm := set_cm_id (thresholdToConfigmap threshold) in
  let! r := attempt (updateConfigMap ZCloudNamespace sccm) in
  match r with
  | Ok _ => ret tt
  | Err (CKube KNotFound) => createConfigMap ZCloudNamespace sccm
  | Err e => throw e
  end.
Fixpoint apply_all (threshold : Threshold) (clusters : list (string * K)) : result config_error unit * list (string * K) :=
  match clusters with
  | [] => (Ok tt, [])
  | c :: rest =>
      match apply_threshold threshold c.2 with
      | (Ok _, k) => let (r, rest) := apply_all threshold rest in (r, (c.1, k) :: rest)
      | (Err e, k) => (Err e, (c.1, k) :: rest)
      end
  end.
Definition updateThreshold (threshold : Threshold) : M ThresholdManager threshold_error unit :=
  fun m =>
    match addOrUpdateThresholdToDB threshold UpdateAction m.(tm_table) with
    | (Err e, table) => (Err (TTable e), mkManager m.(tm_threshold) table m.(tm_clusters))
    | (Ok _, table) =>
        let (r, clusters) := apply_all threshold m.(tm_clusters) in
        (map_err TConfig r, mkManager m.(tm_threshold) table clusters)
    end.
Definition set_threshold (t : Threshold) (m : ThresholdManager) : ThresholdManager := mkManager t m.(tm_table) m.(tm_clusters).
(** The threshold is that of the request before the update is made. *)
Definition Update (user : option string) (threshold : Threshold) : M ThresholdManager api_error Threshold :=
  if negb (isAdmin (getCurrentUser user)) then throw PermissionDenied
  else
    do! modify (set_threshold threshold) in
    do! rethrow (fun _ => ConnectClusterFailed) (updateThreshold threshold) in
    gets tm_threshold.
Definition Get (user : option string) : M ThresholdManager api_error Threshold :=
  if negb (isAdmin (getCurrentUser user)) then throw PermissionDenied else gets tm_threshold.
Definition List (user : option string) : M ThresholdManager api_error (list Threshold) :=
  if negb (isAdmin (getCurrentUser user)) then throw PermissionDenied else gets (fun m => [m.(tm_threshold)]).

(** A cluster was created: it gets the threshold, or an alarm is published at [now]. *)
Definition on_cluster_created (now : Z) (name : string) (k : K) (m : ThresholdManager) : option Alarm * ThresholdManager :=
  let (r, k) := createConfigMap ZCloudNamespace (thresholdToConfigmap m.(tm_threshold)) k in
  (match r with
   | Ok _ => None
   | Err e =>
       Some (set_Message ("failed to apply threshold to cluster " +:+ name)
              (set_Reason (error_text e)
                (set_Name m.(tm_threshold).(th_ID)
                  (set_Kind "Threshold" (set_Namespace ZCloudNamespace (set_Cluster name (Alarm.New now)))))))
   end, mkManager m.(tm_threshold) m.(tm_table) (m.(tm_clusters) ++ [(name, k)])).
End Threshold.

(** ** Facts *)

Section Facts.
Context {DB K : Type} `{KvLaws DB} `{JsonLaws Threshold} `{!KubeKind K K8sConfigMap} `{!KubeLaws K K8sConfigMap}.
Implicit Types m : ThresholdManager (DB := DB) (K := K).

(** The table and a cluster have the threshold. *)
Definition stored (t : Threshold) (d : DB) : Prop := exists v, kv_content d !! t.(th_ID) = Some v /\ unmarshal v = Some t.
Definition applied (t : Threshold) (k : K) : Prop :=
  exists o : K8sConfigMap, kube_objects k !! (ZCloudNamespace, ThresholdTable) = Some o /\
    config_data (thresholdToConfigmap t).(cm_Configs) ∅ = Ok o.(km_Data).

Lemma apply_threshold_ok t (k k' : K) r :
  apply_threshold t k = (r, k') -> match r with Ok _ => applied t k' | Err _ => same_kind K8sConfigMap k k' end.
Proof.
  unfold apply_threshold, bind, attempt, ret, throw. destruct (updateConfigMap _ _ k) as [ru k1] eqn:Hu.
  apply updateConfigMap_effect in Hu. destruct ru as [[]|[[]| |]]; try (intros [= <- <-]; exact Hu).
  - intros [= <- <-]. destruct Hu as (o & Hd & _ & _ & Hk). exists o. by rewrite Hk, lookup_insert_eq.
  - intros Hc. apply createConfigMap_effect in Hc. destruct r as [[]|e]; [|unfold same_kind in *; congruence].
    destruct Hc as (o & Hd & _ & _ & Hk). exists o. by rewrite Hk, lookup_insert_eq.
Qed.
(** The clusters up to the first one that fails, which keeps its config maps like those
    behind it. *)
Lemma apply_all_ok t cs cs' r :
  apply_all (K := K) t cs = (r, cs') ->
  match r with
  | Ok _ => cs'.*1 = cs.*1 /\ Forall (fun c => applied t c.2) cs'
  | Err _ => exists done c k rest done', cs = done ++ c :: rest /\ cs' = done' ++ (c.1, k) :: rest /\ done'.*1 = done.*1 /\
      Forall (fun c => applied t c.2) done' /\ same_kind K8sConfigMap c.2 k
  end.
Proof.
  revert cs' r. induction cs as [|[n k] cs IH]; intros cs' r Ha; simpl in Ha; [by injection Ha as <- <-|].
  destruct (apply_threshold t k) as [[[]|e] k1] eqn:Hk; apply apply_threshold_ok in Hk.
  - destruct (apply_all t cs) as [r1 cs1]. specialize (IH cs1 r1 eq_refl). injection Ha as <- <-. destruct r1 as [[]|e].
    + destruct IH as [Hn Hf]. split; [exact (f_equal (cons n) Hn)|by constructor].
    + destruct IH as (dn & c & kc & rest & dn' & -> & -> & Hn & Hf & Hs). exists ((n, k) :: dn), c, kc, rest, ((n, k1) :: dn').
      split; [done|]. split; [done|]. split; [exact (f_equal (cons n) Hn)|]. split; [by constructor|done].
  - injection Ha as <- <-. exists [], (n, k), k1, cs, []. done.
Qed.

Lemma update_stored t (d d' : DB) r :
  addOrUpdateThresholdToDB t UpdateAction d = (r, d') -> match r with Ok _ => stored t d' | Err _ => kv_content d' = kv_content d end.
Proof.
  unfold addOrUpdateThresholdToDB, bind, lift. destruct (marshal t) as [v|] eqn:Hv; simpl; [|by intros [= <- <-]].
  intros Hu. apply with_tx_update in Hu. destruct r as [[]|e]; [|done]. destruct Hu as [_ Hc]. exists v.
  rewrite Hc, lookup_insert_eq. split; [done|]. by apply json_round_trip.
Qed.

Lemma read_stored t (d d' : DB) r :
  stored t d -> getThresholdFromDB t.(th_ID) d = (r, d') ->
  kv_content d' = kv_content d /\ forall t', r = Ok t' -> t' = t.
Proof.
  intros (v & Hv & Ht) Hg. unfold getThresholdFromDB in Hg.
  eapply (with_tx_read_spec _ (fun c t' => c !! t.(th_ID) = Some v -> t' = t)) in Hg as [Hc Hr].
  - split; [done|]. intros t' ->. by apply Hr.
  - eapply tx_effect_weaken; [eapply tx_effect_bind; [apply tx_get_law|intros x; apply tx_effect_lift]|].
    simpl. intros c t' c' (x & Hx & -> & Hu). split; [done|]. intros Hc. rewrite Hc in Hx. injection Hx as <-. rewrite Ht in Hu. by injection Hu.
Qed.
Lemma initThreshold_stored t (d d' : DB) t' :
  t.(th_ID) = ThresholdTable -> stored t d -> initThreshold d = (Ok t', d') -> t' = t.
Proof.
  intros Hid Hs Hi. unfold initThreshold, bind, attempt, ret, throw in Hi. rewrite <- Hid in Hi.
  destruct (getThresholdFromDB _ d) as [rg d1] eqn:Hg. apply read_stored in Hg as [Hc Hr]; [|done].
  destruct rg as [t1|[]]; try done; [injection Hi as <- _; by apply Hr|].
  unfold createDefaultThreshold, addOrUpdateThresholdToDB, bind, lift, ret in Hi.
  destruct (marshal _) as [x|]; simpl in Hi; [|done]. destruct (with_tx _ d1) as [ra d2] eqn:Ha. apply with_tx_add in Ha.
  destruct ra as [[]|e]; [|done]. destruct Ha as [Hnone _]. destruct Hs as (v & Hv & _). congruence.
Qed.

End Facts.

(** ** Runs in memory *)

Module Demo.
#[export] Instance Threshold_tree : Treeable Threshold.
Proof.
  apply (iso_tree
    (fun t => (t.(th_ID), t.(th_Cpu), t.(th_Memory), t.(th_Storage), t.(th_PodCount), t.(th_MailFrom).(ml_User),
               t.(th_MailFrom).(ml_Password), t.(th_MailFrom).(ml_Host), t.(th_MailFrom).(ml_Port), t.(th_MailTo)))
    (fun '(a, b, c, d, e, f, g, h, i, j) => mkThreshold a b c d e (mkMail f g h i) j)).
  by intros [? ? ? ? ? [] ?].
Defined.
#[export] Instance threshold_json : Json Threshold := tree_json _ _.
#[export] Instance threshold_json_laws : JsonLaws Threshold.
Proof. apply tree_json_laws. Qed.
(** Config maps, and which of the coming calls fail. *)
Definition Store : Type := gmap (string * string) K8sConfigMap * list bool.
#[export] Instance kind : KubeKind Store K8sConfigMap :=
  fake_kind fst (fun m k => (m, k.2)) (fun k => (default false (head k.2), (k.1, tail k.2))).
#[export] Instance laws : KubeLaws Store K8sConfigMap.
Proof. by apply fake_laws. Qed.

Definition start (faults : list bool) (clusters : list (string * Store)) : ThresholdManager (DB := MemTable) (K := Store) :=
  let r := initThreshold (mkMem ∅ []) in
  mkManager (default_threshold ThresholdTable) (mkMem (mem (snd r)) faults) clusters.
Definition wanted : Threshold := mkThreshold ThresholdTable 90 80 70 60 (mkMail "" "" "" 0) ["ops"].
Definition two : list (string * Store) := [("a", (∅, [])); ("b", (∅, []))].
Definition cpu_of (k : Store) : option string := (fun o => default "" (o.(km_Data) !! CpuConfigName)) <$> k.1 !! (ZCloudNamespace, ThresholdTable).
End Demo.
#[local] Existing Instances Demo.threshold_json Demo.threshold_json_laws Demo.kind Demo.laws.

Definition run_update (faults : list bool) (clusters : list (string * Demo.Store)) :
    result api_error Threshold * (Z * list (option string)) :=
  let (r, m) := Update (Some Administrator) Demo.wanted (Demo.start faults clusters) in
  (r, (m.(tm_threshold).(th_Cpu), (fun c => Demo.cpu_of c.2) <$> m.(tm_clusters))).
Example two_clusters_updated : run_update [] Demo.two = (Ok Demo.wanted, (90, [Some "90"; Some "90"])).
Proof. vm_compute. reflexivity. Qed.
(** An update that the table refused is nevertheless shown, and given to the clusters that
    are created from then on. *)
Lemma refused_update_is_shown : run_update [true] Demo.two = (Err ConnectClusterFailed, (90, [None; None])).
Proof. vm_compute. reflexivity. Qed.
(** A cluster behind one that fails keeps the old thresholds, and nothing tries again. *)
Lemma failing_cluster_hides_others :
  run_update [] [("a", (∅, [true])); ("b", (∅, []))] = (Err ConnectClusterFailed, (90, [None; None])).
Proof. vm_compute. reflexivity. Qed.
