(* ===== verification/WorkFlow.v ===== *)
(** Workflows (pkg/handler/workflow_manager.go, workflow_util.go and pkg/types/workflow.go):
    a workflow is a resource of the pipeline operator (tekton) that carries it as a text, with
    two secrets, a service account, and the right of that account to deploy. *)
From S2P Require Import Prelude GoStrings GoText RestApi KubeApi PersistentVolume PodTemplate Workload Deployment.

Definition zcloudWorkFlowContentAnnotationKey : string := "workflow.zdns.cn/content".
Definition zcloudWorkFlowIDLabelKey : string := "workflow.zdns.cn/id".
Definition zcloudWorkFlowLatestTaskIDAnnotationKey : string := "workflow.zdns.cn/latest-task-id".
Definition zcloudWorkFlowClusterRoleBindingName : string := "zcloud-workflow-deployer".
Definition WorkFlowEmptyTaskAction : string := "emptytask".
Definition tektonGitSecretAnnotationKey : string := "tekton.dev/git-0".
Definition dockerhubRegistryURL : string := "https://index.docker.io".
Definition SecretTypeBasicAuth : string := "kubernetes.io/basic-auth".
Definition SecretTypeDockerConfigJson : string := "kubernetes.io/dockerconfigjson".
Definition dockerConfigJsonKey : string := ".dockerconfigjson".

(** ** Data *)

Record GitInfo := mkGit { gi_RepositoryURL : string; gi_Revision : string; gi_User : string; gi_Password : string }.
Record ImageInfo := mkImage { im_Name : string; im_RegistryUser : string; im_RegistryPassword : string }.
(** A time that is not set is [None]. *)
Record WorkFlowTaskStatus := mkTaskStatus {
  ws_CurrentStatus : string; ws_Message : string; ws_StartTime : option Z; ws_CompletionTime : option Z
}.
Definition no_status : WorkFlowTaskStatus := mkTaskStatus "" "" None None.
Record WorkFlowSubTask := mkSubTask {
  sb_Name : string; sb_PodName : string; sb_Containers : list string; sb_Status : WorkFlowTaskStatus
}.
Record WorkFlowTask := mkWorkFlowTask {
  wt_ID : string; wt_ImageTag : string; wt_SubTasks : list WorkFlowSubTask; wt_Status : WorkFlowTaskStatus;
  wt_CreationTimestamp : Z; wt_DeletionTimestamp : option Z
}.
Record WorkFlow := mkWorkFlow {
  wf_ID : string; wf_Name : string; wf_Git : GitInfo; wf_Image : ImageInfo; wf_AutoDeploy : bool; wf_Deploy : Deployment;
  wf_SubTasks : list WorkFlowSubTask; wf_Status : WorkFlowTaskStatus; wf_CreationTimestamp : Z; wf_DeletionTimestamp : option Z
}.
Definition set_tasks (subs : list WorkFlowSubTask) (status : WorkFlowTaskStatus) (w : WorkFlow) : WorkFlow :=
  mkWorkFlow w.(wf_ID) w.(wf_Name) w.(wf_Git) w.(wf_Image) w.(wf_AutoDeploy) w.(wf_Deploy) subs status w.(wf_CreationTimestamp)
    w.(wf_DeletionTimestamp).
Definition NameNotGreater (a b : WorkFlow) : Prop := String.leb a.(wf_Name) b.(wf_Name) = true.
#[export] Instance NameNotGreater_dec a b : Decision (NameNotGreater a b).
Proof. unfold NameNotGreater. apply _. Defined.

(** corev1.Secret, as far as workflows use it.  The server keeps the texts that are given as
    [StringData] among the data. *)
Record WorkFlowSecret := mkWorkFlowSecret {
  wc_Namespace : string; wc_Name : string; wc_Labels : gmap string string; wc_Annotations : gmap string string;
  wc_Type : string; wc_Data : gmap string string
}.
#[export] Instance WorkFlowSecret_object : KubeObject WorkFlowSecret := {|
  Spec := gmap string string * gmap string string * string * gmap string string; kube_key o := (o.(wc_Namespace), o.(wc_Name));
  kube_spec o := (o.(wc_Labels), o.(wc_Annotations), o.(wc_Type), o.(wc_Data)); kube_deleting _ := false |}.
(** corev1.ServiceAccount, with the names of its secrets. *)
Record ServiceAccount := mkServiceAccount { sa_Namespace : string; sa_Name : string; sa_Secrets : list string; sa_DeletionTimestamp : option Z }.
#[export] Instance ServiceAccount_object : KubeObject ServiceAccount := {|
  Spec := list string; kube_key o := (o.(sa_Namespace), o.(sa_Name)); kube_spec := sa_Secrets;
  kube_deleting o := bool_decide (is_Some o.(sa_DeletionTimestamp)) |}.
(** rbacv1.ClusterRoleBinding: who has the role. *)
Record Subject := mkSubject { su_Kind : string; su_Name : string; su_Namespace : string }.
Record ClusterRoleBinding := mkBinding { cb_Name : string; cb_Subjects : list Subject }.
#[export] Instance ClusterRoleBinding_object : KubeObject ClusterRoleBinding := {|
  Spec := list Subject; kube_key o := ("", o.(cb_Name)); kube_spec := cb_Subjects; kube_deleting _ := false |}.
(** PipelineResource of tekton. *)
Record PipelineResource := mkPipelineResource {
  pr_Namespace : string; pr_Name : string; pr_Annotations : gmap string string; pr_Type : string; pr_Params : list (string * string);
  pr_DeletionTimestamp : option Z
}.
#[export] Instance PipelineResource_object : KubeObject PipelineResource := {|
  Spec := gmap string string * string * list (string * string); kube_key o := (o.(pr_Namespace), o.(pr_Name));
  kube_spec o := (o.(pr_Annotations), o.(pr_Type), o.(pr_Params)); kube_deleting o := bool_decide (is_Some o.(pr_DeletionTimestamp)) |}.

(** PipelineRun of tekton: a parameter is its name and value; [tk_After] are the tasks before
    a task. *)
Record ParamSpec := mkParamSpec { ap_Name : string; ap_Description : string; ap_Default : option string }.
Record Step := mkStep {
  sp_Name : string; sp_WorkingDir : string; sp_Image : string; sp_Env : list (string * string); sp_Command : list string; sp_Args : list string
}.
Record TaskSpec := mkTaskSpec { tk_Params : list ParamSpec; tk_Resources : list (string * string); tk_Steps : list Step }.
Record PipelineTask := mkPipelineTask {
  tk_Name : string; tk_After : list string; tk_Arguments : list (string * string); tk_Inputs : list (string * string); tk_Spec : TaskSpec
}.
Record PipelineSpec := mkPipelineSpec {
  pl_Params : list ParamSpec; pl_Resources : list (string * string); pl_Tasks : list PipelineTask
}.
Record Condition := mkRunCondition { co_Type : string; co_Reason : string; co_Message : string }.
Record TaskRunStatus := mkTaskRunStatus {
  tr_StartTime : option Z; tr_CompletionTime : option Z; tr_Conditions : list Condition; tr_Steps : list string; tr_PodName : string
}.
Record TaskRun := mkTaskRun { tr_PipelineTaskName : string; tr_Status : option TaskRunStatus }.
Record PipelineRun := mkPipelineRun {
  pn_Namespace : string; pn_Name : string; pn_Labels : gmap string string; pn_ServiceAccountName : string;
  pn_Params : list (string * string); pn_Resources : list (string * string); pn_PipelineSpec : option PipelineSpec;
  pn_StartTime : option Z; pn_CompletionTime : option Z; pn_Conditions : list Condition; pn_TaskRuns : gmap string TaskRun;
  pn_CreationTimestamp : Z; pn_DeletionTimestamp : option Z
}.
#[export] Instance PipelineRun_object : KubeObject PipelineRun := {|
  Spec := gmap string string * string * list (string * string) * option PipelineSpec; kube_key o := (o.(pn_Namespace), o.(pn_Name));
  kube_spec o := (o.(pn_Labels), o.(pn_ServiceAccountName), o.(pn_Params), o.(pn_PipelineSpec));
  kube_deleting o := bool_decide (is_Some o.(pn_DeletionTimestamp)) |}.

(** [WKube]: as the cluster fails; [WNil]: a pointer or a map that is nil is used. *)
Inductive workflow_error := WKube (e : kube_error) | WOther | WNil.

(** json.Marshal and Unmarshal of a workflow, net/url.Parse (the scheme and the host), and the
    YAML of a deployment with its claims. *)
Class WorkFlowText `{Quantities} `{LabelSelectors} := {
  marshal_workflow : WorkFlow -> option string;
  unmarshal_workflow : string -> option WorkFlow;
  url_parse : string -> option (string * string);
  deploy_yaml : K8sDeployment -> list K8sPVC -> option string
}.

Section WorkFlow.
Context `{WorkFlowText} `{!WorkloadText}.

(** ** Secrets and accounts *)

(** The random part of a name is an argument. *)
Definition genWorkFlowRandomName (workFlowName random : string) : string := workFlowName +:+ "-" +:+ random.
Definition getGitServerFromRawURL (url : string) : result workflow_error string :=
  match url_parse url with Some (scheme, host) => Ok (scheme +:+ "://" +:+ host) | None => Err WOther end.
Definition no_login (g : GitInfo) : bool := String.eqb g.(gi_User) "" || String.eqb g.(gi_Password) "".
Definition git_login (g : GitInfo) : gmap string string := {["username" := g.(gi_User); "password" := g.(gi_Password)]}.
Definition genWorkFlowGitSecret (namespace random : string) (wf : WorkFlow) : result workflow_error (option WorkFlowSecret) :=
  if no_login wf.(wf_Git) then Ok None
  else result_bind (getGitServerFromRawURL wf.(wf_Git).(gi_RepositoryURL)) (fun gitServer =>
    Ok (Some (mkWorkFlowSecret namespace (genWorkFlowRandomName wf.(wf_Name) random) {[zcloudWorkFlowIDLabelKey := wf.(wf_Name)]}
                {[tektonGitSecretAnnotationKey := gitServer]} SecretTypeBasicAuth (git_login wf.(wf_Git))))).
Definition getWorkFlowDockerRegistryURL (image : string) : string :=
  match Split "/" image with
  | n :: _ :: _ =>
      if ContainsText n "docker.io" then dockerhubRegistryURL
      else if (1 <? length (Split "." n))%nat then "https://" +:+ n
      else dockerhubRegistryURL
  | _ => dockerhubRegistryURL
  end.
Definition docker_config (image : ImageInfo) : string :=
  let auth := base64 (image.(im_RegistryUser) +:+ ":" +:+ image.(im_RegistryPassword)) in
  "{" +:+ quoted "auths" +:+ ":{" +:+ quoted (getWorkFlowDockerRegistryURL image.(im_Name)) +:+ ":{" +:+
  quoted "username" +:+ ":" +:+ quoted image.(im_RegistryUser) +:+ "," +:+
  quoted "password" +:+ ":" +:+ quoted image.(im_RegistryPassword) +:+ "," +:+
  quoted "auth" +:+ ":" +:+ quoted auth +:+ "}}}".
Definition genWorkFlowDockerSecret (namespace random : string) (wf : WorkFlow) : WorkFlowSecret :=
  mkWorkFlowSecret namespace (genWorkFlowRandomName wf.(wf_Name) random) {[zcloudWorkFlowIDLabelKey := wf.(wf_Name)]} ∅
    SecretTypeDockerConfigJson {[dockerConfigJsonKey := docker_config wf.(wf_Image)]}.
Definition genWorkFlowServiceAccount (name namespace : string) (gitSecret : option string) (dockerSecret : string) : ServiceAccount :=
  mkServiceAccount namespace name (dockerSecret :: match gitSecret with Some s => [s] | None => [] end) None.

Context {K : Type} `{!KubeKind K K8sPV} `{!KubeKind K K8sPVC} `{!KubeKind K K8sDeployment} `{!KubeKind K WorkFlowSecret}
  `{!KubeSelect K WorkFlowSecret} `{!KubeKind K ServiceAccount} `{!KubeKind K ClusterRoleBinding} `{!KubeKind K PipelineResource}
  `{!KubeKind K PipelineRun} `{!KubeSelect K PipelineRun}.

Definition set_data (data : gmap string string) (s : WorkFlowSecret) : WorkFlowSecret :=
  mkWorkFlowSecret s.(wc_Namespace) s.(wc_Name) s.(wc_Labels) s.(wc_Annotations) s.(wc_Type) data.
Definition updateWorkFlowGitSecret (secret : WorkFlowSecret) (wf : WorkFlow) : M K workflow_error unit :=
  if no_login wf.(wf_Git) then ret tt
  else do! rethrow WKube (kube_update (set_data (git_login wf.(wf_Git) ∪ secret.(wc_Data)) secret)) in ret tt.
Definition updateWorkFlowDockerSecret (secret : WorkFlowSecret) (wf : WorkFlow) : M K workflow_error unit :=
  do! rethrow WKube (kube_update (set_data {[dockerConfigJsonKey := docker_config wf.(wf_Image)]} secret)) in ret tt.
(** The objects of a workflow, which its label names. *)
Definition id_selector (name : string) : result workflow_error Selector :=
  of_option WOther (LabelSelectorAsSelector (MatchLabels {[zcloudWorkFlowIDLabelKey := name]})).
Definition getWorkFlowSecrets (namespace name : string) : M K workflow_error (list WorkFlowSecret) :=
  let! selector := lift (id_selector name) in rethrow WKube (kube_select (Obj := WorkFlowSecret) namespace selector).
Fixpoint delete_secrets (secrets : list WorkFlowSecret) : M K workflow_error unit :=
  match secrets with
  | [] => ret tt
  | s :: secrets => do! rethrow WKube (kube_delete (Obj := WorkFlowSecret) s.(wc_Namespace) s.(wc_Name)) in delete_secrets secrets
  end.
Definition deleteWorkFlowSecrets (namespace name : string) : M K workflow_error unit :=
  let! secrets := getWorkFlowSecrets namespace name in delete_secrets secrets.

Definition addSecretToWorkFlowSA (namespace saName secret : string) : M K workflow_error unit :=
  let! sa := rethrow WKube (kube_get (Obj := ServiceAccount) namespace saName) in
  do! rethrow WKube (kube_update (mkServiceAccount sa.(sa_Namespace) sa.(sa_Name) (sa.(sa_Secrets) ++ [secret]) sa.(sa_DeletionTimestamp))) in ret tt.
Definition deleteSecretFromWorkFlowSA (namespace saName secret : string) : M K workflow_error unit :=
  let! sa := rethrow WKube (kube_get (Obj := ServiceAccount) namespace saName) in
  do! rethrow WKube (kube_update (mkServiceAccount sa.(sa_Namespace) sa.(sa_Name) (filter (fun s => s <> secret) sa.(sa_Secrets))
                                    sa.(sa_DeletionTimestamp))) in ret tt.
(** The walk over the secrets: the last one for git is remembered. *)
Fixpoint update_secrets (secrets : list WorkFlowSecret) (wf : WorkFlow) (gitSecret : option WorkFlowSecret)
    : M K workflow_error (option WorkFlowSecret) :=
  match secrets with
  | [] => ret gitSecret
  | s :: secrets =>
      do! (if String.eqb s.(wc_Type) SecretTypeDockerConfigJson then updateWorkFlowDockerSecret s wf else ret tt) in
      if String.eqb s.(wc_Type) SecretTypeBasicAuth
      then do! updateWorkFlowGitSecret s wf in update_secrets secrets wf (Some s)
      else update_secrets secrets wf gitSecret
  end.
(** Without a secret for git the name of an empty one is deleted. *)
Definition updateWorkFlowSecrets (namespace random : string) (wf : WorkFlow) : M K workflow_error unit :=
  let! secrets := getWorkFlowSecrets namespace wf.(wf_Name) in
  let! found := update_secrets secrets wf None in
  if (length secrets =? 2)%nat && no_login wf.(wf_Git) then
    let gitSecret := default (mkWorkFlowSecret "" "" ∅ ∅ "" ∅) found in
    do! rethrow WKube (kube_delete (Obj := WorkFlowSecret) gitSecret.(wc_Namespace) gitSecret.(wc_Name)) in
    deleteSecretFromWorkFlowSA namespace wf.(wf_Name) gitSecret.(wc_Name)
  else if (length secrets =? 1)%nat then
    let! newGitSecret := lift (genWorkFlowGitSecret namespace random wf) in
    match newGitSecret with
    | None => ret tt
    | Some s =>
        let! made := rethrow WKube (kube_create s) in
        addSecretToWorkFlowSA namespace wf.(wf_Name) made.(wc_Name)
    end
  else ret tt.

Definition addWorkFlowSaToCRB (saName saNamespace : string) : M K workflow_error unit :=
  let! crb := rethrow WKube (kube_get (Obj := ClusterRoleBinding) "" zcloudWorkFlowClusterRoleBindingName) in
  do! rethrow WKube (kube_update (mkBinding crb.(cb_Name) (crb.(cb_Subjects) ++ [mkSubject "ServiceAccount" saName saNamespace]))) in ret tt.
Definition deleteWorkFlowSaFromCRB (saName saNamespace : string) : M K workflow_error unit :=
  let! crb := rethrow WKube (kube_get (Obj := ClusterRoleBinding) "" zcloudWorkFlowClusterRoleBindingName) in
  do! rethrow WKube (kube_update (mkBinding crb.(cb_Name)
        (filter (fun s => ~ (s.(su_Name) = saName /\ s.(su_Namespace) = saNamespace)) crb.(cb_Subjects)))) in ret tt.

(** ** The resource of a workflow *)

Definition git_params (g : GitInfo) : list (string * string) := [("url", g.(gi_RepositoryURL)); ("revision", g.(gi_Revision))].
Definition genGitPipelineResource (namespace : string) (wf : WorkFlow) : result workflow_error PipelineResource :=
  result_bind (of_option WOther (marshal_workflow wf)) (fun wfJson =>
    Ok (mkPipelineResource namespace wf.(wf_Name) {[zcloudWorkFlowContentAnnotationKey := wfJson]} "git" (git_params wf.(wf_Git)) None)).
Definition set_resource (annotations : gmap string string) (params : list (string * string)) (r : PipelineResource) : PipelineResource :=
  mkPipelineResource r.(pr_Namespace) r.(pr_Name) annotations r.(pr_Type) params r.(pr_DeletionTimestamp).
Definition updateGitPipelineResource (namespace : string) (wf : WorkFlow) : M K workflow_error unit :=
  let! wfJson := lift (of_option WOther (marshal_workflow wf)) in
  let! pr := rethrow WKube (kube_get (Obj := PipelineResource) namespace wf.(wf_Name)) in
  do! rethrow WKube (kube_update (set_resource {[zcloudWorkFlowContentAnnotationKey := wfJson]} (git_params wf.(wf_Git)) pr)) in ret tt.
Definition deletePipelineResource (namespace name : string) : M K workflow_error unit :=
  rethrow WKube (kube_delete (Obj := PipelineResource) namespace name).
(** The annotations of a resource that has none are a nil map. *)
Definition updateWorkFlowLastestIDAnnotation (namespace workFlow workFlowTaskID : string) : M K workflow_error unit :=
  let! pr := rethrow WKube (kube_get (Obj := PipelineResource) namespace workFlow) in
  do! guard (negb (bool_decide (pr.(pr_Annotations) = ∅))) WNil in
  do! rethrow WKube (kube_update (set_resource (<[zcloudWorkFlowLatestTaskIDAnnotationKey := workFlowTaskID]> pr.(pr_Annotations)) pr.(pr_Params) pr)) in
  ret tt.

(** ** What is shown of a run (workflowtask_manager.go) *)

(** GetCondition of the condition Succeeded. *)
Definition succeeded (conditions : list Condition) : option Condition := find (fun c => String.eqb c.(co_Type) "Succeeded") conditions.
Definition run_status (start completion : option Z) (conditions : list Condition) : WorkFlowTaskStatus :=
  match succeeded conditions with
  | Some c => mkTaskStatus c.(co_Reason) c.(co_Message) start completion
  | None => mkTaskStatus "" "" start completion
  end.
Definition k8sPipelineRunToWorkFlowTaskStatus (p : PipelineRun) : WorkFlowTaskStatus :=
  run_status p.(pn_StartTime) p.(pn_CompletionTime) p.(pn_Conditions).
(** The runs of a task in the order of a walk over the map; the last one is shown. *)
Fixpoint show_subtask (task : WorkFlowSubTask) (runs : list TaskRun) : option WorkFlowSubTask :=
  match runs with
  | [] => Some task
  | v :: runs =>
      if String.eqb v.(tr_PipelineTaskName) task.(sb_Name) then
        match v.(tr_Status) with
        | None => None
        | Some st =>
            let status := run_status st.(tr_StartTime) st.(tr_CompletionTime) st.(tr_Conditions) in
            show_subtask (mkSubTask task.(sb_Name) st.(tr_PodName)
              (if String.eqb status.(ws_CurrentStatus) "Pending" then [] else st.(tr_Steps)) status) runs
        end
      else show_subtask task runs
  end.
Definition k8sPipelineRunToWorkFlowSubTasks (p : PipelineRun) : option (list WorkFlowSubTask) :=
  match p.(pn_PipelineSpec) with
  | None => None
  | Some spec => mapM (fun t => show_subtask (mkSubTask t.(tk_Name) "" [] no_status) ((map_to_list p.(pn_TaskRuns)).*2)) spec.(pl_Tasks)
  end.
Definition image_tag (params : list (string * string)) : string :=
  match find (fun p => String.eqb p.1 "IMAGE_TAG") params with Some p => p.2 | None => "" end.
Definition k8sPipelineRunToWorkFlowTask (p : PipelineRun) : option WorkFlowTask :=
  (fun subs => mkWorkFlowTask p.(pn_Name) (image_tag p.(pn_Params)) subs (k8sPipelineRunToWorkFlowTaskStatus p) p.(pn_CreationTimestamp)
                 p.(pn_DeletionTimestamp))
  <$> k8sPipelineRunToWorkFlowSubTasks p.
Definition getWorkFlowTask (namespace name : string) : M K workflow_error WorkFlowTask :=
  let! pr := rethrow WKube (kube_get (Obj := PipelineRun) namespace name) in
  lift (of_option WNil (k8sPipelineRunToWorkFlowTask pr)).
Definition getPipelineRunsByWorkFlowName (namespace name : string) : M K workflow_error (list PipelineRun) :=
  let! selector := lift (id_selector name) in rethrow WKube (kube_select (Obj := PipelineRun) namespace selector).
Fixpoint delete_runs (runs : list PipelineRun) : M K workflow_error unit :=
  match runs with
  | [] => ret tt
  | p :: runs => do! rethrow WKube (kube_delete (Obj := PipelineRun) p.(pn_Namespace) p.(pn_Name)) in delete_runs runs
  end.
Definition deletePipelineRunsByWorkFlowName (namespace name : string) : M K workflow_error unit :=
  let! runs := getPipelineRunsByWorkFlowName namespace name in delete_runs runs.

(** ** Workflows *)

Definition pipelineResourceToScWorkFlow (namespace : string) (pr : PipelineResource) : M K workflow_error WorkFlow :=
  let! wfContent := lift (of_option WOther (pr.(pr_Annotations) !! zcloudWorkFlowContentAnnotationKey)) in
  let! wf := lift (of_option WOther (unmarshal_workflow wfContent)) in
  let wftID := default "" (pr.(pr_Annotations) !! zcloudWorkFlowLatestTaskIDAnnotationKey) in
  let! wf := (if String.eqb wftID "" then ret (set_tasks [] no_status wf)
              else let! wft := getWorkFlowTask namespace wftID in ret (set_tasks wft.(wt_SubTasks) wft.(wt_Status) wf)) in
  ret (match pr.(pr_DeletionTimestamp) with
       | Some t => mkWorkFlow wf.(wf_ID) wf.(wf_Name) wf.(wf_Git) wf.(wf_Image) wf.(wf_AutoDeploy) wf.(wf_Deploy) wf.(wf_SubTasks)
                     wf.(wf_Status) wf.(wf_CreationTimestamp) (Some t)
       | None => wf
       end).
Definition getWorkFlow (namespace name : string) : M K workflow_error WorkFlow :=
  let! pr := rethrow WKube (kube_get (Obj := PipelineResource) namespace name) in pipelineResourceToScWorkFlow namespace pr.
Fixpoint each_workflow (namespace : string) (prs : list PipelineResource) : M K workflow_error (list WorkFlow) :=
  match prs with
  | [] => ret []
  | pr :: prs =>
      let! wf := pipelineResourceToScWorkFlow namespace pr in
      let! wfs := each_workflow namespace prs in
      ret (wf :: wfs)
  end.
Definition getWorkFlows (namespace : string) : M K workflow_error (list WorkFlow) :=
  let! prs := rethrow WKube (kube_list (Obj := PipelineResource) namespace) in
  let! wfs := each_workflow namespace prs in
  ret (merge_sort NameNotGreater wfs).

(** The objects that were made so far. *)
Inductive Created := MadeSecret (name : string) | MadeAccount (name : string).
Fixpoint delete_created (namespace : string) (objs : list Created) : M K workflow_error unit :=
  match objs with
  | [] => ret tt
  | o :: objs =>
      let! _ := attempt (F := workflow_error)
        (match o with
         | MadeSecret name => kube_delete (Obj := WorkFlowSecret) namespace name
         | MadeAccount name => kube_delete (Obj := ServiceAccount) namespace name
         end) in
      delete_created namespace objs
  end.
Definition workFlowCreateFailBack (namespace name : string) (objs : list Created) : M K workflow_error unit :=
  do! delete_created namespace objs in
  let! _ := attempt (F := workflow_error) (deleteWorkFlowSaFromCRB name namespace) in ret tt.
Definition or_fail_back {A} (namespace name : string) (objs : list Created) (m : M K workflow_error A) : M K workflow_error A :=
  let! r := attempt m in
  match r with
  | Ok a => ret a
  | Err e => do! workFlowCreateFailBack namespace name objs in throw e
  end.
Definition createWorkFlow (namespace gitRandom dockerRandom : string) (wf : WorkFlow) : M K workflow_error unit :=
  let! gitSecret := lift (genWorkFlowGitSecret namespace gitRandom wf) in
  let! gitSecretName :=
    match gitSecret with
    | Some s => let! made := rethrow WKube (kube_create s) in ret (Some made.(wc_Name))
    | None => ret None
    end in
  let objs := match gitSecretName with Some n => [MadeSecret n] | None => [] end in
  let! dockerSecret := or_fail_back namespace wf.(wf_Name) objs (rethrow WKube (kube_create (genWorkFlowDockerSecret namespace dockerRandom wf))) in
  let objs := objs ++ [MadeSecret dockerSecret.(wc_Name)] in
  do! or_fail_back namespace wf.(wf_Name) objs
        (rethrow WKube (kube_create (genWorkFlowServiceAccount wf.(wf_Name) namespace gitSecretName dockerSecret.(wc_Name)))) in
  let objs := objs ++ [MadeAccount wf.(wf_Name)] in
  do! or_fail_back namespace wf.(wf_Name) objs (addWorkFlowSaToCRB wf.(wf_Name) namespace) in
  let! pipelineResource := or_fail_back namespace wf.(wf_Name) objs (lift (genGitPipelineResource namespace wf)) in
  do! or_fail_back namespace wf.(wf_Name) objs (rethrow WKube (kube_create pipelineResource)) in
  ret tt.

Definition updateWorkFlow (namespace random : string) (wf : WorkFlow) : M K workflow_error unit :=
  do! updateWorkFlowSecrets namespace random wf in updateGitPipelineResource namespace wf.

(** getDeployment fails with an answer of the server, which is not taken for one of the
    cluster: that there is no deployment ends the deletion as any other error. *)
Definition deleteWorkFlowDeploymentAndPVCs (namespace name : string) : M K workflow_error unit :=
  let! k8sDeploy := rethrow (fun _ => WOther) (getDeployment namespace name) in
  do! rethrow WKube (deleteDeployment namespace name) in
  delete_claims k8sDeploy.(kd_Annotations) namespace k8sDeploy.(kd_Template).(tp_Spec).(ps_Volumes).
Definition deleteWorkFlow (namespace name : string) : M K workflow_error unit :=
  do! deletePipelineResource namespace name in
  do! deleteWorkFlowSaFromCRB name namespace in
  do! rethrow WKube (kube_delete (Obj := ServiceAccount) namespace name) in
  do! deleteWorkFlowSecrets namespace name in
  deleteWorkFlowDeploymentAndPVCs namespace name.
Definition emptyWorkFlowTask (namespace name : string) : M K workflow_error unit :=
  do! updateWorkFlowLastestIDAnnotation namespace name "" in deletePipelineRunsByWorkFlowName namespace name.

(** ** Handlers *)

Definition answer (f : kube_error -> api_error) (other : api_error) (e : workflow_error) : Workload.workload_error :=
  match e with WKube e => Answer (f e) | WOther => Answer other | WNil => Panic end.
Definition failed : workflow_error -> Workload.workload_error := answer (fun _ => ServerError) ServerError.
Definition read_failed : workflow_error -> Workload.workload_error := answer (fun e => if IsNotFound e then NotFound else ServerError) ServerError.
Definition create_failed : workflow_error -> Workload.workload_error :=
  answer (fun e => if IsAlreadyExists e then DuplicateResource else ConnectClusterFailed) ConnectClusterFailed.
Definition update_failed : workflow_error -> Workload.workload_error := answer (fun _ => ConnectClusterFailed) ConnectClusterFailed.

Definition preCheckDeploymentExist (namespace name : string) : M K Workload.workload_error unit :=
  let! r := attempt (getDeployment namespace name) in
  match r with
  | Err (Answer NotFound) => ret tt
  | Err _ => throw (Answer ServerError)
  | Ok _ => throw (Answer DuplicateResource)
  end.
(** [now] is the time of the request. *)
Definition Create (cluster namespace : string) (now : Z) (gitRandom dockerRandom : string) (wf : WorkFlow)
    : M (gmap string K) Workload.workload_error WorkFlow :=
  let wf := mkWorkFlow wf.(wf_Name) wf.(wf_Name) wf.(wf_Git) wf.(wf_Image) wf.(wf_AutoDeploy) wf.(wf_Deploy) wf.(wf_SubTasks) wf.(wf_Status)
              now wf.(wf_DeletionTimestamp) in
  on_cluster (Answer NotFound) cluster
    (do! preCheckDeploymentExist namespace wf.(wf_Name) in
     do! rethrow create_failed (createWorkFlow namespace gitRandom dockerRandom wf) in
     ret wf).
Definition Get (cluster namespace id : string) : M (gmap string K) Workload.workload_error WorkFlow :=
  on_cluster (Answer NotFound) cluster (rethrow read_failed (getWorkFlow namespace id)).
Definition List (cluster namespace : string) : M (gmap string K) Workload.workload_error (list WorkFlow) :=
  on_cluster (Answer NotFound) cluster (rethrow failed (getWorkFlows namespace)).
(** A cluster that is not there is answered with success and nothing. *)
Definition Update (cluster namespace random : string) (newer : WorkFlow) : M (gmap string K) Workload.workload_error (option WorkFlow) :=
  fun ks =>
    if is_some (ks !! cluster) then
      on_cluster (Answer NotFound) cluster
        (let! older := rethrow read_failed (getWorkFlow namespace newer.(wf_ID)) in
         let newer := mkWorkFlow newer.(wf_ID) older.(wf_Name) newer.(wf_Git) newer.(wf_Image) older.(wf_AutoDeploy) newer.(wf_Deploy)
                        newer.(wf_SubTasks) newer.(wf_Status) newer.(wf_CreationTimestamp) newer.(wf_DeletionTimestamp) in
         do! rethrow update_failed (updateWorkFlow namespace random newer) in
         ret (Some newer)) ks
    else (Ok None, ks).
(** A failure to remove the tasks is answered with success. *)
Definition Delete (cluster namespace id : string) : M (gmap string K) Workload.workload_error unit :=
  on_cluster (Answer NotFound) cluster
    (let! r := attempt (emptyWorkFlowTask namespace id) in
     match r with
     | Err WNil => throw Panic
     | Err _ => ret tt
     | Ok _ => rethrow read_failed (deleteWorkFlow namespace id)
     end).
Definition Action (cluster namespace id action : string) : M (gmap string K) Workload.workload_error unit :=
  on_cluster (Answer NotFound) cluster
    (if String.eqb action WorkFlowEmptyTaskAction then rethrow failed (emptyWorkFlowTask namespace id) else ret tt).
End WorkFlow.
