(* ===== verification/WorkFlowTask.v ===== *)
(** The runs of workflows (pkg/handler/workflowtask_manager.go and pkg/types/workflowtask.go):
    the pipeline that builds an image and deploys it, and the handlers. *)
From S2P Require Import Prelude GoStrings GoText RestApi KubeApi ConfigMap Secret PersistentVolume PodTemplate Workload Deployment WorkFlow.

Definition zcloudWorkFlowBuildImage : string := "zdnscloud/kaniko-executor:v0.13.0".
Definition zcloudWorkFlowYamlWriterImage : string := "zdnscloud/workflow-yaml-writer:v0.0.1".
Definition zcloudWorkFlowDeployerImage : string := "zdnscloud/kubectl:v1.17.2".

(** ** The pipeline *)

Definition url_spec : ParamSpec := mkParamSpec "IMAGE_URL" "The Url of image repository" None.
Definition tag_spec : ParamSpec := mkParamSpec "IMAGE_TAG" "The Tag to apply to the built image" None.
Definition yaml_spec : ParamSpec := mkParamSpec "DEPLOY_YAML" "The deployment yaml to deploy" None.
Definition build_task : PipelineTask :=
  mkPipelineTask "build" [] [("IMAGE_URL", "$(params.IMAGE_URL)"); ("IMAGE_TAG", "$(params.IMAGE_TAG)")] [("source", "git-source")]
    (mkTaskSpec
       [url_spec; tag_spec; mkParamSpec "DOCKERFILE" "Path to the Dockerfile to build" (Some "./Dockerfile");
        mkParamSpec "CONTEXT" "The build context used by Kaniko" (Some "./")]
       [("source", "git")]
       [mkStep "build-and-push" "/workspace/source" zcloudWorkFlowBuildImage [("DOCKER_CONFIG", "/tekton/home/.docker")]
          ["/kaniko/executor"; "--dockerfile=$(inputs.params.DOCKERFILE)"; "--context=/workspace/source/$(inputs.params.CONTEXT)";
           "--destination=$(inputs.params.IMAGE_URL):$(inputs.params.IMAGE_TAG)"; "--skip-tls-verify"] []]).
Definition deploy_task : PipelineTask :=
  mkPipelineTask "deploy" ["build"] [("DEPLOY_YAML", "$(params.DEPLOY_YAML)")] []
    (mkTaskSpec [yaml_spec] []
       [mkStep "write-yaml" "/workspace/source" zcloudWorkFlowYamlWriterImage [("DEPLOY_YAML", "$(inputs.params.DEPLOY_YAML)")]
          ["writer"] ["-env"; "DEPLOY_YAML"; "-out"; "/workspace/deploy.yaml"];
        mkStep "deploy-yaml" "/workspace/source" zcloudWorkFlowDeployerImage [] ["kubectl"] ["apply"; "-f"; "/workspace/deploy.yaml"]]).
Definition genPipelineTasks (wf : WorkFlow) : list PipelineTask := build_task :: if wf.(wf_AutoDeploy) then [deploy_task] else [].
(** The image that is built is put into the containers whose image has its name somewhere. *)
Definition set_image (image : string) (c : Container) : Container :=
  mkContainer c.(co_Name) image c.(co_Command) c.(co_Args) c.(co_ExposedPorts) c.(co_Env) c.(co_Volumes).
Definition built_containers (wf : WorkFlow) (imageTag : string) (containers : list Container) : list Container :=
  (fun c => if ContainsText c.(co_Image) wf.(wf_Image).(im_Name) then set_image (wf.(wf_Image).(im_Name) +:+ ":" +:+ imageTag) c else c)
  <$> containers.

Definition NotEarlier (a b : WorkFlowTask) : Prop := b.(wt_CreationTimestamp) <= a.(wt_CreationTimestamp).
#[export] Instance NotEarlier_dec a b : Decision (NotEarlier a b).
Proof. unfold NotEarlier. apply _. Defined.
Definition IsNoCompleteTaskExists (ts : list WorkFlowTask) : bool :=
  existsb (fun t => String.eqb t.(wt_Status).(ws_CurrentStatus) "Running" || String.eqb t.(wt_Status).(ws_CurrentStatus) "Pending") ts.

Section WorkFlowTask.
Context `{WorkFlowText} `{!WorkloadText} {K : Type} `{!KubeKind K K8sPV} `{!KubeKind K K8sPVC} `{!KubeKind K K8sStorageClass}
  `{!KubeKind K K8sConfigMap} `{!KubeKind K K8sSecret} `{!KubeKind K PipelineResource} `{!KubeKind K PipelineRun} `{!KubeSelect K PipelineRun}.

Definition task_error (e : pod_error) : workflow_error := match e with NilPointer | MustParsePanic => WNil | _ => WOther end.
Definition getWorkLoadPodTempateSpecAndPvcs (namespace : string) (owner : PodOwner) : M K pod_error (PodTemplateSpec * list K8sPVC) :=
  let! spec := scPodSpecToK8sPodSpecAndPVCs owner.(po_Containers) owner.(po_PersistentVolumes) in
  let! meta := rethrow PKube (createPodTempateObjectMeta owner.(po_Name) namespace owner.(po_AdvancedOptions) owner.(po_Containers)) in
  ret (mkPodTemplate meta spec.1, spec.2).
Definition scDeployToK8sDeployAndPvcs (namespace : string) (deploy : Deployment) : M K pod_error (K8sDeployment * list K8sPVC) :=
  let! template := getWorkLoadPodTempateSpecAndPvcs namespace (owner_of deploy) in
  ret (new_deployment namespace deploy template.1, template.2).
Definition k8sDeployToYaml (namespace : string) (deploy : Deployment) : M K workflow_error string :=
  let! objects := rethrow task_error (scDeployToK8sDeployAndPvcs namespace deploy) in
  lift (of_option WOther (deploy_yaml objects.1 objects.2)).
Definition getPipelineRunDeployYaml (namespace : string) (wf : WorkFlow) (imageTag : string) : M K workflow_error string :=
  if negb wf.(wf_AutoDeploy) then ret ""
  else
    let d := wf.(wf_Deploy) in
    k8sDeployToYaml namespace
      (mkDeployment d.(de_ID) d.(de_Name) d.(de_Replicas) (built_containers wf imageTag d.(de_Containers)) d.(de_AdvancedOptions)
         d.(de_PersistentVolumes) d.(de_Status) d.(de_Memo) d.(de_CreationTimestamp) d.(de_DeletionTimestamp)).
Definition genPipelineRun (namespace random : string) (wf : WorkFlow) (imageTag : string) : M K workflow_error PipelineRun :=
  let! deployYaml := (if wf.(wf_AutoDeploy) then getPipelineRunDeployYaml namespace wf imageTag else ret "") in
  ret (mkPipelineRun namespace (genWorkFlowRandomName wf.(wf_Name) random) {[zcloudWorkFlowIDLabelKey := wf.(wf_Name)]} wf.(wf_Name)
         [("IMAGE_URL", wf.(wf_Image).(im_Name)); ("IMAGE_TAG", imageTag); ("DEPLOY_YAML", deployYaml)] [("git-source", wf.(wf_Name))]
         (Some (mkPipelineSpec [url_spec; tag_spec; yaml_spec] [("git-source", "git")] (genPipelineTasks wf))) None None [] ∅ 0 None).

Definition getWorkFlowTasks (namespace workFlowName : string) : M K workflow_error (list WorkFlowTask) :=
  let! runs := getPipelineRunsByWorkFlowName namespace workFlowName in
  let! ts := lift (of_option WNil (mapM k8sPipelineRunToWorkFlowTask runs)) in
  ret (merge_sort NotEarlier ts).
(** The first failure decides the answer. *)
Definition createWorkFlowTask (namespace wfID : string) (now : Z) (random : string) (wft : WorkFlowTask)
    : M K Workload.workload_error WorkFlowTask :=
  let! wf := rethrow read_failed (getWorkFlow namespace wfID) in
  let! tasks := rethrow failed (getWorkFlowTasks namespace wfID) in
  do! guard (negb (IsNoCompleteTaskExists tasks)) (Answer PermissionDenied) in
  let! pipelineRun := rethrow failed (genPipelineRun namespace random wf wft.(wt_ImageTag)) in
  let! made := rethrow update_failed (rethrow WKube (kube_create pipelineRun)) in
  do! rethrow update_failed (updateWorkFlowLastestIDAnnotation namespace wfID made.(pn_Name)) in
  ret (mkWorkFlowTask made.(pn_Name) wft.(wt_ImageTag) wft.(wt_SubTasks) wft.(wt_Status) now wft.(wt_DeletionTimestamp)).

Definition Create (cluster namespace wfID : string) (now : Z) (random : string) (wft : WorkFlowTask)
    : M (gmap string K) Workload.workload_error WorkFlowTask :=
  on_cluster (Answer NotFound) cluster (createWorkFlowTask namespace wfID now random wft).
Definition Get (cluster namespace id : string) : M (gmap string K) Workload.workload_error WorkFlowTask :=
  on_cluster (Answer NotFound) cluster (rethrow read_failed (getWorkFlowTask namespace id)).
Definition List (cluster namespace wfID : string) : M (gmap string K) Workload.workload_error (list WorkFlowTask) :=
  on_cluster (Answer NotFound) cluster (rethrow failed (getWorkFlowTasks namespace wfID)).
End WorkFlowTask.
