(* ===== verification/WorkFlowLaws.v ===== *)
(** What the requests for workflows keep: every workflow has its service account, and the
    account has the right to deploy. *)
From S2P Require Import Prelude GoStrings GoText RestApi KubeApi ConfigMap Secret PersistentVolume PodTemplate Workload Deployment.
From S2P Require Import WorkFlow WorkFlowTask.

(** The calls on a kind of object leave accounts, rights and workflows alone. *)
Class Apart (K A : Type) `{KubeKind K A} `{!KubeKind K ServiceAccount} `{!KubeKind K ClusterRoleBinding} `{!KubeKind K PipelineResource} : Prop := {
  apart_account :: KubeFrame K A ServiceAccount;
  apart_binding :: KubeFrame K A ClusterRoleBinding;
  apart_resource :: KubeFrame K A PipelineResource
}.
Class ApartDelete (K A : Type) `{KubeKind K A} `{!KubeKind K ServiceAccount} `{!KubeKind K ClusterRoleBinding} `{!KubeKind K PipelineResource} : Prop := {
  apart_delete_account :: KubeDeleteFrame K A ServiceAccount;
  apart_delete_binding :: KubeDeleteFrame K A ClusterRoleBinding;
  apart_delete_resource :: KubeDeleteFrame K A PipelineResource
}.
Class ApartSelect (K A : Type) `{KubeSelect K A} `{!KubeKind K ServiceAccount} `{!KubeKind K ClusterRoleBinding} `{!KubeKind K PipelineResource} : Prop := {
  apart_select_account :: KubeSelectFrame K A ServiceAccount;
  apart_select_binding :: KubeSelectFrame K A ClusterRoleBinding;
  apart_select_resource :: KubeSelectFrame K A PipelineResource
}.

Section Laws.
Context `{WorkFlowText} `{!WorkloadText} {K : Type} `{!KubeKind K K8sPV} `{!KubeKind K K8sPVC} `{!KubeKind K K8sStorageClass}
  `{!KubeKind K K8sConfigMap} `{!KubeKind K K8sSecret} `{!KubeKind K K8sDeployment} `{!KubeKind K WorkFlowSecret} `{!KubeSelect K WorkFlowSecret}
  `{!KubeKind K ServiceAccount} `{!KubeKind K ClusterRoleBinding} `{!KubeKind K PipelineResource} `{!KubeKind K PipelineRun}
  `{!KubeSelect K PipelineRun}.
Context `{!KubeLaws K ServiceAccount} `{!KubeLaws K ClusterRoleBinding} `{!KubeLaws K PipelineResource} `{!KubeKeepsDeletion K PipelineResource}.
Context `{!Apart K K8sPV} `{!Apart K K8sPVC} `{!Apart K K8sStorageClass} `{!Apart K K8sConfigMap} `{!Apart K K8sSecret} `{!Apart K K8sDeployment}
  `{!Apart K WorkFlowSecret} `{!Apart K PipelineRun} `{!ApartDelete K K8sPV} `{!ApartDelete K K8sPVC} `{!ApartDelete K K8sDeployment}
  `{!ApartDelete K WorkFlowSecret} `{!ApartDelete K PipelineRun} `{!ApartSelect K WorkFlowSecret} `{!ApartSelect K PipelineRun}.
Context `{!KubeFrame K ServiceAccount ClusterRoleBinding} `{!KubeFrame K ServiceAccount PipelineResource}
  `{!KubeFrame K ClusterRoleBinding ServiceAccount} `{!KubeFrame K ClusterRoleBinding PipelineResource}
  `{!KubeFrame K PipelineResource ServiceAccount} `{!KubeFrame K PipelineResource ClusterRoleBinding}
  `{!KubeDeleteFrame K ServiceAccount ClusterRoleBinding} `{!KubeDeleteFrame K ServiceAccount PipelineResource}
  `{!KubeDeleteFrame K PipelineResource ServiceAccount} `{!KubeDeleteFrame K PipelineResource ClusterRoleBinding}.
Implicit Types (k : K) (key : string * string).

(** A workflow, by namespace and name; one that is being deleted counts no more. *)
Definition live key k : Prop := exists o : PipelineResource, kube_objects k !! key = Some o /\ kube_deleting o = false.
Definition account key k : Prop := is_Some (kube_objects (Obj := ServiceAccount) k !! key).
Definition entitled key k : Prop :=
  exists b : ClusterRoleBinding, kube_objects k !! ("", zcloudWorkFlowClusterRoleBindingName) = Some b /\
    exists s, s ∈ b.(cb_Subjects) /\ s.(su_Name) = key.2 /\ s.(su_Namespace) = key.1.
Definition served k : Prop := forall key, live key k -> account key k /\ entitled key k.

(** No workflow comes, and the names in [P] keep what they have and lose no workflow. *)
Definition kept (P : string * string -> Prop) k k' : Prop :=
  (forall key, live key k' -> live key k) /\
  forall key, P key -> (live key k -> live key k') /\ (account key k -> account key k') /\ (entitled key k -> entitled key k').
#[local] Instance kept_preorder P : PreOrder (kept P).
Proof.
  split; [split; auto|]. intros k1 k2 k3 [L1 A1] [L2 A2]. split; [auto|].
  intros key HP. destruct (A1 key HP) as (? & ? & ?), (A2 key HP) as (? & ? & ?). auto.
Qed.
Definition anybody key : Prop := True.
Definition others (x : string * string) key : Prop := key <> x.
Lemma kept_weaken (P Q : string * string -> Prop) k k' : (forall key, Q key -> P key) -> kept P k k' -> kept Q k k'.
Proof. intros HQ [Hl HP]. split; [done|]. auto. Qed.
Lemma served_others x k k' : kept (others x) k k' -> served k -> (live x k' -> account x k' /\ entitled x k') -> served k'.
Proof.
  intros [Hl Hk] Hs Hx key Hkey. destruct (decide (key = x)) as [->|Hne]; [auto|]. destruct (Hs key (Hl key Hkey)), (Hk key Hne) as (? & ? & ?). auto.
Qed.
Lemma served_kept k k' : kept anybody k k' -> served k -> served k'.
Proof. intros [Hl Hk] Hs key Hkey. destruct (Hs key (Hl key Hkey)), (Hk key I) as (? & ? & ?). auto. Qed.

Definition quiet k k' : Prop := same_kind ServiceAccount k k' /\ same_kind ClusterRoleBinding k k' /\ same_kind PipelineResource k k'.
#[local] Instance quiet_preorder : PreOrder quiet.
Proof.
  split; [done|]. intros k1 k2 k3 (A1 & A2 & A3) (A4 & A5 & A6). unfold quiet, same_kind in *.
  split; [congruence|]. split; congruence.
Qed.
Lemma quiet_kept P k k' : quiet k k' -> kept P k k'.
Proof. intros (Ha & Hb & Hr). unfold kept, live, account, entitled. rewrite Ha, Hb, Hr. auto. Qed.
Lemma keeps_quiet {E A} P (m : M K E A) : keeps quiet m -> keeps (kept P) m.
Proof. apply keeps_weaken, quiet_kept. Qed.

(** *** Calls that leave all three alone *)

Ltac quiet_call :=
  let c := fresh "c" in intros c; unfold quiet; split; [|split];
  first [apply get_same | apply list_same | apply frame_get | apply frame_list | apply frame_create | apply frame_update | apply frame_delete | apply frame_select].
#[local] Hint Extern 1 (keeps quiet (kube_get _ _)) => quiet_call : keeps.
#[local] Hint Extern 1 (keeps quiet (kube_list _)) => quiet_call : keeps.
#[local] Hint Extern 1 (keeps quiet (kube_create _)) => quiet_call : keeps.
#[local] Hint Extern 1 (keeps quiet (kube_update _)) => quiet_call : keeps.
#[local] Hint Extern 1 (keeps quiet (kube_delete _ _)) => quiet_call : keeps.
#[local] Hint Extern 1 (keeps quiet (kube_select _ _)) => quiet_call : keeps.

Lemma quiet_secrets namespace name : keeps quiet (getWorkFlowSecrets (K := K) namespace name).
Proof. unfold getWorkFlowSecrets. keep. Qed.
Lemma quiet_delete_secrets secrets : keeps quiet (delete_secrets (K := K) secrets).
Proof. induction secrets; simpl; keep. Qed.
#[local] Hint Resolve quiet_secrets quiet_delete_secrets : keeps.
Lemma quiet_update_secrets wf secrets found : keeps quiet (update_secrets (K := K) secrets wf found).
Proof.
  revert found. induction secrets as [|s secrets IH]; intros found; simpl; [keep|].
  unfold updateWorkFlowDockerSecret, updateWorkFlowGitSecret. pose proof IH. keep.
Qed.
Lemma quiet_runs namespace name : keeps quiet (getPipelineRunsByWorkFlowName (K := K) namespace name).
Proof. unfold getPipelineRunsByWorkFlowName. keep. Qed.
Lemma quiet_delete_runs runs : keeps quiet (delete_runs (K := K) runs).
Proof. induction runs; simpl; keep. Qed.
#[local] Hint Resolve quiet_update_secrets quiet_runs quiet_delete_runs : keeps.
Lemma quiet_task namespace name : keeps quiet (getWorkFlowTask (K := K) namespace name).
Proof. unfold getWorkFlowTask. keep. Qed.
#[local] Hint Resolve quiet_task : keeps.
Lemma quiet_shown namespace pr : keeps quiet (pipelineResourceToScWorkFlow (K := K) namespace pr).
Proof. unfold pipelineResourceToScWorkFlow. keep. Qed.
#[local] Hint Resolve quiet_shown : keeps.
Lemma quiet_workflow namespace name : keeps quiet (getWorkFlow (K := K) namespace name).
Proof. unfold getWorkFlow. keep. Qed.
#[local] Hint Resolve quiet_workflow : keeps.
Lemma quiet_claims pvs : keeps quiet (scPVCsToK8sVolumesAndPVCs (K := K) pvs).
Proof. induction pvs; simpl; unfold getStorageClass; keep. Qed.
Lemma quiet_configs namespace volumes cms ss : keeps quiet (used_configs (K := K) namespace volumes cms ss).
Proof.
  revert cms ss. induction volumes as [|v volumes IH]; intros cms ss; simpl; [keep|]. unfold getConfigMap, getSecret. pose proof IH. keep.
Qed.
#[local] Hint Resolve quiet_claims quiet_configs : keeps.
Lemma quiet_run namespace random wf tag : keeps quiet (genPipelineRun (K := K) namespace random wf tag).
Proof.
  unfold genPipelineRun, getPipelineRunDeployYaml, k8sDeployToYaml, scDeployToK8sDeployAndPvcs, getWorkLoadPodTempateSpecAndPvcs,
    scPodSpecToK8sPodSpecAndPVCs, createPodTempateObjectMeta, getConfigmapAndSecretContainersUse. keep.
Qed.
Lemma quiet_delete_claims {E} namespace volumes : keeps quiet (deleteWorkLoadPVCs (K := K) (E := E) namespace volumes).
Proof.
  induction volumes; simpl; unfold deletePVC, getPersistentVolumeClaim, deletePersistentVolumeClaim, getPersistentVolume, deletePersistentVolume; keep.
Qed.
#[local] Hint Resolve quiet_run quiet_delete_claims : keeps.
Lemma quiet_deployment namespace name : keeps quiet (deleteWorkFlowDeploymentAndPVCs (K := K) namespace name).
Proof. unfold deleteWorkFlowDeploymentAndPVCs, getDeployment, deleteDeployment, delete_claims. keep. Qed.
#[local] Hint Resolve quiet_deployment : keeps.

(** *** Calls on the three *)

Lemma kept_account P ns n k k' :
  (P (ns, n) -> account (ns, n) k -> account (ns, n) k') ->
  (forall key, key <> (ns, n) -> kube_objects (Obj := ServiceAccount) k' !! key = kube_objects (Obj := ServiceAccount) k !! key) ->
  same_kind ClusterRoleBinding k k' -> same_kind PipelineResource k k' -> kept P k k'.
Proof.
  intros Hx Hother Hb Hr. unfold kept, live, entitled. rewrite Hb, Hr. split; [done|]. intros key HP. split; [done|]. split; [|done].
  destruct (decide (key = (ns, n))) as [->|Hne]; [auto|]. unfold account. by rewrite Hother.
Qed.
Ltac frames := solve [apply frame_create | apply frame_update | apply frame_delete].
Lemma kept_create_account P (sa : ServiceAccount) : keeps (kept P) (kube_create sa).
Proof.
  intros k. pose proof (frame_create (B := ClusterRoleBinding) sa k) as Fb. pose proof (frame_create (B := PipelineResource) sa k) as Fr.
  destruct (kube_create sa k) as [r k'] eqn:Hc. apply kube_create_law in Hc. cbn [snd] in *.
  apply (kept_account P sa.(sa_Namespace) sa.(sa_Name)); [| |done|done]; destruct r as [sa'|e].
  - destruct Hc as (_ & _ & Hnone & Ho). unfold account. intros _ Hx. rewrite Ho. apply (lookup_insert_is_Some' _ (kube_key sa)). auto.
  - destruct Hc as [Ho _]. unfold account. by rewrite Ho.
  - destruct Hc as (_ & _ & _ & Ho). intros key Hne. rewrite Ho. by apply lookup_insert_ne.
  - destruct Hc as [Ho _]. intros key _. by rewrite Ho.
Qed.
Lemma kept_update_account P (sa : ServiceAccount) : keeps (kept P) (kube_update sa).
Proof.
  intros k. pose proof (frame_update (B := ClusterRoleBinding) sa k) as Fb. pose proof (frame_update (B := PipelineResource) sa k) as Fr.
  destruct (kube_update sa k) as [r k'] eqn:Hc. apply kube_update_law in Hc. cbn [snd] in *.
  apply (kept_account P sa.(sa_Namespace) sa.(sa_Name)); [| |done|done]; destruct r as [sa'|e].
  - destruct Hc as (_ & _ & _ & Ho). unfold account. intros _ Hx. rewrite Ho. apply (lookup_insert_is_Some' _ (kube_key sa)). auto.
  - unfold account. by rewrite Hc.
  - destruct Hc as (_ & _ & _ & Ho). intros key Hne. rewrite Ho. by apply lookup_insert_ne.
  - intros key _. by rewrite Hc.
Qed.
Lemma kept_delete_account ns n : keeps (kept (others (ns, n))) (kube_delete (Obj := ServiceAccount) ns n).
Proof.
  intros k. pose proof (frame_delete (A := ServiceAccount) (B := ClusterRoleBinding) ns n k) as Fb. pose proof (frame_delete (A := ServiceAccount) (B := PipelineResource) ns n k) as Fr.
  destruct (kube_delete ns n k) as [r k'] eqn:Hc. apply kube_delete_law in Hc. cbn [snd] in *.
  apply (kept_account _ ns n); [by intros []| |done|done]. intros key Hne. destruct r as [[]|e].
  - destruct Hc as [->|(o & -> & _)]; [by apply lookup_delete_ne|by apply lookup_insert_ne].
  - destruct Hc as [-> _]. done.
Qed.

(** The list of those who have the role is read and written back. *)
Lemma change_binding (P : string * string -> Prop) (f : ClusterRoleBinding -> list Subject) k r k' :
  (forall b key, P key -> forall s, s ∈ b.(cb_Subjects) -> s.(su_Name) = key.2 -> s.(su_Namespace) = key.1 -> s ∈ f b) ->
  (let! crb := rethrow WKube (kube_get (Obj := ClusterRoleBinding) "" zcloudWorkFlowClusterRoleBindingName) in
   do! rethrow WKube (kube_update (mkBinding crb.(cb_Name) (f crb))) in ret tt) k = (r, k') ->
  kept P k k' /\ (r = Ok tt -> exists b o, kube_objects k' !! ("", zcloudWorkFlowClusterRoleBindingName) = Some o /\ cb_Subjects o = f b).
Proof.
  intros Hf Hu. unfold bind, rethrow, ret in Hu.
  pose proof (get_same (A := ClusterRoleBinding) "" zcloudWorkFlowClusterRoleBindingName k) as Sb.
  pose proof (frame_get (A := ClusterRoleBinding) (B := ServiceAccount) "" zcloudWorkFlowClusterRoleBindingName k) as Sa.
  pose proof (frame_get (A := ClusterRoleBinding) (B := PipelineResource) "" zcloudWorkFlowClusterRoleBindingName k) as Sr.
  destruct (kube_get "" zcloudWorkFlowClusterRoleBindingName k) as [[b|e] k1] eqn:Hg; cbn [snd map_err] in *.
  2:{ injection Hu as <- <-. split; [by apply quiet_kept|done]. }
  apply kube_get_law in Hg as [_ [Hb Hkey]]. injection Hkey as Hname.
  pose proof (frame_update (B := ServiceAccount) (mkBinding (cb_Name b) (f b)) k1) as Ua.
  pose proof (frame_update (B := PipelineResource) (mkBinding (cb_Name b) (f b)) k1) as Ur.
  destruct (kube_update _ k1) as [ru k2] eqn:Hup; cbn [snd] in *. apply kube_update_law in Hup.
  destruct ru as [o|e]; cbn [map_err] in Hu; injection Hu as <- <-.
  - destruct Hup as (_ & Hspec & _ & Ho). unfold kube_spec in Hspec. simpl in Hspec. unfold same_kind in *.
    assert (Hnew : kube_objects k2 !! ("", zcloudWorkFlowClusterRoleBindingName) = Some o).
    { rewrite Ho. unfold kube_key. simpl. rewrite Hname. by rewrite lookup_insert_eq. }
    split; [|intros _; by exists b, o]. unfold kept, live, account. rewrite Ua, Sa, Ur, Sr. split; [done|]. intros key HP. do 2 (split; [done|]).
    intros (b1 & Hb1 & s & Hs & Hs1 & Hs2). assert (b1 = b) as -> by congruence. exists o. split; [done|]. exists s.
    rewrite Hspec. eauto using Hf.
  - split; [|done]. unfold same_kind in *. apply quiet_kept. unfold quiet, same_kind. split; [congruence|]. split; congruence.
Qed.
Lemma addWorkFlowSaToCRB_ok saName saNamespace k r k' :
  addWorkFlowSaToCRB saName saNamespace k = (r, k') -> kept anybody k k' /\ (r = Ok tt -> entitled (saNamespace, saName) k').
Proof.
  intros [Hk Hr]%(change_binding anybody (fun b => b.(cb_Subjects) ++ [mkSubject "ServiceAccount" saName saNamespace])).
  - split; [done|]. intros (b & o & Ho & Hs)%Hr. exists o. split; [done|]. exists (mkSubject "ServiceAccount" saName saNamespace).
    rewrite Hs. set_solver.
  - set_solver.
Qed.
Lemma deleteWorkFlowSaFromCRB_ok saName saNamespace k r k' :
  deleteWorkFlowSaFromCRB saName saNamespace k = (r, k') ->
  kept (others (saNamespace, saName)) k k' /\ (r = Ok tt -> ~ entitled (saNamespace, saName) k').
Proof.
  intros [Hk Hr]%(change_binding (others (saNamespace, saName)) (fun b => filter (fun s => ~ (s.(su_Name) = saName /\ s.(su_Namespace) = saNamespace)) b.(cb_Subjects))).
  - split; [done|]. intros (b & o & Ho & Hs)%Hr (o1 & Ho1 & s & Hin & Hn & Hns). assert (o1 = o) as -> by congruence.
    rewrite Hs in Hin. apply list_elem_of_filter in Hin as [Hno _]. by apply Hno.
  - intros b [ns n] Hne s Hs Hn Hns. simpl in *. apply list_elem_of_filter. split; [|done]. intros [E1 E2]. apply Hne. congruence.
Qed.

(** *** Calls on the resource *)

Lemma change_resource P (f : PipelineResource -> PipelineResource) ns n k r k' :
  (forall pr, kube_key (f pr) = kube_key pr /\ kube_deleting (f pr) = kube_deleting pr) ->
  (let! pr := rethrow WKube (kube_get (Obj := PipelineResource) ns n) in do! rethrow WKube (kube_update (f pr)) in ret tt) k = (r, k') ->
  kept P k k'.
Proof.
  intros Hf Hu. unfold bind, rethrow, ret in Hu.
  pose proof (get_same (A := PipelineResource) ns n k) as Sr. pose proof (frame_get (A := PipelineResource) (B := ServiceAccount) ns n k) as Sa.
  pose proof (frame_get (A := PipelineResource) (B := ClusterRoleBinding) ns n k) as Sb.
  destruct (kube_get ns n k) as [[pr|e] k1] eqn:Hg; cbn [snd map_err] in *; [|injection Hu as <- <-; by apply quiet_kept].
  apply kube_get_law in Hg as [_ [Hpr Hkey]]. destruct (Hf pr) as [Hfk Hfd].
  pose proof (frame_update (B := ServiceAccount) (f pr) k1) as Ua. pose proof (frame_update (B := ClusterRoleBinding) (f pr) k1) as Ub.
  destruct (kube_update (f pr) k1) as [ru k2] eqn:Hup; cbn [snd] in *. pose proof Hup as Hlaw. apply kube_update_law in Hlaw.
  destruct ru as [o|e]; cbn [map_err] in Hu; injection Hu as <- <-; unfold same_kind in *.
  2:{ apply quiet_kept. unfold quiet, same_kind. split; [congruence|]. split; congruence. }
  destruct Hlaw as (_ & _ & _ & Ho).
  assert (Hd : kube_deleting o = kube_deleting pr).
  { apply (kube_update_deleting _ _ _ _ pr Hup); [|done]. rewrite Hfk, Hkey. congruence. }
  unfold kept, account, entitled. rewrite Ua, Sa, Ub, Sb.
  assert (Hlive : forall key, live key k2 <-> live key k).
  { intros key. unfold live. rewrite Ho, Sr, Hfk, Hkey. destruct (decide (key = (ns, n))) as [->|Hne].
    - rewrite lookup_insert_eq, Hpr. split; intros (o1 & [= <-] & Hd1); eexists; (split; [done|congruence]).
    - by rewrite lookup_insert_ne by done. }
  split; [by intros key ?%Hlive|]. intros key _. split; [by intros ?%Hlive|done].
Qed.
Lemma kept_latest P namespace name id : keeps (kept P) (updateWorkFlowLastestIDAnnotation (K := K) namespace name id).
Proof.
  intros k. destruct (updateWorkFlowLastestIDAnnotation namespace name id k) as [r k'] eqn:Hu. simpl.
  assert (Hq : keeps (kept P) (rethrow WKube (kube_get (Obj := PipelineResource) namespace name))) by (apply keeps_quiet; keep).
  unfold updateWorkFlowLastestIDAnnotation in Hu.
  apply bind_cases in Hu as [(pr & k1 & Hg & [[_ Hu]|(_ & _ & ->)]%bind_guard_inv)|(e & Hg & _)]; [|by apply (keeps_run _ _ _ _ _ Hq Hg)..].
  apply (change_resource P (fun pr => set_resource (<[zcloudWorkFlowLatestTaskIDAnnotationKey := id]> pr.(pr_Annotations)) pr.(pr_Params) pr) namespace name k r); [done|].
  unfold bind at 1. by rewrite Hg.
Qed.
Lemma kept_content P namespace wf : keeps (kept P) (updateGitPipelineResource (K := K) namespace wf).
Proof.
  intros k. destruct (updateGitPipelineResource namespace wf k) as [r k'] eqn:Hu. simpl. unfold updateGitPipelineResource in Hu.
  apply bind_lift_inv in Hu as [(json & _ & Hu)|(e & _ & _ & ->)]; [|reflexivity].
  exact (change_resource P (fun pr => set_resource {[zcloudWorkFlowContentAnnotationKey := json]} (git_params wf.(wf_Git)) pr) namespace wf.(wf_Name) k r k' ltac:(done) Hu).
Qed.
Lemma create_resource (pr : PipelineResource) k r k' :
  kube_create pr k = (r, k') -> same_kind ServiceAccount k k' /\ same_kind ClusterRoleBinding k k' /\
  match r with
  | Ok _ => forall key, key <> kube_key pr -> live key k' <-> live key k
  | Err _ => same_kind PipelineResource k k'
  end.
Proof.
  intros Hc. pose proof (frame_create (B := ServiceAccount) pr k) as Fa. pose proof (frame_create (B := ClusterRoleBinding) pr k) as Fb.
  rewrite Hc in Fa, Fb. split; [done|]. split; [done|]. apply kube_create_law in Hc. destruct r as [o|e]; [|by destruct Hc].
  destruct Hc as (_ & _ & _ & Ho). intros key Hne. unfold live. by rewrite Ho, lookup_insert_ne by done.
Qed.
Lemma delete_resource ns n k r k' :
  deletePipelineResource ns n k = (r, k') -> kept (others (ns, n)) k k' /\ match r with Ok _ => ~ live (ns, n) k' | Err _ => quiet k k' end.
Proof.
  unfold deletePipelineResource, rethrow. intros Hd.
  pose proof (frame_delete (A := PipelineResource) (B := ServiceAccount) ns n k) as Fa. pose proof (frame_delete (A := PipelineResource) (B := ClusterRoleBinding) ns n k) as Fb.
  destruct (kube_delete ns n k) as [rd k1] eqn:Hk. cbn [snd] in *. injection Hd as <- <-. apply kube_delete_law in Hk.
  destruct rd as [[]|e]; cbn [map_err].
  2:{ destruct Hk as [Hk _]. assert (quiet k k1) by done. split; [by apply quiet_kept|done]. }
  assert (Hx : ~ live (ns, n) k1).
  { intros (o & Ho & Hd). destruct Hk as [Hk|(o1 & Hk & Hd1 & _)]; rewrite Hk in Ho.
    - by rewrite lookup_delete_eq in Ho.
    - rewrite lookup_insert_eq in Ho. congruence. }
  assert (Hother : forall key, key <> (ns, n) -> live key k1 <-> live key k).
  { intros key Hne. unfold live. destruct Hk as [->|(o1 & -> & _)]; [by rewrite lookup_delete_ne by done|by rewrite lookup_insert_ne by done]. }
  split; [|done]. unfold kept, account, entitled. rewrite Fa, Fb. split.
  - intros key Hl. destruct (decide (key = (ns, n))) as [->|Hne]; [done|by apply Hother].
  - intros key Hne. split; [by apply Hother|done].
Qed.

(** ** The operations *)

#[local] Hint Extern 2 (keeps (kept _) _) => apply keeps_quiet; solve [keep] : keeps.
#[local] Hint Resolve kept_create_account kept_update_account kept_latest kept_content : keeps.
Lemma kept_remove_subject saName saNamespace : keeps (kept (others (saNamespace, saName))) (deleteWorkFlowSaFromCRB (K := K) saName saNamespace).
Proof. intros k. destruct (deleteWorkFlowSaFromCRB saName saNamespace k) as [r k'] eqn:Hd. by apply deleteWorkFlowSaFromCRB_ok in Hd as [Hd _]. Qed.
Lemma kept_add_subject P saName saNamespace : keeps (kept P) (addWorkFlowSaToCRB (K := K) saName saNamespace).
Proof.
  intros k. destruct (addWorkFlowSaToCRB saName saNamespace k) as [r k'] eqn:Hd. apply addWorkFlowSaToCRB_ok in Hd as [Hd _].
  by apply (kept_weaken anybody).
Qed.
#[local] Hint Resolve kept_delete_account kept_remove_subject kept_add_subject : keeps.

Lemma kept_update P namespace random wf : keeps (kept P) (updateWorkFlow (K := K) namespace random wf).
Proof. unfold updateWorkFlow, updateWorkFlowSecrets, deleteSecretFromWorkFlowSA, addSecretToWorkFlowSA. keep. Qed.
Lemma kept_empty P namespace name : keeps (kept P) (emptyWorkFlowTask (K := K) namespace name).
Proof. unfold emptyWorkFlowTask, deletePipelineRunsByWorkFlowName. keep. Qed.
Lemma kept_run_task P namespace wfID now random wft : keeps (kept P) (createWorkFlowTask (K := K) namespace wfID now random wft).
Proof. unfold createWorkFlowTask, getWorkFlowTasks. keep. Qed.
#[local] Hint Resolve kept_update kept_empty kept_run_task : keeps.

(** The objects that the creation of a workflow takes back are its own. *)
Definition own (name : string) (o : Created) : Prop := match o with MadeSecret _ => True | MadeAccount n => n = name end.
Lemma kept_delete_created namespace name objs :
  Forall (own name) objs -> keeps (kept (others (namespace, name))) (delete_created (K := K) namespace objs).
Proof.
  induction 1 as [|[n|n] objs Hn Hobjs IH]; simpl; [keep..|]. simpl in Hn. subst n. keep.
Qed.
Lemma kept_fail_back namespace name objs :
  Forall (own name) objs -> keeps (kept (others (namespace, name))) (workFlowCreateFailBack (K := K) namespace name objs).
Proof. intros Ho. pose proof (kept_delete_created namespace name objs Ho). unfold workFlowCreateFailBack. keep. Qed.
Lemma or_fail_back_inv {A} namespace name objs (m : M K workflow_error A) k r k' :
  Forall (own name) objs -> or_fail_back namespace name objs m k = (r, k') ->
  (exists a, r = Ok a /\ m k = (Ok a, k')) \/
  is_ok r = false /\ exists e k1, m k = (Err e, k1) /\ kept (others (namespace, name)) k1 k'.
Proof.
  intros Hobjs Hm. unfold or_fail_back, bind at 1, attempt in Hm. destruct (m k) as [[a|e] k1] eqn:Hmk.
  - injection Hm as <- <-. eauto.
  - pose proof (kept_fail_back namespace name objs Hobjs k1) as Hk. unfold bind in Hm.
    destruct (workFlowCreateFailBack namespace name objs k1) as [[[]|e1] k2]; injection Hm as <- <-; eauto 8.
Qed.
Lemma keeps_or_fail_back {A} namespace name objs (m : M K workflow_error A) :
  Forall (own name) objs -> keeps (kept (others (namespace, name))) m -> keeps (kept (others (namespace, name))) (or_fail_back namespace name objs m).
Proof. intros Ho Hm. pose proof (kept_fail_back namespace name objs Ho). unfold or_fail_back. keep. Qed.

(** The creation: up to the resource the other workflows keep what they have; then the
    resource is made, or what there is of the workflow is taken back. *)
Lemma createWorkFlow_ok namespace r1 r2 wf k r k' :
  createWorkFlow namespace r1 r2 wf k = (r, k') ->
  if is_ok r
  then exists k1 k2 (pr o : PipelineResource), kept (others (namespace, wf.(wf_Name))) k k1 /\ account (namespace, wf.(wf_Name)) k1 /\
         addWorkFlowSaToCRB wf.(wf_Name) namespace k1 = (Ok tt, k2) /\ kube_key pr = (namespace, wf.(wf_Name)) /\
         kube_create pr k2 = (Ok o, k')
  else kept (others (namespace, wf.(wf_Name))) k k'.
Proof.
  set (x := (namespace, wf_Name wf)). intros Hc. unfold createWorkFlow in Hc.
  apply (keeps_bind_inv (kept (others x))) in Hc as [(gs & k1 & K1 & _ & Hc)|[Hk ->]]; [|done|keep].
  apply (keeps_bind_inv (kept (others x))) in Hc as [(gn & k2 & K2 & _ & Hc)|[Hk ->]]; [|by transitivity k1|keep].
  pose proof (transitivity K1 K2) as T2.
  set (objs := match gn with Some n => [MadeSecret n] | None => [] end) in *.
  assert (O1 : Forall (own wf.(wf_Name)) objs) by (subst objs; destruct gn; repeat constructor).
  apply (keeps_bind_inv (kept (others x))) in Hc as [(ds & k3 & K3 & _ & Hc)|[Hk ->]];
    [|by transitivity k2|apply keeps_or_fail_back; [done|keep]].
  pose proof (transitivity T2 K3) as T3.
  assert (O2 : Forall (own wf.(wf_Name)) (objs ++ [MadeSecret ds.(wc_Name)])) by (apply Forall_app; split; [done|repeat constructor]).
  apply (keeps_bind_inv (kept (others x))) in Hc as [(sa & k4 & K4 & Hsa & Hc)|[Hk ->]];
    [|by transitivity k3|apply keeps_or_fail_back; [done|keep]].
  pose proof (transitivity T3 K4) as T4.
  assert (O3 : Forall (own wf.(wf_Name)) ((objs ++ [MadeSecret ds.(wc_Name)]) ++ [MadeAccount wf.(wf_Name)]))
    by (apply Forall_app; split; [done|repeat constructor]).
  apply (keeps_bind_inv (kept (others x))) in Hc as [([] & k5 & K5 & Hcrb & Hc)|[Hk ->]];
    [|by transitivity k4|apply keeps_or_fail_back; [done|keep]].
  pose proof (transitivity T4 K5) as T5.
  apply (keeps_bind_inv (kept (others x))) in Hc as [(pr & k6 & K6 & Hpr & Hc)|[Hk ->]];
    [|by transitivity k5|apply keeps_or_fail_back; [done|keep]].
  pose proof (transitivity T5 K6) as T6.
  apply or_fail_back_inv in Hsa as [(sa1 & [= <-] & Hsa)|[Hf _]]; [|done..].
  apply or_fail_back_inv in Hcrb as [([] & _ & Hcrb)|[Hf _]]; [|done..].
  apply or_fail_back_inv in Hpr as [(pr1 & [= <-] & [= Hpr <-])|[Hf _]]; [|done..].
  assert (Hkey : kube_key pr = x).
  { clear -Hpr. unfold genGitPipelineResource in Hpr. destruct (marshal_workflow wf) as [json|]; simpl in Hpr; [|done].
    by injection Hpr as <-. }
  apply bind_cases in Hc as [(o & k7 & Ho & [= <- <-])|(e & Ho & ->)]; apply or_fail_back_inv in Ho as [(o1 & [= <-] & Ho)|[Hf Hfail]]; try done.
  - unfold rethrow in Ho. destruct (kube_create pr k5) as [[o1|] k8] eqn:Hp; cbn [map_err] in Ho; [|done]. injection Ho as -> ->. exists k4, k5, pr, o. split; [done|]. split; [|done].
    unfold rethrow in Hsa. destruct (kube_create _ k3) as [[s1|] k9] eqn:Hs; cbn [map_err] in Hsa; [|done]. injection Hsa as -> ->. apply kube_create_law in Hs as (_ & _ & _ & Hs).
    unfold account. rewrite Hs. apply (lookup_insert_is_Some' _ x). auto.
  - destruct Hfail as (e1 & k8 & Hp & Hback). cbn [is_ok]. transitivity k5; [done|]. transitivity k8; [|done].
    unfold rethrow in Hp. destruct (kube_create pr k5) as [[o1|] k9] eqn:Hq; cbn [map_err] in Hp; [done|]. injection Hp as _ ->. apply create_resource in Hq. by apply quiet_kept.
Qed.

Lemma createWorkFlow_served namespace r1 r2 wf k r k' :
  let x := (namespace, wf.(wf_Name)) in
  createWorkFlow namespace r1 r2 wf k = (r, k') -> ~ live x k -> served k ->
  served k' /\ (forall key, key <> x -> live key k' <-> live key k) /\ (is_ok r = false -> ~ live x k').
Proof.
  intros x Hc Hx Hs. apply createWorkFlow_ok in Hc. fold x in Hc. destruct r as [[]|e]; cbn [is_ok] in *.
  2:{ assert (Hx' : ~ live x k') by (intros Hl; by apply Hx, Hc). split; [by apply (served_others x k)|]. split; [|done].
      intros key Hne. split; [apply Hc|by apply Hc]. }
  destruct Hc as (k1 & k2 & pr & o & K1 & Ha & Hadd & Hkey & Hp). apply addWorkFlowSaToCRB_ok in Hadd as [K2 He].
  specialize (He eq_refl). fold x in He. apply create_resource in Hp as (Fa & Fb & Hlive). rewrite Hkey in Hlive. fold x in Hlive.
  assert (K12 : kept (others x) k k2) by (transitivity k1; [done|by apply (kept_weaken anybody)]).
  assert (Ha2 : account x k2) by (by apply (proj2 K2 x I)).
  split; [|split; [|done]].
  - intros key Hl. unfold account, entitled. rewrite Fa, Fb. destruct (decide (key = x)) as [->|Hne]; [done|].
    destruct (Hs key) as [H1k H2k]; [by apply (proj1 K12), Hlive|]. destruct (proj2 K12 key Hne) as (_ & HA & HE). split; [by apply HA|by apply HE].
  - intros key Hne. rewrite Hlive by done. split; [apply K12|by apply K12].
Qed.
Lemma deleteWorkFlow_served namespace name k r k' :
  deleteWorkFlow namespace name k = (r, k') -> served k -> served k' /\ kept (others (namespace, name)) k k'.
Proof.
  intros Hd Hs. unfold deleteWorkFlow in Hd.
  apply bind_cases in Hd as [([] & k1 & Hr & Hd)|(e & Hr & ->)]; apply delete_resource in Hr as [K1 Hx].
  - assert (Hrest : kept (others (namespace, name)) k1 k').
    { eapply keeps_run; [|exact Hd]. unfold deleteWorkFlowSecrets. keep. }
    pose proof (transitivity K1 Hrest) as K2. split; [|done]. apply (served_others _ k k' K2 Hs). intros Hl. by destruct Hx; apply Hrest.
  - split; [|done]. apply (served_kept k); [by apply quiet_kept|done].
Qed.

(** ** Requests *)

Inductive request :=
  | CreateRequest (namespace : string) (now : Z) (gitRandom dockerRandom : string) (wf : WorkFlow)
  | UpdateRequest (namespace random : string) (newer : WorkFlow)
  | DeleteRequest (namespace id : string)
  | ActionRequest (namespace id action : string)
  | TaskRequest (namespace wfID : string) (now : Z) (random : string) (wft : WorkFlowTask).
Definition run (cluster : string) (rq : request) : M (gmap string K) Workload.workload_error unit :=
  match rq with
  | CreateRequest namespace now r1 r2 wf => do! WorkFlow.Create cluster namespace now r1 r2 wf in ret tt
  | UpdateRequest namespace random newer => do! WorkFlow.Update cluster namespace random newer in ret tt
  | DeleteRequest namespace id => WorkFlow.Delete cluster namespace id
  | ActionRequest namespace id action => WorkFlow.Action cluster namespace id action
  | TaskRequest namespace wfID now random wft => do! WorkFlowTask.Create cluster namespace wfID now random wft in ret tt
  end.
Definition made (rq : request) : option (string * string) :=
  match rq with CreateRequest namespace _ _ _ wf => Some (namespace, wf.(wf_Name)) | _ => None end.
Definition removed (rq : request) : option (string * string) :=
  match rq with DeleteRequest namespace id => Some (namespace, id) | _ => None end.

(** A request that takes and makes no workflow. *)
Lemma no_change {A} cluster (missing : Workload.workload_error) (m : M K Workload.workload_error A) ks ks' k k' r :
  on_cluster missing cluster m ks = (r, ks') -> ks !! cluster = Some k -> ks' !! cluster = Some k' ->
  keeps (kept anybody) m -> served k -> served k' /\ (forall key, live key k' <-> live key k).
Proof.
  intros Hr Hk Hk' Hm Hs. apply on_cluster_at with (k := k) in Hr as (k1 & Hmk & ->); [|done].
  rewrite lookup_insert_eq in Hk'. injection Hk' as <-. apply (keeps_run _ _ _ _ _ Hm) in Hmk.
  split; [by apply (served_kept k)|]. intros key. split; [apply Hmk|by apply Hmk].
Qed.
Lemma bind_tt_inv {S E A} (m : M S E A) s r s' : bind m (fun _ => ret tt) s = (r, s') -> exists r1, m s = (r1, s') /\ is_ok r1 = is_ok r.
Proof. unfold bind, ret. destruct (m s) as [[a|e] s1]; intros [= <- <-]; eauto. Qed.

(** What a creation or a deletion leaves. *)
Definition only_at (x : string * string) k k' : Prop := served k' /\ forall key, key <> x -> live key k' <-> live key k.
Lemma only_at_kept x k k1 k' : kept anybody k k1 -> only_at x k1 k' -> only_at x k k'.
Proof. intros Hk [Hs Ho]. split; [done|]. intros key Hne. rewrite Ho by done. split; [apply Hk|by apply Hk]. Qed.
Lemma Create_at namespace now r1 r2 wf cluster ks ks' k k' r :
  let x := (namespace, wf.(wf_Name)) in
  WorkFlow.Create cluster namespace now r1 r2 wf ks = (r, ks') -> ks !! cluster = Some k -> ks' !! cluster = Some k' ->
  ~ live x k -> served k -> only_at x k k' /\ (is_ok r = false -> ~ live x k').
Proof.
  intros x Hr Hk Hk' Hx Hs. unfold WorkFlow.Create in Hr. apply on_cluster_at with (k := k) in Hr as (k1 & Hm & ->); [|done].
  rewrite lookup_insert_eq in Hk'. injection Hk' as ->.
  apply (keeps_bind_inv (kept anybody)) in Hm as [([] & k2 & K2 & _ & Hm)|[K2 Hf]].
  3:{ unfold preCheckDeploymentExist, getDeployment. keep. }
  2:{ split; [|intros _ Hl; by apply Hx, K2]. split; [by apply (served_kept k)|]. intros key _. split; [apply K2|by apply K2]. }
  assert (Hx2 : ~ live x k2) by (intros Hl; by apply Hx, K2).
  unfold rethrow, bind, ret in Hm. destruct (createWorkFlow namespace r1 r2 _ k2) as [rm k3] eqn:Hc.
  apply createWorkFlow_served in Hc as (Hs3 & Hother & Hfail); [|done|by apply (served_kept k)].
  assert (Hrk : is_ok r = is_ok rm /\ k' = k3) by (by destruct rm; injection Hm as <- <-). destruct Hrk as [-> ->].
  split; [|done]. apply (only_at_kept x k k2); [done|by split].
Qed.
Lemma Delete_at namespace id cluster ks ks' k k' r :
  WorkFlow.Delete cluster namespace id ks = (r, ks') -> ks !! cluster = Some k -> ks' !! cluster = Some k' -> served k ->
  served k' /\ kept (others (namespace, id)) k k'.
Proof.
  intros Hr Hk Hk' Hs. unfold WorkFlow.Delete in Hr. apply on_cluster_at with (k := k) in Hr as (k1 & Hm & ->); [|done].
  rewrite lookup_insert_eq in Hk'. injection Hk' as ->. rewrite bind_attempt in Hm.
  pose proof (kept_empty anybody namespace id k) as K1. destruct (emptyWorkFlowTask namespace id k) as [re k1]; cbn [fst snd] in *.
  assert (Hs1 : served k1) by by apply (served_kept k). apply (kept_weaken _ (others (namespace, id))) in K1; [|done].
  destruct re as [[]|e].
  - unfold rethrow in Hm. destruct (deleteWorkFlow namespace id k1) as [rd k2] eqn:Hd. injection Hm as _ <-.
    apply deleteWorkFlow_served in Hd as [Hs2 K2]; [|done]. split; [done|]. by transitivity k1.
  - assert (k' = k1) as -> by (by destruct e; injection Hm as _ <-). done.
Qed.

(** C19. Requests for workflows on a ready cluster, whatever calls on it fail: as long as no
    workflow is created under the name of one that exists, every workflow has its service
    account, and the account has the right to deploy, before and after each of them.  No
    request but a creation that succeeds makes a workflow, under its name; no request but a
    deletion takes one, that of its name. *)
Theorem workflows_served cluster rq (ks ks' : gmap string K) k k' r :
  run cluster rq ks = (r, ks') -> ks !! cluster = Some k -> ks' !! cluster = Some k' ->
  (forall key, made rq = Some key -> ~ live key k) -> served k ->
  served k' /\
  (forall key, live key k' -> live key k \/ made rq = Some key /\ is_ok r = true) /\
  (forall key, live key k -> live key k' \/ removed rq = Some key).
Proof.
  intros Hr Hk Hk' Hfree Hs. destruct rq as [ns now r1 r2 wf|ns random newer|ns id|ns id action|ns wfID now random wft]; cbn [run made removed] in *.
  - apply bind_tt_inv in Hr as (rc & Hr & <-). eapply Create_at in Hr as [[Hs' Ho] Hf]; [|done..|by apply Hfree|done]. split; [done|].
    specialize (Hfree _ eq_refl). split; intros key Hl; (destruct (decide (key = (ns, wf_Name wf))) as [->|Hne]; [|left; by apply Ho]); [|done].
    destruct (is_ok rc); [auto|]. by destruct Hf.
  - apply bind_tt_inv in Hr as (rc & Hr & _). unfold WorkFlow.Update in Hr. rewrite Hk in Hr. cbn [is_some] in Hr.
    eapply no_change in Hr as [Hs' Ho]; [|done..|keep|done]. setoid_rewrite Ho. auto.
  - eapply Delete_at in Hr as [Hs' [Hb Ho]]; [|done..]. split; [done|]. split; [auto|]. intros key Hl.
    destruct (decide (key = (ns, id))) as [->|Hne]; [by right|left; by apply Ho].
  - unfold WorkFlow.Action in Hr. eapply no_change in Hr as [Hs' Ho]; [|done..|keep|done]. setoid_rewrite Ho. auto.
  - apply bind_tt_inv in Hr as (rc & Hr & _). unfold WorkFlowTask.Create in Hr. eapply no_change in Hr as [Hs' Ho]; [|done..|keep|done].
    setoid_rewrite Ho. auto.
Qed.
End Laws.
