(* ===== verification/FluentBit.v ===== *)
(** The collection of the logs of workloads (pkg/handler/fluentbitconfig_manager.go and
    pkg/types/fluentbitconfig.go): a config map holds the configuration of fluent-bit, an
    include line and a file per workload, and a section per workload in the file of parsers. *)
From S2P Require Import Prelude GoStrings GoText RestApi KubeApi ConfigMap NetStorage.

Definition FluentBitConfigMapPrefix : string := "efk".
Definition FluentBitConfigMapSuffix : string := "fluent-bit-config".
Definition FluentBitConfigFileName : string := "fluent-bit.conf".
Definition FluentBitConfigParsersFileName : string := "parsers.conf".
Definition ElasticsearchSvcName : string := "elasticsearch-master".
Definition ElasticsearchSvcPort : string := "9200".

Definition InstanceConfTemp : string :=
"[INPUT]
    Name              tail
    Tag               InstanceName
    Path              /var/log/containers/LogName*.log
    Parser            docker
    DB                /var/log/flb_DBPath.db
    Mem_Buf_Limit     5MB
    Skip_Long_Lines   On
    Refresh_Interval  10
[FILTER]
    Name                parser
    Match               InstanceName
    Parser              InstanceName
    Key_Name            log
    Reserve_Data        On
[OUTPUT]
    Name            es
    Match           InstanceName
    Host            ElasticsearchSvcName
    Port            ElasticsearchSvcPort
    Logstash_Format On
    Replace_Dots    On
    Retry_Limit     False
    Logstash_Prefix InstanceName".

Record FluentBitConfig := mkFluent {
  fb_ID : string; fb_Name : string; fb_Namespace : string; fb_OwnerType : string; fb_OwnerName : string;
  fb_RegExp : string; fb_Time_Key : string; fb_Time_Format : string
}.
Definition set_fluent_name (id name : string) (c : FluentBitConfig) : FluentBitConfig :=
  mkFluent id name c.(fb_Namespace) c.(fb_OwnerType) c.(fb_OwnerName) c.(fb_RegExp) c.(fb_Time_Key) c.(fb_Time_Format).

(** [FIndex]: the second word of a line that has one. *)
Inductive fluent_error := FKube (e : kube_error) | FNone | ErrNoRegExp | ErrExists | FluentBitFileNotFoundErr | ParsersFileNotFoundErr
  | ErrNameChanged | ErrIni | FIndex.

(** Package iniconfig: a text that was read, its sections, and their options. *)
Class Iniconfig := {
  IniConfig : Type;
  Ini_Read : string -> option IniConfig;
  HasSection : IniConfig -> string -> bool;
  SectionOptions : IniConfig -> string -> option (list string);
  Ini_String : IniConfig -> string -> string -> option string
}.

(** ** Texts *)

Inductive action := Add | Del.
Definition include (name : string) : string := "@INCLUDE " +:+ name +:+ ".conf" +:+ newline.
Definition updateFluentBitFile (oldFbConf name : string) (a : action) : string :=
  match a with
  | Add => oldFbConf +:+ include name
  | Del => ReplaceAll oldFbConf (include name) ""
  end.
(** The lines of the template of a parser. *)
Definition parser_lines (c : FluentBitConfig) : list string :=
  [""; "[PARSER]"; "    Name        " +:+ c.(fb_Name); "    Format      regex"; "    Regex       " +:+ c.(fb_RegExp)] ++
  (if String.eqb c.(fb_Time_Key) "" then []
   else ["    Time_Key    " +:+ c.(fb_Time_Key); "    Time_Format " +:+ c.(fb_Time_Format)]).
Definition genParserConf (c : FluentBitConfig) : string := Join newline (parser_lines c).
Definition newline_byte : ascii := ascii_of_N 10.
Definition write_lines (l : list string) : string := foldr (fun s t => TrimRight " " s +:+ newline +:+ t) "" l.
Definition updateParserFile (c : FluentBitConfig) (oldPaConf : string) (a : action) : string :=
  let newPaConf := genParserConf c in
  match a with
  | Add => oldPaConf +:+ write_lines (Split newline_byte newPaConf)
  | Del => ReplaceAll oldPaConf (newPaConf +:+ newline) ""
  end.
Definition genInstanceFile (c : FluentBitConfig) : string :=
  let LogName := c.(fb_OwnerName) +:+ "*_" +:+ c.(fb_Namespace) +:+ "_" in
  let DBPath := c.(fb_Namespace) +:+ "_" +:+ c.(fb_OwnerType) +:+ "_" +:+ c.(fb_OwnerName) in
  ReplaceAll (ReplaceAll (ReplaceAll (ReplaceAll (ReplaceAll InstanceConfTemp "InstanceName" c.(fb_Name)) "LogName" LogName) "DBPath" DBPath)
    "ElasticsearchSvcName" ElasticsearchSvcName) "ElasticsearchSvcPort" ElasticsearchSvcPort.
Definition instance_file (name : string) : string := name +:+ ".conf".

(** The names of the lines that include a file, up to the first dot. *)
Fixpoint instances (lines : list string) : result fluent_error (list string) :=
  match lines with
  | [] => Ok []
  | line :: lines =>
      if HasPrefix line "@INCLUDE" && HasSuffix line ".conf" then
        match Fields line with
        | _ :: file :: _ => result_bind (instances lines) (fun l => Ok (default "" (head (Split "." file)) :: l))
        | _ => Err FIndex
        end
      else instances lines
  end.
Definition getInstances (data : gmap string string) : result fluent_error (list string) :=
  instances (Split newline_byte (default "" (data !! FluentBitConfigFileName))).

Section Parsers.
Context `{Iniconfig}.

Fixpoint read_options (cfg : IniConfig) (section : string) (options : list string) (topic : gmap string string)
    : option (gmap string string) :=
  match options with
  | [] => Some topic
  | v :: options => match Ini_String cfg section v with Some o => read_options cfg section options (<[v := o]> topic) | None => None end
  end.
Definition ForMat (section data : string) : option (gmap string string) :=
  match Ini_Read data with
  | None => None
  | Some cfg =>
      if HasSection cfg section
      then match SectionOptions cfg section with Some options => read_options cfg section options ∅ | None => None end
      else None
  end.
Definition parsed (conf : gmap string string) : FluentBitConfig :=
  let at_key k := default "" (conf !! k) in mkFluent "" "" "" "" "" (at_key "Regex") (at_key "Time_Key") (at_key "Time_Format").
Fixpoint parse_sections (ps : list string) (confs : gmap string FluentBitConfig) : result fluent_error (gmap string FluentBitConfig) :=
  match ps with
  | [] => Ok confs
  | p :: ps =>
      if String.eqb p "" then parse_sections ps confs
      else match ForMat "PARSER" ("[PARSER]" +:+ p) with
           | None => Err ErrIni
           | Some conf =>
               parse_sections ps (match conf !! "Name" with Some name => <[name := parsed conf]> confs | None => confs end)
           end
  end.
Definition genFluentBitConfigs (paConf : string) : result fluent_error (gmap string FluentBitConfig) :=
  parse_sections (SplitText "[PARSER]" paConf) ∅.
(** A name that has no parser is shown without one. *)
Definition getConfig (name : string) (data : gmap string string) : result fluent_error FluentBitConfig :=
  match data !! FluentBitConfigParsersFileName with
  | None => Err ParsersFileNotFoundErr
  | Some parserConf =>
      result_bind (genFluentBitConfigs parserConf) (fun confs =>
        Ok (match confs !! name with
            | Some c => mkFluent name name "" "" "" c.(fb_RegExp) c.(fb_Time_Key) c.(fb_Time_Format)
            | None => mkFluent name name "" "" "" "" "" ""
            end))
  end.

(** ** The config map *)

Context {K : Type} `{!KubeKind K K8sConfigMap}.

(** The config map that was read is changed in place and written. *)
Definition F (A : Type) : Type := M (K * K8sConfigMap) fluent_error A.
Definition entry (missing : fluent_error) (file : string) : F string :=
  fun s => (of_option missing (s.2.(km_Data) !! file), s).
Definition set_entries (f : gmap string string -> gmap string string) : F unit :=
  modify (fun s => (s.1, set_data (f s.2.(km_Data)) s.2)).
Definition write : F unit :=
  fun s => let (r, k) := kube_update s.2 s.1 in
           match r with Ok cm => (Ok tt, (k, cm)) | Err e => (Err (FKube e), (k, s.2)) end.
Definition read_data : F (gmap string string) := gets (fun s => s.2.(km_Data)).

Definition isFluentBitConfigExist (c : FluentBitConfig) (data : gmap string string) : result fluent_error bool :=
  result_bind (getInstances data) (fun instances => Ok (bool_decide (c.(fb_Name) ∈ instances))).
Definition config_name (namespace ownerType ownerName : string) : string := namespace +:+ "_" +:+ ownerType +:+ "_" +:+ ownerName.
Definition createConfig (c : FluentBitConfig) : F FluentBitConfig :=
  do! guard (negb (String.eqb c.(fb_RegExp) "")) ErrNoRegExp in
  let c := set_fluent_name c.(fb_ID) (config_name c.(fb_Namespace) c.(fb_OwnerType) c.(fb_OwnerName)) c in
  let! data := read_data in
  let! known := lift (isFluentBitConfigExist c data) in
  do! guard (negb known) ErrExists in
  let! oldFbConf := entry FluentBitFileNotFoundErr FluentBitConfigFileName in
  do! set_entries <[FluentBitConfigFileName := updateFluentBitFile oldFbConf c.(fb_Name) Add]> in
  let! oldPaConf := entry ParsersFileNotFoundErr FluentBitConfigParsersFileName in
  do! set_entries <[FluentBitConfigParsersFileName := updateParserFile c oldPaConf Add]> in
  do! set_entries <[instance_file c.(fb_Name) := genInstanceFile c]> in
  do! write in ret c.
Definition deleteConfig (name : string) : F unit :=
  let! data := read_data in
  let! conf := lift (getConfig name data) in
  let! oldFbConf := entry FluentBitFileNotFoundErr FluentBitConfigFileName in
  do! set_entries <[FluentBitConfigFileName := updateFluentBitFile oldFbConf name Del]> in
  let! oldPaConf := entry ParsersFileNotFoundErr FluentBitConfigParsersFileName in
  do! set_entries <[FluentBitConfigParsersFileName := updateParserFile conf oldPaConf Del]> in
  do! set_entries (delete (instance_file name)) in
  write.
Definition updateConfig (c : FluentBitConfig) : F FluentBitConfig :=
  do! guard (negb (String.eqb c.(fb_RegExp) "")) ErrNoRegExp in
  do! guard (String.eqb c.(fb_Name) "" || String.eqb c.(fb_Name) c.(fb_ID)) ErrNameChanged in
  let c := set_fluent_name c.(fb_ID) c.(fb_ID) c in
  let! data := read_data in
  let! oldConf := lift (getConfig c.(fb_Name) data) in
  do! (if negb (String.eqb oldConf.(fb_RegExp) c.(fb_RegExp)) || negb (String.eqb oldConf.(fb_Time_Key) c.(fb_Time_Key))
          || negb (String.eqb oldConf.(fb_Time_Format) c.(fb_Time_Format))
       then
         let! oldPaConf := entry ParsersFileNotFoundErr FluentBitConfigParsersFileName in
         let afterPaConf := updateParserFile oldConf oldPaConf Del in
         set_entries <[FluentBitConfigParsersFileName := updateParserFile c afterPaConf Add]>
       else ret tt) in
  do! write in ret c.

(** The first config map of the right name; every error is the same to those who ask. *)
Definition is_fluent (cm : K8sConfigMap) : bool := HasPrefix cm.(km_Name) FluentBitConfigMapPrefix && HasSuffix cm.(km_Name) FluentBitConfigMapSuffix.
Definition getFluentBitConfigMap : M K fluent_error K8sConfigMap :=
  let! cms := rethrow FKube (kube_list (Obj := K8sConfigMap) ZCloudNamespace) in
  lift (of_option FNone (find is_fluent cms)).
Definition with_map {A} (m : F A) : M K fluent_error A :=
  let! cm := getFluentBitConfigMap in fun k => let (r, s) := m (k, cm) in (r, s.1).

(** ** Handlers *)

Definition replenishConf (namespace ownerType ownerName : string) (c : FluentBitConfig) : FluentBitConfig :=
  mkFluent c.(fb_ID) c.(fb_Name) namespace ownerType ownerName c.(fb_RegExp) c.(fb_Time_Key) c.(fb_Time_Format).
(** [None]: the request panics. *)
Definition fluent_failed (e : api_error) (f : fluent_error) : option api_error := match f with FIndex => None | _ => Some e end.
Definition Create (cluster namespace ownerType ownerName : string) (c : FluentBitConfig) : M (gmap string K) (option api_error) FluentBitConfig :=
  on_cluster (Some NotFound) cluster
    (let! c := rethrow (fluent_failed ConnectClusterFailed) (with_map (createConfig (replenishConf namespace ownerType ownerName c))) in
     ret (set_fluent_name c.(fb_Name) c.(fb_Name) c)).
Definition Update (cluster namespace ownerType ownerName : string) (c : FluentBitConfig) : M (gmap string K) (option api_error) FluentBitConfig :=
  on_cluster (Some NotFound) cluster
    (rethrow (fluent_failed ConnectClusterFailed) (with_map (updateConfig (replenishConf namespace ownerType ownerName c)))).
Definition List (cluster namespace ownerType ownerName : string) : M (gmap string K) (option api_error) (list FluentBitConfig) :=
  on_cluster (Some NotFound) cluster
    (rethrow (fluent_failed ServerError)
      (let! cm := getFluentBitConfigMap in
       let! c := lift (getConfig (config_name namespace ownerType ownerName) cm.(km_Data)) in ret [c])).
Definition Get (cluster id : string) : M (gmap string K) (option api_error) FluentBitConfig :=
  on_cluster (Some NotFound) cluster
    (rethrow (fluent_failed ServerError) (let! cm := getFluentBitConfigMap in lift (getConfig id cm.(km_Data)))).
Definition Delete (cluster id : string) : M (gmap string K) (option api_error) unit :=
  on_cluster (Some NotFound) cluster (rethrow (fluent_failed ServerError) (with_map (deleteConfig id))).

(** ** Events *)

(** The names in the order of a walk over the map; the walk ends at the first error. *)
Fixpoint delete_configs (namespace : string) (names : list string) : F unit :=
  match names with
  | [] => ret tt
  | name :: names =>
      do! (if HasPrefix name (namespace +:+ "_") then deleteConfig name else ret tt) in delete_configs namespace names
  end.
Definition DelFBCForNamespace (namespace : string) (confs : gmap string FluentBitConfig) : F unit :=
  delete_configs namespace (map_to_list confs).*1.
Definition deleteNamespaceFluentBitConfig (namespace : string) : M K fluent_error unit :=
  with_map
    (let! parserConf := entry ParsersFileNotFoundErr FluentBitConfigParsersFileName in
     let! confs := lift (genFluentBitConfigs parserConf) in
     DelFBCForNamespace namespace confs).
Definition deleteWorkLoadFluentBitConfig (name : string) : M K fluent_error unit := with_map (deleteConfig name).
Inductive deleted := NamespaceDeleted (namespace : string) | WorkloadDeleted (namespace ownerType ownerName : string).
(** Errors are only logged. *)
Definition on_deleted (cluster : string) (e : deleted) : M (gmap string K) (option api_error) unit :=
  on_cluster None cluster
    (do! attempt (F := option api_error)
           (match e with
            | NamespaceDeleted namespace => deleteNamespaceFluentBitConfig namespace
            | WorkloadDeleted namespace ownerType ownerName => deleteWorkLoadFluentBitConfig (config_name namespace ownerType ownerName)
            end) in ret tt).
End Parsers.
