(* ===== verification/FluentBitLaws.v ===== *)
(** What the requests for the collection of logs do to the config map of fluent-bit. *)
From S2P Require Import Prelude GoStrings GoText RestApi KubeApi ConfigMap NetStorage FluentBit.

(** ** Texts *)

(** A word or line that keeps its end when it is written. *)
Definition tidy (s : string) : Prop := s <> "" /\ TrimRight " " s = s /\ has_byte newline_byte s = false.
Definition tidy_config (c : FluentBitConfig) : Prop :=
  tidy c.(fb_Name) /\ tidy c.(fb_RegExp) /\ (c.(fb_Time_Key) = "" \/ tidy c.(fb_Time_Key) /\ tidy c.(fb_Time_Format)).

Lemma tidy_app a s : has_byte newline_byte a = false -> tidy s -> has_byte newline_byte (a +:+ s) = false /\ TrimRight " " (a +:+ s) = a +:+ s.
Proof. intros Ha (Hs & Ht & Hn). split; [by rewrite has_byte_app, Ha|]. rewrite TrimRight_app by congruence. by rewrite Ht. Qed.
Lemma parser_lines_tidy c :
  tidy_config c -> Forall (fun s => has_byte newline_byte s = false /\ TrimRight " " s = s) (parser_lines c).
Proof.
  intros (Hn & Hr & Ht). unfold parser_lines. apply Forall_app. split.
  - repeat (apply Forall_cons_2; [first [by apply tidy_app | done]|]). done.
  - destruct (String.eqb_spec (fb_Time_Key c) ""); [done|]. destruct Ht as [Ht|[Hk Hf]]; [done|].
    repeat (apply Forall_cons_2; [by apply tidy_app|]). done.
Qed.
Lemma write_lines_Join l : l <> [] -> Forall (fun s => TrimRight " " s = s) l -> write_lines l = Join newline l +:+ newline.
Proof.
  intros Hl Hall. induction Hall as [|s l Hs Hall IH]; [done|]. destruct l as [|s2 l].
  - simpl. by rewrite Hs, app_empty_r.
  - change (write_lines (s :: s2 :: l)) with (TrimRight " " s +:+ newline +:+ write_lines (s2 :: l)). rewrite IH, Hs by done.
    change (Join newline (s :: s2 :: l)) with (s +:+ newline +:+ Join newline (s2 :: l)). by rewrite !str_app_assoc.
Qed.
(** What is written of a parser is what is looked for when it is removed. *)
Lemma parser_written c : tidy_config c -> write_lines (Split newline_byte (genParserConf c)) = genParserConf c +:+ newline.
Proof.
  intros Hc. apply parser_lines_tidy in Hc as Hl. unfold genParserConf. change newline with (String newline_byte "").
  assert (Hne : parser_lines c <> []) by done.
  rewrite Split_Join; [|done|]; [|by eapply Forall_impl; [exact Hl|intros s []]].
  apply write_lines_Join; [done|]. eapply Forall_impl; [exact Hl|by intros s []].
Qed.

(** The end of a line comes once in an include line. *)
Lemma include_added f name :
  has_byte newline_byte name = false -> ContainsText f (include name) = false ->
  updateFluentBitFile (updateFluentBitFile f name Add) name Del = f.
Proof.
  intros Hn Hf. apply ReplaceAll_added_once; [done|done|]. intros a2 s r Ha Hs Hse Hae. exfalso.
  set (x := "@INCLUDE " +:+ name +:+ ".conf"). assert (Hx : include name = x +:+ newline) by (unfold x, include; by rewrite !str_app_assoc).
  assert (Hxn : has_byte newline_byte x = false) by (unfold x; rewrite !has_byte_app, Hn; done).
  rewrite Hx in Ha, Hs. apply app_split in Ha as [(e & He & ->)|(e & He & -> & Hb)].
  - apply Hae, (app_nil_tail a2 e). rewrite <- He. assert (Hen : has_byte newline_byte e = false).
    { rewrite He, has_byte_app in Hxn. by apply orb_false_iff in Hxn as [_ ?]. }
    symmetry. apply (first_sep_inj newline_byte x e "" r); [done..|]. by rewrite str_app_assoc in Hs.
  - by apply one_byte_split in Hb as [?|?].
Qed.

(** *** Parsers *)

Lemma line_start s t : HasPrefix s "[" = false -> HasPrefix (s +:+ String newline_byte t) "[" = false.
Proof. destruct s as [|c s]; [done|]. rewrite app_String, !HasPrefix_cons. by destruct (Ascii.eqb _ _), s. Qed.
Lemma Join_more s l : exists t, Join newline (s :: l) +:+ newline = s +:+ String newline_byte t.
Proof.
  destruct l as [|s2 l]; [by exists ""|]. exists (Join newline (s2 :: l) +:+ newline).
  change (Join newline (s :: s2 :: l)) with (s +:+ newline +:+ Join newline (s2 :: l)). by rewrite !str_app_assoc.
Qed.
Lemma line_begins_once (l : list string) :
  l <> [] -> Forall (fun s => has_byte newline_byte s = false) l -> Forall (fun s => HasPrefix s "[" = false) (tail l) ->
  ContainsText (Join newline l +:+ newline) (newline +:+ "[") = false.
Proof.
  intros Hl Hall. induction Hall as [|s l Hs Hall IH]; [done|]. simpl tail. intros Hb. change (newline +:+ "[") with (String newline_byte "[") in *.
  destruct l as [|s2 l]; [by simpl Join; rewrite ContainsText_line|].
  change (Join newline (s :: s2 :: l)) with (s +:+ newline +:+ Join newline (s2 :: l)). rewrite !str_app_assoc, ContainsText_line by done.
  apply Forall_cons in Hb as [Hs2 Hb]. specialize (IH ltac:(done) Hb). destruct (Join_more s2 l) as [t Ht]. rewrite Ht in *.
  change (newline +:+ ?u) with (String newline_byte u). cbn [ContainsText]. rewrite HasPrefix_cons, IH, line_start by done. by rewrite andb_false_r.
Qed.

(** A parser that is added and removed again leaves the file as it was. *)
Lemma parser_added c f :
  tidy_config c -> ContainsText f (genParserConf c) = false -> updateParserFile c (updateParserFile c f Add) Del = f.
Proof.
  intros Hc Hf. unfold updateParserFile. rewrite parser_written by done. apply parser_lines_tidy in Hc as Hl.
  set (p := genParserConf c) in *. set (u := Join newline (tail (parser_lines c))).
  assert (Hp : p = newline +:+ u) by done.
  assert (Hu : ContainsText (u +:+ newline) (newline +:+ "[") = false).
  { apply line_begins_once; [done| |].
    - apply Forall_tail. eapply Forall_impl; [exact Hl|by intros s []].
    - simpl. repeat (apply Forall_cons_2; [done|]). by destruct (String.eqb _ _); repeat (apply Forall_cons_2; [done|]). }
  apply ReplaceAll_added_once; [done| |].
  - destruct (ContainsText f (p +:+ newline)) eqn:He; [|done]. apply ContainsText_spec in He as (a & b & ->).
    destruct (ContainsText_false _ _ Hf a (newline +:+ b)). by rewrite str_app_assoc.
  - intros a2 s r Ha Hs Hse Hae. rewrite Hp, str_app_assoc in Hs. destruct s as [|z s]; [done|].
    rewrite app_String in Hs. injection Hs as <- Hs. change (u +:+ newline = s +:+ r) in Hs.
    destruct s as [|z s]; [apply str_app_inj_r in Ha; by rewrite <- Ha|]. exfalso.
    assert (z = "["%char) as -> by (by injection Hs as <- _).
    rewrite Hp, str_app_assoc in Ha. destruct a2 as [|d a2]; [done|]. rewrite app_String in Ha. injection Ha as _ Ha.
    apply (ContainsText_false _ _ Hu a2 s). exact Ha.
Qed.

(** ** The config map *)

Section Laws.
Context `{Iniconfig} {K : Type} `{!KubeKind K K8sConfigMap} `{!KubeLaws K K8sConfigMap}.
Implicit Types (k : K) (cm : K8sConfigMap) (c : FluentBitConfig).

(** The one config map of fluent-bit. *)
Definition fluent_map k cm : Prop :=
  kube_objects k !! kube_key cm = Some cm /\ cm.(km_Namespace) = ZCloudNamespace /\ is_fluent cm = true /\
  forall cm', kube_objects k !! kube_key cm' = Some cm' -> cm'.(km_Namespace) = ZCloudNamespace -> is_fluent cm' = true -> cm' = cm.
Lemma fluent_map_same k k' cm : same_kind K8sConfigMap k k' -> fluent_map k cm -> fluent_map k' cm.
Proof. intros Hk (H1 & H2 & H3 & H4). unfold fluent_map. by rewrite Hk. Qed.

Lemma getFluentBitConfigMap_ok k cm r k' :
  fluent_map k cm -> getFluentBitConfigMap k = (r, k') -> same_kind K8sConfigMap k k' /\ forall cm', r = Ok cm' -> cm' = cm.
Proof.
  intros (_ & _ & _ & Hone) Hg. unfold getFluentBitConfigMap, bind, rethrow, lift in Hg.
  destruct (kube_list ZCloudNamespace k) as [[l|e] k1] eqn:Hl; cbn [map_err] in Hg; injection Hg as <- <-; apply kube_list_law in Hl as [Hk Hl]; (split; [done|]); [|done].
  destruct Hl as [_ Hl]. intros cm' Hf. destruct (find is_fluent l) as [x|] eqn:Hx; [|done]. injection Hf as <-.
  apply find_some in Hx as [Hin Hx]. apply list_elem_of_In, Hl in Hin as [Hst Hns]. apply Hone; [done| |done].
  destruct Hns as [Hns|Hns]; [done|exact Hns].
Qed.

(** The write of changed data. *)
Lemma write_ok k cm d r k' cm' :
  fluent_map k cm -> write (k, set_data d cm) = (r, (k', cm')) ->
  match r with Ok _ => fluent_map k' cm' /\ cm'.(km_Data) = d | Err _ => same_kind K8sConfigMap k k' end.
Proof.
  intros (Hst & Hns & Hfl & Hone) Hw. unfold write in Hw. cbn [fst snd] in Hw.
  destruct (kube_update (set_data d cm) k) as [[o|e] k1] eqn:Hu; injection Hw as <- <- <-; apply kube_update_law in Hu; [|done].
  destruct Hu as (Hkey & Hspec & _ & Ho). change (kube_key (set_data d cm)) with (kube_key cm) in *.
  assert (Hn : o.(km_Namespace) = cm.(km_Namespace) /\ o.(km_Name) = cm.(km_Name)) by by injection Hkey as -> ->.
  destruct Hn as [Hn1 Hn2]. split; [|exact Hspec]. unfold fluent_map. rewrite Ho, Hkey, lookup_insert_eq. split; [done|]. split; [congruence|].
  split; [unfold is_fluent in *; by rewrite Hn2|]. intros x Hx Hxn Hxf. destruct (decide (kube_key x = kube_key cm)) as [He|He].
  - rewrite He, lookup_insert_eq in Hx. by injection Hx.
  - rewrite lookup_insert_ne in Hx by done. by destruct He; rewrite (Hone x Hx Hxn Hxf).
Qed.
Lemma two_files : FluentBitConfigFileName <> FluentBitConfigParsersFileName.
Proof. done. Qed.

(** What the creation, the deletion and the update write. *)
Lemma createConfig_ok c k cm r k' cm' :
  fluent_map k cm -> createConfig c (k, cm) = (r, (k', cm')) ->
  match r with
  | Ok c' =>
      c' = set_fluent_name c.(fb_ID) (config_name c.(fb_Namespace) c.(fb_OwnerType) c.(fb_OwnerName)) c /\ fluent_map k' cm' /\
      exists fb pa, cm.(km_Data) !! FluentBitConfigFileName = Some fb /\ cm.(km_Data) !! FluentBitConfigParsersFileName = Some pa /\
        cm'.(km_Data) = <[instance_file c'.(fb_Name) := genInstanceFile c']>
          (<[FluentBitConfigParsersFileName := updateParserFile c' pa Add]>
            (<[FluentBitConfigFileName := updateFluentBitFile fb c'.(fb_Name) Add]> cm.(km_Data)))
  | Err _ => same_kind K8sConfigMap k k'
  end.
Proof.
  intros Hm Hc. unfold createConfig in Hc. apply bind_guard_inv in Hc as [[_ Hc]|(_ & -> & [= -> ->])]; [|done].
  set (c' := set_fluent_name _ _ c) in *. unfold read_data in Hc. rewrite bind_gets in Hc.
  apply bind_lift_inv in Hc as [(known & _ & Hc)|(e & _ & -> & [= -> ->])]; [|done].
  apply bind_guard_inv in Hc as [[_ Hc]|(_ & -> & [= -> ->])]; [|done].
  unfold entry, set_entries, bind at 1, of_option in Hc. cbn [snd] in Hc.
  destruct (km_Data cm !! FluentBitConfigFileName) as [fb|] eqn:Hfb; [|by injection Hc as <- <- <-].
  rewrite bind_modify in Hc. unfold bind at 1 in Hc. cbn [fst snd set_data km_Data] in Hc. rewrite lookup_insert_ne in Hc by apply two_files.
  destruct (km_Data cm !! FluentBitConfigParsersFileName) as [pa|] eqn:Hpa; [|by injection Hc as <- <- <-].
  rewrite !bind_modify in Hc. cbn [fst snd set_data km_Data] in Hc. unfold bind in Hc.
  destruct (write _) as [[[]|e] [k1 cm1]] eqn:Hw; injection Hc as <- <- <-; apply (write_ok k cm) in Hw; [|done|done|done].
  destruct Hw as [Hm' Hd]. split; [done|]. split; [done|]. by exists fb, pa.
Qed.
Lemma deleteConfig_ok name k cm r k' cm' :
  fluent_map k cm -> deleteConfig name (k, cm) = (r, (k', cm')) ->
  match r with
  | Ok _ => fluent_map k' cm' /\
      exists conf fb pa, getConfig name cm.(km_Data) = Ok conf /\
        cm.(km_Data) !! FluentBitConfigFileName = Some fb /\ cm.(km_Data) !! FluentBitConfigParsersFileName = Some pa /\
        cm'.(km_Data) = delete (instance_file name)
          (<[FluentBitConfigParsersFileName := updateParserFile conf pa Del]>
            (<[FluentBitConfigFileName := updateFluentBitFile fb name Del]> cm.(km_Data)))
  | Err _ => same_kind K8sConfigMap k k'
  end.
Proof.
  intros Hm Hc. unfold deleteConfig, read_data in Hc. rewrite bind_gets in Hc.
  apply bind_lift_inv in Hc as [(conf & Hconf & Hc)|(e & _ & -> & [= -> ->])]; [|done].
  unfold entry, set_entries, bind at 1, of_option in Hc. cbn [snd] in Hc.
  destruct (km_Data cm !! FluentBitConfigFileName) as [fb|] eqn:Hfb; [|by injection Hc as <- <- <-].
  rewrite bind_modify in Hc. unfold bind at 1 in Hc. cbn [fst snd set_data km_Data] in Hc. rewrite lookup_insert_ne in Hc by apply two_files.
  destruct (km_Data cm !! FluentBitConfigParsersFileName) as [pa|] eqn:Hpa; [|by injection Hc as <- <- <-].
  rewrite !bind_modify in Hc. cbn [fst snd set_data km_Data] in Hc.
  apply (write_ok k cm) in Hc; [|done]. destruct r as [[]|e]; [|done]. destruct Hc as [Hm' Hd]. split; [done|]. by exists conf, fb, pa.
Qed.
Lemma updateConfig_ok c k cm r k' cm' :
  fluent_map k cm -> updateConfig c (k, cm) = (r, (k', cm')) ->
  match r with
  | Ok c' => c' = set_fluent_name c.(fb_ID) c.(fb_ID) c /\ fluent_map k' cm' /\
      (cm'.(km_Data) = cm.(km_Data) \/ exists text, cm'.(km_Data) = <[FluentBitConfigParsersFileName := text]> cm.(km_Data))
  | Err _ => same_kind K8sConfigMap k k'
  end.
Proof.
  intros Hm Hc. unfold updateConfig in Hc. apply bind_guard_inv in Hc as [[_ Hc]|(_ & -> & [= -> ->])]; [|done].
  apply bind_guard_inv in Hc as [[_ Hc]|(_ & -> & [= -> ->])]; [|done].
  set (c' := set_fluent_name _ _ c) in *. unfold read_data in Hc. rewrite bind_gets in Hc.
  apply bind_lift_inv in Hc as [(old & _ & Hc)|(e & _ & -> & [= -> ->])]; [|done].
  destruct (_ || _ || _).
  - unfold entry, set_entries, of_option in Hc. rewrite bind_assoc in Hc. unfold bind at 1 in Hc. cbn [snd] in Hc.
    destruct (km_Data cm !! FluentBitConfigParsersFileName) as [pa|] eqn:Hpa; [|by injection Hc as <- <- <-].
    rewrite bind_modify in Hc. cbn [fst snd set_data km_Data] in Hc. unfold bind in Hc.
    destruct (write _) as [[[]|e] [k1 cm1]] eqn:Hw; injection Hc as <- <- <-; apply (write_ok k cm) in Hw; [|done..].
    destruct Hw as [Hm' Hd]. split; [done|]. split; [done|]. right. eauto.
  - rewrite bind_ret_l in Hc. unfold bind in Hc.
    assert (Hcm : cm = set_data cm.(km_Data) cm) by (by destruct cm). rewrite Hcm in Hc.
    destruct (write _) as [[[]|e] [k1 cm1]] eqn:Hw; injection Hc as <- <- <-; apply (write_ok k cm) in Hw; [|done..].
    destruct Hw as [Hm' Hd]. auto.
Qed.

(** ** Requests *)

Inductive request :=
  | CreateRequest (namespace ownerType ownerName : string) (c : FluentBitConfig)
  | UpdateRequest (namespace ownerType ownerName : string) (c : FluentBitConfig)
  | DeleteRequest (id : string).
Definition run (cluster : string) (rq : request) : M (gmap string K) (option api_error) string :=
  match rq with
  | CreateRequest namespace ownerType ownerName c => let! c := FluentBit.Create cluster namespace ownerType ownerName c in ret c.(fb_ID)
  | UpdateRequest namespace ownerType ownerName c => let! c := FluentBit.Update cluster namespace ownerType ownerName c in ret c.(fb_ID)
  | DeleteRequest id => do! FluentBit.Delete cluster id in ret id
  end.
(** The other files of the config map stay. *)
Definition other_files (name : string) (d d' : gmap string string) : Prop :=
  forall file, file <> FluentBitConfigFileName -> file <> FluentBitConfigParsersFileName -> file <> instance_file name -> d' !! file = d !! file.

(** A handler reads the config map and runs an operation on it. *)
Lemma with_map_ok {A} (m : F A) cluster (bad : fluent_error -> option api_error) (ks ks' : gmap string K) k k' cm r :
  on_cluster (Some NotFound) cluster (rethrow bad (with_map m)) ks = (r, ks') -> ks !! cluster = Some k -> ks' !! cluster = Some k' ->
  fluent_map k cm ->
  (same_kind K8sConfigMap k k' /\ is_ok r = false) \/
  exists k1 cm1 rm, same_kind K8sConfigMap k k1 /\ fluent_map k1 cm /\ m (k1, cm) = (rm, (k', cm1)) /\ r = map_err bad rm.
Proof.
  intros Hr Hk Hk' Hm. apply on_cluster_at with (k := k) in Hr as (k2 & Hr & ->); [|done]. rewrite lookup_insert_eq in Hk'. injection Hk' as ->.
  unfold rethrow, with_map, bind in Hr. destruct (getFluentBitConfigMap k) as [[cm1|e] k1] eqn:Hg;
    pose proof (getFluentBitConfigMap_ok k cm _ _ Hm Hg) as [Hk1 Hcm].
  - specialize (Hcm cm1 eq_refl) as ->. destruct (m (k1, cm)) as [rm [k3 cm3]] eqn:Hmk. injection Hr as <- <-. right.
    exists k1, cm3, rm. split; [done|]. split; [by apply (fluent_map_same k)|]. done.
  - injection Hr as <- <-. by left.
Qed.
Lemma on_cluster_bind_ret {E A B} (missing : E) cluster (m : M K E A) (f : A -> B) ks r ks' :
  on_cluster missing cluster (let! a := m in ret (f a)) ks = (r, ks') ->
  exists r1, on_cluster missing cluster m ks = (r1, ks') /\ r = result_bind r1 (fun a => Ok (f a)).
Proof.
  unfold on_cluster, bind, ret. destruct (ks !! cluster) as [k|]; [|intros [= <- <-]; by eexists].
  destruct (m k) as [[a|e] k1]; intros [= <- <-]; by eexists.
Qed.
Lemma bind_ret_inv {S E A B} (m : M S E A) (f : A -> B) s r s' :
  bind m (fun a => ret (f a)) s = (r, s') -> exists r1, m s = (r1, s') /\ r = result_bind r1 (fun a => Ok (f a)).
Proof. unfold bind, ret. destruct (m s) as [[a|e] s1]; intros [= <- <-]; by eexists. Qed.
Lemma fluent_map_data k k' cm d d' : fluent_map k cm -> same_kind K8sConfigMap k k' -> cm.(km_Data) = d -> d = d' -> exists cm', fluent_map k' cm' /\ cm'.(km_Data) = d'.
Proof. intros Hm Hk <- <-. exists cm. split; [by apply (fluent_map_same k)|done]. Qed.

(** What a creation does, seen from the request. *)
Lemma begin_logs_ok cluster ns ot on c (ks ks' : gmap string K) k k' cm r :
  FluentBit.Create cluster ns ot on c ks = (r, ks') -> ks !! cluster = Some k -> ks' !! cluster = Some k' -> fluent_map k cm ->
  match r with
  | Ok c' => c' = set_fluent_name (config_name ns ot on) (config_name ns ot on) (replenishConf ns ot on c) /\
      exists fb pa cm', fluent_map k' cm' /\ cm.(km_Data) !! FluentBitConfigFileName = Some fb /\
        cm.(km_Data) !! FluentBitConfigParsersFileName = Some pa /\
        exists content, cm'.(km_Data) = <[instance_file (config_name ns ot on) := content]>
          (<[FluentBitConfigParsersFileName := updateParserFile c' pa Add]>
            (<[FluentBitConfigFileName := updateFluentBitFile fb (config_name ns ot on) Add]> cm.(km_Data)))
  | Err _ => same_kind K8sConfigMap k k'
  end.
Proof.
  intros Hr Hk Hk' Hm. unfold FluentBit.Create in Hr. apply on_cluster_bind_ret in Hr as (r1 & Hr & ->).
  apply (with_map_ok _ cluster _ ks ks' k k' cm) in Hr as [[Hs Hf]|(k1 & cm1 & rm & Hs & Hm1 & Hc & ->)]; [by destruct r1| |done..].
  apply createConfig_ok in Hc; [|done]. destruct rm as [c1|e]; simpl; [|unfold same_kind in *; congruence].
  destruct Hc as (-> & Hm' & fb & pa & Hfb & Hpa & Hd). split; [done|]. exists fb, pa, cm1. split; [done|]. split; [done|]. split; [done|].
  eexists. exact Hd.
Qed.
Lemma end_logs_ok cluster id (ks ks' : gmap string K) k k' cm r :
  FluentBit.Delete cluster id ks = (r, ks') -> ks !! cluster = Some k -> ks' !! cluster = Some k' -> fluent_map k cm ->
  match r with
  | Ok _ => exists cm' conf fb pa, fluent_map k' cm' /\ getConfig id cm.(km_Data) = Ok conf /\
      cm.(km_Data) !! FluentBitConfigFileName = Some fb /\ cm.(km_Data) !! FluentBitConfigParsersFileName = Some pa /\
      cm'.(km_Data) = delete (instance_file id)
        (<[FluentBitConfigParsersFileName := updateParserFile conf pa Del]>
          (<[FluentBitConfigFileName := updateFluentBitFile fb id Del]> cm.(km_Data)))
  | Err _ => same_kind K8sConfigMap k k'
  end.
Proof.
  intros Hr Hk Hk' Hm. unfold FluentBit.Delete in Hr.
  apply (with_map_ok _ cluster _ ks ks' k k' cm) in Hr as [[Hs Hf]|(k1 & cm1 & rm & Hs & Hm1 & Hc & ->)]; [by destruct r| |done..].
  apply deleteConfig_ok in Hc; [|done]. destruct rm as [[]|e]; simpl; [|unfold same_kind in *; congruence].
  destruct Hc as (Hm' & conf & fb & pa & Hconf & Hfb & Hpa & Hd). by exists cm1, conf, fb, pa.
Qed.

(** C21. Requests for the logs of workloads, on the config map of fluent-bit: one that fails,
    for whatever reason, leaves every config map as it was; one that succeeds changes, beside
    the two files that list the workloads, only the file of its own workload. *)
Theorem fluent_requests cluster rq (ks ks' : gmap string K) k k' cm r :
  run cluster rq ks = (r, ks') -> ks !! cluster = Some k -> ks' !! cluster = Some k' -> fluent_map k cm ->
  match r with
  | Ok name => exists cm', fluent_map k' cm' /\ other_files name cm.(km_Data) cm'.(km_Data)
  | Err _ => same_kind K8sConfigMap k k'
  end.
Proof.
  intros Hr Hk Hk' Hm. destruct rq as [ns ot on c|ns ot on c|id]; cbn [run] in Hr; apply bind_ret_inv in Hr as (r1 & Hr & ->).
  - eapply begin_logs_ok in Hr; [|done..]. destruct r1 as [c'|e]; [|done]. destruct Hr as (-> & fb & pa & cm' & Hm' & _ & _ & content & Hd).
    simpl. exists cm'. split; [done|]. intros file H1 H2 H3. rewrite Hd. by rewrite !lookup_insert_ne by done.
  - unfold FluentBit.Update in Hr. apply (with_map_ok _ cluster _ ks ks' k k' cm) in Hr as [[Hs Hf]|(k1 & cm1 & rm & Hs & Hm1 & Hc & ->)]; [by destruct r1| |done..].
    apply updateConfig_ok in Hc; [|done]. destruct rm as [c1|e]; simpl; [|unfold same_kind in *; congruence].
    destruct Hc as (_ & Hm' & Hd). exists cm1. split; [done|]. intros file H1 H2 H3.
    destruct Hd as [->|[text ->]]; [done|]. by rewrite lookup_insert_ne by done.
  - eapply end_logs_ok in Hr; [|done..]. destruct r1 as [[]|e]; [|done]. destruct Hr as (cm' & conf & fb & pa & Hm' & _ & _ & _ & Hd).
    simpl. exists cm'. split; [done|]. intros file H1 H2 H3. rewrite Hd. by rewrite lookup_delete_ne, !lookup_insert_ne by done.
Qed.

(** *** The parser of what was written *)

(** The section of a parser as it is handed to the library, and the options its lines are; a
    format without a key is not written. *)
Definition section_body c : string := newline +:+ Join newline (drop 2 (parser_lines c)) +:+ newline.
Definition written_options c : list (string * string) :=
  [("Name", c.(fb_Name)); ("Format", "regex"); ("Regex", c.(fb_RegExp))] ++
  (if String.eqb c.(fb_Time_Key) "" then [] else [("Time_Key", c.(fb_Time_Key)); ("Time_Format", c.(fb_Time_Format))]).
(** Package iniconfig: when it reads the section, the options are the first words of the lines,
    and the text of an option is the rest of its line. *)
Definition library_reads c : Prop :=
  forall cfg options, Ini_Read ("[PARSER]" +:+ section_body c) = Some cfg -> SectionOptions cfg "PARSER" = Some options ->
    (forall o, o ∈ options <-> o ∈ (written_options c).*1) /\
    forall o v, (o, v) ∈ written_options c -> Ini_String cfg "PARSER" o = Some v.

Lemma read_options_ok (cfg : IniConfig) section options (m m' : gmap string string) :
  read_options cfg section options m = Some m' ->
  forall o, (o ∈ options -> m' !! o = Ini_String cfg section o) /\ (o ∉ options -> m' !! o = m !! o).
Proof.
  revert m. induction options as [|v options IH]; intros m Hr o; simpl in Hr.
  - injection Hr as <-. split; [by intros ?%elem_of_nil|done].
  - destruct (Ini_String cfg section v) as [x|] eqn:Hv; [|done]. destruct (IH _ Hr o) as [Hin Hout]. split.
    + intros [->|?]%elem_of_cons; [|by apply Hin]. destruct (decide (v ∈ options)); [by apply Hin|]. by rewrite Hout, lookup_insert_eq.
    + intros [? ?]%not_elem_of_cons. by rewrite Hout, lookup_insert_ne by done.
Qed.
(** The section gives back what was written in it. *)
Lemma ForMat_written c m :
  library_reads c -> ForMat "PARSER" ("[PARSER]" +:+ section_body c) = Some m ->
  m !! "Name" = Some c.(fb_Name) /\ (parsed m).(fb_RegExp) = c.(fb_RegExp) /\ (parsed m).(fb_Time_Key) = c.(fb_Time_Key) /\
  (c.(fb_Time_Key) <> "" -> (parsed m).(fb_Time_Format) = c.(fb_Time_Format)).
Proof.
  intros Hlib Hf. unfold ForMat in Hf. destruct (Ini_Read _) as [cfg|] eqn:Hcfg; [|done]. destruct (HasSection cfg "PARSER"); [|done].
  destruct (SectionOptions cfg "PARSER") as [options|] eqn:Hopt; [|done]. destruct (Hlib cfg options Hcfg Hopt) as [Hin Hval].
  pose proof (read_options_ok cfg "PARSER" options ∅ m Hf) as Hm.
  assert (Hget : forall o v, (o, v) ∈ written_options c -> m !! o = Some v).
  { intros o v Hov. rewrite (proj1 (Hm o)); [by apply Hval|]. apply Hin, list_elem_of_fmap. by exists (o, v). }
  assert (Hnone : forall o, o ∉ (written_options c).*1 -> m !! o = None) by (intros o Ho; rewrite (proj2 (Hm o)); [apply lookup_empty|by rewrite Hin]).
  unfold parsed, written_options in *. cbn [fb_RegExp fb_Time_Key fb_Time_Format].
  rewrite (Hget "Regex" c.(fb_RegExp)) by set_solver. split; [apply Hget; set_solver|]. split; [done|].
  destruct (String.eqb_spec c.(fb_Time_Key) "") as [Hk|Hk].
  - rewrite Hk, (Hnone "Time_Key") by (simpl; set_solver). by split.
  - rewrite (Hget "Time_Key" c.(fb_Time_Key)), (Hget "Time_Format" c.(fb_Time_Format)) by set_solver. by split.
Qed.
Lemma parse_sections_app l1 l2 confs : parse_sections (l1 ++ l2) confs = result_bind (parse_sections l1 confs) (parse_sections l2).
Proof.
  revert confs. induction l1 as [|x l1 IH]; intros confs; [done|]. simpl. destruct (String.eqb x ""); [apply IH|].
  destruct (ForMat _ _); [apply IH|done].
Qed.
Lemma genParserConf_section c : genParserConf c +:+ newline = newline +:+ "[PARSER]" +:+ section_body c.
Proof.
  unfold genParserConf, section_body, parser_lines. cbn [app drop]. change (Join newline ("" :: "[PARSER]" :: ?l)) with (newline +:+ Join newline ("[PARSER]" :: l)).
  change (Join newline ("[PARSER]" :: ?x :: ?l)) with ("[PARSER]" +:+ newline +:+ Join newline (x :: l)). by rewrite !str_app_assoc.
Qed.
(** A file that was read with the section at its end gives the parser of the section. *)
Lemma section_found pa c confs :
  ContainsText (section_body c) "[PARSER]" = false -> library_reads c -> genFluentBitConfigs (pa +:+ genParserConf c +:+ newline) = Ok confs ->
  exists c1, confs !! c.(fb_Name) = Some c1 /\ c1.(fb_RegExp) = c.(fb_RegExp) /\ c1.(fb_Time_Key) = c.(fb_Time_Key) /\
    (c.(fb_Time_Key) <> "" -> c1.(fb_Time_Format) = c.(fb_Time_Format)).
Proof.
  intros Hno Hlib Hg. unfold genFluentBitConfigs in Hg. rewrite genParserConf_section in Hg. change (newline +:+ ?t) with (String newline_byte t) in Hg.
  rewrite SplitText_line, (split_none _ (section_body c)), parse_sections_app in Hg by done.
  destruct (parse_sections (SplitText _ _) ∅) as [confs0|e]; [|done]. cbn [result_bind parse_sections] in Hg.
  assert (String.eqb (section_body c) "" = false) as He by done. rewrite He in Hg.
  destruct (ForMat _ _) as [m|] eqn:Hf; [|done]. destruct (ForMat_written c m Hlib Hf) as (Hn & Hvals). rewrite Hn in Hg. injection Hg as <-.
  exists (parsed m). by rewrite lookup_insert_eq.
Qed.
Lemma getConfig_written pa c conf d :
  ContainsText (section_body c) "[PARSER]" = false -> library_reads c ->
  d !! FluentBitConfigParsersFileName = Some (pa +:+ genParserConf c +:+ newline) -> getConfig c.(fb_Name) d = Ok conf ->
  genParserConf conf = genParserConf c.
Proof.
  intros Hno Hlib Hd Hconf. unfold getConfig in Hconf. rewrite Hd in Hconf.
  destruct (genFluentBitConfigs _) as [confs|e] eqn:Hg; [|done]. cbn [result_bind] in Hconf.
  destruct (section_found pa c confs Hno Hlib Hg) as (c1 & Hc & Hr & Hk & Hf).
  rewrite Hc in Hconf. injection Hconf as <-. unfold genParserConf, parser_lines. simpl fb_Name. simpl fb_RegExp. simpl fb_Time_Key. simpl fb_Time_Format.
  rewrite Hr, Hk. destruct (String.eqb_spec (fb_Time_Key c) ""); [done|]. by rewrite Hf.
Qed.

(** C22. The collection of the logs of a workload that is begun and ended again leaves every
    file of fluent-bit as it was, when the two files speak of no such workload and have no file
    of its name beside them, when name, regular expression, time key and time format are one
    line that ends in no white space and are not empty, but for a time that is left out, and
    when no value contains the text that begins a section.  A time key without a format is
    written but not removed, [FluentBitExamples.missing_format_stays].  Of the library that
    reads sections it is taken that it gives the words written in this one. *)
Theorem logs_restored cluster ns ot on c c' (ks ks1 ks2 : gmap string K) k k1 k2 cm :
  let name := config_name ns ot on in
  FluentBit.Create cluster ns ot on c ks = (Ok c', ks1) -> FluentBit.Delete cluster name ks1 = (Ok tt, ks2) ->
  ks !! cluster = Some k -> ks1 !! cluster = Some k1 -> ks2 !! cluster = Some k2 -> fluent_map k cm ->
  tidy_config c' -> cm.(km_Data) !! instance_file name = None ->
  (forall fb, cm.(km_Data) !! FluentBitConfigFileName = Some fb -> ContainsText fb (include name) = false) ->
  (forall pa, cm.(km_Data) !! FluentBitConfigParsersFileName = Some pa -> ContainsText pa (genParserConf c') = false) ->
  ContainsText (section_body c') "[PARSER]" = false -> library_reads c' ->
  exists cm2, fluent_map k2 cm2 /\ cm2.(km_Data) = cm.(km_Data).
Proof.
  intros name Hc Hd Hk Hk1 Hk2 Hm Htidy Hno Hfile Hparser Hbody Hlib.
  apply (begin_logs_ok _ _ _ _ _ _ _ k k1 cm) in Hc; [|done..]. destruct Hc as (Hc' & fb & pa & cm1 & Hm1 & Hfb & Hpa & content & Hd1).
  fold name in Hc', Hd1. specialize (Hfile fb Hfb). specialize (Hparser pa Hpa).
  assert (Hname : fb_Name c' = name) by (by rewrite Hc').
  apply (end_logs_ok _ _ _ _ k1 k2 cm1) in Hd; [|done..]. destruct Hd as (cm2 & conf & fb1 & pa1 & Hm2 & Hconf & Hfb1 & Hpa1 & Hd2).
  exists cm2. split; [done|].
  assert (Hfiles : instance_file name <> FluentBitConfigFileName /\ instance_file name <> FluentBitConfigParsersFileName).
  { assert (Hb : has_byte "_" (instance_file name) = true) by (unfold instance_file, name, config_name; rewrite !has_byte_app, !orb_true_r; done).
    split; intros He; by rewrite He in Hb. }
  destruct Hfiles as [Hf1 Hf2].
  assert (Hpw : updateParserFile c' pa Add = pa +:+ genParserConf c' +:+ newline) by (unfold updateParserFile; by rewrite parser_written).
  rewrite Hd1 in Hfb1, Hpa1. rewrite lookup_insert_ne, lookup_insert_ne, lookup_insert_eq in Hfb1 by (done || by apply not_eq_sym).
  rewrite lookup_insert_ne, lookup_insert_eq in Hpa1 by done. apply (inj Some) in Hfb1 as <-. apply (inj Some) in Hpa1 as <-.
  assert (Hconf' : genParserConf conf = genParserConf c').
  { apply (getConfig_written pa c' conf (km_Data cm1)); [done|done| |by rewrite Hname]. rewrite Hd1, lookup_insert_ne, lookup_insert_eq by done. by rewrite Hpw. }
  assert (Hpd : updateParserFile conf (updateParserFile c' pa Add) Del = pa).
  { rewrite <- (parser_added c' pa) at 2 by done. unfold updateParserFile. by rewrite Hconf'. }
  rewrite Hpd, include_added in Hd2; [|rewrite <- Hname; apply Htidy|done].
  rewrite Hd2, Hd1. apply map_eq. intros f. destruct (decide (f = instance_file name)) as [->|Hi]; [by rewrite lookup_delete_eq|].
  rewrite lookup_delete_ne by done. destruct (decide (f = FluentBitConfigParsersFileName)) as [->|Hp]; [by rewrite lookup_insert_eq|].
  rewrite lookup_insert_ne by done. destruct (decide (f = FluentBitConfigFileName)) as [->|Hb]; [by rewrite lookup_insert_eq|].
  by rewrite !lookup_insert_ne by done.
Qed.
End Laws.
