(* ===== verification/Chart.v ===== *)
(** Charts (pkg/charts/chart.go, pkg/handler/chart_manager.go and pkg/types/chart.go): the
    settings a chart allows, the check of the settings a user gives, and the charts that the
    directories hold. *)
From S2P Require Import Prelude GoStrings RestApi.

(** ** Files *)

(** A path from the root.  path.Join: empty elements and single dots are dropped, two dots go
    up. *)
Definition path : Type := list string.
Definition step_path (p : path) (e : string) : path :=
  if String.eqb e "" || String.eqb e "." then p else if String.eqb e ".." then removelast p else p ++ [e].
Definition JoinPath (base : path) (elems : list string) : path := foldl step_path base (elems ≫= Split "/").
Inductive file := File (content : string) | Dir.
Abbreviation FS := (gmap path file).
(** "no such file or directory", and every other error. *)
Inductive io_error := NoSuchFile | OtherIo.
Definition ReadFile (fs : FS) (p : path) : result io_error string :=
  match fs !! p with Some (File c) => Ok c | Some Dir => Err OtherIo | None => Err NoSuchFile end.
Fixpoint below (p q : path) : option string :=
  match p, q with
  | [], [n] => Some n
  | a :: p, b :: q => if String.eqb a b then below p q else None
  | _, _ => None
  end.
Definition by_name (a b : string * bool) : Prop := String.leb a.1 b.1 = true.
#[export] Instance by_name_dec a b : Decision (by_name a b).
Proof. unfold by_name. apply _. Defined.
(** The entries of a directory, by name; whether each is a directory. *)
Definition ReadDir (fs : FS) (p : path) : result io_error (list (string * bool)) :=
  match fs !! p with
  | Some Dir =>
      Ok (merge_sort by_name
            (omap (fun e => (fun n => (n, match e.2 with Dir => true | File _ => false end)) <$> below p e.1) (map_to_list fs)))
  | Some (File _) => Err OtherIo
  | None => Err NoSuchFile
  end.

(** ** Settings *)

Definition TypeInt : string := "int".
Definition TypeString : string := "string".
Definition TypeEnum : string := "enum".
Definition configPath : string := "config/config.json".
Record ChartConfig := mkChartConfig {
  cc_Label : string; cc_JsonKey : string; cc_Type : string; cc_Required : bool; cc_ValidValues : list string;
  cc_Min : Z; cc_Max : Z; cc_MinLen : Z; cc_MaxLen : Z
}.
(** A decoded JSON value; a number is the quotient that the float64 has. *)
#[warnings="-register-all"]
Inductive JsonValue :=
  | JNull | JBool (b : bool) | JNumber (num : Z) (den : positive) | JString (s : string)
  | JArray (l : list JsonValue) | JObject (fields : list (string * JsonValue)).
Definition Settings : Type := list (string * JsonValue).
Inductive config_error :=
  | ReadConfig | ParseConfig | Unsupported | NotTogether | NotSmaller | NoValidValues | IsRequired | WrongKind | OutOfRange | NotValid.

Definition validateInt (c : ChartConfig) : result config_error unit :=
  if negb (bool_decide (c.(cc_ValidValues) = [])) || negb (c.(cc_MinLen) =? 0) || negb (c.(cc_MaxLen) =? 0) then Err Unsupported
  else if (c.(cc_Min) =? 0) && (c.(cc_Max) =? 0) then Ok tt
  else if (c.(cc_Min) =? 0) || (c.(cc_Max) =? 0) then Err NotTogether
  else if c.(cc_Max) <=? c.(cc_Min) then Err NotSmaller
  else Ok tt.
Definition validateStr (c : ChartConfig) : result config_error unit :=
  if negb (bool_decide (c.(cc_ValidValues) = [])) || negb (c.(cc_Min) =? 0) || negb (c.(cc_Max) =? 0) then Err Unsupported
  else if (c.(cc_MinLen) =? 0) && (c.(cc_MaxLen) =? 0) then Ok tt
  else if (c.(cc_MinLen) =? 0) || (c.(cc_MaxLen) =? 0) then Err NotTogether
  else if c.(cc_MaxLen) <=? c.(cc_MinLen) then Err NotSmaller
  else Ok tt.
Definition validateEnum (c : ChartConfig) : result config_error unit :=
  if negb (c.(cc_Min) =? 0) || negb (c.(cc_Max) =? 0) || negb (c.(cc_MinLen) =? 0) || negb (c.(cc_MaxLen) =? 0) then Err Unsupported
  else if bool_decide (c.(cc_ValidValues) = []) then Err NoValidValues
  else Ok tt.
Definition validate_config (c : ChartConfig) : result config_error unit :=
  if String.eqb c.(cc_Type) TypeInt then validateInt c
  else if String.eqb c.(cc_Type) TypeString then validateStr c
  else if String.eqb c.(cc_Type) TypeEnum then validateEnum c
  else Ok tt.
Definition validate : list ChartConfig -> result config_error unit := each validate_config.

(** The conversion of a float64 to int drops the fraction; what is too large for 64 bits
    becomes the smallest number. *)
Definition int_of_float (num : Z) (den : positive) : Z :=
  let z := Z.quot num (Zpos den) in if int64_ok z then z else - 2 ^ 63.
Definition checkInt (c : ChartConfig) (value : JsonValue) : result config_error unit :=
  match value with
  | JNumber num den =>
      if (c.(cc_Min) =? 0) && (c.(cc_Max) =? 0) then Ok tt
      else check ((c.(cc_Min) <=? int_of_float num den) && (int_of_float num den <? c.(cc_Max))) OutOfRange
  | _ => Err WrongKind
  end.
Definition checkStr (c : ChartConfig) (value : JsonValue) : result config_error unit :=
  match value with
  | JString s =>
      let len := Z.of_nat (String.length s) in
      if (c.(cc_MinLen) =? 0) && (c.(cc_MaxLen) =? 0) then Ok tt
      else check ((c.(cc_MinLen) <=? len) && (len <? c.(cc_MaxLen))) OutOfRange
  | _ => Err WrongKind
  end.
Definition checkEnumValue (c : ChartConfig) (value : JsonValue) : result config_error unit :=
  match value with JString s => check (bool_decide (s ∈ c.(cc_ValidValues))) NotValid | _ => Err WrongKind end.
Definition checkEnum (c : ChartConfig) (value : JsonValue) : result config_error unit :=
  match value with JArray l => each (checkEnumValue c) l | _ => checkEnumValue c value end.
Definition field (fields : Settings) (key : string) : option JsonValue :=
  snd <$> find (fun kv => String.eqb kv.1 key) fields.
(** The walk along the keys ends at the first value that is no object. *)
Fixpoint find_value (keys : list string) (fields : Settings) : option JsonValue :=
  match keys with
  | [] => None
  | key :: keys => match field fields key with Some (JObject inner) => find_value keys inner | o => o end
  end.
Definition check_one (configs : Settings) (c : ChartConfig) : result config_error unit :=
  match find_value (Split "." c.(cc_JsonKey)) configs with
  | None | Some JNull => if c.(cc_Required) then Err IsRequired else Ok tt
  | Some value =>
      if String.eqb c.(cc_Type) TypeInt then checkInt c value
      else if String.eqb c.(cc_Type) TypeString then checkStr c value
      else if String.eqb c.(cc_Type) TypeEnum then checkEnum c value
      else Ok tt
  end.
Definition checkCriteria (cs : list ChartConfig) (configs : Settings) : result config_error unit := each (check_one configs) cs.

(** ** The charts of a directory *)

Record ChartInfo := mkChartInfo { ci_Description : string; ci_Keywords : list string }.
Record ChartVersion := mkChartVersion { cv_Version : string; cv_Config : list ChartConfig }.
Record Chart := mkChart {
  ch_ID : string; ch_Name : string; ch_Description : string; ch_Icon : string; ch_Dir : path; ch_Versions : list ChartVersion
}.
Definition chartYamlFile : string := "Chart.yaml".
Definition iconPrefixForReturn : string := "/assets/helm/icons/".
Definition iconFormat : string := ".png".
Definition KeywordZcloudSystem : string := "zcloud-system".
Definition ZcloudChartDir : string := "zcloud".
Definition ZcloudChartFilter : string := "is_zcloud_chart".
Definition UserChartDir : string := "user".
Definition UserChartFilter : string := "is_user_chart".

(** encoding/json and yaml on the two files of a chart. *)
Class ChartText := {
  unmarshal_configs : string -> option (list ChartConfig);
  unmarshal_info : string -> option ChartInfo
}.
Inductive chart_error := ChartIo (e : io_error) | ErrNoFoundVersion | OutsideVersion | NoChart.

Section Charts.
Context `{ChartText} (fs : FS).

Definition LoadChartConfigs (chartVersionDir : path) : result config_error (list ChartConfig) :=
  match ReadFile fs (JoinPath chartVersionDir [configPath]) with
  | Err _ => Err ReadConfig
  | Ok content =>
      match unmarshal_configs content with
      | None => Err ParseConfig
      | Some configs => result_bind (validate configs) (fun _ => Ok configs)
      end
  end.
Definition CheckConfigs (chartVersionDir : path) (configs : Settings) : result config_error unit :=
  result_bind (LoadChartConfigs chartVersionDir) (fun chartConfigs => checkCriteria chartConfigs configs).
Definition getChartInfo (chartYamlPath : path) : option ChartInfo :=
  match ReadFile fs (JoinPath chartYamlPath [chartYamlFile]) with Ok content => unmarshal_info content | Err _ => None end.
Definition is_system (info : ChartInfo) : bool := bool_decide (KeywordZcloudSystem ∈ info.(ci_Keywords)).

(** The walk over the directory: [description] is that of the first version that has one. *)
Fixpoint versions_from (chartPath : path) (needSystemChart : bool) (entries : list (string * bool)) (description : string)
    : result chart_error (list ChartVersion * string) :=
  match entries with
  | [] => Ok ([], description)
  | (name, true) :: entries =>
      if HasPrefix name "." then versions_from chartPath needSystemChart entries description
      else
        let versionFullDir := JoinPath chartPath [name] in
        let go description :=
          match LoadChartConfigs versionFullDir with
          | Err _ => versions_from chartPath needSystemChart entries description
          | Ok config =>
              result_bind (versions_from chartPath needSystemChart entries description) (fun rest =>
                Ok (mkChartVersion name config :: rest.1, rest.2))
          end in
        if String.eqb description "" then
          match getChartInfo versionFullDir with
          | None => versions_from chartPath needSystemChart entries description
          | Some info => if negb needSystemChart && is_system info then Ok ([], description) else go info.(ci_Description)
          end
        else go description
  | (name, false) :: entries =>
      if String.eqb name chartYamlFile then Err OutsideVersion else versions_from chartPath needSystemChart entries description
  end.
Definition listVersions (chartDir : path) (chartName : string) (needSystemChart : bool) : result chart_error (list ChartVersion * string) :=
  let chartPath := JoinPath chartDir [chartName] in
  match ReadDir fs chartPath with
  | Err e => Err (ChartIo e)
  | Ok versionDirs =>
      result_bind (versions_from chartPath needSystemChart versionDirs "") (fun found =>
        match found.1 with [] => Err ErrNoFoundVersion | _ => Ok found end)
  end.
(** The path of the icon, which is answered and not read. *)
Definition genChartIcon (chartName : string) : string :=
  "/" +:+ String.concat "/" (JoinPath [] [iconPrefixForReturn; chartName +:+ iconFormat]).
Definition getLocalChart (chartDir : path) (chartName : string) (needSystemChart : bool) : result chart_error Chart :=
  result_bind (listVersions chartDir chartName needSystemChart) (fun found =>
    Ok (mkChart chartName chartName found.2 (genChartIcon chartName) chartDir found.1)).
(** A chart that cannot be read is left out. *)
Definition getLocalCharts (chartDir : path) (needSystemChart : bool) : result chart_error (list Chart) :=
  match ReadDir fs chartDir with
  | Err e => Err (ChartIo e)
  | Ok chts =>
      Ok (omap (fun cht : string * bool =>
            if cht.2 && negb (HasPrefix cht.1 ".")
            then match getLocalChart chartDir cht.1 needSystemChart with Ok chart => Some chart | Err _ => None end
            else None) chts)
  end.
Definition isNoSuchFileOrDirError (e : chart_error) : bool := match e with ChartIo NoSuchFile => true | _ => false end.
Definition getChart (chartDir : path) (chartName : string) (needSystemChart : bool) : result chart_error Chart :=
  match getLocalChart (JoinPath chartDir [ZcloudChartDir]) chartName needSystemChart with
  | Ok chart => Ok chart
  | Err e =>
      if isNoSuchFileOrDirError e then
        match getLocalChart (JoinPath chartDir [UserChartDir]) chartName needSystemChart with
        | Ok chart => Ok chart
        | Err e => Err (if isNoSuchFileOrDirError e then NoChart else e)
        end
      else Err e
  end.

(** ** Handlers *)

Record Filter := mkFilter { fi_Name : string; fi_Eq : bool; fi_Values : list string }.
Definition hasChartFilter (filter : Filter) (filterName : string) : bool :=
  String.eqb filter.(fi_Name) filterName && filter.(fi_Eq) && bool_decide ("true" ∈ filter.(fi_Values)).
Fixpoint getChartDir (chartDir : path) (filters : list Filter) : option path :=
  match filters with
  | [] => None
  | filter :: filters =>
      if hasChartFilter filter ZcloudChartFilter then Some (JoinPath chartDir [ZcloudChartDir])
      else if hasChartFilter filter UserChartFilter then Some (JoinPath chartDir [UserChartDir])
      else getChartDir chartDir filters
  end.
Definition getChartDirs (chartDir : path) (filters : list Filter) : list path :=
  match getChartDir chartDir filters with
  | Some dir => [dir]
  | None => [JoinPath chartDir [ZcloudChartDir]; JoinPath chartDir [UserChartDir]]
  end.
Definition getCharts (chartDir : path) (filters : list Filter) (needSystemChart : bool) : result chart_error (list Chart) :=
  result_bind (map_result (fun dir => getLocalCharts dir needSystemChart) (getChartDirs chartDir filters)) (fun l => Ok (concat l)).
Definition chart_order (a b : Chart) : Prop := String.leb a.(ch_Name) b.(ch_Name) = true.
#[export] Instance chart_order_dec a b : Decision (chart_order a b).
Proof. unfold chart_order. apply _. Defined.
Definition List (chartDir : path) (filters : list Filter) : result api_error (list Chart) :=
  match getCharts chartDir filters false with Ok l => Ok (merge_sort chart_order l) | Err _ => Err ServerError end.
Definition Get (chartDir : path) (chartID : string) : result api_error Chart := map_err (fun _ => ServerError) (getChart chartDir chartID false).
End Charts.

(** ** What the check accepts *)

(** The first value on the way of the keys that is no object. *)
Inductive value_at : list string -> Settings -> JsonValue -> Prop :=
  | at_leaf key keys fields v : field fields key = Some v -> (forall inner, v <> JObject inner) -> value_at (key :: keys) fields v
  | at_inner key keys fields inner v : field fields key = Some (JObject inner) -> value_at keys inner v -> value_at (key :: keys) fields v.
Definition given (c : ChartConfig) (configs : Settings) (v : JsonValue) : Prop :=
  value_at (Split "." c.(cc_JsonKey)) configs v /\ v <> JNull.
Definition unbounded (lo hi : Z) : Prop := lo = 0 /\ hi = 0.
Definition bounded (lo hi z : Z) : Prop := unbounded lo hi \/ lo <= z < hi.
Definition a_choice (c : ChartConfig) (v : JsonValue) : Prop := exists s, v = JString s /\ s ∈ c.(cc_ValidValues).
Definition fits (c : ChartConfig) (v : JsonValue) : Prop :=
  (c.(cc_Type) = TypeInt -> exists num den, v = JNumber num den /\ bounded c.(cc_Min) c.(cc_Max) (int_of_float num den)) /\
  (c.(cc_Type) = TypeString -> exists s, v = JString s /\ bounded c.(cc_MinLen) c.(cc_MaxLen) (Z.of_nat (String.length s))) /\
  (c.(cc_Type) = TypeEnum -> a_choice c v \/ exists l, v = JArray l /\ Forall (a_choice c) l).
Definition satisfies (c : ChartConfig) (configs : Settings) : Prop :=
  (forall v, given c configs v -> fits c v) /\ (c.(cc_Required) = true -> exists v, given c configs v).
(** A setting that a chart may declare. *)
Definition proper_bounds (lo hi : Z) : Prop := unbounded lo hi \/ lo <> 0 /\ hi <> 0 /\ lo < hi.
Definition declares (c : ChartConfig) : Prop :=
  (c.(cc_Type) = TypeInt -> c.(cc_ValidValues) = [] /\ unbounded c.(cc_MinLen) c.(cc_MaxLen) /\ proper_bounds c.(cc_Min) c.(cc_Max)) /\
  (c.(cc_Type) = TypeString -> c.(cc_ValidValues) = [] /\ unbounded c.(cc_Min) c.(cc_Max) /\ proper_bounds c.(cc_MinLen) c.(cc_MaxLen)) /\
  (c.(cc_Type) = TypeEnum -> c.(cc_ValidValues) <> [] /\ unbounded c.(cc_Min) c.(cc_Max) /\ unbounded c.(cc_MinLen) c.(cc_MaxLen)).

Lemma find_value_iff keys fields v : (find_value keys fields = Some v) <-> value_at keys fields v.
Proof.
  split.
  - revert fields. induction keys as [|key keys IH]; intros fields Hf; [done|]. simpl in Hf.
    destruct (field fields key) as [w|] eqn:Hw; [|done]. destruct w as [| | | | |inner]; try by injection Hf as <-; apply at_leaf.
    apply (at_inner key keys fields inner); auto.
  - induction 1 as [key keys fields v Hv Hno|key keys fields inner v Hv _ IH]; simpl; rewrite Hv; [|done]. by destruct v; try done; destruct (Hno fields0).
Qed.
Lemma value_at_det keys fields v w : value_at keys fields v -> value_at keys fields w -> v = w.
Proof. rewrite <- !find_value_iff. congruence. Qed.
Lemma range_ok {E} lo hi z (e : E) :
  (if (lo =? 0) && (hi =? 0) then Ok tt else check ((lo <=? z) && (z <? hi)) e) = Ok tt <-> bounded lo hi z.
Proof.
  unfold bounded, unbounded. destruct (Z.eqb_spec lo 0), (Z.eqb_spec hi 0); cbn [andb]; rewrite ?check_ok, ?andb_true_iff, ?Z.leb_le, ?Z.ltb_lt;
    split; auto; intros [[? ?]|?]; lia.
Qed.
Lemma choice_ok c v : checkEnumValue c v = Ok tt <-> a_choice c v.
Proof.
  unfold a_choice. destruct v; simpl; try (split; [done|by intros (s & ? & _)]). rewrite check_ok, bool_decide_eq_true.
  split; [intros Hs; by exists s|by intros (s' & [= <-] & Hs)].
Qed.
Lemma enum_ok c v : checkEnum c v = Ok tt <-> a_choice c v \/ exists l, v = JArray l /\ Forall (a_choice c) l.
Proof.
  assert (Hl : forall l, each (checkEnumValue c) l = Ok tt <-> Forall (a_choice c) l).
  { intros l. rewrite each_ok. split; intros Hl; (eapply Forall_impl; [exact Hl|]); intros v'; apply choice_ok. }
  destruct v; unfold checkEnum; rewrite ?Hl, ?choice_ok; (split; [|intros [Hc|(l' & [= <-] & Hc)]]); eauto.
  by destruct Hc as (s & ? & _).
Qed.
Lemma fits_ok c v :
  (if String.eqb c.(cc_Type) TypeInt then checkInt c v else if String.eqb c.(cc_Type) TypeString then checkStr c v
   else if String.eqb c.(cc_Type) TypeEnum then checkEnum c v else Ok tt) = Ok tt <-> fits c v.
Proof.
  unfold fits. destruct (String.eqb_spec (cc_Type c) TypeInt) as [->|H1].
  { split.
    - intros Hc. split; [|by split]. intros _. destruct v; try done. apply range_ok in Hc. eauto.
    - intros [Hi _]. destruct (Hi eq_refl) as (num & den & -> & Hb). by apply range_ok. }
  destruct (String.eqb_spec (cc_Type c) TypeString) as [->|H2].
  { split.
    - intros Hc. split; [done|]. split; [|done]. intros _. destruct v; try done. apply range_ok in Hc. eauto.
    - intros (_ & Hi & _). destruct (Hi eq_refl) as (s & -> & Hb). by apply range_ok. }
  destruct (String.eqb_spec (cc_Type c) TypeEnum) as [->|H3]; [|by split].
  rewrite enum_ok. split; [by intros Hc; split; [|split]|]. intros (_ & _ & Hi). by apply Hi.
Qed.
Lemma check_one_ok configs c : check_one configs c = Ok tt <-> satisfies c configs.
Proof.
  unfold check_one, satisfies, given. setoid_rewrite <- find_value_iff.
  destruct (find_value _ configs) as [v|] eqn:Hv.
  - assert (Hno : v = JNull \/ v <> JNull) by (destruct v; [by left|by right..]). destruct Hno as [->|Hno].
    + destruct (cc_Required c); split; try done.
      * intros [_ Hr]. by destruct (Hr eq_refl) as (v & [= <-] & Hn).
      * intros _. split; [by intros v [[= <-] Hn]|done].
    + transitivity (fits c v); [destruct v; try done; apply fits_ok|]. split.
      * intros Hf. split; [by intros w [[= <-] _]|eauto].
      * intros [Hf _]. by apply Hf.
  - destruct (cc_Required c); split; try done.
    + intros [_ Hr]. by destruct (Hr eq_refl) as (v & ? & _).
    + intros _. split; [by intros v [? _]|done].
Qed.
Lemma bounds_ok {E} lo hi (e1 e2 : E) :
  (if (lo =? 0) && (hi =? 0) then Ok tt else if (lo =? 0) || (hi =? 0) then Err e1 else if hi <=? lo then Err e2 else Ok tt) = Ok tt <->
  proper_bounds lo hi.
Proof.
  unfold proper_bounds, unbounded. destruct (Z.eqb_spec lo 0), (Z.eqb_spec hi 0), (Z.leb_spec hi lo); simpl; split; try done; auto; lia.
Qed.
Lemma refused_ok {E} (a b d : bool) (e : E) r : (if a || b || d then Err e else r) = Ok tt <-> a = false /\ b = false /\ d = false /\ r = Ok tt.
Proof. destruct a, b, d; simpl; naive_solver. Qed.
Lemma validate_config_ok c : validate_config c = Ok tt <-> declares c.
Proof.
  unfold validate_config, declares, unbounded. destruct (String.eqb_spec (cc_Type c) TypeInt) as [->|H1].
  { unfold validateInt. rewrite refused_ok, bounds_ok, !negb_false_iff, bool_decide_eq_true, !Z.eqb_eq. split; [intros (? & ? & ? & ?); by split; [|split]|].
    intros [Hi _]. destruct (Hi eq_refl) as (? & [? ?] & ?). auto. }
  destruct (String.eqb_spec (cc_Type c) TypeString) as [->|H2].
  { unfold validateStr. rewrite refused_ok, bounds_ok, !negb_false_iff, bool_decide_eq_true, !Z.eqb_eq. split; [intros (? & ? & ? & ?); by split; [|split]|].
    intros (_ & Hi & _). destruct (Hi eq_refl) as (? & [? ?] & ?). auto. }
  destruct (String.eqb_spec (cc_Type c) TypeEnum) as [->|H3]; [|by split].
  unfold validateEnum. destruct (Z.eqb_spec (cc_Min c) 0), (Z.eqb_spec (cc_Max c) 0), (Z.eqb_spec (cc_MinLen c) 0), (Z.eqb_spec (cc_MaxLen c) 0); simpl;
    try (split; [done|]; intros (_ & _ & Hi); by destruct (Hi eq_refl) as (_ & [? ?] & [? ?])).
  case_bool_decide as Hv.
  - split; [done|]. intros (_ & _ & Hi). by destruct (Hi eq_refl) as [? _].
  - split; [|done]. intros _. by split; [|split].
Qed.

(** C24. The settings of a user are accepted exactly when the chart has a file of settings that
    declares each one properly, and every value that is given, at the first place on the way
    of its keys that holds no object, is of the kind and within the bounds that are declared,
    and none that is required is missing. *)
Theorem CheckConfigs_iff `{ChartText} (fs : FS) (chartVersionDir : path) (configs : Settings) :
  CheckConfigs fs chartVersionDir configs = Ok tt <->
  exists (content : string) (cs : list ChartConfig), ReadFile fs (JoinPath chartVersionDir [configPath]) = Ok content /\ unmarshal_configs content = Some cs /\
    Forall (fun c => declares c /\ satisfies c configs) cs.
Proof.
  unfold CheckConfigs, LoadChartConfigs. destruct (ReadFile _ _) as [content|e]; [|split; [done|by intros (? & ? & ? & _)]].
  destruct (unmarshal_configs content) as [cs|] eqn:Hu; [|split; [done|intros (content' & cs & [= <-] & Hcs & _); congruence]].
  transitivity (validate cs = Ok tt /\ checkCriteria cs configs = Ok tt).
  - destruct (validate cs) as [[]|e]; simpl; [by split; [|intros [_ ?]]|by split; [|intros [? _]]].
  - unfold validate, checkCriteria. rewrite !each_ok, <- Forall_and. split.
    + intros Hall. exists content, cs. split; [done|]. split; [done|]. eapply Forall_impl; [exact Hall|]. intros c [Hv Hk]. split; [by apply validate_config_ok|by apply check_one_ok].
    + intros (content' & cs' & [= <-] & Hcs & Hall). assert (cs' = cs) as -> by congruence.
      eapply Forall_impl; [exact Hall|]. intros c [Hv Hk]. split; [by apply validate_config_ok|by apply check_one_ok].
Qed.
