(* ===== verification/Application.v ===== *)
(** Applications (pkg/handler/application_manager.go and pkg/types/application.go): a chart
    that is rendered with the settings of a user becomes an object of the application
    operator. *)
From S2P Require Import Prelude GoStrings GoText Authorizer RestApi KubeApi Namespace Chart.

Definition notesFileSuffix : string := "NOTES.txt".
Definition appStatusDelete : string := "delete".
Definition AnnKeyForAppConfigs : string := "app.configs".

(** ** Data *)

Record AppResource := mkAppResource {
  ar_Namespace : string; ar_Name : string; ar_Type : string; ar_Link : string; ar_Replicas : Z; ar_ReadyReplicas : Z; ar_Exists : bool;
  ar_CreationTimestamp : Z
}.
(** Settings that are not given are [None]. *)
Record Application := mkApplication {
  app_ID : string; app_Name : string; app_ChartName : string; app_ChartVersion : string; app_ChartIcon : string; app_Status : string;
  app_WorkloadCount : Z; app_ReadyWorkloadCount : Z; app_AppResources : list AppResource; app_Configs : option string;
  app_InjectServiceMesh : bool; app_CreationTimestamp : Z; app_DeletionTimestamp : option Z
}.
Definition new_application (name chart version : string) (configs : option string) : Application :=
  mkApplication "" name chart version "" "" 0 0 [] configs false 0 None.
Definition set_app_id (id : string) (a : Application) : Application :=
  mkApplication id a.(app_Name) a.(app_ChartName) a.(app_ChartVersion) a.(app_ChartIcon) a.(app_Status) a.(app_WorkloadCount)
    a.(app_ReadyWorkloadCount) a.(app_AppResources) a.(app_Configs) a.(app_InjectServiceMesh) a.(app_CreationTimestamp) a.(app_DeletionTimestamp).

(** The object of the operator; its specification is the program's, its state the operator's. *)
Record ChartRef := mkChartRef { cr_Name : string; cr_Version : string; cr_Icon : string; cr_SystemChart : bool }.
Record ApplicationSpec := mkAppSpec {
  as_OwnerChart : ChartRef; as_InjectServiceMesh : bool; as_CreatedByAdmin : bool; as_Manifests : list (string * string);
  as_CRDManifests : list (string * string)
}.
Record ApplicationStatus := mkAppStatus {
  au_State : string; au_WorkloadCount : Z; au_ReadyWorkloadCount : Z; au_AppResources : list AppResource
}.
Record K8sApplication := mkK8sApplication {
  ka_Namespace : string; ka_Name : string; ka_Annotations : gmap string string; ka_Spec : ApplicationSpec; ka_Status : ApplicationStatus;
  ka_CreationTimestamp : Z; ka_DeletionTimestamp : option Z
}.
#[export] Instance K8sApplication_object : KubeObject K8sApplication := {|
  Spec := gmap string string * ApplicationSpec; kube_key o := (o.(ka_Namespace), o.(ka_Name)); kube_spec o := (o.(ka_Annotations), o.(ka_Spec));
  kube_deleting o := bool_decide (is_Some o.(ka_DeletionTimestamp)) |}.
Definition is_system_app (o : K8sApplication) : bool := o.(ka_Spec).(as_OwnerChart).(cr_SystemChart).

Definition app_leb (a b : Application) : bool :=
  if String.eqb a.(app_ChartName) b.(app_ChartName) then
    if String.eqb a.(app_ChartVersion) b.(app_ChartVersion) then String.leb a.(app_Name) b.(app_Name)
    else String.leb a.(app_ChartVersion) b.(app_ChartVersion)
  else String.leb a.(app_ChartName) b.(app_ChartName).
Definition resource_leb (a b : AppResource) : bool :=
  if String.eqb a.(ar_Type) b.(ar_Type) then String.leb a.(ar_Name) b.(ar_Name) else String.leb a.(ar_Type) b.(ar_Type).
Definition app_order (a b : Application) : Prop := app_leb a b = true.
Definition resource_order (a b : AppResource) : Prop := resource_leb a b = true.
#[export] Instance app_order_dec a b : Decision (app_order a b).
Proof. unfold app_order. apply _. Defined.
#[export] Instance resource_order_dec a b : Decision (resource_order a b).
Proof. unfold resource_order. apply _. Defined.

(** ** Libraries *)

(** The decoding of settings, and the libraries helm and gorest: a chart that is loaded, the
    values it is rendered with, its files, and the plural of the name of a kind. *)
Record Capabilities := mkCaps { ca_Version : string; ca_Major : string; ca_Minor : string }.
Class Helm := {
  unmarshal_settings : string -> option Settings;
  HelmChart : Type;
  LoadChart : FS -> path -> option HelmChart;
  RenderValues : Type;
  ToRenderValues : HelmChart -> Settings -> string -> string -> Capabilities -> option RenderValues;
  set_service : string -> RenderValues -> RenderValues;
  Render : HelmChart -> RenderValues -> option (gmap string string);
  CRDs : HelmChart -> list (string * string);
  GuessPluralName : string -> string
}.
(** The version of a cluster. *)
Class KubeVersion (K : Type) := ServerVersion : M K kube_error Capabilities.

(** [AKube]: as the cluster fails. *)
Inductive app_error := AKube (e : kube_error) | AOther.

Section Application.
Context `{ChartText} `{Helm} (fs : FS) {K : Type} `{!KubeKind K K8sNamespace} `{!KubeKind K K8sApplication} `{!KubeVersion K}.

Definition parseChartConfigs (chartVersionDir : path) (configRaw : option string) : result app_error Settings :=
  match configRaw with
  | None => Ok []
  | Some raw =>
      match unmarshal_settings raw with
      | None => Err AOther
      | Some configs => result_bind (map_err (fun _ => AOther) (CheckConfigs fs chartVersionDir configs)) (fun _ => Ok configs)
      end
  end.
(** The files in the order of a walk over the map. *)
Definition loadChartFiles (namespace : string) (chartVersionDir : path) (appName : string) (configs : Settings) (caps : Capabilities)
    : result app_error (list (string * string) * list (string * string)) :=
  result_bind (of_option AOther (LoadChart fs chartVersionDir)) (fun chartRequested =>
    result_bind (of_option AOther (ToRenderValues chartRequested configs appName namespace caps)) (fun values =>
      result_bind (of_option AOther (Render chartRequested (set_service "zcloud" values))) (fun files =>
        Ok (filter (fun f => HasSuffix f.1 notesFileSuffix = false) (map_to_list files), CRDs chartRequested)))).

Definition getApplication (namespace name : string) (isSystemChart : bool) : M K app_error K8sApplication :=
  let! app := rethrow AKube (kube_get (Obj := K8sApplication) namespace name) in
  do! guard (Bool.eqb (is_system_app app) isSystemChart) AOther in ret app.
Definition getApplications (namespace : string) : M K kube_error (list K8sApplication) := kube_list namespace.
Definition deleteApplication (namespace name : string) (isSystemChart : bool) : M K app_error unit :=
  do! getApplication namespace name isSystemChart in rethrow AKube (kube_delete (Obj := K8sApplication) namespace name).
Definition createApplication (user : option string) (namespace : string) (chartDir : path) (app : Application) (isSystemChart : bool)
    : M K app_error unit :=
  let! there := hasNamespace namespace in
  do! guard there AOther in
  let! old := attempt (getApplication namespace app.(app_Name) isSystemChart) in
  do! match old with Err (AKube KNotFound) => ret tt | _ => throw AOther end in
  let chartVersionDir := JoinPath chartDir [app.(app_ChartName); app.(app_ChartVersion)] in
  let! info := lift (of_option AOther (getChartInfo fs chartVersionDir)) in
  let systemChart := is_system info in
  do! guard (Bool.eqb systemChart isSystemChart) AOther in
  let! caps := rethrow (fun _ => AOther) ServerVersion in
  let! configs := lift (parseChartConfigs chartVersionDir app.(app_Configs)) in
  let! files := lift (map_err (fun _ => AOther) (loadChartFiles namespace chartVersionDir app.(app_Name) configs caps)) in
  let annotations := match app.(app_Configs) with Some c => if String.eqb c "" then ∅ else {[AnnKeyForAppConfigs := c]} | None => ∅ end in
  do! rethrow AKube (kube_create (mkK8sApplication namespace app.(app_Name) annotations
        (mkAppSpec (mkChartRef app.(app_ChartName) app.(app_ChartVersion) (genChartIcon app.(app_ChartName)) systemChart)
           app.(app_InjectServiceMesh) (isAdmin (getCurrentUser user)) files.1 files.2)
        (mkAppStatus "" 0 0 []) 0 None)) in
  ret tt.

(** The text up to the end of the first occurrence, or all of it. *)
Fixpoint through (sep s : string) : string :=
  if HasPrefix s sep then sep else match s with EmptyString => EmptyString | String c r => String c (through sep r) end.
Definition getRequestUrlPrefix (reqUrlPath clusterName : string) : string := through ("/clusters/" +:+ clusterName +:+ "/namespaces/") reqUrlPath.
Definition url_path (elems : list string) : string := "/" +:+ String.concat "/" (JoinPath [] elems).
Definition show_resource (urlPrefix : string) (r : AppResource) : AppResource :=
  mkAppResource r.(ar_Namespace) r.(ar_Name) r.(ar_Type)
    (if r.(ar_Exists) then url_path [urlPrefix; r.(ar_Namespace); GuessPluralName r.(ar_Type); r.(ar_Name)] else "")
    r.(ar_Replicas) r.(ar_ReadyReplicas) r.(ar_Exists) r.(ar_CreationTimestamp).
Definition k8sAppCRDToScApp (o : K8sApplication) (urlPrefix : string) : Application :=
  mkApplication o.(ka_Name) o.(ka_Name) o.(ka_Spec).(as_OwnerChart).(cr_Name) o.(ka_Spec).(as_OwnerChart).(cr_Version)
    o.(ka_Spec).(as_OwnerChart).(cr_Icon) (match o.(ka_DeletionTimestamp) with Some _ => appStatusDelete | None => o.(ka_Status).(au_State) end)
    o.(ka_Status).(au_WorkloadCount) o.(ka_Status).(au_ReadyWorkloadCount)
    (merge_sort resource_order (show_resource urlPrefix <$> o.(ka_Status).(au_AppResources))) None
    o.(ka_Spec).(as_InjectServiceMesh) o.(ka_CreationTimestamp) o.(ka_DeletionTimestamp).

(** ** Handlers *)

Definition app_answer (known : kube_error -> option api_error) (other : api_error) (e : app_error) : api_error :=
  match e with AKube e => default other (known e) | AOther => other end.
Definition on_not_found (e : kube_error) : option api_error := if IsNotFound e then Some NotFound else None.
Definition on_already_exists (e : kube_error) : option api_error := if IsAlreadyExists e then Some DuplicateResource else None.
Definition Create (chartDir : path) (user : option string) (cluster namespace : string) (app : Application)
    : M (gmap string K) api_error Application :=
  on_cluster NotFound cluster
    (let! chart := lift (map_err (fun _ => ConnectClusterFailed) (getChart fs chartDir app.(app_ChartName) false)) in
     do! rethrow (app_answer on_already_exists ConnectClusterFailed) (createApplication user namespace chart.(ch_Dir) app false) in
     ret (set_app_id app.(app_Name) app)).
Definition List (cluster namespace reqUrlPath : string) : M (gmap string K) api_error (list Application) :=
  on_cluster NotFound cluster
    (let! items := rethrow (fun e => if IsNotFound e then NotFound else ServerError) (getApplications namespace) in
     ret (merge_sort app_order
            ((fun o => k8sAppCRDToScApp o (getRequestUrlPrefix reqUrlPath cluster)) <$> filter (fun o => is_system_app o = false) items))).
Definition Get (cluster namespace appName reqUrlPath : string) : M (gmap string K) api_error Application :=
  on_cluster NotFound cluster
    (let! o := rethrow (app_answer on_not_found ServerError) (getApplication namespace appName false) in
     ret (k8sAppCRDToScApp o (getRequestUrlPrefix reqUrlPath cluster))).
Definition Delete (cluster namespace appName : string) : M (gmap string K) api_error unit :=
  on_cluster NotFound cluster (rethrow (app_answer on_not_found ServerError) (deleteApplication namespace appName false)).
End Application.
