(* ===== verification/SystemApp.v ===== *)
(** The tools of a cluster, which are applications of the system (pkg/handler/monitor_manager.go,
    registry_manager.go, efk.go and pkg/charts/prometheus.go, harbor.go, efk.go). *)
From S2P Require Import Prelude KvStore GoStrings GoText Authorizer RestApi KubeApi Namespace PersistentVolume NetStorage Chart Application.

Definition monitorAppName : string := "monitor".
Definition monitorChartName : string := "prometheus".
Definition monitorChartVersion : string := "6.4.3".
Definition ZcloudDynamicaDomainPrefix : string := "zc.zdns.cn".
Definition sysApplicationCheckTimes : nat := 30.
Definition registryAppName : string := "registry".
Definition registryChartName : string := "harbor".
Definition registryChartVersion : string := "1.1.1".
Definition httpsScheme : string := "https://".
Definition efkAppName : string := "efk".
Definition efkChartName : string := "efk".
Definition efkChartVersion : string := "0.0.1".
Definition DefaultEFKESReplicas : Z := 3.

(** ** Data *)

Record Monitor := mkMonitor {
  mo_ID : string; mo_IngressDomain : string; mo_StorageClass : string; mo_StorageSize : Z; mo_PrometheusRetention : Z; mo_ScrapeInterval : Z;
  mo_AdminPassword : string; mo_RedirectUrl : string; mo_Status : string; mo_CreationTimestamp : Z; mo_DeletionTimestamp : option Z
}.
Record Registry := mkRegistry {
  rg_ID : string; rg_IngressDomain : string; rg_StorageClass : string; rg_StorageSize : Z; rg_AdminPassword : string; rg_RedirectUrl : string;
  rg_Status : string; rg_CreationTimestamp : Z; rg_DeletionTimestamp : option Z
}.
Record EFK := mkEFK {
  ef_ID : string; ef_IngressDomain : string; ef_ESReplicas : Z; ef_StorageSize : Z; ef_StorageClass : string; ef_RedirectUrl : string;
  ef_Status : string; ef_CreationTimestamp : Z; ef_DeletionTimestamp : option Z
}.
(** The settings of their charts, in the fields that are set. *)
Record Prometheus := mkPrometheus {
  pm_Hosts : string; pm_AdminPassword : string; pm_StorageClass : string; pm_StorageSize : Z; pm_Retention : Z; pm_ScrapeInterval : Z;
  pm_AlertStorageClass : string; pm_EtcdEnabled : bool; pm_EndPoints : list string
}.
Record Harbor := mkHarbor {
  hb_Core : string; hb_CaCrt : string; hb_TlsCrt : string; hb_TlsKey : string; hb_StorageClass : string; hb_StorageSize : Z;
  hb_AdminPassword : string; hb_ExternalURL : string
}.
Record EFKConfig := mkEFKConfig { ec_Replicas : Z; ec_StorageClass : string; ec_Storage : Z; ec_Hosts : string }.

(** What is needed to know of the cluster of a request: its name, and the addresses of its
    nodes with a role. *)
Record ClusterNodes := mkClusterNodes { cn_Name : string; cn_Edge : list string; cn_Etcd : list string }.
(** x509.GenerateSignedCertificate of package cement, for a domain: a certificate and its key;
    the number is the randomness. *)
Record CA := mkCA { ca_Cert : string; ca_Key : string }.
Class SignedCertificates := GenerateSignedCertificate : string -> CA -> nat -> option (string * string).
(** The states of package application-operator. *)
Class ApplicationStates := { StateFailed : string; StateSucceed : string }.

Section SystemApp.
Context `{ChartText} `{Helm} `{SignedCertificates} `{ApplicationStates} `{Json Prometheus} `{Json Harbor} `{Json EFKConfig} (fs : FS)
  {K : Type} `{!KubeKind K K8sNamespace} `{!KubeKind K K8sApplication} `{!KubeKind K K8sStorageClass} `{!KubeVersion K}.

(** ** The settings *)

(** [random] picks the node. *)
Definition getRandomEdgeNodeAddress (cluster : ClusterNodes) (random : nat) : string :=
  default "" (cluster.(cn_Edge) !! (random mod length cluster.(cn_Edge))%nat).
Definition genIngressDomain (cluster : ClusterNodes) (random : nat) (ingressDomain appName : string) : option string :=
  if negb (String.eqb ingressDomain "") then Some ingressDomain
  else
    let edgeIP := getRandomEdgeNodeAddress cluster random in
    if String.eqb edgeIP "" then None
    else Some (appName +:+ "-" +:+ ZCloudNamespace +:+ "-" +:+ cluster.(cn_Name) +:+ "." +:+ edgeIP +:+ "." +:+ ZcloudDynamicaDomainPrefix).
Definition set_monitor (id domain : string) (m : Monitor) : Monitor :=
  mkMonitor id domain m.(mo_StorageClass) m.(mo_StorageSize) m.(mo_PrometheusRetention) m.(mo_ScrapeInterval) m.(mo_AdminPassword)
    m.(mo_RedirectUrl) m.(mo_Status) m.(mo_CreationTimestamp) m.(mo_DeletionTimestamp).
Definition genMonitorApplicationConfig (cluster : ClusterNodes) (random : nat) (m : Monitor) : option (Monitor * string) :=
  domain ← genIngressDomain cluster random m.(mo_IngressDomain) monitorAppName;
  config ← marshal (mkPrometheus domain m.(mo_AdminPassword) m.(mo_StorageClass) m.(mo_StorageSize) m.(mo_PrometheusRetention)
                      m.(mo_ScrapeInterval) m.(mo_StorageClass) true cluster.(cn_Etcd));
  Some (set_monitor m.(mo_ID) domain m, config).
Definition genMonitorApplication (cluster : ClusterNodes) (random : nat) (m : Monitor) : option (Monitor * Application) :=
  (fun c => (c.1, new_application monitorAppName monitorChartName monitorChartVersion (Some c.2))) <$> genMonitorApplicationConfig cluster random m.
Definition set_registry (id domain : string) (r : Registry) : Registry :=
  mkRegistry id domain r.(rg_StorageClass) r.(rg_StorageSize) r.(rg_AdminPassword) r.(rg_RedirectUrl) r.(rg_Status) r.(rg_CreationTimestamp)
    r.(rg_DeletionTimestamp).
Definition genRegistryApplicationConfig (cluster : ClusterNodes) (random : nat) (r : Registry) (ca : CA) : option (Registry * string) :=
  domain ← genIngressDomain cluster random r.(rg_IngressDomain) registryAppName;
  tls ← GenerateSignedCertificate domain ca random;
  config ← marshal (mkHarbor domain ca.(ca_Cert) tls.1 tls.2 r.(rg_StorageClass) r.(rg_StorageSize) r.(rg_AdminPassword) (httpsScheme +:+ domain));
  Some (set_registry r.(rg_ID) domain r, config).
Definition genRegistryApplication (cluster : ClusterNodes) (random : nat) (r : Registry) (ca : CA) : option (Registry * Application) :=
  (fun c => (c.1, new_application registryAppName registryChartName registryChartVersion (Some c.2))) <$> genRegistryApplicationConfig cluster random r ca.
Definition set_efk (id domain : string) (e : EFK) : EFK :=
  mkEFK id domain e.(ef_ESReplicas) e.(ef_StorageSize) e.(ef_StorageClass) e.(ef_RedirectUrl) e.(ef_Status) e.(ef_CreationTimestamp)
    e.(ef_DeletionTimestamp).
Definition genEFKConfigs (cluster : ClusterNodes) (random : nat) (e : EFK) : option (EFK * string) :=
  domain ← genIngressDomain cluster random e.(ef_IngressDomain) efkAppName;
  config ← marshal (mkEFKConfig e.(ef_ESReplicas) e.(ef_StorageClass) (Z.quot e.(ef_StorageSize) DefaultEFKESReplicas) domain);
  Some (set_efk e.(ef_ID) domain e, config).
Definition genEFKApplication (cluster : ClusterNodes) (random : nat) (e : EFK) : option (EFK * Application) :=
  (fun c => (c.1, new_application efkAppName efkChartName efkChartVersion (Some c.2))) <$> genEFKConfigs cluster random e.

(** ** What is shown of an application *)

Definition getAppConfigsFromAnnotations {A} `{Json A} (app : K8sApplication) : option A :=
  configs ← app.(ka_Annotations) !! AnnKeyForAppConfigs; unmarshal configs.
Definition app_status (app : K8sApplication) : string :=
  match app.(ka_DeletionTimestamp) with Some _ => appStatusDelete | None => app.(ka_Status).(au_State) end.
Definition genRetrunMonitorFromApplication (app : K8sApplication) : option Monitor :=
  p ← getAppConfigsFromAnnotations (A := Prometheus) app;
  Some (mkMonitor monitorAppName p.(pm_Hosts) p.(pm_StorageClass) p.(pm_StorageSize) p.(pm_Retention) p.(pm_ScrapeInterval) ""
          ("http://" +:+ p.(pm_Hosts)) (app_status app) app.(ka_CreationTimestamp) app.(ka_DeletionTimestamp)).
Definition genRetrunRegistryFromApplication (app : K8sApplication) : option Registry :=
  h ← getAppConfigsFromAnnotations (A := Harbor) app;
  Some (mkRegistry registryAppName h.(hb_Core) h.(hb_StorageClass) h.(hb_StorageSize) "" (httpsScheme +:+ h.(hb_Core)) (app_status app)
          app.(ka_CreationTimestamp) app.(ka_DeletionTimestamp)).
Definition genEFKFromApp (app : K8sApplication) : option EFK :=
  e ← getAppConfigsFromAnnotations (A := EFKConfig) app;
  Some (mkEFK efkAppName e.(ec_Hosts) e.(ec_Replicas) e.(ec_Storage) e.(ec_StorageClass) ("http://" +:+ e.(ec_Hosts)) (app_status app)
          app.(ka_CreationTimestamp) app.(ka_DeletionTimestamp)).

(** ** Operations *)

Definition createSysApplication (chartDir : path) (user : option string) (app : Application) (appName storageClass : string)
    : M K api_error unit :=
  let! there := isStorageClassOrDefaultExist storageClass in
  do! guard there PermissionDenied in
  rethrow (fun _ => ServerError)
    (createApplication fs user ZCloudNamespace (JoinPath chartDir [ZcloudChartDir]) (set_app_id appName app) true).

(** What a look at the application leads to. *)
Inductive look := Finished | LookAgain | Sleep.
Definition look_at (appName : string) : M K app_error look :=
  let! r := attempt (getApplication ZCloudNamespace appName true) in
  match r with
  | Err (AKube KNotFound) => ret Sleep
  | Err _ => ret Finished
  | Ok app =>
      if String.eqb app.(ka_Status).(au_State) StateFailed then
        let! d := attempt (F := app_error) (deleteApplication ZCloudNamespace appName true) in
        match d with Ok _ => ret LookAgain | Err _ => ret Finished end
      else if String.eqb app.(ka_Status).(au_State) StateSucceed then ret Finished
      else ret LookAgain
  end.
(** [env] is what others do to the cluster before each look; a sleep is a longer one. *)
Fixpoint ensure_from (env : nat -> K -> K) (appName : string) (times : nat) : M K app_error unit :=
  match times with
  | O => ret tt
  | S times =>
      do! modify (env times) in
      let! o := look_at appName in
      match o with Finished => ret tt | _ => ensure_from env appName times end
  end.
Definition ensureApplicationSucceedOrDie (env : nat -> K -> K) (appName : string) : M K app_error unit :=
  ensure_from env appName sysApplicationCheckTimes.

(** ** Handlers *)

(** Every tool is created by the administrator. *)
Definition create_tool {A} (gen : option (A * Application)) (failed : api_error) (chartDir : path) (user : option string)
    (cluster appName storageClass : string) : M (gmap string K) api_error A :=
  if negb (isAdmin (getCurrentUser user)) then throw PermissionDenied
  else on_cluster NotFound cluster
    (let! made := lift (of_option failed gen) in
     do! createSysApplication chartDir user made.2 appName storageClass in
     ret made.1).
Definition get_tool {A} (show : K8sApplication -> option A) (appName : string) : M K api_error A :=
  let! app := rethrow (app_answer on_not_found ServerError) (getApplication ZCloudNamespace appName true) in
  lift (of_option ServerError (show app)).
(** No tool is answered with an empty list. *)
Definition list_tool {A} (show : K8sApplication -> option A) (appName cluster : string) : M (gmap string K) api_error (list A) :=
  on_cluster NotFound cluster
    (let! r := attempt (get_tool show appName) in
     match r with Ok a => ret [a] | Err NotFound => ret [] | Err e => throw e end).
Definition find_tool {A} (show : K8sApplication -> option A) (appName cluster id : string) : M (gmap string K) api_error A :=
  on_cluster NotFound cluster
    (do! guard (String.eqb id appName) NotFound in get_tool show appName).
Definition delete_tool (answer : app_error -> api_error) (appName cluster id : string) : M (gmap string K) api_error unit :=
  if negb (String.eqb id appName) then throw NotFound
  else on_cluster NotFound cluster (rethrow answer (deleteApplication ZCloudNamespace appName true)).

Definition CreateMonitor (chartDir : path) (user : option string) (cluster : ClusterNodes) (random : nat) (m : Monitor)
    : M (gmap string K) api_error Monitor :=
  let! m := create_tool (genMonitorApplication cluster random m) ConnectClusterFailed chartDir user cluster.(cn_Name) monitorAppName m.(mo_StorageClass) in
  ret (set_monitor monitorAppName m.(mo_IngressDomain) m).
Definition ListMonitor (cluster : string) := list_tool genRetrunMonitorFromApplication monitorAppName cluster.
Definition GetMonitor (cluster id : string) := find_tool genRetrunMonitorFromApplication monitorAppName cluster id.
Definition DeleteMonitor (cluster id : string) := delete_tool (app_answer on_not_found ServerError) monitorAppName cluster id.
Definition CreateRegistry (chartDir : path) (ca : CA) (user : option string) (cluster : ClusterNodes) (random : nat) (r : Registry)
    : M (gmap string K) api_error Registry :=
  let! r := create_tool (genRegistryApplication cluster random r ca) ConnectClusterFailed chartDir user cluster.(cn_Name) registryAppName r.(rg_StorageClass) in
  ret (set_registry registryAppName r.(rg_IngressDomain) r).
Definition ListRegistry (cluster : string) := list_tool genRetrunRegistryFromApplication registryAppName cluster.
Definition GetRegistry (cluster id : string) := find_tool genRetrunRegistryFromApplication registryAppName cluster id.
Definition DeleteRegistry (cluster id : string) := delete_tool (app_answer on_not_found ServerError) registryAppName cluster id.
Definition CreateEFK (chartDir : path) (user : option string) (cluster : ClusterNodes) (random : nat) (e : EFK)
    : M (gmap string K) api_error EFK :=
  let! e := create_tool (genEFKApplication cluster random e) ServerError chartDir user cluster.(cn_Name) efkAppName e.(ef_StorageClass) in
  ret (set_efk efkAppName e.(ef_IngressDomain) e).
Definition ListEFK (cluster : string) := list_tool genEFKFromApp efkAppName cluster.
Definition GetEFK (cluster id : string) := find_tool genEFKFromApp efkAppName cluster id.
Definition DeleteEFK (cluster id : string) := delete_tool (fun _ => ServerError) efkAppName cluster id.
End SystemApp.
