(* ===== verification/ApplicationLaws.v ===== *)
(** What the requests for applications and tools do to the objects of the application
    operator, and what is shown of a tool that was created. *)
From S2P Require Import Prelude KvStore GoStrings GoText Authorizer RestApi KubeApi Namespace PersistentVolume NetStorage Chart Application SystemApp.

(** The version of a cluster is read without a change of the objects. *)
Class VersionFrame (K A : Type) `{KubeKind K A} `{!KubeVersion K} : Prop :=
  frame_version k : same_kind A k (snd (ServerVersion k)).

Section Laws.
Context `{ChartText} `{Helm} `{SignedCertificates} `{ApplicationStates} `{Json Prometheus} `{Json Harbor} `{Json EFKConfig} (fs : FS)
  {K : Type} `{!KubeKind K K8sNamespace} `{!KubeKind K K8sApplication} `{!KubeKind K K8sStorageClass} `{!KubeVersion K}.
Context `{!KubeLaws K K8sNamespace} `{!KubeLaws K K8sApplication} `{!KubeFrame K K8sNamespace K8sApplication}
  `{!KubeFrame K K8sStorageClass K8sApplication} `{!KubeFrame K K8sStorageClass K8sNamespace} `{!VersionFrame K K8sApplication}.
Implicit Types (k : K) (ks : gmap string K) (app : Application) (o : K8sApplication).
#[local] Notation "'apps' k" := (kube_objects (Obj := K8sApplication) k) (at level 10, k at level 9).

#[local] Instance same_apps_preorder : PreOrder (same_kind (K := K) K8sApplication).
Proof. split; [done|]. unfold same_kind. intros k1 k2 k3 -> ->. done. Qed.

(** *** Single calls *)

Lemma getApplication_ok ns name system k r k' :
  getApplication ns name system k = (r, k') -> same_kind K8sApplication k k' /\
  match r with
  | Ok o => apps k !! (ns, name) = Some o /\ is_system_app o = system
  | Err (AKube KNotFound) => apps k !! (ns, name) = None
  | Err _ => True
  end.
Proof.
  intros Hg. unfold getApplication, bind, rethrow in Hg.
  destruct (kube_get ns name k) as [[o|e] k1] eqn:Hk; apply kube_get_law in Hk as [Hs Hk]; cbn [map_err] in Hg.
  - destruct (Bool.eqb (is_system_app o) system) eqn:He; cbn [guard ret throw] in Hg; injection Hg as <- <-; [|done].
    apply eqb_prop in He. by destruct Hk.
  - injection Hg as <- <-. by destruct e.
Qed.
Lemma same_hasNamespace {E} ns : keeps (same_kind K8sApplication) (hasNamespace (K := K) (E := E) ns).
Proof. unfold hasNamespace, getNamespace. apply keeps_bind; [apply keeps_attempt; intros k; apply frame_get|intros ?; apply keeps_ret]. Qed.
Lemma same_get ns name system : keeps (same_kind K8sApplication) (getApplication (K := K) ns name system).
Proof. intros k. destruct (getApplication ns name system k) as [r k'] eqn:Hg. apply (getApplication_ok _ _ _ _ _ _ Hg). Qed.

(** An object of the chart under a name that no other had, made of settings that the chart
    allows. *)
Definition placed (user : option string) (ns name : string) (dir : path) (app : Application) (system : bool) k k' : Prop :=
  exists o, apps k !! (ns, name) = None /\ apps k' = <[(ns, name) := o]> (apps k) /\ kube_key o = (ns, name) /\
    is_system_app o = system /\ o.(ka_Spec).(as_CreatedByAdmin) = isAdmin (getCurrentUser user) /\
    (forall c, app.(app_Configs) = Some c -> c <> "" -> o.(ka_Annotations) !! AnnKeyForAppConfigs = Some c) /\
    exists configs, parseChartConfigs fs (JoinPath dir [app.(app_ChartName); app.(app_ChartVersion)]) app.(app_Configs) = Ok configs.
Lemma createApplication_ok user ns dir app system k r k' :
  createApplication fs user ns dir app system k = (r, k') ->
  match r with
  | Ok _ => placed user ns app.(app_Name) dir app system k k'
  | Err _ => same_kind K8sApplication k k'
  end.
Proof.
  intros Hc. unfold createApplication in Hc.
  destruct (keeps_bind_inv _ _ _ _ _ _ Hc (same_hasNamespace ns)) as [(there & k1 & S1 & _ & Hc1)|[S1 Hr]]; [clear Hc; rename Hc1 into Hc|by destruct r].
  apply bind_guard_inv in Hc as [[_ Hc]|(_ & -> & ->)]; [|done].
  rewrite bind_attempt in Hc. destruct (getApplication _ _ _ k1) as [old k2] eqn:Hg. cbn [fst snd] in Hc.
  apply getApplication_ok in Hg as [S2 Hg].
  assert (S12 : same_kind K8sApplication k k2) by (etransitivity; [exact S1|exact S2]).
  destruct old as [o|[[]|]]; try (injection Hc as <- <-; exact S12). rewrite bind_ret_l in Hc.
  apply bind_lift_inv in Hc as [(info & _ & Hc)|(e & _ & -> & ->)]; [|done].
  apply bind_guard_inv in Hc as [[Hsys Hc]|(_ & -> & ->)]; [|done]. apply eqb_prop in Hsys.
  destruct (keeps_bind_inv _ _ _ _ _ _ Hc (keeps_rethrow _ _ frame_version)) as [(caps & k3 & S3 & _ & Hc1)|[S3 Hr]];
    [clear Hc; rename Hc1 into Hc|destruct r; [done|by etransitivity]].
  assert (S13 : same_kind K8sApplication k k3) by (etransitivity; [exact S12|exact S3]).
  apply bind_lift_inv in Hc as [(configs & Hconf & Hc)|(e & _ & -> & ->)]; [|done].
  apply bind_lift_inv in Hc as [(files & _ & Hc)|(e & _ & -> & ->)]; [|done].
  unfold bind, rethrow in Hc. destruct (kube_create _ k3) as [[o|e] k4] eqn:Hk; cbn [map_err] in Hc; injection Hc as <- <-;
    apply kube_create_law in Hk; [|destruct Hk; by etransitivity].
  destruct Hk as (Hkey & Hspec & Hn & Ho). unfold same_kind in S13. rewrite S13 in Ho, Hn.
  exists o. cbn [kube_key K8sApplication_object ka_Namespace ka_Name] in Hkey, Hn, Ho. split; [exact Hn|]. split; [exact Ho|]. split; [exact Hkey|].
  cbn [kube_spec K8sApplication_object ka_Annotations ka_Spec] in Hspec. injection Hspec as Hann Hspec.
  unfold is_system_app. rewrite Hspec, Hann. cbn [as_OwnerChart cr_SystemChart as_CreatedByAdmin]. split; [exact Hsys|]. split; [done|]. split; [|by exists configs].
  intros c -> Hne. destruct (String.eqb_spec c ""); [done|]. apply lookup_singleton_eq.
Qed.

(** The application is gone, or marked and as it was. *)
Definition removed (ns name : string) (system : bool) k k' : Prop :=
  exists o, apps k !! (ns, name) = Some o /\ is_system_app o = system /\
    (apps k' = delete (ns, name) (apps k) \/
     exists o', apps k' = <[(ns, name) := o']> (apps k) /\ kube_deleting o' = true /\ o'.(ka_Spec) = o.(ka_Spec)).
Lemma deleteApplication_ok ns name system k r k' :
  deleteApplication ns name system k = (r, k') ->
  match r with Ok _ => removed ns name system k k' | Err _ => same_kind K8sApplication k k' end.
Proof.
  intros Hd. unfold deleteApplication in Hd. apply bind_cases in Hd as [(o & k1 & Hg & Hd)|(e & Hg & ->)];
    apply getApplication_ok in Hg as [S1 Hg]; [|done].
  unfold rethrow in Hd. destruct (kube_delete ns name k1) as [[u|e] k2] eqn:Hk; cbn [map_err] in Hd; injection Hd as <- <-; apply kube_delete_law in Hk.
  - unfold same_kind in S1. rewrite S1 in Hk. destruct Hg as [Ho Hsys]. exists o. split; [done|]. split; [done|].
    destruct Hk as [Hk|(o' & Ho' & Hdel & _ & Hspec)]; [by left|]. right. exists o'. split; [done|]. split; [done|].
    rewrite Ho in Hspec. by injection Hspec as _ ->.
  - etransitivity; [exact S1|]. by destruct Hk.
Qed.

(** *** Requests *)

(** A request of a user, and one of the interface of a tool. *)
Inductive app_request :=
  | CreateApp (namespace : string) (app : Application) | DeleteApp (namespace name : string)
  | MonitorOn (random : nat) (m : Monitor) | RegistryOn (random : nat) (ca : CA) (r : Registry) | EFKOn (random : nat) (e : EFK)
  | MonitorOff (id : string) | RegistryOff (id : string) | EFKOff (id : string).
Definition serve (chartDir : path) (user : option string) (cluster : ClusterNodes) (rq : app_request) : M (gmap string K) api_error unit :=
  match rq with
  | CreateApp ns app => do! Application.Create fs chartDir user cluster.(cn_Name) ns app in ret tt
  | DeleteApp ns name => Application.Delete cluster.(cn_Name) ns name
  | MonitorOn random m => do! CreateMonitor fs chartDir user cluster random m in ret tt
  | RegistryOn random ca r => do! CreateRegistry fs chartDir ca user cluster random r in ret tt
  | EFKOn random e => do! CreateEFK fs chartDir user cluster random e in ret tt
  | MonitorOff id => DeleteMonitor cluster.(cn_Name) id
  | RegistryOff id => DeleteRegistry cluster.(cn_Name) id
  | EFKOff id => DeleteEFK cluster.(cn_Name) id
  end.
Definition tool_on {A} (gen : option (A * Application)) (chartDir : path) (user : option string) (name : string) k k' : Prop :=
  isAdmin (getCurrentUser user) = true /\
  exists made, gen = Some made /\ placed user ZCloudNamespace name (JoinPath chartDir [ZcloudChartDir]) made.2 true k k'.
Definition done_by (chartDir : path) (user : option string) (cluster : ClusterNodes) (rq : app_request) k k' : Prop :=
  match rq with
  | CreateApp ns app => exists chart, getChart fs chartDir app.(app_ChartName) false = Ok chart /\ placed user ns app.(app_Name) chart.(ch_Dir) app false k k'
  | DeleteApp ns name => removed ns name false k k'
  | MonitorOn random m => tool_on (genMonitorApplication cluster random m) chartDir user monitorAppName k k'
  | RegistryOn random ca r => tool_on (genRegistryApplication cluster random r ca) chartDir user registryAppName k k'
  | EFKOn random e => tool_on (genEFKApplication cluster random e) chartDir user efkAppName k k'
  | MonitorOff id => id = monitorAppName /\ removed ZCloudNamespace monitorAppName true k k'
  | RegistryOff id => id = registryAppName /\ removed ZCloudNamespace registryAppName true k k'
  | EFKOff id => id = efkAppName /\ removed ZCloudNamespace efkAppName true k k'
  end.

Lemma same_classes {E} name : keeps (same_kind K8sApplication) (isStorageClassOrDefaultExist (K := K) (E := E) name).
Proof.
  unfold isStorageClassOrDefaultExist. apply keeps_bind; [apply keeps_attempt|intros ?; apply keeps_ret]. unfold getStorageClasses.
  intros k. apply frame_list.
Qed.
Lemma createSysApplication_ok chartDir user app appName class k r k' :
  createSysApplication fs chartDir user app appName class k = (r, k') ->
  match r with
  | Ok _ => placed user ZCloudNamespace app.(app_Name) (JoinPath chartDir [ZcloudChartDir]) app true k k'
  | Err _ => same_kind K8sApplication k k'
  end.
Proof.
  intros Hc. unfold createSysApplication in Hc.
  destruct (keeps_bind_inv _ _ _ _ _ _ Hc (same_classes class)) as [(there & k1 & S1 & _ & Hc1)|[S1 Hr]]; [|by destruct r].
  apply bind_guard_inv in Hc1 as [[_ Hc1]|(_ & -> & ->)]; [|done]. unfold rethrow in Hc1.
  destruct (createApplication _ _ _ _ _ _ k1) as [r1 k2] eqn:Ha. apply createApplication_ok in Ha.
  destruct r1; cbn [map_err] in Hc1; injection Hc1 as <- <-; [|by etransitivity].
  unfold placed in *. unfold same_kind in S1. by rewrite S1 in Ha.
Qed.

(** What a request on a cluster does to it. *)
Definition acts {A} (missing : api_error) (cluster : string) (m : M (gmap string K) api_error A) (P : A -> K -> K -> Prop) : Prop :=
  forall ks r ks' k, m ks = (r, ks') -> ks !! cluster = Some k ->
    exists k', ks' = <[cluster := k']> ks /\ match r with Ok a => P a k k' | Err _ => same_kind K8sApplication k k' end.
Lemma acts_throw {A} missing cluster e P : acts (A := A) missing cluster (throw e) P.
Proof. intros ks r ks' k [= <- <-] Hk. exists k. by rewrite insert_id. Qed.
Lemma acts_on {A} missing cluster (m : M K api_error A) (P : A -> K -> K -> Prop) :
  (forall k r k', m k = (r, k') -> match r with Ok a => P a k k' | Err _ => same_kind K8sApplication k k' end) ->
  acts missing cluster (on_cluster missing cluster m) P.
Proof. intros Hm ks r ks' k Hs Hk. destruct (on_cluster_at _ _ _ _ _ _ _ Hs Hk) as (k' & Hr & ->). exists k'. split; [done|]. by apply Hm. Qed.
Lemma acts_weaken {A} missing cluster (m : M (gmap string K) api_error A) (P Q : A -> K -> K -> Prop) :
  acts missing cluster m P -> (forall a k k', P a k k' -> Q a k k') -> acts missing cluster m Q.
Proof. intros Hm HQ ks r ks' k Hr Hk. destruct (Hm _ _ _ _ Hr Hk) as (k' & -> & Hp). exists k'. destruct r; auto. Qed.
Lemma acts_then {A B} missing cluster (m : M (gmap string K) api_error A) (f : A -> B) (P : B -> K -> K -> Prop) :
  acts missing cluster m (fun a => P (f a)) -> acts missing cluster (let! a := m in ret (f a)) P.
Proof.
  intros Hm ks r ks' k Hr Hk. apply bind_cases in Hr as [(a & ks1 & Ha & [= <- <-])|(e & Ha & ->)];
    destruct (Hm _ _ _ _ Ha Hk) as (k' & -> & Hp); exists k'; auto.
Qed.

Lemma create_tool_acts {A} (gen : option (A * Application)) failed chartDir user cluster appName class :
  (forall a, gen = Some a -> a.2.(app_Name) = appName) ->
  acts NotFound cluster (create_tool fs gen failed chartDir user cluster appName class)
    (fun a k k' => fst <$> gen = Some a /\ tool_on gen chartDir user appName k k').
Proof.
  intros Hgen. unfold create_tool. destruct (isAdmin (getCurrentUser user)) eqn:Hu; [|apply acts_throw]. apply acts_on. intros k r k' Hr.
  apply bind_lift_inv in Hr as [(made & Hm & Hr)|(e & _ & -> & ->)]; [|done].
  destruct gen as [g|]; [|done]. injection Hm as ->. specialize (Hgen _ eq_refl).
  apply bind_cases in Hr as [(u & k1 & Hc & [= <- <-])|(e & Hc & ->)]; apply createSysApplication_ok in Hc; [|done].
  split; [done|]. split; [done|]. rewrite Hgen in Hc. by exists made.
Qed.
Lemma monitor_named cluster random m made : genMonitorApplication cluster random m = Some made -> made.2.(app_Name) = monitorAppName.
Proof. unfold genMonitorApplication. by destruct (genMonitorApplicationConfig _ _ _) as [[]|]; intros [= <-]. Qed.
Lemma registry_named cluster random ca rg made : genRegistryApplication cluster random rg ca = Some made -> made.2.(app_Name) = registryAppName.
Proof. unfold genRegistryApplication. by destruct (genRegistryApplicationConfig _ _ _ _) as [[]|]; intros [= <-]. Qed.
Lemma efk_named cluster random e made : genEFKApplication cluster random e = Some made -> made.2.(app_Name) = efkAppName.
Proof. unfold genEFKApplication. by destruct (genEFKConfigs _ _ _) as [[]|]; intros [= <-]. Qed.
Lemma delete_tool_acts answer appName cluster id :
  acts NotFound cluster (delete_tool (K := K) answer appName cluster id) (fun _ k k' => id = appName /\ removed ZCloudNamespace appName true k k').
Proof.
  unfold delete_tool. destruct (String.eqb_spec id appName) as [->|]; [|apply acts_throw]. apply acts_on. intros k r k' Hr. unfold rethrow in Hr.
  destruct (deleteApplication _ _ _ k) as [[u|e] k1] eqn:Hd; cbn [map_err] in Hr; injection Hr as <- <-; apply deleteApplication_ok in Hd; done.
Qed.


(** *** What is shown *)

Lemma get_tool_stored {A} (show : K8sApplication -> option A) name o a k r k' :
  get_tool show name k = (r, k') -> apps k !! (ZCloudNamespace, name) = Some o -> show o = Some a -> r = Ok a \/ r = Err ServerError.
Proof.
  intros Hg Ho Ha. unfold get_tool, bind, rethrow in Hg. destruct (getApplication _ _ _ k) as [[o'|e] k1] eqn:Hk; cbn [map_err] in Hg;
    apply getApplication_ok in Hk as [_ Hk].
  - destruct Hk as [Hk _]. assert (o' = o) as -> by congruence. rewrite Ha in Hg. injection Hg as <- _. by left.
  - destruct e as [[]|]; injection Hg as <- _; auto. congruence.
Qed.

Lemma create_tool_ready {A} (gen : option (A * Application)) failed chartDir user cluster appName class ks a ks' :
  create_tool fs gen failed chartDir user cluster appName class ks = (Ok a, ks') -> exists k, ks !! cluster = Some k.
Proof.
  unfold create_tool. destruct (isAdmin (getCurrentUser user)); [|done]. simpl negb. intros [(_ & ? & _)|(k & _ & Hk & _)]%on_cluster_inv; [done|by exists k].
Qed.
Lemma genIngressDomain_given cluster random domain name d : genIngressDomain cluster random domain name = Some d -> domain <> "" -> d = domain.
Proof. unfold genIngressDomain. destruct (String.eqb_spec domain ""); [done|]. by intros [= ->]. Qed.
Lemma genMonitorApplication_ok cluster random m made :
  genMonitorApplication cluster random m = Some made ->
  exists domain config, genIngressDomain cluster random m.(mo_IngressDomain) monitorAppName = Some domain /\
    marshal (mkPrometheus domain m.(mo_AdminPassword) m.(mo_StorageClass) m.(mo_StorageSize) m.(mo_PrometheusRetention)
               m.(mo_ScrapeInterval) m.(mo_StorageClass) true cluster.(cn_Etcd)) = Some config /\
    made = (set_monitor m.(mo_ID) domain m, new_application monitorAppName monitorChartName monitorChartVersion (Some config)).
Proof.
  unfold genMonitorApplication, genMonitorApplicationConfig. destruct (genIngressDomain _ _ _ _) as [d|]; [|done]. cbn [mbind option_bind].
  destruct (marshal _) as [c|] eqn:Hj; [|done]. intros [= <-]. eauto.
Qed.

(** The monitor that was created is the one that is shown, with its domain, storage,
    retention and interval, and without its password, unless the read fails. *)
Lemma monitor_shown `{!JsonLaws Prometheus} `{!JsonText Prometheus} chartDir user cluster random m m' ks ks1 r ks2 :
  CreateMonitor fs chartDir user cluster random m ks = (Ok m', ks1) -> GetMonitor cluster.(cn_Name) monitorAppName ks1 = (r, ks2) ->
  m'.(mo_ID) = monitorAppName /\ (m.(mo_IngressDomain) <> "" -> m'.(mo_IngressDomain) = m.(mo_IngressDomain)) /\
  match r with
  | Ok s => s = mkMonitor monitorAppName m'.(mo_IngressDomain) m.(mo_StorageClass) m.(mo_StorageSize) m.(mo_PrometheusRetention)
                  m.(mo_ScrapeInterval) "" ("http://" +:+ m'.(mo_IngressDomain)) s.(mo_Status) s.(mo_CreationTimestamp) s.(mo_DeletionTimestamp)
  | Err e => e = ServerError
  end.
Proof.
  intros Hc Hg. unfold CreateMonitor in Hc. apply bind_inv_ok in Hc as (a & ks0 & Hc & [= <- ->]).
  destruct (create_tool_ready _ _ _ _ _ _ _ _ _ _ Hc) as [k Hk].
  destruct (create_tool_acts _ _ _ _ _ _ _ (monitor_named cluster random m) _ _ _ _ Hc Hk) as (k1 & -> & Ha & _ & made & Hm & o & Hpl). clear Hc.
  rewrite Hm in Ha. injection Ha as <-. apply genMonitorApplication_ok in Hm as (domain & config & Hd & Hj & ->). cbn [fst snd] in *.
  split; [done|]. split; [intros Hne; by apply genIngressDomain_given in Hd|].
  destruct Hpl as (_ & Ho & _ & _ & _ & Hann & _). specialize (Hann config eq_refl ltac:(by intros ->; eapply json_not_empty)).
  apply on_cluster_at with (k := k1) in Hg as (k2 & Hg & _); [|apply lookup_insert_eq].
  apply bind_guard_inv in Hg as [[_ Hg]|[? _]]; [|done].
  eapply get_tool_stored in Hg; [|by rewrite Ho, lookup_insert_eq|];
    [|unfold genRetrunMonitorFromApplication, getAppConfigsFromAnnotations; rewrite Hann; cbn [mbind option_bind]; by erewrite json_round_trip].
  destruct Hg as [->| ->]; [|done]. reflexivity.
Qed.
End Laws.
