(* ===== verification/Usage.v ===== *)
(** How much of a cluster and of a namespace is in use (getClusterInfo of
    pkg/handler/cluster_manager.go, getNamespaceInfo of pkg/handler/namespace_manager.go and
    pkg/types/namespace.go). *)
From S2P Require Import Prelude KvStore GoStrings GoFloat ClusterTypes Authorizer RestApi KubeApi Namespace ConfigMap PodTemplate Workload Pod Node.

(** The figures of a cluster and of a namespace; Cpu is in thousandths. *)
Record Usage := mkUsage {
  us_Cpu : Z; us_CpuUsed : Z; us_CpuUsedRatio : string; us_Memory : Z; us_MemoryUsed : Z; us_MemoryUsedRatio : string;
  us_Pod : Z; us_PodUsed : Z; us_PodUsedRatio : string
}.
Definition no_usage : Usage := mkUsage 0 0 "" 0 0 "" 0 0 "".
(** PodCpuInfo and PodMemoryInfo: a pod and what it uses. *)
Record PodUsage := mkPodUsage { pu_Name : string; pu_Used : Z }.
Record NamespaceInfo := mkNamespaceInfo {
  ni_Namespace : Namespace; ni_Usage : Usage; ni_PodsUseMostCPU : list PodUsage; ni_PodsUseMostMemory : list PodUsage
}.
(** Who uses more comes first. *)
Definition by_usage (a b : PodUsage) : Prop := b.(pu_Used) <= a.(pu_Used).
#[export] Instance by_usage_dec a b : Decision (by_usage a b).
Proof. unfold by_usage. apply _. Defined.
Definition most (pods : list PodUsage) : list PodUsage := take 5 (merge_sort by_usage pods).

(** The sum in 64 bits. *)
Definition int64_sum : list Z -> Z := foldl (fun a b => int64 (a + b)) 0.
Definition ratio_of (used all : Z) : string := if 0 <? all then ratio used all else "".
Definition workers (nodes : list Node.Node) : list Node.Node := filter (fun n => has_role n.(no_Roles) RoleControlPlane = false) nodes.
Definition sum_of (f : Node.Node -> Z) (nodes : list Node.Node) : Z := int64_sum (f <$> workers nodes).
Definition nodes_usage (nodes : list Node.Node) : Usage :=
  let cpu := sum_of no_Cpu nodes in let cpuUsed := sum_of no_CpuUsed nodes in
  let memory := sum_of no_Memory nodes in let memoryUsed := sum_of no_MemoryUsed nodes in
  let pod := sum_of no_Pod nodes in let podUsed := sum_of no_PodUsed nodes in
  mkUsage cpu cpuUsed (ratio_of cpuUsed cpu) memory memoryUsed (ratio_of memoryUsed memory) pod podUsed (ratio_of podUsed pod).

(** The version of a cluster and, when they are known, the number and the use of its nodes. *)
Record ClusterInfo := mkClusterInfo { in_Version : string; in_Nodes : option (Z * Usage) }.
Class ServerVersions (K : Type) := GitVersion : M K kube_error string.
(** The metrics of the pods of a namespace: of each container the thousandths of a CPU and the
    bytes of memory. *)
Record PodMetrics := mkPodMetrics { pm_Name : string; pm_Containers : list (Z * Z) }.
Class PodMetricsApi (K : Type) := GetPodMetrics : string -> M K kube_error (list PodMetrics).

Section Usage.
Context `{Quantities} `{!QuantityValues} `{WorkloadText} `{LabelSelectors} `{!NodeReadiness} {K : Type} `{!KubeKind K K8sNode} `{!KubeKind K Pod.K8sPod}
  `{!NodeMetricsApi K} `{!ServerVersions K} `{!PodMetricsApi K} `{!KubeKind K K8sNamespace}.

Definition getClusterInfo {E} : M K E ClusterInfo :=
  let! version := attempt GitVersion in
  match version with
  | Err _ => ret (mkClusterInfo "" None)
  | Ok version =>
      let! nodes := attempt getNodes in
      match nodes with
      | Err _ => ret (mkClusterInfo version None)
      | Ok nodes => ret (mkClusterInfo version (Some (Z.of_nat (length nodes), nodes_usage nodes)))
      end
  end.

(** What can be had of the namespace is in the nodes, what is used in its pods. *)
Definition available (nodes : list Node.Node) : Usage :=
  mkUsage (sum_of no_Cpu nodes) 0 "" (sum_of no_Memory nodes) 0 "" (sum_of no_Pod nodes) 0 "".
Definition cpu_of (p : PodMetrics) : PodUsage := mkPodUsage p.(pm_Name) (int64_sum (fst <$> p.(pm_Containers))).
Definition memory_of (p : PodMetrics) : PodUsage := mkPodUsage p.(pm_Name) (int64_sum (snd <$> p.(pm_Containers))).
Definition pods_usage (pods : list PodMetrics) (u : Usage) : Usage :=
  let cpuUsed := int64_sum ((fun p => pu_Used (cpu_of p)) <$> pods) in
  let memoryUsed := int64_sum ((fun p => pu_Used (memory_of p)) <$> pods) in
  let podUsed := Z.of_nat (length pods) in
  mkUsage u.(us_Cpu) cpuUsed (ratio_of cpuUsed u.(us_Cpu)) u.(us_Memory) memoryUsed (ratio_of memoryUsed u.(us_Memory))
    u.(us_Pod) podUsed (ratio_of podUsed u.(us_Pod)).
Definition getNamespaceInfo (name : string) : M K kube_error NamespaceInfo :=
  let! ns := getNamespace name in
  let namespace := k8sNamespaceToSCNamespace ns in
  let! nodes := attempt getNodes in
  match nodes with
  | Err _ => ret (mkNamespaceInfo namespace no_usage [] [])
  | Ok nodes =>
      let! pods := attempt (GetPodMetrics name) in
      match pods with
      | Err _ => ret (mkNamespaceInfo namespace (available nodes) [] [])
      | Ok pods => ret (mkNamespaceInfo namespace (pods_usage pods (available nodes)) (most (cpu_of <$> pods)) (most (memory_of <$> pods)))
      end
  end.

(** NamespaceManager.Get.  A hidden namespace is answered with nothing; the text of every
    error asks the namespace that was not read for its name, which panics: [None]. *)
Definition Get {DB} (enableDebug : bool) (currentUser cluster id : string) : M (World DB K) (option api_error) (option NamespaceInfo) :=
  if negb (IsNamespaceVisiable id enableDebug) then ret None
  else
    do! on_client (Some NotFound) cluster (ret tt) in
    let! authorizer := gets w_authorizer in
    do! guard (Authorize currentUser cluster id authorizer) (Some Unauthorized) in
    let! info := on_client (Some NotFound) cluster (rethrow (fun _ => None) (getNamespaceInfo id)) in
    ret (Some info).
End Usage.

(** ** Facts *)

#[local] Instance by_usage_trans : Transitive by_usage.
Proof. intros a b c. unfold by_usage. lia. Qed.
#[local] Instance by_usage_total : Total by_usage.
Proof. intros a b. unfold by_usage. lia. Qed.

Lemma int64_mod z : exists q, int64 z = z + q * 2 ^ 64.
Proof. unfold int64. exists (- ((z + 2 ^ 63) / 2 ^ 64)). pose proof (Z.div_mod (z + 2 ^ 63) (2 ^ 64)). lia. Qed.
Lemma int64_add_l a b : int64 (int64 a + b) = int64 (a + b).
Proof.
  destruct (int64_mod a) as [q ->]. unfold int64. f_equal. replace (a + q * 2 ^ 64 + b + 2 ^ 63) with (a + b + 2 ^ 63 + q * 2 ^ 64) by lia.
  apply Z_mod_plus_full.
Qed.
Definition sum : list Z -> Z := foldr Z.add 0.
Lemma sum_cons x l : sum (x :: l) = x + sum l.
Proof. done. Qed.
Lemma int64_sum_from l z : foldl (fun a b => int64 (a + b)) (int64 z) l = int64 (z + sum l).
Proof.
  revert z. induction l as [|x l IH]; intros z; simpl; [by rewrite Z.add_0_r|]. rewrite int64_add_l, IH. f_equal. lia.
Qed.
(** The sum that wraps around at each step wraps around once. *)
Lemma int64_sum_eq l : int64_sum l = int64 (sum l).
Proof. unfold int64_sum. change 0 with (int64 0) at 1. by rewrite int64_sum_from. Qed.

Lemma most_spec pods :
  (length (most pods) <= 5)%nat /\ StronglySorted by_usage (most pods) /\
  exists rest, pods ≡ₚ most pods ++ rest /\ (rest = [] \/ length (most pods) = 5%nat) /\ forall a b, a ∈ most pods -> b ∈ rest -> by_usage a b.
Proof.
  unfold most. pose proof (StronglySorted_merge_sort by_usage pods) as Hs. pose proof (merge_sort_Permutation by_usage pods) as Hp.
  rewrite <- (take_drop 5 (merge_sort by_usage pods)) in Hs. apply StronglySorted_app in Hs as (Hcross & Hl & _).
  split; [rewrite length_take; lia|]. split; [done|]. exists (drop 5 (merge_sort by_usage pods)). rewrite take_drop. split; [done|].
  split; [|done]. rewrite length_take. destruct (decide (length (merge_sort by_usage pods) <= 5)%nat); [left; by apply drop_ge|right; lia].
Qed.

Section Laws.
Context `{Quantities} `{!QuantityValues} `{WorkloadText} `{LabelSelectors} `{!NodeReadiness} {K : Type} `{!KubeKind K K8sNode} `{!KubeKind K Pod.K8sPod}
  `{!NodeMetricsApi K} `{!ServerVersions K} `{!PodMetricsApi K} `{!KubeKind K K8sNamespace} `{!KubeLaws K K8sNamespace}.
Implicit Types (k : K) (u : Usage) (nodes : list Node.Node) (pods : list PodMetrics).

(** The nodes that do not belong to the control plane, and what of them is had. *)
Definition serving nodes : list Node.Node := filter (fun n => RoleControlPlane ∉ n.(no_Roles)) nodes.
Definition had nodes u : Prop :=
  u.(us_Cpu) = int64 (sum (no_Cpu <$> serving nodes)) /\ u.(us_Memory) = int64 (sum (no_Memory <$> serving nodes)) /\
  u.(us_Pod) = int64 (sum (no_Pod <$> serving nodes)).
(** Nothing is known of the use. *)
Definition unused (i : NamespaceInfo) : Prop :=
  i.(ni_PodsUseMostCPU) = [] /\ i.(ni_PodsUseMostMemory) = [] /\
  let u := i.(ni_Usage) in
  (u.(us_CpuUsed), u.(us_MemoryUsed), u.(us_PodUsed)) = (0, 0, 0) /\ (u.(us_CpuUsedRatio), u.(us_MemoryUsedRatio), u.(us_PodUsedRatio)) = ("", "", "").
(** The first are those that use most, at most five of them. *)
Definition biggest (all shown : list PodUsage) : Prop :=
  (length shown <= 5)%nat /\ StronglySorted by_usage shown /\
  exists rest, all ≡ₚ shown ++ rest /\ (rest = [] \/ length shown = 5%nat) /\ forall a b, a ∈ shown -> b ∈ rest -> by_usage a b.
Definition ratio_shown (shown : string) (part whole : Z) : Prop := (0 < whole -> shown = ratio part whole) /\ (whole <= 0 -> shown = "").
Definition used pods (i : NamespaceInfo) : Prop :=
  let u := i.(ni_Usage) in
  u.(us_CpuUsed) = int64 (sum ((fun p => sum (fst <$> p.(pm_Containers))) <$> pods)) /\
  u.(us_MemoryUsed) = int64 (sum ((fun p => sum (snd <$> p.(pm_Containers))) <$> pods)) /\
  u.(us_PodUsed) = Z.of_nat (length pods) /\
  ratio_shown u.(us_CpuUsedRatio) u.(us_CpuUsed) u.(us_Cpu) /\ ratio_shown u.(us_MemoryUsedRatio) u.(us_MemoryUsed) u.(us_Memory) /\
  ratio_shown u.(us_PodUsedRatio) u.(us_PodUsed) u.(us_Pod) /\
  biggest ((fun p => mkPodUsage p.(pm_Name) (int64 (sum (fst <$> p.(pm_Containers))))) <$> pods) i.(ni_PodsUseMostCPU) /\
  biggest ((fun p => mkPodUsage p.(pm_Name) (int64 (sum (snd <$> p.(pm_Containers))))) <$> pods) i.(ni_PodsUseMostMemory).
(** The figures, by what the reads after that of the namespace gave: only when the nodes cannot
    be read is nothing counted, and only when the metrics cannot be read is the use missing. *)
Definition accounted (id : string) k (i : NamespaceInfo) k' : Prop :=
  match getNodes k with
  | (Err _, k1) => k' = k1 /\ had [] i.(ni_Usage) /\ unused i
  | (Ok nodes, k1) =>
      had nodes i.(ni_Usage) /\
      match GetPodMetrics id k1 with
      | (Err _, k2) => k' = k2 /\ unused i
      | (Ok pods, k2) => k' = k2 /\ used pods i
      end
  end.

Lemma workers_serving nodes : workers nodes = serving nodes.
Proof.
  unfold workers, serving. induction nodes as [|n nodes IH]; [done|]. rewrite !filter_cons, IH.
  pose proof (has_role_elem n.(no_Roles) RoleControlPlane) as Hr.
  repeat case_decide; try done; exfalso; destruct (has_role _ _); naive_solver.
Qed.
Lemma sum_of_eq f nodes : sum_of f nodes = int64 (sum (f <$> serving nodes)).
Proof. unfold sum_of. by rewrite int64_sum_eq, workers_serving. Qed.
(** Of sums in 64 bits the sum is the sum of all, wrapped around once. *)
Lemma int64_sum_sums (f : PodMetrics -> list Z) pods : int64_sum ((fun p => int64_sum (f p)) <$> pods) = int64 (sum ((fun p => sum (f p)) <$> pods)).
Proof.
  rewrite int64_sum_eq. induction pods as [|p pods IH]; [done|]. rewrite !fmap_cons, !sum_cons, int64_sum_eq, int64_add_l.
  by rewrite Z.add_comm, <- int64_add_l, IH, int64_add_l, Z.add_comm.
Qed.
Lemma most_biggest (f : PodMetrics -> list Z) pods :
  biggest ((fun p => mkPodUsage p.(pm_Name) (int64 (sum (f p)))) <$> pods) (most ((fun p => mkPodUsage p.(pm_Name) (int64_sum (f p))) <$> pods)).
Proof.
  replace ((fun p => mkPodUsage p.(pm_Name) (int64 (sum (f p)))) <$> pods) with ((fun p => mkPodUsage p.(pm_Name) (int64_sum (f p))) <$> pods)
    by (apply list_fmap_ext; intros; by rewrite int64_sum_eq). apply most_spec.
Qed.
Lemma ratio_of_shown part whole : ratio_shown (ratio_of part whole) part whole.
Proof. unfold ratio_of. split; intros; case_match; (done || lia). Qed.

Lemma getNamespaceInfo_ok id k r k' :
  getNamespaceInfo id k = (r, k') ->
  match getNamespace id k with
  | (Err e, k1) => r = Err e /\ k' = k1
  | (Ok o, k1) => exists i, r = Ok i /\ i.(ni_Namespace) = k8sNamespaceToSCNamespace o /\ accounted id k1 i k'
  end.
Proof.
  intros Hg. unfold getNamespaceInfo, accounted in *. apply bind_cases in Hg as [(o & k1 & -> & Hg)|(e & -> & ->)]; [|done].
  rewrite bind_attempt in Hg. destruct (getNodes k1) as [[nodes|e] k2]; cbn [fst snd] in Hg; [|injection Hg as <- <-; by eexists].
  assert (Hh : forall used, had nodes (pods_usage used (available nodes))) by (split; [|split]; apply sum_of_eq).
  rewrite bind_attempt in Hg. destruct (GetPodMetrics id k2) as [[pods|e] k3]; cbn [fst snd] in Hg; injection Hg as <- <-; eexists;
    (split; [done|]); (split; [done|]); (split; [apply (Hh [])|]); (split; [done|]); [|done].
  split; [apply int64_sum_sums|]. split; [apply int64_sum_sums|]. split; [done|].
  split; [apply ratio_of_shown|]. split; [apply ratio_of_shown|]. split; [apply ratio_of_shown|]. split; apply most_biggest.
Qed.

(** C31. What is shown of a namespace: nothing of one that is hidden; of another, to who may act
    in it, the sums over the nodes it can have, those not of the control plane, and over the
    containers of the pods it has, wrapped around once, and at most five pods, the ones that use
    most.  The figures are missing exactly where a read fails: all of them when the nodes, those
    of the use when the metrics cannot be read; and the request panics exactly when the
    namespace itself cannot be read. *)
Theorem namespace_accounts {DB} enableDebug user cluster id (w : World DB K) r w' :
  Get enableDebug user cluster id w = (r, w') ->
  if IsNamespaceVisiable id enableDebug then
    match w.(w_clusters) !! cluster with
    | None => r = Err (Some NotFound) /\ w' = w
    | Some k =>
        if Authorize user cluster id w.(w_authorizer) then
          exists k', w' = set_clusters (<[cluster := k']> w.(w_clusters)) w /\
            match getNamespace id k with
            | (Err _, k1) => r = Err None /\ k' = k1
            | (Ok o, k1) =>
                kube_objects (Obj := K8sNamespace) k !! ("", id) = Some o /\
                exists i, r = Ok (Some i) /\ i.(ni_Namespace) = k8sNamespaceToSCNamespace o /\ accounted id k1 i k'
            end
        else r = Err (Some Unauthorized) /\ w' = w
    end
  else r = Ok None /\ w' = w.
Proof.
  intros Hg. unfold Get in Hg. destruct (IsNamespaceVisiable id enableDebug); simpl negb in Hg; [|by injection Hg as <- <-].
  apply bind_cases in Hg as [(u & w1 & Hc & Hg)|(e & Hc & ->)]; apply on_client_inv in Hc as [(Hn & He & ->)|(k & k1 & Hk & [= ? <-] & ->)];
    [done| |rewrite Hn; by injection He as ->].
  rewrite bind_gets in Hg. change (w_authorizer (set_clusters _ w)) with (w_authorizer w) in Hg. rewrite Hk.
  assert (Hw : set_clusters (<[cluster := k]> (w_clusters w)) w = w) by (rewrite insert_id by done; by destruct w). rewrite Hw in Hg.
  apply bind_guard_inv in Hg as [[-> Hg]|(-> & -> & ->)]; [|done].
  assert (Hi : exists ri k', getNamespaceInfo id k = (ri, k') /\ w' = set_clusters (<[cluster := k']> (w_clusters w)) w /\
            r = match ri with Ok i => Ok (Some i) | Err _ => Err None end).
  { apply bind_cases in Hg as [(i & w2 & Hi & [= <- <-])|(e & Hi & ->)];
      apply on_client_inv in Hi as [(Hn & He & ->)|(k2 & k3 & Hk2 & Hi & ->)]; try congruence; assert (k2 = k) as -> by congruence;
      unfold rethrow in Hi; destruct (getNamespaceInfo id k) as [[j|e'] k4]; cbn [map_err] in Hi; try done; injection Hi as <- <-; eauto. }
  destruct Hi as (ri & k' & Hi & -> & ->). exists k'. split; [done|]. apply getNamespaceInfo_ok in Hi.
  destruct (getNamespace id k) as [[o|e] k1] eqn:Ho; [|by destruct Hi as [-> ->]].
  unfold getNamespace in Ho. apply kube_get_law in Ho as [_ [Ho _]]. split; [done|]. destruct Hi as (i & -> & Hi). eauto.
Qed.
End Laws.
