(* ===== verification/ClusterHandler.v ===== *)
(** The handlers of clusters (pkg/handler/cluster_manager.go): who may ask the manager of
    clusters for what, and what is shown of a cluster. *)
From S2P Require Import Prelude KvStore GoStrings GoFloat ClusterTypes ClusterValidation ClusterState ClusterManager ClusterSafety Authorizer RestApi KubeApi.
From S2P Require Import ConfigMap PodTemplate Workload Pod Node StorageTypes StorageCluster Usage.

(** types.CSCancelAction. *)
Definition CSCancelAction : string := "cancel".
(** Every request, with the time it is made; the flag onlyready of a list. *)
Inductive cluster_request :=
  | CreateRequest (c : Cluster) | UpdateRequest (c : Cluster) | DeleteRequest (id : string) | ActionRequest (id action : string)
  | GetRequest (id : string) | ListRequest (onlyready : string).
(** What is shown: a cluster, and what its client told. *)
Record ShownCluster := mkShown { sh_Cluster : Cluster; sh_Info : option ClusterInfo }.
Inductive cluster_answer := Shown (l : list ShownCluster) | Done.
(** [HZke]: as the manager answers. *)
Inductive handler_error := HZke (e : ApiError) | HApi (e : api_error).

Section ClusterHandler.
Context `{ZkeCore} {DB : Type} `{KvTable DB} `{Json clusterState} `{FsmEngine} `{NodeListener} {ADB : Type}.
Context `{Quantities} `{!QuantityValues} `{WorkloadText} `{LabelSelectors} `{!NodeReadiness} {K : Type} `{!KubeKind K K8sNode} `{!KubeKind K Pod.K8sPod}
  `{!NodeMetricsApi K} `{!ServerVersions K}.

(** ClusterManager: the manager of package zke, the permissions, and the client of each
    cluster that has one. *)
Record Handlers := mkHandlers { h_zke : World (DB := DB); h_authorizer : Authorizer ADB; h_kube : gmap string K }.
Definition set_zke (w : World) (h : Handlers) : Handlers := mkHandlers w h.(h_authorizer) h.(h_kube).
Definition set_kube (ks : gmap string K) (h : Handlers) : Handlers := mkHandlers h.(h_zke) h.(h_authorizer) ks.
Definition zke {A} (m : M World ApiError A) : M Handlers handler_error A := rethrow HZke (zoom h_zke set_zke m).
Definition only_admin {A} (user : string) (m : M Handlers handler_error A) : M Handlers handler_error A :=
  do! guard (isAdmin user) (HApi PermissionDenied) in m.

Definition Create (now : Z) (user : string) (c : Cluster) : M Handlers handler_error cluster_answer :=
  only_admin user (let! c := zke (ClusterManager.Create now c) in ret (Shown [mkShown c None])).
Definition Update (user : string) (c : Cluster) : M Handlers handler_error cluster_answer :=
  only_admin user (let! c := zke (ClusterManager.Update c) in ret (Shown [mkShown c None])).
Definition Delete (now : Z) (user id : string) : M Handlers handler_error cluster_answer :=
  only_admin user (do! zke (ClusterManager.Delete now id) in ret Done).
Definition Action (user id action : string) : M Handlers handler_error cluster_answer :=
  only_admin user (if String.eqb action CSCancelAction then do! zke (CancelCluster id) in ret Done else ret Done).
(** A ready cluster without a client would be a nil dereference. *)
Definition Get (user id : string) : M Handlers handler_error cluster_answer :=
  let! authorizer := gets h_authorizer in
  do! guard (Authorize user id "" authorizer) (HApi Unauthorized) in
  let! found := zke (ClusterManager.Get id) in
  match found with
  | None => throw (HApi NotFound)
  | Some l =>
      let! c := zke (cluster l) in
      if IsReady c then
        let! info := rethrow HZke (zoom h_kube set_kube (on_cluster EPanic id getClusterInfo)) in
        ret (Shown [mkShown (ToScCluster c) (Some info)])
      else ret (Shown [mkShown (ToScCluster c) None])
  end.
Definition show_clusters (user : string) (onlyready : bool) (heap : list ZCluster) (authorizer : Authorizer ADB) (locs : list nat) : list ShownCluster :=
  omap (fun l : nat =>
    c ← heap !! l;
    if Authorize user c.(zl_Name) "" authorizer && (negb onlyready || IsReady c) then Some (mkShown (ToScCluster c) None) else None) locs.
Definition List (user onlyready : string) : M Handlers handler_error cluster_answer :=
  let! locs := zke ClusterManager.List in
  gets (fun h => Shown (show_clusters user (String.eqb onlyready "true") h.(h_zke).(w_heap) h.(h_authorizer) locs)).
Definition serve (now : Z) (ctx : option string) (rq : cluster_request) : M Handlers handler_error cluster_answer :=
  let user := getCurrentUser ctx in
  match rq with
  | CreateRequest c => Create now user c
  | UpdateRequest c => Update user c
  | DeleteRequest id => Delete now user id
  | ActionRequest id action => Action user id action
  | GetRequest id => Get user id
  | ListRequest onlyready => List user onlyready
  end.

(** StorageNodeListener.IsStorageNode, which the validation of an update asks: an error passes
    for a storage node in the first of its results and is reported in the second. *)
Context `{!KubeKind K K8sStorageCluster}.
Definition IsStorageNode (node : string) : M K kube_error bool :=
  let! storageClusters := getStorageClusters in
  ret (existsb (fun s => existsb (String.eqb node) s.(sk_Hosts)) storageClusters).
End ClusterHandler.

Section Laws.
Context `{ZkeCore} {DB : Type} `{KvTable DB} `{Json clusterState} `{FsmEngine} `{NodeListener} {ADB : Type}.
Context `{Quantities} `{!QuantityValues} `{WorkloadText} `{LabelSelectors} `{!NodeReadiness} {K : Type} `{!KubeKind K K8sNode} `{!KubeKind K Pod.K8sPod}
  `{!NodeMetricsApi K} `{!ServerVersions K}.
Abbreviation state := (Handlers (DB := DB) (ADB := ADB) (K := K)).
Implicit Types (h : state).

(** What is asked of the manager, when it may be asked. *)
Definition manager (now : Z) (rq : cluster_request) : M (World (DB := DB)) ApiError unit :=
  match rq with
  | CreateRequest c => do! ClusterManager.Create now c in ret tt
  | UpdateRequest c => do! ClusterManager.Update c in ret tt
  | DeleteRequest id => ClusterManager.Delete now id
  | ActionRequest id action => if String.eqb action CSCancelAction then CancelCluster id else ret tt
  | GetRequest _ | ListRequest _ => ret tt
  end.
Definition is_read (rq : cluster_request) : bool := match rq with GetRequest _ | ListRequest _ => true | _ => false end.
Definition err_of {E A} (r : result E A) : option E := match r with Ok _ => None | Err e => Some e end.
(** A cluster of the manager that the user may see; no key of it is shown. *)
Definition visible (user : string) h (s : ShownCluster) : Prop :=
  exists l c, l ∈ h.(h_zke).(w_clusters) /\ h.(h_zke).(w_heap) !! l = Some c /\ Authorize user c.(zl_Name) "" h.(h_authorizer) = true /\
    s.(sh_Cluster) = ToScCluster c /\ s.(sh_Cluster).(cl_SSHKey) = "" /\ s.(sh_Cluster).(cl_LoadBalance) = empty_lb.

Lemma zke_inv {A} (m : M World ApiError A) h r h' :
  zke m h = (r, h') -> h' = set_zke (snd (m h.(h_zke))) h /\ r = map_err HZke (fst (m h.(h_zke))).
Proof. unfold zke, rethrow, zoom. destruct (m (h_zke h)) as [ra w]. by intros [= <- <-]. Qed.
(** A request of the administrator goes to the manager, and its error comes back. *)
Lemma only_admin_inv {A} user (m : M World ApiError A) (f : A -> cluster_answer) h r h' :
  only_admin user (let! a := zke m in ret (f a)) h = (r, h') ->
  (user <> Administrator /\ r = Err (HApi PermissionDenied) /\ h' = h) \/
  (user = Administrator /\ h' = set_zke (snd (m h.(h_zke))) h /\ err_of r = HZke <$> err_of (fst (m h.(h_zke)))).
Proof.
  intros Hm. unfold only_admin in Hm. apply bind_guard_inv in Hm as [[Hu Hm]|(Hu & -> & ->)]; [right; apply isAdmin_iff in Hu; split; [done|]|].
  - apply bind_cases in Hm as [(a & h1 & Hz & [= <- <-])|(e & Hz & ->)]; apply zke_inv in Hz as [-> Hz]; (split; [done|]);
      destruct (fst (m (h_zke h))); simplify_eq/=; done.
  - left. split; [|done]. by intros ->.
Qed.
Lemma dropped {S E A} (m : M S E A) s : snd ((do! m in ret tt) s) = snd (m s) /\ err_of (fst ((do! m in ret tt) s)) = err_of (fst (m s)).
Proof. unfold bind. by destruct (m s) as [[] ?]. Qed.
Lemma show_clusters_spec user onlyready heap a locs s :
  s ∈ show_clusters user onlyready heap a locs <->
  exists (l : nat) c, l ∈ locs /\ heap !! l = Some c /\ Authorize (DB := ADB) user c.(zl_Name) "" a = true /\ (onlyready = true -> IsReady c = true) /\ s = mkShown (ToScCluster c) None.
Proof.
  unfold show_clusters. rewrite list_elem_of_omap. split.
  - intros (l & Hl & Hs). destruct (heap !! l) as [c|] eqn:Hc; [|done]. cbn [mbind option_bind] in Hs.
    destruct (Authorize user (zl_Name c) "" a) eqn:Ha; [|done]. destruct (negb onlyready || IsReady c) eqn:Hr; [|done]. injection Hs as <-.
    exists l, c. split; [done|]. split; [done|]. split; [done|]. split; [|done]. by intros ->.
  - intros (l & c & Hl & Hc & Ha & Hr & ->). exists l. split; [done|]. rewrite Hc. cbn [mbind option_bind]. rewrite Ha. destruct onlyready; [by rewrite Hr|done].
Qed.

Lemma Get_ok user id h r h' :
  Get user id h = (r, h') ->
  h'.(h_authorizer) = h.(h_authorizer) /\ h'.(h_zke) = h.(h_zke) /\ forall shown, r = Ok (Shown shown) -> forall s, s ∈ shown -> visible user h s.
Proof.
  intros Hg. unfold Get in Hg. rewrite bind_gets in Hg. apply bind_guard_inv in Hg as [[Ha Hg]|(_ & -> & ->)]; [|done].
  apply bind_cases in Hg as [(found & h1 & Hz & Hg)|(e & Hz & ->)]; apply zke_inv in Hz as [-> Hz]; [|by destruct h].
  assert (Hh : set_zke (snd (ClusterManager.Get id (h_zke h))) h = h) by by destruct h. rewrite Hh in Hg. injection Hz as ->.
  destruct (find_cluster (h_zke h) id) as [l|] eqn:Hl; [|by injection Hg as <- <-].
  apply find_cluster_Some in Hl as (Hl & c & Hc & <-).
  apply bind_cases in Hg as [(c' & h2 & Hz & Hg)|(e & Hz & ->)]; apply zke_inv in Hz as [-> Hz]; unfold cluster, bind, gets in Hz; rewrite Hc in Hz; [|done].
  assert (Hh2 : set_zke (snd (cluster l (h_zke h))) h = h) by (unfold cluster, bind, gets; rewrite Hc; by destruct h). rewrite Hh2 in Hg.
  injection Hz as ->. assert (Hv : visible user h (mkShown (ToScCluster c) None)) by by exists l, c.
  destruct (IsReady c).
  - apply bind_cases in Hg as [(info & h3 & Hi & [= <- <-])|(e & Hi & ->)]; unfold rethrow, zoom in Hi; destruct (on_cluster _ _ _ _); injection Hi as ? <-;
      (split; [done|]; split; [done|]); [|done]. by intros shown [= <-] s ->%list_elem_of_singleton.
  - injection Hg as <- <-. split; [done|]. split; [done|]. by intros shown [= <-] s ->%list_elem_of_singleton.
Qed.

(** C4. Only the administrator creates, updates, deletes or cancels a cluster: everybody else
    is refused and nothing changes, and the administrator gets what the manager answers.
    Reading changes neither the manager nor the permissions; what is shown are clusters of
    the manager that the user has some project in, without keys and passwords, and a list
    that is not restricted shows all of these. *)
Theorem cluster_requests_guarded now ctx rq (h : state) r (h' : state) :
  serve now ctx rq h = (r, h') ->
  let user := getCurrentUser ctx in
  h'.(h_authorizer) = h.(h_authorizer) /\
  if is_read rq then
    h'.(h_zke) = h.(h_zke) /\
    forall shown, r = Ok (Shown shown) -> (forall s, s ∈ shown -> visible user h s) /\
      forall s, rq = ListRequest "" -> visible user h s -> exists s', s' ∈ shown /\ s'.(sh_Cluster) = s.(sh_Cluster)
  else (user <> Administrator /\ r = Err (HApi PermissionDenied) /\ h' = h) \/
    (user = Administrator /\ h' = set_zke (snd (manager now rq h.(h_zke))) h /\ err_of r = HZke <$> err_of (fst (manager now rq h.(h_zke)))).
Proof.
  intros Hs user. destruct rq as [c|c|id|id action|id|onlyready]; cbn [serve is_read manager] in *.
  - unfold Create in Hs. apply only_admin_inv in Hs as [(Hu & -> & ->)|(Hu & -> & He)]; [auto|]. split; [done|]. right.
    destruct (dropped (ClusterManager.Create now c) h.(h_zke)) as [-> ->]. by auto.
  - unfold Update in Hs. apply only_admin_inv in Hs as [(Hu & -> & ->)|(Hu & -> & He)]; [auto|]. split; [done|]. right.
    destruct (dropped (ClusterManager.Update c) h.(h_zke)) as [-> ->]. by auto.
  - unfold Delete in Hs. apply only_admin_inv in Hs as [(Hu & -> & ->)|(Hu & -> & He)]; by auto.
  - unfold Action in Hs. destruct (String.eqb action CSCancelAction); [apply only_admin_inv in Hs as [(Hu & -> & ->)|(Hu & -> & He)]; auto|].
    unfold only_admin in Hs. apply bind_guard_inv in Hs as [[Hu [= <- <-]]|(Hu & -> & ->)]; (split; [done|]).
    + right. apply isAdmin_iff in Hu. by destruct h.
    + left. split; [|done]. intros Hu2. unfold user in Hu2. by rewrite Hu2 in Hu.
  - apply Get_ok in Hs as (Ha & Hz & Hs). split; [done|]. split; [done|]. intros shown Hr. split; [by apply Hs|done].
  - injection Hs as <- <-. split; [by destruct h|]. split; [by destruct h|]. intros shown [= <-]. split.
    + intros s (l & c & Hl & Hc & Hu & _ & ->)%show_clusters_spec. by exists l, c.
    + intros s [= ->] (l & c & Hl & Hc & Hu & Hsh & _). exists (mkShown (ToScCluster c) None). split; [|done].
      apply show_clusters_spec. exists l, c. by auto 10.
Qed.
End Laws.

(** No node is shown with the role that etcd has, so that nobody finds the addresses of etcd:
    the endpoints that are set up for the monitor are none. *)
Lemma no_etcd_addresses (c : ZCluster) : GetNodeIpsByRole c RoleEtcd = [].
Proof.
  unfold GetNodeIpsByRole. rewrite filter_none; [done|]. intros n Hn. cbn in Hn. apply list_elem_of_fmap in Hn as (z & -> & _).
  apply Is_true_false_2, HasRole_false. cbn. unfold sc_roles. rewrite list_elem_of_filter. by intros [? _].
Qed.
