(* ===== verification/Streams.v ===== *)
(** Logs that are sent over web sockets (pkg/handler/pod_log.go and workflowtask_log.go,
    pkg/zke/zkelog/service.go): what is written to the socket, and when it ends. *)
From S2P Require Import Prelude GoStrings GoText RestApi KubeApi ConfigMap Secret PersistentVolume PodTemplate Workload Deployment WorkFlow FluentBit.

(** ** A socket and a scanner *)

(** What was written; after [so_room] more messages, when there is a limit, writing fails. *)
Record Socket := mkSocket { so_sent : list string; so_room : option nat }.
(** [EndOfFile], and every other failure of a stream or of the socket. *)
Inductive stream_error := EndOfFile | Broken.
#[export] Instance stream_error_eq_dec : EqDecision stream_error.
Proof. solve_decision. Defined.
Definition WriteMessage (text : string) : M Socket stream_error unit := fun s =>
  match s.(so_room) with
  | Some O => (Err Broken, s)
  | Some (S n) => (Ok tt, mkSocket (s.(so_sent) ++ [text]) (Some n))
  | None => (Ok tt, mkSocket (s.(so_sent) ++ [text]) None)
  end.
(** bufio.Scanner: the lines, the last one if it is not empty, without the carriage return at
    their end, up to the first that does not fit into the buffer. *)
Definition MaxScanTokenSize : Z := 64 * 1024.
Definition carriage_return : string := String (ascii_of_N 13) "".
Fixpoint take_lines (l : list string) : list string :=
  match l with
  | [] => []
  | [""] => []
  | line :: l => if Z.of_nat (String.length line) <? MaxScanTokenSize then TrimSuffix line carriage_return :: take_lines l else []
  end.
Definition Scan (content : string) : list string := take_lines (Split newline_byte content).

(** The loop ends at the first write that fails. *)
Fixpoint write_all (lines : list string) : M Socket stream_error unit :=
  match lines with
  | [] => ret tt
  | line :: lines => do! WriteMessage line in write_all lines
  end.

(** ** Logs of pods *)

(** corev1.PodLogOptions, as far as they are used. *)
Record PodLogOptions := mkLogOptions { lo_Container : string; lo_Follow : bool; lo_Timestamps : bool; lo_TailLines : Z }.
Definition MaxLineCountFromTail : Z := 1000.
(** The content of the log of a pod, by namespace, name and options. *)
Class PodLogs (K : Type) := pod_log : string -> string -> PodLogOptions -> M K stream_error string.
(** A state that consists of a cluster and a socket. *)
Definition on_kube {K E A} (m : M K E A) : M (K * Socket) E A := zoom fst (fun k s => (k, s.2)) m.
Definition on_socket {K E A} (m : M Socket E A) : M (K * Socket) E A := zoom snd (fun k s => (s.1, k)) m.

Section PodLog.
Context {K : Type} `{!PodLogs K}.
(** The first request reads eight bytes, and ends if there are less. *)
Definition openPodLog (namespace pod container : string) : M K stream_error string :=
  let! oneline := pod_log namespace pod (mkLogOptions container false false 1) in
  do! guard (8 <=? Z.of_nat (String.length oneline)) EndOfFile in
  pod_log namespace pod (mkLogOptions container true true MaxLineCountFromTail).
Definition OpenPodLog (namespace pod container : string) : M (K * Socket) stream_error unit :=
  let! content := on_kube (openPodLog namespace pod container) in on_socket (write_all (Scan content)).
End PodLog.

(** ** The log of the creation of a cluster *)

(** OpenLog: a socket that could not be opened is reported, used and closed, which panics. *)
Inductive log_outcome := LogClosed | LogPanic | NoWatcher.
Definition OpenLog (watched : bool) (socket : option Socket) (lines : list string) : log_outcome * option Socket :=
  if negb watched then (NoWatcher, socket)
  else match socket with
       | None => (LogPanic, None)
       | Some s => (LogClosed, Some (snd (write_all lines s)))
       end.

(** ** Logs of tasks *)

Definition workFlowTaskLogRetries : nat := 6.
(** workFlowTaskContainer: a pod and a container. *)
Definition Container : Type := string * string.
Definition task_containers (t : WorkFlowTask) : list Container :=
  t.(wt_SubTasks) ≫= (fun task : WorkFlowSubTask =>
    if negb (String.eqb task.(sb_PodName) "") then (fun c => (task.(sb_PodName), c)) <$> task.(sb_Containers) else []).
Definition getUnreadWorkFlowContainers (readed all : list Container) : list Container := filter (fun c => c ∉ readed) all.

Section TaskLog.
Context `{WorkFlowText} {K : Type} `{!KubeKind K PipelineRun} `{!PodLogs K}.

Definition openWorkFlowContainerLog (namespace : string) (c : Container) : M K stream_error string :=
  pod_log namespace c.1 (mkLogOptions c.2 true true MaxLineCountFromTail).
Definition header (t container : string) : string := t +:+ " ========" +:+ container +:+ "========".
(** Every run ends with an error; the end of the log is one. [t] is the time. *)
Definition readWorkFlowContainerLogToWs (t namespace : string) (c : Container) : M (K * Socket) stream_error unit :=
  let! content := on_kube (openWorkFlowContainerLog namespace c) in
  do! on_socket (WriteMessage (header t c.2)) in
  do! on_socket (write_all (Scan content)) in throw EndOfFile.
Definition getNewWorkFlowContainers (namespace task : string) : M K workflow_error (list Container) :=
  let! wft := getWorkFlowTask namespace task in ret (task_containers wft).
(** The containers that are read in a round; [None]: the request ends. *)
Fixpoint read_round (t namespace : string) (unread readed : list Container) : M (K * Socket) stream_error (list Container) :=
  match unread with
  | [] => ret readed
  | c :: unread =>
      let! r := attempt (readWorkFlowContainerLogToWs t namespace c) in
      match r with
      | Err EndOfFile => read_round t namespace unread (readed ++ [c])
      | Err Broken => throw Broken
      | Ok _ => read_round t namespace unread readed
      end
  end.
(** A round of the loop: [env] is what others do to the cluster before it, after a wait or
    after logs were read; [times] is the text of the time. *)
Inductive task_outcome := TaskEnded | TaskFailed | TaskGoesOn (readed : list Container) (retry : nat).
Definition task_round (t namespace task : string) (readed : list Container) (retry : nat) : M (K * Socket) stream_error task_outcome :=
  let! r := attempt (E := stream_error) (rethrow (fun _ => Broken) (on_kube (getNewWorkFlowContainers namespace task))) in
  match r with
  | Err _ => ret TaskFailed
  | Ok all =>
      match getUnreadWorkFlowContainers readed all with
      | [] =>
          if (retry <? workFlowTaskLogRetries)%nat then ret (TaskGoesOn readed (S retry))
          else do! attempt (E := stream_error) (F := stream_error) (on_socket (WriteMessage (t +:+ " ========End========"))) in ret TaskEnded
      | unread =>
          let! r := attempt (E := stream_error) (read_round t namespace unread readed) in
          match r with Ok readed => ret (TaskGoesOn readed retry) | Err _ => ret TaskFailed end
      end
  end.
Fixpoint task_rounds (env : nat -> K -> K) (times : nat -> string) (namespace task : string) (rounds : nat) (readed : list Container) (retry : nat)
    : M (K * Socket) stream_error task_outcome :=
  match rounds with
  | O => ret (TaskGoesOn readed retry)
  | S rounds =>
      do! modify (fun s => (env rounds s.1, s.2)) in
      let! o := task_round (times rounds) namespace task readed retry in
      match o with TaskGoesOn readed retry => task_rounds env times namespace task rounds readed retry | _ => ret o end
  end.
Definition OpenWorkFlowTaskLog (env : nat -> K -> K) (times : nat -> string) (namespace task : string) (rounds : nat)
    : M (K * Socket) stream_error task_outcome :=
  let! r := attempt (E := stream_error) (rethrow (fun _ => Broken) (on_kube (getWorkFlowTask namespace task))) in
  match r with Err _ => ret TaskFailed | Ok _ => task_rounds env times namespace task rounds [] 0 end.
End TaskLog.

(** ** The log of a task ends *)

Section Facts.
Context `{WorkFlowText} {K : Type} `{!KubeKind K PipelineRun} `{!PodLogs K}.
Definition distinct (readed : list Container) : nat := size (list_to_set readed : gset Container).
Implicit Types (s : K * Socket).

Lemma read_round_ok t namespace unread readed s r s' :
  read_round t namespace unread readed s = (r, s') -> forall readed', r = Ok readed' -> readed' = readed ++ unread.
Proof.
  revert readed s. induction unread as [|c unread IH]; intros readed s Hr readed' ->; cbn [read_round] in Hr.
  - injection Hr as <- _. by rewrite app_nil_r.
  - rewrite bind_attempt in Hr. destruct (readWorkFlowContainerLogToWs t namespace c s) as [[[]|[]] s1] eqn:Hc; cbn [fst snd] in Hr.
    + exfalso. unfold readWorkFlowContainerLogToWs in Hc. apply bind_inv_ok in Hc as (x & s2 & _ & Hc). apply bind_inv_ok in Hc as (y & s3 & _ & Hc).
      by apply bind_inv_ok in Hc as (z & s4 & _ & Hc).
    + rewrite (IH _ _ Hr _ eq_refl). by rewrite <- app_assoc.
    + done.
Qed.
(** A container that the task was seen to have. *)
Definition seen (namespace task : string) (c : Container) : Prop :=
  exists k k' all, getNewWorkFlowContainers namespace task k = (Ok all, k') /\ c ∈ all.
(** A round always answers; one that goes on has waited once more or read something new. *)
Lemma task_round_ok t namespace task readed retry s r s' :
  task_round t namespace task readed retry s = (r, s') -> exists o, r = Ok o /\ forall readed' retry', o = TaskGoesOn readed' retry' ->
    (readed' = readed /\ retry' = S retry /\ (retry < workFlowTaskLogRetries)%nat) \/
    retry' = retry /\ exists unread, unread <> [] /\ readed' = readed ++ unread /\ forall c, c ∈ unread -> (c ∉ readed) /\ seen namespace task c.
Proof.
  intros Hr. unfold task_round in Hr. rewrite bind_attempt in Hr. unfold rethrow, on_kube, zoom in Hr.
  destruct (getNewWorkFlowContainers namespace task s.1) as [[all|e] k1] eqn:Hg; cbn [map_err fst snd] in Hr; [|injection Hr as <- _; by eexists].
  assert (Hn : forall c, c ∈ getUnreadWorkFlowContainers readed all -> (c ∉ readed) /\ seen namespace task c).
  { intros c [? ?]%list_elem_of_filter. split; [done|]. by exists s.1, k1, all. }
  destruct (getUnreadWorkFlowContainers readed all) as [|c unread].
  - destruct (Nat.ltb_spec retry workFlowTaskLogRetries); [injection Hr as <- _; eexists; split; [done|]; intros ? ? [= <- <-]; auto|].
    rewrite bind_attempt in Hr. injection Hr as <- _. by eexists.
  - rewrite bind_attempt in Hr. destruct (read_round _ _ _ _ _) as [[l|e] s2] eqn:Hrd; cbn [fst snd] in Hr; injection Hr as <- _; [|by eexists].
    eexists. split; [done|]. intros ? ? [= <- <-]. right. split; [done|]. exists (c :: unread). split; [done|]. split; [|done]. by eapply read_round_ok.
Qed.
Lemma distinct_more (readed unread : list Container) :
  unread <> [] -> (forall c, c ∈ unread -> c ∉ readed) -> (distinct readed < distinct (readed ++ unread))%nat.
Proof.
  intros Hne Hn. unfold distinct. apply subset_size. rewrite list_to_set_app_L. destruct unread as [|c unread]; [done|]. specialize (Hn c (list_elem_of_here _ _)). set_solver.
Qed.

Lemma task_rounds_ok env times namespace task rounds readed retry s r s' :
  (retry <= workFlowTaskLogRetries)%nat -> (forall c, c ∈ readed -> seen namespace task c) ->
  task_rounds env times namespace task rounds readed retry s = (r, s') -> exists o, r = Ok o /\ forall readed' retry', o = TaskGoesOn readed' retry' ->
    (retry' <= workFlowTaskLogRetries)%nat /\ (forall c, c ∈ readed' -> seen namespace task c) /\
    (rounds + distinct readed + retry <= distinct readed' + retry')%nat.
Proof.
  revert readed retry s. induction rounds as [|rounds IH]; intros readed retry s Hle Hseen Hr; cbn [task_rounds] in Hr.
  { injection Hr as <- _. eexists. split; [done|]. intros ? ? [= <- <-]. split; [done|]. split; [done|lia]. }
  rewrite bind_modify in Hr. unfold bind in Hr. destruct (task_round _ _ _ _ _ _) as [r1 s1] eqn:Ho. apply task_round_ok in Ho as (o & -> & Ho).
  destruct o as [| |readed1 retry1]; [injection Hr as <- _; by eexists..|].
  destruct (Ho _ _ eq_refl) as [(-> & -> & Hlt)|(-> & unread & Hne & -> & Hn)].
  - apply IH in Hr as (o & -> & Hall); [|lia|done]. exists o. split; [done|]. intros ? ? He. destruct (Hall _ _ He) as (? & ? & ?). split; [done|]. split; [done|lia].
  - apply IH in Hr as (o & -> & Hall); [|done|intros c [?|?]%elem_of_app; [auto|by apply Hn]]. exists o. split; [done|].
    intros ? ? He. destruct (Hall _ _ He) as (? & ? & ?). pose proof (distinct_more readed unread Hne (fun c Hc => proj1 (Hn c Hc))). split; [done|]. split; [done|lia].
Qed.

(** C25. The log of a task ends.  Every round either waits, at most six times in all, or reads
    the log of a container that was not read before: if the task is never seen to have other
    containers than some known ones, then after six rounds more than these the log was read
    to its end or was given up. *)
Theorem task_log_ends (env : nat -> K -> K) (times : nat -> string) (namespace task : string) (rounds : nat) s (r : result stream_error task_outcome) (s' : K * Socket) (known : gset Container) :
  OpenWorkFlowTaskLog env times namespace task rounds s = (r, s') ->
  (forall c, seen namespace task c -> c ∈ known) -> (size known + workFlowTaskLogRetries < rounds)%nat ->
  r = Ok TaskEnded \/ r = Ok TaskFailed.
Proof.
  intros Hr Hk Hrounds. unfold OpenWorkFlowTaskLog in Hr. rewrite bind_attempt in Hr.
  destruct (rethrow _ _ s) as [[wft|e] s1]; cbn [fst snd] in Hr; [|injection Hr as <- _; auto].
  apply task_rounds_ok in Hr as (o & -> & Ho); [|lia|by intros c ?%elem_of_nil]. destruct o as [| |readed retry]; [auto..|].
  destruct (Ho _ _ eq_refl) as (Hle & Hseen & Hall). exfalso.
  assert (Hsub : (list_to_set readed : gset Container) ⊆ known) by (intros c ?%elem_of_list_to_set; auto). apply subseteq_size in Hsub. unfold distinct in Hall. cbn in Hall. lia.
Qed.
End Facts.
