(* ===== verification/WorkloadCluster.v ===== *)
(** A cluster in memory with all the kinds of objects that workloads are made of, for the
    examples: the calls on it, which may be told to fail, and the laws they obey. *)
From S2P Require Import Prelude KvStore GoStrings RestApi KubeApi ConfigMap Secret PersistentVolume PodTemplate Workload Deployment.
From S2P Require Import DaemonSet Job Pod StatefulSet Autoscaler.

(** Quantities that are texts; options as the tree of their fields; selectors that are the
    labels they match. *)
#[export] Instance text_quantities : Quantities := {|
  Quantity := string;
  ParseQuantity s := if String.eqb s "" then None else Some s;
  Quantity_String := id
|}.
#[export] Instance AdvancedOptions_tree : Treeable AdvancedOptions.
Proof.
  apply (iso_tree
    (fun o => (o.(ao_ExposedMetric).(em_Path), o.(ao_ExposedMetric).(em_Port), o.(ao_ReloadWhenConfigChange),
               o.(ao_DeletePVsWhenDeleteWorkload), o.(ao_InjectServiceMesh)))
    (fun '(a, b, c, d, e) => mkOptions (mkMetric a b) c d e)).
  by intros [[] ? ? ?].
Defined.
#[export] Instance options_json : Json AdvancedOptions := tree_json _ _.
#[export] Instance workload_text : WorkloadText := {|
  marshal_options o := default "" (marshal o);
  unmarshal_options s := default (mkOptions (mkMetric "" 0) false false false) (unmarshal s);
  config_digest _ _ := "digest"
|}.
#[export] Instance workload_text_laws : WorkloadTextLaws.
Proof.
  intros o. exact (f_equal (default (mkOptions (mkMetric "" 0) false false false)) (tree_json_laws _ _ o _ eq_refl)).
Qed.
#[export] Instance label_selectors : LabelSelectors := {|
  LabelSelector := gmap string string; MatchLabels := id; Selector := gmap string string; LabelSelectorAsSelector := Some
|}.
#[export] Instance label_requirements : LabelRequirements := {|
  requirement_in key values := match values with [v] => Some ({[key := v]} : gmap string string) | _ => None end;
  requirement_equals key value := Some ({[key := value]} : gmap string string)
|}.

#[export] Instance phase_states : PodStates := kp_Phase.

Record FakeCluster := mkFake {
  fk_pvs : gmap (string * string) K8sPV;
  fk_pvcs : gmap (string * string) K8sPVC;
  fk_classes : gmap (string * string) K8sStorageClass;
  fk_configmaps : gmap (string * string) K8sConfigMap;
  fk_secrets : gmap (string * string) K8sSecret;
  fk_deployments : gmap (string * string) K8sDeployment;
  fk_replicasets : gmap (string * string) K8sReplicaSet;
  fk_daemonsets : gmap (string * string) K8sDaemonSet;
  fk_statefulsets : gmap (string * string) K8sStatefulSet;
  fk_jobs : gmap (string * string) K8sJob;
  fk_cronjobs : gmap (string * string) K8sCronJob;
  fk_pods : gmap (string * string) K8sPod;
  fk_revisions : gmap (string * string) ControllerRevision;
  fk_hpas : gmap (string * string) K8sHPA;
  fk_faults : list bool   (* [true] makes a call fail *)
}.
Definition set_pvs x (k : FakeCluster) : FakeCluster :=
  mkFake x k.(fk_pvcs) k.(fk_classes) k.(fk_configmaps) k.(fk_secrets) k.(fk_deployments) k.(fk_replicasets) k.(fk_daemonsets) k.(fk_statefulsets) k.(fk_jobs) k.(fk_cronjobs) k.(fk_pods) k.(fk_revisions) k.(fk_hpas) k.(fk_faults).
Definition set_pvcs x (k : FakeCluster) : FakeCluster :=
  mkFake k.(fk_pvs) x k.(fk_classes) k.(fk_configmaps) k.(fk_secrets) k.(fk_deployments) k.(fk_replicasets) k.(fk_daemonsets) k.(fk_statefulsets) k.(fk_jobs) k.(fk_cronjobs) k.(fk_pods) k.(fk_revisions) k.(fk_hpas) k.(fk_faults).
Definition set_classes x (k : FakeCluster) : FakeCluster :=
  mkFake k.(fk_pvs) k.(fk_pvcs) x k.(fk_configmaps) k.(fk_secrets) k.(fk_deployments) k.(fk_replicasets) k.(fk_daemonsets) k.(fk_statefulsets) k.(fk_jobs) k.(fk_cronjobs) k.(fk_pods) k.(fk_revisions) k.(fk_hpas) k.(fk_faults).
Definition set_configmaps x (k : FakeCluster) : FakeCluster :=
  mkFake k.(fk_pvs) k.(fk_pvcs) k.(fk_classes) x k.(fk_secrets) k.(fk_deployments) k.(fk_replicasets) k.(fk_daemonsets) k.(fk_statefulsets) k.(fk_jobs) k.(fk_cronjobs) k.(fk_pods) k.(fk_revisions) k.(fk_hpas) k.(fk_faults).
Definition set_secrets x (k : FakeCluster) : FakeCluster :=
  mkFake k.(fk_pvs) k.(fk_pvcs) k.(fk_classes) k.(fk_configmaps) x k.(fk_deployments) k.(fk_replicasets) k.(fk_daemonsets) k.(fk_statefulsets) k.(fk_jobs) k.(fk_cronjobs) k.(fk_pods) k.(fk_revisions) k.(fk_hpas) k.(fk_faults).
Definition set_deployments x (k : FakeCluster) : FakeCluster :=
  mkFake k.(fk_pvs) k.(fk_pvcs) k.(fk_classes) k.(fk_configmaps) k.(fk_secrets) x k.(fk_replicasets) k.(fk_daemonsets) k.(fk_statefulsets) k.(fk_jobs) k.(fk_cronjobs) k.(fk_pods) k.(fk_revisions) k.(fk_hpas) k.(fk_faults).
Definition set_replicasets x (k : FakeCluster) : FakeCluster :=
  mkFake k.(fk_pvs) k.(fk_pvcs) k.(fk_classes) k.(fk_configmaps) k.(fk_secrets) k.(fk_deployments) x k.(fk_daemonsets) k.(fk_statefulsets) k.(fk_jobs) k.(fk_cronjobs) k.(fk_pods) k.(fk_revisions) k.(fk_hpas) k.(fk_faults).
Definition set_daemonsets x (k : FakeCluster) : FakeCluster :=
  mkFake k.(fk_pvs) k.(fk_pvcs) k.(fk_classes) k.(fk_configmaps) k.(fk_secrets) k.(fk_deployments) k.(fk_replicasets) x k.(fk_statefulsets) k.(fk_jobs) k.(fk_cronjobs) k.(fk_pods) k.(fk_revisions) k.(fk_hpas) k.(fk_faults).
Definition set_statefulsets x (k : FakeCluster) : FakeCluster :=
  mkFake k.(fk_pvs) k.(fk_pvcs) k.(fk_classes) k.(fk_configmaps) k.(fk_secrets) k.(fk_deployments) k.(fk_replicasets) k.(fk_daemonsets) x k.(fk_jobs) k.(fk_cronjobs) k.(fk_pods) k.(fk_revisions) k.(fk_hpas) k.(fk_faults).
Definition set_jobs x (k : FakeCluster) : FakeCluster :=
  mkFake k.(fk_pvs) k.(fk_pvcs) k.(fk_classes) k.(fk_configmaps) k.(fk_secrets) k.(fk_deployments) k.(fk_replicasets) k.(fk_daemonsets) k.(fk_statefulsets) x k.(fk_cronjobs) k.(fk_pods) k.(fk_revisions) k.(fk_hpas) k.(fk_faults).
Definition set_cronjobs x (k : FakeCluster) : FakeCluster :=
  mkFake k.(fk_pvs) k.(fk_pvcs) k.(fk_classes) k.(fk_configmaps) k.(fk_secrets) k.(fk_deployments) k.(fk_replicasets) k.(fk_daemonsets) k.(fk_statefulsets) k.(fk_jobs) x k.(fk_pods) k.(fk_revisions) k.(fk_hpas) k.(fk_faults).
Definition set_pods x (k : FakeCluster) : FakeCluster :=
  mkFake k.(fk_pvs) k.(fk_pvcs) k.(fk_classes) k.(fk_configmaps) k.(fk_secrets) k.(fk_deployments) k.(fk_replicasets) k.(fk_daemonsets) k.(fk_statefulsets) k.(fk_jobs) k.(fk_cronjobs) x k.(fk_revisions) k.(fk_hpas) k.(fk_faults).
Definition set_revisions x (k : FakeCluster) : FakeCluster :=
  mkFake k.(fk_pvs) k.(fk_pvcs) k.(fk_classes) k.(fk_configmaps) k.(fk_secrets) k.(fk_deployments) k.(fk_replicasets) k.(fk_daemonsets) k.(fk_statefulsets) k.(fk_jobs) k.(fk_cronjobs) k.(fk_pods) x k.(fk_hpas) k.(fk_faults).
Definition set_hpas x (k : FakeCluster) : FakeCluster :=
  mkFake k.(fk_pvs) k.(fk_pvcs) k.(fk_classes) k.(fk_configmaps) k.(fk_secrets) k.(fk_deployments) k.(fk_replicasets) k.(fk_daemonsets) k.(fk_statefulsets) k.(fk_jobs) k.(fk_cronjobs) k.(fk_pods) k.(fk_revisions) x k.(fk_faults).
Definition set_faults x (k : FakeCluster) : FakeCluster :=
  mkFake k.(fk_pvs) k.(fk_pvcs) k.(fk_classes) k.(fk_configmaps) k.(fk_secrets) k.(fk_deployments) k.(fk_replicasets) k.(fk_daemonsets) k.(fk_statefulsets) k.(fk_jobs) k.(fk_cronjobs) k.(fk_pods) k.(fk_revisions) k.(fk_hpas) x.
Definition fk_pop (k : FakeCluster) : bool * FakeCluster := (default false (head k.(fk_faults)), set_faults (tail k.(fk_faults)) k).
Definition empty_cluster : FakeCluster := mkFake ∅ ∅ ∅ ∅ ∅ ∅ ∅ ∅ ∅ ∅ ∅ ∅ ∅ ∅ [].

#[export] Instance fake_pvs : KubeKind FakeCluster K8sPV := fake_kind fk_pvs set_pvs fk_pop.
#[export] Instance fake_pvs_laws : KubeLaws FakeCluster K8sPV.
Proof. by apply fake_laws. Qed.
#[export] Instance fake_pvcs : KubeKind FakeCluster K8sPVC := fake_kind fk_pvcs set_pvcs fk_pop.
#[export] Instance fake_pvcs_laws : KubeLaws FakeCluster K8sPVC.
Proof. by apply fake_laws. Qed.
#[export] Instance fake_classes : KubeKind FakeCluster K8sStorageClass := fake_kind fk_classes set_classes fk_pop.
#[export] Instance fake_classes_laws : KubeLaws FakeCluster K8sStorageClass.
Proof. by apply fake_laws. Qed.
#[export] Instance fake_configmaps : KubeKind FakeCluster K8sConfigMap := fake_kind fk_configmaps set_configmaps fk_pop.
#[export] Instance fake_configmaps_laws : KubeLaws FakeCluster K8sConfigMap.
Proof. by apply fake_laws. Qed.
#[export] Instance fake_secrets : KubeKind FakeCluster K8sSecret := fake_kind fk_secrets set_secrets fk_pop.
#[export] Instance fake_secrets_laws : KubeLaws FakeCluster K8sSecret.
Proof. by apply fake_laws. Qed.
#[export] Instance fake_deployments : KubeKind FakeCluster K8sDeployment := fake_kind fk_deployments set_deployments fk_pop.
#[export] Instance fake_deployments_laws : KubeLaws FakeCluster K8sDeployment.
Proof. by apply fake_laws. Qed.
#[export] Instance fake_replicasets : KubeKind FakeCluster K8sReplicaSet := fake_kind fk_replicasets set_replicasets fk_pop.
#[export] Instance fake_replicasets_laws : KubeLaws FakeCluster K8sReplicaSet.
Proof. by apply fake_laws. Qed.
#[export] Instance fake_daemonsets : KubeKind FakeCluster K8sDaemonSet := fake_kind fk_daemonsets set_daemonsets fk_pop.
#[export] Instance fake_daemonsets_laws : KubeLaws FakeCluster K8sDaemonSet.
Proof. by apply fake_laws. Qed.
#[export] Instance fake_statefulsets : KubeKind FakeCluster K8sStatefulSet := fake_kind fk_statefulsets set_statefulsets fk_pop.
#[export] Instance fake_statefulsets_laws : KubeLaws FakeCluster K8sStatefulSet.
Proof. by apply fake_laws. Qed.
#[export] Instance fake_jobs : KubeKind FakeCluster K8sJob := fake_kind fk_jobs set_jobs fk_pop.
#[export] Instance fake_jobs_laws : KubeLaws FakeCluster K8sJob.
Proof. by apply fake_laws. Qed.
#[export] Instance fake_cronjobs : KubeKind FakeCluster K8sCronJob := fake_kind fk_cronjobs set_cronjobs fk_pop.
#[export] Instance fake_cronjobs_laws : KubeLaws FakeCluster K8sCronJob.
Proof. by apply fake_laws. Qed.
#[export] Instance fake_pods : KubeKind FakeCluster K8sPod := fake_kind fk_pods set_pods fk_pop.
#[export] Instance fake_pods_laws : KubeLaws FakeCluster K8sPod.
Proof. by apply fake_laws. Qed.
#[export] Instance fake_revisions : KubeKind FakeCluster ControllerRevision := fake_kind fk_revisions set_revisions fk_pop.
#[export] Instance fake_revisions_laws : KubeLaws FakeCluster ControllerRevision.
Proof. by apply fake_laws. Qed.
#[export] Instance fake_hpas : KubeKind FakeCluster K8sHPA := fake_kind fk_hpas set_hpas fk_pop.
#[export] Instance fake_hpas_laws : KubeLaws FakeCluster K8sHPA.
Proof. by apply fake_laws. Qed.

(** The calls on one kind leave another kind alone. *)
Ltac fake_frame := unfold same_kind; cbn -[fake_call]; by apply fake_call_frame.
#[export] Hint Extern 1 (KubeFrame FakeCluster _ _) => split; intros; fake_frame : typeclass_instances.
#[export] Hint Extern 1 (KubeDeleteFrame FakeCluster _ _) => intros ???; fake_frame : typeclass_instances.

(** The objects of a namespace whose labels have those of the selector. *)
Definition matches (selector labels : gmap string string) : bool :=
  forallb (fun kv => bool_decide (labels !! kv.1 = Some kv.2)) (map_to_list selector).
Definition fake_select {Obj} `{KubeObject Obj} (get : FakeCluster -> gmap (string * string) Obj)
    (labels : Obj -> gmap string string) (ns : string) (selector : gmap string string) : M FakeCluster kube_error (list Obj) :=
  fun k => (Ok (snd <$> filter (fun ko => kube_key ko.2 = ko.1 /\ fst ko.1 = ns /\ matches selector (labels ko.2) = true)
                  (map_to_list (get k))), k).
Lemma fake_select_ok {Obj} `{KubeObject Obj} get labels ns selector k r k' :
  fake_select (Obj := Obj) get labels ns selector k = (r, k') ->
  k' = k /\ match r with Ok l => forall o, o ∈ l -> get k !! kube_key o = Some o /\ fst (kube_key o) = ns | Err _ => True end.
Proof.
  intros [= <- <-]. split; [done|].
  intros o ([key x] & -> & [(Hkey & Hns & _) Hin%elem_of_map_to_list]%list_elem_of_filter)%list_elem_of_fmap. simpl in *. by subst.
Qed.
#[export] Instance fake_select_replicasets : KubeSelect FakeCluster K8sReplicaSet := fake_select fk_replicasets (fun rs => rs.(kr_Template).(tp_Meta).(om_Labels)).
#[export] Instance fake_select_pods : KubeSelect FakeCluster K8sPod := fake_select fk_pods kp_Labels.
#[export] Instance fake_select_hpas : KubeSelect FakeCluster K8sHPA := fake_select fk_hpas kh_Labels.
#[export] Hint Extern 1 (KubeSelectLaws FakeCluster _) =>
  (intros ????? [-> Hl]%fake_select_ok; split; [done|exact Hl]) : typeclass_instances.
#[export] Hint Extern 1 (KubeSelectFrame FakeCluster _ _) => (intros ???; done) : typeclass_instances.

(** A patch of an object that is there is applied. *)
Definition fake_patch {Obj P : Type} `{KubeKind FakeCluster Obj} (set : gmap (string * string) Obj -> FakeCluster -> FakeCluster)
    (apply : P -> Obj -> Obj) : KubePatch FakeCluster Obj P := {|
  apply_patch := apply;
  kube_patch o p k :=
    match kube_objects k !! kube_key o with
    | Some old =>
        if bool_decide (kube_key old = kube_key o)
        then (Ok tt, set (<[kube_key o := apply p old]> (kube_objects k)) k)
        else (Err KOther, k)
    | None => (Err KNotFound, k)
    end
|}.
#[export] Instance fake_patch_deployments : KubePatch FakeCluster K8sDeployment DeploymentPatch :=
  fake_patch set_deployments apply_deployment_patch.
#[export] Instance fake_patch_deployments_laws : KubePatchLaws FakeCluster K8sDeployment DeploymentPatch.
Proof.
  intros o p k r k' Hp. unfold kube_patch, fake_patch_deployments, fake_patch in Hp.
  destruct (kube_objects k !! kube_key o) as [old|] eqn:Ho; [|by injection Hp as <- <-].
  case_bool_decide as Hkey; injection Hp as <- <-; [|done].
  exists old, (apply_deployment_patch p old). split; [done|]. split; [|done]. rewrite <- Hkey. by destruct p.
Qed.
