(* ===== verification/WorkloadExamples.v ===== *)
(** Concrete runs of the handlers of pod templates and workloads on a cluster in memory, and
    the instances of the theorems about them. *)
From S2P Require Import Prelude KvStore GoStrings RestApi KubeApi ConfigMap Secret PersistentVolume PodTemplate Workload Deployment.
From S2P Require Import DaemonSet Job Pod StatefulSet Autoscaler WorkloadCluster.
Import Deployment.

(** A deployment of a container with a claim, a configuration and a port, and a claim that
    no container mounts. *)
Definition web_container : Container :=
  mkContainer "nginx" "nginx:1" [] [] [mkPort "http" 80 "TCP"] []
    [mkVolume VolumeTypeConfigMap "settings" "/etc/nginx"; mkVolume VolumeTypePersistentVolume "data" "/data"].
Definition web_volumes : list PersistentVolumeTemplate := [mkTemplate "data" "10Gi" "lvm"; mkTemplate "spare" "1Gi" "lvm"].
Definition no_status : WorkloadStatus := mkStatus 0 false 0 0 0 [].
Definition web : Deployment :=
  mkDeployment "" "web" 2 [web_container] (mkOptions (mkMetric "/metrics" 9100) true true false) web_volumes no_status "" 0 None.
Definition cluster0 : FakeCluster :=
  set_classes {[("", "lvm") := mkStorageClass "lvm" ∅ {["accessMode" := "ReadWriteOnce"]} 0 None]}
    (set_configmaps {[("default", "settings") := mkK8sConfigMap "default" "settings" {["port" := "80"]} "" 0 None]} empty_cluster).
Definition clusters0 : gmap string FakeCluster := {["local" := cluster0]}.
Definition clusters1 : gmap string FakeCluster := snd (Create "local" "default" web clusters0).
Definition cluster1 : FakeCluster := default cluster0 (clusters1 !! "local").

Example web_created : fst (Create "local" "default" web clusters0) = Ok (set_id "web" web).
Proof. vm_compute. reflexivity. Qed.

(** The cluster after the deployment was processed: it has its first revision. *)
Definition process (d : K8sDeployment) : K8sDeployment :=
  mkK8sDeployment d.(kd_Namespace) d.(kd_Name) "uid" (<[RevisionAnnotation := "1"]> d.(kd_Annotations)) d.(kd_Replicas)
    d.(kd_Selector) d.(kd_Template) false 2 2 2 0 1 [] 5 None.
Definition cluster2 : FakeCluster := set_deployments (process <$> fk_deployments cluster1) cluster1.
Definition clusters2 : gmap string FakeCluster := {["local" := cluster2]}.

Lemma clusters1_local : clusters1 !! "local" = Some cluster1.
Proof. apply some_default. vm_compute. reflexivity. Qed.

(** The deployment as it was created. *)
Definition web1 : K8sDeployment := default (new_deployment "" web (mkPodTemplate (mkMeta "" "" ∅ ∅) (mkPodSpec [] [])))
  (fk_deployments cluster1 !! ("default", "web")).
Lemma web1_stored : fk_deployments cluster1 !! ("default", "web") = Some web1.
Proof. apply some_default. vm_compute. reflexivity. Qed.
Lemma web2_stored : fk_deployments cluster2 !! ("default", "web") = Some (process web1).
Proof. simpl. by rewrite lookup_fmap, web1_stored. Qed.

Lemma pvcs_kept x (k : FakeCluster) : kube_objects (Obj := K8sPVC) (set_deployments x k) = kube_objects k.
Proof. reflexivity. Qed.
Lemma web_later : later "default" "web" cluster1 cluster2.
Proof.
  split.
  - exists web1, (process web1). split; [exact web1_stored|]. split; [exact web2_stored|].
    split; [vm_compute; reflexivity|]. split; [vm_compute; reflexivity|].
    split; [reflexivity|]. split; [reflexivity|]. split; [by apply lookup_insert_ne|].
    unfold deployIsUpdating, process. simpl. by rewrite lookup_insert_eq.
  - intros n p Hp. exists p. unfold cluster2. rewrite pvcs_kept. exact (conj Hp (conj eq_refl eq_refl)).
Qed.

Lemma web_names_ok : pod_names_ok [web_container] web_volumes.
Proof.
  split; [apply NoDup_singleton|]. intros c j ->%list_elem_of_singleton. unfold named_volume. simpl.
  rewrite !elem_of_cons. intros [[=]|[[=]|Hj%elem_of_nil]]; done.
Qed.
Lemma web_volumes_distinct : NoDup (pt_Name <$> web_volumes).
Proof. apply (bool_decide_unpack _). vm_compute. exact I. Qed.

(** Its pods. *)
Definition web_pod : PodSpec * list K8sPVC :=
  match fst (scPodSpecToK8sPodSpecAndPVCs [web_container] web_volumes cluster0) with Ok r => r | Err _ => (mkPodSpec [] [], []) end.
Lemma web_pod_ok : fst (scPodSpecToK8sPodSpecAndPVCs [web_container] web_volumes cluster0) = Ok (web_pod.1, web_pod.2).
Proof. vm_compute. reflexivity. Qed.

Lemma pod_spec_wf_witness :
  kv_Name <$> web_pod.1.(ps_Volumes) = ["nginx-vol0"; "data"] /\ NoDup (kv_Name <$> web_pod.1.(ps_Volumes)).
Proof.
  split; [vm_compute; reflexivity|].
  apply (pod_spec_wf [web_container] web_volumes cluster0 _ _ _ (pair_eq_snd _ _ web_pod_ok)). exact web_names_ok.
Defined.

(** What is accepted, although the cluster refuses it: two containers of one name, and then
    two volumes of one name; a persistent volume with the name of a mount; a port whose
    number is no port.  Mounted after the config map, such a persistent volume is not
    declared, and the container finds the config map in its place. *)
Definition pod_of (containers : list Container) (pvs : list PersistentVolumeTemplate) : PodSpec :=
  match fst (scPodSpecToK8sPodSpecAndPVCs containers pvs cluster0) with Ok r => r.1 | Err _ => mkPodSpec [] [] end.
Definition settings_volume : Volume := mkVolume VolumeTypeConfigMap "settings" "/etc/nginx".
Definition nginx (ports : list ContainerPort) (vols : list Volume) : Container := mkContainer "nginx" "nginx:1" [] [] ports [] vols.
Lemma containers_of_one_name :
  let pod := pod_of [nginx [] [settings_volume]; nginx [] [settings_volume]] [] in
  kn_Name <$> pod.(ps_Containers) = ["nginx"; "nginx"] /\ kv_Name <$> pod.(ps_Volumes) = ["nginx-vol0"; "nginx-vol0"].
Proof. split; vm_compute; reflexivity. Qed.
Lemma volume_named_like_a_mount :
  kv_Name <$> (pod_of [nginx [] [mkVolume VolumeTypePersistentVolume "nginx-vol1" "/data"; settings_volume]]
                 [mkTemplate "nginx-vol1" "1Gi" "lvm"]).(ps_Volumes) = ["nginx-vol1"; "nginx-vol1"] /\
  (let pod := pod_of [nginx [] [settings_volume; mkVolume VolumeTypePersistentVolume "nginx-vol0" "/data"]]
                [mkTemplate "nginx-vol0" "1Gi" "lvm"] in
   kv_Name <$> pod.(ps_Volumes) = ["nginx-vol0"] /\
   read_container pod.(ps_Volumes) <$> pod.(ps_Containers) =
     [nginx [] [settings_volume; mkVolume VolumeTypeConfigMap "settings" "/data"]]).
Proof. split; [|split]; vm_compute; reflexivity. Qed.
Lemma port_numbers_are_not_checked :
  (kp_ContainerPort <$> ((pod_of [nginx [mkPort "http" 70000 "TCP"; mkPort "none" 0 "TCP"; mkPort "wide" 4294967376 "TCP"] []] []).(ps_Containers)
     ≫= kn_Ports)) = [70000; 0; 80].
Proof. vm_compute. reflexivity. Qed.

Lemma pod_spec_round_trip_witness :
  (k8sPodSpecToScContainersAndVCTemplates web_pod.1.(ps_Containers) web_pod.1.(ps_Volumes)).1 =
  [mkContainer "nginx" "nginx:1" [] [] [mkPort "http" 80 "tcp"] [] web_container.(co_Volumes)].
Proof.
  apply (pod_spec_round_trip [web_container] web_volumes cluster0 _ _ _ web_names_ok (pair_eq_snd _ _ web_pod_ok)).
Defined.

Lemma deployment_round_trip_witness :
  exists read, fst (Get "local" "default" "web" clusters2) = Ok read /\ read.(de_Containers) = normal <$> [web_container] /\
    forall t, t ∈ read.(de_PersistentVolumes) <-> shown_volume web.(de_Containers) web.(de_PersistentVolumes) t.
Proof.
  destruct (Get "local" "default" "web" clusters2) as [r ks3] eqn:Hg.
  pose proof (deployment_round_trip "local" "default" web (set_id "web" web) clusters0 clusters1 clusters2 ks3 cluster1 cluster2 r
    web_names_ok web_volumes_distinct ltac:(reflexivity) (pair_eq_snd _ _ web_created) clusters1_local web_later
    (lookup_singleton_eq _ _) Hg) as Hr.
  assert (Hok : match r with Ok _ => True | Err _ => False end).
  { apply (f_equal fst) in Hg. simpl in Hg. rewrite <- Hg. vm_compute. exact I. }
  destruct r as [read|e]; [|destruct Hok]. exists read. split; [reflexivity|].
  destruct Hr as (_ & _ & _ & Hc & _ & Hv & _). split; [exact Hc|exact Hv].
Defined.

Definition after_delete : gmap string FakeCluster := fst (snd (Delete "local" "default" "web" (clusters2, []))).
Definition cluster3 : FakeCluster := default cluster0 (after_delete !! "local").
Lemma Delete_deployment_witness :
  snd (snd (Delete "local" "default" "web" (clusters2, []))) = [("default", "web")] /\
  kube_objects (Obj := K8sPVC) cluster3 !! ("default", "spare") = kube_objects cluster2 !! ("default", "spare").
Proof.
  assert (Hd : (Delete "local" "default" "web" (clusters2, [])) =
               (Ok tt, (after_delete, snd (snd (Delete "local" "default" "web" (clusters2, [])))))).
  { unfold after_delete. assert (Hf : fst (Delete "local" "default" "web" (clusters2, [])) = Ok tt) by (vm_compute; reflexivity).
    destruct (Delete "local" "default" "web" (clusters2, [])) as [r [a b]]. simpl in *. by subst. }
  assert (Hk : after_delete !! "local" = Some cluster3) by (apply some_default; vm_compute; reflexivity).
  destruct (Delete_deployment "local" "default" "web" clusters2 after_delete [] _ cluster2 cluster3 (Ok tt) Hd
    (lookup_singleton_eq _ _) Hk) as (Hp & d & Hd2 & _ & Hcl).
  split; [exact Hp|]. assert (d = process web1) as -> by (apply (inj Some); rewrite <- Hd2; exact web2_stored).
  assert (Hann : bool_decide ((process web1).(kd_Annotations) !! AnnkeyForDeletePVsWhenDeleteWorkload = Some "true") = true)
    by (vm_compute; reflexivity).
  rewrite Hann in Hcl. apply Hcl. intros [_ Hin].
  assert (Hv : volume_claims (process web1).(kd_Template).(tp_Spec).(ps_Volumes) = ["data"]) by (vm_compute; reflexivity).
  rewrite Hv in Hin. by apply list_elem_of_singleton in Hin.
Defined.

(** The replica set of the first revision, and a rollback to it. *)
Definition old_pods : PodTemplateSpec :=
  mkPodTemplate (mkMeta "" "" {["app" := "web"; DefaultDeploymentUniqueLabelKey := "5d4f"]} ∅)
    (mkPodSpec [mkK8sContainer "nginx" "nginx:0" [] [] [] [] [] ∅] []).
Definition first_revision : K8sReplicaSet :=
  mkK8sReplicaSet "default" "web-5d4f" [mkOwnerRef "Deployment" "web" (Some true) "uid"] {[RevisionAnnotation := "1"; ChangeCauseAnnotation := "init"]}
    old_pods 2 2.
Definition cluster_old : FakeCluster := set_replicasets {[("default", "web-5d4f") := first_revision]} cluster2.
Definition clusters_old : gmap string FakeCluster := {["local" := cluster_old]}.
Lemma deployments_kept x (k : FakeCluster) : kube_objects (Obj := K8sDeployment) (set_replicasets x k) = kube_objects k.
Proof. reflexivity. Qed.
Lemma old_stored : kube_objects cluster_old !! ("default", "web") = Some (process web1).
Proof. unfold cluster_old. rewrite deployments_kept. exact web2_stored. Qed.
Definition rolled_back : gmap string FakeCluster := snd (rollback "local" "default" "web" (Some (1, "bad image")) clusters_old).

Lemma rollback_restores_witness :
  exists d', fk_deployments (default cluster0 (rolled_back !! "local")) !! ("default", "web") = Some d' /\
    d'.(kd_Annotations) !! ChangeCauseAnnotation = Some "bad image" /\
    d'.(kd_Replicas) = 2 /\ d'.(kd_Template).(tp_Meta).(om_Labels) !! DefaultDeploymentUniqueLabelKey = None.
Proof.
  assert (Hr : fst (rollback "local" "default" "web" (Some (1, "bad image")) clusters_old) = Ok tt) by (vm_compute; reflexivity).
  assert (Hk : rolled_back !! "local" = Some (default cluster0 (rolled_back !! "local"))) by (apply some_default; vm_compute; reflexivity).
  assert (Hpatch : patch_applied (K := FakeCluster)) by (intros p d; reflexivity).
  destruct (rollback_restores Hpatch "local" "default" "web" 1 "bad image" clusters_old rolled_back cluster_old _ (Ok tt)
    (pair_eq_snd _ _ Hr) (lookup_singleton_eq _ _) Hk) as (d & d' & rs & Hd & _ & _ & _ & _ & Hobj & Htp & Hrep & _ & Hann).
  assert (d = process web1) as -> by (rewrite old_stored in Hd; congruence).
  exists d'. split; [|split; [|split]].
  - assert (Ho : kube_objects (default cluster0 (rolled_back !! "local")) !! ("default", "web") = Some d')
      by (rewrite Hobj; apply lookup_insert_eq). exact Ho.
  - apply (Hann ChangeCauseAnnotation).
  - rewrite Hrep. vm_compute. reflexivity.
  - rewrite Htp. apply lookup_delete_eq.
Defined.

(** ** What the runs show *)

Definition with_volumes (pvs : list PersistentVolumeTemplate) (vols : list Volume) (d : Deployment) : Deployment :=
  mkDeployment d.(de_ID) d.(de_Name) d.(de_Replicas) [mkContainer "nginx" "nginx:1" [] [] [] [] vols] d.(de_AdvancedOptions) pvs
    d.(de_Status) d.(de_Memo) d.(de_CreationTimestamp) d.(de_DeletionTimestamp).
Definition processed (ks : gmap string FakeCluster) : gmap string FakeCluster :=
  (fun k => set_deployments (process <$> fk_deployments k) k) <$> ks.

(** A temporary volume is not shown, and the update with what is shown fails. *)
Definition cached : Deployment :=
  with_volumes [mkTemplate "cache" "" StorageClassNameTemp] [mkVolume VolumeTypePersistentVolume "cache" "/cache"]
    (with_volumes [] [] (mkDeployment "" "web" 2 [] (mkOptions (mkMetric "" 0) false false false) [] no_status "" 0 None)).
Definition clusters_cached : gmap string FakeCluster := processed (snd (Create "local" "default" cached clusters0)).
Definition shown (r : result workload_error Deployment) : Deployment := match r with Ok d => d | Err _ => web end.
Lemma temporary_volume_is_lost :
  let read := fst (Get "local" "default" "web" clusters_cached) in
  (de_PersistentVolumes <$> [shown read]) = [[]] /\
  (vo_Name <$> (de_Containers (shown read) ≫= co_Volumes)) = ["cache"] /\
  fst (Update "local" "default" (shown read) clusters_cached) = Err (Answer ConnectClusterFailed).
Proof. split; [|split]; vm_compute; reflexivity. Qed.

(** A creation that meets a claim that is there fails and deletes that claim. *)
Definition foreign_claim : K8sPVC := mkK8sPVC "default" "data" ∅ [] ∅ None None "" ∅ "Bound" 1 None.
Definition clusters_claimed : gmap string FakeCluster :=
  {["local" := set_pvcs {[("default", "data") := foreign_claim]} cluster0]}.
Lemma failed_create_deletes_claims :
  fst (Create "local" "default" web clusters_claimed) = Err (Answer ConnectClusterFailed) /\
  is_some ((snd (Create "local" "default" web clusters_claimed) !! "local") ≫= fun k => fk_pvcs k !! ("default", "data")) = false.
Proof. split; vm_compute; reflexivity. Qed.

(** A storage class without an access mode ends the request with a panic. *)
Definition clusters_plain : gmap string FakeCluster :=
  {["local" := set_classes {[("", "lvm") := mkStorageClass "lvm" ∅ ∅ 0 None]} cluster0]}.
Lemma class_without_mode_panics : fst (Create "local" "default" web clusters_plain) = Err Panic.
Proof. vm_compute. reflexivity. Qed.

(** Until the cluster has processed it, a new deployment cannot be read, nor the namespace
    listed. *)
Lemma unprocessed_is_unreadable :
  fst (Get "local" "default" "web" clusters1) = Err (Answer ServerError) /\
  fst (List "local" "default" clusters1) = Err (Answer ServerError).
Proof. split; vm_compute; reflexivity. Qed.

(** The history of a deployment without replica sets. *)
Lemma history_without_replica_sets_panics : fst (getDeploymentHistory "local" "default" "web" clusters2) = Err Panic.
Proof. vm_compute. reflexivity. Qed.

(** An update that adds a volume makes no claim for it. *)
Definition extended : Deployment :=
  set_id "web" (with_volumes [mkTemplate "extra" "1Gi" "lvm"] [mkVolume VolumeTypePersistentVolume "extra" "/extra"] web).
Lemma update_makes_no_claim :
  (match fst (Update "local" "default" extended clusters2) with Ok _ => true | Err _ => false end) = true /\
  is_some ((snd (Update "local" "default" extended clusters2) !! "local") ≫= fun k => fk_pvcs k !! ("default", "extra")) = false.
Proof. split; vm_compute; reflexivity. Qed.
