(* ===== verification/AutoscalerExamples.v ===== *)
(** Concrete runs of the autoscalers on a cluster in memory, and the instances of the theorems
    about them. *)
From S2P Require Import Prelude KvStore GoStrings RestApi KubeApi ConfigMap Secret PersistentVolume PodTemplate Workload Deployment.
From S2P Require Import DaemonSet Job Pod StatefulSet Autoscaler WorkloadCluster.

(** Quantities are whole numbers, or thousandths with an [m]; a value is rounded up. *)
Definition milli (s : string) : Z :=
  match strip_suffix s "m" with Some n => default 0 (Atoi n) | None => 1000 * default 0 (Atoi s) end.
#[export] Instance text_values : QuantityValues (H := text_quantities) := {|
  MilliValue := milli; Value s := (milli s + 999) / 1000
|}.

(** The configuration of the adapter as the tree of its fields. *)
#[export] Instance gmap_tree {A} `{Treeable A} : Treeable (gmap string A) :=
  iso_tree (fun m => map_to_list m) list_to_map (list_to_map_to_list (M := gmap string)).
#[export] Instance RuleResources_tree : Treeable RuleResources.
Proof. apply (iso_tree (fun r => (r.(rr_Template), r.(rr_Overrides))) (fun '(a, b) => mkResources a b)). by intros []. Defined.
#[export] Instance Rule_tree : Treeable Rule.
Proof.
  apply (iso_tree
    (fun r => (r.(ru_SeriesQuery), r.(ru_SeriesFilters), r.(ru_Resources), r.(ru_Matches), r.(ru_As), r.(ru_MetricsQuery)))
    (fun '(a, b, c, d, e, f) => mkRule a b c d e f)).
  by intros [].
Defined.
#[export] Instance rules_json : Json (list Rule) := tree_json _ _.
Fixpoint label_text (l : list (string * string)) : string :=
  match l with [] => "." | kv :: l => kv.1 +:+ "." +:+ kv.2 +:+ "." +:+ label_text l end.
#[export] Instance adapter_text : AdapterText := {|
  unmarshal_rules := unmarshal; marshal_rules := marshal;
  marshal_labels labels := match labels with Some l => label_text (map_to_list l) | None => "null" end; sha256_digits := id
|}.
#[export] Instance adapter_text_laws : AdapterTextLaws.
Proof. intros rules s. apply (tree_json_laws (list Rule) _). Qed.

(** A cluster with the adapter, whose configuration has no rules, and a pod of it. *)
Definition adapter_labels : gmap string string := {["app" := "adapter"]}.
Definition adapter : K8sDeployment :=
  mkK8sDeployment PrometheusAdapterNamespace PrometheusAdapter "uid" ∅ 1 (Some adapter_labels)
    (mkPodTemplate (mkMeta "" "" ∅ ∅) (mkPodSpec [] [])) false 1 1 1 0 1 [] 0 None.
Definition adapter_pod : K8sPod :=
  mkK8sPod PrometheusAdapterNamespace "adapter-5d4f-1" (<[DefaultDeploymentUniqueLabelKey := "5d4f"]> adapter_labels)
    [mkOwnerRef OwnerKindReplicaset (PrometheusAdapter +:+ "-5d4f") (Some true) "uid"] (mkPodSpec [] []) "" "Running" None "" "" [] [] 0 None.
Definition configured (rules : list Rule) : K8sConfigMap :=
  mkK8sConfigMap PrometheusAdapterNamespace PrometheusAdapter {[PrometheusAdapterConfigMapDataKey := default "" (marshal_rules rules)]} "" 0 None.
Definition adapter_cluster : FakeCluster :=
  set_configmaps {[(PrometheusAdapterNamespace, PrometheusAdapter) := configured []]}
    (set_deployments {[(PrometheusAdapterNamespace, PrometheusAdapter) := adapter]}
      (set_pods {[(PrometheusAdapterNamespace, "adapter-5d4f-1") := adapter_pod]} empty_cluster)).
Definition adapter_clusters : gmap string FakeCluster := {["local" := adapter_cluster]}.

Definition no_hpa_status : HorizontalPodAutoscalerStatus := mkHPAStatus 0 0 (mkMetricStatus [] []).
Definition web_hpa : HorizontalPodAutoscaler :=
  mkHPA "" "web" "deployment" "web" 1 5
    [mkResourceMetric "CPU" MetricTargetTypeUtilization "" 80; mkResourceMetric "memory" MetricTargetTypeAverageValue "200" 0]
    [mkCustomMetric "requests" (Some {["path" := "/"]}) "20"; mkCustomMetric "errors" None "1"] no_hpa_status 0 None.

Definition names (k : FakeCluster) : list string := match adapter_rules k with Some rules => ru_As <$> rules | None => [] end.
Definition created : result hpa_error unit * FakeCluster := request "default" (RqCreate web_hpa) adapter_cluster.
Example web_hpa_created :
  fst created = Ok tt /\ names created.2 = ["requests_path./.._default_web"; "errors_null_default_web"] /\
  fk_pods created.2 = ∅.
Proof. split; [|split]; vm_compute; reflexivity. Qed.

(** ** The theorems at these inputs *)

Lemma no_autoscaler : kube_objects (Obj := K8sHPA) adapter_cluster = ∅.
Proof. reflexivity. Qed.
Lemma adapter_serving : serving adapter_cluster.
Proof.
  split.
  - intros ns n. rewrite no_autoscaler, lookup_empty. by intros [? [=]].
  - exists []. split; [vm_compute; reflexivity|]. split; [constructor|]. intros ns n a _ _ _.
    unfold metrics_at. by rewrite no_autoscaler, lookup_empty.
Qed.
Lemma fake_prompt ns n (k k' : FakeCluster) :
  kube_delete (Obj := K8sHPA) ns n k = (Ok tt, k') -> kube_objects (Obj := K8sHPA) k' = delete (ns, n) (kube_objects k).
Proof.
  unfold kube_delete, kube_objects, fake_hpas, fake_kind. intros [[Hr _]|Hr]%fake_call_inv; [done| |done..].
  destruct (_ !! _); [by destruct Hr|by destruct Hr].
Qed.

Lemma requests_serve_witness : fst created = Ok tt /\ serving created.2.
Proof.
  assert (Hok : fst created = Ok tt) by (vm_compute; reflexivity). split; [exact Hok|].
  exact (requests_serve fake_prompt "default" (RqCreate web_hpa) adapter_cluster (Ok tt) created.2 eq_refl eq_refl adapter_serving
           (pair_eq_snd _ _ Hok)).
Defined.

Definition set_hpa_id (id : string) (h : HorizontalPodAutoscaler) : HorizontalPodAutoscaler := Autoscaler.set_id id h.
Definition hpa_clusters : gmap string FakeCluster := snd (Create "local" "default" web_hpa adapter_clusters).
Example web_hpa_answer : fst (Create "local" "default" web_hpa adapter_clusters) = Ok (set_hpa_id "web" web_hpa).
Proof. vm_compute. reflexivity. Qed.

Lemma hpa_round_trip_witness :
  exists read, fst (Get "local" "default" "web" hpa_clusters) = Ok read /\ read.(hp_MaxReplicas) = 5 /\
    Forall2 shown_resource web_hpa.(hp_ResourceMetrics) read.(hp_ResourceMetrics) /\
    Forall2 shown_custom web_hpa.(hp_CustomMetrics) read.(hp_CustomMetrics).
Proof.
  destruct (Get "local" "default" "web" hpa_clusters) as [r ks2] eqn:Hg.
  pose proof (hpa_round_trip "local" "default" web_hpa (set_hpa_id "web" web_hpa) adapter_clusters hpa_clusters ks2 r
    (pair_eq_snd _ _ web_hpa_answer) Hg) as Hr.
  assert (Hok : match r with Ok _ => True | Err _ => False end).
  { apply (f_equal fst) in Hg. simpl in Hg. rewrite <- Hg. vm_compute. exact I. }
  destruct r as [read|e]; [|destruct Hok]. exists read. split; [reflexivity|].
  destruct Hr as (_ & _ & _ & _ & _ & Hmax & Hres & Hcus). split; [exact Hmax|split; [exact Hres|exact Hcus]].
Defined.

(** ** What the runs show *)

(** The cluster in which the n-th call from here fails. *)
Definition failing (n : nat) (k : FakeCluster) : FakeCluster := set_faults (repeat false n ++ [true]) k.
Definition with_customs (l : list CustomMetricSpec) (h : HorizontalPodAutoscaler) : HorizontalPodAutoscaler :=
  mkHPA h.(hp_ID) h.(hp_Name) h.(hp_ScaleTargetKind) h.(hp_ScaleTargetName) h.(hp_MinReplicas) h.(hp_MaxReplicas)
    h.(hp_ResourceMetrics) l h.(hp_Status) h.(hp_CreationTimestamp) h.(hp_DeletionTimestamp).

(** A creation whose last call fails leaves its rules, and every later creation fails. *)
Definition half_created : FakeCluster := (request "default" (RqCreate web_hpa) (failing 5 adapter_cluster)).2.
Lemma failed_creation_leaves_rules :
  fst (request "default" (RqCreate web_hpa) (failing 5 adapter_cluster)) = Err (HKube KOther) /\
  is_some (fk_hpas half_created !! ("default", "web")) = false /\
  names half_created = ["requests_path./.._default_web"; "errors_null_default_web"] /\
  fst (request "default" (RqCreate web_hpa) half_created) = Err HOther.
Proof. split; [|split; [|split]]; vm_compute; reflexivity. Qed.

(** A deletion whose last call fails leaves an autoscaler without rules, that can be neither
    deleted nor changed. *)
Definition half_deleted : FakeCluster := (request "default" (RqDelete "web") (failing 4 created.2)).2.
Lemma failed_deletion_is_final :
  fst (request "default" (RqDelete "web") (failing 4 created.2)) = Err (HKube KOther) /\
  is_some (fk_hpas half_deleted !! ("default", "web")) = true /\ names half_deleted = [] /\
  fst (request "default" (RqDelete "web") half_deleted) = Err HOther /\
  fst (request "default" (RqUpdate (set_hpa_id "web" web_hpa)) half_deleted) = Err HOther.
Proof. split; [|split; [|split; [|split]]]; vm_compute; reflexivity. Qed.

(** A second autoscaler of a name is not answered as a duplicate. *)
Lemma duplicate_is_a_failure :
  fst (Create "local" "default" web_hpa hpa_clusters) = Err (Answer ConnectClusterFailed).
Proof. vm_compute. reflexivity. Qed.

(** A metric of the status without a selector ends the request with a panic. *)
Definition measured : FakeCluster :=
  set_hpas (map_imap (fun _ h => Some (mkK8sHPA h.(kh_Namespace) h.(kh_Name) h.(kh_Labels) h.(kh_Spec) 1 1
    [mkMetricSpec PodsMetricSourceType None (Some (mkPodsSource "requests" None (mkTarget "AverageValue" (Some "3") None)))] 0 None))
    (fk_hpas created.2)) created.2.
Lemma metric_without_selector_panics :
  fst (Get "local" "default" "web" {["local" := measured]}) = Err Panic /\
  fst (List "local" "default" {["local" := measured]}) = Err Panic.
Proof. split; vm_compute; reflexivity. Qed.

(** A tenth of a processor is shown as 100, which sent back is a hundred processors. *)
Definition cpu_hpa (value : string) : HorizontalPodAutoscaler :=
  mkHPA "cpu" "cpu" "deployment" "cpu" 1 5 [mkResourceMetric "cpu" MetricTargetTypeAverageValue value 0] [] no_hpa_status 0 None.
Definition read_metrics (r : result workload_error HorizontalPodAutoscaler) : list string :=
  match r with Ok h => rm_AverageValue <$> h.(hp_ResourceMetrics) | Err _ => [] end.
Lemma processors_are_shown_in_thousandths :
  let ks := snd (Create "local" "default" (cpu_hpa "100m") adapter_clusters) in
  read_metrics (fst (Get "local" "default" "cpu" ks)) = ["100"] /\
  read_metrics (fst (Get "local" "default" "cpu" (snd (Update "local" "default" (cpu_hpa "100") ks)))) = ["100000"].
Proof. split; vm_compute; reflexivity. Qed.

(** A metric with labels that are given and empty is shown under the name of the rule. *)
Definition shown_names (r : result workload_error HorizontalPodAutoscaler) : list string :=
  match r with Ok h => cu_MetricName <$> h.(hp_CustomMetrics) | Err _ => [] end.
Lemma empty_labels_change_the_name :
  let h := with_customs [mkCustomMetric "errors" (Some ∅) "1"] web_hpa in
  shown_names (fst (Get "local" "default" "web" (snd (Create "local" "default" h adapter_clusters)))) = ["errors_._default_web"].
Proof. vm_compute. reflexivity. Qed.
