(* ===== verification/StatefulSetExamples.v ===== *)
(** Concrete runs of stateful sets, daemon sets and pods on a cluster in memory, and the
    instances of the theorems about them. *)
From S2P Require Import Prelude KvStore GoStrings RestApi KubeApi ConfigMap Secret PersistentVolume PodTemplate Workload Deployment.
From S2P Require Import DaemonSet Job Pod StatefulSet Autoscaler WorkloadCluster.

(** ** A stateful set *)

Definition db_container : Container :=
  mkContainer "db" "db:1" [] [] [] [] [mkVolume VolumeTypePersistentVolume "data" "/data"; mkVolume VolumeTypePersistentVolume "cache" "/cache"].
Definition db_volumes : list PersistentVolumeTemplate := [mkTemplate "data" "10Gi" "lvm"; mkTemplate "cache" "1Gi" StorageClassNameTemp].
Definition db : StatefulSet :=
  mkStatefulSet "" "db" 2 [db_container] (mkOptions (mkMetric "" 0) false true false) db_volumes (mkStatus 0 false 0 0 0 []) "" 0 None.
Definition db_cluster : FakeCluster :=
  set_classes {[("", "lvm") := mkStorageClass "lvm" ∅ {["accessMode" := "ReadWriteOnce"]} 0 None]} empty_cluster.
Definition db_clusters : gmap string FakeCluster := {["local" := db_cluster]}.
Definition db_clusters1 : gmap string FakeCluster := snd (StatefulSet.Create "local" "default" db db_clusters).
Definition db_cluster1 : FakeCluster := default db_cluster (db_clusters1 !! "local").
Example db_created : fst (StatefulSet.Create "local" "default" db db_clusters) = Ok (StatefulSet.set_id "db" db).
Proof. vm_compute. reflexivity. Qed.
Lemma db_clusters1_local : db_clusters1 !! "local" = Some db_cluster1.
Proof. apply some_default. vm_compute. reflexivity. Qed.
Definition db1 : K8sStatefulSet := default (StatefulSet.new_statefulset "" db (mkPodTemplate (mkMeta "" "" ∅ ∅) (mkPodSpec [] [])) [])
  (fk_statefulsets db_cluster1 !! ("default", "db")).
Lemma db1_stored : fk_statefulsets db_cluster1 !! ("default", "db") = Some db1.
Proof. apply some_default. vm_compute. reflexivity. Qed.
Lemma db_names_ok : pod_names_ok [db_container] db_volumes.
Proof.
  split; [apply NoDup_singleton|]. intros c j ->%list_elem_of_singleton. unfold named_volume. simpl.
  rewrite !elem_of_cons. intros [[=]|[[=]|Hj%elem_of_nil]]; done.
Qed.
Lemma db_volumes_distinct : NoDup (pt_Name <$> db_volumes).
Proof. apply (bool_decide_unpack _). vm_compute. exact I. Qed.
Lemma db_later : later_set "default" "db" db_cluster1 db_cluster1.
Proof. exists db1, db1. split; [exact db1_stored|]. split; [exact db1_stored|]. by split; [vm_compute|]. Qed.

Lemma statefulset_round_trip_witness :
  exists read, fst (StatefulSet.Get "local" "default" "db" db_clusters1) = Ok read /\ read.(sf_Replicas) = 2 /\
    forall t, t ∈ read.(sf_PersistentVolumes) <-> shown_temporary [db_container] db_volumes t \/ shown_claim db_volumes t.
Proof.
  destruct (StatefulSet.Get "local" "default" "db" db_clusters1) as [r ks3] eqn:Hg.
  pose proof (statefulset_round_trip "local" "default" db (StatefulSet.set_id "db" db) db_clusters db_clusters1 db_clusters1 ks3
    db_cluster1 db_cluster1 r db_names_ok db_volumes_distinct ltac:(reflexivity) (pair_eq_snd _ _ db_created) db_clusters1_local
    db_later db_clusters1_local Hg) as Hr.
  assert (Hok : match r with Ok _ => True | Err _ => False end).
  { apply (f_equal fst) in Hg. simpl in Hg. rewrite <- Hg. vm_compute. exact I. }
  destruct r as [read|e]; [|destruct Hok]. exists read. split; [reflexivity|].
  destruct Hr as (_ & _ & Hrep & _ & _ & Hv). split; [exact Hrep|exact Hv].
Defined.

(** ** Its pods *)

Definition db_pod (owner : string) (i claim : string) : K8sPod :=
  mkK8sPod "default" (owner +:+ "-" +:+ i) {["app" := "db"]} [mkOwnerRef OwnerKindStatefulSet owner (Some true) "uid"]
    (mkPodSpec [] [mkK8sVolume "data" (mkSource None None (Some claim) None)]) "" "Running" None "" "" [] [] 0 None.
Definition db_claim (name : string) : K8sPVC := mkK8sPVC "default" name ∅ [] ∅ None None "" ∅ "Bound" 1 None.
(** One of its two pods is gone, after the number of replicas was set to 1. *)
Definition running : FakeCluster :=
  set_pods {[("default", "db-0") := db_pod "db" "0" "data-db-0"]}
    (set_pvcs {[("default", "data-db-0") := db_claim "data-db-0"; ("default", "data-db-1") := db_claim "data-db-1"]} db_cluster1).
Definition running_clusters : gmap string FakeCluster := {["local" := running]}.
Definition deleted := StatefulSet.Delete "local" "default" "db" (running_clusters, []).
Definition deleted_cluster : FakeCluster := default db_cluster (fst (snd deleted) !! "local").

Lemma running_sets x y (k : FakeCluster) : kube_objects (Obj := K8sStatefulSet) (set_pods x (set_pvcs y k)) = kube_objects k.
Proof. reflexivity. Qed.
Lemma running_pods x (k : FakeCluster) : kube_objects (Obj := K8sPod) (set_pods x k) = x.
Proof. reflexivity. Qed.
Lemma deleted_local : fst (snd deleted) !! "local" = Some deleted_cluster.
Proof. apply some_default. vm_compute. reflexivity. Qed.
Lemma only_pod n : claim_of_pod "default" "db" n running -> n = "data-db-0".
Proof.
  intros (p & Hp & _ & _ & Hn). unfold running in Hp. rewrite running_pods in Hp.
  apply lookup_singleton_Some in Hp as [_ <-]. by apply list_elem_of_singleton in Hn.
Qed.

Lemma Delete_statefulset_witness :
  snd (snd deleted) = [("default", "db")] /\
  forall ns n, kube_objects (Obj := K8sPVC) deleted_cluster !! (ns, n) <> kube_objects running !! (ns, n) ->
    ns = "default" /\ n = "data-db-0".
Proof.
  assert (Hf : fst deleted = Ok tt) by (vm_compute; reflexivity).
  assert (Hd : deleted = (Ok tt, (fst (snd deleted), snd (snd deleted)))) by (destruct deleted as [r [a b]]; simpl in *; by subst).
  destruct (Delete_statefulset "local" "default" "db" running_clusters (fst (snd deleted)) [] (snd (snd deleted)) running deleted_cluster
    (Ok tt) Hd (lookup_singleton_eq _ _) deleted_local) as (Hp & d & _ & _ & Hcl).
  split; [exact Hp|]. intros ns n Hne. destruct (Hcl ns n Hne) as (_ & Hns & Hn). exact (conj Hns (only_pod n Hn)).
Defined.

(** The claims of the pods that are gone stay. *)
Lemma claims_of_former_pods_stay :
  fst deleted = Ok tt /\ (kc_Name <$> (snd <$> map_to_list (fk_pvcs deleted_cluster))) = ["data-db-1"].
Proof. split; vm_compute; reflexivity. Qed.

(** Two stateful sets that select the same labels have each its own pods. *)
Definition selecting (name : string) : K8sStatefulSet :=
  mkK8sStatefulSet "default" name "" ∅ 1 name (Some ({["app" := "db"]} : gmap string string)) db1.(kst_Template) [] 1 1 "a" "a" [] 0 None.
Definition shared : FakeCluster :=
  set_statefulsets {[("default", "db") := selecting "db"; ("default", "db-old") := selecting "db-old"]}
    (set_pods {[("default", "db-0") := db_pod "db" "0" "data-db-0"; ("default", "db-old-0") := db_pod "db-old" "0" "data-db-old-0"]} db_cluster1).
Definition pods_of (owner : string) : list K8sPod :=
  match fst (getOwnerPods "default" ResourceTypeStatefulSet owner shared) with Ok l => l | Err _ => [] end.
Lemma owner_pods_disjoint_witness :
  db_pod "db" "0" "data-db-0" ∈ pods_of "db" /\ db_pod "db" "0" "data-db-0" ∉ pods_of "db-old".
Proof.
  assert (H1 : fst (getOwnerPods "default" ResourceTypeStatefulSet "db" shared) = Ok (pods_of "db")) by (vm_compute; reflexivity).
  assert (H2 : fst (getOwnerPods "default" ResourceTypeStatefulSet "db-old" shared) = Ok (pods_of "db-old")) by (vm_compute; reflexivity).
  assert (Hin : pods_of "db" = [db_pod "db" "0" "data-db-0"]) by (vm_compute; reflexivity).
  split; [rewrite Hin; left|]. intros Hp.
  destruct (owner_pods_disjoint "default" ResourceTypeStatefulSet "db" ResourceTypeStatefulSet "db-old" shared _ shared _ _ _
    (db_pod "db" "0" "data-db-0") (or_intror (or_intror eq_refl)) (or_intror (or_intror eq_refl)) (pair_eq_snd _ _ H1) (pair_eq_snd _ _ H2)
    ltac:(rewrite Hin; left)) as [_ Hone].
  destruct (Hone Hp) as [_ [=]].
Defined.

(** ** Replicas *)

Definition halfway : K8sStatefulSet :=
  mkK8sStatefulSet "default" "db" "" ∅ 3 "db" None (mkPodTemplate (mkMeta "" "" ∅ ∅) (mkPodSpec [] [])) [] 3 1 "a" "b" [] 0 None.
Lemma replicas_add_up_witness :
  (statefulset_status halfway).(st_CurrentReplicas) + (statefulset_status halfway).(st_UpdatingReplicas)
  + (statefulset_status halfway).(st_UpdatedReplicas) = 3.
Proof.
  apply (proj1 replicas_add_up halfway); [simpl; lia|simpl; lia|reflexivity].
Defined.

(** Outside these bounds the numbers are negative: a stateful set without pods whose revision
    changes, and a daemon set with more pods that are not available than were updated. *)
Definition counts (st : WorkloadStatus) : Z * Z * Z := (st.(st_CurrentReplicas), st.(st_UpdatingReplicas), st.(st_UpdatedReplicas)).
Lemma replicas_may_be_negative (template : PodTemplateSpec) :
  counts (statefulset_status (mkK8sStatefulSet "default" "db" "" ∅ 0 "db" None template [] 0 0 "a" "b" [] 0 None)) = (-1, 1, 0) /\
  counts (daemonset_status (mkK8sDaemonSet "default" "log" "" ∅ None template 5 2 2 3 1 2 [] 0 None)) = (4, 3, -2).
Proof. split; reflexivity. Qed.

(** ** Answers about pods *)

(** The pods of a workload that is not there are a server error; a cluster that is not there
    is no error of a deletion. *)
Lemma pods_of_nothing :
  fst (Pod.List "local" "default" ResourceTypeStatefulSet "none" running_clusters) = Err ServerError /\
  fst (Pod.List "local" "default" ResourceTypeJob "none" running_clusters) = Err NotFound /\
  fst (Pod.Delete "nowhere" "default" "db-0" running_clusters) = Ok tt.
Proof. split; [|split]; vm_compute; reflexivity. Qed.
