(* ===== verification/StorageExamples.v ===== *)
(** A cluster in memory with nodes, claims and storages, and the runs that show what the
    handlers of them do: instances of the theorems, and where the program differs from what
    it says. *)
From S2P Require Import Prelude KvStore GoStrings GoFloat ClusterTypes Authorizer RestApi KubeApi Secret PersistentVolume PodTemplate Workload Deployment.
From S2P Require Import Pod Node VolumeClaim StorageTypes StorageCluster NetStorage Storage StorageLaws WorkloadCluster AutoscalerExamples.

#[export] Instance phases : StoragePhases :=
  {| Creating := "Creating"; Updating := "Updating"; Deleting := "Deleting"; StoragePrestopHookFinalizer := "prestophook" |}.

Record FakeStore := mkStore {
  fs_nodes : gmap (string * string) K8sNode;
  fs_pods : gmap (string * string) K8sPod;
  fs_pvs : gmap (string * string) K8sPV;
  fs_pvcs : gmap (string * string) K8sPVC;
  fs_attachments : gmap (string * string) VolumeAttachment;
  fs_secrets : gmap (string * string) K8sSecret;
  fs_clusters : gmap (string * string) K8sStorageCluster;
  fs_iscsis : gmap (string * string) K8sIscsi;
  fs_nfss : gmap (string * string) K8sNfs;
  fs_devices : list ClusterAgentBlockDevice;
  fs_faults : list bool   (* [true] makes a call fail *)
}.
Definition put_nodes x (k : FakeStore) : FakeStore :=
  mkStore x k.(fs_pods) k.(fs_pvs) k.(fs_pvcs) k.(fs_attachments) k.(fs_secrets) k.(fs_clusters) k.(fs_iscsis) k.(fs_nfss) k.(fs_devices) k.(fs_faults).
Definition put_pods x (k : FakeStore) : FakeStore :=
  mkStore k.(fs_nodes) x k.(fs_pvs) k.(fs_pvcs) k.(fs_attachments) k.(fs_secrets) k.(fs_clusters) k.(fs_iscsis) k.(fs_nfss) k.(fs_devices) k.(fs_faults).
Definition put_pvs x (k : FakeStore) : FakeStore :=
  mkStore k.(fs_nodes) k.(fs_pods) x k.(fs_pvcs) k.(fs_attachments) k.(fs_secrets) k.(fs_clusters) k.(fs_iscsis) k.(fs_nfss) k.(fs_devices) k.(fs_faults).
Definition put_pvcs x (k : FakeStore) : FakeStore :=
  mkStore k.(fs_nodes) k.(fs_pods) k.(fs_pvs) x k.(fs_attachments) k.(fs_secrets) k.(fs_clusters) k.(fs_iscsis) k.(fs_nfss) k.(fs_devices) k.(fs_faults).
Definition put_attachments x (k : FakeStore) : FakeStore :=
  mkStore k.(fs_nodes) k.(fs_pods) k.(fs_pvs) k.(fs_pvcs) x k.(fs_secrets) k.(fs_clusters) k.(fs_iscsis) k.(fs_nfss) k.(fs_devices) k.(fs_faults).
Definition put_secrets x (k : FakeStore) : FakeStore :=
  mkStore k.(fs_nodes) k.(fs_pods) k.(fs_pvs) k.(fs_pvcs) k.(fs_attachments) x k.(fs_clusters) k.(fs_iscsis) k.(fs_nfss) k.(fs_devices) k.(fs_faults).
Definition put_clusters x (k : FakeStore) : FakeStore :=
  mkStore k.(fs_nodes) k.(fs_pods) k.(fs_pvs) k.(fs_pvcs) k.(fs_attachments) k.(fs_secrets) x k.(fs_iscsis) k.(fs_nfss) k.(fs_devices) k.(fs_faults).
Definition put_iscsis x (k : FakeStore) : FakeStore :=
  mkStore k.(fs_nodes) k.(fs_pods) k.(fs_pvs) k.(fs_pvcs) k.(fs_attachments) k.(fs_secrets) k.(fs_clusters) x k.(fs_nfss) k.(fs_devices) k.(fs_faults).
Definition put_nfss x (k : FakeStore) : FakeStore :=
  mkStore k.(fs_nodes) k.(fs_pods) k.(fs_pvs) k.(fs_pvcs) k.(fs_attachments) k.(fs_secrets) k.(fs_clusters) k.(fs_iscsis) x k.(fs_devices) k.(fs_faults).
Definition put_faults x (k : FakeStore) : FakeStore :=
  mkStore k.(fs_nodes) k.(fs_pods) k.(fs_pvs) k.(fs_pvcs) k.(fs_attachments) k.(fs_secrets) k.(fs_clusters) k.(fs_iscsis) k.(fs_nfss) k.(fs_devices) x.
Definition fs_pop (k : FakeStore) : bool * FakeStore := (default false (head k.(fs_faults)), put_faults (tail k.(fs_faults)) k).

#[export] Instance store_nodes : KubeKind FakeStore K8sNode := fake_kind fs_nodes put_nodes fs_pop.
#[export] Instance store_nodes_laws : KubeLaws FakeStore K8sNode.
Proof. by apply fake_laws. Qed.
#[export] Instance store_pods : KubeKind FakeStore K8sPod := fake_kind fs_pods put_pods fs_pop.
#[export] Instance store_pods_laws : KubeLaws FakeStore K8sPod.
Proof. by apply fake_laws. Qed.
#[export] Instance store_pvs : KubeKind FakeStore K8sPV := fake_kind fs_pvs put_pvs fs_pop.
#[export] Instance store_pvs_laws : KubeLaws FakeStore K8sPV.
Proof. by apply fake_laws. Qed.
#[export] Instance store_pvcs : KubeKind FakeStore K8sPVC := fake_kind fs_pvcs put_pvcs fs_pop.
#[export] Instance store_pvcs_laws : KubeLaws FakeStore K8sPVC.
Proof. by apply fake_laws. Qed.
#[export] Instance store_attachments : KubeKind FakeStore VolumeAttachment := fake_kind fs_attachments put_attachments fs_pop.
#[export] Instance store_attachments_laws : KubeLaws FakeStore VolumeAttachment.
Proof. by apply fake_laws. Qed.
#[export] Instance store_secrets : KubeKind FakeStore K8sSecret := fake_kind fs_secrets put_secrets fs_pop.
#[export] Instance store_secrets_laws : KubeLaws FakeStore K8sSecret.
Proof. by apply fake_laws. Qed.
#[export] Instance store_clusters : KubeKind FakeStore K8sStorageCluster := fake_kind fs_clusters put_clusters fs_pop.
#[export] Instance store_clusters_laws : KubeLaws FakeStore K8sStorageCluster.
Proof. by apply fake_laws. Qed.
#[export] Instance store_iscsis : KubeKind FakeStore K8sIscsi := fake_kind fs_iscsis put_iscsis fs_pop.
#[export] Instance store_iscsis_laws : KubeLaws FakeStore K8sIscsi.
Proof. by apply fake_laws. Qed.
#[export] Instance store_nfss : KubeKind FakeStore K8sNfs := fake_kind fs_nfss put_nfss fs_pop.
#[export] Instance store_nfss_laws : KubeLaws FakeStore K8sNfs.
Proof. by apply fake_laws. Qed.
#[export] Instance store_select_pods : KubeSelect FakeStore K8sPod := fun ns _ k =>
  (Ok (snd <$> filter (fun ko => kube_key ko.2 = ko.1 /\ fst ko.1 = ns) (map_to_list k.(fs_pods))), k).
#[export] Instance store_agent : ClusterAgent FakeStore := {| agent_storage _ _ := Some []; agent_devices k := Some k.(fs_devices) |}.
#[export] Hint Extern 1 (KubeFrame FakeStore _ _) => split; intros; fake_frame : typeclass_instances.
#[export] Hint Extern 1 (KubeDeleteFrame FakeStore _ _) => intros ???; fake_frame : typeclass_instances.
#[export] Instance store_frames : StorageFrames FakeStore.
Proof. split; apply _. Qed.

Definition empty_store : FakeStore := mkStore ∅ ∅ ∅ ∅ ∅ ∅ ∅ ∅ ∅ [] [].
Definition within (k : FakeStore) : gmap string FakeStore := {["c" := k]}.
Definition admin : option string := Some Administrator.

(** The end of a run in the only cluster there is. *)
Lemma within_after {E A} (r : result E A) (ks : gmap string FakeStore) (run : result E A * gmap string FakeStore) :
  fst run = r -> is_some (snd run !! "c") = true ->
  exists k', run = (r, snd run) /\ snd run !! "c" = Some k'.
Proof. intros Hr Hs. exists (default empty_store (snd run !! "c")). split; [by apply pair_eq_snd|by apply some_default]. Qed.

(** ** Nodes *)

Definition node (name : string) (taints : list Taint) (unschedulable : bool) : K8sNode :=
  mkK8sNode name {[(zkeRoleLabelPrefix +:+ "worker") := "true"]} ∅ taints unschedulable
    [("InternalIP", "10.0.0.1"); ("Hostname", name)] {["cpu" := "4"; "memory" := "8"; "pods" := "110"]} "linux" "4.4" "os" "docker" [] 0 None.
Definition drained_taint : Taint := mkTaint nodeDrainedNoExecuteTaintKey "" "NoExecute" (Some 1).
Definition gpu_taint : Taint := mkTaint "gpu" "" "NoSchedule" None.
Definition with_node (n : K8sNode) : FakeStore := put_nodes {[("", n.(kn_Name)) := n]} empty_store.
Definition scheduling (ks : gmap string FakeStore) : option (list string * bool) :=
  match ks !! "c" with
  | Some k => (fun n => (ta_Key <$> n.(kn_Taints), n.(kn_Unschedulable))) <$> k.(fs_nodes) !! ("", "n1")
  | None => None
  end.

Lemma with_node_ok n : node_ok n -> nodes_ok (with_node n).
Proof. intros Hn m o Ho. unfold with_node in Ho. simpl in Ho. apply lookup_singleton_Some in Ho as [_ <-]. done. Qed.

Lemma node_actions_refine_witness :
  exists ks' k',
    Action admin "c" "n1" NodeDrain 7 (within (with_node (node "n1" [gpu_taint] false))) = (Ok tt, ks') /\ ks' !! "c" = Some k' /\
    nodes_ok k' /\ node_stepped NodeDrain "n1" (with_node (node "n1" [gpu_taint] false)) k'.
Proof.
  set (k := with_node (node "n1" [gpu_taint] false)).
  destruct (within_after (Ok tt) (within k) (Action admin "c" "n1" NodeDrain 7 (within k))) as (k' & Hr & Hk');
    [vm_compute; reflexivity..|].
  eexists _, k'. split; [exact Hr|]. split; [exact Hk'|].
  destruct (node_actions_refine admin "c" "n1" NodeDrain 7 (within k) _ k k' (Ok tt)
              (or_intror (or_intror eq_refl)) Hr (lookup_singleton_eq _ _) Hk') as (Hok & _ & Hst).
  - apply with_node_ok. split; [vm_compute; lia|done].
  - split; [exact Hok|exact Hst].
Defined.
(** Drained and put back: the taint of another stays. *)
Example drained_and_back :
  let ks1 := snd (Action admin "c" "n1" NodeDrain 7 (within (with_node (node "n1" [gpu_taint] false)))) in
  let ks2 := snd (Action admin "c" "n1" NodeUnCordon 8 ks1) in
  scheduling ks1 = Some (["gpu"; nodeDrainedNoExecuteTaintKey], true) /\ scheduling ks2 = Some (["gpu"], false).
Proof. vm_compute. auto. Qed.
(** A drained node that another client made schedulable again keeps its taint for ever: no
    action is allowed on it. *)
Lemma drained_node_stuck :
  let ks := within (with_node (node "n1" [drained_taint] false)) in
  Forall (fun action => fst (Action admin "c" "n1" action 7 ks) = Err PermissionDenied) [NodeCordon; NodeUnCordon; NodeDrain].
Proof. repeat constructor. Qed.
(** The share of a node that reports no resources is no number. *)
Lemma ratio_of_nothing : ratio 0 0 = "NaN".
Proof. reflexivity. Qed.

(** ** Claims *)

Definition pvc (name phase volume driver : string) : K8sPVC :=
  mkK8sPVC "default" name {[annStorageProvisioner := driver]} ["ReadWriteOnce"] {[ResourceStorage := "1"]} (Some "lvm") None volume
    {[ResourceStorage := "1"]} phase 0 None.
Definition mounting (pod claim : string) : K8sPod :=
  mkK8sPod "default" pod ∅ [] (mkPodSpec [] [mkK8sVolume "v" (mkSource None None (Some claim) None)]) "n1" "Running" None "" "" [] [] 0 None.
Definition claim_store (claims : list K8sPVC) : FakeStore :=
  put_pvcs (list_to_map ((fun c => (kube_key c, c)) <$> claims))
    (put_pods {[("default", "web-0") := mounting "web-0" "data"]}
      (put_pvs {[("", "pv1") := mkK8sPV "pv1" ∅ "lvm" None "Bound" 0 None]}
        (put_attachments {[("", "va1") := mkAttachment "va1" "a.lvm.storage.zcloud.cn" (Some "pv1") "n1" true]} empty_store))).
Definition data : K8sPVC := pvc "data" "Bound" "pv1" "a.lvm.storage.zcloud.cn".
Definition spare : K8sPVC := pvc "spare" "Bound" "pv2" "a.lvm.storage.zcloud.cn".

Lemma claims_guarded_witness :
  let k := claim_store [data; spare] in
  exists ks' k',
    VolumeClaim.Delete "c" "default" "spare" (within k) = (Ok tt, ks') /\ ks' !! "c" = Some k' /\
    (kube_objects (Obj := K8sPVC) k' = delete ("default", "spare") (kube_objects k) \/
     exists marked : K8sPVC, kube_deleting marked = true /\ kube_objects k' = <[("default", "spare") := marked]> (kube_objects k)).
Proof.
  intros k.
  destruct (within_after (Ok tt) (within k) (VolumeClaim.Delete "c" "default" "spare" (within k))) as (k' & Hr & Hk');
    [vm_compute; reflexivity..|].
  eexists _, k'. split; [exact Hr|]. split; [exact Hk'|].
  destruct (claims_guarded "c" "default" (within k) _ k k' (lookup_singleton_eq _ _) Hk') as [Hd _].
  exact (proj2 (Hd "spare" (Ok tt) Hr)).
Defined.
(** A claim in use is not deleted, and not extended when it is local and said to be in use. *)
Example claim_in_use : fst (VolumeClaim.Delete "c" "default" "data" (within (claim_store [data]))) = Err ServerError.
Proof. reflexivity. Qed.
Definition used_shown (r : result workload_error (option (list PersistentVolumeClaim))) : option (list (string * bool * list string)) :=
  match r with Ok (Some l) => Some ((fun p => (p.(pvc_Name), p.(pvc_Used), p.(pvc_Pods))) <$> l) | _ => None end.
Definition claims_listed (k : FakeStore) : result workload_error (option (list PersistentVolumeClaim)) :=
  fst (VolumeClaim.List (∅ : gmap string string) "c" "default" (within k)).
Example claim_shown : used_shown (claims_listed (claim_store [data])) = Some [("data", true, ["web-0"])].
Proof. reflexivity. Qed.
(** Behind a claim that waits for its volume, a claim in use is shown as unused. *)
Lemma pending_claim_hides_use :
  used_shown (claims_listed (claim_store [pvc "aaa" "Pending" "" ""; data])) = Some [("aaa", false, []); ("data", false, [])].
Proof. reflexivity. Qed.
(** When the use cannot be found out, the answer is a success without a list. *)
Lemma claims_error_hidden : claims_listed (put_faults [false; true] (claim_store [data])) = Ok None.
Proof. reflexivity. Qed.
(** A local volume in use is extended when the request does not say that it is used. *)
Definition bigger (used : bool) : PersistentVolumeClaim := mkPVC "data" "data" "1" "lvm" "pv1" "2" "Bound" "a.lvm.storage.zcloud.cn" used [] "" 0 None.
Lemma use_is_the_requests :
  fst (VolumeClaim.Update "c" "default" (bigger true) (within (claim_store [data]))) = Err ConnectClusterFailed /\
  is_ok (fst (VolumeClaim.Update "c" "default" (bigger false) (within (claim_store [data])))) = true.
Proof. split; reflexivity. Qed.

(** ** Storages *)

Definition no_size : Capacity := mkCapacity (mkSize "" "" "") [].
Definition lvm (hosts : list string) (phase : string) : K8sStorageCluster := mkStorageCluster "local" ∅ LvmType hosts phase no_size [] [] 0 None.
Definition storage_of (name typ : string) (parameter : StorageParameter) : Storage :=
  mkStorage "" name typ parameter false "" "" "" "" [] [] 0 None.
Definition share : Storage := storage_of "share" NfsType (mkParameter None None None (Some (mkNfsParameter "10.0.0.9" "/data"))).
Definition handles : list (StorageHandle FakeStore) := storageHandles.
Definition lvm_store : FakeStore := put_clusters {[("", "local") := lvm ["n1"] "Running"]} empty_store.

Lemma lvm_store_names : names_ok handles has_storage lvm_store.
Proof.
  assert (Hone : forall t n, has_storage t n lvm_store -> t = LvmType).
  { intros t n [(o & Ho & _ & Ht)|[(o & Ho & _)|(o & Ho & _)]]; [|done|done].
    unfold lvm_store in Ho. simpl in Ho. apply lookup_singleton_Some in Ho as [_ <-]. by injection Ht as <-. }
  split; [intros t t' n Ha Hb; by rewrite (Hone t n Ha), (Hone t' n Hb)|]. intros t n ->%Hone. by left.
Qed.
Lemma storage_requests_witness :
  exists ks' k',
    storage_request handles admin "c" (RqCreate share) (within lvm_store) = (Ok tt, ks') /\ ks' !! "c" = Some k' /\
    names_ok handles has_storage k' /\ storages_after has_storage (RqCreate share) lvm_store k'.
Proof.
  destruct (within_after (Ok tt) (within lvm_store) (storage_request handles admin "c" (RqCreate share) (within lvm_store)))
    as (k' & Hr & Hk'); [vm_compute; reflexivity..|].
  eexists _, k'. split; [exact Hr|]. split; [exact Hk'|].
  destruct (storage_requests admin "c" (RqCreate share) (within lvm_store) _ lvm_store k' (Ok tt) Hr (lookup_singleton_eq _ _) Hk' lvm_store_names)
    as (Hok & _ & Hst).
  split; [exact Hok|exact Hst].
Defined.
Definition storage_call (rq : StorageRequest) (k : FakeStore) : result workload_error unit * FakeStore :=
  let r := storage_request handles admin "c" rq (within k) in (fst r, default empty_store (snd r !! "c")).

(** A name that is taken, and one that no storage has, are answered as a cluster that cannot
    be reached. *)
Lemma names_misreported :
  fst (storage_call (RqCreate (storage_of "local" NfsType no_parameter)) lvm_store) = Err (Answer ConnectClusterFailed) /\
  fst (storage_call (RqDelete "none") lvm_store) = Err (Answer ConnectClusterFailed).
Proof. split; reflexivity. Qed.
(** An update without the parameter of its type ends in a panic. *)
Lemma update_panics : fst (storage_call (RqUpdate (storage_of "local" LvmType no_parameter)) lvm_store) = Err Panic.
Proof. reflexivity. Qed.
(** The hosts of an LVM storage may leave while a volume is attached to them when the request
    calls it CephFS. *)
Definition attached_store : FakeStore :=
  put_attachments {[("", "va") := mkAttachment "va" "local.lvm.storage.zcloud.cn" (Some "pv") "n1" true]} lvm_store.
Lemma type_of_request_trusted :
  fst (storage_call (RqUpdate (storage_of "local" LvmType (mkParameter (Some []) None None None))) attached_store) = Err (Answer ConnectClusterFailed) /\
  fst (storage_call (RqUpdate (storage_of "local" CephfsType (mkParameter None (Some []) None None))) attached_store) = Ok tt.
Proof. split; reflexivity. Qed.

(** An iSCSI storage with authentication whose creation fails behind its secret can never be
    created again under its name. *)
Definition san : Storage :=
  storage_of "san" IscsiType
    (mkParameter None None (Some (mkIscsiParameter (Some ["10.0.0.8"]) "3260" "iqn" true "u" "p" (Some ["n1"]))) None).
Definition node_store : FakeStore := with_node (node "n1" [] false).
Definition half_created : result workload_error unit * FakeStore :=
  storage_call (RqCreate san) (put_faults [false; false; false; false; false; false; false; true] node_store).
Example san_created : fst (storage_call (RqCreate san) node_store) = Ok tt.
Proof. vm_compute. reflexivity. Qed.
Lemma iscsi_creation_stuck :
  fst half_created = Err (Answer ConnectClusterFailed) /\ half_created.2.(fs_iscsis) = ∅ /\
  fst (storage_call (RqCreate san) half_created.2) = Err (Answer DuplicateResource).
Proof. vm_compute. auto. Qed.
(** One whose deletion fails behind that of its secret can never be deleted. *)
Definition san_store : FakeStore := snd (storage_call (RqCreate san) node_store).
Definition half_deleted : result workload_error unit * FakeStore :=
  storage_call (RqDelete "san") (put_faults [false; false; false; false; false; false; true] san_store).
Lemma iscsi_deletion_stuck :
  fst (storage_call (RqDelete "san") san_store) = Ok tt /\
  fst half_deleted = Err (Answer ConnectClusterFailed) /\ is_some (half_deleted.2.(fs_iscsis) !! ("", "san")) = true /\
  fst (storage_call (RqDelete "san") half_deleted.2) = Err (Answer ConnectClusterFailed).
Proof. vm_compute. auto. Qed.

(** Behind a host whose instance has failed every host is shown as failed. *)
Lemma later_hosts_failed :
  sn_Stat <$> genStorageNodeFromInstances
    [mkInstance "a" false (mkSize "1" "0" "1"); mkInstance "b" true (mkSize "1" "0" "1")] = [false; false].
Proof. vm_compute. reflexivity. Qed.
