(* ===== verification/WorkFlowExamples.v ===== *)
(** A cluster in memory with the objects of the pipeline operator, and the runs that show what
    the handlers of workflows do: instances of the theorem, and where the program differs from
    what it says. *)
From S2P Require Import Prelude KvStore GoStrings GoText RestApi KubeApi ConfigMap Secret PersistentVolume PodTemplate Workload Deployment.
From S2P Require Import WorkFlow WorkFlowTask WorkFlowLaws WorkloadCluster.

Record FakePipelines := mkPipelines {
  fp_base : FakeCluster;
  fp_secrets : gmap (string * string) WorkFlowSecret;
  fp_accounts : gmap (string * string) ServiceAccount;
  fp_bindings : gmap (string * string) ClusterRoleBinding;
  fp_resources : gmap (string * string) PipelineResource;
  fp_runs : gmap (string * string) PipelineRun
}.
Definition on_base (f : FakeCluster -> FakeCluster) (k : FakePipelines) : FakePipelines :=
  mkPipelines (f k.(fp_base)) k.(fp_secrets) k.(fp_accounts) k.(fp_bindings) k.(fp_resources) k.(fp_runs).
Definition put_secrets x (k : FakePipelines) : FakePipelines :=
  mkPipelines k.(fp_base) x k.(fp_accounts) k.(fp_bindings) k.(fp_resources) k.(fp_runs).
Definition put_accounts x (k : FakePipelines) : FakePipelines :=
  mkPipelines k.(fp_base) k.(fp_secrets) x k.(fp_bindings) k.(fp_resources) k.(fp_runs).
Definition put_bindings x (k : FakePipelines) : FakePipelines :=
  mkPipelines k.(fp_base) k.(fp_secrets) k.(fp_accounts) x k.(fp_resources) k.(fp_runs).
Definition put_resources x (k : FakePipelines) : FakePipelines :=
  mkPipelines k.(fp_base) k.(fp_secrets) k.(fp_accounts) k.(fp_bindings) x k.(fp_runs).
Definition put_runs x (k : FakePipelines) : FakePipelines :=
  mkPipelines k.(fp_base) k.(fp_secrets) k.(fp_accounts) k.(fp_bindings) k.(fp_resources) x.
Definition fp_pop (k : FakePipelines) : bool * FakePipelines := let (b, c) := fk_pop k.(fp_base) in (b, on_base (fun _ => c) k).

#[export] Instance pipeline_pvs : KubeKind FakePipelines K8sPV := fake_kind (fun k => fk_pvs (fp_base k)) (fun x => on_base (set_pvs x)) fp_pop.
#[export] Instance pipeline_pvcs : KubeKind FakePipelines K8sPVC := fake_kind (fun k => fk_pvcs (fp_base k)) (fun x => on_base (set_pvcs x)) fp_pop.
#[export] Instance pipeline_classes : KubeKind FakePipelines K8sStorageClass := fake_kind (fun k => fk_classes (fp_base k)) (fun x => on_base (set_classes x)) fp_pop.
#[export] Instance pipeline_configmaps : KubeKind FakePipelines K8sConfigMap := fake_kind (fun k => fk_configmaps (fp_base k)) (fun x => on_base (set_configmaps x)) fp_pop.
#[export] Instance pipeline_k8ssecrets : KubeKind FakePipelines K8sSecret := fake_kind (fun k => fk_secrets (fp_base k)) (fun x => on_base (set_secrets x)) fp_pop.
#[export] Instance pipeline_deployments : KubeKind FakePipelines K8sDeployment := fake_kind (fun k => fk_deployments (fp_base k)) (fun x => on_base (set_deployments x)) fp_pop.
#[export] Instance pipeline_secrets : KubeKind FakePipelines WorkFlowSecret := fake_kind fp_secrets put_secrets fp_pop.
#[export] Instance pipeline_accounts : KubeKind FakePipelines ServiceAccount := fake_kind fp_accounts put_accounts fp_pop.
#[export] Instance pipeline_accounts_laws : KubeLaws FakePipelines ServiceAccount.
Proof. by apply fake_laws. Qed.
#[export] Instance pipeline_bindings : KubeKind FakePipelines ClusterRoleBinding := fake_kind fp_bindings put_bindings fp_pop.
#[export] Instance pipeline_bindings_laws : KubeLaws FakePipelines ClusterRoleBinding.
Proof. by apply fake_laws. Qed.
#[export] Instance pipeline_resources : KubeKind FakePipelines PipelineResource := fake_kind fp_resources put_resources fp_pop.
#[export] Instance pipeline_resources_laws : KubeLaws FakePipelines PipelineResource.
Proof. by apply fake_laws. Qed.
#[export] Instance pipeline_resources_deletion : KubeKeepsDeletion FakePipelines PipelineResource.
Proof. by apply fake_keeps_deletion. Qed.
#[export] Instance pipeline_runs : KubeKind FakePipelines PipelineRun := fake_kind fp_runs put_runs fp_pop.
Definition select_labelled {Obj} `{KubeObject Obj} (get : FakePipelines -> gmap (string * string) Obj) (labels : Obj -> gmap string string)
    (ns : string) (selector : gmap string string) : M FakePipelines kube_error (list Obj) :=
  fun k => (Ok (snd <$> filter (fun ko => fst ko.1 = ns /\ matches selector (labels ko.2) = true) (map_to_list (get k))), k).
#[export] Instance pipeline_select_secrets : KubeSelect FakePipelines WorkFlowSecret := select_labelled fp_secrets wc_Labels.
#[export] Instance pipeline_select_runs : KubeSelect FakePipelines PipelineRun := select_labelled fp_runs pn_Labels.
#[export] Hint Extern 1 (KubeFrame FakePipelines _ _) => split; intros; fake_frame : typeclass_instances.
#[export] Hint Extern 1 (KubeDeleteFrame FakePipelines _ _) => intros ???; fake_frame : typeclass_instances.
#[export] Hint Extern 1 (KubeSelectFrame FakePipelines _ _) => (intros ???; done) : typeclass_instances.
#[export] Hint Extern 1 (Apart FakePipelines _) => split; apply _ : typeclass_instances.
#[export] Hint Extern 1 (ApartDelete FakePipelines _) => split; apply _ : typeclass_instances.
#[export] Hint Extern 1 (ApartSelect FakePipelines _) => split; apply _ : typeclass_instances.

(** ** Texts: a workflow is written as its name *)

Definition no_deployment : Deployment := mkDeployment "" "" 0 [] (mkOptions (mkMetric "" 0) false false false) [] (mkStatus 0 false 0 0 0 []) "" 0 None.
Definition workflow (name : string) : WorkFlow :=
  mkWorkFlow name name (mkGit "https://git.example/app" "master" "" "") (mkImage "registry.example.com/app" "user" "secret") false no_deployment
    [] no_status 0 None.
#[export] Instance name_text : WorkFlowText := {|
  marshal_workflow w := Some w.(wf_Name);
  unmarshal_workflow s := if String.eqb s "" then None else Some (workflow s);
  url_parse s := Some ("https", "git.example");
  deploy_yaml _ _ := Some "yaml"
|}.
Definition empty_pipelines : FakePipelines :=
  mkPipelines empty_cluster ∅ ∅ {[("", zcloudWorkFlowClusterRoleBindingName) := mkBinding zcloudWorkFlowClusterRoleBindingName []]} ∅ ∅.
Definition within (k : FakePipelines) : gmap string FakePipelines := {["c" := k]}.
Definition pipelines_of (ks : gmap string FakePipelines) : FakePipelines := default empty_pipelines (ks !! "c").
Definition created : gmap string FakePipelines := snd (WorkFlow.Create "c" "ns" 7 "x1" "x2" (workflow "app") (within empty_pipelines)).
Definition live_in (ns name : string) (ks : gmap string FakePipelines) : bool :=
  match (pipelines_of ks).(fp_resources) !! (ns, name) with Some o => negb (kube_deleting o) | None => false end.
Definition deployers (ks : gmap string FakePipelines) : list (string * string) :=
  match (pipelines_of ks).(fp_bindings) !! ("", zcloudWorkFlowClusterRoleBindingName) with
  | Some b => (fun s => (s.(su_Namespace), s.(su_Name))) <$> b.(cb_Subjects)
  | None => []
  end.
Definition answer_of {A} (r : result Workload.workload_error A) : result Workload.workload_error unit :=
  match r with Ok _ => Ok tt | Err e => Err e end.

(** A second workflow of a name is refused, and the first one loses the right to deploy. *)
Lemma refused_creation_takes_the_right :
  let again := WorkFlow.Create "c" "ns" 8 "x3" "x4" (workflow "app") created in
  deployers created = [("ns", "app")] /\
  answer_of (fst again) = Err (Answer DuplicateResource) /\ live_in "ns" "app" (snd again) = true /\ deployers (snd again) = [].
Proof. vm_compute. auto. Qed.
Definition in_cluster (f : FakePipelines -> FakePipelines) (ks : gmap string FakePipelines) : gmap string FakePipelines := within (f (pipelines_of ks)).
Definition failing (faults : list bool) : gmap string FakePipelines -> gmap string FakePipelines := in_cluster (on_base (set_faults faults)).
(** A deletion that cannot reach the cluster is answered with success. *)
Lemma failed_deletion_succeeds :
  let gone := WorkFlow.Delete "c" "ns" "app" (failing [true] created) in
  fst gone = Ok tt /\ live_in "ns" "app" (snd gone) = true.
Proof. vm_compute. auto. Qed.
(** The deletion of a workflow that was never deployed ends with an error, after the workflow
    is gone. *)
Lemma undeployed_deletion_fails :
  let gone := WorkFlow.Delete "c" "ns" "app" created in
  fst gone = Err (Answer ServerError) /\ live_in "ns" "app" (snd gone) = false.
Proof. vm_compute. auto. Qed.
(** ... and a deletion that was cut off is never completed: the workflow is not found again,
    which is answered with success, and its account keeps the right to deploy. *)
Lemma half_deletion_stays :
  let half := WorkFlow.Delete "c" "ns" "app" (failing [false; false; false; true] created) in
  let again := WorkFlow.Delete "c" "ns" "app" (snd half) in
  fst half = Err (Answer ServerError) /\ fst again = Ok tt /\ deployers (snd again) = [("ns", "app")].
Proof. vm_compute. auto. Qed.
(** An update loses which run was the latest, and the workflow is shown without a state. *)
Definition latest (ks : gmap string FakePipelines) : option string :=
  match (pipelines_of ks).(fp_resources) !! ("ns", "app") with
  | Some o => o.(pr_Annotations) !! zcloudWorkFlowLatestTaskIDAnnotationKey
  | None => None
  end.
Definition task : WorkFlowTask := mkWorkFlowTask "" "v1" [] no_status 0 None.
Definition started : gmap string FakePipelines := snd (WorkFlowTask.Create "c" "ns" "app" 9 "y1" task created).
Lemma update_forgets_latest :
  let updated := WorkFlow.Update "c" "ns" "z" (workflow "app") started in
  latest started = Some "app-y1" /\ answer_of (fst updated) = Ok tt /\ latest (snd updated) = None.
Proof. vm_compute. auto. Qed.
(** A run that the operator did not begin yet has no status, and a second one is accepted. *)
Lemma second_run_accepted :
  answer_of (fst (WorkFlowTask.Create "c" "ns" "app" 10 "y2" task started)) = Ok tt.
Proof. vm_compute. auto. Qed.
(** A workflow whose latest run is gone is answered as if it did not exist. *)
Lemma lost_run_hides_workflow :
  fst (WorkFlow.Get "c" "ns" "app" (in_cluster (put_runs ∅) started)) = Err (Answer NotFound) /\
  live_in "ns" "app" (in_cluster (put_runs ∅) started) = true.
Proof. vm_compute. auto. Qed.
(** An update in a cluster that is not there is answered with success and nothing. *)
Lemma update_of_missing_cluster : WorkFlow.Update "d" "ns" "z" (workflow "app") created = (Ok None, created).
Proof. reflexivity. Qed.
(** The built image is put into every container whose image has its name somewhere. *)
Lemma image_by_part :
  let other := mkContainer "side" "mirror/registry.example.com/app-metrics:2" [] [] [] [] [] in
  co_Image <$> built_containers (workflow "app") "v1" [other] = ["registry.example.com/app:v1"].
Proof. reflexivity. Qed.

(** An instance of the theorem: another workflow is created beside the first one. *)
Lemma created_resources :
  fp_resources (pipelines_of created) =
    {[("ns", "app") := mkPipelineResource "ns" "app" {[zcloudWorkFlowContentAnnotationKey := "app"]} "git" (git_params (workflow "app").(wf_Git)) None]}.
Proof. vm_compute. reflexivity. Qed.
Lemma created_served : served (pipelines_of created).
Proof.
  intros key (o & Ho & _). change (fp_resources (pipelines_of created) !! key = Some o) in Ho.
  rewrite created_resources in Ho. apply lookup_singleton_Some in Ho as [<- _]. split.
  - apply is_Some_alt. vm_compute. exact I.
  - exists (mkBinding zcloudWorkFlowClusterRoleBindingName [mkSubject "ServiceAccount" "app" "ns"]). split; [vm_compute; reflexivity|].
    exists (mkSubject "ServiceAccount" "app" "ns"). split; [apply list_elem_of_here|]. split; reflexivity.
Qed.
Lemma workflows_served_witness :
  exists ks' k',
    run "c" (CreateRequest "ns" 8 "x3" "x4" (workflow "lib")) created = (Ok tt, ks') /\ ks' !! "c" = Some k' /\ served k' /\
    (forall key, live key (pipelines_of created) -> live key k').
Proof.
  set (rq := CreateRequest "ns" 8 "x3" "x4" (workflow "lib")).
  assert (Hr : fst (run "c" rq created) = Ok tt) by (vm_compute; reflexivity).
  assert (Hs : is_some (snd (run "c" rq created) !! "c") = true) by (vm_compute; reflexivity).
  exists (snd (run "c" rq created)), (default empty_pipelines (snd (run "c" rq created) !! "c")).
  assert (Hk : created !! "c" = Some (pipelines_of created)) by (apply some_default; vm_compute; reflexivity).
  destruct (workflows_served "c" rq created _ _ (default empty_pipelines (snd (run "c" rq created) !! "c")) (Ok tt)
              (pair_eq_snd _ _ Hr) Hk (some_default _ _ Hs)) as (Hs' & _ & Hl).
  - intros key [= <-] (o & Ho & _). change (fp_resources (pipelines_of created) !! ("ns", "lib") = Some o) in Ho.
    rewrite created_resources in Ho. apply lookup_singleton_Some in Ho as [Hne _]. discriminate Hne.
  - exact created_served.
  - split; [exact (pair_eq_snd _ _ Hr)|]. split; [exact (some_default _ _ Hs)|]. split; [exact Hs'|].
    intros key Hkey. destruct (Hl key Hkey) as [Hl'|Hl']; [exact Hl'|discriminate Hl'].
Defined.
