(* ===== verification/FluentBitExamples.v ===== *)
(** A cluster in memory with the config map of fluent-bit and a reader of its parsers: the
    instances of the theorems, and where the program differs from what it says. *)
From S2P Require Import Prelude GoStrings GoText RestApi KubeApi ConfigMap NetStorage WorkloadCluster FluentBit FluentBitLaws.

(** The options of a text with their sections: a line is a section, or a key and its value. *)
Definition ini_option (section line : string) : list (string * string * string) :=
  match Fields line with
  | key :: _ => [(section, key, TrimSpace (drop_bytes (String.length key) (TrimSpace line)))]
  | [] => []
  end.
Fixpoint ini_options (section : string) (lines : list string) : list (string * string * string) :=
  match lines with
  | [] => []
  | line :: lines =>
      if HasPrefix line "[" then ini_options (TrimSuffix (drop_bytes 1 line) "]") lines else ini_option section line ++ ini_options section lines
  end.
#[export] Instance simple_ini : Iniconfig := {|
  IniConfig := list (string * string * string);
  Ini_Read s := Some (ini_options "" (Split newline_byte s));
  HasSection cfg section := existsb (fun o => String.eqb o.1.1 section) cfg;
  SectionOptions cfg section := Some (snd ∘ fst <$> filter (fun o => o.1.1 = section) cfg);
  Ini_String cfg section key := snd <$> find (fun o => String.eqb o.1.1 section && String.eqb o.1.2 key) cfg
|}.

Definition service_file : string := "[SERVICE]" +:+ newline +:+ "    Flush 1" +:+ newline.
Definition docker_parser : string := "[PARSER]" +:+ newline +:+ "    Name   docker" +:+ newline +:+ "    Format json" +:+ newline.
Definition fluent_data : gmap string string := {[FluentBitConfigFileName := service_file; FluentBitConfigParsersFileName := docker_parser]}.
Definition fluent_cm (data : gmap string string) : K8sConfigMap := mkK8sConfigMap ZCloudNamespace "efk-fluent-bit-config" data "" 0 None.
Definition fluent_cluster (data : gmap string string) : FakeCluster :=
  set_configmaps {[(ZCloudNamespace, "efk-fluent-bit-config") := fluent_cm data]} empty_cluster.
Definition within (k : FakeCluster) : gmap string FakeCluster := {["c" := k]}.
Definition data_of (ks : gmap string FakeCluster) : gmap string string :=
  match ks !! "c" with
  | Some k => match k.(fk_configmaps) !! (ZCloudNamespace, "efk-fluent-bit-config") with Some cm => cm.(km_Data) | None => ∅ end
  | None => ∅
  end.
Definition logs (regexp time_key time_format : string) : FluentBitConfig := mkFluent "" "" "" "" "" regexp time_key time_format.

Lemma fluent_cluster_map data : fluent_map (fluent_cluster data) (fluent_cm data).
Proof.
  split; [apply lookup_singleton_eq|]. split; [reflexivity|]. split; [reflexivity|].
  intros cm' Hcm _ _. change (({[(ZCloudNamespace, "efk-fluent-bit-config") := fluent_cm data]} : gmap _ _) !! kube_key cm' = Some cm') in Hcm.
  by apply lookup_singleton_Some in Hcm as [_ <-].
Qed.

(** ** Instances *)

Definition begun : result (option api_error) FluentBitConfig * gmap string FakeCluster :=
  FluentBit.Create "c" "ns" "deployment" "web" (logs "^(?<time>[^ ]+) (?<log>.*)$" "time" "%d/%b") (within (fluent_cluster fluent_data)).
Definition web : FluentBitConfig :=
  mkFluent "ns_deployment_web" "ns_deployment_web" "ns" "deployment" "web" "^(?<time>[^ ]+) (?<log>.*)$" "time" "%d/%b".
Lemma fluent_requests_witness :
  exists name ks' k' cm', run "c" (CreateRequest "ns" "deployment" "web" (logs "^a$" "" "")) (within (fluent_cluster fluent_data)) = (Ok name, ks') /\
    ks' !! "c" = Some k' /\ fluent_map k' cm' /\ other_files name fluent_data cm'.(km_Data).
Proof.
  set (rq := CreateRequest "ns" "deployment" "web" (logs "^a$" "" "")).
  assert (Hr : fst (run "c" rq (within (fluent_cluster fluent_data))) = Ok "ns_deployment_web") by (vm_compute; reflexivity).
  assert (Hs : is_some (snd (run "c" rq (within (fluent_cluster fluent_data))) !! "c") = true) by (vm_compute; reflexivity).
  destruct (fluent_requests "c" rq (within (fluent_cluster fluent_data)) _ (fluent_cluster fluent_data) _ (fluent_cm fluent_data) _
              (pair_eq_snd _ _ Hr) (lookup_singleton_eq _ _) (some_default empty_cluster _ Hs) (fluent_cluster_map fluent_data)) as (cm' & Hm & Ho).
  exists "ns_deployment_web", (snd (run "c" rq (within (fluent_cluster fluent_data)))), (default empty_cluster (snd (run "c" rq (within (fluent_cluster fluent_data))) !! "c")), cm'. split; [exact (pair_eq_snd _ _ Hr)|]. split; [exact (some_default empty_cluster _ Hs)|]. split; [exact Hm|exact Ho].
Defined.

Lemma tidy_by s : (negb (String.eqb s "") && String.eqb (TrimRight " " s) s && negb (has_byte newline_byte s))%bool = true -> tidy s.
Proof.
  intros [[H1%negb_true_iff%String.eqb_neq H2%String.eqb_eq]%andb_true_iff H3%negb_true_iff]%andb_true_iff. by split.
Qed.
Lemma web_tidy : tidy_config web.
Proof.
  split; [apply tidy_by; vm_compute; reflexivity|]. split; [apply tidy_by; vm_compute; reflexivity|].
  right. split; apply tidy_by; vm_compute; reflexivity.
Qed.
Lemma web_reads : library_reads web.
Proof.
  intros cfg options [= <-] Ho. vm_compute in Ho. injection Ho as <-. split.
  - intros o. vm_compute written_options. by simpl.
  - intros o v Hov. vm_compute in Hov. repeat (apply elem_of_cons in Hov as [[= -> ->]|Hov]; [vm_compute; reflexivity|]). by apply elem_of_nil in Hov.
Qed.
Lemma logs_restored_witness :
  fst begun = Ok web /\ exists ks2 k2 cm2,
    FluentBit.Delete "c" "ns_deployment_web" (snd begun) = (Ok tt, ks2) /\ ks2 !! "c" = Some k2 /\
    fluent_map k2 cm2 /\ cm2.(km_Data) = fluent_data.
Proof.
  assert (Hb : fst begun = Ok web) by (vm_compute; reflexivity). split; [exact Hb|].
  assert (Hb1 : is_some (snd begun !! "c") = true) by (vm_compute; reflexivity).
  assert (Hd : fst (FluentBit.Delete "c" "ns_deployment_web" (snd begun)) = Ok tt) by (vm_compute; reflexivity).
  assert (Hd1 : is_some (snd (FluentBit.Delete "c" "ns_deployment_web" (snd begun)) !! "c") = true) by (vm_compute; reflexivity).
  destruct (logs_restored "c" "ns" "deployment" "web" (logs "^(?<time>[^ ]+) (?<log>.*)$" "time" "%d/%b") web
    (within (fluent_cluster fluent_data)) (snd begun) _ (fluent_cluster fluent_data) _ _ (fluent_cm fluent_data)
    (pair_eq_snd _ _ Hb) (pair_eq_snd _ _ Hd) (lookup_singleton_eq _ _) (some_default empty_cluster _ Hb1) (some_default empty_cluster _ Hd1)
    (fluent_cluster_map fluent_data)) as (cm2 & Hm & Hdata).
  - exact web_tidy.
  - vm_compute. reflexivity.
  - intros fb [= <-]. vm_compute. reflexivity.
  - intros pa [= <-]. vm_compute. reflexivity.
  - vm_compute. reflexivity.
  - exact web_reads.
  - eexists _, (default empty_cluster (snd (FluentBit.Delete "c" "ns_deployment_web" (snd begun)) !! "c")), cm2. split; [exact (pair_eq_snd _ _ Hd)|]. split; [exact (some_default empty_cluster _ Hd1)|]. split; [exact Hm|exact Hdata].
Defined.

(** ** What the runs show *)

Definition begin (name regexp time_key time_format : string) (ks : gmap string FakeCluster) :=
  FluentBit.Create "c" "ns" "deployment" name (logs regexp time_key time_format) ks.
Definition parsers (ks : gmap string FakeCluster) : option string := data_of ks !! FluentBitConfigParsersFileName.
Definition fresh : gmap string FakeCluster := within (fluent_cluster fluent_data).

(** The lines of a parser lose their trailing spaces when they are written, and are looked
    for with them when they are to be removed: a parser with a time key that has no format
    stays. *)
Lemma missing_format_stays :
  let ks := snd (FluentBit.Delete "c" "ns_deployment_web" (snd (begin "web" "^a$" "time" "" fresh))) in
  ContainsText (default "" (parsers ks)) "ns_deployment_web" = true.
Proof. vm_compute. reflexivity. Qed.
(** The logs of a workload whose name has a dot are collected twice. *)
Lemma dotted_name_twice : is_ok (fst (begin "web.v1" "^a$" "" "" (snd (begin "web.v1" "^a$" "" "" fresh)))) = true.
Proof. vm_compute. reflexivity. Qed.
(** What was never created is found, and can be updated, which adds a parser that no file
    includes. *)
Lemma unknown_found_and_updated :
  let c := mkFluent "ns_deployment_web" "" "" "" "" "^a$" "" "" in
  let updated := FluentBit.Update "c" "ns" "deployment" "web" c fresh in
  is_ok (fst (FluentBit.Get "c" "ns_deployment_web" fresh)) = true /\ is_ok (fst updated) = true /\
  ContainsText (default "" (parsers (snd updated))) "ns_deployment_web" = true /\
  data_of (snd updated) !! FluentBitConfigFileName = Some service_file.
Proof. vm_compute. auto. Qed.
(** That there is no fluent-bit is answered as a failure of the cluster, not as not found. *)
Lemma no_fluent_is_a_failure :
  fst (begin "web" "^a$" "" "" (within empty_cluster)) = Err (Some ConnectClusterFailed) /\
  fst (FluentBit.Get "c" "ns_deployment_web" (within empty_cluster)) = Err (Some ServerError).
Proof. vm_compute. auto. Qed.
(** An include without a name, which another client may have written, makes every creation
    panic. *)
Lemma bare_include_panics :
  fst (begin "web" "^a$" "" "" (within (fluent_cluster (<[FluentBitConfigFileName := "@INCLUDE.conf"]> fluent_data)))) = Err None.
Proof. vm_compute. reflexivity. Qed.
