(* ===== verification/ApplicationExamples.v ===== *)
(** A cluster in memory with the objects of the application operator and a directory of
    charts: the instances of the theorems, and where the program differs from what it says. *)
From S2P Require Import Prelude KvStore GoStrings GoText Authorizer RestApi KubeApi Namespace PersistentVolume NetStorage Chart Application SystemApp.
From S2P Require Import ApplicationLaws.

Record FakeApps := mkFakeApps {
  fa_namespaces : gmap (string * string) K8sNamespace;
  fa_apps : gmap (string * string) K8sApplication;
  fa_classes : gmap (string * string) K8sStorageClass;
  fa_faults : list bool
}.
Definition fa_pop (k : FakeApps) : bool * FakeApps :=
  (default false (head k.(fa_faults)), mkFakeApps k.(fa_namespaces) k.(fa_apps) k.(fa_classes) (tail k.(fa_faults))).
#[export] Instance apps_namespaces : KubeKind FakeApps K8sNamespace :=
  fake_kind fa_namespaces (fun x k => mkFakeApps x k.(fa_apps) k.(fa_classes) k.(fa_faults)) fa_pop.
#[export] Instance apps_apps : KubeKind FakeApps K8sApplication :=
  fake_kind fa_apps (fun x k => mkFakeApps k.(fa_namespaces) x k.(fa_classes) k.(fa_faults)) fa_pop.
#[export] Instance apps_classes : KubeKind FakeApps K8sStorageClass :=
  fake_kind fa_classes (fun x k => mkFakeApps k.(fa_namespaces) k.(fa_apps) x k.(fa_faults)) fa_pop.
#[export] Instance apps_apps_laws : KubeLaws FakeApps K8sApplication.
Proof. by apply fake_laws. Qed.
#[export] Instance apps_version : KubeVersion FakeApps := ret (mkCaps "v1.13.1" "1" "13").
#[export] Instance apps_version_frame : VersionFrame FakeApps K8sApplication.
Proof. by intros k. Qed.
Ltac apps_frame := intros; unfold same_kind; simpl; unfold fake_call; simpl; repeat (case_match; simplify_eq/=; try done).
#[export] Instance apps_frame_namespaces : KubeFrame FakeApps K8sNamespace K8sApplication.
Proof. split; apps_frame. Qed.
#[export] Instance apps_frame_classes : KubeFrame FakeApps K8sStorageClass K8sApplication.
Proof. split; apps_frame. Qed.

(** ** Texts and charts *)

#[export] Instance apps_chart_text : ChartText := {|
  unmarshal_configs s := if String.eqb s "" then Some [] else Some [mkChartConfig s "replicas" TypeInt true [] 1 10 0 0];
  unmarshal_info s := Some (mkChartInfo s (if String.eqb s "system" then [KeywordZcloudSystem] else []))
|}.
#[export] Instance apps_helm : Helm := {|
  unmarshal_settings s := if String.eqb s "nine" then Some [("replicas", JNumber 99 10)] else if String.eqb s "ten" then Some [("replicas", JNumber 10 1)] else Some [];
  HelmChart := string;
  LoadChart fs p := match ReadFile fs (JoinPath p [chartYamlFile]) with Ok s => Some s | Err _ => None end;
  RenderValues := string;
  ToRenderValues _ _ name _ _ := Some name;
  set_service _ v := v;
  Render _ v := Some {["deployment.yaml" := v; "NOTES.txt" := "read me"]};
  CRDs _ := [];
  GuessPluralName s := s +:+ "s"
|}.
#[export] Instance apps_certificates : SignedCertificates := fun domain _ _ => Some (domain, "key").
#[export] Instance apps_states : ApplicationStates := {| StateFailed := "failed"; StateSucceed := "succeed" |}.
#[export] Instance Prometheus_tree : Treeable Prometheus.
Proof.
  apply (iso_tree
    (fun p => (p.(pm_Hosts), p.(pm_AdminPassword), p.(pm_StorageClass), p.(pm_StorageSize), p.(pm_Retention), p.(pm_ScrapeInterval),
               p.(pm_AlertStorageClass), p.(pm_EtcdEnabled), p.(pm_EndPoints)))
    (fun '(a, b, c, d, e, f, g, h, i) => mkPrometheus a b c d e f g h i)).
  by intros [].
Defined.
#[export] Instance Prometheus_json : Json Prometheus := tree_json _ _.
#[export] Instance Prometheus_json_laws : JsonLaws Prometheus := tree_json_laws _ _.
#[export] Instance Prometheus_json_text : JsonText Prometheus := tree_json_text _ _.
#[export] Instance Harbor_tree : Treeable Harbor.
Proof.
  apply (iso_tree
    (fun p => (p.(hb_Core), p.(hb_CaCrt), p.(hb_TlsCrt), p.(hb_TlsKey), p.(hb_StorageClass), p.(hb_StorageSize), p.(hb_AdminPassword), p.(hb_ExternalURL)))
    (fun '(a, b, c, d, e, f, g, h) => mkHarbor a b c d e f g h)).
  by intros [].
Defined.
#[export] Instance Harbor_json : Json Harbor := tree_json _ _.
#[export] Instance EFKConfig_tree : Treeable EFKConfig.
Proof.
  apply (iso_tree (fun p => (p.(ec_Replicas), p.(ec_StorageClass), p.(ec_Storage), p.(ec_Hosts))) (fun '(a, b, c, d) => mkEFKConfig a b c d)).
  by intros [].
Defined.
#[export] Instance EFKConfig_json : Json EFKConfig := tree_json _ _.

Definition chart_at (p : path) (info configs : string) : FS :=
  {[p := Dir; (p ++ ["config"]) := Dir; (p ++ [chartYamlFile]) := File info; (p ++ ["config"; "config.json"]) := File configs]}.
Definition charts : FS :=
  {[["charts"] := Dir; ["charts"; "zcloud"] := Dir; ["charts"; "user"] := Dir; ["charts"; "user"; "web"] := Dir;
    ["charts"; "zcloud"; monitorChartName] := Dir; ["charts"; "zcloud"; efkChartName] := Dir]}
  ∪ chart_at ["charts"; "user"; "web"; "1.0"] "web" "replicas"
  ∪ chart_at ["charts"; "zcloud"; monitorChartName; monitorChartVersion] "system" ""
  ∪ chart_at ["charts"; "zcloud"; efkChartName; efkChartVersion] "system" ""
  ∪ chart_at ["other"; "tool"] "tool" "".
Definition chartDir : path := ["charts"].
Definition admin : option string := Some "admin".
Definition ben : option string := Some "ben".
Definition nodes : ClusterNodes := mkClusterNodes "c" ["10.0.0.1"] ["10.0.0.2"].
Definition start : FakeApps :=
  mkFakeApps {[("", "ns") := mkK8sNamespace "ns" 0 None; ("", ZCloudNamespace) := mkK8sNamespace ZCloudNamespace 0 None]} ∅
    {[("", "lvm") := mkStorageClass "lvm" ∅ ∅ 0 None]} [].
Definition within (k : FakeApps) : gmap string FakeApps := {["c" := k]}.
Definition apps_of (ks : gmap string FakeApps) : gmap (string * string) K8sApplication := from_option fa_apps ∅ (ks !! "c").
Definition handle (user : option string) (rq : app_request) := serve charts chartDir user nodes rq.
Definition run (user : option string) (rqs : list app_request) : gmap string FakeApps :=
  foldl (fun ks rq => snd (handle user rq ks)) (within start) rqs.
Definition monitor : Monitor := mkMonitor "" "" "lvm" 10 7 15 "secret" "" "" 0 None.
Definition web (settings : string) : Application := new_application "web" "web" "1.0" (Some settings).

(** ** Instances *)


Definition shown_monitor : Monitor :=
  let domain := "monitor-zcloud-c.10.0.0.1.zc.zdns.cn" in mkMonitor monitorAppName domain "lvm" 10 7 15 "" ("http://" +:+ domain) "" 0 None.
Definition started : M (gmap string FakeApps) api_error Monitor := CreateMonitor charts chartDir admin nodes 0 monitor.
Definition made_monitor : Monitor := set_monitor monitorAppName "monitor-zcloud-c.10.0.0.1.zc.zdns.cn" monitor.
Lemma monitor_shown_witness :
  fst (started (within start)) = Ok made_monitor /\ fst (GetMonitor "c" monitorAppName (snd (started (within start)))) = Ok shown_monitor /\
  shown_monitor = mkMonitor monitorAppName made_monitor.(mo_IngressDomain) "lvm" 10 7 15 "" ("http://" +:+ made_monitor.(mo_IngressDomain))
                    shown_monitor.(mo_Status) shown_monitor.(mo_CreationTimestamp) shown_monitor.(mo_DeletionTimestamp).
Proof.
  assert (Hc : fst (started (within start)) = Ok made_monitor) by (vm_compute; reflexivity). split; [exact Hc|].
  assert (Hg : fst (GetMonitor "c" monitorAppName (snd (started (within start)))) = Ok shown_monitor) by (vm_compute; reflexivity). split; [exact Hg|].
  exact (proj2 (proj2 (monitor_shown charts chartDir admin nodes 0 monitor made_monitor (within start) _ _ _ (pair_eq_snd _ _ Hc) (pair_eq_snd _ _ Hg)))).
Defined.

(** ** What the runs show *)

(** A user who may not create the monitor may delete it. *)
Lemma anybody_deletes_the_monitor :
  let ks := run admin [MonitorOn 0 monitor] in
  fst (handle ben (MonitorOn 0 monitor) (within start)) = Err PermissionDenied /\ is_some (apps_of ks !! (ZCloudNamespace, monitorAppName)) = true /\
  fst (handle ben (MonitorOff monitorAppName) ks) = Ok tt /\
  is_some (apps_of (snd (handle ben (MonitorOff monitorAppName) ks)) !! (ZCloudNamespace, monitorAppName)) = false.
Proof. split; [|split; [|split]]; vm_compute; reflexivity. Qed.
(** The storage of each of the three replicas is shown as that of all. *)
Lemma efk_shrinks :
  let ks := snd (CreateEFK charts chartDir admin nodes 0 (mkEFK "" "" 3 31 "lvm" "" "" 0 None) (within start)) in
  ef_StorageSize <$> (match fst (GetEFK "c" efkAppName ks) with Ok e => Some e | Err _ => None end) = Some 10.
Proof. vm_compute. reflexivity. Qed.
(** A second application of a name is answered as if the cluster could not be reached. *)
Lemma duplicate_unnamed : fst (handle ben (CreateApp "ns" (web "nine")) (run ben [CreateApp "ns" (web "nine")])) = Err ConnectClusterFailed.
Proof. vm_compute. reflexivity. Qed.
(** The version of a chart leads out of the directory of charts. *)
Lemma version_leads_out :
  let app := new_application "tool" "web" "../../../other/tool" (Some "") in
  JoinPath ["charts"; "user"] ["web"; "../../../other/tool"] = ["other"; "tool"] /\ fst (handle ben (CreateApp "ns" app) (within start)) = Ok tt.
Proof. split; vm_compute; reflexivity. Qed.
(** A fraction is an integer, and below the bound that its integer part is below. *)
Lemma fraction_in_bounds :
  let c := mkChartConfig "replicas" "replicas" TypeInt true [] 1 10 0 0 in
  check_one [("replicas", JNumber 99 10)] c = Ok tt /\ check_one [("replicas", JNumber 10 1)] c = Err OutOfRange.
Proof. split; vm_compute; reflexivity. Qed.
(** The value of a key stands for all the keys below it, and an object where a text is
    expected is not looked at. *)
Lemma value_of_a_prefix :
  check_one [("image", JString "nginx")] (mkChartConfig "tag" "image.tag" TypeString true [] 0 0 0 0) = Ok tt /\
  check_one [("image", JObject [("x", JNumber 1 1)])] (mkChartConfig "image" "image" TypeString false [] 0 0 0 0) = Ok tt.
Proof. split; vm_compute; reflexivity. Qed.
(** A chart cannot allow the numbers from 0. *)
Lemma no_bound_zero : validate_config (mkChartConfig "replicas" "replicas" TypeInt true [] 0 10 0 0) = Err NotTogether.
Proof. reflexivity. Qed.
(** An application that is still being installed is looked at again at once: after as many
    calls as there are looks the watch is over, and a failure that comes later stays. *)
Definition installing (state : string) (k : FakeApps) : FakeApps :=
  mkFakeApps k.(fa_namespaces)
    ((fun o => mkK8sApplication o.(ka_Namespace) o.(ka_Name) o.(ka_Annotations) o.(ka_Spec) (mkAppStatus state 0 0 []) 0 None) <$> k.(fa_apps))
    k.(fa_classes) k.(fa_faults).
Definition monitored : FakeApps := default start (run admin [MonitorOn 0 monitor] !! "c").
Lemma watch_never_sleeps :
  fst (look_at monitorAppName (installing "create" monitored)) = Ok LookAgain /\
  (forall r k', ensureApplicationSucceedOrDie (fun _ => installing "create") monitorAppName monitored = (r, k') ->
    is_some (fa_apps (installing "failed" k') !! (ZCloudNamespace, monitorAppName)) = true).
Proof.
  split; [vm_compute; reflexivity|]. intros r k' Hr.
  replace k' with (snd (ensureApplicationSucceedOrDie (fun _ => installing "create") monitorAppName monitored)) by by rewrite Hr.
  vm_compute. reflexivity.
Qed.
Lemma failure_deleted :
  is_some (fa_apps (snd (ensureApplicationSucceedOrDie (fun _ => installing "failed") monitorAppName monitored)) !! (ZCloudNamespace, monitorAppName)) = false.
Proof. vm_compute. reflexivity. Qed.
