(* ===== verification/UsageExamples.v ===== *)
(** A cluster in memory with a namespace, nodes and pods: the instances of the theorems about
    the handlers of clusters and about what is in use, and where the program differs from
    what it says. *)
From S2P Require Import Prelude KvStore GoStrings GoFloat ClusterTypes ClusterValidation ClusterState ClusterManager ClusterTheorems Authorizer RestApi KubeApi.
From S2P Require Import Namespace ConfigMap PodTemplate Workload Pod Node Usage ClusterHandler WorkloadCluster AutoscalerExamples.

Record FakeUse := mkUse {
  fu_namespaces : gmap (string * string) K8sNamespace; fu_nodes : gmap (string * string) K8sNode; fu_pods : gmap (string * string) Pod.K8sPod;
  fu_metrics : list PodMetrics; fu_faults : list bool
}.
Definition fu_pop (k : FakeUse) : bool * FakeUse :=
  (default false (head k.(fu_faults)), mkUse k.(fu_namespaces) k.(fu_nodes) k.(fu_pods) k.(fu_metrics) (tail k.(fu_faults))).
#[export] Instance use_namespaces : KubeKind FakeUse K8sNamespace :=
  fake_kind fu_namespaces (fun x k => mkUse x k.(fu_nodes) k.(fu_pods) k.(fu_metrics) k.(fu_faults)) fu_pop.
#[export] Instance use_namespaces_laws : KubeLaws FakeUse K8sNamespace.
Proof. by apply fake_laws. Qed.
#[export] Instance use_nodes : KubeKind FakeUse K8sNode :=
  fake_kind fu_nodes (fun x k => mkUse k.(fu_namespaces) x k.(fu_pods) k.(fu_metrics) k.(fu_faults)) fu_pop.
#[export] Instance use_pods : KubeKind FakeUse Pod.K8sPod :=
  fake_kind fu_pods (fun x k => mkUse k.(fu_namespaces) k.(fu_nodes) x k.(fu_metrics) k.(fu_faults)) fu_pop.
#[export] Instance use_metrics : NodeMetricsApi FakeUse := fun _ => ret [].
#[export] Instance use_version : ServerVersions FakeUse := ret "v1.13.1".
#[export] Instance use_pod_metrics : PodMetricsApi FakeUse := fun _ k => (Ok k.(fu_metrics), k).
#[export] Instance all_ready : NodeReadiness := fun _ => true.

Definition node_of (name role : string) : K8sNode :=
  mkK8sNode name {[(zkeRoleLabelPrefix +:+ role) := "true"]} ∅ [] false [("Hostname", name)] {["cpu" := "4"; "memory" := "8"; "pods" := "110"]} "linux"
    "4.4" "os" "docker" [] 0 None.
Definition pod_of (name : string) (used : Z) : PodMetrics := mkPodMetrics name [(used, used); (1, 0)].
Definition small : FakeUse :=
  mkUse {[("", "default") := mkK8sNamespace "default" 0 None]}
    {[("", "m") := node_of "m" "controlplane"; ("", "w1") := node_of "w1" "worker"; ("", "w2") := node_of "w2" "worker"]} ∅
    [pod_of "a" 10; pod_of "b" 70; pod_of "c" 30; pod_of "d" 20; pod_of "e" 60; pod_of "f" 50] [].
Definition world : Namespace.World MemTable FakeUse := Namespace.mkWorld {["local" := small]} ben_authorizer (mem_table ∅) [].

Definition ask (user id : string) : result (option api_error) (option NamespaceInfo) := fst (Usage.Get false user "local" id world).
Definition default_info : NamespaceInfo :=
  mkNamespaceInfo (Namespace.mkNamespace "default" "default" 0 None)
    (mkUsage 8000 246 "0.03" 16 240 "15.00" 220 6 "0.03")
    [mkPodUsage "b" 71; mkPodUsage "e" 61; mkPodUsage "f" 51; mkPodUsage "c" 31; mkPodUsage "d" 21]
    [mkPodUsage "b" 70; mkPodUsage "e" 60; mkPodUsage "f" 50; mkPodUsage "c" 30; mkPodUsage "d" 20].
Lemma namespace_accounts_witness :
  ask "ben" "default" = Ok (Some default_info) /\ exists k1 k', accounted "default" k1 default_info k'.
Proof.
  assert (Ha : ask "ben" "default" = Ok (Some default_info)) by (vm_compute; reflexivity). split; [exact Ha|].
  pose proof (namespace_accounts false "ben" "local" "default" world _ _ (pair_eq_snd _ _ Ha)) as Hn.
  change (IsNamespaceVisiable "default" false) with true in Hn. cbn iota in Hn. change (w_clusters world !! "local") with (Some small) in Hn.
  change (Authorize "ben" "local" "default" (w_authorizer world)) with true in Hn. destruct Hn as (k' & _ & Hn).
  destruct (getNamespace "default" small) as [[o|e] k1]; [|by destruct Hn]. destruct Hn as (_ & i & [= <-] & _ & Hacc). by exists k1, k'.
Defined.

(** A namespace that does not exist makes the request panic. *)
Lemma missing_namespace_panics : ask "admin" "nowhere" = Err None.
Proof. vm_compute. reflexivity. Qed.
(** A namespace is shown to have all of the cluster, whatever its quota. *)
Lemma namespace_has_the_cluster : (us_Cpu (ni_Usage default_info), us_Pod (ni_Usage default_info)) = (8000, 220).
Proof. reflexivity. Qed.

(** ** Clusters *)

#[export] Instance use_zke_listener : NodeListener := fun _ _ => Some false.
Definition handlers : Handlers (H := example_core) (DB := MemTable) (ADB := MemTable) (K := FakeUse) :=
  mkHandlers (H := example_core) example_w0 ben_authorizer {["beijing" := small]}.
Definition ask_cluster (ctx : option string) (rq : cluster_request) := ClusterHandler.serve 9 ctx rq handlers.
Definition names (r : result handler_error cluster_answer) : list string :=
  match r with Ok (Shown l) => (fun s => s.(sh_Cluster).(cl_Name)) <$> l | _ => [] end.
Lemma cluster_requests_guarded_witness :
  fst (ask_cluster (Some "ben") (DeleteRequest "beijing")) = Err (HApi PermissionDenied) /\ snd (ask_cluster (Some "ben") (DeleteRequest "beijing")) = handlers.
Proof.
  assert (Hd : fst (ask_cluster (Some "ben") (DeleteRequest "beijing")) = Err (HApi PermissionDenied)) by (vm_compute; reflexivity). split; [exact Hd|].
  destruct (proj2 (cluster_requests_guarded 9 (Some "ben") (DeleteRequest "beijing") handlers _ _ (pair_eq_snd _ _ Hd))) as [(_ & _ & He)|(Hu & _)];
    [exact He|vm_compute in Hu; discriminate Hu].
Defined.
Example admin_sees_both : names (fst (ask_cluster (Some "admin") (ListRequest ""))) = ["shanghai"; "beijing"].
Proof. vm_compute. reflexivity. Qed.
Example only_running : names (fst (ask_cluster (Some "admin") (ListRequest "true"))) = ["beijing"].
Proof. vm_compute. reflexivity. Qed.
