(* ===== verification/StreamsExamples.v ===== *)
(** A task in memory whose steps start one after the other: the instance of the theorem about
    its log, and where the program differs from what it says. *)
From S2P Require Import Prelude GoStrings GoText RestApi KubeApi ConfigMap Secret PersistentVolume PodTemplate Workload Deployment WorkFlow FluentBit Streams.
From S2P Require Import WorkloadCluster.

(** The cluster is the number of steps of the task that have started, of [git] and [build]. *)
Definition task_cluster : Type := nat.
Definition started (k : task_cluster) : list string := match k with O => [] | 1%nat => ["git"] | _ => ["git"; "build"] end.
Definition run_with (containers : list string) : PipelineRun :=
  mkPipelineRun "ns" "task" ∅ "" [] []
    (Some (mkPipelineSpec [] [] [mkPipelineTask "build-and-push" [] [] [] (mkTaskSpec [] [] [])])) None None []
    {["run" := mkTaskRun "build-and-push" (Some (mkTaskRunStatus None None [] containers "pod"))]} 0 None.
#[export] Instance task_text : WorkFlowText := {|
  marshal_workflow _ := None; unmarshal_workflow _ := None; url_parse _ := None; deploy_yaml _ _ := None |}.
#[export] Instance task_runs : KubeKind task_cluster PipelineRun := {|
  kube_get ns name k := (if String.eqb name "task" then Ok (run_with (started k)) else Err KNotFound, k);
  kube_list _ := throw KOther; kube_create _ := throw KOther; kube_update _ := throw KOther; kube_delete _ _ := throw KOther;
  kube_objects k := {[("ns", "task") := run_with (started k)]}
|}.
#[export] Instance task_logs : PodLogs task_cluster := fun _ pod options =>
  ret (if options.(lo_TailLines) =? 1 then "done" +:+ newline else options.(lo_Container) +:+ " started" +:+ newline +:+ "done" +:+ newline).

Definition socket : Socket := mkSocket [] None.
Definition log_of (env : nat -> task_cluster -> task_cluster) (rounds : nat) :=
  OpenWorkFlowTaskLog env (fun _ => "now") "ns" "task" rounds (0%nat, socket).
(** One more step starts before each round. *)
Definition busy : nat -> task_cluster -> task_cluster := fun _ k => S k.

Definition known_steps : gset Container := {[("pod", "git"); ("pod", "build")]}.
Lemma seen_steps c : seen "ns" "task" c -> c ∈ known_steps.
Proof.
  intros (k & k' & all & Hg & Hc). unfold getNewWorkFlowContainers, getWorkFlowTask, bind, rethrow, lift in Hg.
  cut (Forall (fun c => c ∈ known_steps) all); [rewrite Forall_forall; auto|]. clear c Hc.
  destruct k as [|[|k]]; vm_compute in Hg; injection Hg as <- _;
    repeat first [apply Forall_nil_2|apply Forall_cons_2; [apply elem_of_union; rewrite !elem_of_singleton; auto|]].
Qed.
Lemma task_log_ends_witness : fst (log_of busy 9) = Ok TaskEnded \/ fst (log_of busy 9) = Ok TaskFailed.
Proof.
  refine (task_log_ends busy (fun _ => "now") "ns" "task" 9 (0%nat, socket) _ _ _ (pair_eq_snd (log_of busy 9) _ eq_refl) seen_steps _).
  assert (Hs : size known_steps = 2%nat) by (vm_compute; reflexivity). rewrite Hs. unfold workFlowTaskLogRetries. lia.
Defined.
Example log_text : so_sent (snd (log_of busy 9)).2 = ["now ========git========"; "git started"; "done"; "now ========build========"; "build started"; "done"; "now ========End========"].
Proof. vm_compute. reflexivity. Qed.

(** The number of waits is never set back: after six waits in all the log ends with the next
    round that shows nothing new, however much came between them. *)
Definition late (n : nat) : nat -> task_cluster -> task_cluster := fun left k => if (left <? n)%nat then 2%nat else 1%nat.
Lemma late_step_lost :
  fst (log_of (late 93) 100) = Ok TaskEnded /\ so_sent (snd (log_of (late 93) 100)).2 = ["now ========git========"; "git started"; "done"; "now ========build========"; "build started"; "done"; "now ========End========"] /\
  so_sent (snd (log_of (late 92) 100)).2 = ["now ========git========"; "git started"; "done"; "now ========End========"].
Proof. split; [|split]; vm_compute; reflexivity. Qed.
(** The log of a pod whose last line has less than eight bytes is not shown. *)
Lemma short_line_hides_the_log : so_sent (snd (OpenPodLog "ns" "pod" "git" (0%nat, socket))).2 = [].
Proof. vm_compute. reflexivity. Qed.
(** A line that does not fit into the buffer ends the log. *)
Fixpoint doubled (n : nat) (s : string) : string := match n with O => s | S n => doubled n (s +:+ s) end.
Lemma long_line_ends_the_log : Scan ("a" +:+ newline +:+ doubled 16 "x" +:+ newline +:+ "b" +:+ newline) = ["a"].
Proof. vm_compute. reflexivity. Qed.
(** A web socket that cannot be opened is used all the same. *)
Lemma failed_upgrade_panics : fst (OpenLog true None ["line"]) = LogPanic.
Proof. reflexivity. Qed.
