(* ===== verification/Tap.v ===== *)
(** Taps of the traffic of a workload in the service mesh (pkg/handler/tap.go,
    pkg/types/tap.go): the request for a tap, the conversion of its events, and the loop
    that sends them. *)
From S2P Require Import Prelude GoStrings GoText RestApi KubeApi ConfigMap Secret PersistentVolume PodTemplate Workload Deployment WorkFlow FluentBit Streams ClusterValidation.
From S2P Require Pod.

(** ** The text of an address *)

(** binary.BigEndian: the bytes of a number of [n] bytes, and of [v] as uint32 and uint64. *)
Definition big_endian (n : nat) (v : Z) : list Z := (fun i => Z.land (Z.shiftr v (8 * Z.of_nat i)) 255) <$> rev (seq 0 n).
(** appendHex: the digits after the leading zeros. *)
Definition hexDigit (d : Z) : ascii := default "0"%char (String.get (Z.to_nat d) "0123456789abcdef").
Definition appendHex (i : Z) : string :=
  if i =? 0 then "0"
  else string_of_list_ascii ((fun v => hexDigit (Z.land v 15)) <$> filter (fun v => 0 < v) ((fun j => Z.shiftr i (4 * Z.of_nat j)) <$> rev (seq 0 8))).
Definition hexString (b : list Z) : string := Join "" ((fun x => String (hexDigit (Z.shiftr x 4)) (String (hexDigit (Z.land x 15)) "")) <$> b).
(** The groups of 16 bits; the first longest run of zeros, where it begins and how long it is.
    A run that is longer than those before it is passed over with the group after it. *)
Fixpoint groups (b : list Z) : list Z := match b with x :: y :: b => Z.lor (Z.shiftl x 8) y :: groups b | _ => [] end.
Fixpoint zeros (l : list Z) : nat := match l with 0 :: l => S (zeros l) | _ => O end.
Fixpoint longest (skip i : nat) (l : list Z) (best : nat * nat) : nat * nat :=
  match l with
  | [] => best
  | _ :: r =>
      match skip with
      | S n => longest n (S i) r best
      | O => if (best.2 <? zeros l)%nat then longest (zeros l) (S i) r (i, zeros l) else longest 0 (S i) r best
      end
  end.
Definition ipv6_text (l : list Z) : string :=
  let '(e, n) := longest 0 0 l (0, 0)%nat in
  if (n <=? 1)%nat then Join ":" (appendHex <$> l)
  else Join ":" (appendHex <$> take e l) +:+ "::" +:+ Join ":" (appendHex <$> drop (e + n) l).
(** net.IP.String *)
Definition To4 (ip : list Z) : list Z :=
  if (length ip =? 4)%nat then ip else if (length ip =? 16)%nat && bool_decide (take 12 ip = v4InV6Prefix) then drop 12 ip else [].
Definition IP_String (ip : list Z) : string :=
  match ip with
  | [] => "<nil>"
  | _ =>
      match To4 ip with
      | [a; b; c; d] => dotted a b c d
      | _ => if (length ip =? 16)%nat then ipv6_text (groups ip) else "?" +:+ hexString ip
      end
  end.

(** ** Messages of the service mesh *)

(** Absent parts of a message are read as zero values. *)
Inductive pbIPAddress := Ipv4 (v : Z) | Ipv6 (first last : Z).
Record pbTcpAddress := mkPbTcp { pt_Ip : option pbIPAddress; pt_Port : Z }.
Record pbStreamId := mkPbStreamId { pi_Base : Z; pi_Stream : Z }.
(** HttpMethod and Scheme: a number with a name, or a text. *)
Inductive pbNamed := Registered (code : Z) | Unregistered (name : string).
Inductive pbHeaderValue := ValueStr (value : string) | ValueBin (value : string).
Record pbHeader := mkPbHeader { ph_Name : string; ph_Value : option pbHeaderValue }.
Record pbDuration := mkPbDuration { pd_Seconds : Z; pd_Nanos : Z }.
Inductive pbEos := GrpcStatusCode (code : Z) | ResetErrorCode (code : Z).
Record pbRequestInit := mkPbRequestInit {
  pq_Id : option pbStreamId; pq_Method : option pbNamed; pq_Scheme : option pbNamed; pq_Authority : string; pq_Path : string; pq_Headers : list pbHeader }.
Record pbResponseInit := mkPbResponseInit {
  ps_Id : option pbStreamId; ps_SinceRequestInit : option pbDuration; ps_HttpStatus : Z; ps_Headers : list pbHeader }.
Record pbResponseEnd := mkPbResponseEnd {
  pe_Id : option pbStreamId; pe_SinceRequestInit : option pbDuration; pe_SinceResponseInit : option pbDuration;
  pe_ResponseBytes : Z; pe_Eos : option pbEos; pe_Trailers : list pbHeader }.
Inductive pbHttp := HttpRequestInit (r : pbRequestInit) | HttpResponseInit (r : pbResponseInit) | HttpResponseEnd (r : pbResponseEnd).
Record pbTapEvent := mkPbTapEvent {
  pv_Source : option pbTcpAddress; pv_SourceMeta : gmap string string;
  pv_Destination : option pbTcpAddress; pv_DestinationMeta : gmap string string; pv_RouteMeta : gmap string string;
  pv_ProxyDirection : Z; pv_Http : option pbHttp }.
(** TapByResourceRequest: a target, and matches that all hold. *)
Record pbResource := mkPbResource { rs_Namespace : string; rs_Type : string; rs_Name : string }.
Inductive pbMatch := Destinations (r : pbResource) | HttpMethod (method : string) | HttpPath (path : string).
Record TapByResourceRequest := mkTapRequest { tr_Target : pbResource; tr_MaxRps : Z; tr_All : list pbMatch }.

(** ** What is sent *)

Record TcpAddress := mkTcpAddress { ta_Ip : string; ta_Port : Z }.
Record HttpStreamId := mkStreamId { si_Base : Z; si_Stream : Z }.
Record Header := mkHeader { hd_Name : string; hd_Value : string }.
Record Duration := mkDuration { du_Seconds : Z; du_Nanos : Z }.
Record ReqInit := mkReqInit { ri_Id : HttpStreamId; ri_Method : string; ri_Scheme : string; ri_Authority : string; ri_Path : string; ri_Headers : list Header }.
Record RespInit := mkRespInit { rp_Id : HttpStreamId; rp_SinceRequestInit : Duration; rp_HttpStatus : Z; rp_Headers : list Header }.
Record RespEnd := mkRespEnd {
  rd_Id : HttpStreamId; rd_SinceRequestInit : Duration; rd_SinceResponseInit : Duration; rd_ResponseBytes : Z; rd_Eos : Z; rd_Trailers : list Header }.
Record Event := mkEvent { ev_RequestInit : ReqInit; ev_ResponseInit : RespInit; ev_ResponseEnd : RespEnd }.
Record TapMessage := mkTap {
  tp_Source : TcpAddress; tp_SourceMeta : gmap string string; tp_Destination : TcpAddress; tp_DestinationMeta : gmap string string;
  tp_RouteMeta : gmap string string; tp_ProxyDirection : string; tp_Event : Event }.

(** The names of the numbers of messages, the parser of URLs and JSON. *)
Class TapText := {
  ProxyDirection_String : Z -> string;
  HttpMethod_String : Z -> string;
  Scheme_String : Z -> string;
  host_url : string -> option string;
  marshal_tap : TapMessage -> string
}.

(** ** The request *)

Definition SupportWorkloadTypes : list string := [Pod.ResourceTypeDeployment; Pod.ResourceTypeDaemonSet; Pod.ResourceTypeStatefulSet].
Definition ValidTapMethods : list string := ["POST"; "GET"; "PUT"; "DELETE"].
Definition DefaultMaxRps : Z := 100.
Inductive tap_error := TapNoName | TapResourceType (kind : string) | TapToResourceType (kind : string) | TapMethod (method : string) | TapUrl | TapNoAnswer | TapNoCluster | TapNoSocket.
#[export] Instance tap_error_eq_dec : EqDecision tap_error.
Proof. solve_decision. Defined.
Definition buildTapRequest (namespace kind name toKind toName method path : string) : result tap_error TapByResourceRequest :=
  if String.eqb kind "" || String.eqb name "" then Err TapNoName
  else if bool_decide (kind ∉ SupportWorkloadTypes) then Err (TapResourceType kind)
  else
    let to := negb (String.eqb toKind "") && negb (String.eqb toName "") in
    if to && bool_decide (toKind ∉ SupportWorkloadTypes) then Err (TapToResourceType toKind)
    else if negb (String.eqb method "") && bool_decide (method ∉ ValidTapMethods) then Err (TapMethod method)
    else Ok (mkTapRequest (mkPbResource namespace kind name) DefaultMaxRps
      ((if to then [Destinations (mkPbResource namespace toKind toName)] else []) ++
       (if String.eqb method "" then [] else [HttpMethod method]) ++
       (if String.eqb path "" then [] else [HttpPath path]))).

(** ** The conversion of an event *)

Section Conversion.
Context `{TapText}.
Definition pbIPAddrToString (ip : option pbIPAddress) : string :=
  IP_String match ip with
            | Some (Ipv6 first last) => big_endian 8 first ++ big_endian 8 last
            | Some (Ipv4 v) => if v =? 0 then [] else big_endian 4 v
            | None => []
            end.
Definition getTcpAddr (a : option pbTcpAddress) : TcpAddress :=
  mkTcpAddress (pbIPAddrToString (a ≫= pt_Ip)) (from_option pt_Port 0 a).
Definition pbHttpStreamIdToScHttpStreamId (i : option pbStreamId) : HttpStreamId :=
  mkStreamId (from_option pi_Base 0 i) (int64 (from_option pi_Stream 0 i)).
Definition pbMethodToString (m : option pbNamed) : string :=
  match m with Some (Registered code) => HttpMethod_String code | Some (Unregistered name) => name | None => "" end.
Definition pbSchemeToStirng (m : option pbNamed) : string :=
  match m with Some (Registered code) => Scheme_String code | Some (Unregistered name) => name | None => "" end.
(** Headers whose values are bytes are left out. *)
Definition pbHeadersToScHeaders (l : list pbHeader) : list Header :=
  omap (fun h => match h.(ph_Value) with Some (ValueStr v) => Some (mkHeader h.(ph_Name) v) | _ => None end) l.
Definition pbDurationToScDuration (d : option pbDuration) : Duration :=
  mkDuration (from_option pd_Seconds 0 d) (from_option pd_Nanos 0 d).
Definition pbEosToInt (e : option pbEos) : Z :=
  match e with Some (GrpcStatusCode code) => code | Some (ResetErrorCode code) => code | None => 0 end.
Definition no_id : HttpStreamId := mkStreamId 0 0.
Definition no_time : Duration := mkDuration 0 0.
Definition pbReqInitToScReqInit (e : pbTapEvent) : ReqInit :=
  match e.(pv_Http) with
  | Some (HttpRequestInit r) =>
      mkReqInit (pbHttpStreamIdToScHttpStreamId r.(pq_Id)) (pbMethodToString r.(pq_Method)) (pbSchemeToStirng r.(pq_Scheme))
        r.(pq_Authority) r.(pq_Path) (pbHeadersToScHeaders r.(pq_Headers))
  | _ => mkReqInit no_id "" "" "" "" []
  end.
Definition pbRespInitToScRespInit (e : pbTapEvent) : RespInit :=
  match e.(pv_Http) with
  | Some (HttpResponseInit r) =>
      mkRespInit (pbHttpStreamIdToScHttpStreamId r.(ps_Id)) (pbDurationToScDuration r.(ps_SinceRequestInit)) r.(ps_HttpStatus) (pbHeadersToScHeaders r.(ps_Headers))
  | _ => mkRespInit no_id no_time 0 []
  end.
Definition pbRespEndToScRespEnd (e : pbTapEvent) : RespEnd :=
  match e.(pv_Http) with
  | Some (HttpResponseEnd r) =>
      mkRespEnd (pbHttpStreamIdToScHttpStreamId r.(pe_Id)) (pbDurationToScDuration r.(pe_SinceRequestInit)) (pbDurationToScDuration r.(pe_SinceResponseInit))
        (int64 r.(pe_ResponseBytes)) (pbEosToInt r.(pe_Eos)) (pbHeadersToScHeaders r.(pe_Trailers))
  | _ => mkRespEnd no_id no_time no_time 0 0 []
  end.
(** The link to the workload that a peer belongs to, if its labels name one. *)
Definition genWorkloadLink (clusterName namespace : string) (labels : gmap string string) : option string :=
  (fun workload => "/apis/zcloud.cn/v1/clusters/" +:+ clusterName +:+ "/namespaces/" +:+ namespace +:+ "/svcmeshworkloads/" +:+ workload) <$>
  match labels !! Pod.ResourceTypeDeployment, labels !! Pod.ResourceTypeDaemonSet, labels !! Pod.ResourceTypeStatefulSet with
  | Some w, _, _ => Some ("dpm-" +:+ w)
  | None, Some w, _ => Some ("dms-" +:+ w)
  | None, None, Some w => Some ("sts-" +:+ w)
  | None, None, None => None
  end.
Definition with_link (clusterName namespace : string) (labels : gmap string string) : gmap string string :=
  match genWorkloadLink clusterName namespace labels with Some link => <["link" := link]> labels | None => labels end.
Definition pbTapEventToScTap (clusterName namespace : string) (e : pbTapEvent) : TapMessage :=
  let direction := ProxyDirection_String e.(pv_ProxyDirection) in
  mkTap (getTcpAddr e.(pv_Source))
    (if String.eqb direction "INBOUND" then with_link clusterName namespace e.(pv_SourceMeta) else e.(pv_SourceMeta))
    (getTcpAddr e.(pv_Destination))
    (if String.eqb direction "OUTBOUND" then with_link clusterName namespace e.(pv_DestinationMeta) else e.(pv_DestinationMeta))
    e.(pv_RouteMeta) direction
    (mkEvent (pbReqInitToScReqInit e) (pbRespInitToScRespInit e) (pbRespEndToScRespEnd e)).
End Conversion.

(** ** The tap *)

(** sm.HandleRequest: the events of the answer, each decoded or not, up to the end of the
    stream; by the host, the path and the request. *)
Class TapApi (K : Type) := HandleRequest : string -> string -> TapByResourceRequest -> M K tap_error (list (option pbTapEvent)).
Definition tap_path (ns kind name : string) : string := "/apis/tap.linkerd.io/v1alpha1/watch/namespaces/" +:+ ns +:+ "/" +:+ kind +:+ "s/" +:+ name +:+ "/tap".

Section Tap.
Context `{TapText} {K : Type} `{!TapApi K}.
(** The loop ends at an event that cannot be decoded and at a write that fails. *)
Fixpoint send_events (clusterID ns : string) (events : list (option pbTapEvent)) : M Socket tap_error unit :=
  match events with
  | Some e :: events =>
      let! r := attempt (WriteMessage (marshal_tap (pbTapEventToScTap clusterID ns e))) in
      match r with Ok _ => send_events clusterID ns events | Err _ => ret tt end
  | _ => ret tt
  end.
(** [host] is the address of the cluster, if there is one; [upgraded]: websocket.Upgrade works. *)
Definition Tap (clusterID ns kind name toKind toName method path : string) (host : option string) (upgraded : bool) : M (K * Socket) tap_error unit :=
  let! host := lift (of_option TapNoCluster host) in
  let! req := lift (buildTapRequest ns kind name toKind toName method path) in
  let! url := lift (of_option TapUrl (host_url host)) in
  let! events := on_kube (HandleRequest url (tap_path ns kind name) req) in
  do! guard upgraded TapNoSocket in
  on_socket (send_events clusterID ns events).
End Tap.

(** ** Facts *)

(** *** The request *)

(** A tap that can be asked for. *)
Definition tap_valid (kind name toKind toName method : string) : bool :=
  bool_decide (kind ∈ SupportWorkloadTypes) && negb (String.eqb name "") &&
  (String.eqb toKind "" || String.eqb toName "" || bool_decide (toKind ∈ SupportWorkloadTypes)) &&
  (String.eqb method "" || bool_decide (method ∈ ValidTapMethods)).
(** What a request lets through lies in the namespace. *)
Definition within (namespace : string) (m : pbMatch) : Prop := match m with Destinations r => r.(rs_Namespace) = namespace | _ => True end.
Lemma buildTapRequest_valid namespace kind name toKind toName method path :
  match buildTapRequest namespace kind name toKind toName method path with
  | Ok req => tap_valid kind name toKind toName method = true /\
      req.(tr_Target) = mkPbResource namespace kind name /\ Forall (within namespace) req.(tr_All) /\
      (method <> "" -> HttpMethod method ∈ req.(tr_All)) /\ (path <> "" -> HttpPath path ∈ req.(tr_All)) /\
      (toKind <> "" -> toName <> "" -> Destinations (mkPbResource namespace toKind toName) ∈ req.(tr_All))
  | Err _ => tap_valid kind name toKind toName method = false
  end.
Proof.
  unfold buildTapRequest, tap_valid.
  destruct (String.eqb_spec kind "") as [->|Hk]; [reflexivity|].
  destruct (String.eqb_spec name "") as [->|Hn]; cbn [orb negb]; [by rewrite andb_false_r|].
  rewrite !bool_decide_not.
  destruct (bool_decide (kind ∈ _)), (bool_decide (toKind ∈ _)), (bool_decide (method ∈ _)),
    (String.eqb_spec toKind ""), (String.eqb_spec toName ""), (String.eqb_spec method ""), (String.eqb_spec path "");
    cbn [orb andb negb]; try reflexivity; cbn [tr_Target tr_All app];
    (split; [done|]); (split; [done|]); (split; [repeat constructor|]); split_and!; intros; try done; rewrite !elem_of_cons; auto.
Qed.

(** *** What is sent *)

(** The events before the first that cannot be decoded; what fits into a socket. *)
Fixpoint decoded (l : list (option pbTapEvent)) : list pbTapEvent := match l with Some e :: l => e :: decoded l | _ => [] end.
Definition fitting (room : option nat) (l : list string) : list string := match room with Some n => take n l | None => l end.

Section Facts.
Context `{TapText} {K : Type} `{!TapApi K}.
Definition message (clusterID ns : string) (e : pbTapEvent) : string := marshal_tap (pbTapEventToScTap clusterID ns e).
Lemma send_events_sent clusterID ns events s :
  exists s', send_events clusterID ns events s = (Ok tt, s') /\ s'.(so_sent) = s.(so_sent) ++ fitting s.(so_room) (message clusterID ns <$> decoded events).
Proof.
  assert (Hnil : forall o, fitting o [] = []) by (intros [[]|]; reflexivity).
  revert s. induction events as [|[e|] events IH]; intros s; cbn [send_events decoded fmap list_fmap].
  - exists s. by rewrite Hnil, app_nil_r.
  - rewrite bind_attempt. unfold WriteMessage. destruct s as [sent [[|n]|]]; cbn [so_room so_sent fst snd].
    + eexists. split; [reflexivity|]. cbn. by rewrite app_nil_r.
    + destruct (IH (mkSocket (sent ++ [message clusterID ns e]) (Some n))) as (s' & Hs & Hsent). exists s'. split; [exact Hs|].
      rewrite Hsent. cbn. by rewrite <- app_assoc.
    + destruct (IH (mkSocket (sent ++ [message clusterID ns e]) None)) as (s' & Hs & Hsent). exists s'. split; [exact Hs|].
      rewrite Hsent. cbn. by rewrite <- app_assoc.
  - exists s. by rewrite Hnil, app_nil_r.
Qed.

(** C28. A tap serves what was asked for and no more.  A tap that is answered is one of a
    deployment, a daemon set or a stateful set of a cluster that is there (not of a pod, which
    the design document lists too, [TapExamples.pod_refused]), with a method of the supported
    ones if any; the request it makes is for that workload, with every filter that was given,
    and nothing of it leaves the namespace; and what is sent is, in order, the conversion of the
    events up to the first that cannot be decoded, as many as the socket takes.  A tap that is
    not answered sends nothing, and one that cannot be asked for makes no request. *)
Theorem tap_serves (clusterID ns kind name toKind toName method path : string) (host : option string) (upgraded : bool) (k k' : K) (s s' : Socket)
    (r : result tap_error unit) :
  Tap clusterID ns kind name toKind toName method path host upgraded (k, s) = (r, (k', s')) ->
  match r with
  | Ok _ =>
      tap_valid kind name toKind toName method = true /\ upgraded = true /\
      exists h url req events,
        host = Some h /\ host_url h = Some url /\ HandleRequest url (tap_path ns kind name) req k = (Ok events, k') /\
        (req.(tr_Target) = mkPbResource ns kind name /\ Forall (within ns) req.(tr_All) /\
         (method <> "" -> HttpMethod method ∈ req.(tr_All)) /\ (path <> "" -> HttpPath path ∈ req.(tr_All)) /\
         (toKind <> "" -> toName <> "" -> Destinations (mkPbResource ns toKind toName) ∈ req.(tr_All))) /\
        s'.(so_sent) = s.(so_sent) ++ fitting s.(so_room) (message clusterID ns <$> decoded events)
  | Err _ => s' = s /\ (tap_valid kind name toKind toName method = false \/ host = None -> k' = k)
  end.
Proof.
  intros Ht. unfold Tap in Ht. pose proof (buildTapRequest_valid ns kind name toKind toName method path) as Hv.
  destruct host as [h|]; [|by injection Ht as <- <- <-].
  destruct (buildTapRequest _ _ _ _ _ _ _) as [req|e]; [|by injection Ht as <- <- <-]. destruct Hv as [Hv Hreq].
  unfold bind, lift, of_option in Ht. assert (Hk : forall k2 : K, tap_valid kind name toKind toName method = false \/ Some h = None -> k2 = k) by (intros k2 [?|?]; [congruence|done]).
  destruct (host_url h) as [url|] eqn:Hu; [|injection Ht as <- <- <-; auto].
  unfold on_kube, on_socket, zoom in Ht. cbn [fst snd] in Ht.
  destruct (HandleRequest url (tap_path ns kind name) req k) as [[events|e] k1] eqn:Hh; [|injection Ht as <- <- <-; auto].
  destruct upgraded; [|injection Ht as <- <- <-; auto]. unfold guard, ret in Ht.
  destruct (send_events_sent clusterID ns events s) as (s1 & Hs & Hsent). cbn [fst snd] in Ht. rewrite Hs in Ht. injection Ht as <- <- <-.
  split; [done|]. split; [done|]. exists h, url, req, events. auto.
Qed.
End Facts.

(** *** Addresses *)

Lemma byte_range v i : 0 <= Z.land (Z.shiftr v i) 255 <= 255.
Proof. change 255 with (Z.ones 8) at 1 2. rewrite Z.land_ones by lia. change (2 ^ 8) with 256. change (Z.ones 8) with 255. pose proof (Z.mod_pos_bound (Z.shiftr v i) 256). lia. Qed.
Lemma byte_of v i : 0 <= i -> Z.land (Z.shiftr v i) 255 = v / 2 ^ i mod 256.
Proof. intros Hi. change 255 with (Z.ones 8). rewrite Z.land_ones by lia. by rewrite Z.shiftr_div_pow2 by lia. Qed.
(** The text of an address of four bytes is read back as the address. *)
Lemma shown_address v : 0 < v < 2 ^ 32 ->
  exists a b c d, ParseIP (pbIPAddrToString (Some (Ipv4 v))) = Some (IPv4 a b c d) /\ v = ((a * 256 + b) * 256 + c) * 256 + d /\
    Forall (fun x => 0 <= x <= 255) [a; b; c; d].
Proof.
  intros Hv. unfold pbIPAddrToString. rewrite (proj2 (Z.eqb_neq v 0)) by lia.
  exists (Z.land (Z.shiftr v 24) 255), (Z.land (Z.shiftr v 16) 255), (Z.land (Z.shiftr v 8) 255), (Z.land (Z.shiftr v 0) 255).
  split; [|split; [|repeat constructor; apply byte_range]].
  - etransitivity; [|apply ParseIP_dotted; apply byte_range]. reflexivity.
  - rewrite !byte_of by lia. change (2 ^ 24) with 16777216. change (2 ^ 16) with 65536. change (2 ^ 8) with 256. change (2 ^ 0) with 1. change (2 ^ 32) with 4294967296 in Hv.
    assert (v / 16777216 mod 256 = v / 16777216) as -> by (apply Z.mod_small; split; [apply Z.div_pos; lia|apply Z.div_lt_upper_bound; lia]).
    rewrite Z.div_1_r. Z.div_mod_to_equations. lia.
Qed.
