(* ===== verification/TapExamples.v ===== *)
(** A service mesh that answers every tap with two events: the instance of the theorem about
    taps, texts of addresses, and where the program differs from what it means. *)
From S2P Require Import Prelude GoStrings GoText RestApi KubeApi ConfigMap Secret PersistentVolume PodTemplate Workload Deployment WorkFlow FluentBit Streams Tap.

#[export] Instance tap_text : TapText := {|
  ProxyDirection_String n := if n =? 1 then "INBOUND" else if n =? 2 then "OUTBOUND" else "UNKNOWN";
  HttpMethod_String n := if n =? 0 then "GET" else "POST";
  Scheme_String n := if n =? 0 then "HTTP" else "HTTPS";
  host_url h := if String.eqb h "" then None else Some h;
  marshal_tap t := t.(tp_ProxyDirection) +:+ " " +:+ t.(tp_Source).(ta_Ip) +:+ ">" +:+ t.(tp_Destination).(ta_Ip) +:+ " "
    +:+ t.(tp_Event).(ev_RequestInit).(ri_Method) +:+ " " +:+ default "" (t.(tp_SourceMeta) !! "link") |}.
(** A request from a deployment, and something that is no event after it. *)
Definition request_event (source : pbIPAddress) (labels : gmap string string) : pbTapEvent :=
  mkPbTapEvent (Some (mkPbTcp (Some source) 4000)) labels (Some (mkPbTcp (Some (Ipv4 167772162)) 80)) ∅ ∅ 1
    (Some (HttpRequestInit (mkPbRequestInit (Some (mkPbStreamId 1 2)) (Some (Registered 0)) None "web" "/" [mkPbHeader "a" (Some (ValueStr "b")); mkPbHeader "c" (Some (ValueBin "d"))]))).
Definition front_labels : gmap string string := {["deployment" := "front"; "namespace" := "shop"]}.
#[export] Instance tap_api : TapApi nat := fun url path req k =>
  (Ok [Some (request_event (Ipv4 167772161) front_labels); Some (request_event (Ipv6 2306139568115548160 1) ∅); None; Some (request_event (Ipv4 1) ∅)], S k).

Definition tap_of (kind method : string) (room : option nat) := Tap "c1" "bank" kind "web" "" "" method "" (Some "https://10.0.0.1:6443") true (0%nat, mkSocket [] room).
Lemma tap_serves_witness :
  match fst (tap_of "deployment" "GET" (Some 1%nat)) with
  | Ok _ => exists url req events, host_url "https://10.0.0.1:6443" = Some url /\ HandleRequest url "/apis/tap.linkerd.io/v1alpha1/watch/namespaces/bank/deployments/web/tap" req 0%nat = (Ok events, 1%nat) /\
      HttpMethod "GET" ∈ req.(tr_All)
  | Err _ => False
  end.
Proof.
  assert (Hrun : tap_of "deployment" "GET" (Some 1%nat) =
    (Ok tt, (1%nat, mkSocket ["INBOUND 10.0.0.1>10.0.0.2 GET /apis/zcloud.cn/v1/clusters/c1/namespaces/bank/svcmeshworkloads/dpm-front"] (Some 0%nat)))) by (vm_compute; reflexivity).
  pose proof (tap_serves _ _ _ _ _ _ _ _ _ _ _ _ _ _ _ Hrun) as (_ & _ & h & url & req & events & [= <-] & Hu & Hh & (_ & _ & Hm & _) & _).
  rewrite Hrun. exists url, req, events. split; [done|]. split; [exact Hh|]. by apply Hm.
Defined.
Example tap_text_sent : so_sent (snd (tap_of "deployment" "GET" None)).2 =
  ["INBOUND 10.0.0.1>10.0.0.2 GET /apis/zcloud.cn/v1/clusters/c1/namespaces/bank/svcmeshworkloads/dpm-front"; "INBOUND 2001:db8::1>10.0.0.2 GET "].
Proof. vm_compute. reflexivity. Qed.
Example tap_refused : tap_of "job" "GET" None = (Err (TapResourceType "job"), (0%nat, mkSocket [] None)) /\ fst (tap_of "deployment" "PATCH" None) = Err (TapMethod "PATCH").
Proof. split; vm_compute; reflexivity. Qed.

(** The design document lists pods among the supported kinds, of both ends. *)
Lemma pod_refused :
  fst (tap_of "pod" "GET" None) = Err (TapResourceType "pod") /\ buildTapRequest "bank" "deployment" "web" "pod" "db" "" "" = Err (TapToResourceType "pod").
Proof. split; vm_compute; reflexivity. Qed.

Example ipv6_texts :
  (fun ip => pbIPAddrToString (Some (Ipv6 ip.1 ip.2))) <$> [(0, 0); (0, 1); (2306139568115548160, 0); (2306139568115613696, 281474976710657); (0, 281473568538625)] =
  ["::"; "::1"; "2001:db8::"; "2001:db8:1:0:1::1"; "172.17.0.1"].
Proof. vm_compute. reflexivity. Qed.

(** The link to a peer is made with the namespace of the tapped workload: a caller from
    another namespace, which its labels name, is linked to a workload that is not there. *)
Lemma link_to_wrong_namespace :
  front_labels !! "namespace" = Some "shop" /\
  (pbTapEventToScTap "c1" "bank" (request_event (Ipv4 1) front_labels)).(tp_SourceMeta) !! "link" =
    Some "/apis/zcloud.cn/v1/clusters/c1/namespaces/bank/svcmeshworkloads/dpm-front".
Proof. split; vm_compute; reflexivity. Qed.
(** An address that is zero, or that is absent, is shown as the text of a missing pointer. *)
Lemma missing_address : pbIPAddrToString (Some (Ipv4 0)) = "<nil>" /\ pbIPAddrToString None = "<nil>".
Proof. split; reflexivity. Qed.
(** A destination without a name is no filter: the kind is not even looked at. *)
Lemma half_a_filter :
  match buildTapRequest "bank" "deployment" "web" "nothing" "" "" "" with Ok req => req.(tr_All) = [] | Err _ => False end.
Proof. vm_compute. reflexivity. Qed.
