(* ===== verification/ChartSync.v ===== *)
(** The charts of a registry (pkg/handler/chart_manager.go): every minute its index is read,
    and the versions that are not there yet are loaded and unpacked below the directory of
    charts. *)
From S2P Require Import Prelude GoStrings GoText RestApi Chart.

(** ** Files that are written *)

Definition sync_io (S : Type) : Type := M S io_error unit.
(** os.MkdirAll: every directory on the way; a file on the way is an error. *)
Definition make_one (p : path) : sync_io FS := fun fs =>
  match fs !! p with
  | Some (File _) => (Err OtherIo, fs)
  | Some Dir => (Ok tt, fs)
  | None => (Ok tt, <[p := Dir]> fs)
  end.
Fixpoint mkdir_from (p rest : path) : sync_io FS :=
  do! make_one p in
  match rest with [] => ret tt | e :: rest => mkdir_from (p ++ [e]) rest end.
Definition MkdirAll (p : path) : sync_io FS := mkdir_from [] p.
(** os.RemoveAll *)
Definition RemoveAll (p : path) : sync_io FS := fun fs => (Ok tt, filter (fun e => ~ p `prefix_of` e.1) fs).
(** os.OpenFile with O_CREATE and O_TRUNC, and what is written to it. *)
Definition WriteFile (p : path) (content : string) : sync_io FS := fun fs =>
  match fs !! (removelast p : path), fs !! p with
  | Some Dir, (None | Some (File _)) => (Ok tt, <[p := File content]> fs)
  | None, _ => (Err NoSuchFile, fs)
  | _, _ => (Err OtherIo, fs)
  end.
(** The part of a path after another. *)
Fixpoint after (p q : path) : option path :=
  match p, q with
  | [], _ => Some q
  | a :: p, b :: q => if String.eqb a b then after p q else None
  | _ :: _, [] => None
  end.
(** os.Rename of a directory: not into itself, and not to a directory or a file that is
    there. *)
Definition moved (old new : path) (fs : FS) : FS :=
  list_to_map (omap (fun e => (fun rest => (new ++ rest, e.2)) <$> after old e.1) (map_to_list fs)).
Definition Rename (old new : path) : sync_io FS := fun fs =>
  match fs !! old, fs !! new, fs !! (removelast new : path) with
  | None, _, _ | _, _, None => (Err NoSuchFile, fs)
  | Some Dir, None, Some Dir =>
      if bool_decide (old `prefix_of` new) then (Err OtherIo, fs)
      else (Ok tt, filter (fun e => ~ old `prefix_of` e.1) fs ∪ moved old new fs)
  | Some (File c), (None | Some (File _)), Some Dir => (Ok tt, <[new := File c]> (delete old fs))
  | _, _, _ => (Err OtherIo, fs)
  end.

(** ** Archives *)

(** An entry of an archive; whether its content could be read to the end. *)
Record TarEntry := mkTarEntry { te_Name : string; te_IsDir : bool; te_Content : string; te_Complete : bool }.
(** A gzip of entries that ends properly or not. *)
Inductive archive := NotGzip | Entries (l : list TarEntry) (proper_end : bool).
Record ChartEntry := mkChartEntry { ce_Version : string; ce_Urls : list string }.
Abbreviation ChartsIndex := (gmap string (list ChartEntry)).
(** The registry: what is at an address; yaml, gzip and tar. *)
Class Registry := {
  http_get : string -> option string;
  unmarshal_index : string -> option ChartsIndex;
  untar : string -> archive
}.
Definition iconPrefixForLoad : string := "/helm-icons/".
Definition indexFile : string := "index.yaml".
Definition icon_path (chartName : string) : path := JoinPath [] [iconPrefixForLoad; chartName +:+ iconFormat].
(** The elements of the name of an entry, which gets a dot in front. *)
Definition header_elements (e : TarEntry) : list string := Split "/" ("." +:+ e.(te_Name)).
(** filepath.Base *)
Definition base_name (elems : list string) : string := List.last (filter (fun e => e <> "") elems) "".
Section Sync.
Context `{ChartText} `{Registry}.

Definition expand_entry (chartFileDir : path) (chartName : string) (e : TarEntry) : sync_io FS :=
  let fullDir := JoinPath chartFileDir (removelast (header_elements e)) in
  let! fs := gets id in
  do! (if is_some (fs !! fullDir) then ret tt else MkdirAll fullDir) in
  let chartFilePath := if String.eqb (base_name (header_elements e)) (chartName +:+ iconFormat) then icon_path chartName
                       else JoinPath chartFileDir (header_elements e) in
  if e.(te_IsDir) then MkdirAll chartFilePath
  else do! WriteFile chartFilePath e.(te_Content) in guard e.(te_Complete) OtherIo.
Fixpoint expand_entries (chartFileDir : path) (chartName : string) (l : list TarEntry) : sync_io FS :=
  match l with [] => ret tt | e :: l => do! expand_entry chartFileDir chartName e in expand_entries chartFileDir chartName l end.
(** The directory of the first entry is removed first, and is answered. *)
Definition expandFile (chartDir : path) (chartName content : string) : M FS io_error (list string) :=
  let chartFileDir := JoinPath chartDir [chartName] in
  match untar content with
  | NotGzip => throw OtherIo
  | Entries l proper_end =>
      let unzipFileDir := match l with e :: _ => removelast (header_elements e) | [] => [] end in
      do! (match l with _ :: _ => RemoveAll (JoinPath chartFileDir unzipFileDir) | [] => ret tt end) in
      do! expand_entries chartFileDir chartName l in
      do! guard proper_end OtherIo in ret unzipFileDir
  end.
Definition loadCloudChartByVersion (repoUrl : string) (chartDir : path) (chartName : string) (entry : ChartEntry) : sync_io FS :=
  match entry.(ce_Urls) with
  | [] => throw OtherIo
  | url :: _ =>
      let! content := lift (of_option OtherIo (http_get (repoUrl +:+ "/" +:+ url))) in
      let! unzipFileDir := expandFile chartDir chartName content in
      Rename (JoinPath (JoinPath chartDir [chartName]) unzipFileDir) (JoinPath chartDir [chartName; entry.(ce_Version)])
  end.
Fixpoint load_versions (repoUrl : string) (chartDir : path) (chartName : string) (entries : list ChartEntry) : sync_io FS :=
  match entries with
  | [] => ret tt
  | e :: entries => do! loadCloudChartByVersion repoUrl chartDir chartName e in load_versions repoUrl chartDir chartName entries
  end.
(** Of a chart that is there, the versions that are not; of another one, all. *)
Definition checkChartExistAndLoadVersionsIfNeed (repoUrl : string) (chartDir : path) (chartName : string) (localCharts : list Chart) (chartEntries : list ChartEntry)
    : M FS io_error bool :=
  match find (fun c => String.eqb c.(ch_Name) chartName) localCharts with
  | None => ret false
  | Some chart =>
      do! load_versions repoUrl chartDir chartName
            (filter (fun e => e.(ce_Version) ∉ cv_Version <$> chart.(ch_Versions)) chartEntries) in ret true
  end.
Definition load_chart (repoUrl : string) (zcloudChartDir : path) (localCharts : list Chart) (chart : string * list ChartEntry) : sync_io FS :=
  let! chartFound := checkChartExistAndLoadVersionsIfNeed repoUrl zcloudChartDir chart.1 localCharts chart.2 in
  if (chartFound : bool) then ret tt
  else do! MkdirAll (JoinPath zcloudChartDir [chart.1]) in load_versions repoUrl zcloudChartDir chart.1 chart.2.
Fixpoint load_charts (repoUrl : string) (zcloudChartDir : path) (localCharts : list Chart) (charts : list (string * list ChartEntry)) : sync_io FS :=
  match charts with
  | [] => ret tt
  | c :: charts => do! load_chart repoUrl zcloudChartDir localCharts c in load_charts repoUrl zcloudChartDir localCharts charts
  end.
Definition getCloudChartsIndex (repoUrl : string) : option ChartsIndex := http_get (repoUrl +:+ "/" +:+ indexFile) ≫= unmarshal_index.
(** The entries of a map come in some order. *)
Definition loadCloudCharts (order : ChartsIndex -> list (string * list ChartEntry)) (repoUrl : string) (zcloudChartDir : path) : sync_io FS :=
  let! chartsIndex := lift (of_option OtherIo (getCloudChartsIndex repoUrl)) in
  let! fs := gets id in
  let! localCharts := lift (map_err (fun _ => OtherIo) (getLocalCharts fs zcloudChartDir true)) in
  load_charts repoUrl zcloudChartDir localCharts (order chartsIndex).
(** A round that fails is reported, and the next one begins after a minute. *)
Definition sync_round (order : ChartsIndex -> list (string * list ChartEntry)) (repoUrl : string) (zcloudChartDir : path) (fs : FS) : FS :=
  if String.eqb repoUrl "" then fs else snd (loadCloudCharts order repoUrl zcloudChartDir fs).
End Sync.

(** ** Facts *)

(** *** Paths *)

(** A name that is one element of a path and is not hidden. *)
Definition plain (n : string) : Prop := n <> "" /\ has_byte "/" n = false /\ HasPrefix n "." = false.
Lemma Split_pieces c s : Forall (fun w => has_byte c w = false) (Split c s).
Proof.
  induction s as [|d s IH]; cbn [Split]; [by repeat constructor|]. destruct (Ascii.eqb d c) eqn:Hd; [by constructor|].
  destruct (Split c s); inversion IH; subst; repeat constructor; try done; cbn [has_byte]; by rewrite Hd.
Qed.
Lemma flat_Split (l : list string) : Forall (fun w => has_byte "/" w = false) l -> l ≫= Split "/" = l.
Proof. induction 1 as [|w l Hw _ IH]; [done|]. cbn. rewrite Split_no_sep by done. cbn. by rewrite IH. Qed.
Lemma step_path_plain p n : n <> "" -> HasPrefix n "." = false -> step_path p n = p ++ [n].
Proof.
  intros Hn Hd. unfold step_path. destruct (String.eqb_spec n ""); [done|]. destruct (String.eqb_spec n "."); [by subst|]. destruct (String.eqb_spec n ".."); [by subst|done].
Qed.
Lemma JoinPath_plain p l : Forall plain l -> JoinPath p l = p ++ l.
Proof.
  unfold JoinPath. intros Hl. rewrite flat_Split by (eapply Forall_impl; [exact Hl|]; by intros n (_ & ? & _)). revert p.
  induction Hl as [|n l (Hn & _ & Hd) _ IH]; intros p; cbn [foldl]; [by rewrite app_nil_r|]. rewrite step_path_plain, IH by done. by rewrite <- app_assoc.
Qed.
Lemma JoinPath_one p n : plain n -> JoinPath p [n] = p ++ [n].
Proof. intros Hn. apply JoinPath_plain. by apply Forall_singleton. Qed.
Lemma JoinPath_two p n v : plain n -> plain v -> JoinPath p [n; v] = p ++ [n; v].
Proof. intros Hn Hv. apply JoinPath_plain. apply Forall_cons_2; [done|]. by apply Forall_singleton. Qed.
(** Names that do not go up lead further down. *)
Lemma walk_down p l : Forall (fun e => e <> "..") l -> exists q, foldl step_path p l = p ++ q.
Proof.
  intros Hl. revert p. induction Hl as [|e l He _ IH]; intros p; cbn [foldl]; [exists []; by rewrite app_nil_r|].
  destruct (IH (step_path p e)) as [q ->]. unfold step_path. destruct (String.eqb e "" || String.eqb e "."); [by eexists|].
  rewrite (proj2 (String.eqb_neq _ _)) by done. exists (e :: q). by rewrite <- app_assoc.
Qed.
Lemma Forall_removelast {A} (P : A -> Prop) l : Forall P l -> Forall P (removelast l).
Proof. induction 1 as [|x l Hx Hl IH]; [done|]. cbn [removelast]. destruct l; [done|by constructor]. Qed.
(** An entry of an archive whose files all lie in a directory, and do not leave it. *)
Definition packed (e : TarEntry) : Prop :=
  exists h rest, header_elements e = h :: rest /\ (h <> "." /\ h <> "..") /\ rest <> [] /\ Forall (fun s => s <> "..") rest.
Definition packed_archive (a : archive) : Prop := match a with Entries l _ => Forall packed l | NotGzip => True end.
(** Below the directory of a chart, in a hidden one. *)
Definition hidden (base p : path) : Prop := exists h q, p = base ++ h :: q /\ HasPrefix h "." = true.
Lemma header_hidden base e : packed e ->
  hidden base (JoinPath base (header_elements e)) /\ hidden base (JoinPath base (removelast (header_elements e))).
Proof.
  intros (h & rest & He & [Hd Hdd] & Hne & Hr). pose proof (Split_pieces "/" ("." +:+ te_Name e)) as Hp. fold (header_elements e) in Hp.
  assert (Hh : HasPrefix h "." = true /\ h <> "").
  { unfold header_elements in He. change ("." +:+ te_Name e) with (String "." (te_Name e)) in He. cbn [Split Ascii.eqb] in He.
    destruct (Split "/" (te_Name e)); injection He as <- _; split; try done; by destruct s. }
  assert (Hstep : step_path base h = base ++ [h]).
  { unfold step_path. destruct (String.eqb_spec h ""); [tauto|]. destruct (String.eqb_spec h "."); [done|]. by destruct (String.eqb_spec h ".."). }
  rewrite He in Hp |- *. unfold JoinPath. rewrite !flat_Split by (try apply Forall_removelast; done).
  assert (Hrl : removelast (h :: rest) = h :: removelast rest) by (by destruct rest). rewrite Hrl. cbn [foldl]. rewrite Hstep.
  pose proof (Forall_removelast _ _ Hr) as Hr'.
  destruct (walk_down (base ++ [h]) rest Hr) as [q ->], (walk_down (base ++ [h]) (removelast rest) Hr') as [q' ->].
  split; [exists h, q|exists h, q']; rewrite <- app_assoc; tauto.
Qed.

(** What a round never touches: the versions of charts, and all below them. *)
Definition settled (dir p : path) : Prop := exists n v rest, p = dir ++ n :: v :: rest /\ HasPrefix v "." = false.
Lemma hidden_not_settled dir n p : hidden (dir ++ [n]) p -> ~ settled dir p.
Proof.
  intros (h & q & -> & Hh) (n' & v & rest & He & Hv). rewrite <- app_assoc in He. apply app_inv_head in He. injection He as -> -> ->. congruence.
Qed.
Lemma hidden_prefix base p q : hidden base p -> p `prefix_of` q -> hidden base q.
Proof. intros (h & r & -> & Hh) [s ->]. exists h, (r ++ s). by rewrite <- app_assoc. Qed.
Lemma icon_not_settled dir n : dir <> [] -> plain n -> ~ settled dir (icon_path n).
Proof.
  intros Hd (Hn & Hs & Hh) (m & v & rest & He & _). unfold icon_path in He. change (JoinPath [] [iconPrefixForLoad; n +:+ iconFormat]) with
    (JoinPath ["helm-icons"] [n +:+ iconFormat]) in He.
  rewrite JoinPath_plain in He.
  - apply (f_equal length) in He. rewrite !length_app in He. destruct dir; [done|]. cbn in He. lia.
  - constructor; [|done]. split; [by destruct n|]. split; [rewrite has_byte_app, Hs; reflexivity|].
    destruct n as [|a n]; [done|]. rewrite app_String, HasPrefix_cons in *. apply andb_false_iff in Hh as [->|Hh]; [done|by destruct n].
Qed.

(** *** What the operations keep *)

(** The files of which [P] holds stay as they are. *)
Definition files_stay (P : path -> file -> Prop) (fs fs' : FS) : Prop := forall p x, P p x -> fs !! p = Some x -> fs' !! p = Some x.
#[export] Instance files_stay_preorder P : PreOrder (files_stay P).
Proof. split; [by intros fs p x|]. intros fs1 fs2 fs3 H1 H2 p x HP Hp. apply H2, H1; auto. Qed.
Lemma files_stay_sub (P Q : path -> file -> Prop) fs fs' : (forall p x, Q p x -> P p x) -> files_stay P fs fs' -> files_stay Q fs fs'.
Proof. intros HPQ Hs p x HQ. apply Hs. auto. Qed.
(** The versions that are there, and those with the directories. *)
Definition versions (dir : path) (p : path) (_ : file) : Prop := settled dir p.
Definition versions_dirs (dir : path) (p : path) (x : file) : Prop := settled dir p \/ x = Dir.

Lemma make_one_stays P p : keeps (files_stay P) (make_one p).
Proof. intros fs q x _ Hq. unfold make_one. destruct (fs !! p) as [[c|]|] eqn:Hp; cbn [snd]; try done. rewrite lookup_insert_ne; congruence. Qed.
Lemma mkdir_from_stays P p rest : keeps (files_stay P) (mkdir_from p rest).
Proof.
  revert p. induction rest as [|e rest IH]; intros p; cbn [mkdir_from]; (apply keeps_bind; [apply make_one_stays|intros _; first [apply keeps_ret|apply IH]]).
Qed.
Lemma mkdir_from_dir p rest fs fs' : mkdir_from p rest fs = (Ok tt, fs') -> fs' !! (p ++ rest) = Some Dir.
Proof.
  revert p fs. induction rest as [|e rest IH]; intros p fs Hr; cbn [mkdir_from] in Hr; apply bind_inv_ok in Hr as ([] & fs1 & Hp & Hr).
  - injection Hr as <-. rewrite app_nil_r. unfold make_one in Hp. destruct (fs !! p) as [[c|]|] eqn:Hl; [done|..]; injection Hp as <-; [done|apply lookup_insert_eq].
  - apply IH in Hr. by rewrite <- app_assoc in Hr.
Qed.
Lemma MkdirAll_stays P p : keeps (files_stay P) (MkdirAll p).
Proof. apply mkdir_from_stays. Qed.
Lemma WriteFile_stays dir p content : ~ settled dir p -> keeps (files_stay (versions_dirs dir)) (WriteFile p content).
Proof.
  intros Hp fs. unfold WriteFile. destruct (fs !! (removelast p : path)) as [[c|]|]; try reflexivity. destruct (fs !! p) as [[c|]|] eqn:Hf; try reflexivity;
    intros q x Hq Hx; cbn [snd]; destruct (decide (p = q)) as [<-|?]; rewrite ?lookup_insert_ne by done; try done; destruct Hq as [?| ->]; congruence.
Qed.
Lemma RemoveAll_stays (dir : path) (p : path) : (forall q : path, p `prefix_of` q -> ~ settled dir q) -> keeps (files_stay (versions dir)) (RemoveAll p).
Proof. intros Hp fs q x Hq Hx. cbn. apply map_lookup_filter_Some. split; [done|]. cbn. intros Hpq. by apply (Hp q). Qed.

Lemma after_spec p q r : after p q = Some r <-> q = p ++ r.
Proof.
  revert q. induction p as [|a p IH]; intros q; cbn; [naive_solver|]. destruct q as [|b q]; [done|].
  destruct (String.eqb_spec a b) as [<-|Hne]; [rewrite IH|]; naive_solver.
Qed.
Lemma Rename_stays (dir : path) (old new : path) (fs : FS) : fs !! old = Some Dir -> (forall q : path, old `prefix_of` q -> ~ settled dir q) ->
  files_stay (versions dir) fs (snd (Rename old new fs)).
Proof.
  intros Ho Hold q x Hq Hx. unfold Rename. rewrite Ho. destruct (fs !! new) as [[c|]|]; try done; destruct (fs !! (removelast new : path)) as [[c'|]|]; try done.
  case_bool_decide; [done|]. cbn [snd]. apply lookup_union_Some_l. apply map_lookup_filter_Some. split; [done|]. cbn. intros Hpq. by apply (Hold q).
Qed.
Lemma Rename_there (old new : path) (fs fs' : FS) : fs !! old = Some Dir -> Rename old new fs = (Ok tt, fs') -> fs' !! new = Some Dir.
Proof.
  intros Ho Hr. unfold Rename in Hr. rewrite Ho in Hr. destruct (fs !! new) as [[c|]|] eqn:Hn; try done; destruct (fs !! (removelast new : path)) as [[c'|]|]; try done.
  revert Hr. case_bool_decide; [done|]. intros [= <-]. rewrite lookup_union_r by (apply map_lookup_filter_None; auto).
  unfold moved. assert (Hone : forall y, (new, y) ∈ omap (fun e : path * file => (fun rest => (new ++ rest, e.2)) <$> after old e.1) (map_to_list fs) -> y = Dir).
  { intros y [[q f] [Hq%elem_of_map_to_list Ha]]%list_elem_of_omap. cbn in Ha. destruct (after old q) as [r|] eqn:Hr; [|done]. injection Ha as Hnr <-.
    assert (r = []) as -> by (destruct r; [done|]; apply (f_equal length) in Hnr; rewrite length_app in Hnr; cbn in Hnr; lia).
    apply after_spec in Hr as ->. rewrite app_nil_r in Hq. congruence. }
  apply elem_of_list_to_map_1'; [intros y Hy; symmetry; by apply Hone|].
  apply list_elem_of_omap. exists (old, Dir). split; [by apply elem_of_map_to_list|]. cbn.
  assert (after old old = Some []) as -> by (apply after_spec; by rewrite app_nil_r). cbn. by rewrite app_nil_r.
Qed.

(** *** A version *)

Section SyncFacts.
Context `{ChartText} `{Registry}.
Context (dir : path) (Hdir : dir <> []).

Lemma expand_entry_stays name e : plain name -> packed e -> keeps (files_stay (versions_dirs dir)) (expand_entry (dir ++ [name]) name e).
Proof.
  intros Hn He. destruct (header_hidden (dir ++ [name]) e He) as [Hh _]. unfold expand_entry. apply keeps_bind; [intros fs; reflexivity|intros fs0].
  apply keeps_bind; [destruct (is_some _); [apply keeps_ret|apply MkdirAll_stays]|intros _]. destruct (te_IsDir e); [apply MkdirAll_stays|].
  apply keeps_bind; [|intros _; apply keeps_guard]. apply WriteFile_stays.
  destruct (String.eqb _ _); [by apply icon_not_settled|by eapply hidden_not_settled].
Qed.
Lemma expand_entries_stays name l : plain name -> Forall packed l -> keeps (files_stay (versions_dirs dir)) (expand_entries (dir ++ [name]) name l).
Proof. intros Hn. induction 1 as [|e l He _ IH]; cbn [expand_entries]; [apply keeps_ret|]. apply keeps_bind; [by apply expand_entry_stays|by intros _]. Qed.
(** The directory of the first entry is made. *)
Lemma expand_entry_dir (name : string) (e : TarEntry) (fs fs' : FS) : let full := JoinPath (dir ++ [name]) (removelast (header_elements e)) in
  plain name -> packed e -> fs !! full = None -> expand_entry (dir ++ [name]) name e fs = (Ok tt, fs') -> fs' !! full = Some Dir.
Proof.
  intros full Hn He Hf Hr. destruct (header_hidden (dir ++ [name]) e He) as [Hh _].
  unfold expand_entry in Hr. fold full in Hr. rewrite bind_gets in Hr. unfold id in Hr. rewrite Hf in Hr. cbn [is_some] in Hr.
  apply bind_inv_ok in Hr as ([] & fs1 & Hm & Hr). apply mkdir_from_dir in Hm. cbn [app] in Hm.
  destruct (te_IsDir e).
  - eapply (keeps_run _ _ _ _ _ (MkdirAll_stays (versions_dirs dir) _) Hr); [by right|done].
  - apply bind_inv_ok in Hr as ([] & fs2 & Hw & Hr). unfold guard, ret, throw in Hr. destruct (te_Complete e); [|done]. injection Hr as <-.
    eapply (keeps_run _ _ _ _ _ (WriteFile_stays dir _ _ _) Hw); [by right|done]. Unshelve.
    destruct (String.eqb _ _); [by apply icon_not_settled|by eapply hidden_not_settled].
Qed.
Lemma expandFile_ok (name content : string) (fs fs' : FS) (r : result io_error (list string)) : plain name -> packed_archive (untar content) -> expandFile dir name content fs = (r, fs') ->
  files_stay (versions dir) fs fs' /\
  forall u, r = Ok u -> u = [] \/ (hidden (dir ++ [name]) (JoinPath (dir ++ [name]) u) /\ fs' !! JoinPath (dir ++ [name]) u = Some Dir).
Proof.
  intros Hn Hp Hr. unfold expandFile in Hr. rewrite JoinPath_one in Hr by done.
  destruct (untar content) as [|[|e l] proper_end]; [by injection Hr as <- <-|..].
  - unfold bind, guard, ret, throw in Hr. destruct proper_end; injection Hr as <- <-; (split; [done|]); intros u; [intros [= <-]; by left|done].
  - inversion Hp as [|e' l' He Hl]; subst. set (full := JoinPath (dir ++ [name]) (removelast (header_elements e))) in *.
    destruct (header_hidden (dir ++ [name]) e He) as [_ Hh]. fold full in Hh.
    assert (Hout : forall q : path, full `prefix_of` q -> ~ settled dir q).
    { intros q Hq. apply (hidden_not_settled dir name). by apply (hidden_prefix _ full). }
    apply (keeps_bind_inv (files_stay (versions dir))) in Hr as [([] & fs1 & Hs1 & Hrm & Hr)|[? Hr]]; [|by split; [|intros u ->]|by apply RemoveAll_stays].
    assert (Hf : fs1 !! full = None) by (injection Hrm as <-; apply map_lookup_filter_None; right; intros x _ Hx; by apply Hx).
    assert (Hk : keeps (files_stay (versions_dirs dir)) (expand_entries (dir ++ [name]) name (e :: l))) by (by apply expand_entries_stays).
    assert (Hw : forall s s' : FS, files_stay (versions_dirs dir) s s' -> files_stay (versions dir) s s') by (intros s s'; apply files_stay_sub; by left).
    unfold bind in Hr at 1. destruct (expand_entries _ _ _ fs1) as [[[]|x] fs2] eqn:He2; pose proof (keeps_run _ _ _ _ _ Hk He2) as Hs2.
    2: { injection Hr as <- <-. split; [|done]. etransitivity; [exact Hs1|by apply Hw]. }
    assert (fs' = fs2) as -> by (unfold bind, guard, ret, throw in Hr; by destruct proper_end; injection Hr as _ <-).
    split; [etransitivity; [exact Hs1|by apply Hw]|]. intros u Hu. right.
    assert (u = removelast (header_elements e)) as -> by (unfold bind, guard, ret, throw in Hr; destruct proper_end; congruence). split; [done|].
    cbn [expand_entries] in He2. apply bind_inv_ok in He2 as ([] & fs3 & He3 & He2).
    apply (keeps_run _ _ _ _ _ (expand_entries_stays name l Hn Hl) He2); [by right|]. by eapply expand_entry_dir.
Qed.
Lemma Rename_into_itself (old : path) (v : string) (fs : FS) : exists e, Rename old (old ++ [v]) fs = (Err e, fs).
Proof.
  unfold Rename. rewrite removelast_last. rewrite bool_decide_true by (by apply prefix_app_r).
  destruct (fs !! old) as [[c|]|], (fs !! (old ++ [v] : path)) as [[c0|]|]; eexists; reflexivity.
Qed.
Definition all_packed : Prop := forall url content, http_get url = Some content -> packed_archive (untar content).
Lemma load_version_ok (repoUrl name : string) (e : ChartEntry) (fs fs' : FS) (r : result io_error unit) : plain name -> plain e.(ce_Version) -> all_packed ->
  loadCloudChartByVersion repoUrl dir name e fs = (r, fs') ->
  files_stay (versions dir) fs fs' /\ (r = Ok tt -> fs' !! (dir ++ [name; e.(ce_Version)]) = Some Dir).
Proof.
  intros Hn Hv Hp Hr. unfold loadCloudChartByVersion in Hr. destruct (ce_Urls e) as [|url urls]; [by injection Hr as <- <-|].
  apply bind_lift_inv in Hr as [(content & Hc & Hr)|(x & _ & -> & ->)]; [|done].
  destruct (http_get _) as [content'|] eqn:Hg; [|done]. injection Hc as ->. apply Hp in Hg.
  unfold bind in Hr. destruct (expandFile dir name content fs) as [[u|x] fs1] eqn:He; destruct (expandFile_ok _ _ _ _ _ Hn Hg He) as [Hs Hu];
    [|by injection Hr as <- <-].
  rewrite JoinPath_two in Hr by done. rewrite JoinPath_one in Hr by done.
  destruct (Hu u eq_refl) as [->|[Hh Hd]].
  - change (JoinPath (dir ++ [name]) []) with (dir ++ [name]) in Hr. change [name; ce_Version e] with ([name] ++ [ce_Version e]) in Hr. rewrite app_assoc in Hr.
    destruct (Rename_into_itself (dir ++ [name]) (ce_Version e) fs1) as [x Hx]. rewrite Hx in Hr. by injection Hr as <- <-.
  - split; [|intros ->; by eapply Rename_there].
    etransitivity; [exact Hs|]. assert (fs' = snd (Rename (JoinPath (dir ++ [name]) u) (dir ++ [name; ce_Version e]) fs1)) as -> by (by rewrite Hr).
    apply Rename_stays; [done|]. intros q Hq. apply (hidden_not_settled dir name). by eapply hidden_prefix.
Qed.
End SyncFacts.

(** *** What is there before *)

Lemma below_spec p q n : below p q = Some n -> q = p ++ [n].
Proof.
  revert q. induction p as [|a p IH]; intros q Hq; cbn in Hq.
  - destruct q as [|b [|]]; naive_solver.
  - destruct q as [|b q]; [done|]. destruct (String.eqb_spec a b) as [<-|]; [|done]. by rewrite (IH _ Hq).
Qed.
Lemma ReadDir_dir (fs : FS) (p : path) l n : ReadDir fs p = Ok l -> (n, true) ∈ l -> fs !! (p ++ [n] : path) = Some Dir.
Proof.
  intros Hl Hn. unfold ReadDir in Hl. destruct (fs !! p) as [[c|]|]; [done| |done]. injection Hl as <-.
  rewrite merge_sort_Permutation in Hn. apply list_elem_of_omap in Hn as ([q f] & Hq%elem_of_map_to_list & Hb). cbn in Hb.
  destruct (below p q) as [m|] eqn:Hm; [|done]. apply below_spec in Hm as ->. injection Hb as -> Hf. by destruct f.
Qed.
Section LocalCharts.
Context `{ChartText}.
Lemma versions_from_there (fs : FS) chartPath need l d found v :
  versions_from fs chartPath need l d = Ok found -> v ∈ found.1 -> (cv_Version v, true) ∈ l.
Proof.
  revert d found. induction l as [|[name isdir] l IH]; intros d found Hf Hv; cbn [versions_from] in Hf; [injection Hf as <-; by apply elem_of_nil in Hv|].
  destruct isdir; [|destruct (String.eqb name chartYamlFile); [done|right; eauto]].
  destruct (HasPrefix name "."); [right; eauto|].
  assert (Hgo : forall d', match LoadChartConfigs fs (JoinPath chartPath [name]) with
      | Err _ => versions_from fs chartPath need l d'
      | Ok config => result_bind (versions_from fs chartPath need l d') (fun rest => Ok (mkChartVersion name config :: rest.1, rest.2))
      end = Ok found -> (cv_Version v, true) ∈ (name, true) :: l).
  { intros d' Hg. destruct (LoadChartConfigs _ _) as [config|]; [|right; eauto].
    destruct (versions_from fs chartPath need l d') as [rest|] eqn:Hr; [|done]. cbn in Hg. injection Hg as <-.
    apply elem_of_cons in Hv as [->|Hv]; [left|right; eauto]. }
  destruct (String.eqb d ""); [|by eapply Hgo].
  destruct (getChartInfo _ _) as [info|]; [|right; eauto].
  destruct (negb need && is_system info); [injection Hf as <-; by apply elem_of_nil in Hv|by eapply Hgo].
Qed.
Lemma local_version_there (fs : FS) (dir : path) need charts chart v : getLocalCharts fs dir need = Ok charts -> chart ∈ charts -> plain chart.(ch_Name) ->
  v ∈ chart.(ch_Versions) -> fs !! (dir ++ [chart.(ch_Name); cv_Version v] : path) = Some Dir.
Proof.
  intros Hl Hc Hp Hv. unfold getLocalCharts in Hl. destruct (ReadDir fs dir) as [chts|]; [|done]. injection Hl as <-.
  apply list_elem_of_omap in Hc as ([name isdir] & _ & Hc). cbn in Hc. destruct (isdir && _); [|done].
  destruct (getLocalChart fs dir name need) as [chart'|] eqn:Hg; [|done]. injection Hc as ->.
  unfold getLocalChart in Hg. destruct (listVersions fs dir name need) as [found|] eqn:Hf; [|done]. injection Hg as <-. cbn [ch_Name ch_Versions] in *.
  unfold listVersions in Hf. rewrite JoinPath_one in Hf by done. destruct (ReadDir fs (dir ++ [name])) as [entries|] eqn:He; [|done].
  destruct (versions_from fs (dir ++ [name]) need entries "") as [found'|] eqn:Hv'; [|done]. cbn in Hf.
  assert (found' = found) as -> by (destruct found'.1; [done|congruence]).
  eapply versions_from_there in Hv' as Hin; [|exact Hv]. eapply ReadDir_dir in He; [|exact Hin]. rewrite <- app_assoc in He. exact He.
Qed.
End LocalCharts.

(** ** A round *)

Section Round.
Context `{ChartText} `{Registry}.
Context (dir : path) (Hdir : dir <> []) (Hpacked : all_packed) (repoUrl : string).
Definition plain_entries (entries : list ChartEntry) : Prop := Forall (fun e => plain e.(ce_Version)) entries.
Definition plain_index (i : ChartsIndex) : Prop := forall (name : string) (entries : list ChartEntry), i !! name = Some entries -> plain name /\ plain_entries entries.
(** The versions of a chart are there. *)
Definition loaded (fs : FS) (name : string) (e : ChartEntry) : Prop := fs !! (dir ++ [name; e.(ce_Version)] : path) = Some Dir.
Lemma loaded_stays (fs fs' : FS) (name : string) (e : ChartEntry) : plain e.(ce_Version) -> files_stay (versions dir) fs fs' -> loaded fs name e -> loaded fs' name e.
Proof. intros (_ & _ & Hv) Hs. apply Hs. exists name, e.(ce_Version), []. auto. Qed.

Lemma load_versions_ok (name : string) (entries : list ChartEntry) (fs fs' : FS) (r : result io_error unit) : plain name -> plain_entries entries -> load_versions repoUrl dir name entries fs = (r, fs') ->
  files_stay (versions dir) fs fs' /\ (r = Ok tt -> Forall (loaded fs' name) entries).
Proof.
  intros Hn He. revert fs. induction He as [|e entries He _ IH]; intros fs Hr; cbn [load_versions] in Hr; [by injection Hr as <- <-|].
  unfold bind in Hr. destruct (loadCloudChartByVersion repoUrl dir name e fs) as [r1 fs1] eqn:Hl.
  destruct (load_version_ok dir Hdir _ _ _ _ _ _ Hn He Hpacked Hl) as [Hs Hd]. destruct r1 as [[]|x]; [|by injection Hr as <- <-].
  destruct (IH _ Hr) as [Hs' Hd']. split; [by etransitivity|]. intros ->. constructor; [|by apply Hd'].
  apply (loaded_stays fs1); [done|done|by apply Hd].
Qed.
Lemma load_chart_ok (fs0 fs fs' : FS) (charts : list Chart) (name : string) (entries : list ChartEntry) (r : result io_error unit) : plain name -> plain_entries entries ->
  getLocalCharts fs0 dir true = Ok charts -> files_stay (versions dir) fs0 fs -> load_chart repoUrl dir charts (name, entries) fs = (r, fs') ->
  files_stay (versions dir) fs fs' /\ (r = Ok tt -> Forall (loaded fs' name) entries).
Proof.
  intros Hn He Hc Hfs Hr. unfold load_chart, checkChartExistAndLoadVersionsIfNeed in Hr. cbn [fst snd] in Hr.
  destruct (find _ charts) as [chart|] eqn:Hf.
  - apply find_some in Hf as [Hin%list_elem_of_In <-%String.eqb_eq]. rewrite bind_assoc in Hr. unfold bind at 1 in Hr.
    destruct (load_versions _ _ _ _ fs) as [r1 fs1] eqn:Hl.
    apply load_versions_ok in Hl as [Hs Hd]; [|done|apply Forall_forall; intros e [_ Hein]%list_elem_of_filter; by eapply Forall_forall in Hein; [|exact He]]. destruct r1 as [[]|x]; [|by injection Hr as <- <-].
    cbn in Hr. injection Hr as <- <-. split; [done|]. intros _. apply Forall_forall. intros e Hein.
    assert (Hpe : plain (ce_Version e)) by (by eapply Forall_forall in Hein; [|exact He]).
    destruct (decide (ce_Version e ∈ cv_Version <$> ch_Versions chart)) as [Hv|Hv].
    + apply list_elem_of_fmap in Hv as (v & Hv & Hvin). apply (loaded_stays fs); [done|done|].
      unfold loaded. apply Hfs; [exists (ch_Name chart), (ce_Version e), []; split; [done|apply Hpe]|].
      rewrite Hv. by eapply local_version_there.
    + eapply Forall_forall; [by apply Hd|]. by apply list_elem_of_filter.
  - rewrite bind_ret_l in Hr. cbv iota in Hr. rewrite JoinPath_one in Hr by done. apply (keeps_bind_inv (files_stay (versions dir))) in Hr as [([] & fs1 & Hs & _ & Hr)|[Hs Hr]];
      [| |apply MkdirAll_stays].
    + apply load_versions_ok in Hr as [Hs' Hd]; [|done|done]. split; [by etransitivity|done].
    + split; [done|]. by intros ->.
Qed.
Lemma load_charts_ok (fs0 fs fs' : FS) (charts : list Chart) (l : list (string * list ChartEntry)) (r : result io_error unit) : Forall (fun c => plain c.1 /\ plain_entries c.2) l ->
  getLocalCharts fs0 dir true = Ok charts -> files_stay (versions dir) fs0 fs -> load_charts repoUrl dir charts l fs = (r, fs') ->
  files_stay (versions dir) fs fs' /\ (r = Ok tt -> Forall (fun c => Forall (loaded fs' c.1) c.2) l).
Proof.
  intros Hl Hc. revert fs. induction Hl as [|[name entries] l [Hn He] _ IH]; intros fs Hfs Hr; cbn [load_charts] in Hr; [by injection Hr as <- <-|].
  unfold bind in Hr. destruct (load_chart repoUrl dir charts (name, entries) fs) as [r1 fs1] eqn:Ho.
  destruct (load_chart_ok _ _ _ _ _ _ _ Hn He Hc Hfs Ho) as [Hs Hd]. destruct r1 as [[]|x]; [|by injection Hr as <- <-].
  destruct (IH fs1) as [Hs' Hd']; [by etransitivity|done|]. split; [by etransitivity|]. intros ->. constructor; [|by apply Hd'].
  specialize (Hd eq_refl). cbn [fst snd]. apply Forall_forall. intros e Hein. apply (loaded_stays fs1); [by eapply Forall_forall in Hein; [|exact He]|done|].
  by eapply Forall_forall in Hein; [|exact Hd].
Qed.

(** C27. The charts of the registry, when in every archive of the registry each file lies in a
    directory whose name does not begin with a dot and that its path does not leave, and when the
    names of the charts and of the versions of the index have no slash and do not begin with a
    dot: a round never changes or removes a version that is there, whatever fails, and after a
    round without an error every version of the index is there.  For other archives it is not so:
    [ChartSyncExamples.dotted_archive_removes_versions] and [ChartSyncExamples.entry_escapes]. *)
Theorem charts_synced (order : ChartsIndex -> list (string * list ChartEntry)) (fs fs' : FS) (r : result io_error unit) :
  (forall i, order i ≡ₚ map_to_list i) -> (forall i, getCloudChartsIndex repoUrl = Some i -> plain_index i) ->
  loadCloudCharts order repoUrl dir fs = (r, fs') ->
  (forall p x, settled dir p -> fs !! p = Some x -> fs' !! p = Some x) /\
  (r = Ok tt -> exists i, getCloudChartsIndex repoUrl = Some i /\
     forall (name : string) (entries : list ChartEntry) (e : ChartEntry), i !! name = Some entries -> e ∈ entries -> fs' !! (dir ++ [name; e.(ce_Version)] : path) = Some Dir).
Proof.
  intros Ho Hi Hr. unfold loadCloudCharts in Hr. apply bind_lift_inv in Hr as [(i & Hx & Hr)|(x & _ & -> & ->)]; [|by split].
  destruct (getCloudChartsIndex repoUrl) as [i'|]; [|done]. injection Hx as ->. specialize (Hi i eq_refl).
  rewrite bind_gets in Hr. unfold id in Hr. apply bind_lift_inv in Hr as [(charts & Hc & Hr)|(x & _ & -> & ->)]; [|by split].
  destruct (getLocalCharts fs dir true) as [charts'|] eqn:Hl; [|done]. injection Hc as ->.
  apply (load_charts_ok fs) in Hr as [Hs Hd]; [|rewrite Ho; apply Forall_forall; intros [name entries] Hin%elem_of_map_to_list; by apply Hi|done|done].
  split; [exact Hs|]. intros ->. exists i. split; [done|]. intros name entries e Hin He. specialize (Hd eq_refl). rewrite Ho in Hd.
  apply elem_of_map_to_list in Hin. eapply Forall_forall in Hin; [|exact Hd]. by eapply Forall_forall in He; [|exact Hin].
Qed.
End Round.
