(* ===== verification/ChartSyncExamples.v ===== *)
(** A registry with two charts: the instance of the theorem about its charts, and where the
    program differs from what it means. *)
From S2P Require Import Prelude GoStrings GoText RestApi Chart ChartSync.

#[export] Instance sync_text : ChartText := {|
  unmarshal_configs c := if String.eqb c "[]" then Some [] else None;
  unmarshal_info c := Some (mkChartInfo c []) |}.
Definition text_file (name content : string) : TarEntry := mkTarEntry name false content true.
Definition chart_archive (top : string) : archive :=
  Entries [text_file (top +:+ "/Chart.yaml") "a chart"; text_file (top +:+ "/config/config.json") "[]"; text_file (top +:+ "/templates/app.yaml") "app"] true.
Definition bare_archive (top : string) : archive := Entries [text_file (top +:+ "/Chart.yaml") "a chart"] true.
(** [what] is the archive of the second version of the first chart. *)
Definition shop_index : ChartsIndex := {["a-web" := [mkChartEntry "v2" ["web-2.tgz"]; mkChartEntry "v1" ["web-1.tgz"]]; "b-store" := [mkChartEntry "v1" ["store-1.tgz"]]]}.
Definition shop (what : archive) : Registry := {|
  http_get url := if bool_decide (url ∈ ["http://shop/index.yaml"; "http://shop/web-2.tgz"; "http://shop/web-1.tgz"; "http://shop/store-1.tgz"]) then Some url else None;
  unmarshal_index c := if String.eqb c "http://shop/index.yaml" then Some shop_index else None;
  untar c := if String.eqb c "http://shop/web-2.tgz" then what else if String.eqb c "http://shop/web-1.tgz" then chart_archive "a-web"
             else if String.eqb c "http://shop/store-1.tgz" then chart_archive "b-store" else NotGzip |}.
(** The first version of the first chart is there. *)
Definition disk : FS := list_to_map [([], Dir); (["charts"], Dir); (["charts"; "a-web"], Dir); (["charts"; "a-web"; "v1"], Dir);
  (["charts"; "a-web"; "v1"; "Chart.yaml"], File "a chart"); (["charts"; "a-web"; "v1"; "config"], Dir); (["charts"; "a-web"; "v1"; "config"; "config.json"], File "[]")].
Definition round_of (what : archive) (fs : FS) := loadCloudCharts (H0 := shop what) map_to_list "http://shop" ["charts"] fs.
Definition names (fs : FS) (p : path) : list string := match ReadDir fs p with Ok l => l.*1 | Err _ => [] end.

Example round_loads :
  let (r, fs) := round_of (chart_archive "a-web") disk in
  r = Ok tt /\ names fs ["charts"] = ["a-web"; "b-store"] /\ names fs ["charts"; "a-web"] = ["v1"; "v2"] /\ names fs ["charts"; "b-store"; "v1"] = ["Chart.yaml"; "config"; "templates"] /\
  fst (round_of (chart_archive "a-web") fs) = Ok tt.
Proof. vm_compute. repeat split. Qed.

Lemma packed_header e h rest : header_elements e = h :: rest -> (h <> "." /\ h <> "..") -> rest <> [] -> forallb (fun s => negb (String.eqb s "..")) rest = true -> packed e.
Proof.
  intros He Hh Hr Hf. exists h, rest. split; [done|]. split; [done|]. split; [done|]. apply Forall_forall. intros s Hs ->.
  rewrite forallb_forall in Hf. by specialize (Hf ".." (proj1 (list_elem_of_In _ _) Hs)).
Qed.
Ltac packed := eapply packed_header; [vm_compute; reflexivity|split; discriminate|discriminate|reflexivity].
Lemma shop_packed : @all_packed (shop (chart_archive "a-web")).
Proof.
  assert (H1 : packed_archive (chart_archive "a-web")) by (apply Forall_cons_2; [packed|]; apply Forall_cons_2; [packed|]; apply Forall_singleton; packed).
  assert (H2 : packed_archive (chart_archive "b-store")) by (apply Forall_cons_2; [packed|]; apply Forall_cons_2; [packed|]; apply Forall_singleton; packed).
  intros url content _. cbn [untar shop]. destruct (String.eqb content _); [exact H1|]. destruct (String.eqb content _); [exact H1|].
  destruct (String.eqb content _); [exact H2|exact I].
Qed.
Lemma shop_index_there what : getCloudChartsIndex (H0 := shop what) "http://shop" = Some shop_index.
Proof. vm_compute. reflexivity. Qed.
Lemma shop_plain what i : getCloudChartsIndex (H0 := shop what) "http://shop" = Some i -> plain_index i.
Proof.
  intros Hi. rewrite shop_index_there in Hi. apply (inj Some) in Hi as <-.
  intros name entries Hn. unfold shop_index in Hn. apply lookup_insert_Some in Hn as [[<- <-]|[_ Hn]]; [|apply lookup_singleton_Some in Hn as [<- <-]];
    (split; [done|repeat constructor; done]).
Qed.
Lemma charts_synced_witness :
  fst (round_of (chart_archive "a-web") disk) = Ok tt /\ snd (round_of (chart_archive "a-web") disk) !! ["charts"; "a-web"; "v1"; "Chart.yaml"] = Some (File "a chart") /\
  snd (round_of (chart_archive "a-web") disk) !! ["charts"; "b-store"; "v1"] = Some Dir.
Proof.
  assert (Hok : fst (round_of (chart_archive "a-web") disk) = Ok tt) by (vm_compute; reflexivity). split; [exact Hok|].
  pose proof (@charts_synced sync_text (shop (chart_archive "a-web")) ["charts"] ltac:(done) shop_packed "http://shop" map_to_list disk _ _ (fun i => reflexivity _)
    (shop_plain (chart_archive "a-web")) (surjective_pairing (round_of (chart_archive "a-web") disk))) as [Hstay Hthere].
  split.
  - apply Hstay; [|vm_compute; reflexivity]. exists "a-web", "v1", ["Chart.yaml"]. split; reflexivity.
  - destruct (Hthere Hok) as (i & Hi & Hall). rewrite shop_index_there in Hi. apply (inj Some) in Hi as <-.
    refine (Hall "b-store" _ (mkChartEntry "v1" ["store-1.tgz"]) _ _); [reflexivity|]. apply list_elem_of_singleton. reflexivity.
Defined.

(** The name of an entry gets a dot in front, which for a name that begins with a dot leads
    up: the archive of a new version, packed as [./a-web], removes every version there is. *)
Lemma dotted_archive_removes_versions :
  names disk ["charts"; "a-web"] = ["v1"] /\
  fst (round_of (chart_archive "./a-web") disk) = Err OtherIo /\ names (snd (round_of (chart_archive "./a-web") disk)) ["charts"; "a-web"] = ["Chart.yaml"; "config"; "templates"].
Proof. vm_compute. repeat split. Qed.
(** An entry is written wherever its name leads. *)
Lemma entry_escapes : snd (round_of (Entries [text_file "a-web/Chart.yaml" "a chart"; text_file "a-web/../../../etc/passwd" "root"] true) disk) !! ["etc"; "passwd"] = Some (File "root").
Proof. vm_compute. reflexivity. Qed.
(** A chart without settings is loaded, but never counts as there: in the next round its
    version is loaded again, which fails and ends the round before the charts after it. *)
Definition bare_shop : Registry := {|
  http_get url := Some url; unmarshal_index _ := Some shop_index; untar url := Entries [text_file "top/Chart.yaml" "a chart"] true |}.
Definition bare_round (fs : FS) := loadCloudCharts (H0 := bare_shop) map_to_list "http://shop" ["charts"] fs.
Lemma bare_chart_blocks :
  let (r, fs) := bare_round (list_to_map [([], Dir); (["charts"], Dir)]) in
  r = Ok tt /\ names fs ["charts"; "a-web"] = ["v1"; "v2"] /\ fst (bare_round fs) = Err OtherIo.
Proof. vm_compute. repeat split. Qed.
