(* ===== verification/AgentHandlers.v ===== *)
(** What the agent in a cluster is asked (pkg/clusteragent/clusteragent.go; the handlers of
    networks, inner and outer services and metrics and of the service mesh in pkg/handler). *)
From S2P Require Import Prelude GoStrings GoText RestApi KubeApi Chart.

(** ** The agent *)

Definition ClusterAgentServiceHost : string := "http://cluster-agent.zcloud.svc/apis/agent.zcloud.cn/v1".
Definition MethodGet : string := "GET".
(** Collection, as far as it is looked at. *)
Record Collection (A : Type) := mkCollection { co_Type : string; co_Data : A }.
Arguments mkCollection {A}.
Arguments co_Type {A}.
Arguments co_Data {A}.
(** A request through the tunnel to the agent of a cluster: the body of the answer, whatever
    its status, as far as it could be read. *)
Class AgentProxy (K : Type) := proxyRequest : string -> string -> string -> M K api_error string.
(** encoding/json *)
Class AgentJson (A : Type) := unmarshal_agent : string -> option A.
(** What follows a prefix. *)
Fixpoint strip_text (p s : string) : option string :=
  match p, s with
  | EmptyString, _ => Some s
  | String c p, String d s => if Ascii.eqb c d then strip_text p s else None
  | _, _ => None
  end.
(** strings.SplitAfterN of two parts: up to the end of the first [sep], and the rest. *)
Fixpoint SplitAfter2 (sep s : string) : option (string * string) :=
  match strip_text sep s with
  | Some rest => Some (sep, rest)
  | None => match s with
            | EmptyString => None
            | String c s => (fun p => (String c p.1, p.2)) <$> SplitAfter2 sep s
            end
  end.
(** [None]: an index out of range. *)
Definition genClusterAgentURL (path cluster : string) : option string := snd <$> SplitAfter2 ("/clusters/" +:+ cluster) path.
Definition WrongUrl : api_error := ServerError.

Section Agent.
Context {K : Type} `{!AgentProxy K}.
Definition processRequest {A} `{!AgentJson A} (method cluster url : string) : M K api_error A :=
  let! body := proxyRequest method cluster (ClusterAgentServiceHost +:+ url) in
  lift (of_option ServerError (unmarshal_agent body)).
Definition GetResource {A} `{!AgentJson A} (cluster url : string) : M K api_error A := processRequest MethodGet cluster url.
Definition ListResource {A} `{!AgentJson (Collection A)} (cluster url : string) : M K api_error A :=
  let! info := processRequest (A := Collection A) MethodGet cluster url in
  do! guard (String.eqb info.(co_Type) "collection") WrongUrl in ret info.(co_Data).
End Agent.

(** ** Messages *)

(** The resources of networks, services and metrics are passed on as the agent sends them. *)
Record NodeNetwork := mkNodeNetwork { nw_Name : string; nw_IP : string }.
Record PodIP := mkPodIP { pp_Namespace : string; pp_Name : string; pp_IP : string }.
Record PodNetwork := mkPodNetwork { pn_NodeName : string; pn_PodCIDR : string; pn_PodIPs : list PodIP }.
Record ServiceNetwork := mkServiceNetwork { sw_Namespace : string; sw_Name : string; sw_IP : string }.
Record WorkloadPod := mkWorkloadPod { wp_Name : string; wp_State : string }.
Record ServiceWorkload := mkServiceWorkload { sl_Name : string; sl_Kind : string; sl_Pods : list WorkloadPod }.
Record InnerService := mkInnerService { is_Name : string; is_Workloads : list ServiceWorkload }.
Record OuterService := mkOuterService { os_EntryPoint : string; os_Services : gmap string InnerService }.
(** A number that was measured: Gauge or Counter. *)
Record MetricFamily := mkMetricFamily { mf_Labels : gmap string string; mf_Gauge : Z; mf_Counter : Z }.
Record Metric := mkMetric { mt_Name : string; mt_Type : string; mt_Help : string; mt_Metrics : list MetricFamily }.

(** What the service mesh tells of a peer. *)
Record BasicStat := mkBasicStat {
  bs_SuccessCount : Z; bs_FailureCount : Z; bs_LatencyMsP50 : Z; bs_LatencyMsP95 : Z; bs_LatencyMsP99 : Z; bs_ActualSuccessCount : Z; bs_ActualFailureCount : Z }.
Record TcpStat := mkTcpStat { ts_OpenConnections : Z; ts_ReadBytesTotal : Z; ts_WriteBytesTotal : Z }.
Record TrafficSplitStat := mkSplitStat { tf_Apex : string; tf_Leaf : string; tf_Weight : string }.
Record ContainerError := mkContainerError { cx_Message : string; cx_Container : string; cx_Image : string; cx_Reason : string }.
Record PodError := mkPodError { px_PodName : string; px_Errors : list ContainerError }.
Record MeshResource := mkMeshResource { mr_Namespace : string; mr_Type : string; mr_Name : string }.
Record Stat := mkStat {
  st_ID : string; st_WorkloadID : string; st_Link : string; st_Resource : MeshResource; st_TimeWindow : string; st_Status : string;
  st_MeshedPodCount : Z; st_RunningPodCount : Z; st_FailedPodCount : Z; st_BasicStat : BasicStat; st_TcpStat : TcpStat; st_TsStat : TrafficSplitStat;
  st_PodErrors : list PodError }.
Definition set_Link (link : string) (s : Stat) : Stat :=
  mkStat s.(st_ID) s.(st_WorkloadID) link s.(st_Resource) s.(st_TimeWindow) s.(st_Status) s.(st_MeshedPodCount) s.(st_RunningPodCount) s.(st_FailedPodCount)
    s.(st_BasicStat) s.(st_TcpStat) s.(st_TsStat) s.(st_PodErrors).
Record SvcMeshPod := mkMeshPod { mp_ID : string; mp_Stat : Stat; mp_Inbound : list Stat; mp_Outbound : list Stat }.
Record SvcMeshWorkload := mkMeshWorkload {
  mw_ID : string; mw_GroupID : string; mw_Destinations : list string; mw_Stat : Stat; mw_Inbound : list Stat; mw_Outbound : list Stat; mw_Pods : list SvcMeshPod }.

(** path.Join of a first element that begins with a slash. *)
Definition join_url (elems : list string) : string := "/" +:+ String.concat "/" (JoinPath [] elems).
Definition setWorkloadRelativeResourceLink (reqPath : string) (w : SvcMeshWorkload) : SvcMeshWorkload :=
  let workloadLinkPrefix := TrimSuffix reqPath w.(mw_ID) in
  let link s := set_Link (join_url [workloadLinkPrefix; s.(st_ID)]) s in
  mkMeshWorkload w.(mw_ID) w.(mw_GroupID) w.(mw_Destinations) w.(mw_Stat) (link <$> w.(mw_Inbound)) (link <$> w.(mw_Outbound))
    ((fun p => mkMeshPod p.(mp_ID) (set_Link (join_url [reqPath; "svcmeshpods"; p.(mp_Stat).(st_ID)]) p.(mp_Stat)) p.(mp_Inbound) p.(mp_Outbound)) <$> w.(mw_Pods)).
Definition setPodRelativeResourceLink (reqPath namespace : string) (p : SvcMeshPod) : SvcMeshPod :=
  let workloadLinkPrefix := from_option fst reqPath (SplitAfter2 ("/namespaces/" +:+ namespace +:+ "/svcmeshworkloads/") reqPath) in
  let link s := set_Link (join_url [workloadLinkPrefix; s.(st_WorkloadID); "svcmeshpods"; s.(st_ID)]) s in
  mkMeshPod p.(mp_ID) p.(mp_Stat) (link <$> p.(mp_Inbound)) (link <$> p.(mp_Outbound)).

(** ** Handlers *)

(** [AnswerPanic]: an index out of range. *)
Inductive agent_error := AnswerApi (e : api_error) | AnswerPanic.
Section Handlers.
Context {K : Type} `{!AgentProxy K}.
Definition with_agent {A} (reqPath cluster : string) (ask : string -> M K api_error A) : M (gmap string K) agent_error A :=
  on_cluster (AnswerApi NotFound) cluster
    (let! url := lift (of_option AnswerPanic (genClusterAgentURL reqPath cluster)) in
     rethrow (fun _ => AnswerApi ServerError) (ask url)).
(** List of ServiceNetworkManager, PodNetworkManager, NodeNetworkManager, InnerServiceManager,
    OuterServiceManager, MetricManager and SvcMeshWorkloadManager. *)
Definition List {A} `{!AgentJson (Collection (list A))} (reqPath cluster : string) : M (gmap string K) agent_error (list A) :=
  with_agent reqPath cluster (ListResource (A := list A) cluster).
Definition ListServiceNetworks `{!AgentJson (Collection (list ServiceNetwork))} := List (A := ServiceNetwork).
Definition ListPodNetworks `{!AgentJson (Collection (list PodNetwork))} := List (A := PodNetwork).
Definition ListNodeNetworks `{!AgentJson (Collection (list NodeNetwork))} := List (A := NodeNetwork).
Definition ListInnerServices `{!AgentJson (Collection (list InnerService))} := List (A := InnerService).
Definition ListOuterServices `{!AgentJson (Collection (list OuterService))} := List (A := OuterService).
Definition ListMetrics `{!AgentJson (Collection (list Metric))} := List (A := Metric).
Definition ListSvcMeshWorkloads `{!AgentJson (Collection (list SvcMeshWorkload))} := List (A := SvcMeshWorkload).
Definition GetSvcMeshWorkload `{!AgentJson SvcMeshWorkload} (reqPath cluster : string) : M (gmap string K) agent_error SvcMeshWorkload :=
  let! workload := with_agent reqPath cluster (GetResource cluster) in ret (setWorkloadRelativeResourceLink reqPath workload).
Definition GetSvcMeshPod `{!AgentJson SvcMeshPod} (reqPath cluster namespace : string) : M (gmap string K) agent_error SvcMeshPod :=
  let! pod := with_agent reqPath cluster (GetResource cluster) in ret (setPodRelativeResourceLink reqPath namespace pod).
End Handlers.

(** ** Facts *)

Lemma strip_text_app p s : strip_text p (p +:+ s) = Some s.
Proof. induction p as [|c p IH]; [by destruct s|]. rewrite app_String. cbn [strip_text]. by rewrite Ascii.eqb_refl. Qed.
Lemma SplitAfter2_here sep rest : sep <> "" -> SplitAfter2 sep (sep +:+ rest) = Some (sep, rest).
Proof. intros Hne. pose proof (strip_text_app sep rest) as Hs. destruct sep as [|c sep]; [done|]. rewrite app_String in *. unfold SplitAfter2. by rewrite Hs. Qed.
Lemma SplitAfter2_skip sep c s : strip_text sep (String c s) = None -> SplitAfter2 sep (String c s) = (fun p => (String c p.1, p.2)) <$> SplitAfter2 sep s.
Proof. intros Hs. cbn [SplitAfter2]. by rewrite Hs. Qed.
(** The address that is asked for is what follows the name of the cluster. *)
Lemma genClusterAgentURL_rest cluster rest : genClusterAgentURL ("/apis/zcloud.cn/v1/clusters/" +:+ cluster +:+ rest) cluster = Some rest.
Proof.
  unfold genClusterAgentURL. change ("/apis/zcloud.cn/v1/clusters/" +:+ cluster +:+ rest) with ("/apis/zcloud.cn/v1" +:+ (("/clusters/" +:+ cluster) +:+ rest)).
  remember ("/clusters/" +:+ cluster) as sep eqn:Hsep. rewrite !app_String, app_Empty.
  do 18 (rewrite SplitAfter2_skip by (by rewrite Hsep)). by rewrite SplitAfter2_here by (by rewrite Hsep).
Qed.
Section Facts.
Context {K : Type} `{!AgentProxy K}.
(** A list is what the agent of the cluster answers to that address, if it is a collection;
    no request panics. *)
Lemma list_forwarded {A} `{!AgentJson (Collection (list A))} cluster rest (ks ks' : gmap string K) (r : result agent_error (list A)) :
  List ("/apis/zcloud.cn/v1/clusters/" +:+ cluster +:+ rest) cluster ks = (r, ks') ->
  match ks !! cluster with
  | None => r = Err (AnswerApi NotFound) /\ ks' = ks
  | Some k =>
      exists answer k', proxyRequest MethodGet cluster (ClusterAgentServiceHost +:+ rest) k = (answer, k') /\ ks' = <[cluster := k']> ks /\
        match r with
        | Ok l => exists body, answer = Ok body /\ unmarshal_agent (A := Collection (list A)) body = Some (mkCollection "collection" l)
        | Err e => e = AnswerApi ServerError
        end
  end.
Proof.
  unfold List, with_agent, on_cluster. destruct (ks !! cluster) as [k|]; [|by intros [= <- <-]].
  rewrite genClusterAgentURL_rest. unfold ListResource, processRequest, rethrow, bind, lift, of_option.
  destruct (proxyRequest _ _ _ k) as [answer k'] eqn:Hp. intros Hr. exists answer, k'. split; [done|].
  destruct answer as [body|e]; [|by injection Hr as <- <-].
  destruct (unmarshal_agent body) as [[t l]|] eqn:Hu; [|by injection Hr as <- <-]. cbn [co_Type co_Data] in Hr. unfold guard, ret, throw in Hr.
  destruct (String.eqb_spec t "collection") as [->|]; injection Hr as <- <-; [|done]. split; [done|]. by exists body.
Qed.
End Facts.

(** An answer of the agent that says that something is not there is read as a workload
    without a name. *)
Module Example.
#[export] Instance empty_workload : AgentJson SvcMeshWorkload := fun _ =>
  Some (mkMeshWorkload "" "" [] (mkStat "" "" "" (mkMeshResource "" "" "") "" "" 0 0 0 (mkBasicStat 0 0 0 0 0 0 0) (mkTcpStat 0 0 0) (mkSplitStat "" "" "") []) [] [] []).
#[export] Instance missing : AgentProxy unit := fun _ _ _ => ret "{code: NotFound, status: 404}".
Lemma missing_workload_served : is_ok (fst (GetSvcMeshWorkload "/apis/zcloud.cn/v1/clusters/c1/namespaces/ns/svcmeshworkloads/dpm-gone" "c1" {["c1" := tt]})) = true.
Proof. vm_compute. reflexivity. Qed.
End Example.
