(* ===== verification/Consoles.v ===== *)
(** What the server delivers besides the answers of its handlers: alarms and events over web
    sockets, mails (pkg/alarm/service.go and mail.go, pkg/k8seventwatcher/service.go), the
    shells of clusters (pkg/k8sshell), and the two handlers that give out kubeconfigs and the
    audit log (pkg/handler/kubeconfig_manager.go and auditlog_manager.go). *)
From S2P Require Import Prelude KvStore GoStrings ClusterTypes ClusterState ClusterManager Authorizer RestApi.
From S2P Require Import KubeApi ConfigMap Secret PersistentVolume PodTemplate Workload Deployment WorkFlow FluentBit Streams.
From S2P Require Alarm AuditLog Threshold.

(** ** Alarms over a web socket *)

Definition alarmUpdateLink (id : string) : string := "/apis/zcloud.cn/v1/alarms/" +:+ id.
Definition alarmCollectionLink : string := "/apis/zcloud.cn/v1/alarms".
Inductive AlarmMessage := UnackAlarm (a : Alarm.Alarm) (links : list (string * string)) | UnackNumber (n : nat).
Definition genLink (a : Alarm.Alarm) : list (string * string) := [("collection", alarmCollectionLink); ("update", alarmUpdateLink a.(Alarm.al_ID))].
Definition alarm_message (event : Alarm.Alarm + nat) : AlarmMessage :=
  match event with inl a => UnackAlarm a (genLink a) | inr n => UnackNumber n end.
(** A kubernetes event, as far as it is shown. *)
Record ShownEvent := mkShownEvent {
  se_hour : Z; se_minute : Z; se_second : Z; se_Namespace : string; se_Type : string; se_Kind : string; se_Name : string; se_Reason : string;
  se_Message : string; se_Component : string; se_Host : string }.
(** encoding/json on what is sent. *)
Class ConsoleText := {
  marshal_message : AlarmMessage -> string;
  marshal_event : gmap string string -> string;
  marshal_alarm : Alarm.Alarm -> option string;
  unmarshal_sizes : string -> option (gmap string Z)
}.
Section Sockets.
Context `{ConsoleText}.
(** What a listener is sent goes to the socket, until a write fails. *)
Definition OpenAlarm (events : list (Alarm.Alarm + nat)) : M Socket stream_error unit := write_all (marshal_message ∘ alarm_message <$> events).
Definition two (z : Z) : string := if (0 <=? z) && (z <? 10) then "0" +:+ Itoa z else Itoa z.
Definition event_fields (id : string) (e : ShownEvent) : gmap string string :=
  list_to_map [("id", id); ("time", two e.(se_hour) +:+ ":" +:+ two e.(se_minute) +:+ ":" +:+ two e.(se_second)); ("namespace", e.(se_Namespace));
    ("type", e.(se_Type)); ("kind", e.(se_Kind)); ("name", e.(se_Name)); ("reason", e.(se_Reason)); ("message", e.(se_Message));
    ("source", e.(se_Component) +:+ "," +:+ e.(se_Host))].
(** Each event with the identifier that is generated for it. *)
Definition OpenEvent (events : list (string * ShownEvent)) : M Socket stream_error unit :=
  write_all ((fun e => marshal_event (event_fields e.1 e.2)) <$> events).

(** ** Mails *)

Definition Subject : string := "Singlecloud Alarm".
Record MailMessage := mkMailMessage { mm_From : string; mm_To : list string; mm_Subject : string; mm_Body : string }.
Definition genMessage (a : Alarm.Alarm) : string := default "" (marshal_alarm a).
Definition mail_configured (t : Threshold.Threshold) : bool :=
  let from := t.(Threshold.th_MailFrom) in
  negb (String.eqb from.(Threshold.ml_User) "") && negb (String.eqb from.(Threshold.ml_Host) "") && negb (from.(Threshold.ml_Port) =? 0) &&
  negb (String.eqb from.(Threshold.ml_Password) "") && negb (bool_decide (t.(Threshold.th_MailTo) = [])).
(** The account and the message that are sent, if mails are set up; [deliver] says whether the
    server takes it. *)
Definition SendMail {DB} `{KvTable DB} `{Json Threshold.Threshold} (deliver : Threshold.Mail -> MailMessage -> bool) (a : Alarm.Alarm)
    : M DB kv_error (option (Threshold.Mail * MailMessage)) :=
  let! threshold := Threshold.getThresholdFromDB Threshold.ThresholdTable in
  if negb (mail_configured threshold) then ret None
  else
    let from := threshold.(Threshold.th_MailFrom) in
    let m := mkMailMessage from.(Threshold.ml_User) threshold.(Threshold.th_MailTo) Subject (genMessage a) in
    do! guard (deliver from m) KvIo in ret (Some (from, m)).

(** ** Shells *)

(** A message that decodes as numbers by name is a new size of the terminal, any other is
    input, as much as fits into the buffer of the reader. *)
Inductive shell_read := ReadFailed | ReadInput (text : string) | ReadResize (cols rows : Z).
Definition Read (room : nat) (reply : option string) : shell_read :=
  match reply with
  | None => ReadFailed
  | Some text =>
      match unmarshal_sizes text with
      | None => ReadInput (String.substring 0 room text)
      | Some msg => ReadResize (default 0 (msg !! "cols")) (default 0 (msg !! "rows"))
      end
  end.
End Sockets.

Section Shells.
Context {X : Type}.
(** The executors of the clusters; those that were stopped. *)
Record ExecutorManager := mkExecutors { em_executors : gmap string X; em_stopped : list X }.
(** A cluster was created, and building its executor works or not, or deleted. *)
Inductive shell_event := ShellCreated (name : string) (executor : option X) | ShellDeleted (name : string) | ShellOther.
Definition eventLoop (mgr : ExecutorManager) (e : shell_event) : ExecutorManager :=
  match e with
  | ShellCreated name executor =>
      match mgr.(em_executors) !! name, executor with
      | None, Some x => mkExecutors (<[name := x]> mgr.(em_executors)) mgr.(em_stopped)
      | _, _ => mgr
      end
  | ShellDeleted name =>
      match mgr.(em_executors) !! name with
      | Some x => mkExecutors (delete name mgr.(em_executors)) (mgr.(em_stopped) ++ [x])
      | None => mgr
      end
  | ShellOther => mgr
  end.
Definition BashPath : string := "/bin/bash".
Definition ShPath : string := "/bin/sh".
Definition ClusterShellPodName : string := "zcloud-shell-0".
Definition ClusterShellContainerName : string := "zcloud-shell".
Definition ShellNamespace : string := "zcloud".
Record ExecPod := mkExecPod { xp_Namespace : string; xp_Name : string; xp_Container : string }.
(** A program runs in a container; a socket that could not be opened is a nil dereference. *)
Inductive console := NoExecutor | ConsolePanic | ConsoleRuns (executor : X) (pod : ExecPod) (path : string).
Definition open_console (pod : ExecPod) (path clusterID : string) (upgraded : bool) (mgr : ExecutorManager) : console :=
  match mgr.(em_executors) !! clusterID with
  | None => NoExecutor
  | Some executor => if upgraded then ConsoleRuns executor pod path else ConsolePanic
  end.
Definition OpenClusterConsole : string -> bool -> ExecutorManager -> console := open_console (mkExecPod ShellNamespace ClusterShellPodName ClusterShellContainerName) BashPath.
Definition OpenContainerConsole (namespace pod container : string) : string -> bool -> ExecutorManager -> console := open_console (mkExecPod namespace pod container) ShPath.
End Shells.
Arguments ExecutorManager : clear implicits.
Arguments shell_event : clear implicits.

(** ** Kubeconfigs and the audit log *)

Record KubeConfig := mkKubeConfig { kc_User : string; kc_KubeConfig : string; kc_CreationTimestamp : Z; kc_DeletionTimestamp : Z }.
(** pki.KubeAdminCertName *)
Class AdminCert := KubeAdminCertName : string.
Section KubeConfigs.
Context `{ZkeCore} {DB : Type} `{KvTable DB} `{Json clusterState} `{FsmEngine} `{NodeListener}.
Local Abbreviation Manager := (World (DB := DB)).
(** [None]: a nil dereference in the manager. *)
Definition panic_or (e : ApiError) (f : api_error) : option api_error := match e with EPanic => None | _ => Some f end.
Definition kubeconfig_of (clusterID id : string) : M Manager (option api_error) KubeConfig :=
  let! found := rethrow (fun e => panic_or e NotFound) (GetReady clusterID) in
  match found with
  | None => throw (Some NotFound)
  | Some l =>
      let! text := rethrow (fun e => panic_or e ServerError) (GetKubeConfig l id) in
      let! c := rethrow (fun e => panic_or e ServerError) (cluster l) in
      ret (mkKubeConfig id text c.(zl_createTime) c.(zl_deleteTime))
  end.
Definition GetKubeConfigOf (ctx : option string) (clusterID id : string) : M Manager (option api_error) KubeConfig :=
  if negb (isAdmin (getCurrentUser ctx)) then throw (Some PermissionDenied) else kubeconfig_of clusterID id.
Definition ListKubeConfigs `{AdminCert} (ctx : option string) (clusterID : string) : M Manager (option api_error) (list KubeConfig) :=
  if negb (isAdmin (getCurrentUser ctx)) then throw (Some PermissionDenied)
  else let! k := kubeconfig_of clusterID KubeAdminCertName in ret [k].
End KubeConfigs.
Definition ListAuditLogs {DB} `{KvTable DB} `{Json AuditLog.AuditLog} (ctx : option string) (dr : AuditLog.DefaultDriver DB)
    : result api_error (list AuditLog.AuditLog) * AuditLog.DefaultDriver DB :=
  let (r, dr) := AuditLog.LoggerList (getCurrentUser ctx) dr in (map_err (fun _ => ServerError) r, dr).

(** ** Facts *)

Section Facts.
Context `{ZkeCore} {DB : Type} `{KvTable DB} `{Json clusterState} `{FsmEngine} `{NodeListener}.
(** Only the administrator gets a kubeconfig, of the user asked for, in the current
    certificates of a ready cluster; without certificates it is empty. *)
Lemma kubeconfigs_guarded ctx clusterID id w r w' : GetKubeConfigOf ctx clusterID id w = (r, w') ->
  (getCurrentUser ctx <> Administrator -> r = Err (Some PermissionDenied) /\ w' = w) /\
  forall k, r = Ok k -> getCurrentUser ctx = Administrator /\ k.(kc_User) = id /\
    exists l, fst (GetReady clusterID w) = Ok (Some l) /\ exists w1, fst (GetKubeConfig l id w1) = Ok k.(kc_KubeConfig).
Proof.
  intros Hr. unfold GetKubeConfigOf in Hr. destruct (isAdmin (getCurrentUser ctx)) eqn:Ha; cbn [negb] in Hr.
  - apply isAdmin_iff in Ha. split; [done|]. intros k ->. split; [done|]. unfold kubeconfig_of in Hr.
    apply bind_inv_ok in Hr as (found & w1 & Hf & Hr). unfold rethrow in Hf. destruct (GetReady clusterID w) as [[found'|e] w1'] eqn:Hg; [|done].
    injection Hf as -> ->. destruct found as [l|]; [|done].
    apply bind_inv_ok in Hr as (text & w2 & Ht & Hr). unfold rethrow in Ht. destruct (GetKubeConfig l id w1) as [[text'|e] w2'] eqn:Hk; [|done]. injection Ht as -> ->.
    apply bind_inv_ok in Hr as (c & w3 & _ & Hr). injection Hr as <- _. cbn. split; [done|]. exists l. split; [done|]. exists w1. by rewrite Hk.
  - injection Hr as <- <-. split; [done|]. by intros k.
Qed.
End Facts.

(** A mail is sent from the account that is set up, to those that are set up, and only then. *)
Lemma mail_sent `{ConsoleText} {DB} `{KvTable DB} `{Json Threshold.Threshold} deliver a (d d' : DB) sent :
  SendMail deliver a d = (Ok sent, d') -> exists t d1, Threshold.getThresholdFromDB Threshold.ThresholdTable d = (Ok t, d1) /\ d' = d1 /\
    (sent = None <-> mail_configured t = false) /\
    forall from m, sent = Some (from, m) -> from = Threshold.th_MailFrom t /\ mm_To m = Threshold.th_MailTo t /\ mm_To m <> [] /\ deliver from m = true.
Proof.
  intros Hs. unfold SendMail in Hs. apply bind_inv_ok in Hs as (t & d1 & Ht & Hs). exists t, d1. split; [done|].
  destruct (mail_configured t) eqn:Hc; cbn [negb] in Hs.
  - apply bind_guard_inv in Hs as [[Hd [= <- <-]]|(_ & ? & _)]; [|done]. split; [done|]. split; [done|]. intros from m [= <- <-].
    unfold mail_configured in Hc. apply andb_true_iff in Hc as [_ Hc%negb_true_iff]. apply bool_decide_eq_false in Hc. auto.
  - injection Hs as <- <-. by split; [|split].
Qed.
(** The executor of a cluster is stopped when it goes: none runs that was stopped, as long as
    every cluster gets an executor of its own. *)
Lemma executors_stop {X} (mgr : ExecutorManager X) name x :
  mgr.(em_executors) !! name = Some x ->
  (eventLoop mgr (ShellDeleted name)).(em_executors) !! name = None /\ x ∈ (eventLoop mgr (ShellDeleted name)).(em_stopped).
Proof. intros Hx. cbn. rewrite Hx. cbn. split; [apply lookup_delete_eq|]. apply elem_of_app. right. by apply list_elem_of_singleton. Qed.

(** ** Where the program differs *)

Module Examples.
#[export] Instance text : ConsoleText := {|
  marshal_message _ := "message"; marshal_event _ := "event"; marshal_alarm _ := Some "alarm";
  unmarshal_sizes s := if String.eqb s "null" then Some ∅ else None |}.
(** What does not fit into the buffer of the reader is lost. *)
Lemma long_input_cut : Read 4 (Some "rm -r old") = ReadInput "rm -".
Proof. reflexivity. Qed.
(** A pasted [null] decodes as no numbers: the terminal gets no columns and no rows. *)
Lemma null_resizes : Read 1024 (Some "null") = ReadResize 0 0.
Proof. reflexivity. Qed.
(** A socket that could not be opened is reported and closed all the same. *)
Lemma failed_shell_panics : OpenClusterConsole "c1" false (mkExecutors {["c1" := tt]} []) = ConsolePanic.
Proof. reflexivity. Qed.
End Examples.
