(* ===== verification/StartUp.v ===== *)
(** The start of the server: its configuration (config/config.go), the version of the database
    (pkg/db/db.go), the certificates (cmd/singlecloud/singlecloud.go,
    pkg/handler/registry_manager.go), and the bus of events that the components subscribe to
    (pkg/eventbus/eventbus.go). *)
From S2P Require Import Prelude KvStore GoStrings GoText RestApi Chart ChartSync.
From S2P Require SystemApp.

(** ** The configuration *)

Definition Master : string := "master".
Definition Slave : string := "slave".
Record ServerConf := mkServerConf { sv_Addr : string; sv_TlsCertFile : string; sv_TlsKeyFile : string; sv_DNSAddr : string; sv_CasAddr : string; sv_EnableDebug : bool }.
Record DBConf := mkDBConf { db_Path : string; db_Port : Z; db_Role : string; db_SlaveDBAddr : string }.
Record ChartConf := mkChartConf { cn_Path : string; cn_Repo : string }.
Record RegistryCAConf := mkRegistryCAConf { rc_CaCertPath : string; rc_CaKeyPath : string }.
Record SinglecloudConf := mkConf { cf_Path : string; cf_Server : ServerConf; cf_DB : DBConf; cf_Chart : ChartConf; cf_Registry : RegistryCAConf }.
Definition set_Path (path : string) (c : SinglecloudConf) : SinglecloudConf := mkConf path c.(cf_Server) c.(cf_DB) c.(cf_Chart) c.(cf_Registry).
Definition CreateDefaultConfig : SinglecloudConf :=
  mkConf "" (mkServerConf ":80" "" "" "" "" false) (mkDBConf "" 6666 Master "") (mkChartConf "" "") (mkRegistryCAConf "" "").
Inductive start_error := ConfUnreadable | ConfRole | ConfSlaves | ConfRegistry | VersionTable | VersionText | WrongVersion (v : string) | CertUnwritten | RegistryCa.
(** configure.Load: the file at the path over the values that are there. *)
Class ConfigFile := configure_load : string -> SinglecloudConf -> option SinglecloudConf.
Definition Reload `{ConfigFile} (c : SinglecloudConf) : result start_error SinglecloudConf :=
  match configure_load c.(cf_Path) CreateDefaultConfig with Some newConf => Ok (set_Path c.(cf_Path) newConf) | None => Err ConfUnreadable end.
Definition Verify (c : SinglecloudConf) : result start_error unit :=
  if negb (String.eqb c.(cf_DB).(db_Role) Master) && negb (String.eqb c.(cf_DB).(db_Role) Slave) then Err ConfRole
  else if String.eqb c.(cf_DB).(db_Role) Slave && negb (String.eqb c.(cf_DB).(db_SlaveDBAddr) "") then Err ConfSlaves
  else if String.eqb c.(cf_Registry).(rc_CaCertPath) "" || String.eqb c.(cf_Registry).(rc_CaKeyPath) "" then Err ConfRegistry
  else Ok tt.
Definition empty_conf : SinglecloudConf := mkConf "" (mkServerConf "" "" "" "" "" false) (mkDBConf "" 0 "" "") (mkChartConf "" "") (mkRegistryCAConf "" "").
Definition LoadConfig `{ConfigFile} (path : string) : result start_error SinglecloudConf :=
  result_bind (Reload (set_Path path empty_conf)) (fun conf => result_bind (Verify conf) (fun _ => Ok conf)).

(** ** The version of the database *)

Definition DBVersion : string := "v1.0".
Record Version := mkVersion { vs_Version : string }.
(** The keys of the table are versions; of several wrong ones, which is reported depends on
    the order of the map. *)
Section Version.
Context {DB : Type} `{KvTable DB} `{Json Version}.
Definition wrong_versions (values : gmap string string) : list string := filter (fun v => v <> DBVersion) (map_to_list values).*1.
Definition checkDBVersion : M DB start_error unit := fun d =>
  match kv_begin d with
  | (Err _, d) => (Err VersionTable, d)
  | (Ok t, _) =>
      match tx_list t with
      | (Err _, t) => (Err VersionTable, tx_rollback t)
      | (Ok values, t) =>
          if decide (values = ∅) then
            match marshal (mkVersion DBVersion) with
            | None => (Err VersionText, tx_rollback t)
            | Some value =>
                match tx_add DBVersion value t with
                | (Err _, t) => (Err VersionTable, tx_rollback t)
                | (Ok _, t) => let (r, d) := tx_commit t in (map_err (fun _ => VersionTable) r, d)
                end
            end
          else
            match wrong_versions values with
            | v :: _ => (Err (WrongVersion v), tx_rollback t)
            | [] => (Ok tt, tx_rollback t)
            end
      end
  end.
End Version.

(** ** Certificates *)

Definition defaultTlsCertFile : path := ["tmp_tls_cert.crt"].
Definition defaultTlsKeyFile : path := ["tmp_tls_key.key"].
(** os.Stat, and os.IsExist, which asks whether an error says that something is there. *)
Definition Stat (fs : FS) (p : path) : option io_error := match fs !! p with Some _ => None | None => Some NoSuchFile end.
Definition IsExist (e : io_error) : bool := false.
Class SelfSigned := GenerateSelfSignedCertificate : string -> Z -> option (string * string).
Definition createSelfSignedTlsCert `{SelfSigned} : M FS start_error unit :=
  let! fs := gets id in
  if match Stat fs defaultTlsCertFile with Some e => IsExist e | None => false end then ret tt
  else rethrow (fun _ => CertUnwritten)
    (let! cert := lift (of_option OtherIo (GenerateSelfSignedCertificate "zcloud" 7300)) in
     do! WriteFile defaultTlsCertFile cert.1 in WriteFile defaultTlsKeyFile cert.2).
(** The certificate the server runs with: its own, or the files of the configuration. *)
Definition tls_files `{SelfSigned} (c : ServerConf) : M FS start_error (string * string) :=
  if String.eqb c.(sv_TlsCertFile) "" && String.eqb c.(sv_TlsKeyFile) ""
  then do! createSelfSignedTlsCert in ret ("/tmp_tls_cert.crt", "/tmp_tls_key.key")
  else ret (c.(sv_TlsCertFile), c.(sv_TlsKeyFile)).

(** The authority that signs the certificates of registries: both files are read and tried. *)
Definition read_path (p : string) : path := JoinPath [] [p].
Definition loadRegistryCA `{SystemApp.SignedCertificates} (fs : FS) (c : RegistryCAConf) (random : nat) : result start_error SystemApp.CA :=
  match ReadFile fs (read_path c.(rc_CaCertPath)), ReadFile fs (read_path c.(rc_CaKeyPath)) with
  | Ok cert, Ok key =>
      match SystemApp.GenerateSignedCertificate "test.registry.zdns.cn" (SystemApp.mkCA cert key) random with
      | Some _ => Ok (SystemApp.mkCA cert key)
      | None => Err RegistryCa
      end
  | _, _ => Err RegistryCa
  end.

(** ** The bus of events *)

(** A resource, of which only the kind matters here, and what happened to it. *)
Inductive ResourceEvent (R : Type) := ResourceCreateEvent (r : R) | ResourceDeleteEvent (r : R) | ResourceUpdateEvent (old new : R).
Arguments ResourceCreateEvent {R}.
Arguments ResourceDeleteEvent {R}.
Arguments ResourceUpdateEvent {R}.
(** pubsub.PubSub of package cement. *)
Class PubSub (R B : Type) := {
  Pub : ResourceEvent R -> string -> B -> B;
  Sub : list string -> B -> nat * B;
  Unsub : nat -> B -> B;
  Shutdown : B -> B
}.
Section EventBus.
Context {R B : Type} `{!PubSub R B} (DefaultKindName : R -> string).
Definition PublishResourceCreateEvent (r : R) : B -> B := Pub (ResourceCreateEvent r) (DefaultKindName r).
Definition PublishResourceDeleteEvent (r : R) : B -> B := Pub (ResourceDeleteEvent r) (DefaultKindName r).
(** [None]: the kinds differ, which panics. *)
Definition PublishResourceUpdateEvent (old new : R) (b : B) : option B :=
  if String.eqb (DefaultKindName old) (DefaultKindName new) then Some (Pub (ResourceUpdateEvent old new) (DefaultKindName old) b) else None.
Definition SubscribeResourceEvent (kinds : list R) : B -> nat * B := Sub (R := R) (DefaultKindName <$> kinds).
Definition UnsubscribeResourceEvent (ch : nat) : B -> B := Unsub (R := R) ch.
Definition ShutdownBus : B -> B := Shutdown (R := R).
End EventBus.

(** ** Facts *)

(** A configuration that is accepted is that of a master, or of a slave without slaves of its
    own, and names an authority for registries. *)
Lemma LoadConfig_ok `{ConfigFile} path conf : LoadConfig path = Ok conf ->
  conf.(cf_Path) = path /\ (conf.(cf_DB).(db_Role) = Master \/ conf.(cf_DB).(db_Role) = Slave /\ conf.(cf_DB).(db_SlaveDBAddr) = "") /\
  conf.(cf_Registry).(rc_CaCertPath) <> "" /\ conf.(cf_Registry).(rc_CaKeyPath) <> "".
Proof.
  unfold LoadConfig, Reload. cbn [set_Path cf_Path]. destruct (configure_load _ _) as [c|]; [|done]. cbn [result_bind].
  destruct (Verify _) as [[]|] eqn:Hv; [|done]. intros [= <-]. split; [done|]. unfold Verify in Hv. cbn [set_Path cf_DB cf_Registry] in *.
  destruct (String.eqb_spec (db_Role (cf_DB c)) Master) as [->|]; cbn [negb andb] in Hv.
  - destruct (String.eqb_spec (rc_CaCertPath (cf_Registry c)) ""), (String.eqb_spec (rc_CaKeyPath (cf_Registry c)) ""); cbn in Hv; auto; done.
  - destruct (String.eqb_spec (db_Role (cf_DB c)) Slave) as [->|]; cbn [negb andb] in Hv; [|done].
    destruct (String.eqb_spec (db_SlaveDBAddr (cf_DB c)) ""); cbn in Hv; [|done].
    destruct (String.eqb_spec (rc_CaCertPath (cf_Registry c)) ""), (String.eqb_spec (rc_CaKeyPath (cf_Registry c)) ""); cbn in Hv; auto; done.
Qed.
(** The server starts only on a database of its version: an empty one gets it, one that has
    another is refused, and none that has entries is changed. *)
Lemma checkDBVersion_ok {DB} `{KvLaws DB} `{Json Version} (d d' : DB) r : checkDBVersion d = (r, d') ->
  (r = Ok tt -> forall k, is_Some (kv_content d' !! k) <-> k = DBVersion) /\
  ((r <> Ok tt \/ kv_content d <> ∅) -> kv_content d' = kv_content d).
Proof.
  intros Hr. unfold checkDBVersion in Hr. destruct (kv_begin d) as [[t|e] d1] eqn:Hb; [apply kv_begin_ok in Hb as [Hc Hbase]|apply kv_begin_err in Hb; by injection Hr as <- <-].
  destruct (tx_list t) as [[values|e] t1] eqn:Hl; pose proof (tx_list_law _ _ _ Hl) as [Hb1 Hl1]; [|injection Hr as <- <-; split; [done|]; intros _; rewrite tx_rollback_law; congruence].
  cbn in Hl1. destruct Hl1 as [Hc1 ->]. rewrite Hc in *.
  assert (Hback : kv_content (tx_rollback t1) = kv_content d) by (rewrite tx_rollback_law; congruence).
  destruct (decide (kv_content d = ∅)) as [He|Hne].
  - destruct (marshal _) as [value|]; [|injection Hr as <- <-; by split].
    destruct (tx_add DBVersion value t1) as [[[]|e] t2] eqn:Ha; pose proof (tx_add_law _ _ _ _ _ Ha) as [Hb2 Ha2];
      [|injection Hr as <- <-; split; [done|]; intros _; rewrite tx_rollback_law; congruence].
    destruct (tx_commit t2) as [[[]|e] d2] eqn:Hm; injection Hr as <- <-.
    + apply tx_commit_ok in Hm. cbn in Ha2. destruct Ha2 as [_ Ha2]. rewrite Hc1, He in Ha2. split; [|intros [?|?]; done]. intros _ k. rewrite Hm, Ha2.
      destruct (decide (k = DBVersion)) as [->|]; [rewrite lookup_insert_eq; by split|rewrite lookup_insert_ne by done; rewrite lookup_empty; split; [by intros []|done]].
    + apply tx_commit_err in Hm. split; [done|]. intros _. congruence.
  - destruct (wrong_versions (kv_content d)) as [|v l] eqn:Hw; injection Hr as <- <-; (split; [|done]); [|done]. intros _ k. rewrite Hback.
    assert (Hall : forall k, is_Some (kv_content d !! k) -> k = DBVersion).
    { intros k' [x Hx%elem_of_map_to_list]. destruct (decide (k' = DBVersion)) as [|Hn]; [done|].
      assert (k' ∈ wrong_versions (kv_content d)) as Hin; [|rewrite Hw in Hin; by apply elem_of_nil in Hin].
      apply list_elem_of_filter. split; [done|]. apply list_elem_of_fmap. by exists (k', x). }
    split; [apply Hall|]. intros ->. apply map_choose in Hne as (k' & x & Hx). rewrite <- (Hall k' ltac:(by exists x)). by exists x.
Qed.

(** ** Where the program differs *)

(** Whether the certificate is there is asked of an error that only says that it is not: every
    start makes a new one, which the browsers of yesterday do not know. *)
Lemma certificate_made_again `{SelfSigned} (fs : FS) old cert key : fs !! ([] : path) = Some Dir ->
  fs !! defaultTlsCertFile = Some (File old) -> fs !! defaultTlsKeyFile <> Some Dir -> GenerateSelfSignedCertificate "zcloud" 7300 = Some (cert, key) ->
  exists fs', createSelfSignedTlsCert fs = (Ok tt, fs') /\ fs' !! defaultTlsCertFile = Some (File cert).
Proof.
  intros Hroot Hcert Hkey Hgen. unfold createSelfSignedTlsCert. rewrite bind_gets. unfold id, Stat. rewrite Hcert.
  unfold rethrow, bind, lift, of_option. rewrite Hgen. unfold WriteFile at 1. cbn [fst snd removelast defaultTlsCertFile]. rewrite Hroot.
  fold defaultTlsCertFile. rewrite Hcert. unfold WriteFile. cbn [removelast defaultTlsKeyFile]. rewrite lookup_insert_ne by done. rewrite Hroot.
  fold defaultTlsKeyFile. rewrite lookup_insert_ne by done.
  destruct (fs !! defaultTlsKeyFile) as [[c|]|]; try done; (eexists; split; [reflexivity|]); by rewrite lookup_insert_ne, lookup_insert_eq by done.
Qed.
